(* ===== verification/_CoqProject ===== *)
-Q . S2P
Prelude.v
Memory.v
Riscv.v
State.v
Kmonad.v
Spinlock.v
CString.v
Kalloc.v
Vm.v
PageTable.v
UserMem.v
Uvm.v
AddressSpace.v
Freewalk.v
Proc.v
ProcPages.v
ProcSpec.v
CoYield.v
Coroutine.v
Sched.v
Machine.v
Fairness.v
Bytes.v
Sleeplock.v
Pipe.v
Uart.v
Printf.v
Console.v
Bio.v
Log.v
Fs.v
File.v
Virtio.v
Plic.v
Trap.v
ProcFs.v
Syscall.v
Sysproc.v
Exec.v
Sysfile.v
Usertrap.v
Main.v
Asm.v
AsmSpec.v
Start.v
Trampoline.v
Calm.v
Lru.v
BioSpec.v
Cache.v
LogSpec.v
Commit.v
Txn.v
FsTxn.v
Balloc.v
FileData.v
FileIO.v
Dinode.v
FileSpec.v
FileCrash.v
Dir.v
Mkfs.v
MkfsSpec.v
Path.v
Sbrk.v
ProcAlloc.v
Fork.v
PipeSpec.v
PrintSpec.v
UserSys.v
Ulib.v
Umalloc.v
UmallocSpec.v
Grep.v
Filters.v
Sh.v
ShParse.v
Programs.v
