(* ===== verification/Prelude.v ===== *)
(** * An xv6 kernel with memsize and co_yield: model and correctness

    The program is the RISC-V teaching kernel under src/kernel with two added system
    calls, memsize and co_yield.  The library translates its C code to executable
    definitions and proves theorems about them.

    ** How the code is represented

    - [State] holds the kernel's data: the process table, cpus, spinlocks, sleep locks, the
      inode, file and buffer tables, the log, the console, the uart, the disk driver's
      rings, control registers, physical memory as bytes and the disk as blocks, in one
      record [kstate].  Pointers into static tables are indices; page addresses are
      integers with 0 for the null pointer.
    - [Kmonad] is the monad the C functions are written in: [M A := kstate -> res A].  A
      result is a value and a state, a panic, a spin for ever on a held lock, an undefined
      access, exhausted fuel, or a context switch with the continuation of the suspended
      code.
    - Machine integers ([u8] to [u64], [i16], [i32] below) wrap explicitly where the C code
      can leave their range.

    ** Files and the code they model

    - [Memory], [Riscv]: physical memory, and riscv.h, memlayout.h.
    - [Spinlock]: spinlock.c, and in [Spinlock.Protocol] the interleavings of harts on the
      test-and-set instruction.
    - [CString], [Kalloc]: string.c, kalloc.c.
    - [Vm], [PageTable], [UserMem], [Uvm], [AddressSpace], [Freewalk]: vm.c; the page-table
      tree as an abstract map of pages, user memory as a partial function on addresses, and
      the pages that freeing a space gives back.
    - [Proc], [ProcSpec], [CoYield], [Coroutine], [Sched], [Machine], [Fairness], [ProcFs]:
      proc.c and swtch.S; the exchange of values by co_yield, a cpu that runs processes
      under the scheduler, and how soon each of them runs.
    - [ProcPages], [ProcAlloc], [Fork]: the page table of a process, allocproc and freeproc,
      and fork, with the pages each of them takes and gives back.
    - [Bytes]: structs laid out in byte arrays.
    - [Sleeplock], [Pipe], [Uart], [Printf], [Console]: the files of the same names.
    - [Bio], [Log], [Fs], [File]: bio.c, log.c, fs.c, file.c over the interface
      [DiskDriver]; [Virtio] is virtio_disk.c and gives its instance.
    - [Plic], [Trap], [Usertrap], [Syscall], [Sysproc], [Sysfile], [Exec], [Main]: plic.c,
      trap.c, syscall.c, sysproc.c, sysfile.c, exec.c, main.c.
    - [Asm], [AsmSpec]: entry.S, kernelvec.S, trampoline.S and swtch.S as instructions that a
      hart runs, and what they save and restore; [Start]: start.c on a hart; [Trampoline]:
      usertrapret and the trampoline as one crossing.
    - [Calm]: kernel code outside critical sections, on which the sequential theorems
      about the upper layers rest.
    - [Lru], [BioSpec], [Cache]: the buffer cache as a store of blocks, its linked list as a
      list in the order of use.
    - [LogSpec], [Commit], [Txn]: the log's header and blocks, one commit and its block
      writes, recovery from every prefix of them, sequences of transactions.
    - [FsTxn], [Balloc], [FileData], [FileIO], [Dinode], [FileSpec], [FileCrash]: the file
      layer inside a transaction: the block bitmap, the blocks and bytes of a file, inodes
      on disk, files as byte lists, and writes across crashes.
    - [Dir], [Path]: directories as maps from names, and the elements of a path.
    - [Mkfs], [MkfsSpec]: mkfs/mkfs.c, and the image it builds as the kernel's file system
      sees it.
    - [Sbrk], [PipeSpec], [PrintSpec]: the size of a process, pipes as queues, and the
      numbers the kernel prints.
    - [UserSys]: system calls as a user program sees them, the monad user programs are
      written in, and an interface [Stdio] of streams that filters are proved against.
    - [Umalloc], [UmallocSpec]: user/umalloc.c on the bytes of the program's memory, and its
      heap as free and live blocks, over an interface [Break] to sbrk.
    - [Ulib], [Grep], [Filters], [Sh], [ShParse], [Programs]: user/ulib.c and printf.c;
      grep.c; cat.c, wc.c and echo.c; sh.c and its parser's theorems; the other small
      programs and the generator of grind.c.

    ** What the theorems show

    - co_yield: the values two processes receive from one another, every outcome of a
      call, and that any mix of yield, co_yield, sleep, wakeup and kill under the scheduler
      is safe and starves no process.
    - Memory: pages are never handed out twice, kinit frees exactly the pages of the range,
      mappages maps exactly a range, copyin reads what copyout wrote, uvmcopy and uvmalloc
      are all or nothing, and an address space that is freed leaks no page.
    - File system: the cache returns what was last written and evicts the least recently
      used buffer; transactions are atomic and durable across a crash at any block write;
      balloc and bfree are exact; readi and writei refine operations on a list of bytes,
      and a write leaves the old or the new contents after a crash; directories refine
      maps, and paths split into their elements; the image of mkfs is well formed and
      holds the files it was given.
    - Processes: fork makes a copy of its caller in pages of its own or changes nothing, sbrk
      and memsize agree, and pipes refine bounded queues.
    - Registers: boot reaches main with the timer armed, the timer and interrupts in the
      kernel change no register of the interrupted code, traps and returns to user code
      carry the user's registers, and a context switch returns with the caller's.
    - Locks: mutual exclusion in every interleaving, nesting of interrupt disabling.
    - Strings: memmove with overlap, names compared as stored, bounds of safestrcpy, printed
      numbers that read back.
    - User programs: the shell's parser terminates and reads back every command; grep's
      matcher decides its pattern language and grep, cat and wc do what they promise on
      streams cut anywhere; atoi reads what printf printed; malloc hands out disjoint blocks,
      free takes them back and no memory is lost.

    ** Fuel

    Loops whose length the data determines take fuel that the callers compute from a bound
    (bytes of a range, entries of a table); the theorems give results, so they include that
    the fuel is enough.  Loops around sleep take the number of wakeups they may see from
    [Fuel].

    ** Not modelled

    The stubs' own instruction fetches and the TLB, the registers the compiler uses in start,
    and the assembled initcode.S, whose bytes are a constant.  ramdisk.c is not built.  The commands of the shell are trees, their
    allocation is taken to succeed.  usertests.c and the system-call loop of grind.c are not
    modelled: they only exercise the kernel. *)

From Stdlib Require Import ZArith Lia.
From stdpp Require Import base numbers list gmap strings.

#[local] Open Scope Z_scope.

(** ** Machine integers

    A C unsigned integer of width [w] is a [Z] in [0 .. 2^w - 1] and every
    operation that can leave that range is wrapped explicitly.  A C [int] is a
    [Z] in [-2^31 .. 2^31 - 1]; a conversion to [int] wraps two's complement. *)

Definition u8 (x : Z) : Z := x mod 256.
Definition u16 (x : Z) : Z := x mod 65536.
Definition u32 (x : Z) : Z := x mod 4294967296.
Definition u64 (x : Z) : Z := x mod 18446744073709551616.
Definition i16 (x : Z) : Z := (x + 32768) mod 65536 - 32768.
Definition i32 (x : Z) : Z := (x + 2147483648) mod 4294967296 - 2147483648.

(** The C truth value of an integer. *)
Definition truth (x : Z) : bool := negb (x =? 0).

(** [x & mask] tested for non-zero. *)
Definition has_bits (x mask : Z) : bool := truth (Z.land x mask).

(** ** Tactics *)

(** [lia] with the defining equations of every [div] and [mod] in sight. *)
Ltac zlia := Z.div_mod_to_equations; lia.

(** Case on the boolean comparisons that block a goal. *)
Ltac case_b :=
  match goal with
  | |- context [?a =? ?b] => destruct (Z.eqb_spec a b)
  | |- context [?a <? ?b] => destruct (Z.ltb_spec a b)
  | |- context [?a <=? ?b] => destruct (Z.leb_spec a b)
  end.

(** ** Facts on words *)

Lemma u32_range x : 0 <= u32 x < 4294967296.
Proof. apply Z.mod_pos_bound. lia. Qed.

Lemma u64_range x : 0 <= u64 x < 18446744073709551616.
Proof. apply Z.mod_pos_bound. lia. Qed.

Lemma u8_range x : 0 <= u8 x < 256.
Proof. apply Z.mod_pos_bound. lia. Qed.

Lemma u32_small x : 0 <= x < 4294967296 -> u32 x = x.
Proof. apply Z.mod_small. Qed.

Lemma u64_small x : 0 <= x < 18446744073709551616 -> u64 x = x.
Proof. apply Z.mod_small. Qed.

Lemma u8_small x : 0 <= x < 256 -> u8 x = x.
Proof. apply Z.mod_small. Qed.

Lemma i32_small x : -2147483648 <= x < 2147483648 -> i32 x = x.
Proof. intros. unfold i32. rewrite Z.mod_small; lia. Qed.

Lemma i32_u64 x : i32 (u64 x) = i32 x.
Proof. unfold i32, u64. zlia. Qed.

(** Adding inside a wrapped counter: wrapping early or late is the same. *)
Lemma u32_add_l x y : u32 (u32 x + y) = u32 (x + y).
Proof. unfold u32. apply Zplus_mod_idemp_l. Qed.

Lemma u32_sub_l x y : u32 (u32 x - y) = u32 (x - y).
Proof. unfold u32. apply Zminus_mod_idemp_l. Qed.

(** ** Little-endian byte strings *)

Fixpoint le_bytes (n : nat) (v : Z) : list Z :=
  match n with
  | O => []
  | S n' => v mod 256 :: le_bytes n' (v / 256)
  end.

Fixpoint le_val (l : list Z) : Z :=
  match l with
  | [] => 0
  | b :: l' => b + 256 * le_val l'
  end.

Definition is_byte (b : Z) : Prop := 0 <= b < 256.

Lemma length_le_bytes n v : length (le_bytes n v) = n.
Proof. revert v; induction n; simpl; auto. Qed.

Lemma le_bytes_range n v : Forall is_byte (le_bytes n v).
Proof.
  revert v; induction n; simpl; intros; constructor; auto.
  apply Z.mod_pos_bound. lia.
Qed.

Lemma le_val_bytes n v : le_val (le_bytes n v) = v mod 256 ^ Z.of_nat n.
Proof.
  revert v; induction n as [|n IH]; intros v; cbn [le_bytes le_val].
  - rewrite Z.mod_1_r. reflexivity.
  - rewrite IH, Nat2Z.inj_succ, Z.pow_succ_r, Z.rem_mul_r; lia.
Qed.

Lemma le_val_range l :
  Forall is_byte l -> 0 <= le_val l < 256 ^ Z.of_nat (length l).
Proof.
  induction 1 as [|b l Hb Hl IH]; [simpl; lia|].
  cbn [le_val length]. rewrite Nat2Z.inj_succ, Z.pow_succ_r by lia.
  unfold is_byte in Hb. nia.
Qed.

Lemma le_bytes_val l :
  Forall is_byte l -> le_bytes (length l) (le_val l) = l.
Proof.
  induction 1 as [|b l Hb Hl IH]; [reflexivity|].
  cbn [le_val length le_bytes]. unfold is_byte in Hb.
  rewrite (Z.mul_comm 256), Z_mod_plus_full, Z.mod_small, Z.div_add by lia.
  rewrite Z.div_small, Z.add_0_l, IH by lia. reflexivity.
Qed.

Lemma le_val_bytes_8 v : le_val (le_bytes 8 v) = u64 v.
Proof. rewrite le_val_bytes. reflexivity. Qed.

Lemma le_val_bytes_4 v : le_val (le_bytes 4 v) = u32 v.
Proof. rewrite le_val_bytes. reflexivity. Qed.

Lemma le_val_bytes_2 v : le_val (le_bytes 2 v) = u16 v.
Proof. rewrite le_val_bytes. reflexivity. Qed.

(** ** Tables *)

Lemma alter_ext_at `{Inhabited A} (f g : A -> A) i (l : list A) :
  f (l !!! i) = g (l !!! i) -> alter f i l = alter g i l.
Proof.
  intros E. apply list_alter_ext; [|reflexivity].
  intros x Hx. rewrite (list_lookup_total_correct _ _ _ Hx) in E. exact E.
Qed.

Lemma alter_id_at `{Inhabited A} (f : A -> A) i (l : list A) :
  f (l !!! i) = l !!! i -> alter f i l = l.
Proof.
  intros E. rewrite (alter_ext_at f id i l E). apply list_alter_id. reflexivity.
Qed.

Lemma elem_of_drop_sub {A} n (l : list A) x : x ∈ drop n l -> x ∈ l.
Proof. intros H. rewrite <- (take_drop n l). apply elem_of_app. by right. Qed.
