(* ===== verification/Memory.v ===== *)
(** * Physical memory

    RAM as a finite map from physical byte addresses to bytes.  A byte that was
    never written reads as zero.  The kernel runs on a direct map (kvmmake in
    kernel/vm.c), so a kernel pointer and the physical address it denotes are the
    same number.  64- and 32-bit accesses are little-endian, as on RISC-V. *)

From S2P Require Import Prelude.
From Stdlib Require Import ZArith Lia.
From stdpp Require Import base numbers list gmap.

#[local] Open Scope Z_scope.

Abbreviation memory := (gmap Z Z).

Definition mget (m : memory) (a : Z) : Z := default 0 (m !! a).

Fixpoint mread (m : memory) (a : Z) (n : nat) : list Z :=
  match n with
  | O => []
  | S n' => mget m a :: mread m (a + 1) n'
  end.

Fixpoint mwrite (m : memory) (a : Z) (l : list Z) : memory :=
  match l with
  | [] => m
  | b :: l' => mwrite (<[a:=b]> m) (a + 1) l'
  end.

Definition mld64 (m : memory) (a : Z) : Z := le_val (mread m a 8).
Definition mst64 (m : memory) (a v : Z) : memory := mwrite m a (le_bytes 8 v).
Definition mld32 (m : memory) (a : Z) : Z := le_val (mread m a 4).
Definition mst32 (m : memory) (a v : Z) : memory := mwrite m a (le_bytes 4 v).

(** Every stored byte is a byte. *)
Definition mem_bytes (m : memory) : Prop := forall a, is_byte (mget m a).

(** Two memories agree on a predicate of addresses. *)
Definition mem_same (P : Z -> Prop) (m m' : memory) : Prop :=
  forall a, P a -> mget m' a = mget m a.

(** ** Bytes *)

Lemma mget_insert m a b x : mget (<[a:=b]> m) x = if x =? a then b else mget m x.
Proof.
  unfold mget. rewrite lookup_insert. case_decide; case_b; simpl; congruence.
Qed.

Lemma mget_mwrite m a l x :
  mget (mwrite m a l) x =
    if (a <=? x) && (x <? a + Z.of_nat (length l))
    then nth (Z.to_nat (x - a)) l 0 else mget m x.
Proof.
  revert m a; induction l as [|b l IH]; intros m a.
  - cbn [mwrite length]. destruct (Z.leb_spec a x), (Z.ltb_spec x (a + Z.of_nat 0)); simpl; try lia; auto.
  - cbn [mwrite length]. rewrite IH, mget_insert, Nat2Z.inj_succ.
    destruct (Z.leb_spec (a + 1) x), (Z.ltb_spec x (a + 1 + Z.of_nat (length l))),
      (Z.leb_spec a x), (Z.ltb_spec x (a + Z.succ (Z.of_nat (length l)))),
      (Z.eqb_spec x a); try lia; cbn [andb]; auto.
    + replace (Z.to_nat (x - a)) with (S (Z.to_nat (x - (a + 1)))) by lia. reflexivity.
    + subst. rewrite Z.sub_diag. reflexivity.
Qed.

Lemma mget_mwrite_out m a l x :
  x < a \/ a + Z.of_nat (length l) <= x -> mget (mwrite m a l) x = mget m x.
Proof.
  intros H. rewrite mget_mwrite.
  destruct (Z.leb_spec a x), (Z.ltb_spec x (a + Z.of_nat (length l))); simpl; lia || auto.
Qed.

Lemma length_mread m a n : length (mread m a n) = n.
Proof. revert a; induction n; simpl; auto. Qed.

Lemma mread_ext m m' a n :
  (forall x, a <= x < a + Z.of_nat n -> mget m' x = mget m x) ->
  mread m' a n = mread m a n.
Proof.
  revert a; induction n as [|n IH]; intros a H; [reflexivity|].
  cbn [mread]. rewrite (H a), IH; auto; [|lia]. intros; apply H; lia.
Qed.

Lemma mread_mwrite_out m a l b n :
  b + Z.of_nat n <= a \/ a + Z.of_nat (length l) <= b ->
  mread (mwrite m a l) b n = mread m b n.
Proof. intros H. apply mread_ext. intros. apply mget_mwrite_out. lia. Qed.

Lemma mread_mwrite_same m a l : mread (mwrite m a l) a (length l) = l.
Proof.
  revert m a; induction l as [|b l IH]; intros m a; [reflexivity|].
  cbn [mwrite length mread]. rewrite IH, mget_mwrite_out by lia.
  rewrite mget_insert, Z.eqb_refl. reflexivity.
Qed.

Lemma lookup_mread m a n i :
  (i < n)%nat -> mread m a n !! i = Some (mget m (a + Z.of_nat i)).
Proof.
  revert a i; induction n as [|n IH]; intros a i H; [lia|].
  cbn [mread]. destruct i as [|i].
  - rewrite Z.add_0_r. reflexivity.
  - cbn [lookup list_lookup]. change (list_lookup i (mread m (a + 1) n)) with (mread m (a + 1) n !! i).
    rewrite IH by lia. do 2 f_equal. lia.
Qed.

Lemma mread_bytes m a n : mem_bytes m -> Forall is_byte (mread m a n).
Proof. intros H; revert a; induction n; simpl; constructor; auto. Qed.

Lemma mwrite_bytes m a l : mem_bytes m -> Forall is_byte l -> mem_bytes (mwrite m a l).
Proof.
  intros Hm Hl; revert m a Hm; induction Hl; intros m a Hm; simpl; auto.
  apply IHHl. intros x'. rewrite mget_insert. case_b; auto.
Qed.

Lemma mem_bytes_empty : mem_bytes ∅.
Proof. intros a. unfold mget, is_byte. rewrite lookup_empty. simpl. lia. Qed.

Lemma mread_app m a n k : mread m a (n + k) = mread m a n ++ mread m (a + Z.of_nat n) k.
Proof.
  revert a; induction n as [|n IH]; intros a.
  - cbn [mread app Nat.add]. rewrite Z.add_0_r. reflexivity.
  - cbn [Nat.add mread app]. rewrite IH. do 3 f_equal. lia.
Qed.

Lemma mwrite_app m a l l' :
  mwrite m a (l ++ l') = mwrite (mwrite m a l) (a + Z.of_nat (length l)) l'.
Proof.
  revert m a; induction l as [|b l IH]; intros m a.
  - cbn [app mwrite length]. rewrite Z.add_0_r. reflexivity.
  - cbn [app mwrite length]. rewrite IH. f_equal. lia.
Qed.

Lemma lookup_mwrite_out m a l x :
  x < a \/ a + Z.of_nat (length l) <= x -> mwrite m a l !! x = m !! x.
Proof.
  revert m a; induction l as [|b l IH]; intros m a; [done|]. cbn [mwrite length]. intros H.
  rewrite IH by lia. apply lookup_insert_ne. lia.
Qed.

Lemma lookup_mwrite_in m m' a l x :
  a <= x < a + Z.of_nat (length l) -> mwrite m a l !! x = mwrite m' a l !! x.
Proof.
  revert m m' a; induction l as [|b l IH]; intros m m' a; [cbn; lia|]. cbn [mwrite length]. intros H.
  destruct (decide (x = a)) as [->|N]; [|apply IH; lia].
  rewrite !lookup_mwrite_out by lia. by rewrite !lookup_insert_eq.
Qed.

(** Writes to disjoint ranges commute. *)
Lemma mwrite_comm m a l b l' :
  a + Z.of_nat (length l) <= b \/ b + Z.of_nat (length l') <= a ->
  mwrite (mwrite m a l) b l' = mwrite (mwrite m b l') a l.
Proof.
  intros H. apply map_eq. intros x.
  destruct (decide (b <= x < b + Z.of_nat (length l'))).
  - rewrite (lookup_mwrite_in _ m) by done. by rewrite (lookup_mwrite_out (mwrite m b l')) by lia.
  - rewrite (lookup_mwrite_out (mwrite m a l)) by lia. destruct (decide (a <= x < a + Z.of_nat (length l))).
    + by apply lookup_mwrite_in.
    + by rewrite !lookup_mwrite_out by lia.
Qed.

(** ** Words *)

Lemma mld64_ext m m' a :
  (forall x, a <= x < a + 8 -> mget m' x = mget m x) -> mld64 m' a = mld64 m a.
Proof. intros H. unfold mld64. f_equal. apply mread_ext. auto. Qed.

Lemma mld64_shift m m' a b :
  (forall k, 0 <= k < 8 -> mget m' (b + k) = mget m (a + k)) -> mld64 m' b = mld64 m a.
Proof.
  intros H. unfold mld64. f_equal. apply list_eq. intros j. destruct (decide (j < 8)%nat) as [Hj|Hj].
  - rewrite !lookup_mread by done. f_equal. apply H. lia.
  - rewrite !lookup_ge_None_2; rewrite ?length_mread; lia || done.
Qed.

Lemma mld32_ext m m' a :
  (forall x, a <= x < a + 4 -> mget m' x = mget m x) -> mld32 m' a = mld32 m a.
Proof. intros H. unfold mld32. f_equal. apply mread_ext. auto. Qed.

Lemma mld64_mst64_same m a v : mld64 (mst64 m a v) a = u64 v.
Proof.
  unfold mld64, mst64. rewrite <- (length_le_bytes 8 v) at 2.
  rewrite mread_mwrite_same. apply le_val_bytes_8.
Qed.

Lemma mld32_mst32_same m a v : mld32 (mst32 m a v) a = u32 v.
Proof.
  unfold mld32, mst32. rewrite <- (length_le_bytes 4 v) at 2.
  rewrite mread_mwrite_same. apply le_val_bytes_4.
Qed.

Lemma mget_mst64_out m a v x : x < a \/ a + 8 <= x -> mget (mst64 m a v) x = mget m x.
Proof. intros H. apply mget_mwrite_out. rewrite length_le_bytes. lia. Qed.

Lemma mget_mst32_out m a v x : x < a \/ a + 4 <= x -> mget (mst32 m a v) x = mget m x.
Proof. intros H. apply mget_mwrite_out. rewrite length_le_bytes. lia. Qed.

Lemma mld64_mst64_out m a v b : b + 8 <= a \/ a + 8 <= b -> mld64 (mst64 m a v) b = mld64 m b.
Proof. intros H. apply mld64_ext. intros. apply mget_mst64_out. lia. Qed.

Lemma mld64_range m a : mem_bytes m -> 0 <= mld64 m a < 18446744073709551616.
Proof.
  intros H. unfold mld64. pose proof (le_val_range (mread m a 8) (mread_bytes _ _ _ H)) as R.
  rewrite length_mread in R. exact R.
Qed.

Lemma mst64_mwrite m a v : mst64 m a v = mwrite m a (le_bytes 8 v).
Proof. reflexivity. Qed.

Lemma mst64_bytes m a v : mem_bytes m -> mem_bytes (mst64 m a v).
Proof. intros. apply mwrite_bytes; auto. apply le_bytes_range. Qed.

Lemma mst32_bytes m a v : mem_bytes m -> mem_bytes (mst32 m a v).
Proof. intros. apply mwrite_bytes; auto. apply le_bytes_range. Qed.

#[global] Opaque mread mwrite mld64 mst64 mld32 mst32.

Create HintDb mem_db.
#[export] Hint Resolve mst64_bytes mst32_bytes mwrite_bytes mem_bytes_empty : mem_db.
