(* ===== verification/Riscv.v ===== *)
(** * Address and page-table-entry arithmetic (kernel/riscv.h, kernel/memlayout.h)

    The macros are written with the bit operations of the source; the lemmas give their
    arithmetic meaning. *)

From S2P Require Import Prelude.
From Stdlib Require Import ZArith Lia.
From stdpp Require Import base numbers.

#[local] Open Scope Z_scope.

Definition PGSIZE : Z := 4096.
Definition PGSHIFT : Z := 12.

Definition PGROUNDUP (sz : Z) : Z := Z.land (u64 (sz + PGSIZE - 1)) (Z.lnot (PGSIZE - 1)).
Definition PGROUNDDOWN (a : Z) : Z := Z.land a (Z.lnot (PGSIZE - 1)).

Definition PTE_V : Z := Z.shiftl 1 0.
Definition PTE_R : Z := Z.shiftl 1 1.
Definition PTE_W : Z := Z.shiftl 1 2.
Definition PTE_X : Z := Z.shiftl 1 3.
Definition PTE_U : Z := Z.shiftl 1 4.

Definition PA2PTE (pa : Z) : Z := u64 (Z.shiftl (Z.shiftr pa 12) 10).
Definition PTE2PA (pte : Z) : Z := u64 (Z.shiftl (Z.shiftr pte 10) 12).
Definition PTE_FLAGS (pte : Z) : Z := Z.land pte 0x3FF.

Definition PXMASK : Z := 0x1FF.
Definition PXSHIFT (level : Z) : Z := PGSHIFT + 9 * level.
Definition PX (level va : Z) : Z := Z.land (Z.shiftr va (PXSHIFT level)) PXMASK.

Definition MAXVA : Z := Z.shiftl 1 (9 + 9 + 9 + 12 - 1).

Definition SATP_SV39 : Z := Z.shiftl 8 60.
Definition MAKE_SATP (pagetable : Z) : Z := Z.lor SATP_SV39 (Z.shiftr pagetable 12).

Definition UART0 : Z := 0x10000000.
Definition UART0_IRQ : Z := 10.
Definition VIRTIO0 : Z := 0x10001000.
Definition VIRTIO0_IRQ : Z := 1.
Definition PLIC : Z := 0x0c000000.
Definition KERNBASE : Z := 0x80000000.
Definition PHYSTOP : Z := KERNBASE + 128 * 1024 * 1024.
Definition TRAMPOLINE : Z := MAXVA - PGSIZE.
Definition KSTACK (p : Z) : Z := TRAMPOLINE - (p + 1) * 2 * PGSIZE.
Definition TRAPFRAME : Z := TRAMPOLINE - PGSIZE.

(** ** Meaning of the macros *)

Lemma land_lnot_ones a n : 0 <= n -> Z.land a (Z.lnot (Z.ones n)) = a - a mod 2 ^ n.
Proof.
  intros Hn. rewrite <- Z.ldiff_land, Z.ldiff_ones_r by done.
  rewrite Z.shiftl_mul_pow2, Z.shiftr_div_pow2 by done.
  rewrite (Z.div_mod a (2 ^ n)) at 2 by (apply Z.pow_nonzero; lia). lia.
Qed.

Lemma PGROUNDDOWN_eq a : PGROUNDDOWN a = a - a mod 4096.
Proof. unfold PGROUNDDOWN. change (PGSIZE - 1) with (Z.ones 12). by rewrite land_lnot_ones. Qed.

Lemma PGROUNDUP_eq sz :
  0 <= sz <= 18446744073709551616 - 4096 -> PGROUNDUP sz = (sz + 4095) / 4096 * 4096.
Proof.
  intros H. unfold PGROUNDUP, PGSIZE. rewrite u64_small by lia.
  change (4096 - 1) with (Z.ones 12). rewrite land_lnot_ones by lia.
  change (2 ^ 12) with 4096. replace (sz + 4096 - 1) with (sz + 4095) by lia. zlia.
Qed.

Lemma PX_eq level va : 0 <= level -> PX level va = (va / 2 ^ (12 + 9 * level)) mod 512.
Proof.
  intros H. unfold PX, PXSHIFT, PGSHIFT, PXMASK. change 0x1FF with (Z.ones 9).
  rewrite Z.land_ones, Z.shiftr_div_pow2 by lia. reflexivity.
Qed.

Lemma PX_range level va : 0 <= level -> 0 <= PX level va < 512.
Proof. intros H. rewrite PX_eq by done. apply Z.mod_pos_bound. lia. Qed.

Lemma PTE_FLAGS_eq pte : PTE_FLAGS pte = pte mod 1024.
Proof. unfold PTE_FLAGS. change 0x3FF with (Z.ones 10). by rewrite Z.land_ones. Qed.

Lemma PTE2PA_eq pte : PTE2PA pte = (pte / 1024 * 4096) mod 18446744073709551616.
Proof. unfold PTE2PA, u64. by rewrite Z.shiftl_mul_pow2, Z.shiftr_div_pow2. Qed.

(** A physical address that a PTE can hold. *)
Definition pa_ok (pa : Z) : Prop := 0 <= pa < 2 ^ 56 /\ pa mod 4096 = 0.

Lemma PA2PTE_eq pa : pa_ok pa -> PA2PTE pa = pa / 4.
Proof.
  intros [H M]. unfold PA2PTE. rewrite Z.shiftl_mul_pow2, Z.shiftr_div_pow2 by lia.
  change (2 ^ 12) with 4096. change (2 ^ 10) with 1024.
  rewrite u64_small by zlia. zlia.
Qed.

(** The low ten bits of PA2PTE are free for flags. *)
Lemma lor_low a b n : 0 <= n -> 0 <= b < 2 ^ n -> a mod 2 ^ n = 0 -> Z.lor a b = a + b.
Proof.
  intros Hn Hb Ha.
  assert (L : Z.land a b = 0).
  { apply Z.bits_inj'. intros i Hi. rewrite Z.land_spec, Z.bits_0.
    destruct (Z.ltb_spec i n).
    - rewrite <- (Z.mod_pow2_bits_low a n i), Ha, Z.bits_0 by done. reflexivity.
    - rewrite <- (Z.mod_small b (2 ^ n)), Z.mod_pow2_bits_high by lia. apply andb_false_r. }
  rewrite Z.add_nocarry_lxor, Z.lxor_lor by done. reflexivity.
Qed.

Lemma PTE2PA_PA2PTE pa flags :
  pa_ok pa -> 0 <= flags < 1024 -> PTE2PA (Z.lor (PA2PTE pa) flags) = pa.
Proof.
  intros H F. pose proof H as [R M]. rewrite PA2PTE_eq by done.
  rewrite (lor_low _ _ 10) by zlia. rewrite PTE2PA_eq. change (2 ^ 56) with 72057594037927936 in R.
  rewrite Z.mod_small; zlia.
Qed.

Lemma PTE_FLAGS_PA2PTE pa flags :
  pa_ok pa -> 0 <= flags < 1024 -> PTE_FLAGS (Z.lor (PA2PTE pa) flags) = flags.
Proof.
  intros H F. pose proof H as [R M]. rewrite PA2PTE_eq by done.
  rewrite (lor_low _ _ 10) by zlia. rewrite PTE_FLAGS_eq. zlia.
Qed.

(** Whether bit [n] of a word is set, as the masks PTE_V, PTE_U ... test it. *)
Lemma has_bits_shiftl x n : 0 <= n -> has_bits x (Z.shiftl 1 n) = Z.testbit x n.
Proof.
  intros Hn. unfold has_bits, truth. rewrite Z.shiftl_1_l.
  destruct (Z.testbit x n) eqn:T.
  - destruct (Z.eqb_spec (Z.land x (2 ^ n)) 0) as [E|]; [|done]. exfalso.
    pose proof (Z.bits_0 n) as B. rewrite <- E, Z.land_spec, T, Z.pow2_bits_true in B; done.
  - replace (Z.land x (2 ^ n)) with 0; [done|]. symmetry. apply Z.bits_inj'. intros i Hi.
    rewrite Z.land_spec, Z.bits_0. destruct (decide (i = n)) as [->|N].
    + rewrite T. done.
    + rewrite Z.pow2_bits_false by done. apply andb_false_r.
Qed.

Lemma testbit_flags x n : 0 <= n < 10 -> Z.testbit x n = Z.testbit (PTE_FLAGS x) n.
Proof.
  intros H. unfold PTE_FLAGS. change 0x3FF with (Z.ones 10).
  rewrite Z.land_spec, Z.ones_spec_low by done. by rewrite andb_true_r.
Qed.

Lemma lor_bound a b n : 0 <= n -> 0 <= a < 2 ^ n -> 0 <= b < 2 ^ n -> 0 <= Z.lor a b < 2 ^ n.
Proof.
  intros Hn Ha Hb. replace (Z.lor a b) with (Z.lor a b mod 2 ^ n).
  - apply Z.mod_pos_bound. lia.
  - apply Z.bits_inj'. intros i Hi. destruct (Z.ltb_spec i n).
    + by apply Z.mod_pow2_bits_low.
    + rewrite Z.mod_pow2_bits_high, Z.lor_spec by lia.
      rewrite <- (Z.mod_small a (2 ^ n)), <- (Z.mod_small b (2 ^ n)) by done.
      by rewrite !Z.mod_pow2_bits_high by lia.
Qed.

(** What a PTE built from an address and flags holds. *)
Lemma pte_bits pa flags n :
  pa_ok pa -> 0 <= flags < 1024 -> 0 <= n < 10 ->
  has_bits (Z.lor (PA2PTE pa) flags) (Z.shiftl 1 n) = Z.testbit flags n.
Proof.
  intros Hp Hf Hn. rewrite has_bits_shiftl by lia. rewrite testbit_flags by done.
  by rewrite PTE_FLAGS_PA2PTE.
Qed.

(** An entry that points to a table has none of the permission bits. *)
Lemma plain_pte pa : pa_ok pa -> has_bits (Z.lor (PA2PTE pa) PTE_V) (Z.lor (Z.lor PTE_R PTE_W) PTE_X) = false.
Proof.
  intros H. unfold has_bits. replace (Z.lor (Z.lor PTE_R PTE_W) PTE_X) with (Z.land 0x3FF 14) by reflexivity.
  rewrite Z.land_assoc. change (Z.land ?x 0x3FF) with (PTE_FLAGS x). rewrite PTE_FLAGS_PA2PTE by (done || (split; [done|reflexivity])). reflexivity.
Qed.

Lemma pte_u64 pa flags :
  pa_ok pa -> 0 <= flags < 1024 -> u64 (Z.lor (PA2PTE pa) flags) = Z.lor (PA2PTE pa) flags.
Proof.
  intros H F. pose proof H as [R M]. rewrite PA2PTE_eq by done.
  rewrite (lor_low _ _ 10) by zlia. change (2 ^ 56) with 72057594037927936 in R.
  apply u64_small. zlia.
Qed.

#[global] Opaque PA2PTE PTE2PA PTE_FLAGS PX PGROUNDUP PGROUNDDOWN.
