(* ===== verification/State.v ===== *)
(** * Kernel data

    The constants of kernel/param.h, kernel/fs.h and kernel/memlayout.h, the C
    structs of the kernel's headers as records, and the kernel's global variables
    gathered in one record [kstate].  A pointer into a static table (struct proc,
    struct file, struct inode, struct buf) is the position of the element; NULL is
    [None].  A pointer to a page from kalloc is its address; NULL is 0.  Objects that
    live in such a page (struct trapframe, struct pipe, page tables) are bytes of
    [k_mem]. *)

From S2P Require Import Prelude Memory.
From Stdlib Require Import ZArith Lia.
From stdpp Require Import base numbers list gmap countable.

#[local] Open Scope Z_scope.

(** ** Constants *)

Definition NPROC : nat := 64.
Definition NCPU : nat := 8.
Definition NOFILE : nat := 16.
Definition NFILE : nat := 100.
Definition NINODE : nat := 50.
Definition NDEV : Z := 10.
Definition ROOTDEV : Z := 1.
Definition MAXARG : nat := 32.
Definition MAXOPBLOCKS : Z := 10.
Definition LOGSIZE : Z := MAXOPBLOCKS * 3.
Definition NBUF : nat := Z.to_nat (MAXOPBLOCKS * 3).
Definition FSSIZE : Z := 2000.
Definition MAXPATH : Z := 128.

Definition ROOTINO : Z := 1.
Definition BSIZE : Z := 1024.
Definition FSMAGIC : Z := 0x10203040.
Definition NDIRECT : Z := 12.
Definition NINDIRECT : Z := BSIZE / 4.
Definition MAXFILE : Z := NDIRECT + NINDIRECT.
Definition DIRSIZ : Z := 14.
Definition T_DIR : Z := 1.
Definition T_FILE : Z := 2.
Definition T_DEVICE : Z := 3.

(** ** Enumerations and names *)

(** enum procstate of kernel/proc.h. *)
Inductive procstate := UNUSED | USED | SLEEPING | RUNNABLE | RUNNING | ZOMBIE.

(** The type field of struct file. *)
Inductive filetype := FD_NONE | FD_PIPE | FD_INODE | FD_DEVICE.

(** The sleep locks: one per cache buffer and one per table inode. *)
Inductive slid := SL_buf (i : nat) | SL_inode (i : nat).

(** The spinlocks, named by the variable or object that embeds them. *)
Inductive lockid :=
  | L_pid | L_wait | L_kmem | L_ticks | L_ftable | L_itable | L_bcache | L_log
  | L_cons | L_uart | L_pr | L_vdisk
  | L_proc (i : nat) | L_pipe (pa : Z) | L_sleep (sl : slid).

(** Sleep channels.  The kernel sleeps on the address of an object; distinct objects
    have distinct addresses. *)
Inductive chan :=
  | CH_null
  | CH_proc (i : nat)          (* wait: the struct proc *)
  | CH_context (i : nat)       (* co_yield: &p->context *)
  | CH_ticks | CH_log | CH_cons_r | CH_uart_tx_r | CH_disk_free
  | CH_sleeplock (sl : slid)
  | CH_buf (i : nat)
  | CH_pipe_nread (pa : Z) | CH_pipe_nwrite (pa : Z).

(** The return address a saved context holds: nothing yet, the entry of forkret, or
    the point after the swtch call that saved it. *)
Inductive codeptr := ra_none | ra_forkret | ra_saved.

(** The two kinds of saved contexts swtch moves between: the scheduler's of a cpu and
    a process's. *)
Inductive ctx := CtxCpu (c : nat) | CtxProc (i : nat).

(** The functions a devsw entry points to. *)
Inductive devfn := DEV_none | DEV_console.

(** What a virtio descriptor's address points to: a command header disk.ops[i], the data
    of a cache buffer, or a status byte disk.info[i].status. *)
Inductive dma := DMA_null | DMA_op (i : nat) | DMA_data (b : nat) | DMA_status (i : nat).

#[global] Instance procstate_eq : EqDecision procstate.
Proof. solve_decision. Defined.
#[global] Instance filetype_eq : EqDecision filetype.
Proof. solve_decision. Defined.
#[global] Instance slid_eq : EqDecision slid.
Proof. solve_decision. Defined.
#[global] Instance lockid_eq : EqDecision lockid.
Proof. solve_decision. Defined.
#[global] Instance chan_eq : EqDecision chan.
Proof. solve_decision. Defined.
#[global] Instance devfn_eq : EqDecision devfn.
Proof. solve_decision. Defined.
#[global] Instance dma_eq : EqDecision dma.
Proof. solve_decision. Defined.
#[global] Instance ctx_eq : EqDecision ctx.
Proof. solve_decision. Defined.

Definition slid_code (x : slid) : nat + nat :=
  match x with SL_buf i => inl i | SL_inode i => inr i end.
Definition slid_decode (x : nat + nat) : slid :=
  match x with inl i => SL_buf i | inr i => SL_inode i end.

#[global] Instance slid_countable : Countable slid.
Proof. apply (inj_countable' slid_code slid_decode). by intros []. Defined.

Definition lockid_code (l : lockid) : (nat + Z) + (nat + slid) :=
  match l with
  | L_pid => inl (inl 0%nat) | L_wait => inl (inl 1%nat) | L_kmem => inl (inl 2%nat)
  | L_ticks => inl (inl 3%nat) | L_ftable => inl (inl 4%nat) | L_itable => inl (inl 5%nat)
  | L_bcache => inl (inl 6%nat) | L_log => inl (inl 7%nat) | L_cons => inl (inl 8%nat)
  | L_uart => inl (inl 9%nat) | L_pr => inl (inl 10%nat) | L_vdisk => inl (inl 11%nat)
  | L_pipe pa => inl (inr pa) | L_proc i => inr (inl i) | L_sleep sl => inr (inr sl)
  end.
Definition lockid_decode (x : (nat + Z) + (nat + slid)) : lockid :=
  match x with
  | inl (inl n) =>
      nth n [L_pid; L_wait; L_kmem; L_ticks; L_ftable; L_itable; L_bcache; L_log;
             L_cons; L_uart; L_pr; L_vdisk] L_pid
  | inl (inr pa) => L_pipe pa | inr (inl i) => L_proc i | inr (inr sl) => L_sleep sl
  end.

#[global] Instance lockid_countable : Countable lockid.
Proof. apply (inj_countable' lockid_code lockid_decode). by intros []. Defined.

(** ** Structs *)

(** struct cpu of kernel/proc.h (the saved scheduler context is the resumption held in the
    scheduler frame, see [res]). *)
Record cpu := mkcpu {
  c_proc : option nat;
  c_noff : Z;
  c_intena : bool }.

(** struct spinlock of kernel/spinlock.h, without its debugging name. *)
Record spinlock := mkspinlock {
  lk_locked : Z;
  lk_cpu : option nat }.

(** struct sleeplock of kernel/sleeplock.h; its inner spinlock is [L_sleep]. *)
Record sleeplock := mksleeplock {
  sl_locked : Z;
  sl_pid : Z }.

(** struct context of kernel/proc.h: where the saved kernel thread resumes, and its stack
    pointer. *)
Record context := mkcontext {
  ctx_ra : codeptr;
  ctx_sp : Z }.

(** struct proc of kernel/proc.h; its lock is [L_proc]. *)
Record proc := mkproc {
  p_state : procstate;
  p_chan : chan;
  p_killed : Z;
  p_xstate : Z;
  p_pid : Z;
  p_parent : option nat;
  p_kstack : Z;
  p_sz : Z;
  p_pagetable : Z;
  p_trapframe : Z;
  p_context : context;
  p_ofile : list (option nat);
  p_cwd : option nat;
  p_name : list Z }.

(** struct file of kernel/file.h. *)
Record file := mkfile {
  f_type : filetype;
  f_ref : Z;
  f_readable : Z;
  f_writable : Z;
  f_pipe : Z;
  f_ip : option nat;
  f_off : Z;
  f_major : Z }.

(** struct inode of kernel/file.h; its sleep lock is [SL_inode]. *)
Record inode := mkinode {
  i_dev : Z;
  i_inum : Z;
  i_ref : Z;
  i_valid : Z;
  i_type : Z;
  i_major : Z;
  i_minor : Z;
  i_nlink : Z;
  i_size : Z;
  i_addrs : list Z }.

(** struct buf of kernel/buf.h; its sleep lock is [SL_buf]; prev and next are positions in the
    cache array, [NBUF] being bcache.head. *)
Record buf := mkbuf {
  b_valid : Z;
  b_disk : Z;
  b_dev : Z;
  b_blockno : Z;
  b_refcnt : Z;
  b_prev : nat;
  b_next : nat;
  b_data : list Z }.

(** struct superblock of kernel/fs.h. *)
Record superblock := mksuperblock {
  sb_magic : Z;
  sb_size : Z;
  sb_nblocks : Z;
  sb_ninodes : Z;
  sb_nlog : Z;
  sb_logstart : Z;
  sb_inodestart : Z;
  sb_bmapstart : Z }.

(** struct log of kernel/log.c with its struct logheader [lh_n], [lh_block]; its lock is
    [L_log]. *)
Record logstate := mklog {
  lg_start : Z;
  lg_size : Z;
  lg_outstanding : Z;
  lg_committing : Z;
  lg_dev : Z;
  lh_n : Z;
  lh_block : list Z }.

(** the struct cons of kernel/console.c; its lock is [L_cons]. *)
Record consstate := mkcons {
  cons_buf : list Z;
  cons_r : Z;
  cons_w : Z;
  cons_e : Z }.

(** the transmit buffer of kernel/uart.c, and the device: [uart_out] are the bytes handed to the
    THR register, last first; [uart_lsr] are the answers the LSR_TX_IDLE bit gives to the
    next reads of LSR (idle once they are used up); [uart_rx] are the bytes waiting in RHR. *)
Record uartstate := mkuart {
  uart_tx_buf : list Z;
  uart_tx_w : Z;
  uart_tx_r : Z;
  uart_out : list Z;
  uart_lsr : list bool;
  uart_rx : list Z }.

(** struct virtq_desc of kernel/virtio.h. *)
Record virtq_desc := mkdesc {
  vd_addr : dma;
  vd_len : Z;
  vd_flags : Z;
  vd_next : Z }.

(** struct virtio_blk_req of kernel/virtio.h. *)
Record virtio_blk_req := mkreq {
  rq_type : Z;
  rq_reserved : Z;
  rq_sector : Z }.

(** an element of disk.info of kernel/virtio_disk.c. *)
Record vinfo := mkinfo {
  vi_b : option nat;
  vi_status : Z }.

(** struct disk of kernel/virtio_disk.c: the addresses of the three queue pages, what they hold
    (the descriptors, avail->idx and avail->ring, used->idx and the ids of used->ring), and
    the driver's own records; its lock is [L_vdisk]. *)
Record vdisk := mkvdisk {
  v_desc_pa : Z;
  v_avail_pa : Z;
  v_used_pa : Z;
  v_desc : list virtq_desc;
  v_avail_idx : Z;
  v_avail_ring : list Z;
  v_used_pos : Z;
  v_used_ring : list Z;
  v_free : list Z;
  v_used_idx : Z;
  v_info : list vinfo;
  v_ops : list virtio_blk_req }.

(** supervisor registers (satp, stvec, sepc, scause, stval, the SPP and SPIE bits of sstatus,
    and sip). *)
Record csrs := mkcsrs {
  cs_satp : Z;
  cs_stvec : Z;
  cs_sepc : Z;
  cs_scause : Z;
  cs_stval : Z;
  cs_spp : bool;
  cs_spie : bool;
  cs_sip : Z }.

(** The kernel's global state:
    - [k_hart]: the running hart, the tp register
    - [k_sie]: sstatus.SIE of the running hart
    - [k_cpus]: cpus[NCPU]
    - [k_locks]: every spinlock, by the object that embeds it
    - [k_mem]: physical memory
    - [k_freelist]: kmem.freelist
    - [k_procs]: proc[NPROC]
    - [k_nextpid]: nextpid
    - [k_initproc]: initproc
    - [k_first]: the static first of forkret
    - [k_ticks]: ticks
    - [k_ftable]: ftable.file
    - [k_itable]: itable.inode
    - [k_slocks]: every sleep lock
    - [k_bcache]: bcache.buf followed by bcache.head
    - [k_log]: log
    - [k_sb]: sb
    - [k_disk]: contents of the disk, by block number
    - [k_cons]: cons
    - [k_uart]: uart
    - [k_panicked]: panicked
    - [k_kpgtbl]: kernel_pagetable
    - [k_csr]: the supervisor registers of the running hart, other than sstatus.SIE
    - [k_devsw]: devsw: the device whose functions an entry holds
    - [k_pr_locking]: pr.locking of kernel/printf.c
    - [k_vdisk]: disk of kernel/virtio_disk.c
    - [k_started]: the static started of main
    - [k_writes]: the block writes the disk has completed, last first; no code reads it *)
Record kstate := mkkstate {
  k_hart : nat;
  k_sie : bool;
  k_cpus : list cpu;
  k_locks : gmap lockid spinlock;
  k_mem : gmap Z Z;
  k_freelist : Z;
  k_procs : list proc;
  k_nextpid : Z;
  k_initproc : option nat;
  k_first : bool;
  k_ticks : Z;
  k_ftable : list file;
  k_itable : list inode;
  k_slocks : gmap slid sleeplock;
  k_bcache : list buf;
  k_log : logstate;
  k_sb : superblock;
  k_disk : gmap Z (list Z);
  k_cons : consstate;
  k_uart : uartstate;
  k_panicked : Z;
  k_kpgtbl : Z;
  k_csr : csrs;
  k_devsw : list devfn;
  k_pr_locking : Z;
  k_vdisk : vdisk;
  k_started : Z;
  k_writes : list (Z * list Z) }.

(** Field updates. *)

Definition set_c_proc (v : option nat) (c : cpu) : cpu :=
  mkcpu v (c_noff c) (c_intena c).
Definition set_c_noff (v : Z) (c : cpu) : cpu :=
  mkcpu (c_proc c) v (c_intena c).
Definition set_c_intena (v : bool) (c : cpu) : cpu :=
  mkcpu (c_proc c) (c_noff c) v.

Definition set_sl_locked (v : Z) (l : sleeplock) : sleeplock :=
  mksleeplock v (sl_pid l).
Definition set_sl_pid (v : Z) (l : sleeplock) : sleeplock :=
  mksleeplock (sl_locked l) v.

Definition set_p_state (v : procstate) (p : proc) : proc :=
  mkproc v (p_chan p) (p_killed p) (p_xstate p) (p_pid p) (p_parent p) (p_kstack p) (p_sz p) (p_pagetable p) (p_trapframe p) (p_context p) (p_ofile p) (p_cwd p) (p_name p).
Definition set_p_chan (v : chan) (p : proc) : proc :=
  mkproc (p_state p) v (p_killed p) (p_xstate p) (p_pid p) (p_parent p) (p_kstack p) (p_sz p) (p_pagetable p) (p_trapframe p) (p_context p) (p_ofile p) (p_cwd p) (p_name p).
Definition set_p_killed (v : Z) (p : proc) : proc :=
  mkproc (p_state p) (p_chan p) v (p_xstate p) (p_pid p) (p_parent p) (p_kstack p) (p_sz p) (p_pagetable p) (p_trapframe p) (p_context p) (p_ofile p) (p_cwd p) (p_name p).
Definition set_p_xstate (v : Z) (p : proc) : proc :=
  mkproc (p_state p) (p_chan p) (p_killed p) v (p_pid p) (p_parent p) (p_kstack p) (p_sz p) (p_pagetable p) (p_trapframe p) (p_context p) (p_ofile p) (p_cwd p) (p_name p).
Definition set_p_pid (v : Z) (p : proc) : proc :=
  mkproc (p_state p) (p_chan p) (p_killed p) (p_xstate p) v (p_parent p) (p_kstack p) (p_sz p) (p_pagetable p) (p_trapframe p) (p_context p) (p_ofile p) (p_cwd p) (p_name p).
Definition set_p_parent (v : option nat) (p : proc) : proc :=
  mkproc (p_state p) (p_chan p) (p_killed p) (p_xstate p) (p_pid p) v (p_kstack p) (p_sz p) (p_pagetable p) (p_trapframe p) (p_context p) (p_ofile p) (p_cwd p) (p_name p).
Definition set_p_kstack (v : Z) (p : proc) : proc :=
  mkproc (p_state p) (p_chan p) (p_killed p) (p_xstate p) (p_pid p) (p_parent p) v (p_sz p) (p_pagetable p) (p_trapframe p) (p_context p) (p_ofile p) (p_cwd p) (p_name p).
Definition set_p_sz (v : Z) (p : proc) : proc :=
  mkproc (p_state p) (p_chan p) (p_killed p) (p_xstate p) (p_pid p) (p_parent p) (p_kstack p) v (p_pagetable p) (p_trapframe p) (p_context p) (p_ofile p) (p_cwd p) (p_name p).
Definition set_p_pagetable (v : Z) (p : proc) : proc :=
  mkproc (p_state p) (p_chan p) (p_killed p) (p_xstate p) (p_pid p) (p_parent p) (p_kstack p) (p_sz p) v (p_trapframe p) (p_context p) (p_ofile p) (p_cwd p) (p_name p).
Definition set_p_trapframe (v : Z) (p : proc) : proc :=
  mkproc (p_state p) (p_chan p) (p_killed p) (p_xstate p) (p_pid p) (p_parent p) (p_kstack p) (p_sz p) (p_pagetable p) v (p_context p) (p_ofile p) (p_cwd p) (p_name p).
Definition set_p_context (v : context) (p : proc) : proc :=
  mkproc (p_state p) (p_chan p) (p_killed p) (p_xstate p) (p_pid p) (p_parent p) (p_kstack p) (p_sz p) (p_pagetable p) (p_trapframe p) v (p_ofile p) (p_cwd p) (p_name p).
Definition set_p_ofile (v : list (option nat)) (p : proc) : proc :=
  mkproc (p_state p) (p_chan p) (p_killed p) (p_xstate p) (p_pid p) (p_parent p) (p_kstack p) (p_sz p) (p_pagetable p) (p_trapframe p) (p_context p) v (p_cwd p) (p_name p).
Definition set_p_cwd (v : option nat) (p : proc) : proc :=
  mkproc (p_state p) (p_chan p) (p_killed p) (p_xstate p) (p_pid p) (p_parent p) (p_kstack p) (p_sz p) (p_pagetable p) (p_trapframe p) (p_context p) (p_ofile p) v (p_name p).
Definition set_p_name (v : list Z) (p : proc) : proc :=
  mkproc (p_state p) (p_chan p) (p_killed p) (p_xstate p) (p_pid p) (p_parent p) (p_kstack p) (p_sz p) (p_pagetable p) (p_trapframe p) (p_context p) (p_ofile p) (p_cwd p) v.

Definition set_f_type (v : filetype) (f : file) : file :=
  mkfile v (f_ref f) (f_readable f) (f_writable f) (f_pipe f) (f_ip f) (f_off f) (f_major f).
Definition set_f_ref (v : Z) (f : file) : file :=
  mkfile (f_type f) v (f_readable f) (f_writable f) (f_pipe f) (f_ip f) (f_off f) (f_major f).
Definition set_f_readable (v : Z) (f : file) : file :=
  mkfile (f_type f) (f_ref f) v (f_writable f) (f_pipe f) (f_ip f) (f_off f) (f_major f).
Definition set_f_writable (v : Z) (f : file) : file :=
  mkfile (f_type f) (f_ref f) (f_readable f) v (f_pipe f) (f_ip f) (f_off f) (f_major f).
Definition set_f_pipe (v : Z) (f : file) : file :=
  mkfile (f_type f) (f_ref f) (f_readable f) (f_writable f) v (f_ip f) (f_off f) (f_major f).
Definition set_f_ip (v : option nat) (f : file) : file :=
  mkfile (f_type f) (f_ref f) (f_readable f) (f_writable f) (f_pipe f) v (f_off f) (f_major f).
Definition set_f_off (v : Z) (f : file) : file :=
  mkfile (f_type f) (f_ref f) (f_readable f) (f_writable f) (f_pipe f) (f_ip f) v (f_major f).
Definition set_f_major (v : Z) (f : file) : file :=
  mkfile (f_type f) (f_ref f) (f_readable f) (f_writable f) (f_pipe f) (f_ip f) (f_off f) v.

Definition set_i_dev (v : Z) (ip : inode) : inode :=
  mkinode v (i_inum ip) (i_ref ip) (i_valid ip) (i_type ip) (i_major ip) (i_minor ip) (i_nlink ip) (i_size ip) (i_addrs ip).
Definition set_i_inum (v : Z) (ip : inode) : inode :=
  mkinode (i_dev ip) v (i_ref ip) (i_valid ip) (i_type ip) (i_major ip) (i_minor ip) (i_nlink ip) (i_size ip) (i_addrs ip).
Definition set_i_ref (v : Z) (ip : inode) : inode :=
  mkinode (i_dev ip) (i_inum ip) v (i_valid ip) (i_type ip) (i_major ip) (i_minor ip) (i_nlink ip) (i_size ip) (i_addrs ip).
Definition set_i_valid (v : Z) (ip : inode) : inode :=
  mkinode (i_dev ip) (i_inum ip) (i_ref ip) v (i_type ip) (i_major ip) (i_minor ip) (i_nlink ip) (i_size ip) (i_addrs ip).
Definition set_i_type (v : Z) (ip : inode) : inode :=
  mkinode (i_dev ip) (i_inum ip) (i_ref ip) (i_valid ip) v (i_major ip) (i_minor ip) (i_nlink ip) (i_size ip) (i_addrs ip).
Definition set_i_major (v : Z) (ip : inode) : inode :=
  mkinode (i_dev ip) (i_inum ip) (i_ref ip) (i_valid ip) (i_type ip) v (i_minor ip) (i_nlink ip) (i_size ip) (i_addrs ip).
Definition set_i_minor (v : Z) (ip : inode) : inode :=
  mkinode (i_dev ip) (i_inum ip) (i_ref ip) (i_valid ip) (i_type ip) (i_major ip) v (i_nlink ip) (i_size ip) (i_addrs ip).
Definition set_i_nlink (v : Z) (ip : inode) : inode :=
  mkinode (i_dev ip) (i_inum ip) (i_ref ip) (i_valid ip) (i_type ip) (i_major ip) (i_minor ip) v (i_size ip) (i_addrs ip).
Definition set_i_size (v : Z) (ip : inode) : inode :=
  mkinode (i_dev ip) (i_inum ip) (i_ref ip) (i_valid ip) (i_type ip) (i_major ip) (i_minor ip) (i_nlink ip) v (i_addrs ip).
Definition set_i_addrs (v : list Z) (ip : inode) : inode :=
  mkinode (i_dev ip) (i_inum ip) (i_ref ip) (i_valid ip) (i_type ip) (i_major ip) (i_minor ip) (i_nlink ip) (i_size ip) v.

Definition set_b_valid (v : Z) (b : buf) : buf :=
  mkbuf v (b_disk b) (b_dev b) (b_blockno b) (b_refcnt b) (b_prev b) (b_next b) (b_data b).
Definition set_b_disk (v : Z) (b : buf) : buf :=
  mkbuf (b_valid b) v (b_dev b) (b_blockno b) (b_refcnt b) (b_prev b) (b_next b) (b_data b).
Definition set_b_dev (v : Z) (b : buf) : buf :=
  mkbuf (b_valid b) (b_disk b) v (b_blockno b) (b_refcnt b) (b_prev b) (b_next b) (b_data b).
Definition set_b_blockno (v : Z) (b : buf) : buf :=
  mkbuf (b_valid b) (b_disk b) (b_dev b) v (b_refcnt b) (b_prev b) (b_next b) (b_data b).
Definition set_b_refcnt (v : Z) (b : buf) : buf :=
  mkbuf (b_valid b) (b_disk b) (b_dev b) (b_blockno b) v (b_prev b) (b_next b) (b_data b).
Definition set_b_prev (v : nat) (b : buf) : buf :=
  mkbuf (b_valid b) (b_disk b) (b_dev b) (b_blockno b) (b_refcnt b) v (b_next b) (b_data b).
Definition set_b_next (v : nat) (b : buf) : buf :=
  mkbuf (b_valid b) (b_disk b) (b_dev b) (b_blockno b) (b_refcnt b) (b_prev b) v (b_data b).
Definition set_b_data (v : list Z) (b : buf) : buf :=
  mkbuf (b_valid b) (b_disk b) (b_dev b) (b_blockno b) (b_refcnt b) (b_prev b) (b_next b) v.

Definition set_lg_start (v : Z) (lg : logstate) : logstate :=
  mklog v (lg_size lg) (lg_outstanding lg) (lg_committing lg) (lg_dev lg) (lh_n lg) (lh_block lg).
Definition set_lg_size (v : Z) (lg : logstate) : logstate :=
  mklog (lg_start lg) v (lg_outstanding lg) (lg_committing lg) (lg_dev lg) (lh_n lg) (lh_block lg).
Definition set_lg_outstanding (v : Z) (lg : logstate) : logstate :=
  mklog (lg_start lg) (lg_size lg) v (lg_committing lg) (lg_dev lg) (lh_n lg) (lh_block lg).
Definition set_lg_committing (v : Z) (lg : logstate) : logstate :=
  mklog (lg_start lg) (lg_size lg) (lg_outstanding lg) v (lg_dev lg) (lh_n lg) (lh_block lg).
Definition set_lg_dev (v : Z) (lg : logstate) : logstate :=
  mklog (lg_start lg) (lg_size lg) (lg_outstanding lg) (lg_committing lg) v (lh_n lg) (lh_block lg).
Definition set_lh_n (v : Z) (lg : logstate) : logstate :=
  mklog (lg_start lg) (lg_size lg) (lg_outstanding lg) (lg_committing lg) (lg_dev lg) v (lh_block lg).
Definition set_lh_block (v : list Z) (lg : logstate) : logstate :=
  mklog (lg_start lg) (lg_size lg) (lg_outstanding lg) (lg_committing lg) (lg_dev lg) (lh_n lg) v.

Definition set_cons_buf (v : list Z) (c : consstate) : consstate :=
  mkcons v (cons_r c) (cons_w c) (cons_e c).
Definition set_cons_r (v : Z) (c : consstate) : consstate :=
  mkcons (cons_buf c) v (cons_w c) (cons_e c).
Definition set_cons_w (v : Z) (c : consstate) : consstate :=
  mkcons (cons_buf c) (cons_r c) v (cons_e c).
Definition set_cons_e (v : Z) (c : consstate) : consstate :=
  mkcons (cons_buf c) (cons_r c) (cons_w c) v.

Definition set_uart_tx_buf (v : list Z) (u : uartstate) : uartstate :=
  mkuart v (uart_tx_w u) (uart_tx_r u) (uart_out u) (uart_lsr u) (uart_rx u).
Definition set_uart_tx_w (v : Z) (u : uartstate) : uartstate :=
  mkuart (uart_tx_buf u) v (uart_tx_r u) (uart_out u) (uart_lsr u) (uart_rx u).
Definition set_uart_tx_r (v : Z) (u : uartstate) : uartstate :=
  mkuart (uart_tx_buf u) (uart_tx_w u) v (uart_out u) (uart_lsr u) (uart_rx u).
Definition set_uart_out (v : list Z) (u : uartstate) : uartstate :=
  mkuart (uart_tx_buf u) (uart_tx_w u) (uart_tx_r u) v (uart_lsr u) (uart_rx u).
Definition set_uart_lsr (v : list bool) (u : uartstate) : uartstate :=
  mkuart (uart_tx_buf u) (uart_tx_w u) (uart_tx_r u) (uart_out u) v (uart_rx u).
Definition set_uart_rx (v : list Z) (u : uartstate) : uartstate :=
  mkuart (uart_tx_buf u) (uart_tx_w u) (uart_tx_r u) (uart_out u) (uart_lsr u) v.

Definition set_vd_addr (v : dma) (d : virtq_desc) : virtq_desc :=
  mkdesc v (vd_len d) (vd_flags d) (vd_next d).
Definition set_vd_len (v : Z) (d : virtq_desc) : virtq_desc :=
  mkdesc (vd_addr d) v (vd_flags d) (vd_next d).
Definition set_vd_flags (v : Z) (d : virtq_desc) : virtq_desc :=
  mkdesc (vd_addr d) (vd_len d) v (vd_next d).
Definition set_vd_next (v : Z) (d : virtq_desc) : virtq_desc :=
  mkdesc (vd_addr d) (vd_len d) (vd_flags d) v.

Definition set_vi_b (v : option nat) (i : vinfo) : vinfo :=
  mkinfo v (vi_status i).
Definition set_vi_status (v : Z) (i : vinfo) : vinfo :=
  mkinfo (vi_b i) v.

Definition set_v_desc_pa (v : Z) (d : vdisk) : vdisk :=
  mkvdisk v (v_avail_pa d) (v_used_pa d) (v_desc d) (v_avail_idx d) (v_avail_ring d) (v_used_pos d) (v_used_ring d) (v_free d) (v_used_idx d) (v_info d) (v_ops d).
Definition set_v_avail_pa (v : Z) (d : vdisk) : vdisk :=
  mkvdisk (v_desc_pa d) v (v_used_pa d) (v_desc d) (v_avail_idx d) (v_avail_ring d) (v_used_pos d) (v_used_ring d) (v_free d) (v_used_idx d) (v_info d) (v_ops d).
Definition set_v_used_pa (v : Z) (d : vdisk) : vdisk :=
  mkvdisk (v_desc_pa d) (v_avail_pa d) v (v_desc d) (v_avail_idx d) (v_avail_ring d) (v_used_pos d) (v_used_ring d) (v_free d) (v_used_idx d) (v_info d) (v_ops d).
Definition set_v_desc (v : list virtq_desc) (d : vdisk) : vdisk :=
  mkvdisk (v_desc_pa d) (v_avail_pa d) (v_used_pa d) v (v_avail_idx d) (v_avail_ring d) (v_used_pos d) (v_used_ring d) (v_free d) (v_used_idx d) (v_info d) (v_ops d).
Definition set_v_avail_idx (v : Z) (d : vdisk) : vdisk :=
  mkvdisk (v_desc_pa d) (v_avail_pa d) (v_used_pa d) (v_desc d) v (v_avail_ring d) (v_used_pos d) (v_used_ring d) (v_free d) (v_used_idx d) (v_info d) (v_ops d).
Definition set_v_avail_ring (v : list Z) (d : vdisk) : vdisk :=
  mkvdisk (v_desc_pa d) (v_avail_pa d) (v_used_pa d) (v_desc d) (v_avail_idx d) v (v_used_pos d) (v_used_ring d) (v_free d) (v_used_idx d) (v_info d) (v_ops d).
Definition set_v_used_pos (v : Z) (d : vdisk) : vdisk :=
  mkvdisk (v_desc_pa d) (v_avail_pa d) (v_used_pa d) (v_desc d) (v_avail_idx d) (v_avail_ring d) v (v_used_ring d) (v_free d) (v_used_idx d) (v_info d) (v_ops d).
Definition set_v_used_ring (v : list Z) (d : vdisk) : vdisk :=
  mkvdisk (v_desc_pa d) (v_avail_pa d) (v_used_pa d) (v_desc d) (v_avail_idx d) (v_avail_ring d) (v_used_pos d) v (v_free d) (v_used_idx d) (v_info d) (v_ops d).
Definition set_v_free (v : list Z) (d : vdisk) : vdisk :=
  mkvdisk (v_desc_pa d) (v_avail_pa d) (v_used_pa d) (v_desc d) (v_avail_idx d) (v_avail_ring d) (v_used_pos d) (v_used_ring d) v (v_used_idx d) (v_info d) (v_ops d).
Definition set_v_used_idx (v : Z) (d : vdisk) : vdisk :=
  mkvdisk (v_desc_pa d) (v_avail_pa d) (v_used_pa d) (v_desc d) (v_avail_idx d) (v_avail_ring d) (v_used_pos d) (v_used_ring d) (v_free d) v (v_info d) (v_ops d).
Definition set_v_info (v : list vinfo) (d : vdisk) : vdisk :=
  mkvdisk (v_desc_pa d) (v_avail_pa d) (v_used_pa d) (v_desc d) (v_avail_idx d) (v_avail_ring d) (v_used_pos d) (v_used_ring d) (v_free d) (v_used_idx d) v (v_ops d).
Definition set_v_ops (v : list virtio_blk_req) (d : vdisk) : vdisk :=
  mkvdisk (v_desc_pa d) (v_avail_pa d) (v_used_pa d) (v_desc d) (v_avail_idx d) (v_avail_ring d) (v_used_pos d) (v_used_ring d) (v_free d) (v_used_idx d) (v_info d) v.

Definition set_cs_satp (v : Z) (c : csrs) : csrs :=
  mkcsrs v (cs_stvec c) (cs_sepc c) (cs_scause c) (cs_stval c) (cs_spp c) (cs_spie c) (cs_sip c).
Definition set_cs_stvec (v : Z) (c : csrs) : csrs :=
  mkcsrs (cs_satp c) v (cs_sepc c) (cs_scause c) (cs_stval c) (cs_spp c) (cs_spie c) (cs_sip c).
Definition set_cs_sepc (v : Z) (c : csrs) : csrs :=
  mkcsrs (cs_satp c) (cs_stvec c) v (cs_scause c) (cs_stval c) (cs_spp c) (cs_spie c) (cs_sip c).
Definition set_cs_scause (v : Z) (c : csrs) : csrs :=
  mkcsrs (cs_satp c) (cs_stvec c) (cs_sepc c) v (cs_stval c) (cs_spp c) (cs_spie c) (cs_sip c).
Definition set_cs_stval (v : Z) (c : csrs) : csrs :=
  mkcsrs (cs_satp c) (cs_stvec c) (cs_sepc c) (cs_scause c) v (cs_spp c) (cs_spie c) (cs_sip c).
Definition set_cs_spp (v : bool) (c : csrs) : csrs :=
  mkcsrs (cs_satp c) (cs_stvec c) (cs_sepc c) (cs_scause c) (cs_stval c) v (cs_spie c) (cs_sip c).
Definition set_cs_spie (v : bool) (c : csrs) : csrs :=
  mkcsrs (cs_satp c) (cs_stvec c) (cs_sepc c) (cs_scause c) (cs_stval c) (cs_spp c) v (cs_sip c).
Definition set_cs_sip (v : Z) (c : csrs) : csrs :=
  mkcsrs (cs_satp c) (cs_stvec c) (cs_sepc c) (cs_scause c) (cs_stval c) (cs_spp c) (cs_spie c) v.

Definition set_k_hart (v : nat) (s : kstate) : kstate :=
  mkkstate v (k_sie s) (k_cpus s) (k_locks s) (k_mem s) (k_freelist s) (k_procs s) (k_nextpid s) (k_initproc s) (k_first s) (k_ticks s) (k_ftable s) (k_itable s) (k_slocks s) (k_bcache s) (k_log s) (k_sb s) (k_disk s) (k_cons s) (k_uart s) (k_panicked s) (k_kpgtbl s) (k_csr s) (k_devsw s) (k_pr_locking s) (k_vdisk s) (k_started s) (k_writes s).
Definition set_k_sie (v : bool) (s : kstate) : kstate :=
  mkkstate (k_hart s) v (k_cpus s) (k_locks s) (k_mem s) (k_freelist s) (k_procs s) (k_nextpid s) (k_initproc s) (k_first s) (k_ticks s) (k_ftable s) (k_itable s) (k_slocks s) (k_bcache s) (k_log s) (k_sb s) (k_disk s) (k_cons s) (k_uart s) (k_panicked s) (k_kpgtbl s) (k_csr s) (k_devsw s) (k_pr_locking s) (k_vdisk s) (k_started s) (k_writes s).
Definition set_k_cpus (v : list cpu) (s : kstate) : kstate :=
  mkkstate (k_hart s) (k_sie s) v (k_locks s) (k_mem s) (k_freelist s) (k_procs s) (k_nextpid s) (k_initproc s) (k_first s) (k_ticks s) (k_ftable s) (k_itable s) (k_slocks s) (k_bcache s) (k_log s) (k_sb s) (k_disk s) (k_cons s) (k_uart s) (k_panicked s) (k_kpgtbl s) (k_csr s) (k_devsw s) (k_pr_locking s) (k_vdisk s) (k_started s) (k_writes s).
Definition set_k_locks (v : gmap lockid spinlock) (s : kstate) : kstate :=
  mkkstate (k_hart s) (k_sie s) (k_cpus s) v (k_mem s) (k_freelist s) (k_procs s) (k_nextpid s) (k_initproc s) (k_first s) (k_ticks s) (k_ftable s) (k_itable s) (k_slocks s) (k_bcache s) (k_log s) (k_sb s) (k_disk s) (k_cons s) (k_uart s) (k_panicked s) (k_kpgtbl s) (k_csr s) (k_devsw s) (k_pr_locking s) (k_vdisk s) (k_started s) (k_writes s).
Definition set_k_mem (v : gmap Z Z) (s : kstate) : kstate :=
  mkkstate (k_hart s) (k_sie s) (k_cpus s) (k_locks s) v (k_freelist s) (k_procs s) (k_nextpid s) (k_initproc s) (k_first s) (k_ticks s) (k_ftable s) (k_itable s) (k_slocks s) (k_bcache s) (k_log s) (k_sb s) (k_disk s) (k_cons s) (k_uart s) (k_panicked s) (k_kpgtbl s) (k_csr s) (k_devsw s) (k_pr_locking s) (k_vdisk s) (k_started s) (k_writes s).
Definition set_k_freelist (v : Z) (s : kstate) : kstate :=
  mkkstate (k_hart s) (k_sie s) (k_cpus s) (k_locks s) (k_mem s) v (k_procs s) (k_nextpid s) (k_initproc s) (k_first s) (k_ticks s) (k_ftable s) (k_itable s) (k_slocks s) (k_bcache s) (k_log s) (k_sb s) (k_disk s) (k_cons s) (k_uart s) (k_panicked s) (k_kpgtbl s) (k_csr s) (k_devsw s) (k_pr_locking s) (k_vdisk s) (k_started s) (k_writes s).
Definition set_k_procs (v : list proc) (s : kstate) : kstate :=
  mkkstate (k_hart s) (k_sie s) (k_cpus s) (k_locks s) (k_mem s) (k_freelist s) v (k_nextpid s) (k_initproc s) (k_first s) (k_ticks s) (k_ftable s) (k_itable s) (k_slocks s) (k_bcache s) (k_log s) (k_sb s) (k_disk s) (k_cons s) (k_uart s) (k_panicked s) (k_kpgtbl s) (k_csr s) (k_devsw s) (k_pr_locking s) (k_vdisk s) (k_started s) (k_writes s).
Definition set_k_nextpid (v : Z) (s : kstate) : kstate :=
  mkkstate (k_hart s) (k_sie s) (k_cpus s) (k_locks s) (k_mem s) (k_freelist s) (k_procs s) v (k_initproc s) (k_first s) (k_ticks s) (k_ftable s) (k_itable s) (k_slocks s) (k_bcache s) (k_log s) (k_sb s) (k_disk s) (k_cons s) (k_uart s) (k_panicked s) (k_kpgtbl s) (k_csr s) (k_devsw s) (k_pr_locking s) (k_vdisk s) (k_started s) (k_writes s).
Definition set_k_initproc (v : option nat) (s : kstate) : kstate :=
  mkkstate (k_hart s) (k_sie s) (k_cpus s) (k_locks s) (k_mem s) (k_freelist s) (k_procs s) (k_nextpid s) v (k_first s) (k_ticks s) (k_ftable s) (k_itable s) (k_slocks s) (k_bcache s) (k_log s) (k_sb s) (k_disk s) (k_cons s) (k_uart s) (k_panicked s) (k_kpgtbl s) (k_csr s) (k_devsw s) (k_pr_locking s) (k_vdisk s) (k_started s) (k_writes s).
Definition set_k_first (v : bool) (s : kstate) : kstate :=
  mkkstate (k_hart s) (k_sie s) (k_cpus s) (k_locks s) (k_mem s) (k_freelist s) (k_procs s) (k_nextpid s) (k_initproc s) v (k_ticks s) (k_ftable s) (k_itable s) (k_slocks s) (k_bcache s) (k_log s) (k_sb s) (k_disk s) (k_cons s) (k_uart s) (k_panicked s) (k_kpgtbl s) (k_csr s) (k_devsw s) (k_pr_locking s) (k_vdisk s) (k_started s) (k_writes s).
Definition set_k_ticks (v : Z) (s : kstate) : kstate :=
  mkkstate (k_hart s) (k_sie s) (k_cpus s) (k_locks s) (k_mem s) (k_freelist s) (k_procs s) (k_nextpid s) (k_initproc s) (k_first s) v (k_ftable s) (k_itable s) (k_slocks s) (k_bcache s) (k_log s) (k_sb s) (k_disk s) (k_cons s) (k_uart s) (k_panicked s) (k_kpgtbl s) (k_csr s) (k_devsw s) (k_pr_locking s) (k_vdisk s) (k_started s) (k_writes s).
Definition set_k_ftable (v : list file) (s : kstate) : kstate :=
  mkkstate (k_hart s) (k_sie s) (k_cpus s) (k_locks s) (k_mem s) (k_freelist s) (k_procs s) (k_nextpid s) (k_initproc s) (k_first s) (k_ticks s) v (k_itable s) (k_slocks s) (k_bcache s) (k_log s) (k_sb s) (k_disk s) (k_cons s) (k_uart s) (k_panicked s) (k_kpgtbl s) (k_csr s) (k_devsw s) (k_pr_locking s) (k_vdisk s) (k_started s) (k_writes s).
Definition set_k_itable (v : list inode) (s : kstate) : kstate :=
  mkkstate (k_hart s) (k_sie s) (k_cpus s) (k_locks s) (k_mem s) (k_freelist s) (k_procs s) (k_nextpid s) (k_initproc s) (k_first s) (k_ticks s) (k_ftable s) v (k_slocks s) (k_bcache s) (k_log s) (k_sb s) (k_disk s) (k_cons s) (k_uart s) (k_panicked s) (k_kpgtbl s) (k_csr s) (k_devsw s) (k_pr_locking s) (k_vdisk s) (k_started s) (k_writes s).
Definition set_k_slocks (v : gmap slid sleeplock) (s : kstate) : kstate :=
  mkkstate (k_hart s) (k_sie s) (k_cpus s) (k_locks s) (k_mem s) (k_freelist s) (k_procs s) (k_nextpid s) (k_initproc s) (k_first s) (k_ticks s) (k_ftable s) (k_itable s) v (k_bcache s) (k_log s) (k_sb s) (k_disk s) (k_cons s) (k_uart s) (k_panicked s) (k_kpgtbl s) (k_csr s) (k_devsw s) (k_pr_locking s) (k_vdisk s) (k_started s) (k_writes s).
Definition set_k_bcache (v : list buf) (s : kstate) : kstate :=
  mkkstate (k_hart s) (k_sie s) (k_cpus s) (k_locks s) (k_mem s) (k_freelist s) (k_procs s) (k_nextpid s) (k_initproc s) (k_first s) (k_ticks s) (k_ftable s) (k_itable s) (k_slocks s) v (k_log s) (k_sb s) (k_disk s) (k_cons s) (k_uart s) (k_panicked s) (k_kpgtbl s) (k_csr s) (k_devsw s) (k_pr_locking s) (k_vdisk s) (k_started s) (k_writes s).
Definition set_k_log (v : logstate) (s : kstate) : kstate :=
  mkkstate (k_hart s) (k_sie s) (k_cpus s) (k_locks s) (k_mem s) (k_freelist s) (k_procs s) (k_nextpid s) (k_initproc s) (k_first s) (k_ticks s) (k_ftable s) (k_itable s) (k_slocks s) (k_bcache s) v (k_sb s) (k_disk s) (k_cons s) (k_uart s) (k_panicked s) (k_kpgtbl s) (k_csr s) (k_devsw s) (k_pr_locking s) (k_vdisk s) (k_started s) (k_writes s).
Definition set_k_sb (v : superblock) (s : kstate) : kstate :=
  mkkstate (k_hart s) (k_sie s) (k_cpus s) (k_locks s) (k_mem s) (k_freelist s) (k_procs s) (k_nextpid s) (k_initproc s) (k_first s) (k_ticks s) (k_ftable s) (k_itable s) (k_slocks s) (k_bcache s) (k_log s) v (k_disk s) (k_cons s) (k_uart s) (k_panicked s) (k_kpgtbl s) (k_csr s) (k_devsw s) (k_pr_locking s) (k_vdisk s) (k_started s) (k_writes s).
Definition set_k_disk (v : gmap Z (list Z)) (s : kstate) : kstate :=
  mkkstate (k_hart s) (k_sie s) (k_cpus s) (k_locks s) (k_mem s) (k_freelist s) (k_procs s) (k_nextpid s) (k_initproc s) (k_first s) (k_ticks s) (k_ftable s) (k_itable s) (k_slocks s) (k_bcache s) (k_log s) (k_sb s) v (k_cons s) (k_uart s) (k_panicked s) (k_kpgtbl s) (k_csr s) (k_devsw s) (k_pr_locking s) (k_vdisk s) (k_started s) (k_writes s).
Definition set_k_cons (v : consstate) (s : kstate) : kstate :=
  mkkstate (k_hart s) (k_sie s) (k_cpus s) (k_locks s) (k_mem s) (k_freelist s) (k_procs s) (k_nextpid s) (k_initproc s) (k_first s) (k_ticks s) (k_ftable s) (k_itable s) (k_slocks s) (k_bcache s) (k_log s) (k_sb s) (k_disk s) v (k_uart s) (k_panicked s) (k_kpgtbl s) (k_csr s) (k_devsw s) (k_pr_locking s) (k_vdisk s) (k_started s) (k_writes s).
Definition set_k_uart (v : uartstate) (s : kstate) : kstate :=
  mkkstate (k_hart s) (k_sie s) (k_cpus s) (k_locks s) (k_mem s) (k_freelist s) (k_procs s) (k_nextpid s) (k_initproc s) (k_first s) (k_ticks s) (k_ftable s) (k_itable s) (k_slocks s) (k_bcache s) (k_log s) (k_sb s) (k_disk s) (k_cons s) v (k_panicked s) (k_kpgtbl s) (k_csr s) (k_devsw s) (k_pr_locking s) (k_vdisk s) (k_started s) (k_writes s).
Definition set_k_panicked (v : Z) (s : kstate) : kstate :=
  mkkstate (k_hart s) (k_sie s) (k_cpus s) (k_locks s) (k_mem s) (k_freelist s) (k_procs s) (k_nextpid s) (k_initproc s) (k_first s) (k_ticks s) (k_ftable s) (k_itable s) (k_slocks s) (k_bcache s) (k_log s) (k_sb s) (k_disk s) (k_cons s) (k_uart s) v (k_kpgtbl s) (k_csr s) (k_devsw s) (k_pr_locking s) (k_vdisk s) (k_started s) (k_writes s).
Definition set_k_kpgtbl (v : Z) (s : kstate) : kstate :=
  mkkstate (k_hart s) (k_sie s) (k_cpus s) (k_locks s) (k_mem s) (k_freelist s) (k_procs s) (k_nextpid s) (k_initproc s) (k_first s) (k_ticks s) (k_ftable s) (k_itable s) (k_slocks s) (k_bcache s) (k_log s) (k_sb s) (k_disk s) (k_cons s) (k_uart s) (k_panicked s) v (k_csr s) (k_devsw s) (k_pr_locking s) (k_vdisk s) (k_started s) (k_writes s).
Definition set_k_csr (v : csrs) (s : kstate) : kstate :=
  mkkstate (k_hart s) (k_sie s) (k_cpus s) (k_locks s) (k_mem s) (k_freelist s) (k_procs s) (k_nextpid s) (k_initproc s) (k_first s) (k_ticks s) (k_ftable s) (k_itable s) (k_slocks s) (k_bcache s) (k_log s) (k_sb s) (k_disk s) (k_cons s) (k_uart s) (k_panicked s) (k_kpgtbl s) v (k_devsw s) (k_pr_locking s) (k_vdisk s) (k_started s) (k_writes s).
Definition set_k_devsw (v : list devfn) (s : kstate) : kstate :=
  mkkstate (k_hart s) (k_sie s) (k_cpus s) (k_locks s) (k_mem s) (k_freelist s) (k_procs s) (k_nextpid s) (k_initproc s) (k_first s) (k_ticks s) (k_ftable s) (k_itable s) (k_slocks s) (k_bcache s) (k_log s) (k_sb s) (k_disk s) (k_cons s) (k_uart s) (k_panicked s) (k_kpgtbl s) (k_csr s) v (k_pr_locking s) (k_vdisk s) (k_started s) (k_writes s).
Definition set_k_pr_locking (v : Z) (s : kstate) : kstate :=
  mkkstate (k_hart s) (k_sie s) (k_cpus s) (k_locks s) (k_mem s) (k_freelist s) (k_procs s) (k_nextpid s) (k_initproc s) (k_first s) (k_ticks s) (k_ftable s) (k_itable s) (k_slocks s) (k_bcache s) (k_log s) (k_sb s) (k_disk s) (k_cons s) (k_uart s) (k_panicked s) (k_kpgtbl s) (k_csr s) (k_devsw s) v (k_vdisk s) (k_started s) (k_writes s).
Definition set_k_vdisk (v : vdisk) (s : kstate) : kstate :=
  mkkstate (k_hart s) (k_sie s) (k_cpus s) (k_locks s) (k_mem s) (k_freelist s) (k_procs s) (k_nextpid s) (k_initproc s) (k_first s) (k_ticks s) (k_ftable s) (k_itable s) (k_slocks s) (k_bcache s) (k_log s) (k_sb s) (k_disk s) (k_cons s) (k_uart s) (k_panicked s) (k_kpgtbl s) (k_csr s) (k_devsw s) (k_pr_locking s) v (k_started s) (k_writes s).
Definition set_k_started (v : Z) (s : kstate) : kstate :=
  mkkstate (k_hart s) (k_sie s) (k_cpus s) (k_locks s) (k_mem s) (k_freelist s) (k_procs s) (k_nextpid s) (k_initproc s) (k_first s) (k_ticks s) (k_ftable s) (k_itable s) (k_slocks s) (k_bcache s) (k_log s) (k_sb s) (k_disk s) (k_cons s) (k_uart s) (k_panicked s) (k_kpgtbl s) (k_csr s) (k_devsw s) (k_pr_locking s) (k_vdisk s) v (k_writes s).
Definition set_k_writes (v : list (Z * list Z)) (s : kstate) : kstate :=
  mkkstate (k_hart s) (k_sie s) (k_cpus s) (k_locks s) (k_mem s) (k_freelist s) (k_procs s) (k_nextpid s) (k_initproc s) (k_first s) (k_ticks s) (k_ftable s) (k_itable s) (k_slocks s) (k_bcache s) (k_log s) (k_sb s) (k_disk s) (k_cons s) (k_uart s) (k_panicked s) (k_kpgtbl s) (k_csr s) (k_devsw s) (k_pr_locking s) (k_vdisk s) (k_started s) v.

(** ** Default elements, for total table lookups *)

#[global] Instance context_inhabited : Inhabited context := populate (mkcontext ra_none 0).
#[global] Instance cpu_inhabited : Inhabited cpu := populate (mkcpu None 0 false).
#[global] Instance proc_inhabited : Inhabited proc :=
  populate (mkproc UNUSED CH_null 0 0 0 None 0 0 0 0 (mkcontext ra_none 0)
              (replicate NOFILE None) None (replicate 16 0)).
#[global] Instance file_inhabited : Inhabited file :=
  populate (mkfile FD_NONE 0 0 0 0 None 0 0).
#[global] Instance inode_inhabited : Inhabited inode :=
  populate (mkinode 0 0 0 0 0 0 0 0 0 (replicate 13 0)).
#[global] Instance buf_inhabited : Inhabited buf :=
  populate (mkbuf 0 0 0 0 0 NBUF NBUF (replicate 1024 0)).

#[global] Instance virtq_desc_inhabited : Inhabited virtq_desc := populate (mkdesc DMA_null 0 0 0).
#[global] Instance vinfo_inhabited : Inhabited vinfo := populate (mkinfo None 0).
#[global] Instance virtio_blk_req_inhabited : Inhabited virtio_blk_req := populate (mkreq 0 0 0).
#[global] Instance sleeplock_inhabited : Inhabited sleeplock := populate (mksleeplock 0 0).

(** Updates of one element of a table.  An index outside the table changes nothing. *)
Definition upd_proc (i : nat) (f : proc -> proc) (s : kstate) : kstate :=
  set_k_procs (alter f i (k_procs s)) s.
Definition upd_file (i : nat) (f : file -> file) (s : kstate) : kstate :=
  set_k_ftable (alter f i (k_ftable s)) s.
Definition upd_inode (i : nat) (f : inode -> inode) (s : kstate) : kstate :=
  set_k_itable (alter f i (k_itable s)) s.
Definition upd_buf (i : nat) (f : buf -> buf) (s : kstate) : kstate :=
  set_k_bcache (alter f i (k_bcache s)) s.
Definition upd_cpu (i : nat) (f : cpu -> cpu) (s : kstate) : kstate :=
  set_k_cpus (alter f i (k_cpus s)) s.

(** &proc[i] as a channel; a NULL pointer is the null channel. *)
Definition chan_of_proc (o : option nat) : chan :=
  match o with Some i => CH_proc i | None => CH_null end.

(** The zero-initialised kernel image: the BSS before main runs. *)
Definition kstate0 : kstate :=
  mkkstate 0 false (replicate NCPU inhabitant) ∅ ∅ 0 (replicate NPROC inhabitant) 1 None true
    0 (replicate NFILE inhabitant) (replicate NINODE inhabitant) ∅
    (replicate (S NBUF) inhabitant) (mklog 0 0 0 0 0 0 (replicate (Z.to_nat LOGSIZE) 0))
    (mksuperblock 0 0 0 0 0 0 0 0) ∅ (mkcons (replicate 128 0) 0 0 0)
    (mkuart (replicate 32 0) 0 0 [] [] []) 0 0 (mkcsrs 0 0 0 0 0 false false 0)
    (replicate (Z.to_nat NDEV) DEV_none) 0
    (mkvdisk 0 0 0 (replicate 8 inhabitant) 0 (replicate 8 0) 0 (replicate 8 0) (replicate 8 0) 0
       (replicate 8 inhabitant) (replicate 8 (mkreq 0 0 0))) 0 [].
