(* ===== verification/Kmonad.v ===== *)
(** * The kernel monad

    Kernel code is a function from the kernel state to a result.  Besides returning,
    C code can panic, spin for ever on a spinlock, have undefined behaviour, or call
    swtch: then the result holds the state at the switch, the context saved into, the
    context switched to, and the rest of the computation, to be resumed when some
    swtch names the saved context as its destination.  [NoFuel] ends a loop whose
    iteration count the model bounds; theorems show that the bound suffices. *)

From S2P Require Import Prelude Memory State.
From Stdlib Require Import ZArith Lia.
From stdpp Require Import base numbers list gmap strings.

#[local] Open Scope Z_scope.

Inductive res (A : Type) : Type :=
  | Ok (a : A) (s : kstate)
  | Panic (msg : string)
  | Spin (l : lockid)
  | Undef (what : string)
  | NoFuel
  | Swtch (old new : ctx) (s : kstate) (k : kstate -> res A).
Arguments Ok {A} _ _.
Arguments Panic {A} _.
Arguments Spin {A} _.
Arguments Undef {A} _.
Arguments NoFuel {A}.
Arguments Swtch {A} _ _ _ _.

Definition M (A : Type) : Type := kstate -> res A.

Fixpoint res_bind {A B} (r : res A) (f : A -> M B) : res B :=
  match r with
  | Ok a s => f a s
  | Panic m => Panic m
  | Spin l => Spin l
  | Undef w => Undef w
  | NoFuel => NoFuel
  | Swtch o n s k => Swtch o n s (fun s' => res_bind (k s') f)
  end.

Definition ret {A} (a : A) : M A := fun s => Ok a s.
Definition bind {A B} (m : M A) (f : A -> M B) : M B := fun s => res_bind (m s) f.
Definition panic {A} (msg : string) : M A := fun _ => Panic msg.
Definition undef {A} (what : string) : M A := fun _ => Undef what.
Definition nofuel {A} : M A := fun _ => NoFuel.
Definition gets {A} (f : kstate -> A) : M A := fun s => Ok (f s) s.
Definition modify (f : kstate -> kstate) : M unit := fun s => Ok tt (f s).
Definition when (b : bool) (m : M unit) : M unit := if b then m else ret tt.

Declare Scope kernel_scope.
Delimit Scope kernel_scope with K.
Notation "'let!' x ':=' m 'in' k" := (bind m (fun x => k))
  (at level 200, x binder, m at level 199, k at level 200, right associativity) : kernel_scope.
Notation "m ';!' k" := (bind m (fun _ => k))
  (at level 199, k at level 200, right associativity) : kernel_scope.

#[local] Open Scope kernel_scope.

(** [for (x in l) body]. *)
Fixpoint foreach {A} (l : list A) (body : A -> M unit) : M unit :=
  match l with
  | [] => ret tt
  | x :: l' => body x ;! foreach l' body
  end.

(** ** Memory accesses *)

Definition ld64 (a : Z) : M Z := gets (fun s => mld64 (k_mem s) a).
Definition st64 (a v : Z) : M unit := modify (fun s => set_k_mem (mst64 (k_mem s) a v) s).
Definition ld32 (a : Z) : M Z := gets (fun s => mld32 (k_mem s) a).
Definition st32 (a v : Z) : M unit := modify (fun s => set_k_mem (mst32 (k_mem s) a v) s).
Definition ld8 (a : Z) : M Z := gets (fun s => mget (k_mem s) a).
Definition st8 (a v : Z) : M unit := modify (fun s => set_k_mem (<[a:=u8 v]> (k_mem s)) s).

(** ** Total correctness

    [wp m Q s]: from [s], [m] returns (it neither panics, spins, switches away nor runs
    out of fuel) and the returned value and state satisfy [Q]. *)

Definition wp {A} (m : M A) (Q : A -> kstate -> Prop) (s : kstate) : Prop :=
  match m s with Ok a s' => Q a s' | _ => False end.

Lemma bind_ok {A B} (m : M A) (f : A -> M B) s a s' :
  m s = Ok a s' -> bind m f s = f a s'.
Proof. intros H. unfold bind. rewrite H. reflexivity. Qed.

Lemma bind_panic {A B} (m : M A) (f : A -> M B) s msg :
  m s = Panic msg -> bind m f s = Panic msg.
Proof. intros H. unfold bind. rewrite H. reflexivity. Qed.

Lemma bind_swtch {A B} (m : M A) (f : A -> M B) s o n s' k :
  m s = Swtch o n s' k -> bind m f s = Swtch o n s' (fun x => res_bind (k x) f).
Proof. intros H. unfold bind. rewrite H. reflexivity. Qed.

Lemma wp_intro {A} (m : M A) Q s a s' : m s = Ok a s' -> Q a s' -> wp m Q s.
Proof. intros H HQ. unfold wp. rewrite H. exact HQ. Qed.

Lemma wp_elim {A} (m : M A) Q s : wp m Q s -> exists a s', m s = Ok a s' /\ Q a s'.
Proof. unfold wp. destruct (m s); try contradiction. eauto. Qed.

Lemma wp_mono {A} (m : M A) (Q Q' : A -> kstate -> Prop) s :
  wp m Q s -> (forall a s', Q a s' -> Q' a s') -> wp m Q' s.
Proof. unfold wp. destruct (m s); auto. Qed.

Lemma wp_bind {A B} (m : M A) (f : A -> M B) Q s :
  wp m (fun a => wp (f a) Q) s -> wp (bind m f) Q s.
Proof. unfold wp, bind. destruct (m s); simpl; auto. Qed.

Lemma wp_ret {A} (a : A) Q s : Q a s -> wp (ret a) Q s.
Proof. auto. Qed.

Lemma wp_gets {A} (f : kstate -> A) Q s : Q (f s) s -> wp (gets f) Q s.
Proof. auto. Qed.

Lemma wp_modify f Q s : Q tt (f s) -> wp (modify f) Q s.
Proof. auto. Qed.

(** A counting loop, by an invariant on the state before each iteration. *)
Lemma foreach_seq_from body (I : nat -> kstate -> Prop) k n s :
  (forall i s, (k <= i < k + n)%nat -> I i s -> exists s', body i s = Ok tt s' /\ I (S i) s') ->
  I k s -> exists s', foreach (seq k n) body s = Ok tt s' /\ I (k + n)%nat s'.
Proof.
  revert k s. induction n as [|n IH]; intros k s Hb Hs.
  - exists s. by rewrite Nat.add_0_r.
  - destruct (Hb k s) as (s1 & E1 & H1); [lia|done|]. cbn [seq foreach].
    destruct (IH (S k) s1) as (s2 & E2 & H2); [intros i s3 Hi; apply Hb; lia|done|].
    exists s2. split; [by erewrite bind_ok|]. by replace (k + S n)%nat with (S k + n)%nat by lia.
Qed.

Lemma foreach_seq body (I : nat -> kstate -> Prop) n s :
  (forall i s, (i < n)%nat -> I i s -> exists s', body i s = Ok tt s' /\ I (S i) s') ->
  I 0%nat s -> exists s', foreach (seq 0 n) body s = Ok tt s' /\ I n s'.
Proof. intros Hb. apply (foreach_seq_from body I 0 n). intros i s1 Hi. apply Hb. lia. Qed.

(** The value and state a terminating run gives, for witnesses. *)
Definition run_val {A} (r : res A) : option A :=
  match r with Ok a _ => Some a | _ => None end.
Definition run_state {A} (r : res A) : option kstate :=
  match r with Ok _ s => Some s | Swtch _ _ s _ => Some s | _ => None end.

Lemma run_val_ok {A} (r : res A) a :
  run_val r = Some a -> r = Ok a (default kstate0 (run_state r)).
Proof. destruct r; intros [=]; by subst. Qed.

(** One step of symbolic execution: run the first command of a sequence by the given
    equation, or by computation when it is a primitive. *)
Ltac kstep H := erewrite bind_ok; [| eapply H; eauto].
Ltac kprim := erewrite bind_ok; [| reflexivity]; cbn beta.

(** Split a total-correctness goal at its first command. *)
Ltac wp_step := apply wp_bind; cbn beta.

(** Project fields out of field updates. *)
Ltac ksimpl :=
  cbn [k_hart k_sie k_cpus k_locks k_mem k_freelist k_procs k_nextpid k_initproc k_first
       k_ticks k_ftable k_itable k_slocks k_bcache k_log k_sb k_disk k_cons k_uart
       k_panicked k_kpgtbl k_csr k_devsw k_pr_locking k_vdisk k_started k_writes
       set_k_hart set_k_sie set_k_cpus set_k_locks set_k_mem set_k_freelist set_k_procs
       set_k_nextpid set_k_initproc set_k_first set_k_ticks set_k_ftable set_k_itable
       set_k_slocks set_k_bcache set_k_log set_k_sb set_k_disk set_k_cons set_k_uart
       set_k_panicked set_k_kpgtbl set_k_csr set_k_devsw set_k_pr_locking set_k_vdisk
       set_k_started set_k_writes
       upd_proc upd_file upd_inode upd_buf upd_cpu].
Ltac ksimpl_in H :=
  cbn [k_hart k_sie k_cpus k_locks k_mem k_freelist k_procs k_nextpid k_initproc k_first
       k_ticks k_ftable k_itable k_slocks k_bcache k_log k_sb k_disk k_cons k_uart
       k_panicked k_kpgtbl k_csr k_devsw k_pr_locking k_vdisk k_started k_writes
       set_k_hart set_k_sie set_k_cpus set_k_locks set_k_mem set_k_freelist set_k_procs
       set_k_nextpid set_k_initproc set_k_first set_k_ticks set_k_ftable set_k_itable
       set_k_slocks set_k_bcache set_k_log set_k_sb set_k_disk set_k_cons set_k_uart
       set_k_panicked set_k_kpgtbl set_k_csr set_k_devsw set_k_pr_locking set_k_vdisk
       set_k_started set_k_writes
       upd_proc upd_file upd_inode upd_buf upd_cpu] in H.

Lemma kstate_ext s s' :
  k_hart s = k_hart s' ->
  k_sie s = k_sie s' ->
  k_cpus s = k_cpus s' ->
  k_locks s = k_locks s' ->
  k_mem s = k_mem s' ->
  k_freelist s = k_freelist s' ->
  k_procs s = k_procs s' ->
  k_nextpid s = k_nextpid s' ->
  k_initproc s = k_initproc s' ->
  k_first s = k_first s' ->
  k_ticks s = k_ticks s' ->
  k_ftable s = k_ftable s' ->
  k_itable s = k_itable s' ->
  k_slocks s = k_slocks s' ->
  k_bcache s = k_bcache s' ->
  k_log s = k_log s' ->
  k_sb s = k_sb s' ->
  k_disk s = k_disk s' ->
  k_cons s = k_cons s' ->
  k_uart s = k_uart s' ->
  k_panicked s = k_panicked s' ->
  k_kpgtbl s = k_kpgtbl s' ->
  k_csr s = k_csr s' ->
  k_devsw s = k_devsw s' ->
  k_pr_locking s = k_pr_locking s' ->
  k_vdisk s = k_vdisk s' ->
  k_started s = k_started s' ->
  k_writes s = k_writes s' ->
  s = s'.
Proof. destruct s, s'. cbn. intros. subst. reflexivity. Qed.

Lemma ok_eq {A} (a b : A) s s' : a = b -> s = s' -> Ok a s = Ok b s'.
Proof. congruence. Qed.

(** Compare two kernel states field by field; fields that agree syntactically are closed. *)
Ltac kst_eq :=
  apply kstate_ext; ksimpl; try match goal with |- ?x = ?x => reflexivity end.
