(* ===== verification/Spinlock.v ===== *)
(** * Spinlocks (kernel/spinlock.c)

    [push_off], [pop_off], [acquire], [release] and [holding] on the kernel state, and
    the test-and-set protocol as an interleaving of harts.  The sequential operations
    run on one hart: a lock that is already taken by another hart can then never be
    obtained, which is the result [Spin]. *)

From S2P Require Import Prelude Memory State Kmonad.
From Stdlib Require Import ZArith Lia.
From stdpp Require Import base numbers list gmap strings.

#[local] Open Scope Z_scope.
#[local] Open Scope kernel_scope.

(** ** Operations *)

Definition cpuid : M nat := gets k_hart.

(** struct cpu *mycpu(void) *)
Definition mycpu : M nat := let! id := cpuid in ret id.

Definition intr_get : M bool := gets k_sie.
Definition intr_on : M unit := modify (set_k_sie true).
Definition intr_off : M unit := modify (set_k_sie false).

Definition lk_free : spinlock := mkspinlock 0 None.
Definition lk_held (c : nat) : spinlock := mkspinlock 1 (Some c).

(** The current value of a lock; an uninitialised lock is zero, like the BSS. *)
Definition lock_of (l : lockid) (s : kstate) : spinlock := default lk_free (k_locks s !! l).
Definition set_lock (l : lockid) (v : spinlock) : M unit :=
  modify (fun s => set_k_locks (<[l := v]> (k_locks s)) s).

Definition initlock (l : lockid) : M unit := set_lock l lk_free.

Definition push_off : M unit :=
  let! old := intr_get in
  intr_off ;!
  let! c := mycpu in
  let! noff := gets (fun s => c_noff (k_cpus s !!! c)) in
  when (noff =? 0) (modify (upd_cpu c (set_c_intena old))) ;!
  modify (upd_cpu c (fun x => set_c_noff (c_noff x + 1) x)).

Definition pop_off : M unit :=
  let! c := mycpu in
  let! on := intr_get in
  if on then panic "pop_off - interruptible" else
  let! noff := gets (fun s => c_noff (k_cpus s !!! c)) in
  if noff <? 1 then panic "pop_off" else
  modify (upd_cpu c (fun x => set_c_noff (c_noff x - 1) x)) ;!
  let! x := gets (fun s => k_cpus s !!! c) in
  when ((c_noff x =? 0) && c_intena x) intr_on.

Definition holding (l : lockid) : M bool :=
  let! c := mycpu in
  gets (fun s => truth (lk_locked (lock_of l s)) && bool_decide (lk_cpu (lock_of l s) = Some c)).

(** The loop on __sync_lock_test_and_set: when the word was already 1 the hart spins,
    and in a run of one hart nothing will change the word. *)
Definition test_and_set (l : lockid) : M unit := fun s =>
  let x := lock_of l s in
  if truth (lk_locked x) then Spin l else set_lock l (mkspinlock 1 (lk_cpu x)) s.

Definition acquire (l : lockid) : M unit :=
  push_off ;!
  let! h := holding l in
  if h then panic "acquire" else
  test_and_set l ;!
  let! c := mycpu in
  let! x := gets (lock_of l) in
  set_lock l (mkspinlock (lk_locked x) (Some c)).

Definition release (l : lockid) : M unit :=
  let! h := holding l in
  if negb h then panic "release" else
  let! x := gets (lock_of l) in
  set_lock l (mkspinlock (lk_locked x) None) ;!
  let! y := gets (lock_of l) in
  set_lock l (mkspinlock 0 (lk_cpu y)) ;!
  pop_off.

(** ** Their effect as state functions *)

Definition my (s : kstate) : cpu := k_cpus s !!! k_hart s.
Definition noff (s : kstate) : Z := c_noff (my s).

(** The hart's struct cpu exists, its depth is not negative, and interrupts are off
    while some push_off is pending. *)
Definition cpu_ok (s : kstate) : Prop :=
  (k_hart s < length (k_cpus s))%nat /\ 0 <= noff s /\ (0 < noff s -> k_sie s = false).

Definition push_cpu (sie : bool) (c : cpu) : cpu :=
  mkcpu (c_proc c) (c_noff c + 1) (if c_noff c =? 0 then sie else c_intena c).
Definition pop_cpu (c : cpu) : cpu := mkcpu (c_proc c) (c_noff c - 1) (c_intena c).

Definition push_st (s : kstate) : kstate :=
  set_k_sie false (upd_cpu (k_hart s) (push_cpu (k_sie s)) s).
Definition pop_st (s : kstate) : kstate :=
  set_k_sie ((noff s =? 1) && c_intena (my s) || k_sie s) (upd_cpu (k_hart s) pop_cpu s).

(** What a matched push_off/pop_off pair leaves behind: at depth 0 the intena field
    records the interrupt flag. *)
Definition settle_cpu (sie : bool) (c : cpu) : cpu :=
  if c_noff c =? 0 then set_c_intena sie c else c.
Definition settle (s : kstate) : kstate := upd_cpu (k_hart s) (settle_cpu (k_sie s)) s.

Definition lock_free (l : lockid) (s : kstate) : Prop := k_locks s !! l = Some lk_free.
Definition lock_mine (l : lockid) (s : kstate) : Prop :=
  k_locks s !! l = Some (lk_held (k_hart s)).

Definition acq_st (l : lockid) (s : kstate) : kstate :=
  set_k_locks (<[l := lk_held (k_hart s)]> (k_locks s)) (push_st s).
Definition rel_st (l : lockid) (s : kstate) : kstate :=
  set_k_locks (<[l := lk_free]> (k_locks s)) (pop_st s).

(** Close an equation between two returned states. *)
Ltac kdone :=
  unfold ret, modify, acq_st, rel_st, push_st, pop_st, settle;
  apply ok_eq; [try reflexivity | kst_eq].

(** ** Lemmas *)

Lemma my_upd f s :
  (k_hart s < length (k_cpus s))%nat -> my (upd_cpu (k_hart s) f s) = f (my s).
Proof. intros H. apply list_lookup_total_alter_eq, H. Qed.

Lemma push_off_eq s : push_off s = Ok tt (push_st s).
Proof.
  unfold push_off, intr_get, intr_off, mycpu, cpuid, when, push_st, upd_cpu.
  do 4 kprim. cbn [k_hart k_cpus set_k_sie].
  destruct (Z.eqb_spec (c_noff (k_cpus s !!! k_hart s)) 0) as [E|E]; kprim;
    unfold modify, upd_cpu; cbn [k_cpus set_k_cpus set_k_sie];
    [rewrite list_alter_alter_eq|]; f_equal; kst_eq;
    apply alter_ext_at; unfold compose, push_cpu, set_c_noff, set_c_intena; cbn;
    [rewrite E, Z.eqb_refl | apply Z.eqb_neq in E; rewrite E]; reflexivity.
Qed.

Lemma pop_off_eq s :
  (k_hart s < length (k_cpus s))%nat -> 1 <= noff s -> k_sie s = false ->
  pop_off s = Ok tt (pop_st s).
Proof.
  intros Hh Hn Hs. unfold pop_off, intr_get, mycpu, cpuid.
  do 2 kprim. rewrite Hs. kprim.
  fold (my s) (noff s). destruct (Z.ltb_spec (noff s) 1); [lia|]. do 2 kprim.
  unfold pop_st, upd_cpu. cbn [k_cpus set_k_cpus]. rewrite Hs, orb_false_r.
  rewrite list_lookup_total_alter_eq by done. cbn [c_noff c_intena set_c_noff].
  unfold noff, my in *.
  replace (c_noff (k_cpus s !!! k_hart s) - 1 =? 0)
    with (c_noff (k_cpus s !!! k_hart s) =? 1) by (repeat case_b; lia).
  destruct ((_ =? 1) && _); unfold when, intr_on, ret, modify; [reflexivity|].
  f_equal. kst_eq; auto.
Qed.

(** Releasing a nested critical section restores the flag of its entry. *)
Lemma pop_push_st s : cpu_ok s -> pop_st (push_st s) = settle s.
Proof.
  intros (Hh & Hn & Hs). unfold pop_st, push_st, settle, upd_cpu, noff, my.
  cbn [k_cpus set_k_sie set_k_cpus k_hart k_sie].
  rewrite list_lookup_total_alter_eq, list_alter_alter_eq by done. unfold push_cpu. cbn [c_noff c_intena].
  unfold noff, my in *. kst_eq.
  - destruct (Z.eqb_spec (c_noff (k_cpus s !!! k_hart s)) 0) as [E|E].
    + rewrite E. cbn. apply orb_false_r.
    + rewrite Hs by lia. destruct (Z.eqb_spec (c_noff (k_cpus s !!! k_hart s) + 1) 1); lia || reflexivity.
  - apply alter_ext_at. unfold compose, pop_cpu, settle_cpu. cbn.
    destruct (k_cpus s !!! k_hart s) as [p n i]. cbn. rewrite Z.add_simpl_r.
    destruct (n =? 0); reflexivity.
Qed.

Lemma lock_of_some l s x : k_locks s !! l = Some x -> lock_of l s = x.
Proof. intros H. unfold lock_of. rewrite H. reflexivity. Qed.

Definition holds (l : lockid) (s : kstate) : bool :=
  truth (lk_locked (lock_of l s)) && bool_decide (lk_cpu (lock_of l s) = Some (k_hart s)).

Lemma holding_eq l s : holding l s = Ok (holds l s) s.
Proof. reflexivity. Qed.

Lemma holds_mine l s : lock_mine l s -> holds l s = true.
Proof.
  intros H. unfold holds. rewrite (lock_of_some _ _ _ H). cbn. by rewrite bool_decide_true.
Qed.

Lemma holds_free l s : lock_free l s -> holds l s = false.
Proof. intros H. unfold holds. rewrite (lock_of_some _ _ _ H). reflexivity. Qed.

Lemma acquire_eq l s : lock_free l s -> acquire l s = Ok tt (acq_st l s).
Proof.
  intros Hl. unfold acquire. kstep push_off_eq. kstep holding_eq.
  rewrite holds_free by done.
  erewrite bind_ok; [|unfold test_and_set; rewrite (lock_of_some l (push_st s) lk_free) by done;
                      reflexivity].
  do 2 kprim. unfold set_lock, modify, lock_of. ksimpl.
  rewrite lookup_insert_eq. cbn. unfold acq_st. f_equal. kst_eq. apply insert_insert_eq.
Qed.

Lemma acquire_held l s : lock_mine l s -> acquire l s = Panic "acquire".
Proof.
  intros Hl. unfold acquire. kstep push_off_eq. kstep holding_eq.
  rewrite holds_mine by done. reflexivity.
Qed.

Lemma release_eq l s :
  lock_mine l s -> (k_hart s < length (k_cpus s))%nat -> 1 <= noff s -> k_sie s = false ->
  release l s = Ok tt (rel_st l s).
Proof.
  intros Hl Hh Hn Hs. unfold release. kstep holding_eq. rewrite holds_mine by done.
  cbn [negb]. do 4 kprim. rewrite pop_off_eq by done. unfold rel_st. f_equal.
  unfold pop_st, noff, my, lock_of. kst_eq.
  rewrite lookup_insert_eq. cbn. apply insert_insert_eq.
Qed.

Lemma release_not_held l s : holds l s = false -> release l s = Panic "release".
Proof. intros H. unfold release. kstep holding_eq. rewrite H. reflexivity. Qed.

(** Leaving a critical section, whatever the section did to the rest of the state. *)
Lemma release_acquired l s s' :
  lock_free l s -> cpu_ok s -> k_hart s' = k_hart s -> k_sie s' = false ->
  k_cpus s' = k_cpus (acq_st l s) -> k_locks s' = k_locks (acq_st l s) ->
  release l s' =
    Ok tt (set_k_sie (k_sie s) (set_k_cpus (k_cpus (settle s)) (set_k_locks (k_locks s) s'))).
Proof.
  intros Hl Hc Hh Hs Ec El. pose proof (pop_push_st s Hc) as P.
  destruct Hc as (Hlen & Hn & _). rewrite release_eq.
  - f_equal. unfold rel_st. unfold pop_st in *. unfold noff, my in *.
    rewrite Ec, El, Hh, Hs in *. unfold acq_st in *. ksimpl.
    pose proof (f_equal k_cpus P) as P1. pose proof (f_equal k_sie P) as P2. ksimpl_in P1. ksimpl_in P2.
    kst_eq; auto.
    + rewrite Ec. exact P1.
    + rewrite insert_insert_eq. apply insert_id, Hl.
  - unfold lock_mine. rewrite El, Hh. unfold acq_st. ksimpl. apply lookup_insert_eq.
  - rewrite Hh, Ec. unfold acq_st, push_st. ksimpl. by rewrite length_alter.
  - unfold noff, my in *. rewrite Ec, Hh. unfold acq_st, push_st. ksimpl.
    rewrite list_lookup_total_alter_eq by done. unfold push_cpu. cbn. lia.
  - done.
Qed.

Lemma settle_idemp s : settle (settle s) = settle s.
Proof.
  unfold settle. kst_eq. rewrite list_alter_alter_eq. apply alter_ext_at.
  unfold compose, settle_cpu. destruct (k_cpus s !!! k_hart s) as [p n i]. cbn.
  destruct (Z.eqb_spec n 0) as [->|E]; [reflexivity|]. cbn. apply Z.eqb_neq in E. by rewrite E.
Qed.

Lemma noff_settle s : cpu_ok s -> noff (settle s) = noff s.
Proof.
  intros (H & _). unfold noff, settle. rewrite my_upd by done. unfold settle_cpu.
  destruct (my s) as [p n i]. cbn. by destruct (n =? 0).
Qed.

Lemma cpu_ok_settle s : cpu_ok s -> cpu_ok (settle s).
Proof.
  intros H. pose proof H as (Hh & Hn & Hs). unfold cpu_ok.
  rewrite noff_settle by done. unfold settle. ksimpl. rewrite length_alter. auto.
Qed.

Lemma cpu_ok_push s : cpu_ok s -> cpu_ok (push_st s) /\ noff (push_st s) = noff s + 1.
Proof.
  intros (H & Hn & Hs). unfold cpu_ok, noff, push_st in *. unfold my in *. ksimpl.
  rewrite length_alter, list_lookup_total_alter_eq by done. cbn. auto with lia.
Qed.

Lemma settle_nested s : 0 < noff s -> settle s = s.
Proof.
  intros H. unfold settle, upd_cpu, noff, my in *. rewrite alter_id_at.
  - destruct s; reflexivity.
  - unfold settle_cpu. destruct (Z.eqb_spec (c_noff (k_cpus s !!! k_hart s)) 0); lia || reflexivity.
Qed.

(** ** Sequences of push_off and pop_off *)

Inductive pp := Push | Pop.

Definition run_pp (o : pp) : M unit := match o with Push => push_off | Pop => pop_off end.

(** The nesting depth after a sequence started at depth [d]; [None] when some pop_off
    has no matching push_off. *)
Fixpoint pp_depth (d : Z) (w : list pp) : option Z :=
  match w with
  | [] => Some d
  | Push :: w' => pp_depth (d + 1) w'
  | Pop :: w' => if d =? 0 then None else pp_depth (d - 1) w'
  end.

(** The state inside a sequence started at depth 0 with interrupt flag [sie0]. *)
Definition pp_inv (s0 : kstate) (d : Z) (s : kstate) : Prop :=
  (k_hart s < length (k_cpus s))%nat /\ noff s = d /\ 0 <= d /\
  k_sie s = (if d =? 0 then k_sie s0 else false) /\
  (0 < d -> c_intena (my s) = k_sie s0) /\
  set_k_sie (k_sie s0) (set_k_cpus (k_cpus s0) s) = s0.

Lemma pp_inv_push s0 d s : pp_inv s0 d s -> pp_inv s0 (d + 1) (push_st s).
Proof.
  intros (Hh & Hn & Hd & Hs & Hi & E). unfold pp_inv, noff, my, push_st in *. ksimpl.
  rewrite length_alter, list_lookup_total_alter_eq by done. cbn [c_noff c_intena push_cpu].
  destruct (Z.eqb_spec (d + 1) 0); [lia|]. repeat split; auto; try lia.
  rewrite Hn. intros _. destruct (Z.eqb_spec d 0); auto with lia.
Qed.

Lemma pp_inv_pop s0 d s :
  d <> 0 -> pp_inv s0 d s -> pop_off s = Ok tt (pop_st s) /\ pp_inv s0 (d - 1) (pop_st s).
Proof.
  intros Hd0 (Hh & Hn & Hd & Hs & Hi & E). destruct (Z.eqb_spec d 0) as [|_]; [lia|].
  split; [apply pop_off_eq; auto; lia|].
  unfold pp_inv, pop_st, noff, my in *. ksimpl.
  rewrite length_alter, list_lookup_total_alter_eq by done. cbn [c_noff c_intena pop_cpu].
  rewrite Hs, orb_false_r, Hi by lia. repeat split; auto; try lia.
  rewrite Hn. replace (d - 1 =? 0) with (d =? 1) by (repeat case_b; lia).
  destruct (d =? 1); destruct (k_sie s0); reflexivity.
Qed.

Lemma push_pop_run w s0 d s1 :
  pp_inv s0 d s1 ->
  match pp_depth d w with
  | Some d' => exists s', foreach w run_pp s1 = Ok tt s' /\ pp_inv s0 d' s'
  | None => foreach w run_pp s1 =
              Panic (if k_sie s0 then "pop_off - interruptible" else "pop_off")
  end.
Proof.
  revert d s1. induction w as [|[] w IH]; intros d s1 I; cbn [pp_depth foreach].
  - exists s1. auto.
  - kstep push_off_eq. apply IH, pp_inv_push, I.
  - destruct (Z.eqb_spec d 0) as [->|Hd].
    + destruct I as (Hh & Hn & _ & Hs & _). apply bind_panic.
      cbn [run_pp]. unfold pop_off, mycpu, cpuid, intr_get. do 2 kprim.
      cbn in Hs. rewrite Hs. destruct (k_sie s0); [reflexivity|]. kprim.
      fold (my s1) (noff s1). rewrite Hn. reflexivity.
    + destruct (pp_inv_pop s0 d s1 Hd I) as (Ep & I'). kstep Ep. apply IH, I'.
Qed.



(** ** The lock word shared by several harts

    acquire and release cut at their accesses to the shared struct spinlock.  Each hart
    repeatedly calls acquire, runs a critical section and calls release; the harts'
    accesses interleave arbitrarily. *)

Module Protocol.

(** Where a hart is: outside, spinning on the swap, past the swap (line 42 next), in
    the critical section, in release before clearing lk->cpu (line 52 next), before
    clearing lk->locked (line 69 next), or in a panic. *)
Inductive hpc := Out | Try | Got | In | RelCpu | RelWord | Panicked.

Record pstate := mkpstate { lk : spinlock; pc : nat -> hpc }.

Definition move (h : nat) (x : hpc) (f : nat -> hpc) : nat -> hpc :=
  fun i => if Nat.eqb i h then x else f i.

(** lk->locked && lk->cpu == mycpu(), evaluated by hart [h]. *)
Definition holding_by (h : nat) (x : spinlock) : bool :=
  truth (lk_locked x) && bool_decide (lk_cpu x = Some h).

(** The next access of hart [h]. *)
Definition hart_step (h : nat) (st : pstate) : pstate :=
  let x := lk st in
  match pc st h with
  | Out => mkpstate x (move h (if holding_by h x then Panicked else Try) (pc st))
  | Try => if truth (lk_locked x) then mkpstate (mkspinlock 1 (lk_cpu x)) (pc st)
           else mkpstate (mkspinlock 1 (lk_cpu x)) (move h Got (pc st))
  | Got => mkpstate (mkspinlock (lk_locked x) (Some h)) (move h In (pc st))
  | In => mkpstate x (move h (if holding_by h x then RelCpu else Panicked) (pc st))
  | RelCpu => mkpstate (mkspinlock (lk_locked x) None) (move h RelWord (pc st))
  | RelWord => mkpstate (mkspinlock 0 (lk_cpu x)) (move h Out (pc st))
  | Panicked => st
  end.

Inductive reachable : pstate -> Prop :=
  | reach_init : reachable (mkpstate lk_free (fun _ => Out))
  | reach_step h st : reachable st -> reachable (hart_step h st).

(** Past the swap and not yet unlocked. *)
Definition owns (x : hpc) : Prop := match x with Got | In | RelCpu | RelWord => True | _ => False end.
Definition waits (x : hpc) : Prop := match x with Out | Try => True | _ => False end.

Definition owner_cpu (h : nat) (x : hpc) : option nat :=
  match x with In | RelCpu => Some h | _ => None end.

Definition inv (st : pstate) : Prop :=
  (lk st = lk_free /\ forall h, waits (pc st h)) \/
  (exists h, owns (pc st h) /\ lk st = mkspinlock 1 (owner_cpu h (pc st h)) /\
             forall h', h' <> h -> waits (pc st h')).

Lemma move_same h x f : move h x f h = x.
Proof. unfold move. by rewrite Nat.eqb_refl. Qed.

Lemma move_other h x f h' : h' <> h -> move h x f h' = f h'.
Proof. unfold move. intros H. apply Nat.eqb_neq in H. by rewrite H. Qed.

Lemma waits_move h x f : waits x -> (forall h', h' <> h -> waits (f h')) -> forall h', waits (move h x f h').
Proof.
  intros Hx Hf h'. destruct (decide (h' = h)) as [->|]; [by rewrite move_same|].
  rewrite move_other; auto.
Qed.

Lemma inv_owned h st x l :
  owns x -> l = mkspinlock 1 (owner_cpu h x) -> (forall h', h' <> h -> waits (pc st h')) ->
  inv (mkpstate l (move h x (pc st))).
Proof.
  intros Hx -> Hw. right. exists h. cbn. rewrite move_same. repeat split; auto.
  intros. rewrite move_other; auto.
Qed.

Lemma inv_step h st : inv st -> inv (hart_step h st).
Proof.
  intros [(El & Hw) | (o & Ho & El & Hw)]; unfold hart_step; rewrite El.
  - pose proof (Hw h). destruct (pc st h) eqn:E; cbn in H; try contradiction; cbn.
    + left. split; [done|]. cbn. apply waits_move; cbn; auto.
    + apply inv_owned; cbn; auto.
  - destruct (decide (h = o)) as [->|N].
    + destruct (pc st o) eqn:E; cbn in Ho; try contradiction;
        unfold holding_by; cbn; rewrite ?bool_decide_true by done;
        try (apply inv_owned; cbn; auto; fail).
      left. cbn. split; [done|]. apply waits_move; cbn; auto.
    + pose proof (Hw h N) as Wh. unfold holding_by. cbn [lk_locked lk_cpu truth].
      assert (B : bool_decide (owner_cpu o (pc st o) = Some h) = false).
      { apply bool_decide_eq_false. intros C.
        destruct (pc st o); cbn in C; congruence. }
      rewrite B. cbn.
      destruct (pc st h) eqn:E; cbn in Wh; try contradiction; cbn.
      * right. exists o. cbn. rewrite move_other by auto. repeat split; auto.
        intros h' N'. destruct (decide (h' = h)) as [->|]; [by rewrite move_same|].
        rewrite move_other; auto.
      * right. exists o. cbn. auto.
Qed.

(** C32: in every interleaving of any number of harts on one lock, no two harts are ever
    past the atomic swap of acquire and before the unlock of release at the same time,
    and neither the panic of acquire nor that of release is reached: the unlocked
    reads of lk->locked and lk->cpu in holding() always give the right answer to the
    hart that asks. *)
Theorem mutual_exclusion st :
  reachable st ->
  (forall h h', owns (pc st h) -> owns (pc st h') -> h = h') /\
  (forall h, pc st h <> Panicked) /\
  (forall h, pc st h = In -> holding_by h (lk st) = true) /\
  (forall h, waits (pc st h) -> holding_by h (lk st) = false).
Proof.
  intros R. assert (I : inv st).
  { induction R; [left; cbn; auto | by apply inv_step]. }
  assert (NW : forall x, owns x -> ~ waits x) by (intros []; cbn; auto).
  destruct I as [(El & Hw) | (o & Ho & El & Hw)]; rewrite El.
  - split; [|split; [|split]]; intros h; pose proof (Hw h) as W.
    + intros h' H. by apply NW in H.
    + intros E. rewrite E in W. contradiction.
    + intros E. rewrite E in W. contradiction.
    + reflexivity.
  - assert (D : forall h, h = o \/ waits (pc st h)) by (intros h; destruct (decide (h = o)); auto).
    unfold holding_by. cbn. split; [|split; [|split]].
    + intros h h' H H'. destruct (D h) as [->|W]; [|by apply NW in W].
      destruct (D h') as [->|W]; [done | by apply NW in W].
    + intros h E. destruct (D h) as [->|W]; [rewrite E in Ho | rewrite E in W]; contradiction.
    + intros h E. destruct (D h) as [->|W]; [|rewrite E in W; contradiction].
      rewrite E. cbn. by apply bool_decide_eq_true.
    + intros h W. apply bool_decide_eq_false. intros C.
      destruct (decide (h = o)) as [->|N]; [by apply NW in Ho|].
      destruct (pc st o); cbn in C; congruence.
Qed.

Definition two_harts : pstate := hart_step 1 (hart_step 0 (hart_step 0 (hart_step 0
  (hart_step 1 (mkpstate lk_free (fun _ => Out)))))).

Lemma mutual_exclusion_witness :
  pc two_harts 0 = In /\ pc two_harts 1 = Try /\ holding_by 0 (lk two_harts) = true.
Proof.
  split; [reflexivity|]. split; [reflexivity|].
  apply (mutual_exclusion two_harts); [|reflexivity].
  unfold two_harts. repeat constructor.
Defined.

End Protocol.
