(* ===== verification/CString.v ===== *)
(** * Byte and string routines (kernel/string.c)

    [memset] and [memmove] act on physical memory.  The read-only routines take the
    bytes behind a pointer as a function of the offset, so that they apply to physical
    memory and to kernel arrays alike; the copying string routines give the bytes they
    store at the destination, first to last. *)

From S2P Require Import Prelude Memory State Kmonad.
From Stdlib Require Import ZArith Lia.
From stdpp Require Import base numbers list gmap strings.

#[local] Open Scope Z_scope.
#[local] Open Scope kernel_scope.

(** ** memset and memmove *)

Fixpoint memset_loop (n : nat) (dst c : Z) (m : memory) : memory :=
  match n with
  | O => m
  | S n' => memset_loop n' (dst + 1) c (<[dst := u8 c]> m)
  end.

Definition memset (dst c n : Z) : M unit :=
  modify (fun s => set_k_mem (memset_loop (Z.to_nat (u32 n)) dst c (k_mem s)) s).

(** while(n-- > 0) *d++ = *s++; *)
Fixpoint copy_up (n : nat) (d s : Z) (m : memory) : memory :=
  match n with
  | O => m
  | S n' => copy_up n' (d + 1) (s + 1) (<[d := mget m s]> m)
  end.

(** while(n-- > 0) *--d = *--s; with d and s one past the byte to copy. *)
Fixpoint copy_down (n : nat) (d s : Z) (m : memory) : memory :=
  match n with
  | O => m
  | S n' => copy_down n' (d - 1) (s - 1) (<[d - 1 := mget m (s - 1)]> m)
  end.

Definition memmove_mem (dst src n : Z) (m : memory) : memory :=
  let n := u32 n in
  if n =? 0 then m
  else if (src <? dst) && (dst <? src + n)
  then copy_down (Z.to_nat n) (dst + n) (src + n) m
  else copy_up (Z.to_nat n) dst src m.

Definition memmove (dst src n : Z) : M unit :=
  modify (fun s => set_k_mem (memmove_mem dst src n (k_mem s)) s).

(** ** Comparisons and lengths *)

Fixpoint memcmp_from (n : nat) (i : Z) (v1 v2 : Z -> Z) : Z :=
  match n with
  | O => 0
  | S n' => if v1 i =? v2 i then memcmp_from n' (i + 1) v1 v2 else v1 i - v2 i
  end.
Definition memcmp (v1 v2 : Z -> Z) (n : Z) : Z := memcmp_from (Z.to_nat n) 0 v1 v2.

Fixpoint strncmp_from (n : nat) (i : Z) (p q : Z -> Z) : Z :=
  match n with
  | O => 0
  | S n' => if truth (p i) && (p i =? q i) then strncmp_from n' (i + 1) p q else p i - q i
  end.
Definition strncmp (p q : Z -> Z) (n : Z) : Z := strncmp_from (Z.to_nat n) 0 p q.

(** strlen, given a bound on where the terminating NUL is; [None] when there is none. *)
Fixpoint strlen_from (fuel : nat) (i : Z) (s : Z -> Z) : option Z :=
  match fuel with
  | O => None
  | S fuel' => if truth (s i) then strlen_from fuel' (i + 1) s else Some i
  end.
Definition strlen (fuel : nat) (s : Z -> Z) : option Z := strlen_from fuel 0 s.

(** ** Copies *)

(** The bytes strncpy stores: it copies up to and including the first NUL and pads. *)
Fixpoint strncpy_from (n : nat) (i : Z) (t : Z -> Z) : list Z :=
  match n with
  | O => []
  | S n' => if truth (t i) then t i :: strncpy_from n' (i + 1) t else 0 :: replicate n' 0
  end.
Definition strncpy (t : Z -> Z) (n : Z) : list Z := strncpy_from (Z.to_nat n) 0 t.

(** The bytes safestrcpy stores: the loop body runs at most n - 1 times, then *s = 0. *)
Fixpoint safestrcpy_from (k : nat) (i : Z) (t : Z -> Z) : list Z :=
  match k with
  | O => [0]
  | S k' => if truth (t i) then t i :: safestrcpy_from k' (i + 1) t else [t i; 0]
  end.
Definition safestrcpy (t : Z -> Z) (n : Z) : list Z :=
  if n <=? 0 then [] else safestrcpy_from (Z.to_nat (n - 1)) 0 t.

(** The bytes of an array, by offset; beyond its end, zero. *)
Definition bytes_at (l : list Z) : Z -> Z := fun i => nth (Z.to_nat i) l 0.

(** Store [l'] over the start of the array [l]. *)
Definition overlay (l' l : list Z) : list Z := l' ++ drop (length l') l.

(** ** Reference semantics *)

(** The first [n] characters of the C string at [p], without its NUL. *)
Fixpoint cstrn (n : nat) (i : Z) (p : Z -> Z) : list Z :=
  match n with
  | O => []
  | S n' => if p i =? 0 then [] else p i :: cstrn n' (i + 1) p
  end.

(** ** memset and memmove are the stores they should be *)

Lemma memset_loop_eq n dst c m : memset_loop n dst c m = mwrite m dst (replicate n (u8 c)).
Proof. revert dst m; induction n as [|n IH]; intros; [reflexivity|]. cbn. apply IH. Qed.

Lemma memset_eq dst c n s :
  0 <= n < 4294967296 ->
  memset dst c n s = Ok tt (set_k_mem (mwrite (k_mem s) dst (replicate (Z.to_nat n) (u8 c))) s).
Proof.
  intros Hn. unfold memset, modify. rewrite memset_loop_eq, u32_small by done. reflexivity.
Qed.

Lemma copy_up_eq n d s m :
  (d <= s \/ s + Z.of_nat n <= d) -> forall x,
  mget (copy_up n d s m) x = if (d <=? x) && (x <? d + Z.of_nat n) then mget m (x - d + s) else mget m x.
Proof.
  revert d s m; induction n as [|n IH]; intros d s m H x.
  - cbn [copy_up]. destruct (Z.leb_spec d x), (Z.ltb_spec x (d + Z.of_nat 0)); cbn; lia || auto.
  - cbn [copy_up]. rewrite IH by lia. rewrite !mget_insert, Nat2Z.inj_succ.
    destruct (Z.leb_spec (d + 1) x), (Z.ltb_spec x (d + 1 + Z.of_nat n)), (Z.leb_spec d x),
      (Z.ltb_spec x (d + Z.succ (Z.of_nat n))); cbn; try lia.
    + destruct (Z.eqb_spec (x - (d + 1) + (s + 1)) d); f_equal; lia.
    + destruct (Z.eqb_spec x d); [lia|reflexivity].
    + destruct (Z.eqb_spec x d); [|lia]. f_equal; lia.
    + destruct (Z.eqb_spec x d); [lia|reflexivity].
Qed.

Lemma copy_down_eq n d s m :
  s <= d -> forall x,
  mget (copy_down n d s m) x =
    if (d - Z.of_nat n <=? x) && (x <? d) then mget m (x - d + s) else mget m x.
Proof.
  revert d s m; induction n as [|n IH]; intros d s m H x.
  - cbn [copy_down]. destruct (Z.leb_spec (d - Z.of_nat 0) x), (Z.ltb_spec x d); cbn; lia || auto.
  - cbn [copy_down]. rewrite IH by lia. rewrite !mget_insert, Nat2Z.inj_succ.
    destruct (Z.leb_spec (d - 1 - Z.of_nat n) x), (Z.ltb_spec x (d - 1)),
      (Z.leb_spec (d - Z.succ (Z.of_nat n)) x), (Z.ltb_spec x d); cbn; try lia.
    + destruct (Z.eqb_spec (x - (d - 1) + (s - 1)) (d - 1)); f_equal; lia.
    + destruct (Z.eqb_spec x (d - 1)); [|lia]. f_equal; lia.
    + destruct (Z.eqb_spec x (d - 1)); [lia|reflexivity].
    + destruct (Z.eqb_spec x (d - 1)); [lia|reflexivity].
Qed.

Lemma mget_memmove_mem dst src n m :
  0 <= n < 4294967296 -> forall x,
  mget (memmove_mem dst src n m) x =
    if (dst <=? x) && (x <? dst + n) then mget m (x - dst + src) else mget m x.
Proof.
  intros Hn x. unfold memmove_mem. rewrite u32_small by done.
  destruct (Z.eqb_spec n 0) as [->|N].
  - destruct (Z.leb_spec dst x), (Z.ltb_spec x (dst + 0)); cbn; lia || auto.
  - destruct (Z.ltb_spec src dst), (Z.ltb_spec dst (src + n)); cbn [andb];
      rewrite ?copy_down_eq, ?copy_up_eq by lia; rewrite Z2Nat.id by lia;
      rewrite ?Z.add_simpl_r; try reflexivity.
    destruct ((dst <=? x) && (x <? dst + n)); [|reflexivity]. f_equal. lia.
Qed.

(** C39: memmove copies correctly for every overlap of source and destination: afterwards
    the destination holds the bytes the source held before the call, and every byte
    outside the destination is unchanged. *)
Theorem memmove_correct dst src n s :
  0 <= n < 4294967296 ->
  exists s', memmove dst src n s = Ok tt s' /\
    mread (k_mem s') dst (Z.to_nat n) = mread (k_mem s) src (Z.to_nat n) /\
    (forall x, ~ dst <= x < dst + n -> mget (k_mem s') x = mget (k_mem s) x).
Proof.
  intros Hn. unfold memmove, modify. eexists. split; [reflexivity|]. ksimpl.
  pose proof (mget_memmove_mem dst src n (k_mem s) Hn) as G.
  split.
  - apply list_eq. intros i. destruct (decide (i < Z.to_nat n)%nat) as [L|L].
    + rewrite !lookup_mread by done. rewrite G.
      destruct (Z.leb_spec dst (dst + Z.of_nat i)), (Z.ltb_spec (dst + Z.of_nat i) (dst + n));
        cbn; try lia. do 2 f_equal. lia.
    + rewrite !lookup_ge_None_2; rewrite ?length_mread; auto with lia.
  - intros x Hx. rewrite G.
    destruct (Z.leb_spec dst x), (Z.ltb_spec x (dst + n)); cbn; lia || auto.
Qed.

Lemma memmove_correct_witness :
  exists s', memmove 1002 1000 5 (set_k_mem (mwrite ∅ 1000 [1; 2; 3; 4; 5]) kstate0) = Ok tt s' /\
    mread (k_mem s') 1002 5 = [1; 2; 3; 4; 5].
Proof.
  destruct (memmove_correct 1002 1000 5 (set_k_mem (mwrite ∅ 1000 [1; 2; 3; 4; 5]) kstate0))
    as (s' & E & R & _); [lia|].
  exists s'. split; [exact E|]. etransitivity; [exact R|]. vm_compute. reflexivity.
Defined.

(** ** String routines *)

Lemma strncmp_from_zero n i p q :
  strncmp_from n i p q = 0 <-> cstrn n i p = cstrn n i q.
Proof.
  revert i; induction n as [|n IH]; intros i; [done|]. cbn [strncmp_from cstrn]. unfold truth.
  destruct (Z.eqb_spec (p i) 0) as [E|E]; cbn.
  - rewrite E. destruct (Z.eqb_spec (q i) 0) as [Eq|Eq]; split; intros H; try done; lia.
  - destruct (Z.eqb_spec (p i) (q i)) as [Eq|Eq].
    + rewrite <- Eq. apply Z.eqb_neq in E. rewrite E. rewrite IH. split; congruence.
    + destruct (Z.eqb_spec (q i) 0); split; intros H; try done; [lia.. | congruence].
Qed.

Lemma length_strncpy_from n i t : length (strncpy_from n i t) = n.
Proof.
  revert i; induction n as [|n IH]; intros i; [done|]. cbn.
  destruct (truth (t i)); cbn; [by rewrite IH | by rewrite length_replicate].
Qed.

Lemma cstrn_ext n i j p q :
  (forall k, 0 <= k < Z.of_nat n -> p (i + k) = q (j + k)) -> cstrn n i p = cstrn n j q.
Proof.
  revert i j; induction n as [|n IH]; intros i j H; [done|]. cbn.
  pose proof (H 0 ltac:(lia)) as H0. rewrite !Z.add_0_r in H0. rewrite H0.
  destruct (q j =? 0); [done|]. f_equal. apply IH. intros k Hk.
  replace (i + 1 + k) with (i + (k + 1)) by lia. replace (j + 1 + k) with (j + (k + 1)) by lia.
  apply H. lia.
Qed.

Lemma bytes_at_cons b l i : 0 < i -> bytes_at (b :: l) i = bytes_at l (i - 1).
Proof.
  intros H. unfold bytes_at. replace (Z.to_nat i) with (S (Z.to_nat (i - 1))) by lia. done.
Qed.

Lemma cstrn_bytes_cons n b l :
  cstrn (S n) 0 (bytes_at (b :: l)) = if b =? 0 then [] else b :: cstrn n 0 (bytes_at l).
Proof.
  cbn [cstrn]. change (bytes_at (b :: l) 0) with b. destruct (b =? 0); [done|]. f_equal.
  apply cstrn_ext. intros k Hk. rewrite bytes_at_cons by lia. f_equal. lia.
Qed.

Lemma strncpy_from_cstrn n i t : cstrn n 0 (bytes_at (strncpy_from n i t)) = cstrn n i t.
Proof.
  revert i; induction n as [|n IH]; intros i; [done|].
  cbn [strncpy_from]. unfold truth. destruct (Z.eqb_spec (t i) 0) as [E|E]; cbn [negb].
  - rewrite cstrn_bytes_cons. cbn [cstrn]. rewrite E. done.
  - rewrite cstrn_bytes_cons, IH. cbn [cstrn]. done.
Qed.

(** Directory names survive strncpy and compare by strncmp as strings: strncpy into
    an n-byte field stores exactly n bytes, and the field it stores compares equal under
    strncmp (with the same n) to another string exactly when the first n characters of
    the two strings are the same; so two names stored by dirlink and looked up by namecmp
    are identified iff their first DIRSIZ characters agree. *)
Theorem strncpy_strncmp (t q : Z -> Z) (n : Z) :
  length (strncpy t n) = Z.to_nat n /\
  (strncmp q (bytes_at (strncpy t n)) n = 0 <->
   cstrn (Z.to_nat n) 0 q = cstrn (Z.to_nat n) 0 t).
Proof.
  unfold strncpy, strncmp. rewrite length_strncpy_from. split; [done|].
  rewrite strncmp_from_zero, strncpy_from_cstrn. done.
Qed.

Lemma safestrcpy_from_spec k i t :
  (0 < length (safestrcpy_from k i t) <= S k)%nat /\
  last (safestrcpy_from k i t) = Some 0 /\
  cstrn (S k) 0 (bytes_at (safestrcpy_from k i t)) = cstrn k i t.
Proof.
  revert i; induction k as [|k IH]; intros i; [cbn; auto with lia|].
  cbn [safestrcpy_from]. change (cstrn (S k) i t) with (if t i =? 0 then [] else t i :: cstrn k (i + 1) t).
  unfold truth. destruct (Z.eqb_spec (t i) 0) as [E|E]; cbn [negb].
  - split; [cbn; lia|]. split; [done|]. rewrite cstrn_bytes_cons. rewrite E. done.
  - destruct (IH (i + 1)) as (L & La & C). split; [cbn; lia|]. split.
    + destruct (safestrcpy_from k (i + 1) t) eqn:S; [done|]. exact La.
    + rewrite cstrn_bytes_cons. apply Z.eqb_neq in E. rewrite E. f_equal. exact C.
Qed.

(** C40: safestrcpy(s, t, n) with n > 0 never stores more than n bytes, the last byte it
    stores is NUL, and the string it leaves at s is the source string cut to n - 1
    characters; with n <= 0 it stores nothing. *)
Theorem safestrcpy_terminated (t : Z -> Z) (n : Z) :
  (n <= 0 -> safestrcpy t n = []) /\
  (0 < n -> (length (safestrcpy t n) <= Z.to_nat n)%nat /\
            last (safestrcpy t n) = Some 0 /\
            cstrn (Z.to_nat n) 0 (bytes_at (safestrcpy t n)) = cstrn (Z.to_nat (n - 1)) 0 t).
Proof.
  unfold safestrcpy. destruct (Z.leb_spec n 0); (split; [done || lia|]); [lia|]. intros _.
  destruct (safestrcpy_from_spec (Z.to_nat (n - 1)) 0 t) as (L & La & C).
  replace (Z.to_nat n) with (S (Z.to_nat (n - 1))) by lia. auto with lia.
Qed.
