(* ===== verification/Kalloc.v ===== *)
(** * Physical page allocator (kernel/kalloc.c)

    The free list is threaded through the free pages themselves: the first eight bytes
    of a free page hold the address of the next one.  [flist] relates that list in
    memory to a list of page addresses; against it kalloc is a pop and kfree a push. *)

From S2P Require Import Prelude Memory Riscv State Kmonad Spinlock CString.
From Stdlib Require Import ZArith Lia.
From stdpp Require Import base numbers list gmap strings sorting.

#[local] Open Scope Z_scope.
#[local] Open Scope kernel_scope.

(** Addresses the linker chooses (kernel/kernel.ld): the end of the kernel image, the end
    of its text, the trampoline page with its two entry points, and the trap handlers. *)
Class KernelLayout := {
  kend : Z;
  etext : Z;
  trampoline : Z;
  uservec : Z;
  userret : Z;
  kernelvec : Z;
  usertrap_addr : Z }.

(** kernel.ld places the image at KERNBASE, well below PHYSTOP, and aligns the end of the
    text and the trampoline to pages. *)
Class LayoutOk `{KernelLayout} : Prop := {
  kend_range : KERNBASE <= kend <= PHYSTOP;
  etext_range : KERNBASE < etext <= kend /\ etext mod 4096 = 0;
  trampoline_ok : pa_ok trampoline /\ KERNBASE <= trampoline < etext }.

Section Kalloc.
Context `{L : KernelLayout}.

(** ** Operations *)

Definition kfree (pa : Z) : M unit :=
  if negb (pa mod PGSIZE =? 0) || (pa <? kend) || (PHYSTOP <=? pa) then panic "kfree" else
  memset pa 1 PGSIZE ;!
  acquire L_kmem ;!
  let! next := gets k_freelist in
  st64 pa next ;!
  modify (set_k_freelist pa) ;!
  release L_kmem.

Definition kalloc : M Z :=
  acquire L_kmem ;!
  let! r := gets k_freelist in
  when (truth r) (let! next := ld64 r in modify (set_k_freelist next)) ;!
  release L_kmem ;!
  when (truth r) (memset r 5 PGSIZE) ;!
  ret r.

(** for(; p + PGSIZE <= pa_end; p += PGSIZE) kfree(p); *)
Fixpoint freerange_loop (fuel : nat) (p pa_end : Z) : M unit :=
  match fuel with
  | O => nofuel
  | S fuel' =>
      if p + PGSIZE <=? pa_end then kfree p ;! freerange_loop fuel' (p + PGSIZE) pa_end
      else ret tt
  end.

Definition freerange (pa_start pa_end : Z) : M unit :=
  freerange_loop (S (Z.to_nat ((pa_end - pa_start) / PGSIZE))) (PGROUNDUP pa_start) pa_end.

Definition kinit : M unit :=
  initlock L_kmem ;!
  freerange kend PHYSTOP.

(** ** The free list *)

(** A page the allocator may own. *)
Definition page (p : Z) : Prop := p mod 4096 = 0 /\ kend <= p < PHYSTOP.

Fixpoint flist (m : memory) (p : Z) (l : list Z) : Prop :=
  match l with
  | [] => p = 0
  | x :: l' => p = x /\ p <> 0 /\ flist m (mld64 m p) l'
  end.

Definition kmem_ok (s : kstate) (l : list Z) : Prop :=
  flist (k_mem s) (k_freelist s) l /\ NoDup l /\ Forall page l.

(** An address inside page [p]. *)
Definition in_page (p a : Z) : Prop := p <= a < p + 4096.

Definition fillpage (m : memory) (p c : Z) : memory := mwrite m p (replicate (Z.to_nat PGSIZE) c).

Lemma mget_fillpage_out m p c a : ~ in_page p a -> mget (fillpage m p c) a = mget m a.
Proof.
  intros H. apply mget_mwrite_out. rewrite length_replicate. unfold in_page, PGSIZE in *. lia.
Qed.

Lemma mget_fillpage_in m p c a : in_page p a -> mget (fillpage m p c) a = c.
Proof.
  intros H. unfold fillpage, in_page, PGSIZE in *. rewrite mget_mwrite, length_replicate.
  destruct (Z.leb_spec p a), (Z.ltb_spec a (p + Z.of_nat (Z.to_nat 4096))); try lia. cbn [andb].
  rewrite nth_lookup, lookup_replicate_2; [done|lia].
Qed.

Lemma fillpage_bytes m p c : mem_bytes m -> is_byte c -> mem_bytes (fillpage m p c).
Proof. intros Hm Hc. apply mwrite_bytes; [done|]. by apply Forall_replicate. Qed.

Lemma memset_page p c s :
  is_byte c -> memset p c PGSIZE s = Ok tt (set_k_mem (fillpage (k_mem s) p c) s).
Proof. intros Hc. rewrite memset_eq, u8_small by done. unfold fillpage. reflexivity. Qed.

Lemma mst64_fillpage_comm m p c a v :
  a + 8 <= p \/ p + 4096 <= a -> mst64 (fillpage m p c) a v = fillpage (mst64 m a v) p c.
Proof.
  intros H. unfold fillpage. rewrite !mst64_mwrite. apply mwrite_comm.
  rewrite length_replicate, length_le_bytes. unfold PGSIZE. lia.
Qed.

#[global] Opaque fillpage.

Lemma flist_ext m m' p l :
  (forall q, q ∈ l -> mld64 m' q = mld64 m q) -> flist m p l -> flist m' p l.
Proof.
  revert p; induction l as [|x l IH]; intros p H; [done|]. cbn. intros (-> & N & F).
  repeat split; auto. rewrite H by set_solver. apply IH; [|done]. set_solver.
Qed.

(** Distinct pages do not share bytes. *)
Lemma pages_apart p q a : page p -> page q -> p <> q -> in_page p a -> ~ in_page q a.
Proof. unfold page, in_page. intros [Mp _] [Mq _] N Ia Ib. apply N. zlia. Qed.

Lemma page_pa_ok `{!LayoutOk} p : page p -> pa_ok p /\ 0 < p.
Proof.
  intros [M R]. pose proof kend_range. unfold pa_ok, KERNBASE, PHYSTOP in *.
  unfold KERNBASE in *. change (2 ^ 56) with 72057594037927936. split; [split|]; lia || done.
Qed.

Lemma mld64_fillpage_other m p c q :
  page p -> page q -> p <> q -> mld64 (fillpage m p c) q = mld64 m q.
Proof.
  intros Hp Hq N. apply mld64_ext. intros a Ha. apply mget_fillpage_out.
  apply (pages_apart q); auto. unfold in_page. lia.
Qed.

Lemma mld64_mst64_other m p v q :
  page p -> page q -> p <> q -> mld64 (mst64 m p v) q = mld64 m q.
Proof. intros [M R] [M' R'] N. apply mld64_mst64_out. zlia. Qed.

Lemma kmem_page s l p : kmem_ok s l -> p ∈ l -> page p.
Proof. intros (_ & _ & P) Hp. rewrite Forall_forall in P. auto. Qed.

(** ** Behaviour *)

Lemma kalloc_some s p l :
  kmem_ok s (p :: l) -> lock_free L_kmem s -> cpu_ok s ->
  kalloc s = Ok p (set_k_mem (fillpage (k_mem s) p 5) (set_k_freelist (mld64 (k_mem s) p) (settle s)))
  /\ kmem_ok (set_k_mem (fillpage (k_mem s) p 5) (set_k_freelist (mld64 (k_mem s) p) (settle s))) l.
Proof.
  intros ((Ep & Np & F) & ND & P) Hl Hc. split.
  - unfold kalloc. kstep acquire_eq. kprim. unfold acq_st, push_st. ksimpl. rewrite Ep.
    apply Z.eqb_neq in Np. rewrite Ep in Np. unfold truth. rewrite Np. cbn [negb when].
    erewrite bind_ok; [|reflexivity]. ksimpl.
    erewrite bind_ok; [|eapply (release_acquired _ s); eauto; reflexivity].
    erewrite bind_ok; [|by apply memset_page]. kdone.
  - inversion_clear ND as [|? ? Np' ND']. inversion_clear P as [|? ? Pp P'].
    split; [|done]. unfold settle. ksimpl. rewrite <- Ep. eapply flist_ext; [|exact F].
    intros q Hq. rewrite Ep. apply mld64_fillpage_other; auto.
    + by eapply Forall_forall in P'.
    + intros ->. done.
Qed.

Lemma kalloc_none s :
  kmem_ok s [] -> lock_free L_kmem s -> cpu_ok s -> kalloc s = Ok 0 (settle s).
Proof.
  intros (F & _) Hl Hc. cbn in F. unfold kalloc. kstep acquire_eq. kprim.
  unfold acq_st, push_st. ksimpl. rewrite F. unfold truth. cbn [negb when Z.eqb]. kprim.
  erewrite bind_ok; [|eapply (release_acquired _ s); eauto; reflexivity].
  kprim. kdone.
Qed.

(** The state after kfree(p). *)
Definition freed (p : Z) (s : kstate) : kstate :=
  set_k_mem (mst64 (fillpage (k_mem s) p 1) p (k_freelist s)) (set_k_freelist p (settle s)).

Lemma kfree_eq p s :
  page p -> lock_free L_kmem s -> cpu_ok s -> kfree p s = Ok tt (freed p s).
Proof.
  intros (M & R1 & R2) Hl Hc. unfold kfree. change PGSIZE with 4096 at 1. rewrite M.
  destruct (Z.ltb_spec p kend), (Z.leb_spec PHYSTOP p); try lia. cbn [Z.eqb negb orb].
  erewrite bind_ok; [|by apply memset_page].
  erewrite bind_ok; [|apply acquire_eq; exact Hl]. do 3 kprim.
  rewrite (release_acquired _ s) by (assumption || reflexivity). unfold freed. kdone.
Qed.

Lemma freelist_u64 `{!LayoutOk} s l : kmem_ok s l -> u64 (k_freelist s) = k_freelist s.
Proof.
  intros (F & _ & P). destruct l as [|x l]; cbn in F; [rewrite F; done|]. destruct F as (-> & _).
  inversion_clear P as [|? ? Px]. apply page_pa_ok in Px as ((R & _) & _).
  change (2 ^ 56) with 72057594037927936 in R. apply u64_small. lia.
Qed.

Lemma kfree_kmem `{!LayoutOk} p s l :
  page p -> p ∉ l -> kmem_ok s l -> kmem_ok (freed p s) (p :: l).
Proof.
  intros Pp Np K. pose proof K as (F & ND & P). pose proof (page_pa_ok p Pp) as (_ & N0). unfold kmem_ok, freed. ksimpl. split; [|split; by constructor].
  split; [done|]. split; [lia|]. rewrite mld64_mst64_same, (freelist_u64 s l K).
  eapply flist_ext; [|exact F]. intros q Hq.
  assert (page q) by (by eapply Forall_forall in P).
  assert (p <> q) by (intros ->; done).
  rewrite mld64_mst64_other, mld64_fillpage_other; auto.
Qed.

(** What a caller needs from the rest of the state, and keeps. *)
Definition kmem_callable (s : kstate) : Prop := lock_free L_kmem s /\ cpu_ok s.

Lemma kmem_callable_settled s s' :
  kmem_callable s -> k_locks s' = k_locks s -> k_hart s' = k_hart s ->
  k_sie s' = k_sie s -> k_cpus s' = k_cpus (settle s) -> kmem_callable s'.
Proof.
  intros (Hl & Hc) El Eh Es Ec. split.
  - unfold lock_free. by rewrite El.
  - apply cpu_ok_settle in Hc. unfold cpu_ok, noff, my in *. rewrite Ec, Eh, Es. exact Hc.
Qed.

(** [s'] differs from [s] in memory and the free list only, up to the interrupt
    bookkeeping of the allocator's critical sections. *)
Definition mem_only (s s' : kstate) : Prop :=
  exists m f, s' = set_k_mem m (set_k_freelist f s) \/ s' = set_k_mem m (set_k_freelist f (settle s)).

#[global] Instance mem_only_preorder : PreOrder mem_only.
Proof.
  split.
  - intros s. exists (k_mem s), (k_freelist s). left. by destruct s.
  - intros s1 s2 s3 (m & f & E) (m' & f' & E'). exists m', f'.
    destruct E as [->| ->], E' as [->| ->]; [by left|by right..|right].
    transitivity (set_k_mem m' (set_k_freelist f' (settle (settle s1)))); [done|].
    by rewrite settle_idemp.
Qed.

Lemma mem_only_callable s s' : mem_only s s' -> kmem_callable s -> kmem_callable s'.
Proof.
  intros (m & f & [->| ->]) C; [exact C|]. by apply (kmem_callable_settled s).
Qed.

Lemma mem_only_store m s : mem_only s (set_k_mem m s).
Proof. exists m, (k_freelist s). left. by destruct s. Qed.

(** ** Boot: kinit *)

Lemma freerange_loop_ok `{!LayoutOk} fuel p s l :
  kmem_ok s l -> kmem_callable s -> p mod 4096 = 0 -> kend <= p <= PHYSTOP ->
  (forall q, q ∈ l <-> page q /\ q < p) -> (PHYSTOP - p) / 4096 < Z.of_nat fuel ->
  exists s' l', freerange_loop fuel p PHYSTOP s = Ok tt s' /\ kmem_ok s' l' /\
    kmem_callable s' /\ (forall q, q ∈ l' <-> page q).
Proof.
  revert p s l. induction fuel as [|fuel IH]; intros p s l K C M R Hl F.
  - assert (0 <= (PHYSTOP - p) / 4096) by (apply Z.div_pos; lia). lia.
  - cbn [freerange_loop]. change PGSIZE with 4096.
    destruct (Z.leb_spec (p + 4096) PHYSTOP) as [Hp|Hp].
    + assert (Pp : page p) by (split; [done|lia]).
      assert (Np : p ∉ l) by (rewrite Hl; lia).
      erewrite bind_ok; [|apply kfree_eq; auto; apply C].
      apply (IH (p + 4096) (freed p s) (p :: l)).
      * by apply kfree_kmem.
      * by apply (kmem_callable_settled s).
      * zlia.
      * lia.
      * intros q. rewrite elem_of_cons, Hl. split.
        -- intros [->|[? ?]]; split; auto; lia.
        -- intros [Pq Lq]. destruct (decide (q = p)); [by left|]. right. split; [done|].
           destruct Pq as [Mq _]. zlia.
      * replace (PHYSTOP - (p + 4096)) with (PHYSTOP - p + (-1) * 4096) by lia.
        rewrite Z.div_add by lia. lia.
    + exists s, l. split; [done|]. split; [done|]. split; [done|].
      intros q. rewrite Hl. split; [tauto|]. intros Pq. split; [done|].
      destruct Pq as [Mq Rq]. unfold PHYSTOP, KERNBASE in *. zlia.
Qed.

Lemma PHYSTOP_small : PHYSTOP < 18446744073709551616 - 4096.
Proof. reflexivity. Qed.

(** C27: kinit hands the allocator exactly the whole pages of RAM above the kernel image.
    From any state with an empty free list it returns, the free list is then a proper
    list without repetition, and a page is on it if and only if it is page-aligned and
    lies between the end of the kernel and PHYSTOP. *)
Theorem kinit_frees_all_pages `{!LayoutOk} s :
  cpu_ok s -> k_freelist s = 0 ->
  exists s' l, kinit s = Ok tt s' /\ kmem_ok s' l /\ (forall p, p ∈ l <-> page p).
Proof.
  intros C E. unfold kinit, freerange. kprim. pose proof kend_range as R.
  pose proof PHYSTOP_small as B. unfold KERNBASE in R.
  assert (Ep := PGROUNDUP_eq kend). specialize (Ep ltac:(lia)).
  edestruct (freerange_loop_ok (S (Z.to_nat ((PHYSTOP - kend) / PGSIZE))) (PGROUNDUP kend)
    (set_k_locks (<[L_kmem := lk_free]> (k_locks s)) s) []) as (s' & l & Es & K & _ & Hl).
  - split; [exact E|]. split; constructor.
  - split; [apply lookup_insert_eq | exact C].
  - rewrite Ep. apply Z.mod_mul. lia.
  - assert (PHYSTOP mod 4096 = 0) by reflexivity. zlia.
  - intros q. split; [by intros ?%not_elem_of_nil|]. intros [[Mq Rq] Lq]. exfalso. zlia.
  - change PGSIZE with 4096. rewrite Nat2Z.inj_succ, Z2Nat.id by (apply Z.div_pos; lia). zlia.
  - exists s', l. done.
Qed.

(** ** Clients *)

(** A client that allocates pages and frees pages it holds. *)
Inductive client_op := CAlloc | CFree (n : nat).

Definition client_step (o : client_op) (held : list Z) : M (list Z) :=
  match o with
  | CAlloc => let! r := kalloc in ret (if r =? 0 then held else r :: held)
  | CFree n =>
      match held !! n with
      | Some p => kfree p ;! ret (delete n held)
      | None => ret held
      end
  end.

Fixpoint client (ops : list client_op) (held : list Z) : M (list Z) :=
  match ops with
  | [] => ret held
  | o :: ops' => let! held' := client_step o held in client ops' held'
  end.

Lemma client_step_ok `{!LayoutOk} o held s l :
  kmem_ok s l -> kmem_callable s -> NoDup (held ++ l) -> Forall page held ->
  exists held' s' l', client_step o held s = Ok held' s' /\ kmem_ok s' l' /\
    kmem_callable s' /\ Forall page held' /\ held' ++ l' ≡ₚ held ++ l.
Proof.
  intros K C ND P. destruct o as [|n]; cbn [client_step].
  - destruct l as [|p l].
    + exists held, (settle s), []. erewrite bind_ok; [|apply kalloc_none; auto; apply C].
      split; [done|]. split; [exact K|]. split; [by apply (kmem_callable_settled s)|]. done.
    + destruct (kalloc_some s p l K) as (E & K'); [apply C..|].
      pose proof K as (_ & _ & Pl). inversion_clear Pl as [|? ? Pp _].
      pose proof (page_pa_ok p Pp) as (_ & N).
      eexists (p :: held), _, l. erewrite bind_ok; [|exact E].
      destruct (Z.eqb_spec p 0); [lia|]. split; [done|]. split; [exact K'|].
      split; [by apply (kmem_callable_settled s)|]. split; [by constructor|].
      apply Permutation_middle.
  - destruct (held !! n) as [p|] eqn:Hn.
    + assert (Pp : page p) by (eapply Forall_lookup_1; eauto).
      assert (PE : held ≡ₚ p :: delete n held) by (by apply delete_Permutation).
      assert (Np : p ∉ l).
      { apply NoDup_app in ND as (_ & D & _). apply D. by eapply list_elem_of_lookup_2. }
      eexists (delete n held), (freed p s), (p :: l).
      erewrite bind_ok; [|apply kfree_eq; auto; apply C]. split; [done|].
      split; [by apply kfree_kmem|]. split; [by apply (kmem_callable_settled s)|].
      split; [by apply Forall_delete|]. rewrite PE at 2. rewrite <- Permutation_middle. done.
    + exists held, s, l. auto.
Qed.

(** C26: however a client interleaves kalloc calls with kfree calls on pages it holds, no
    call panics, and the pages held plus the pages on the free list are at all times a
    rearrangement of the initial free list: no page is handed out twice, lost or
    invented. *)
Theorem kalloc_no_double_allocation `{!LayoutOk} ops s l :
  kmem_ok s l -> lock_free L_kmem s -> cpu_ok s ->
  exists held s' l', client ops [] s = Ok held s' /\ kmem_ok s' l' /\
    held ++ l' ≡ₚ l /\ NoDup (held ++ l').
Proof.
  intros K Hf Hc. assert (C : kmem_callable s) by done. clear Hf Hc.
  assert (ND : NoDup l) by apply K.
  enough (G : forall held s1 l1, kmem_ok s1 l1 -> kmem_callable s1 -> Forall page held ->
    held ++ l1 ≡ₚ l -> exists held' s' l', client ops held s1 = Ok held' s' /\ kmem_ok s' l' /\
    held' ++ l' ≡ₚ l).
  { destruct (G [] s l K C) as (held & s' & l' & E & K' & PE); auto.
    exists held, s', l'. split; [done|]. split; [done|]. split; [done|]. by rewrite PE. }
  clear s C K. induction ops as [|o ops IH]; intros held s1 l1 K1 C1 P1 PE.
  - exists held, s1, l1. done.
  - destruct (client_step_ok o held s1 l1 K1 C1) as (h2 & s2 & l2 & E2 & K2 & C2 & P2 & PE2);
      [by rewrite PE | done |].
    cbn [client]. erewrite bind_ok; [|exact E2]. apply (IH h2 s2 l2); auto. by rewrite PE2.
Qed.

End Kalloc.

(** ** A small machine, for examples: sixteen free pages at the top of RAM *)

Definition demo_layout : KernelLayout :=
  {| kend := PHYSTOP - 16 * 4096; etext := KERNBASE + 0x8000; trampoline := KERNBASE + 0x7000;
     uservec := KERNBASE + 0x7000; userret := KERNBASE + 0x709c; kernelvec := KERNBASE + 0x5d00;
     usertrap_addr := KERNBASE + 0x2700 |}.

Lemma demo_layout_ok : @LayoutOk demo_layout.
Proof. split; cbn; repeat split; vm_compute; intros; discriminate || reflexivity. Qed.

Definition demo_pages : list Z := (fun i => PHYSTOP - i * 4096) <$>
  [1; 2; 3; 4; 5; 6; 7; 8; 9; 10; 11; 12; 13; 14; 15; 16].

(** The kernel image after kinit. *)
Definition booted : kstate := default kstate0 (run_state (@kinit demo_layout kstate0)).

Lemma booted_kmem : @kmem_ok demo_layout booted demo_pages.
Proof.
  split; [vm_compute; repeat split; discriminate|]. split.
  - apply (bool_decide_unpack (NoDup demo_pages)). vm_compute. exact I.
  - apply Forall_forall. intros p Hp. unfold demo_pages in Hp. cbn [fmap list_fmap] in Hp.
    unfold page, PHYSTOP, KERNBASE. cbn [kend demo_layout]. unfold PHYSTOP, KERNBASE in *.
    set_unfold in Hp. intuition (subst; try reflexivity; lia).
Qed.

Lemma booted_callable : lock_free L_kmem booted /\ cpu_ok booted.
Proof. split; [vm_compute; reflexivity|]. repeat split; vm_compute; intros; lia || discriminate. Qed.

Lemma kinit_frees_all_pages_witness :
  exists s' l, @kinit demo_layout kstate0 = Ok tt s' /\ @kmem_ok demo_layout s' l /\
    (forall p, p ∈ l <-> @page demo_layout p).
Proof.
  apply (@kinit_frees_all_pages demo_layout demo_layout_ok kstate0).
  - repeat split; vm_compute; intros; lia || discriminate.
  - reflexivity.
Defined.

Lemma kalloc_no_double_allocation_witness :
  exists held s' l', @client demo_layout [CAlloc; CAlloc; CFree 1; CAlloc] [] booted = Ok held s' /\
    @kmem_ok demo_layout s' l' /\ held ++ l' ≡ₚ demo_pages /\ NoDup (held ++ l').
Proof.
  apply (@kalloc_no_double_allocation demo_layout demo_layout_ok
    [CAlloc; CAlloc; CFree 1; CAlloc] booted demo_pages).
  - apply booted_kmem.
  - apply booted_callable.
  - apply booted_callable.
Defined.
