(* ===== verification/Vm.v ===== *)
(** * Virtual memory (kernel/vm.c)

    Sv39 page tables as they lie in physical memory: a page-table page is 512 64-bit
    entries, and [walk] follows and creates them through loads and stores.  The copies
    between kernel objects and user memory take or give the bytes of the kernel object
    as a list. *)

From S2P Require Import Prelude Memory Riscv State Kmonad Spinlock CString Kalloc.
From Stdlib Require Import ZArith Lia.
From stdpp Require Import base numbers list gmap strings.

#[local] Open Scope Z_scope.
#[local] Open Scope kernel_scope.

Section Vm.
Context `{L : KernelLayout}.

(** &pagetable[PX(level, va)] *)
Definition pte_addr (pagetable level va : Z) : Z := pagetable + 8 * PX level va.

(** for(int level = 2; level > 0; level--) ...; return &pagetable[PX(0, va)]; *)
Fixpoint walk_levels (level : nat) (pagetable va : Z) (alloc : bool) : M Z :=
  match level with
  | O => ret (pte_addr pagetable 0 va)
  | S level' =>
      let pte := pte_addr pagetable (Z.of_nat level) va in
      let! v := ld64 pte in
      if has_bits v PTE_V then walk_levels level' (PTE2PA v) va alloc
      else if negb alloc then ret 0 else
      let! pagetable' := kalloc in
      if pagetable' =? 0 then ret 0 else
      memset pagetable' 0 PGSIZE ;!
      st64 pte (Z.lor (PA2PTE pagetable') PTE_V) ;!
      walk_levels level' pagetable' va alloc
  end.

Definition walk (pagetable va : Z) (alloc : bool) : M Z :=
  if MAXVA <=? va then panic "walk" else walk_levels 2 pagetable va alloc.

Definition walkaddr (pagetable va : Z) : M Z :=
  if MAXVA <=? va then ret 0 else
  let! pte := walk pagetable va false in
  if pte =? 0 then ret 0 else
  let! v := ld64 pte in
  if negb (has_bits v PTE_V) then ret 0 else
  if negb (has_bits v PTE_U) then ret 0 else
  ret (PTE2PA v).

(** The for(;;) of mappages, from address [a] to [last]. *)
Fixpoint mappages_loop (fuel : nat) (pagetable a last pa perm : Z) : M Z :=
  match fuel with
  | O => nofuel
  | S fuel' =>
      let! pte := walk pagetable a true in
      if pte =? 0 then ret (-1) else
      let! v := ld64 pte in
      if has_bits v PTE_V then panic "mappages: remap" else
      st64 pte (Z.lor (Z.lor (PA2PTE pa) perm) PTE_V) ;!
      if a =? last then ret 0
      else mappages_loop fuel' pagetable (u64 (a + PGSIZE)) last (u64 (pa + PGSIZE)) perm
  end.

(** Enough iterations to reach [last], or, when [last] lies below [a] because va + size
    wrapped, to run into walk's check against MAXVA. *)
Definition map_fuel (a last : Z) : nat :=
  S (Z.to_nat ((if a <=? last then last - a else MAXVA - a) / PGSIZE)).

Definition mappages (pagetable va size pa perm : Z) : M Z :=
  if size =? 0 then panic "mappages: size" else
  let a := PGROUNDDOWN va in
  let last := PGROUNDDOWN (u64 (va + size - 1)) in
  mappages_loop (map_fuel a last) pagetable a last pa perm.

Definition kvmmap (kpgtbl va pa sz perm : Z) : M unit :=
  let! r := mappages kpgtbl va sz pa perm in
  if negb (r =? 0) then panic "kvmmap" else ret tt.

(** proc_mapstacks of kernel/proc.c: a kernel stack for each process, mapped high in
    memory with an unmapped guard page below it. *)
Definition proc_mapstacks (kpgtbl : Z) : M unit :=
  foreach (seq 0 NPROC) (fun i =>
    let! pa := kalloc in
    if pa =? 0 then panic "kalloc" else
    kvmmap kpgtbl (KSTACK (Z.of_nat i)) pa PGSIZE (Z.lor PTE_R PTE_W)).

(** kalloc can fail only if there is no RAM above the kernel; the C code then stores
    through a null pointer. *)
Definition kvmmake : M Z :=
  let! kpgtbl := kalloc in
  if kpgtbl =? 0 then undef "store through a null pointer" else
  memset kpgtbl 0 PGSIZE ;!
  kvmmap kpgtbl UART0 UART0 PGSIZE (Z.lor PTE_R PTE_W) ;!
  kvmmap kpgtbl VIRTIO0 VIRTIO0 PGSIZE (Z.lor PTE_R PTE_W) ;!
  kvmmap kpgtbl PLIC PLIC 0x400000 (Z.lor PTE_R PTE_W) ;!
  kvmmap kpgtbl KERNBASE KERNBASE (etext - KERNBASE) (Z.lor PTE_R PTE_X) ;!
  kvmmap kpgtbl etext etext (PHYSTOP - etext) (Z.lor PTE_R PTE_W) ;!
  kvmmap kpgtbl TRAMPOLINE trampoline PGSIZE (Z.lor PTE_R PTE_X) ;!
  proc_mapstacks kpgtbl ;!
  ret kpgtbl.

Definition kvminit : M unit :=
  let! k := kvmmake in
  modify (set_k_kpgtbl k).

Definition kvminithart : M unit :=
  modify (fun s => set_k_csr (set_cs_satp (MAKE_SATP (k_kpgtbl s)) (k_csr s)) s).

Fixpoint uvmunmap_loop (fuel : nat) (pagetable a stop : Z) (do_free : bool) : M unit :=
  match fuel with
  | O => nofuel
  | S fuel' =>
      if negb (a <? stop) then ret tt else
      let! pte := walk pagetable a false in
      if pte =? 0 then panic "uvmunmap: walk" else
      let! v := ld64 pte in
      if negb (has_bits v PTE_V) then panic "uvmunmap: not mapped" else
      if PTE_FLAGS v =? PTE_V then panic "uvmunmap: not a leaf" else
      when do_free (kfree (PTE2PA v)) ;!
      st64 pte 0 ;!
      uvmunmap_loop fuel' pagetable (u64 (a + PGSIZE)) stop do_free
  end.

Definition uvmunmap (pagetable va npages : Z) (do_free : bool) : M unit :=
  if negb (va mod PGSIZE =? 0) then panic "uvmunmap: not aligned" else
  uvmunmap_loop (S (Z.to_nat npages)) pagetable va (u64 (va + npages * PGSIZE)) do_free.

Definition uvmcreate : M Z :=
  let! pagetable := kalloc in
  if pagetable =? 0 then ret 0 else
  memset pagetable 0 PGSIZE ;!
  ret pagetable.

(** memmove into physical memory from a kernel object whose bytes are [l]. *)
Definition store_bytes (a : Z) (l : list Z) : M unit :=
  modify (fun s => set_k_mem (mwrite (k_mem s) a l) s).
(** memmove out of physical memory into a kernel object. *)
Definition load_bytes (a n : Z) : M (list Z) := gets (fun s => mread (k_mem s) a (Z.to_nat n)).

Definition uvmfirst (pagetable : Z) (src : list Z) (sz : Z) : M unit :=
  if PGSIZE <=? sz then panic "uvmfirst: more than a page" else
  let! mem := kalloc in
  if mem =? 0 then undef "store through a null pointer" else
  memset mem 0 PGSIZE ;!
  mappages pagetable 0 PGSIZE mem (Z.lor (Z.lor (Z.lor PTE_W PTE_R) PTE_X) PTE_U) ;!
  store_bytes mem (take (Z.to_nat sz) src).

Definition uvmdealloc (pagetable oldsz newsz : Z) : M Z :=
  if oldsz <=? newsz then ret oldsz else
  when (PGROUNDUP newsz <? PGROUNDUP oldsz)
    (let npages := i32 ((PGROUNDUP oldsz - PGROUNDUP newsz) / PGSIZE) in
     uvmunmap pagetable (PGROUNDUP newsz) (u64 npages) true) ;!
  ret newsz.

(** for(a = oldsz; a < newsz; a += PGSIZE) of uvmalloc; [oldsz] is already rounded up. *)
Fixpoint uvmalloc_loop (fuel : nat) (pagetable a oldsz newsz xperm : Z) : M Z :=
  match fuel with
  | O => nofuel
  | S fuel' =>
      if negb (a <? newsz) then ret newsz else
      let! mem := kalloc in
      if mem =? 0 then uvmdealloc pagetable a oldsz ;! ret 0 else
      memset mem 0 PGSIZE ;!
      let! r := mappages pagetable a PGSIZE mem (Z.lor (Z.lor PTE_R PTE_U) xperm) in
      if negb (r =? 0) then kfree mem ;! uvmdealloc pagetable a oldsz ;! ret 0
      else uvmalloc_loop fuel' pagetable (u64 (a + PGSIZE)) oldsz newsz xperm
  end.

Definition uvmalloc (pagetable oldsz newsz xperm : Z) : M Z :=
  if newsz <? oldsz then ret oldsz else
  let oldsz := PGROUNDUP oldsz in
  uvmalloc_loop (S (Z.to_nat ((newsz - oldsz + PGSIZE - 1) / PGSIZE))) pagetable oldsz oldsz newsz xperm.

(** [depth] bounds the levels below the table; user page tables have three levels. *)
Fixpoint freewalk (depth : nat) (pagetable : Z) : M unit :=
  match depth with
  | O => nofuel
  | S depth' =>
      foreach (seq 0 512) (fun i =>
        let! pte := ld64 (pagetable + 8 * Z.of_nat i) in
        if has_bits pte PTE_V && negb (has_bits pte (Z.lor (Z.lor PTE_R PTE_W) PTE_X)) then
          freewalk depth' (PTE2PA pte) ;!
          st64 (pagetable + 8 * Z.of_nat i) 0
        else if has_bits pte PTE_V then panic "freewalk: leaf"
        else ret tt) ;!
      kfree pagetable
  end.

Definition uvmfree (pagetable sz : Z) : M unit :=
  when (0 <? sz) (uvmunmap pagetable 0 (PGROUNDUP sz / PGSIZE) true) ;!
  freewalk 3 pagetable.

(** The loop of uvmcopy: [None] after the last page, [Some i] for goto err at page [i]. *)
Fixpoint uvmcopy_loop (fuel : nat) (old new i sz : Z) : M (option Z) :=
  match fuel with
  | O => nofuel
  | S fuel' =>
      if negb (i <? sz) then ret None else
      let! pte := walk old i false in
      if pte =? 0 then panic "uvmcopy: pte should exist" else
      let! v := ld64 pte in
      if negb (has_bits v PTE_V) then panic "uvmcopy: page not present" else
      let pa := PTE2PA v in
      let flags := PTE_FLAGS v in
      let! mem := kalloc in
      if mem =? 0 then ret (Some i) else
      memmove mem pa PGSIZE ;!
      let! r := mappages new i PGSIZE mem flags in
      if negb (r =? 0) then kfree mem ;! ret (Some i)
      else uvmcopy_loop fuel' old new (u64 (i + PGSIZE)) sz
  end.

Definition uvmcopy (old new sz : Z) : M Z :=
  let! e := uvmcopy_loop (S (Z.to_nat ((sz + PGSIZE - 1) / PGSIZE))) old new 0 sz in
  match e with
  | None => ret 0
  | Some i => uvmunmap new 0 (i / PGSIZE) true ;! ret (-1)
  end.

Definition uvmclear (pagetable va : Z) : M unit :=
  let! pte := walk pagetable va false in
  if pte =? 0 then panic "uvmclear" else
  let! v := ld64 pte in
  st64 pte (Z.land v (Z.lnot PTE_U)).

(** [fuel] bounds the number of pages touched; len bytes touch at most len pages. *)
Fixpoint copyout_loop (fuel : nat) (pagetable dstva : Z) (src : list Z) (len : Z) : M Z :=
  match fuel with
  | O => nofuel
  | S fuel' =>
      if negb (0 <? len) then ret 0 else
      let va0 := PGROUNDDOWN dstva in
      let! pa0 := walkaddr pagetable va0 in
      if pa0 =? 0 then ret (-1) else
      let n := Z.min (PGSIZE - (dstva - va0)) len in
      store_bytes (pa0 + (dstva - va0)) (take (Z.to_nat n) src) ;!
      copyout_loop fuel' pagetable (u64 (va0 + PGSIZE)) (drop (Z.to_nat n) src) (len - n)
  end.

Definition copyout (pagetable dstva : Z) (src : list Z) (len : Z) : M Z :=
  copyout_loop (S (Z.to_nat len)) pagetable dstva src len.

(** The result and the bytes stored at dst, which on failure are those of the pages
    copied before the failing one. *)
Fixpoint copyin_loop (fuel : nat) (pagetable srcva len : Z) : M (Z * list Z) :=
  match fuel with
  | O => nofuel
  | S fuel' =>
      if negb (0 <? len) then ret (0, []) else
      let va0 := PGROUNDDOWN srcva in
      let! pa0 := walkaddr pagetable va0 in
      if pa0 =? 0 then ret (-1, []) else
      let n := Z.min (PGSIZE - (srcva - va0)) len in
      let! bytes := load_bytes (pa0 + (srcva - va0)) n in
      let! r := copyin_loop fuel' pagetable (u64 (va0 + PGSIZE)) (len - n) in
      ret (fst r, bytes ++ snd r)
  end.

Definition copyin (pagetable srcva len : Z) : M (Z * list Z) :=
  copyin_loop (S (Z.to_nat len)) pagetable srcva len.

(** The inner while(n > 0) of copyinstr: the bytes stored, and whether a NUL was found. *)
Fixpoint str_chunk (n : nat) (p : Z) (m : memory) : list Z * bool :=
  match n with
  | O => ([], false)
  | S n' =>
      if mget m p =? 0 then ([0], true)
      else let '(l, got) := str_chunk n' (p + 1) m in (mget m p :: l, got)
  end.

Fixpoint copyinstr_loop (fuel : nat) (pagetable srcva max : Z) : M (Z * list Z) :=
  match fuel with
  | O => nofuel
  | S fuel' =>
      if negb (0 <? max) then ret (-1, []) else
      let va0 := PGROUNDDOWN srcva in
      let! pa0 := walkaddr pagetable va0 in
      if pa0 =? 0 then ret (-1, []) else
      let n := Z.min (PGSIZE - (srcva - va0)) max in
      let! chunk := gets (fun s => str_chunk (Z.to_nat n) (pa0 + (srcva - va0)) (k_mem s)) in
      if snd chunk then ret (0, fst chunk) else
      let! r := copyinstr_loop fuel' pagetable (u64 (va0 + PGSIZE)) (max - n) in
      ret (fst r, fst chunk ++ snd r)
  end.

Definition copyinstr (pagetable srcva max : Z) : M (Z * list Z) :=
  copyinstr_loop (S (Z.to_nat max)) pagetable srcva max.

End Vm.
