(* ===== verification/PageTable.v ===== *)
(** * The page-table tree

    A page table as the function it denotes: [tbl m root va d] is the table page that the
    path of [va] reaches after [d] steps from the root, and [pte_of m root va] the leaf
    entry of [va].  [pt_ok] says that the table pages form a tree, apart from the free
    pages.  Against it, walk, mappages, walkaddr and uvmunmap are shown to read and
    update [pte_of] at exactly the addresses they should. *)

From S2P Require Import Prelude Memory Riscv State Kmonad Spinlock CString Kalloc Vm.
From Stdlib Require Import ZArith Lia.
From stdpp Require Import base numbers list gmap strings option.

#[local] Open Scope Z_scope.
#[local] Open Scope kernel_scope.

(** ** Paths *)

Definition va_ok (va : Z) : Prop := 0 <= va < MAXVA.

(** The part of [va] that the first [d] steps of a walk consume, and the index used at
    step [d]. *)
Definition key (d : nat) (va : Z) : Z := va / 2 ^ (39 - 9 * Z.of_nat d).
Definition idx (d : nat) (va : Z) : Z := PX (2 - Z.of_nat d) va.
Definition slot (q : Z) (d : nat) (va : Z) : Z := pte_addr q (2 - Z.of_nat d) va.

Lemma key_step d va va' :
  (d <= 2)%nat -> key (S d) va = key (S d) va' <-> key d va = key d va' /\ idx d va = idx d va'.
Proof.
  intros Hd. unfold idx. rewrite !PX_eq by lia. unfold key.
  replace (12 + 9 * (2 - Z.of_nat d)) with (39 - 9 * Z.of_nat (S d)) by lia.
  assert (P : 2 ^ (39 - 9 * Z.of_nat d) = 2 ^ (39 - 9 * Z.of_nat (S d)) * 512).
  { replace (39 - 9 * Z.of_nat d) with (39 - 9 * Z.of_nat (S d) + 9) by lia.
    rewrite Z.pow_add_r by lia. reflexivity. }
  assert (0 < 2 ^ (39 - 9 * Z.of_nat (S d))) by (apply Z.pow_pos_nonneg; lia).
  rewrite P, <- !Z.div_div by lia.
  set (x := va / _). set (y := va' / _). zlia.
Qed.

Lemma key_0 va : va_ok va -> key 0 va = 0.
Proof. intros [H1 H2]. apply Z.div_small. change MAXVA with 274877906944 in H2. cbn. lia. Qed.

Lemma key_mono d va va' : (d <= 2)%nat -> key (S d) va = key (S d) va' -> key d va = key d va'.
Proof. intros Hd E. by apply key_step in E as [? _]. Qed.

Lemma key_mono_le d d' va va' :
  (d <= d' <= 3)%nat -> key d' va = key d' va' -> key d va = key d va'.
Proof.
  intros [H1 H2]. induction H1 as [|d' H1 IH]; [done|]. intros E. apply IH; [lia|].
  apply key_mono; [lia|done].
Qed.

(** [key 3] is the page number. *)
Lemma key_3 va : key 3 va = va / 4096.
Proof. reflexivity. Qed.

Lemma idx_range d va : (d <= 2)%nat -> 0 <= idx d va < 512.
Proof. intros Hd. apply PX_range. lia. Qed.

Lemma slot_eq q d va : slot q d va = q + 8 * idx d va.
Proof. reflexivity. Qed.

(** ** The tree *)

Definition child (m : memory) (q : Z) (d : nat) (va : Z) : option Z :=
  let v := mld64 m (slot q d va) in
  if has_bits v PTE_V then Some (PTE2PA v) else None.

Fixpoint tbl (m : memory) (root va : Z) (d : nat) : option Z :=
  match d with
  | O => Some root
  | S d' => match tbl m root va d' with Some q => child m q d' va | None => None end
  end.

Definition pte_of (m : memory) (root va : Z) : Z :=
  match tbl m root va 2 with Some q => mld64 m (slot q 2 va) | None => 0 end.

Section PageTable.
Context `{L : KernelLayout} `{LOK : !LayoutOk}.

(** An entry of a table that is not at the lowest level: a valid one has no permissions. *)
Definition dir_entry (v : Z) : Prop := has_bits v PTE_V = true -> has_bits v (Z.lor (Z.lor PTE_R PTE_W) PTE_X) = false.

(** The table pages are allocator pages, none of them is free, a table page lies on one path
    only, entries that point to tables have no permissions, and the half of the root that no
    address below MAXVA uses is empty. *)
Record pt_ok (m : memory) (root : Z) (free : list Z) : Prop := {
  pt_page va d q : va_ok va -> (d <= 2)%nat -> tbl m root va d = Some q -> page q /\ q ∉ free;
  pt_inj va d va' d' q : va_ok va -> va_ok va' -> (d <= 2)%nat -> (d' <= 2)%nat ->
    tbl m root va d = Some q -> tbl m root va' d' = Some q -> d = d' /\ key d va = key d va';
  pt_dir va d q : va_ok va -> (d <= 1)%nat -> tbl m root va d = Some q -> dir_entry (mld64 m (slot q d va));
  pt_high i : 256 <= i < 512 -> has_bits (mld64 m (root + 8 * i)) PTE_V = false }.

Lemma pt_root m root free : pt_ok m root free -> page root /\ root ∉ free.
Proof. intros P. apply (pt_page _ _ _ P 0 0%nat); [by vm_compute|lia|done]. Qed.

Lemma idx_low va : va_ok va -> 0 <= idx 0 va < 256.
Proof.
  intros [H1 H2]. change MAXVA with 274877906944 in H2. unfold idx. rewrite PX_eq by lia. change (2 ^ (12 + 9 * (2 - Z.of_nat 0))) with 1073741824. zlia.
Qed.

(** A slot on a path is apart from the entries that no path uses. *)
Lemma slot_high m root free va d q i :
  pt_ok m root free -> va_ok va -> (d <= 2)%nat -> tbl m root va d = Some q -> 256 <= i < 512 ->
  root + 8 * i + 8 <= slot q d va \/ slot q d va + 8 <= root + 8 * i.
Proof.
  intros P V Hd E Hi. pose proof (idx_range d va Hd). rewrite slot_eq. destruct d as [|d].
  - injection E as <-. pose proof (idx_low va V). lia.
  - destruct (pt_root _ _ _ P) as [[Mr _] _]. destruct (pt_page _ _ _ P va (S d) q) as [[Mq _] _]; auto.
    assert (q <> root) by (intros ->; destruct (pt_inj _ _ _ P va (S d) va 0%nat root); auto with lia). zlia.
Qed.

Lemma tbl_ext m m' root va d :
  (forall d' q, (d' < d)%nat -> tbl m root va d' = Some q ->
     mld64 m' (slot q d' va) = mld64 m (slot q d' va)) ->
  tbl m' root va d = tbl m root va d.
Proof.
  induction d as [|d IH]; intros Hs; [done|]. cbn [tbl]. rewrite IH by (intros; apply Hs; auto with lia).
  destruct (tbl m root va d) as [q|] eqn:E; [|done]. unfold child. by rewrite (Hs d q) by (auto with lia).
Qed.

(** A path depends on the consumed part of the address only. *)
Lemma tbl_key m root va va' d :
  (d <= 3)%nat -> key d va = key d va' -> tbl m root va d = tbl m root va' d.
Proof.
  induction d as [|d IH]; intros Hd E; [done|]. cbn [tbl].
  apply key_step in E as [E1 E2]; [|lia]. rewrite IH by (lia || done).
  destruct (tbl m root va' d); [|done]. unfold child. by rewrite !slot_eq, E2.
Qed.

Lemma pte_of_page m root va va' : va / 4096 = va' / 4096 -> pte_of m root va = pte_of m root va'.
Proof.
  rewrite <- !key_3. intros K. unfold pte_of.
  rewrite (tbl_key m root va va' 2) by (lia || (apply key_mono; [lia|done])).
  apply key_step in K as [_ I]; [|lia]. destruct (tbl m root va' 2); [|done]. by rewrite !slot_eq, I.
Qed.

Lemma tbl_none_le m root va d d' :
  (d <= d')%nat -> tbl m root va d = None -> tbl m root va d' = None.
Proof. induction 1 as [|d' _ IH]; [done|]. intros E. cbn [tbl]. by rewrite IH. Qed.

Lemma slot_in_page q d va a :
  (d <= 2)%nat -> slot q d va <= a < slot q d va + 8 -> in_page q a.
Proof. intros Hd. rewrite slot_eq. pose proof (idx_range d va Hd). unfold in_page. lia. Qed.

Lemma off_slot q d va a :
  (d <= 2)%nat -> ~ in_page q a -> a < slot q d va \/ slot q d va + 8 <= a.
Proof.
  intros Hd N. destruct (decide (slot q d va <= a < slot q d va + 8)) as [S|]; [|lia].
  exfalso. apply N. by eapply slot_in_page.
Qed.

(** Two slots of the tree are the same or do not overlap. *)
Lemma slots_apart m root free va d q va' d' q' :
  pt_ok m root free -> va_ok va -> va_ok va' -> (d <= 2)%nat -> (d' <= 2)%nat ->
  tbl m root va d = Some q -> tbl m root va' d' = Some q' ->
  (d = d' /\ key (S d) va = key (S d) va') \/
  slot q' d' va' + 8 <= slot q d va \/ slot q d va + 8 <= slot q' d' va'.
Proof.
  intros Hpt V V' Hd Hd' E E'. destruct (decide (q = q')) as [->|N].
  - destruct (pt_inj _ _ _ Hpt va d va' d' q') as [<- K]; auto.
    destruct (decide (idx d va = idx d va')) as [I|I]; [left; split; [done|]; by apply key_step|].
    right. rewrite !slot_eq. lia.
  - right. destruct (pt_page _ _ _ Hpt va d q) as [[M _] _]; auto.
    destruct (pt_page _ _ _ Hpt va' d' q') as [[M' _] _]; auto.
    rewrite !slot_eq. pose proof (idx_range d va Hd). pose proof (idx_range d' va' Hd'). zlia.
Qed.

Definition is_tbl (m : memory) (root q : Z) : Prop :=
  exists va d, va_ok va /\ (d <= 2)%nat /\ tbl m root va d = Some q.

(** An address inside one of the pages of [P]. *)
Definition within (P : Z -> Prop) (a : Z) : Prop := exists p, P p /\ in_page p a.

Definition within_tables (m : memory) (root a : Z) : Prop := within (is_tbl m root) a.

(** A memory that agrees on the table pages denotes the same tree. *)
Lemma tree_ext m m' root free :
  pt_ok m root free ->
  (forall va d q a, va_ok va -> (d <= 2)%nat -> tbl m root va d = Some q -> in_page q a ->
     mget m' a = mget m a) ->
  (forall va d, va_ok va -> (d <= 3)%nat -> tbl m' root va d = tbl m root va d) /\
  (forall va, va_ok va -> pte_of m' root va = pte_of m root va).
Proof.
  intros Hpt Hs.
  assert (T : forall va d, va_ok va -> (d <= 3)%nat -> tbl m' root va d = tbl m root va d).
  { intros va d V Hd. apply tbl_ext. intros d' q Hd' E. apply mld64_ext. intros a Ha.
    apply (Hs va d' q); auto with lia. eapply slot_in_page; [|exact Ha]. lia. }
  split; [done|]. intros va V. unfold pte_of. rewrite T by (done || lia).
  destruct (tbl m root va 2) as [q|] eqn:E; [|done]. apply mld64_ext. intros a Ha.
  apply (Hs va 2%nat q); auto. eapply slot_in_page; [|exact Ha]. lia.
Qed.

Lemma pt_ok_same m m' root free free' :
  pt_ok m root free ->
  (forall va d, va_ok va -> (d <= 3)%nat -> tbl m' root va d = tbl m root va d) ->
  (forall va d q, va_ok va -> (d <= 2)%nat -> tbl m root va d = Some q -> q ∉ free') ->
  (forall a, within_tables m root a -> mget m' a = mget m a) ->
  pt_ok m' root free'.
Proof.
  intros Hpt T F Hs. assert (Sm : forall va d q a, va_ok va -> (d <= 2)%nat -> tbl m root va d = Some q -> in_page q a -> mget m' a = mget m a).
  { intros va d q a V Hd E Ha. apply Hs. exists q. split; [by exists va, d|done]. }
  split.
  - intros va d q V Hd E. rewrite T in E by (done || lia). split; [|by eapply F].
    by eapply (pt_page _ _ _ Hpt va d).
  - intros va d va' d' q V V' Hd Hd' E E'. rewrite T in E, E' by (done || lia).
    by eapply (pt_inj _ _ _ Hpt va d va' d').
  - intros va d q V Hd E. rewrite T in E by (done || lia). rewrite (mld64_ext m m'); [by apply (pt_dir _ _ _ Hpt va d q)|].
    intros a Ha. apply (Sm va d q); [done|lia|done|]. eapply slot_in_page; [|exact Ha]. lia.
  - intros i Hi. rewrite (mld64_ext m m'); [by apply (pt_high _ _ _ Hpt)|]. intros a Ha.
    apply (Sm 0 0%nat root); [by vm_compute|lia|done|]. unfold in_page. lia.
Qed.

(** ** Storing a leaf entry *)

Lemma set_leaf m root free va q v :
  pt_ok m root free -> va_ok va -> tbl m root va 2 = Some q ->
  let m' := mst64 m (slot q 2 va) v in
  pt_ok m' root free /\
  (forall va' d, va_ok va' -> (d <= 2)%nat -> tbl m' root va' d = tbl m root va' d) /\
  (forall va', va_ok va' ->
     pte_of m' root va' = if decide (va' / 4096 = va / 4096) then u64 v else pte_of m root va').
Proof.
  intros Hpt V E m'.
  assert (T : forall va' d, va_ok va' -> (d <= 2)%nat -> tbl m' root va' d = tbl m root va' d).
  { intros va' d V' Hd. apply tbl_ext. intros d' q' Hd' E'. apply mld64_mst64_out.
    destruct (slots_apart m root free va 2 q va' d' q') as [[? _]|]; auto with lia. }
  assert (P : pt_ok m' root free).
  { split.
    - intros va' d q' V' Hd E'. rewrite T in E' by done. by eapply (pt_page _ _ _ Hpt va' d).
    - intros va1 d1 va2 d2 q' V1 V2 H1 H2 E1 E2. rewrite T in E1, E2 by done.
      by eapply (pt_inj _ _ _ Hpt va1 d1 va2 d2).
    - intros va' d q' V' Hd E'. rewrite T in E' by (done || lia). unfold m'. rewrite mld64_mst64_out; [by apply (pt_dir _ _ _ Hpt va' d q')|].
      destruct (slots_apart m root free va 2 q va' d q') as [[? _]|]; auto with lia.
    - intros i Hi. unfold m'. rewrite mld64_mst64_out; [by apply (pt_high _ _ _ Hpt)|]. by apply (slot_high m root free va 2 q i). }
  split; [done|]. split; [done|]. intros va' V'. unfold pte_of. rewrite T by (done || lia).
  case_decide as K; rewrite <- !key_3 in K.
  - rewrite (tbl_key m root va' va 2) by (lia || (apply key_mono; [lia|done])). rewrite E.
    apply key_step in K as [_ I]; [|lia]. rewrite (slot_eq q 2 va'), I.
    apply mld64_mst64_same.
  - destruct (tbl m root va' 2) as [q'|] eqn:E'; [|done]. apply mld64_mst64_out.
    destruct (slots_apart m root free va 2 q va' 2 q') as [[_ ?]|]; auto. congruence.
Qed.

(** ** Adding a table page *)

(** [m'] links the zeroed page [p] into the empty slot of table [q] on the path of [va]. *)
Record links (m m' : memory) (q : Z) (d : nat) (va p v : Z) : Prop := {
  lk_entry : mld64 m' (slot q d va) = v;
  lk_valid : has_bits v PTE_V = true;
  lk_pa : PTE2PA v = p;
  lk_dir : dir_entry v;
  lk_zero a : in_page p a -> mget m' a = 0;
  lk_out a : ~ in_page p a -> a < slot q d va \/ slot q d va + 8 <= a -> mget m' a = mget m a }.

Lemma mld64_zero m a : (forall x, a <= x < a + 8 -> mget m x = 0) -> mld64 m a = 0.
Proof.
  intros Hz. rewrite (mld64_ext ∅ m a); [reflexivity|]. intros x Hx. rewrite Hz by done. reflexivity.
Qed.

Section Link.
Variables (m m' : memory) (root : Z) (free : list Z) (va q p v : Z) (d : nat).
Hypothesis Hpt : pt_ok m root (p :: free).
Hypothesis V : va_ok va.
Hypothesis Hd : (d < 2)%nat.
Hypothesis E : tbl m root va d = Some q.
Hypothesis Einv : has_bits (mld64 m (slot q d va)) PTE_V = false.
Hypothesis Pp : page p.
Hypothesis HL : links m m' q d va p v.

(** A slot of the old tree other than the linked one keeps its value. *)
Lemma link_other va' d' q' :
  va_ok va' -> (d' <= 2)%nat -> tbl m root va' d' = Some q' ->
  d' <> d \/ key (S d) va' <> key (S d) va ->
  mld64 m' (slot q' d' va') = mld64 m (slot q' d' va').
Proof.
  intros V' Hd' E' N. apply mld64_ext. intros a Ha.
  destruct (pt_page _ _ _ Hpt va' d' q') as [Pq Nq]; auto.
  apply (lk_out _ _ _ _ _ _ _ HL).
  - apply (pages_apart q'); auto; [|by eapply slot_in_page].
    intros ->. apply Nq. by left.
  - destruct (slots_apart m root (p :: free) va d q va' d' q') as [[? ?]|]; auto with lia.
Qed.

Lemma link_above va' d' : va_ok va' -> (d' <= d)%nat -> tbl m' root va' d' = tbl m root va' d'.
Proof.
  intros V' Hd'. apply tbl_ext. intros d1 q1 H1 E1. apply link_other; auto with lia.
Qed.

Lemma link_off va' d' :
  va_ok va' -> (d' <= 2)%nat -> key (S d) va' <> key (S d) va ->
  tbl m' root va' d' = tbl m root va' d'.
Proof.
  intros V' Hd' N. apply tbl_ext. intros d1 q1 H1 E1. apply link_other; auto with lia.
Qed.

(** Below the linked slot the old tree was empty and the new one has [p] only. *)
Lemma link_old va' d' :
  va_ok va' -> (d < d')%nat -> key (S d) va' = key (S d) va -> tbl m root va' d' = None.
Proof.
  intros V' Hd' K. apply (tbl_none_le _ _ _ (S d)); [lia|]. cbn [tbl].
  apply key_step in K as [K I]; [|lia]. rewrite (tbl_key m root va' va d) by (lia || done).
  rewrite E. unfold child. by rewrite slot_eq, I, <- slot_eq, Einv.
Qed.

Lemma link_new va' :
  va_ok va' -> key (S d) va' = key (S d) va -> tbl m' root va' (S d) = Some p.
Proof.
  intros V' K. cbn [tbl]. rewrite link_above by (done || lia).
  apply key_step in K as [K I]; [|lia]. rewrite (tbl_key m root va' va d) by (lia || done).
  rewrite E. unfold child. rewrite slot_eq, I, <- slot_eq, (lk_entry _ _ _ _ _ _ _ HL).
  by rewrite (lk_valid _ _ _ _ _ _ _ HL), (lk_pa _ _ _ _ _ _ _ HL).
Qed.

Lemma link_empty d' va' : (d' <= 2)%nat -> mld64 m' (slot p d' va') = 0.
Proof.
  intros Hd'. apply mld64_zero. intros x Hx. apply (lk_zero _ _ _ _ _ _ _ HL).
  eapply slot_in_page; [|exact Hx]. done.
Qed.

Lemma link_new_below va' :
  va_ok va' -> key (S d) va' = key (S d) va -> tbl m' root va' (S (S d)) = None.
Proof.
  intros V' K. cbn [tbl]. change (match tbl m' root va' d with Some q0 => child m' q0 d va' | None => None end)
    with (tbl m' root va' (S d)). rewrite link_new by done. unfold child.
  by rewrite link_empty by lia.
Qed.

Lemma link_tbl va' d' q' :
  va_ok va' -> (d' <= 2)%nat -> tbl m' root va' d' = Some q' ->
  tbl m root va' d' = Some q' \/ (q' = p /\ d' = S d /\ key (S d) va' = key (S d) va).
Proof.
  intros V' Hd' E'. destruct (decide (key (S d) va' = key (S d) va)) as [K|K].
  - destruct (decide (d' <= d)%nat) as [Hle|Hgt]; [left; by rewrite <- link_above|].
    destruct (decide (d' = S d)) as [->|N].
    + rewrite link_new in E' by done. injection E' as <-. auto.
    + replace d' with (S (S d)) in E' by lia. by rewrite link_new_below in E'.
  - left. by rewrite <- link_off.
Qed.

Lemma link_keep va' d' q' :
  va_ok va' -> (d' <= 2)%nat -> tbl m root va' d' = Some q' -> tbl m' root va' d' = Some q'.
Proof.
  intros V' Hd' E'. destruct (decide (key (S d) va' = key (S d) va)) as [K|K].
  - destruct (decide (d' <= d)%nat); [by rewrite link_above|].
    rewrite link_old in E'; (done || lia).
  - by rewrite link_off.
Qed.

Lemma link_ok : p ∉ free -> pt_ok m' root free.
Proof.
  intros Np. split.
  - intros va' d' q' V' Hd' E'. apply link_tbl in E' as [E'|(-> & _)]; auto.
    destruct (pt_page _ _ _ Hpt va' d' q') as [? Nq]; auto. set_solver.
  - intros va1 d1 va2 d2 q' V1 V2 H1 H2 E1 E2.
    apply link_tbl in E1 as [E1|(-> & -> & K1)]; auto.
    + apply link_tbl in E2 as [E2|(-> & _)]; auto; [by eapply (pt_inj _ _ _ Hpt)|].
      exfalso. destruct (pt_page _ _ _ Hpt va1 d1 p) as [_ Nq]; auto. set_solver.
    + apply link_tbl in E2 as [E2|(_ & -> & K2)]; auto; [|split; congruence].
      exfalso. destruct (pt_page _ _ _ Hpt va2 d2 p) as [_ Nq]; auto. set_solver.
  - intros va' d' q' V' Hd' E'. apply link_tbl in E' as [E'|(-> & -> & K1)]; [| |done|lia].
    + destruct (decide (d' = d /\ key (S d) va' = key (S d) va)) as [[-> K1]|N].
      * apply key_step in K1 as [K1 I]; [|lia]. rewrite (tbl_key m root va' va d) in E' by (lia || done). rewrite E in E'. injection E' as <-.
        rewrite slot_eq, I, <- slot_eq, (lk_entry _ _ _ _ _ _ _ HL). apply HL.
      * rewrite link_other; [by apply (pt_dir _ _ _ Hpt va' d' q')|done|lia|done|]. destruct (decide (d' = d)); [right|by left]. intros ?. by apply N.
    + intros B. by rewrite link_empty in B by lia.
  - intros i Hi. destruct (pt_root _ _ _ Hpt) as [Pr Nr]. rewrite (mld64_ext m m'); [by apply (pt_high _ _ _ Hpt)|]. intros a Ha. apply HL.
    + apply (pages_apart root); auto; [intros ->; apply Nr; by left|]. unfold in_page. lia.
    + destruct (slot_high m root (p :: free) va d q i) as [?|?]; auto with lia.
Qed.

Lemma link_pte va' : va_ok va' -> pte_of m' root va' = pte_of m root va'.
Proof.
  intros V'. unfold pte_of. destruct (decide (key (S d) va' = key (S d) va)) as [K|K].
  - rewrite (link_old va' 2) by (done || lia). destruct (decide (d = 1%nat)) as [D|D].
    + replace 2%nat with (S d) by lia. rewrite link_new by done. apply link_empty. lia.
    + replace 2%nat with (S (S d)) by lia. by rewrite link_new_below.
  - rewrite link_off by (done || lia). destruct (tbl m root va' 2) as [q'|] eqn:E'; [|done].
    apply link_other; auto with lia.
Qed.

End Link.

(** ** Growing a tree *)

(** From [s] to [s'] the tree may have taken pages off the free list, and only table pages
    and pages that were free have changed. *)
Record extends (root : Z) (free : list Z) (s : kstate) (free' : list Z) (s' : kstate) : Prop := {
  ex_only : mem_only s s';
  ex_kmem : kmem_ok s' free';
  ex_free : free' `suffix_of` free;
  ex_pt : pt_ok (k_mem s') root free';
  ex_own q : is_tbl (k_mem s') root q \/ q ∈ free' <-> is_tbl (k_mem s) root q \/ q ∈ free;
  ex_frame a : ~ within (is_tbl (k_mem s) root) a -> ~ within (.∈ free) a ->
    mget (k_mem s') a = mget (k_mem s) a }.

Lemma extends_refl root free s :
  kmem_ok s free -> pt_ok (k_mem s) root free -> extends root free s free s.
Proof. intros K P. split; auto; done. Qed.

Lemma within_own root free s free' s' a :
  extends root free s free' s' ->
  within (is_tbl (k_mem s') root) a \/ within (.∈ free') a ->
  within (is_tbl (k_mem s) root) a \/ within (.∈ free) a.
Proof.
  intros X [(q & Hq & Ha)|(q & Hq & Ha)]; [assert (O := or_introl (B := q ∈ free') Hq)|
    assert (O := or_intror (A := is_tbl (k_mem s') root q) Hq)];
    apply (ex_own _ _ _ _ _ X) in O as [O|O]; [left|right|left|right]; by exists q.
Qed.

Lemma extends_trans root free1 s1 free2 s2 free3 s3 :
  extends root free1 s1 free2 s2 -> extends root free2 s2 free3 s3 ->
  extends root free1 s1 free3 s3.
Proof.
  intros X Y. split.
  - etransitivity; [apply X|apply Y].
  - apply Y.
  - etransitivity; [apply Y|apply X].
  - apply Y.
  - intros q. by rewrite (ex_own _ _ _ _ _ Y), (ex_own _ _ _ _ _ X).
  - intros a NT NF. rewrite (ex_frame _ _ _ _ _ Y).
    + by apply X.
    + intros T. destruct (within_own _ _ _ _ _ a X (or_introl T)); auto.
    + intros F. destruct (within_own _ _ _ _ _ a X (or_intror F)); auto.
Qed.

Lemma slot_level d q va k : (k + d = 2)%nat -> pte_addr q (Z.of_nat k) va = slot q d va.
Proof. intros Hk. unfold slot. f_equal. lia. Qed.

(** Storing into the leaf slot of [va]. *)
Lemma extends_leaf root free s va q v :
  kmem_ok s free -> pt_ok (k_mem s) root free -> va_ok va -> tbl (k_mem s) root va 2 = Some q ->
  extends root free s free (set_k_mem (mst64 (k_mem s) (slot q 2 va) v) s).
Proof.
  intros K P V E. destruct (set_leaf (k_mem s) root free va q v P V E) as (P' & T & _). split.
  - apply mem_only_store.
  - pose proof K as (F & ND & Pg). split; [|done]. ksimpl. eapply flist_ext; [|exact F].
    intros p Hp. apply mld64_ext. intros a Ha. apply mget_mst64_out.
    destruct (pt_page _ _ _ P va 2 q) as [Pq Nq]; auto.
    pose proof (kmem_page s free p K Hp) as Pp.
    assert (~ in_page q a) as Nin.
    { apply (pages_apart p); auto; [by intros ->|]. unfold in_page. lia. }
    by apply off_slot.
  - reflexivity.
  - exact P'.
  - ksimpl. assert (TT : forall x, is_tbl (mst64 (k_mem s) (slot q 2 va) v) root x <->
      is_tbl (k_mem s) root x); [|intros x; by rewrite TT].
    intros x. split; intros (va' & d & V' & Hd & E'); exists va', d;
      (rewrite T in E' by done) || rewrite T by done; done.
  - ksimpl. intros a NT _. apply mget_mst64_out. apply off_slot; [done|]. intros Ha.
    apply NT. exists q. split; [by exists va, 2%nat|done].
Qed.

(** kalloc fills the page with 5s, walk zeroes it and stores the entry. *)
Lemma fresh_links m q d va p :
  page q -> page p -> q <> p -> (d <= 2)%nat ->
  links m (mst64 (fillpage (fillpage m p 5) p 0) (slot q d va) (Z.lor (PA2PTE p) PTE_V))
    q d va p (Z.lor (PA2PTE p) PTE_V).
Proof.
  intros Pq Pp N Hd. pose proof (page_pa_ok p Pp) as [Pa _]. split.
  - rewrite mld64_mst64_same. by apply pte_u64.
  - unfold PTE_V. by rewrite pte_bits.
  - by apply PTE2PA_PA2PTE.
  - intros _. by apply plain_pte.
  - intros a Ha. rewrite mget_mst64_out; [by apply mget_fillpage_in|].
    apply off_slot; [done|]. apply (pages_apart p); auto.
  - intros a Na Ha. rewrite mget_mst64_out by done. by rewrite !mget_fillpage_out.
Qed.

(** kalloc, memset 0 and the store of the new entry, as walk does them. *)
Lemma alloc_link root p free s va d q :
  kmem_ok s (p :: free) -> kmem_callable s -> pt_ok (k_mem s) root (p :: free) ->
  va_ok va -> (d < 2)%nat -> tbl (k_mem s) root va d = Some q ->
  has_bits (mld64 (k_mem s) (slot q d va)) PTE_V = false ->
  exists s1, kalloc s = Ok p s1 /\ p <> 0 /\
  let s2 := set_k_mem (mst64 (fillpage (k_mem s1) p 0) (slot q d va) (Z.lor (PA2PTE p) PTE_V)) s1 in
  extends root (p :: free) s free s2 /\ tbl (k_mem s2) root va (S d) = Some p /\
  (forall va', va_ok va' -> pte_of (k_mem s2) root va' = pte_of (k_mem s) root va').
Proof.
  intros K C P V Hd E Einv. destruct (kalloc_some s p free K) as [Ek K']; [apply C..|].
  pose proof K as (_ & ND & Pg). inversion_clear ND as [|? ? Np _]. inversion_clear Pg as [|? ? Pp _].
  pose proof (page_pa_ok p Pp) as [Pa N0].
  eexists. split; [exact Ek|]. split; [lia|]. intros s2.
  destruct (pt_page _ _ _ P va d q) as [Pq Nq]; [done|lia|done|].
  assert (Nqp : q <> p) by (intros ->; apply Nq; by left).
  pose proof (fresh_links (k_mem s) q d va p Pq Pp Nqp ltac:(lia)) as HL.
  split; [|split; [by apply (link_new _ _ _ _ _ _ _ _ _ P V Hd E Pp HL)|
    exact (link_pte _ _ _ _ _ _ _ _ _ P V Hd E Einv Pp HL)]].
  split.
  - etransitivity; [|apply mem_only_store]. eexists _, _. right. reflexivity.
  - pose proof K' as (F & ND' & Pg'). split; [|done]. subst s2. ksimpl. eapply flist_ext; [|exact F].
    intros x Hx. ksimpl. pose proof (kmem_page _ _ x K' Hx) as Px.
    apply mld64_ext. intros a Ha. assert (Ax : in_page x a) by (unfold in_page; lia).
    rewrite mget_mst64_out.
    + rewrite (mget_fillpage_out (fillpage _ _ _)); [done|]. apply (pages_apart x); auto. congruence.
    + apply off_slot; [lia|]. apply (pages_apart x); auto. intros ->. apply Nq. by right.
  - exists [p]. reflexivity.
  - exact (link_ok _ _ _ _ _ _ _ _ _ P V Hd E Einv Pp HL Np).
  - intros x. split.
    + intros [(va' & d' & V' & Hd' & E')|Hx]; [|right; by right].
      destruct (link_tbl _ _ _ _ _ _ _ _ _ P V Hd E Pp HL va' d' x V' Hd' E') as [Eo|(-> & _)].
      * left. by exists va', d'.
      * right. by left.
    + intros [(va' & d' & V' & Hd' & E')|[->|Hx]%elem_of_cons]; [left..|by right].
      * exists va', d'. split; [done|]. split; [done|].
        by apply (link_keep _ _ _ _ _ _ _ _ _ P V Hd E Einv Pp HL).
      * exists va, (S d). split; [done|]. split; [lia|].
        by apply (link_new _ _ _ _ _ _ _ _ _ P V Hd E Pp HL).
  - intros a NT NF. apply (lk_out _ _ _ _ _ _ _ HL).
    + intros Ha. apply NF. exists p. split; [by left|exact Ha].
    + apply off_slot; [lia|]. intros Ha. apply NT. exists q. split; [exists va, d; auto with lia|done].
Qed.

(** ** walk *)

Lemma walk_levels_find k s root va q d :
  (k + d = 2)%nat -> tbl (k_mem s) root va d = Some q ->
  walk_levels k q va false s =
    Ok (match tbl (k_mem s) root va 2 with Some q' => slot q' 2 va | None => 0 end) s.
Proof.
  revert d q. induction k as [|k IH]; intros d q Hk E.
  - assert (d = 2%nat) as -> by lia. rewrite E. reflexivity.
  - cbn [walk_levels]. rewrite (slot_level d) by done. unfold ld64. kprim.
    destruct (has_bits (mld64 (k_mem s) (slot q d va)) PTE_V) eqn:B.
    + apply (IH (S d)); [lia|]. cbn [tbl]. rewrite E. unfold child. by rewrite B.
    + rewrite (tbl_none_le _ _ _ (S d) 2); [done|lia|]. cbn [tbl]. rewrite E. unfold child.
      by rewrite B.
Qed.

Lemma walk_find s root va :
  va_ok va -> walk root va false s =
    Ok (match tbl (k_mem s) root va 2 with Some q => slot q 2 va | None => 0 end) s.
Proof.
  intros [_ V]. unfold walk. destruct (Z.leb_spec MAXVA va); [lia|].
  by apply (walk_levels_find 2 s root va root 0).
Qed.

Lemma slot_pos q d va : page q -> (d <= 2)%nat -> 0 < slot q d va.
Proof.
  intros Hq Hd. pose proof (page_pa_ok q Hq) as [_ ?]. pose proof (idx_range d va Hd).
  rewrite slot_eq. lia.
Qed.

Lemma walk_levels_alloc k s root free va q d :
  kmem_ok s free -> kmem_callable s -> pt_ok (k_mem s) root free -> va_ok va ->
  (k + d = 2)%nat -> tbl (k_mem s) root va d = Some q ->
  exists r s' free', walk_levels k q va true s = Ok r s' /\ extends root free s free' s' /\
    (forall va', va_ok va' -> pte_of (k_mem s') root va' = pte_of (k_mem s) root va') /\
    (r = 0 /\ free' = [] /\ (length free < k)%nat \/
     r <> 0 /\ (length free <= length free' + k)%nat /\ exists q', tbl (k_mem s') root va 2 = Some q' /\ r = slot q' 2 va).
Proof.
  revert s free q d. induction k as [|k IH]; intros s free q d K C P V Hk E.
  - assert (d = 2%nat) as -> by lia. exists (slot q 2 va), s, free. split; [reflexivity|].
    split; [by apply extends_refl|]. split; [done|]. right.
    destruct (pt_page _ _ _ P va 2 q) as [Pq _]; auto. pose proof (slot_pos q 2 va Pq).
    split; [lia|]. split; [lia|]. by exists q.
  - cbn [walk_levels]. rewrite (slot_level d) by done. unfold ld64. kprim.
    destruct (has_bits (mld64 (k_mem s) (slot q d va)) PTE_V) eqn:B.
    { destruct (IH s free (PTE2PA (mld64 (k_mem s) (slot q d va))) (S d)) as (r & s' & f' & Er & X & Q & D); auto; [lia|cbn [tbl]; rewrite E; unfold child; by rewrite B|].
      exists r, s', f'. split; [exact Er|]. split; [done|]. split; [done|]. destruct D as [(? & ? & ?)|(? & ? & ?)]; [left|right]; auto with lia. }
    cbn [negb]. destruct free as [|p free].
    { exists 0, (settle s), []. erewrite bind_ok; [|apply kalloc_none; auto; apply C].
      split; [done|]. split; [|split; [done|left; cbn; auto with lia]]. split; auto.
      exists (k_mem s), (k_freelist s). by right. }
    destruct (alloc_link root p free s va d q) as (s1 & Ek & N & X & T & Q); auto; [lia|].
    erewrite bind_ok; [|exact Ek]. apply Z.eqb_neq in N. rewrite N.
    erewrite bind_ok; [|by apply memset_page]. unfold st64. kprim. ksimpl.
    match type of X with extends _ _ _ _ ?s2 =>
      destruct (IH s2 free p (S d)) as (r & s' & free' & Er & X' & Q' & D);
        [apply X|eapply mem_only_callable; [apply X|done]|apply X|done|lia|exact T|]
    end.
    exists r, s', free'. split; [exact Er|]. split; [by eapply extends_trans|].
    split; [intros va' V'; rewrite Q' by done; by apply Q|].
    cbn [length]. destruct D as [(? & ? & ?)|(? & ? & ?)]; [left|right]; auto with lia.
Qed.

Lemma walk_alloc s root free va :
  kmem_ok s free -> kmem_callable s -> pt_ok (k_mem s) root free -> va_ok va ->
  exists r s' free', walk root va true s = Ok r s' /\ extends root free s free' s' /\
    (forall va', va_ok va' -> pte_of (k_mem s') root va' = pte_of (k_mem s) root va') /\
    (r = 0 /\ free' = [] /\ (length free < 2)%nat \/
     r <> 0 /\ (length free <= length free' + 2)%nat /\ exists q', tbl (k_mem s') root va 2 = Some q' /\ r = slot q' 2 va).
Proof.
  intros K C P V. unfold walk. destruct V as [V0 V1]. destruct (Z.leb_spec MAXVA va); [lia|].
  by apply (walk_levels_alloc 2 s root free va root 0).
Qed.

(** ** mappages *)

(** The entry of [va] when the range from [a] is mapped to physical memory from [pa]. *)
Definition mapped_pte (a pa perm va : Z) : Z :=
  Z.lor (Z.lor (PA2PTE (pa + (va / 4096 * 4096 - a))) perm) PTE_V.

Definition unmapped (m : memory) (root a n : Z) : Prop :=
  forall va, a <= va < a + n * 4096 -> has_bits (pte_of m root va) PTE_V = false.

(** walk to [a], allocating, then store the entry [v] there. *)
Lemma map_one s root free a v :
  kmem_ok s free -> kmem_callable s -> pt_ok (k_mem s) root free -> va_ok a -> u64 v = v ->
  exists r s1 f1, walk root a true s = Ok r s1 /\
    (r = 0 /\ f1 = [] /\ (length free < 2)%nat /\ extends root free s f1 s1 /\
       (forall va, va_ok va -> pte_of (k_mem s1) root va = pte_of (k_mem s) root va) \/
     r <> 0 /\ (length free <= length f1 + 2)%nat /\ mld64 (k_mem s1) r = pte_of (k_mem s) root a /\
       let s2 := set_k_mem (mst64 (k_mem s1) r v) s1 in
       extends root free s f1 s2 /\
       (forall va, va_ok va -> pte_of (k_mem s2) root va =
          if decide (va / 4096 = a / 4096) then v else pte_of (k_mem s) root va)).
Proof.
  intros K C P Va Hv.
  destruct (walk_alloc s root free a K C P Va) as (r & s1 & f1 & Ew & X & Q & D).
  exists r, s1, f1. split; [done|]. destruct D as [(-> & -> & Ln)|(Nr & Ln & q & Tq & ->)]; [by left|].
  right. split; [done|]. split; [done|]. split; [rewrite <- Q by done; unfold pte_of; by rewrite Tq|].
  intros s2. destruct (set_leaf (k_mem s1) root f1 a q v (ex_pt _ _ _ _ _ X) Va Tq) as (P2 & T2 & Q2).
  split.
  - eapply extends_trans; [exact X|]. apply extends_leaf; auto; apply X.
  - intros va V. subst s2. ksimpl. rewrite Q2, Q, Hv by done. done.
Qed.

Lemma perm_flags perm : 0 <= perm < 1024 -> 0 <= Z.lor perm PTE_V < 1024.
Proof. intros. apply (lor_bound _ _ 10); [lia|done|]. split; [done|reflexivity]. Qed.

Lemma mappages_loop_ok fuel n s root free a pa perm :
  kmem_ok s free -> kmem_callable s -> pt_ok (k_mem s) root free ->
  0 < n -> n <= Z.of_nat fuel -> a mod 4096 = 0 -> 0 <= a -> a + n * 4096 <= MAXVA ->
  unmapped (k_mem s) root a n ->
  pa mod 4096 = 0 -> 0 <= pa -> pa + n * 4096 <= 2 ^ 56 -> 0 <= perm < 1024 ->
  exists r s' free' k,
    mappages_loop fuel root a (a + (n - 1) * 4096) pa perm s = Ok r s' /\
    extends root free s free' s' /\
    (forall va, va_ok va -> pte_of (k_mem s') root va =
       if decide (a <= va < a + k * 4096) then mapped_pte a pa perm va
       else pte_of (k_mem s) root va) /\
    (r = 0 /\ k = n /\ Z.of_nat (length free) <= Z.of_nat (length free') + 2 * n \/
     r = -1 /\ 0 <= k < n /\ free' = [] /\ Z.of_nat (length free) < 2 * n).
Proof.
  revert n s free a pa. induction fuel as [|fuel IH];
    intros n s free a pa K C P Hn Hf Ma A0 A1 U Mp P0 P1 Hperm; [lia|].
  assert (Va : va_ok a) by (split; lia). cbn [mappages_loop].
  assert (Pa : pa_ok pa) by (split; [lia|done]).
  assert (Hv : u64 (Z.lor (Z.lor (PA2PTE pa) perm) PTE_V) = Z.lor (Z.lor (PA2PTE pa) perm) PTE_V).
  { rewrite <- Z.lor_assoc. by apply pte_u64, perm_flags. }
  destruct (map_one s root free a _ K C P Va Hv) as (r & s1 & f1 & Ew & [D|D]);
    (erewrite bind_ok; [|exact Ew]).
  { destruct D as (-> & -> & Ln & X & Q).
    exists (-1), s1, [], 0. split; [done|]. split; [done|]. split; [|right; auto with lia].
    intros va V. rewrite Q by done. case_decide; [lia|done]. }
  destruct D as (Nr & Ln & Eq & D). apply Z.eqb_neq in Nr. rewrite Nr.
  unfold ld64 at 1. kprim. rewrite Eq, U by lia. unfold st64 at 1. kprim.
  set (s2 := set_k_mem (mst64 (k_mem s1) r _) s1) in *. destruct D as (X & Q).
  assert (Q3 : forall va, va_ok va -> pte_of (k_mem s2) root va =
    if decide (a <= va < a + 4096) then mapped_pte a pa perm va else pte_of (k_mem s) root va).
  { intros va V. rewrite Q by done. unfold mapped_pte.
    destruct (decide (va / 4096 = a / 4096)), (decide (a <= va < a + 4096)); try zlia.
    by replace (pa + (va / 4096 * 4096 - a)) with pa by zlia. }
  destruct (Z.eqb_spec a (a + (n - 1) * 4096)) as [El|El].
  { assert (n = 1) as -> by lia. exists 0, s2, f1, 1. split; [done|].
    split; [done|]. split; [by rewrite Z.mul_1_l|left; auto with lia]. }
  rewrite !u64_small by (unfold PGSIZE; change MAXVA with 274877906944 in *; lia).
  unfold PGSIZE.
  destruct (IH (n - 1) s2 f1 (a + 4096) (pa + 4096)) as (r' & s' & f' & k & Er & X' & Q' & D);
    try apply X; try lia; try zlia.
  { eapply mem_only_callable; [apply X|done]. }
  { intros va Hva. rewrite Q3 by (split; lia). case_decide; [lia|]. apply U. lia. }
  exists r', s', f', (k + 1).
  replace (a + (n - 1) * 4096) with (a + 4096 + (n - 1 - 1) * 4096) by lia.
  split; [exact Er|]. split; [by eapply extends_trans|].
  split; [|destruct D as [(? & ? & ?)|(? & ? & ? & ?)]; [left|right]; auto with lia].
  intros va V. rewrite Q', Q3 by done. unfold mapped_pte.
  replace (pa + 4096 + (va / 4096 * 4096 - (a + 4096))) with (pa + (va / 4096 * 4096 - a)) by lia.
  repeat case_decide; try lia; done.
Qed.

(** One page, as every user of a kalloc'ed page calls it. *)
Lemma mappages_page s root free a pa perm :
  kmem_ok s free -> kmem_callable s -> pt_ok (k_mem s) root free ->
  a mod 4096 = 0 -> va_ok a -> has_bits (pte_of (k_mem s) root a) PTE_V = false ->
  pa_ok pa -> pa + 4096 <= 2 ^ 56 -> 0 <= perm < 1024 ->
  exists r s' free',
    mappages root a PGSIZE pa perm s = Ok r s' /\ extends root free s free' s' /\
    (r = 0 /\ (forall x, va_ok x -> pte_of (k_mem s') root x =
        if decide (x / 4096 = a / 4096) then Z.lor (Z.lor (PA2PTE pa) perm) PTE_V
        else pte_of (k_mem s) root x) /\ (length free <= length free' + 2)%nat \/
     r = -1 /\ free' = [] /\ (length free < 2)%nat /\
       forall x, va_ok x -> pte_of (k_mem s') root x = pte_of (k_mem s) root x).
Proof.
  intros K C P Ma [A0 A1] U (Pr & Pm) Pe Hperm. unfold mappages. cbn [Z.eqb PGSIZE].
  change MAXVA with 274877906944 in A1. unfold PGSIZE.
  assert (Ea : PGROUNDDOWN a = a) by (rewrite PGROUNDDOWN_eq; lia).
  assert (El : PGROUNDDOWN (u64 (a + 4096 - 1)) = a + (1 - 1) * 4096).
  { rewrite u64_small, PGROUNDDOWN_eq by lia. zlia. }
  rewrite Ea, El.
  destruct (mappages_loop_ok (map_fuel a (a + (1 - 1) * 4096)) 1 s root free a pa perm)
    as (r & s' & f' & k & Er & X & Q & D); auto; try lia.
  - unfold map_fuel. lia.
  - change MAXVA with 274877906944. zlia.
  - intros x Hx. rewrite (pte_of_page _ _ x a); [done|zlia].
  - exists r, s', f'. split; [done|]. split; [done|].
    destruct D as [(-> & -> & Ln)|(-> & Hk & -> & Ln)]; [left|right]; (split; [done|]).
    + split; [|lia]. intros x V. rewrite Q by done. unfold mapped_pte. repeat case_decide; try zlia.
      by replace (pa + (x / 4096 * 4096 - a)) with pa by zlia.
    + split; [done|]. split; [lia|]. intros x V. rewrite Q by done. case_decide; [lia|done].
Qed.

(** C22: mappages on a range that is not yet mapped never panics.  If it returns 0, every
    address from PGROUNDDOWN(va) up to the end of the last page gets the entry for its
    own physical page with the requested permissions and PTE_V, and every other address
    keeps its entry.  If it returns -1, the allocator is empty and a prefix of the range
    has been mapped.  Either way the tables still form a tree apart from the free pages,
    and no byte outside the tree and the pages that were free has changed. *)
Theorem mappages_maps_range s root free va size pa perm :
  kmem_ok s free -> kmem_callable s -> pt_ok (k_mem s) root free ->
  0 < size -> 0 <= va -> va + size <= MAXVA ->
  (forall x, va - va mod 4096 <= x < va + size -> has_bits (pte_of (k_mem s) root x) PTE_V = false) ->
  pa_ok pa -> pa + size + 4096 <= 2 ^ 56 -> 0 <= perm < 1024 ->
  let a := PGROUNDDOWN va in
  let n := (va + size - 1) / 4096 - va / 4096 + 1 in
  exists r s' free' k,
    mappages root va size pa perm s = Ok r s' /\ extends root free s free' s' /\
    (forall x, va_ok x -> pte_of (k_mem s') root x =
       if decide (a <= x < a + k * 4096) then mapped_pte a pa perm x
       else pte_of (k_mem s) root x) /\
    (r = 0 /\ k = n \/ r = -1 /\ 0 <= k < n /\ free' = []).
Proof.
  intros K C P Hsz V0 V1 U (Pr & Pm) Pe Hperm a n. unfold mappages.
  destruct (Z.eqb_spec size 0); [lia|]. change MAXVA with 274877906944 in *.
  assert (Ea : a = va - va mod 4096) by apply PGROUNDDOWN_eq.
  assert (El : PGROUNDDOWN (u64 (va + size - 1)) = a + (n - 1) * 4096).
  { rewrite u64_small, PGROUNDDOWN_eq, Ea by lia. subst n. zlia. }
  fold a. rewrite El.
  destruct (mappages_loop_ok (map_fuel a (a + (n - 1) * 4096)) n s root free a pa perm) as (r & s' & f' & k & Er & X & Q & D); auto; try (subst n; zlia).
  - unfold map_fuel. destruct (Z.leb_spec a (a + (n - 1) * 4096)) as [_|]; [|subst n; zlia].
    replace (a + (n - 1) * 4096 - a) with ((n - 1) * 4096) by lia.
    unfold PGSIZE. rewrite Z.div_mul by lia. subst n. zlia.
  - change MAXVA with 274877906944. subst n. zlia.
  - intros x Hx. destruct (decide (x < va + size)); [apply U; lia|].
    rewrite (pte_of_page _ _ x (va + size - 1)) by (subst n; zlia). apply U. zlia.
  - exists r, s', f', k. split; [done|]. split; [done|]. split; [done|]. destruct D as [(? & ? & _)|(? & ? & ? & _)]; [by left|by right].
Qed.

End PageTable.
