(* ===== verification/UserMem.v ===== *)
(** * User address spaces (kernel/vm.c)

    Ownership of the pages behind a user page table, and the user's view of memory.
    [uvm_ok] extends [pt_ok] to the leaf pages below TRAPFRAME: each is an allocator page,
    mapped once, neither free nor a table.  [uview] is what a user program sees at a
    virtual address.  uvmalloc, uvmdealloc, uvmcopy, copyout, copyin and copyinstr are
    specified by what they do to the view. *)

From S2P Require Import Prelude Memory Riscv State Kmonad Spinlock CString Kalloc Vm PageTable.
From Stdlib Require Import ZArith Lia.
From stdpp Require Import base numbers list gmap strings option.

#[local] Open Scope Z_scope.
#[local] Open Scope kernel_scope.

Definition uva (va : Z) : Prop := 0 <= va < TRAPFRAME.

Lemma uva_va_ok va : uva va -> va_ok va.
Proof. unfold uva, va_ok. change TRAPFRAME with 274877898752. change MAXVA with 274877906944. lia. Qed.

Definition valid (m : memory) (root va : Z) : bool := has_bits (pte_of m root va) PTE_V.
Definition upa (m : memory) (root va : Z) : Z := PTE2PA (pte_of m root va).
Definition ubyte (m : memory) (root va : Z) : Z := mget m (upa m root va + va mod 4096).

(** The flags and the byte at a user address. *)
Definition uview (m : memory) (root va : Z) : option (Z * Z) :=
  if valid m root va then Some (PTE_FLAGS (pte_of m root va), ubyte m root va) else None.

Section UserMem.
Context `{L : KernelLayout} `{LOK : !LayoutOk}.

Record uvm_ok (m : memory) (root : Z) (free : list Z) : Prop := {
  uo_pt : pt_ok m root free;
  uo_leaf va : uva va -> valid m root va = true ->
    page (upa m root va) /\ upa m root va ∉ free /\ ~ is_tbl m root (upa m root va) /\
    PTE_FLAGS (pte_of m root va) <> PTE_V;
  uo_inj va va' : uva va -> uva va' -> valid m root va = true -> valid m root va' = true ->
    upa m root va = upa m root va' -> va / 4096 = va' / 4096 }.

Definition leaf_page (m : memory) (root p : Z) : Prop :=
  exists va, uva va /\ valid m root va = true /\ upa m root va = p.

(** The pages of an address space: its tables and its memory. *)
Definition owned (m : memory) (root p : Z) : Prop := is_tbl m root p \/ leaf_page m root p.

(** An operation that moves pages between the address space and the free list, and changes
    no other memory. *)
Record uvm_step (root : Z) (free : list Z) (s : kstate) (free' : list Z) (s' : kstate) : Prop := {
  us_only : mem_only s s';
  us_kmem : kmem_ok s' free';
  us_ok : uvm_ok (k_mem s') root free';
  us_own p : owned (k_mem s') root p \/ p ∈ free' <-> owned (k_mem s) root p \/ p ∈ free;
  us_frame a : ~ within (fun p => owned (k_mem s) root p \/ p ∈ free) a ->
    mget (k_mem s') a = mget (k_mem s) a }.

Lemma uvm_step_refl root free s :
  kmem_ok s free -> uvm_ok (k_mem s) root free -> uvm_step root free s free s.
Proof. intros. by split. Qed.

Lemma uvm_step_trans root f1 s1 f2 s2 f3 s3 :
  uvm_step root f1 s1 f2 s2 -> uvm_step root f2 s2 f3 s3 -> uvm_step root f1 s1 f3 s3.
Proof.
  intros X Y. split; try apply Y.
  - etransitivity; [apply X|apply Y].
  - intros p. by rewrite (us_own _ _ _ _ _ Y), (us_own _ _ _ _ _ X).
  - intros a N. rewrite (us_frame _ _ _ _ _ Y); [by apply X|].
    intros (p & Hp & Ha). apply N. exists p. by rewrite <- (us_own _ _ _ _ _ X).
Qed.

Lemma page_within (P : Z -> Prop) p a :
  (forall q, P q -> page q) -> page p -> in_page p a -> within P a -> P p.
Proof.
  intros HP Hp Ha (q & Hq & Ha'). destruct (decide (p = q)) as [->|N]; [done|].
  exfalso. apply (pages_apart p q a); auto.
Qed.

Lemma is_tbl_page m root free q : pt_ok m root free -> is_tbl m root q -> page q /\ q ∉ free.
Proof. intros P (va & d & V & Hd & E). by apply (pt_page _ _ _ P va d). Qed.

(** The bytes of a mapped page are neither in a table nor free. *)
Lemma leaf_apart s root free va a :
  kmem_ok s free -> uvm_ok (k_mem s) root free -> uva va -> valid (k_mem s) root va = true ->
  in_page (upa (k_mem s) root va) a ->
  ~ within (is_tbl (k_mem s) root) a /\ ~ within (.∈ free) a.
Proof.
  intros K U V Hv Ha. destruct (uo_leaf _ _ _ U va V Hv) as (Pp & Nf & Nt & _). split; intros W.
  - apply Nt. eapply page_within; [..|exact W]; eauto. intros q Hq.
    by eapply is_tbl_page in Hq as [? _]; [|apply U].
  - apply Nf. refine (page_within (.∈ free) _ _ _ Pp Ha W). intros q Hq. by eapply kmem_page.
Qed.

Lemma in_page_off p va : in_page p (p + va mod 4096).
Proof. unfold in_page. zlia. Qed.

(** ** Mapping a page *)

Lemma leaf_page_ext m m' root q :
  (forall x, uva x -> pte_of m' root x = pte_of m root x) ->
  leaf_page m' root q <-> leaf_page m root q.
Proof.
  intros Q. unfold leaf_page, valid, upa.
  split; intros (x & V & Hv & Hp); exists x; rewrite Q in * by done; done.
Qed.

Lemma valid_page m root va va' : va / 4096 = va' / 4096 -> valid m root va = valid m root va'.
Proof. intros E. unfold valid. by rewrite (pte_of_page m root va va'). Qed.

Section MapOwned.
Variables (s s' : kstate) (root : Z) (free free' : list Z) (a p perm : Z).
Hypothesis U : uvm_ok (k_mem s) root free.
Hypothesis X : extends root free s free' s'.

Lemma ext_tbl q : is_tbl (k_mem s') root q -> is_tbl (k_mem s) root q \/ q ∈ free.
Proof. intros T. apply (ex_own _ _ _ _ _ X). by left. Qed.

Lemma ext_free q : q ∈ free' -> q ∈ free.
Proof. destruct (ex_free _ _ _ _ _ X) as [l ->]. intros ?. apply elem_of_app. by right. Qed.

Lemma uvm_ok_same :
  (forall x, uva x -> pte_of (k_mem s') root x = pte_of (k_mem s) root x) ->
  uvm_ok (k_mem s') root free'.
Proof.
  intros Q'. split; [apply X|..]; unfold valid, upa.
  - intros va V. rewrite Q' by done. intros Hv.
    destruct (uo_leaf _ _ _ U va V Hv) as (P1 & P2 & P3 & P4). split; [done|].
    split; [by intros ?%ext_free|]. split; [|done]. by intros [?|?]%ext_tbl.
  - intros va va' V V'. rewrite !Q' by done. by apply (uo_inj _ _ _ U).
Qed.

Hypothesis K : kmem_ok s free.

(** Mapped bytes are untouched. *)
Lemma ext_byte x y : uva x -> valid (k_mem s) root x = true -> in_page (upa (k_mem s) root x) y ->
  mget (k_mem s') y = mget (k_mem s) y.
Proof. intros V Hv Hy. destruct (leaf_apart s root free x y) as [? ?]; auto. by apply X. Qed.

Lemma ext_view x : uva x -> pte_of (k_mem s') root x = pte_of (k_mem s) root x ->
  uview (k_mem s') root x = uview (k_mem s) root x.
Proof.
  intros V E. unfold uview, ubyte, valid, upa. rewrite E.
  destruct (has_bits (pte_of (k_mem s) root x) PTE_V) eqn:B; [|done].
  rewrite (ext_byte x); auto. apply in_page_off.
Qed.

Hypothesis Pp : page p.
Hypothesis Nf : p ∉ free.
Hypothesis No : ~ owned (k_mem s) root p.
Hypothesis Hperm : 0 <= perm < 1024.
Hypothesis Hleaf : Z.lor perm PTE_V <> PTE_V.

Lemma ext_new_byte y : in_page p y -> mget (k_mem s') y = mget (k_mem s) y.
Proof.
  intros Hy. apply X; intros W.
  - apply No. left. refine (page_within _ _ _ _ Pp Hy W). intros q Hq.
    by eapply is_tbl_page in Hq as [? _]; [|apply U].
  - apply Nf. refine (page_within (.∈ free) _ _ _ Pp Hy W). intros q Hq. by eapply kmem_page.
Qed.

Lemma ext_frame_own y :
  ~ within (fun q => owned (k_mem s) root q \/ q ∈ free) y -> mget (k_mem s') y = mget (k_mem s) y.
Proof.
  intros W. apply X; intros (q & Hq & Hy); apply W; exists q; unfold owned; auto.
Qed.

Lemma uvm_own_same q :
  (forall x, uva x -> pte_of (k_mem s') root x = pte_of (k_mem s) root x) ->
  owned (k_mem s') root q \/ q ∈ free' <-> owned (k_mem s) root q \/ q ∈ free.
Proof.
  intros Q. pose proof (leaf_page_ext _ _ root q Q). pose proof (ex_own _ _ _ _ _ X q).
  unfold owned. clear Hperm. tauto.
Qed.

Hypothesis Q : forall x, va_ok x -> pte_of (k_mem s') root x =
  if decide (x / 4096 = a / 4096) then Z.lor (Z.lor (PA2PTE p) perm) PTE_V
  else pte_of (k_mem s) root x.

Lemma new_pte x : uva x -> x / 4096 = a / 4096 ->
  pte_of (k_mem s') root x = Z.lor (PA2PTE p) (Z.lor perm PTE_V).
Proof. intros V E. rewrite Q by (by apply uva_va_ok). rewrite decide_True by done. by rewrite Z.lor_assoc. Qed.

Lemma old_pte x : uva x -> x / 4096 <> a / 4096 ->
  pte_of (k_mem s') root x = pte_of (k_mem s) root x.
Proof. intros V E. rewrite Q by (by apply uva_va_ok). by rewrite decide_False. Qed.

Lemma new_upa x : uva x -> x / 4096 = a / 4096 -> upa (k_mem s') root x = p.
Proof.
  intros V E. unfold upa. rewrite new_pte by done. apply PTE2PA_PA2PTE; [by apply page_pa_ok|].
  by apply perm_flags.
Qed.

Lemma new_valid x : uva x -> x / 4096 = a / 4096 -> valid (k_mem s') root x = true.
Proof.
  intros V E. unfold valid. rewrite new_pte by done. unfold PTE_V at 2.
  rewrite pte_bits; [|by apply page_pa_ok|by apply perm_flags|done].
  rewrite Z.lor_spec. apply orb_true_r.
Qed.

Lemma old_not_p x : uva x -> x / 4096 <> a / 4096 -> valid (k_mem s') root x = true ->
  upa (k_mem s') root x <> p.
Proof.
  unfold valid, upa. intros V E. rewrite old_pte by done. intros Hv Ep. apply No. right.
  by exists x.
Qed.

Lemma uvm_ok_map : uvm_ok (k_mem s') root free'.
Proof.
  split; [apply X|..].
  - intros va V Hv. destruct (decide (va / 4096 = a / 4096)) as [E|E].
    + rewrite new_upa, new_pte by done. split; [done|]. split; [by intros ?%ext_free|].
      split; [intros [?|?]%ext_tbl; [apply No; by left|done]|].
      rewrite PTE_FLAGS_PA2PTE; [done|by apply page_pa_ok|by apply perm_flags].
    + unfold valid, upa in *. rewrite old_pte in * by done.
      destruct (uo_leaf _ _ _ U va V Hv) as (P1 & P2 & P3 & P4). split; [done|].
      split; [by intros ?%ext_free|]. split; [|done]. by intros [?|?]%ext_tbl.
  - intros va va' V V' Hv Hv'.
    destruct (decide (va / 4096 = a / 4096)) as [E|E], (decide (va' / 4096 = a / 4096)) as [E'|E'].
    + congruence.
    + rewrite new_upa by done. intros Ep. by apply old_not_p in Hv'; [|done..].
    + rewrite (new_upa va') by done. intros Ep. by apply old_not_p in Hv; [|done..].
    + unfold valid, upa in *. rewrite !old_pte in * by done. by apply (uo_inj _ _ _ U).
Qed.

Hypothesis Ua : uva a.
Hypothesis Na : valid (k_mem s) root a = false.

Lemma uvm_own_map q :
  owned (k_mem s') root q \/ q ∈ free' <-> (owned (k_mem s) root q \/ q ∈ free) \/ q = p.
Proof.
  assert (LP : leaf_page (k_mem s') root q <-> leaf_page (k_mem s) root q \/ q = p).
  { split.
    - intros (x & V & Hv & Hp). destruct (decide (x / 4096 = a / 4096)) as [E|E].
      + right. by rewrite new_upa in Hp.
      + left. exists x. unfold valid, upa in *. by rewrite old_pte in * by done.
    - intros [(x & V & Hv & Hp)| ->].
      + exists x. assert (x / 4096 <> a / 4096).
        { intros E. rewrite (valid_page _ _ x a E) in Hv. congruence. }
        unfold valid, upa in *. by rewrite old_pte.
      + exists a. split; [done|]. split; [by apply new_valid|by apply new_upa]. }
  pose proof (ex_own _ _ _ _ _ X q). unfold owned. tauto.
Qed.

Lemma map_view x : uva x -> uview (k_mem s') root x =
  if decide (x / 4096 = a / 4096) then Some (Z.lor perm PTE_V, mget (k_mem s) (p + x mod 4096))
  else uview (k_mem s) root x.
Proof.
  intros V. case_decide as E.
  - unfold uview, ubyte. rewrite new_valid, new_upa, new_pte by done.
    rewrite PTE_FLAGS_PA2PTE; [|by apply page_pa_ok|by apply perm_flags].
    by rewrite ext_new_byte by apply in_page_off.
  - apply ext_view; [done|]. by apply old_pte.
Qed.

End MapOwned.

(** ** Memory that does not belong to the tables *)

Lemma uvm_ok_ext m m' root free free' :
  uvm_ok m root free -> (forall q, q ∈ free' -> q ∈ free) ->
  (forall y, within (is_tbl m root) y -> mget m' y = mget m y) ->
  uvm_ok m' root free' /\ (forall x, va_ok x -> pte_of m' root x = pte_of m root x) /\
  (forall q, is_tbl m' root q <-> is_tbl m root q).
Proof.
  intros U Hf Hy. destruct (tree_ext m m' root free (uo_pt _ _ _ U)) as [T Q].
  { intros va d q y V Hd E Hin. apply Hy. exists q. split; [by exists va, d|done]. }
  assert (TT : forall q, is_tbl m' root q <-> is_tbl m root q).
  { intros q. split; intros (va & d & V & Hd & E); exists va, d;
      (rewrite T in E by (done || lia)) || rewrite T by (done || lia); done. }
  split; [|done]. split.
  - apply (pt_ok_same m m' root free free' (uo_pt _ _ _ U) T).
    { intros va d q V Hd E ?%Hf. by destruct (pt_page _ _ _ (uo_pt _ _ _ U) va d q). }
    exact Hy.
  - intros va V. unfold valid, upa. rewrite Q by (by apply uva_va_ok). intros Hv.
    destruct (uo_leaf _ _ _ U va V Hv) as (P1 & P2 & P3 & P4). rewrite TT.
    split; [done|]. split; [by intros ?%Hf|]. done.
  - intros va va' V V'. unfold valid, upa. rewrite !Q by (by apply uva_va_ok).
    by apply (uo_inj _ _ _ U).
Qed.

Lemma own_ext m m' root :
  (forall x, va_ok x -> pte_of m' root x = pte_of m root x) ->
  (forall q, is_tbl m' root q <-> is_tbl m root q) ->
  forall q, owned m' root q <-> owned m root q.
Proof.
  intros Q T q. unfold owned. rewrite T.
  pose proof (leaf_page_ext m m' root q (fun x V => Q x (uva_va_ok x V))). tauto.
Qed.

Lemma view_ext m m' root x :
  pte_of m' root x = pte_of m root x ->
  (valid m root x = true -> forall y, in_page (upa m root x) y -> mget m' y = mget m y) ->
  uview m' root x = uview m root x.
Proof.
  intros E B. unfold uview, ubyte, valid, upa in *. rewrite E.
  destruct (has_bits (pte_of m root x) PTE_V) eqn:V; [|done]. rewrite B; auto. apply in_page_off.
Qed.

(** The free list only matters through the pages it must not contain. *)
Lemma uvm_ok_free m root free free' :
  uvm_ok m root free -> (forall q, owned m root q -> q ∉ free') -> uvm_ok m root free'.
Proof.
  intros U No. split.
  - split; [|apply U..]. intros va d q V Hd E. destruct (pt_page _ _ _ (uo_pt _ _ _ U) va d q) as [P N]; auto.
    split; [done|]. apply No. left. by exists va, d.
  - intros va V Hv. destruct (uo_leaf _ _ _ U va V Hv) as (P1 & P2 & P3 & P4). split; [done|].
    split; [|done]. apply No. right. by exists va.
  - apply U.
Qed.

Lemma owned_not_free m root free q : uvm_ok m root free -> owned m root q -> page q /\ q ∉ free.
Proof.
  intros U [T|(x & V & Hv & <-)]; [eapply is_tbl_page; [apply U|done]|].
  by destruct (uo_leaf _ _ _ U x V Hv) as (? & ? & _).
Qed.

Lemma uvm_ok_cons m root free p :
  uvm_ok m root free -> ~ owned m root p -> uvm_ok m root (p :: free).
Proof.
  intros U No. apply (uvm_ok_free m root free); [done|]. intros q O [->|?]%elem_of_cons; [done|].
  by destruct (owned_not_free m root free q U O).
Qed.

(** kfree of a page outside the address space. *)
Lemma freed_ok s root free p :
  kmem_ok s free -> kmem_callable s -> uvm_ok (k_mem s) root free ->
  page p -> p ∉ free -> ~ owned (k_mem s) root p ->
  let s' := freed p s in
  kfree p s = Ok tt s' /\ mem_only s s' /\ kmem_ok s' (p :: free) /\
  uvm_ok (k_mem s') root (p :: free) /\
  (forall x, va_ok x -> pte_of (k_mem s') root x = pte_of (k_mem s) root x) /\
  (forall q, owned (k_mem s') root q <-> owned (k_mem s) root q) /\
  (forall x, uva x -> uview (k_mem s') root x = uview (k_mem s) root x) /\
  (forall y, ~ in_page p y -> mget (k_mem s') y = mget (k_mem s) y).
Proof.
  intros K C U Pp Np No s'.
  assert (F : forall y, ~ in_page p y -> mget (k_mem s') y = mget (k_mem s) y).
  { intros y Hy. subst s'. unfold freed. ksimpl. rewrite mget_mst64_out.
    - by apply mget_fillpage_out.
    - unfold in_page in Hy. lia. }
  destruct (uvm_ok_ext (k_mem s) (k_mem s') root (p :: free) (p :: free)) as (U2 & Q2 & T2);
    [by apply uvm_ok_cons|done|..].
  { intros y (q & T & Hy). apply F. apply (pages_apart q); auto.
    - eapply is_tbl_page; [apply U|done].
    - intros ->. apply No. by left. }
  split; [apply kfree_eq; auto; apply C|]. split; [eexists _, _; right; reflexivity|].
  split; [by apply kfree_kmem|]. split; [done|]. split; [done|].
  split; [by apply own_ext|]. split; [|done].
  intros x V. apply view_ext; [by apply Q2, uva_va_ok|]. intros Hv y Hy. apply F.
  destruct (uo_leaf _ _ _ U x V Hv) as (Px & Nx & _). apply (pages_apart _ p _ Px); auto.
  intros E. apply No. right. by exists x.
Qed.

(** The state after kalloc has returned the page [p]. *)
Definition allocated (p : Z) (s : kstate) : kstate :=
  set_k_mem (fillpage (k_mem s) p 5) (set_k_freelist (mld64 (k_mem s) p) (settle s)).

Section AllocMap.
Variables (s : kstate) (root p : Z) (free : list Z) (m2 : memory).
Hypothesis K : kmem_ok s (p :: free).
Hypothesis C : kmem_callable s.
Hypothesis U : uvm_ok (k_mem s) root (p :: free).
Hypothesis M2 : forall y, ~ in_page p y -> mget m2 y = mget (k_mem s) y.

Lemma alloc_page : page p /\ p ∉ free /\ p <> 0 /\ ~ owned (k_mem s) root p.
Proof.
  pose proof K as (_ & ND & Pg). inversion_clear ND as [|? ? Np _].
  inversion_clear Pg as [|? ? Pp _]. split; [done|]. split; [done|].
  split; [apply page_pa_ok in Pp as [_ ?]; lia|]. intros [T|(x & V & Hv & E)].
  - eapply is_tbl_page in T as [_ N]; [|apply U]. apply N. by left.
  - destruct (uo_leaf _ _ _ U x V Hv) as (_ & N & _). apply N. rewrite E. by left.
Qed.

(** Whatever the caller then stores in the page. *)
Lemma allocated_ok :
  let s2 := set_k_mem m2 (allocated p s) in
  kalloc s = Ok p (allocated p s) /\ mem_only s s2 /\ kmem_ok s2 free /\
  uvm_ok m2 root free /\ (forall x, va_ok x -> pte_of m2 root x = pte_of (k_mem s) root x) /\
  (forall q, owned m2 root q <-> owned (k_mem s) root q) /\
  (forall x, uva x -> uview m2 root x = uview (k_mem s) root x).
Proof.
  intros s2. destruct alloc_page as (Pp & Np & _ & No).
  destruct (kalloc_some s p free K) as [Ek K']; [apply C..|].
  destruct (uvm_ok_ext (k_mem s) m2 root (p :: free) free) as (U2 & Q2 & T2); auto.
  { set_solver. }
  { intros y (q & T & Hy). apply M2. apply (pages_apart q); auto.
    - eapply is_tbl_page; [apply U|done].
    - intros ->. apply No. by left. }
  split; [exact Ek|]. split; [|split; [|split; [done|split; [done|split]]]].
  - etransitivity; [|apply mem_only_store]. eexists _, _. right. reflexivity.
  - pose proof K' as (F & ND & Pg). split; [|done]. eapply flist_ext; [|exact F].
    intros q Hq. pose proof (kmem_page _ _ q K' Hq) as Pq. ksimpl.
    apply mld64_ext. intros y Hy. assert (~ in_page p y).
    { apply (pages_apart q); auto; [congruence|]. unfold in_page. lia. }
    by rewrite M2, mget_fillpage_out.
  - by apply own_ext.
  - intros x V. apply view_ext; [by apply Q2, uva_va_ok|]. intros Hv y Hy. apply M2.
    destruct (uo_leaf _ _ _ U x V Hv) as (Px & Nx & _). apply (pages_apart _ p _ Px); auto.
    intros E. apply Nx. rewrite E. by left.
Qed.

(** Map it at [a], and on failure give it back. *)
Lemma alloc_map a perm :
  uva a -> a mod 4096 = 0 -> valid (k_mem s) root a = false ->
  0 <= perm < 1024 -> Z.lor perm PTE_V <> PTE_V ->
  exists r s3 f3, mappages root a PGSIZE p perm (set_k_mem m2 (allocated p s)) = Ok r s3 /\
    (r = 0 /\ (length free <= length f3 + 2)%nat /\ uvm_step root (p :: free) s f3 s3 /\
       (forall x, va_ok x -> x / 4096 <> a / 4096 -> pte_of (k_mem s3) root x = pte_of (k_mem s) root x) /\
       (forall x, uva x -> uview (k_mem s3) root x =
          if decide (x / 4096 = a / 4096) then Some (Z.lor perm PTE_V, mget m2 (p + x mod 4096))
          else uview (k_mem s) root x) \/
     r = -1 /\ (length free < 2)%nat /\ exists s4, kfree p s3 = Ok tt s4 /\ uvm_step root (p :: free) s [p] s4 /\
       (forall x, va_ok x -> pte_of (k_mem s4) root x = pte_of (k_mem s) root x) /\
       (forall x, uva x -> uview (k_mem s4) root x = uview (k_mem s) root x)).
Proof.
  intros Ua Ma Na Hp Hl. destruct alloc_page as (Pp & Np & _ & No).
  pose proof (page_pa_ok p Pp) as [Pa _].
  destruct allocated_ok as (_ & O2 & K2 & U2 & Q2 & W2 & V2). set (s2 := set_k_mem m2 (allocated p s)) in *.
  change m2 with (k_mem s2) in U2, Q2, W2, V2.
  assert (C2 : kmem_callable s2) by (by eapply mem_only_callable).
  assert (Na2 : valid (k_mem s2) root a = false) by (unfold valid; rewrite Q2; [done|by apply uva_va_ok]).
  assert (No2 : ~ owned (k_mem s2) root p) by (by rewrite W2).
  destruct (mappages_page s2 root free a p perm) as (r & s3 & f3 & Er & X & D); auto;
    [apply U2|by apply uva_va_ok|destruct Pp as [_ [_ Pe]]; change (2 ^ 56) with 72057594037927936;
     unfold PHYSTOP, KERNBASE in Pe; lia|].
  assert (Fr : forall y, ~ within (fun q => owned (k_mem s) root q \/ q ∈ p :: free) y ->
    mget (k_mem s3) y = mget (k_mem s) y).
  { intros y W. rewrite (ext_frame_own s2 s3 root free f3 X).
    - apply M2. intros Hy. apply W. exists p. split; [right; by left|done].
    - intros (q & Hq & Hy). apply W. exists q. split; [|done]. rewrite <- W2. destruct Hq; [by left|].
      right. by right. }
  exists r, s3, f3. split; [done|]. destruct D as [(-> & Q & Ln)|(-> & -> & Ln & Q)]; [left|right].
  - split; [done|]. split; [done|]. split; [|split].
    + split; [by etransitivity; [exact O2|apply X]|apply X|by eapply uvm_ok_map|..|exact Fr].
      intros q. rewrite (uvm_own_map s2 s3 root free f3 a p perm), W2, elem_of_cons; auto. tauto.
    + intros x V N. rewrite Q, decide_False, Q2 by done. done.
    + intros x V. erewrite (map_view s2 s3 root free f3 a p perm); eauto. by rewrite V2.
  - assert (Qu : forall x, uva x -> pte_of (k_mem s3) root x = pte_of (k_mem s2) root x) by (intros x V; by apply Q, uva_va_ok).
    destruct (freed_ok s3 root [] p) as (Ek & O4 & K4 & U4 & Q4 & W4 & V4 & F4); auto.
    + apply X.
    + eapply mem_only_callable; [apply X|done].
    + by eapply uvm_ok_same.
    + set_solver.
    + intros O. destruct (proj1 (uvm_own_same s2 s3 root free [] X p Qu) (or_introl O)); done.
    + split; [done|]. split; [done|]. exists (freed p s3). split; [done|]. split; [split|split].
      * etransitivity; [exact O2|]. etransitivity; [apply X|done].
      * done.
      * done.
      * intros q. pose proof (uvm_own_same s2 s3 root free [] X q Qu) as O. rewrite W2 in O.
        rewrite W4, !elem_of_cons. tauto.
      * intros y W. rewrite F4, Fr; [done..|]. intros Hy. apply W. exists p. split; [right; by left|done].
      * intros x V. by rewrite Q4, Q, Q2.
      * intros x V. rewrite V4, (ext_view s2 s3 root free []), V2; auto.
Qed.

End AllocMap.

(** ** Unmapping a page *)

Section Unmap.
Variables (s : kstate) (root : Z) (free : list Z) (a q : Z).
Hypothesis K : kmem_ok s free.
Hypothesis C : kmem_callable s.
Hypothesis U : uvm_ok (k_mem s) root free.
Hypothesis Ua : uva a.
Hypothesis Va : valid (k_mem s) root a = true.
Hypothesis Tq : tbl (k_mem s) root a 2 = Some q.
Let p := upa (k_mem s) root a.
Let s0 := set_k_mem (mst64 (k_mem s) (slot q 2 a) 0) s.

Lemma unmap_pte x : va_ok x -> pte_of (k_mem s0) root x =
  if decide (x / 4096 = a / 4096) then 0 else pte_of (k_mem s) root x.
Proof. apply (set_leaf _ _ _ _ _ 0 (uo_pt _ _ _ U) (uva_va_ok _ Ua) Tq). Qed.

Lemma unmap_extends : extends root free s free s0.
Proof. apply extends_leaf; [done|apply U|by apply uva_va_ok|done]. Qed.

Lemma unmap_tbl x : is_tbl (k_mem s0) root x <-> is_tbl (k_mem s) root x.
Proof.
  destruct (set_leaf _ _ _ _ _ 0 (uo_pt _ _ _ U) (uva_va_ok _ Ua) Tq) as (_ & T & _).
  split; intros (va & d & V & Hd & E); exists va, d; (split; [done|]); (split; [done|]).
  - by rewrite <- T.
  - by rewrite <- E, T.
Qed.

(** What is still mapped was mapped, elsewhere. *)
Lemma unmap_valid x : uva x -> valid (k_mem s0) root x = true ->
  x / 4096 <> a / 4096 /\ valid (k_mem s) root x = true /\
  pte_of (k_mem s0) root x = pte_of (k_mem s) root x.
Proof.
  intros V. unfold valid. rewrite unmap_pte by (by apply uva_va_ok).
  case_decide; [|done]. done.
Qed.

Lemma unmap_uvm_ok : uvm_ok (k_mem s0) root free.
Proof.
  split; [apply unmap_extends|..].
  - intros x V Hv. apply unmap_valid in Hv as (N & Hv & E); [|done]. unfold upa. rewrite E, unmap_tbl.
    by apply (uo_leaf _ _ _ U).
  - intros x y Vx Vy Hx Hy. apply unmap_valid in Hx as (Nx & Hx & Ex); [|done].
    apply unmap_valid in Hy as (Ny & Hy & Ey); [|done]. unfold upa. rewrite Ex, Ey.
    by apply (uo_inj _ _ _ U).
Qed.

Lemma unmap_not_owned : ~ owned (k_mem s0) root p.
Proof.
  intros [T|(x & V & Hv & E)].
  - rewrite unmap_tbl in T. by destruct (uo_leaf _ _ _ U a Ua Va) as (_ & _ & N & _).
  - apply unmap_valid in Hv as (N & Hv & E'); [|done]. apply N. apply (uo_inj _ _ _ U); auto.
    unfold upa in *. by rewrite <- E'.
Qed.

Lemma unmap_owned x : owned (k_mem s0) root x \/ x = p <-> owned (k_mem s) root x.
Proof.
  unfold owned at 1 2. rewrite unmap_tbl. split.
  - intros [[T|(y & V & Hv & E)]| ->]; [by left|right|right; by exists a].
    apply unmap_valid in Hv as (N & Hv & E'); [|done]. exists y. unfold upa in *. by rewrite <- E'.
  - intros [T|(y & V & Hv & E)]; [left; by left|].
    destruct (decide (y / 4096 = a / 4096)) as [Ey|Ey].
    + right. rewrite <- E. unfold upa, p. by rewrite (pte_of_page _ _ y a).
    + left. right. exists y. unfold valid, upa in *.
      rewrite unmap_pte, decide_False by (done || by apply uva_va_ok). done.
Qed.

Lemma unmap_view x : uva x -> uview (k_mem s0) root x =
  if decide (x / 4096 = a / 4096) then None else uview (k_mem s) root x.
Proof.
  intros V. pose proof (unmap_pte x (uva_va_ok x V)) as Q. case_decide.
  - unfold uview, valid. by rewrite Q.
  - by apply (ext_view s s0 root free free U unmap_extends K).
Qed.

(** kfree(PTE2PA( *pte)) and then *pte = 0 amount to the other order. *)
Lemma unmap_free_comm :
  set_k_mem (mst64 (k_mem (freed p s)) (slot q 2 a) 0) (freed p s) = freed p s0.
Proof.
  destruct (uo_leaf _ _ _ U a Ua Va) as (Pp & _ & Nt & _).
  destruct (pt_page _ _ _ (uo_pt _ _ _ U) a 2 q (uva_va_ok _ Ua) ltac:(lia) Tq) as [Pq _].
  assert (Npq : p <> q) by (intros E; apply Nt; exists a, 2%nat; fold p; rewrite Tq, E; split; [by apply uva_va_ok|done]).
  assert (slot q 2 a + 8 <= p \/ p + 4096 <= slot q 2 a).
  { pose proof (idx_range 2 a ltac:(lia)). rewrite slot_eq. destruct Pp as [M _], Pq as [M' _].
    fold p in M. zlia. }
  unfold freed, s0, settle. kst_eq.
  rewrite <- mst64_fillpage_comm by done. rewrite !mst64_mwrite. apply mwrite_comm.
  rewrite !length_le_bytes. lia.
Qed.

Lemma unmap_one :
  kfree p s = Ok tt (freed p s) /\ page p /\
  let s' := freed p s0 in
  uvm_step root free s (p :: free) s' /\
  (forall x, va_ok x -> pte_of (k_mem s') root x =
     if decide (x / 4096 = a / 4096) then 0 else pte_of (k_mem s) root x) /\
  (forall x, uva x -> uview (k_mem s') root x =
     if decide (x / 4096 = a / 4096) then None else uview (k_mem s) root x).
Proof.
  destruct (uo_leaf _ _ _ U a Ua Va) as (Pp & Np & _ & _).
  destruct (freed_ok s0 root free p) as (_ & O & K' & U' & Q' & W' & V' & F'); auto;
    [apply unmap_extends|apply unmap_uvm_ok|apply unmap_not_owned|].
  split; [apply kfree_eq; auto; apply C|]. split; [done|]. split; [split|split].
  - etransitivity; [apply unmap_extends|done].
  - done.
  - done.
  - intros x. rewrite W', elem_of_cons, <- (unmap_owned x). tauto.
  - intros y W. rewrite F'.
    + by apply (ext_frame_own s s0 root free free unmap_extends).
    + intros Hy. apply W. exists p. split; [|done]. left. apply unmap_owned. by right.
  - intros x V. by rewrite Q', unmap_pte.
  - intros x V. by rewrite V', unmap_view.
Qed.

End Unmap.

(** ** Two address spaces *)

Definition disjoint_spaces (m : memory) (r1 r2 : Z) : Prop :=
  forall p, owned m r1 p -> ~ owned m r2 p.

(** An operation on the space [r2] leaves every other space alone. *)
Lemma other_space r1 r2 free s free' s' :
  uvm_step r2 free s free' s' -> kmem_ok s free -> uvm_ok (k_mem s) r2 free ->
  uvm_ok (k_mem s) r1 free -> disjoint_spaces (k_mem s) r1 r2 ->
  uvm_ok (k_mem s') r1 free' /\ disjoint_spaces (k_mem s') r1 r2 /\
  (forall x, va_ok x -> pte_of (k_mem s') r1 x = pte_of (k_mem s) r1 x) /\
  (forall x, uva x -> uview (k_mem s') r1 x = uview (k_mem s) r1 x).
Proof.
  intros X K U2 U D.
  assert (F : forall q y, owned (k_mem s) r1 q -> in_page q y -> mget (k_mem s') y = mget (k_mem s) y).
  { intros q y O Hy. destruct (owned_not_free _ _ _ _ U O) as [Pq Nq]. apply X. intros W.
    assert (owned (k_mem s) r2 q \/ q ∈ free) as [?|?]; [|by eapply D|done].
    refine (page_within _ _ _ _ Pq Hy W). intros z [Oz|?].
    - by destruct (owned_not_free _ _ _ z U2 Oz).
    - by eapply kmem_page. }
  destruct (uvm_ok_ext (k_mem s) (k_mem s') r1 free []) as (U' & Q & T); auto.
  { by intros q ?%not_elem_of_nil. }
  { intros y (q & Tq & Hy). apply (F q); [by left|done]. }
  pose proof (own_ext _ _ _ Q T) as OO.
  assert (NF : forall q, owned (k_mem s') r1 q -> ~ owned (k_mem s') r2 q /\ q ∉ free').
  { intros q O. rewrite OO in O. destruct (owned_not_free _ _ _ _ U O) as [_ N].
    pose proof (D q O). pose proof (us_own _ _ _ _ _ X q). tauto. }
  split; [by apply (uvm_ok_free _ _ []); [|apply NF]|]. split; [intros q O; by apply NF|].
  split; [done|]. intros x V. apply view_ext; [by apply Q, uva_va_ok|].
  intros Hv y Hy. apply (F (upa (k_mem s) r1 x)); [right; by exists x|done].
Qed.

End UserMem.
