(* ===== verification/Uvm.v ===== *)
(** * Operations on user memory (kernel/vm.c)

    uvmunmap, uvmdealloc, uvmalloc, uvmcopy, and the copies between kernel and user
    memory, by their effect on the user's view. *)

From S2P Require Import Prelude Memory Riscv State Kmonad Spinlock CString Kalloc Vm PageTable.
From S2P Require Import UserMem.
From Stdlib Require Import ZArith Lia.
From stdpp Require Import base numbers list gmap strings option.

#[local] Open Scope Z_scope.
#[local] Open Scope kernel_scope.

Section Uvm.
Context `{L : KernelLayout} `{LOK : !LayoutOk}.

Lemma TRAPFRAME_eq : TRAPFRAME = 274877898752.
Proof. reflexivity. Qed.

Lemma valid_tbl m root va : valid m root va = true ->
  exists q, tbl m root va 2 = Some q /\ mld64 m (slot q 2 va) = pte_of m root va.
Proof.
  unfold valid, pte_of. destruct (tbl m root va 2) as [q|]; [|done]. intros _. by exists q.
Qed.

(** The first commands of every loop that expects a mapped page. *)
Lemma walk_mapped s root free va :
  pt_ok (k_mem s) root free -> uva va -> valid (k_mem s) root va = true ->
  exists q, tbl (k_mem s) root va 2 = Some q /\ walk root va false s = Ok (slot q 2 va) s /\
    (slot q 2 va =? 0) = false /\ mld64 (k_mem s) (slot q 2 va) = pte_of (k_mem s) root va.
Proof.
  intros P V Hv. destruct (valid_tbl _ _ _ Hv) as (q & T & E). exists q. split; [done|].
  pose proof (uva_va_ok _ V) as Vo. rewrite walk_find, T by done.
  split; [done|]. split; [|done]. apply Z.eqb_neq.
  destruct (pt_page _ _ _ P va 2 q) as [Pq _]; auto. pose proof (slot_pos q 2 va Pq). lia.
Qed.

(** ** uvmunmap and uvmdealloc *)

Definition mapped (m : memory) (root a n : Z) : Prop :=
  forall x, a <= x < a + n * 4096 -> valid m root x = true.

Definition unmapped_st (root a : Z) (s : kstate) : kstate :=
  match tbl (k_mem s) root a 2 with
  | Some q => freed (upa (k_mem s) root a) (set_k_mem (mst64 (k_mem s) (slot q 2 a) 0) s)
  | None => s
  end.

Lemma uvmunmap_iter fuel s root free a stop :
  kmem_ok s free -> kmem_callable s -> uvm_ok (k_mem s) root free ->
  uva a -> valid (k_mem s) root a = true -> a < stop ->
  let s1 := unmapped_st root a s in
  let p := upa (k_mem s) root a in
  uvmunmap_loop (S fuel) root a stop true s = uvmunmap_loop fuel root (a + 4096) stop true s1 /\
  uvm_step root free s (p :: free) s1 /\ kmem_callable s1 /\
  (forall x, va_ok x -> pte_of (k_mem s1) root x =
     if decide (x / 4096 = a / 4096) then 0 else pte_of (k_mem s) root x) /\
  (forall x, uva x -> uview (k_mem s1) root x =
     if decide (x / 4096 = a / 4096) then None else uview (k_mem s) root x).
Proof.
  intros K C U Ua Va Hlt s1 p.
  destruct (walk_mapped s root free a (uo_pt _ _ _ U) Ua Va) as (q & Tq & Ew & Ez & El).
  destruct (unmap_one s root free a q K C U Ua Va Tq) as (Ek & Pp & X & Q & W).
  subst s1. unfold unmapped_st. rewrite Tq. split; [|split; [done|]; split; [|done]].
  2: { eapply mem_only_callable; [apply X|done]. }
  cbn [uvmunmap_loop]. destruct (Z.ltb_spec a stop) as [_|]; [|lia]. cbn [negb].
  erewrite bind_ok; [|exact Ew]. rewrite Ez. unfold ld64. kprim. rewrite El.
  pose proof Va as Va'. unfold valid in Va'. rewrite Va'. cbn [negb].
  destruct (uo_leaf _ _ _ U a Ua Va) as (_ & _ & _ & Fl). apply Z.eqb_neq in Fl. rewrite Fl.
  fold (upa (k_mem s) root a). cbn [when]. erewrite bind_ok; [|exact Ek]. unfold st64. kprim.
  rewrite (unmap_free_comm s root free a q U Ua Va Tq).
  destruct Ua as [A0 A1]. rewrite TRAPFRAME_eq in A1. by rewrite u64_small by (unfold PGSIZE; lia).
Qed.

Lemma uvmunmap_loop_ok fuel n s root free a :
  kmem_ok s free -> kmem_callable s -> uvm_ok (k_mem s) root free ->
  0 <= n -> n < Z.of_nat fuel -> a mod 4096 = 0 -> 0 <= a -> a + n * 4096 <= TRAPFRAME ->
  mapped (k_mem s) root a n ->
  exists s' free', uvmunmap_loop fuel root a (a + n * 4096) true s = Ok tt s' /\
    uvm_step root free s free' s' /\ Z.of_nat (length free') = Z.of_nat (length free) + n /\
    (forall x, va_ok x -> pte_of (k_mem s') root x =
       if decide (a <= x < a + n * 4096) then 0 else pte_of (k_mem s) root x) /\
    (forall x, uva x -> uview (k_mem s') root x =
       if decide (a <= x < a + n * 4096) then None else uview (k_mem s) root x).
Proof.
  rewrite TRAPFRAME_eq.
  revert n s free a. induction fuel as [|fuel IH]; intros n s free a K C U Hn Hf Ma A0 A1 Mp; [lia|].
  destruct (decide (n = 0)) as [->|Hn0].
  { cbn [uvmunmap_loop]. destruct (Z.ltb_spec a (a + 0 * 4096)); [lia|]. exists s, free.
    split; [done|]. split; [by apply uvm_step_refl|]. split; [lia|].
    split; intros x V; (case_decide; [lia|done]). }
  assert (Ua : uva a) by (split; rewrite ?TRAPFRAME_eq; lia).
  assert (Va : valid (k_mem s) root a = true) by (apply Mp; lia).
  destruct (uvmunmap_iter fuel s root free a (a + n * 4096) K C U Ua Va ltac:(lia))
    as (Ei & X & C1 & Q & W). rewrite Ei.
  set (s1 := unmapped_st root a s) in *.
  replace (a + n * 4096) with (a + 4096 + (n - 1) * 4096) by lia.
  destruct (IH (n - 1) s1 (upa (k_mem s) root a :: free) (a + 4096))
    as (s' & f' & Er & X' & Nf & Q' & W'); try lia; try apply X; try done; try zlia.
  { intros x Hx. unfold valid. rewrite Q by (split; change MAXVA with 274877906944; lia).
    rewrite decide_False by zlia. apply Mp. lia. }
  exists s', f'. split; [exact Er|]. split; [by eapply uvm_step_trans|].
  split; [cbn [length] in Nf; lia|].
  split; intros x V; [rewrite Q', Q by done|rewrite W', W by done];
    repeat case_decide; try zlia; done.
Qed.

Lemma uvmunmap_ok s root free a n :
  kmem_ok s free -> kmem_callable s -> uvm_ok (k_mem s) root free ->
  0 <= n -> a mod 4096 = 0 -> 0 <= a -> a + n * 4096 <= TRAPFRAME -> mapped (k_mem s) root a n ->
  exists s' free', uvmunmap root a n true s = Ok tt s' /\
    uvm_step root free s free' s' /\ Z.of_nat (length free') = Z.of_nat (length free) + n /\
    (forall x, va_ok x -> pte_of (k_mem s') root x =
       if decide (a <= x < a + n * 4096) then 0 else pte_of (k_mem s) root x) /\
    (forall x, uva x -> uview (k_mem s') root x =
       if decide (a <= x < a + n * 4096) then None else uview (k_mem s) root x).
Proof.
  intros K C U Hn Ma A0 A1 Mp. unfold uvmunmap, PGSIZE. rewrite Ma. cbn [Z.eqb negb].
  rewrite u64_small by (rewrite TRAPFRAME_eq in A1; lia). apply uvmunmap_loop_ok; auto; lia.
Qed.

Lemma uvmdealloc_ok s root free oldsz newsz :
  kmem_ok s free -> kmem_callable s -> uvm_ok (k_mem s) root free ->
  0 <= newsz <= oldsz -> oldsz <= TRAPFRAME ->
  (forall x, PGROUNDUP newsz <= x < PGROUNDUP oldsz -> valid (k_mem s) root x = true) ->
  exists s' free', uvmdealloc root oldsz newsz s = Ok newsz s' /\
    uvm_step root free s free' s' /\
    Z.of_nat (length free') = Z.of_nat (length free) + (PGROUNDUP oldsz - PGROUNDUP newsz) / 4096 /\
    (forall x, va_ok x -> pte_of (k_mem s') root x =
       if decide (PGROUNDUP newsz <= x < PGROUNDUP oldsz) then 0 else pte_of (k_mem s) root x) /\
    (forall x, uva x -> uview (k_mem s') root x =
       if decide (PGROUNDUP newsz <= x < PGROUNDUP oldsz) then None else uview (k_mem s) root x).
Proof.
  intros K C U Hn Ho Mp. rewrite TRAPFRAME_eq in Ho. unfold uvmdealloc.
  assert (E1 := PGROUNDUP_eq oldsz ltac:(lia)). assert (E2 := PGROUNDUP_eq newsz ltac:(lia)).
  set (o := PGROUNDUP oldsz) in *. set (w := PGROUNDUP newsz) in *.
  assert (w <= o) by zlia.
  assert (Same : w = o -> exists s' free', Ok newsz s = Ok newsz s' /\ uvm_step root free s free' s' /\
    Z.of_nat (length free') = Z.of_nat (length free) + (o - w) / 4096 /\
    (forall x, va_ok x -> pte_of (k_mem s') root x =
       if decide (w <= x < o) then 0 else pte_of (k_mem s) root x) /\
    (forall x, uva x -> uview (k_mem s') root x =
       if decide (w <= x < o) then None else uview (k_mem s) root x)).
  { intros E. exists s, free. split; [done|]. split; [by apply uvm_step_refl|]. split; [zlia|].
    split; intros x V; (case_decide; [lia|done]). }
  destruct (Z.leb_spec oldsz newsz) as [Hle|Hgt].
  { assert (oldsz = newsz) as Eo by lia. rewrite Eo. apply Same. subst o w. by rewrite Eo. }
  destruct (Z.ltb_spec w o) as [Hlt|]; cbn [when]; [|kprim; apply Same; lia].
  assert (En : u64 (i32 ((o - w) / PGSIZE)) = (o - w) / 4096).
  { unfold PGSIZE. rewrite i32_small, u64_small; zlia. }
  rewrite En. assert (Eo : o = w + (o - w) / 4096 * 4096) by zlia.
  destruct (uvmunmap_ok s root free w ((o - w) / 4096)) as (s' & f' & Er & X & Hl & Q & W);
    auto; try (rewrite ?TRAPFRAME_eq; zlia).
  { intros x Hx. apply Mp. lia. }
  erewrite bind_ok; [|exact Er]. exists s', f'. rewrite <- Eo in Q, W. done.
Qed.

(** ** uvmalloc *)

Definition uperm (xperm : Z) : Z := Z.lor (Z.lor PTE_R PTE_U) xperm.

Lemma uperm_range xperm : 0 <= xperm < 1024 -> 0 <= uperm xperm < 1024.
Proof. intros H. apply (lor_bound _ _ 10); [lia|split; [done|reflexivity]|done]. Qed.

Lemma uperm_leaf xperm : Z.lor (uperm xperm) PTE_V <> PTE_V.
Proof.
  intros E. apply (f_equal (fun z => Z.testbit z 1)) in E. unfold uperm in E.
  by rewrite !Z.lor_spec in E.
Qed.

Lemma settle_step s root free :
  kmem_ok s free -> uvm_ok (k_mem s) root free -> uvm_step root free s free (settle s).
Proof.
  intros K U. split; try done. exists (k_mem s), (k_freelist s). right. reflexivity.
Qed.

(** Give up at page [a]: what uvmalloc does after a failed allocation. *)
Lemma uvmalloc_undo s s1 root free f1 old a :
  uvm_step root free s f1 s1 -> kmem_callable s ->
  (forall x, va_ok x -> pte_of (k_mem s1) root x = pte_of (k_mem s) root x) ->
  (forall x, uva x -> uview (k_mem s1) root x = uview (k_mem s) root x) ->
  0 <= old <= a -> old mod 4096 = 0 -> a mod 4096 = 0 -> a <= TRAPFRAME ->
  (forall x, old <= x < a -> valid (k_mem s) root x = true) ->
  exists s' free', (uvmdealloc root a old ;! ret 0) s1 = Ok 0 s' /\
    uvm_step root free s free' s' /\
    (forall x, va_ok x -> pte_of (k_mem s') root x =
       if decide (old <= x < a) then 0 else pte_of (k_mem s) root x) /\
    (forall x, uva x -> uview (k_mem s') root x =
       if decide (old <= x < a) then None else uview (k_mem s) root x).
Proof.
  intros X C Q W Ho Mo Ma A1 Mp. pose proof A1 as A1'. rewrite TRAPFRAME_eq in A1'.
  assert (Ea : PGROUNDUP a = a) by (rewrite PGROUNDUP_eq; zlia).
  assert (Eo : PGROUNDUP old = old) by (rewrite PGROUNDUP_eq; zlia).
  destruct (uvmdealloc_ok s1 root f1 a old) as (s' & f' & Er & X' & _ & Q' & W'); auto;
    try apply X.
  - eapply mem_only_callable; [apply X|done].
  - rewrite Ea, Eo. intros x Hx. unfold valid. rewrite Q; [by apply Mp|].
    apply uva_va_ok. unfold uva. lia.
  - rewrite Ea, Eo in Q', W'. exists s', f'. erewrite bind_ok; [|exact Er]. split; [done|].
    split; [by eapply uvm_step_trans|].
    split; intros x V; [rewrite Q', Q by done|rewrite W', W by done]; done.
Qed.

(** kalloc, memset 0, mappages, and kfree when mapping failed. *)
Lemma alloc_zeroed s root p free a perm :
  kmem_ok s (p :: free) -> kmem_callable s -> uvm_ok (k_mem s) root (p :: free) ->
  uva a -> a mod 4096 = 0 -> valid (k_mem s) root a = false ->
  0 <= perm < 1024 -> Z.lor perm PTE_V <> PTE_V ->
  exists s2 r s3 f3, kalloc s = Ok p (allocated p s) /\ (p =? 0) = false /\
    memset p 0 PGSIZE (allocated p s) = Ok tt s2 /\ mappages root a PGSIZE p perm s2 = Ok r s3 /\
    (r = 0 /\ uvm_step root (p :: free) s f3 s3 /\
       (forall x, va_ok x -> x / 4096 <> a / 4096 -> pte_of (k_mem s3) root x = pte_of (k_mem s) root x) /\
       (forall x, uva x -> uview (k_mem s3) root x =
          if decide (x / 4096 = a / 4096) then Some (Z.lor perm PTE_V, 0)
          else uview (k_mem s) root x) \/
     r = -1 /\ exists s4, kfree p s3 = Ok tt s4 /\ uvm_step root (p :: free) s [p] s4 /\
       (forall x, va_ok x -> pte_of (k_mem s4) root x = pte_of (k_mem s) root x) /\
       (forall x, uva x -> uview (k_mem s4) root x = uview (k_mem s) root x)).
Proof.
  intros K C U Ua Ma Na Hp Hl.
  set (m2 := fillpage (fillpage (k_mem s) p 5) p 0).
  assert (M2 : forall y, ~ in_page p y -> mget m2 y = mget (k_mem s) y).
  { intros y Hy. subst m2. by rewrite !mget_fillpage_out. }
  destruct (allocated_ok s root p free m2 K C U M2) as (Ek & _).
  destruct (alloc_page s root p free K U) as (Pp & _ & Np & _).
  destruct (alloc_map s root p free m2 K C U M2 a perm) as (r & s3 & f3 & Er & D); auto.
  exists (set_k_mem m2 (allocated p s)), r, s3, f3. split; [done|].
  split; [by apply Z.eqb_neq|]. split; [by apply memset_page|]. split; [done|].
  destruct D as [(-> & _ & X & Q & W)|(-> & _ & D)]; [left|by right]. split; [done|]. split; [done|]. split; [done|].
  intros x V. rewrite W by done. case_decide; [|done]. subst m2.
  by rewrite mget_fillpage_in by apply in_page_off.
Qed.

Lemma uvmalloc_loop_ok fuel s root free a old newsz xperm :
  kmem_ok s free -> kmem_callable s -> uvm_ok (k_mem s) root free ->
  old mod 4096 = 0 -> a mod 4096 = 0 -> 0 <= old <= a -> a <= PGROUNDUP newsz ->
  0 <= newsz <= TRAPFRAME -> 0 <= xperm < 1024 -> PGROUNDUP newsz - a < 4096 * Z.of_nat fuel ->
  (forall x, old <= x < a -> valid (k_mem s) root x = true) ->
  (forall x, a <= x < PGROUNDUP newsz -> valid (k_mem s) root x = false) ->
  exists r s' free', uvmalloc_loop fuel root a old newsz xperm s = Ok r s' /\
    uvm_step root free s free' s' /\
    (forall x, va_ok x -> ~ old <= x < PGROUNDUP newsz ->
       pte_of (k_mem s') root x = pte_of (k_mem s) root x) /\
    (r = newsz /\
     (forall x, uva x -> uview (k_mem s') root x =
        if decide (a <= x < PGROUNDUP newsz) then Some (Z.lor (uperm xperm) PTE_V, 0)
        else uview (k_mem s) root x) \/
     r = 0 /\
     (forall x, uva x -> uview (k_mem s') root x =
        if decide (old <= x < a) then None else uview (k_mem s) root x)).
Proof.
  revert s free a. induction fuel as [|fuel IH];
    intros s free a K C U Mo Ma Ho Ha Hz Hx Hf Mp Un; [lia|].
  pose proof Hz as Hz'. rewrite TRAPFRAME_eq in Hz'.
  assert (En := PGROUNDUP_eq newsz ltac:(lia)). set (w := PGROUNDUP newsz) in *.
  cbn [uvmalloc_loop]. destruct (Z.ltb_spec a newsz) as [Hlt|Hge]; cbn [negb].
  2: { assert (w = a) by zlia. exists newsz, s, free. split; [done|].
       split; [by apply uvm_step_refl|]. split; [done|]. left. split; [done|].
       intros x V. by rewrite decide_False by lia. }
  assert (Ua : uva a) by (split; rewrite ?TRAPFRAME_eq; lia).
  assert (Na : valid (k_mem s) root a = false) by (apply Un; zlia).
  destruct free as [|p free].
  { erewrite bind_ok; [|apply kalloc_none; auto; apply C]. cbn [Z.eqb].
    destruct (uvmalloc_undo s (settle s) root [] [] old a) as (s' & f' & Er & X & Q & W); auto;
      [by apply settle_step|lia|].
    exists 0, s', f'. split; [done|]. split; [done|]. split; [|by right].
    intros x V N. by rewrite Q, decide_False by (done || zlia). }
  destruct (alloc_zeroed s root p free a (uperm xperm)) as (s2 & r & s3 & f3 & Ek & Np & Em & Er & D);
    auto using uperm_range, uperm_leaf.
  erewrite bind_ok; [|exact Ek]. rewrite Np. erewrite bind_ok; [|exact Em]. fold (uperm xperm).
  erewrite bind_ok; [|exact Er].
  destruct D as [(-> & X & Q & W)|(-> & s4 & Ef & X & Q & W)]; cbn [Z.eqb negb].
  2: { erewrite bind_ok; [|exact Ef].
       destruct (uvmalloc_undo s s4 root (p :: free) [p] old a) as (s' & f' & Er' & X' & Q' & W');
         auto; [lia|].
       exists 0, s', f'. split; [done|]. split; [done|]. split; [|by right].
       intros x V N. by rewrite Q', decide_False by (done || zlia). }
  rewrite u64_small by (unfold PGSIZE; lia). unfold PGSIZE.
  assert (VX : forall x, uva x -> valid (k_mem s3) root x =
    if decide (x / 4096 = a / 4096) then true else valid (k_mem s) root x).
  { intros x V. pose proof (W x V) as Wx. unfold uview in Wx. case_decide.
    - by destruct (valid (k_mem s3) root x).
    - by destruct (valid (k_mem s3) root x), (valid (k_mem s) root x). }
  destruct (IH s3 f3 (a + 4096)) as (r & s' & f' & Er' & X' & D); try apply X; auto; try zlia.
  { eapply mem_only_callable; [apply X|done]. }
  { intros x Hx'. rewrite VX by (unfold uva; rewrite TRAPFRAME_eq; zlia).
    case_decide; [done|]. apply Mp. zlia. }
  { intros x Hx'. rewrite VX by (unfold uva; rewrite TRAPFRAME_eq; zlia).
    case_decide; [zlia|]. apply Un. zlia. }
  destruct D as (Q' & D). exists r, s', f'. split; [done|]. split; [by eapply uvm_step_trans|].
  split; [intros x V N; rewrite Q', Q; (done || zlia)|].
  destruct D as [(-> & W')|(-> & W')]; [left|right]; (split; [done|]);
    intros x V; rewrite W', W by done; repeat case_decide; try zlia; try done.
  unfold uview. rewrite Un; [done|zlia].
Qed.

Lemma uvmalloc_ok s root free oldsz newsz xperm :
  kmem_ok s free -> kmem_callable s -> uvm_ok (k_mem s) root free ->
  0 <= oldsz <= newsz -> newsz <= TRAPFRAME -> 0 <= xperm < 1024 ->
  (forall x, PGROUNDUP oldsz <= x < PGROUNDUP newsz -> valid (k_mem s) root x = false) ->
  exists r s' free', uvmalloc root oldsz newsz xperm s = Ok r s' /\
    uvm_step root free s free' s' /\
    (forall x, va_ok x -> ~ PGROUNDUP oldsz <= x < PGROUNDUP newsz ->
       pte_of (k_mem s') root x = pte_of (k_mem s) root x) /\
    (r = newsz /\
     (forall x, uva x -> uview (k_mem s') root x =
        if decide (PGROUNDUP oldsz <= x < PGROUNDUP newsz)
        then Some (Z.lor (uperm xperm) PTE_V, 0) else uview (k_mem s) root x) \/
     r = 0 /\ (forall x, uva x -> uview (k_mem s') root x = uview (k_mem s) root x)).
Proof.
  intros K C U Ho Hn Hx Un. pose proof Hn as Hn'. rewrite TRAPFRAME_eq in Hn'.
  assert (E1 := PGROUNDUP_eq oldsz ltac:(lia)). assert (E2 := PGROUNDUP_eq newsz ltac:(lia)).
  unfold uvmalloc. destruct (Z.ltb_spec newsz oldsz); [lia|]. unfold PGSIZE.
  destruct (uvmalloc_loop_ok (S (Z.to_nat ((newsz - PGROUNDUP oldsz + 4096 - 1) / 4096))) s root free
    (PGROUNDUP oldsz) (PGROUNDUP oldsz) newsz xperm) as (r & s' & f' & Er & X & Q & D);
    auto; try lia; try zlia.
  exists r, s', f'. split; [done|]. split; [done|]. split; [done|].
  destruct D as [D|(-> & W)]; [by left|right]. split; [done|].
  intros x V. by rewrite W, decide_False by (done || lia).
Qed.

(** ** walkaddr *)

Definition user_ok (m : memory) (root va : Z) : bool :=
  (va <? MAXVA) && valid m root va && has_bits (pte_of m root va) PTE_U.

Lemma walkaddr_eq s root free va :
  pt_ok (k_mem s) root free -> 0 <= va ->
  walkaddr root va s = Ok (if user_ok (k_mem s) root va then upa (k_mem s) root va else 0) s.
Proof.
  intros P V0. unfold walkaddr, user_ok. rewrite Z.ltb_antisym.
  destruct (Z.leb_spec MAXVA va) as [|V1]; [done|]. cbn [negb andb].
  assert (Vo : va_ok va) by done. erewrite bind_ok; [|by apply walk_find].
  unfold valid, upa, pte_of. destruct (tbl (k_mem s) root va 2) as [q|] eqn:T; [|done].
  destruct (pt_page _ _ _ P va 2 q) as [Pq _]; auto. pose proof (slot_pos q 2 va Pq).
  destruct (Z.eqb_spec (slot q 2 va) 0); [lia|]. unfold ld64. kprim.
  destruct (has_bits (mld64 (k_mem s) (slot q 2 va)) PTE_V); [|done].
  by destruct (has_bits (mld64 (k_mem s) (slot q 2 va)) PTE_U).
Qed.

Lemma user_ok_page m root x y :
  x < MAXVA -> y < MAXVA -> x / 4096 = y / 4096 -> user_ok m root x = user_ok m root y.
Proof.
  intros Hx Hy E. unfold user_ok, valid. rewrite (pte_of_page _ _ x y E).
  apply Z.ltb_lt in Hx, Hy. by rewrite Hx, Hy.
Qed.

(** The pages above the user's are not user-accessible: the trapframe and the trampoline. *)
Definition top_private (m : memory) (root : Z) : Prop :=
  forall x, TRAPFRAME <= x < MAXVA -> has_bits (pte_of m root x) PTE_U = false.

Lemma user_ok_uva m root x :
  top_private m root -> 0 <= x -> user_ok m root x = true -> uva x /\ valid m root x = true.
Proof.
  intros TP H0 H. unfold user_ok in H. apply andb_prop in H as [H HU]. apply andb_prop in H as [H HV].
  apply Z.ltb_lt in H. split; [|done]. split; [done|].
  destruct (Z.ltb_spec x TRAPFRAME); [done|]. rewrite TP in HU; done.
Qed.

(** ** Stores into a user page *)

Lemma store_user s root free va y l :
  kmem_ok s free -> uvm_ok (k_mem s) root free -> uva va -> valid (k_mem s) root va = true ->
  y = upa (k_mem s) root va + va mod 4096 -> va mod 4096 + Z.of_nat (length l) <= 4096 ->
  let s' := set_k_mem (mwrite (k_mem s) y l) s in
  uvm_step root free s free s' /\
  (forall x, va_ok x -> pte_of (k_mem s') root x = pte_of (k_mem s) root x) /\
  (forall x, uva x -> uview (k_mem s') root x =
     if decide (va <= x < va + Z.of_nat (length l))
     then Some (PTE_FLAGS (pte_of (k_mem s) root va), nth (Z.to_nat (x - va)) l 0)
     else uview (k_mem s) root x).
Proof.
  intros K U V Hv -> Hl s'. set (p := upa (k_mem s) root va) in *.
  destruct (uo_leaf _ _ _ U va V Hv) as (Pp & Nf & Nt & _). fold p in Pp, Nf, Nt.
  assert (F : forall z, ~ in_page p z -> mget (k_mem s') z = mget (k_mem s) z).
  { intros z Hz. subst s'. ksimpl. apply mget_mwrite_out. unfold in_page in Hz. zlia. }
  destruct (uvm_ok_ext (k_mem s) (k_mem s') root free free U) as (U' & Q & T); [done|..].
  { intros z (q & Tq & Hz). apply F. apply (pages_apart q); [|done| |done].
    - eapply is_tbl_page; [apply U|done].
    - intros Eq. by rewrite Eq in Tq. }
  split; [|split; [done|]].
  - split; [apply mem_only_store| |done|..].
    + pose proof K as (Fl & ND & Pg). split; [|done]. subst s'. ksimpl. eapply flist_ext; [|exact Fl].
      intros q Hq. apply mld64_ext. intros z Hz. apply F.
      apply (pages_apart q); [by eapply kmem_page|done|intros Eq; by rewrite Eq in Hq|].
      unfold in_page. lia.
    + intros q. by rewrite (own_ext _ _ _ Q T).
    + intros z W. apply F. intros Hz. apply W. exists p. split; [|done]. left. right. by exists va.
  - intros x Vx. destruct (decide (x / 4096 = va / 4096)) as [E|E].
    + unfold uview. unfold valid, ubyte, upa. rewrite Q by (by apply uva_va_ok).
      rewrite (pte_of_page _ _ x va E). fold (upa (k_mem s) root va) (valid (k_mem s) root va).
      rewrite Hv. fold p. subst s'. ksimpl. rewrite mget_mwrite.
      case_decide.
      * destruct (Z.leb_spec (p + va mod 4096) (p + x mod 4096)),
          (Z.ltb_spec (p + x mod 4096) (p + va mod 4096 + Z.of_nat (length l))); try zlia.
        cbn [andb]. do 3 f_equal. zlia.
      * destruct (Z.leb_spec (p + va mod 4096) (p + x mod 4096)),
          (Z.ltb_spec (p + x mod 4096) (p + va mod 4096 + Z.of_nat (length l))); try zlia; done.
    + rewrite decide_False by zlia. apply view_ext; [by apply Q, uva_va_ok|].
      intros Hx z Hz. apply F. destruct (uo_leaf _ _ _ U x Vx Hx) as (Px & _).
      apply (pages_apart _ p _ Px); auto. intros Ep. apply E. by apply (uo_inj _ _ _ U).
Qed.

(** ** copyout *)

Lemma user_ok_base m root va :
  0 <= va -> user_ok m root (PGROUNDDOWN va) = false -> user_ok m root va = false.
Proof.
  intros V0 H. rewrite PGROUNDDOWN_eq in H. destruct (decide (va < MAXVA)) as [Hlt|Hge].
  - rewrite (user_ok_page _ _ va (va - va mod 4096)); [done|done|zlia|zlia].
  - unfold user_ok. by destruct (Z.ltb_spec va MAXVA).
Qed.

Lemma user_base m root va :
  top_private m root -> 0 <= va -> user_ok m root (PGROUNDDOWN va) = true ->
  va < TRAPFRAME /\ uva va /\ valid m root va = true /\
  upa m root (PGROUNDDOWN va) = upa m root va /\ user_ok m root va = true.
Proof.
  intros TP V0 H. rewrite PGROUNDDOWN_eq in *.
  assert (B0 : 0 <= va - va mod 4096) by zlia.
  destruct (user_ok_uva _ _ _ TP B0 H) as [[A B] Hv].
  assert (E : (va - va mod 4096) / 4096 = va / 4096) by zlia.
  assert (va < TRAPFRAME) by (rewrite TRAPFRAME_eq in *; zlia).
  split; [done|]. split; [done|]. rewrite <- (valid_page _ _ _ _ E). split; [done|].
  split; [unfold upa; by rewrite (pte_of_page _ _ _ _ E)|].
  rewrite <- H. change MAXVA with 274877906944 in *. rewrite TRAPFRAME_eq in *.
  apply user_ok_page; [change MAXVA with 274877906944..|]; zlia.
Qed.

(** The part of a copy of [len] bytes that falls into the page of [va]. *)
Lemma chunk_spec va len :
  0 < len -> let n := Z.min (PGSIZE - (va - PGROUNDDOWN va)) len in
  0 < n <= len /\ va mod 4096 + n <= 4096 /\
  (n < len -> PGROUNDDOWN va + 4096 = va + n) /\ va - PGROUNDDOWN va = va mod 4096.
Proof. intros Hl n. subst n. rewrite PGROUNDDOWN_eq. unfold PGSIZE. zlia. Qed.

(** One iteration: the page of [dst] is accessible and gets its part of [src]. *)
Lemma copyout_chunk s root free dst src len :
  kmem_ok s free -> uvm_ok (k_mem s) root free -> top_private (k_mem s) root ->
  0 <= dst -> 0 < len <= Z.of_nat (length src) -> user_ok (k_mem s) root (PGROUNDDOWN dst) = true ->
  let n := Z.min (PGSIZE - (dst - PGROUNDDOWN dst)) len in
  let pa0 := upa (k_mem s) root (PGROUNDDOWN dst) in
  exists s1, (pa0 =? 0) = false /\ dst < TRAPFRAME /\
    store_bytes (pa0 + (dst - PGROUNDDOWN dst)) (take (Z.to_nat n) src) s = Ok tt s1 /\
    uvm_step root free s free s1 /\
    (forall x, va_ok x -> pte_of (k_mem s1) root x = pte_of (k_mem s) root x) /\
    (forall x, dst <= x < dst + n -> user_ok (k_mem s) root x = true) /\
    (forall x, uva x -> uview (k_mem s1) root x =
       if decide (dst <= x < dst + n)
       then Some (PTE_FLAGS (pte_of (k_mem s) root x), nth (Z.to_nat (x - dst)) src 0)
       else uview (k_mem s) root x).
Proof.
  intros K U TP D0 Hl Hu n pa0. destruct (user_base _ _ _ TP D0 Hu) as (Hd & Ud & Vd & Ep & Hud).
  destruct (chunk_spec dst len ltac:(lia)) as (Hn & Hp & _ & Ho). fold n in Hn, Hp.
  destruct (uo_leaf _ _ _ U dst Ud Vd) as (Pp & _). pose proof (page_pa_ok _ Pp) as [_ Pz].
  assert (Ln : Z.of_nat (length (take (Z.to_nat n) src)) = n) by (rewrite length_take; lia).
  destruct (store_user s root free dst _ (take (Z.to_nat n) src) K U Ud Vd eq_refl ltac:(lia)) as (X & Q & W).
  rewrite Ln in W. subst pa0. rewrite Ep, Ho. eexists. split; [apply Z.eqb_neq; lia|].
  split; [done|]. split; [reflexivity|]. split; [exact X|]. split; [exact Q|]. split.
  - intros x Hx. rewrite <- Hud. rewrite TRAPFRAME_eq in Hd.
    apply user_ok_page; [change MAXVA with 274877906944..|]; zlia.
  - intros x V. rewrite W by done. case_decide as Hx; [|done].
    rewrite (pte_of_page _ _ dst x) by zlia. do 2 f_equal. rewrite !nth_lookup, lookup_take_lt by lia. done.
Qed.

Lemma copyout_loop_ok fuel s root free dst src len :
  kmem_ok s free -> uvm_ok (k_mem s) root free -> top_private (k_mem s) root ->
  0 <= dst -> 0 <= len <= Z.of_nat (length src) -> len < Z.of_nat fuel ->
  exists r k s', copyout_loop fuel root dst src len s = Ok r s' /\
    uvm_step root free s free s' /\
    (forall x, va_ok x -> pte_of (k_mem s') root x = pte_of (k_mem s) root x) /\
    (forall x, uva x -> uview (k_mem s') root x =
       if decide (dst <= x < dst + k)
       then Some (PTE_FLAGS (pte_of (k_mem s) root x), nth (Z.to_nat (x - dst)) src 0)
       else uview (k_mem s) root x) /\
    (forall x, dst <= x < dst + k -> user_ok (k_mem s) root x = true) /\
    (r = 0 /\ k = len \/ r = -1 /\ 0 <= k < len /\ user_ok (k_mem s) root (dst + k) = false).
Proof.
  revert s dst src len. induction fuel as [|fuel IH]; intros s dst src len K U TP D0 Hl Hf; [lia|].
  cbn [copyout_loop]. destruct (Z.ltb_spec 0 len) as [Hpos|]; cbn [negb].
  2: { assert (len = 0) as -> by lia. exists 0, 0, s. split; [done|].
       split; [by apply uvm_step_refl|]. split; [done|].
       split; [intros x V; by rewrite decide_False by lia|]. split; [lia|by left]. }
  assert (Eb := PGROUNDDOWN_eq dst).
  erewrite bind_ok; [|eapply walkaddr_eq; [apply U|rewrite Eb; zlia]].
  destruct (user_ok (k_mem s) root (PGROUNDDOWN dst)) eqn:Hu; cbn [Z.eqb].
  2: { exists (-1), 0, s. split; [done|]. split; [by apply uvm_step_refl|]. split; [done|].
       split; [intros x V; by rewrite decide_False by lia|]. split; [lia|]. right. split; [done|].
       split; [lia|]. rewrite Z.add_0_r. by apply user_ok_base. }
  destruct (copyout_chunk s root free dst src len K U TP D0 ltac:(lia) Hu)
    as (s1 & Ez & Hd & Es & X & Q & Hu1 & W). rewrite Ez. erewrite bind_ok; [|exact Es].
  destruct (chunk_spec dst len Hpos) as (Hn & _ & Hnext & _).
  set (n := Z.min _ len) in *. clearbody n. rewrite TRAPFRAME_eq in Hd.
  rewrite u64_small by (rewrite Eb; unfold PGSIZE; zlia). unfold PGSIZE.
  destruct (decide (n = len)) as [->|Nn].
  { exists 0, len, s1. destruct fuel as [|fuel]; [lia|]. rewrite Z.sub_diag. cbn [copyout_loop negb Z.ltb Z.compare].
    auto 10. }
  rewrite Hnext by lia.
  destruct (IH s1 (dst + n) (drop (Z.to_nat n) src) (len - n))
    as (r & k & s' & Er & X' & Q' & W' & Hk & R); try apply X; try lia.
  { intros x Hx. rewrite Q by (split; change MAXVA with 274877906944 in *; rewrite ?TRAPFRAME_eq in *; lia). by apply TP. }
  { rewrite length_drop. lia. }
  assert (HU : forall x, dst + n <= x -> user_ok (k_mem s1) root x = user_ok (k_mem s) root x).
  { intros x Hx. unfold user_ok, valid. destruct (Z.ltb_spec x MAXVA); [|done]. by rewrite Q by (split; lia). }
  exists r, (n + k), s'. split; [done|]. split; [by eapply uvm_step_trans|].
  split; [intros x V; by rewrite Q', Q|]. split; [|split].
  - intros x V. rewrite W', W, Q by (done || by apply uva_va_ok).
    repeat case_decide; try lia; try done. do 2 f_equal. rewrite !nth_lookup, lookup_drop.
    do 2 f_equal. lia.
  - intros x Hx. destruct (decide (x < dst + n)); [apply Hu1; lia|]. rewrite <- HU by lia. apply Hk. lia.
  - destruct R as [(-> & ->)|(-> & R & Hb)]; [left; split; [done|lia]|right]. split; [done|].
    split; [lia|]. rewrite <- HU by lia. by rewrite Z.add_assoc in *.
Qed.

(** ** copyin and copyinstr *)

(** The [n] user bytes from [va] on. *)
Fixpoint uread (m : memory) (root va : Z) (n : nat) : list Z :=
  match n with
  | O => []
  | S n' => ubyte m root va :: uread m root (va + 1) n'
  end.

Lemma length_uread m root va n : length (uread m root va n) = n.
Proof. revert va. induction n; intros; cbn; auto. Qed.

Lemma uread_app m root va n k :
  uread m root va (n + k) = uread m root va n ++ uread m root (va + Z.of_nat n) k.
Proof.
  revert va; induction n as [|n IH]; intros va.
  - cbn [uread app Nat.add]. by rewrite Z.add_0_r.
  - cbn [Nat.add uread app]. rewrite IH. do 3 f_equal. lia.
Qed.

Lemma lookup_uread m root va n i :
  (i < n)%nat -> uread m root va n !! i = Some (ubyte m root (va + Z.of_nat i)).
Proof.
  revert va i; induction n as [|n IH]; intros va i H; [lia|]. destruct i as [|i]; cbn [uread].
  - by rewrite Z.add_0_r.
  - change ((ubyte m root va :: uread m root (va + 1) n) !! S i) with (uread m root (va + 1) n !! i).
    rewrite IH by lia. do 2 f_equal. lia.
Qed.

(** Inside one page the user bytes are contiguous in physical memory. *)
Lemma ubyte_page m root va i :
  0 <= i -> va mod 4096 + i < 4096 -> ubyte m root (va + i) = mget m (upa m root va + va mod 4096 + i).
Proof.
  intros H0 H. unfold ubyte, upa. rewrite (pte_of_page _ _ (va + i) va) by zlia. f_equal. zlia.
Qed.

Lemma mread_uread m root va n :
  va mod 4096 + Z.of_nat n <= 4096 -> mread m (upa m root va + va mod 4096) n = uread m root va n.
Proof.
  intros H. apply list_eq. intros i. destruct (decide (i < n)%nat).
  - rewrite lookup_mread, lookup_uread by done. f_equal. symmetry. apply ubyte_page; lia.
  - rewrite !lookup_ge_None_2; rewrite ?length_mread, ?length_uread; auto with lia.
Qed.

(** One iteration of a copy from user memory. *)
Lemma copyin_chunk s root free va len :
  uvm_ok (k_mem s) root free -> top_private (k_mem s) root ->
  0 <= va -> 0 < len -> user_ok (k_mem s) root (PGROUNDDOWN va) = true ->
  let n := Z.min (PGSIZE - (va - PGROUNDDOWN va)) len in
  let pa0 := upa (k_mem s) root (PGROUNDDOWN va) in
  (pa0 =? 0) = false /\ va < TRAPFRAME /\ pa0 + (va - PGROUNDDOWN va) = upa (k_mem s) root va + va mod 4096 /\
  (forall x, va <= x < va + n -> user_ok (k_mem s) root x = true).
Proof.
  intros U TP D0 Hl Hu n pa0. destruct (user_base _ _ _ TP D0 Hu) as (Hd & Ud & Vd & Ep & Hud).
  destruct (chunk_spec va len ltac:(lia)) as (Hn & Hp & _ & Ho). fold n in Hn, Hp.
  destruct (uo_leaf _ _ _ U va Ud Vd) as (Pp & _). pose proof (page_pa_ok _ Pp) as [_ Pz].
  subst pa0. rewrite Ep, Ho. split; [apply Z.eqb_neq; lia|]. split; [done|]. split; [done|].
  intros x Hx. rewrite <- Hud. rewrite TRAPFRAME_eq in Hd.
  apply user_ok_page; [change MAXVA with 274877906944..|]; zlia.
Qed.

Lemma copyin_loop_ok fuel s root free va len :
  uvm_ok (k_mem s) root free -> top_private (k_mem s) root ->
  0 <= va -> 0 <= len < Z.of_nat fuel ->
  exists r k, copyin_loop fuel root va len s = Ok (r, uread (k_mem s) root va (Z.to_nat k)) s /\
    0 <= k /\ (forall x, va <= x < va + k -> user_ok (k_mem s) root x = true) /\
    (r = 0 /\ k = len \/ r = -1 /\ k < len /\ user_ok (k_mem s) root (va + k) = false).
Proof.
  revert va len. induction fuel as [|fuel IH]; intros va len U TP D0 Hf; [lia|].
  cbn [copyin_loop]. destruct (Z.ltb_spec 0 len) as [Hpos|]; cbn [negb].
  2: { assert (len = 0) as -> by lia. exists 0, 0. split; [done|]. split; [lia|]. split; [lia|by left]. }
  assert (Eb := PGROUNDDOWN_eq va).
  erewrite bind_ok; [|eapply walkaddr_eq; [apply U|rewrite Eb; zlia]].
  destruct (user_ok (k_mem s) root (PGROUNDDOWN va)) eqn:Hu; cbn [Z.eqb].
  2: { exists (-1), 0. split; [done|]. split; [lia|]. split; [lia|]. right. split; [done|].
       split; [lia|]. rewrite Z.add_0_r. by apply user_ok_base. }
  destruct (copyin_chunk s root free va len U TP D0 Hpos Hu) as (Ez & Hd & Ea & Hu1).
  rewrite Ez, Ea. destruct (chunk_spec va len Hpos) as (Hn & Hp & Hnext & _).
  set (n := Z.min _ len) in *. clearbody n. rewrite TRAPFRAME_eq in Hd.
  unfold load_bytes. kprim. rewrite mread_uread by lia.
  rewrite u64_small by (rewrite Eb; unfold PGSIZE; zlia). unfold PGSIZE.
  destruct (decide (n = len)) as [->|Nn].
  { destruct fuel as [|fuel]; [lia|]. rewrite Z.sub_diag. cbn [copyin_loop negb Z.ltb Z.compare].
    kprim. cbn [fst snd]. rewrite app_nil_r. exists 0, len. split; [done|]. split; [lia|]. split; [done|by left]. }
  rewrite Hnext by lia.
  destruct (IH (va + n) (len - n)) as (r & k & Er & Hk & Hu2 & R); auto; try lia.
  erewrite bind_ok; [|exact Er]. cbn [fst snd]. exists r, (n + k).
  split.
  { unfold ret. rewrite Z2Nat.inj_add by lia. rewrite uread_app. by rewrite Z2Nat.id by lia. }
  split; [lia|]. split.
  - intros x Hx. destruct (decide (x < va + n)); [apply Hu1; lia|]. apply Hu2. lia.
  - destruct R as [(-> & ->)|(-> & R & Hb)]; [left; split; [done|lia]|right]. split; [done|].
    split; [lia|]. by rewrite Z.add_assoc.
Qed.

(** The inner loop of copyinstr stops at the first NUL. *)
Lemma str_chunk_spec n p m :
  exists k, (k <= n)%nat /\ fst (str_chunk n p m) = mread m p k /\
    (if snd (str_chunk n p m)
     then (0 < k)%nat /\ mget m (p + Z.of_nat k - 1) = 0 /\
          (forall i, 0 <= i < Z.of_nat k - 1 -> mget m (p + i) <> 0)
     else k = n /\ (forall i, 0 <= i < Z.of_nat n -> mget m (p + i) <> 0)).
Proof.
  revert p. induction n as [|n IH]; intros p.
  - exists 0%nat. cbn. auto with lia.
  - cbn [str_chunk]. destruct (Z.eqb_spec (mget m p) 0) as [E|E].
    + exists 1%nat. cbn [fst snd]. split; [lia|]. split; [by rewrite <- E|]. split; [lia|].
      split; [by replace (p + Z.of_nat 1 - 1) with p by lia|]. intros; lia.
    + destruct (IH (p + 1)) as (k & Hk & E1 & E2). destruct (str_chunk n (p + 1) m) as [l got].
      cbn [fst snd] in *. exists (S k). split; [lia|]. split; [by rewrite E1|].
      assert (Z0 : forall b, (forall i, 0 <= i < b -> mget m (p + 1 + i) <> 0) ->
        forall i, 0 <= i < b + 1 -> mget m (p + i) <> 0).
      { intros b Hb i Hi. destruct (decide (i = 0)) as [->|]; [by rewrite Z.add_0_r|].
        replace (p + i) with (p + 1 + (i - 1)) by lia. apply Hb. lia. }
      destruct got.
      * destruct E2 as (Hp & Hz & Hb). split; [lia|].
        split; [by replace (p + Z.of_nat (S k) - 1) with (p + 1 + Z.of_nat k - 1) by lia|].
        intros i Hi. apply (Z0 _ Hb). lia.
      * destruct E2 as (-> & Hb). split; [done|]. intros i Hi. apply (Z0 _ Hb). lia.
Qed.

Lemma copyinstr_loop_ok fuel s root free va max :
  uvm_ok (k_mem s) root free -> top_private (k_mem s) root ->
  0 <= va -> 0 <= max < Z.of_nat fuel ->
  exists r k, copyinstr_loop fuel root va max s = Ok (r, uread (k_mem s) root va (Z.to_nat k)) s /\
    0 <= k <= max /\ (forall x, va <= x < va + k -> user_ok (k_mem s) root x = true) /\
    (r = 0 /\ 0 < k /\ ubyte (k_mem s) root (va + k - 1) = 0 /\
       (forall i, 0 <= i < k - 1 -> ubyte (k_mem s) root (va + i) <> 0) \/
     r = -1 /\ (forall i, 0 <= i < k -> ubyte (k_mem s) root (va + i) <> 0) /\
       (k = max \/ user_ok (k_mem s) root (va + k) = false)).
Proof.
  revert va max. induction fuel as [|fuel IH]; intros va max U TP D0 Hf; [lia|].
  cbn [copyinstr_loop]. destruct (Z.ltb_spec 0 max) as [Hpos|]; cbn [negb].
  2: { assert (max = 0) as -> by lia. exists (-1), 0. split; [done|]. split; [lia|]. split; [lia|].
       right. split; [done|]. split; [lia|by left]. }
  assert (Eb := PGROUNDDOWN_eq va).
  erewrite bind_ok; [|eapply walkaddr_eq; [apply U|rewrite Eb; zlia]].
  destruct (user_ok (k_mem s) root (PGROUNDDOWN va)) eqn:Hu; cbn [Z.eqb].
  2: { exists (-1), 0. split; [done|]. split; [lia|]. split; [lia|]. right. split; [done|].
       split; [lia|]. right. rewrite Z.add_0_r. by apply user_ok_base. }
  destruct (copyin_chunk s root free va max U TP D0 Hpos Hu) as (Ez & Hd & Ea & Hu1).
  rewrite Ez, Ea. destruct (chunk_spec va max Hpos) as (Hn & Hp & Hnext & _).
  set (n := Z.min _ max) in *. clearbody n. rewrite TRAPFRAME_eq in Hd. kprim.
  destruct (str_chunk_spec (Z.to_nat n) (upa (k_mem s) root va + va mod 4096) (k_mem s)) as (k & Hk & E1 & E2).
  assert (B : forall i, 0 <= i < n -> mget (k_mem s) (upa (k_mem s) root va + va mod 4096 + i) =
    ubyte (k_mem s) root (va + i)) by (intros; symmetry; apply ubyte_page; lia).
  destruct (str_chunk _ _ _) as [l got]. cbn [fst snd] in *. rewrite mread_uread in E1 by lia. subst l.
  destruct got.
  { destruct E2 as (K0 & Kz & Kn). exists 0, (Z.of_nat k). rewrite Nat2Z.id. split; [done|].
    split; [lia|]. split; [intros; apply Hu1; lia|]. left. split; [done|]. split; [lia|].
    rewrite <- !Z.add_sub_assoc, B in * by lia. split; [done|].
    intros i Hi. rewrite <- B by lia. apply Kn. lia. }
  destruct E2 as (-> & Kn). rewrite u64_small by (rewrite Eb; unfold PGSIZE; zlia). unfold PGSIZE.
  assert (Kn' : forall i, 0 <= i < n -> ubyte (k_mem s) root (va + i) <> 0).
  { intros i Hi. rewrite <- B by lia. apply Kn. lia. }
  destruct (decide (n = max)) as [->|Nn].
  { destruct fuel as [|fuel]; [lia|]. rewrite Z.sub_diag. cbn [copyinstr_loop negb Z.ltb Z.compare].
    kprim. cbn [fst snd]. rewrite app_nil_r. exists (-1), max. split; [done|]. split; [lia|].
    split; [done|]. right. split; [done|]. split; [done|by left]. }
  rewrite Hnext by lia.
  destruct (IH (va + n) (max - n)) as (r & k & Er & Hk' & Hu2 & R); auto; try lia.
  erewrite bind_ok; [|exact Er]. cbn [fst snd]. exists r, (n + k).
  assert (Join : forall b, (forall i, 0 <= i < b -> ubyte (k_mem s) root (va + n + i) <> 0) ->
    forall i, 0 <= i < n + b -> ubyte (k_mem s) root (va + i) <> 0).
  { intros b Hb i Hi. destruct (decide (i < n)); [apply Kn'; lia|].
    replace (va + i) with (va + n + (i - n)) by lia. apply Hb. lia. }
  split.
  { unfold ret. rewrite Z2Nat.inj_add by lia. rewrite uread_app. by rewrite Z2Nat.id by lia. }
  split; [lia|]. split.
  - intros x Hx. destruct (decide (x < va + n)); [apply Hu1; lia|]. apply Hu2. lia.
  - destruct R as [(-> & K0 & Kz & Kb)|(-> & Kb & R)]; [left|right]; (split; [done|]).
    + split; [lia|]. split; [by replace (va + (n + k) - 1) with (va + n + k - 1) by lia|].
      intros i Hi. apply (Join _ Kb). lia.
    + split; [by apply Join|]. rewrite Z.add_assoc. destruct R as [->|R]; [left; lia|by right].
Qed.

End Uvm.
