(* ===== verification/AddressSpace.v ===== *)
(** * Address spaces: creation, duplication, and the theorems about user memory

    uvmcreate, uvmcopy, and what the kernel promises about user memory. *)

From S2P Require Import Prelude Memory Riscv State Kmonad Spinlock CString Kalloc Vm PageTable.
From S2P Require Import UserMem Uvm.
From Stdlib Require Import ZArith Lia.
From stdpp Require Import base numbers list gmap strings option.

#[local] Open Scope Z_scope.
#[local] Open Scope kernel_scope.

Section AddressSpace.
Context `{L : KernelLayout} `{LOK : !LayoutOk}.

(** ** uvmcreate *)

Definition zeroed (p : Z) (s : kstate) : kstate :=
  set_k_mem (fillpage (fillpage (k_mem s) p 5) p 0) (allocated p s).

Lemma zeroed_slot p s d va : (d <= 2)%nat -> mld64 (k_mem (zeroed p s)) (slot p d va) = 0.
Proof.
  intros Hd. apply mld64_zero. intros x Hx. unfold zeroed. ksimpl. apply mget_fillpage_in.
  by eapply slot_in_page.
Qed.

Lemma zeroed_tbl p s va d q : tbl (k_mem (zeroed p s)) p va d = Some q -> d = 0%nat /\ q = p.
Proof.
  destruct d as [|d]; [intros [= <-]; done|]. intros E. exfalso.
  assert (N : tbl (k_mem (zeroed p s)) p va 1 = None).
  { cbn [tbl]. unfold child. by rewrite zeroed_slot by lia. }
  assert (E' := tbl_none_le (k_mem (zeroed p s)) p va 1 (S d) ltac:(lia) N).
  congruence.
Qed.

Lemma zeroed_pte p s x : pte_of (k_mem (zeroed p s)) p x = 0.
Proof.
  unfold pte_of. destruct (tbl (k_mem (zeroed p s)) p x 2) as [q|] eqn:E; [|done].
  by apply zeroed_tbl in E as [? _].
Qed.

Lemma uvmcreate_ok s p free :
  kmem_ok s (p :: free) -> kmem_callable s ->
  let s' := zeroed p s in
  uvmcreate s = Ok p s' /\ p <> 0 /\ mem_only s s' /\ kmem_ok s' free /\ uvm_ok (k_mem s') p free /\
  (forall x, pte_of (k_mem s') p x = 0) /\ (forall q, owned (k_mem s') p q <-> q = p) /\
  (forall y, ~ in_page p y -> mget (k_mem s') y = mget (k_mem s) y).
Proof.
  intros K C s'. destruct (kalloc_some s p free K) as [Ek K1]; [apply C..|].
  pose proof K as (_ & ND & Pg). inversion_clear ND as [|? ? Np _]. inversion_clear Pg as [|? ? Pp _].
  pose proof (page_pa_ok p Pp) as [_ P0].
  assert (F : forall y, ~ in_page p y -> mget (k_mem s') y = mget (k_mem s) y).
  { intros y Hy. subst s'. unfold zeroed. ksimpl. by rewrite !mget_fillpage_out. }
  assert (NV : forall x, valid (k_mem s') p x = true -> False).
  { intros x. unfold valid. subst s'. by rewrite zeroed_pte. }
  split; [|split; [lia|split; [|split; [|split; [|split; [apply zeroed_pte|split; [|done]]]]]]].
  - unfold uvmcreate. erewrite bind_ok; [|exact Ek]. destruct (Z.eqb_spec p 0); [lia|].
    erewrite bind_ok; [|by apply memset_page]. reflexivity.
  - etransitivity; [|apply mem_only_store]. eexists _, _. right. reflexivity.
  - pose proof K1 as (Fl & ND & Pg). split; [|done]. subst s'. unfold zeroed, allocated in *.
    ksimpl. ksimpl_in Fl. eapply flist_ext; [|exact Fl].
    intros q Hq. pose proof (kmem_page _ _ q K1 Hq) as Pq. apply mld64_ext. intros y Hy.
    assert (~ in_page p y).
    { apply (pages_apart q); auto; [congruence|]. unfold in_page. lia. }
    by rewrite !mget_fillpage_out.
  - split; [split| |].
    + intros va d q V Hd E. by apply zeroed_tbl in E as [-> ->].
    + intros va d va' d' q V V' Hd Hd' E E'. apply zeroed_tbl in E as [-> ->], E' as [-> _].
      split; [done|]. by rewrite !key_0.
    + intros va d q V Hd E. apply zeroed_tbl in E as [-> ->]. unfold dir_entry, s'. by rewrite zeroed_slot by lia.
    + intros i Hi. unfold s', zeroed. ksimpl. rewrite mld64_zero; [done|]. intros x Hx. apply mget_fillpage_in. unfold in_page. lia.
    + intros va V Hv. destruct (NV va Hv).
    + intros va va' V V' Hv. destruct (NV va Hv).
  - intros q. split.
    + intros [(va & d & V & Hd & E)|(x & V & Hv & _)]; [by apply zeroed_tbl in E as [_ ->]|].
      destruct (NV x Hv).
    + intros ->. left. exists 0, 0%nat. split; [split; done|]. auto with lia.
Qed.

(** A new address space leaves the others alone. *)
Lemma uvmcreate_other s root p free :
  kmem_ok s (p :: free) -> kmem_callable s -> uvm_ok (k_mem s) root (p :: free) ->
  let s' := zeroed p s in
  uvm_ok (k_mem s') root free /\ disjoint_spaces (k_mem s') root p /\
  (forall x, va_ok x -> pte_of (k_mem s') root x = pte_of (k_mem s) root x) /\
  (forall x, uva x -> uview (k_mem s') root x = uview (k_mem s) root x).
Proof.
  intros K C U s'. destruct (uvmcreate_ok s p free K C) as (_ & _ & _ & _ & _ & _ & O & F).
  destruct (allocated_ok s root p free (k_mem s') K C U F) as (_ & _ & _ & U' & Q' & O' & V').
  destruct (alloc_page s root p free K U) as (_ & _ & _ & No).
  split; [done|]. split; [|done]. intros q Oq Op. apply O in Op as ->. by apply No, O'.
Qed.

(** ** uvmcopy *)

(** The bytes of the page copied by memmove(mem, pa, PGSIZE). *)
Lemma memmove_page p pa m :
  page p -> ~ in_page p pa -> page pa -> 
  let m2 := memmove_mem p pa PGSIZE (fillpage m p 5) in
  (forall y, ~ in_page p y -> mget m2 y = mget m y) /\
  (forall o, 0 <= o < 4096 -> mget m2 (p + o) = mget m (pa + o)).
Proof.
  intros Pp N Ppa m2. assert (Hn : 0 <= PGSIZE < 4294967296) by done.
  pose proof (mget_memmove_mem p pa PGSIZE (fillpage m p 5) Hn) as G. fold m2 in G.
  unfold PGSIZE in G. split.
  - intros y Hy. rewrite G. unfold in_page in Hy.
    destruct (Z.leb_spec p y), (Z.ltb_spec y (p + 4096)); cbn [andb]; try lia;
      by rewrite mget_fillpage_out by (unfold in_page; lia).
  - intros o Ho. rewrite G.
    destruct (Z.leb_spec p (p + o)), (Z.ltb_spec (p + o) (p + 4096)); try lia. cbn [andb].
    rewrite mget_fillpage_out; [f_equal; lia|]. apply (pages_apart pa); auto.
    + intros ->. apply N. unfold in_page. lia.
    + unfold in_page. lia.
Qed.

Lemma flags_lor_V v : has_bits v PTE_V = true -> Z.lor (PTE_FLAGS v) PTE_V = PTE_FLAGS v.
Proof.
  unfold PTE_V at 1. rewrite has_bits_shiftl by lia. intros T. apply Z.bits_inj'. intros i Hi.
  rewrite Z.lor_spec. destruct (decide (i = 0)) as [->|N].
  - rewrite testbit_flags in T by lia. by rewrite T.
  - change PTE_V with (2 ^ 0). rewrite Z.pow2_bits_false by lia. apply orb_false_r.
Qed.

Lemma flags_range v : 0 <= PTE_FLAGS v < 1024.
Proof. rewrite PTE_FLAGS_eq. by apply Z.mod_pos_bound. Qed.

(** One page: kalloc, memmove, mappages, and kfree when mapping failed. *)
Lemma copy_one s old new p free a :
  kmem_ok s (p :: free) -> kmem_callable s ->
  uvm_ok (k_mem s) old (p :: free) -> uvm_ok (k_mem s) new (p :: free) ->
  uva a -> a mod 4096 = 0 -> valid (k_mem s) old a = true -> valid (k_mem s) new a = false ->
  exists s2 r s3 f3, kalloc s = Ok p (allocated p s) /\ (p =? 0) = false /\
    memmove p (upa (k_mem s) old a) PGSIZE (allocated p s) = Ok tt s2 /\
    mappages new a PGSIZE p (PTE_FLAGS (pte_of (k_mem s) old a)) s2 = Ok r s3 /\
    (r = 0 /\ (length free <= length f3 + 2)%nat /\ uvm_step new (p :: free) s f3 s3 /\
       (forall x, va_ok x -> x / 4096 <> a / 4096 -> pte_of (k_mem s3) new x = pte_of (k_mem s) new x) /\
       (forall x, uva x -> uview (k_mem s3) new x =
          if decide (x / 4096 = a / 4096) then uview (k_mem s) old x else uview (k_mem s) new x) \/
     r = -1 /\ (length free < 2)%nat /\ exists s4, kfree p s3 = Ok tt s4 /\ uvm_step new (p :: free) s [p] s4 /\
       (forall x, va_ok x -> pte_of (k_mem s4) new x = pte_of (k_mem s) new x) /\
       (forall x, uva x -> uview (k_mem s4) new x = uview (k_mem s) new x)).
Proof.
  intros K C Uo U Ua Ma Vo Na.
  destruct (uo_leaf _ _ _ Uo a Ua Vo) as (Ppa & Npa & _ & Fl).
  destruct (alloc_page s new p free K U) as (Pp & _ & Np & _).
  destruct (memmove_page p (upa (k_mem s) old a) (k_mem s) Pp) as [M2 MC]; [|done|].
  { apply (pages_apart (upa (k_mem s) old a)); auto; [|unfold in_page; lia].
    intros E. apply Npa. rewrite E. by left. }
  set (m2 := memmove_mem p _ PGSIZE _) in *.
  destruct (allocated_ok s new p free m2 K C U M2) as (Ek & _).
  pose proof (flags_lor_V (pte_of (k_mem s) old a) Vo) as FV.
  destruct (alloc_map s new p free m2 K C U M2 a (PTE_FLAGS (pte_of (k_mem s) old a)))
    as (r & s3 & f3 & Er & D); auto; [apply flags_range|by rewrite FV|].
  exists (set_k_mem m2 (allocated p s)), r, s3, f3. split; [exact Ek|].
  split; [by apply Z.eqb_neq|]. split; [reflexivity|]. split; [exact Er|].
  destruct D as [(-> & Ln & X & Q & W)|D]; [left|by right]. split; [done|]. split; [done|]. split; [done|]. split; [done|].
  intros x V. rewrite W by done. case_decide as E; [|done].
  unfold uview, ubyte. rewrite (valid_page _ _ x a E), Vo, (pte_of_page _ _ x a E), FV.
  rewrite MC by zlia. unfold upa. by rewrite (pte_of_page _ _ x a E).
Qed.

Lemma uvmcopy_loop_ok fuel s old new free i sz :
  kmem_ok s free -> kmem_callable s ->
  uvm_ok (k_mem s) old free -> uvm_ok (k_mem s) new free -> disjoint_spaces (k_mem s) old new ->
  i mod 4096 = 0 -> 0 <= i <= PGROUNDUP sz -> 0 <= sz <= TRAPFRAME ->
  PGROUNDUP sz - i < 4096 * Z.of_nat fuel ->
  (forall x, i <= x < PGROUNDUP sz -> valid (k_mem s) old x = true) ->
  (forall x, i <= x < PGROUNDUP sz -> valid (k_mem s) new x = false) ->
  exists e s' free' j, uvmcopy_loop fuel old new i sz s = Ok e s' /\
    uvm_step new free s free' s' /\
    (forall x, va_ok x -> ~ i <= x < PGROUNDUP sz ->
       pte_of (k_mem s') new x = pte_of (k_mem s) new x) /\
    (forall x, uva x -> uview (k_mem s') new x =
       if decide (i <= x < j) then uview (k_mem s) old x else uview (k_mem s) new x) /\
    (e = None /\ j = PGROUNDUP sz /\ Z.of_nat (length free) <= Z.of_nat (length free') + 3 * ((PGROUNDUP sz - i) / 4096) \/
     e = Some j /\ i <= j < PGROUNDUP sz /\ j mod 4096 = 0 /\ Z.of_nat (length free) < 3 * ((PGROUNDUP sz - i) / 4096)).
Proof.
  revert s free i. induction fuel as [|fuel IH];
    intros s free i K C Uo Un Ds Mi Hi Hz Hf Vo Vn; [lia|].
  pose proof Hz as Hz'. rewrite TRAPFRAME_eq in Hz'.
  assert (Ew := PGROUNDUP_eq sz ltac:(lia)). set (w := PGROUNDUP sz) in *.
  cbn [uvmcopy_loop]. destruct (Z.ltb_spec i sz) as [Hlt|Hge]; cbn [negb].
  2: { assert (w = i) by zlia. exists None, s, free, i. split; [done|]. split; [by apply uvm_step_refl|].
       split; [done|]. split; [intros x V; by rewrite decide_False by lia|]. left. split; [done|]. split; [done|]. zlia. }
  assert (Ui : uva i) by (split; rewrite ?TRAPFRAME_eq; lia).
  assert (Vi : valid (k_mem s) old i = true) by (apply Vo; zlia).
  assert (Ni : valid (k_mem s) new i = false) by (apply Vn; zlia).
  destruct (walk_mapped s old free i (uo_pt _ _ _ Uo) Ui Vi) as (q & Tq & Eq & Ez & El).
  erewrite bind_ok; [|exact Eq]. rewrite Ez. unfold ld64. kprim. rewrite El.
  pose proof Vi as Vi'. unfold valid in Vi'. rewrite Vi'. cbn [negb]. fold (upa (k_mem s) old i).
  destruct free as [|p free].
  { erewrite bind_ok; [|apply kalloc_none; auto; apply C]. cbn [Z.eqb].
    exists (Some i), (settle s), [], i. split; [done|]. split; [by apply settle_step|]. split; [done|].
    split; [intros x V; by rewrite decide_False by lia|]. right. split; [done|]. split; [zlia|]. split; [done|]. cbn [length]. zlia. }
  destruct (copy_one s old new p free i K C Uo Un Ui Mi Vi Ni)
    as (s2 & r & s3 & f3 & Ek & Np & Em & Er & D).
  erewrite bind_ok; [|exact Ek]. rewrite Np. erewrite bind_ok; [|exact Em].
  erewrite bind_ok; [|exact Er].
  destruct D as [(-> & Ln & X & Q & W)|(-> & Ln & s4 & Ef & X & Q & W)]; cbn [Z.eqb negb].
  2: { erewrite bind_ok; [|exact Ef]. exists (Some i), s4, [p], i. split; [done|]. split; [done|].
       split; [intros x V _; by apply Q|].
       split; [intros x V; rewrite W by done; by rewrite decide_False by lia|].
       right. split; [done|]. split; [zlia|]. split; [done|]. cbn [length]. zlia. }
  rewrite u64_small by (unfold PGSIZE; lia). unfold PGSIZE.
  destruct (other_space old new (p :: free) s f3 s3 X K Un Uo Ds) as (Uo' & Ds' & Qo & Wo).
  assert (In : forall x, i + 4096 <= x < w -> uva x /\ va_ok x /\ x / 4096 <> i / 4096).
  { intros x Hx. assert (uva x) by (unfold uva; rewrite TRAPFRAME_eq; zlia).
    split; [done|]. split; [by apply uva_va_ok|zlia]. }
  destruct (IH s3 f3 (i + 4096)) as (e & s' & f' & j & Ee & X' & Q' & W' & R); try apply X; auto; try zlia.
  { eapply mem_only_callable; [apply X|done]. }
  { intros x Hx. destruct (In x Hx) as (? & ? & ?). unfold valid. rewrite Qo by done. apply Vo. lia. }
  { intros x Hx. destruct (In x Hx) as (? & ? & ?). unfold valid. rewrite Q by done. apply Vn. lia. }
  exists e, s', f', j. split; [done|]. split; [by eapply uvm_step_trans|].
  split; [intros x V N; rewrite Q', Q; (done || zlia)|]. split; [|].
  - intros x V. rewrite W', W, Wo by done. repeat case_decide; try zlia; done.
  - cbn [length]. destruct R as [(-> & -> & R)|(-> & R & ? & R2)]; [left|right].
    + split; [done|]. split; [done|]. zlia.
    + split; [done|]. split; [lia|]. split; [done|]. zlia.
Qed.

Lemma uvmcopy_ok s old new free sz :
  kmem_ok s free -> kmem_callable s ->
  uvm_ok (k_mem s) old free -> uvm_ok (k_mem s) new free -> disjoint_spaces (k_mem s) old new ->
  0 <= sz <= TRAPFRAME ->
  (forall x, 0 <= x < PGROUNDUP sz -> valid (k_mem s) old x = true) ->
  (forall x, 0 <= x < PGROUNDUP sz -> valid (k_mem s) new x = false) ->
  exists r s' free', uvmcopy old new sz s = Ok r s' /\ uvm_step new free s free' s' /\
    (forall x, va_ok x -> ~ 0 <= x < PGROUNDUP sz ->
       pte_of (k_mem s') new x = pte_of (k_mem s) new x) /\
    (r = 0 /\ (forall x, uva x -> uview (k_mem s') new x =
        if decide (0 <= x < PGROUNDUP sz) then uview (k_mem s) old x else uview (k_mem s) new x) \/
     r = -1 /\ (forall x, uva x -> uview (k_mem s') new x = uview (k_mem s) new x) /\
       Z.of_nat (length free) < 3 * (PGROUNDUP sz / 4096)).
Proof.
  intros K C Uo Un Ds Hz Vo Vn. unfold uvmcopy.
  pose proof Hz as Hz'. rewrite TRAPFRAME_eq in Hz'.
  assert (Ew := PGROUNDUP_eq sz ltac:(lia)).
  destruct (uvmcopy_loop_ok (S (Z.to_nat ((sz + PGSIZE - 1) / PGSIZE))) s old new free 0 sz)
    as (e & s1 & f1 & j & Ee & X & Q & W & R); auto; try (unfold PGSIZE; zlia).
  erewrite bind_ok; [|exact Ee]. destruct R as [(-> & -> & _)|(-> & Hj & Mj & Ln)].
  { exists 0, s1, f1. split; [done|]. split; [done|]. split; [done|by left]. }
  assert (VX : forall x, 0 <= x < j -> valid (k_mem s1) new x = true).
  { intros x Hx. assert (Ux : uva x) by (unfold uva; rewrite TRAPFRAME_eq; zlia).
    pose proof (W x Ux) as Wx. rewrite decide_True in Wx by done.
    unfold uview in Wx. rewrite (Vo x) in Wx by lia. by destruct (valid (k_mem s1) new x). }
  unfold PGSIZE.
  destruct (uvmunmap_ok s1 new f1 0 (j / 4096)) as (s' & f' & Eu & X' & _ & Q' & W'); try apply X;
    auto; try (rewrite ?TRAPFRAME_eq; zlia).
  { eapply mem_only_callable; [apply X|done]. }
  { intros x Hx. apply VX. zlia. }
  erewrite bind_ok; [|exact Eu]. exists (-1), s', f'. split; [done|]. split; [by eapply uvm_step_trans|].
  replace (0 + j / 4096 * 4096) with j in * by zlia.
  split; [intros x V N; rewrite Q', decide_False by (done || lia); by apply Q|].
  right. split; [done|]. split; [|by rewrite Z.sub_0_r in Ln]. intros x V. rewrite W', W by done. case_decide as Hx; [|done].
  unfold uview. rewrite Vn by lia. done.
Qed.

(** ** What the kernel promises *)

(** C17: data that copyout writes into a user address space is what copyin reads back.
    copyout returns 0 exactly when every byte of the range lies in a mapped user page,
    and -1 otherwise; after a 0, copyin of the same range returns 0 and the same bytes,
    and every user byte outside the range, every page table entry and every byte outside
    the address space is as before. *)
Theorem copyout_copyin_roundtrip s root free dst src :
  kmem_ok s free -> uvm_ok (k_mem s) root free -> top_private (k_mem s) root -> 0 <= dst ->
  let len := Z.of_nat (length src) in
  exists r s', copyout root dst src len s = Ok r s' /\ uvm_step root free s free s' /\
    (r = 0 /\ (forall x, dst <= x < dst + len -> user_ok (k_mem s) root x = true) /\
       copyin root dst len s' = Ok (0, src) s' /\
       (forall x, uva x -> ~ dst <= x < dst + len ->
          uview (k_mem s') root x = uview (k_mem s) root x) \/
     r = -1 /\ exists x, dst <= x < dst + len /\ user_ok (k_mem s) root x = false).
Proof.
  intros K U TP D0 len. unfold copyout.
  destruct (copyout_loop_ok (S (Z.to_nat len)) s root free dst src len)
    as (r & k & s' & Er & X & Q & W & Hu & R); auto; try (subst len; lia).
  exists r, s'. split; [done|]. split; [done|].
  destruct R as [(-> & ->)|(-> & Hk & Hb)]; [left|right; split; [done|]; exists (dst + k); auto with lia].
  split; [done|]. split; [done|]. split; [|intros x V N; by rewrite W, decide_False].
  assert (HU : forall x, 0 <= x -> user_ok (k_mem s') root x = user_ok (k_mem s) root x).
  { intros x Hx. unfold user_ok, valid. destruct (Z.ltb_spec x MAXVA); [|done]. by rewrite Q by (split; lia). }
  assert (TP' : top_private (k_mem s') root).
  { intros x Hx. rewrite Q; [by apply TP|]. rewrite TRAPFRAME_eq in Hx. split; lia. }
  unfold copyin.
  destruct (copyin_loop_ok (S (Z.to_nat len)) s' root free dst len) as (r & k & Ei & Hk & _ & R);
    auto; try apply X; try (subst len; lia).
  destruct R as [(-> & ->)|(_ & Hlt & Hb)]; [|rewrite HU, Hu in Hb by lia; done].
  rewrite Ei. do 2 f_equal. apply list_eq. intros i.
  destruct (decide (i < length src)%nat) as [Hi|Hi].
  2: { rewrite !lookup_ge_None_2; rewrite ?length_uread; auto; subst len; lia. }
  rewrite lookup_uread by (subst len; lia).
  assert (Hx : dst <= dst + Z.of_nat i < dst + len) by (subst len; lia).
  destruct (user_ok_uva _ _ (dst + Z.of_nat i) TP ltac:(lia) (Hu _ Hx)) as [V _].
  pose proof (W _ V) as Wx. rewrite decide_True in Wx by done. unfold uview in Wx.
  destruct (valid (k_mem s') root (dst + Z.of_nat i)); [|done]. injection Wx as _ ->.
  replace (Z.to_nat (dst + Z.of_nat i - dst)) with i by lia. by destruct (nth_lookup_or_length src i 0); [|lia].
Qed.

(** C23: copyinstr fetches a user string safely.  It returns 0 exactly with a string that
    ends at its first NUL, all of whose bytes are in mapped user pages, of at most max
    bytes; it returns -1 only if the first max bytes hold no NUL or the string runs into
    an inaccessible page before its NUL.  Memory is unchanged. *)
Theorem copyinstr_correct s root free va max :
  uvm_ok (k_mem s) root free -> top_private (k_mem s) root -> 0 <= va -> 0 <= max ->
  exists r k, copyinstr root va max s = Ok (r, uread (k_mem s) root va (Z.to_nat k)) s /\
    0 <= k <= max /\ (forall x, va <= x < va + k -> user_ok (k_mem s) root x = true) /\
    (r = 0 /\ 0 < k /\ ubyte (k_mem s) root (va + k - 1) = 0 /\
       (forall i, 0 <= i < k - 1 -> ubyte (k_mem s) root (va + i) <> 0) \/
     r = -1 /\ (forall i, 0 <= i < k -> ubyte (k_mem s) root (va + i) <> 0) /\
       (k = max \/ user_ok (k_mem s) root (va + k) = false)).
Proof. intros U TP V0 M0. apply (copyinstr_loop_ok _ s root free); auto. lia. Qed.


(** C20: uvmalloc grows a process's memory all or nothing.  With enough memory it returns
    newsz, and the pages between the two sizes appear zeroed, user-readable and with the
    extra permissions asked for; otherwise it returns 0 and the user's memory is exactly as
    before, every page it had allocated being free again.  No other byte of the machine
    changes, and uvmdealloc back to oldsz restores the user's memory. *)
Theorem uvmalloc_all_or_nothing s root free oldsz newsz xperm :
  kmem_ok s free -> kmem_callable s -> uvm_ok (k_mem s) root free ->
  0 <= oldsz <= newsz -> newsz <= TRAPFRAME -> 0 <= xperm < 1024 ->
  (forall x, PGROUNDUP oldsz <= x < PGROUNDUP newsz -> valid (k_mem s) root x = false) ->
  exists r s' free', uvmalloc root oldsz newsz xperm s = Ok r s' /\
    uvm_step root free s free' s' /\
    (r = newsz /\
     (forall x, uva x -> uview (k_mem s') root x =
        if decide (PGROUNDUP oldsz <= x < PGROUNDUP newsz)
        then Some (Z.lor (uperm xperm) PTE_V, 0) else uview (k_mem s) root x) /\
     (exists s2, uvmdealloc root newsz oldsz s' = Ok oldsz s2 /\
        forall x, uva x -> uview (k_mem s2) root x = uview (k_mem s) root x) \/
     r = 0 /\ (forall x, uva x -> uview (k_mem s') root x = uview (k_mem s) root x)).
Proof.
  intros K C U Ho Hn Hx Un.
  destruct (uvmalloc_ok s root free oldsz newsz xperm) as (r & s' & f' & Er & X & Q & R); auto.
  exists r, s', f'. split; [done|]. split; [done|].
  destruct R as [(-> & W)|R]; [left|by right]. split; [done|]. split; [done|].
  assert (E1 := PGROUNDUP_eq newsz). rewrite TRAPFRAME_eq in Hn. specialize (E1 ltac:(lia)).
  destruct (uvmdealloc_ok s' root f' newsz oldsz) as (s2 & f2 & E2 & _ & _ & _ & W2);
    try apply X; auto; try (rewrite TRAPFRAME_eq; lia).
  { eapply mem_only_callable; [apply X|done]. }
  { intros x Hx'. assert (Ux : uva x).
    { assert (Eo := PGROUNDUP_eq oldsz ltac:(lia)). split; rewrite ?TRAPFRAME_eq; zlia. }
    pose proof (W x Ux) as Wx. rewrite decide_True in Wx by done. unfold uview in Wx.
    by destruct (valid (k_mem s') root x). }
  exists s2. split; [done|]. intros x V. rewrite W2, W by done. case_decide; [|done].
  unfold uview. by rewrite Un.
Qed.

End AddressSpace.

(** ** An example address space: two zeroed pages *)

Section Example.
Context `{L : KernelLayout} `{LOK : !LayoutOk}.

Definition two_pages : M Z := let! root := uvmcreate in uvmalloc root 0 8192 PTE_W.

Lemma two_pages_ok s p free s' :
  kmem_ok s (p :: free) -> kmem_callable s -> two_pages s = Ok 8192 s' ->
  exists free', kmem_ok s' free' /\ kmem_callable s' /\ uvm_ok (k_mem s') p free' /\
    top_private (k_mem s') p /\
    (forall x, uva x -> uview (k_mem s') p x =
       if decide (0 <= x < 8192) then Some (Z.lor (uperm PTE_W) PTE_V, 0) else None).
Proof.
  intros K C E. destruct (uvmcreate_ok s p free K C) as (Ec & _ & O1 & K1 & U1 & Q1 & _ & _).
  set (s1 := zeroed p s) in *. clearbody s1. unfold two_pages in E. erewrite bind_ok in E; [|exact Ec].
  assert (C1 : kmem_callable s1) by (by eapply mem_only_callable).
  assert (Un : forall x, PGROUNDUP 0 <= x < PGROUNDUP 8192 -> valid (k_mem s1) p x = false).
  { intros x _. unfold valid. by rewrite Q1. }
  destruct (uvmalloc_ok s1 p free 0 8192 PTE_W K1 C1 U1) as (r & s2 & f' & Er & X & Q & R);
    [lia|rewrite TRAPFRAME_eq; lia|split; [done|reflexivity]|exact Un|].
  rewrite E in Er. injection Er as <- <-. destruct R as [(_ & W)|(? & _)]; [|done].
  exists f'. split; [apply X|]. split; [eapply mem_only_callable; [apply X|done]|].
  split; [apply X|]. split.
  - intros x Hx. rewrite TRAPFRAME_eq in Hx. rewrite Q, Q1; [done|split; lia|].
    change (PGROUNDUP 8192) with 8192. lia.
  - intros x V. rewrite W by done. change (PGROUNDUP 0) with 0. change (PGROUNDUP 8192) with 8192.
    case_decide; [done|]. unfold uview, valid. by rewrite Q1.
Qed.

End Example.

(** On the small machine. *)
#[local] Existing Instance demo_layout.
#[local] Existing Instance demo_layout_ok.

Definition demo_root : Z := PHYSTOP - 4096.
Definition demo_space : kstate := default kstate0 (run_state (two_pages booted)).

Lemma demo_run_val : run_val (two_pages booted) = Some 8192.
Proof. vm_compute. reflexivity. Qed.

Lemma demo_run : two_pages booted = Ok 8192 demo_space.
Proof. exact (run_val_ok (two_pages booted) 8192 demo_run_val). Qed.

Lemma demo_space_ok :
  exists free, kmem_ok demo_space free /\ kmem_callable demo_space /\
    uvm_ok (k_mem demo_space) demo_root free /\ top_private (k_mem demo_space) demo_root /\
    (forall x, uva x -> uview (k_mem demo_space) demo_root x =
       if decide (0 <= x < 8192) then Some (Z.lor (uperm PTE_W) PTE_V, 0) else None).
Proof. exact (two_pages_ok booted demo_root (tail demo_pages) demo_space booted_kmem booted_callable demo_run). Qed.

Lemma copyout_copyin_roundtrip_witness :
  exists r s', copyout demo_root 4094 [104; 105; 33; 0] 4 demo_space = Ok r s' /\
    (r = 0 /\ copyin demo_root 4094 4 s' = Ok (0, [104; 105; 33; 0]) s' \/ r = -1).
Proof.
  destruct demo_space_ok as (f & K & _ & U & TP & _).
  destruct (copyout_copyin_roundtrip demo_space demo_root f 4094
    [104; 105; 33; 0] K U TP ltac:(lia)) as (r & s' & E & _ & [(-> & _ & Ei & _)|(-> & _)]);
    eexists _, _; (split; [exact E|]); [left|right]; auto.
Defined.

Lemma copyinstr_correct_witness :
  exists r k, copyinstr demo_root 100 16 demo_space =
    Ok (r, uread (k_mem demo_space) demo_root 100 (Z.to_nat k)) demo_space /\ 0 <= k <= 16.
Proof.
  destruct demo_space_ok as (f & _ & _ & U & TP & _).
  destruct (copyinstr_correct demo_space demo_root f 100 16 U TP)
    as (r & k & E & Hk & _); [lia|lia|]. exists r, k. auto.
Defined.

Lemma demo_unmapped x : 8192 <= x < TRAPFRAME -> valid (k_mem demo_space) demo_root x = false.
Proof.
  intros Hx. destruct demo_space_ok as (f & _ & _ & _ & _ & W).
  pose proof (W x ltac:(split; lia)) as Wx. rewrite decide_False in Wx by lia. unfold uview in Wx.
  by destruct (valid (k_mem demo_space) demo_root x).
Qed.

Lemma demo_mapped x : 0 <= x < 8192 -> valid (k_mem demo_space) demo_root x = true.
Proof.
  intros Hx. destruct demo_space_ok as (f & _ & _ & _ & _ & W).
  pose proof (W x ltac:(split; rewrite ?TRAPFRAME_eq; lia)) as Wx. rewrite decide_True in Wx by lia.
  unfold uview in Wx. by destruct (valid (k_mem demo_space) demo_root x).
Qed.

Lemma uvmalloc_all_or_nothing_witness :
  exists r s' free', uvmalloc demo_root 8192 12288 PTE_W demo_space = Ok r s' /\
    kmem_ok s' free' /\ (r = 12288 \/ r = 0).
Proof.
  destruct demo_space_ok as (f & K & C & U & _ & _).
  destruct (uvmalloc_all_or_nothing demo_space demo_root f 8192 12288 PTE_W K C U)
    as (r & s' & f' & E & X & R).
  - lia.
  - rewrite TRAPFRAME_eq. lia.
  - split; [done|reflexivity].
  - change (PGROUNDUP 8192) with 8192. change (PGROUNDUP 12288) with 12288.
    intros x Hx. apply demo_unmapped. rewrite TRAPFRAME_eq. lia.
  - exists r, s', f'. split; [exact E|]. split; [apply X|]. destruct R as [(-> & _)|(-> & _)]; auto.
Defined.

Lemma demo_more : (k_freelist demo_space =? 0) = false.
Proof. vm_compute. reflexivity. Qed.


Lemma mappages_maps_range_witness :
  exists r s', mappages demo_root 6000 5000 0x87000000 PTE_R (zeroed demo_root booted) = Ok r s'.
Proof.
  destruct (uvmcreate_ok booted demo_root (tail demo_pages) booted_kmem booted_callable)
    as (_ & _ & O & K & U & Q & _ & _).
  destruct (mappages_maps_range (zeroed demo_root booted) demo_root (tail demo_pages) 6000 5000
    0x87000000 PTE_R K) as (r & s' & f' & k & E & _).
  - eapply mem_only_callable; [exact O|exact booted_callable].
  - exact (uo_pt _ _ _ U).
  - lia.
  - lia.
  - change MAXVA with 274877906944. lia.
  - intros x _. rewrite Q. reflexivity.
  - split; [split; [lia|reflexivity]|reflexivity].
  - change (2 ^ 56) with 72057594037927936. lia.
  - split; [done|reflexivity].
  - exists r, s'. exact E.
Defined.
