(* ===== verification/Freewalk.v ===== *)
(** * Freeing an address space (kernel/vm.c)

    freewalk walks the table pages of a tree and frees each of them once; uvmfree gives
    back every page of an address space, its memory and its tables, and nothing else. *)

From S2P Require Import Prelude Memory Riscv State Kmonad Spinlock CString Kalloc Vm PageTable.
From S2P Require Import UserMem Uvm AddressSpace.
From Stdlib Require Import ZArith Lia.
From stdpp Require Import base numbers gmap strings option list.

#[local] Open Scope Z_scope.
#[local] Open Scope kernel_scope.

(** ** The table pages below a table *)

(** The tables of [k] levels below the table at [q], and that table. *)
Fixpoint tpages (m : memory) (k : nat) (q : Z) : list Z :=
  q :: match k with
       | O => []
       | S k' => seq 0 512 ≫= (fun i : nat =>
           let v := mld64 m (q + 8 * Z.of_nat i) in
           if has_bits v PTE_V then tpages m k' (PTE2PA v) else [])
       end.

Definition below (m : memory) (k : nat) (q : Z) (i : nat) : list Z :=
  let v := mld64 m (q + 8 * Z.of_nat i) in
  if has_bits v PTE_V then tpages m k (PTE2PA v) else [].

Lemma tpages_S m k q : tpages m (S k) q = q :: (seq 0 512 ≫= below m k q).
Proof. reflexivity. Qed.

(** Entries point to tables without permissions, and at the lowest level there are none. *)
Fixpoint bare_tree (m : memory) (k : nat) (q : Z) : Prop :=
  forall i : nat, (i < 512)%nat ->
    let v := mld64 m (q + 8 * Z.of_nat i) in
    match k with
    | O => has_bits v PTE_V = false
    | S k' => dir_entry v /\ (has_bits v PTE_V = true -> bare_tree m k' (PTE2PA v))
    end.

(** Both depend on the pages of the tree only. *)
Lemma tpages_ext m m' k q :
  (forall p a, p ∈ tpages m k q -> in_page p a -> mget m' a = mget m a) ->
  tpages m' k q = tpages m k q /\ (bare_tree m k q -> bare_tree m' k q).
Proof.
  revert q. induction k as [|k IH]; intros q H.
  - split; [done|]. intros B i Hi. cbn. rewrite (mld64_ext m m'); [by apply B|].
    intros a Ha. apply (H q); [apply list_elem_of_here|]. unfold in_page. lia.
  - assert (E : forall i : nat, (i < 512)%nat -> mld64 m' (q + 8 * Z.of_nat i) = mld64 m (q + 8 * Z.of_nat i)).
    { intros i Hi. apply mld64_ext. intros a Ha. apply (H q); [apply list_elem_of_here|]. unfold in_page. lia. }
    assert (Sub : forall i : nat, (i < 512)%nat -> has_bits (mld64 m (q + 8 * Z.of_nat i)) PTE_V = true ->
      tpages m' k (PTE2PA (mld64 m (q + 8 * Z.of_nat i))) = tpages m k (PTE2PA (mld64 m (q + 8 * Z.of_nat i))) /\
      (bare_tree m k (PTE2PA (mld64 m (q + 8 * Z.of_nat i))) -> bare_tree m' k (PTE2PA (mld64 m (q + 8 * Z.of_nat i))))).
    { intros i Hi V. apply IH. intros p a Hp Ha. apply (H p); [|done]. rewrite tpages_S. apply list_elem_of_further, list_elem_of_bind.
      exists i. split; [|apply elem_of_seq; lia]. unfold below. by rewrite V. }
    split.
    + rewrite !tpages_S. f_equal. apply Forall_bind_ext. apply Forall_seq. intros i Hi. unfold below. rewrite E by lia.
      destruct (has_bits _ PTE_V) eqn:V; [|done]. apply Sub; [lia|done].
    + intros B i Hi. cbn zeta. rewrite E by done. destruct (B i Hi) as [D T]. split; [done|]. intros V. apply Sub; [done..|by apply T].
Qed.

Section Freewalk.
Context `{L : KernelLayout} `{LOK : !LayoutOk}.

(** From [s] to [s'] the pages [ps] became free, and no other memory changed. *)
Record frees (ps free : list Z) (s : kstate) (free' : list Z) (s' : kstate) : Prop := {
  fr_only : mem_only s s';
  fr_kmem : kmem_ok s' free';
  fr_perm : free' ≡ₚ ps ++ free;
  fr_frame a : ~ within (.∈ ps) a -> mget (k_mem s') a = mget (k_mem s) a }.

Lemma frees_callable ps free s free' s' : frees ps free s free' s' -> kmem_callable s -> kmem_callable s'.
Proof. intros F. apply mem_only_callable, F. Qed.

(** kfree. *)
Lemma kfree_frees p free s :
  page p -> p ∉ free -> kmem_ok s free -> kmem_callable s ->
  kfree p s = Ok tt (freed p s) /\ frees [p] free s (p :: free) (freed p s).
Proof.
  intros Pp Np K [Cl Cc]. split; [by apply kfree_eq|]. split.
  - eexists _, _. right. reflexivity.
  - by apply kfree_kmem.
  - done.
  - intros a Ha. assert (N : ~ in_page p a) by (intros I; apply Ha; exists p; split; [apply list_elem_of_here|done]).
    unfold freed. ksimpl. rewrite mget_mst64_out by (unfold in_page in N; lia). by apply mget_fillpage_out.
Qed.

(** Another store to memory that is not free. *)
Lemma store_kmem a v q s free :
  kmem_ok s free -> page q -> q ∉ free -> in_page q a -> in_page q (a + 7) ->
  kmem_ok (set_k_mem (mst64 (k_mem s) a v) s) free.
Proof.
  intros K Pq Nq I1 I2. pose proof K as (F & ND & Pg). split; [|done]. ksimpl. eapply flist_ext; [|exact F].
  intros p Hp. apply mld64_ext. intros x Hx. apply mget_mst64_out. pose proof (kmem_page _ _ p K Hp) as Pp.
  assert (~ in_page q x) by (apply (pages_apart p); auto; [by intros ->|unfold in_page; lia]). unfold in_page in *. lia.
Qed.

Definition freewalk_body (k : nat) (q : Z) (i : nat) : M unit :=
  let! pte := ld64 (q + 8 * Z.of_nat i) in
  if has_bits pte PTE_V && negb (has_bits pte (Z.lor (Z.lor PTE_R PTE_W) PTE_X)) then
    freewalk k (PTE2PA pte) ;!
    st64 (q + 8 * Z.of_nat i) 0
  else if has_bits pte PTE_V then panic "freewalk: leaf"
  else ret tt.

Lemma freewalk_S k q : freewalk (S k) q = (foreach (seq 0 512) (freewalk_body k q) ;! kfree q).
Proof. reflexivity. Qed.

Definition frees_tree (k : nat) : Prop := forall s free q,
  kmem_ok s free -> kmem_callable s -> bare_tree (k_mem s) k q ->
  NoDup (tpages (k_mem s) k q) -> Forall page (tpages (k_mem s) k q) -> (forall p, p ∈ tpages (k_mem s) k q -> p ∉ free) ->
  exists s' free', freewalk (S k) q s = Ok tt s' /\ frees (tpages (k_mem s) k q) free s free' s'.

Lemma frees_elem ps free s free' s' p : frees ps free s free' s' -> p ∈ free' <-> p ∈ ps \/ p ∈ free.
Proof. intros F. rewrite (fr_perm _ _ _ _ _ F). apply elem_of_app. Qed.

(** One entry: the tree below it is freed and the entry cleared. *)
Lemma freewalk_entry k q i s free :
  frees_tree k -> kmem_ok s free -> kmem_callable s -> page q -> q ∉ free -> (i < 512)%nat ->
  let v := mld64 (k_mem s) (q + 8 * Z.of_nat i) in
  dir_entry v -> (has_bits v PTE_V = true -> bare_tree (k_mem s) k (PTE2PA v)) ->
  let ps := below (k_mem s) k q i in
  NoDup ps -> Forall page ps -> (forall p, p ∈ ps -> p ∉ free /\ p <> q) ->
  exists s' free', freewalk_body (S k) q i s = Ok tt s' /\ mem_only s s' /\ kmem_ok s' free' /\ free' ≡ₚ ps ++ free /\
    forall a, ~ within (.∈ ps) a -> a < q + 8 * Z.of_nat i \/ q + 8 * Z.of_nat i + 8 <= a -> mget (k_mem s') a = mget (k_mem s) a.
Proof.
  intros IH K C Pq Nq Hi v D T ps ND Pg Nf. unfold freewalk_body, ld64. kprim. fold v. subst ps. unfold below in *. fold v in ND, Pg, Nf |- *.
  destruct (has_bits v PTE_V) eqn:V; [|exists s, free; by split_and!]. rewrite (D V). cbn [negb andb].
  destruct (IH s free (PTE2PA v) K C (T eq_refl) ND Pg) as (s1 & f1 & E1 & F1); [intros p Hp; by apply Nf|].
  erewrite bind_ok; [|exact E1]. unfold st64, modify. eexists _, f1. split; [reflexivity|].
  split; [etransitivity; [apply F1|apply mem_only_store]|]. split; [|split; [apply F1|]].
  - apply (store_kmem _ _ q); [apply F1|done| |unfold in_page; lia..]. intros Hq. apply (frees_elem _ _ _ _ _ _ F1) in Hq as [Hq|Hq]; [|done]. by apply Nf in Hq as [_ ?].
  - intros a Na Ha. ksimpl. rewrite mget_mst64_out by lia. by apply F1.
Qed.

Lemma within_app (l1 l2 : list Z) a : within (.∈ l1 ++ l2) a <-> within (.∈ l1) a \/ within (.∈ l2) a.
Proof.
  unfold within. split.
  - intros (p & [H|H]%elem_of_app & I); [left|right]; by exists p.
  - intros [(p & H & I)|(p & H & I)]; exists p; (split; [apply elem_of_app|done]); [by left|by right].
Qed.

(** The loop over the entries of the table at [q]. *)
Lemma freewalk_loop k q l s free :
  frees_tree k -> kmem_ok s free -> kmem_callable s -> page q -> q ∉ free -> NoDup l -> Forall (fun i => (i < 512)%nat) l ->
  Forall (fun i : nat => let v := mld64 (k_mem s) (q + 8 * Z.of_nat i) in dir_entry v /\ (has_bits v PTE_V = true -> bare_tree (k_mem s) k (PTE2PA v))) l ->
  let ps := l ≫= below (k_mem s) k q in
  NoDup ps -> Forall page ps -> (forall p, p ∈ ps -> p ∉ free /\ p <> q) ->
  exists s' free', foreach l (freewalk_body (S k) q) s = Ok tt s' /\ mem_only s s' /\ kmem_ok s' free' /\ free' ≡ₚ ps ++ free /\
    forall a, ~ within (.∈ ps) a -> ~ in_page q a -> mget (k_mem s') a = mget (k_mem s) a.
Proof.
  intros IH. revert s free. induction l as [|i l IL]; intros s free K C Pq Nq NDl Hl Bt ps ND Pg Nf.
  { exists s, free. by split_and!. }
  apply Forall_cons_1 in Hl as [Hi Hl], Bt as [[D T] Bt]. inversion_clear NDl as [|? ? Ni NDl'].
  assert (Eps : ps = below (k_mem s) k q i ++ (l ≫= below (k_mem s) k q)) by reflexivity. rewrite Eps in ND, Pg, Nf |- *. clear ps Eps.
  apply NoDup_app in ND as (ND1 & ND12 & ND2). apply Forall_app in Pg as [Pg1 Pg2].
  destruct (freewalk_entry k q i s free IH K C Pq Nq Hi D T ND1 Pg1) as (s1 & f1 & E1 & O1 & K1 & P1 & F1); [intros p Hp; apply Nf, elem_of_app; by left|].
  cbn [foreach]. erewrite bind_ok; [|exact E1].
  (* The other entries, and the trees below them, are as they were. *)
  assert (Ke : forall j : nat, j ∈ l -> mld64 (k_mem s1) (q + 8 * Z.of_nat j) = mld64 (k_mem s) (q + 8 * Z.of_nat j)).
  { intros j Hj. apply mld64_ext. intros a Ha. assert (j <> i) by congruence. apply F1; [|lia].
    intros (p & Hp & Ia). assert (p <> q) by (apply Nf, elem_of_app; by left). rewrite Forall_forall in Pg1; specialize (Pg1 p Hp).
    rewrite Forall_forall in Hl. specialize (Hl j Hj). apply (pages_apart p q a); auto. unfold in_page. lia. }
  assert (Kt : forall j : nat, j ∈ l -> has_bits (mld64 (k_mem s) (q + 8 * Z.of_nat j)) PTE_V = true ->
    tpages (k_mem s1) k (PTE2PA (mld64 (k_mem s) (q + 8 * Z.of_nat j))) = tpages (k_mem s) k (PTE2PA (mld64 (k_mem s) (q + 8 * Z.of_nat j))) /\
    (bare_tree (k_mem s) k (PTE2PA (mld64 (k_mem s) (q + 8 * Z.of_nat j))) -> bare_tree (k_mem s1) k (PTE2PA (mld64 (k_mem s) (q + 8 * Z.of_nat j))))).
  { intros j Hj V. apply tpages_ext. intros p a Hp Ia.
    assert (Hp2 : p ∈ l ≫= below (k_mem s) k q) by (apply list_elem_of_bind; exists j; split; [|done]; unfold below; by rewrite V).
    assert (Np : p <> q) by (apply Nf, elem_of_app; by right). rewrite Forall_forall in Pg2; specialize (Pg2 p Hp2). apply F1.
    - intros (p' & Hp' & Ia'). destruct (decide (p = p')) as [->|Npp]; [by apply (ND12 p')|]. rewrite Forall_forall in Pg1; specialize (Pg1 p' Hp'). by apply (pages_apart p p' a).
    - assert (~ in_page q a) by (by apply (pages_apart p)). unfold in_page in *. lia. }
  assert (Eb : l ≫= below (k_mem s1) k q = l ≫= below (k_mem s) k q).
  { apply Forall_bind_ext, Forall_forall. intros j Hj. unfold below. rewrite Ke by done. destruct (has_bits (mld64 (k_mem s) (q + 8 * Z.of_nat j)) PTE_V) eqn:V; [|done]. by apply Kt. }
  destruct (IL s1 f1) as (s' & f' & E' & O' & K' & P' & F'); rewrite ?Eb; try done.
  { by eapply mem_only_callable. }
  { rewrite P1. intros [Hq|Hq]%elem_of_app; [|done]. by destruct (Nf q) as [_ ?]; [apply elem_of_app; by left|]. }
  { rewrite Forall_forall in Bt |- *. intros j Hj. cbn zeta. rewrite Ke by done. destruct (Bt j Hj) as [Dj Tj]. split; [done|]. intros V. by apply Kt, Tj. }
  { intros p Hp. destruct (Nf p) as [N1 N2]; [apply elem_of_app; by right|]. split; [|done]. rewrite P1. intros [Hq|Hq]%elem_of_app; [by apply (ND12 p)|done]. }
  exists s', f'. split; [done|]. split; [by etransitivity|]. split; [done|]. rewrite Eb in P', F'. split.
  - rewrite P', P1, !app_assoc. f_equiv. apply Permutation_app_comm.
  - intros a Na Nqa. rewrite within_app in Na. rewrite F' by tauto. apply F1; [tauto|]. unfold in_page in Nqa. lia.
Qed.

(** freewalk frees every table of a tree without leaves, each once. *)
Lemma freewalk_ok k : frees_tree k.
Proof.
  induction k as [|k IH]; intros s free q K C Bt ND Pg Nf.
  - assert (Hq : page q /\ q ∉ free) by (split; [by apply Forall_cons_1 in Pg as [? _]|apply Nf, list_elem_of_here]). destruct Hq as [Pq Nq].
    rewrite freewalk_S. assert (El : foreach (seq 0 512) (freewalk_body 0 q) s = Ok tt s).
    { destruct (foreach_seq (freewalk_body 0 q) (fun _ s' => s' = s) 512 s) as (s' & E & ->); [|done|done].
      intros i s1 Hi ->. exists s. split; [|done]. unfold freewalk_body, ld64. kprim. by rewrite (Bt i Hi). }
    erewrite bind_ok; [|exact El]. destruct (kfree_frees q free s Pq Nq K C) as [E F]. exists (freed q s), (q :: free). by split.
  - rewrite tpages_S in *. inversion_clear ND as [|? ? Nin ND']. apply Forall_cons_1 in Pg as [Pq Pg].
    assert (Nq : q ∉ free) by apply Nf, list_elem_of_here.
    rewrite freewalk_S. destruct (freewalk_loop k q (seq 0 512) s free IH K C Pq Nq) as (s1 & f1 & E1 & O1 & K1 & P1 & F1); try done.
    { apply NoDup_seq. }
    { apply Forall_seq. lia. }
    { apply Forall_seq. intros i Hi. apply Bt. lia. }
    { intros p Hp. split; [by apply Nf, list_elem_of_further|]. intros ->. done. }
    erewrite bind_ok; [|exact E1]. assert (Nq1 : q ∉ f1) by (rewrite P1; intros [?|?]%elem_of_app; done).
    destruct (kfree_frees q f1 s1 Pq Nq1 K1) as [E F]; [by eapply mem_only_callable|]. exists (freed q s1), (q :: f1). split; [done|]. split.
    + etransitivity; [exact O1|apply F].
    + apply F.
    + by rewrite P1.
    + intros a Na. rewrite (fr_frame _ _ _ _ _ F), F1; [done|..].
      * intros (p & Hp & I). apply Na. exists p. split; [by apply list_elem_of_further|done].
      * intros I. apply Na. exists q. split; [apply list_elem_of_here|done].
      * intros (p & Hp & I). apply Na. exists p. apply list_elem_of_singleton in Hp as ->. split; [apply list_elem_of_here|done].
Qed.

(** ** The tables of a page table *)

(** The address with the first [d] steps of [va] and index [i] at step [d]. *)
Definition at_index (d : nat) (va : Z) (i : nat) : Z :=
  key d va * 2 ^ (39 - 9 * Z.of_nat d) + Z.of_nat i * 2 ^ (39 - 9 * Z.of_nat (S d)).

Lemma at_index_key d va i :
  (d <= 2)%nat -> (i < 512)%nat -> 0 <= va -> key d (at_index d va i) = key d va /\ idx d (at_index d va i) = Z.of_nat i.
Proof.
  intros Hd Hi V. unfold idx. rewrite PX_eq by lia. unfold at_index, key.
  replace (12 + 9 * (2 - Z.of_nat d)) with (39 - 9 * Z.of_nat (S d)) by lia.
  assert (P : 2 ^ (39 - 9 * Z.of_nat d) = 2 ^ (39 - 9 * Z.of_nat (S d)) * 512).
  { replace (39 - 9 * Z.of_nat d) with (39 - 9 * Z.of_nat (S d) + 9) by lia. rewrite Z.pow_add_r by lia. reflexivity. }
  assert (0 < 2 ^ (39 - 9 * Z.of_nat (S d))) by (apply Z.pow_pos_nonneg; lia).
  rewrite P. set (w := 2 ^ (39 - 9 * Z.of_nat (S d))) in *. clearbody w. set (u := va / (w * 512)). split.
  - rewrite Z.div_add_l by lia. rewrite Z.div_small; nia.
  - replace (u * (w * 512) + Z.of_nat i * w) with ((u * 512 + Z.of_nat i) * w) by ring. rewrite Z.div_mul by lia. zlia.
Qed.

Lemma at_index_ok d va i :
  (d <= 2)%nat -> (i < 512)%nat -> va_ok va -> d <> 0%nat \/ (i < 256)%nat -> va_ok (at_index d va i).
Proof.
  intros Hd Hi [V0 V1] H. change MAXVA with 274877906944 in V1. unfold va_ok. change MAXVA with 274877906944. unfold at_index, key.
  destruct d as [|[|[|]]]; [..|lia].
  - change (2 ^ (39 - 9 * Z.of_nat 0)) with 549755813888. change (2 ^ (39 - 9 * Z.of_nat 1)) with 1073741824. zlia.
  - change (2 ^ (39 - 9 * Z.of_nat 1)) with 1073741824. change (2 ^ (39 - 9 * Z.of_nat 2)) with 2097152. zlia.
  - change (2 ^ (39 - 9 * Z.of_nat 2)) with 2097152. change (2 ^ (39 - 9 * Z.of_nat 3)) with 4096. zlia.
Qed.

Section Tables.
Variables (m : memory) (root : Z) (free : list Z).
Hypothesis P : pt_ok m root free.

(** A valid entry of a table on a path is on a path. *)
Lemma entry_path d va q (i : nat) :
  va_ok va -> (d <= 1)%nat -> tbl m root va d = Some q -> (i < 512)%nat -> has_bits (mld64 m (q + 8 * Z.of_nat i)) PTE_V = true ->
  let va1 := at_index d va i in
  va_ok va1 /\ key d va1 = key d va /\ slot q d va1 = q + 8 * Z.of_nat i /\ tbl m root va1 d = Some q /\
  tbl m root va1 (S d) = Some (PTE2PA (mld64 m (q + 8 * Z.of_nat i))).
Proof.
  intros V Hd E Hi B va1. pose proof V as [V0 _]. destruct (at_index_key d va i ltac:(lia) Hi V0) as [K I].
  assert (V1 : va_ok va1).
  { apply at_index_ok; auto. destruct d; [|by left]. right. destruct (decide (i < 256)%nat); [done|]. injection E as <-.
    by rewrite (pt_high _ _ _ P) in B by lia. }
  assert (T : tbl m root va1 d = Some q) by (rewrite <- E; apply tbl_key; [lia|done]).
  assert (Sl : slot q d va1 = q + 8 * Z.of_nat i) by (by rewrite slot_eq; unfold va1; rewrite I).
  split_and!; auto. cbn [tbl]. rewrite T. unfold child. by rewrite Sl, B.
Qed.

(** The pages of the tree below a table are the tables on the paths through it. *)
Lemma elem_tpages k d va q x :
  va_ok va -> (k + d = 2)%nat -> tbl m root va d = Some q ->
  x ∈ tpages m k q <-> exists va' d', va_ok va' /\ (d <= d' <= 2)%nat /\ key d va' = key d va /\ tbl m root va' d' = Some x.
Proof.
  revert d va q. induction k as [|k IH]; intros d va q V Hk E.
  - assert (d = 2%nat) as -> by lia. cbn [tpages]. rewrite list_elem_of_singleton. split.
    + intros ->. by exists va, 2%nat.
    + intros (va' & d' & V' & Hd' & K & E'). assert (d' = 2%nat) as -> by lia. rewrite (tbl_key m root va' va 2) in E' by (lia || done). congruence.
  - rewrite tpages_S, elem_of_cons, list_elem_of_bind. split.
    + intros [->|(i & Hi & Hs)]; [exists va, d; by auto with lia|]. apply elem_of_seq in Hs. unfold below in Hi.
      destruct (has_bits (mld64 m (q + 8 * Z.of_nat i)) PTE_V) eqn:B; [|by apply elem_of_nil in Hi].
      destruct (entry_path d va q i V ltac:(lia) E ltac:(lia) B) as (V1 & K1 & _ & _ & T1).
      apply (IH (S d) (at_index d va i)) in Hi as (va' & d' & V' & Hd' & K' & E'); [|done|lia|done].
      exists va', d'. split_and!; auto; [lia|lia|]. rewrite <- K1. apply key_mono; [lia|done].
    + intros (va' & d' & V' & Hd' & K & E'). destruct (decide (d' = d)) as [->|N].
      { left. rewrite (tbl_key m root va' va d) in E' by (lia || done). congruence. }
      right. rewrite <- (tbl_key m root va' va d) in E by (lia || done).
      assert (exists q1, tbl m root va' (S d) = Some q1) as [q1 E1].
      { destruct (tbl m root va' (S d)) as [q1|] eqn:E1; [by exists q1|]. by rewrite (tbl_none_le m root va' (S d) d') in E' by (lia || done). }
      exists (Z.to_nat (idx d va')). pose proof (idx_range d va' ltac:(lia)) as R. split; [|apply elem_of_seq; lia].
      unfold below. rewrite Z2Nat.id by lia. rewrite <- slot_eq. pose proof E1 as E2. cbn [tbl] in E2. rewrite E in E2. unfold child in E2.
      destruct (has_bits (mld64 m (slot q d va')) PTE_V); [|done]. injection E2 as ->. apply (IH (S d) va'); auto with lia. exists va', d'. auto with lia.
Qed.

Lemma nodup_tpages k d va q : va_ok va -> (k + d = 2)%nat -> tbl m root va d = Some q -> NoDup (tpages m k q).
Proof.
  revert d va q. induction k as [|k IH]; intros d va q V Hk E; [apply NoDup_singleton|]. rewrite tpages_S.
  assert (Sub : forall (i : nat) x, i ∈ seq 0 512 -> x ∈ below m k q i ->
    exists va1 va' d', va_ok va1 /\ va_ok va' /\ (S d <= d' <= 2)%nat /\ key d va1 = key d va /\ idx d va1 = Z.of_nat i /\ key (S d) va' = key (S d) va1 /\ tbl m root va' d' = Some x).
  { intros i x Hs Hi. apply elem_of_seq in Hs. unfold below in Hi. destruct (has_bits (mld64 m (q + 8 * Z.of_nat i)) PTE_V) eqn:B; [|by apply elem_of_nil in Hi].
    destruct (entry_path d va q i V ltac:(lia) E ltac:(lia) B) as (V1 & K1 & _ & _ & T1).
    apply (elem_tpages k (S d) (at_index d va i)) in Hi as (va' & d' & V' & Hd' & K' & E'); [|done|lia|done].
    pose proof V as [V0 _]. destruct (at_index_key d va i ltac:(lia) ltac:(lia) V0) as [_ I]. by exists (at_index d va i), va', d'. }
  constructor; [|apply NoDup_bind].
  - intros (i & Hi & Hs)%list_elem_of_bind. destruct (Sub i q Hs Hi) as (va1 & va' & d' & _ & V' & Hd' & _ & _ & _ & E').
    destruct (pt_inj _ _ _ P va d va' d' q); auto with lia.
  - intros i j y Hi Hj Yi Yj. destruct (Sub i y Hi Yi) as (v1 & w1 & d1 & _ & W1 & D1 & K1 & I1 & L1 & E1).
    destruct (Sub j y Hj Yj) as (v2 & w2 & d2 & _ & W2 & D2 & K2 & I2 & L2 & E2).
    destruct (pt_inj _ _ _ P w1 d1 w2 d2 y) as [-> Kw]; auto with lia.
    assert (Ks : key (S d) v1 = key (S d) v2) by (rewrite <- L1, <- L2; apply (key_mono_le (S d) d2); [lia|done]).
    apply key_step in Ks as [_ I]; [|lia]. lia.
  - intros i Hs%elem_of_seq. unfold below. destruct (has_bits (mld64 m (q + 8 * Z.of_nat i)) PTE_V) eqn:B; [|apply NoDup_nil_2].
    destruct (entry_path d va q i V ltac:(lia) E ltac:(lia) B) as (V1 & _ & _ & _ & T1). apply (IH (S d) (at_index d va i)); auto with lia.
  - apply NoDup_seq.
Qed.

(** With no valid leaf, the tree is as freewalk expects it. *)
Lemma tables_bare k d va q :
  (forall x, va_ok x -> has_bits (pte_of m root x) PTE_V = false) ->
  va_ok va -> (k + d = 2)%nat -> tbl m root va d = Some q -> bare_tree m k q.
Proof.
  intros NL. revert d va q. induction k as [|k IH]; intros d va q V Hk E i Hi; cbn zeta.
  - assert (d = 2%nat) as -> by lia. pose proof V as [V0 _]. destruct (at_index_key 2 va i ltac:(lia) Hi V0) as [K I].
    assert (V1 : va_ok (at_index 2 va i)) by (apply at_index_ok; auto).
    pose proof (NL _ V1) as N. unfold pte_of in N. rewrite (tbl_key m root _ va 2), E in N by (lia || done). by rewrite slot_eq, I in N.
  - destruct (has_bits (mld64 m (q + 8 * Z.of_nat i)) PTE_V) eqn:B; [|split; [by intros ?; congruence|done]].
    destruct (entry_path d va q i V ltac:(lia) E Hi B) as (V1 & _ & Sl & T0 & T1). split.
    + rewrite <- Sl. apply (pt_dir _ _ _ P _ d); auto with lia.
    + intros _. apply (IH (S d) (at_index d va i)); auto with lia.
Qed.

Lemma root_tpages x : x ∈ tpages m 2 root <-> is_tbl m root x.
Proof.
  assert (V : va_ok 0) by by vm_compute. rewrite (elem_tpages 2 0 0 root x V) by done. split.
  - intros (va & d & Va & Hd & _ & E). by exists va, d; auto with lia.
  - intros (va & d & Va & Hd & E). exists va, d. rewrite !key_0 by done. by auto with lia.
Qed.
End Tables.

(** ** uvmfree *)

Lemma freewalk_root s root free :
  kmem_ok s free -> kmem_callable s -> pt_ok (k_mem s) root free ->
  (forall x, va_ok x -> has_bits (pte_of (k_mem s) root x) PTE_V = false) ->
  exists s' free', freewalk 3 root s = Ok tt s' /\ mem_only s s' /\ kmem_ok s' free' /\
    (forall p, p ∈ free' <-> is_tbl (k_mem s) root p \/ p ∈ free) /\
    forall a, ~ within (is_tbl (k_mem s) root) a -> mget (k_mem s') a = mget (k_mem s) a.
Proof.
  intros K C Pt NL. assert (V : va_ok 0) by by vm_compute. pose proof (root_tpages _ _ _ Pt) as RT.
  destruct (freewalk_ok 2 s free root K C) as (s' & f' & E & F).
  - by apply (tables_bare _ _ _ Pt 2 0 0).
  - by apply (nodup_tpages _ _ _ Pt 2 0 0).
  - apply Forall_forall. intros p Hp%RT. by eapply is_tbl_page.
  - intros p Hp%RT. by eapply is_tbl_page.
  - exists s', f'. split; [exact E|]. split; [apply F|]. split; [apply F|]. split.
    + intros p. rewrite (frees_elem _ _ _ _ _ _ F). by rewrite RT.
    + intros a Na. apply F. intros (p & Hp & I). apply Na. exists p. by rewrite <- RT.
Qed.

Lemma uvmfree_ok s root free sz :
  kmem_ok s free -> kmem_callable s -> uvm_ok (k_mem s) root free -> 0 <= sz <= TRAPFRAME ->
  (forall x, 0 <= x < PGROUNDUP sz -> valid (k_mem s) root x = true) ->
  (forall x, va_ok x -> PGROUNDUP sz <= x -> valid (k_mem s) root x = false) ->
  exists s' free', uvmfree root sz s = Ok tt s' /\ mem_only s s' /\ kmem_ok s' free' /\
    (forall p, p ∈ free' <-> owned (k_mem s) root p \/ p ∈ free) /\
    forall a, ~ within (fun p => owned (k_mem s) root p \/ p ∈ free) a -> mget (k_mem s') a = mget (k_mem s) a.
Proof.
  intros K C U Hz Vs Nv. pose proof Hz as Hz'. rewrite TRAPFRAME_eq in Hz'. assert (Ew := PGROUNDUP_eq sz ltac:(lia)). unfold uvmfree.
  assert (exists s1 f1, when (0 <? sz) (uvmunmap root 0 (PGROUNDUP sz / PGSIZE) true) s = Ok tt s1 /\ uvm_step root free s f1 s1 /\
    forall x, va_ok x -> has_bits (pte_of (k_mem s1) root x) PTE_V = false) as (s1 & f1 & E1 & X & NL).
  { destruct (Z.ltb_spec 0 sz) as [Hp|Hp]; cbn [when].
    - destruct (uvmunmap_ok s root free 0 (PGROUNDUP sz / PGSIZE)) as (s1 & f1 & E1 & X & _ & Q & _); auto; unfold PGSIZE in *; try zlia.
      { rewrite TRAPFRAME_eq. zlia. }
      { intros x Hx. apply Vs. zlia. }
      exists s1, f1. split; [done|]. split; [done|]. intros x V. rewrite Q by done. case_decide as D; [done|]. apply (Nv x V). destruct V. zlia.
    - exists s, free. split; [done|]. split; [by apply uvm_step_refl|]. intros x V. apply (Nv x V). destruct V. zlia. }
  erewrite bind_ok; [|exact E1].
  assert (C1 : kmem_callable s1) by (eapply mem_only_callable; [apply X|done]).
  destruct (freewalk_root s1 root f1 (us_kmem _ _ _ _ _ X) C1 (uo_pt _ _ _ (us_ok _ _ _ _ _ X)) NL) as (s' & f' & E' & O' & K' & F' & Fr').
  assert (Ow : forall p, owned (k_mem s1) root p <-> is_tbl (k_mem s1) root p).
  { intros p. split; [|by left]. intros [T|(x & Ux & Vx & _)]; [done|]. unfold valid in Vx. by rewrite NL in Vx by (by apply uva_va_ok). }
  exists s', f'. split; [exact E'|]. split; [etransitivity; [apply X|done]|]. split; [done|]. split.
  - intros p. rewrite F', <- Ow. apply X.
  - intros a Na. rewrite Fr'; [by apply X|]. intros (p & Hp & I). apply Na. exists p. split; [|done]. apply (us_own _ _ _ _ _ X). left. by apply Ow.
Qed.

(** A client: an address space made, given [sz] bytes of memory and freed. *)
Definition make_and_free (sz xperm : Z) : M Z :=
  let! root := uvmcreate in
  if root =? 0 then ret 0 else
  let! r := uvmalloc root 0 sz xperm in
  uvmfree root r ;!
  ret r.

(** What uvmalloc in an empty space leaves, whether or not it succeeded. *)
Lemma uvmalloc_empty s root free sz xperm :
  kmem_ok s free -> kmem_callable s -> uvm_ok (k_mem s) root free -> 0 <= sz <= TRAPFRAME -> 0 <= xperm < 1024 -> (forall x, pte_of (k_mem s) root x = 0) ->
  exists r s' free', uvmalloc root 0 sz xperm s = Ok r s' /\ uvm_step root free s free' s' /\ 0 <= r <= TRAPFRAME /\
    (forall x, 0 <= x < PGROUNDUP r -> valid (k_mem s') root x = true) /\ (forall x, va_ok x -> PGROUNDUP r <= x -> valid (k_mem s') root x = false).
Proof.
  intros K C U Hz Hp Q0. assert (V0 : forall x, valid (k_mem s) root x = false) by (intros x; unfold valid; by rewrite Q0).
  pose proof Hz as Hz'. rewrite TRAPFRAME_eq in Hz'. assert (Ew := PGROUNDUP_eq sz ltac:(lia)).
  destruct (uvmalloc_ok s root free 0 sz xperm K C U) as (r & s' & free' & E & X & Q & R); [lia|lia|done|by intros|]. exists r, s', free'. split; [done|]. split; [done|].
  change (PGROUNDUP 0) with 0 in *. assert (B : PGROUNDUP sz <= TRAPFRAME) by (rewrite TRAPFRAME_eq; zlia).
  destruct R as [(-> & W)|(-> & W)].
  - split; [done|]. split; intros x Hx.
    + specialize (W x ltac:(unfold uva; lia)). rewrite decide_True in W by lia. unfold uview in W. by destruct (valid (k_mem s') root x).
    + intros Hy. unfold valid. by rewrite Q, Q0 by (done || lia).
  - split; [rewrite TRAPFRAME_eq; lia|]. change (PGROUNDUP 0) with 0. split; intros x Hx; [lia|]. intros Hy.
    destruct (decide (0 <= x < PGROUNDUP sz)) as [D|D]; [|unfold valid; by rewrite Q, Q0 by done].
    specialize (W x ltac:(unfold uva; lia)). unfold uview in W. rewrite V0 in W. by destruct (valid (k_mem s') root x).
Qed.

(** C21: address spaces leak nothing.  Making an address space, growing it to any size and freeing
    it terminates without a panic, whether or not there was memory for it, and leaves the free
    list with the same pages, each once: the pages of the page table at every level and the
    pages of memory all come back; no byte outside them changes. *)
Theorem uvm_no_leak s free sz xperm :
  kmem_ok s free -> kmem_callable s -> 0 <= sz <= TRAPFRAME -> 0 <= xperm < 1024 ->
  exists r s' free', make_and_free sz xperm s = Ok r s' /\ mem_only s s' /\ kmem_ok s' free' /\ free' ≡ₚ free /\
    forall a, ~ within (.∈ free) a -> mget (k_mem s') a = mget (k_mem s) a.
Proof.
  intros K C Hz Hp. unfold make_and_free. destruct free as [|p free].
  { unfold uvmcreate. erewrite bind_ok; [|erewrite bind_ok; [|apply kalloc_none; auto; apply C]; reflexivity]. exists 0, (settle s), [].
    split; [done|]. split; [exists (k_mem s), (k_freelist s); by right|done]. }
  destruct (uvmcreate_ok s p free K C) as (Ec & Np & O1 & K1 & U1 & Q1 & W1 & F1). set (s1 := zeroed p s) in *. clearbody s1. erewrite bind_ok; [|exact Ec].
  rewrite (proj2 (Z.eqb_neq p 0) Np). assert (C1 : kmem_callable s1) by (by eapply mem_only_callable).
  destruct (uvmalloc_empty s1 p free sz xperm K1 C1 U1 Hz Hp Q1) as (r & s2 & f2 & E2 & X & Hr & Va & Vb). erewrite bind_ok; [|exact E2].
  destruct (uvmfree_ok s2 p f2 r) as (s3 & f3 & E3 & O3 & K3 & W3 & F3); [apply X|eapply mem_only_callable; [apply X|done]|apply X|done..|]. erewrite bind_ok; [|exact E3].
  assert (Wq : forall q, q ∈ f3 <-> q ∈ p :: free) by (intros q; rewrite W3, (us_own _ _ _ _ _ X), W1, elem_of_cons; tauto).
  exists r, s3, f3. split; [done|]. split; [do 2 (etransitivity; [|eassumption || apply X]); done|]. split; [done|]. split; [apply NoDup_Permutation; [apply K3|apply K|exact Wq]|].
  intros a Na. rewrite F3, (us_frame _ _ _ _ _ X), F1; [done| | |].
  - intros I. apply Na. exists p. split; [apply list_elem_of_here|done].
  - intros (q & Hq & I). apply Na. exists q. split; [|done]. apply elem_of_cons. rewrite W1 in Hq. tauto.
  - intros (q & Hq & I). apply Na. exists q. split; [|done]. by apply Wq, W3.
Qed.
End Freewalk.

(** On the small machine. *)
#[local] Existing Instance demo_layout.
#[local] Existing Instance demo_layout_ok.

Lemma uvm_no_leak_witness : exists r s' free', make_and_free 8192 PTE_W booted = Ok r s' /\ kmem_ok s' free' /\ free' ≡ₚ demo_pages.
Proof.
  destruct (uvm_no_leak booted demo_pages 8192 PTE_W booted_kmem booted_callable) as (r & s' & free' & E & _ & K & P & _).
  - rewrite TRAPFRAME_eq. lia.
  - split; [done|reflexivity].
  - exists r, s', free'. split; [exact E|]. split; [exact K|exact P].
Defined.
