(* ===== verification/Proc.v ===== *)
(** * Processes and scheduling (kernel/proc.c)

    The process table, allocation and release of processes, and the operations that
    switch between kernel threads: sched, yield, sleep, wakeup, kill, wait, the scheduler,
    and co_yield.  A call of swtch is the result [Swtch] of the kernel monad: the
    registers that swtch.S saves into the old context are the continuation.  fork, exit,
    userinit and forkret, which call the file system, are in [ProcFs]. *)

From S2P Require Import Prelude Memory Riscv State Kmonad Spinlock CString Kalloc Vm.
From Stdlib Require Import ZArith Lia.
From stdpp Require Import base numbers list gmap strings option.

#[local] Open Scope Z_scope.
#[local] Open Scope kernel_scope.

(** Offsets in struct trapframe (kernel/proc.h). *)
Definition TF_kernel_satp : Z := 0.
Definition TF_kernel_sp : Z := 8.
Definition TF_kernel_trap : Z := 16.
Definition TF_epc : Z := 24.
Definition TF_kernel_hartid : Z := 32.
Definition TF_sp : Z := 48.
Definition TF_a0 : Z := 112.
Definition TF_a1 : Z := 120.
Definition TF_a2 : Z := 128.
Definition TF_a3 : Z := 136.
Definition TF_a4 : Z := 144.
Definition TF_a5 : Z := 152.
Definition TF_a7 : Z := 168.
Definition TF_size : Z := 288.

Section Proc.
Context `{L : KernelLayout}.

(** p->field, for &proc[i]. *)
Definition proc_at (i : nat) (s : kstate) : proc := k_procs s !!! i.
Definition getp {A} (f : proc -> A) (i : nat) : M A := gets (fun s => f (proc_at i s)).
Definition setp (i : nat) (f : proc -> proc) : M unit := modify (upd_proc i f).

(** A register saved in the trapframe of proc[i]. *)
Definition ld_tf (i : nat) (off : Z) : M Z := let! tf := getp p_trapframe i in ld64 (tf + off).
Definition st_tf (i : nat) (off v : Z) : M unit := let! tf := getp p_trapframe i in st64 (tf + off) v.

Definition swtch (old new : ctx) : M unit := fun s => Swtch old new s (fun s' => Ok tt s').

Definition procinit : M unit :=
  initlock L_pid ;!
  initlock L_wait ;!
  foreach (seq 0 NPROC) (fun i =>
    initlock (L_proc i) ;!
    setp i (set_p_state UNUSED) ;!
    setp i (set_p_kstack (KSTACK (Z.of_nat i)))).

Definition myproc : M (option nat) :=
  push_off ;!
  let! c := mycpu in
  let! p := gets (fun s => c_proc (k_cpus s !!! c)) in
  pop_off ;!
  ret p.

(** myproc() where the code dereferences the result. *)
Definition curproc : M nat :=
  let! p := myproc in
  match p with Some i => ret i | None => undef "null process pointer" end.

Definition allocpid : M Z :=
  acquire L_pid ;!
  let! pid := gets k_nextpid in
  modify (set_k_nextpid (i32 (pid + 1))) ;!
  release L_pid ;!
  ret pid.

(** The page table of proc[i]: only the trampoline and the trapframe. *)
Definition proc_pagetable (i : nat) : M Z :=
  let! pagetable := uvmcreate in
  if pagetable =? 0 then ret 0 else
  let! r := mappages pagetable TRAMPOLINE PGSIZE trampoline (Z.lor PTE_R PTE_X) in
  if r <? 0 then uvmfree pagetable 0 ;! ret 0 else
  let! tf := getp p_trapframe i in
  let! r := mappages pagetable TRAPFRAME PGSIZE tf (Z.lor PTE_R PTE_W) in
  if r <? 0 then
    uvmunmap pagetable TRAMPOLINE 1 false ;!
    uvmfree pagetable 0 ;!
    ret 0
  else ret pagetable.

Definition proc_freepagetable (pagetable sz : Z) : M unit :=
  uvmunmap pagetable TRAMPOLINE 1 false ;!
  uvmunmap pagetable TRAPFRAME 1 false ;!
  uvmfree pagetable sz.

Definition freeproc (i : nat) : M unit :=
  let! tf := getp p_trapframe i in
  when (truth tf) (kfree tf) ;!
  setp i (set_p_trapframe 0) ;!
  let! pt := getp p_pagetable i in
  when (truth pt) (let! sz := getp p_sz i in proc_freepagetable pt sz) ;!
  setp i (set_p_pagetable 0) ;!
  setp i (set_p_sz 0) ;!
  setp i (set_p_pid 0) ;!
  setp i (set_p_parent None) ;!
  setp i (fun p => set_p_name (<[0%nat := 0]> (p_name p)) p) ;!
  setp i (set_p_chan CH_null) ;!
  setp i (set_p_killed 0) ;!
  setp i (set_p_xstate 0) ;!
  setp i (set_p_state UNUSED).

(** The search loop: the first UNUSED process, locked. *)
Fixpoint find_unused (l : list nat) : M (option nat) :=
  match l with
  | [] => ret None
  | i :: l' =>
      acquire (L_proc i) ;!
      let! st := getp p_state i in
      if decide (st = UNUSED) then ret (Some i)
      else release (L_proc i) ;! find_unused l'
  end.

Definition allocproc : M (option nat) :=
  let! o := find_unused (seq 0 NPROC) in
  match o with
  | None => ret None
  | Some i =>
      let! pid := allocpid in
      setp i (set_p_pid pid) ;!
      setp i (set_p_state USED) ;!
      let! tf := kalloc in
      setp i (set_p_trapframe tf) ;!
      if tf =? 0 then freeproc i ;! release (L_proc i) ;! ret None else
      let! pt := proc_pagetable i in
      setp i (set_p_pagetable pt) ;!
      if pt =? 0 then freeproc i ;! release (L_proc i) ;! ret None else
      let! kstack := getp p_kstack i in
      setp i (set_p_context (mkcontext ra_forkret (kstack + PGSIZE))) ;!
      ret (Some i)
  end.

Definition growproc (n : Z) : M Z :=
  let! p := curproc in
  let! sz := getp p_sz p in
  let! pt := getp p_pagetable p in
  if 0 <? n then
    let! sz' := uvmalloc pt sz (u64 (sz + n)) PTE_W in
    if sz' =? 0 then ret (-1) else setp p (set_p_sz sz') ;! ret 0
  else if n <? 0 then
    let! sz' := uvmdealloc pt sz (u64 (sz + n)) in
    setp p (set_p_sz sz') ;! ret 0
  else setp p (set_p_sz sz) ;! ret 0.

Definition wakeup (c : chan) : M unit :=
  foreach (seq 0 NPROC) (fun i =>
    let! p := myproc in
    if decide (Some i = p) then ret tt else
    acquire (L_proc i) ;!
    let! q := gets (proc_at i) in
    when (bool_decide (p_state q = SLEEPING /\ p_chan q = c)) (setp i (set_p_state RUNNABLE)) ;!
    release (L_proc i)).

(** Pass p's abandoned children to init. *)
Definition reparent (p : nat) : M unit :=
  foreach (seq 0 NPROC) (fun pp =>
    let! parent := getp p_parent pp in
    if decide (parent = Some p) then
      let! init := gets k_initproc in
      setp pp (set_p_parent init) ;!
      wakeup (chan_of_proc init)
    else ret tt).

Definition sched : M unit :=
  let! p := curproc in
  let! h := holding (L_proc p) in
  if negb h then panic "sched p->lock" else
  let! c := mycpu in
  let! x := gets (fun s => k_cpus s !!! c) in
  if negb (c_noff x =? 1) then panic "sched locks" else
  let! st := getp p_state p in
  if decide (st = RUNNING) then panic "sched running" else
  let! on := intr_get in
  if on then panic "sched interruptible" else
  let intena := c_intena x in
  swtch (CtxProc p) (CtxCpu c) ;!
  let! c := mycpu in
  modify (upd_cpu c (set_c_intena intena)).

Definition yield : M unit :=
  let! p := curproc in
  acquire (L_proc p) ;!
  setp p (set_p_state RUNNABLE) ;!
  sched ;!
  release (L_proc p).

Definition sleep (c : chan) (lk : lockid) : M unit :=
  let! p := curproc in
  acquire (L_proc p) ;!
  release lk ;!
  setp p (set_p_chan c) ;!
  setp p (set_p_state SLEEPING) ;!
  sched ;!
  setp p (set_p_chan CH_null) ;!
  release (L_proc p) ;!
  acquire lk.

Fixpoint kill_scan (pid : Z) (l : list nat) : M Z :=
  match l with
  | [] => ret (-1)
  | i :: l' =>
      acquire (L_proc i) ;!
      let! q := gets (proc_at i) in
      if p_pid q =? pid then
        setp i (set_p_killed 1) ;!
        when (bool_decide (p_state q = SLEEPING)) (setp i (set_p_state RUNNABLE)) ;!
        release (L_proc i) ;!
        ret 0
      else release (L_proc i) ;! kill_scan pid l'
  end.

Definition kill (pid : Z) : M Z := kill_scan pid (seq 0 NPROC).

Definition setkilled (p : nat) : M unit :=
  acquire (L_proc p) ;!
  setp p (set_p_killed 1) ;!
  release (L_proc p).

Definition killed (p : nat) : M Z :=
  acquire (L_proc p) ;!
  let! k := getp p_killed p in
  release (L_proc p) ;!
  ret k.

(** One scan of the table by wait: the pid or error to return, or whether there are
    children. *)
Fixpoint wait_scan (p : nat) (addr : Z) (havekids : bool) (l : list nat) : M (Z + bool) :=
  match l with
  | [] => ret (inr havekids)
  | pp :: l' =>
      let! parent := getp p_parent pp in
      if decide (parent = Some p) then
        acquire (L_proc pp) ;!
        let! q := gets (proc_at pp) in
        if decide (p_state q = ZOMBIE) then
          let pid := p_pid q in
          let! pt := getp p_pagetable p in
          let! r := (if truth addr then copyout pt addr (le_bytes 4 (p_xstate q)) 4 else ret 0) in
          if r <? 0 then
            release (L_proc pp) ;!
            release L_wait ;!
            ret (inl (-1))
          else
            freeproc pp ;!
            release (L_proc pp) ;!
            release L_wait ;!
            ret (inl pid)
        else
          release (L_proc pp) ;!
          wait_scan p addr true l'
      else wait_scan p addr havekids l'
  end.

(** The for(;;) of wait; each iteration but the last sleeps once. *)
Fixpoint wait_loop (fuel : nat) (p : nat) (addr : Z) : M Z :=
  match fuel with
  | O => nofuel
  | S fuel' =>
      let! r := wait_scan p addr false (seq 0 NPROC) in
      match r with
      | inl v => ret v
      | inr havekids =>
          let! stop := (if negb havekids then ret true else let! k := killed p in ret (truth k)) in
          if stop then release L_wait ;! ret (-1)
          else sleep (CH_proc p) L_wait ;! wait_loop fuel' p addr
      end
  end.

Definition wait (fuel : nat) (addr : Z) : M Z :=
  let! p := curproc in
  acquire L_wait ;!
  wait_loop fuel p addr.

(** The body of the scheduler's loop for proc[i]. *)
Definition sched_visit (c i : nat) : M unit :=
  acquire (L_proc i) ;!
  let! st := getp p_state i in
  if decide (st = RUNNABLE) then
    setp i (set_p_state RUNNING) ;!
    modify (upd_cpu c (set_c_proc (Some i))) ;!
    swtch (CtxCpu c) (CtxProc i) ;!
    let! ran := gets (fun s => c_proc (k_cpus s !!! c)) in
    modify (upd_cpu c (set_c_proc None)) ;!
    match ran with
    | Some j => release (L_proc j)
    | None => undef "null process pointer"
    end
  else release (L_proc i).

(** [rounds] passes over the table of the scheduler's endless loop. *)
Fixpoint scheduler_loop (rounds : nat) (c : nat) : M unit :=
  match rounds with
  | O => nofuel
  | S rounds' =>
      intr_on ;!
      foreach (seq 0 NPROC) (sched_visit c) ;!
      scheduler_loop rounds' c
  end.

Definition scheduler (rounds : nat) : M unit :=
  let! c := mycpu in
  modify (upd_cpu c (set_c_proc None)) ;!
  scheduler_loop rounds c.

(** ** co_yield *)

Definition co_chan (p : nat) : chan := CH_context p.

(** Returns with the matching process locked. *)
Fixpoint find_proc_scan (pid : Z) (l : list nat) : M (option nat) :=
  match l with
  | [] => ret None
  | i :: l' =>
      acquire (L_proc i) ;!
      let! q := gets (proc_at i) in
      if bool_decide (p_pid q = pid /\ p_state q <> UNUSED) then ret (Some i)
      else release (L_proc i) ;! find_proc_scan pid l'
  end.

Definition find_proc (pid : Z) : M (option nat) := find_proc_scan pid (seq 0 NPROC).

(** From the release of p->lock to the end, the same in both branches. *)
Definition co_switch (p target : nat) : M Z :=
  release (L_proc p) ;!
  swtch (CtxProc p) (CtxProc target) ;!
  let! r := ld_tf p TF_a0 in
  setp p (set_p_chan CH_null) ;!
  release (L_proc p) ;!
  ret (i32 r).

Definition co_yield (pid value : Z) : M Z :=
  let! p := curproc in
  let! mypid := getp p_pid p in
  if (pid <=? 0) || (pid =? mypid) then ret (-1) else
  let! o := find_proc pid in
  match o with
  | None => ret (-1)
  | Some target =>
      let! q := gets (proc_at target) in
      if truth (p_killed q) || bool_decide (p_state q = UNUSED) || bool_decide (p_state q = ZOMBIE)
      then release (L_proc target) ;! ret (-1) else
      if decide (p_state q = SLEEPING) then
        if negb (bool_decide (p_chan q = co_chan p)) then release (L_proc target) ;! ret (-1) else
        acquire (L_proc p) ;!
        let! k := getp p_killed p in
        if truth k then release (L_proc p) ;! release (L_proc target) ;! ret (-1) else
        st_tf p TF_a1 (u64 value) ;!
        let! ta1 := ld_tf target TF_a1 in
        st_tf p TF_a0 ta1 ;!
        let! ta0 := ld_tf target TF_a0 in
        when (ta0 =? u64 (-1)) (st_tf target TF_a0 (u64 value)) ;!
        setp p (set_p_chan (co_chan target)) ;!
        setp p (set_p_state SLEEPING) ;!
        setp target (set_p_state RUNNING) ;!
        setp target (set_p_chan CH_null) ;!
        let! c := mycpu in
        modify (upd_cpu c (set_c_proc (Some target))) ;!
        co_switch p target
      else
        if negb (bool_decide (p_state q = RUNNABLE)) then release (L_proc target) ;! ret (-1) else
        acquire (L_proc p) ;!
        let! k := getp p_killed p in
        if truth k then release (L_proc p) ;! release (L_proc target) ;! ret (-1) else
        st_tf p TF_a1 (u64 value) ;!
        st_tf p TF_a0 (u64 (-1)) ;!
        setp p (set_p_chan (co_chan target)) ;!
        setp p (set_p_state SLEEPING) ;!
        setp target (set_p_state RUNNING) ;!
        let! c := mycpu in
        modify (upd_cpu c (set_c_proc (Some target))) ;!
        co_switch p target
  end.

(** ** Copies to and from user or kernel addresses *)

(** The bytes stored at a kernel destination are the second result. *)
Definition either_copyout (user_dst : bool) (dst : Z) (src : list Z) (len : Z) : M (Z * list Z) :=
  let! p := myproc in
  if user_dst then
    match p with
    | Some i =>
        let! pt := getp p_pagetable i in
        let! r := copyout pt dst src len in
        ret (r, [])
    | None => undef "null process pointer"
    end
  else ret (0, take (Z.to_nat len) src).

(** [ksrc] are the bytes of the kernel object that a kernel source address points to. *)
Definition either_copyin (user_src : bool) (src : Z) (ksrc : list Z) (len : Z) : M (Z * list Z) :=
  let! p := myproc in
  if user_src then
    match p with
    | Some i => let! pt := getp p_pagetable i in copyin pt src len
    | None => undef "null process pointer"
    end
  else ret (0, take (Z.to_nat len) ksrc).

End Proc.
