(* ===== verification/ProcPages.v ===== *)
(** * The address space of a process (kernel/proc.c)

    proc_pagetable builds an address space with the trampoline and the trapframe mapped at
    the top, or gives back every page it took; proc_freepagetable frees a process's whole
    address space. *)

From S2P Require Import Prelude Memory Riscv State Kmonad Spinlock CString Kalloc Vm PageTable.
From S2P Require Import UserMem Uvm AddressSpace Freewalk Proc.
From Stdlib Require Import ZArith Lia.
From stdpp Require Import base numbers gmap strings option list.

#[local] Open Scope Z_scope.
#[local] Open Scope kernel_scope.

Section ProcPages.
Context `{L : KernelLayout} `{LOK : !LayoutOk}.

(** A change of the table entries above user memory. *)
Lemma extends_step root free s free' s' :
  uvm_ok (k_mem s) root free -> extends root free s free' s' ->
  (forall x, uva x -> pte_of (k_mem s') root x = pte_of (k_mem s) root x) ->
  uvm_step root free s free' s'.
Proof.
  intros U X Q. split; [apply X|apply X|exact (uvm_ok_same s s' root free free' U X Q)| |].
  - intros p. by apply (uvm_own_same s s' root free free' X p Q).
  - intros a. by apply (ext_frame_own s s' root free free' X).
Qed.

Definition top (a : Z) : Prop := a = TRAMPOLINE \/ a = TRAPFRAME.

Lemma top_facts a : top a -> va_ok a /\ a mod 4096 = 0 /\ (forall x, uva x -> x / 4096 <> a / 4096) /\ 0 <= a /\ a + 4096 <= MAXVA.
Proof.
  intros [->| ->]; unfold va_ok, uva; change TRAPFRAME with 274877898752; change TRAMPOLINE with 274877902848; change MAXVA with 274877906944; split_and!; try lia; try reflexivity; intros x Hx; zlia.
Qed.

Lemma map_top s root free a pa perm :
  kmem_ok s free -> kmem_callable s -> uvm_ok (k_mem s) root free -> top a -> has_bits (pte_of (k_mem s) root a) PTE_V = false ->
  pa_ok pa -> pa + 4096 <= 2 ^ 56 -> 0 <= perm < 1024 ->
  exists r s' free', mappages root a PGSIZE pa perm s = Ok r s' /\ uvm_step root free s free' s' /\
    (r = 0 /\ (length free <= length free' + 2)%nat /\
       (forall x, va_ok x -> pte_of (k_mem s') root x = if decide (x / 4096 = a / 4096) then Z.lor (Z.lor (PA2PTE pa) perm) PTE_V else pte_of (k_mem s) root x) \/
     r = -1 /\ (length free < 2)%nat /\ forall x, va_ok x -> pte_of (k_mem s') root x = pte_of (k_mem s) root x).
Proof.
  intros K C U T NV Pa Pe Hp. destruct (top_facts a T) as (Va & Ma & Ux & _).
  destruct (mappages_page s root free a pa perm) as (r & s' & f' & E & X & D); auto; [apply U|].
  exists r, s', f'. split; [done|]. destruct D as [(-> & Q & Ln)|(-> & -> & Ln & Q)]; (split; [apply extends_step; auto; intros x V|]).
  - rewrite Q by (by apply uva_va_ok). by rewrite decide_False by (by apply Ux).
  - left. auto.
  - by apply Q, uva_va_ok.
  - right. auto.
Qed.

Lemma unmap_top s root free a :
  kmem_ok s free -> uvm_ok (k_mem s) root free -> top a -> valid (k_mem s) root a = true -> PTE_FLAGS (pte_of (k_mem s) root a) <> PTE_V ->
  exists s', uvmunmap root a 1 false s = Ok tt s' /\ uvm_step root free s free s' /\
    forall x, va_ok x -> pte_of (k_mem s') root x = if decide (x / 4096 = a / 4096) then 0 else pte_of (k_mem s) root x.
Proof.
  intros K U T Va Fl. destruct (top_facts a T) as (Vo & Ma & Ux & A0 & A1). change MAXVA with 274877906944 in A1.
  destruct (valid_tbl _ _ _ Va) as (q & Tq & El). pose proof (uo_pt _ _ _ U) as Pt.
  destruct (set_leaf (k_mem s) root free a q 0 Pt Vo Tq) as (_ & _ & Q).
  exists (set_k_mem (mst64 (k_mem s) (slot q 2 a) 0) s). split; [|split; [|exact Q]].
  - unfold uvmunmap, PGSIZE. rewrite Ma. cbn [Z.eqb negb]. rewrite u64_small by lia. change (S (Z.to_nat 1)) with 2%nat. cbn [uvmunmap_loop].
    destruct (Z.ltb_spec a (a + 1 * 4096)); [|lia]. cbn [negb]. erewrite bind_ok; [|by apply walk_find]. rewrite Tq.
    destruct (pt_page _ _ _ Pt a 2 q) as [Pq _]; auto. pose proof (slot_pos q 2 a Pq ltac:(lia)). destruct (Z.eqb_spec (slot q 2 a) 0); [lia|].
    unfold ld64. kprim. rewrite El. unfold valid in Va. rewrite Va. cbn [negb]. apply Z.eqb_neq in Fl. rewrite Fl. cbn [when]. kprim. unfold st64. kprim.
    rewrite u64_small by (unfold PGSIZE; lia). unfold PGSIZE. destruct (Z.ltb_spec (a + 4096) (a + 1 * 4096)); [lia|]. reflexivity.
  - apply extends_step; [done|by apply extends_leaf|]. intros x V. ksimpl. rewrite Q by (by apply uva_va_ok). by rewrite decide_False by (by apply Ux).
Qed.

(** The entries of the trampoline and of the trapframe page at [tf]. *)
Definition tramp_pte : Z := Z.lor (Z.lor (PA2PTE trampoline) (Z.lor PTE_R PTE_X)) PTE_V.
Definition tf_pte (tf : Z) : Z := Z.lor (Z.lor (PA2PTE tf) (Z.lor PTE_R PTE_W)) PTE_V.

Definition top_pte (tf x : Z) : Z :=
  if decide (x / 4096 = TRAMPOLINE / 4096) then tramp_pte else if decide (x / 4096 = TRAPFRAME / 4096) then tf_pte tf else 0.

(** The trampoline and the trapframe are mapped, in the page above user memory. *)
Definition tops (m : memory) (root tf : Z) : Prop :=
  pte_of m root TRAMPOLINE = tramp_pte /\ pte_of m root TRAPFRAME = tf_pte tf.

Lemma tramp_leaf : has_bits tramp_pte PTE_V = true /\ PTE_FLAGS tramp_pte <> PTE_V.
Proof.
  destruct trampoline_ok as [Pa _]. unfold tramp_pte. rewrite <- Z.lor_assoc. split.
  - unfold PTE_V at 2. rewrite pte_bits by (done || (split; [done|reflexivity])). reflexivity.
  - rewrite PTE_FLAGS_PA2PTE by (done || (split; [done|reflexivity])). discriminate.
Qed.

Lemma tf_leaf tf : pa_ok tf -> has_bits (tf_pte tf) PTE_V = true /\ PTE_FLAGS (tf_pte tf) <> PTE_V.
Proof.
  intros Pa. unfold tf_pte. rewrite <- Z.lor_assoc. split.
  - unfold PTE_V at 2. rewrite pte_bits by (done || (split; [done|reflexivity])). reflexivity.
  - rewrite PTE_FLAGS_PA2PTE by (done || (split; [done|reflexivity])). discriminate.
Qed.

(** From [s] to [s'] pages moved between [ps] and the free list; no other memory changed. *)
Record pages_step (free : list Z) (s : kstate) (free' : list Z) (s' : kstate) (ps : Z -> Prop) : Prop := {
  ps_only : mem_only s s';
  ps_kmem : kmem_ok s' free';
  ps_own p : ps p \/ p ∈ free' <-> p ∈ free;
  ps_frame a : ~ within (.∈ free) a -> mget (k_mem s') a = mget (k_mem s) a }.

Lemma uvmfree_empty s root free :
  kmem_ok s free -> kmem_callable s -> uvm_ok (k_mem s) root free -> (forall x, va_ok x -> has_bits (pte_of (k_mem s) root x) PTE_V = false) ->
  exists s' free', uvmfree root 0 s = Ok tt s' /\ mem_only s s' /\ kmem_ok s' free' /\
    (forall p, p ∈ free' <-> owned (k_mem s) root p \/ p ∈ free) /\
    forall a, ~ within (fun p => owned (k_mem s) root p \/ p ∈ free) a -> mget (k_mem s') a = mget (k_mem s) a.
Proof.
  intros K C U N. apply uvmfree_ok; auto; [rewrite TRAPFRAME_eq; lia|change (PGROUNDUP 0) with 0; lia|]. intros x V _. by apply N.
Qed.

(** A space made of free pages and freed again. *)
Lemma made_and_freed root (free free1 : list Z) s0 s1 s2 :
  mem_only s0 s1 -> (forall p, owned (k_mem s1) root p \/ p ∈ free1 <-> p ∈ free) -> (forall a, ~ within (.∈ free) a -> mget (k_mem s1) a = mget (k_mem s0) a) ->
  (exists free', mem_only s1 s2 /\ kmem_ok s2 free' /\ (forall p, p ∈ free' <-> owned (k_mem s1) root p \/ p ∈ free1) /\
     forall a, ~ within (fun p => owned (k_mem s1) root p \/ p ∈ free1) a -> mget (k_mem s2) a = mget (k_mem s1) a) ->
  exists free', pages_step free s0 free' s2 (fun _ => False).
Proof.
  intros O1 W1 F1 (f' & O2 & K2 & W2 & F2). exists f'. split; [by etransitivity|done| |].
  - intros p. rewrite W2, W1. tauto.
  - intros a Na. rewrite F2, F1; [done..|]. intros (p & Hp & I). apply Na. exists p. split; [by apply W1|done].
Qed.

(** proc_pagetable: a space with the two top pages, or nothing. *)
Lemma proc_pagetable_ok i s free :
  kmem_ok s free -> kmem_callable s -> pa_ok (p_trapframe (proc_at i s)) -> p_trapframe (proc_at i s) + 4096 <= 2 ^ 56 ->
  let tf := p_trapframe (proc_at i s) in
  exists r s' free', proc_pagetable i s = Ok r s' /\
    (r <> 0 /\ pages_step free s free' s' (owned (k_mem s') r) /\ uvm_ok (k_mem s') r free' /\
       (forall x, va_ok x -> pte_of (k_mem s') r x = top_pte tf x) /\ (length free <= length free' + 5)%nat \/
     r = 0 /\ pages_step free s free' s' (fun _ => False) /\ (length free < 5)%nat).
Proof.
  intros K C Pa Pe tf. unfold proc_pagetable. destruct free as [|r free].
  { unfold uvmcreate. erewrite bind_ok; [|erewrite bind_ok; [|apply kalloc_none; auto; apply C]; reflexivity]. cbn [Z.eqb].
    exists 0, (settle s), []. split; [done|]. right. split; [done|]. split; [|cbn; lia].
    split; [exists (k_mem s), (k_freelist s); by right|done| |done]. intros p. split; [by intros [[]|?]|by right]. }
  (* The root, then the trampoline. *)
  destruct (uvmcreate_ok s r free K C) as (E1 & Nr & O1 & K1 & U1 & Q1 & W1 & F1). set (s1 := zeroed r s) in *.
  erewrite bind_ok; [|exact E1]. apply Z.eqb_neq in Nr as Nr'. rewrite Nr'.
  assert (C1 : kmem_callable s1) by (by eapply mem_only_callable).
  assert (Wr : forall p, owned (k_mem s1) r p \/ p ∈ free <-> p ∈ r :: free) by (intros p; rewrite W1, elem_of_cons; done).
  assert (Fr : forall a, ~ within (.∈ r :: free) a -> mget (k_mem s1) a = mget (k_mem s) a).
  { intros a Na. apply F1. intros I. apply Na. exists r. split; [apply list_elem_of_here|done]. }
  assert (Step : forall s2 f2, uvm_step r free s1 f2 s2 -> mem_only s s2 /\ kmem_callable s2 /\
    (forall p, owned (k_mem s2) r p \/ p ∈ f2 <-> p ∈ r :: free) /\ (forall a, ~ within (.∈ r :: free) a -> mget (k_mem s2) a = mget (k_mem s) a)).
  { intros s2 f2 X. split; [etransitivity; [exact O1|apply X]|]. split; [eapply mem_only_callable; [apply X|done]|]. split.
    - intros p. by rewrite (us_own _ _ _ _ _ X), Wr.
    - intros a Na. rewrite (us_frame _ _ _ _ _ X); [by apply Fr|]. intros (p & Hp & I). apply Na. exists p. split; [by apply Wr|done]. }
  destruct (map_top s1 r free TRAMPOLINE trampoline (Z.lor PTE_R PTE_X)) as (r2 & s2 & f2 & E2 & X2 & D2); auto;
    [by left|by rewrite Q1|apply trampoline_ok|destruct trampoline_ok as [_ ?]; destruct etext_range, kend_range; change (2 ^ 56) with 72057594037927936; unfold PHYSTOP, KERNBASE in *; lia|split; [done|reflexivity]|].
  destruct (Step s2 f2 X2) as (O2 & C2 & W2 & F2). erewrite bind_ok; [|exact E2].
  destruct D2 as [(-> & L2 & Q2)|(-> & L2 & Q2)]; cbn [Z.ltb Z.compare].
  2: { destruct (uvmfree_empty s2 r f2) as (s3 & f3 & E3 & Z3); [apply X2|done|apply X2|intros x V; by rewrite Q2, Q1 by done|].
       erewrite bind_ok; [|exact E3]. destruct (made_and_freed r (r :: free) f2 s s2 s3 O2 W2 F2) as (f' & Y); [by exists f3|].
       exists 0, s3, f'. split; [done|]. right. split; [done|]. split; [done|]. cbn [length]. lia. }
  (* The trapframe. *)
  unfold getp. kprim. assert (Ep : proc_at i s2 = proc_at i s) by (destruct O2 as (m' & f' & [-> | ->]); reflexivity). rewrite Ep. fold tf.
  assert (Nt : TRAPFRAME / 4096 <> TRAMPOLINE / 4096) by (vm_compute; discriminate).
  destruct (top_facts TRAPFRAME (or_intror eq_refl)) as (Vf & _), (top_facts TRAMPOLINE (or_introl eq_refl)) as (Vt & _).
  destruct (map_top s2 r f2 TRAPFRAME tf (Z.lor PTE_R PTE_W)) as (r3 & s3 & f3 & E3 & X3 & D3); auto;
    [apply X2|apply X2|by right|rewrite Q2 by exact Vf; rewrite decide_False by exact Nt; rewrite Q1; reflexivity|].
  destruct (Step s3 f3) as (O3 & C3 & W3 & F3); [by eapply uvm_step_trans|]. erewrite bind_ok; [|exact E3].
  destruct D3 as [(-> & L3 & Q3)|(-> & L3 & Q3)]; cbn [Z.ltb Z.compare].
  - exists r, s3, f3. split; [done|]. left. split; [done|]. split; [split; [done|apply X3|exact W3|exact F3]|]. split; [apply X3|]. split; [|cbn [length]; lia].
    intros x V. rewrite Q3, Q2, Q1 by exact V. unfold top_pte.
    destruct (decide (x / 4096 = TRAMPOLINE / 4096)) as [Ea|Na], (decide (x / 4096 = TRAPFRAME / 4096)) as [Eb|Nb]; [exfalso; apply Nt; congruence|reflexivity..].
  - pose proof tramp_leaf as [Tv Tl].
    assert (Qt : pte_of (k_mem s3) r TRAMPOLINE = tramp_pte) by (rewrite Q3, Q2 by exact Vt; by apply decide_True).
    destruct (unmap_top s3 r f3 TRAMPOLINE) as (s4 & E4 & X4 & Q4); [apply X3|apply X3|by left|unfold valid; by rewrite Qt|by rewrite Qt|].
    destruct (Step s4 f3) as (O4 & C4 & W4 & F4); [eapply uvm_step_trans; [by eapply uvm_step_trans|done]|]. erewrite bind_ok; [|exact E4].
    destruct (uvmfree_empty s4 r f3) as (s5 & f5 & E5 & Z5); [apply X4|done|apply X4| |].
    { intros x V. rewrite Q4 by exact V. case_decide as D; [reflexivity|]. rewrite Q3, Q2 by exact V. rewrite decide_False by exact D. rewrite Q1. reflexivity. }
    erewrite bind_ok; [|exact E5]. destruct (made_and_freed r (r :: free) f3 s s4 s5 O4 W4 F4) as (f' & Y); [by exists f5|].
    exists 0, s5, f'. split; [done|]. right. split; [done|]. split; [done|]. cbn [length]. lia.
Qed.

(** proc_freepagetable frees the whole space. *)
Lemma proc_freepagetable_ok s root free tf sz :
  kmem_ok s free -> kmem_callable s -> uvm_ok (k_mem s) root free -> 0 <= sz <= TRAPFRAME -> pa_ok tf -> tops (k_mem s) root tf ->
  (forall x, 0 <= x < PGROUNDUP sz -> valid (k_mem s) root x = true) ->
  (forall x, uva x -> PGROUNDUP sz <= x -> valid (k_mem s) root x = false) ->
  exists s' free', proc_freepagetable root sz s = Ok tt s' /\ mem_only s s' /\ kmem_ok s' free' /\
    (forall p, p ∈ free' <-> owned (k_mem s) root p \/ p ∈ free) /\
    forall a, ~ within (fun p => owned (k_mem s) root p \/ p ∈ free) a -> mget (k_mem s') a = mget (k_mem s) a.
Proof.
  intros K C U Hz Pa [T1 T2] Vs Nv. unfold proc_freepagetable. pose proof tramp_leaf as [Tv Tl]. pose proof (tf_leaf tf Pa) as [Fv Fl].
  assert (Nt : TRAPFRAME / 4096 <> TRAMPOLINE / 4096) by (vm_compute; discriminate). destruct (top_facts TRAPFRAME (or_intror eq_refl)) as (Vt & _).
  destruct (unmap_top s root free TRAMPOLINE) as (s1 & E1 & X1 & Q1); [done|done|by left|unfold valid; by rewrite T1|by rewrite T1|]. erewrite bind_ok; [|exact E1].
  assert (Q1t : pte_of (k_mem s1) root TRAPFRAME = tf_pte tf) by (rewrite Q1 by exact Vt; rewrite decide_False by exact Nt; exact T2).
  destruct (unmap_top s1 root free TRAPFRAME) as (s2 & E2 & X2 & Q2); [apply X1|apply X1|by right|unfold valid; by rewrite Q1t|by rewrite Q1t|]. erewrite bind_ok; [|exact E2].
  pose proof (uvm_step_trans _ _ _ _ _ _ _ X1 X2) as X.
  assert (Q : forall x, va_ok x -> pte_of (k_mem s2) root x = if decide (uva x) then pte_of (k_mem s) root x else 0).
  { intros x V. rewrite Q2, Q1 by done. destruct (decide (uva x)) as [Ux|Nx].
    - destruct (top_facts TRAPFRAME ltac:(by right)) as (_ & _ & H1 & _), (top_facts TRAMPOLINE ltac:(by left)) as (_ & _ & H2 & _). by rewrite !decide_False by auto.
    - destruct V as [V0 V1]. unfold uva in Nx. change TRAPFRAME with 274877898752 in *. change TRAMPOLINE with 274877902848. change MAXVA with 274877906944 in V1. repeat case_decide; try done. zlia. }
  assert (C2 : kmem_callable s2) by (eapply mem_only_callable; [apply X|done]). pose proof Hz as Hz'. rewrite TRAPFRAME_eq in Hz'. assert (Ew := PGROUNDUP_eq sz ltac:(lia)).
  destruct (uvmfree_ok s2 root free sz) as (s' & f' & E' & O' & K' & W' & F'); auto; [apply X|apply X|..].
  - intros x Hx. assert (Ux : uva x) by (unfold uva; rewrite TRAPFRAME_eq; zlia). unfold valid. rewrite Q, decide_True by (done || by apply uva_va_ok). by apply Vs.
  - intros x V Hx. unfold valid. rewrite Q by done. case_decide; [by apply Nv|done].
  - exists s', f'. split; [exact E'|]. split; [etransitivity; [apply X|done]|]. split; [done|]. split.
    + intros p. rewrite W'. apply X.
    + intros a Na. rewrite F'; [by apply X|]. intros (p & Hp & I). apply Na. exists p. split; [by apply (us_own _ _ _ _ _ X)|done].
Qed.
End ProcPages.
