(* ===== verification/ProcSpec.v ===== *)
(** * Behaviour of the process operations

    Equations for the operations of [Proc] that do not switch threads, and the state in
    which threads are switched: at every swtch, exactly the lock of the process in
    c->proc is held. *)

From S2P Require Import Prelude Memory Riscv State Kmonad Spinlock CString Kalloc Vm Proc.
From Stdlib Require Import ZArith Lia.
From stdpp Require Import base numbers list gmap strings option.

#[local] Open Scope Z_scope.
#[local] Open Scope kernel_scope.

(** ** Critical sections *)

Lemma push_settle s : cpu_ok s -> push_st (settle s) = push_st s.
Proof.
  intros (Hh & _ & Hs). unfold push_st, settle. kst_eq. rewrite list_alter_alter_eq.
  apply alter_ext_at. unfold compose, push_cpu, settle_cpu.
  destruct (k_cpus s !!! k_hart s) as [p n i]. cbn. destruct (Z.eqb_spec n 0) as [->|E]; [reflexivity|].
  cbn. apply Z.eqb_neq in E. by rewrite E.
Qed.

Lemma acq_settle l s : cpu_ok s -> acq_st l (settle s) = acq_st l s.
Proof. intros Hc. unfold acq_st. by rewrite push_settle. Qed.

Lemma acq_release l s : lock_free l s -> cpu_ok s -> release l (acq_st l s) = Ok tt (settle s).
Proof.
  intros Hl Hc. rewrite (release_acquired l s) by done. unfold acq_st, push_st, settle. by f_equal.
Qed.

Lemma acq_cpus l s : k_cpus (acq_st l s) = alter (push_cpu (k_sie s)) (k_hart s) (k_cpus s).
Proof. reflexivity. Qed.

Lemma acq_locks l s : k_locks (acq_st l s) = <[l := lk_held (k_hart s)]> (k_locks s).
Proof. reflexivity. Qed.

Lemma acq_sie l s : k_sie (acq_st l s) = false.
Proof. reflexivity. Qed.

Lemma acq_hart l s : k_hart (acq_st l s) = k_hart s.
Proof. reflexivity. Qed.

Lemma cpu_ok_acq l s : cpu_ok s -> cpu_ok (acq_st l s).
Proof. intros H. by apply cpu_ok_push in H as [? _]. Qed.

Lemma lock_free_acq l l' s : l <> l' -> lock_free l s -> lock_free l (acq_st l' s).
Proof. intros N H. unfold lock_free, acq_st. ksimpl. by rewrite lookup_insert_ne. Qed.

Lemma noff_acq l s : cpu_ok s -> noff (acq_st l s) = noff s + 1.
Proof. intros H. by apply cpu_ok_push in H as [_ ?]. Qed.

Lemma settle_acq l s : cpu_ok s -> settle (acq_st l s) = acq_st l s.
Proof.
  intros H. apply settle_nested. rewrite noff_acq by done. destruct H as (_ & ? & _). lia.
Qed.

Lemma my_settle s : cpu_ok s -> my (settle s) = settle_cpu (k_sie s) (my s).
Proof. intros (H & _). unfold settle. by rewrite my_upd. Qed.

Lemma c_proc_settle s : cpu_ok s -> c_proc (my (settle s)) = c_proc (my s).
Proof. intros H. rewrite my_settle by done. unfold settle_cpu. by destruct (c_noff (my s) =? 0). Qed.

Section ProcSpec.
Context `{L : KernelLayout}.

Lemma myproc_eq s : cpu_ok s -> myproc s = Ok (c_proc (my s)) (settle s).
Proof.
  intros Hc. unfold myproc. kstep push_off_eq. unfold mycpu, cpuid. do 2 kprim.
  destruct (cpu_ok_push s Hc) as [(H1 & H2 & H3) Hn]. destruct Hc as (Hh & H0 & Hs).
  erewrite bind_ok; [|apply pop_off_eq; [done|lia|done]].
  rewrite pop_push_st by done. unfold ret. apply ok_eq; [|done].
  unfold push_st. ksimpl. by rewrite list_lookup_total_alter_eq.
Qed.

Lemma curproc_eq s p : cpu_ok s -> c_proc (my s) = Some p -> curproc s = Ok p (settle s).
Proof. intros Hc Hp. unfold curproc. kstep myproc_eq. by rewrite Hp. Qed.

(** ** Searching the table *)

(** Process locks that are free. *)
Definition plocks_free (s : kstate) : Prop := forall i, (i < NPROC)%nat -> lock_free (L_proc i) s.

Lemma plocks_settle s : plocks_free s -> plocks_free (settle s).
Proof. intros H i Hi. by apply H. Qed.

(** A scan that locks each process in turn and stops at the first that [f] accepts. *)
Lemma find_proc_scan_eq pid l s :
  cpu_ok s -> (forall i, i ∈ l -> lock_free (L_proc i) s) ->
  find_proc_scan pid l s =
    match List.find (fun i => bool_decide (p_pid (proc_at i s) = pid /\ p_state (proc_at i s) <> UNUSED)) l with
    | Some i => Ok (Some i) (acq_st (L_proc i) s)
    | None => Ok None (match l with [] => s | _ => settle s end)
    end.
Proof.
  intros Hc. revert s Hc. induction l as [|i l IH]; intros s Hc Hl; [done|].
  cbn [find_proc_scan List.find]. erewrite bind_ok; [|apply acquire_eq, Hl; by left]. kprim.
  change (proc_at i (acq_st (L_proc i) s)) with (proc_at i s).
  case_bool_decide; [done|]. erewrite bind_ok; [|apply acq_release; [apply Hl; by left|done]].
  rewrite IH; [|by apply cpu_ok_settle|intros j Hj; apply Hl; by right].
  change (fun i0 : nat => bool_decide (p_pid (proc_at i0 (settle s)) = pid /\ p_state (proc_at i0 (settle s)) <> UNUSED))
    with (fun i0 : nat => bool_decide (p_pid (proc_at i0 s) = pid /\ p_state (proc_at i0 s) <> UNUSED)).
  destruct (List.find _ l) as [j|]; [by rewrite acq_settle|].
  destruct l; [done|]. by rewrite settle_idemp.
Qed.

(** The process that a pid names: the first one in the table that is in use. *)
Definition lookup_pid (pid : Z) (s : kstate) : option nat :=
  List.find (fun i => bool_decide (p_pid (proc_at i s) = pid /\ p_state (proc_at i s) <> UNUSED)) (seq 0 NPROC).

Lemma find_proc_eq pid s :
  cpu_ok s -> plocks_free s ->
  find_proc pid s =
    match lookup_pid pid s with
    | Some i => Ok (Some i) (acq_st (L_proc i) s)
    | None => Ok None (settle s)
    end.
Proof.
  intros Hc Hl. unfold find_proc. rewrite find_proc_scan_eq; [done|done|].
  intros i Hi. apply Hl. apply elem_of_seq in Hi. lia.
Qed.

Lemma lookup_pid_some pid s i :
  lookup_pid pid s = Some i -> (i < NPROC)%nat /\ p_pid (proc_at i s) = pid /\ p_state (proc_at i s) <> UNUSED.
Proof.
  intros E. apply List.find_some in E as [Hi E]. apply bool_decide_eq_true in E.
  apply List.in_seq in Hi. split; [lia|done].
Qed.

End ProcSpec.
