(* ===== verification/CoYield.v ===== *)
(** * co_yield (kernel/proc.c)

    Every outcome of a co_yield call: which calls fail, the state in which the others
    switch directly to the peer, and what they return when they are resumed. *)

From S2P Require Import Prelude Memory Riscv State Kmonad Spinlock CString Kalloc Vm Proc ProcSpec.
From Stdlib Require Import ZArith Lia.
From stdpp Require Import base numbers list gmap strings option.

#[local] Open Scope Z_scope.
#[local] Open Scope kernel_scope.

(** Process [p] runs in the kernel with no process lock held. *)
Record running (p : nat) (s : kstate) : Prop := {
  ru_cpu : cpu_ok s;
  ru_cur : c_proc (my s) = Some p;
  ru_idx : (p < NPROC)%nat;
  ru_tab : length (k_procs s) = NPROC;
  ru_locks : plocks_free s }.

(** A thread is being switched to: the lock of process [p] is held, and no other critical
    section is open. *)
Record handover (p : nat) (s : kstate) : Prop := {
  ho_cpu : (k_hart s < length (k_cpus s))%nat;
  ho_cur : c_proc (my s) = Some p;
  ho_noff : noff s = 1;
  ho_sie : k_sie s = false;
  ho_lock : lock_mine (L_proc p) s;
  ho_idx : (p < NPROC)%nat;
  ho_tab : length (k_procs s) = NPROC;
  ho_locks i : (i < NPROC)%nat -> i <> p -> lock_free (L_proc i) s }.

Lemma running_mem p m s : running p s -> running p (set_k_mem m s).
Proof. intros []. by split. Qed.

Lemma noff_mem m s : noff (set_k_mem m s) = noff s.
Proof. reflexivity. Qed.

(** ** The decision *)

Inductive verdict := CoFail | CoMeet (t : nat) | CoFirst (t : nat).

(** What co_yield(pid, _) called by process [p] does: fail, meet a peer that waits for
    [p], or be the first of the pair to arrive. *)
Definition co_decide (p : nat) (pid : Z) (s : kstate) : verdict :=
  if (pid <=? 0) || (pid =? p_pid (proc_at p s)) then CoFail else
  match lookup_pid pid s with
  | None => CoFail
  | Some t =>
      let q := proc_at t s in
      if truth (p_killed q) || bool_decide (p_state q = ZOMBIE) || truth (p_killed (proc_at p s))
      then CoFail
      else match p_state q with
           | SLEEPING => if decide (p_chan q = co_chan p) then CoMeet t else CoFail
           | RUNNABLE => CoFirst t
           | _ => CoFail
           end
  end.

(** ** The state in which the switch happens *)

(** The registers the two processes exchange.  The caller stores its value and, if the
    peer is waiting, takes the peer's value; a waiting peer takes the caller's value only
    if its return register still holds -1. *)
Definition meet_mem (tfp tft value : Z) (m : memory) : memory :=
  let m1 := mst64 m (tfp + TF_a1) (u64 value) in
  let m2 := mst64 m1 (tfp + TF_a0) (mld64 m1 (tft + TF_a1)) in
  if mld64 m2 (tft + TF_a0) =? u64 (-1) then mst64 m2 (tft + TF_a0) (u64 value) else m2.

Definition first_mem (tfp value : Z) (m : memory) : memory :=
  mst64 (mst64 m (tfp + TF_a1) (u64 value)) (tfp + TF_a0) (u64 (-1)).

(** [p] sleeps on the peer's private channel, [t] runs. *)
Definition co_park (t : nat) (q : proc) : proc := set_p_state SLEEPING (set_p_chan (co_chan t) q).
Definition co_wake (q : proc) : proc := set_p_chan CH_null (set_p_state RUNNING q).

Definition handoff (m : memory) (procs : list proc) (t : nat) (s : kstate) : kstate :=
  set_k_mem m (set_k_procs procs (upd_cpu (k_hart s) (set_c_proc (Some t)) (acq_st (L_proc t) s))).

Definition meet_st (p t : nat) (value : Z) (s : kstate) : kstate :=
  handoff (meet_mem (p_trapframe (proc_at p s)) (p_trapframe (proc_at t s)) value (k_mem s))
    (alter co_wake t (alter (co_park t) p (k_procs s))) t s.

Definition first_st (p t : nat) (value : Z) (s : kstate) : kstate :=
  handoff (first_mem (p_trapframe (proc_at p s)) value (k_mem s))
    (alter (set_p_state RUNNING) t (alter (co_park t) p (k_procs s))) t s.

(** What the rest of co_yield does when the caller is resumed. *)
Definition co_resume (p : nat) (s : kstate) : res Z :=
  Ok (i32 (mld64 (k_mem s) (p_trapframe (proc_at p s) + TF_a0)))
     (rel_st (L_proc p) (upd_proc p (set_p_chan CH_null) s)).

(** ** Lemmas *)

(** Leaving an inner critical section in which c->proc was set. *)
Lemma release_inner l o s s' :
  lock_free l s -> cpu_ok s -> 0 < noff s -> k_hart s' = k_hart s -> k_sie s' = false ->
  k_cpus s' = alter (set_c_proc o) (k_hart s) (k_cpus (acq_st l s)) ->
  k_locks s' = k_locks (acq_st l s) ->
  release l s' = Ok tt (set_k_cpus (alter (set_c_proc o) (k_hart s) (k_cpus s)) (set_k_locks (k_locks s) s')).
Proof.
  intros Hl (Hh & Hn & Hs) Hpos Eh Es Ec El.
  assert (My : my s' = set_c_proc o (push_cpu (k_sie s) (my s))).
  { unfold my. rewrite Ec, Eh. unfold acq_st, push_st. ksimpl.
    by rewrite !list_lookup_total_alter_eq by (rewrite ?length_alter; done). }
  assert (Nf : noff s' = noff s + 1) by (unfold noff; by rewrite My).
  rewrite release_eq.
  - f_equal. unfold rel_st, pop_st. kst_eq.
    + rewrite Nf, Es, orb_false_r. by destruct (Z.eqb_spec (noff s + 1) 1); [lia|].
    + rewrite Ec, Eh. unfold acq_st, push_st. ksimpl. rewrite !list_alter_alter_eq. apply alter_ext_at.
      unfold compose, pop_cpu, push_cpu, set_c_proc. unfold noff, my in *.
      destruct (k_cpus s !!! k_hart s) as [x n i]. cbn in *.
      destruct (Z.eqb_spec n 0); [lia|]. f_equal. lia.
    + rewrite El. unfold acq_st. ksimpl. rewrite insert_insert_eq. by apply insert_id.
  - unfold lock_mine. rewrite El, Eh. unfold acq_st. ksimpl. apply lookup_insert_eq.
  - rewrite Eh, Ec. unfold acq_st, push_st. ksimpl. by rewrite !length_alter.
  - lia.
  - done.
Qed.

Section CoYield.
Context `{L : KernelLayout}.

Lemma lookup_pid_other p pid s t :
  (pid =? p_pid (proc_at p s)) = false -> lookup_pid pid s = Some t -> t <> p.
Proof. intros N E ->. apply lookup_pid_some in E as (_ & E & _). rewrite E, Z.eqb_refl in N. done. Qed.

(** Resuming after swtch. *)
Lemma co_resume_eq p s :
  handover p s ->
  res_bind (Ok tt s) (fun _ => let! r := ld_tf p TF_a0 in
    setp p (set_p_chan CH_null) ;! release (L_proc p) ;! ret (i32 r)) = co_resume p s.
Proof.
  intros H. cbn [res_bind]. unfold ld_tf, getp. do 2 kprim.
  erewrite bind_ok; [|apply release_eq; [apply H|apply H| |apply H]]; [reflexivity|].
  pose proof (ho_noff _ _ H) as N. unfold noff, my in *. ksimpl. lia.
Qed.

Lemma co_switch_eq p t m procs s :
  running p s -> (t < NPROC)%nat -> t <> p ->
  let s1 := acq_st (L_proc p) (acq_st (L_proc t) s) in
  exists k,
    co_switch p t (set_k_mem m (set_k_procs procs (upd_cpu (k_hart s) (set_c_proc (Some t)) s1))) =
      Swtch (CtxProc p) (CtxProc t) (handoff m procs t s) k /\
    forall s', handover p s' -> k s' = co_resume p s'.
Proof.
  intros R Ht N s1. destruct R as [Hc Hp Hi Htab Hl].
  assert (Hlp : lock_free (L_proc p) (acq_st (L_proc t) s)) by (apply lock_free_acq; [congruence|by apply Hl]).
  eexists. split.
  - unfold co_switch. erewrite bind_ok.
    2: { apply (release_inner (L_proc p) (Some t) (acq_st (L_proc t) s)); try done.
         - by apply cpu_ok_acq.
         - rewrite noff_acq by done. destruct Hc as (_ & ? & _). lia. }
    unfold swtch. erewrite bind_swtch; [|reflexivity]. reflexivity.
  - intros s' H. cbn beta. by apply co_resume_eq.
Qed.

Lemma running_settle p s : running p s -> running p (settle s).
Proof.
  intros [Hc Hp Hi Ht Hl]. split; auto; [by apply cpu_ok_settle|by rewrite c_proc_settle].
Qed.

(** Giving up after the peer was locked. *)
Lemma back_out p t s :
  running p s -> (t < NPROC)%nat ->
  (release (L_proc t) ;! ret (-1)) (acq_st (L_proc t) s) = Ok (-1) (settle s).
Proof. intros R Ht. erewrite bind_ok; [|apply acq_release; apply R; auto]. reflexivity. Qed.

(** Giving up after both were locked. *)
Lemma back_out2 p t s :
  running p s -> (t < NPROC)%nat -> t <> p ->
  (release (L_proc p) ;! release (L_proc t) ;! ret (-1)) (acq_st (L_proc p) (acq_st (L_proc t) s)) =
    Ok (-1) (settle s).
Proof.
  intros R Ht N. pose proof R as [Hc _ Hi _ Hl]. erewrite bind_ok.
  2: { apply acq_release; [apply lock_free_acq; [congruence|by apply Hl]|by apply cpu_ok_acq]. }
  rewrite settle_acq by done. by eapply back_out.
Qed.

(** The rest of co_yield once both processes are locked, in the two cases. *)
Lemma co_meet_eq p t value s :
  running p s -> (t < NPROC)%nat -> t <> p ->
  exists k,
    (st_tf p TF_a1 (u64 value) ;!
     let! ta1 := ld_tf t TF_a1 in
     st_tf p TF_a0 ta1 ;!
     let! ta0 := ld_tf t TF_a0 in
     when (ta0 =? u64 (-1)) (st_tf t TF_a0 (u64 value)) ;!
     setp p (set_p_chan (co_chan t)) ;!
     setp p (set_p_state SLEEPING) ;!
     setp t (set_p_state RUNNING) ;!
     setp t (set_p_chan CH_null) ;!
     let! c := mycpu in
     modify (upd_cpu c (set_c_proc (Some t))) ;!
     co_switch p t) (acq_st (L_proc p) (acq_st (L_proc t) s)) =
      Swtch (CtxProc p) (CtxProc t) (meet_st p t value s) k /\
    forall s', handover p s' -> k s' = co_resume p s'.
Proof.
  intros R Ht N.
  destruct (co_switch_eq p t (meet_mem (p_trapframe (proc_at p s)) (p_trapframe (proc_at t s)) value (k_mem s))
    (alter co_wake t (alter (co_park t) p (k_procs s))) s R Ht N) as (k & E & Hk).
  exists k. split; [|done]. unfold meet_st. rewrite <- E. unfold st_tf, ld_tf, getp, setp, mycpu, cpuid.
  unfold acq_st, push_st. do 4 kprim. unfold meet_mem, proc_at. ksimpl.
  destruct (mld64 _ (_ + TF_a0) =? u64 (-1)); cbn [when]; do 7 kprim;
    f_equal; kst_eq; by rewrite !list_alter_alter_eq.
Qed.

Lemma co_first_eq p t value s :
  running p s -> (t < NPROC)%nat -> t <> p ->
  exists k,
    (st_tf p TF_a1 (u64 value) ;!
     st_tf p TF_a0 (u64 (-1)) ;!
     setp p (set_p_chan (co_chan t)) ;!
     setp p (set_p_state SLEEPING) ;!
     setp t (set_p_state RUNNING) ;!
     let! c := mycpu in
     modify (upd_cpu c (set_c_proc (Some t))) ;!
     co_switch p t) (acq_st (L_proc p) (acq_st (L_proc t) s)) =
      Swtch (CtxProc p) (CtxProc t) (first_st p t value s) k /\
    forall s', handover p s' -> k s' = co_resume p s'.
Proof.
  intros R Ht N.
  destruct (co_switch_eq p t (first_mem (p_trapframe (proc_at p s)) value (k_mem s))
    (alter (set_p_state RUNNING) t (alter (co_park t) p (k_procs s))) s R Ht N) as (k & E & Hk).
  exists k. split; [|done]. unfold first_st. rewrite <- E. unfold st_tf, getp, setp, mycpu, cpuid.
  unfold acq_st, push_st. do 7 kprim. unfold first_mem, proc_at. ksimpl. f_equal. kst_eq.
  by rewrite !list_alter_alter_eq.
Qed.

Lemma co_yield_run p pid value s :
  running p s ->
  match co_decide p pid s with
  | CoFail => co_yield pid value s = Ok (-1) (settle s)
  | CoMeet t => exists k,
      co_yield pid value s = Swtch (CtxProc p) (CtxProc t) (meet_st p t value s) k /\
      forall s', handover p s' -> k s' = co_resume p s'
  | CoFirst t => exists k,
      co_yield pid value s = Swtch (CtxProc p) (CtxProc t) (first_st p t value s) k /\
      forall s', handover p s' -> k s' = co_resume p s'
  end.
Proof.
  intros R. pose proof R as [Hc Hp Hi Htab Hl]. unfold co_decide.
  remember (co_yield pid value s) as r eqn:Er. unfold co_yield in Er.
  erewrite bind_ok in Er; [|by apply curproc_eq]. erewrite bind_ok in Er; [|reflexivity].
  change (proc_at p (settle s)) with (proc_at p s) in Er.
  destruct ((pid <=? 0) || (pid =? p_pid (proc_at p s))) eqn:Eb; [done|].
  apply orb_false_elim in Eb as [_ Eb].
  assert (Ef := find_proc_eq pid (settle s) (cpu_ok_settle s Hc) Hl).
  change (lookup_pid pid (settle s)) with (lookup_pid pid s) in Ef. unfold bind at 1 in Er. rewrite Ef in Er.
  destruct (lookup_pid pid s) as [t|] eqn:El; cbn [res_bind] in Er; [|by rewrite settle_idemp in Er].
  rewrite acq_settle in Er by done. pose proof (lookup_pid_other _ _ _ _ Eb El) as N.
  apply lookup_pid_some in El as (Ht & _ & Hu). erewrite bind_ok in Er; [|reflexivity].
  change (proc_at t (acq_st (L_proc t) s)) with (proc_at t s) in Er.
  rewrite (bool_decide_false (p_state (proc_at t s) = UNUSED)), orb_false_r in Er by done.
  assert (G := back_out p t s R Ht). assert (G2 := back_out2 p t s R Ht N).
  destruct (truth (p_killed (proc_at t s)) || bool_decide (p_state (proc_at t s) = ZOMBIE)) eqn:Ek;
    cbn [orb]; [by rewrite Er|].
  apply orb_false_elim in Ek as [_ Ez]. apply bool_decide_eq_false in Ez.
  assert (Eacq : acquire (L_proc p) (acq_st (L_proc t) s) = Ok tt (acq_st (L_proc p) (acq_st (L_proc t) s))).
  { apply acquire_eq, lock_free_acq; [congruence|by apply Hl]. }
  destruct (decide (p_state (proc_at t s) = SLEEPING)) as [Es|Es].
  - rewrite Es. case_bool_decide as Ec; cbn [negb] in Er.
    + erewrite bind_ok in Er; [|exact Eacq]. erewrite bind_ok in Er; [|reflexivity].
      change (proc_at p (acq_st (L_proc p) (acq_st (L_proc t) s))) with (proc_at p s) in Er.
      destruct (truth (p_killed (proc_at p s))); [by rewrite Er|].
      rewrite decide_True, Er by done. by apply co_meet_eq.
    + destruct (truth (p_killed (proc_at p s))); [by rewrite Er|].
      rewrite decide_False by done. by rewrite Er.
  - case_bool_decide as Ec; cbn [negb] in Er.
    + erewrite bind_ok in Er; [|exact Eacq]. erewrite bind_ok in Er; [|reflexivity].
      change (proc_at p (acq_st (L_proc p) (acq_st (L_proc t) s))) with (proc_at p s) in Er.
      rewrite Ec, Er. destruct (truth (p_killed (proc_at p s))); [done|]. by apply co_first_eq.
    + destruct (truth (p_killed (proc_at p s))); [by rewrite Er|].
      destruct (p_state (proc_at t s)); try done; by rewrite Er.
Qed.

(** ** Switching discipline *)

Lemma proc_at_alter_eq i f l :
  (i < length l)%nat -> alter f i l !!! i = f ((l : list proc) !!! i).
Proof. apply list_lookup_total_alter_eq. Qed.

(** The switch hands over to the peer: the state is one in which [t] can resume. *)
Lemma handoff_handover p t m procs s :
  running p s -> noff s = 0 -> (t < NPROC)%nat -> length procs = NPROC ->
  handover t (handoff m procs t s).
Proof.
  intros [Hc Hp Hi Htab Hl] N Ht Hlen. pose proof Hc as (Hh & _ & _).
  assert (My : my (handoff m procs t s) = set_c_proc (Some t) (push_cpu (k_sie s) (my s))).
  { unfold my, handoff, acq_st, push_st. ksimpl.
    by rewrite !list_lookup_total_alter_eq by (rewrite ?length_alter; done). }
  split; try done.
  - unfold handoff, acq_st, push_st. ksimpl. by rewrite !length_alter.
  - by rewrite My.
  - unfold noff in *. rewrite My. cbn. lia.
  - unfold lock_mine, handoff, acq_st. ksimpl. apply lookup_insert_eq.
  - intros i Hi' Ni. unfold lock_free, handoff, acq_st. ksimpl. rewrite lookup_insert_ne by congruence.
    by apply Hl.
Qed.

Lemma handover_upd p i f s : handover p s -> handover p (upd_proc i f s).
Proof. intros []. split; try done. ksimpl. by rewrite length_alter. Qed.

(** A resumed process runs with all process locks free, at depth 0. *)
Lemma released p s : handover p s -> running p (rel_st (L_proc p) s) /\ noff (rel_st (L_proc p) s) = 0.
Proof.
  intros H. pose proof (ho_cpu _ _ H) as Hh.
  assert (My : my (rel_st (L_proc p) s) = pop_cpu (my s)).
  { unfold my, rel_st, pop_st. ksimpl. by rewrite list_lookup_total_alter_eq. }
  assert (N : noff (rel_st (L_proc p) s) = 0).
  { unfold noff. rewrite My. cbn. pose proof (ho_noff _ _ H) as E. unfold noff in E. lia. }
  split; [|done]. split.
  - split; [|split; [lia|lia]]. unfold rel_st, pop_st. ksimpl. by rewrite length_alter.
  - rewrite My. apply H.
  - apply H.
  - apply H.
  - intros i Hi. unfold lock_free, rel_st. ksimpl.
    destruct (decide (i = p)) as [->|Ni]; [apply lookup_insert_eq|].
    rewrite lookup_insert_ne by congruence. by apply H.
Qed.

Lemma released_running p f s :
  handover p s ->
  let s' := rel_st (L_proc p) (upd_proc p f s) in running p s' /\ noff s' = 0.
Proof. intros H. by apply released, handover_upd. Qed.

Lemma co_decide_target p pid s t :
  co_decide p pid s = CoMeet t \/ co_decide p pid s = CoFirst t ->
  (t < NPROC)%nat /\ t <> p /\ lookup_pid pid s = Some t.
Proof.
  unfold co_decide. destruct (_ || _) eqn:E; [by intros []|]. apply orb_false_elim in E as [_ E].
  destruct (lookup_pid pid s) as [t'|] eqn:El; [|by intros []]. intros D.
  assert (t' = t) as ->.
  { destruct (_ || _ || _); [by destruct D|].
    destruct (p_state (proc_at t' s)), D, (decide (p_chan (proc_at t' s) = co_chan p)); congruence. }
  split; [by apply lookup_pid_some in El as [? _]|]. split; [by eapply lookup_pid_other|done].
Qed.

(** C2: co_yield has exactly three outcomes.  It returns -1, with nothing changed, when the
    pid is not positive or the caller's own, when no process has it, when the peer is
    killed, a zombie, asleep on anything but the caller, or neither runnable nor asleep,
    and when the caller is killed.  Otherwise it switches directly to the peer's context,
    never to the scheduler's: the caller is then asleep on the peer's private channel, the
    peer is the process of this cpu, and the peer's lock is the only process lock held.
    When the caller is resumed in such a state, co_yield returns its return register and
    the caller runs with every process lock free. *)
Theorem co_yield_outcomes p pid value s :
  running p s -> noff s = 0 ->
  match co_decide p pid s with
  | CoFail => co_yield pid value s = Ok (-1) (settle s)
  | CoMeet t | CoFirst t => exists s1 k,
      co_yield pid value s = Swtch (CtxProc p) (CtxProc t) s1 k /\ handover t s1 /\
      (s1 = meet_st p t value s \/ s1 = first_st p t value s) /\
      p_state (proc_at p s1) = SLEEPING /\ p_chan (proc_at p s1) = co_chan t /\
      p_state (proc_at t s1) = RUNNING /\
      forall s', handover p s' -> exists s2,
        k s' = Ok (i32 (mld64 (k_mem s') (p_trapframe (proc_at p s') + TF_a0))) s2 /\
        running p s2 /\ noff s2 = 0 /\ p_chan (proc_at p s2) = CH_null
  end.
Proof.
  intros R N0. pose proof (co_yield_run p pid value s R) as E. pose proof R as [_ _ Hi Htab _].
  assert (Hk : forall k, (forall s', handover p s' -> k s' = co_resume p s') ->
    forall s', handover p s' -> exists s2,
      k s' = Ok (i32 (mld64 (k_mem s') (p_trapframe (proc_at p s') + TF_a0))) s2 /\
      running p s2 /\ noff s2 = 0 /\ p_chan (proc_at p s2) = CH_null).
  { intros k Hk s' H. rewrite Hk by done. eexists. split; [reflexivity|].
    destruct (released_running p (set_p_chan CH_null) s' H) as [R' N']. split; [done|]. split; [done|].
    unfold proc_at, rel_st, pop_st. ksimpl. rewrite proc_at_alter_eq; [done|].
    rewrite (ho_tab _ _ H). apply H. }
  destruct (co_decide p pid s) as [|t|t] eqn:D; [done|..]; destruct E as (k & E & K);
    destruct (co_decide_target p pid s t ltac:(auto)) as (Ht & Nt & _);
    eexists _, k; (split; [exact E|]);
    (split; [apply (handoff_handover p); try done; by rewrite !length_alter|]);
    (split; [by auto|]); unfold proc_at, meet_st, first_st, handoff; ksimpl;
    rewrite (list_lookup_total_alter_ne _ _ t p), !list_lookup_total_alter_eq
      by (rewrite ?length_alter, ?Htab; done); eauto.
Qed.

End CoYield.
