(* ===== verification/Coroutine.v ===== *)
(** * Two processes exchanging values with co_yield

    Two processes that call co_yield on each other, with arbitrary values: a small machine
    that runs their system calls and switches between them as swtch directs, and the
    sequences of values the two receive. *)

From S2P Require Import Prelude Memory Riscv State Kmonad Spinlock CString Kalloc Vm Proc ProcSpec.
From S2P Require Import CoYield.
From Stdlib Require Import ZArith Lia.
From stdpp Require Import base numbers list gmap strings option.

#[local] Open Scope Z_scope.
#[local] Open Scope kernel_scope.

(** The system call co_yield(pid, v) of process [p]: uservec saves the argument registers
    in the trapframe, sys_co_yield calls co_yield with them, and syscall stores the result
    in a0. *)
Definition co_call (p : nat) (pid v : Z) : M Z :=
  st_tf p TF_a0 (u64 pid) ;!
  st_tf p TF_a1 (u64 v) ;!
  let! a0 := ld_tf p TF_a0 in
  let! a1 := ld_tf p TF_a1 in
  let! r := co_yield (i32 a0) (i32 a1) in
  st_tf p TF_a0 (u64 r) ;!
  ret r.

(** What a suspended process does when it is switched to: go on with the system call it
    is in, or with user code ([None]). *)
Definition thread := kstate -> res (option Z).

Definition call_thread (k : kstate -> res Z) : thread := fun s => res_bind (k s) (fun r => ret (Some r)).

(** [me] runs and sends the values [mine] to [peer], [peer] is suspended in [kpeer] and
    still has to send [theirs]; the lists give what each receives until the running
    process has nothing left to send. *)
Fixpoint exchange (fuel : nat) (me peer : nat) (pme ppeer : Z) (mine theirs : list Z)
    (kpeer : thread) (s : kstate) : option (list Z * list Z) :=
  match fuel, mine with
  | O, _ => None
  | _, [] => Some ([], [])
  | S fuel', v :: mine' =>
      match co_call me ppeer v s with
      | Ok r s' =>
          '(g, h) ← exchange fuel' me peer pme ppeer mine' theirs kpeer s'; Some (r :: g, h)
      | Swtch (CtxProc a) (CtxProc b) s' k =>
          if decide (a = me /\ b = peer) then
            match kpeer s' with
            | Ok got s2 =>
                '(h, g) ← exchange fuel' peer me ppeer pme theirs mine' (call_thread k) s2;
                Some (g, match got with Some r => r :: h | None => h end)
            | _ => None
            end
          else None
      | _ => None
      end
  end.

(** Values a program may send: positive, as the interface asks. *)
Definition sendable (v : Z) : Prop := 0 < v < 2147483648.

Lemma sendable_i32 v : sendable v -> i32 (u64 v) = v.
Proof. intros H. rewrite i32_u64. apply i32_small. unfold sendable in H. lia. Qed.

(** [x] runs, [y] is suspended in co_yield waiting for [x]: its return register holds [w]
    (-1 while nothing has been delivered) and its last sent value is [last]. *)
Record turn (x y : nat) (px py w last : Z) (s : kstate) : Prop := {
  tu_run : running x s;
  tu_noff : noff s = 0;
  tu_y : (y < NPROC)%nat;
  tu_ne : x <> y;
  tu_px : sendable px;
  tu_py : sendable py;
  tu_pid : p_pid (proc_at x s) = px;
  tu_pne : px <> py;
  tu_lx : lookup_pid px s = Some x;
  tu_ly : lookup_pid py s = Some y;
  tu_kx : p_killed (proc_at x s) = 0;
  tu_ky : p_killed (proc_at y s) = 0;
  tu_state : p_state (proc_at y s) = SLEEPING;
  tu_chan : p_chan (proc_at y s) = co_chan x;
  tu_tf : p_trapframe (proc_at x s) + TF_size <= p_trapframe (proc_at y s) \/
          p_trapframe (proc_at y s) + TF_size <= p_trapframe (proc_at x s);
  tu_a0 : mld64 (k_mem s) (p_trapframe (proc_at y s) + TF_a0) = u64 w;
  tu_a1 : mld64 (k_mem s) (p_trapframe (proc_at y s) + TF_a1) = u64 last }.

Lemma lookup_pid_ext pid s s' :
  (forall i, (i < NPROC)%nat -> p_pid (proc_at i s') = p_pid (proc_at i s) /\
     (p_state (proc_at i s') = UNUSED <-> p_state (proc_at i s) = UNUSED)) ->
  lookup_pid pid s' = lookup_pid pid s.
Proof.
  intros H. unfold lookup_pid. 
  assert (Hl : forall i, In i (seq 0 NPROC) -> (i < NPROC)%nat) by (intros i Hi; apply List.in_seq in Hi; lia).
  induction (seq 0 NPROC) as [|i l IH]; [done|]. cbn [List.find].
  destruct (H i (Hl i (or_introl eq_refl))) as [E1 E2]. rewrite E1.
  rewrite (bool_decide_ext (p_pid (proc_at i s) = pid /\ p_state (proc_at i s') <> UNUSED)
    (p_pid (proc_at i s) = pid /\ p_state (proc_at i s) <> UNUSED)) by (rewrite E2; done).
  rewrite IH; [done|]. intros j Hj. apply Hl. by right.
Qed.

Section Coroutine.
Context `{L : KernelLayout}.

(** ** The system call *)

Definition with_args (p : nat) (pid v : Z) (s : kstate) : kstate :=
  let tf := p_trapframe (proc_at p s) in
  set_k_mem (mst64 (mst64 (k_mem s) (tf + TF_a0) (u64 pid)) (tf + TF_a1) (u64 v)) s.

Lemma u64_idemp x : u64 (u64 x) = u64 x.
Proof. apply u64_small, u64_range. Qed.

Lemma co_call_args p pid v s :
  sendable pid -> sendable v ->
  co_call p pid v s =
    (let! r := co_yield pid v in st_tf p TF_a0 (u64 r) ;! ret r) (with_args p pid v s).
Proof.
  intros Hp Hv. unfold co_call, st_tf at 1 2, ld_tf, getp. do 4 kprim.
  unfold proc_at. ksimpl. unfold TF_a0, TF_a1.
  rewrite mld64_mst64_same, (mld64_mst64_out _ _ _ (_ + 112)), mld64_mst64_same by lia.
  rewrite !u64_idemp, !sendable_i32 by done. reflexivity.
Qed.

(** ** Registers *)

Definition tf_apart (f g : Z) : Prop := f + TF_size <= g \/ g + TF_size <= f.

Ltac tf_out := rewrite mld64_mst64_out by (unfold tf_apart, TF_size, TF_a0, TF_a1 in *; lia).

Lemma meet_mem_regs f g v m :
  tf_apart f g -> let m' := meet_mem f g v m in
  mld64 m' (f + TF_a0) = u64 (mld64 m (g + TF_a1)) /\ mld64 m' (f + TF_a1) = u64 v /\
  mld64 m' (g + TF_a0) = (if mld64 m (g + TF_a0) =? u64 (-1) then u64 v else mld64 m (g + TF_a0)) /\
  mld64 m' (g + TF_a1) = mld64 m (g + TF_a1).
Proof.
  intros A m'. subst m'. unfold meet_mem.
  rewrite (mld64_mst64_out m (f + TF_a1) _ (g + TF_a1)) by (unfold tf_apart, TF_size, TF_a0, TF_a1 in *; lia).
  assert (E : mld64 (mst64 (mst64 m (f + TF_a1) (u64 v)) (f + TF_a0) (mld64 m (g + TF_a1))) (g + TF_a0) =
    mld64 m (g + TF_a0)) by (by do 2 tf_out).
  rewrite E. destruct (mld64 m (g + TF_a0) =? u64 (-1)).
  - split; [tf_out; by rewrite mld64_mst64_same|]. split; [do 2 tf_out; by rewrite mld64_mst64_same, u64_idemp|].
    split; [by rewrite mld64_mst64_same, u64_idemp|]. by do 3 tf_out.
  - split; [by rewrite mld64_mst64_same|]. split; [tf_out; by rewrite mld64_mst64_same, u64_idemp|].
    split; [done|]. by do 2 tf_out.
Qed.

(** ** Resuming a suspended call *)

(** The process returns to user space with its result in a0. *)
Definition returned (p : nat) (s : kstate) : kstate :=
  let r := i32 (mld64 (k_mem s) (p_trapframe (proc_at p s) + TF_a0)) in
  let s1 := rel_st (L_proc p) (upd_proc p (set_p_chan CH_null) s) in
  set_k_mem (mst64 (k_mem s1) (p_trapframe (proc_at p s) + TF_a0) (u64 r)) s1.

Definition parked (p : nat) (k : thread) : Prop :=
  forall s, handover p s ->
    k s = Ok (Some (i32 (mld64 (k_mem s) (p_trapframe (proc_at p s) + TF_a0)))) (returned p s).

Lemma proc_at_keep {A} (f : proc -> A) i j g (s : kstate) :
  (forall q, f (g q) = f q) -> f (alter g i (k_procs s) !!! j) = f (k_procs s !!! j).
Proof.
  intros H. destruct (decide (i = j)) as [->|N]; [|by rewrite list_lookup_total_alter_ne].
  destruct (decide (j < length (k_procs s))%nat) as [Hj|Hj].
  - by rewrite list_lookup_total_alter_eq.
  - rewrite !list_lookup_total_alt. by rewrite !lookup_ge_None_2 by (rewrite ?length_alter; lia).
Qed.

Lemma resume_parked p k :
  (forall s', handover p s' -> k s' = co_resume p s') ->
  parked p (call_thread (fun s => res_bind (k s) (fun r => st_tf p TF_a0 (u64 r) ;! ret r))).
Proof.
  intros Hk s H. unfold call_thread. rewrite Hk by done. unfold co_resume. cbn [res_bind].
  unfold st_tf, getp. unfold bind, gets, st64, modify, ret. cbn [res_bind].
  assert (E : p_trapframe (proc_at p (rel_st (L_proc p) (upd_proc p (set_p_chan CH_null) s))) =
    p_trapframe (proc_at p s)) by (unfold proc_at, rel_st, pop_st; ksimpl; by apply proc_at_keep).
  rewrite E. reflexivity.
Qed.

(** ** One call *)

Lemma turn_args x y px py w last v s :
  turn x y px py w last s -> sendable v -> turn x y px py w last (with_args x py v s).
Proof.
  intros T Hv. destruct T. split; try done.
  - destruct tu_run0. by split.
  - unfold with_args, proc_at in *. ksimpl. do 2 tf_out. done.
  - unfold with_args, proc_at in *. ksimpl. do 2 tf_out. done.
Qed.

Lemma turn_decide x y px py w last s :
  turn x y px py w last s -> co_decide x py s = CoMeet y.
Proof.
  intros T. unfold co_decide. rewrite (tu_pid _ _ _ _ _ _ _ T), (tu_ly _ _ _ _ _ _ _ T).
  pose proof (tu_py _ _ _ _ _ _ _ T) as [H _]. pose proof (tu_pne _ _ _ _ _ _ _ T) as N.
  destruct (Z.leb_spec py 0), (Z.eqb_spec py px); try lia. cbn [orb].
  rewrite (tu_kx _ _ _ _ _ _ _ T), (tu_ky _ _ _ _ _ _ _ T), (tu_state _ _ _ _ _ _ _ T), (tu_chan _ _ _ _ _ _ _ T).
  by rewrite decide_True.
Qed.

(** The process table after [x] has parked and [y] has returned. *)
Lemma meet_procs x y v s :
  length (k_procs s) = NPROC -> (x < NPROC)%nat -> (y < NPROC)%nat -> x <> y ->
  let s2 := returned y (meet_st x y v s) in
  proc_at x s2 = co_park y (proc_at x s) /\
  proc_at y s2 = set_p_chan CH_null (co_wake (proc_at y s)) /\
  forall i, i <> x -> i <> y -> proc_at i s2 = proc_at i s.
Proof.
  intros Ht Hx Hy N s2. subst s2. unfold returned, meet_st, handoff, rel_st, pop_st, proc_at. ksimpl.
  split; [|split; [|intros i Nx Ny; by rewrite !list_lookup_total_alter_ne by done]].
  - rewrite !(list_lookup_total_alter_ne _ _ y x) by done.
    rewrite list_lookup_total_alter_eq by (rewrite Ht; done). done.
  - rewrite !list_lookup_total_alter_eq by (rewrite ?length_alter, Ht; done).
    rewrite list_lookup_total_alter_ne by done. done.
Qed.

Lemma turn_next x y px py w last v s :
  turn x y px py w last s ->
  turn y x py px last v (returned y (meet_st x y v s)).
Proof.
  intros T. pose proof (tu_run _ _ _ _ _ _ _ T) as R. pose proof R as [_ _ Hx Ht _].
  pose proof (tu_y _ _ _ _ _ _ _ T) as Hy. pose proof (tu_ne _ _ _ _ _ _ _ T) as N.
  assert (H : handover y (meet_st x y v s)).
  { apply (handoff_handover x); auto; [apply T|by rewrite !length_alter]. }
  destruct (released_running y (set_p_chan CH_null) _ H) as [R' N'].
  destruct (meet_procs x y v s Ht Hx Hy N) as (Ex & Ey & Eo).
  set (s1 := meet_st x y v s) in *. set (s2 := returned y s1) in *.
  assert (LK : forall pid, lookup_pid pid s2 = lookup_pid pid s).
  { intros pid. apply lookup_pid_ext. intros i Hi.
    pose proof (tu_lx _ _ _ _ _ _ _ T) as Lx. apply lookup_pid_some in Lx as (_ & _ & Ux).
    pose proof (tu_state _ _ _ _ _ _ _ T) as Sy.
    destruct (decide (i = x)) as [->|]; [rewrite Ex; done|].
    destruct (decide (i = y)) as [->|]; [rewrite Ey, Sy; done|]. by rewrite Eo. }
  pose proof (tu_tf _ _ _ _ _ _ _ T) as A. fold (tf_apart (p_trapframe (proc_at x s)) (p_trapframe (proc_at y s))) in A.
  destruct (meet_mem_regs _ _ v (k_mem s) A) as (M0 & M1 & _ & _).
  assert (Ef : p_trapframe (proc_at y s1) = p_trapframe (proc_at y s)).
  { pose proof (f_equal p_trapframe Ey) as E. unfold co_wake in E. cbn in E. rewrite <- E.
    unfold s2, returned, rel_st, pop_st, proc_at. ksimpl. symmetry. by apply proc_at_keep. }
  assert (Em : k_mem s2 = mst64 (meet_mem (p_trapframe (proc_at x s)) (p_trapframe (proc_at y s)) v (k_mem s))
    (p_trapframe (proc_at y s) + TF_a0) (u64 (i32 (mld64 (k_mem s1) (p_trapframe (proc_at y s) + TF_a0))))).
  { unfold s2, returned. rewrite Ef. reflexivity. }
  split.
  - unfold s2, returned. apply running_mem. exact R'.
  - unfold s2, returned. rewrite noff_mem. exact N'.
  - exact Hx.
  - auto.
  - exact (tu_py _ _ _ _ _ _ _ T).
  - exact (tu_px _ _ _ _ _ _ _ T).
  - rewrite Ey. pose proof (tu_ly _ _ _ _ _ _ _ T) as E. by apply lookup_pid_some in E as (_ & ? & _).
  - pose proof (tu_pne _ _ _ _ _ _ _ T). auto.
  - rewrite LK. exact (tu_ly _ _ _ _ _ _ _ T).
  - rewrite LK. exact (tu_lx _ _ _ _ _ _ _ T).
  - rewrite Ey. exact (tu_ky _ _ _ _ _ _ _ T).
  - rewrite Ex. exact (tu_kx _ _ _ _ _ _ _ T).
  - by rewrite Ex.
  - by rewrite Ex.
  - rewrite Ex, Ey. destruct A; [by right|by left].
  - rewrite Ex. cbn [p_trapframe co_park set_p_state set_p_chan]. rewrite Em. tf_out.
    rewrite M0, (tu_a1 _ _ _ _ _ _ _ T). apply u64_idemp.
  - rewrite Ex. cbn [p_trapframe co_park set_p_state set_p_chan]. rewrite Em. tf_out. exact M1.
Qed.

Lemma turn_step x y px py w last v s ky :
  turn x y px py w last s -> sendable v -> parked y ky ->
  exists s1 k s2,
    co_call x py v s = Swtch (CtxProc x) (CtxProc y) s1 k /\ parked x (call_thread k) /\
    ky s1 = Ok (Some (i32 (if u64 w =? u64 (-1) then u64 v else u64 w))) s2 /\
    turn y x py px last v s2.
Proof.
  intros T Hv Hk. pose proof (turn_args _ _ _ _ _ _ v _ T Hv) as T0.
  rewrite co_call_args by (apply T || done). set (s0 := with_args x py v s) in *.
  pose proof (tu_run _ _ _ _ _ _ _ T0) as R0.
  pose proof (co_yield_run x py v s0 R0) as E. rewrite (turn_decide _ _ _ _ _ _ _ T0) in E.
  destruct E as (k & E & K). erewrite bind_swtch; [|exact E].
  eexists _, _, _. split; [reflexivity|]. split; [by apply resume_parked|].
  assert (H : handover y (meet_st x y v s0)).
  { apply (handoff_handover x); [done|apply T0|apply T0|]. rewrite !length_alter. apply R0. }
  rewrite Hk by done. split; [|by apply turn_next with (w := w)].
  f_equal. do 2 f_equal. pose proof (tu_tf _ _ _ _ _ _ _ T0) as A.
  destruct (meet_mem_regs _ _ v (k_mem s0) A) as (_ & _ & M0 & _).
  rewrite (tu_a0 _ _ _ _ _ _ _ T0) in M0. rewrite <- M0.
  assert (Ef : p_trapframe (proc_at y (meet_st x y v s0)) = p_trapframe (proc_at y s0)).
  { unfold meet_st, handoff, proc_at. ksimpl. rewrite list_lookup_total_alter_eq.
    - rewrite list_lookup_total_alter_ne; [done|apply T0].
    - rewrite length_alter, (ru_tab _ _ R0). apply T0. }
  by rewrite Ef.
Qed.

(** ** The sequences *)

Lemma delivered w v : sendable w -> i32 (if u64 w =? u64 (-1) then v else u64 w) = w.
Proof.
  intros Hw. pose proof Hw as [? ?]. rewrite (u64_small w) by lia.
  change (u64 (-1)) with 18446744073709551615. destruct (Z.eqb_spec w 18446744073709551615); [lia|].
  apply i32_small. lia.
Qed.

(** Once both have sent a value, each call delivers the value the peer sent one call
    earlier. *)
Lemma exchange_turns fuel x y px py w last xs ys s ky :
  turn x y px py w last s -> sendable w -> sendable last ->
  Forall sendable xs -> Forall sendable ys ->
  (length ys <= length xs <= S (length ys))%nat ->
  parked y ky -> (length xs + length ys < fuel)%nat ->
  exchange fuel x y px py xs ys ky s = Some (take (length ys) (last :: ys), take (length xs) (w :: xs)).
Proof.
  revert x y px py w last xs ys s ky. induction fuel as [|fuel IH];
    intros x y px py w last xs ys s ky T Hw Hl Hxs Hys Hlen Hk Hf; [lia|].
  destruct xs as [|v xs]; [by destruct ys; [|cbn in Hlen; lia]|]. inversion_clear Hxs as [|? ? Hv Hxs'].
  destruct (turn_step x y px py w last v s ky T Hv Hk) as (s1 & k & s2 & E & Hk' & Ey & T').
  cbn [exchange]. rewrite E, decide_True, Ey by done. cbn [length] in *.
  rewrite (IH y x py px last v ys xs s2 (call_thread k)) by (done || lia). cbn.
  by rewrite delivered.
Qed.

(** [y] is runnable and has not called co_yield yet: it was preempted or has just been
    forked, and will return to user code when its lock has been released. *)
Record fresh (x y : nat) (px py : Z) (s : kstate) : Prop := {
  fr_run : running x s;
  fr_noff : noff s = 0;
  fr_y : (y < NPROC)%nat;
  fr_ne : x <> y;
  fr_px : sendable px;
  fr_py : sendable py;
  fr_pid : p_pid (proc_at x s) = px;
  fr_pne : px <> py;
  fr_lx : lookup_pid px s = Some x;
  fr_ly : lookup_pid py s = Some y;
  fr_kx : p_killed (proc_at x s) = 0;
  fr_ky : p_killed (proc_at y s) = 0;
  fr_state : p_state (proc_at y s) = RUNNABLE;
  fr_tf : tf_apart (p_trapframe (proc_at x s)) (p_trapframe (proc_at y s)) }.

Definition user_thread (y : nat) : thread := release (L_proc y) ;! ret None.

Lemma first_step x y px py v s :
  fresh x y px py s -> sendable v ->
  exists s1 k s2,
    co_call x py v s = Swtch (CtxProc x) (CtxProc y) s1 k /\ parked x (call_thread k) /\
    user_thread y s1 = Ok None s2 /\ turn y x py px (-1) v s2.
Proof.
  intros F Hv. pose proof (fr_run _ _ _ _ _ F) as R. pose proof R as [_ _ Hx Ht _].
  rewrite co_call_args by (apply F || done). set (s0 := with_args x py v s) in *.
  assert (R0 : running x s0) by (by apply running_mem).
  assert (D : co_decide x py s0 = CoFirst y).
  { unfold co_decide. change (proc_at x s0) with (proc_at x s).
    change (lookup_pid py s0) with (lookup_pid py s). rewrite (fr_ly _ _ _ _ _ F), (fr_pid _ _ _ _ _ F).
    change (proc_at y s0) with (proc_at y s). pose proof (fr_py _ _ _ _ _ F) as [H _].
    pose proof (fr_pne _ _ _ _ _ F). destruct (Z.leb_spec py 0), (Z.eqb_spec py px); try lia. cbn [orb].
    by rewrite (fr_kx _ _ _ _ _ F), (fr_ky _ _ _ _ _ F), (fr_state _ _ _ _ _ F). }
  pose proof (co_yield_run x py v s0 R0) as E. rewrite D in E.
  destruct E as (k & E & K). erewrite bind_swtch; [|exact E].
  set (s1 := first_st x y v s0) in *.
  assert (H : handover y s1).
  { apply (handoff_handover x); [done|apply F|apply F|]. rewrite !length_alter. exact Ht. }
  eexists s1, _, _. split; [reflexivity|]. split; [by apply resume_parked|].
  unfold user_thread. erewrite bind_ok.
  2: { apply release_eq; [apply H|apply H|rewrite (ho_noff _ _ H); lia|apply H]. }
  split; [reflexivity|].
  destruct (released y s1 H) as [R' N']. set (s2 := rel_st (L_proc y) s1) in *.
  assert (Ex : proc_at x s2 = co_park y (proc_at x s)).
  { unfold proc_at, s2, rel_st, pop_st, s1, first_st, handoff. ksimpl. change (k_procs s0) with (k_procs s).
    rewrite list_lookup_total_alter_ne by (intros E'; by apply (fr_ne _ _ _ _ _ F)).
    by rewrite list_lookup_total_alter_eq by (by rewrite Ht). }
  assert (Ey : proc_at y s2 = set_p_state RUNNING (proc_at y s)).
  { unfold proc_at, s2, rel_st, pop_st, s1, first_st, handoff. ksimpl. change (k_procs s0) with (k_procs s).
    rewrite list_lookup_total_alter_eq by (rewrite length_alter, Ht; apply F).
    by rewrite list_lookup_total_alter_ne by apply F. }
  assert (LK : forall pid, lookup_pid pid s2 = lookup_pid pid s).
  { intros pid. apply lookup_pid_ext. intros i Hi.
    pose proof (fr_lx _ _ _ _ _ F) as Lx. apply lookup_pid_some in Lx as (_ & _ & Ux).
    pose proof (fr_state _ _ _ _ _ F) as Sy.
    destruct (decide (i = x)) as [->|]; [rewrite Ex; done|].
    destruct (decide (i = y)) as [->|]; [rewrite Ey, Sy; done|].
    unfold proc_at, s2, rel_st, pop_st, s1, first_st, handoff. ksimpl.
    by rewrite !list_lookup_total_alter_ne by done. }
  assert (Em : k_mem s2 = first_mem (p_trapframe (proc_at x s)) v (k_mem s0)) by reflexivity.
  split.
  - exact R'.
  - exact N'.
  - exact Hx.
  - intros E'. symmetry in E'. revert E'. exact (fr_ne _ _ _ _ _ F).
  - exact (fr_py _ _ _ _ _ F).
  - exact (fr_px _ _ _ _ _ F).
  - rewrite Ey. pose proof (fr_ly _ _ _ _ _ F) as E'. by apply lookup_pid_some in E' as (_ & ? & _).
  - pose proof (fr_pne _ _ _ _ _ F). auto.
  - rewrite LK. exact (fr_ly _ _ _ _ _ F).
  - rewrite LK. exact (fr_lx _ _ _ _ _ F).
  - rewrite Ey. exact (fr_ky _ _ _ _ _ F).
  - rewrite Ex. exact (fr_kx _ _ _ _ _ F).
  - by rewrite Ex.
  - by rewrite Ex.
  - rewrite Ex, Ey. destruct (fr_tf _ _ _ _ _ F); [by right|by left].
  - rewrite Ex, Em. cbn [p_trapframe co_park set_p_state set_p_chan]. unfold first_mem.
    by rewrite mld64_mst64_same, u64_idemp.
  - rewrite Ex, Em. cbn [p_trapframe co_park set_p_state set_p_chan]. unfold first_mem. unfold TF_a0, TF_a1.
    rewrite mld64_mst64_out by lia. by rewrite mld64_mst64_same, u64_idemp.
Qed.

(** C1: what two processes that co_yield to each other receive.  Process x calls first,
    when y has not called yet, and they send n values each.  All calls succeed, every
    switch goes directly between the two, and y's k-th call delivers x's k-th value; but
    x's calls deliver y's first value twice and then y's values one call late.  The
    interface's text, that the value passed by the caller becomes the return value in the
    target, holds for the first delivery only. *)
Theorem co_yield_exchange x y px py a as_ b bs s :
  fresh x y px py s -> Forall sendable (a :: as_) -> Forall sendable (b :: bs) ->
  length as_ = length bs ->
  exchange (2 * length as_ + 3) x y px py (a :: as_) (b :: bs) (user_thread y) s =
    Some (b :: take (length bs) (b :: bs), take (length as_) (a :: as_)).
Proof.
  intros F Ha Hb Hlen. inversion_clear Ha as [|? ? Ha1 Has]. inversion_clear Hb as [|? ? Hb1 Hbs].
  destruct (first_step x y px py a s F Ha1) as (s1 & k & s2 & E & Hk & Eu & T).
  replace (2 * length as_ + 3)%nat with (S (S (2 * length as_ + 1))) by lia.
  cbn [exchange]. rewrite E, decide_True, Eu by done.
  destruct (turn_step y x py px (-1) a b s2 (call_thread k) T Hb1 Hk) as (s3 & k3 & s4 & E3 & Hk3 & E4 & T4).
  rewrite Z.eqb_refl, sendable_i32 in E4 by done. rewrite E3, decide_True, E4 by done.
  rewrite (exchange_turns _ x y px py a b as_ bs s4 (call_thread k3)) by (done || lia).
  reflexivity.
Qed.

End Coroutine.

(** ** An example: processes 3 and 5 after procinit *)

Definition plocks_freeb (s : kstate) : bool :=
  forallb (fun i => match k_locks s !! L_proc i with
                    | Some x => (lk_locked x =? 0) && match lk_cpu x with None => true | _ => false end
                    | None => false end) (seq 0 NPROC).

Lemma plocks_freeb_sound s : plocks_freeb s = true -> plocks_free s.
Proof.
  unfold plocks_freeb. rewrite forallb_forall. intros H i Hi.
  specialize (H i ltac:(apply List.in_seq; lia)). unfold lock_free.
  destruct (k_locks s !! L_proc i) as [[x c]|]; [|done]. cbn in H.
  apply andb_prop in H as [H1 H2]. apply Z.eqb_eq in H1 as ->. by destruct c.
Qed.

Definition demo_pair : kstate :=
  let s := default kstate0 (run_state (procinit kstate0)) in
  upd_cpu 0 (set_c_proc (Some 3%nat))
    (upd_proc 3 (fun p => set_p_state RUNNING (set_p_pid 4 (set_p_trapframe 0x87ffe000 p)))
      (upd_proc 5 (fun p => set_p_state RUNNABLE (set_p_pid 6 (set_p_trapframe 0x87ffd000 p))) s)).

Lemma demo_running : running 3 demo_pair.
Proof.
  split.
  - repeat split; vm_compute; intros; lia || discriminate.
  - vm_compute. reflexivity.
  - unfold NPROC. lia.
  - vm_compute. reflexivity.
  - apply plocks_freeb_sound. vm_compute. reflexivity.
Qed.

Lemma demo_fresh : fresh 3 5 4 6 demo_pair.
Proof.
  split; try (vm_compute; reflexivity).
  - apply demo_running.
  - unfold NPROC. lia.
  - lia.
  - unfold sendable. lia.
  - unfold sendable. lia.
  - lia.
  - right. vm_compute. discriminate.
Qed.

(** x sends 10, 11, 12 and y sends 20, 21, 22. *)
Lemma co_yield_exchange_witness :
  exchange 7 3 5 4 6 [10; 11; 12] [20; 21; 22] (user_thread 5) demo_pair = Some ([20; 20; 21], [10; 11]).
Proof.
  apply (co_yield_exchange 3 5 4 6 10 [11; 12] 20 [21; 22] demo_pair demo_fresh).
  - repeat constructor; lia.
  - repeat constructor; lia.
  - reflexivity.
Defined.

Lemma co_yield_outcomes_witness :
  exists s1 k, co_yield 6 10 demo_pair = Swtch (CtxProc 3) (CtxProc 5) s1 k /\ handover 5 s1.
Proof.
  assert (D : co_decide 3 6 demo_pair = CoFirst 5) by (vm_compute; reflexivity).
  pose proof (co_yield_outcomes 3 6 10 demo_pair demo_running eq_refl) as H. rewrite D in H.
  destruct H as (s1 & k & E & H & _). exists s1, k. split; [exact E|exact H].
Defined.
