(* ===== verification/Sched.v ===== *)
(** * The scheduler and the threads it runs

    The equations of wakeup, kill, yield, sleep and the scheduler, and a machine that runs
    any number of processes under the scheduler, switching kernel threads wherever the code
    calls swtch.  No interleaving of their operations panics, deadlocks on a process lock,
    or switches to a context that was never saved. *)

From S2P Require Import Prelude Memory Riscv State Kmonad Spinlock CString Kalloc Vm Proc ProcSpec.
From S2P Require Import CoYield.
From Stdlib Require Import ZArith Lia.
From stdpp Require Import base numbers list gmap strings option.

#[local] Open Scope Z_scope.
#[local] Open Scope kernel_scope.

(** ** Table updates under the process locks *)

(** Lock proc[i], update it, unlock. *)
Lemma locked_update i f s :
  lock_free (L_proc i) s -> cpu_ok s ->
  (acquire (L_proc i) ;! setp i f ;! release (L_proc i)) s = Ok tt (upd_proc i f (settle s)).
Proof.
  intros Hl Hc. erewrite bind_ok; [|by apply acquire_eq]. kprim.
  rewrite (release_acquired _ s) by done. unfold settle. f_equal.
Qed.

Definition wake (c : chan) (q : proc) : proc :=
  if decide (p_state q = SLEEPING /\ p_chan q = c) then set_p_state RUNNABLE q else q.

Lemma upd_proc_settle i f s : settle (upd_proc i f s) = upd_proc i f (settle s).
Proof. reflexivity. Qed.

Lemma upd_proc_id i s : upd_proc i (fun q => q) s = s.
Proof. unfold upd_proc. rewrite alter_id_at by done. by destruct s. Qed.

(** ** wakeup *)

(** wakeup as an update of the table: every sleeper on the channel except the caller. *)
Definition wake_all (c : chan) (me : option nat) (l : list nat) (s : kstate) : kstate :=
  foldl (fun s i => if decide (Some i = me) then s else upd_proc i (wake c) s) s l.

Section Sched.
Context `{L : KernelLayout}.

Definition wake_one (c : chan) (me : option nat) (i : nat) (s : kstate) : kstate :=
  if decide (Some i = me) then s else upd_proc i (wake c) s.

Lemma wakeup_body c i s :
  cpu_ok s -> lock_free (L_proc i) s ->
  (let! p := myproc in
   if decide (Some i = p) then ret tt else
   acquire (L_proc i) ;!
   let! q := gets (proc_at i) in
   when (bool_decide (p_state q = SLEEPING /\ p_chan q = c)) (setp i (set_p_state RUNNABLE)) ;!
   release (L_proc i)) s = Ok tt (wake_one c (c_proc (my s)) i (settle s)).
Proof.
  intros Hc Hl. kstep myproc_eq. unfold wake_one. destruct (decide (Some i = c_proc (my s))); [done|].
  assert (Hc' := cpu_ok_settle s Hc). erewrite bind_ok; [|by apply acquire_eq]. kprim.
  rewrite acq_settle by done. change (proc_at i (acq_st (L_proc i) s)) with (proc_at i s).
  assert (E : forall f, release (L_proc i) (upd_proc i f (acq_st (L_proc i) s)) = Ok tt (upd_proc i f (settle s))).
  { intros f. rewrite (release_acquired _ s) by done. unfold settle. by f_equal. }
  assert (W : upd_proc i (wake c) (settle s) =
    if decide (p_state (proc_at i s) = SLEEPING /\ p_chan (proc_at i s) = c)
    then upd_proc i (set_p_state RUNNABLE) (settle s) else upd_proc i (fun q => q) (settle s)).
  { unfold upd_proc. case_decide as D; f_equal; apply alter_ext_at;
      change (k_procs (settle s) !!! i) with (proc_at i s); unfold wake;
      [by rewrite decide_True|by rewrite decide_False]. }
  rewrite W. case_bool_decide as B; cbn [when].
  - erewrite bind_ok; [|reflexivity]. rewrite E. by rewrite decide_True.
  - kprim. rewrite decide_False by done. rewrite <- E. by rewrite upd_proc_id.
Qed.

Lemma wake_one_fields c me i s :
  settle s = s -> cpu_ok s ->
  settle (wake_one c me i s) = wake_one c me i s /\ cpu_ok (wake_one c me i s) /\
  c_proc (my (wake_one c me i s)) = c_proc (my s) /\ k_locks (wake_one c me i s) = k_locks s.
Proof.
  intros S C. unfold wake_one. case_decide; [done|]. rewrite upd_proc_settle, S. done.
Qed.

Lemma wakeup_eq c s :
  cpu_ok s -> plocks_free s ->
  wakeup c s = Ok tt (wake_all c (c_proc (my s)) (seq 0 NPROC) (settle s)).
Proof.
  intros Hc Hl. unfold wakeup.
  assert (G : forall l s, cpu_ok s -> (forall i, i ∈ l -> lock_free (L_proc i) s) ->
    foreach l (fun i =>
      let! p := myproc in
      if decide (Some i = p) then ret tt else
      acquire (L_proc i) ;!
      let! q := gets (proc_at i) in
      when (bool_decide (p_state q = SLEEPING /\ p_chan q = c)) (setp i (set_p_state RUNNABLE)) ;!
      release (L_proc i)) s =
    Ok tt (match l with [] => s | _ => wake_all c (c_proc (my s)) l (settle s) end)).
  { clear s Hc Hl. induction l as [|i l IH]; intros s Hc Hl; [done|]. cbn [foreach].
    erewrite bind_ok; [|apply wakeup_body; [done|apply Hl; by left]].
    destruct (wake_one_fields c (c_proc (my s)) i (settle s) (settle_idemp s) (cpu_ok_settle s Hc))
      as (S1 & C1 & M1 & K1).
    rewrite IH; [|done|intros j Hj; unfold lock_free; rewrite K1; apply Hl; by right].
    rewrite M1, c_proc_settle by done. destruct l; [done|]. by rewrite S1. }
  rewrite G; [done|done|]. intros i Hi. apply Hl. apply elem_of_seq in Hi. lia.
Qed.

Lemma wake_all_spec c me l s :
  NoDup l -> length (k_procs s) = NPROC -> (forall i, i ∈ l -> (i < NPROC)%nat) ->
  let s' := wake_all c me l s in
  s' = set_k_procs (k_procs s') s /\ length (k_procs s') = NPROC /\
  forall i, proc_at i s' =
    if decide (i ∈ l /\ Some i <> me) then wake c (proc_at i s) else proc_at i s.
Proof.
  intros ND Hlen Hl s'. subst s'. revert s Hlen. induction ND as [|i l Ni ND IH]; intros s Hlen.
  - cbn. split; [by destruct s|]. split; [done|]. intros i. rewrite decide_False; [done|]. by intros [?%not_elem_of_nil _].
  - cbn [wake_all foldl]. fold (wake_one c me i s). fold (wake_all c me l (wake_one c me i s)).
    assert (E1 : wake_one c me i s = set_k_procs (k_procs (wake_one c me i s)) s).
    { unfold wake_one. case_decide; [by destruct s|done]. }
    assert (H1 : length (k_procs (wake_one c me i s)) = NPROC).
    { unfold wake_one. case_decide; [done|]. ksimpl. by rewrite length_alter. }
    destruct (IH ltac:(intros; apply Hl; by right) _ H1) as (E2 & H2 & P2).
    split; [rewrite E2 at 1; rewrite E1 at 2; reflexivity|]. split; [done|].
    intros j. rewrite P2. unfold wake_one, proc_at.
    assert (Hi : (i < length (k_procs s))%nat) by (rewrite Hlen; apply Hl; by left).
    destruct (decide (Some i = me)) as [<-|Nm].
    + assert (D : j ∈ l /\ Some j <> Some i <-> j ∈ i :: l /\ Some j <> Some i).
      { rewrite elem_of_cons. split; [tauto|]. intros [[->|?] ?]; [done|tauto]. }
      by rewrite (decide_ext _ _ _ _ D).
    + ksimpl. destruct (decide (j = i)) as [->|Nj].
      * rewrite list_lookup_total_alter_eq by done. rewrite decide_False by tauto.
        rewrite decide_True; [done|]. split; [by left|done].
      * rewrite list_lookup_total_alter_ne by done.
        assert (D : j ∈ l /\ Some j <> me <-> j ∈ i :: l /\ Some j <> me).
        { rewrite elem_of_cons. tauto. }
        by rewrite (decide_ext _ _ _ _ D).
Qed.

(** C28: wakeup makes RUNNABLE exactly the processes that sleep on the channel, the caller
    apart, and changes nothing else in the kernel: no other field of a process, and no
    process that is not asleep on that very channel. *)
Theorem wakeup_wakes_exactly c s :
  cpu_ok s -> plocks_free s -> length (k_procs s) = NPROC ->
  exists s', wakeup c s = Ok tt s' /\ s' = set_k_procs (k_procs s') (settle s) /\
    forall i, (i < NPROC)%nat -> proc_at i s' =
      if decide (p_state (proc_at i s) = SLEEPING /\ p_chan (proc_at i s) = c /\ c_proc (my s) <> Some i)
      then set_p_state RUNNABLE (proc_at i s) else proc_at i s.
Proof.
  intros Hc Hl Ht. pose proof (wakeup_eq c s Hc Hl) as E.
  pose proof (wake_all_spec c (c_proc (my s)) (seq 0 NPROC) (settle s)
    (NoDup_seq _ _) Ht ltac:(intros i Hi; apply elem_of_seq in Hi; lia)) as Es.
  cbv zeta in Es. generalize dependent (wake_all c (c_proc (my s)) (seq 0 NPROC) (settle s)).
  intros s' E (Ep & _ & W). exists s'. split; [exact E|]. split; [exact Ep|]. intros i Hi. rewrite W.
  change (proc_at i (settle s)) with (proc_at i s).
  assert (i ∈ seq 0 NPROC) by (apply elem_of_seq; lia). unfold wake.
  destruct (decide (c_proc (my s) = Some i)) as [Em|Nm].
  - rewrite decide_False by (intros [_ N]; by rewrite Em in N). by rewrite decide_False by tauto.
  - rewrite decide_True by (split; [done|congruence]). apply decide_ext. tauto.
Qed.

(** ** kill *)

Definition kill_proc (q : proc) : proc :=
  let q := set_p_killed 1 q in
  if decide (p_state q = SLEEPING) then set_p_state RUNNABLE q else q.

(** The first process with the pid, in use or not. *)
Definition pid_slot (pid : Z) (l : list nat) (s : kstate) : option nat :=
  List.find (fun i => p_pid (proc_at i s) =? pid) l.

Lemma kill_scan_eq pid l s :
  cpu_ok s -> (forall i, i ∈ l -> lock_free (L_proc i) s) ->
  kill_scan pid l s =
    match pid_slot pid l s with
    | Some i => Ok 0 (upd_proc i kill_proc (settle s))
    | None => Ok (-1) (match l with [] => s | _ => settle s end)
    end.
Proof.
  revert s. induction l as [|i l IH]; intros s Hc Hl; [done|]. cbn [kill_scan pid_slot List.find].
  assert (Li : lock_free (L_proc i) s) by (apply Hl; by left).
  erewrite bind_ok; [|by apply acquire_eq]. kprim.
  change (proc_at i (acq_st (L_proc i) s)) with (proc_at i s).
  destruct (Z.eqb_spec (p_pid (proc_at i s)) pid) as [Ep|Np].
  - kprim.
    assert (E : forall f, (release (L_proc i) ;! ret 0) (upd_proc i f (acq_st (L_proc i) s)) =
      Ok 0 (upd_proc i f (settle s))).
    { intros f. erewrite bind_ok; [|by apply (release_acquired _ s)]. unfold settle, ret. by f_equal. }
    assert (W : upd_proc i kill_proc (settle s) =
      if decide (p_state (proc_at i s) = SLEEPING)
      then upd_proc i (set_p_state RUNNABLE ∘ set_p_killed 1) (settle s)
      else upd_proc i (set_p_killed 1) (settle s)).
    { unfold upd_proc. case_decide as D; f_equal; apply alter_ext_at;
        change (k_procs (settle s) !!! i) with (proc_at i s); unfold kill_proc;
        [by rewrite decide_True|by rewrite decide_False]. }
    rewrite W. case_bool_decide as B; cbn [when].
    + rewrite decide_True, <- E by done. erewrite bind_ok; [|reflexivity]. f_equal.
      unfold upd_proc. kst_eq. by rewrite list_alter_alter_eq.
    + rewrite decide_False, <- E by done. by kprim.
  - erewrite bind_ok; [|by apply acq_release]. rewrite IH; [|by apply cpu_ok_settle|intros; apply Hl; by right].
    change (pid_slot pid l (settle s)) with (pid_slot pid l s). fold (pid_slot pid l s).
    rewrite settle_idemp. destruct (pid_slot pid l s); [done|]. by destruct l.
Qed.

Lemma kill_eq pid s :
  cpu_ok s -> plocks_free s ->
  kill pid s = match pid_slot pid (seq 0 NPROC) s with
               | Some i => Ok 0 (upd_proc i kill_proc (settle s))
               | None => Ok (-1) (settle s)
               end.
Proof.
  intros Hc Hl. unfold kill. rewrite kill_scan_eq; [done|done|].
  intros i Hi. apply Hl. apply elem_of_seq in Hi. lia.
Qed.

(** ** sched, yield and sleep *)

Lemma handover_cpu_ok p s : handover p s -> cpu_ok s.
Proof.
  intros H. split; [apply H|]. rewrite (ho_noff _ _ H). split; [lia|]. intros _. apply H.
Qed.

Lemma handover_settle p s : handover p s -> settle s = s.
Proof. intros H. apply settle_nested. rewrite (ho_noff _ _ H). lia. Qed.

(** sched switches to the scheduler in the very state it was called in, and resumes by
    restoring intena. *)
Lemma sched_eq p s :
  handover p s -> p_state (proc_at p s) <> RUNNING ->
  exists k, sched s = Swtch (CtxProc p) (CtxCpu (k_hart s)) s k /\
    forall s', k s' = Ok tt (upd_cpu (k_hart s') (set_c_intena (c_intena (my s))) s').
Proof.
  intros H N. pose proof (handover_cpu_ok _ _ H) as Hc. eexists. split.
  - unfold sched. erewrite bind_ok; [|apply curproc_eq; [done|apply H]].
    rewrite (handover_settle p) by done. kstep holding_eq. rewrite holds_mine by apply H. cbn [negb].
    unfold mycpu, cpuid. do 2 kprim. fold (my s).
    pose proof (ho_noff _ _ H) as Hn. unfold noff in Hn. rewrite Hn. cbn [Z.eqb Pos.eqb negb].
    unfold getp. kprim. rewrite decide_False by done. unfold intr_get. kprim. rewrite (ho_sie _ _ H).
    unfold swtch. erewrite bind_swtch; [|reflexivity]. reflexivity.
  - intros s'. reflexivity.
Qed.

Lemma handover_intena p i s : handover p s -> handover p (upd_cpu (k_hart s) (set_c_intena i) s).
Proof.
  intros H. pose proof (ho_cpu _ _ H) as Hh.
  assert (My : my (upd_cpu (k_hart s) (set_c_intena i) s) = set_c_intena i (my s)) by (by apply my_upd).
  destruct H. split; try done.
  - ksimpl. by rewrite length_alter.
  - by rewrite My.
  - unfold noff in *. by rewrite My.
Qed.

(** Taking one's own lock with nothing else held. *)
Lemma acquire_handover p s : running p s -> noff s = 0 -> handover p (acq_st (L_proc p) s).
Proof.
  intros [Hc Hp Hi Ht Hl] N. pose proof Hc as (Hh & _ & _).
  assert (My : my (acq_st (L_proc p) s) = push_cpu (k_sie s) (my s)).
  { unfold my, acq_st, push_st. ksimpl. by rewrite list_lookup_total_alter_eq. }
  split; try done.
  - unfold acq_st, push_st. ksimpl. by rewrite length_alter.
  - by rewrite My.
  - unfold noff in *. rewrite My. cbn. lia.
  - unfold lock_mine, acq_st. ksimpl. apply lookup_insert_eq.
  - intros i Hi' Ni. apply lock_free_acq; [congruence|by apply Hl].
Qed.

Lemma release_handover p s : handover p s -> release (L_proc p) s = Ok tt (rel_st (L_proc p) s).
Proof. intros H. apply release_eq; [apply H|apply H|rewrite (ho_noff _ _ H); lia|apply H]. Qed.

Lemma yield_eq p s :
  running p s -> noff s = 0 ->
  let s1 := upd_proc p (set_p_state RUNNABLE) (acq_st (L_proc p) s) in
  exists k, yield s = Swtch (CtxProc p) (CtxCpu (k_hart s)) s1 k /\ handover p s1 /\
    forall s', handover p s' -> exists i,
      k s' = Ok tt (rel_st (L_proc p) (upd_cpu (k_hart s') (set_c_intena i) s')).
Proof.
  intros R N s1. pose proof R as [Hc Hp Hi Ht Hl].
  assert (H1 : handover p s1) by (by apply handover_upd, acquire_handover).
  assert (S1 : p_state (proc_at p s1) <> RUNNING).
  { unfold proc_at, s1. ksimpl. rewrite proc_at_alter_eq; [done|]. unfold acq_st, push_st. ksimpl. by rewrite Ht. }
  destruct (sched_eq p s1 H1 S1) as (k & E & Hk). eexists. split; [|split; [done|]].
  - unfold yield. erewrite bind_ok; [|by apply curproc_eq].
    erewrite bind_ok; [|apply acquire_eq; by apply Hl]. rewrite acq_settle by done. kprim.
    fold s1. erewrite bind_swtch; [|exact E]. reflexivity.
  - intros s' H'. cbn beta. rewrite Hk. cbn [res_bind]. eexists. apply release_handover.
    by apply handover_intena.
Qed.

(** sleep releases its lock after taking the process's: the state is then as if only the
    latter had been taken. *)
Lemma release_swap lk p s :
  running p s -> lock_free lk s -> lk <> L_proc p ->
  release lk (acq_st (L_proc p) (acq_st lk s)) = Ok tt (acq_st (L_proc p) s).
Proof.
  intros [Hc Hp Hi Ht Hl] Hlk N. pose proof Hc as (Hh & H0 & _).
  assert (Hc1 := cpu_ok_acq lk s Hc). assert (Hc2 := cpu_ok_acq (L_proc p) _ Hc1).
  assert (N2 : noff (acq_st (L_proc p) (acq_st lk s)) = noff s + 2).
  { rewrite !noff_acq by done. lia. }
  rewrite release_eq.
  - f_equal. unfold rel_st, pop_st. apply kstate_ext; ksimpl;
      [reflexivity| | | |reflexivity..].
    + rewrite N2, !acq_sie, orb_false_r. by destruct (Z.eqb_spec (noff s + 2) 1); [lia|].
    + rewrite !acq_cpus, !acq_hart, !list_alter_alter_eq. apply alter_ext_at. unfold compose, pop_cpu, push_cpu.
      rewrite acq_sie. clear - H0. unfold noff, my in H0.
      destruct (k_cpus s !!! k_hart s) as [x n i]. cbn [c_proc c_noff c_intena] in *.
      destruct (Z.eqb_spec (n + 1) 0); [lia|]. f_equal. lia.
    + rewrite !acq_locks, !acq_hart. rewrite insert_insert_ne by done. rewrite insert_insert_eq.
      f_equal. by apply insert_id.
  - unfold lock_mine. rewrite !acq_locks, !acq_hart. rewrite lookup_insert_ne by done. apply lookup_insert_eq.
  - apply Hc2.
  - lia.
  - apply acq_sie.
Qed.

Definition sleep_on (c : chan) (q : proc) : proc := set_p_state SLEEPING (set_p_chan c q).

Lemma sleep_eq c lk p s :
  running p s -> noff s = 0 -> lock_free lk s -> lk <> L_proc p ->
  let s1 := upd_proc p (sleep_on c) (acq_st (L_proc p) s) in
  exists k, sleep c lk (acq_st lk s) = Swtch (CtxProc p) (CtxCpu (k_hart s)) s1 k /\ handover p s1 /\
    forall s', handover p s' -> lock_free lk s' -> exists i,
      k s' = Ok tt (acq_st lk (rel_st (L_proc p) (upd_proc p (set_p_chan CH_null)
                     (upd_cpu (k_hart s') (set_c_intena i) s')))).
Proof.
  intros R N Hlk Nlk s1. pose proof R as [Hc Hp Hi Ht Hl].
  assert (H1 : handover p s1) by (by apply handover_upd, acquire_handover).
  assert (S1 : p_state (proc_at p s1) <> RUNNING).
  { unfold proc_at, s1. ksimpl. rewrite proc_at_alter_eq; [done|]. unfold acq_st, push_st. ksimpl. by rewrite Ht. }
  destruct (sched_eq p s1 H1 S1) as (k & E & Hk). eexists. split; [|split; [done|]].
  - unfold sleep. erewrite bind_ok.
    2: { apply curproc_eq; [by apply cpu_ok_acq|]. unfold my, acq_st, push_st. ksimpl.
         rewrite list_lookup_total_alter_eq by apply Hc. exact Hp. }
    rewrite settle_acq by done.
    erewrite bind_ok; [|apply acquire_eq, lock_free_acq; [congruence|by apply Hl]].
    erewrite bind_ok; [|by apply release_swap]. do 2 kprim.
    replace (upd_proc p (set_p_state SLEEPING) (upd_proc p (set_p_chan c) (acq_st (L_proc p) s))) with s1.
    2: { unfold s1, upd_proc. kst_eq. by rewrite list_alter_alter_eq. }
    erewrite bind_swtch; [|exact E]. reflexivity.
  - intros s' H' Hlk'. cbn beta. rewrite Hk. cbn [res_bind]. exists (c_intena (my s1)). kprim.
    erewrite bind_ok; [|apply release_handover; by apply handover_upd, handover_intena].
    apply acquire_eq. unfold lock_free, rel_st. ksimpl. rewrite lookup_insert_ne by congruence. exact Hlk'.
Qed.

(** ** The scheduler *)

(** The scheduler runs: no process on this cpu, no process lock held. *)
Record idle (c : nat) (s : kstate) : Prop := {
  id_cpu : cpu_ok s;
  id_hart : k_hart s = c;
  id_noff : noff s = 0;
  id_tab : length (k_procs s) = NPROC;
  id_locks : plocks_free s }.

Lemma idle_settle c s : idle c s -> idle c (settle s).
Proof. intros []. split; try done; [by apply cpu_ok_settle|by rewrite noff_settle]. Qed.

Lemma idle_intr c s : idle c s -> idle c (set_k_sie true s).
Proof.
  intros [H ? N ? ?]. split; [|done..]. destruct H as (? & ? & _). split; [done|].
  change (noff (set_k_sie true s)) with (noff s). split; [done|lia].
Qed.

(** Back in the scheduler with process [j] on the cpu. *)
Lemma back_idle j c s :
  handover j s -> k_hart s = c ->
  release (L_proc j) (upd_cpu c (set_c_proc None) s) = Ok tt (rel_st (L_proc j) (upd_cpu c (set_c_proc None) s)) /\
  idle c (rel_st (L_proc j) (upd_cpu c (set_c_proc None) s)).
Proof.
  intros H Ec. pose proof (ho_cpu _ _ H) as Hh. subst c.
  assert (My : my (upd_cpu (k_hart s) (set_c_proc None) s) = set_c_proc None (my s)) by (by apply my_upd).
  assert (N : noff (upd_cpu (k_hart s) (set_c_proc None) s) = 1).
  { unfold noff. rewrite My. apply (ho_noff _ _ H). }
  assert (Hh' : (k_hart s < length (k_cpus (upd_cpu (k_hart s) (set_c_proc None) s)))%nat).
  { ksimpl. by rewrite length_alter. }
  split; [apply release_eq; [apply H|exact Hh'|rewrite N; lia|apply H]|].
  assert (My2 : my (rel_st (L_proc j) (upd_cpu (k_hart s) (set_c_proc None) s)) =
    pop_cpu (my (upd_cpu (k_hart s) (set_c_proc None) s))).
  { unfold my at 1, rel_st, pop_st. ksimpl. by rewrite list_lookup_total_alter_eq by (by rewrite length_alter). }
  assert (N2 : noff (rel_st (L_proc j) (upd_cpu (k_hart s) (set_c_proc None) s)) = 0).
  { unfold noff in *. rewrite My2. cbn [c_noff pop_cpu]. lia. }
  split.
  - split; [|lia]. unfold rel_st, pop_st. ksimpl. by rewrite !length_alter.
  - reflexivity.
  - exact N2.
  - apply H.
  - intros i Hi. unfold lock_free, rel_st. ksimpl.
    destruct (decide (i = j)) as [->|Ni]; [apply lookup_insert_eq|].
    rewrite lookup_insert_ne by congruence. by apply H.
Qed.

Lemma sched_visit_eq c i s :
  idle c s -> (i < NPROC)%nat ->
  (p_state (proc_at i s) <> RUNNABLE /\ sched_visit c i s = Ok tt (settle s)) \/
  (p_state (proc_at i s) = RUNNABLE /\
   let s1 := upd_cpu c (set_c_proc (Some i)) (upd_proc i (set_p_state RUNNING) (acq_st (L_proc i) s)) in
   exists k, sched_visit c i s = Swtch (CtxCpu c) (CtxProc i) s1 k /\ handover i s1 /\
     forall s' j, handover j s' -> k_hart s' = c ->
       k s' = Ok tt (rel_st (L_proc j) (upd_cpu c (set_c_proc None) s'))).
Proof.
  intros [Hc Hh N Ht Hl] Hi. unfold sched_visit.
  assert (Ea : acquire (L_proc i) s = Ok tt (acq_st (L_proc i) s)) by (by apply acquire_eq, Hl).
  destruct (decide (p_state (proc_at i s) = RUNNABLE)) as [E|E]; [right|left]; (split; [done|]).
  2: { erewrite bind_ok; [|exact Ea]. unfold getp. kprim.
       change (proc_at i (acq_st (L_proc i) s)) with (proc_at i s). rewrite decide_False by done.
       by apply acq_release; [apply Hl|]. }
  set (s1 := upd_cpu c _ _). eexists. split; [|split].
  - erewrite bind_ok; [|exact Ea]. unfold getp. kprim.
    change (proc_at i (acq_st (L_proc i) s)) with (proc_at i s). rewrite decide_True by done.
    do 2 kprim. unfold swtch. erewrite bind_swtch; [|reflexivity]. reflexivity.
  - pose proof Hc as (Hh1 & _ & _). subst c.
    assert (My : my s1 = set_c_proc (Some i) (push_cpu (k_sie s) (my s))).
    { unfold my, s1, acq_st, push_st. ksimpl.
      by rewrite !list_lookup_total_alter_eq by (rewrite ?length_alter; done). }
    split.
    + unfold s1, acq_st, push_st. ksimpl. by rewrite !length_alter.
    + by rewrite My.
    + unfold noff in *. rewrite My. cbn. lia.
    + reflexivity.
    + unfold lock_mine, s1, acq_st. ksimpl. apply lookup_insert_eq.
    + exact Hi.
    + unfold s1, acq_st, push_st. ksimpl. by rewrite length_alter.
    + intros x Hx Nx. unfold lock_free, s1, acq_st. ksimpl. rewrite lookup_insert_ne by congruence. by apply Hl.
  - intros s' j H Ec. cbn [res_bind]. do 2 kprim. replace (c_proc (k_cpus s' !!! c)) with (Some j).
    2: { rewrite <- (ho_cur _ _ H). unfold my. by rewrite Ec. }
    apply (back_idle j c s' H Ec).
Qed.

End Sched.
