(* ===== verification/Machine.v ===== *)
(** * A cpu running processes under the scheduler

    Processes run arbitrary sequences of kernel operations: yield, co_yield, kill, wakeup,
    and sleeping under a lock.  The machine resumes the context that each swtch names.  It
    is shown that every run of it is free of panics, of deadlocks on the process locks, of
    null process pointers, and of switches to contexts that were never saved. *)

From S2P Require Import Prelude Memory Riscv State Kmonad Spinlock CString Kalloc Vm Proc ProcSpec.
From S2P Require Import CoYield Coroutine Sched.
From Stdlib Require Import ZArith Lia.
From stdpp Require Import base numbers list gmap strings option.

#[local] Open Scope Z_scope.
#[local] Open Scope kernel_scope.

#[global] Instance ctx_countable : Countable ctx.
Proof.
  refine (inj_countable' (fun x => match x with CtxCpu c => inl c | CtxProc i => inr i end)
            (fun x => match x with inl c => CtxCpu c | inr i => CtxProc i end) _).
  by intros [].
Defined.

(** ** Programs *)

Inductive op :=
  | OYield
  | OCoYield (pid value : Z)
  | OKill (pid : Z)
  | OWakeup (c : chan)
  | OPause (c : chan).

(** [OPause] sleeps like sys_sleep: on a channel, under tickslock. *)
Definition run_op (o : op) : M unit :=
  match o with
  | OYield => yield
  | OCoYield pid value => let! r := co_yield pid value in ret tt
  | OKill pid => let! r := kill pid in ret tt
  | OWakeup c => wakeup c
  | OPause c => acquire L_ticks ;! sleep c L_ticks ;! release L_ticks
  end.

(** The end of exit(): become a zombie and leave for good. *)
Definition finish (p : nat) : M unit :=
  acquire (L_proc p) ;!
  setp p (set_p_state ZOMBIE) ;!
  sched ;!
  panic "zombie exit".

(** A process that runs the operations and exits; like forkret, it starts by releasing
    its own lock. *)
Fixpoint run_ops (p : nat) (ops : list op) : M unit :=
  match ops with
  | [] => finish p
  | o :: ops => run_op o ;! run_ops p ops
  end.

Definition proc_thread (p : nat) (ops : list op) : M unit :=
  release (L_proc p) ;!
  run_ops p ops.

(** ** The machine *)

Definition st (i : nat) (s : kstate) : procstate := p_state (proc_at i s).

(** The state in which a context may be resumed: interrupts are off, exactly one push_off
    is open, the lock of the cpu's process is held; a resumed process is the cpu's process
    and the only one RUNNING, and the scheduler is resumed with no process RUNNING. *)
Definition switch_safe (new : ctx) (s : kstate) : Prop :=
  exists q, c_proc (my s) = Some q /\ noff s = 1 /\ k_sie s = false /\ lock_mine (L_proc q) s /\
    match new with
    | CtxProc t => q = t /\ forall i, st i s = RUNNING <-> i = t
    | CtxCpu c => c = k_hart s /\ forall i, st i s <> RUNNING
    end.

(** [T] holds the saved contexts; [r] is what the running thread does next.  The first [n]
    switches of the run are safe, and resume saved contexts. *)
Fixpoint safe (n : nat) (T : gmap ctx (kstate -> res unit)) (r : res unit) : Prop :=
  match n with
  | O => True
  | S n' =>
      match r with
      | Swtch old new s k =>
          switch_safe new s /\
          match T !! new with
          | Some k' => safe n' (<[old := k]> (delete new T)) (k' s)
          | None => False
          end
      | NoFuel => True
      | _ => False
      end
  end.

(** ** What a thread guarantees at each switch *)

Definition waiting (x : procstate) : Prop := x = RUNNABLE \/ x = SLEEPING.
Definition woken (x y : procstate) : Prop := y = x \/ x = SLEEPING /\ y = RUNNABLE.

#[global] Instance woken_preorder : PreOrder woken.
Proof.
  split; [by left|]. intros x y z [->|[-> ->]] [->|[E ->]]; try done; [by left|by right|by right].
Qed.

Lemma woken_waiting x y : woken x y -> waiting y -> waiting x.
Proof. intros [->|[-> ->]] W; [done|by right]. Qed.

(** The other processes are at most woken up. *)
Definition evolves (p : nat) (s s' : kstate) : Prop :=
  k_hart s' = k_hart s /\ forall i, i <> p -> woken (st i s) (st i s').

#[global] Instance evolves_preorder p : PreOrder (evolves p).
Proof.
  split; [done|]. intros a b c [H1 W1] [H2 W2]. split; [congruence|].
  intros i N. etransitivity; eauto.
Qed.

(** [p] is being resumed. *)
Definition ready (p : nat) (s : kstate) : Prop :=
  handover p s /\ lock_free L_ticks s /\ st p s = RUNNING.

(** [p] runs in the kernel, holding nothing. *)
Definition active (p : nat) (s : kstate) : Prop :=
  running p s /\ noff s = 0 /\ lock_free L_ticks s /\ st p s = RUNNING.

(** [r] leaves [p] for the scheduler or directly for a waiting peer; if [p] is to run
    again, its continuation satisfies [P]. *)
Definition switches (P : (kstate -> res unit) -> Prop) (p : nat) (s : kstate) (r : res unit) : Prop :=
  exists new s' k, r = Swtch (CtxProc p) new s' k /\ k_hart s' = k_hart s /\ lock_free L_ticks s' /\
    (st p s' <> ZOMBIE -> P k) /\
    (new = CtxCpu (k_hart s) /\ handover p s' /\ st p s' <> RUNNING /\
       (forall i, i <> p -> woken (st i s) (st i s')) \/
     exists t, new = CtxProc t /\ t <> p /\ ready t s' /\ waiting (st t s) /\ st p s' = SLEEPING /\
       (forall i, i <> p -> i <> t -> woken (st i s) (st i s'))).

Fixpoint resumable (n : nat) (p : nat) (k : kstate -> res unit) : Prop :=
  match n with
  | O => True
  | S n' => forall s, ready p s -> switches (resumable n' p) p s (k s)
  end.

(** One operation: it returns to the running process, or switches away and returns when
    the process is resumed. *)
Definition returns (p : nat) (k : kstate -> res unit) : Prop :=
  forall s, ready p s -> exists s', k s = Ok tt s' /\ active p s' /\ evolves p s s'.

Definition op_ok (p : nat) (s : kstate) (r : res unit) : Prop :=
  (exists s', r = Ok tt s' /\ active p s' /\ evolves p s s') \/ switches (returns p) p s r.

Lemma switches_evolve P p s0 s r : evolves p s0 s -> switches P p s r -> switches P p s0 r.
Proof.
  intros [Hh W] (new & s' & k & E & Hh' & Ht & HP & D). exists new, s', k.
  split; [done|]. split; [congruence|]. split; [done|]. split; [done|].
  destruct D as [(-> & H & N & Wo)|(t & -> & Nt & R & Wt & Sp & Wo)].
  - left. split; [by rewrite Hh|]. split; [done|]. split; [done|]. intros i Ni. etransitivity; eauto.
  - right. exists t. split; [done|]. split; [done|]. split; [done|].
    split; [by eapply woken_waiting; [apply W|]|]. split; [done|]. intros i Ni Nt'. etransitivity; eauto.
Qed.

Lemma switches_mono (P Q : (kstate -> res unit) -> Prop) p s r :
  (forall k, P k -> Q k) -> switches P p s r -> switches Q p s r.
Proof. intros H (new & s' & k & E & Hh & Ht & HP & D). exists new, s', k. auto 10. Qed.

(** Sequencing: an operation followed by code that always ends in a switch. *)
Lemma op_then (P : (kstate -> res unit) -> Prop) p s (m f : M unit) :
  op_ok p s (m s) -> (forall s', active p s' -> switches P p s' (f s')) ->
  (forall k, (forall s', ready p s' -> switches P p s' (k s')) -> P k) ->
  switches P p s ((m ;! f) s).
Proof.
  intros [(s' & E & A & V)|(new & s' & k & E & Hh & Ht & HP & D)] Hf HK.
  - erewrite bind_ok; [|exact E]. eapply switches_evolve; [exact V|auto].
  - erewrite bind_swtch; [|exact E]. eexists new, s', _. split; [reflexivity|]. split; [done|].
    split; [done|]. split; [|done]. intros Z. apply HK. intros s2 R2.
    destruct (HP Z s2 R2) as (s3 & E3 & A3 & V3). rewrite E3. cbn [res_bind].
    eapply switches_evolve; [exact V3|auto].
Qed.

(** ** The operations *)

Lemma st_upd i j f s :
  length (k_procs s) = NPROC -> (j < NPROC)%nat ->
  st i (upd_proc j f s) = if decide (i = j) then p_state (f (proc_at i s)) else st i s.
Proof.
  intros Hl Hj. unfold st, proc_at. ksimpl. case_decide as D.
  - subst. by rewrite proc_at_alter_eq by (by rewrite Hl).
  - by rewrite list_lookup_total_alter_ne by done.
Qed.

(** Operations that only update the process table. *)
Lemma table_op_ok p s (procs : list proc) :
  active p s -> length procs = NPROC ->
  (forall i, woken (st i s) (p_state (procs !!! i))) ->
  active p (set_k_procs procs (settle s)) /\ evolves p s (set_k_procs procs (settle s)).
Proof.
  intros ([Hc Hp Hi Ht Hl] & N & Ht' & Hs) Hlen W. split.
  - split; [|split; [|split]].
    + split; [by apply cpu_ok_settle|by etransitivity; [apply (c_proc_settle s)|]|done|done|done].
    + change (noff (settle s) = 0). by rewrite noff_settle.
    + exact Ht'.
    + specialize (W p). rewrite Hs in W. destruct W as [E|[E _]]; [exact E|done].
  - split; [done|]. intros i _. apply W.
Qed.

Lemma active_settle p s : active p s -> active p (settle s) /\ evolves p s (settle s).
Proof.
  intros A. destruct (table_op_ok p s (k_procs s) A) as [A' V]; [apply A|reflexivity|].
  assert (E : set_k_procs (k_procs s) (settle s) = settle s) by reflexivity.
  by rewrite E in *.
Qed.

Section Ops.
Context `{L : KernelLayout}.

Lemma ret_tt {A} p s (m : M A) :
  (exists x s', m s = Ok x s' /\ active p s' /\ evolves p s s') ->
  op_ok p s ((let! r := m in ret tt) s).
Proof. intros (x & s' & E & A' & V). left. exists s'. split; [|done]. by erewrite bind_ok. Qed.

Lemma kill_op p pid s : active p s -> op_ok p s (run_op (OKill pid) s).
Proof.
  intros A. pose proof A as ([Hc Hp Hi Ht Hl] & _). apply ret_tt. rewrite (kill_eq pid s Hc Hl).
  destruct (pid_slot pid (seq 0 NPROC) s) as [j|] eqn:E.
  2: { eexists _, _. split; [reflexivity|]. by apply active_settle. }
  eexists _, _. split; [reflexivity|]. apply table_op_ok; [done|by rewrite length_alter|].
  apply List.find_some in E as [Hj%List.in_seq _]. intros i.
  change (woken (st i s) (st i (upd_proc j kill_proc s))). rewrite st_upd by (done || lia).
  case_decide; [|done]. unfold kill_proc. cbn [p_state set_p_killed]. fold (st i s).
  case_decide as D; [by right|by left].
Qed.

Lemma wakeup_op p c s : active p s -> op_ok p s (run_op (OWakeup c) s).
Proof.
  intros A. pose proof A as ([Hc Hp Hi Ht Hl] & _). left. cbn [run_op].
  pose proof (wakeup_eq c s Hc Hl) as Ew.
  pose proof (wake_all_spec c (c_proc (my s)) (seq 0 NPROC) (settle s)
    (NoDup_seq _ _) Ht ltac:(intros i Hi'; apply elem_of_seq in Hi'; lia)) as Es.
  cbv zeta in Es. generalize dependent (wake_all c (c_proc (my s)) (seq 0 NPROC) (settle s)).
  intros s' Ew (E & Hlen & W). exists s'. split; [exact Ew|]. rewrite E.
  apply table_op_ok; [exact A|exact Hlen|].
  intros i. specialize (W i). unfold proc_at at 1 in W. rewrite W.
  case_decide; [|by left]. unfold wake. case_decide as D; [|by left]. right. split; [apply D|done].
Qed.

Lemma intena_id s : upd_cpu (k_hart s) (set_c_intena (c_intena (my s))) s = s.
Proof.
  unfold upd_cpu. rewrite alter_id_at; [by destruct s|]. unfold my, set_c_intena.
  by destruct (k_cpus s !!! k_hart s).
Qed.

(** Coming back from swtch: the process's lock is released. *)
Lemma ready_released p f i s :
  ready p s -> (forall q, p_state (f q) = p_state q) ->
  let s' := rel_st (L_proc p) (upd_proc p f (upd_cpu (k_hart s) (set_c_intena i) s)) in
  active p s' /\ evolves p s s'.
Proof.
  intros (H & Ht & Hs) Hf s'. pose proof (ho_tab _ _ H) as Htab. pose proof (ho_idx _ _ H) as Hi.
  assert (V : forall j, st j s' = st j s).
  { intros j. change (st j s') with (st j (upd_proc p f s)). rewrite st_upd by done.
    case_decide; [apply Hf|done]. }
  destruct (released_running p f _ (handover_intena p i s H)) as [R N].
  split; [|split; [done|intros j _; by left]]. split; [exact R|]. split; [exact N|]. split.
  - unfold lock_free, s', rel_st. ksimpl. rewrite lookup_insert_ne by done. exact Ht.
  - by rewrite V.
Qed.

(** Leaving for the scheduler. *)
Lemma to_scheduler P p x f s k :
  active p s -> (forall q, p_state (f q) = x) -> x <> RUNNING ->
  (x <> ZOMBIE -> P k) -> handover p (upd_proc p f (acq_st (L_proc p) s)) ->
  switches P p s (Swtch (CtxProc p) (CtxCpu (k_hart s)) (upd_proc p f (acq_st (L_proc p) s)) k).
Proof.
  intros ([Hc Hp Hi Ht Hl] & N & Hticks & Hs) Hf Nx HP H.
  assert (S : forall i, st i (upd_proc p f (acq_st (L_proc p) s)) = if decide (i = p) then x else st i s).
  { intros i. change (st i (upd_proc p f (acq_st (L_proc p) s))) with (st i (upd_proc p f s)).
    rewrite st_upd by done. case_decide; [apply Hf|done]. }
  eexists _, _, _. split; [reflexivity|]. split; [done|]. split; [by apply lock_free_acq|].
  rewrite S, decide_True by done. split; [done|]. left. split; [done|]. split; [done|]. split; [done|].
  intros i Ni. rewrite S, decide_False by done. by left.
Qed.

Lemma yield_op p s : active p s -> op_ok p s (run_op OYield s).
Proof.
  intros A. pose proof A as (R & N & Hticks & Hs). destruct (yield_eq p s R N) as (k & E & H & K).
  right. cbn [run_op]. rewrite E. apply to_scheduler with (x := RUNNABLE); [done|reflexivity|done| |done].
  intros _ s' Rd. destruct (K s' (proj1 Rd)) as (i & Ek). eexists. split; [exact Ek|].
  destruct (ready_released p (fun q => q) i s' Rd) as [A' V]; [done|].
  by rewrite upd_proc_id in *.
Qed.

Lemma pause_op p c s : active p s -> op_ok p s (run_op (OPause c) s).
Proof.
  intros A. pose proof A as (R & N & Hticks & Hs).
  destruct (sleep_eq c L_ticks p s R N Hticks ltac:(done)) as (k & E & H & K).
  right. cbn [run_op]. erewrite bind_ok; [|by apply acquire_eq]. erewrite bind_swtch; [|exact E].
  apply to_scheduler with (x := SLEEPING); [done|reflexivity|done| |done].
  intros _ s' Rd. destruct (K s' (proj1 Rd) (proj1 (proj2 Rd))) as (i & Ek).
  destruct (ready_released p (set_p_chan CH_null) i s' Rd) as [A' V]; [done|].
  eexists. rewrite Ek. cbn [res_bind]. split; [apply acq_release; apply A'|].
  destruct (active_settle p _ A') as [A2 V2]. split; [exact A2|]. by etransitivity.
Qed.

Lemma co_decide_waiting p pid s t :
  co_decide p pid s = CoMeet t \/ co_decide p pid s = CoFirst t -> waiting (st t s).
Proof.
  unfold co_decide, waiting, st. destruct (_ || _); [by intros []|].
  destruct (lookup_pid pid s) as [t'|]; [|by intros []]. destruct (_ || _ || _); [by intros []|].
  destruct (p_state (proc_at t' s)) eqn:E; try by intros []; try congruence.
  - case_decide; intros [D|D]; simplify_eq. by right.
  - intros [D|D]; simplify_eq. by left.
Qed.

(** Leaving directly for a peer. *)
Lemma to_peer P p t f m s k :
  active p s -> (t < NPROC)%nat -> t <> p -> waiting (st t s) ->
  (forall q, p_state (f q) = RUNNING) -> P k ->
  switches P p s (Swtch (CtxProc p) (CtxProc t) (handoff m (alter f t (alter (co_park t) p (k_procs s))) t s) k).
Proof.
  intros ([Hc Hp Hi Ht Hl] & N & Hticks & Hs) Htn Nt Wt Hf HP.
  set (procs := alter f t _). assert (Hlen : length procs = NPROC) by (unfold procs; by rewrite !length_alter).
  assert (S : forall i, st i (handoff m procs t s) =
    if decide (i = t) then RUNNING else if decide (i = p) then SLEEPING else st i s).
  { intros i. unfold st, proc_at, procs, handoff. ksimpl. case_decide as D.
    - subst i. by rewrite proc_at_alter_eq by (by rewrite length_alter, Ht).
    - rewrite list_lookup_total_alter_ne by done. case_decide as D'.
      + subst i. by rewrite proc_at_alter_eq by (by rewrite Ht).
      + by rewrite list_lookup_total_alter_ne. }
  eexists _, _, _. split; [reflexivity|]. split; [done|]. split; [by apply lock_free_acq|].
  split; [done|]. right. exists t. split; [done|]. split; [done|]. split; [split; [|split]|].
  - by apply (handoff_handover p).
  - by apply lock_free_acq.
  - by rewrite S, decide_True.
  - split; [done|]. split; [by rewrite S, decide_False, decide_True|].
    intros i Np Nt'. rewrite S, !decide_False by done. by left.
Qed.

Lemma co_yield_op p pid value s : active p s -> op_ok p s (run_op (OCoYield pid value) s).
Proof.
  intros A. pose proof A as (R & N & _). pose proof (co_yield_run p pid value s R) as E.
  destruct (co_decide p pid s) as [|t|t] eqn:D.
  1: { apply ret_tt. eexists _, _. split; [exact E|]. by apply active_settle. }
  all: destruct E as (k & E & K).
  all: destruct (co_decide_target p pid s t ltac:(auto)) as (Ht & Nt & _).
  all: right; cbn [run_op]; erewrite bind_swtch; [|exact E].
  all: apply to_peer; try done; [by apply (co_decide_waiting p pid); auto|].
  all: intros s' Rd; rewrite (K s' (proj1 Rd)); unfold co_resume; cbn [res_bind];
    eexists; split; [reflexivity|].
  all: pose proof (ready_released p (set_p_chan CH_null) (c_intena (my s')) s' Rd ltac:(done)) as G;
    rewrite intena_id in G; exact G.
Qed.

Lemma run_op_ok p o s : active p s -> op_ok p s (run_op o s).
Proof.
  destruct o; [apply yield_op|apply co_yield_op|apply kill_op|apply wakeup_op|apply pause_op].
Qed.

Lemma finish_ok P p s : active p s -> switches P p s (finish p s).
Proof.
  intros A. pose proof A as (R & N & _). pose proof R as [Hc Hp Hi Ht Hl].
  assert (H : handover p (upd_proc p (set_p_state ZOMBIE) (acq_st (L_proc p) s)))
    by (by apply handover_upd, acquire_handover).
  assert (Z : st p (upd_proc p (set_p_state ZOMBIE) (acq_st (L_proc p) s)) = ZOMBIE)
    by (rewrite st_upd by done; by rewrite decide_True).
  destruct (sched_eq p _ H) as (k & E & _); [unfold st in Z; by rewrite Z|].
  unfold finish. erewrite bind_ok; [|by apply acquire_eq, Hl]. kprim. erewrite bind_swtch; [|exact E].
  change (k_hart (upd_proc p (set_p_state ZOMBIE) (acq_st (L_proc p) s))) with (k_hart s).
  by apply to_scheduler with (x := ZOMBIE).
Qed.

Lemma resumable_down n p k : resumable (S n) p k -> resumable n p k.
Proof.
  revert k. induction n as [|n IH]; intros k H; [done|]. intros s Rd.
  eapply switches_mono; [|by apply H]. apply IH.
Qed.

Lemma resumable_intro n p k :
  (forall s, ready p s -> switches (resumable n p) p s (k s)) -> resumable n p k.
Proof. intros H. apply resumable_down. exact H. Qed.

Lemma run_ops_ok n p ops s : active p s -> switches (resumable n p) p s (run_ops p ops s).
Proof.
  revert s. induction ops as [|o ops IH]; intros s A; [by apply finish_ok|]. cbn [run_ops].
  apply op_then; [by apply run_op_ok|exact IH|apply resumable_intro].
Qed.

Lemma proc_thread_resumable n p ops : resumable n p (proc_thread p ops).
Proof.
  apply resumable_intro. intros s Rd. pose proof Rd as (H & Ht & Hs). unfold proc_thread.
  erewrite bind_ok; [|by apply release_handover].
  destruct (ready_released p (fun q => q) (c_intena (my s)) s Rd) as [A V]; [done|].
  rewrite upd_proc_id, intena_id in *. eapply switches_evolve; [exact V|]. by apply run_ops_ok.
Qed.

End Ops.

(** ** The scheduler thread *)

(** The scheduler runs, with nothing held. *)
Definition resting (c : nat) (s : kstate) : Prop := idle c s /\ lock_free L_ticks s.

(** Process [j] has switched to the scheduler. *)
Definition returned (j c : nat) (s : kstate) : Prop :=
  handover j s /\ lock_free L_ticks s /\ k_hart s = c.

Definition same_st (s s' : kstate) : Prop := forall i, st i s' = st i s.

(** For [n] switches, [r] only dispatches runnable processes, and it returns only in
    states that satisfy [fin]. *)
Fixpoint serves (fin : kstate -> Prop) (n c : nat) (s : kstate) (r : res unit) : Prop :=
  match n with
  | O => True
  | S n' =>
      r = NoFuel \/ (exists s', r = Ok tt s' /\ fin s' /\ same_st s s') \/
      exists i s' k, r = Swtch (CtxCpu c) (CtxProc i) s' k /\ k_hart s' = c /\ ready i s' /\
        st i s = RUNNABLE /\ (forall j, j <> i -> st j s' = st j s) /\
        forall s2 j, returned j c s2 -> serves fin n' c s2 (k s2)
  end.

Lemma serves_same fin n c s s0 r : same_st s0 s -> serves fin n c s r -> serves fin n c s0 r.
Proof.
  intros E. destruct n as [|n]; [done|]. intros [->|[(s' & -> & F & E')|(i & s' & k & -> & Hh & R & Er & O & K)]].
  - by left.
  - right; left. exists s'. split; [done|]. split; [done|]. intros j. by rewrite E', E.
  - right; right. exists i, s', k. split; [done|]. split; [done|]. split; [done|].
    split; [by rewrite <- E|]. split; [|done]. intros j Nj. by rewrite O, E.
Qed.

Lemma serves_bind fin fin' n c s (m f : M unit) :
  serves fin n c s (m s) -> (forall n s', fin s' -> serves fin' n c s' (f s')) ->
  serves fin' n c s ((m ;! f) s).
Proof.
  intros H Hf. unfold bind. remember (m s) as r eqn:Er. clear Er.
  revert s r H. induction n as [|n IH]; intros s r H; [done|].
  destruct H as [->|[(s' & -> & F & E')|(i & s' & k & -> & Hh & R & Er & O & K)]].
  - by left.
  - cbn [res_bind]. eapply serves_same; [exact E'|auto].
  - right; right. exists i, s'. eexists. split; [reflexivity|]. split; [done|]. split; [done|].
    split; [done|]. split; [done|]. intros s2 j H2. apply IH. by apply (K _ j).
Qed.

Section Scheduler.
Context `{L : KernelLayout}.

Lemma sched_visit_serves n c i s :
  resting c s -> (i < NPROC)%nat -> serves (resting c) n c s (sched_visit c i s).
Proof.
  intros [Hid Ht] Hi. destruct n as [|n]; [done|]. right.
  destruct (sched_visit_eq c i s Hid Hi) as [[_ E]|[Er (k & E & H & K)]].
  - left. eexists. split; [exact E|]. split; [|done]. split; [by apply idle_settle|exact Ht].
  - right. pose proof Hid as [Hc Hh N Hl Hp]. eexists i, _, k.
    assert (S : forall j, st j (upd_cpu c (set_c_proc (Some i)) (upd_proc i (set_p_state RUNNING) (acq_st (L_proc i) s))) =
      if decide (j = i) then RUNNING else st j s).
    { intros j. change (st j (upd_proc i (set_p_state RUNNING) s) = if decide (j = i) then RUNNING else st j s).
      rewrite st_upd by done. done. }
    split; [exact E|]. split; [exact Hh|]. split.
    { split; [exact H|]. split; [by apply (lock_free_acq L_ticks (L_proc i) s)|]. by rewrite S, decide_True. }
    split; [done|]. split; [intros j Nj; by rewrite S, decide_False|].
    intros s2 j (H2 & Ht2 & Hh2). rewrite (K s2 j H2 Hh2). destruct n as [|n]; [done|]. right; left.
    eexists. split; [reflexivity|]. split; [|done]. split; [by apply (back_idle j c s2)|].
    unfold lock_free, rel_st. ksimpl. rewrite lookup_insert_ne by done. exact Ht2.
Qed.

Lemma pass_serves n c l s :
  (forall i, i ∈ l -> (i < NPROC)%nat) -> resting c s ->
  serves (resting c) n c s (foreach l (sched_visit c) s).
Proof.
  intros Hl. revert n s. induction l as [|i l IH]; intros n s R.
  - destruct n; [done|]. right; left. exists s. done.
  - cbn [foreach]. eapply serves_bind; [apply sched_visit_serves; [done|apply Hl; by left]|].
    intros n' s' R'. apply IH; [|done]. intros j Hj. apply Hl. by right.
Qed.

Lemma scheduler_loop_serves n rounds c s :
  resting c s -> serves (fun _ => False) n c s (scheduler_loop rounds c s).
Proof.
  revert n s. induction rounds as [|rounds IH]; intros n s R; cbn [scheduler_loop].
  - destruct n; [done|]. by left.
  - unfold intr_on. kprim. eapply serves_same with (s := set_k_sie true s); [done|].
    eapply serves_bind; [|exact IH]. apply pass_serves.
    + intros i Hi. apply elem_of_seq in Hi. lia.
    + destruct R as [Hid Ht]. split; [by apply idle_intr|exact Ht].
Qed.

Lemma idle_no_proc c s : idle c s -> idle c (upd_cpu c (set_c_proc None) s).
Proof.
  intros [(H1 & H2 & H3) Hh N Htab Hl]. subst c.
  assert (My : my (upd_cpu (k_hart s) (set_c_proc None) s) = set_c_proc None (my s)) by (by apply my_upd).
  assert (N' : noff (upd_cpu (k_hart s) (set_c_proc None) s) = noff s) by (unfold noff; by rewrite My).
  split; [|done|by rewrite N'|done|done]. split; [ksimpl; by rewrite length_alter|]. by rewrite N'.
Qed.

Lemma scheduler_serves n rounds c s :
  resting c s -> serves (fun _ => False) n c s (scheduler rounds s).
Proof.
  intros [Hid Ht]. unfold scheduler, mycpu, cpuid. do 2 kprim. rewrite (id_hart _ _ Hid).
  eapply serves_same with (s := upd_cpu c (set_c_proc None) s); [done|]. apply scheduler_loop_serves.
  split; [|exact Ht]. by apply idle_no_proc.
Qed.

End Scheduler.

(** ** The whole machine *)

Lemma woken_running x y : woken x y -> y = RUNNING -> x = RUNNING.
Proof. by intros [->|[-> ->]]. Qed.

Section World.
Context (c : nat).

(** Every process that may be resumed, [but] apart, has a context that can be. *)
Definition contexts (n : nat) (but : nat -> Prop) (T : gmap ctx (kstate -> res unit)) (s : kstate) : Prop :=
  forall i, ~ but i -> st i s <> RUNNING /\
    (waiting (st i s) -> exists k, T !! CtxProc i = Some k /\ resumable n i k).

Definition cpu_context (n : nat) (T : gmap ctx (kstate -> res unit)) : Prop :=
  exists k, T !! CtxCpu c = Some k /\ forall s j, returned j c s -> serves (fun _ => False) n c s (k s).

Lemma contexts_down n but T s : contexts (S n) but T s -> contexts n but T s.
Proof.
  intros H i Ni. destruct (H i Ni) as [R W]. split; [done|]. intros Wi.
  destruct (W Wi) as (k & E & K). exists k. split; [done|]. by apply resumable_down.
Qed.

Lemma handover_safe q new s :
  handover q s ->
  match new with
  | CtxProc t => q = t /\ forall i, st i s = RUNNING <-> i = t
  | CtxCpu c => c = k_hart s /\ forall i, st i s <> RUNNING
  end -> switch_safe new s.
Proof. intros H D. exists q. destruct H. done. Qed.

(** A dispatch by the scheduler. *)
Lemma run_scheduler n T s r :
  (forall T s p r, k_hart s = c -> switches (resumable n p) p s r -> cpu_context n T ->
     contexts n (fun i => i = p) T s -> safe n T r) ->
  serves (fun _ => False) (S n) c s r -> contexts (S n) (fun _ => False) T s -> safe (S n) T r.
Proof.
  intros IH [->|[(s' & _ & [] & _)|(i & s' & k & -> & Hh & R & Er & O & K)]] HT; [done|].
  cbn [safe]. split.
  { apply (handover_safe i); [apply R|]. split; [done|]. intros j. split; [|intros ->; apply R].
    destruct (decide (j = i)) as [|Nj]; [done|]. rewrite O by done. intros Ej. by destruct (HT j ltac:(auto)) as [[] _]. }
  destruct (HT i ltac:(auto)) as [_ W]. destruct W as (ki & Ei & Ki); [by left|]. rewrite Ei.
  apply (IH _ s' i); [done|by apply Ki| |].
  - exists k. split; [by rewrite lookup_insert_eq|]. exact K.
  - intros j Nj. destruct (contexts_down _ _ _ _ HT j ltac:(auto)) as [Rj Wj]. rewrite (O j Nj). split; [done|].
    intros Wt. rewrite lookup_insert_ne by done. rewrite lookup_delete_ne by congruence. auto.
Qed.

(** The contexts after [p] has saved its own and [new] is resumed. *)
Lemma contexts_switch n (but : nat -> Prop) new p k T s s' :
  contexts (S n) (fun i => i = p) T s ->
  (~ but p -> st p s' <> RUNNING /\ (st p s' <> ZOMBIE -> resumable (S n) p k)) ->
  (forall i, i <> p -> ~ but i -> woken (st i s) (st i s') /\ new <> CtxProc i) ->
  contexts n but (<[CtxProc p := k]> (delete new T)) s'.
Proof.
  intros HT Hp Ho i Ni. apply contexts_down in HT. destruct (decide (i = p)) as [->|Np].
  - destruct (Hp Ni) as [R K]. split; [done|]. intros W. exists k. rewrite lookup_insert_eq. split; [done|].
    apply resumable_down, K. by destruct W as [->| ->].
  - destruct (HT i Np) as [R W], (Ho i Np Ni) as [Wo Nn].
    split; [intros E; apply R; by eapply woken_running|]. intros Wi.
    rewrite lookup_insert_ne by congruence. rewrite lookup_delete_ne by done. apply W. by eapply woken_waiting.
Qed.

Lemma serves_down fin n s r : serves fin (S n) c s r -> serves fin n c s r.
Proof.
  revert s r. induction n as [|n IH]; intros s r; [done|].
  intros [?|[?|(i & s2 & k & E & A & B & C & O & K)]]; [by left|by right; left|].
  right; right. exists i, s2, k. repeat (split; [done|]). intros s3 j H. apply IH. by apply (K _ j).
Qed.

(** A switch by a process. *)
Lemma run_process n T s p r :
  (forall T s p r, k_hart s = c -> switches (resumable n p) p s r -> cpu_context n T ->
     contexts n (fun i => i = p) T s -> safe n T r) ->
  (forall T s r, serves (fun _ => False) n c s r -> contexts n (fun _ => False) T s -> safe n T r) ->
  k_hart s = c -> switches (resumable (S n) p) p s r -> cpu_context (S n) T ->
  contexts (S n) (fun i => i = p) T s -> safe (S n) T r.
Proof.
  intros IHp IHs Hh (new & s' & k & -> & Hh' & Ht & HP & D) (kc & Ec & Kc) HT. cbn [safe].
  destruct D as [(-> & H & Np & W)|(t & -> & Nt & R & Wt & Sp & W)].
  - rewrite Hh, Ec. split.
    { apply (handover_safe p); [done|]. split; [congruence|]. intros i Ri. destruct (decide (i = p)) as [->|Ni]; [done|].
      apply (proj1 (HT i Ni)). by eapply woken_running; [apply W|]. }
    apply (IHs _ s'); [apply serves_down, (Kc s' p); split; [done|split; [done|congruence]]|].
    eapply contexts_switch; [exact HT|done|]. intros i Ni _. split; [by apply W|done].
  - split.
    { apply (handover_safe t); [apply R|]. split; [done|]. intros i. split; [|intros ->; apply R].
      destruct (decide (i = t)) as [|Nit]; [done|]. intros Ri. destruct (decide (i = p)) as [->|Ni]; [congruence|].
      destruct (proj1 (HT i Ni)). by eapply woken_running; [apply W|]. }
    destruct (HT t Nt) as [_ Wk]. destruct (Wk Wt) as (kt & Et & Kt). rewrite Et.
    apply (IHp _ s' t); [congruence|by apply Kt| |].
    + exists kc. rewrite lookup_insert_ne by done. rewrite lookup_delete_ne by done. split; [done|].
      intros s2 j H2. apply serves_down. by apply (Kc s2 j).
    + eapply contexts_switch; [exact HT|intros _; split; [by rewrite Sp|done]|].
      intros i Ni Nit. split; [by apply W|congruence].
Qed.

Lemma machine_runs n :
  (forall T s p r, k_hart s = c -> switches (resumable n p) p s r -> cpu_context n T ->
     contexts n (fun i => i = p) T s -> safe n T r) /\
  (forall T s r, serves (fun _ => False) n c s r -> contexts n (fun _ => False) T s -> safe n T r).
Proof.
  induction n as [|n [IHp IHs]]; [done|]. split; intros *.
  - by apply run_process.
  - by apply run_scheduler.
Qed.

End World.

Section Main.
Context `{L : KernelLayout}.

(** Every slot of the process table has a thread that runs its program. *)
Definition threads (progs : nat -> list op) : gmap ctx (kstate -> res unit) :=
  list_to_map ((fun i => (CtxProc i, proc_thread i (progs i))) <$> seq 0 NPROC).

Lemma threads_lookup progs i :
  (i < NPROC)%nat -> threads progs !! CtxProc i = Some (proc_thread i (progs i)).
Proof.
  intros Hi. apply elem_of_list_to_map_1.
  - rewrite <- list_fmap_compose. apply NoDup_fmap; [|apply NoDup_seq]. intros x y E. by simplify_eq/=.
  - apply list_elem_of_fmap. exists i. split; [done|]. apply elem_of_seq. lia.
Qed.

(** C6: Whatever yield, co_yield, kill, wakeup and sleep operations the processes perform,
    in whatever order, a cpu that runs them under the scheduler is safe for any number of
    switches: no operation panics, spins on a lock that is never released or dereferences
    a null process pointer, the scheduler does not return, and every swtch resumes a
    context that was saved and not yet resumed, in a state where the lock of the cpu's
    process is the one lock held, and the resumed process is the only one RUNNING. *)
Theorem scheduling_safe progs c rounds n s :
  idle c s -> lock_free L_ticks s -> (forall i, st i s <> RUNNING) ->
  safe n (threads progs) (scheduler rounds s).
Proof.
  intros Hid Ht Hr. apply (proj2 (machine_runs c n)) with (s := s).
  - by apply scheduler_serves.
  - intros i _. split; [apply Hr|]. intros W. eexists. split; [|apply proc_thread_resumable].
    apply threads_lookup. destruct (decide (i < NPROC)%nat) as [|Ni]; [done|].
    unfold st, proc_at in W. rewrite list_lookup_total_alt, lookup_ge_None_2 in W;
      [by destruct W|]. rewrite (id_tab _ _ Hid). lia.
Qed.

End Main.

(** ** An example: two processes that yield to each other, sleep and kill *)

Definition demo_idle : kstate :=
  let s := default kstate0 (run_state ((procinit ;! initlock L_ticks) kstate0)) in
  upd_proc 3 (fun p => set_p_state RUNNABLE (set_p_pid 4 (set_p_trapframe 0x87ffe000 p)))
    (upd_proc 5 (fun p => set_p_state RUNNABLE (set_p_pid 6 (set_p_trapframe 0x87ffd000 p))) s).

Lemma demo_idle_ok : idle 0 demo_idle.
Proof.
  split.
  - repeat split; vm_compute; intros; lia || discriminate.
  - vm_compute. reflexivity.
  - vm_compute. reflexivity.
  - vm_compute. reflexivity.
  - apply plocks_freeb_sound. vm_compute. reflexivity.
Qed.

Definition demo_progs (i : nat) : list op :=
  if decide (i = 3%nat) then [OCoYield 6 10; OYield; OWakeup CH_ticks; OCoYield 6 11]
  else [OCoYield 4 20; OPause CH_ticks; OKill 4].

Lemma demo_idle_none_running i : st i demo_idle <> RUNNING.
Proof.
  assert (F : Forall (fun p => p_state p <> RUNNING) (k_procs demo_idle)).
  { apply (bool_decide_unpack _). vm_compute. exact I. }
  unfold st, proc_at. rewrite list_lookup_total_alt.
  destruct (k_procs demo_idle !! i) as [q|] eqn:E; [|vm_compute; discriminate].
  exact (proj1 (Forall_lookup _ _) F i q E).
Qed.

Lemma scheduling_safe_witness :
  safe 20 (threads demo_progs) (scheduler 10 demo_idle).
Proof.
  apply (scheduling_safe demo_progs 0).
  - exact demo_idle_ok.
  - vm_compute. reflexivity.
  - exact demo_idle_none_running.
Defined.

Lemma idle_upd_proc c i f s : idle c s -> idle c (upd_proc i f s).
Proof. intros []. split; try done. ksimpl. by rewrite length_alter. Qed.

Lemma wakeup_wakes_exactly_witness :
  exists s', wakeup CH_ticks (upd_proc 3 (sleep_on CH_ticks) demo_idle) = Ok tt s' /\
    p_state (proc_at 3 s') = RUNNABLE /\ p_chan (proc_at 3 s') = CH_ticks.
Proof.
  pose proof (idle_upd_proc 0 3 (sleep_on CH_ticks) demo_idle demo_idle_ok) as I.
  destruct (wakeup_wakes_exactly CH_ticks (upd_proc 3 (sleep_on CH_ticks) demo_idle)
    (id_cpu _ _ I) (id_locks _ _ I) (id_tab _ _ I)) as (s' & E & _ & W).
  exists s'. split; [exact E|]. rewrite (W 3%nat) by (unfold NPROC; lia). vm_compute. split; reflexivity.
Defined.
