(* ===== verification/Fairness.v ===== *)
(** * No process starves

    On the cpu of Machine.v every process that is RUNNABLE is resumed after a bounded number
    of switches.  The scheduler visits each slot once a pass; a process that runs leaves for
    the scheduler, or by co_yield directly for a peer, which delays the pass by one switch. *)

From S2P Require Import Prelude Memory Riscv State Kmonad Spinlock CString Kalloc Vm Proc ProcSpec.
From S2P Require Import CoYield Coroutine Sched Machine.
From Stdlib Require Import ZArith Lia.
From stdpp Require Import base numbers list gmap strings option.

#[local] Open Scope Z_scope.
#[local] Open Scope kernel_scope.

(** ** Being resumed soon *)

(** At most [n] switches of the machine come before the one to process [p]; [fin] says
    whether the end of the scheduler's rounds may come first. *)
Fixpoint soon (fin : Prop) (p n : nat) (T : gmap ctx (kstate -> res unit)) (r : res unit) : Prop :=
  match r with
  | NoFuel => fin
  | Swtch old new s k =>
      new = CtxProc p \/
      match n with
      | O => False
      | S n' => match T !! new with Some k' => soon fin p n' (<[old := k]> (delete new T)) (k' s) | None => False end
      end
  | _ => False
  end.

(** At each of the first [n] switches, every process that is RUNNABLE then is resumed within
    [m] further switches, or the scheduler's rounds end. *)
Fixpoint live (m n : nat) (T : gmap ctx (kstate -> res unit)) (r : res unit) : Prop :=
  match n with
  | O => True
  | S n' =>
      match r with
      | NoFuel => True
      | Swtch old new s k =>
          match T !! new with
          | Some k' =>
              let T' := <[old := k]> (delete new T) in
              (forall p, st p s = RUNNABLE -> soon True p m T' (k' s)) /\ live m n' T' (k' s)
          | None => False
          end
      | _ => False
      end
  end.

(** ** Processes and the co_yields they have left *)

(** The number of direct hand-overs a program can make. *)
Fixpoint co_yields (ops : list op) : nat :=
  match ops with
  | [] => 0
  | OCoYield _ _ :: ops' => S (co_yields ops')
  | _ :: ops' => co_yields ops'
  end.

(** [k] goes on with the operations [ops]. *)
Definition pending (p : nat) (ops : list op) (k : kstate -> res unit) : Prop :=
  forall s, ready p s -> exists s', k s = run_ops p ops s' /\ active p s' /\ evolves p s s'.

Definition to_proc (r : res unit) : Prop := match r with Swtch _ (CtxProc _) _ _ => True | _ => False end.

Section Process.
Context `{L : KernelLayout}.

Lemma proc_thread_pending p ops : pending p ops (proc_thread p ops).
Proof.
  intros s Rd. pose proof Rd as (H & Ht & Hs). unfold proc_thread. erewrite bind_ok; [|by apply release_handover].
  destruct (ready_released p (fun q => q) (c_intena (my s)) s Rd) as [A V]; [done|].
  rewrite upd_proc_id, intena_id in *. eexists. split; [reflexivity|]. done.
Qed.

(** Only co_yield switches to a process. *)
Lemma op_to_proc p o s : active p s -> to_proc (run_op o s) -> exists pid value, o = OCoYield pid value.
Proof.
  intros A. pose proof A as (R & N & Hticks & Hs). destruct o as [|pid value|pid|c|c]; cbn [run_op]; [| |intros H..].
  - destruct (yield_eq p s R N) as (k & E & _). rewrite E. done.
  - intros _. by exists pid, value.
  - exfalso. pose proof R as [Hc Hp Hi Ht Hl]. unfold bind in H. rewrite (kill_eq pid s Hc Hl) in H.
    by destruct (pid_slot pid (seq 0 NPROC) s).
  - exfalso. pose proof R as [Hc Hp Hi Ht Hl]. by rewrite (wakeup_eq c s Hc Hl) in H.
  - exfalso. destruct (sleep_eq c L_ticks p s R N Hticks ltac:(done)) as (k & E & _).
    erewrite bind_ok in H; [|by apply acquire_eq]. by erewrite bind_swtch in H; [|exact E].
Qed.

Lemma finish_to_proc p s : active p s -> ~ to_proc (finish p s).
Proof.
  intros A. pose proof A as (R & N & _). pose proof R as [Hc Hp Hi Ht Hl].
  assert (H : handover p (upd_proc p (set_p_state ZOMBIE) (acq_st (L_proc p) s))) by (by apply handover_upd, acquire_handover).
  assert (Z : st p (upd_proc p (set_p_state ZOMBIE) (acq_st (L_proc p) s)) = ZOMBIE) by (rewrite st_upd by done; by rewrite decide_True).
  destruct (sched_eq p _ H) as (k & E & _); [unfold st in Z; by rewrite Z|].
  unfold finish. erewrite bind_ok; [|by apply acquire_eq, Hl]. kprim. erewrite bind_swtch; [|exact E]. by intros [].
Qed.

(** A program runs to its next switch; what is left of it makes no more hand-overs, and one
    less after a hand-over. *)
Lemma run_ops_leaves p ops s :
  active p s -> exists ops', switches (pending p ops') p s (run_ops p ops s) /\ (co_yields ops' <= co_yields ops)%nat /\
    (to_proc (run_ops p ops s) -> co_yields ops' < co_yields ops)%nat.
Proof.
  revert s. induction ops as [|o ops IH]; intros s A; cbn [run_ops].
  - exists []. split; [by apply finish_ok|]. split; [done|]. intros H. by apply finish_to_proc in H.
  - assert (Hle : (co_yields ops <= co_yields (o :: ops))%nat) by (destruct o; cbn; lia).
    destruct (run_op_ok p o s A) as [(s' & E & A' & V)|(new & s' & k & E & Hh & Ht & HP & D)].
    + erewrite bind_ok; [|exact E]. destruct (IH s' A') as (ops' & Sw & Hle' & Hlt). exists ops'.
      split; [by eapply switches_evolve|]. split; [lia|]. intros H. apply Hlt in H. lia.
    + exists ops. erewrite bind_swtch; [|exact E]. split; [|split; [done|]].
      * eexists new, s', _. split; [reflexivity|]. split; [done|]. split; [done|]. split; [|done]. intros Z s2 R2.
        destruct (HP Z s2 R2) as (s3 & E3 & A3 & V3). rewrite E3. exists s3. done.
      * intros H. destruct (op_to_proc p o s A) as (pid & value & ->); [by rewrite E|]. cbn. lia.
Qed.
End Process.

(** ** The scheduler's visits *)

(** The scheduler thread with the visits [l] still to make; [fin] holds after them. *)
Fixpoint sweeps (fin : kstate -> res unit -> Prop) (l : list nat) (c : nat) (s : kstate) (r : res unit) : Prop :=
  match l with
  | [] => fin s r
  | i :: l' =>
      if decide (st i s = RUNNABLE) then
        exists s' k, r = Swtch (CtxCpu c) (CtxProc i) s' k /\ k_hart s' = c /\ ready i s' /\
          (forall j, j <> i -> st j s' = st j s) /\
          forall s2 j, returned j c s2 -> sweeps fin l' c s2 (k s2)
      else sweeps fin l' c s r
  end.

(** The visits are over: the pass returns, or the scheduler has no round left. *)
Definition pass_done (c : nat) (s : kstate) (r : res unit) : Prop := exists s', r = Ok tt s' /\ resting c s' /\ same_st s s'.
Definition rounds_over (s : kstate) (r : res unit) : Prop := r = NoFuel.

Lemma sweeps_same fin l c s s0 r :
  (forall r, fin s r -> fin s0 r) -> same_st s0 s -> sweeps fin l c s r -> sweeps fin l c s0 r.
Proof.
  intros Hf E. revert r. induction l as [|i l IH]; intros r; [by apply Hf|]. cbn [sweeps]. rewrite <- (E i). case_decide; [|apply IH].
  intros (s' & k & -> & Hh & R & O & K). exists s', k. split_and!; try done. intros j Nj. by rewrite (O j Nj), E.
Qed.

Lemma sweeps_bind fin l l' c s (m f : M unit) :
  (forall s s0 r, same_st s0 s -> fin s r -> fin s0 r) ->
  sweeps (pass_done c) l c s (m s) -> (forall s', resting c s' -> sweeps fin l' c s' (f s')) ->
  sweeps fin (l ++ l') c s ((m ;! f) s).
Proof.
  intros Hfin H Hf. unfold bind. remember (m s) as r eqn:Er. clear Er. revert s r H.
  induction l as [|i l IH]; intros s r H; cbn [app sweeps] in *.
  - destruct H as (s' & -> & R & E). cbn [res_bind]. eapply sweeps_same; [|exact E|by apply Hf]. intros r. by apply Hfin.
  - case_decide; [|by apply IH]. destruct H as (s' & k & -> & Hh & R & O & K). eexists s', _. split; [reflexivity|].
    split_and!; try done. intros s2 j H2. apply IH. by apply (K s2 j).
Qed.

Section Scheduler.
Context `{L : KernelLayout}.

Lemma visit_sweeps c i s : resting c s -> (i < NPROC)%nat -> sweeps (pass_done c) [i] c s (sched_visit c i s).
Proof.
  intros [Hid Ht] Hi. cbn [sweeps]. destruct (sched_visit_eq c i s Hid Hi) as [[Hn E]|[Er (k & E & H & K)]].
  - rewrite decide_False by done. eexists. split; [exact E|]. split; [|done]. split; [by apply idle_settle|exact Ht].
  - rewrite decide_True by done. pose proof Hid as [Hc Hh N Hl Hp].
    assert (S : forall j, st j (upd_cpu c (set_c_proc (Some i)) (upd_proc i (set_p_state RUNNING) (acq_st (L_proc i) s))) =
      if decide (j = i) then RUNNING else st j s).
    { intros j. change (st j (upd_proc i (set_p_state RUNNING) s) = if decide (j = i) then RUNNING else st j s). by rewrite st_upd by done. }
    eexists _, _. split; [exact E|]. split; [exact Hh|]. split; [|split].
    + split; [exact H|]. split; [by apply (lock_free_acq L_ticks (L_proc i) s)|]. by rewrite S, decide_True.
    + intros j Nj. by rewrite S, decide_False.
    + intros s2 j (H2 & Ht2 & Hh2). eexists. split; [exact (K s2 j H2 Hh2)|]. split; [|done]. split; [by apply (back_idle j c s2)|].
      unfold lock_free, rel_st. ksimpl. rewrite lookup_insert_ne by done. exact Ht2.
Qed.

Lemma pass_done_same c s s0 r : same_st s0 s -> pass_done c s r -> pass_done c s0 r.
Proof. intros E (s' & -> & R & E'). exists s'. split; [done|]. split; [done|]. intros i. by rewrite E', E. Qed.

Lemma pass_sweeps c l s :
  resting c s -> (forall i, i ∈ l -> (i < NPROC)%nat) -> sweeps (pass_done c) l c s (foreach l (sched_visit c) s).
Proof.
  revert s. induction l as [|i l IH]; intros s R Hl; cbn [foreach]; [by exists s|].
  apply (sweeps_bind _ [i]); [apply pass_done_same|apply visit_sweeps; [done|apply Hl; by left]|].
  intros s' R'. apply IH; [done|]. intros j Hj. apply Hl. by right.
Qed.

(** All the visits of a number of passes. *)
Fixpoint visits (rounds : nat) : list nat :=
  match rounds with O => [] | S r => seq 0 NPROC ++ visits r end.

Lemma scheduler_loop_sweeps rounds c s : resting c s -> sweeps rounds_over (visits rounds) c s (scheduler_loop rounds c s).
Proof.
  revert s. induction rounds as [|rounds IH]; intros s R; cbn [scheduler_loop visits]; [done|].
  unfold intr_on. kprim. eapply sweeps_same with (s := set_k_sie true s); [done|done|]. apply sweeps_bind; [done| |exact IH].
  apply pass_sweeps; [|intros i Hi%elem_of_seq; lia]. destruct R as [Hid Ht]. split; [by apply idle_intr|exact Ht].
Qed.

Lemma scheduler_sweeps rounds c s : resting c s -> sweeps rounds_over (visits rounds) c s (scheduler rounds s).
Proof.
  intros [Hid Ht]. unfold scheduler, mycpu, cpuid. do 2 kprim. rewrite (id_hart _ _ Hid).
  eapply sweeps_same with (s := upd_cpu c (set_c_proc None) s); [done|done|]. apply scheduler_loop_sweeps.
  split; [|exact Ht]. by apply idle_no_proc.
Qed.
End Scheduler.

(** ** The machine, step by step *)

(** Hand-overs all processes together may still make. *)
Definition total (b : nat -> nat) : nat := sum_list (b <$> seq 0 NPROC).

Lemma sum_change (b : nat -> nat) l q x :
  NoDup l -> q ∈ l -> (sum_list ((fun i => if decide (i = q) then x else b i) <$> l) + b q = sum_list (b <$> l) + x)%nat.
Proof.
  intros ND. induction ND as [|i l Hi ND IH]; intros Hq; [by apply elem_of_nil in Hq|]. cbn [fmap list_fmap sum_list]. case_decide as D.
  - subst i. assert (E : (fun i => if decide (i = q) then x else b i) <$> l = b <$> l); [|rewrite E; cbn; lia].
    apply list_fmap_ext. intros k j Hj%list_elem_of_lookup_2. by rewrite decide_False by (by intros ->).
  - apply elem_of_cons in Hq as [->|Hq]; [done|]. specialize (IH Hq). cbn. lia.
Qed.

Lemma total_change b q x : (q < NPROC)%nat -> (total (fun i => if decide (i = q) then x else b i) + b q = total b + x)%nat.
Proof. intros Hq. apply sum_change; [apply NoDup_seq|apply elem_of_seq; lia]. Qed.

Section Steps.
Context `{L : KernelLayout} (c : nat).

(** Every process that may be resumed, [but] apart, has its context, with at most [b] of it
    hand-overs left. *)
Definition ctxs (b : nat -> nat) (but : nat -> Prop) (T : gmap ctx (kstate -> res unit)) (s : kstate) : Prop :=
  forall i, ~ but i -> st i s <> RUNNING /\
    (waiting (st i s) -> (i < NPROC)%nat /\ exists k ops, T !! CtxProc i = Some k /\ pending i ops k /\ (co_yields ops <= b i)%nat).

Definition cpu_ctx (l : list nat) (T : gmap ctx (kstate -> res unit)) : Prop :=
  exists k, T !! CtxCpu c = Some k /\ forall s j, returned j c s -> sweeps rounds_over l c s (k s).

(** The scheduler runs with the visits [l] ahead, or process [q] does. *)
Definition at_sched (l : list nat) (b : nat -> nat) (T : gmap ctx (kstate -> res unit)) (s : kstate) (r : res unit) : Prop :=
  sweeps rounds_over l c s r /\ ctxs b (fun _ => False) T s.

Definition at_proc (l : list nat) (b : nat -> nat) (T : gmap ctx (kstate -> res unit)) (s : kstate) (q : nat) (r : res unit) : Prop :=
  k_hart s = c /\ (q < NPROC)%nat /\
  (exists ops, switches (pending q ops) q s r /\ (co_yields ops <= b q)%nat /\ (to_proc r -> co_yields ops < b q)%nat) /\
  cpu_ctx l T /\ ctxs b (fun i => i = q) T s.

(** A context that is resumed runs its process. *)
Lemma resume_proc l b T T' s0 s i ki ops :
  ready i s -> k_hart s = c -> (i < NPROC)%nat -> pending i ops ki -> (co_yields ops <= b i)%nat -> cpu_ctx l T' ->
  ctxs b (fun j => j = i) T s0 -> (forall j, j <> i -> T' !! CtxProc j = T !! CtxProc j /\ st j s = st j s0) ->
  exists s', at_proc l b T' s' i (ki s) /\ forall j, j <> i -> woken (st j s) (st j s').
Proof.
  intros R Hh Hi Hp Hb Hc HT Hj. destruct (Hp s R) as (s' & E & A & [Hh' V]). exists s'. split; [|exact V].
  rewrite E. destruct (run_ops_leaves i ops s' A) as (ops' & Sw & Hle & Hlt).
  split; [congruence|]. split; [done|]. split; [exists ops'; split; [done|]; split; [lia|intros H; apply Hlt in H; lia]|]. split; [done|].
  intros j Nj. destruct (Hj j Nj) as [Ej Es], (HT j Nj) as [Hr Hw]. specialize (V j Nj). rewrite Es in V.
  split; [intros Er; apply Hr; by eapply woken_running|]. rewrite Ej. intros W. apply Hw. by eapply woken_waiting.
Qed.

(** From the scheduler: the visits up to the first RUNNABLE process, which runs. *)
Lemma sched_step l b T s r :
  at_sched l b T s r ->
  (r = NoFuel /\ forall i, i ∈ l -> st i s <> RUNNABLE) \/
  exists l1 i l2 s' k ki s2, l = l1 ++ i :: l2 /\ (forall j, j ∈ l1 -> st j s <> RUNNABLE) /\
    r = Swtch (CtxCpu c) (CtxProc i) s' k /\ T !! CtxProc i = Some ki /\ (forall j, j <> i -> st j s' = st j s) /\ st i s' = RUNNING /\
    at_proc l2 b (<[CtxCpu c := k]> (delete (CtxProc i) T)) s2 i (ki s') /\ (forall j, j <> i -> woken (st j s') (st j s2)).
Proof.
  intros [Hs HT]. induction l as [|i l IH]; cbn [sweeps] in Hs; [left; split; [exact Hs|]; intros i Hi; by apply elem_of_nil in Hi|].
  case_decide as D.
  - right. destruct Hs as (s' & k & -> & Hh & R & O & K). destruct (HT i ltac:(auto)) as [_ Hw].
    destruct Hw as (Hi & ki & ops & Ei & Hp & Hb); [by left|].
    destruct (resume_proc l b T (<[CtxCpu c := k]> (delete (CtxProc i) T)) s s' i ki ops) as (s2 & Hat & V); try done.
    + exists k. split; [by rewrite lookup_insert_eq|exact K].
    + intros j _. apply HT. auto.
    + intros j Nj. split; [|by apply O]. rewrite lookup_insert_ne by done. by rewrite lookup_delete_ne by congruence.
    + exists [], i, l, s', k, ki, s2. split_and!; try done; [intros j Hj; by apply elem_of_nil in Hj|apply R].
  - destruct (IH Hs) as [[-> Hn]|(l1 & j & l2 & s' & k & ki & s2 & -> & Hn & H)].
    + left. split; [done|]. intros j [->|Hj]%elem_of_cons; auto.
    + right. exists (i :: l1), j, l2, s', k, ki, s2. split; [done|]. split; [|exact H]. intros x [->|Hx]%elem_of_cons; auto.
Qed.

(** From a process: back to the scheduler, or to a peer with one hand-over less to make. *)
Lemma proc_step l b T s q r :
  at_proc l b T s q r ->
  exists new s' k k' b', r = Swtch (CtxProc q) new s' k /\ T !! new = Some k' /\
    let T' := <[CtxProc q := k]> (delete new T) in
    (new = CtxCpu c /\ (total b' <= total b)%nat /\ (forall j, j <> q -> woken (st j s) (st j s')) /\ at_sched l b' T' s' (k' s') \/
     exists t s2, new = CtxProc t /\ (total b' < total b)%nat /\ (forall j, j <> q -> j <> t -> woken (st j s) (st j s')) /\ st t s' = RUNNING /\
       at_proc l b' T' s2 t (k' s') /\ forall j, j <> t -> woken (st j s') (st j s2)).
Proof.
  intros (Hh & Hq & (ops & (new & s' & k & -> & Hh' & Ht & HP & D) & Hle & Hlt) & (kc & Ec & Kc) & HT).
  set (b' := fun i => if decide (i = q) then co_yields ops else b i).
  assert (Hb' := total_change b q (co_yields ops) Hq). fold b' in Hb'.
  assert (Hbq : b' q = co_yields ops) by (unfold b'; by rewrite decide_True). assert (Hbo : forall i, i <> q -> b' i = b i) by (intros; unfold b'; by rewrite decide_False).
  destruct D as [(-> & H & Np & W)|(t & -> & Nt & R & Wt & Sp & W)].
  - exists (CtxCpu c), s', k, kc, b'. rewrite Hh. split; [done|]. split; [done|]. left. split; [done|]. split; [lia|]. split; [done|]. split.
    + apply (Kc s' q). split; [done|]. split; [done|congruence].
    + intros i _. destruct (decide (i = q)) as [->|Ni].
      * split; [done|]. intros Wq. split; [done|]. exists k, ops. rewrite lookup_insert_eq. split; [done|]. split; [apply HP; by destruct Wq as [->| ->]|lia].
      * destruct (HT i Ni) as [Hr Hw]. split; [intros E; apply Hr; by eapply woken_running; [apply W|]|].
        intros Wi. rewrite lookup_insert_ne by congruence. rewrite lookup_delete_ne by done. rewrite Hbo by done. apply Hw. by eapply woken_waiting; [apply W|].
  - destruct (HT t Nt) as [_ Hw]. destruct (Hw Wt) as (Htn & kt & opst & Et & Hpt & Hbt). specialize (Hlt I).
    exists (CtxProc t), s', k, kt, b'. split; [done|]. split; [done|]. right.
    assert (HT' : ctxs b' (fun j => j = t) (<[CtxProc q := k]> (delete (CtxProc t) T)) s').
    { intros i Ni. destruct (decide (i = q)) as [->|Niq].
      - rewrite Sp. split; [done|]. intros _. split; [done|]. exists k, ops. rewrite lookup_insert_eq. split; [done|]. split; [apply HP; by rewrite Sp|lia].
      - destruct (HT i Niq) as [Hr Hwi]. split; [intros E; apply Hr; by eapply woken_running; [apply W|]|]. intros Wi.
        rewrite lookup_insert_ne by congruence. rewrite lookup_delete_ne by congruence. rewrite Hbo by done. apply Hwi. by eapply woken_waiting; [apply W|]. }
    destruct (resume_proc l b' (<[CtxProc q := k]> (delete (CtxProc t) T)) (<[CtxProc q := k]> (delete (CtxProc t) T)) s' s' t kt opst) as (s2 & Hat & V); try done.
    + congruence.
    + by rewrite Hbo.
    + exists kc. rewrite lookup_insert_ne by done. by rewrite lookup_delete_ne by done.
    + exists t, s2. split_and!; try done; [lia|apply R].
Qed.
End Steps.

(** ** Bounds *)

(** The visits before the next one to [p], or all of them. *)
Fixpoint pos (p : nat) (l : list nat) : nat :=
  match l with
  | [] => 0
  | i :: l' => if decide (i = p) then 0 else S (pos p l')
  end.

Lemma pos_app p l1 i l2 : p ∉ l1 -> i <> p -> pos p (l1 ++ i :: l2) = (S (length l1) + pos p l2)%nat.
Proof.
  intros H N. induction l1 as [|j l1 IH]; cbn [app pos length]; [by rewrite decide_False by done|].
  apply not_elem_of_cons in H as [Hj H]. rewrite decide_False by congruence. by rewrite IH.
Qed.

Section Bounds.
Context `{L : KernelLayout} (c : nat) (fin : Prop) (p : nat).

Lemma runnable_woken x : woken RUNNABLE x -> x = RUNNABLE.
Proof. by intros [->|[? _]]. Qed.

(** With [p] RUNNABLE and a visit to it ahead, only the visits and hand-overs before it come first. *)
Lemma machine_soon n :
  (forall l b T s r, at_sched c l b T s r -> st p s = RUNNABLE -> p ∈ l \/ fin -> (2 * pos p l + total b <= n)%nat -> soon fin p n T r) /\
  (forall l b T s q r, at_proc c l b T s q r -> p <> q -> st p s = RUNNABLE -> p ∈ l \/ fin -> (2 * pos p l + 1 + total b <= n)%nat -> soon fin p n T r).
Proof.
  induction n as [n IH] using lt_wf_ind. split.
  - intros l b T s r Hat Hp Hl Hn. destruct (sched_step c l b T s r Hat) as [[-> Hno]|(l1 & i & l2 & s' & k & ki & s2 & -> & Hno & -> & Ei & O & Ri & Hat' & V)].
    + destruct Hl as [Hl|Hf]; [by apply Hno in Hl|]. by destruct n.
    + destruct (decide (i = p)) as [->|Ni]; [destruct n; by left|].
      assert (Hpl1 : p ∉ l1) by (intros Hx; by apply Hno in Hx). rewrite pos_app in Hn by done.
      destruct n as [|n]; [lia|]. cbn [soon]. right. rewrite Ei. apply (proj2 (IH n ltac:(lia)) l2 b _ s2 i); [done|done| | |lia].
      * apply runnable_woken. rewrite <- Hp, <- (O p) by done. by apply V.
      * destruct Hl as [Hl|]; [left|by right]. apply elem_of_app in Hl as [|Hl]; [done|]. by apply elem_of_cons in Hl as [->|].
  - intros l b T s q r Hat Npq Hp Hl Hn. destruct (proc_step c l b T s q r Hat) as (new & s' & k & k' & b' & -> & En & D). cbv zeta in D.
    destruct n as [|n]; [lia|]. cbn [soon]. destruct D as [(-> & Hb & W & Hat')|(t & s2 & -> & Hb & W & Rt & Hat' & V)].
    + right. rewrite En. apply (proj1 (IH n ltac:(lia)) l b' _ s'); [done| |done|lia]. apply runnable_woken. rewrite <- Hp. by apply W.
    + destruct (decide (t = p)) as [->|Nt]; [by left|right]. rewrite En. apply (proj2 (IH n ltac:(lia)) l b' _ s2 t); [done|done| |done|lia].
      assert (Hs' : st p s' = RUNNABLE) by (apply runnable_woken; rewrite <- Hp; by apply W). apply runnable_woken. rewrite <- Hs'. by apply V.
Qed.
End Bounds.

(** Every slot comes up again within NPROC visits, or the visits end before. *)
Definition cyclic (l : list nat) : Prop := forall p l1 l2, (p < NPROC)%nat -> l = l1 ++ l2 -> (pos p l2 <= NPROC)%nat.

Lemma cyclic_suffix l1 l2 : cyclic (l1 ++ l2) -> cyclic l2.
Proof. intros H p l1' l2' Hp ->. apply (H p (l1 ++ l1') l2'); [done|]. by rewrite app_assoc. Qed.

Lemma pos_le_length p l : (pos p l <= length l)%nat.
Proof. induction l; cbn; [done|]. case_decide; lia. Qed.

Lemma pos_seq p a n l : (a <= p < a + n)%nat -> pos p (seq a n ++ l) = (p - a)%nat.
Proof.
  revert a. induction n as [|n IH]; intros a Hp; [lia|]. cbn [seq app pos]. case_decide as D; [lia|]. rewrite IH by lia. lia.
Qed.

Lemma pos_seq_out p a n l : ~ (a <= p < a + n)%nat -> pos p (seq a n ++ l) = (n + pos p l)%nat.
Proof.
  revert a. induction n as [|n IH]; intros a Hp; [done|]. cbn [seq app pos]. rewrite decide_False, IH by lia. done.
Qed.

Lemma visits_pos p rounds : (p < NPROC)%nat -> (pos p (visits rounds) <= p)%nat.
Proof. intros Hp. destruct rounds as [|r]; cbn [visits]; [cbn; lia|]. rewrite pos_seq by lia. lia. Qed.

Lemma visits_cyclic rounds : cyclic (visits rounds).
Proof.
  induction rounds as [|r IH]; intros p l1 l2 Hp E; [cbn in E; symmetry in E; apply app_nil in E as [-> ->]; cbn; lia|]. cbn [visits] in E.
  destruct (decide (length l1 <= NPROC)%nat) as [Hl|Hl].
  - assert (E2 : l2 = seq (length l1) (NPROC - length l1) ++ visits r).
    { apply (f_equal (drop (length l1))) in E. rewrite drop_app_length, drop_app_le in E by (by rewrite length_seq).
      rewrite <- E. f_equal. apply drop_seq. }
    rewrite E2. destruct (decide (length l1 <= p)%nat).
    + rewrite pos_seq by lia. lia.
    + rewrite pos_seq_out by lia. assert (H := visits_pos p r Hp). lia.
  - apply (IH p (drop NPROC l1) l2 Hp). apply (f_equal (drop NPROC)) in E.
    rewrite drop_app_length' in E by (by rewrite length_seq). rewrite E. apply drop_app_le. lia.
Qed.

Section Live.
Context `{L : KernelLayout} (c : nat).

Lemma machine_live n m :
  (forall l b T s r, at_sched c l b T s r -> cyclic l -> (2 * NPROC + 1 + total b <= m)%nat -> live m n T r) /\
  (forall l b T s q r, at_proc c l b T s q r -> cyclic l -> (2 * NPROC + 1 + total b <= m)%nat -> live m n T r).
Proof.
  induction n as [|n [IHs IHp]]; [done|]. split.
  - intros l b T s r Hat Hc Hm. destruct (sched_step c l b T s r Hat) as [[-> Hno]|(l1 & i & l2 & s' & k & ki & s2 & -> & Hno & -> & Ei & O & Ri & Hat' & V)]; [done|].
    cbn [live]. rewrite Ei. assert (Hc2 : cyclic l2) by (apply (cyclic_suffix (l1 ++ [i])); by rewrite <- app_assoc). split; [|by apply (IHp l2 b _ s2 i)].
    intros p Hp. assert (Np : p <> i) by congruence. assert (Hpn : (p < NPROC)%nat) by (destruct Hat as [_ HT]; destruct (HT p ltac:(auto)) as [_ W]; rewrite <- O in W by done; apply W; by left).
    apply (proj2 (machine_soon c True p m) l2 b _ s2 i); [done|done| |by right|].
    + apply runnable_woken. rewrite <- Hp. by apply V.
    + assert (Hpos := Hc2 p [] l2 Hpn eq_refl). lia.
  - intros l b T s q r Hat Hc Hm. pose proof Hat as (_ & _ & _ & _ & HT). destruct (proc_step c l b T s q r Hat) as (new & s' & k & k' & b' & -> & En & D). cbv zeta in D.
    cbn [live]. rewrite En. destruct D as [(-> & Hb & W & Hat')|(t & s2 & -> & Hb & W & Rt & Hat' & V)].
    + split; [|by apply (IHs l b' _ s'); [done|done|lia]]. intros p Hp.
      assert (Hpn : (p < NPROC)%nat) by (destruct Hat' as [_ HT']; destruct (HT' p ltac:(auto)) as [_ Wp]; apply Wp; by left).
      apply (proj1 (machine_soon c True p m) l b' _ s'); [done|done|by right|]. assert (Hpos := Hc p [] l Hpn eq_refl). lia.
    + split; [|by apply (IHp l b' _ s2 t); [done|done|lia]]. intros p Hp. assert (Np : p <> t) by congruence.
      assert (Hs2 : st p s2 = RUNNABLE) by (apply runnable_woken; rewrite <- Hp; by apply V).
      assert (Hpn : (p < NPROC)%nat) by (destruct Hat' as (_ & _ & _ & _ & HT'); destruct (HT' p Np) as [_ Wp]; apply Wp; by left).
      apply (proj2 (machine_soon c True p m) l b' _ s2 t); [done|done|done|by right|]. assert (Hpos := Hc p [] l Hpn eq_refl). lia.
Qed.

End Live.

