(* ===== verification/Bytes.v ===== *)
(** * Byte arrays and the structs laid out in them

    Reading and writing little-endian fields of a byte array (a cache buffer, a directory
    entry, an ELF header), and the laws of the two operations. *)

From S2P Require Import Prelude.
From Stdlib Require Import ZArith Lia.
From stdpp Require Import base numbers list.

#[local] Open Scope Z_scope.

(** [n] bytes at offset [off]; bytes past the end read as nothing. *)
Definition get_bytes (off n : nat) (l : list Z) : list Z := take n (drop off l).

(** Store the bytes [d] at offset [off]; what does not fit is dropped. *)
Definition put_bytes (off : nat) (d l : list Z) : list Z :=
  take (length l) (take off l ++ d ++ drop (off + length d) l).

Definition get16 (off : nat) (l : list Z) : Z := le_val (get_bytes off 2 l).
Definition put16 (off : nat) (v : Z) (l : list Z) : list Z := put_bytes off (le_bytes 2 v) l.
Definition get32 (off : nat) (l : list Z) : Z := le_val (get_bytes off 4 l).
Definition put32 (off : nat) (v : Z) (l : list Z) : list Z := put_bytes off (le_bytes 4 v) l.
Definition get64 (off : nat) (l : list Z) : Z := le_val (get_bytes off 8 l).
Definition put64 (off : nat) (v : Z) (l : list Z) : list Z := put_bytes off (le_bytes 8 v) l.

(** An array of [n] 32-bit words at offset [off]. *)
Definition get_words (off n : nat) (l : list Z) : list Z :=
  (fun i => get32 (off + 4 * i) l) <$> seq 0 n.

Fixpoint put_words (off : nat) (ws l : list Z) : list Z :=
  match ws with
  | [] => l
  | w :: ws' => put_words (off + 4) ws' (put32 off w l)
  end.

(** ** Laws *)

Lemma length_get_bytes off n l : (off + n <= length l)%nat -> length (get_bytes off n l) = n.
Proof. intros H. unfold get_bytes. rewrite length_take, length_drop. lia. Qed.

Lemma put_bytes_eq off d l :
  (off + length d <= length l)%nat -> put_bytes off d l = take off l ++ d ++ drop (off + length d) l.
Proof.
  intros H. unfold put_bytes. apply take_ge. rewrite !length_app, length_take, length_drop. lia.
Qed.

Lemma length_put_bytes off d l :
  (off + length d <= length l)%nat -> length (put_bytes off d l) = length l.
Proof. intros H. rewrite put_bytes_eq by done. rewrite !length_app, length_take, length_drop. lia. Qed.

Lemma lookup_put_bytes off d l i :
  (off + length d <= length l)%nat ->
  put_bytes off d l !! i =
    if decide (off <= i < off + length d)%nat then d !! (i - off)%nat else l !! i.
Proof.
  intros H. rewrite put_bytes_eq by done. case_decide as D.
  - rewrite lookup_app_r by (rewrite length_take; lia). rewrite length_take_le by lia.
    by rewrite lookup_app_l by lia.
  - destruct (decide (i < off)%nat).
    + rewrite lookup_app_l by (rewrite length_take; lia). by rewrite lookup_take_lt.
    + rewrite lookup_app_r by (rewrite length_take; lia). rewrite length_take_le by lia.
      rewrite lookup_app_r by lia. rewrite lookup_drop. f_equal. lia.
Qed.

Lemma lookup_get_bytes off n l i :
  get_bytes off n l !! i = if decide (i < n)%nat then l !! (off + i)%nat else None.
Proof.
  unfold get_bytes. case_decide; [by rewrite lookup_take_lt, lookup_drop|]. by rewrite lookup_take_ge by lia.
Qed.

Lemma get_put_same off d l :
  (off + length d <= length l)%nat -> get_bytes off (length d) (put_bytes off d l) = d.
Proof.
  intros H. apply list_eq. intros i. rewrite lookup_get_bytes, lookup_put_bytes by done. case_decide.
  - rewrite decide_True by lia. f_equal. lia.
  - symmetry. apply lookup_ge_None_2. lia.
Qed.

Lemma get_put_out off n off' d l :
  (off' + length d <= length l)%nat -> (off + n <= off' \/ off' + length d <= off)%nat ->
  get_bytes off n (put_bytes off' d l) = get_bytes off n l.
Proof.
  intros H D. apply list_eq. intros i. rewrite !lookup_get_bytes, lookup_put_bytes by done.
  case_decide; [|done]. by rewrite decide_False by lia.
Qed.

Lemma put_bytes_range off d l :
  Forall is_byte d -> Forall is_byte l -> Forall is_byte (put_bytes off d l).
Proof. intros Hd Hl. unfold put_bytes. apply Forall_take, Forall_app_2; [by apply Forall_take|].
  apply Forall_app_2; [done|by apply Forall_drop]. Qed.

Lemma put_get_id off n l : (off + n <= length l)%nat -> put_bytes off (get_bytes off n l) l = l.
Proof.
  intros H. apply list_eq. intros i. assert (Hl := length_get_bytes off n l H).
  rewrite lookup_put_bytes by lia. rewrite Hl. case_decide; [|done].
  rewrite lookup_get_bytes, decide_True by lia. f_equal. lia.
Qed.

Lemma get32_put32_same off v l : (off + 4 <= length l)%nat -> get32 off (put32 off v l) = u32 v.
Proof.
  intros H. unfold get32, put32. change 4%nat with (length (le_bytes 4 v)) at 1.
  rewrite get_put_same by (rewrite length_le_bytes; lia). apply le_val_bytes_4.
Qed.

Lemma get32_put32_out off off' v l :
  (off' + 4 <= length l)%nat -> (off + 4 <= off' \/ off' + 4 <= off)%nat ->
  get32 off (put32 off' v l) = get32 off l.
Proof. intros H D. unfold get32, put32. f_equal. apply get_put_out; rewrite length_le_bytes; lia. Qed.

Lemma length_put32 off v l : (off + 4 <= length l)%nat -> length (put32 off v l) = length l.
Proof. intros H. apply length_put_bytes. rewrite length_le_bytes. lia. Qed.

Lemma length_get_words off n l : length (get_words off n l) = n.
Proof. unfold get_words. by rewrite length_fmap, length_seq. Qed.

Lemma length_put_words off ws l :
  (off + 4 * length ws <= length l)%nat -> length (put_words off ws l) = length l.
Proof.
  revert off l. induction ws as [|w ws IH]; intros off l H; [done|]. cbn [put_words length] in *.
  rewrite IH, length_put32; lia || (rewrite length_put32; lia).
Qed.

(** A word array reads back; other fields keep their value. *)
Lemma get32_put_words_out off off' ws l :
  (off' + 4 * length ws <= length l)%nat -> (off + 4 <= off' \/ off' + 4 * length ws <= off)%nat ->
  get32 off (put_words off' ws l) = get32 off l.
Proof.
  revert off' l. induction ws as [|w ws IH]; intros off' l H D; [done|]. cbn [put_words length] in *.
  rewrite IH; [apply get32_put32_out; lia|rewrite length_put32; lia|lia].
Qed.

Lemma get32_put_words off ws l i w :
  (off + 4 * length ws <= length l)%nat -> ws !! i = Some w ->
  get32 (off + 4 * i) (put_words off ws l) = u32 w.
Proof.
  revert off l i. induction ws as [|v ws IH]; intros off l i H E; [done|]. cbn [put_words length] in *.
  destruct i as [|i]; cbn in E; simplify_eq.
  - rewrite get32_put_words_out by (rewrite ?length_put32; lia).
    replace (off + 4 * 0)%nat with off by lia. apply get32_put32_same. lia.
  - replace (off + 4 * S i)%nat with (off + 4 + 4 * i)%nat by lia. apply IH; [rewrite length_put32; lia|done].
Qed.

Lemma get_words_put_words off ws l :
  (off + 4 * length ws <= length l)%nat -> Forall (fun w => 0 <= w < 4294967296) ws ->
  get_words off (length ws) (put_words off ws l) = ws.
Proof.
  intros H R. apply list_eq. intros i. unfold get_words. rewrite list_lookup_fmap.
  destruct (decide (i < length ws)%nat) as [Hi|Hi].
  - rewrite lookup_seq_lt by done. destruct (lookup_lt_is_Some_2 ws i Hi) as [w E].
    cbn [fmap option_fmap option_map]. rewrite Nat.add_0_l, E, (get32_put_words off ws l i w) by done. f_equal. apply u32_small.
    exact (proj1 (Forall_lookup _ _) R i w E).
  - rewrite lookup_seq_ge by lia. cbn. symmetry. apply lookup_ge_None_2. lia.
Qed.
