(* ===== verification/Sleeplock.v ===== *)
(** * Sleep locks (kernel/sleeplock.c)

    Long-term locks whose holder may sleep.  A waiter sleeps on the lock's channel until
    releasesleep wakes it. *)

From S2P Require Import Prelude Memory Riscv State Kmonad Spinlock Proc.
From Stdlib Require Import ZArith Lia.
From stdpp Require Import base numbers list gmap strings option.

#[local] Open Scope Z_scope.
#[local] Open Scope kernel_scope.

(** How many wakeups a loop around sleep takes into account before the model gives up
    with [NoFuel]. *)
Class Fuel := wakeups : nat.

Definition slock_at (lk : slid) (s : kstate) : sleeplock := default (mksleeplock 0 0) (k_slocks s !! lk).
Definition set_slock (lk : slid) (f : sleeplock -> sleeplock) (s : kstate) : kstate :=
  set_k_slocks (<[lk := f (slock_at lk s)]> (k_slocks s)) s.

Section Sleeplock.
Context `{F : Fuel}.

Definition initsleeplock (lk : slid) : M unit :=
  initlock (L_sleep lk) ;!
  modify (set_slock lk (set_sl_locked 0)) ;!
  modify (set_slock lk (set_sl_pid 0)).

Fixpoint acquiresleep_wait (fuel : nat) (lk : slid) : M unit :=
  match fuel with
  | O => nofuel
  | S fuel' =>
      let! l := gets (slock_at lk) in
      if truth (sl_locked l) then
        sleep (CH_sleeplock lk) (L_sleep lk) ;!
        acquiresleep_wait fuel' lk
      else ret tt
  end.

Definition acquiresleep (lk : slid) : M unit :=
  acquire (L_sleep lk) ;!
  acquiresleep_wait (S wakeups) lk ;!
  modify (set_slock lk (set_sl_locked 1)) ;!
  let! p := curproc in
  let! pid := getp p_pid p in
  modify (set_slock lk (set_sl_pid pid)) ;!
  release (L_sleep lk).

Definition releasesleep (lk : slid) : M unit :=
  acquire (L_sleep lk) ;!
  modify (set_slock lk (set_sl_locked 0)) ;!
  modify (set_slock lk (set_sl_pid 0)) ;!
  wakeup (CH_sleeplock lk) ;!
  release (L_sleep lk).

Definition holdingsleep (lk : slid) : M bool :=
  acquire (L_sleep lk) ;!
  let! l := gets (slock_at lk) in
  let! r := (if truth (sl_locked l) then
               let! p := curproc in
               let! pid := getp p_pid p in
               ret (sl_pid l =? pid)
             else ret false) in
  release (L_sleep lk) ;!
  ret r.

End Sleeplock.
