(* ===== verification/Pipe.v ===== *)
(** * Pipes (kernel/pipe.c)

    A struct pipe fills a page from kalloc: the spinlock (24 bytes), the ring buffer, the
    two running counters and the two open flags.  pipealloc, which also allocates the two
    files, is in [File]. *)

From S2P Require Import Prelude Memory Riscv State Kmonad Spinlock CString Kalloc Vm Proc Sleeplock.
From Stdlib Require Import ZArith Lia.
From stdpp Require Import base numbers list gmap strings option.

#[local] Open Scope Z_scope.
#[local] Open Scope kernel_scope.

Definition PIPESIZE : Z := 512.

(** Offsets in struct pipe. *)
Definition PI_data : Z := 24.
Definition PI_nread : Z := 536.
Definition PI_nwrite : Z := 540.
Definition PI_readopen : Z := 544.
Definition PI_writeopen : Z := 548.

Section Pipe.
Context `{L : KernelLayout} `{F : Fuel}.

Definition pipeclose (pi : Z) (writable : bool) : M unit :=
  acquire (L_pipe pi) ;!
  (if writable then
     st32 (pi + PI_writeopen) 0 ;!
     wakeup (CH_pipe_nread pi)
   else
     st32 (pi + PI_readopen) 0 ;!
     wakeup (CH_pipe_nwrite pi)) ;!
  let! ro := ld32 (pi + PI_readopen) in
  let! wo := ld32 (pi + PI_writeopen) in
  if (ro =? 0) && (wo =? 0) then
    release (L_pipe pi) ;!
    kfree pi
  else release (L_pipe pi).

(** The while loop of pipewrite: [inl] is an early return, [inr] the count at its end. *)
Fixpoint pipewrite_loop (fuel : nat) (pi addr n i : Z) (pr : nat) : M (Z + Z) :=
  match fuel with
  | O => nofuel
  | S fuel' =>
      if negb (i <? n) then ret (inr i) else
      let! ro := ld32 (pi + PI_readopen) in
      let! dead := (if ro =? 0 then ret true else let! k := killed pr in ret (truth k)) in
      if dead then release (L_pipe pi) ;! ret (inl (-1)) else
      let! nwrite := ld32 (pi + PI_nwrite) in
      let! nread := ld32 (pi + PI_nread) in
      if nwrite =? u32 (nread + PIPESIZE) then
        wakeup (CH_pipe_nread pi) ;!
        sleep (CH_pipe_nwrite pi) (L_pipe pi) ;!
        pipewrite_loop fuel' pi addr n i pr
      else
        let! pt := getp p_pagetable pr in
        let! c := copyin pt (u64 (addr + i)) 1 in
        if fst c =? -1 then ret (inr i) else
        st32 (pi + PI_nwrite) (u32 (nwrite + 1)) ;!
        st8 (pi + PI_data + nwrite mod PIPESIZE) (hd 0 (snd c)) ;!
        pipewrite_loop fuel' pi addr n (i + 1) pr
  end.

Definition pipewrite (pi addr n : Z) : M Z :=
  let! pr := curproc in
  acquire (L_pipe pi) ;!
  let! r := pipewrite_loop (S (Z.to_nat n + wakeups)) pi addr n 0 pr in
  match r with
  | inl v => ret v
  | inr i =>
      wakeup (CH_pipe_nread pi) ;!
      release (L_pipe pi) ;!
      ret i
  end.

(** Wait until there is data or no writer; false is an early return. *)
Fixpoint piperead_wait (fuel : nat) (pi : Z) (pr : nat) : M bool :=
  match fuel with
  | O => nofuel
  | S fuel' =>
      let! nread := ld32 (pi + PI_nread) in
      let! nwrite := ld32 (pi + PI_nwrite) in
      let! wo := ld32 (pi + PI_writeopen) in
      if (nread =? nwrite) && truth wo then
        let! k := killed pr in
        if truth k then release (L_pipe pi) ;! ret false else
        sleep (CH_pipe_nread pi) (L_pipe pi) ;!
        piperead_wait fuel' pi pr
      else ret true
  end.

Fixpoint piperead_copy (fuel : nat) (pi addr n i : Z) (pr : nat) : M Z :=
  match fuel with
  | O => nofuel
  | S fuel' =>
      if negb (i <? n) then ret i else
      let! nread := ld32 (pi + PI_nread) in
      let! nwrite := ld32 (pi + PI_nwrite) in
      if nread =? nwrite then ret i else
      let! ch := ld8 (pi + PI_data + nread mod PIPESIZE) in
      st32 (pi + PI_nread) (u32 (nread + 1)) ;!
      let! pt := getp p_pagetable pr in
      let! r := copyout pt (u64 (addr + i)) [ch] 1 in
      if r =? -1 then ret i else
      piperead_copy fuel' pi addr n (i + 1) pr
  end.

Definition piperead (pi addr n : Z) : M Z :=
  let! pr := curproc in
  acquire (L_pipe pi) ;!
  let! go := piperead_wait (S wakeups) pi pr in
  if go then
    let! i := piperead_copy (S (Z.to_nat n)) pi addr n 0 pr in
    wakeup (CH_pipe_nwrite pi) ;!
    release (L_pipe pi) ;!
    ret i
  else ret (-1).

End Pipe.
