(* ===== verification/Uart.v ===== *)
(** * The uart driver (kernel/uart.c)

    The registers of the 16550a are bytes at UART0, except that bytes written to THR are
    collected in [uart_out], that the idle bit of LSR answers from [uart_lsr], and that
    RHR delivers the bytes of [uart_rx].  uartintr, which calls the console, is in
    [Console]. *)

From S2P Require Import Prelude Memory Riscv State Kmonad Spinlock Proc Sleeplock.
From Stdlib Require Import ZArith Lia.
From stdpp Require Import base numbers list gmap strings option.

#[local] Open Scope Z_scope.
#[local] Open Scope kernel_scope.

Definition RHR : Z := 0.
Definition THR : Z := 0.
Definition IER : Z := 1.
Definition IER_RX_ENABLE : Z := 1.
Definition IER_TX_ENABLE : Z := 2.
Definition FCR : Z := 2.
Definition FCR_FIFO_ENABLE : Z := 1.
Definition FCR_FIFO_CLEAR : Z := 6.
Definition LCR : Z := 3.
Definition LCR_EIGHT_BITS : Z := 3.
Definition LCR_BAUD_LATCH : Z := 128.
Definition UART_TX_BUF_SIZE : Z := 32.

Definition upd_uart (f : uartstate -> uartstate) (s : kstate) : kstate := set_k_uart (f (k_uart s)) s.

(** A cpu that stops because some cpu has panicked. *)
Definition halt {A} : M A := panic "frozen after a panic".

(** WriteReg of a configuration register, and of THR. *)
Definition WriteReg (reg v : Z) : M unit := st8 (UART0 + reg) v.
Definition WriteTHR (c : Z) : M unit := modify (upd_uart (fun u => set_uart_out (u8 c :: uart_out u) u)).

(** ReadReg(LSR) & LSR_TX_IDLE. *)
Definition read_tx_idle : M bool :=
  let! l := gets (fun s => uart_lsr (k_uart s)) in
  match l with
  | [] => ret true
  | b :: l' => modify (upd_uart (set_uart_lsr l')) ;! ret b
  end.

(** The answers left once LSR has been read until idle. *)
Fixpoint after_idle (l : list bool) : list bool :=
  match l with
  | [] => []
  | true :: l' => l'
  | false :: l' => after_idle l'
  end.

Definition wait_tx_idle : M unit :=
  modify (upd_uart (fun u => set_uart_lsr (after_idle (uart_lsr u)) u)).

Section Uart.
Context `{F : Fuel}.

Definition uartinit : M unit :=
  WriteReg IER 0 ;!
  WriteReg LCR LCR_BAUD_LATCH ;!
  WriteReg 0 3 ;!
  WriteReg 1 0 ;!
  WriteReg LCR LCR_EIGHT_BITS ;!
  WriteReg FCR (Z.lor FCR_FIFO_ENABLE FCR_FIFO_CLEAR) ;!
  WriteReg IER (Z.lor IER_TX_ENABLE IER_RX_ENABLE) ;!
  initlock L_uart.

Definition uartputc_sync (c : Z) : M unit :=
  push_off ;!
  let! panicked := gets k_panicked in
  if truth panicked then halt else
  wait_tx_idle ;!
  WriteTHR c ;!
  pop_off.

(** The buffer holds at most UART_TX_BUF_SIZE characters, which bounds the loop. *)
Fixpoint uartstart_loop (fuel : nat) : M unit :=
  match fuel with
  | O => nofuel
  | S fuel' =>
      let! u := gets k_uart in
      if uart_tx_w u =? uart_tx_r u then ret tt else
      let! idle := read_tx_idle in
      if negb idle then ret tt else
      let c := uart_tx_buf u !!! Z.to_nat (uart_tx_r u mod UART_TX_BUF_SIZE) in
      modify (upd_uart (set_uart_tx_r (u64 (uart_tx_r u + 1)))) ;!
      wakeup CH_uart_tx_r ;!
      WriteTHR c ;!
      uartstart_loop fuel'
  end.

Definition uartstart : M unit := uartstart_loop (S (Z.to_nat UART_TX_BUF_SIZE)).

Fixpoint uartputc_wait (fuel : nat) : M unit :=
  match fuel with
  | O => nofuel
  | S fuel' =>
      let! u := gets k_uart in
      if uart_tx_w u =? u64 (uart_tx_r u + UART_TX_BUF_SIZE) then
        sleep CH_uart_tx_r L_uart ;!
        uartputc_wait fuel'
      else ret tt
  end.

Definition uartputc (c : Z) : M unit :=
  acquire L_uart ;!
  let! panicked := gets k_panicked in
  if truth panicked then halt else
  uartputc_wait (S wakeups) ;!
  let! w := gets (fun s => uart_tx_w (k_uart s)) in
  modify (upd_uart (fun u => set_uart_tx_buf (<[Z.to_nat (w mod UART_TX_BUF_SIZE) := u8 c]> (uart_tx_buf u)) u)) ;!
  modify (upd_uart (set_uart_tx_w (u64 (w + 1)))) ;!
  uartstart ;!
  release L_uart.

(** Read one input character; -1 if none is waiting. *)
Definition uartgetc : M Z :=
  let! l := gets (fun s => uart_rx (k_uart s)) in
  match l with
  | [] => ret (-1)
  | c :: l' => modify (upd_uart (set_uart_rx l')) ;! ret (u8 c)
  end.

End Uart.
