(* ===== verification/Printf.v ===== *)
(** * Formatted console output (kernel/printf.c, consputc of kernel/console.c, procdump of
    kernel/proc.c) *)

From S2P Require Import Prelude Memory Riscv State Kmonad Spinlock Proc Sleeplock Uart.
From Stdlib Require Import ZArith Lia Ascii String.
From stdpp Require Import base numbers list gmap strings option.

#[local] Open Scope Z_scope.
#[local] Open Scope kernel_scope.

(** The bytes of a string literal, without the NUL. *)
Fixpoint bytes_of (s : string) : list Z :=
  match s with
  | EmptyString => []
  | String c s' => Z.of_N (N_of_ascii c) :: bytes_of s'
  end.

(** The arguments that va_arg fetches; a null char pointer is [AStr None]. *)
Inductive arg := AInt (x : Z) | APtr (x : Z) | AStr (s : option (list Z)).

Definition BACKSPACE : Z := 0x100.

Definition consputc (c : Z) : M unit :=
  if c =? BACKSPACE then
    uartputc_sync 8 ;! uartputc_sync 32 ;! uartputc_sync 8
  else uartputc_sync c.

Definition digits : list Z := bytes_of "0123456789abcdef".

(** buf[0..i) of printint after its do-while loop; 32 digits are enough for any base. *)
Fixpoint printint_buf (fuel : nat) (x base : Z) : list Z :=
  match fuel with
  | O => []
  | S fuel' =>
      let d := digits !!! Z.to_nat (x mod base) in
      if x / base =? 0 then [d] else d :: printint_buf fuel' (x / base) base
  end.

Definition printint_chars (xx base : Z) (sign : bool) : list Z :=
  let neg := sign && (xx <? 0) in
  let x := if neg then u32 (- xx) else u32 xx in
  let buf := printint_buf 32 x base in
  rev (if neg then buf ++ [45] else buf).

Definition printint (xx base : Z) (sign : bool) : M unit := foreach (printint_chars xx base sign) consputc.

Fixpoint printptr_chars (n : nat) (x : Z) : list Z :=
  match n with
  | O => []
  | S n' => (digits !!! Z.to_nat (Z.shiftr x 60)) :: printptr_chars n' (u64 (Z.shiftl x 4))
  end.

Definition printptr (x : Z) : M unit :=
  consputc 48 ;!
  consputc 120 ;!
  foreach (printptr_chars 16 x) consputc.

(** The characters of a C string: those before its NUL. *)
Fixpoint until_nul (l : list Z) : list Z :=
  match l with
  | [] => []
  | c :: l' => if c =? 0 then [] else c :: until_nul l'
  end.

Fixpoint printf_loop (fmt : list Z) (ap : list arg) : M unit :=
  match fmt with
  | [] => ret tt
  | c :: fmt1 =>
      if c =? 0 then ret tt else
      if negb (c =? 37) then consputc c ;! printf_loop fmt1 ap else
      match fmt1 with
      | [] => ret tt
      | c :: fmt2 =>
          if c =? 0 then ret tt else
          if c =? 100 then
            match ap with
            | AInt x :: ap' => printint x 10 true ;! printf_loop fmt2 ap'
            | _ => undef "va_arg"
            end
          else if c =? 120 then
            match ap with
            | AInt x :: ap' => printint x 16 true ;! printf_loop fmt2 ap'
            | _ => undef "va_arg"
            end
          else if c =? 112 then
            match ap with
            | APtr x :: ap' => printptr x ;! printf_loop fmt2 ap'
            | _ => undef "va_arg"
            end
          else if c =? 115 then
            match ap with
            | AStr s :: ap' =>
                foreach (until_nul (default (bytes_of "(null)") s)) consputc ;!
                printf_loop fmt2 ap'
            | _ => undef "va_arg"
            end
          else if c =? 37 then consputc 37 ;! printf_loop fmt2 ap
          else consputc 37 ;! consputc c ;! printf_loop fmt2 ap
      end
  end.

Definition printf (fmt : string) (ap : list arg) : M unit :=
  let! locking := gets k_pr_locking in
  when (truth locking) (acquire L_pr) ;!
  printf_loop (bytes_of fmt) ap ;!
  when (truth locking) (release L_pr).

(** What panic does before it loops for ever; the rest of the model stops with the result
    [Panic] at the call. *)
Definition panic_message (s : string) : M unit :=
  modify (set_k_pr_locking 0) ;!
  printf "panic: " [] ;!
  printf s [] ;!
  printf (String (ascii_of_nat 10) EmptyString) [] ;!
  modify (set_k_panicked 1).

Definition printfinit : M unit :=
  initlock L_pr ;!
  modify (set_k_pr_locking 1).

Definition newline : string := String (ascii_of_nat 10) EmptyString.

Definition state_name (st : procstate) : string :=
  match st with
  | UNUSED => "unused" | USED => "used" | SLEEPING => "sleep " | RUNNABLE => "runble"
  | RUNNING => "run   " | ZOMBIE => "zombie"
  end.

Definition procdump : M unit :=
  printf newline [] ;!
  foreach (seq 0 NPROC) (fun i =>
    let! p := gets (proc_at i) in
    if decide (p_state p = UNUSED) then ret tt else
    printf "%d %s %s" [AInt (p_pid p); AStr (Some (bytes_of (state_name (p_state p)))); AStr (Some (p_name p))] ;!
    printf newline []).
