(* ===== verification/Console.v ===== *)
(** * The console (kernel/console.c, uartintr of kernel/uart.c)

    A line-editing input buffer: characters between [cons_r] and [cons_w] can be read,
    those between [cons_w] and [cons_e] can still be edited. *)

From S2P Require Import Prelude Memory Riscv State Kmonad Spinlock CString Kalloc Vm Proc Sleeplock.
From S2P Require Import Uart Printf.
From Stdlib Require Import ZArith Lia.
From stdpp Require Import base numbers list gmap strings option.

#[local] Open Scope Z_scope.
#[local] Open Scope kernel_scope.

Definition INPUT_BUF_SIZE : Z := 128.
Definition CONSOLE : nat := 1.

(** C(x), Control-x. *)
Definition ctrl_P : Z := 16.
Definition ctrl_U : Z := 21.
Definition ctrl_H : Z := 8.
Definition ctrl_D : Z := 4.

Definition upd_cons (f : consstate -> consstate) (s : kstate) : kstate := set_k_cons (f (k_cons s)) s.

(** cons.buf[i % INPUT_BUF_SIZE]. *)
Definition cons_char (c : consstate) (i : Z) : Z := cons_buf c !!! Z.to_nat (i mod INPUT_BUF_SIZE).

Section Console.
Context `{L : KernelLayout} `{F : Fuel}.

Fixpoint consolewrite_loop (fuel : nat) (user_src : bool) (src : Z) (ksrc : list Z) (n i : Z) : M Z :=
  match fuel with
  | O => nofuel
  | S fuel' =>
      if negb (i <? n) then ret i else
      let! r := either_copyin user_src (u64 (src + i)) (drop (Z.to_nat i) ksrc) 1 in
      if fst r =? -1 then ret i else
      uartputc (hd 0 (snd r)) ;!
      consolewrite_loop fuel' user_src src ksrc n (i + 1)
  end.

(** [ksrc] are the bytes at a kernel source address. *)
Definition consolewrite (user_src : bool) (src : Z) (ksrc : list Z) (n : Z) : M Z :=
  consolewrite_loop (S (Z.to_nat n)) user_src src ksrc n 0.

(** Wait for input; false is an early return. *)
Fixpoint consoleread_wait (fuel : nat) : M bool :=
  match fuel with
  | O => nofuel
  | S fuel' =>
      let! c := gets k_cons in
      if cons_r c =? cons_w c then
        let! p := curproc in
        let! k := killed p in
        if truth k then release L_cons ;! ret false else
        sleep CH_cons_r L_cons ;!
        consoleread_wait fuel'
      else ret true
  end.

(** The loop of consoleread: [None] is its early return, otherwise what is left of [n]
    and the bytes stored at a kernel destination. *)
Fixpoint consoleread_loop (fuel : nat) (user_dst : bool) (dst n target : Z) : M (option (Z * list Z)) :=
  match fuel with
  | O => nofuel
  | S fuel' =>
      if negb (0 <? n) then ret (Some (n, [])) else
      let! go := consoleread_wait (S wakeups) in
      if negb go then ret None else
      let! st := gets k_cons in
      let c := cons_char st (cons_r st) in
      modify (upd_cons (set_cons_r (u32 (cons_r st + 1)))) ;!
      if c =? ctrl_D then
        when (u32 n <? target) (modify (upd_cons (fun c => set_cons_r (u32 (cons_r c - 1)) c))) ;!
        ret (Some (n, []))
      else
        let! r := either_copyout user_dst dst [c] 1 in
        if fst r =? -1 then ret (Some (n, [])) else
        if c =? 10 then ret (Some (n - 1, snd r)) else
        let! rest := consoleread_loop fuel' user_dst (u64 (dst + 1)) (n - 1) target in
        match rest with
        | None => ret None
        | Some (n', l) => ret (Some (n', snd r ++ l))
        end
  end.

Definition consoleread (user_dst : bool) (dst n : Z) : M (Z * list Z) :=
  let target := u32 n in
  acquire L_cons ;!
  let! r := consoleread_loop (S (Z.to_nat n)) user_dst dst n target in
  match r with
  | None => ret (-1, [])
  | Some (n', l) => release L_cons ;! ret (i32 (target - n'), l)
  end.

(** Control-U: erase up to the start of the line or a newline. *)
Fixpoint kill_line (fuel : nat) : M unit :=
  match fuel with
  | O => nofuel
  | S fuel' =>
      let! c := gets k_cons in
      if negb (cons_e c =? cons_w c) && negb (cons_char c (u32 (cons_e c - 1)) =? 10) then
        modify (upd_cons (set_cons_e (u32 (cons_e c - 1)))) ;!
        consputc BACKSPACE ;!
        kill_line fuel'
      else ret tt
  end.

Definition consoleintr (c : Z) : M unit :=
  acquire L_cons ;!
  (if c =? ctrl_P then procdump
   else if c =? ctrl_U then kill_line (S (Z.to_nat INPUT_BUF_SIZE))
   else if (c =? ctrl_H) || (c =? 127) then
     let! st := gets k_cons in
     when (negb (cons_e st =? cons_w st))
       (modify (upd_cons (set_cons_e (u32 (cons_e st - 1)))) ;! consputc BACKSPACE)
   else
     let! st := gets k_cons in
     when (negb (c =? 0) && (u32 (cons_e st - cons_r st) <? INPUT_BUF_SIZE))
       (let c := if c =? 13 then 10 else c in
        consputc c ;!
        modify (upd_cons (fun st =>
          set_cons_buf (<[Z.to_nat (cons_e st mod INPUT_BUF_SIZE) := u8 c]> (cons_buf st)) st)) ;!
        modify (upd_cons (fun st => set_cons_e (u32 (cons_e st + 1)) st)) ;!
        let! st := gets k_cons in
        when ((c =? 10) || (c =? ctrl_D) || (u32 (cons_e st - cons_r st) =? INPUT_BUF_SIZE))
          (modify (upd_cons (set_cons_w (cons_e st))) ;!
           wakeup CH_cons_r))) ;!
  release L_cons.

Definition consoleinit : M unit :=
  initlock L_cons ;!
  uartinit ;!
  modify (fun s => set_k_devsw (<[CONSOLE := DEV_console]> (k_devsw s)) s).

(** The input loop of uartintr ends when the receiver is empty. *)
Fixpoint uartintr_loop (fuel : nat) : M unit :=
  match fuel with
  | O => nofuel
  | S fuel' =>
      let! c := uartgetc in
      if c =? -1 then ret tt else
      consoleintr c ;!
      uartintr_loop fuel'
  end.

Definition uartintr : M unit :=
  let! n := gets (fun s => length (uart_rx (k_uart s))) in
  uartintr_loop (S n) ;!
  acquire L_uart ;!
  uartstart ;!
  release L_uart.

End Console.
