(* ===== verification/Bio.v ===== *)
(** * The buffer cache (kernel/bio.c)

    bcache.buf is a table of buffers linked through prev and next into a circular list
    around bcache.head, most recently released first.  The disk driver is an interface,
    [DiskDriver]; [Virtio] models the driver of kernel/virtio_disk.c. *)

From S2P Require Import Prelude Memory Riscv State Kmonad Spinlock Proc Sleeplock Bytes.
From Stdlib Require Import ZArith Lia.
From stdpp Require Import base numbers list gmap strings option.

#[local] Open Scope Z_scope.
#[local] Open Scope kernel_scope.

(** virtio_disk_rw(b, write): transfer the block of buffer [b]. *)
Class DiskDriver := disk_rw : nat -> bool -> M unit.

(** &bcache.head. *)
Definition bhead : nat := NBUF.

Definition buf_at (b : nat) (s : kstate) : buf := k_bcache s !!! b.
Definition getb {A} (f : buf -> A) (b : nat) : M A := gets (fun s => f (buf_at b s)).
Definition setb (b : nat) (f : buf -> buf) : M unit := modify (upd_buf b f).

Section Bio.
Context `{F : Fuel} `{D : DiskDriver}.

Definition binit : M unit :=
  initlock L_bcache ;!
  setb bhead (set_b_prev bhead) ;!
  setb bhead (set_b_next bhead) ;!
  foreach (seq 0 NBUF) (fun b =>
    let! n := getb b_next bhead in
    setb b (set_b_next n) ;!
    setb b (set_b_prev bhead) ;!
    initsleeplock (SL_buf b) ;!
    let! n := getb b_next bhead in
    setb n (set_b_prev b) ;!
    setb bhead (set_b_next b)).

(** The first search of bget, along next from [b]: a buffer that holds the block. *)
Fixpoint bget_cached (fuel : nat) (b : nat) (dev blockno : Z) : M (option nat) :=
  match fuel with
  | O => nofuel
  | S fuel' =>
      if decide (b = bhead) then ret None else
      let! q := gets (buf_at b) in
      if (b_dev q =? dev) && (b_blockno q =? blockno) then ret (Some b)
      else bget_cached fuel' (b_next q) dev blockno
  end.

(** The second search, along prev: an unused buffer. *)
Fixpoint bget_unused (fuel : nat) (b : nat) : M (option nat) :=
  match fuel with
  | O => nofuel
  | S fuel' =>
      if decide (b = bhead) then ret None else
      let! q := gets (buf_at b) in
      if b_refcnt q =? 0 then ret (Some b)
      else bget_unused fuel' (b_prev q)
  end.

Definition bget (dev blockno : Z) : M nat :=
  acquire L_bcache ;!
  let! b := getb b_next bhead in
  let! o := bget_cached (S NBUF) b dev blockno in
  match o with
  | Some b =>
      setb b (fun q => set_b_refcnt (u32 (b_refcnt q + 1)) q) ;!
      release L_bcache ;!
      acquiresleep (SL_buf b) ;!
      ret b
  | None =>
      let! b := getb b_prev bhead in
      let! o := bget_unused (S NBUF) b in
      match o with
      | Some b =>
          setb b (set_b_dev dev) ;!
          setb b (set_b_blockno blockno) ;!
          setb b (set_b_valid 0) ;!
          setb b (set_b_refcnt 1) ;!
          release L_bcache ;!
          acquiresleep (SL_buf b) ;!
          ret b
      | None => panic "bget: no buffers"
      end
  end.

Definition bread (dev blockno : Z) : M nat :=
  let! b := bget dev blockno in
  let! valid := getb b_valid b in
  when (negb (truth valid)) (disk_rw b false ;! setb b (set_b_valid 1)) ;!
  ret b.

Definition bwrite (b : nat) : M unit :=
  let! h := holdingsleep (SL_buf b) in
  if negb h then panic "bwrite" else
  disk_rw b true.

Definition brelse (b : nat) : M unit :=
  let! h := holdingsleep (SL_buf b) in
  if negb h then panic "brelse" else
  releasesleep (SL_buf b) ;!
  acquire L_bcache ;!
  setb b (fun q => set_b_refcnt (u32 (b_refcnt q - 1)) q) ;!
  let! refcnt := getb b_refcnt b in
  when (refcnt =? 0)
    (let! next := getb b_next b in
     let! prev := getb b_prev b in
     setb next (set_b_prev prev) ;!
     setb prev (set_b_next next) ;!
     let! first := getb b_next bhead in
     setb b (set_b_next first) ;!
     setb b (set_b_prev bhead) ;!
     setb first (set_b_prev b) ;!
     setb bhead (set_b_next b)) ;!
  release L_bcache.

Definition bpin (b : nat) : M unit :=
  acquire L_bcache ;!
  setb b (fun q => set_b_refcnt (u32 (b_refcnt q + 1)) q) ;!
  release L_bcache.

Definition bunpin (b : nat) : M unit :=
  acquire L_bcache ;!
  setb b (fun q => set_b_refcnt (u32 (b_refcnt q - 1)) q) ;!
  release L_bcache.

End Bio.
