(* ===== verification/Log.v ===== *)
(** * The redo log (kernel/log.c)

    A transaction's blocks stay in the cache until the last system call of the transaction
    ends; commit then copies them to the log, writes the log header, copies them to their
    home locations, and erases the header. *)

From S2P Require Import Prelude Memory Riscv State Kmonad Spinlock Proc Sleeplock Bytes Bio.
From Stdlib Require Import ZArith Lia.
From stdpp Require Import base numbers list gmap strings option.

#[local] Open Scope Z_scope.
#[local] Open Scope kernel_scope.

(** sizeof(struct logheader): n and block[LOGSIZE]. *)
Definition sizeof_logheader : Z := 4 + 4 * LOGSIZE.

Definition upd_log (f : logstate -> logstate) (s : kstate) : kstate := set_k_log (f (k_log s)) s.
Definition getl {A} (f : logstate -> A) : M A := gets (fun s => f (k_log s)).
Definition setl (f : logstate -> logstate) : M unit := modify (upd_log f).

(** log.lh.block[i]. *)
Definition lh_get (i : nat) (lg : logstate) : Z := lh_block lg !!! i.

Section Log.
Context `{F : Fuel} `{D : DiskDriver}.

(** The body of install_trans's loop. *)
Definition install_block (recovering : bool) (tail : nat) : M unit :=
  let! lg := gets k_log in
  let! lbuf := bread (u32 (lg_dev lg)) (u32 (lg_start lg + Z.of_nat tail + 1)) in
  let! lg := gets k_log in
  let! dbuf := bread (u32 (lg_dev lg)) (u32 (lh_get tail lg)) in
  let! data := getb b_data lbuf in
  setb dbuf (set_b_data data) ;!
  bwrite dbuf ;!
  when (negb recovering) (bunpin dbuf) ;!
  brelse lbuf ;!
  brelse dbuf.

Definition install_trans (recovering : bool) : M unit :=
  let! n := getl lh_n in
  foreach (seq 0 (Z.to_nat n)) (install_block recovering).

Definition read_head : M unit :=
  let! lg := gets k_log in
  let! b := bread (u32 (lg_dev lg)) (u32 (lg_start lg)) in
  let! data := getb b_data b in
  let n := i32 (get32 0 data) in
  setl (set_lh_n n) ;!
  if LOGSIZE <? n then undef "log.lh.block" else
  foreach (seq 0 (Z.to_nat n)) (fun i =>
    setl (fun lg => set_lh_block (<[i := i32 (get32 (4 + 4 * i) data)]> (lh_block lg)) lg)) ;!
  brelse b.

Definition write_head : M unit :=
  let! lg := gets k_log in
  let! b := bread (u32 (lg_dev lg)) (u32 (lg_start lg)) in
  let! n := getl lh_n in
  setb b (fun q => set_b_data (put32 0 n (b_data q)) q) ;!
  foreach (seq 0 (Z.to_nat n)) (fun i =>
    let! v := getl (lh_get i) in
    setb b (fun q => set_b_data (put32 (4 + 4 * i) v (b_data q)) q)) ;!
  bwrite b ;!
  brelse b.

Definition recover_from_log : M unit :=
  read_head ;!
  install_trans true ;!
  setl (set_lh_n 0) ;!
  write_head.

Definition initlog (dev : Z) (sb : superblock) : M unit :=
  if BSIZE <=? sizeof_logheader then panic "initlog: too big logheader" else
  initlock L_log ;!
  setl (set_lg_start (i32 (sb_logstart sb))) ;!
  setl (set_lg_size (i32 (sb_nlog sb))) ;!
  setl (set_lg_dev dev) ;!
  recover_from_log.

Fixpoint begin_op_wait (fuel : nat) : M unit :=
  match fuel with
  | O => nofuel
  | S fuel' =>
      let! lg := gets k_log in
      if truth (lg_committing lg) then
        sleep CH_log L_log ;!
        begin_op_wait fuel'
      else if LOGSIZE <? lh_n lg + (lg_outstanding lg + 1) * MAXOPBLOCKS then
        sleep CH_log L_log ;!
        begin_op_wait fuel'
      else
        setl (set_lg_outstanding (lg_outstanding lg + 1)) ;!
        release L_log
  end.

Definition begin_op : M unit :=
  acquire L_log ;!
  begin_op_wait (S wakeups).

(** The body of write_log's loop. *)
Definition log_block (tail : nat) : M unit :=
  let! lg := gets k_log in
  let! to := bread (u32 (lg_dev lg)) (u32 (lg_start lg + Z.of_nat tail + 1)) in
  let! lg := gets k_log in
  let! from := bread (u32 (lg_dev lg)) (u32 (lh_get tail lg)) in
  let! data := getb b_data from in
  setb to (set_b_data data) ;!
  bwrite to ;!
  brelse from ;!
  brelse to.

Definition write_log : M unit :=
  let! n := getl lh_n in
  foreach (seq 0 (Z.to_nat n)) log_block.

Definition commit : M unit :=
  let! n := getl lh_n in
  when (0 <? n)
    (write_log ;!
     write_head ;!
     install_trans false ;!
     setl (set_lh_n 0) ;!
     write_head).

Definition end_op : M unit :=
  acquire L_log ;!
  let! lg := gets k_log in
  setl (set_lg_outstanding (lg_outstanding lg - 1)) ;!
  if truth (lg_committing lg) then panic "log.committing" else
  let! out := getl lg_outstanding in
  let do_commit := out =? 0 in
  (if do_commit then setl (set_lg_committing 1) else wakeup CH_log) ;!
  release L_log ;!
  when do_commit
    (commit ;!
     acquire L_log ;!
     setl (set_lg_committing 0) ;!
     wakeup CH_log ;!
     release L_log).

(** The position of the block in log.lh.block, or log.lh.n. *)
Fixpoint log_find (n i : nat) (blockno : Z) (blocks : list Z) : nat :=
  match n with
  | O => i
  | S n' => if u32 (blocks !!! i) =? blockno then i else log_find n' (S i) blockno blocks
  end.

Definition log_write (b : nat) : M unit :=
  acquire L_log ;!
  let! lg := gets k_log in
  if (LOGSIZE <=? lh_n lg) || (lg_size lg - 1 <=? lh_n lg) then panic "too big a transaction" else
  if lg_outstanding lg <? 1 then panic "log_write outside of trans" else
  let! blockno := getb b_blockno b in
  let i := log_find (Z.to_nat (lh_n lg)) 0 blockno (lh_block lg) in
  setl (fun lg => set_lh_block (<[i := i32 blockno]> (lh_block lg)) lg) ;!
  when (Z.of_nat i =? lh_n lg)
    (bpin b ;!
     setl (fun lg => set_lh_n (lh_n lg + 1) lg)) ;!
  release L_log.

End Log.
