(* ===== verification/Fs.v ===== *)
(** * The file system (kernel/fs.c)

    Blocks and their bitmap, inodes and their table, file contents, directories, and path
    names.  Inode pointers are positions in itable.inode.  Transfers between a file and a
    kernel address pass the bytes as values: a kernel destination's bytes are a second
    result, a kernel source's bytes an argument. *)

From S2P Require Import Prelude Memory Riscv State Kmonad Spinlock CString Kalloc Vm Proc Sleeplock.
From S2P Require Import Uart Printf Bytes Bio Log.
From Stdlib Require Import ZArith Lia Ascii String.
From stdpp Require Import base numbers list gmap strings option.

#[local] Open Scope Z_scope.
#[local] Open Scope kernel_scope.

(** Inodes per block, bitmap bits per block, and where they are (kernel/fs.h). *)
Definition sizeof_dinode : Z := 64.
Definition IPB : Z := BSIZE / sizeof_dinode.
Definition IBLOCK (i : Z) (sb : superblock) : Z := u32 (i / IPB + sb_inodestart sb).
Definition BPB : Z := BSIZE * 8.
Definition BBLOCK (b : Z) (sb : superblock) : Z := u32 (b / BPB + sb_bmapstart sb).

(** struct dinode, at an offset of a block. *)
Record dinode := mkdinode {
  di_type : Z;
  di_major : Z;
  di_minor : Z;
  di_nlink : Z;
  di_size : Z;
  di_addrs : list Z }.

Definition dinode_off (inum : Z) : nat := Z.to_nat (inum mod IPB * sizeof_dinode).

Definition get_dinode (off : nat) (data : list Z) : dinode :=
  mkdinode (i16 (get16 off data)) (i16 (get16 (off + 2) data)) (i16 (get16 (off + 4) data))
    (i16 (get16 (off + 6) data)) (get32 (off + 8) data) (get_words (off + 12) 13 data).

Definition put_dinode (off : nat) (d : dinode) (data : list Z) : list Z :=
  put_words (off + 12) (di_addrs d)
    (put32 (off + 8) (di_size d)
       (put16 (off + 6) (di_nlink d)
          (put16 (off + 4) (di_minor d)
             (put16 (off + 2) (di_major d) (put16 off (di_type d) data))))).

(** struct dirent: inum and name[DIRSIZ]. *)
Definition sizeof_dirent : Z := 16.
Definition de_inum (de : list Z) : Z := get16 0 de.
Definition de_name (de : list Z) : list Z := get_bytes 2 14 de.
Definition mkdirent (inum : Z) (name : list Z) : list Z := le_bytes 2 inum ++ name.

(** struct superblock, at the start of block 1. *)
Definition get_superblock (data : list Z) : superblock :=
  mksuperblock (get32 0 data) (get32 4 data) (get32 8 data) (get32 12 data) (get32 16 data)
    (get32 20 data) (get32 24 data) (get32 28 data).

(** struct stat of kernel/stat.h; its four padding bytes are 0. *)
Definition stat_bytes (dev ino type nlink size : Z) : list Z :=
  le_bytes 4 dev ++ le_bytes 4 ino ++ le_bytes 2 type ++ le_bytes 2 nlink ++ replicate 4 0 ++ le_bytes 8 size.

Definition inode_at (ip : nat) (s : kstate) : inode := k_itable s !!! ip.
Definition geti {A} (f : inode -> A) (ip : nat) : M A := gets (fun s => f (inode_at ip s)).
Definition seti (ip : nat) (f : inode -> inode) : M unit := modify (upd_inode ip f).

(** Bits of the free map. *)
Definition bit_mask (bi : Z) : Z := Z.shiftl 1 (bi mod 8).
Definition map_byte (bi : Z) (data : list Z) : Z := data !!! Z.to_nat (bi / 8).

(** The first clear bit from [bi] on, of at most [n]. *)
Fixpoint find_clear (n : nat) (bi : Z) (data : list Z) : option Z :=
  match n with
  | O => None
  | S n' =>
      if Z.land (map_byte bi data) (bit_mask bi) =? 0 then Some bi
      else find_clear n' (bi + 1) data
  end.

Section Fs.
Context `{L : KernelLayout} `{F : Fuel} `{D : DiskDriver}.

(** ** Blocks *)

Definition readsb (dev : Z) : M superblock :=
  let! bp := bread (u32 dev) 1 in
  let! data := getb b_data bp in
  brelse bp ;!
  ret (get_superblock data).

Definition fsinit (dev : Z) : M unit :=
  let! sb := readsb dev in
  modify (set_k_sb sb) ;!
  if negb (sb_magic sb =? FSMAGIC) then panic "invalid file system" else
  initlog dev sb.

Definition bzero (dev bno : Z) : M unit :=
  let! bp := bread (u32 dev) (u32 bno) in
  setb bp (set_b_data (replicate (Z.to_nat BSIZE) 0)) ;!
  log_write bp ;!
  brelse bp.

(** The outer loop of balloc, one bitmap block at a time. *)
Fixpoint balloc_loop (fuel : nat) (dev b : Z) : M Z :=
  match fuel with
  | O => nofuel
  | S fuel' =>
      let! sb := gets k_sb in
      if negb (b <? sb_size sb) then
        printf ("balloc: out of blocks" ++ newline) [] ;!
        ret 0
      else
        let! bp := bread dev (BBLOCK b sb) in
        let! data := getb b_data bp in
        match find_clear (Z.to_nat (Z.min BPB (sb_size sb - b))) 0 data with
        | Some bi =>
            setb bp (set_b_data (<[Z.to_nat (bi / 8) := Z.lor (map_byte bi data) (bit_mask bi)]> data)) ;!
            log_write bp ;!
            brelse bp ;!
            bzero dev (b + bi) ;!
            ret (b + bi)
        | None =>
            brelse bp ;!
            balloc_loop fuel' dev (b + BPB)
        end
  end.

Definition balloc (dev : Z) : M Z :=
  let! sb := gets k_sb in
  balloc_loop (S (S (Z.to_nat (sb_size sb / BPB)))) dev 0.

Definition bfree (dev b : Z) : M unit :=
  let! sb := gets k_sb in
  let! bp := bread dev (BBLOCK b sb) in
  let bi := b mod BPB in
  let! data := getb b_data bp in
  if Z.land (map_byte bi data) (bit_mask bi) =? 0 then panic "freeing free block" else
  setb bp (set_b_data (<[Z.to_nat (bi / 8) := Z.land (map_byte bi data) (Z.lnot (bit_mask bi))]> data)) ;!
  log_write bp ;!
  brelse bp.

(** ** Inodes *)

Definition iinit : M unit :=
  initlock L_itable ;!
  foreach (seq 0 NINODE) (fun i => initsleeplock (SL_inode i)).

(** The search of iget: a hit, or the first empty entry. *)
Fixpoint iget_scan (l : list nat) (dev inum : Z) (empty : option nat) : M (nat + option nat) :=
  match l with
  | [] => ret (inr empty)
  | i :: l' =>
      let! ip := gets (inode_at i) in
      if (0 <? i_ref ip) && (i_dev ip =? dev) && (i_inum ip =? inum) then ret (inl i) else
      iget_scan l' dev inum
        (match empty with Some e => Some e | None => if i_ref ip =? 0 then Some i else None end)
  end.

Definition iget (dev inum : Z) : M nat :=
  acquire L_itable ;!
  let! r := iget_scan (seq 0 NINODE) dev inum None in
  match r with
  | inl ip =>
      seti ip (fun i => set_i_ref (i_ref i + 1) i) ;!
      release L_itable ;!
      ret ip
  | inr None => panic "iget: no inodes"
  | inr (Some ip) =>
      seti ip (set_i_dev dev) ;!
      seti ip (set_i_inum inum) ;!
      seti ip (set_i_ref 1) ;!
      seti ip (set_i_valid 0) ;!
      release L_itable ;!
      ret ip
  end.

Fixpoint ialloc_loop (fuel : nat) (dev type inum : Z) : M (option nat) :=
  match fuel with
  | O => nofuel
  | S fuel' =>
      let! sb := gets k_sb in
      if negb (inum <? sb_ninodes sb) then
        printf ("ialloc: no inodes" ++ newline) [] ;!
        ret None
      else
        let! bp := bread dev (IBLOCK inum sb) in
        let! data := getb b_data bp in
        let off := dinode_off inum in
        if di_type (get_dinode off data) =? 0 then
          setb bp (set_b_data (put16 off type (put_bytes off (replicate 64 0) data))) ;!
          log_write bp ;!
          brelse bp ;!
          let! ip := iget dev inum in
          ret (Some ip)
        else
          brelse bp ;!
          ialloc_loop fuel' dev type (inum + 1)
  end.

Definition ialloc (dev type : Z) : M (option nat) :=
  let! sb := gets k_sb in
  ialloc_loop (S (Z.to_nat (sb_ninodes sb))) dev type 1.

Definition iupdate (ip : nat) : M unit :=
  let! sb := gets k_sb in
  let! i := gets (inode_at ip) in
  let! bp := bread (i_dev i) (IBLOCK (i_inum i) sb) in
  let! i := gets (inode_at ip) in
  setb bp (fun q => set_b_data
    (put_dinode (dinode_off (i_inum i))
       (mkdinode (i_type i) (i_major i) (i_minor i) (i_nlink i) (i_size i) (i_addrs i)) (b_data q)) q) ;!
  log_write bp ;!
  brelse bp.

Definition idup (ip : nat) : M nat :=
  acquire L_itable ;!
  seti ip (fun i => set_i_ref (i_ref i + 1) i) ;!
  release L_itable ;!
  ret ip.

Definition ilock (ip : nat) : M unit :=
  let! ref := geti i_ref ip in
  if ref <? 1 then panic "ilock" else
  acquiresleep (SL_inode ip) ;!
  let! valid := geti i_valid ip in
  if valid =? 0 then
    let! sb := gets k_sb in
    let! i := gets (inode_at ip) in
    let! bp := bread (i_dev i) (IBLOCK (i_inum i) sb) in
    let! data := getb b_data bp in
    let d := get_dinode (dinode_off (i_inum i)) data in
    seti ip (set_i_type (di_type d)) ;!
    seti ip (set_i_major (di_major d)) ;!
    seti ip (set_i_minor (di_minor d)) ;!
    seti ip (set_i_nlink (di_nlink d)) ;!
    seti ip (set_i_size (di_size d)) ;!
    seti ip (set_i_addrs (di_addrs d)) ;!
    brelse bp ;!
    seti ip (set_i_valid 1) ;!
    let! type := geti i_type ip in
    if type =? 0 then panic "ilock: no type" else ret tt
  else ret tt.

Definition iunlock (ip : nat) : M unit :=
  let! h := holdingsleep (SL_inode ip) in
  if negb h then panic "iunlock" else
  let! ref := geti i_ref ip in
  if ref <? 1 then panic "iunlock" else
  releasesleep (SL_inode ip).

(** ** Contents *)

(** Block [bn] of the file, allocated if it is missing; 0 when the disk is full. *)
Definition bmap (ip : nat) (bn : Z) : M Z :=
  if bn <? NDIRECT then
    let! i := gets (inode_at ip) in
    let addr := i_addrs i !!! Z.to_nat bn in
    if addr =? 0 then
      let! addr := balloc (i_dev i) in
      if addr =? 0 then ret 0 else
      seti ip (fun i => set_i_addrs (<[Z.to_nat bn := addr]> (i_addrs i)) i) ;!
      ret addr
    else ret addr
  else
    let bn := bn - NDIRECT in
    if bn <? NINDIRECT then
      let! i := gets (inode_at ip) in
      let addr := i_addrs i !!! Z.to_nat NDIRECT in
      let! ind := (if addr =? 0 then
                     let! addr := balloc (i_dev i) in
                     when (negb (addr =? 0))
                       (seti ip (fun i => set_i_addrs (<[Z.to_nat NDIRECT := addr]> (i_addrs i)) i)) ;!
                     ret addr
                   else ret addr) in
      if ind =? 0 then ret 0 else
      let! bp := bread (i_dev i) ind in
      let! data := getb b_data bp in
      let addr := get32 (4 * Z.to_nat bn) data in
      let! addr := (if addr =? 0 then
                      let! addr := balloc (i_dev i) in
                      when (negb (addr =? 0))
                        (setb bp (fun q => set_b_data (put32 (4 * Z.to_nat bn) addr (b_data q)) q) ;!
                         log_write bp) ;!
                      ret addr
                    else ret addr) in
      brelse bp ;!
      ret addr
    else panic "bmap: out of range".

Definition itrunc (ip : nat) : M unit :=
  foreach (seq 0 (Z.to_nat NDIRECT)) (fun k =>
    let! i := gets (inode_at ip) in
    let addr := i_addrs i !!! k in
    when (truth addr)
      (bfree (i_dev i) addr ;!
       seti ip (fun i => set_i_addrs (<[k := 0]> (i_addrs i)) i))) ;!
  let! i := gets (inode_at ip) in
  let ind := i_addrs i !!! Z.to_nat NDIRECT in
  when (truth ind)
    (let! bp := bread (i_dev i) ind in
     foreach (seq 0 (Z.to_nat NINDIRECT)) (fun j =>
       let! data := getb b_data bp in
       let a := get32 (4 * j) data in
       when (truth a) (bfree (i_dev i) a)) ;!
     brelse bp ;!
     bfree (i_dev i) ind ;!
     seti ip (fun i => set_i_addrs (<[Z.to_nat NDIRECT := 0]> (i_addrs i)) i)) ;!
  seti ip (set_i_size 0) ;!
  iupdate ip.

Definition iput (ip : nat) : M unit :=
  acquire L_itable ;!
  let! i := gets (inode_at ip) in
  when ((i_ref i =? 1) && truth (i_valid i) && (i_nlink i =? 0))
    (acquiresleep (SL_inode ip) ;!
     release L_itable ;!
     itrunc ip ;!
     seti ip (set_i_type 0) ;!
     iupdate ip ;!
     seti ip (set_i_valid 0) ;!
     releasesleep (SL_inode ip) ;!
     acquire L_itable) ;!
  seti ip (fun i => set_i_ref (i_ref i - 1) i) ;!
  release L_itable.

Definition iunlockput (ip : nat) : M unit :=
  iunlock ip ;!
  iput ip.

Definition stati (ip : nat) : M (list Z) :=
  let! i := gets (inode_at ip) in
  ret (stat_bytes (i_dev i) (i_inum i) (i_type i) (i_nlink i) (i_size i)).

(** The loop of readi: the final tot, and the bytes stored at a kernel destination. *)
Fixpoint readi_loop (fuel : nat) (ip : nat) (user_dst : bool) (dst off n tot : Z) : M (Z * list Z) :=
  match fuel with
  | O => nofuel
  | S fuel' =>
      if negb (tot <? n) then ret (tot, []) else
      let! addr := bmap ip (off / BSIZE) in
      if addr =? 0 then ret (tot, []) else
      let! dev := geti i_dev ip in
      let! bp := bread dev addr in
      let m := Z.min (n - tot) (BSIZE - off mod BSIZE) in
      let! data := getb b_data bp in
      let! r := either_copyout user_dst dst (get_bytes (Z.to_nat (off mod BSIZE)) (Z.to_nat m) data) m in
      if fst r =? -1 then brelse bp ;! ret (-1, snd r) else
      brelse bp ;!
      let! rest := readi_loop fuel' ip user_dst (u64 (dst + m)) (off + m) n (tot + m) in
      ret (fst rest, snd r ++ snd rest)
  end.

Definition readi (ip : nat) (user_dst : bool) (dst off n : Z) : M (Z * list Z) :=
  let! size := geti i_size ip in
  if (size <? off) || (u32 (off + n) <? off) then ret (0, []) else
  let n := if size <? u32 (off + n) then u32 (size - off) else n in
  let! r := readi_loop (S (S (Z.to_nat (n / BSIZE + 1)))) ip user_dst dst off n 0 in
  ret (i32 (fst r), snd r).

(** The loop of writei: the final tot and off. *)
Fixpoint writei_loop (fuel : nat) (ip : nat) (user_src : bool) (src : Z) (ksrc : list Z)
    (off n tot : Z) : M (Z * Z) :=
  match fuel with
  | O => nofuel
  | S fuel' =>
      if negb (tot <? n) then ret (tot, off) else
      let! addr := bmap ip (off / BSIZE) in
      if addr =? 0 then ret (tot, off) else
      let! dev := geti i_dev ip in
      let! bp := bread dev addr in
      let m := Z.min (n - tot) (BSIZE - off mod BSIZE) in
      let! r := either_copyin user_src src (drop (Z.to_nat tot) ksrc) m in
      setb bp (fun q => set_b_data (put_bytes (Z.to_nat (off mod BSIZE)) (snd r) (b_data q)) q) ;!
      if fst r =? -1 then brelse bp ;! ret (tot, off) else
      log_write bp ;!
      brelse bp ;!
      writei_loop fuel' ip user_src (u64 (src + m)) ksrc (off + m) n (tot + m)
  end.

Definition writei (ip : nat) (user_src : bool) (src : Z) (ksrc : list Z) (off n : Z) : M Z :=
  let! size := geti i_size ip in
  if (size <? off) || (u32 (off + n) <? off) then ret (-1) else
  if MAXFILE * BSIZE <? u32 (off + n) then ret (-1) else
  let! r := writei_loop (S (S (Z.to_nat (n / BSIZE + 1)))) ip user_src src ksrc off n 0 in
  let '(tot, off) := r in
  let! size := geti i_size ip in
  when (size <? off) (seti ip (set_i_size off)) ;!
  iupdate ip ;!
  ret (i32 tot).

(** ** Directories *)

Definition namecmp (s t : list Z) : Z := strncmp (bytes_at s) (bytes_at t) DIRSIZ.

(** The loop of dirlookup: the entry's offset and inode. *)
Fixpoint dirlookup_loop (fuel : nat) (dp : nat) (name : list Z) (off : Z) : M (option (nat * Z)) :=
  match fuel with
  | O => nofuel
  | S fuel' =>
      let! size := geti i_size dp in
      if negb (off <? size) then ret None else
      let! r := readi dp false 0 off sizeof_dirent in
      if negb (fst r =? sizeof_dirent) then panic "dirlookup read" else
      let de := snd r in
      if de_inum de =? 0 then dirlookup_loop fuel' dp name (off + sizeof_dirent) else
      if namecmp name (de_name de) =? 0 then
        let! dev := geti i_dev dp in
        let! ip := iget dev (de_inum de) in
        ret (Some (ip, off))
      else dirlookup_loop fuel' dp name (off + sizeof_dirent)
  end.

Definition dirlookup (dp : nat) (name : list Z) : M (option (nat * Z)) :=
  let! type := geti i_type dp in
  if negb (type =? T_DIR) then panic "dirlookup not DIR" else
  let! size := geti i_size dp in
  dirlookup_loop (S (S (Z.to_nat (size / sizeof_dirent)))) dp name 0.

(** The offset of the first empty entry, or the directory's size. *)
Fixpoint dirlink_loop (fuel : nat) (dp : nat) (off : Z) : M Z :=
  match fuel with
  | O => nofuel
  | S fuel' =>
      let! size := geti i_size dp in
      if negb (off <? size) then ret off else
      let! r := readi dp false 0 off sizeof_dirent in
      if negb (fst r =? sizeof_dirent) then panic "dirlink read" else
      if de_inum (snd r) =? 0 then ret off
      else dirlink_loop fuel' dp (off + sizeof_dirent)
  end.

Definition dirlink (dp : nat) (name : list Z) (inum : Z) : M Z :=
  let! o := dirlookup dp name in
  match o with
  | Some (ip, _) => iput ip ;! ret (-1)
  | None =>
      let! size := geti i_size dp in
      let! off := dirlink_loop (S (S (Z.to_nat (size / sizeof_dirent)))) dp 0 in
      let de := mkdirent inum (strncpy (bytes_at name) DIRSIZ) in
      let! r := writei dp false 0 de off sizeof_dirent in
      if negb (r =? sizeof_dirent) then ret (-1) else ret 0
  end.

(** ** Paths *)

(** A path is the list of its characters; its end is the NUL. *)
Fixpoint skip_slashes (path : list Z) : list Z :=
  match path with
  | [] => []
  | c :: path' => if c =? 47 then skip_slashes path' else path
  end.

(** The characters before the next slash or the end, and the rest. *)
Fixpoint path_elem (path : list Z) : list Z * list Z :=
  match path with
  | [] => ([], [])
  | c :: path' =>
      if (c =? 47) || (c =? 0) then ([], path)
      else let '(s, r) := path_elem path' in (c :: s, r)
  end.

(** [path] ends where a NUL is read. *)
Definition at_end (path : list Z) : bool := match path with [] => true | c :: _ => c =? 0 end.

(** The rest of the path and the buffer name[DIRSIZ] after the copy. *)
Definition skipelem (path name : list Z) : option (list Z * list Z) :=
  let path := skip_slashes path in
  if at_end path then None else
  let '(s, rest) := path_elem path in
  let name := if DIRSIZ <=? Z.of_nat (length s) then take (Z.to_nat DIRSIZ) s
              else put_bytes 0 (s ++ [0]) name in
  Some (skip_slashes rest, name).

Fixpoint namex_loop (fuel : nat) (ip : nat) (path : list Z) (nameiparent : bool) (name : list Z)
    : M (option (nat * list Z)) :=
  match fuel with
  | O => nofuel
  | S fuel' =>
      match skipelem path name with
      | None => if nameiparent then iput ip ;! ret None else ret (Some (ip, name))
      | Some (path, name) =>
          ilock ip ;!
          let! type := geti i_type ip in
          if negb (type =? T_DIR) then iunlockput ip ;! ret None else
          if nameiparent && at_end path then iunlock ip ;! ret (Some (ip, name)) else
          let! o := dirlookup ip name in
          match o with
          | None => iunlockput ip ;! ret None
          | Some (next, _) => iunlockput ip ;! namex_loop fuel' next path nameiparent name
          end
      end
  end.

(** The inode and the final path element. *)
Definition namex (path : list Z) (nameiparent : bool) (name : list Z) : M (option (nat * list Z)) :=
  let! ip := (if hd 0 path =? 47 then iget ROOTDEV ROOTINO
              else let! p := curproc in
                   let! cwd := getp p_cwd p in
                   match cwd with
                   | Some ip => idup ip
                   | None => undef "null inode pointer"
                   end) in
  namex_loop (S (length path)) ip path nameiparent name.

(** A name buffer before it is written to. *)
Definition name0 : list Z := replicate (Z.to_nat DIRSIZ) 0.

Definition namei (path : list Z) : M (option nat) :=
  let! r := namex path false name0 in
  ret (fst <$> r).

Definition nameiparent (path : list Z) : M (option (nat * list Z)) := namex path true name0.

End Fs.
