(* ===== verification/File.v ===== *)
(** * Open files (kernel/file.c, pipealloc of kernel/pipe.c) *)

From S2P Require Import Prelude Memory Riscv State Kmonad Spinlock CString Kalloc Vm Proc Sleeplock.
From S2P Require Import Pipe Uart Printf Console Bytes Bio Log Fs.
From Stdlib Require Import ZArith Lia.
From stdpp Require Import base numbers list gmap strings option.

#[local] Open Scope Z_scope.
#[local] Open Scope kernel_scope.

Definition file_at (f : nat) (s : kstate) : file := k_ftable s !!! f.
Definition setf (f : nat) (g : file -> file) : M unit := modify (upd_file f g).

(** devsw[major], which the caller has checked to be in range. *)
Definition devsw_at (major : Z) (s : kstate) : devfn := nth (Z.to_nat major) (k_devsw s) DEV_none.

Section File.
Context `{L : KernelLayout} `{F : Fuel} `{D : DiskDriver}.

Definition fileinit : M unit := initlock L_ftable.

Fixpoint filealloc_scan (l : list nat) : M (option nat) :=
  match l with
  | [] => release L_ftable ;! ret None
  | f :: l' =>
      let! q := gets (file_at f) in
      if f_ref q =? 0 then
        setf f (set_f_ref 1) ;!
        release L_ftable ;!
        ret (Some f)
      else filealloc_scan l'
  end.

Definition filealloc : M (option nat) :=
  acquire L_ftable ;!
  filealloc_scan (seq 0 NFILE).

Definition filedup (f : nat) : M nat :=
  acquire L_ftable ;!
  let! q := gets (file_at f) in
  if f_ref q <? 1 then panic "filedup" else
  setf f (set_f_ref (f_ref q + 1)) ;!
  release L_ftable ;!
  ret f.

(** ff.ip where the code dereferences it. *)
Definition the_inode (o : option nat) : M nat :=
  match o with Some ip => ret ip | None => undef "null inode pointer" end.

(** The inode that ilock is given. *)
Definition ilock_arg (o : option nat) : M nat :=
  match o with Some ip => ret ip | None => panic "ilock" end.

Definition fileclose (f : nat) : M unit :=
  acquire L_ftable ;!
  let! q := gets (file_at f) in
  if f_ref q <? 1 then panic "fileclose" else
  setf f (set_f_ref (f_ref q - 1)) ;!
  if 0 <? f_ref q - 1 then release L_ftable else
  let! ff := gets (file_at f) in
  setf f (set_f_ref 0) ;!
  setf f (set_f_type FD_NONE) ;!
  release L_ftable ;!
  match f_type ff with
  | FD_PIPE => pipeclose (f_pipe ff) (truth (f_writable ff))
  | FD_INODE | FD_DEVICE =>
      begin_op ;!
      let! ip := the_inode (f_ip ff) in
      iput ip ;!
      end_op
  | FD_NONE => ret tt
  end.

Definition filestat (f : nat) (addr : Z) : M Z :=
  let! p := curproc in
  let! q := gets (file_at f) in
  match f_type q with
  | FD_INODE | FD_DEVICE =>
      let! ip := ilock_arg (f_ip q) in
      ilock ip ;!
      let! st := stati ip in
      iunlock ip ;!
      let! pt := getp p_pagetable p in
      let! r := copyout pt addr st 24 in
      if r <? 0 then ret (-1) else ret 0
  | _ => ret (-1)
  end.

Definition fileread (f : nat) (addr n : Z) : M Z :=
  let! q := gets (file_at f) in
  if f_readable q =? 0 then ret (-1) else
  match f_type q with
  | FD_PIPE => piperead (f_pipe q) addr n
  | FD_DEVICE =>
      let! dev := gets (devsw_at (f_major q)) in
      if (f_major q <? 0) || (NDEV <=? f_major q) then ret (-1) else
      match dev with
      | DEV_none => ret (-1)
      | DEV_console => let! r := consoleread true addr n in ret (fst r)
      end
  | FD_INODE =>
      let! ip := ilock_arg (f_ip q) in
      ilock ip ;!
      let! q := gets (file_at f) in
      let! r := readi ip true addr (f_off q) (u32 n) in
      when (0 <? fst r) (setf f (fun q => set_f_off (u32 (f_off q + fst r)) q)) ;!
      iunlock ip ;!
      ret (fst r)
  | FD_NONE => panic "fileread"
  end.

(** The bytes written per transaction. *)
Definition filewrite_max : Z := (MAXOPBLOCKS - 1 - 1 - 2) / 2 * BSIZE.

(** The loop of filewrite on an inode: the final i. *)
Fixpoint filewrite_loop (fuel : nat) (f : nat) (addr n i : Z) : M Z :=
  match fuel with
  | O => nofuel
  | S fuel' =>
      if negb (i <? n) then ret i else
      let n1 := Z.min (n - i) filewrite_max in
      begin_op ;!
      let! q := gets (file_at f) in
      let! ip := ilock_arg (f_ip q) in
      ilock ip ;!
      let! q := gets (file_at f) in
      let! r := writei ip true (u64 (addr + i)) [] (f_off q) n1 in
      when (0 <? r) (setf f (fun q => set_f_off (u32 (f_off q + r)) q)) ;!
      iunlock ip ;!
      end_op ;!
      if negb (r =? n1) then ret i else
      filewrite_loop fuel' f addr n (i + r)
  end.

Definition filewrite (f : nat) (addr n : Z) : M Z :=
  let! q := gets (file_at f) in
  if f_writable q =? 0 then ret (-1) else
  match f_type q with
  | FD_PIPE => pipewrite (f_pipe q) addr n
  | FD_DEVICE =>
      let! dev := gets (devsw_at (f_major q)) in
      if (f_major q <? 0) || (NDEV <=? f_major q) then ret (-1) else
      match dev with
      | DEV_none => ret (-1)
      | DEV_console => consolewrite true addr [] n
      end
  | FD_INODE =>
      let! i := filewrite_loop (S (Z.to_nat (n / filewrite_max + 1))) f addr n 0 in
      ret (if i =? n then n else -1)
  | FD_NONE => panic "filewrite"
  end.

(** The label bad of pipealloc. *)
Definition pipealloc_bad (pi : Z) (f0 f1 : option nat) : M (option (nat * nat)) :=
  when (truth pi) (kfree pi) ;!
  (match f0 with Some f => fileclose f | None => ret tt end) ;!
  (match f1 with Some f => fileclose f | None => ret tt end) ;!
  ret None.

(** The two ends, or [None] for the result -1. *)
Definition pipealloc : M (option (nat * nat)) :=
  let! f0 := filealloc in
  match f0 with
  | None => pipealloc_bad 0 None None
  | Some r =>
      let! f1 := filealloc in
      match f1 with
      | None => pipealloc_bad 0 f0 None
      | Some w =>
          let! pi := kalloc in
          if pi =? 0 then pipealloc_bad 0 f0 f1 else
          st32 (pi + PI_readopen) 1 ;!
          st32 (pi + PI_writeopen) 1 ;!
          st32 (pi + PI_nwrite) 0 ;!
          st32 (pi + PI_nread) 0 ;!
          initlock (L_pipe pi) ;!
          setf r (set_f_type FD_PIPE) ;!
          setf r (set_f_readable 1) ;!
          setf r (set_f_writable 0) ;!
          setf r (set_f_pipe pi) ;!
          setf w (set_f_type FD_PIPE) ;!
          setf w (set_f_readable 0) ;!
          setf w (set_f_writable 1) ;!
          setf w (set_f_pipe pi) ;!
          ret (Some (r, w))
      end
  end.

End File.
