(* ===== verification/Virtio.v ===== *)
(** * The disk driver (kernel/virtio_disk.c)

    The mmio registers are words of memory at VIRTIO0.  The three queue pages are allocated
    as in the code; their contents are fields of struct disk, with the addresses stored in
    descriptors replaced by what they point to. *)

From S2P Require Import Prelude Memory Riscv State Kmonad Spinlock CString Kalloc Proc Sleeplock Bio.
From Stdlib Require Import ZArith Lia.
From stdpp Require Import base numbers list gmap strings option.

#[local] Open Scope Z_scope.
#[local] Open Scope kernel_scope.

(** The registers, status bits and feature bits of kernel/virtio.h. *)
Inductive mmio_reg :=
| VIRTIO_MMIO_MAGIC_VALUE
| VIRTIO_MMIO_VERSION
| VIRTIO_MMIO_DEVICE_ID
| VIRTIO_MMIO_VENDOR_ID
| VIRTIO_MMIO_DEVICE_FEATURES
| VIRTIO_MMIO_DRIVER_FEATURES
| VIRTIO_MMIO_QUEUE_SEL
| VIRTIO_MMIO_QUEUE_NUM_MAX
| VIRTIO_MMIO_QUEUE_NUM
| VIRTIO_MMIO_QUEUE_READY
| VIRTIO_MMIO_QUEUE_NOTIFY
| VIRTIO_MMIO_INTERRUPT_STATUS
| VIRTIO_MMIO_INTERRUPT_ACK
| VIRTIO_MMIO_STATUS
| VIRTIO_MMIO_QUEUE_DESC_LOW
| VIRTIO_MMIO_QUEUE_DESC_HIGH
| VIRTIO_MMIO_DRIVER_DESC_LOW
| VIRTIO_MMIO_DRIVER_DESC_HIGH
| VIRTIO_MMIO_DEVICE_DESC_LOW
| VIRTIO_MMIO_DEVICE_DESC_HIGH.

Definition mmio_off (r : mmio_reg) : Z :=
  match r with
  | VIRTIO_MMIO_MAGIC_VALUE => 0x000
  | VIRTIO_MMIO_VERSION => 0x004
  | VIRTIO_MMIO_DEVICE_ID => 0x008
  | VIRTIO_MMIO_VENDOR_ID => 0x00c
  | VIRTIO_MMIO_DEVICE_FEATURES => 0x010
  | VIRTIO_MMIO_DRIVER_FEATURES => 0x020
  | VIRTIO_MMIO_QUEUE_SEL => 0x030
  | VIRTIO_MMIO_QUEUE_NUM_MAX => 0x034
  | VIRTIO_MMIO_QUEUE_NUM => 0x038
  | VIRTIO_MMIO_QUEUE_READY => 0x044
  | VIRTIO_MMIO_QUEUE_NOTIFY => 0x050
  | VIRTIO_MMIO_INTERRUPT_STATUS => 0x060
  | VIRTIO_MMIO_INTERRUPT_ACK => 0x064
  | VIRTIO_MMIO_STATUS => 0x070
  | VIRTIO_MMIO_QUEUE_DESC_LOW => 0x080
  | VIRTIO_MMIO_QUEUE_DESC_HIGH => 0x084
  | VIRTIO_MMIO_DRIVER_DESC_LOW => 0x090
  | VIRTIO_MMIO_DRIVER_DESC_HIGH => 0x094
  | VIRTIO_MMIO_DEVICE_DESC_LOW => 0x0a0
  | VIRTIO_MMIO_DEVICE_DESC_HIGH => 0x0a4
  end.

Definition VIRTIO_CONFIG_S_ACKNOWLEDGE : Z := 1.
Definition VIRTIO_CONFIG_S_DRIVER : Z := 2.
Definition VIRTIO_CONFIG_S_DRIVER_OK : Z := 4.
Definition VIRTIO_CONFIG_S_FEATURES_OK : Z := 8.

Inductive feature :=
| VIRTIO_BLK_F_RO
| VIRTIO_BLK_F_SCSI
| VIRTIO_BLK_F_CONFIG_WCE
| VIRTIO_BLK_F_MQ
| VIRTIO_F_ANY_LAYOUT
| VIRTIO_RING_F_INDIRECT_DESC
| VIRTIO_RING_F_EVENT_IDX.

Definition feature_bit (f : feature) : Z :=
  match f with
  | VIRTIO_BLK_F_RO => 5
  | VIRTIO_BLK_F_SCSI => 7
  | VIRTIO_BLK_F_CONFIG_WCE => 11
  | VIRTIO_BLK_F_MQ => 12
  | VIRTIO_F_ANY_LAYOUT => 27
  | VIRTIO_RING_F_INDIRECT_DESC => 28
  | VIRTIO_RING_F_EVENT_IDX => 29
  end.

Definition NUM : nat := 8.
Definition VRING_DESC_F_NEXT : Z := 1.
Definition VRING_DESC_F_WRITE : Z := 2.
Definition VIRTIO_BLK_T_IN : Z := 0.
Definition VIRTIO_BLK_T_OUT : Z := 1.

Definition upd_vdisk (f : vdisk -> vdisk) (s : kstate) : kstate := set_k_vdisk (f (k_vdisk s)) s.
Definition setd (f : vdisk -> vdisk) : M unit := modify (upd_vdisk f).
Definition getd {A} (f : vdisk -> A) : M A := gets (fun s => f (k_vdisk s)).

Definition desc_at (i : nat) (d : vdisk) : virtq_desc := v_desc d !!! i.
Definition info_at (i : nat) (d : vdisk) : vinfo := v_info d !!! i.
Definition free_at (i : nat) (d : vdisk) : Z := v_free d !!! i.

Definition upd_desc (i : nat) (f : virtq_desc -> virtq_desc) : M unit :=
  setd (fun d => set_v_desc (alter f i (v_desc d)) d).
Definition upd_info (i : nat) (f : vinfo -> vinfo) : M unit :=
  setd (fun d => set_v_info (alter f i (v_info d)) d).

(** *R(r). *)
Definition ldR (r : mmio_reg) : M Z := ld32 (VIRTIO0 + mmio_off r).
Definition stR (r : mmio_reg) (v : Z) : M unit := st32 (VIRTIO0 + mmio_off r) v.

Definition clear_bit (x : Z) (f : feature) : Z := Z.land x (Z.lnot (Z.shiftl 1 (feature_bit f))).

Section Virtio.
Context `{L : KernelLayout} `{F : Fuel}.

Definition virtio_disk_init : M unit :=
  initlock L_vdisk ;!
  let! magic := ldR VIRTIO_MMIO_MAGIC_VALUE in
  let! version := ldR VIRTIO_MMIO_VERSION in
  let! devid := ldR VIRTIO_MMIO_DEVICE_ID in
  let! vendor := ldR VIRTIO_MMIO_VENDOR_ID in
  if negb (magic =? 0x74726976) || negb (version =? 2) || negb (devid =? 2) || negb (vendor =? 0x554d4551)
  then panic "could not find virtio disk" else
  let status := 0 in
  stR VIRTIO_MMIO_STATUS status ;!
  let status := Z.lor status VIRTIO_CONFIG_S_ACKNOWLEDGE in
  stR VIRTIO_MMIO_STATUS status ;!
  let status := Z.lor status VIRTIO_CONFIG_S_DRIVER in
  stR VIRTIO_MMIO_STATUS status ;!
  let! features := ldR VIRTIO_MMIO_DEVICE_FEATURES in
  let features := clear_bit features VIRTIO_BLK_F_RO in
  let features := clear_bit features VIRTIO_BLK_F_SCSI in
  let features := clear_bit features VIRTIO_BLK_F_CONFIG_WCE in
  let features := clear_bit features VIRTIO_BLK_F_MQ in
  let features := clear_bit features VIRTIO_F_ANY_LAYOUT in
  let features := clear_bit features VIRTIO_RING_F_EVENT_IDX in
  let features := clear_bit features VIRTIO_RING_F_INDIRECT_DESC in
  stR VIRTIO_MMIO_DRIVER_FEATURES features ;!
  let status := Z.lor status VIRTIO_CONFIG_S_FEATURES_OK in
  stR VIRTIO_MMIO_STATUS status ;!
  let! status := ldR VIRTIO_MMIO_STATUS in
  if negb (has_bits status VIRTIO_CONFIG_S_FEATURES_OK) then panic "virtio disk FEATURES_OK unset" else
  stR VIRTIO_MMIO_QUEUE_SEL 0 ;!
  let! ready := ldR VIRTIO_MMIO_QUEUE_READY in
  if truth ready then panic "virtio disk should not be ready" else
  let! max := ldR VIRTIO_MMIO_QUEUE_NUM_MAX in
  if max =? 0 then panic "virtio disk has no queue 0" else
  if max <? Z.of_nat NUM then panic "virtio disk max queue too short" else
  let! desc := kalloc in
  setd (set_v_desc_pa desc) ;!
  let! avail := kalloc in
  setd (set_v_avail_pa avail) ;!
  let! used := kalloc in
  setd (set_v_used_pa used) ;!
  if negb (truth desc) || negb (truth avail) || negb (truth used) then panic "virtio disk kalloc" else
  memset desc 0 PGSIZE ;!
  setd (set_v_desc (replicate NUM inhabitant)) ;!
  memset avail 0 PGSIZE ;!
  setd (fun d => set_v_avail_idx 0 (set_v_avail_ring (replicate NUM 0) d)) ;!
  memset used 0 PGSIZE ;!
  setd (fun d => set_v_used_pos 0 (set_v_used_ring (replicate NUM 0) d)) ;!
  stR VIRTIO_MMIO_QUEUE_NUM (Z.of_nat NUM) ;!
  stR VIRTIO_MMIO_QUEUE_DESC_LOW desc ;!
  stR VIRTIO_MMIO_QUEUE_DESC_HIGH (Z.shiftr desc 32) ;!
  stR VIRTIO_MMIO_DRIVER_DESC_LOW avail ;!
  stR VIRTIO_MMIO_DRIVER_DESC_HIGH (Z.shiftr avail 32) ;!
  stR VIRTIO_MMIO_DEVICE_DESC_LOW used ;!
  stR VIRTIO_MMIO_DEVICE_DESC_HIGH (Z.shiftr used 32) ;!
  stR VIRTIO_MMIO_QUEUE_READY 1 ;!
  foreach (seq 0 NUM) (fun i => setd (fun d => set_v_free (<[i := 1]> (v_free d)) d)) ;!
  let status := Z.lor status VIRTIO_CONFIG_S_DRIVER_OK in
  stR VIRTIO_MMIO_STATUS status.

Fixpoint alloc_desc_scan (l : list nat) : M Z :=
  match l with
  | [] => ret (-1)
  | i :: l' =>
      let! f := getd (free_at i) in
      if truth f then
        setd (fun d => set_v_free (<[i := 0]> (v_free d)) d) ;!
        ret (Z.of_nat i)
      else alloc_desc_scan l'
  end.

Definition alloc_desc : M Z := alloc_desc_scan (seq 0 NUM).

Definition free_desc (i : Z) : M unit :=
  if Z.of_nat NUM <=? i then panic "free_desc 1" else
  let i := Z.to_nat i in
  let! f := getd (free_at i) in
  if truth f then panic "free_desc 2" else
  upd_desc i (fun _ => mkdesc DMA_null 0 0 0) ;!
  setd (fun d => set_v_free (<[i := 1]> (v_free d)) d) ;!
  wakeup CH_disk_free.

(** A chain has at most NUM descriptors. *)
Fixpoint free_chain_loop (fuel : nat) (i : Z) : M unit :=
  match fuel with
  | O => nofuel
  | S fuel' =>
      let! d := getd (desc_at (Z.to_nat i)) in
      free_desc i ;!
      if has_bits (vd_flags d) VRING_DESC_F_NEXT then free_chain_loop fuel' (vd_next d)
      else ret tt
  end.

Definition free_chain (i : Z) : M unit := free_chain_loop (S NUM) i.

(** The three descriptors, or [None] for the result -1. *)
Definition alloc3_desc : M (option (nat * nat * nat)) :=
  let! i0 := alloc_desc in
  if i0 <? 0 then ret None else
  let! i1 := alloc_desc in
  if i1 <? 0 then free_desc i0 ;! ret None else
  let! i2 := alloc_desc in
  if i2 <? 0 then free_desc i0 ;! free_desc i1 ;! ret None else
  ret (Some (Z.to_nat i0, Z.to_nat i1, Z.to_nat i2)).

Fixpoint alloc3_wait (fuel : nat) : M (nat * nat * nat) :=
  match fuel with
  | O => nofuel
  | S fuel' =>
      let! o := alloc3_desc in
      match o with
      | Some idx => ret idx
      | None =>
          sleep CH_disk_free L_vdisk ;!
          alloc3_wait fuel'
      end
  end.

(** Wait until virtio_disk_intr says the request has finished. *)
Fixpoint disk_wait (fuel : nat) (b : nat) : M unit :=
  match fuel with
  | O => nofuel
  | S fuel' =>
      let! disk := getb b_disk b in
      if disk =? 1 then
        sleep (CH_buf b) L_vdisk ;!
        disk_wait fuel' b
      else ret tt
  end.

(** Formatting the three descriptors of a request and making it available. *)
Definition submit (b : nat) (write : bool) (sector : Z) (i0 i1 i2 : nat) : M unit :=
  setd (fun d => set_v_ops (<[i0 := mkreq (if write then VIRTIO_BLK_T_OUT else VIRTIO_BLK_T_IN) 0 sector]> (v_ops d)) d) ;!
  upd_desc i0 (fun _ => mkdesc (DMA_op i0) 16 VRING_DESC_F_NEXT (Z.of_nat i1)) ;!
  upd_desc i1 (fun _ => mkdesc (DMA_data b) BSIZE
    (Z.lor (if write then 0 else VRING_DESC_F_WRITE) VRING_DESC_F_NEXT) (Z.of_nat i2)) ;!
  upd_info i0 (set_vi_status 0xff) ;!
  upd_desc i2 (fun _ => mkdesc (DMA_status i0) 1 VRING_DESC_F_WRITE 0) ;!
  setb b (set_b_disk 1) ;!
  upd_info i0 (set_vi_b (Some b)) ;!
  let! idx := getd v_avail_idx in
  setd (fun d => set_v_avail_ring (<[Z.to_nat (idx mod Z.of_nat NUM) := Z.of_nat i0]> (v_avail_ring d)) d) ;!
  setd (set_v_avail_idx (u16 (idx + 1))) ;!
  stR VIRTIO_MMIO_QUEUE_NOTIFY 0.

Definition virtio_disk_rw (b : nat) (write : bool) : M unit :=
  let! blockno := getb b_blockno b in
  let sector := u32 (blockno * (BSIZE / 512)) in
  acquire L_vdisk ;!
  let! idx := alloc3_wait (S wakeups) in
  let '(i0, i1, i2) := idx in
  submit b write sector i0 i1 i2 ;!
  disk_wait (S wakeups) b ;!
  upd_info i0 (set_vi_b None) ;!
  free_chain (Z.of_nat i0) ;!
  release L_vdisk.

(** The used ring's new entries; there are at most 65535 of them. *)
Fixpoint virtio_disk_intr_loop (fuel : nat) : M unit :=
  match fuel with
  | O => nofuel
  | S fuel' =>
      let! d := gets k_vdisk in
      if v_used_idx d =? v_used_pos d then ret tt else
      let id := Z.to_nat (v_used_ring d !!! Z.to_nat (v_used_idx d mod Z.of_nat NUM)) in
      if negb (vi_status (info_at id d) =? 0) then panic "virtio_disk_intr status" else
      match vi_b (info_at id d) with
      | None => undef "null buffer pointer"
      | Some b =>
          setb b (set_b_disk 0) ;!
          wakeup (CH_buf b) ;!
          setd (set_v_used_idx (u16 (v_used_idx d + 1))) ;!
          virtio_disk_intr_loop fuel'
      end
  end.

Definition virtio_disk_intr : M unit :=
  acquire L_vdisk ;!
  let! st := ldR VIRTIO_MMIO_INTERRUPT_STATUS in
  stR VIRTIO_MMIO_INTERRUPT_ACK (Z.land st 3) ;!
  let! d := gets k_vdisk in
  virtio_disk_intr_loop (S (Z.to_nat (u16 (v_used_pos d - v_used_idx d)))) ;!
  release L_vdisk.

(** The driver as the disk of the buffer cache. *)
Definition virtio : DiskDriver := virtio_disk_rw.

End Virtio.
