(* ===== verification/Plic.v ===== *)
(** * The interrupt controller (kernel/plic.c)

    The controller's registers are words of memory: the claim register holds the pending
    interrupt. *)

From S2P Require Import Prelude Memory Riscv State Kmonad Spinlock.
From Stdlib Require Import ZArith Lia.
From stdpp Require Import base numbers list.

#[local] Open Scope Z_scope.
#[local] Open Scope kernel_scope.

Definition PLIC_SENABLE (hart : nat) : Z := PLIC + 0x2080 + Z.of_nat hart * 0x100.
Definition PLIC_SPRIORITY (hart : nat) : Z := PLIC + 0x201000 + Z.of_nat hart * 0x2000.
Definition PLIC_SCLAIM (hart : nat) : Z := PLIC + 0x201004 + Z.of_nat hart * 0x2000.

Definition plicinit : M unit :=
  st32 (PLIC + UART0_IRQ * 4) 1 ;!
  st32 (PLIC + VIRTIO0_IRQ * 4) 1.

Definition plicinithart : M unit :=
  let! hart := cpuid in
  st32 (PLIC_SENABLE hart) (Z.lor (Z.shiftl 1 UART0_IRQ) (Z.shiftl 1 VIRTIO0_IRQ)) ;!
  st32 (PLIC_SPRIORITY hart) 0.

Definition plic_claim : M Z :=
  let! hart := cpuid in
  ld32 (PLIC_SCLAIM hart).

Definition plic_complete (irq : Z) : M unit :=
  let! hart := cpuid in
  st32 (PLIC_SCLAIM hart) irq.
