(* ===== verification/Trap.v ===== *)
(** * Traps and interrupts (kernel/trap.c)

    usertrapret ends by jumping to userret in the trampoline with the user page table's
    satp; here it returns that value.  usertrap, which calls the system calls, is in
    [Usertrap]. *)

From S2P Require Import Prelude Memory Riscv State Kmonad Spinlock CString Kalloc Vm Proc Sleeplock.
From S2P Require Import Uart Printf Console Bio Virtio Plic.
From Stdlib Require Import ZArith Lia Ascii String.
From stdpp Require Import base numbers list gmap strings option.

#[local] Open Scope Z_scope.
#[local] Open Scope kernel_scope.

(** Supervisor registers (kernel/riscv.h). *)
Definition r_csr {A} (f : csrs -> A) : M A := gets (fun s => f (k_csr s)).
Definition w_csr (f : csrs -> csrs) : M unit := modify (fun s => set_k_csr (f (k_csr s)) s).

(** sstatus, by its bits SPP, SPIE and SIE. *)
Definition r_sstatus : M (bool * bool * bool) :=
  gets (fun s => (cs_spp (k_csr s), cs_spie (k_csr s), k_sie s)).
Definition w_sstatus (x : bool * bool * bool) : M unit :=
  let '(spp, spie, sie) := x in
  modify (fun s => set_k_sie sie (set_k_csr (set_cs_spp spp (set_cs_spie spie (k_csr s))) s)).

Section Trap.
Context `{L : KernelLayout} `{F : Fuel}.

Definition trapinit : M unit := initlock L_ticks.

Definition trapinithart : M unit := w_csr (set_cs_stvec kernelvec).

Definition usertrapret : M Z :=
  let! p := curproc in
  intr_off ;!
  w_csr (set_cs_stvec (u64 (TRAMPOLINE + (uservec - trampoline)))) ;!
  let! satp := r_csr cs_satp in
  st_tf p TF_kernel_satp satp ;!
  let! kstack := getp p_kstack p in
  st_tf p TF_kernel_sp (u64 (kstack + PGSIZE)) ;!
  st_tf p TF_kernel_trap usertrap_addr ;!
  let! hart := cpuid in
  st_tf p TF_kernel_hartid (Z.of_nat hart) ;!
  let! x := r_sstatus in
  w_sstatus (false, true, snd x) ;!
  let! epc := ld_tf p TF_epc in
  w_csr (set_cs_sepc epc) ;!
  let! pt := getp p_pagetable p in
  ret (MAKE_SATP pt).

Definition clockintr : M unit :=
  acquire L_ticks ;!
  modify (fun s => set_k_ticks (u32 (k_ticks s + 1)) s) ;!
  wakeup CH_ticks ;!
  release L_ticks.

(** 2 for a timer interrupt, 1 for another device, 0 if not recognized. *)
Definition devintr : M Z :=
  let! scause := r_csr cs_scause in
  if has_bits scause 0x8000000000000000 && (Z.land scause 0xff =? 9) then
    let! irq := plic_claim in
    (if irq =? UART0_IRQ then uartintr
     else if irq =? VIRTIO0_IRQ then virtio_disk_intr
     else when (truth irq) (printf ("unexpected interrupt irq=%d" ++ newline) [AInt (i32 irq)])) ;!
    when (truth irq) (plic_complete irq) ;!
    ret 1
  else if scause =? 0x8000000000000001 then
    let! hart := cpuid in
    when (bool_decide (hart = 0%nat)) clockintr ;!
    w_csr (fun c => set_cs_sip (Z.land (cs_sip c) (Z.lnot 2)) c) ;!
    ret 2
  else ret 0.

Definition kerneltrap : M unit :=
  let! sepc := r_csr cs_sepc in
  let! sstatus := r_sstatus in
  let! scause := r_csr cs_scause in
  let '(spp, _, _) := sstatus in
  if negb spp then panic "kerneltrap: not from supervisor mode" else
  let! on := intr_get in
  if on then panic "kerneltrap: interrupts enabled" else
  let! which_dev := devintr in
  if which_dev =? 0 then
    printf ("scause %p" ++ newline) [APtr scause] ;!
    let! c := gets k_csr in
    printf ("sepc=%p stval=%p" ++ newline) [APtr (cs_sepc c); APtr (cs_stval c)] ;!
    panic "kerneltrap"
  else
    let! go := (if which_dev =? 2 then
                  let! p := myproc in
                  match p with
                  | None => ret false
                  | Some _ =>
                      let! i := curproc in
                      let! st := getp p_state i in
                      ret (bool_decide (st = RUNNING))
                  end
                else ret false) in
    when go yield ;!
    w_csr (set_cs_sepc sepc) ;!
    w_sstatus sstatus.

End Trap.
