(* ===== verification/ProcFs.v ===== *)
(** * Creating and ending processes (kernel/proc.c)

    The functions of kernel/proc.c that call the file system: userinit, fork, exit and
    forkret. *)

From S2P Require Import Prelude Memory Riscv State Kmonad Spinlock CString Kalloc Vm Proc Sleeplock.
From S2P Require Import Bytes Bio Log Fs File Trap.
From Stdlib Require Import ZArith Lia.
From stdpp Require Import base numbers list gmap strings option.

#[local] Open Scope Z_scope.
#[local] Open Scope kernel_scope.

(** The machine code of user/initcode.S. *)
Definition initcode : list Z :=
  [0x17; 0x05; 0x00; 0x00; 0x13; 0x05; 0x45; 0x02;
   0x97; 0x05; 0x00; 0x00; 0x93; 0x85; 0x35; 0x02;
   0x93; 0x08; 0x70; 0x00; 0x73; 0x00; 0x00; 0x00;
   0x93; 0x08; 0x20; 0x00; 0x73; 0x00; 0x00; 0x00;
   0xef; 0xf0; 0x9f; 0xff; 0x2f; 0x69; 0x6e; 0x69;
   0x74; 0x00; 0x00; 0x24; 0x00; 0x00; 0x00; 0x00;
   0x00; 0x00; 0x00; 0x00].

(** safestrcpy(p->name, t, sizeof(p->name)). *)
Definition set_name (t : list Z) (p : proc) : proc :=
  set_p_name (put_bytes 0 (safestrcpy (bytes_at t) 16) (p_name p)) p.

Section ProcFs.
Context `{L : KernelLayout} `{F : Fuel} `{D : DiskDriver}.

Definition userinit : M unit :=
  let! o := allocproc in
  modify (set_k_initproc o) ;!
  match o with
  | None => undef "null process pointer"
  | Some p =>
      let! pt := getp p_pagetable p in
      uvmfirst pt initcode (Z.of_nat (length initcode)) ;!
      setp p (set_p_sz PGSIZE) ;!
      st_tf p TF_epc 0 ;!
      st_tf p TF_sp PGSIZE ;!
      setp p (set_name [105; 110; 105; 116; 99; 111; 100; 101; 0]) ;!
      let! cwd := namei [47] in
      setp p (set_p_cwd cwd) ;!
      setp p (set_p_state RUNNABLE) ;!
      release (L_proc p)
  end.

(** np->ofile[i] = filedup(p->ofile[i]) for the open files. *)
Definition dup_files (p np : nat) : M unit :=
  foreach (seq 0 NOFILE) (fun i =>
    let! o := getp (fun q => p_ofile q !!! i) p in
    match o with
    | Some f =>
        let! f := filedup f in
        setp np (fun q => set_p_ofile (<[i := Some f]> (p_ofile q)) q)
    | None => ret tt
    end).

Definition fork : M Z :=
  let! p := curproc in
  let! o := allocproc in
  match o with
  | None => ret (-1)
  | Some np =>
      let! ppt := getp p_pagetable p in
      let! npt := getp p_pagetable np in
      let! sz := getp p_sz p in
      let! r := uvmcopy ppt npt sz in
      if r <? 0 then
        freeproc np ;!
        release (L_proc np) ;!
        ret (-1)
      else
        setp np (set_p_sz sz) ;!
        let! tf := getp p_trapframe p in
        let! ntf := getp p_trapframe np in
        let! regs := gets (fun s => mread (k_mem s) tf (Z.to_nat TF_size)) in
        modify (fun s => set_k_mem (mwrite (k_mem s) ntf regs) s) ;!
        st_tf np TF_a0 0 ;!
        dup_files p np ;!
        let! cwd := getp p_cwd p in
        let! ip := the_inode cwd in
        let! ip := idup ip in
        setp np (set_p_cwd (Some ip)) ;!
        let! name := getp p_name p in
        setp np (set_name name) ;!
        let! pid := getp p_pid np in
        release (L_proc np) ;!
        acquire L_wait ;!
        setp np (set_p_parent (Some p)) ;!
        release L_wait ;!
        acquire (L_proc np) ;!
        setp np (set_p_state RUNNABLE) ;!
        release (L_proc np) ;!
        ret pid
  end.

Definition close_files (p : nat) : M unit :=
  foreach (seq 0 NOFILE) (fun fd =>
    let! o := getp (fun q => p_ofile q !!! fd) p in
    match o with
    | Some f =>
        fileclose f ;!
        setp p (fun q => set_p_ofile (<[fd := None]> (p_ofile q)) q)
    | None => ret tt
    end).

Definition exit {A} (status : Z) : M A :=
  let! p := curproc in
  let! init := gets k_initproc in
  if decide (Some p = init) then panic "init exiting" else
  close_files p ;!
  begin_op ;!
  let! cwd := getp p_cwd p in
  let! ip := the_inode cwd in
  iput ip ;!
  end_op ;!
  setp p (set_p_cwd None) ;!
  acquire L_wait ;!
  reparent p ;!
  let! parent := getp p_parent p in
  wakeup (chan_of_proc parent) ;!
  acquire (L_proc p) ;!
  setp p (set_p_xstate status) ;!
  setp p (set_p_state ZOMBIE) ;!
  release L_wait ;!
  sched ;!
  panic "zombie exit".

(** The first code a new process runs. *)
Definition forkret : M Z :=
  let! p := curproc in
  release (L_proc p) ;!
  let! first := gets k_first in
  when first
    (modify (set_k_first false) ;!
     fsinit ROOTDEV) ;!
  usertrapret.

End ProcFs.
