(* ===== verification/Syscall.v ===== *)
(** * System call arguments (kernel/syscall.c)

    A NUL-terminated kernel string is the list of the bytes copied in, NUL included. *)

From S2P Require Import Prelude Memory Riscv State Kmonad Spinlock CString Kalloc Vm Proc.
From Stdlib Require Import ZArith Lia.
From stdpp Require Import base numbers list gmap strings option.

#[local] Open Scope Z_scope.
#[local] Open Scope kernel_scope.

Section Syscall.
Context `{L : KernelLayout}.

(** The result and the word read. *)
Definition fetchaddr (addr : Z) : M (Z * Z) :=
  let! p := curproc in
  let! sz := getp p_sz p in
  if (sz <=? addr) || (sz <? u64 (addr + 8)) then ret (-1, 0) else
  let! pt := getp p_pagetable p in
  let! r := copyin pt addr 8 in
  if negb (fst r =? 0) then ret (-1, le_val (snd r)) else ret (0, le_val (snd r)).

(** The length, or -1, and the bytes stored in buf. *)
Definition fetchstr (addr max : Z) : M (Z * list Z) :=
  let! p := curproc in
  let! pt := getp p_pagetable p in
  let! r := copyinstr pt addr max in
  if fst r <? 0 then ret (-1, snd r) else
  match strlen (S (length (snd r))) (bytes_at (snd r)) with
  | Some n => ret (n, snd r)
  | None => undef "unterminated string"
  end.

Definition argraw (n : nat) : M Z :=
  let! p := curproc in
  match n with
  | 0%nat => ld_tf p TF_a0
  | 1%nat => ld_tf p TF_a1
  | 2%nat => ld_tf p TF_a2
  | 3%nat => ld_tf p TF_a3
  | 4%nat => ld_tf p TF_a4
  | 5%nat => ld_tf p TF_a5
  | _ => panic "argraw"
  end.

Definition argint (n : nat) : M Z := let! x := argraw n in ret (i32 x).

Definition argaddr (n : nat) : M Z := argraw n.

Definition argstr (n : nat) (max : Z) : M (Z * list Z) :=
  let! addr := argaddr n in
  fetchstr addr max.

End Syscall.
