(* ===== verification/Sysproc.v ===== *)
(** * System calls on processes (kernel/sysproc.c)

    The value of a system call is what it leaves in a0: a 64-bit word. *)

From S2P Require Import Prelude Memory Riscv State Kmonad Spinlock CString Kalloc Vm Proc Sleeplock.
From S2P Require Import Bio ProcFs Syscall.
From Stdlib Require Import ZArith Lia.
From stdpp Require Import base numbers list gmap strings option.

#[local] Open Scope Z_scope.
#[local] Open Scope kernel_scope.

Section Sysproc.
Context `{L : KernelLayout} `{F : Fuel} `{D : DiskDriver}.

Definition sys_exit : M Z :=
  let! n := argint 0 in
  @exit L F D unit n ;!
  ret 0.

Definition sys_getpid : M Z :=
  let! p := curproc in
  let! pid := getp p_pid p in
  ret (u64 pid).

Definition sys_memsize : M Z :=
  let! p := curproc in
  getp p_sz p.

Definition sys_co_yield : M Z :=
  let! pid := argint 0 in
  let! value := argint 1 in
  let! r := co_yield pid value in
  ret (u64 r).

Definition sys_fork : M Z :=
  let! r := fork in
  ret (u64 r).

Definition sys_wait : M Z :=
  let! p := argaddr 0 in
  let! r := wait (S wakeups) p in
  ret (u64 r).

Definition sys_sbrk : M Z :=
  let! n := argint 0 in
  let! p := curproc in
  let! addr := getp p_sz p in
  let! r := growproc n in
  if r <? 0 then ret (u64 (-1)) else ret addr.

(** The comparison ticks - ticks0 < n is one of unsigned integers. *)
Fixpoint sys_sleep_loop (fuel : nat) (ticks0 n : Z) : M Z :=
  match fuel with
  | O => nofuel
  | S fuel' =>
      let! ticks := gets k_ticks in
      if u32 (ticks - ticks0) <? u32 n then
        let! p := curproc in
        let! k := killed p in
        if truth k then release L_ticks ;! ret (u64 (-1)) else
        sleep CH_ticks L_ticks ;!
        sys_sleep_loop fuel' ticks0 n
      else
        release L_ticks ;!
        ret 0
  end.

Definition sys_sleep : M Z :=
  let! n := argint 0 in
  acquire L_ticks ;!
  let! ticks0 := gets k_ticks in
  sys_sleep_loop (S wakeups) ticks0 n.

Definition sys_kill : M Z :=
  let! pid := argint 0 in
  let! r := kill pid in
  ret (u64 r).

Definition sys_uptime : M Z :=
  acquire L_ticks ;!
  let! xticks := gets k_ticks in
  release L_ticks ;!
  ret xticks.

End Sysproc.
