(* ===== verification/Exec.v ===== *)
(** * Running a program (kernel/exec.c)

    argv is the list of the pointers before the null one; the strings are in kernel
    memory. *)

From S2P Require Import Prelude Memory Riscv State Kmonad Spinlock CString Kalloc Vm Proc Sleeplock.
From S2P Require Import Bytes Bio Log Fs ProcFs.
From Stdlib Require Import ZArith Lia.
From stdpp Require Import base numbers list gmap strings option.

#[local] Open Scope Z_scope.
#[local] Open Scope kernel_scope.

Definition ELF_MAGIC : Z := 0x464C457F.
Definition ELF_PROG_LOAD : Z := 1.

(** struct elfhdr: the fields exec uses. *)
Definition sizeof_elfhdr : Z := 64.
Definition elf_magic (e : list Z) : Z := get32 0 e.
Definition elf_entry (e : list Z) : Z := get64 24 e.
Definition elf_phoff (e : list Z) : Z := get64 32 e.
Definition elf_phnum (e : list Z) : Z := get16 56 e.

(** struct proghdr. *)
Definition sizeof_proghdr : Z := 56.
Definition ph_type (p : list Z) : Z := get32 0 p.
Definition ph_flags (p : list Z) : Z := get32 4 p.
Definition ph_off (p : list Z) : Z := get64 8 p.
Definition ph_vaddr (p : list Z) : Z := get64 16 p.
Definition ph_filesz (p : list Z) : Z := get64 32 p.
Definition ph_memsz (p : list Z) : Z := get64 40 p.

Definition flags2perm (flags : Z) : Z :=
  let perm := if has_bits flags 1 then PTE_X else 0 in
  if has_bits flags 2 then Z.lor perm PTE_W else perm.

(** The part of a path after its last slash. *)
Fixpoint last_elem (last s : list Z) : list Z :=
  match s with
  | [] => last
  | c :: s' => if c =? 0 then last else last_elem (if c =? 47 then s' else last) s'
  end.

Section Exec.
Context `{L : KernelLayout} `{F : Fuel} `{D : DiskDriver}.

Fixpoint loadseg_loop (fuel : nat) (pagetable va : Z) (ip : nat) (offset sz i : Z) : M Z :=
  match fuel with
  | O => nofuel
  | S fuel' =>
      if negb (i <? sz) then ret 0 else
      let! pa := walkaddr pagetable (u64 (va + i)) in
      if pa =? 0 then panic "loadseg: address should exist" else
      let n := if sz - i <? PGSIZE then sz - i else PGSIZE in
      let! r := readi ip false pa (u32 (offset + i)) n in
      store_bytes pa (snd r) ;!
      if negb (fst r =? n) then ret (-1) else
      loadseg_loop fuel' pagetable va ip offset sz (i + PGSIZE)
  end.

Definition loadseg (pagetable va : Z) (ip : nat) (offset sz : Z) : M Z :=
  loadseg_loop (S (S (Z.to_nat (sz / PGSIZE)))) pagetable va ip offset sz 0.

(** The loop over the program headers: [inr] of the size, or [inl] of the size at the
    jump to bad. *)
Fixpoint load_segments (n : nat) (pagetable : Z) (ip : nat) (off sz : Z) : M (Z + Z) :=
  match n with
  | O => ret (inr sz)
  | S n' =>
      let! r := readi ip false 0 (u32 off) sizeof_proghdr in
      let ph := snd r in
      let off' := i32 (off + sizeof_proghdr) in
      if negb (fst r =? sizeof_proghdr) then ret (inl sz) else
      if negb (ph_type ph =? ELF_PROG_LOAD) then load_segments n' pagetable ip off' sz else
      if ph_memsz ph <? ph_filesz ph then ret (inl sz) else
      if u64 (ph_vaddr ph + ph_memsz ph) <? ph_vaddr ph then ret (inl sz) else
      if negb (ph_vaddr ph mod PGSIZE =? 0) then ret (inl sz) else
      let! sz1 := uvmalloc pagetable sz (u64 (ph_vaddr ph + ph_memsz ph)) (flags2perm (ph_flags ph)) in
      if sz1 =? 0 then ret (inl sz) else
      let! r := loadseg pagetable (ph_vaddr ph) ip (u32 (ph_off ph)) (u32 (ph_filesz ph)) in
      if r <? 0 then ret (inl sz1) else
      load_segments n' pagetable ip off' sz1
  end.

(** The label bad. *)
Definition exec_bad (pagetable sz : Z) (ip : option nat) : M Z :=
  when (truth pagetable) (proc_freepagetable pagetable sz) ;!
  (match ip with
   | Some ip => iunlockput ip ;! end_op
   | None => ret tt
   end) ;!
  ret (-1).

(** The string at a kernel address, with its NUL; argument strings fit in a page. *)
Definition kstring (a : Z) : M (list Z) :=
  let! m := gets k_mem in
  match strlen (S (Z.to_nat PGSIZE)) (fun i => mget m (a + i)) with
  | Some n => ret (mread m a (Z.to_nat (n + 1)))
  | None => undef "unterminated string"
  end.

(** Push the argument strings: the stack pointer and ustack, or [None] for bad. *)
Fixpoint push_args (argv : list Z) (argc : nat) (pagetable sp stackbase : Z) (ustack : list Z)
    : M (option (Z * list Z)) :=
  match argv with
  | [] => ret (Some (sp, ustack))
  | a :: argv' =>
      if decide (MAXARG <= argc)%nat then ret None else
      let! str := kstring a in
      let sp := u64 (sp - Z.of_nat (length str)) in
      let sp := sp - sp mod 16 in
      if sp <? stackbase then ret None else
      let! r := copyout pagetable sp str (Z.of_nat (length str)) in
      if r <? 0 then ret None else
      push_args argv' (S argc) pagetable sp stackbase (ustack ++ [sp])
  end.

(** From the allocation of the stack to the end. *)
Definition exec_commit (p : nat) (path : list Z) (argv : list Z) (elf : list Z) (pagetable sz : Z) : M Z :=
  let! oldsz := getp p_sz p in
  let sz := PGROUNDUP sz in
  let! sz1 := uvmalloc pagetable sz (u64 (sz + 2 * PGSIZE)) PTE_W in
  if sz1 =? 0 then exec_bad pagetable sz None else
  let sz := sz1 in
  uvmclear pagetable (sz - 2 * PGSIZE) ;!
  let stackbase := sz - PGSIZE in
  let! o := push_args argv 0 pagetable sz stackbase [] in
  match o with
  | None => exec_bad pagetable sz None
  | Some (sp, ustack) =>
      if decide (MAXARG <= length ustack)%nat then undef "ustack[MAXARG]" else
      let argc := Z.of_nat (length ustack) in
      let sp := u64 (sp - (argc + 1) * 8) in
      let sp := sp - sp mod 16 in
      if sp <? stackbase then exec_bad pagetable sz None else
      let! r := copyout pagetable sp (concat (le_bytes 8 <$> (ustack ++ [0]))) ((argc + 1) * 8) in
      if r <? 0 then exec_bad pagetable sz None else
      st_tf p TF_a1 sp ;!
      setp p (set_name (last_elem path path)) ;!
      let! oldpagetable := getp p_pagetable p in
      setp p (set_p_pagetable pagetable) ;!
      setp p (set_p_sz sz) ;!
      st_tf p TF_epc (elf_entry elf) ;!
      st_tf p TF_sp sp ;!
      proc_freepagetable oldpagetable oldsz ;!
      ret argc
  end.

Definition exec (path : list Z) (argv : list Z) : M Z :=
  let! p := curproc in
  begin_op ;!
  let! o := namei path in
  match o with
  | None => end_op ;! ret (-1)
  | Some ip =>
      ilock ip ;!
      let! r := readi ip false 0 0 sizeof_elfhdr in
      let elf := snd r in
      if negb (fst r =? sizeof_elfhdr) then exec_bad 0 0 (Some ip) else
      if negb (elf_magic elf =? ELF_MAGIC) then exec_bad 0 0 (Some ip) else
      let! pagetable := proc_pagetable p in
      if pagetable =? 0 then exec_bad 0 0 (Some ip) else
      let! r := load_segments (Z.to_nat (elf_phnum elf)) pagetable ip (i32 (elf_phoff elf)) 0 in
      match r with
      | inl sz => exec_bad pagetable sz (Some ip)
      | inr sz =>
          iunlockput ip ;!
          end_op ;!
          let! p := curproc in
          exec_commit p path argv elf pagetable sz
      end
  end.

End Exec.
