(* ===== verification/Sysfile.v ===== *)
(** * File system calls (kernel/sysfile.c) *)

From S2P Require Import Prelude Memory Riscv State Kmonad Spinlock CString Kalloc Vm Proc Sleeplock.
From S2P Require Import Bytes Bio Log Fs File ProcFs Syscall Exec.
From Stdlib Require Import ZArith Lia.
From stdpp Require Import base numbers list gmap strings option.

#[local] Open Scope Z_scope.
#[local] Open Scope kernel_scope.

Definition O_RDONLY : Z := 0x000.
Definition O_WRONLY : Z := 0x001.
Definition O_RDWR : Z := 0x002.
Definition O_CREATE : Z := 0x200.
Definition O_TRUNC : Z := 0x400.

(** A system call's -1. *)
Definition err : Z := u64 (-1).

Definition dot : list Z := [46].
Definition dotdot : list Z := [46; 46].

(** p->ofile[fd] = o. *)
Definition set_ofile (fd : nat) (o : option nat) (p : proc) : proc :=
  set_p_ofile (<[fd := o]> (p_ofile p)) p.

Section Sysfile.
Context `{L : KernelLayout} `{F : Fuel} `{D : DiskDriver}.

(** The descriptor and the file, or [None] for -1. *)
Definition argfd (n : nat) : M (option (nat * nat)) :=
  let! fd := argint n in
  if (fd <? 0) || (Z.of_nat NOFILE <=? fd) then ret None else
  let! p := curproc in
  let! o := getp (fun q => p_ofile q !!! Z.to_nat fd) p in
  match o with
  | None => ret None
  | Some f => ret (Some (Z.to_nat fd, f))
  end.

Fixpoint fdalloc_scan (l : list nat) (p f : nat) : M Z :=
  match l with
  | [] => ret (-1)
  | fd :: l' =>
      let! o := getp (fun q => p_ofile q !!! fd) p in
      match o with
      | None => setp p (set_ofile fd (Some f)) ;! ret (Z.of_nat fd)
      | Some _ => fdalloc_scan l' p f
      end
  end.

Definition fdalloc (f : nat) : M Z :=
  let! p := curproc in
  fdalloc_scan (seq 0 NOFILE) p f.

Definition sys_dup : M Z :=
  let! o := argfd 0 in
  match o with
  | None => ret err
  | Some (_, f) =>
      let! fd := fdalloc f in
      if fd <? 0 then ret err else
      filedup f ;!
      ret fd
  end.

Definition sys_read : M Z :=
  let! p := argaddr 1 in
  let! n := argint 2 in
  let! o := argfd 0 in
  match o with
  | None => ret err
  | Some (_, f) => let! r := fileread f p n in ret (u64 r)
  end.

Definition sys_write : M Z :=
  let! p := argaddr 1 in
  let! n := argint 2 in
  let! o := argfd 0 in
  match o with
  | None => ret err
  | Some (_, f) => let! r := filewrite f p n in ret (u64 r)
  end.

Definition sys_close : M Z :=
  let! o := argfd 0 in
  match o with
  | None => ret err
  | Some (fd, f) =>
      let! p := curproc in
      setp p (set_ofile fd None) ;!
      fileclose f ;!
      ret 0
  end.

Definition sys_fstat : M Z :=
  let! st := argaddr 1 in
  let! o := argfd 0 in
  match o with
  | None => ret err
  | Some (_, f) => let! r := filestat f st in ret (u64 r)
  end.

(** The label bad of sys_link. *)
Definition sys_link_bad (ip : nat) : M Z :=
  ilock ip ;!
  seti ip (fun i => set_i_nlink (i16 (i_nlink i - 1)) i) ;!
  iupdate ip ;!
  iunlockput ip ;!
  end_op ;!
  ret err.

Definition sys_link : M Z :=
  let! old := argstr 0 MAXPATH in
  if fst old <? 0 then ret err else
  let! new := argstr 1 MAXPATH in
  if fst new <? 0 then ret err else
  begin_op ;!
  let! o := namei (snd old) in
  match o with
  | None => end_op ;! ret err
  | Some ip =>
      ilock ip ;!
      let! type := geti i_type ip in
      if type =? T_DIR then
        iunlockput ip ;!
        end_op ;!
        ret err
      else
        seti ip (fun i => set_i_nlink (i16 (i_nlink i + 1)) i) ;!
        iupdate ip ;!
        iunlock ip ;!
        let! o := nameiparent (snd new) in
        match o with
        | None => sys_link_bad ip
        | Some (dp, name) =>
            ilock dp ;!
            let! d := gets (inode_at dp) in
            let! i := gets (inode_at ip) in
            let! r := (if negb (i_dev d =? i_dev i) then ret (-1) else dirlink dp name (i_inum i)) in
            if r <? 0 then
              iunlockput dp ;!
              sys_link_bad ip
            else
              iunlockput dp ;!
              iput ip ;!
              end_op ;!
              ret 0
        end
  end.

(** The loop of isdirempty. *)
Fixpoint isdirempty_loop (fuel : nat) (dp : nat) (off : Z) : M bool :=
  match fuel with
  | O => nofuel
  | S fuel' =>
      let! size := geti i_size dp in
      if negb (off <? size) then ret true else
      let! r := readi dp false 0 off sizeof_dirent in
      if negb (fst r =? sizeof_dirent) then panic "isdirempty: readi" else
      if negb (de_inum (snd r) =? 0) then ret false
      else isdirempty_loop fuel' dp (off + sizeof_dirent)
  end.

Definition isdirempty (dp : nat) : M bool :=
  let! size := geti i_size dp in
  isdirempty_loop (S (S (Z.to_nat (size / sizeof_dirent)))) dp (2 * sizeof_dirent).

(** The label bad of sys_unlink. *)
Definition sys_unlink_bad (dp : nat) : M Z :=
  iunlockput dp ;!
  end_op ;!
  ret err.

Definition sys_unlink : M Z :=
  let! path := argstr 0 MAXPATH in
  if fst path <? 0 then ret err else
  begin_op ;!
  let! o := nameiparent (snd path) in
  match o with
  | None => end_op ;! ret err
  | Some (dp, name) =>
      ilock dp ;!
      if (namecmp name dot =? 0) || (namecmp name dotdot =? 0) then sys_unlink_bad dp else
      let! o := dirlookup dp name in
      match o with
      | None => sys_unlink_bad dp
      | Some (ip, off) =>
          ilock ip ;!
          let! i := gets (inode_at ip) in
          if i_nlink i <? 1 then panic "unlink: nlink < 1" else
          let! full := (if i_type i =? T_DIR then let! e := isdirempty ip in ret (negb e) else ret false) in
          if full then iunlockput ip ;! sys_unlink_bad dp else
          let! r := writei dp false 0 (replicate 16 0) off sizeof_dirent in
          if negb (r =? sizeof_dirent) then panic "unlink: writei" else
          when (i_type i =? T_DIR)
            (seti dp (fun d => set_i_nlink (i16 (i_nlink d - 1)) d) ;!
             iupdate dp) ;!
          iunlockput dp ;!
          seti ip (fun i => set_i_nlink (i16 (i_nlink i - 1)) i) ;!
          iupdate ip ;!
          iunlockput ip ;!
          end_op ;!
          ret 0
      end
  end.

(** The label fail of create. *)
Definition create_fail (ip dp : nat) : M (option nat) :=
  seti ip (set_i_nlink 0) ;!
  iupdate ip ;!
  iunlockput ip ;!
  iunlockput dp ;!
  ret None.

Definition create (path : list Z) (type major minor : Z) : M (option nat) :=
  let! o := nameiparent path in
  match o with
  | None => ret None
  | Some (dp, name) =>
      ilock dp ;!
      let! o := dirlookup dp name in
      match o with
      | Some (ip, _) =>
          iunlockput dp ;!
          ilock ip ;!
          let! itype := geti i_type ip in
          if (type =? T_FILE) && ((itype =? T_FILE) || (itype =? T_DEVICE)) then ret (Some ip) else
          iunlockput ip ;!
          ret None
      | None =>
          let! dev := geti i_dev dp in
          let! o := ialloc dev type in
          match o with
          | None => iunlockput dp ;! ret None
          | Some ip =>
              ilock ip ;!
              seti ip (set_i_major major) ;!
              seti ip (set_i_minor minor) ;!
              seti ip (set_i_nlink 1) ;!
              iupdate ip ;!
              let! inum := geti i_inum ip in
              let! dinum := geti i_inum dp in
              let! bad := (if type =? T_DIR then
                             let! r := dirlink ip dot inum in
                             if r <? 0 then ret true else
                             let! r := dirlink ip dotdot dinum in
                             ret (r <? 0)
                           else ret false) in
              if bad then create_fail ip dp else
              let! r := dirlink dp name inum in
              if r <? 0 then create_fail ip dp else
              when (type =? T_DIR)
                (seti dp (fun d => set_i_nlink (i16 (i_nlink d + 1)) d) ;!
                 iupdate dp) ;!
              iunlockput dp ;!
              ret (Some ip)
          end
      end
  end.

(** The file and descriptor of sys_open: [None] after an error has been cleaned up. *)
Definition open_file (ip : nat) : M (option (nat * Z)) :=
  let! o := filealloc in
  match o with
  | None =>
      iunlockput ip ;!
      end_op ;!
      ret None
  | Some f =>
      let! fd := fdalloc f in
      if fd <? 0 then
        fileclose f ;!
        iunlockput ip ;!
        end_op ;!
        ret None
      else ret (Some (f, fd))
  end.

Definition sys_open : M Z :=
  let! omode := argint 1 in
  let! path := argstr 0 MAXPATH in
  if fst path <? 0 then ret err else
  begin_op ;!
  let! o := (if has_bits omode O_CREATE then
               let! o := create (snd path) T_FILE 0 0 in
               match o with
               | None => end_op ;! ret None
               | Some ip => ret (Some ip)
               end
             else
               let! o := namei (snd path) in
               match o with
               | None => end_op ;! ret None
               | Some ip =>
                   ilock ip ;!
                   let! type := geti i_type ip in
                   if (type =? T_DIR) && negb (omode =? O_RDONLY) then
                     iunlockput ip ;!
                     end_op ;!
                     ret None
                   else ret (Some ip)
               end) in
  match o with
  | None => ret err
  | Some ip =>
      let! i := gets (inode_at ip) in
      if (i_type i =? T_DEVICE) && ((i_major i <? 0) || (NDEV <=? i_major i)) then
        iunlockput ip ;!
        end_op ;!
        ret err
      else
        let! o := open_file ip in
        match o with
        | None => ret err
        | Some (f, fd) =>
            (if i_type i =? T_DEVICE then
               setf f (set_f_type FD_DEVICE) ;!
               setf f (set_f_major (i_major i))
             else
               setf f (set_f_type FD_INODE) ;!
               setf f (set_f_off 0)) ;!
            setf f (set_f_ip (Some ip)) ;!
            setf f (set_f_readable (if has_bits omode O_WRONLY then 0 else 1)) ;!
            setf f (set_f_writable (if has_bits omode O_WRONLY || has_bits omode O_RDWR then 1 else 0)) ;!
            when (has_bits omode O_TRUNC && (i_type i =? T_FILE)) (itrunc ip) ;!
            iunlock ip ;!
            end_op ;!
            ret fd
        end
  end.

Definition sys_mkdir : M Z :=
  begin_op ;!
  let! path := argstr 0 MAXPATH in
  let! o := (if fst path <? 0 then ret None else create (snd path) T_DIR 0 0) in
  match o with
  | None => end_op ;! ret err
  | Some ip =>
      iunlockput ip ;!
      end_op ;!
      ret 0
  end.

Definition sys_mknod : M Z :=
  begin_op ;!
  let! major := argint 1 in
  let! minor := argint 2 in
  let! path := argstr 0 MAXPATH in
  let! o := (if fst path <? 0 then ret None
             else create (snd path) T_DEVICE (i16 major) (i16 minor)) in
  match o with
  | None => end_op ;! ret err
  | Some ip =>
      iunlockput ip ;!
      end_op ;!
      ret 0
  end.

Definition sys_chdir : M Z :=
  let! p := curproc in
  begin_op ;!
  let! path := argstr 0 MAXPATH in
  let! o := (if fst path <? 0 then ret None else namei (snd path)) in
  match o with
  | None => end_op ;! ret err
  | Some ip =>
      ilock ip ;!
      let! type := geti i_type ip in
      if negb (type =? T_DIR) then
        iunlockput ip ;!
        end_op ;!
        ret err
      else
        iunlock ip ;!
        let! cwd := getp p_cwd p in
        let! old := the_inode cwd in
        iput old ;!
        end_op ;!
        setp p (set_p_cwd (Some ip)) ;!
        ret 0
  end.

(** The argument pages of sys_exec so far and whether to go to bad. *)
Fixpoint fetch_args (fuel : nat) (uargv : Z) (argv : list Z) : M (list Z * bool) :=
  match fuel with
  | O => nofuel
  | S fuel' =>
      let i := length argv in
      if decide (MAXARG <= i)%nat then ret (argv, true) else
      let! r := fetchaddr (u64 (uargv + 8 * Z.of_nat i)) in
      if fst r <? 0 then ret (argv, true) else
      if snd r =? 0 then ret (argv, false) else
      let! pa := kalloc in
      if pa =? 0 then ret (argv, true) else
      let! str := fetchstr (snd r) PGSIZE in
      store_bytes pa (snd str) ;!
      if fst str <? 0 then ret (argv ++ [pa], true) else
      fetch_args fuel' uargv (argv ++ [pa])
  end.

Definition sys_exec : M Z :=
  let! uargv := argaddr 1 in
  let! path := argstr 0 MAXPATH in
  if fst path <? 0 then ret err else
  let! a := fetch_args (S (S MAXARG)) uargv [] in
  let '(argv, bad) := a in
  let! r := (if bad then ret (-1) else exec (snd path) argv) in
  foreach argv kfree ;!
  ret (u64 r).

Definition sys_pipe : M Z :=
  let! p := curproc in
  let! fdarray := argaddr 0 in
  let! o := pipealloc in
  match o with
  | None => ret err
  | Some (rf, wf) =>
      let! fd0 := fdalloc rf in
      let! fd1 := (if fd0 <? 0 then ret (-1) else fdalloc wf) in
      if (fd0 <? 0) || (fd1 <? 0) then
        when (0 <=? fd0) (setp p (set_ofile (Z.to_nat fd0) None)) ;!
        fileclose rf ;!
        fileclose wf ;!
        ret err
      else
        let! pt := getp p_pagetable p in
        let! r := copyout pt fdarray (le_bytes 4 fd0) 4 in
        let! r := (if r <? 0 then ret r else copyout pt (u64 (fdarray + 4)) (le_bytes 4 fd1) 4) in
        if r <? 0 then
          setp p (set_ofile (Z.to_nat fd0) None) ;!
          setp p (set_ofile (Z.to_nat fd1) None) ;!
          fileclose rf ;!
          fileclose wf ;!
          ret err
        else ret 0
  end.

End Sysfile.
