(* ===== verification/Usertrap.v ===== *)
(** * System call dispatch and user traps (syscall of kernel/syscall.c, usertrap of
    kernel/trap.c) *)

From S2P Require Import Prelude Memory Riscv State Kmonad Spinlock CString Kalloc Vm Proc Sleeplock.
From S2P Require Import Uart Printf Bio Log Fs File Trap ProcFs Syscall Sysproc Exec Sysfile.
From Stdlib Require Import ZArith Lia Ascii String.
From stdpp Require Import base numbers list gmap strings option.

#[local] Open Scope Z_scope.
#[local] Open Scope kernel_scope.

(** System call numbers (kernel/syscall.h). *)
Inductive sysno :=
| SYS_fork | SYS_exit | SYS_wait | SYS_pipe | SYS_read | SYS_kill
| SYS_exec | SYS_fstat | SYS_chdir | SYS_dup | SYS_getpid | SYS_sbrk
| SYS_sleep | SYS_uptime | SYS_open | SYS_write | SYS_mknod | SYS_unlink
| SYS_link | SYS_mkdir | SYS_close | SYS_memsize | SYS_co_yield.

Definition sys_number (c : sysno) : Z :=
  match c with
  | SYS_fork => 1
  | SYS_exit => 2
  | SYS_wait => 3
  | SYS_pipe => 4
  | SYS_read => 5
  | SYS_kill => 6
  | SYS_exec => 7
  | SYS_fstat => 8
  | SYS_chdir => 9
  | SYS_dup => 10
  | SYS_getpid => 11
  | SYS_sbrk => 12
  | SYS_sleep => 13
  | SYS_uptime => 14
  | SYS_open => 15
  | SYS_write => 16
  | SYS_mknod => 17
  | SYS_unlink => 18
  | SYS_link => 19
  | SYS_mkdir => 20
  | SYS_close => 21
  | SYS_memsize => 22
  | SYS_co_yield => 23
  end.

Section Usertrap.
Context `{L : KernelLayout} `{F : Fuel} `{D : DiskDriver}.

(** The array syscalls[]: the handler of each number. *)
Definition syscalls (c : sysno) : M Z :=
  match c with
  | SYS_fork => sys_fork
  | SYS_exit => sys_exit
  | SYS_wait => sys_wait
  | SYS_pipe => sys_pipe
  | SYS_read => sys_read
  | SYS_kill => sys_kill
  | SYS_exec => sys_exec
  | SYS_fstat => sys_fstat
  | SYS_chdir => sys_chdir
  | SYS_dup => sys_dup
  | SYS_getpid => sys_getpid
  | SYS_sbrk => sys_sbrk
  | SYS_sleep => sys_sleep
  | SYS_uptime => sys_uptime
  | SYS_open => sys_open
  | SYS_write => sys_write
  | SYS_mknod => sys_mknod
  | SYS_unlink => sys_unlink
  | SYS_link => sys_link
  | SYS_mkdir => sys_mkdir
  | SYS_close => sys_close
  | SYS_memsize => sys_memsize
  | SYS_co_yield => sys_co_yield
  end.

Definition all_calls : list sysno :=
  [SYS_fork; SYS_exit; SYS_wait; SYS_pipe; SYS_read; SYS_kill;
   SYS_exec; SYS_fstat; SYS_chdir; SYS_dup; SYS_getpid; SYS_sbrk;
   SYS_sleep; SYS_uptime; SYS_open; SYS_write; SYS_mknod; SYS_unlink;
   SYS_link; SYS_mkdir; SYS_close; SYS_memsize; SYS_co_yield].

(** num > 0 && num < NELEM(syscalls) && syscalls[num]. *)
Definition handler (num : Z) : option (M Z) :=
  syscalls <$> List.find (fun c => sys_number c =? num) all_calls.

Definition syscall : M unit :=
  let! p := curproc in
  let! a7 := ld_tf p TF_a7 in
  let num := i32 a7 in
  match handler num with
  | Some f =>
      let! r := f in
      st_tf p TF_a0 r
  | None =>
      let! q := gets (proc_at p) in
      printf ("%d %s: unknown sys call %d" ++ newline) [AInt (p_pid q); AStr (Some (p_name q)); AInt num] ;!
      st_tf p TF_a0 (u64 (-1))
  end.

Definition usertrap : M Z :=
  let! sstatus := r_sstatus in
  let '(spp, _, _) := sstatus in
  if spp then panic "usertrap: not from user mode" else
  w_csr (set_cs_stvec kernelvec) ;!
  let! p := curproc in
  let! sepc := r_csr cs_sepc in
  st_tf p TF_epc sepc ;!
  let! scause := r_csr cs_scause in
  let! which_dev :=
    (if scause =? 8 then
       let! k := killed p in
       when (truth k) (exit (-1)) ;!
       let! epc := ld_tf p TF_epc in
       st_tf p TF_epc (u64 (epc + 4)) ;!
       intr_on ;!
       syscall ;!
       ret 0
     else
       let! which_dev := devintr in
       if negb (which_dev =? 0) then ret which_dev else
       let! pid := getp p_pid p in
       let! c := gets k_csr in
       printf ("usertrap(): unexpected scause %p pid=%d" ++ newline) [APtr (cs_scause c); AInt pid] ;!
       printf ("            sepc=%p stval=%p" ++ newline) [APtr (cs_sepc c); APtr (cs_stval c)] ;!
       setkilled p ;!
       ret 0) in
  let! k := killed p in
  when (truth k) (exit (-1)) ;!
  when (which_dev =? 2) yield ;!
  usertrapret.

End Usertrap.
