(* ===== verification/Main.v ===== *)
(** * Booting (kernel/main.c) *)

From S2P Require Import Prelude Memory Riscv State Kmonad Spinlock CString Kalloc Vm Proc Sleeplock.
From S2P Require Import Uart Printf Console Plic Virtio Bio Fs File Trap ProcFs.
From Stdlib Require Import ZArith Lia Ascii String.
From stdpp Require Import base numbers list gmap strings option.

#[local] Open Scope Z_scope.
#[local] Open Scope kernel_scope.

Section Main.
Context `{L : KernelLayout} `{F : Fuel}.
#[local] Existing Instance virtio.

(** A hart other than 0 spins until hart 0 has set started; the model stops there. *)
Definition main (rounds : nat) : M unit :=
  let! hart := cpuid in
  (if decide (hart = 0%nat) then
     consoleinit ;!
     printfinit ;!
     printf newline [] ;!
     printf ("xv6 kernel is booting" ++ newline) [] ;!
     printf newline [] ;!
     kinit ;!
     kvminit ;!
     kvminithart ;!
     procinit ;!
     trapinit ;!
     trapinithart ;!
     plicinit ;!
     plicinithart ;!
     binit ;!
     iinit ;!
     fileinit ;!
     virtio_disk_init ;!
     userinit ;!
     modify (set_k_started 1)
   else
     let! started := gets k_started in
     if started =? 0 then nofuel else
     let! id := cpuid in
     printf ("hart %d starting" ++ newline) [AInt (Z.of_nat id)] ;!
     kvminithart ;!
     trapinithart ;!
     plicinithart) ;!
  scheduler rounds.

End Main.
