(* ===== verification/Asm.v ===== *)
(** * The assembly stubs

    kernel/entry.S, kernel/trampoline.S, kernel/kernelvec.S and kernel/swtch.S as lists of
    instructions, and a hart that runs them.  Loads and stores go
    through the address translation satp selects, the hardware's page walk; machine mode has
    none.  The C functions the stubs call are arguments. *)

From S2P Require Import Prelude Memory Riscv.
From Stdlib Require Import ZArith Lia.
From stdpp Require Import base numbers list gmap functions.

#[local] Open Scope Z_scope.

(** ** Harts *)

Inductive reg :=
| zero | ra | sp | gp | tp | t0 | t1 | t2 | s0 | s1
| a0 | a1 | a2 | a3 | a4 | a5 | a6 | a7
| s2 | s3 | s4 | s5 | s6 | s7 | s8 | s9 | s10 | s11
| t3 | t4 | t5 | t6.

Inductive csr :=
| sscratch | satp | sip | sie | mhartid | mstatus | mepc | medeleg | mideleg
| pmpaddr0 | pmpcfg0 | mscratch | mtvec | mie.

#[global] Instance reg_eq_dec : EqDecision reg.
Proof. solve_decision. Defined.
#[global] Instance csr_eq_dec : EqDecision csr.
Proof. solve_decision. Defined.

Record hart := mkhart {
  hr_reg : reg -> Z;
  hr_csr : csr -> Z;
  hr_mem : memory }.

(** Register zero reads as 0 and ignores writes. *)
Definition rg (h : hart) (r : reg) : Z := if decide (r = zero) then 0 else hr_reg h r.
Definition set_rg (r : reg) (v : Z) (h : hart) : hart := mkhart (<[r := u64 v]> (hr_reg h)) (hr_csr h) (hr_mem h).
Definition set_csr (c : csr) (v : Z) (h : hart) : hart := mkhart (hr_reg h) (<[c := u64 v]> (hr_csr h)) (hr_mem h).
Definition set_mem (m : memory) (h : hart) : hart := mkhart (hr_reg h) (hr_csr h) m.

(** ** Instructions *)

Inductive symbol := stack0.
Inductive cfun := Cstart | Ckerneltrap.

Inductive instr :=
| sd (rs : reg) (off : Z) (b : reg)
| ld (rd : reg) (off : Z) (b : reg)
| li (rd : reg) (imm : Z)
| la (rd : reg) (s : symbol)
| addi (rd rs : reg) (imm : Z)
| add (rd rs1 rs2 : reg)
| mul (rd rs1 rs2 : reg)
| csrr (rd : reg) (c : csr)
| csrw (c : csr) (rs : reg)
| csrrw (rd : reg) (c : csr) (rs : reg)
| sfence_vma
| call (f : cfun)
| jr (rs : reg)
| ret
| spin
| sret
| mret.

(** How a stub is left: to an address, to the caller, by a trap return, or never. *)
Inductive exit_kind :=
| Jump (a : Z)
| Sret
| Mret
| Spin.

Inductive outcome :=
| Exit (e : exit_kind) (h : hart)
| PageFault
| Off_end (h : hart).

Section Run.
Context (tr : Z -> Z -> option Z) (sym_addr : symbol -> Z) (ccall : cfun -> hart -> outcome).

Definition ea (h : hart) (off : Z) (b : reg) : option Z := tr (hr_csr h satp) (u64 (rg h b + off)).

(** Runs to the first instruction that leaves the code. *)
Fixpoint run (code : list instr) (h : hart) : outcome :=
  match code with
  | [] => Off_end h
  | i :: code' =>
      match i with
      | sd rs off b => match ea h off b with Some pa => run code' (set_mem (mst64 (hr_mem h) pa (rg h rs)) h) | None => PageFault end
      | ld rd off b => match ea h off b with Some pa => run code' (set_rg rd (mld64 (hr_mem h) pa) h) | None => PageFault end
      | li rd imm => run code' (set_rg rd imm h)
      | la rd s => run code' (set_rg rd (sym_addr s) h)
      | addi rd rs imm => run code' (set_rg rd (rg h rs + imm) h)
      | add rd rs1 rs2 => run code' (set_rg rd (rg h rs1 + rg h rs2) h)
      | mul rd rs1 rs2 => run code' (set_rg rd (rg h rs1 * rg h rs2) h)
      | csrr rd c => run code' (set_rg rd (hr_csr h c) h)
      | csrw c rs => run code' (set_csr c (rg h rs) h)
      | csrrw rd c rs => run code' (set_rg rd (hr_csr h c) (set_csr c (rg h rs) h))
      | sfence_vma => run code' h
      | call f => match ccall f h with Off_end h' => run code' h' | o => o end
      | jr rs => Exit (Jump (rg h rs)) h
      | ret => Exit (Jump (rg h ra)) h
      | spin => Exit Spin h
      | sret => Exit Sret h
      | mret => Exit Mret h
      end
  end.
End Run.

(** Machine mode: no translation. *)
Definition bare (satp va : Z) : option Z := Some va.

(** Runs of stores and loads through one base register. *)
Definition sds (b : reg) (l : list (reg * Z)) : list instr := (fun x => sd x.1 x.2 b) <$> l.
Definition lds (b : reg) (l : list (reg * Z)) : list instr := (fun x => ld x.1 x.2 b) <$> l.

(** ** trampoline.S *)

(** The registers of the trapframe but a0, with their offsets. *)
Definition user_slots : list (reg * Z) :=
  [(ra, 40); (sp, 48); (gp, 56); (tp, 64); (t0, 72); (t1, 80); (t2, 88); (s0, 96); (s1, 104);
   (a1, 120); (a2, 128); (a3, 136); (a4, 144); (a5, 152); (a6, 160); (a7, 168);
   (s2, 176); (s3, 184); (s4, 192); (s5, 200); (s6, 208); (s7, 216); (s8, 224); (s9, 232); (s10, 240); (s11, 248);
   (t3, 256); (t4, 264); (t5, 272); (t6, 280)].

Definition uservec_code : list instr :=
  [csrw sscratch a0; li a0 TRAPFRAME] ++
  sds a0 user_slots ++
  [csrr t0 sscratch; sd t0 112 a0;
   ld sp 8 a0; ld tp 32 a0; ld t0 16 a0; ld t1 0 a0;
   sfence_vma; csrw satp t1; sfence_vma; jr t0].

Definition userret_code : list instr :=
  [sfence_vma; csrw satp a0; sfence_vma; li a0 TRAPFRAME] ++
  lds a0 user_slots ++
  [ld a0 112 a0; sret].

(** ** kernelvec.S *)

(** The registers kernelvec saves after sp, but tp. *)
Definition kernel_slots : list (reg * Z) :=
  [(t0, 32); (t1, 40); (t2, 48); (s0, 56); (s1, 64);
   (a0, 72); (a1, 80); (a2, 88); (a3, 96); (a4, 104); (a5, 112); (a6, 120); (a7, 128);
   (s2, 136); (s3, 144); (s4, 152); (s5, 160); (s6, 168); (s7, 176); (s8, 184); (s9, 192); (s10, 200); (s11, 208);
   (t3, 216); (t4, 224); (t5, 232); (t6, 240)].

Definition kernelvec_code : list instr :=
  [addi sp sp (-256)] ++
  sds sp ([(ra, 0); (sp, 8); (gp, 16); (tp, 24)] ++ kernel_slots) ++
  [call Ckerneltrap] ++
  lds sp ([(ra, 0); (sp, 8); (gp, 16)] ++ kernel_slots) ++
  [addi sp sp 256; sret].

Definition timervec_code : list instr :=
  [csrrw a0 mscratch a0] ++
  sds a0 [(a1, 0); (a2, 8); (a3, 16)] ++
  [ld a1 24 a0; ld a2 32 a0; ld a3 0 a1; add a3 a3 a2; sd a3 0 a1;
   li a1 2; csrw sip a1] ++
  lds a0 [(a3, 16); (a2, 8); (a1, 0)] ++
  [csrrw a0 mscratch a0; mret].

(** ** swtch.S *)

(** struct context of proc.h. *)
Definition context_slots : list (reg * Z) :=
  [(ra, 0); (sp, 8); (s0, 16); (s1, 24); (s2, 32); (s3, 40); (s4, 48); (s5, 56);
   (s6, 64); (s7, 72); (s8, 80); (s9, 88); (s10, 96); (s11, 104)].

Definition swtch_code : list instr := sds a0 context_slots ++ lds a1 context_slots ++ [ret].

(** ** entry.S *)

Definition entry_code : list instr :=
  [la sp stack0; li a0 (1024 * 4); csrr a1 mhartid; addi a1 a1 1; mul a0 a0 a1; add sp sp a0;
   call Cstart; spin].
