(* ===== verification/AsmSpec.v ===== *)
(** * The assembly stubs save and restore what they promise

    Runs of stores and loads through a base register as operations on the register file, and
    from them the trap entry and return, the interrupt entry, the timer and the context
    switch. *)

From S2P Require Import Prelude Memory Riscv Asm.
From Stdlib Require Import ZArith Lia Sorting.Sorted.
From stdpp Require Import base numbers list gmap functions sorting.

#[local] Open Scope Z_scope.

(** The registers and control registers hold 64-bit values. *)
Definition typed (h : hart) : Prop := (forall r, 0 <= hr_reg h r < 2 ^ 64) /\ (forall c, 0 <= hr_csr h c < 2 ^ 64).

Lemma rg_typed h r : typed h -> 0 <= rg h r < 2 ^ 64.
Proof. intros [H _]. unfold rg. case_decide; [lia|apply H]. Qed.

Lemma rg_set_eq h r v : r <> zero -> 0 <= v < 2 ^ 64 -> rg (set_rg r v h) r = v.
Proof. intros H Hv. unfold rg, set_rg. rewrite decide_False by done. cbn [hr_reg]. rewrite fn_lookup_insert. by apply u64_small. Qed.

Lemma rg_set_ne h r r' v : r <> r' -> rg (set_rg r v h) r' = rg h r'.
Proof. intros H. unfold rg, set_rg. cbn [hr_reg]. by rewrite fn_lookup_insert_ne. Qed.

Lemma rg_set_csr h c v r : rg (set_csr c v h) r = rg h r.
Proof. done. Qed.

Lemma rg_set_mem h m r : rg (set_mem m h) r = rg h r.
Proof. done. Qed.

Lemma csr_set_eq h c v : 0 <= v < 2 ^ 64 -> hr_csr (set_csr c v h) c = v.
Proof. intros Hv. unfold set_csr. cbn [hr_csr]. rewrite fn_lookup_insert. by apply u64_small. Qed.

Lemma csr_set_ne h c c' v : c <> c' -> hr_csr (set_csr c v h) c' = hr_csr h c'.
Proof. intros H. unfold set_csr. cbn [hr_csr]. by rewrite fn_lookup_insert_ne. Qed.

(** ** Typing *)

Lemma typed_set_rg h r v : typed h -> typed (set_rg r v h).
Proof. intros [Hr Hc]. split; [|exact Hc]. intros r'. unfold set_rg. cbn [hr_reg]. destruct (decide (r = r')) as [->|]; [rewrite fn_lookup_insert; apply u64_range|by rewrite fn_lookup_insert_ne]. Qed.

Lemma typed_set_csr h c v : typed h -> typed (set_csr c v h).
Proof. intros [Hr Hc]. split; [exact Hr|]. intros c'. unfold set_csr. cbn [hr_csr]. destruct (decide (c = c')) as [->|]; [rewrite fn_lookup_insert; apply u64_range|by rewrite fn_lookup_insert_ne]. Qed.

(** What an instruction leaves behind is well typed: registers of 64 bits, memory of bytes. *)
Definition ok (h : hart) : Prop := typed h /\ mem_bytes (hr_mem h).
Definition outcome_ok (o : outcome) : Prop := match o with Exit _ h | Off_end h => ok h | PageFault => True end.


(** ** Runs of stores *)

Definition stores (p : Z) (f : reg -> Z) (l : list (reg * Z)) (m : memory) : memory := foldl (fun m x => mst64 m (p + x.2) (f x.1)) m l.

(** The slots of a list are in order and do not overlap. *)
Definition in_order (l : list (reg * Z)) : Prop := StronglySorted (fun x y => x.2 + 8 <= y.2) l.

Lemma stores_out p f l m a : Forall (fun x => a < p + x.2 \/ p + x.2 + 8 <= a) l -> mget (stores p f l m) a = mget m a.
Proof.
  revert m. induction l as [|x l IH]; intros m H; [done|]. apply Forall_cons in H as [Hx H]. cbn [stores foldl]. fold (stores p f l (mst64 m (p + x.2) (f x.1))).
  rewrite IH by done. by apply mget_mst64_out.
Qed.

Lemma stores_at p f l m r o : in_order l -> (r, o) ∈ l -> mld64 (stores p f l m) (p + o) = u64 (f r).
Proof.
  revert m. induction l as [|x l IH]; intros m S H; [by apply elem_of_nil in H|]. apply StronglySorted_inv in S as [S F]. cbn [stores foldl]. fold (stores p f l (mst64 m (p + x.2) (f x.1))).
  apply elem_of_cons in H as [<-|H]; [|by apply IH]. cbn [fst snd] in *. rewrite <- (mld64_mst64_same m (p + o) (f r)). apply mld64_ext.
  intros a Ha. apply stores_out. eapply Forall_impl; [exact F|]. cbn. lia.
Qed.

(** ** Runs of loads *)

Definition loads (p : Z) (l : list (reg * Z)) (h : hart) : hart := foldl (fun h x => set_rg x.1 (mld64 (hr_mem h) (p + x.2)) h) h l.

Lemma loads_frame p l h : hr_mem (loads p l h) = hr_mem h /\ hr_csr (loads p l h) = hr_csr h.
Proof. revert h. induction l as [|x l IH]; intros h; [done|]. cbn [loads foldl]. fold (loads p l (set_rg x.1 (mld64 (hr_mem h) (p + x.2)) h)). by rewrite !(proj1 (IH _)), !(proj2 (IH _)). Qed.

Lemma typed_loads p l h : typed h -> typed (loads p l h).
Proof. revert h. induction l as [|x l IH]; intros h T; [done|]. cbn [loads foldl]. by apply IH, typed_set_rg. Qed.

Lemma loads_out p l h r : r ∉ l.*1 -> rg (loads p l h) r = rg h r.
Proof.
  revert h. induction l as [|x l IH]; intros h H; [done|]. cbn [fmap list_fmap] in H. apply not_elem_of_cons in H as [H1 H2]. cbn [loads foldl].
  fold (loads p l (set_rg x.1 (mld64 (hr_mem h) (p + x.2)) h)). rewrite IH by done. apply rg_set_ne. congruence.
Qed.

Lemma loads_at p l h r o : NoDup l.*1 -> zero ∉ l.*1 -> mem_bytes (hr_mem h) -> (r, o) ∈ l -> rg (loads p l h) r = mld64 (hr_mem h) (p + o).
Proof.
  revert h. induction l as [|x l IH]; intros h N Z0 B H; [by apply elem_of_nil in H|]. cbn [fmap list_fmap] in *. inversion_clear N as [|? ? N1 N2]. apply not_elem_of_cons in Z0 as [Z1 Z2]. cbn [loads foldl].
  fold (loads p l (set_rg x.1 (mld64 (hr_mem h) (p + x.2)) h)). apply elem_of_cons in H as [<-|H].
  - cbn [fst snd] in *. rewrite loads_out by done. apply rg_set_eq; [done|]. by apply mld64_range.
  - by rewrite IH.
Qed.

Section Exec.
Context (tr : Z -> Z -> option Z) (sym_addr : symbol -> Z) (ccall : cfun -> hart -> outcome).
#[local] Notation run := (run tr sym_addr ccall).

Lemma run_li rd imm k h : run (li rd imm :: k) h = run k (set_rg rd imm h).
Proof. done. Qed.
Lemma run_addi rd rs imm k h : run (addi rd rs imm :: k) h = run k (set_rg rd (rg h rs + imm) h).
Proof. done. Qed.
Lemma run_add rd r1 r2 k h : run (add rd r1 r2 :: k) h = run k (set_rg rd (rg h r1 + rg h r2) h).
Proof. done. Qed.
Lemma run_csrr rd c k h : run (csrr rd c :: k) h = run k (set_rg rd (hr_csr h c) h).
Proof. done. Qed.
Lemma run_csrw c rs k h : run (csrw c rs :: k) h = run k (set_csr c (rg h rs) h).
Proof. done. Qed.
Lemma run_csrrw rd c rs k h : run (csrrw rd c rs :: k) h = run k (set_rg rd (hr_csr h c) (set_csr c (rg h rs) h)).
Proof. done. Qed.
Lemma run_sfence k h : run (sfence_vma :: k) h = run k h.
Proof. done. Qed.
Lemma run_jr rs k h : run (jr rs :: k) h = Exit (Jump (rg h rs)) h.
Proof. done. Qed.

(** The slots of [l] off register [b] are at [p] in memory. *)
Definition slots_at (h : hart) (b : reg) (p : Z) (l : list (reg * Z)) : Prop := Forall (fun x => ea tr h x.2 b = Some (p + x.2)) l.

Lemma run_sds b p l rest h :
  slots_at h b p l -> run (sds b l ++ rest) h = run rest (set_mem (stores p (rg h) l (hr_mem h)) h).
Proof.
  unfold slots_at, stores. intros H. enough (G : forall m, run (sds b l ++ rest) (set_mem m h) = run rest (set_mem (foldl (fun m x => mst64 m (p + x.2) (rg h x.1)) m l) h)) by (destruct h; apply G).
  induction H as [|x l Hx H IH]; intros m; [done|]. cbn [sds fmap list_fmap app Asm.run foldl]. change (ea tr (set_mem m h) x.2 b) with (ea tr h x.2 b). rewrite Hx. apply IH.
Qed.

Lemma run_lds b p l rest h :
  slots_at h b p l -> b ∉ l.*1 -> run (lds b l ++ rest) h = run rest (loads p l h).
Proof.
  unfold slots_at. intros H Hb. revert h H. induction l as [|x l IH]; intros h H; [done|]. cbn [fmap list_fmap] in Hb. apply not_elem_of_cons in Hb as [N Hb]. apply Forall_cons in H as [Hx H].
  cbn [lds fmap list_fmap app Asm.run loads foldl]. rewrite Hx. apply IH; [done|]. eapply Forall_impl; [exact H|]. cbn beta. intros y Hy. unfold ea in *. by rewrite rg_set_ne.
Qed.
(** ** trampoline.S *)

(** The trapframe at [tf] is mapped at TRAPFRAME. *)
Definition tf_mapped (s tf : Z) : Prop := forall o, 0 <= o <= 280 -> tr s (TRAPFRAME + o) = Some (tf + o).

Lemma user_slots_ok :
  in_order user_slots /\ NoDup user_slots.*1 /\ zero ∉ user_slots.*1 /\ a0 ∉ user_slots.*1 /\ Forall (fun x => 40 <= x.2 <= 280 /\ x.2 <> 112 /\ (x.2 + 8 <= 112 \/ 120 <= x.2)) user_slots.
Proof.
  split_and!; [|by apply (bool_decide_unpack _)..]. unfold in_order, user_slots. repeat (constructor; [|repeat (constructor; [cbn; lia|]); constructor]). constructor.
Qed.

Lemma tf_slots s tf h l : tf_mapped s tf -> rg h a0 = TRAPFRAME -> hr_csr h satp = s -> Forall (fun x => 0 <= x.2 <= 280) l -> slots_at h a0 tf l.
Proof.
  intros M E Es H. eapply Forall_impl; [exact H|]. cbn beta. intros x Hx. unfold ea. rewrite E, Es. rewrite u64_small; [by apply M|]. change TRAPFRAME with 274877898752. lia.
Qed.

Lemma elem_of_user_slots r o : (r, o) ∈ (a0, 112) :: user_slots -> 40 <= o <= 280.
Proof.
  destruct user_slots_ok as (_ & _ & _ & _ & S5). intros Hr. apply elem_of_cons in Hr as [[= -> ->]|Hr]; [lia|]. rewrite Forall_forall in S5. specialize (S5 _ Hr). cbn in S5. lia.
Qed.

Lemma slot_of r : r = zero \/ exists o, (r, o) ∈ (a0, 112) :: user_slots.
Proof. destruct r; first [by left|right; eexists; repeat first [apply list_elem_of_here|apply list_elem_of_further]]. Qed.
(** What is stored in the trapframe when the C code is entered. *)
Lemma saved_slots tf h m r o :
  typed h -> (r, o) ∈ (a0, 112) :: user_slots -> mld64 (mst64 (stores tf (rg h) user_slots m) (tf + 112) (rg h a0)) (tf + o) = rg h r.
Proof.
  intros T H. destruct user_slots_ok as (S1 & _ & _ & _ & S5). pose proof (rg_typed h) as R. apply elem_of_cons in H as [[= -> ->]|H].
  - rewrite mld64_mst64_same. by apply u64_small, R.
  - rewrite Forall_forall in S5. pose proof (S5 _ H) as Ho. cbn [snd] in Ho. rewrite mld64_mst64_out by lia. rewrite (stores_at _ _ _ _ r o) by done. by apply u64_small, R.
Qed.

Lemma stores_ext p f g l m : (forall x, x ∈ l -> f x.1 = g x.1) -> stores p f l m = stores p g l m.
Proof.
  revert m. induction l as [|x l IH]; intros m H; [done|]. cbn [stores foldl]. rewrite (H x) by apply list_elem_of_here. apply IH. intros y Hy. by apply H, list_elem_of_further.
Qed.

Lemma uservec_ok h tf :
  typed h -> mem_bytes (hr_mem h) -> tf_mapped (hr_csr h satp) tf ->
  let m := mst64 (stores tf (rg h) user_slots (hr_mem h)) (tf + 112) (rg h a0) in
  exists h1, run uservec_code h = Exit (Jump (mld64 (hr_mem h) (tf + 16))) h1 /\ hr_mem h1 = m /\
    rg h1 sp = mld64 (hr_mem h) (tf + 8) /\ rg h1 tp = mld64 (hr_mem h) (tf + 32) /\ hr_csr h1 satp = mld64 (hr_mem h) tf.
Proof.
  intros T B M m. pose proof (rg_typed h a0 T) as Ra. destruct user_slots_ok as (_ & _ & _ & S4 & S5).
  set (h0 := set_rg a0 TRAPFRAME (set_csr sscratch (rg h a0) h)).
  assert (Ea : rg h0 a0 = TRAPFRAME) by (apply rg_set_eq; [done|change TRAPFRAME with 274877898752; lia]).
  assert (Es : hr_csr h0 satp = hr_csr h satp) by (apply csr_set_ne; done).
  set (l := [(sp, 8); (tp, 32); (t0, 16); (t1, 0)]).
  assert (Eu : uservec_code = csrw sscratch a0 :: li a0 TRAPFRAME :: sds a0 user_slots ++ csrr t0 sscratch :: sds a0 [(t0, 112)] ++ lds a0 l ++ [sfence_vma; csrw satp t1; sfence_vma; jr t0]) by reflexivity.
  rewrite Eu, run_csrw, run_li. fold h0. rewrite (run_sds a0 tf).
  2: { apply (tf_slots (hr_csr h satp)); [done..|]. eapply Forall_impl; [exact S5|cbn; lia]. }
  replace (stores tf (rg h0) user_slots (hr_mem h0)) with (stores tf (rg h) user_slots (hr_mem h)).
  2: { apply stores_ext. intros x Hx. symmetry. unfold h0. rewrite rg_set_ne; [done|]. intros E. apply S4. rewrite E. by apply list_elem_of_fmap_2. }
  assert (Ld : forall o, 0 <= o <= 32 -> mld64 m (tf + o) = mld64 (hr_mem h) (tf + o)).
  { intros o Ho. apply mld64_ext. intros x Hx. unfold m. rewrite mget_mst64_out by lia. apply stores_out. eapply Forall_impl; [exact S5|cbn; lia]. }
  set (ms := stores tf (rg h) user_slots (hr_mem h)) in *. rewrite run_csrr. change (hr_csr (set_mem ms h0) sscratch) with (hr_csr h0 sscratch).
  assert (Et : hr_csr h0 sscratch = rg h a0) by (change (hr_csr h0 sscratch) with (hr_csr (set_csr sscratch (rg h a0) h) sscratch); by apply csr_set_eq). rewrite Et.
  set (h2 := set_rg t0 (rg h a0) (set_mem ms h0)). assert (Ea2 : rg h2 a0 = TRAPFRAME) by (unfold h2; rewrite rg_set_ne by done; exact Ea).
  rewrite (run_sds a0 tf) by (apply (tf_slots (hr_csr h satp)); [done..|by apply (bool_decide_unpack _)]).
  change (stores tf (rg h2) [(t0, 112)] (hr_mem h2)) with (mst64 ms (tf + 112) (rg h2 t0)). replace (rg h2 t0) with (rg h a0) by (symmetry; by apply rg_set_eq). fold m.
  assert (Bm : mem_bytes m) by (apply mst64_bytes; unfold ms, stores; clear -B; revert B; generalize (hr_mem h); induction user_slots as [|x u IH]; intros m0 B; [done|]; cbn; by apply IH, mst64_bytes).
  set (h3 := set_mem m h2). rewrite (run_lds a0 tf) by first [by apply (bool_decide_unpack _)|apply (tf_slots (hr_csr h satp)); [done..|by apply (bool_decide_unpack _)]].
  rewrite run_sfence, run_csrw, run_sfence, run_jr. assert (At : forall r o, (r, o) ∈ l -> 0 <= o <= 32 -> rg (loads tf l h3) r = mld64 (hr_mem h) (tf + o)).
  { intros r o Hr Ho. rewrite (loads_at tf l h3 r o) by first [by apply (bool_decide_unpack _)|done]. by apply Ld. }
  destruct (loads_frame tf l h3) as [Fm Fc].
  eexists. rewrite (rg_set_csr _ _ _ t0), (At t0 16) by first [by apply (bool_decide_unpack _)|lia]. split; [reflexivity|].
  split; [exact Fm|]. rewrite !rg_set_csr, (At sp 8), (At tp 32) by first [by apply (bool_decide_unpack _)|lia]. split_and!; [done|done|].
  rewrite (At t1 0) by first [by apply (bool_decide_unpack _)|lia]. rewrite Z.add_0_r. apply csr_set_eq. by apply mld64_range.
Qed.
Lemma run_sret k h : run (sret :: k) h = Exit Sret h.
Proof. done. Qed.
Lemma run_mret k h : run (Asm.mret :: k) h = Exit Mret h.
Proof. done. Qed.

Lemma userret_ok g s tf :
  mem_bytes (hr_mem g) -> rg g a0 = s -> 0 <= s < 2 ^ 64 -> tf_mapped s tf ->
  exists h2, run userret_code g = Exit Sret h2 /\ hr_mem h2 = hr_mem g /\ hr_csr h2 satp = s /\
    forall r o, (r, o) ∈ (a0, 112) :: user_slots -> rg h2 r = mld64 (hr_mem g) (tf + o).
Proof.
  intros B Es Rs M. destruct user_slots_ok as (_ & S2 & S3 & S4 & S5).
  assert (Eu : userret_code = sfence_vma :: csrw satp a0 :: sfence_vma :: li a0 TRAPFRAME :: lds a0 user_slots ++ [ld a0 112 a0; sret]) by reflexivity.
  rewrite Eu, run_sfence, run_csrw, run_sfence, run_li, Es. set (h0 := set_rg a0 TRAPFRAME (set_csr satp s g)).
  assert (Ea : rg h0 a0 = TRAPFRAME) by (apply rg_set_eq; [done|change TRAPFRAME with 274877898752; lia]).
  assert (Ec : hr_csr h0 satp = s) by (change (hr_csr h0 satp) with (hr_csr (set_csr satp s g) satp); by apply csr_set_eq).
  rewrite (run_lds a0 tf) by first [done|apply (tf_slots s); [done..|eapply Forall_impl; [exact S5|cbn; lia]]].
  set (h1 := loads tf user_slots h0). destruct (loads_frame tf user_slots h0) as [Fm Fc]. fold h1 in Fm, Fc.
  assert (Ea1 : ea tr h1 112 a0 = Some (tf + 112)) by (unfold ea; rewrite Fc, Ec; unfold h1; rewrite loads_out by done; rewrite Ea, u64_small by (change TRAPFRAME with 274877898752; lia); apply M; lia).
  exists (set_rg a0 (mld64 (hr_mem h1) (tf + 112)) h1). split; [cbn [Asm.run]; by rewrite Ea1|]. rewrite Fm.
  split; [exact Fm|]. split; [by rewrite <- Ec, <- Fc|]. intros r o Hr. apply elem_of_cons in Hr as [[= -> ->]|Hr].
  - apply rg_set_eq; [done|]. by apply mld64_range.
  - rewrite rg_set_ne by (intros E; apply S4; rewrite E; by apply (list_elem_of_fmap_2 fst _ (r, o))). unfold h1. exact (loads_at tf user_slots h0 r o S2 S3 B Hr).
Qed.

(** Traps: uservec enters the kernel at usertrap with the kernel's stack, hart number and
    page table, stores all user registers in the trapframe and nothing else; userret, with the
    page table it is given, loads every register from the trapframe.  So the user's registers
    come back, whatever the kernel did, if it kept the trapframe. *)
Lemma trap_roundtrip h tf :
  typed h -> mem_bytes (hr_mem h) -> tf_mapped (hr_csr h satp) tf ->
  exists h1, run uservec_code h = Exit (Jump (mld64 (hr_mem h) (tf + 16))) h1 /\
    rg h1 sp = mld64 (hr_mem h) (tf + 8) /\ rg h1 tp = mld64 (hr_mem h) (tf + 32) /\ hr_csr h1 satp = mld64 (hr_mem h) tf /\
    (forall x, x < tf + 40 \/ tf + 288 <= x -> mget (hr_mem h1) x = mget (hr_mem h) x) /\
    (forall r o, (r, o) ∈ (a0, 112) :: user_slots -> mld64 (hr_mem h1) (tf + o) = rg h r) /\
    forall g, mem_bytes (hr_mem g) -> rg g a0 = hr_csr h satp ->
      exists h2, run userret_code g = Exit Sret h2 /\ hr_mem h2 = hr_mem g /\ hr_csr h2 satp = hr_csr h satp /\
        (forall r o, (r, o) ∈ (a0, 112) :: user_slots -> rg h2 r = mld64 (hr_mem g) (tf + o)) /\
        ((forall x, tf + 40 <= x < tf + 288 -> mget (hr_mem g) x = mget (hr_mem h1) x) -> forall r, rg h2 r = rg h r).
Proof.
  intros T B M. destruct (uservec_ok h tf T B M) as (h1 & E1 & Em & Esp & Etp & Es). exists h1. destruct user_slots_ok as (_ & _ & _ & _ & S5).
  assert (Sl : forall r o, (r, o) ∈ (a0, 112) :: user_slots -> mld64 (hr_mem h1) (tf + o) = rg h r) by (intros r o Hr; rewrite Em; by apply saved_slots).
  split_and!; try done.
  - intros x Hx. rewrite Em, mget_mst64_out by lia. apply stores_out. eapply Forall_impl; [exact S5|cbn; lia].
  - intros g Bg Eg. destruct (userret_ok g (hr_csr h satp) tf Bg Eg (proj2 T satp) M) as (h2 & E2 & Em2 & Ec2 & R2). exists h2. split_and!; try done.
    intros K r. destruct (slot_of r) as [->|[o Hr]]; [done|]. rewrite (R2 r o Hr), <- (Sl r o Hr). apply mld64_ext. intros x Hx. apply K.
    apply elem_of_user_slots in Hr. lia.
Qed.

(** ** swtch.S *)

Definition ctx_at (h : hart) (b : reg) (p : Z) : Prop := forall o, 0 <= o <= 104 -> ea tr h o b = Some (p + o).

Lemma context_slots_ok :
  in_order context_slots /\ NoDup context_slots.*1 /\ zero ∉ context_slots.*1 /\ a1 ∉ context_slots.*1 /\ Forall (fun x => 0 <= x.2 <= 104) context_slots.
Proof.
  split_and!; [|by apply (bool_decide_unpack _)..]. unfold in_order, context_slots. repeat (constructor; [|repeat (constructor; [cbn; lia|]); constructor]). constructor.
Qed.

Lemma stores_bytes p f l m : mem_bytes m -> mem_bytes (stores p f l m).
Proof. revert m. unfold stores. induction l as [|x l IH]; intros m B; [done|]. cbn. by apply IH, mst64_bytes. Qed.

Lemma swtch_ok h old new :
  mem_bytes (hr_mem h) -> ctx_at h a0 old -> ctx_at h a1 new ->
  let m := stores old (rg h) context_slots (hr_mem h) in
  exists h1, run swtch_code h = Exit (Jump (mld64 m new)) h1 /\ hr_mem h1 = m /\ hr_csr h1 = hr_csr h /\
    (forall r o, (r, o) ∈ context_slots -> rg h1 r = mld64 m (new + o)) /\
    (forall r, r ∉ context_slots.*1 -> rg h1 r = rg h r).
Proof.
  intros B Ho Hn m. destruct context_slots_ok as (S1 & S2 & S3 & S4 & S5). unfold swtch_code.
  rewrite (run_sds a0 old) by (eapply Forall_impl; [exact S5|]; intros x Hx; by apply Ho). fold m.
  rewrite (run_lds a1 new) by first [done|eapply Forall_impl; [exact S5|]; intros x Hx; by apply (Hn x.2)].
  set (h1 := loads new context_slots (set_mem m h)). destruct (loads_frame new context_slots (set_mem m h)) as [Fm Fc]. fold h1 in Fm, Fc.
  assert (L : forall r o, (r, o) ∈ context_slots -> rg h1 r = mld64 m (new + o)).
  { intros r o Hr. exact (loads_at new context_slots (set_mem m h) r o S2 S3 (stores_bytes _ _ _ _ B) Hr). }
  exists h1. split_and!; try done.
  - cbn [Asm.run]. rewrite (L ra 0) by by apply (bool_decide_unpack _). by rewrite Z.add_0_r.
  - intros r Hr. unfold h1. by rewrite loads_out.
Qed.

(** C11: the context switch.  swtch(old, new) stores the callee-saved registers in old, writes
    nothing else, and returns to new->ra with the registers of new.  When a later swtch, on
    any hart, switches back to old and old was not written in between, the call returns to
    its caller with the caller's ra, sp and s0-s11. *)
Theorem swtch_resumes h old new :
  typed h -> mem_bytes (hr_mem h) -> ctx_at h a0 old -> ctx_at h a1 new -> old + 112 <= new \/ new + 112 <= old ->
  exists h1, run swtch_code h = Exit (Jump (mld64 (hr_mem h) new)) h1 /\
    (forall r o, (r, o) ∈ context_slots -> rg h1 r = mld64 (hr_mem h) (new + o)) /\
    (forall r, r ∉ context_slots.*1 -> rg h1 r = rg h r) /\
    (forall x, x < old \/ old + 112 <= x -> mget (hr_mem h1) x = mget (hr_mem h) x) /\
    forall g cur, mem_bytes (hr_mem g) -> ctx_at g a0 cur -> ctx_at g a1 old -> cur + 112 <= old \/ old + 112 <= cur ->
      (forall x, old <= x < old + 112 -> mget (hr_mem g) x = mget (hr_mem h1) x) ->
      exists g1, run swtch_code g = Exit (Jump (rg h ra)) g1 /\ forall r, r ∈ context_slots.*1 -> rg g1 r = rg h r.
Proof.
  intros T B Ho Hn D. destruct context_slots_ok as (S1 & _ & _ & _ & S5).
  assert (Sep : forall p q (m : memory) (f : reg -> Z) o, p + 112 <= q \/ q + 112 <= p -> 0 <= o <= 104 -> mld64 (stores p f context_slots m) (q + o) = mld64 m (q + o)).
  { intros p q m f o Hd Hb. apply mld64_ext. intros x Hx. apply stores_out. eapply Forall_impl; [exact S5|cbn; lia]. }
  assert (Off : forall r o, (r, o) ∈ context_slots -> 0 <= o <= 104) by (intros r o Hr; rewrite Forall_forall in S5; exact (S5 _ Hr)).
  destruct (swtch_ok h old new B Ho Hn) as (h1 & E1 & Em & _ & L1 & K1). exists h1. split_and!.
  - rewrite E1. do 2 f_equal. rewrite <- (Z.add_0_r new). apply Sep; [done|lia].
  - intros r o Hr. rewrite (L1 r o Hr). apply Sep; [done|by eapply Off].
  - done.
  - intros x Hx. rewrite Em. apply stores_out. eapply Forall_impl; [exact S5|cbn; lia].
  - intros g cur Bg Hc Hg Dg K. destruct (swtch_ok g cur old Bg Hc Hg) as (g1 & E2 & _ & _ & L2 & _). exists g1.
    assert (V : forall r o, (r, o) ∈ context_slots -> mld64 (stores cur (rg g) context_slots (hr_mem g)) (old + o) = rg h r).
    { intros r o Hr. pose proof (Off r o Hr). rewrite Sep by done. transitivity (mld64 (hr_mem h1) (old + o)); [apply mld64_ext; intros x Hx; apply K; lia|].
      rewrite Em, (stores_at _ _ _ _ r o) by done. by apply u64_small, rg_typed. }
    split.
    + rewrite E2. do 2 f_equal. rewrite <- (Z.add_0_r old). apply V. by apply (bool_decide_unpack _).
    + intros r Hr. apply list_elem_of_fmap in Hr as ([r' o] & -> & Hr). cbn [fst]. rewrite (L2 r' o Hr). by apply V.
Qed.

(** ** kernelvec.S *)

Definition frame_slots : list (reg * Z) := [(ra, 0); (sp, 8); (gp, 16); (tp, 24)] ++ kernel_slots.

Lemma kernel_slots_ok :
  in_order frame_slots /\ NoDup kernel_slots.*1 /\ zero ∉ kernel_slots.*1 /\ sp ∉ kernel_slots.*1 /\ Forall (fun x => 0 <= x.2 <= 240) frame_slots.
Proof.
  split_and!; [|by apply (bool_decide_unpack _)..]. unfold in_order, frame_slots, kernel_slots. cbn [app]. repeat (constructor; [|repeat (constructor; [cbn; lia|]); constructor]). constructor.
Qed.

Lemma frame_slot_of r : r = zero \/ exists o, (r, o) ∈ frame_slots.
Proof. destruct r; first [by left|right; eexists; repeat first [apply list_elem_of_here|apply list_elem_of_further]]. Qed.

Lemma frame_but r o : (r, o) ∈ frame_slots -> r <> sp -> r <> tp -> (r, o) ∈ (ra, 0) :: (gp, 16) :: kernel_slots.
Proof.
  change frame_slots with ((ra, 0) :: (sp, 8) :: (gp, 16) :: (tp, 24) :: kernel_slots). generalize kernel_slots. intros l H Hs Ht.
  repeat (apply elem_of_cons in H as [H|H]; [first [congruence|rewrite H; repeat first [apply list_elem_of_here|apply list_elem_of_further]]|]). by do 2 apply list_elem_of_further.
Qed.

(** The part of kernelvec after the call: sp is loaded from the frame it points to. *)
Lemma kernelvec_restore g v p :
  mem_bytes (hr_mem g) -> rg g sp = v -> 0 <= v < 2 ^ 64 -> (forall o, 0 <= o <= 240 -> ea tr g o sp = Some (p + o)) ->
  mld64 (hr_mem g) (p + 8) = v ->
  exists h2, run (lds sp ([(ra, 0); (sp, 8); (gp, 16)] ++ kernel_slots) ++ [addi sp sp 256; sret]) g = Exit Sret h2 /\
    hr_mem h2 = hr_mem g /\ rg h2 sp = u64 (v + 256) /\ rg h2 tp = rg g tp /\
    forall r o, (r, o) ∈ (ra, 0) :: (gp, 16) :: kernel_slots -> rg h2 r = mld64 (hr_mem g) (p + o).
Proof.
  intros B Ev Rv M Em. destruct kernel_slots_ok as (_ & S2 & S3 & S4 & S5).
  set (k := [addi sp sp 256; sret]). assert (Ec : lds sp ([(ra, 0); (sp, 8); (gp, 16)] ++ kernel_slots) ++ k = lds sp [(ra, 0)] ++ ld sp 8 sp :: lds sp ((gp, 16) :: kernel_slots) ++ k) by reflexivity. rewrite Ec.
  rewrite (run_lds sp p) by first [by apply (bool_decide_unpack _)|repeat constructor; apply M; cbn; lia].
  set (g1 := loads p [(ra, 0)] g). assert (E1 : forall o, ea tr g1 o sp = ea tr g o sp) by (intros o; unfold ea, g1; by rewrite loads_out by by apply (bool_decide_unpack _)).
  assert (El : forall c, run (ld sp 8 sp :: c) g1 = run c (set_rg sp v g1)) by (intros c; cbn [Asm.run]; rewrite E1, M by lia; change (hr_mem g1) with (hr_mem g); by rewrite Em). rewrite El.
  set (g2 := set_rg sp v g1). assert (Es2 : rg g2 sp = v) by by apply rg_set_eq.
  assert (E2 : forall o, ea tr g2 o sp = ea tr g o sp) by (intros o; unfold ea; by rewrite Es2, Ev).
  assert (F3 : Forall (fun x => 0 <= x.2 <= 240) ((gp, 16) :: kernel_slots)) by by apply (bool_decide_unpack _).
  rewrite (run_lds sp p) by first [by apply (bool_decide_unpack _)|eapply Forall_impl; [exact F3|]; intros x Hx; cbn beta; rewrite E2; by apply M].
  set (g3 := loads p ((gp, 16) :: kernel_slots) g2). destruct (loads_frame p ((gp, 16) :: kernel_slots) g2) as [Fm _]. fold g3 in Fm.
  assert (Es3 : rg g3 sp = v) by (unfold g3; by rewrite loads_out by by apply (bool_decide_unpack _)).
  unfold k. rewrite run_addi, run_sret, Es3. eexists. split; [reflexivity|]. split; [exact Fm|]. split.
  { unfold rg, set_rg. cbn [hr_reg]. rewrite fn_lookup_insert. done. }
  split.
  { rewrite rg_set_ne by done. unfold g3. rewrite loads_out by by apply (bool_decide_unpack _). unfold g2. rewrite rg_set_ne by done. unfold g1. by rewrite loads_out by by apply (bool_decide_unpack _). }
  intros r o Hr. rewrite rg_set_ne by (intros <-; revert Hr; clear; intros Hr; apply (list_elem_of_fmap_2 fst) in Hr; revert Hr; by apply (bool_decide_unpack _)).
  apply elem_of_cons in Hr as [[= -> ->]|Hr].
  - unfold g3. rewrite loads_out by by apply (bool_decide_unpack _). unfold g2. rewrite rg_set_ne by done. unfold g1. by apply (loads_at p [(ra, 0)] g ra 0); [by apply (bool_decide_unpack _)..|done|apply list_elem_of_here].
  - unfold g3. exact (loads_at p ((gp, 16) :: kernel_slots) g2 r o ltac:(by apply (bool_decide_unpack _)) ltac:(by apply (bool_decide_unpack _)) B Hr).
Qed.

Lemma run_call f k h : run (call f :: k) h = match ccall f h with Off_end h' => run k h' | o => o end.
Proof. done. Qed.

(** C29: interrupts in the kernel.  kernelvec pushes a frame of 256 bytes, calls kerneltrap, and
    returns with sret.  If kerneltrap keeps the calling convention - it returns with the same
    sp and leaves the bytes above it alone - every register but tp has the value it had when
    the interrupt came, and tp is the one kerneltrap left, the number of the hart the
    interrupted code now runs on. *)
Theorem kernelvec_transparent h p :
  typed h -> mem_bytes (hr_mem h) -> 256 <= rg h sp ->
  (forall o, 0 <= o <= 240 -> tr (hr_csr h satp) (rg h sp - 256 + o) = Some (p + o)) ->
  (forall g, mem_bytes (hr_mem g) -> rg g sp = rg h sp - 256 -> hr_csr g satp = hr_csr h satp ->
     exists g', ccall Ckerneltrap g = Off_end g' /\ mem_bytes (hr_mem g') /\ rg g' sp = rg g sp /\ hr_csr g' satp = hr_csr g satp /\
       forall x, p <= x < p + 256 -> mget (hr_mem g') x = mget (hr_mem g) x) ->
  exists g g' h2, ccall Ckerneltrap g = Off_end g' /\
    (forall x, x < p \/ p + 256 <= x -> mget (hr_mem g) x = mget (hr_mem h) x) /\
    (forall r, r <> sp -> rg g r = rg h r) /\
    run kernelvec_code h = Exit Sret h2 /\ hr_mem h2 = hr_mem g' /\ rg h2 tp = rg g' tp /\
    forall r, r <> tp -> rg h2 r = rg h r.
Proof.
  intros T B Lo M K. pose proof (rg_typed h) as R. pose proof (R sp T) as Rs. destruct kernel_slots_ok as (S1 & _ & _ & _ & S5).
  set (h0 := set_rg sp (rg h sp + -256) h). assert (Es : rg h0 sp = rg h sp - 256) by (apply rg_set_eq; [done|lia]).
  assert (Ne : forall r, r <> sp -> rg h0 r = rg h r) by (intros r Hr; by apply rg_set_ne).
  assert (Ad : forall g, rg g sp = rg h sp - 256 -> hr_csr g satp = hr_csr h satp -> forall o, 0 <= o <= 240 -> ea tr g o sp = Some (p + o)).
  { intros g E1 E2 o Ho. unfold ea. rewrite E1, E2, u64_small by lia. by apply M. }
  set (m := stores p (rg h0) frame_slots (hr_mem h)). set (g := set_mem m h0).
  destruct (K g (stores_bytes _ _ _ _ B) Es eq_refl) as (g' & Ec & B' & Es' & Ec' & Fr). change (rg g sp) with (rg h0 sp) in Es'. rewrite Es in Es'.
  assert (Sl : forall r o, (r, o) ∈ frame_slots -> mld64 (hr_mem g') (p + o) = rg h0 r).
  { intros r o Hr. transitivity (mld64 m (p + o)); [|unfold m; rewrite (stores_at _ _ _ _ r o) by done; apply u64_small; destruct (decide (r = sp)) as [->|]; [lia|rewrite Ne by done; by apply R]].
    apply mld64_ext. intros x Hx. apply Fr. rewrite Forall_forall in S5. specialize (S5 _ Hr). cbn in S5. lia. }
  destruct (kernelvec_restore g' (rg h sp - 256) p B' Es' ltac:(lia) (Ad g' Es' Ec')) as (h2 & E2 & Em2 & Esp2 & Et2 & L2).
  { rewrite (Sl sp 8); [done|]. by apply (bool_decide_unpack _). }
  exists g, g', h2. split; [exact Ec|]. split; [|split; [exact Ne|split; [|split; [exact Em2|split; [exact Et2|]]]]].
  - intros x Hx. apply stores_out. eapply Forall_impl; [exact S5|cbn; lia].
  - assert (Ek : kernelvec_code = addi sp sp (-256) :: sds sp frame_slots ++ call Ckerneltrap :: lds sp ([(ra, 0); (sp, 8); (gp, 16)] ++ kernel_slots) ++ [addi sp sp 256; sret]) by reflexivity.
    rewrite Ek, run_addi. fold h0. rewrite (run_sds sp p) by (eapply Forall_impl; [exact S5|]; intros x Hx; by apply (Ad h0)).
    change (hr_mem h0) with (hr_mem h). fold m. fold g. rewrite run_call, Ec. exact E2.
  - intros r Ht. destruct (decide (r = sp)) as [->|Hs]; [rewrite Esp2, u64_small; lia|]. destruct (frame_slot_of r) as [->|[o Hr]]; [done|].
    rewrite <- (Ne r Hs), <- (Sl r o Hr). apply L2. by apply frame_but.
Qed.

Lemma run_ld rd off b pa k h : ea tr h off b = Some pa -> run (ld rd off b :: k) h = run k (set_rg rd (mld64 (hr_mem h) pa) h).
Proof. intros E. cbn [Asm.run]. by rewrite E. Qed.
Lemma run_sd rs off b pa k h : ea tr h off b = Some pa -> run (sd rs off b :: k) h = run k (set_mem (mst64 (hr_mem h) pa (rg h rs)) h).
Proof. intros E. cbn [Asm.run]. by rewrite E. Qed.
End Exec.

(** ** timervec *)

Ltac slots := repeat (apply Forall_cons_2; [cbn; lia|]); apply Forall_nil_2.

Section Timer.
Context (sym_addr : symbol -> Z) (ccall : cfun -> hart -> outcome).
#[local] Notation run := (run bare sym_addr ccall).

(** The scratch area of start.c: mscratch points to it, its fourth and fifth words are the
    address of the hart's MTIMECMP register and the interval. *)
Definition scratch_at (h : hart) (s c n : Z) : Prop :=
  hr_csr h mscratch = s /\ s + 40 <= 2 ^ 64 /\ mld64 (hr_mem h) (s + 24) = c /\ mld64 (hr_mem h) (s + 32) = n /\ (c + 8 <= s \/ s + 40 <= c).

Lemma bare_slots h b p l : rg h b = p -> Forall (fun x => 0 <= p + x.2 < 2 ^ 64) l -> slots_at bare h b p l.
Proof. intros E H. eapply Forall_impl; [exact H|]. cbn beta. intros x Hx. unfold ea, bare. rewrite E. by rewrite u64_small. Qed.

Lemma rg_set_self h r v : r <> zero -> rg (set_rg r v h) r = u64 v.
Proof. intros H. unfold rg, set_rg. rewrite decide_False by done. cbn [hr_reg]. apply fn_lookup_insert. Qed.

(** The end of timervec: the software interrupt is raised and the registers come back. *)
Lemma timervec_tail g s :
  typed g -> mem_bytes (hr_mem g) -> rg g a0 = s -> s + 24 <= 2 ^ 64 ->
  exists h2, run (li a1 2 :: csrw sip a1 :: lds a0 [(a3, 16); (a2, 8); (a1, 0)] ++ [csrrw a0 mscratch a0; Asm.mret]) g = Exit Mret h2 /\
    hr_mem h2 = hr_mem g /\ hr_csr h2 sip = 2 /\ hr_csr h2 mscratch = s /\ (forall x, x <> sip -> x <> mscratch -> hr_csr h2 x = hr_csr g x) /\
    rg h2 a0 = hr_csr g mscratch /\ (forall r o, (r, o) ∈ [(a3, 16); (a2, 8); (a1, 0)] -> rg h2 r = mld64 (hr_mem g) (s + o)) /\
    forall r, r ∉ [a0; a1; a2; a3] -> rg h2 r = rg g r.
Proof.
  intros T B Es Hi. pose proof (rg_typed g a0 T) as Rs. rewrite Es in Rs. set (l := [(a3, 16); (a2, 8); (a1, 0)]).
  rewrite run_li, run_csrw. set (g1 := set_rg a1 2 g). assert (E1 : rg g1 a1 = 2) by (apply rg_set_eq; [done|lia]). rewrite E1. set (g2 := set_csr sip 2 g1).
  assert (Ea : rg g2 a0 = s) by (unfold g2, g1; rewrite rg_set_csr; by rewrite rg_set_ne).
  rewrite (run_lds bare sym_addr ccall a0 s) by first [by apply (bool_decide_unpack _)|apply bare_slots; [done|slots]].
  set (g3 := loads s l g2). destruct (loads_frame s l g2) as [Fm Fc]. fold g3 in Fm, Fc.
  assert (E3 : rg g3 a0 = s) by (unfold g3; by rewrite loads_out by by apply (bool_decide_unpack _)).
  rewrite run_csrrw, run_mret, E3, Fc. eexists. split; [reflexivity|]. split; [exact Fm|]. split_and!.
  - transitivity (hr_csr g3 sip); [by apply csr_set_ne|]. rewrite Fc. by apply csr_set_eq.
  - by apply csr_set_eq.
  - intros x Hx Hm. transitivity (hr_csr g3 x); [by apply csr_set_ne|]. rewrite Fc. change (hr_csr g x) with (hr_csr g1 x). by apply csr_set_ne.
  - apply rg_set_eq; [done|]. apply T.
  - intros r o Hr. rewrite rg_set_ne by (intros <-; apply (list_elem_of_fmap_2 fst) in Hr; revert Hr; by apply (bool_decide_unpack _)).
    exact (loads_at s l g2 r o ltac:(by apply (bool_decide_unpack _)) ltac:(by apply (bool_decide_unpack _)) B Hr).
  - intros r Hr. rewrite !not_elem_of_cons in Hr. destruct Hr as (H0 & H1 & H2 & H3 & _). rewrite rg_set_ne, rg_set_csr by congruence. unfold g3.
    rewrite loads_out by (cbn; rewrite !not_elem_of_cons; split_and!; [done..|apply not_elem_of_nil]). unfold g2, g1. rewrite rg_set_csr. by apply rg_set_ne.
Qed.

Lemma sv_order : in_order [(a1, 0); (a2, 8); (a3, 16)].
Proof. unfold in_order. repeat (constructor; [|slots]). constructor. Qed.

(** The start of timervec: the scratch area holds a1-a3 and MTIMECMP the next deadline. *)
Lemma timervec_head h s c n k :
  typed h -> mem_bytes (hr_mem h) -> scratch_at h s c n ->
  exists g, run (csrrw a0 mscratch a0 :: sds a0 [(a1, 0); (a2, 8); (a3, 16)] ++ lds a0 [(a1, 24); (a2, 32)] ++ ld a3 0 a1 :: add a3 a3 a2 :: sd a3 0 a1 :: k) h = run k g /\
    hr_mem g = mst64 (stores s (rg h) [(a1, 0); (a2, 8); (a3, 16)] (hr_mem h)) c (u64 (mld64 (hr_mem h) c + n)) /\
    typed g /\ rg g a0 = s /\ hr_csr g = hr_csr (set_csr mscratch (rg h a0) h) /\ forall r, r ∉ [a0; a1; a2; a3] -> rg g r = rg h r.
Proof.
  intros T B (Es & Hi & Ec & En & D). assert (Rs : 0 <= s < 2 ^ 64) by (rewrite <- Es; apply T).
  assert (Rc : 0 <= c < 2 ^ 64) by (rewrite <- Ec; by apply mld64_range). assert (Rn : 0 <= n < 2 ^ 64) by (rewrite <- En; by apply mld64_range).
  set (sv := [(a1, 0); (a2, 8); (a3, 16)]). set (ar := [(a1, 24); (a2, 32)]).
  rewrite run_csrrw, Es. set (h0 := set_rg a0 s (set_csr mscratch (rg h a0) h)). assert (Ea0 : rg h0 a0 = s) by by apply rg_set_eq.
  assert (N0 : forall r, r <> a0 -> rg h0 r = rg h r) by (intros r Hr; unfold h0; by rewrite rg_set_ne).
  rewrite (run_sds bare sym_addr ccall a0 s) by (apply bare_slots; [done|slots]).
  replace (stores s (rg h0) sv (hr_mem h0)) with (stores s (rg h) sv (hr_mem h)).
  2: { apply stores_ext. intros x Hx. symmetry. apply N0. intros E0. apply (list_elem_of_fmap_2 fst) in Hx. rewrite E0 in Hx. revert Hx. by apply (bool_decide_unpack _). }
  set (m1 := stores s (rg h) sv (hr_mem h)). set (h1 := set_mem m1 h0). assert (B1 : mem_bytes m1) by by apply stores_bytes.
  assert (L1 : forall q, q + 8 <= s \/ s + 24 <= q -> mld64 m1 q = mld64 (hr_mem h) q) by (intros q Hq; apply mld64_ext; intros x Hx; apply stores_out; slots).
  rewrite (run_lds bare sym_addr ccall a0 s) by first [by apply (bool_decide_unpack _)|apply bare_slots; [done|slots]].
  set (h3 := loads s ar h1). destruct (loads_frame s ar h1) as [Fm3 Fc3]. fold h3 in Fm3, Fc3.
  assert (Q : forall r o, (r, o) ∈ ar -> rg h3 r = mld64 m1 (s + o)) by (intros r o Hr; exact (loads_at s ar h1 r o ltac:(by apply (bool_decide_unpack _)) ltac:(by apply (bool_decide_unpack _)) B1 Hr)).
  assert (E31 : rg h3 a1 = c) by (rewrite (Q a1 24) by (by apply (bool_decide_unpack _)); by rewrite L1 by lia).
  assert (E32 : rg h3 a2 = n) by (rewrite (Q a2 32) by (by apply (bool_decide_unpack _)); by rewrite L1 by lia).
  assert (Ac : forall g, rg g a1 = c -> ea bare g 0 a1 = Some c) by (intros g Eg; unfold ea, bare; by rewrite Eg, Z.add_0_r, u64_small).
  rewrite (run_ld bare sym_addr ccall a3 0 a1 c) by by apply Ac. rewrite Fm3. change (hr_mem h1) with m1. rewrite (L1 c) by lia.
  set (v := mld64 (hr_mem h) c). assert (Rv : 0 <= v < 2 ^ 64) by by apply mld64_range. rewrite run_add, rg_set_eq, rg_set_ne, E32 by done.
  set (h4 := set_rg a3 (v + n) (set_rg a3 v h3)). rewrite (run_sd bare sym_addr ccall a3 0 a1 c) by (apply Ac; unfold h4; by rewrite !rg_set_ne).
  assert (E43 : rg h4 a3 = u64 (v + n)) by by apply rg_set_self. rewrite E43. change (hr_mem h4) with (hr_mem h3). rewrite Fm3.
  eexists. split; [reflexivity|]. split; [reflexivity|]. split; [apply typed_set_rg, typed_set_rg, typed_loads, typed_set_rg, typed_set_csr, T|].
  rewrite rg_set_mem. unfold h4. split; [|split; [exact Fc3|]].
  - rewrite !rg_set_ne by done. unfold h3. by rewrite loads_out by by apply (bool_decide_unpack _).
  - intros r Hr. rewrite rg_set_mem. rewrite !not_elem_of_cons in Hr. destruct Hr as (H0 & H1 & H2 & H3 & _).
    unfold h3. rewrite !rg_set_ne, loads_out by first [congruence|cbn; rewrite !not_elem_of_cons; split_and!; [done..|apply not_elem_of_nil]]. by apply N0.
Qed.

Lemma timervec_ok h s c n :
  typed h -> mem_bytes (hr_mem h) -> scratch_at h s c n ->
  exists h2, run timervec_code h = Exit Mret h2 /\ (forall r, rg h2 r = rg h r) /\ hr_csr h2 sip = 2 /\ (forall x, x <> sip -> hr_csr h2 x = hr_csr h x) /\
    mem_bytes (hr_mem h2) /\ mld64 (hr_mem h2) c = u64 (mld64 (hr_mem h) c + n) /\
    forall x, (x < s \/ s + 24 <= x) -> (x < c \/ c + 8 <= x) -> mget (hr_mem h2) x = mget (hr_mem h) x.
Proof.
  intros T B Sc. pose proof Sc as (Es & Hi & _ & _ & D). pose proof (rg_typed h) as R. set (l := [(a3, 16); (a2, 8); (a1, 0)]).
  assert (Et : timervec_code = csrrw a0 mscratch a0 :: sds a0 [(a1, 0); (a2, 8); (a3, 16)] ++ lds a0 [(a1, 24); (a2, 32)] ++ ld a3 0 a1 :: add a3 a3 a2 :: sd a3 0 a1 :: li a1 2 :: csrw sip a1 :: lds a0 l ++ [csrrw a0 mscratch a0; Asm.mret]) by reflexivity.
  rewrite Et. destruct (timervec_head h s c n (li a1 2 :: csrw sip a1 :: lds a0 l ++ [csrrw a0 mscratch a0; Asm.mret]) T B Sc) as (g & Eg & Gm & Tg & Ga & Gc & Gr). rewrite Eg.
  assert (Bg : mem_bytes (hr_mem g)) by (rewrite Gm; by apply mst64_bytes, stores_bytes).
  destruct (timervec_tail g s Tg Bg Ga ltac:(lia)) as (h2 & E2 & Em & Ei & Ems & Ecs & Ea & Lr & Kr).
  exists h2. split; [exact E2|]. rewrite Em. split; [|split; [exact Ei|split; [|split; [exact Bg|split]]]].
  - intros r. destruct (decide (r ∈ [a0; a1; a2; a3])) as [Hr|Hr]; [|by rewrite (Kr r Hr), (Gr r Hr)].
    apply elem_of_cons in Hr as [Hr|Hr]; [rewrite Hr, Ea, Gc; by apply csr_set_eq, R|].
    assert (exists o, (r, o) ∈ l /\ (r, o) ∈ [(a1, 0); (a2, 8); (a3, 16)] /\ 0 <= o <= 16) as (o & H1 & H2 & H3).
    { clear -Hr. repeat (apply elem_of_cons in Hr as [Hr|Hr]; [rewrite Hr; eexists; split; [repeat first [apply list_elem_of_here|apply list_elem_of_further]|split; [repeat first [apply list_elem_of_here|apply list_elem_of_further]|lia]]|]). by apply elem_of_nil in Hr. }
    rewrite (Lr r o H1), Gm, mld64_mst64_out by lia. rewrite (stores_at _ _ _ _ r o sv_order H2). by apply u64_small, R.
  - intros x Hx. destruct (decide (x = mscratch)) as [->|Hm]; [by rewrite Ems|]. rewrite Ecs, Gc by done. by apply csr_set_ne.
  - rewrite Gm, mld64_mst64_same. apply u64_small, u64_range.
  - intros x H1 H2. rewrite Gm, mget_mst64_out by done. apply stores_out. slots.
Qed.
End Timer.

(** ** Witnesses *)

Definition hart0 : hart := mkhart (fun r => if decide (r = a1) then 8192 else 4096) (fun _ => 4096) ∅.

Lemma hart0_ok : ok hart0.
Proof. split; [split; intros; cbn; [case_decide|]; lia|apply mem_bytes_empty]. Qed.

Definition no_call (f : cfun) (h : hart) : outcome := Off_end h.


Lemma swtch_resumes_witness :
  exists h1, run bare (fun _ => 0) no_call swtch_code hart0 = Exit (Jump (mld64 ∅ 8192)) h1 /\ forall x, x < 4096 \/ 4096 + 112 <= x -> mget (hr_mem h1) x = mget ∅ x.
Proof.
  destruct hart0_ok as [T B].
  destruct (swtch_resumes bare (fun _ => 0) no_call hart0 4096 8192 T B) as (h1 & E1 & _ & _ & K & _).
  - intros o Ho. unfold ea, bare. f_equal. apply u64_small. cbn. lia.
  - intros o Ho. unfold ea, bare. f_equal. apply u64_small. cbn. lia.
  - lia.
  - exists h1. split; [exact E1|exact K].
Defined.

Lemma kernelvec_transparent_witness :
  exists h2, run bare (fun _ => 0) no_call kernelvec_code hart0 = Exit Sret h2 /\ forall r, r <> tp -> rg h2 r = rg hart0 r.
Proof.
  destruct hart0_ok as [T B].
  destruct (kernelvec_transparent bare (fun _ => 0) no_call hart0 3840 T B) as (g & g' & h2 & _ & _ & _ & E2 & _ & _ & R2).
  - by vm_compute.
  - intros o Ho. reflexivity.
  - intros g Bg Eg Cg. exists g. by split_and!.
  - exists h2. split; [exact E2|exact R2].
Defined.
