(* ===== verification/Start.v ===== *)
(** * Machine-mode start

    kernel/start.c on a hart: what it writes to the control registers, the CLINT and the timer's
    scratch area, and the tp register.  The other registers are the compiler's, and nothing is
    stated about them.  The addresses of main, timervec and timer_scratch are arguments.  The
    theorem follows a hart from entry.S through start, and the timer from there on. *)

From S2P Require Import Prelude Memory Riscv State Asm AsmSpec.
From Stdlib Require Import ZArith Lia.
From stdpp Require Import base numbers list gmap functions.

#[local] Open Scope Z_scope.

(** ** riscv.h and memlayout.h *)

Definition MSTATUS_MPP_MASK : Z := Z.shiftl 3 11.
Definition MSTATUS_MPP_S : Z := Z.shiftl 1 11.
Definition MSTATUS_MIE : Z := Z.shiftl 1 3.
Definition SIE_SEIE : Z := Z.shiftl 1 9.
Definition SIE_STIE : Z := Z.shiftl 1 5.
Definition SIE_SSIE : Z := Z.shiftl 1 1.
Definition MIE_MTIE : Z := Z.shiftl 1 7.

Definition CLINT : Z := 0x2000000.
Definition CLINT_MTIMECMP (hartid : Z) : Z := CLINT + 0x4000 + 8 * hartid.
Definition CLINT_MTIME : Z := CLINT + 0xBFF8.

(** ** start.c

    r_x() and w_x(v) of riscv.h are [hr_csr h x] and [set_csr x v]. *)

Section Start.
Context (main_addr timervec_addr timer_scratch : Z).

(** A 64-bit store of C code, in machine mode. *)
Definition store64 (a v : Z) (h : hart) : hart := set_mem (mst64 (hr_mem h) a v) h.

Definition interval : Z := 1000000.

Definition timerinit (h : hart) : hart :=
  let id := i32 (hr_csr h mhartid) in
  let h := store64 (CLINT_MTIMECMP id) (u64 (mld64 (hr_mem h) CLINT_MTIME + interval)) h in
  let scratch := timer_scratch + 40 * id in
  let h := store64 (scratch + 8 * 3) (CLINT_MTIMECMP id) h in
  let h := store64 (scratch + 8 * 4) interval h in
  let h := set_csr mscratch scratch h in
  let h := set_csr mtvec timervec_addr h in
  let h := set_csr mstatus (Z.lor (hr_csr h mstatus) MSTATUS_MIE) h in
  set_csr mie (Z.lor (hr_csr h mie) MIE_MTIE) h.

Definition start (h : hart) : outcome :=
  let x := hr_csr h mstatus in
  let x := Z.ldiff x MSTATUS_MPP_MASK in
  let x := Z.lor x MSTATUS_MPP_S in
  let h := set_csr mstatus x h in
  let h := set_csr mepc main_addr h in
  let h := set_csr satp 0 h in
  let h := set_csr medeleg 0xffff h in
  let h := set_csr mideleg 0xffff h in
  let h := set_csr sie (Z.lor (Z.lor (Z.lor (hr_csr h sie) SIE_SEIE) SIE_STIE) SIE_SSIE) h in
  let h := set_csr pmpaddr0 0x3fffffffffffff h in
  let h := set_csr pmpcfg0 0xf h in
  let h := timerinit h in
  let id := i32 (hr_csr h mhartid) in
  let h := set_rg tp (u64 id) h in
  Exit Mret h.

(** ** What start leaves behind *)

Lemma u64_testbit x i : 0 <= i < 64 -> Z.testbit (u64 x) i = Z.testbit x i.
Proof. intros H. unfold u64. change 18446744073709551616 with (2 ^ 64). apply Z.mod_pow2_bits_low. lia. Qed.

Lemma csr_get h c v c' : hr_csr (set_csr c v h) c' = if decide (c = c') then u64 v else hr_csr h c'.
Proof. unfold set_csr. cbn [hr_csr]. case_decide as H; [subst; apply fn_lookup_insert|by apply fn_lookup_insert_ne]. Qed.

Lemma csr_store64 h a v c : hr_csr (store64 a v h) c = hr_csr h c.
Proof. done. Qed.

Lemma csr_set_rg h r v c : hr_csr (set_rg r v h) c = hr_csr h c.
Proof. done. Qed.

(** The control registers of a hart on which start has run. *)
Definition started (h h1 : hart) (id : Z) : Prop :=
  rg h1 tp = id /\ hr_csr h1 mepc = main_addr /\ hr_csr h1 satp = 0 /\ hr_csr h1 mtvec = timervec_addr /\
  hr_csr h1 mscratch = timer_scratch + 40 * id /\ hr_csr h1 medeleg = 0xffff /\ hr_csr h1 mideleg = 0xffff /\
  (Z.testbit (hr_csr h1 mstatus) 11 = true /\ Z.testbit (hr_csr h1 mstatus) 12 = false /\ Z.testbit (hr_csr h1 mstatus) 3 = true) /\
  Z.testbit (hr_csr h1 mie) 7 = true /\
  (Z.testbit (hr_csr h1 sie) 1 = true /\ Z.testbit (hr_csr h1 sie) 5 = true /\ Z.testbit (hr_csr h1 sie) 9 = true) /\
  mld64 (hr_mem h1) (CLINT_MTIMECMP id) = u64 (mld64 (hr_mem h) CLINT_MTIME + interval) /\
  scratch_at h1 (timer_scratch + 40 * id) (CLINT_MTIMECMP id) interval /\
  forall x, x < CLINT_MTIMECMP id \/ CLINT_MTIMECMP id + 8 <= x -> x < timer_scratch + 40 * id + 24 \/ timer_scratch + 40 * id + 40 <= x -> mget (hr_mem h1) x = mget (hr_mem h) x.

Ltac csrs := repeat (rewrite csr_get; first [rewrite decide_False by done|rewrite decide_True by done]).

(** The memory timerinit writes. *)
Definition timer_mem (m : memory) (id : Z) : memory :=
  let s := timer_scratch + 40 * id in let c := CLINT_MTIMECMP id in
  mst64 (mst64 (mst64 m c (u64 (mld64 m CLINT_MTIME + interval))) (s + 24) c) (s + 32) interval.

Lemma timerinit_eq h id :
  hr_csr h mhartid = id -> 0 <= id < 8 ->
  timerinit h = set_csr mie (Z.lor (hr_csr h mie) MIE_MTIE) (set_csr mstatus (Z.lor (hr_csr h mstatus) MSTATUS_MIE)
                  (set_csr mtvec timervec_addr (set_csr mscratch (timer_scratch + 40 * id) (set_mem (timer_mem (hr_mem h) id) h)))).
Proof.
  intros Eid Hid. unfold timerinit. cbv zeta. rewrite Eid, i32_small by lia. by csrs.
Qed.

Lemma timer_mem_ok m id :
  0 <= id < 8 -> KERNBASE <= timer_scratch -> timer_scratch + 40 * 8 <= 2 ^ 64 ->
  let s := timer_scratch + 40 * id in let c := CLINT_MTIMECMP id in
  mld64 (timer_mem m id) c = u64 (mld64 m CLINT_MTIME + interval) /\
  mld64 (timer_mem m id) (s + 24) = c /\ mld64 (timer_mem m id) (s + 32) = interval /\ c + 8 <= s /\
  forall x, x < c \/ c + 8 <= x -> x < s + 24 \/ s + 40 <= x -> mget (timer_mem m id) x = mget m x.
Proof.
  intros Hid Lo Hi. change KERNBASE with 2147483648 in Lo. unfold timer_mem. cbv zeta.
  assert (Hc : 0 <= CLINT_MTIMECMP id < 2147483000) by (unfold CLINT_MTIMECMP, CLINT; lia). set (c := CLINT_MTIMECMP id) in *. set (s := timer_scratch + 40 * id).
  assert (Hs : 2147483648 <= s) by (unfold s; lia). clearbody c s. split_and!.
  - rewrite !mld64_mst64_out by lia. rewrite mld64_mst64_same. apply u64_small, u64_range.
  - rewrite mld64_mst64_out by lia. rewrite mld64_mst64_same. apply u64_small. lia.
  - by rewrite mld64_mst64_same.
  - lia.
  - intros x H1 H2. by rewrite !mget_mst64_out by lia.
Qed.

Lemma start_runs h id :
  0 <= id < 8 -> hr_csr h mhartid = id -> KERNBASE <= timer_scratch -> timer_scratch + 40 * 8 <= 2 ^ 64 ->
  0 <= main_addr < 2 ^ 64 -> 0 <= timervec_addr < 2 ^ 64 ->
  exists h1, start h = Exit Mret h1 /\ started h h1 id.
Proof.
  intros Hid Eid Lo Hi Hm Ht. unfold start. cbv zeta.
  destruct (timer_mem_ok (hr_mem h) id Hid Lo Hi) as (M1 & M2 & M3 & M4 & M5). change KERNBASE with 2147483648 in Lo.
  erewrite timerinit_eq; [|csrs; exact Eid|exact Hid].  csrs. eexists. split; [reflexivity|].
  change (hr_csr (set_mem ?m ?g) ?c) with (hr_csr g c). csrs. rewrite Eid, i32_small by lia.
  unfold started, scratch_at. rewrite !csr_set_rg. csrs. change (hr_csr (set_mem ?m ?g) ?c) with (hr_csr g c). csrs.
  split_and!; try done; try (rewrite u64_small; lia); rewrite ?u64_testbit, ?Z.lor_spec, ?Z.ldiff_spec, ?u64_testbit, ?Z.lor_spec, ?Z.ldiff_spec, ?orb_true_r by lia; try done.
  - rewrite rg_set_eq by first [done|apply u64_range]. apply u64_small. lia.
  - change (Z.testbit MSTATUS_MPP_MASK 12) with true. by rewrite andb_false_r.
  - lia.
  - by left.
Qed.

(** The C functions the stubs call, with kerneltrap an argument. *)
Definition c_call (kt : hart -> outcome) (f : cfun) : hart -> outcome := match f with Cstart => start | Ckerneltrap => kt end.

Section Boot.
Context (sym_addr : symbol -> Z) (kt : hart -> outcome).
#[local] Notation run := (run bare sym_addr (c_call kt)).

Lemma entry_ok h id :
  hr_csr h mhartid = id -> 0 <= id < 8 -> 0 <= sym_addr stack0 -> sym_addr stack0 + 4096 * 8 < 2 ^ 64 ->
  exists h0, run entry_code h = match start h0 with Off_end g => Exit Spin g | o => o end /\
    rg h0 sp = sym_addr stack0 + 4096 * (id + 1) /\ hr_csr h0 = hr_csr h /\ hr_mem h0 = hr_mem h.
Proof.
  intros Eid Hid L1 L2.
  assert (Ec : forall g, run entry_code g = run [csrr a1 mhartid; addi a1 a1 1; mul a0 a0 a1; add sp sp a0; call Cstart; spin] (set_rg a0 (1024 * 4) (set_rg sp (sym_addr stack0) g))) by done.
  rewrite Ec, run_csrr, run_addi. set (h1 := set_rg a0 _ _). change (hr_csr h1 mhartid) with (hr_csr h mhartid). rewrite Eid.
  rewrite rg_set_eq by first [done|lia]. set (h2 := set_rg a1 (id + 1) _).
  assert (Em : forall k, run (mul a0 a0 a1 :: k) h2 = run k (set_rg a0 (4096 * (id + 1)) h2)).
  { intros k. change (run (mul a0 a0 a1 :: k) h2) with (run k (set_rg a0 (rg h2 a0 * rg h2 a1) h2)). f_equal. f_equal. unfold h2. rewrite rg_set_eq by first [done|lia].
    rewrite !rg_set_ne by done. unfold h1. by rewrite rg_set_eq by first [done|lia]. }
  rewrite Em, run_add. eexists. split; [rewrite run_call; reflexivity|]. split; [|done].
  rewrite (rg_set_eq _ a0) by first [done|lia]. assert (E : rg (set_rg a0 (4096 * (id + 1)) h2) sp = sym_addr stack0).
  { unfold h2, h1. rewrite !rg_set_ne by done. apply rg_set_eq; [done|lia]. }
  rewrite E. apply rg_set_eq; [done|lia].
Qed.

(** C30: boot and the timer.  entry.S calls start with sp at the top of the hart's own page of
    stack0; start returns by mret to main in supervisor mode with paging off, traps delegated,
    interrupts enabled, tp the hart's number and the timer armed.  From then on, as long as
    mscratch and the last two words of the hart's scratch area are left alone, every timer
    interrupt returns with all registers intact, a software interrupt pending, and MTIMECMP
    advanced by the interval; it writes nothing else outside the scratch area. *)
Theorem start_arms_timer h id :
  mem_bytes (hr_mem h) -> hr_csr h mhartid = id -> 0 <= id < Z.of_nat NCPU ->
  0 <= sym_addr stack0 -> sym_addr stack0 + 4096 * Z.of_nat NCPU < 2 ^ 64 ->
  KERNBASE <= timer_scratch -> timer_scratch + 40 * Z.of_nat NCPU <= 2 ^ 64 ->
  0 <= main_addr < 2 ^ 64 -> 0 <= timervec_addr < 2 ^ 64 ->
  let s := timer_scratch + 40 * id in
  exists h0 h1, run entry_code h = Exit Mret h1 /\ start h0 = Exit Mret h1 /\
    rg h0 sp = sym_addr stack0 + 4096 * (id + 1) /\ started h h1 id /\
    forall g, typed g -> mem_bytes (hr_mem g) -> hr_csr g mscratch = hr_csr h1 mscratch ->
      (forall x, s + 24 <= x < s + 40 -> mget (hr_mem g) x = mget (hr_mem h1) x) ->
      exists g1, run timervec_code g = Exit Mret g1 /\ (forall r, rg g1 r = rg g r) /\
        hr_csr g1 sip = 2 /\ (forall c, c <> sip -> hr_csr g1 c = hr_csr g c) /\
        mld64 (hr_mem g1) (CLINT_MTIMECMP id) = u64 (mld64 (hr_mem g) (CLINT_MTIMECMP id) + interval) /\
        forall x, (x < s \/ s + 24 <= x) -> (x < CLINT_MTIMECMP id \/ CLINT_MTIMECMP id + 8 <= x) -> mget (hr_mem g1) x = mget (hr_mem g) x.
Proof.
  intros B Eid Hid L1 L2 Lo Hi Hm Ht s. change (Z.of_nat NCPU) with 8 in *.
  destruct (entry_ok h id Eid Hid L1 L2) as (h0 & Er & Esp & Ec & Em).
  destruct (start_runs h0 id Hid ltac:(rewrite Ec; exact Eid) Lo Hi Hm Ht) as (h1 & Es & St). exists h0, h1. split; [rewrite Er, Es; reflexivity|]. split; [exact Es|]. split; [exact Esp|].
  unfold started in St |- *. rewrite Em in St. split; [exact St|]. destruct St as (_ & _ & _ & _ & Ems & _ & _ & _ & _ & _ & _ & (_ & S2 & S3 & S4 & S5) & _).
  intros g T Bg Eg K. destruct (timervec_ok sym_addr (c_call kt) g s (CLINT_MTIMECMP id) interval T Bg) as (g1 & E1 & R1 & I1 & C1 & _ & V1 & O1); [|exact (ex_intro _ g1 (conj E1 (conj R1 (conj I1 (conj C1 (conj V1 O1))))))].
  split; [rewrite Eg, Ems; reflexivity|]. split; [exact S2|].
  split; [rewrite <- S3; apply mld64_ext; intros x Hx; apply K; lia|]. split; [rewrite <- S4; apply mld64_ext; intros x Hx; apply K; lia|exact S5].
Qed.
End Boot.
End Start.

Lemma start_arms_timer_witness :
  exists h0 h1, run bare (fun _ => KERNBASE) (c_call (KERNBASE + 4096) (KERNBASE + 8192) (KERNBASE + 65536) Off_end) entry_code (set_csr mhartid 3 hart0) = Exit Mret h1 /\
    rg h0 sp = KERNBASE + 4096 * 4 /\ started (KERNBASE + 4096) (KERNBASE + 8192) (KERNBASE + 65536) (set_csr mhartid 3 hart0) h1 3.
Proof.
  destruct (start_arms_timer (KERNBASE + 4096) (KERNBASE + 8192) (KERNBASE + 65536) (fun _ => KERNBASE) Off_end (set_csr mhartid 3 hart0) 3) as (h0 & h1 & E1 & _ & Esp & St & _);
    [apply hart0_ok|by apply csr_set_eq|by vm_compute..|].
  exists h0, h1. split; [exact E1|]. split; [exact Esp|exact St].
Defined.
