(* ===== verification/Trampoline.v ===== *)
(** * Between user code and the kernel

    usertrapret of trap.c, the trampoline's userret and uservec as one crossing: the C code
    prepares the trapframe, the assembly restores the user's registers from it, and the next
    trap comes back to usertrap with what usertrapret left. *)

From S2P Require Import Prelude Memory Riscv Asm AsmSpec.
From S2P Require Import State Kmonad Spinlock CString Kalloc Vm Proc ProcSpec Trap.
From Stdlib Require Import ZArith Lia.
From stdpp Require Import base numbers list gmap.

#[local] Open Scope Z_scope.
#[local] Open Scope kernel_scope.

Section Trampoline.
Context `{L : KernelLayout}.

(** The words of the trapframe that usertrapret sets. *)
Definition return_mem (p : nat) (s : kstate) : memory :=
  let tf := p_trapframe (proc_at p s) in
  mst64 (mst64 (mst64 (mst64 (k_mem s) (tf + TF_kernel_satp) (cs_satp (k_csr s)))
                      (tf + TF_kernel_sp) (u64 (p_kstack (proc_at p s) + PGSIZE)))
               (tf + TF_kernel_trap) usertrap_addr)
        (tf + TF_kernel_hartid) (Z.of_nat (k_hart s)).

Definition return_csr (p : nat) (s : kstate) : csrs :=
  set_cs_sepc (mld64 (k_mem s) (p_trapframe (proc_at p s) + TF_epc))
    (set_cs_spp false (set_cs_spie true (set_cs_stvec (u64 (TRAMPOLINE + (uservec - trampoline))) (k_csr s)))).

Lemma return_mem_ok p s :
  mem_bytes (k_mem s) -> let tf := p_trapframe (proc_at p s) in
  mem_bytes (return_mem p s) /\
  (forall x, x < tf \/ tf + 40 <= x -> mget (return_mem p s) x = mget (k_mem s) x) /\
  mld64 (return_mem p s) (tf + TF_epc) = mld64 (k_mem s) (tf + TF_epc) /\
  mld64 (return_mem p s) tf = u64 (cs_satp (k_csr s)) /\
  mld64 (return_mem p s) (tf + 8) = u64 (p_kstack (proc_at p s) + PGSIZE) /\
  mld64 (return_mem p s) (tf + 16) = u64 usertrap_addr /\
  mld64 (return_mem p s) (tf + 32) = u64 (Z.of_nat (k_hart s)).
Proof.
  intros B tf. unfold return_mem, TF_kernel_satp, TF_kernel_sp, TF_kernel_trap, TF_kernel_hartid, TF_epc. fold tf. rewrite Z.add_0_r.
  split; [by repeat apply mst64_bytes|]. split; [intros x Hx; by rewrite !mget_mst64_out by lia|].
  split_and!; repeat (rewrite mld64_mst64_out by lia); rewrite ?mld64_mst64_same; try done.
  apply u64_small, u64_range.
Qed.

Lemma usertrapret_eq s p :
  cpu_ok s -> c_proc (my s) = Some p -> mem_bytes (k_mem s) ->
  usertrapret s = Ok (MAKE_SATP (p_pagetable (proc_at p s))) (set_k_mem (return_mem p s) (set_k_csr (return_csr p s) (set_k_sie false (settle s)))).
Proof.
  intros Hc Hp B. destruct (return_mem_ok p s B) as (_ & _ & E & _). unfold usertrapret. erewrite bind_ok; [|by apply curproc_eq]. cbn beta.
  assert (Ek : settle s = set_k_cpus (k_cpus (settle s)) s) by reflexivity. set (cs := k_cpus (settle s)) in Ek. rewrite Ek. clearbody cs. clear Ek Hc Hp.
  unfold intr_off, w_csr, r_csr, st_tf, ld_tf, getp, cpuid, r_sstatus, w_sstatus, st64, ld64. repeat kprim. unfold ret. unfold return_csr. rewrite <- E. reflexivity.
Qed.

(** C10: crossing between the kernel and user code.  usertrapret returns the satp of the process,
    with interrupts off and the return to user mode prepared.  userret, called with that satp,
    enters user mode with the registers of the trapframe as the kernel left them.  At the next
    trap, whatever the user's registers then are, uservec enters usertrap on the process's
    kernel stack with the kernel's page table and the hart's number, the user's registers
    saved in the trapframe and no other memory changed; and when the kernel keeps them, the
    following userret restores every one. *)
Theorem user_kernel_crossing tr sym_addr ccall s p :
  let run := Asm.run tr sym_addr ccall in
  let tf := p_trapframe (proc_at p s) in
  let us := MAKE_SATP (p_pagetable (proc_at p s)) in
  cpu_ok s -> c_proc (my s) = Some p -> mem_bytes (k_mem s) -> pa_ok (p_pagetable (proc_at p s)) ->
  tf_mapped tr us tf ->
  exists s1, usertrapret s = Ok us s1 /\ k_sie s1 = false /\
    cs_spp (k_csr s1) = false /\ cs_spie (k_csr s1) = true /\ cs_sepc (k_csr s1) = mld64 (k_mem s) (tf + TF_epc) /\
    cs_stvec (k_csr s1) = u64 (TRAMPOLINE + (uservec - trampoline)) /\
    (forall x, x < tf \/ tf + 40 <= x -> mget (k_mem s1) x = mget (k_mem s) x) /\
    (forall g, hr_mem g = k_mem s1 -> rg g a0 = us ->
       exists u, run userret_code g = Exit Sret u /\ hr_mem u = k_mem s1 /\ hr_csr u satp = us /\
         forall r o, (r, o) ∈ (a0, TF_a0) :: user_slots -> rg u r = mld64 (k_mem s) (tf + o)) /\
    forall u, typed u -> mem_bytes (hr_mem u) -> hr_csr u satp = us ->
      (forall x, tf <= x < tf + 40 -> mget (hr_mem u) x = mget (k_mem s1) x) ->
      exists h, run uservec_code u = Exit (Jump (u64 usertrap_addr)) h /\
        rg h sp = u64 (p_kstack (proc_at p s) + PGSIZE) /\ rg h tp = u64 (Z.of_nat (k_hart s)) /\ hr_csr h satp = u64 (cs_satp (k_csr s)) /\
        (forall x, x < tf + 40 \/ tf + 288 <= x -> mget (hr_mem h) x = mget (hr_mem u) x) /\
        (forall r o, (r, o) ∈ (a0, TF_a0) :: user_slots -> mld64 (hr_mem h) (tf + o) = rg u r) /\
        forall g, mem_bytes (hr_mem g) -> rg g a0 = us ->
          (forall x, tf + 40 <= x < tf + 288 -> mget (hr_mem g) x = mget (hr_mem h) x) ->
          exists u', run userret_code g = Exit Sret u' /\ forall r, rg u' r = rg u r.
Proof.
  intros run tf us Hc Hp B [Hpt _] M. destruct (return_mem_ok p s B) as (B1 & O1 & _ & R0 & R8 & R16 & R32). fold tf in O1, R0, R8, R16, R32.
  assert (Rus : 0 <= us < 2 ^ 64).
  { unfold us, MAKE_SATP. apply lor_bound; [lia|by vm_compute|]. rewrite Z.shiftr_div_pow2 by lia. split; [apply Z.div_pos; lia|]. apply Z.div_lt_upper_bound; lia. }
  eexists. split; [by apply usertrapret_eq|]. change (k_mem (set_k_mem ?m _)) with m. do 5 (split; [reflexivity|]). split; [exact O1|]. split.
  - intros g Eg Ea. destruct (userret_ok tr sym_addr ccall g us tf) as (u & E & Em & Ec & R); [by rewrite Eg|done..|].
    exists u. split; [exact E|]. split; [congruence|]. split; [exact Ec|]. intros r o Hr. rewrite (R r o Hr), Eg. apply mld64_ext. intros x Hx. apply O1.
    apply elem_of_user_slots in Hr. lia.
  - intros u T Bu Es K. rewrite <- Es in M. destruct (trap_roundtrip tr sym_addr ccall u tf T Bu M) as (h & E & Esp & Etp & Ec & O & S & G). exists h.
    assert (Ld : forall o, 0 <= o <= 32 -> mld64 (hr_mem u) (tf + o) = mld64 (return_mem p s) (tf + o)) by (intros o Ho; apply mld64_ext; intros x Hx; apply K; lia).
    split; [unfold run; by rewrite E, Ld, R16 by lia|]. split; [by rewrite Esp, Ld, R8 by lia|]. split; [by rewrite Etp, Ld, R32 by lia|].
    split; [by rewrite Ec, <- (Z.add_0_r tf), Ld, Z.add_0_r, R0 by lia|]. split; [exact O|]. split; [exact S|].
    intros g Bg Ea Kg. destruct (G g Bg ltac:(congruence)) as (u' & E' & _ & _ & _ & R'). exists u'. split; [exact E'|by apply R'].
Qed.
End Trampoline.

(** ** Witness *)

Definition demo_running : kstate := upd_cpu 0 (set_c_proc (Some 0%nat)) kstate0.

Lemma user_kernel_crossing_witness :
  exists s1 u, @usertrapret demo_layout demo_running = Ok SATP_SV39 s1 /\ k_sie s1 = false /\
    Asm.run (fun _ va => Some (va - TRAPFRAME)) (fun _ => 0) (fun _ h => Off_end h) userret_code (mkhart (fun _ => SATP_SV39) (fun _ => 0) (k_mem s1)) = Exit Sret u.
Proof.
  destruct (@user_kernel_crossing demo_layout (fun _ va => Some (va - TRAPFRAME)) (fun _ => 0) (fun _ h => Off_end h) demo_running 0%nat) as (s1 & E & Ei & _ & _ & _ & _ & _ & G & _).
  - repeat split; vm_compute; intros; try discriminate; lia.
  - reflexivity.
  - apply mem_bytes_empty.
  - by vm_compute.
  - intros o Ho. f_equal. change (p_trapframe (proc_at 0 demo_running)) with 0. lia.
  - destruct (G (mkhart (fun _ => SATP_SV39) (fun _ => 0) (k_mem s1)) eq_refl eq_refl) as (u & Eu & _). exists s1, u. split; [exact E|]. split; [exact Ei|exact Eu].
Defined.
