(* ===== verification/Calm.v ===== *)
(** * Kernel code between critical sections

    The state in which a process runs in the kernel with no spinlock held, and how the
    critical sections of the kernel's locks return to it.  The operations on sleep locks
    in such a state. *)

From S2P Require Import Prelude Memory Riscv State Kmonad Spinlock CString Kalloc Vm Proc ProcSpec.
From S2P Require Import CoYield Sched Sleeplock.
From Stdlib Require Import ZArith Lia.
From stdpp Require Import base numbers list gmap strings option.

#[local] Open Scope Z_scope.
#[local] Open Scope kernel_scope.

(** The spinlocks of the kernel's static objects. *)
Definition klock (l : lockid) : Prop :=
  match l with
  | L_proc i => (i < NPROC)%nat
  | L_sleep (SL_buf i) => (i < NBUF)%nat
  | L_sleep (SL_inode i) => (i < NINODE)%nat
  | L_pipe _ => False
  | _ => True
  end.

(** Process [p] runs in the kernel; all static locks are free. *)
Record calm (p : nat) (s : kstate) : Prop := {
  ca_cpu : cpu_ok s;
  ca_cur : c_proc (my s) = Some p;
  ca_noff : noff s = 0;
  ca_settled : settle s = s;
  ca_idx : (p < NPROC)%nat;
  ca_tab : length (k_procs s) = NPROC;
  ca_state : p_state (proc_at p s) = RUNNING;
  ca_locks l : klock l -> lock_free l s }.

Lemma calm_plocks p s : calm p s -> plocks_free s.
Proof. intros H i Hi. by apply (ca_locks _ _ H). Qed.

Lemma calm_running p s : calm p s -> running p s.
Proof. intros H. pose proof (calm_plocks p s H). destruct H. by split. Qed.

(** [calm] depends on the cpus, the locks and the process table only. *)
Lemma calm_ext p s s' :
  calm p s -> k_hart s' = k_hart s -> k_sie s' = k_sie s -> k_cpus s' = k_cpus s ->
  k_locks s' = k_locks s -> k_procs s' = k_procs s -> calm p s'.
Proof.
  intros [H1 H2 H3 H4 H5 H6 H7 H8] Eh Es Ec El Ep. unfold cpu_ok, noff, my, proc_at, lock_free in *.
  split; unfold cpu_ok, noff, my, proc_at, lock_free; rewrite ?Eh, ?Es, ?Ec, ?El, ?Ep; try done.
  apply (f_equal k_cpus) in H4. unfold settle in *. ksimpl_in H4.
  apply kstate_ext; ksimpl; try reflexivity. by rewrite Ec, Eh, Es.
Qed.

(** The state after a critical section that ended in [s1]. *)
Definition leave (s s1 : kstate) : kstate :=
  set_k_sie (k_sie s) (set_k_cpus (k_cpus s) (set_k_locks (k_locks s) s1)).

Lemma release_left p l s s1 :
  calm p s -> lock_free l s -> k_hart s1 = k_hart s -> k_sie s1 = false ->
  k_cpus s1 = k_cpus (acq_st l s) -> k_locks s1 = k_locks (acq_st l s) ->
  release l s1 = Ok tt (leave s s1).
Proof.
  intros C Hl Eh Es Ec El. unfold leave. rewrite <- (ca_settled _ _ C) at 2.
  apply release_acquired; try done; apply C; done.
Qed.

Lemma release_leave p l s s1 :
  calm p s -> klock l -> k_hart s1 = k_hart s -> k_sie s1 = false ->
  k_cpus s1 = k_cpus (acq_st l s) -> k_locks s1 = k_locks (acq_st l s) ->
  release l s1 = Ok tt (leave s s1).
Proof. intros C Hl. apply (release_left p); [done|]. by apply (ca_locks _ _ C). Qed.

(** Compare the state after a critical section with an update of the state before it. *)
Ltac leave_eq := unfold leave, acq_st, push_st; kst_eq.

Lemma leave_acq l s : leave s (acq_st l s) = s.
Proof. by destruct s. Qed.

Lemma acquire_calm p l s : calm p s -> klock l -> acquire l s = Ok tt (acq_st l s).
Proof. intros C Hl. by apply acquire_eq, (ca_locks _ _ C). Qed.

(** Wakeups made on the way. *)
Definition woken_proc (q q' : proc) : Prop :=
  q' = q \/ p_state q = SLEEPING /\ q' = set_p_state RUNNABLE q.
Definition woken_procs (ps ps' : list proc) : Prop :=
  length ps' = length ps /\ forall i, woken_proc (ps !!! i) (ps' !!! i).

#[global] Instance woken_procs_preorder : PreOrder woken_procs.
Proof.
  split; [split; [done|by left]|]. intros a b c [L1 W1] [L2 W2]. split; [congruence|]. intros i.
  destruct (W1 i) as [E1|[S1 E1]], (W2 i) as [E2|[S2 E2]]; rewrite ?E1 in *; [by left|by right|..].
  - right. split; [done|congruence].
  - done.
Qed.

Lemma woken_proc_running q q' : woken_proc q q' -> p_state q = RUNNING -> q' = q.
Proof. intros [->|[E _]] R; [done|congruence]. Qed.

Lemma calm_woken p s ps : calm p s -> woken_procs (k_procs s) ps -> calm p (set_k_procs ps s).
Proof.
  intros [H1 H2 H3 H4 H5 H6 H7 H8] [L W]. split; try done.
  - apply (f_equal k_cpus) in H4. unfold settle in *. ksimpl_in H4. by apply kstate_ext; ksimpl; try reflexivity.
  - ksimpl. congruence.
  - unfold proc_at in *. ksimpl. by rewrite (woken_proc_running _ _ (W p) H7).
Qed.

Section Calm.
Context `{F : Fuel}.

Lemma curproc_calm p s : calm p s -> curproc s = Ok p s.
Proof. intros C. rewrite (curproc_eq s p) by apply C. by rewrite (ca_settled _ _ C). Qed.

Lemma curproc_crit p l s : calm p s -> curproc (acq_st l s) = Ok p (acq_st l s).
Proof.
  intros C. assert (Hc := ca_cpu _ _ C). rewrite (curproc_eq _ p); [by rewrite settle_acq|by apply cpu_ok_acq|].
  unfold my. rewrite acq_cpus, acq_hart. rewrite list_lookup_total_alter_eq by apply Hc. apply (ca_cur _ _ C).
Qed.

(** wakeup inside a critical section. *)
Lemma wakeup_in p l c s s1 :
  calm p s -> (forall i, l <> L_proc i) ->
  k_hart s1 = k_hart s -> k_sie s1 = false -> k_cpus s1 = k_cpus (acq_st l s) ->
  k_locks s1 = k_locks (acq_st l s) -> k_procs s1 = k_procs s ->
  exists ps, wakeup c s1 = Ok tt (set_k_procs ps s1) /\ woken_procs (k_procs s) ps.
Proof.
  intros C Nl Eh Es Ec El Ep.
  assert (Hc : cpu_ok s1).
  { pose proof (cpu_ok_acq l s (ca_cpu _ _ C)) as (A & B & D). unfold cpu_ok, noff, my in *.
    rewrite Eh, Ec, Es. rewrite acq_hart in *. done. }
  assert (Hp : plocks_free s1).
  { intros i Hi. unfold lock_free. rewrite El. apply lock_free_acq; [done|]. by apply (calm_plocks p). }
  assert (N : settle s1 = s1).
  { apply settle_nested. unfold noff, my. rewrite Ec, Eh, acq_cpus.
    rewrite list_lookup_total_alter_eq by apply (ca_cpu _ _ C). cbn [push_cpu c_noff].
    pose proof (ca_noff _ _ C) as N0. unfold noff, my in N0. lia. }
  pose proof (wakeup_eq c s1 Hc Hp) as E. rewrite N in E.
  pose proof (wake_all_spec c (c_proc (my s1)) (seq 0 NPROC) s1 (NoDup_seq _ _)) as Sp.
  cbv zeta in Sp. generalize dependent (wake_all c (c_proc (my s1)) (seq 0 NPROC) s1).
  intros s2 E Sp. destruct Sp as (E2 & L2 & W2);
    [rewrite Ep; apply C|intros i Hi; apply elem_of_seq in Hi; lia|].
  exists (k_procs s2). rewrite E2 in E. split; [exact E|]. split; [rewrite L2; symmetry; apply C|].
  intros i. specialize (W2 i). unfold proc_at in W2. rewrite W2, Ep. unfold woken_proc.
  case_decide; [|by left]. unfold wake. case_decide as D; [|by left]. right. split; [apply D|done].
Qed.

Lemma wakeup_crit p l c s s1 :
  calm p s -> klock l -> (forall i, l <> L_proc i) ->
  k_hart s1 = k_hart s -> k_sie s1 = false -> k_cpus s1 = k_cpus (acq_st l s) ->
  k_locks s1 = k_locks (acq_st l s) -> k_procs s1 = k_procs s ->
  exists ps, wakeup c s1 = Ok tt (set_k_procs ps s1) /\ woken_procs (k_procs s) ps.
Proof. intros C _. by apply (wakeup_in p). Qed.

(** ** Sleep locks *)

Definition sl_free (lk : slid) (s : kstate) : Prop := sl_locked (slock_at lk s) = 0.
Definition sl_mine (p : nat) (lk : slid) (s : kstate) : Prop :=
  slock_at lk s = mksleeplock 1 (p_pid (proc_at p s)).

Definition put_slock (lk : slid) (v : sleeplock) (s : kstate) : kstate :=
  set_k_slocks (<[lk := v]> (k_slocks s)) s.

Lemma slock_at_put lk v s : slock_at lk (put_slock lk v s) = v.
Proof. unfold slock_at, put_slock. ksimpl. by rewrite lookup_insert_eq. Qed.

Lemma slock_at_put_ne lk lk' v s : lk <> lk' -> slock_at lk (put_slock lk' v s) = slock_at lk s.
Proof. intros N. unfold slock_at, put_slock. ksimpl. by rewrite lookup_insert_ne. Qed.

(** acquiresleep of a free lock takes it without sleeping. *)
Lemma acquiresleep_free p lk s :
  calm p s -> klock (L_sleep lk) -> sl_free lk s ->
  acquiresleep lk s = Ok tt (put_slock lk (mksleeplock 1 (p_pid (proc_at p s))) s).
Proof.
  intros C Hl Hf. unfold acquiresleep. erewrite bind_ok; [|by apply (acquire_calm p)].
  cbn [acquiresleep_wait]. erewrite bind_ok.
  2: { erewrite bind_ok; [|reflexivity]. change (slock_at lk (acq_st (L_sleep lk) s)) with (slock_at lk s).
       unfold sl_free in Hf. rewrite Hf. reflexivity. }
  kprim. erewrite bind_ok; [|].
  2: { change (set_slock lk (set_sl_locked 1) (acq_st (L_sleep lk) s))
         with (acq_st (L_sleep lk) (set_slock lk (set_sl_locked 1) s)).
       apply curproc_crit. by apply (calm_ext p s). }
  do 2 kprim. rewrite (release_leave p _ s) by (done || reflexivity). f_equal.
  unfold put_slock, set_slock, slock_at. leave_eq. rewrite insert_insert_eq, lookup_insert_eq. reflexivity.
Qed.

Lemma holdingsleep_mine p lk s :
  calm p s -> klock (L_sleep lk) -> sl_mine p lk s -> holdingsleep lk s = Ok true s.
Proof.
  intros C Hl Hm. unfold holdingsleep. erewrite bind_ok; [|by apply (acquire_calm p)]. kprim.
  change (slock_at lk (acq_st (L_sleep lk) s)) with (slock_at lk s). unfold sl_mine in Hm. rewrite Hm.
  cbn [sl_locked sl_pid truth Z.eqb negb]. erewrite bind_ok.
  2: { erewrite bind_ok; [|by apply curproc_crit]. erewrite bind_ok; [|reflexivity]. reflexivity. }
  erewrite bind_ok; [|by apply (release_leave p _ s)]. rewrite leave_acq.
  change (proc_at p (acq_st (L_sleep lk) s)) with (proc_at p s). by rewrite Z.eqb_refl.
Qed.

(** releasesleep frees the lock and wakes its waiters. *)
Lemma releasesleep_eq p lk s :
  calm p s -> klock (L_sleep lk) ->
  exists ps, releasesleep lk s = Ok tt (set_k_procs ps (put_slock lk (mksleeplock 0 0) s)) /\
    woken_procs (k_procs s) ps.
Proof.
  intros C Hl. unfold releasesleep.
  set (s1 := set_slock lk (set_sl_pid 0) (set_slock lk (set_sl_locked 0) (acq_st (L_sleep lk) s))).
  destruct (wakeup_crit p (L_sleep lk) (CH_sleeplock lk) s s1 C Hl) as (ps & E & W); try done.
  exists ps. split; [|done]. erewrite bind_ok; [|by apply (acquire_calm p)]. do 2 kprim. fold s1.
  erewrite bind_ok; [|exact E]. rewrite (release_leave p _ s) by (done || reflexivity). f_equal.
  unfold s1, put_slock, set_slock, slock_at. leave_eq. rewrite insert_insert_eq, lookup_insert_eq. reflexivity.
Qed.

End Calm.
