(* ===== verification/Lru.v ===== *)
(** * The cache's linked list as a list

    bcache.head and the prev and next pointers represent the list of buffers from the most
    to the least recently released.  The two searches of bget, the move to the front made
    by brelse, and binit, in terms of that list. *)

From S2P Require Import Prelude Memory Riscv State Kmonad Spinlock Proc Sleeplock Bio.
From Stdlib Require Import ZArith Lia.
From stdpp Require Import base numbers list gmap strings option.

#[local] Open Scope Z_scope.
#[local] Open Scope kernel_scope.

Definition nx (bc : list buf) (a : nat) : nat := b_next (bc !!! a).
Definition pv (bc : list buf) (a : nat) : nat := b_prev (bc !!! a).

(** Consecutive elements point at each other. *)
Fixpoint linked (bc : list buf) (l : list nat) : Prop :=
  match l with
  | a :: ((b :: _) as l') => nx bc a = b /\ pv bc b = a /\ linked bc l'
  | _ => True
  end.

(** The table represents the list [order]. *)
Record lru (bc : list buf) (order : list nat) : Prop := {
  lru_len : length bc = S NBUF;
  lru_perm : order ≡ₚ seq 0 NBUF;
  lru_link : linked bc (bhead :: order ++ [bhead]) }.

Lemma lru_elem bc order b : lru bc order -> b ∈ order <-> (b < NBUF)%nat.
Proof. intros H. rewrite (lru_perm _ _ H), elem_of_seq. lia. Qed.

Lemma lru_nodup bc order : lru bc order -> NoDup order.
Proof. intros H. rewrite (lru_perm _ _ H). apply NoDup_seq. Qed.

Lemma linked_app bc l1 x l2 : linked bc (l1 ++ x :: l2) <-> linked bc (l1 ++ [x]) /\ linked bc (x :: l2).
Proof.
  induction l1 as [|a l1 IH]; [cbn; tauto|]. destruct l1 as [|b l1].
  - cbn. tauto.
  - change ((a :: b :: l1) ++ x :: l2) with (a :: (b :: l1) ++ x :: l2).
    change ((a :: b :: l1) ++ [x]) with (a :: (b :: l1) ++ [x]).
    cbn [app linked] in *. tauto.
Qed.

(** Only the next of the elements before the last and the prev of those after the first
    matter. *)
Lemma linked_ext bc bc' l :
  linked bc l ->
  (forall a, a ∈ removelast l -> nx bc' a = nx bc a) ->
  (forall a, a ∈ tail l -> pv bc' a = pv bc a) -> linked bc' l.
Proof.
  induction l as [|a l IH]; [done|]. destruct l as [|b l]; [done|].
  intros (H1 & H2 & H3) Hn Hp. cbn [linked]. split; [|split].
  - rewrite Hn; [done|]. by left.
  - rewrite Hp; [done|]. by left.
  - apply IH; [done|intros x Hx; apply Hn; by right|intros x Hx; apply Hp; by right].
Qed.

Lemma nx_alter_ne f i a bc : i <> a -> nx (alter f i bc) a = nx bc a.
Proof. intros N. unfold nx. by rewrite list_lookup_total_alter_ne. Qed.
Lemma pv_alter_ne f i a bc : i <> a -> pv (alter f i bc) a = pv bc a.
Proof. intros N. unfold pv. by rewrite list_lookup_total_alter_ne. Qed.

(** Updates that keep a field of every element. *)
Lemma lookup_alter_keep {A} (g : buf -> A) f i a (bc : list buf) :
  (forall q, g (f q) = g q) -> g (alter f i bc !!! a) = g (bc !!! a).
Proof.
  intros H. destruct (decide (i = a)) as [->|N]; [|by rewrite list_lookup_total_alter_ne].
  destruct (decide (a < length bc)%nat) as [L|L]; [by rewrite list_lookup_total_alter_eq|].
  rewrite !list_lookup_total_alt, list_lookup_alter_eq. by rewrite lookup_ge_None_2 by lia.
Qed.

Lemma nx_set_prev v i a bc : nx (alter (set_b_prev v) i bc) a = nx bc a.
Proof. by apply (lookup_alter_keep b_next). Qed.
Lemma pv_set_next v i a bc : pv (alter (set_b_next v) i bc) a = pv bc a.
Proof. by apply (lookup_alter_keep b_prev). Qed.
Lemma nx_set_next v a bc : (a < length bc)%nat -> nx (alter (set_b_next v) a bc) a = v.
Proof. intros L. unfold nx. by rewrite list_lookup_total_alter_eq. Qed.
Lemma pv_set_prev v a bc : (a < length bc)%nat -> pv (alter (set_b_prev v) a bc) a = v.
Proof. intros L. unfold pv. by rewrite list_lookup_total_alter_eq. Qed.

(** ** The searches *)

Definition holds_block (dev blockno : Z) (s : kstate) (b : nat) : bool :=
  (b_dev (buf_at b s) =? dev) && (b_blockno (buf_at b s) =? blockno).
Definition unused (s : kstate) (b : nat) : bool := b_refcnt (buf_at b s) =? 0.

Lemma bget_cached_eq fuel l dev blockno s :
  linked (k_bcache s) (l ++ [bhead]) -> bhead ∉ l -> (length l < fuel)%nat ->
  bget_cached fuel (hd bhead l) dev blockno s = Ok (List.find (holds_block dev blockno s) l) s.
Proof.
  revert fuel. induction l as [|b l IH]; intros fuel Hl Hn Hf.
  - destruct fuel; [cbn in Hf; lia|]. cbn [bget_cached hd]. by rewrite decide_True.
  - destruct fuel; [lia|]. cbn [bget_cached hd List.find].
    rewrite decide_False by (intros ->; apply Hn; by left). kprim. unfold holds_block at 1.
    destruct ((b_dev (buf_at b s) =? dev) && (b_blockno (buf_at b s) =? blockno)); [done|].
    assert (E : b_next (buf_at b s) = hd bhead l).
    { destruct l as [|c l]; cbn [app linked] in Hl; apply Hl. }
    rewrite E. apply IH; [|intros ?; apply Hn; by right|cbn in Hf; lia].
    destruct l as [|c l]; [done|]. apply Hl.
Qed.

Lemma bget_unused_eq fuel l s :
  linked (k_bcache s) (bhead :: l) -> bhead ∉ l -> (length l < fuel)%nat ->
  bget_unused fuel (hd bhead (rev l)) s = Ok (List.find (unused s) (rev l)) s.
Proof.
  revert fuel. induction l as [|b l IH] using rev_ind; intros fuel Hl Hn Hf.
  - destruct fuel; [cbn in Hf; lia|]. cbn [bget_unused rev hd]. by rewrite decide_True.
  - rewrite length_app in Hf. cbn in Hf. destruct fuel; [lia|]. rewrite rev_app_distr.
    cbn [hd bget_unused rev app List.find].
    rewrite decide_False by (intros ->; apply Hn, elem_of_app; right; by left). kprim. unfold unused at 1.
    destruct (b_refcnt (buf_at b s) =? 0); [done|].
    assert (Hl' : linked (k_bcache s) (bhead :: l) /\ b_prev (buf_at b s) = hd bhead (rev l)).
    { destruct l as [|c l] using rev_ind.
      - cbn in Hl. split; [done|]. apply Hl.
      - rewrite rev_app_distr. change (bhead :: (l ++ [c]) ++ [b]) with (((bhead :: l) ++ [c]) ++ [b]) in Hl.
        rewrite <- app_assoc in Hl. change ((bhead :: l) ++ [c] ++ [b]) with ((bhead :: l) ++ c :: [b]) in Hl.
        apply linked_app in Hl as [H1 H2]. split; [exact H1|]. apply H2. }
    destruct Hl' as [Hl' ->]. apply IH; [done|intros ?; apply Hn, elem_of_app; by left|lia].
Qed.

(** ** Moving a buffer to the front *)

Definition unlink (a b c : nat) (bc : list buf) : list buf :=
  alter (set_b_next c) a (alter (set_b_prev a) c bc).

Definition push_front (b first : nat) (bc : list buf) : list buf :=
  alter (set_b_next b) bhead (alter (set_b_prev b) first
    (alter (set_b_prev bhead) b (alter (set_b_next first) b bc))).

Lemma linked_unlink bc l1 b l2 :
  linked bc (bhead :: l1 ++ b :: l2 ++ [bhead]) -> NoDup (bhead :: l1 ++ b :: l2) ->
  (forall x, x ∈ bhead :: l1 ++ b :: l2 -> (x < length bc)%nat) ->
  let a := pv bc b in let c := nx bc b in
  linked (unlink a b c bc) (bhead :: (l1 ++ l2) ++ [bhead]).
Proof.
  intros Hl ND Hlen a c.
  change (linked bc ((bhead :: l1) ++ b :: l2 ++ [bhead])) in Hl. apply linked_app in Hl as [H1 H2].
  destruct (exists_last (l := bhead :: l1)) as (u & a' & Eu); [done|].
  assert (Ea : a = a' /\ linked bc (u ++ [a'])).
  { rewrite Eu, <- app_assoc in H1. change (u ++ [a'] ++ [b]) with (u ++ a' :: [b]) in H1.
    apply linked_app in H1 as [H1 (_ & P & _)]. by split. }
  destruct Ea as [-> Hu]. clear H1.
  destruct (l2 ++ [bhead]) as [|c' v] eqn:Ev; [by destruct l2|].
  assert (Ec : c = c' /\ linked bc (c' :: v)) by (destruct H2 as (N & _ & H2); by split).
  destruct Ec as [-> Hv]. clear H2.
  rewrite <- app_assoc, Ev. change (bhead :: l1 ++ c' :: v) with ((bhead :: l1) ++ c' :: v). rewrite Eu, <- app_assoc.
  change (u ++ [a'] ++ c' :: v) with (u ++ a' :: c' :: v).
  assert (Ha : a' = bhead \/ a' ∈ l1).
  { assert (I : a' ∈ bhead :: l1) by (rewrite Eu; apply elem_of_app; right; by left).
    by apply elem_of_cons in I. }
  assert (Hc : c' = bhead \/ c' ∈ l2).
  { assert (I : c' ∈ l2 ++ [bhead]) by (rewrite Ev; by left).
    apply elem_of_app in I as [?|I%list_elem_of_singleton]; auto. }
  apply list.NoDup_cons in ND as [Nb ND]. apply list.NoDup_app in ND as (N1 & D & ND). apply list.NoDup_cons in ND as [N2 N3].
  assert (NB : bhead ∉ l1 /\ bhead ∉ l2).
  { split; intros I; apply Nb, elem_of_app; [by left|right; by right]. }
  assert (La : (a' < length bc)%nat).
  { apply Hlen. destruct Ha as [->|Ha]; [by left|]. right. apply elem_of_app. by left. }
  assert (Lc : (c' < length bc)%nat).
  { apply Hlen. destruct Hc as [->|Hc]; [by left|]. right. apply elem_of_app. right. by right. }
  assert (Tu : tail (u ++ [a']) = l1) by (by rewrite <- Eu).
  assert (Rv : removelast (c' :: v) = l2) by (by rewrite <- Ev, removelast_last).
  apply linked_app. split; [|cbn [linked]; split; [|split]].
  - eapply linked_ext; [exact Hu| |].
    + intros x Hx. unfold unlink. rewrite nx_alter_ne, nx_set_prev; [done|]. intros ->.
      rewrite removelast_last in Hx. destruct Ha as [->|Ha].
      * destruct u as [|y u]; [by apply not_elem_of_nil in Hx|]. cbn in Eu, Tu. injection Eu as <- _.
        apply (proj1 NB). rewrite <- Tu. apply elem_of_app. right. by left.
      * assert (ND' : NoDup (u ++ [x])).
        { rewrite <- Eu. apply list.NoDup_cons. split; [apply NB|done]. }
        apply list.NoDup_app in ND' as (_ & ND' & _). apply (ND' x Hx). by left.
    + rewrite Tu. intros x Hx. unfold unlink. rewrite pv_set_next, pv_alter_ne; [done|]. intros ->.
      destruct Hc as [->|Hc]; [by destruct NB|]. apply (D x Hx). by right.
  - unfold unlink. apply nx_set_next. by rewrite length_alter.
  - unfold unlink. rewrite pv_set_next. by apply pv_set_prev.
  - change (linked (unlink a' b c' bc) (c' :: v)). eapply linked_ext; [exact Hv| |].
    + rewrite Rv. intros x Hx. unfold unlink. rewrite nx_alter_ne, nx_set_prev; [done|]. intros ->.
      destruct Ha as [->|Ha]; [by destruct NB|]. apply (D x Ha). by right.
    + cbn [tail]. intros x Hx. unfold unlink. rewrite pv_set_next, pv_alter_ne; [done|]. intros ->.
      destruct l2 as [|y l2]; cbn in Ev; injection Ev as <- <-.
      * by apply not_elem_of_nil in Hx.
      * apply elem_of_app in Hx as [Hx|Hx%list_elem_of_singleton].
        -- apply list.NoDup_cons in N3 as [N3 _]. done.
        -- apply (proj2 NB). rewrite <- Hx. by left.
Qed.

Lemma linked_push_front bc l b :
  linked bc (bhead :: l ++ [bhead]) -> b ∉ l -> b <> bhead ->
  bhead ∉ l -> (b < length bc)%nat -> (bhead < length bc)%nat ->
  (forall x, x ∈ l -> (x < length bc)%nat) -> NoDup l ->
  linked (push_front b (nx bc bhead) bc) (bhead :: (b :: l) ++ [bhead]).
Proof.
  intros Hl Nb Nh NB Lb Lh Hlen ND.
  destruct (l ++ [bhead]) as [|c v] eqn:Ev; [by destruct l|]. cbn [app]. rewrite Ev.
  destruct Hl as (En & Ep & Hv). rewrite En.
  assert (Hc : c = bhead \/ c ∈ l).
  { assert (I : c ∈ l ++ [bhead]) by (rewrite Ev; by left).
    apply elem_of_app in I as [?|I%list_elem_of_singleton]; auto. }
  assert (Ncb : c <> b) by (intros ->; destruct Hc; [congruence|done]).
  assert (Lc : (c < length bc)%nat) by (destruct Hc as [->|?]; auto).
  assert (Rv : removelast (c :: v) = l) by (by rewrite <- Ev, removelast_last).
  unfold push_front. cbn [linked]. split; [|split; [|split; [|split]]].
  - apply nx_set_next. by rewrite !length_alter.
  - rewrite pv_set_next, pv_alter_ne by done. apply pv_set_prev. by rewrite length_alter.
  - rewrite nx_alter_ne by congruence. rewrite !nx_set_prev. by apply nx_set_next.
  - rewrite pv_set_next. apply pv_set_prev. by rewrite !length_alter.
  - change (linked (push_front b c bc) (c :: v)). eapply linked_ext; [exact Hv| |].
    + rewrite Rv. intros x Hx. unfold push_front. rewrite nx_alter_ne by (intros <-; done).
      rewrite !nx_set_prev. apply nx_alter_ne. intros <-. done.
    + cbn [tail]. intros x Hx. unfold push_front.
      assert (Nx : x <> c /\ x <> b).
      { destruct l as [|y l]; cbn in Ev; injection Ev as <- <-; [by apply not_elem_of_nil in Hx|].
        apply list.NoDup_cons in ND as [N1 _]. apply elem_of_app in Hx as [Hx|Hx%list_elem_of_singleton].
        - split; intros ->; [done|]. apply Nb. by right.
        - subst x. split; [|congruence]. intros E. apply NB. rewrite E. by left. }
      rewrite pv_set_next, pv_alter_ne by (intros E; by apply (proj1 Nx)).
      rewrite pv_alter_ne by (intros E; by apply (proj2 Nx)). by rewrite pv_set_next.
Qed.

(** The buffer leaves its place and becomes the most recently released. *)
Definition touch (b : nat) (bc : list buf) : list buf :=
  let bc1 := unlink (pv bc b) b (nx bc b) bc in push_front b (nx bc1 bhead) bc1.

Lemma lru_touch bc l1 b l2 : lru bc (l1 ++ b :: l2) -> lru (touch b bc) (b :: l1 ++ l2).
Proof.
  intros H. pose proof (lru_nodup _ _ H) as ND. destruct H as [L P K].
  assert (Hin : forall x, x ∈ l1 ++ b :: l2 -> (x < NBUF)%nat).
  { intros x. rewrite P, elem_of_seq. lia. }
  assert (Hb : (b < NBUF)%nat) by (apply Hin, elem_of_app; right; by left).
  assert (NB : bhead ∉ l1 ++ b :: l2) by (intros I%Hin; unfold bhead in I; lia).
  apply list.NoDup_app in ND as (N1 & D & ND). apply list.NoDup_cons in ND as [N2 N3].
  assert (Hin' : forall x, x ∈ l1 ++ l2 -> x ∈ l1 ++ b :: l2).
  { intros x. rewrite !elem_of_app, elem_of_cons. tauto. }
  split.
  - unfold touch, push_front, unlink. by rewrite !length_alter.
  - rewrite <- P. by apply Permutation_middle.
  - unfold touch. set (bc1 := unlink _ _ _ _).
    assert (L1 : length bc1 = S NBUF) by (unfold bc1, unlink; by rewrite !length_alter).
    apply (linked_push_front bc1 (l1 ++ l2) b).
    + apply linked_unlink.
      * rewrite <- app_assoc in K. exact K.
      * apply list.NoDup_cons. split; [done|]. rewrite P. apply NoDup_seq.
      * intros x [->|Hx%Hin]%elem_of_cons; unfold bhead; lia.
    + intros I%elem_of_app. destruct I as [I|I]; [|done]. apply (D b I). by left.
    + unfold bhead. lia.
    + intros I%Hin'. done.
    + lia.
    + unfold bhead. lia.
    + intros x Hx%Hin'%Hin. lia.
    + apply list.NoDup_app. split_and!; [done| |done]. intros x Hx Hx'. apply (D x Hx). by right.
Qed.

(** Moving a buffer changes links only. *)
Lemma touch_keep {A} (g : buf -> A) b x bc :
  (forall v q, g (set_b_next v q) = g q) -> (forall v q, g (set_b_prev v q) = g q) ->
  g (touch b bc !!! x) = g (bc !!! x).
Proof. intros Hn Hp. unfold touch, push_front, unlink. by rewrite !(lookup_alter_keep g). Qed.

(** The list after the release of buffer [b]: a buffer without references becomes the most
    recently released one. *)
Definition released (b : nat) (last : bool) (order : list nat) : list nat :=
  if last then b :: filter (fun x => x <> b) order else order.

Lemma filter_ne_id (b : nat) (l : list nat) : b ∉ l -> filter (fun x => x <> b) l = l.
Proof.
  induction l as [|x l IH]; [done|]. intros N. apply not_elem_of_cons in N as [N1 N2].
  rewrite filter_cons_True by congruence. by rewrite IH.
Qed.

Lemma filter_ne_middle (b : nat) l1 l2 :
  NoDup (l1 ++ b :: l2) -> filter (fun x => x <> b) (l1 ++ b :: l2) = l1 ++ l2.
Proof.
  intros ND. apply list.NoDup_app in ND as (_ & D & ND). apply list.NoDup_cons in ND as [N2 _].
  rewrite list.filter_app, filter_cons_False by (intros E; by apply E). rewrite !filter_ne_id; [done|done|].
  intros I. apply (D b I). by left.
Qed.

Lemma lru_released bc b order :
  lru bc order -> (b < NBUF)%nat -> lru (touch b bc) (released b true order).
Proof.
  intros H L. apply (lru_elem _ _ _ H) in L. apply list_elem_of_split in L as (l1 & l2 & ->).
  unfold released. rewrite filter_ne_middle by (by eapply lru_nodup). by apply lru_touch.
Qed.
