(* ===== verification/BioSpec.v ===== *)
(** * What the buffer cache promises

    The cache seen from above: a set of buffers the running process holds, a set of blocks
    pinned by the log, and the contents [c] of every block as the kernel sees them.  The
    operations of bio.c are specified on that view; the disk driver is used through
    [DiskLaws]. *)

From S2P Require Import Prelude Memory Riscv State Kmonad Spinlock Proc ProcSpec CoYield Sched Sleeplock Bytes Bio Calm Lru.
From Stdlib Require Import ZArith Lia.
From stdpp Require Import base numbers list gmap strings option functions.

#[local] Open Scope Z_scope.
#[local] Open Scope kernel_scope.

(** ** The disk *)

(** A block of the disk; blocks never written read as zeroes. *)
Definition dblock (d : gmap Z (list Z)) (n : Z) : list Z := default (replicate (Z.to_nat BSIZE) 0) (d !! n).

Definition disk_put (n : Z) (d : list Z) (s : kstate) : kstate :=
  set_k_disk (<[n := d]> (k_disk s)) (set_k_writes ((n, d) :: k_writes s) s).

(** The driver transfers the block and returns. *)
Class DiskLaws `{D : DiskDriver} : Prop := {
  disk_read p b s : calm p s -> (b < NBUF)%nat ->
    disk_rw b false s = Ok tt (upd_buf b (set_b_data (dblock (k_disk s) (b_blockno (buf_at b s)))) s);
  disk_write p b s : calm p s -> (b < NBUF)%nat ->
    disk_rw b true s = Ok tt (disk_put (b_blockno (buf_at b s)) (b_data (buf_at b s)) s) }.

(** A driver with these laws. *)
Definition ram_disk : DiskDriver := fun b write s =>
  if write then Ok tt (disk_put (b_blockno (buf_at b s)) (b_data (buf_at b s)) s)
  else Ok tt (upd_buf b (set_b_data (dblock (k_disk s) (b_blockno (buf_at b s)))) s).

Lemma ram_disk_laws : @DiskLaws ram_disk.
Proof. by split. Qed.

(** ** The view *)

(** How many references a buffer has: the holder's and the log's. *)
Definition refs (held : gmap Z nat) (pins : gset Z) (b : nat) (q : buf) : Z :=
  if decide (b_dev q = ROOTDEV) then
    (if decide (held !! b_blockno q = Some b) then 1 else 0) +
    (if decide (b_blockno q ∈ pins) then 1 else 0)
  else 0.

Record bufs (p : nat) (order : list nat) (held : gmap Z nat) (pins : gset Z) (c : Z -> list Z)
    (s : kstate) : Prop := {
  bu_calm : calm p s;
  bu_lru : lru (k_bcache s) order;
  bu_inj b b' : (b < NBUF)%nat -> (b' < NBUF)%nat ->
    b_dev (buf_at b s) = ROOTDEV -> b_dev (buf_at b' s) = ROOTDEV ->
    b_blockno (buf_at b s) = b_blockno (buf_at b' s) -> b = b';
  bu_ref b : (b < NBUF)%nat -> b_refcnt (buf_at b s) = refs held pins b (buf_at b s);
  bu_held n b : held !! n = Some b ->
    (b < NBUF)%nat /\ b_dev (buf_at b s) = ROOTDEV /\ b_blockno (buf_at b s) = n /\ sl_mine p (SL_buf b) s;
  bu_free b : (b < NBUF)%nat -> (forall n, held !! n <> Some b) -> sl_free (SL_buf b) s;
  bu_pin n : n ∈ pins -> exists b, (b < NBUF)%nat /\ b_dev (buf_at b s) = ROOTDEV /\ b_blockno (buf_at b s) = n;
  bu_valid b : (b < NBUF)%nat -> b_dev (buf_at b s) = ROOTDEV ->
    b_valid (buf_at b s) = 1 /\ b_data (buf_at b s) = c (b_blockno (buf_at b s));
  bu_disk n : held !! n = None -> n ∉ pins -> dblock (k_disk s) n = c n }.

#[global] Arguments bu_calm {p order held pins c s}.
#[global] Arguments bu_lru {p order held pins c s}.
#[global] Arguments bu_inj {p order held pins c s}.
#[global] Arguments bu_ref {p order held pins c s}.
#[global] Arguments bu_held {p order held pins c s}.
#[global] Arguments bu_free {p order held pins c s}.
#[global] Arguments bu_pin {p order held pins c s}.
#[global] Arguments bu_valid {p order held pins c s}.
#[global] Arguments bu_disk {p order held pins c s}.

(** What the cache operations leave alone. *)
Definition bio_only (s s' : kstate) : Prop :=
  exists bc sl ps d w,
    s' = set_k_bcache bc (set_k_slocks sl (set_k_procs ps (set_k_disk d (set_k_writes w s)))) /\
    woken_procs (k_procs s) ps /\ forall i, sl !! SL_inode i = k_slocks s !! SL_inode i.

#[global] Instance bio_only_preorder : PreOrder bio_only.
Proof.
  split.
  - intros s. exists (k_bcache s), (k_slocks s), (k_procs s), (k_disk s), (k_writes s).
    split; [by destruct s|]. split; [reflexivity|done].
  - intros s s1 s2 (bc & sl & ps & d & w & -> & W & I) (bc' & sl' & ps' & d' & w' & -> & W' & I').
    exists bc', sl', ps', d', w'. split; [reflexivity|]. split; [by transitivity ps|].
    intros i. rewrite I'. apply I.
Qed.

Lemma bio_only_upd_buf b f s : bio_only s (upd_buf b f s).
Proof.
  exists (alter f b (k_bcache s)), (k_slocks s), (k_procs s), (k_disk s), (k_writes s).
  split; [by destruct s|]. split; [reflexivity|done].
Qed.

Lemma bio_only_put_slock b v s : bio_only s (put_slock (SL_buf b) v s).
Proof.
  exists (k_bcache s), (<[SL_buf b := v]> (k_slocks s)), (k_procs s), (k_disk s), (k_writes s).
  split; [by destruct s|]. split; [reflexivity|]. intros i. by rewrite lookup_insert_ne.
Qed.

Lemma bio_only_disk_put n d s : bio_only s (disk_put n d s).
Proof.
  exists (k_bcache s), (k_slocks s), (k_procs s), (<[n := d]> (k_disk s)), ((n, d) :: k_writes s).
  split; [by destruct s|]. split; [reflexivity|done].
Qed.

Lemma bio_only_procs ps s : woken_procs (k_procs s) ps -> bio_only s (set_k_procs ps s).
Proof.
  intros W. exists (k_bcache s), (k_slocks s), ps, (k_disk s), (k_writes s). by destruct s.
Qed.

(** ** Reading the table after an update *)

Lemma buf_at_upd b f s : (b < length (k_bcache s))%nat -> buf_at b (upd_buf b f s) = f (buf_at b s).
Proof. intros L. unfold buf_at. ksimpl. by apply list_lookup_total_alter_eq. Qed.

Lemma buf_at_upd_ne b b' f s : b <> b' -> buf_at b' (upd_buf b f s) = buf_at b' s.
Proof. intros N. unfold buf_at. ksimpl. by apply list_lookup_total_alter_ne. Qed.

Lemma calm_upd_buf p b f s : calm p s -> calm p (upd_buf b f s).
Proof. intros C. by apply (calm_ext p s). Qed.
Lemma calm_put_slock p lk v s : calm p s -> calm p (put_slock lk v s).
Proof. intros C. by apply (calm_ext p s). Qed.
Lemma calm_disk_put p n d s : calm p s -> calm p (disk_put n d s).
Proof. intros C. by apply (calm_ext p s). Qed.
#[export] Hint Resolve calm_upd_buf calm_put_slock calm_disk_put : calm.

Lemma lru_keep_links bc b f order :
  (forall q, b_next (f q) = b_next q) -> (forall q, b_prev (f q) = b_prev q) ->
  lru bc order -> lru (alter f b bc) order.
Proof.
  intros Hn Hp [L P K]. split; [by rewrite length_alter|done|].
  eapply linked_ext; [exact K| |]; intros a _; unfold nx, pv; by apply lookup_alter_keep.
Qed.

Lemma lru_first bc order : lru bc order -> b_next (bc !!! bhead) = hd bhead order.
Proof. intros [_ _ K]. destruct order; cbn in K; apply K. Qed.

Lemma lru_last bc order : lru bc order -> b_prev (bc !!! bhead) = hd bhead (rev order).
Proof.
  intros [_ _ K]. destruct order as [|b order] using rev_ind; [cbn in K; apply K|].
  rewrite rev_app_distr. cbn [rev app hd]. rewrite <- app_assoc in K.
  change (bhead :: order ++ [b] ++ [bhead]) with ((bhead :: order) ++ b :: [bhead]) in K.
  apply linked_app in K as [_ K]. apply K.
Qed.

Lemma lru_not_head bc order : lru bc order -> bhead ∉ order.
Proof. intros H. rewrite (lru_elem _ _ _ H). unfold bhead. lia. Qed.

Lemma lru_length bc order : lru bc order -> length order = NBUF.
Proof. intros H. rewrite (lru_perm _ _ H). apply length_seq. Qed.

(** ** bget *)

Section Bget.
Context `{F : Fuel}.

(** The two searches, on the list the table represents. *)
Lemma bget_eq p order dev n s :
  calm p s -> lru (k_bcache s) order ->
  bget dev n s =
    match List.find (holds_block dev n s) order with
    | Some b =>
        (setb b (fun q => set_b_refcnt (u32 (b_refcnt q + 1)) q) ;!
         release L_bcache ;! acquiresleep (SL_buf b) ;! ret b) (acq_st L_bcache s)
    | None =>
        match List.find (unused s) (rev order) with
        | Some b =>
            (setb b (set_b_dev dev) ;! setb b (set_b_blockno n) ;! setb b (set_b_valid 0) ;!
             setb b (set_b_refcnt 1) ;! release L_bcache ;! acquiresleep (SL_buf b) ;! ret b) (acq_st L_bcache s)
        | None => Panic "bget: no buffers"
        end
    end.
Proof.
  intros C Hl. pose proof (lru_link _ _ Hl) as K.
  unfold bget. erewrite bind_ok; [|by apply (acquire_calm p)]. kprim.
  change (buf_at bhead (acq_st L_bcache s)) with (k_bcache s !!! bhead). rewrite (lru_first _ _ Hl).
  erewrite bind_ok.
  2: { apply bget_cached_eq; [|by eapply lru_not_head|rewrite (lru_length _ _ Hl); lia].
       change (k_bcache (acq_st L_bcache s)) with (k_bcache s). destruct order; [done|]. apply K. }
  change (List.find (holds_block dev n (acq_st L_bcache s))) with (List.find (holds_block dev n s)).
  destruct (List.find (holds_block dev n s) order); [done|].
  kprim. change (buf_at bhead (acq_st L_bcache s)) with (k_bcache s !!! bhead).
  rewrite (lru_last _ _ Hl). erewrite bind_ok.
  2: { apply bget_unused_eq; [|by eapply lru_not_head|rewrite (lru_length _ _ Hl); lia].
       change (k_bcache (acq_st L_bcache s)) with (k_bcache s).
       destruct order as [|x order _] using rev_ind; [done|].
       rewrite <- app_assoc in K. cbn [app] in K. apply (linked_app _ (bhead :: order)) in K. apply K. }
  change (List.find (unused (acq_st L_bcache s))) with (List.find (unused s)).
  by destruct (List.find (unused s) (rev order)).
Qed.

Lemma bget_hit p order dev n b s :
  calm p s -> lru (k_bcache s) order ->
  List.find (holds_block dev n s) order = Some b -> sl_free (SL_buf b) s ->
  bget dev n s =
    Ok b (put_slock (SL_buf b) (mksleeplock 1 (p_pid (proc_at p s)))
            (upd_buf b (fun q => set_b_refcnt (u32 (b_refcnt q + 1)) q) s)).
Proof.
  intros C Hl Hb Hf. pose proof (find_some _ _ Hb) as [Hin _].
  apply list_elem_of_In, (lru_elem _ _ _ Hl) in Hin.
  rewrite (bget_eq p order) by done. rewrite Hb. kprim. erewrite bind_ok; [|by apply (release_leave p _ s)].
  set (f := fun q => set_b_refcnt _ q).
  replace (leave s _) with (upd_buf b f s) by leave_eq.
  erewrite bind_ok; [|apply (acquiresleep_free p); [by apply calm_upd_buf|done|done]]. reflexivity.
Qed.

Lemma bget_miss p order dev n b s :
  calm p s -> lru (k_bcache s) order ->
  List.find (holds_block dev n s) order = None ->
  List.find (unused s) (rev order) = Some b -> sl_free (SL_buf b) s ->
  bget dev n s =
    Ok b (put_slock (SL_buf b) (mksleeplock 1 (p_pid (proc_at p s)))
            (upd_buf b (fun q => set_b_refcnt 1 (set_b_valid 0 (set_b_blockno n (set_b_dev dev q)))) s)).
Proof.
  intros C Hl Hn Hb Hf. pose proof (find_some _ _ Hb) as [Hin _].
  apply in_rev, list_elem_of_In, (lru_elem _ _ _ Hl) in Hin.
  rewrite (bget_eq p order) by done. rewrite Hn, Hb. do 4 kprim.
  erewrite bind_ok; [|by apply (release_leave p _ s)].
  match goal with |- context [leave s ?x] => replace (leave s x) with
    (upd_buf b (fun q => set_b_refcnt 1 (set_b_valid 0 (set_b_blockno n (set_b_dev dev q)))) s) end.
  2: { leave_eq. by rewrite !list_alter_alter_eq. }
  erewrite bind_ok; [|apply (acquiresleep_free p); [by apply calm_upd_buf|done|done]]. reflexivity.
Qed.

End Bget.

(** ** Taking a buffer *)

Lemma refs_range held pins b q : 0 <= refs held pins b q <= 2.
Proof. unfold refs. repeat case_decide; lia. Qed.

Lemma refs_held held pins b q :
  b_dev q = ROOTDEV -> held !! b_blockno q = Some b -> 1 <= refs held pins b q.
Proof. intros D H. unfold refs. rewrite !decide_True by done. case_decide; lia. Qed.

Lemma refs_pinned held pins b q : b_dev q = ROOTDEV -> b_blockno q ∈ pins -> 1 <= refs held pins b q.
Proof. intros D H. unfold refs. rewrite decide_True, (decide_True (P := _ ∈ _)) by done. case_decide; lia. Qed.

Lemma refs_ext held held' pins pins' b q :
  (b_dev q = ROOTDEV -> (held' !! b_blockno q = Some b <-> held !! b_blockno q = Some b) /\
    (b_blockno q ∈ pins' <-> b_blockno q ∈ pins)) ->
  refs held' pins' b q = refs held pins b q.
Proof. intros H. unfold refs. case_decide; [|done]. destruct H as [H1 H2]; [done|]. repeat case_decide; tauto. Qed.

Lemma bufs_len p order held pins c s : bufs p order held pins c s -> length (k_bcache s) = S NBUF.
Proof. intros H. apply (lru_len _ _ (bu_lru H)). Qed.

Lemma bufs_at_upd p order held pins c s b f :
  bufs p order held pins c s -> (b < NBUF)%nat -> buf_at b (upd_buf b f s) = f (buf_at b s).
Proof. intros H L. apply buf_at_upd. rewrite (bufs_len _ _ _ _ _ _ H). lia. Qed.

(** Buffer [b] of [s] becomes the held buffer of block [n]. *)
Lemma bufs_take p order held pins c n b f s :
  bufs p order held pins c s -> held !! n = None -> (b < NBUF)%nat ->
  (forall b', (b' < NBUF)%nat -> b_dev (buf_at b' s) = ROOTDEV -> b_blockno (buf_at b' s) = n -> b' = b) ->
  (b_dev (buf_at b s) = ROOTDEV -> b_blockno (buf_at b s) = n \/ b_refcnt (buf_at b s) = 0) ->
  (forall q, b_next (f q) = b_next q) -> (forall q, b_prev (f q) = b_prev q) ->
  (let q := f (buf_at b s) in
   b_dev q = ROOTDEV /\ b_blockno q = n /\ b_valid q = 1 /\ b_data q = c n /\
   b_refcnt q = 1 + if decide (n ∈ pins) then 1 else 0) ->
  (n ∈ pins -> b_dev (buf_at b s) = ROOTDEV /\ b_blockno (buf_at b s) = n) ->
  bufs p order (<[n := b]> held) pins c
    (put_slock (SL_buf b) (mksleeplock 1 (p_pid (proc_at p s))) (upd_buf b f s)).
Proof.
  intros H Hn Lb Hu Hr Fn Fp (Fd & Fb & Fv & Fc & Fr) Fpin.
  set (s1 := put_slock _ _ _).
  assert (Eb : buf_at b s1 = f (buf_at b s)) by (by apply (bufs_at_upd _ _ _ _ _ _ _ _ H)).
  assert (En : forall b', b' <> b -> buf_at b' s1 = buf_at b' s).
  { intros b' N. change (buf_at b' s1) with (buf_at b' (upd_buf b f s)). by apply buf_at_upd_ne. }
  assert (Nh : forall m, held !! m <> Some b).
  { intros m Hm. destruct (bu_held H m b Hm) as (_ & D & B & _). subst m.
    destruct (Hr D) as [E|E]; [congruence|]. rewrite (bu_ref H b Lb) in E. pose proof (refs_held held pins b _ D Hm). lia. }
  split.
  - apply calm_put_slock, calm_upd_buf, H.
  - apply lru_keep_links; [done..|apply H].
  - intros b1 b2 L1 L2. destruct (decide (b1 = b)) as [->|N1], (decide (b2 = b)) as [->|N2];
      rewrite ?Eb, ?En, ?Fd, ?Fb by done; intros D1 D2 E; [done| | |by apply (bu_inj H)].
    + symmetry. by apply Hu.
    + by apply Hu.
  - intros b' L. destruct (decide (b' = b)) as [->|N].
    + rewrite Eb, Fr. unfold refs. rewrite Fd, Fb, lookup_insert_eq.
      by rewrite (decide_True (P := ROOTDEV = ROOTDEV)), (decide_True (P := Some b = Some b)) by done.
    + rewrite En by done. rewrite (bu_ref H b' L). symmetry. apply refs_ext. intros D. split; [|done].
      rewrite lookup_insert_ne; [done|]. intros E. symmetry in E. by apply N, Hu.
  - intros m b' Hm. destruct (decide (n = m)) as [<-|Nm].
    + rewrite lookup_insert_eq in Hm. injection Hm as <-. rewrite Eb, Fd, Fb. split_and!; try done. apply slock_at_put.
    + rewrite lookup_insert_ne in Hm by done. assert (N : b' <> b) by (intros ->; by apply (Nh m)).
      rewrite En by done. destruct (bu_held H m b' Hm) as (A & B & C & E). split_and!; try done.
      unfold sl_mine, s1. rewrite slock_at_put_ne by congruence. exact E.
  - intros b' L Hf. assert (N : b' <> b) by (intros ->; apply (Hf n), lookup_insert_eq).
    unfold sl_free, s1. rewrite slock_at_put_ne by congruence. apply (bu_free H b' L).
    intros m Hm. apply (Hf m). rewrite lookup_insert_ne; [done|]. congruence.
  - intros m Hm. destruct (decide (m = n)) as [->|Nm]; [exists b; by rewrite Eb|].
    destruct (bu_pin H m Hm) as (b' & L & D & B). exists b'.
    destruct (decide (b' = b)) as [->|N]; [|by rewrite En]. exfalso.
    destruct (Hr D) as [E|E]; [congruence|]. rewrite (bu_ref H b Lb) in E. subst m.
    pose proof (refs_pinned held pins b _ D Hm). lia.
  - intros b' L. destruct (decide (b' = b)) as [->|N]; [rewrite Eb, Fb; intros _; by split|].
    rewrite En by done. by apply (bu_valid H).
  - intros m Hm Hp. apply lookup_insert_None in Hm as [Hm _]. by apply (bu_disk H).
Qed.

(** Fewer blocks in use than buffers: some buffer has no reference. *)
Lemma some_unused p order held pins c s :
  bufs p order held pins c s -> (size (dom held ∪ pins) < NBUF)%nat ->
  exists b, List.find (unused s) (rev order) = Some b.
Proof.
  intros H Hsz. destruct (List.find (unused s) (rev order)) as [b|] eqn:E; [by exists b|]. exfalso.
  assert (U : forall b, (b < NBUF)%nat -> b_dev (buf_at b s) = ROOTDEV /\ b_blockno (buf_at b s) ∈ dom held ∪ pins).
  { intros b L. assert (R : unused s b = false).
    { apply (find_none _ _ E). apply in_rev. rewrite rev_involutive. apply list_elem_of_In.
      by apply (lru_elem _ _ _ (bu_lru H)). }
    unfold unused in R. apply Z.eqb_neq in R. rewrite (bu_ref H b L) in R. unfold refs in R.
    case_decide as D; [|lia]. split; [done|]. apply elem_of_union.
    destruct (decide (b_blockno (buf_at b s) ∈ pins)) as [P|P]; [by right|left].
    case_decide as P'; [|lia]. apply elem_of_dom. by exists b. }
  set (l := (fun b => b_blockno (buf_at b s)) <$> seq 0 NBUF).
  assert (ND : NoDup l).
  { apply NoDup_fmap_2_strong; [|apply NoDup_seq]. intros x y Hx%elem_of_seq Hy%elem_of_seq.
    apply (bu_inj H); try lia; apply U; lia. }
  assert (S : list_to_set l ⊆ dom held ∪ pins).
  { intros n Hn. apply elem_of_list_to_set, list_elem_of_fmap in Hn as (b & -> & Hb%elem_of_seq). apply U. lia. }
  apply subseteq_size in S. rewrite size_list_to_set in S by done. unfold l in S.
  rewrite length_fmap, length_seq in S. lia.
Qed.

Section Bread.
Context `{F : Fuel} `{D : DiskDriver} {DL : DiskLaws}.

(** bread returns the locked buffer of the block with its current contents: the cached
    buffer, or the least recently released unused one. *)
Lemma bread_spec p order held pins c n s :
  bufs p order held pins c s -> held !! n = None ->
  n ∈ pins \/ (size (dom held ∪ pins) < NBUF)%nat ->
  exists b s', bread ROOTDEV n s = Ok b s' /\ bufs p order (<[n := b]> held) pins c s' /\
    bio_only s s' /\ k_disk s' = k_disk s /\ k_writes s' = k_writes s /\
    Some b = (match List.find (holds_block ROOTDEV n s) order with
              | Some b => Some b | None => List.find (unused s) (rev order) end).
Proof.
  intros H Hn Hsz. pose proof (bu_calm H) as C. pose proof (bu_lru H) as Hl.
  destruct (List.find (holds_block ROOTDEV n s) order) as [b|] eqn:E.
  - destruct (find_some _ _ E) as [Hin Hb]. apply list_elem_of_In, (lru_elem _ _ _ Hl) in Hin.
    unfold holds_block in Hb. apply andb_true_iff in Hb as [Bd%Z.eqb_eq Bn%Z.eqb_eq].
    destruct (bu_valid H b Hin Bd) as [Bv Bc].
    assert (Hf : sl_free (SL_buf b) s).
    { apply (bu_free H b Hin). intros m Hm.
      destruct (bu_held H m b Hm) as (_ & _ & B & _). congruence. }
    set (f := fun q => set_b_refcnt (u32 (b_refcnt q + 1)) q).
    set (s1 := put_slock (SL_buf b) (mksleeplock 1 (p_pid (proc_at p s))) (upd_buf b f s)).
    assert (Eb : buf_at b s1 = f (buf_at b s)) by (by apply (bufs_at_upd _ _ _ _ _ _ _ _ H)).
    exists b, s1. split_and!; try done.
    + unfold bread. erewrite bind_ok; [|by apply (bget_hit p order)]. fold f s1. kprim. rewrite Eb.
      change (b_valid (f (buf_at b s))) with (b_valid (buf_at b s)). rewrite Bv. by kprim.
    + apply bufs_take; try done.
      * intros b' L B1 B2. apply (bu_inj H); try done. congruence.
      * intros _. by left.
      * cbn zeta. unfold f. cbn. rewrite Bc, Bn. split_and!; try done.
        rewrite (bu_ref H b Hin). unfold refs. rewrite decide_True by done. rewrite Bn, Hn.
        rewrite decide_False by done. unfold u32. case_decide; done.
    + unfold s1. etransitivity; [apply bio_only_upd_buf|apply bio_only_put_slock].
  - assert (Hn' : forall b, (b < NBUF)%nat -> b_dev (buf_at b s) = ROOTDEV -> b_blockno (buf_at b s) <> n).
    { intros b L Bd Bn. assert (R : holds_block ROOTDEV n s b = false).
      { apply (find_none _ _ E), list_elem_of_In. by apply (lru_elem _ _ _ Hl). }
      unfold holds_block in R. rewrite Bd, Bn, !Z.eqb_refl in R. done. }
    assert (Np : n ∉ pins).
    { intros Hp. destruct (bu_pin H n Hp) as (b & L & Bd & Bn). by apply (Hn' b). }
    destruct Hsz as [Hsz|Hsz]; [done|]. destruct (some_unused _ _ _ _ _ _ H Hsz) as [b Hb]. rewrite Hb.
    destruct (find_some _ _ Hb) as [Hin Hr]. apply in_rev, list_elem_of_In, (lru_elem _ _ _ Hl) in Hin.
    unfold unused in Hr. apply Z.eqb_eq in Hr.
    assert (Hf : sl_free (SL_buf b) s).
    { apply (bu_free H b Hin). intros m Hm. destruct (bu_held H m b Hm) as (_ & Bd & B & _).
      rewrite (bu_ref H b Hin) in Hr. subst m. pose proof (refs_held held pins b _ Bd Hm). lia. }
    set (g := fun q => set_b_refcnt 1 (set_b_valid 0 (set_b_blockno n (set_b_dev ROOTDEV q)))).
    set (f := fun q => set_b_valid 1 (set_b_data (c n) (g q))).
    set (v := mksleeplock 1 (p_pid (proc_at p s))).
    set (s0 := put_slock (SL_buf b) v (upd_buf b g s)).
    assert (E0 : buf_at b s0 = g (buf_at b s)) by (by apply (bufs_at_upd _ _ _ _ _ _ _ _ H)).
    assert (Es : upd_buf b (set_b_valid 1) (upd_buf b (set_b_data (c n)) s0) = put_slock (SL_buf b) v (upd_buf b f s)).
    { unfold s0, put_slock. kst_eq. by rewrite !list_alter_alter_eq. }
    exists b, (put_slock (SL_buf b) v (upd_buf b f s)). split_and!; try done.
    + unfold bread. erewrite bind_ok; [|by apply (bget_miss p order)]. fold g v s0. kprim. rewrite E0.
      cbn [g b_valid truth negb Z.eqb when set_b_refcnt set_b_valid].
      erewrite bind_ok; [reflexivity|]. erewrite bind_ok; [|apply (disk_read p); [|done]].
      2: { apply calm_put_slock, calm_upd_buf, C. }
      rewrite E0. cbn [g b_blockno set_b_refcnt set_b_valid set_b_blockno].
      change (k_disk s0) with (k_disk s). rewrite (bu_disk H) by done.
      unfold setb, modify. by rewrite Es.
    + apply bufs_take; try done.
      * intros b' L B1 B2. by destruct (Hn' b').
      * intros _. by right.
      * cbn zeta. rewrite decide_False by done. done.
    + etransitivity; [apply bio_only_upd_buf|apply bio_only_put_slock].
Qed.

End Bread.

(** ** Changing a held buffer *)

(** The contents of a held buffer change. *)
Lemma bufs_set_data p order held pins c n b d s :
  bufs p order held pins c s -> held !! n = Some b ->
  bufs p order held pins (<[n := d]> c) (upd_buf b (set_b_data d) s).
Proof.
  intros H Hn. destruct (bu_held H n b Hn) as (Lb & Bd & Bn & _).
  set (s1 := upd_buf b (set_b_data d) s).
  assert (Eb : buf_at b s1 = set_b_data d (buf_at b s)) by (by apply (bufs_at_upd _ _ _ _ _ _ _ _ H)).
  assert (En : forall b', b' <> b -> buf_at b' s1 = buf_at b' s) by (intros; by apply buf_at_upd_ne).
  assert (Ek : forall A (g : buf -> A) b', (forall q, g (set_b_data d q) = g q) -> g (buf_at b' s1) = g (buf_at b' s)).
  { intros A g b' Hg. by apply (lookup_alter_keep g). }
  split.
  - apply calm_upd_buf, H.
  - apply lru_keep_links; [done..|apply H].
  - intros b1 b2. rewrite !(Ek _ b_dev), !(Ek _ b_blockno) by done. apply (bu_inj H).
  - intros b' L. rewrite (Ek _ b_refcnt), (bu_ref H b' L) by done. unfold refs. by rewrite (Ek _ b_dev), (Ek _ b_blockno).
  - intros m b'. rewrite (Ek _ b_dev), (Ek _ b_blockno) by done. apply (bu_held H).
  - apply (bu_free H).
  - intros m Hm. destruct (bu_pin H m Hm) as (b' & ?). exists b'. by rewrite (Ek _ b_dev), (Ek _ b_blockno).
  - intros b' L. rewrite (Ek _ b_dev), (Ek _ b_blockno), (Ek _ b_valid) by done. intros D'. split; [by apply (bu_valid H)|].
    destruct (decide (b' = b)) as [->|N].
    + rewrite Eb, Bn. by rewrite fn_lookup_insert.
    + rewrite En by done. rewrite fn_lookup_insert_ne; [by apply (bu_valid H)|]. intros E.
      apply N, (bu_inj H); congruence.
  - intros m Hm Hp. rewrite fn_lookup_insert_ne by congruence. by apply (bu_disk H).
Qed.

(** The contents matter block by block. *)
Lemma bufs_ext p order held pins c c' s :
  bufs p order held pins c s -> (forall n, c' n = c n) -> bufs p order held pins c' s.
Proof.
  intros H E. destruct H as [H1 H2 H3 H4 H5 H6 H7 H8 H9]. split; try done.
  - intros b L B. rewrite E. by apply H8.
  - intros n. rewrite E. apply H9.
Qed.

(** Fields outside the cache do not matter. *)
Lemma bufs_other p order held pins c s s' :
  bufs p order held pins c s -> calm p s' ->
  k_procs s' = k_procs s -> k_bcache s' = k_bcache s -> k_slocks s' = k_slocks s -> k_disk s' = k_disk s ->
  bufs p order held pins c s'.
Proof.
  intros [H1 H2 H3 H4 H5 H6 H7 H8 H9] C Ep Eb Es Ed. unfold buf_at, sl_mine, sl_free, slock_at, proc_at in *.
  split; unfold buf_at, sl_mine, sl_free, slock_at, proc_at; rewrite ?Ep, ?Eb, ?Es, ?Ed; done.
Qed.

(** Writing a held buffer brings the disk up to date with it. *)
Lemma bufs_disk_put p order held pins c n s :
  bufs p order held pins c s -> bufs p order held pins c (disk_put n (c n) s).
Proof.
  intros [H1 H2 H3 H4 H5 H6 H7 H8 H9]. split; try done; [by apply calm_disk_put|].
  intros m Hm Hp. unfold dblock, disk_put. ksimpl. destruct (decide (m = n)) as [->|N].
  - by rewrite lookup_insert_eq.
  - rewrite lookup_insert_ne by done. by apply H9.
Qed.

Section Held.
Context `{F : Fuel} `{D : DiskDriver} {DL : DiskLaws}.

Lemma bwrite_spec p order held pins c n b s :
  bufs p order held pins c s -> held !! n = Some b ->
  bwrite b s = Ok tt (disk_put n (c n) s).
Proof.
  intros H Hn. destruct (bu_held H n b Hn) as (Lb & Bd & Bn & Bm). pose proof (bu_calm H) as C.
  unfold bwrite. erewrite bind_ok; [|by apply (holdingsleep_mine p)]. cbn [negb].
  rewrite (disk_write p) by done. rewrite Bn. destruct (bu_valid H b Lb Bd) as [_ ->]. by rewrite Bn.
Qed.

(** bpin and bunpin: the log takes and drops a reference. *)
Lemma crit_refcnt p order held pins c b f s :
  bufs p order held pins c s ->
  (acquire L_bcache ;! setb b f ;! release L_bcache) s = Ok tt (upd_buf b f s).
Proof.
  intros H. pose proof (bu_calm H) as C. erewrite bind_ok; [|by apply (acquire_calm p)]. kprim.
  rewrite (release_leave p _ s) by done. f_equal; leave_eq.
Qed.

(** Only the reference counts depend on the pins. *)
Lemma bufs_repin p order held pins pins' c n b r s :
  bufs p order held pins c s -> (b < NBUF)%nat -> b_dev (buf_at b s) = ROOTDEV -> b_blockno (buf_at b s) = n ->
  (forall m, m <> n -> m ∈ pins' <-> m ∈ pins) ->
  r (b_refcnt (buf_at b s)) = refs held pins' b (buf_at b s) ->
  (n ∉ pins' -> held !! n = None -> dblock (k_disk s) n = c n) ->
  bufs p order held pins' c (upd_buf b (fun q => set_b_refcnt (r (b_refcnt q)) q) s).
Proof.
  intros H Lb Bd Bn Hp Hr Hd. set (f := fun q => set_b_refcnt (r (b_refcnt q)) q). set (s1 := upd_buf b f s).
  assert (Eb : buf_at b s1 = f (buf_at b s)) by (by apply (bufs_at_upd _ _ _ _ _ _ _ _ H)).
  assert (En : forall b', b' <> b -> buf_at b' s1 = buf_at b' s) by (intros; by apply buf_at_upd_ne).
  assert (Ek : forall A (g : buf -> A) b', (forall q, g (f q) = g q) -> g (buf_at b' s1) = g (buf_at b' s)).
  { intros A g b' Hg. by apply (lookup_alter_keep g). }
  split.
  - apply calm_upd_buf, H.
  - apply lru_keep_links; [done..|apply H].
  - intros b1 b2. rewrite !(Ek _ b_dev), !(Ek _ b_blockno) by done. apply (bu_inj H).
  - intros b' L. destruct (decide (b' = b)) as [->|N].
    + rewrite Eb. unfold f. cbn [b_refcnt set_b_refcnt]. by rewrite Hr.
    + rewrite En by done. rewrite (bu_ref H b' L). symmetry. apply refs_ext. intros B'. split; [done|].
      apply Hp. intros E. apply N, (bu_inj H); congruence.
  - intros m b'. rewrite (Ek _ b_dev), (Ek _ b_blockno) by done. apply (bu_held H).
  - apply (bu_free H).
  - intros m Hm. destruct (decide (m = n)) as [->|N].
    + exists b. by rewrite (Ek _ b_dev), (Ek _ b_blockno).
    + apply Hp in Hm; [|done]. destruct (bu_pin H m Hm) as (b' & ?). exists b'. by rewrite (Ek _ b_dev), (Ek _ b_blockno).
  - intros b' L. rewrite (Ek _ b_dev), (Ek _ b_blockno), (Ek _ b_valid), (Ek _ b_data) by done. apply (bu_valid H b' L).
  - intros m Hm Hm'. destruct (decide (m = n)) as [->|N]; [by apply Hd|]. apply (bu_disk H m Hm). by rewrite <- Hp.
Qed.

Lemma bufs_pin p order held pins c n b s :
  bufs p order held pins c s -> held !! n = Some b -> n ∉ pins ->
  bufs p order held ({[n]} ∪ pins) c (upd_buf b (fun q => set_b_refcnt (u32 (b_refcnt q + 1)) q) s).
Proof.
  intros H Hn Np. destruct (bu_held H n b Hn) as (Lb & Bd & Bn & Bm).
  apply (bufs_repin _ _ _ pins _ _ n b (fun r => u32 (r + 1))); try done; [set_solver| |set_solver].
  rewrite (bu_ref H b Lb). unfold refs. rewrite Bd, Bn. repeat case_decide; try done; set_solver.
Qed.

Lemma bunpin_spec p order held pins c n b s :
  bufs p order held pins c s -> held !! n = Some b -> n ∈ pins ->
  exists s', bunpin b s = Ok tt s' /\ bufs p order held (pins ∖ {[n]}) c s' /\ bio_only s s' /\
    k_disk s' = k_disk s /\ k_writes s' = k_writes s.
Proof.
  intros H Hn Np. destruct (bu_held H n b Hn) as (Lb & Bd & Bn & Bm).
  eexists. split; [by apply (crit_refcnt p order held pins c)|]. split; [|split; [apply bio_only_upd_buf|done]].
  apply (bufs_repin _ _ _ pins _ _ n b (fun r => u32 (r - 1))); try done; [set_solver| |congruence].
  rewrite (bu_ref H b Lb). unfold refs. rewrite Bd, Bn.
  repeat case_decide; try done; set_solver.
Qed.

(** ** Giving a buffer back *)

(** The table of buffers brelse leaves. *)
Definition rel_table (b : nat) (bc : list buf) : list buf :=
  let bc1 := alter (fun q => set_b_refcnt (u32 (b_refcnt q - 1)) q) b bc in
  if b_refcnt (bc1 !!! b) =? 0 then touch b bc1 else bc1.

Lemma brelse_eq p order held pins c n b s :
  bufs p order held pins c s -> held !! n = Some b ->
  exists ps, woken_procs (k_procs s) ps /\
    brelse b s = Ok tt (set_k_bcache (rel_table b (k_bcache s))
                         (set_k_procs ps (put_slock (SL_buf b) (mksleeplock 0 0) s))).
Proof.
  intros H Hn. destruct (bu_held H n b Hn) as (Lb & Bd & Bn & Bm). pose proof (bu_calm H) as C.
  destruct (releasesleep_eq p (SL_buf b) s C) as (ps & E & W); [done|]. exists ps. split; [done|].
  unfold brelse. erewrite bind_ok; [|by apply (holdingsleep_mine p)]. cbn [negb].
  erewrite bind_ok; [|exact E]. set (s1 := set_k_procs ps _).
  assert (C1 : calm p s1) by (apply (calm_woken p (put_slock _ _ s)); [by apply calm_put_slock|done]).
  erewrite bind_ok; [|by apply (acquire_calm p)]. kprim. kprim.
  unfold rel_table. set (f := fun q => set_b_refcnt _ q).
  change (b_refcnt (buf_at b (upd_buf b f (acq_st L_bcache s1)))) with (b_refcnt (alter f b (k_bcache s) !!! b)).
  destruct (b_refcnt (alter f b (k_bcache s) !!! b) =? 0); cbn [when].
  - erewrite bind_ok; [|do 2 kprim; do 2 kprim; kprim; do 3 kprim; reflexivity].
    rewrite (release_leave p _ s1) by done. f_equal; leave_eq.
  - kprim. rewrite (release_leave p _ s1) by done. f_equal; leave_eq.
Qed.

Lemma rel_table_keep {A} (g : buf -> A) b x bc :
  (forall v q, g (set_b_next v q) = g q) -> (forall v q, g (set_b_prev v q) = g q) ->
  (forall v q, g (set_b_refcnt v q) = g q) -> g (rel_table b bc !!! x) = g (bc !!! x).
Proof.
  intros Hn Hp Hr. unfold rel_table. case_match; rewrite ?(touch_keep g) by done; by apply (lookup_alter_keep g).
Qed.

Lemma rel_table_refcnt b x bc :
  (b < length bc)%nat ->
  b_refcnt (rel_table b bc !!! x) =
    if decide (x = b) then u32 (b_refcnt (bc !!! b) - 1) else b_refcnt (bc !!! x).
Proof.
  intros L. assert (E : b_refcnt (rel_table b bc !!! x) =
    b_refcnt (alter (fun q => set_b_refcnt (u32 (b_refcnt q - 1)) q) b bc !!! x)).
  { unfold rel_table. case_match; [|done]. by rewrite (touch_keep b_refcnt). }
  rewrite E. case_decide as Dx.
  - subst x. by rewrite list_lookup_total_alter_eq.
  - by rewrite list_lookup_total_alter_ne.
Qed.

Lemma rel_table_lru b bc order :
  lru bc order -> (b < NBUF)%nat ->
  lru (rel_table b bc) (released b (u32 (b_refcnt (bc !!! b) - 1) =? 0) order).
Proof.
  intros H L. unfold rel_table. set (f := fun q => set_b_refcnt _ q).
  assert (H1 : lru (alter f b bc) order) by (by apply lru_keep_links).
  rewrite list_lookup_total_alter_eq by (rewrite (lru_len _ _ H); lia).
  unfold f at 1. cbn [b_refcnt set_b_refcnt].
  destruct (u32 (b_refcnt (bc !!! b) - 1) =? 0); [by apply lru_released|done].
Qed.

(** brelse of a buffer whose block is pinned or is on disk as it is in the cache. *)
Lemma brelse_spec p order held pins c n b s :
  bufs p order held pins c s -> held !! n = Some b ->
  n ∈ pins \/ dblock (k_disk s) n = c n ->
  exists s', brelse b s = Ok tt s' /\
    bufs p (released b (bool_decide (n ∉ pins)) order) (delete n held) pins c s' /\
    bio_only s s' /\ k_disk s' = k_disk s /\ k_writes s' = k_writes s.
Proof.
  intros H Hn Hd. destruct (bu_held H n b Hn) as (Lb & Bd & Bn & Bm).
  destruct (brelse_eq p order held pins c n b s H Hn) as (ps & W & E). set (s1 := set_k_bcache _ _) in E.
  pose proof (bufs_len _ _ _ _ _ _ H) as Len.
  assert (Ek : forall A (g : buf -> A) x, (forall v q, g (set_b_next v q) = g q) -> (forall v q, g (set_b_prev v q) = g q) ->
    (forall v q, g (set_b_refcnt v q) = g q) -> g (buf_at x s1) = g (buf_at x s)).
  { intros A g x G1 G2 G3. by apply (rel_table_keep g). }
  assert (Er : u32 (b_refcnt (buf_at b s) - 1) = if decide (n ∈ pins) then 1 else 0).
  { rewrite (bu_ref H b Lb). unfold refs. rewrite Bd, Bn, Hn. rewrite (decide_True (P := ROOTDEV = _)) by done.
    rewrite (decide_True (P := Some b = _)) by done. by case_decide. }
  assert (Ep : proc_at p s1 = proc_at p s).
  { unfold proc_at. destruct W as [_ W]. apply (woken_proc_running _ _ (W p)), (ca_state _ _ (bu_calm H)). }
  exists s1. split; [exact E|]. split; [|split; [|done]].
  - split.
    + apply (calm_ext p (set_k_procs ps s)); try done. by apply calm_woken; [apply H|].
    + replace (bool_decide (n ∉ pins)) with (u32 (b_refcnt (k_bcache s !!! b) - 1) =? 0); [by apply rel_table_lru; [apply H|]|].
      change (k_bcache s !!! b) with (buf_at b s). rewrite Er. case_decide; by case_bool_decide.
    + intros b1 b2. rewrite !(Ek _ b_dev), !(Ek _ b_blockno) by done. apply (bu_inj H).
    + intros b' L. change (buf_at b' s1) with (rel_table b (k_bcache s) !!! b') at 1.
      rewrite rel_table_refcnt by lia. unfold refs. rewrite (Ek _ b_dev), (Ek _ b_blockno) by done.
      destruct (decide (b' = b)) as [->|N].
      * change (k_bcache s !!! b) with (buf_at b s). rewrite Er, Bd, Bn, lookup_delete_eq.
        rewrite (decide_True (P := ROOTDEV = _)), (decide_False (P := None = _)) by done. by case_decide.
      * change (k_bcache s !!! b') with (buf_at b' s). rewrite (bu_ref H b' L). apply refs_ext. intros B'. split; [|done].
        destruct (decide (b_blockno (buf_at b' s) = n)) as [Q|Q]; [|by rewrite lookup_delete_ne].
        exfalso. apply N, (bu_inj H); congruence.
    + intros m b' Hm. apply lookup_delete_Some in Hm as [Nm Hm]. rewrite (Ek _ b_dev), (Ek _ b_blockno) by done.
      destruct (bu_held H m b' Hm) as (A1 & A2 & A3 & A4). split_and!; try done. unfold sl_mine. rewrite Ep.
      change (slock_at (SL_buf b') s1) with (slock_at (SL_buf b') (put_slock (SL_buf b) (mksleeplock 0 0) s)).
      rewrite slock_at_put_ne; [exact A4|]. congruence.
    + intros b' L Hf. unfold sl_free.
      change (slock_at (SL_buf b') s1) with (slock_at (SL_buf b') (put_slock (SL_buf b) (mksleeplock 0 0) s)).
      destruct (decide (b' = b)) as [->|N]; [by rewrite slock_at_put|]. rewrite slock_at_put_ne by congruence.
      apply (bu_free H b' L). intros m Hm. apply (Hf m). rewrite lookup_delete_ne; [done|]. congruence.
    + intros m Hm. destruct (bu_pin H m Hm) as (b' & ?). exists b'. by rewrite (Ek _ b_dev), (Ek _ b_blockno).
    + intros b' L. rewrite (Ek _ b_dev), (Ek _ b_blockno), (Ek _ b_valid), (Ek _ b_data) by done. apply (bu_valid H b' L).
    + intros m Hm Hp. change (k_disk s1) with (k_disk s). destruct (decide (m = n)) as [->|N]; [by destruct Hd|].
      rewrite lookup_delete_ne in Hm by done. by apply (bu_disk H).
  - exists (rel_table b (k_bcache s)), (<[SL_buf b := mksleeplock 0 0]> (k_slocks s)), ps, (k_disk s), (k_writes s).
    split_and!; [by destruct s|apply W..|]. intros i. by rewrite lookup_insert_ne.
Qed.

End Held.

(** ** An empty cache *)

Section Init.
Context `{F : Fuel}.

(** One round of binit's loop puts a buffer in front. *)
Lemma binit_round b s :
  b <> bhead ->
  (let! n := getb b_next bhead in
   setb b (set_b_next n) ;!
   setb b (set_b_prev bhead) ;!
   initsleeplock (SL_buf b) ;!
   let! n := getb b_next bhead in
   setb n (set_b_prev b) ;!
   setb bhead (set_b_next b)) s =
  Ok tt (set_k_bcache (push_front b (nx (k_bcache s) bhead) (k_bcache s))
          (set_k_locks (<[L_sleep (SL_buf b) := lk_free]> (k_locks s)) (put_slock (SL_buf b) (mksleeplock 0 0) s))).
Proof.
  intros N. do 3 kprim. erewrite bind_ok; [|unfold initsleeplock, initlock, set_lock; do 2 kprim; reflexivity].
  do 2 kprim. unfold setb at 1, modify. f_equal.
  match goal with |- context [buf_at bhead (set_slock ?l ?f ?x)] =>
    replace (buf_at bhead (set_slock l f x)) with (buf_at bhead s) end.
  2: { unfold buf_at, set_slock. ksimpl. by rewrite !list_lookup_total_alter_ne. }
  unfold push_front, nx, put_slock, set_slock, slock_at, buf_at. kst_eq.
  by rewrite insert_insert_eq, lookup_insert_eq.
Qed.

(** binit links every buffer into the list and frees its sleep lock. *)
Lemma binit_ok s :
  length (k_bcache s) = S NBUF ->
  exists s', binit s = Ok tt s' /\ lru (k_bcache s') (rev (seq 0 NBUF)) /\
    (forall b, (b < NBUF)%nat -> sl_free (SL_buf b) s') /\
    (forall b, (b < NBUF)%nat -> b_dev (buf_at b s') = b_dev (buf_at b s) /\ b_refcnt (buf_at b s') = b_refcnt (buf_at b s)) /\
    k_disk s' = k_disk s /\ k_procs s' = k_procs s /\ k_cpus s' = k_cpus s /\ k_hart s' = k_hart s /\ k_sie s' = k_sie s /\
    k_log s' = k_log s /\
    (forall l, k_locks s' !! l = Some lk_free \/ k_locks s' !! l = k_locks s !! l).
Proof.
  intros L. unfold binit. do 3 kprim.
  set (s0 := upd_buf bhead _ (upd_buf bhead _ _)).
  destruct (foreach_seq (fun b => let! n := getb b_next bhead in
   setb b (set_b_next n) ;! setb b (set_b_prev bhead) ;! initsleeplock (SL_buf b) ;!
   let! n := getb b_next bhead in setb n (set_b_prev b) ;! setb bhead (set_b_next b))
    (fun i s' => length (k_bcache s') = S NBUF /\ linked (k_bcache s') (bhead :: rev (seq 0 i) ++ [bhead]) /\
      (forall b, (b < i)%nat -> sl_free (SL_buf b) s') /\
      (forall b, b_dev (buf_at b s') = b_dev (buf_at b s) /\ b_refcnt (buf_at b s') = b_refcnt (buf_at b s)) /\
      k_disk s' = k_disk s /\ k_procs s' = k_procs s /\ k_cpus s' = k_cpus s /\ k_hart s' = k_hart s /\ k_sie s' = k_sie s /\
      k_log s' = k_log s /\
      (forall l, k_locks s' !! l = Some lk_free \/ k_locks s' !! l = k_locks s !! l)) NBUF s0)
    as (s' & E & I1 & I2 & I3 & I4 & I5).
  - intros i s1 Hi (I1 & I2 & I3 & I4 & I5 & I6 & I7 & I8 & I9 & I10 & I11). rewrite binit_round by (unfold bhead; lia).
    eexists. split; [reflexivity|]. ksimpl. split_and!; try done.
    + unfold push_front. by rewrite !length_alter.
    + rewrite seq_S, rev_app_distr. cbn [rev app]. 
      assert (In : forall x, x ∈ rev (seq 0 i) <-> (x < i)%nat) by (intros x; rewrite list_elem_of_In, <- in_rev, <- list_elem_of_In, elem_of_seq; lia).
      apply linked_push_front; unfold bhead; rewrite ?In; try lia; try done.
      * intros x. rewrite In. lia.
      * rewrite <- Permutation_rev. apply NoDup_seq.
    + intros b Hb. change (sl_locked (slock_at (SL_buf b) (put_slock (SL_buf i) (mksleeplock 0 0) s1)) = 0).
      destruct (decide (b = i)) as [->|N].
      * by rewrite (slock_at_put (SL_buf i)).
      * rewrite slock_at_put_ne by congruence. apply I3. lia.
    + intros b. unfold buf_at. ksimpl. unfold push_front. rewrite !(lookup_alter_keep b_dev), !(lookup_alter_keep b_refcnt) by done. apply I4.
    + intros l. destruct (decide (l = L_sleep (SL_buf i))) as [->|N]; [left; apply lookup_insert_eq|].
      rewrite lookup_insert_ne by done. apply I11.
  - unfold s0. ksimpl. split_and!; try done.
    + by rewrite !length_alter.
    + cbn. rewrite nx_set_next, pv_set_next, pv_set_prev by (rewrite ?length_alter, L; unfold bhead; lia). done.
    + intros b Hb. lia.
    + intros b. unfold buf_at. ksimpl. by rewrite !(lookup_alter_keep b_dev), !(lookup_alter_keep b_refcnt).
    + intros l. destruct (decide (l = L_bcache)) as [->|N]; [left; apply lookup_insert_eq|right; by apply lookup_insert_ne].
  - exists s'. split; [exact E|]. split; [split; [done|by rewrite <- Permutation_rev|done]|]. split; [done|]. split; [|done]. intros b _. apply I4.
Qed.

End Init.

(** Nothing cached: the contents are the disk's. *)
Lemma bufs_fresh p order s :
  calm p s -> lru (k_bcache s) order ->
  (forall b, (b < NBUF)%nat -> sl_free (SL_buf b) s) ->
  (forall b, (b < NBUF)%nat -> b_dev (buf_at b s) <> ROOTDEV /\ b_refcnt (buf_at b s) = 0) ->
  bufs p order ∅ ∅ (dblock (k_disk s)) s.
Proof.
  intros C Hl Hs Hb. split; try done.
  - intros b b' L _ Bd. by destruct (Hb b L).
  - intros b L. unfold refs. destruct (Hb b L). by rewrite decide_False.
  - intros b L _. by apply Hs.
  - intros b L Bd. by destruct (Hb b L).
Qed.

(** ** A concrete kernel *)

(** Every lock free, process 0 running on hart 0. *)
Definition demo_locks : gset lockid :=
  list_to_set ([L_pid; L_wait; L_kmem; L_ticks; L_ftable; L_itable; L_bcache; L_log; L_cons; L_uart; L_pr; L_vdisk] ++
    (L_proc <$> seq 0 NPROC) ++ ((fun i => L_sleep (SL_buf i)) <$> seq 0 NBUF) ++
    ((fun i => L_sleep (SL_inode i)) <$> seq 0 NINODE)).

Definition demo_kernel : kstate :=
  set_k_locks (gset_to_gmap lk_free demo_locks)
    (upd_cpu 0 (set_c_proc (Some 0%nat)) (upd_proc 0 (fun q => set_p_state RUNNING (set_p_pid 1 q)) kstate0)).

Lemma demo_locks_all l : klock l -> l ∈ demo_locks.
Proof.
  intros H. unfold demo_locks. apply elem_of_list_to_set. rewrite !elem_of_app, !list_elem_of_fmap.
  destruct l as [| | | | | | | | | | | |i|pa|[i|i]]; try (left; set_solver); try done; right.
  - left. exists i. split; [done|]. apply elem_of_seq. cbn in H. lia.
  - right. left. exists i. split; [done|]. apply elem_of_seq. cbn in H. lia.
  - right. right. exists i. split; [done|]. apply elem_of_seq. cbn in H. lia.
Qed.

Lemma demo_kernel_calm : calm 0 demo_kernel.
Proof.
  split; try done.
  - split; [vm_compute; lia|]. split; done.
  - vm_compute. lia.
  - intros l Hl. apply lookup_gset_to_gmap_Some. split; [by apply demo_locks_all|done].
Qed.
