(* ===== verification/Cache.v ===== *)
(** * The cache as a store

    Clients of the buffer cache see a store of blocks: whatever the cache evicts and reads
    back, a sequence of bread, bwrite and brelse behaves as on the store.  Which buffer
    gets evicted. *)

From S2P Require Import Prelude Memory Riscv State Kmonad Spinlock Proc ProcSpec CoYield Sched Sleeplock Bytes Bio Calm Lru BioSpec.
From Stdlib Require Import ZArith Lia.
From stdpp Require Import base numbers list gmap strings option functions.

#[local] Open Scope Z_scope.
#[local] Open Scope kernel_scope.

(** What a client does: read a block into a held buffer, overwrite a held block and write it
    through, release a held block. *)
Inductive cop := CRead (n : Z) | CWrite (n : Z) (d : list Z) | CRelse (n : Z).

(** The store: its contents and the blocks the client holds. *)
Definition store : Type := (Z -> list Z) * gset Z.

(** The abstract operations; a client that reads a block it holds (and would wait for
    itself), touches one it does not hold or holds too many is in error. *)
Definition spec_cop (op : cop) (st : store) : option (list (list Z) * store) :=
  let '(c, held) := st in
  match op with
  | CRead n => if decide (n ∈ held \/ (NBUF <= size held)%nat) then None else Some ([c n], (c, {[n]} ∪ held))
  | CWrite n d => if decide (n ∈ held) then Some ([], (<[n := d]> c, held)) else None
  | CRelse n => if decide (n ∈ held) then Some ([], (c, held ∖ {[n]})) else None
  end.

Fixpoint spec_cops (ops : list cop) (st : store) : option (list (list Z) * store) :=
  match ops with
  | [] => Some ([], st)
  | op :: ops =>
      r ← spec_cop op st; r' ← spec_cops ops r.2; Some (r.1 ++ r'.1, r'.2)
  end.

Section Client.
Context `{F : Fuel} `{D : DiskDriver} {DL : DiskLaws}.

(** The same on the cache; [held] are the client's pointers. *)
Definition run_cop (op : cop) (held : gmap Z nat) : M (list (list Z) * gmap Z nat) :=
  match op with
  | CRead n =>
      let! b := bread ROOTDEV n in
      let! d := getb b_data b in
      ret ([d], <[n := b]> held)
  | CWrite n d =>
      setb (held !!! n) (set_b_data d) ;!
      bwrite (held !!! n) ;!
      ret ([], held)
  | CRelse n =>
      brelse (held !!! n) ;!
      ret ([], delete n held)
  end.

Fixpoint run_cops (ops : list cop) (held : gmap Z nat) : M (list (list Z) * gmap Z nat) :=
  match ops with
  | [] => ret ([], held)
  | op :: ops =>
      let! r := run_cop op held in
      let! r' := run_cops ops r.2 in
      ret (r.1 ++ r'.1, r'.2)
  end.

(** The cache and the disk represent the store. *)
Definition represents (p : nat) (held : gmap Z nat) (st : store) (s : kstate) : Prop :=
  dom held = st.2 /\ (exists order, bufs p order held ∅ st.1 s) /\ forall n, dblock (k_disk s) n = st.1 n.

Lemma run_cop_ok p op held st out st' s :
  represents p held st s -> spec_cop op st = Some (out, st') ->
  exists held' s', run_cop op held s = Ok (out, held') s' /\ represents p held' st' s'.
Proof.
  intros (Hd & [order H] & Hk) E. destruct st as [c h]. cbn [fst snd] in *. subst h.
  destruct op as [n|n d|n]; cbn in E; case_decide as Dn; try done; injection E as <- <-.
  - assert (Nn : n ∉ dom held) by tauto. assert (Hn : held !! n = None) by (by apply not_elem_of_dom).
    destruct (bread_spec p order held ∅ c n s H Hn) as (b & s' & E & H' & _ & Ed & _); [right; rewrite union_empty_r_L; lia|].
    assert (Hb : (<[n := b]> held) !! n = Some b) by apply lookup_insert_eq.
    exists (<[n := b]> held), s'. split.
    + unfold run_cop. erewrite bind_ok; [|exact E]. kprim. destruct (bu_held H' n b Hb) as (L & B & Bn & _).
      destruct (bu_valid H' b L B) as [_ ->]. by rewrite Bn.
    + split; [apply dom_insert_L|]. split; [by exists order|]. intros m. by rewrite Ed.
  - apply elem_of_dom in Dn as [b Hb]. exists held.
    pose proof (bufs_set_data p order held ∅ c n b d s H Hb) as H1. set (s1 := upd_buf b (set_b_data d) s) in *.
    pose proof (bwrite_spec p order held ∅ _ n b s1 H1 Hb) as E2. pose proof (bufs_disk_put p order held ∅ _ n s1 H1) as H2.
    rewrite fn_lookup_insert in E2, H2. exists (disk_put n d s1). split.
    + unfold run_cop. rewrite (lookup_total_correct _ _ _ Hb). kprim. fold s1. erewrite bind_ok; [|exact E2]. done.
    + split; [done|]. split; [by exists order|]. intros m. cbn [fst]. unfold dblock, disk_put. ksimpl. destruct (decide (n = m)) as [<-|N].
      * by rewrite lookup_insert_eq, fn_lookup_insert.
      * rewrite lookup_insert_ne, fn_lookup_insert_ne by done. apply Hk.
  - apply elem_of_dom in Dn as [b Hb].
    destruct (brelse_spec p order held ∅ c n b s H Hb) as (s' & E & H' & _ & Ed & _); [right; apply Hk|].
    exists (delete n held), s'. split.
    + unfold run_cop. rewrite (lookup_total_correct _ _ _ Hb). erewrite bind_ok; [|exact E]. done.
    + split; [apply dom_delete_L|]. split; [by eexists|]. intros m. by rewrite Ed.
Qed.


(** The element a search from the end finds. *)
Lemma find_rev_split {A} (f : A -> bool) l x :
  List.find f (rev l) = Some x -> exists l1 l2, l = l1 ++ x :: l2 /\ f x = true /\ forall y, y ∈ l2 -> f y = false.
Proof.
  induction l as [|y l IH] using rev_ind; [done|]. rewrite rev_app_distr. cbn [rev app List.find].
  destruct (f y) eqn:Ey; intros E.
  - injection E as <-. exists l, []. split_and!; [done|done|]. intros z Hz. by apply not_elem_of_nil in Hz.
  - destruct (IH E) as (l1 & l2 & -> & Hx & Hl2). exists l1, (l2 ++ [y]). split_and!; [by rewrite <- app_assoc|done|].
    intros z [Hz| ->%list_elem_of_singleton]%elem_of_app; [by apply Hl2|done].
Qed.


End Client.

(** ** A concrete cache *)

Definition demo_fuel : Fuel := 0%nat.
#[local] Existing Instance demo_fuel.
#[local] Existing Instance ram_disk.
#[local] Existing Instance ram_disk_laws.

(** The kernel after binit, its log in blocks 2 to 31, on the disk [d]. *)
Definition demo_cache : kstate := default kstate0 (run_state (binit demo_kernel)).
Definition demo_fs (d : gmap Z (list Z)) : kstate :=
  set_k_disk d (set_k_log (mklog 2 30 0 0 ROOTDEV 0 (replicate 30 0)) demo_cache).

Lemma demo_fs_empty d b :
  (b < NBUF)%nat -> b_dev (buf_at b (demo_fs d)) <> ROOTDEV /\ b_refcnt (buf_at b (demo_fs d)) = 0.
Proof.
  destruct (binit_ok demo_kernel eq_refl) as (s' & E & _ & _ & Hb & _).
  assert (Es : demo_cache = s') by (unfold demo_cache; by rewrite E).
  intros Lb. unfold demo_fs. rewrite Es. destruct (Hb b Lb) as [Bd Br]. unfold buf_at in *. ksimpl. rewrite Bd, Br.
  change (k_bcache demo_kernel) with (replicate (S NBUF) (inhabitant : buf)).
  rewrite lookup_total_replicate_2 by lia. done.
Qed.

Lemma demo_fs_bufs d : bufs 0 (rev (seq 0 NBUF)) ∅ ∅ (dblock d) (demo_fs d).
Proof.
  destruct (binit_ok demo_kernel eq_refl) as (s' & E & Hl & Hs & _ & _ & Ep & Ec & Eh & Ei & _ & Lk).
  assert (Es : demo_cache = s') by (unfold demo_cache; by rewrite E).
  apply (bufs_fresh 0 _ (demo_fs d)).
  - pose proof demo_kernel_calm as C. unfold demo_fs. rewrite Es.
    apply (calm_ext 0 (set_k_locks (k_locks s') demo_kernel)); try done. destruct C as [C1 C2 C3 C4 C5 C6 C7 C8].
    split; try done. intros l Kl. unfold lock_free. ksimpl. destruct (Lk l) as [->| ->]; [done|by apply C8].
  - unfold demo_fs. by rewrite Es.
  - unfold demo_fs. by rewrite Es.
  - apply demo_fs_empty.
Qed.

Lemma demo_fs_log d : k_log (demo_fs d) = mklog 2 30 0 0 ROOTDEV 0 (replicate 30 0).
Proof. unfold demo_fs. ksimpl. reflexivity. Qed.

Lemma demo_fs_disk d : k_disk (demo_fs d) = d.
Proof. unfold demo_fs. ksimpl. reflexivity. Qed.

Definition demo_cops : list cop := [CRead 5; CWrite 5 [1; 2]; CRead 6; CRelse 5; CRead 5].


