(* ===== verification/LogSpec.v ===== *)
(** * What the log promises

    The blocks commit and recovery write, in order, and what a crash between any two of
    those writes leaves after recovery. *)

From S2P Require Import Prelude Memory Riscv State Kmonad Spinlock Proc ProcSpec CoYield Sched Sleeplock Bytes Bio Log Calm Lru BioSpec.
From Stdlib Require Import ZArith Lia.
From stdpp Require Import base numbers list gmap strings option functions.

#[local] Open Scope Z_scope.
#[local] Open Scope kernel_scope.

(** ** Sequences of block writes *)

(** The contents and the disk after the writes [ws], first write first. *)
Definition upds (c : Z -> list Z) (ws : list (Z * list Z)) : Z -> list Z :=
  foldl (fun c w => <[w.1 := w.2]> c) c ws.
Definition puts (d : gmap Z (list Z)) (ws : list (Z * list Z)) : gmap Z (list Z) :=
  foldl (fun d w => <[w.1 := w.2]> d) d ws.

Lemma upds_app c ws1 ws2 : upds c (ws1 ++ ws2) = upds (upds c ws1) ws2.
Proof. apply foldl_app. Qed.
Lemma puts_app d ws1 ws2 : puts d (ws1 ++ ws2) = puts (puts d ws1) ws2.
Proof. apply foldl_app. Qed.

Lemma upds_ext c c' ws n : (forall n, c n = c' n) -> upds c ws n = upds c' ws n.
Proof.
  revert c c'. induction ws as [|[m x] ws IH]; intros c c' E; [apply E|]. cbn. apply IH. intros k.
  destruct (decide (m = k)) as [->|N]; [by rewrite !fn_lookup_insert|]. by rewrite !fn_lookup_insert_ne.
Qed.

Lemma upds_out c ws n : n ∉ ws.*1 -> upds c ws n = c n.
Proof.
  revert c. induction ws as [|[m x] ws IH]; intros c N; [done|]. cbn in *. apply not_elem_of_cons in N as [N1 N2].
  rewrite IH by done. by rewrite fn_lookup_insert_ne.
Qed.

Lemma upds_in c ws n x : NoDup ws.*1 -> (n, x) ∈ ws -> upds c ws n = x.
Proof.
  revert c. induction ws as [|[m y] ws IH]; intros c ND Hin; [by apply not_elem_of_nil in Hin|].
  cbn in ND. apply list.NoDup_cons in ND as [N1 N2]. apply elem_of_cons in Hin as [[= -> ->]|Hin].
  - cbn. rewrite upds_out by done. by rewrite fn_lookup_insert.
  - cbn. by apply IH.
Qed.

Lemma dblock_puts d ws n : dblock (puts d ws) n = upds (dblock d) ws n.
Proof.
  revert d. induction ws as [|[m x] ws IH]; intros d; [done|]. cbn. rewrite IH. apply upds_ext. intros k.
  unfold dblock. destruct (decide (m = k)) as [->|N].
  - by rewrite lookup_insert_eq, fn_lookup_insert.
  - by rewrite lookup_insert_ne, fn_lookup_insert_ne.
Qed.

(** Only cache state changed, and the disk by the writes [ws]. *)
Definition wrote (ws : list (Z * list Z)) (s s' : kstate) : Prop :=
  bio_only s s' /\ k_disk s' = puts (k_disk s) ws /\ k_writes s' = rev ws ++ k_writes s.

Lemma wrote_trans ws1 ws2 s s1 s2 : wrote ws1 s s1 -> wrote ws2 s1 s2 -> wrote (ws1 ++ ws2) s s2.
Proof.
  intros (B1 & D1 & W1) (B2 & D2 & W2). split_and!.
  - by transitivity s1.
  - by rewrite puts_app, D2, D1.
  - by rewrite W2, W1, rev_app_distr, app_assoc.
Qed.

Lemma wrote_nil s : wrote [] s s.
Proof. split; [reflexivity|done]. Qed.

Lemma wrote_upd_buf b f s : wrote [] s (upd_buf b f s).
Proof. split; [apply bio_only_upd_buf|done]. Qed.

Lemma wrote_disk_put n x s : wrote [(n, x)] s (disk_put n x s).
Proof. split; [apply bio_only_disk_put|done]. Qed.

Lemma wrote_log ws s s' : wrote ws s s' -> k_log s' = k_log s.
Proof. intros [(bc & sl & ps & d & w & -> & _) _]. done. Qed.

(** ** The cache without its order *)

Definition cached (p : nat) (held : gmap Z nat) (pins : gset Z) (c : Z -> list Z) (s : kstate) : Prop :=
  exists order, bufs p order held pins c s.

Lemma cached_ext p held pins c c' s : cached p held pins c s -> (forall n, c' n = c n) -> cached p held pins c' s.
Proof. intros [o H] E. exists o. by eapply bufs_ext. Qed.

Lemma cached_calm p held pins c s : cached p held pins c s -> calm p s.
Proof. intros [o H]. apply H. Qed.

Lemma cached_disk p held pins c s n :
  cached p held pins c s -> held !! n = None -> n ∉ pins -> dblock (k_disk s) n = c n.
Proof. intros [o H]. apply (bu_disk H). Qed.

Lemma cached_data p held pins c s n b :
  cached p held pins c s -> held !! n = Some b -> b_data (buf_at b s) = c n.
Proof.
  intros [o H] Hn. destruct (bu_held H n b Hn) as (L & B & E & _). destruct (bu_valid H b L B) as [_ ->]. by rewrite E.
Qed.

Lemma cached_other p held pins c s s' :
  cached p held pins c s -> calm p s' -> k_procs s' = k_procs s -> k_bcache s' = k_bcache s ->
  k_slocks s' = k_slocks s -> k_disk s' = k_disk s -> cached p held pins c s'.
Proof. intros [o H] C E1 E2 E3 E4. exists o. by eapply bufs_other. Qed.

Lemma cached_set_data p held pins c s n b x :
  cached p held pins c s -> held !! n = Some b ->
  cached p held pins (<[n := x]> c) (upd_buf b (set_b_data x) s).
Proof. intros [o H] Hn. exists o. by apply bufs_set_data. Qed.

Lemma cached_put p held pins c s n : cached p held pins c s -> cached p held pins c (disk_put n (c n) s).
Proof. intros [o H]. exists o. by apply bufs_disk_put. Qed.

Section Ops.
Context `{F : Fuel} `{D : DiskDriver} {DL : DiskLaws}.

Lemma bread_ok p held pins c n s :
  cached p held pins c s -> held !! n = None -> n ∈ pins \/ (size (dom held ∪ pins) < NBUF)%nat ->
  exists b s', bread ROOTDEV n s = Ok b s' /\ cached p (<[n := b]> held) pins c s' /\ wrote [] s s' /\
    (n ∉ pins -> dblock (k_disk s') n = c n).
Proof.
  intros [o H] Hn Hs. destruct (bread_spec p o held pins c n s H Hn Hs) as (b & s' & E & H' & B & Ed & Ew & _).
  exists b, s'. split; [done|]. split; [by exists o|]. split; [by split|]. intros Np. rewrite Ed. by apply (bu_disk H).
Qed.

Lemma bwrite_ok p held pins c n b s :
  cached p held pins c s -> held !! n = Some b -> bwrite b s = Ok tt (disk_put n (c n) s).
Proof. intros [o H]. by apply (bwrite_spec p o held pins). Qed.

Lemma brelse_ok p held pins c n b s :
  cached p held pins c s -> held !! n = Some b -> n ∈ pins \/ dblock (k_disk s) n = c n ->
  exists s', brelse b s = Ok tt s' /\ cached p (delete n held) pins c s' /\ wrote [] s s'.
Proof.
  intros [o H] Hn Hs. destruct (brelse_spec p o held pins c n b s H Hn Hs) as (s' & E & H' & B & Ed & Ew).
  exists s'. split; [done|]. split; [by eexists|by split].
Qed.

Lemma bunpin_ok p held pins c n b s :
  cached p held pins c s -> held !! n = Some b -> n ∈ pins ->
  exists s', bunpin b s = Ok tt s' /\ cached p held (pins ∖ {[n]}) c s' /\ wrote [] s s'.
Proof.
  intros [o H] Hn Hs. destruct (bunpin_spec p o held pins c n b s H Hn Hs) as (s' & E & H' & B & Ed & Ew).
  exists s'. split; [done|]. split; [by eexists|by split].
Qed.

End Ops.

(** ** The log in memory *)

(** The [i]th block of the log on disk; the header is at [lg_start]. *)
Definition log_at (lg : logstate) (i : nat) : Z := lg_start lg + Z.of_nat i + 1.

(** A block number outside the log. *)
Definition home (lg : logstate) (n : Z) : Prop :=
  0 <= n < 2147483648 /\ (n < lg_start lg \/ lg_start lg + lg_size lg <= n).

(** The log's parameters and the transaction's blocks [bs]. *)
Record log_ok (lg : logstate) (bs : list Z) : Prop := {
  lo_dev : lg_dev lg = ROOTDEV;
  lo_start : 0 <= lg_start lg;
  lo_size : lg_size lg <= LOGSIZE;
  lo_end : lg_start lg + lg_size lg < 2147483648;
  lo_n : lh_n lg = Z.of_nat (length bs);
  lo_fit : Z.of_nat (length bs) < lg_size lg;
  lo_block i b : bs !! i = Some b -> lh_get i lg = b;
  lo_home : Forall (home lg) bs;
  lo_nodup : NoDup bs }.

Section Blocks.
Context (lg : logstate) (bs : list Z) (OK : log_ok lg bs).

Lemma lo_home_at i b : bs !! i = Some b -> home lg b.
Proof. exact (proj1 (Forall_lookup _ _) (lo_home _ _ OK) i b). Qed.

Lemma home_not_log i b : (i < length bs)%nat -> home lg b -> b <> log_at lg i.
Proof. intros Hi [_ Hb]. pose proof (lo_fit _ _ OK). unfold log_at. lia. Qed.

Lemma home_not_head b : home lg b -> b <> lg_start lg.
Proof. intros [_ Hb]. pose proof (lo_fit _ _ OK). lia. Qed.

Lemma log_at_u32 i : (i < length bs)%nat -> u32 (lg_start lg + Z.of_nat i + 1) = log_at lg i.
Proof.
  intros Hi. destruct OK as [_ H1 _ H2 _ H3 _ _ _]. unfold log_at. apply u32_small. lia.
Qed.

Lemma lh_get_u32 i b : bs !! i = Some b -> u32 (lh_get i lg) = b.
Proof.
  intros Hi. rewrite (lo_block _ _ OK i b Hi). apply u32_small. destruct (lo_home_at i b Hi). lia.
Qed.

Lemma log_dev_u32 : u32 (lg_dev lg) = ROOTDEV.
Proof. by rewrite (lo_dev _ _ OK). Qed.

Lemma size_blocks : (size (list_to_set bs : gset Z) < NBUF)%nat.
Proof.
  rewrite size_list_to_set by apply (lo_nodup _ _ OK). pose proof (lo_fit _ _ OK). pose proof (lo_size _ _ OK).
  unfold LOGSIZE, NBUF, MAXOPBLOCKS in *. lia.
Qed.

Lemma log_at_not_block i : (i < length bs)%nat -> log_at lg i ∉ (list_to_set bs : gset Z).
Proof.
  intros Hi Hin. apply elem_of_list_to_set, list_elem_of_lookup in Hin as [j Hj].
  by apply (home_not_log i _ Hi (lo_home_at j _ Hj)).
Qed.

End Blocks.

Section Loops.
Context `{F : Fuel} `{D : DiskDriver} {DL : DiskLaws}.
Context (p : nat) (lg : logstate) (bs : list Z) (OK : log_ok lg bs).

#[local] Notation pinned := (list_to_set bs : gset Z).

(** *** write_log *)

Lemma log_block_ok c i b s :
  k_log s = lg -> bs !! i = Some b -> cached p ∅ pinned c s ->
  exists s', log_block i s = Ok tt s' /\ cached p ∅ pinned (<[log_at lg i := c b]> c) s' /\
    wrote [(log_at lg i, c b)] s s'.
Proof.
  intros El Hi C. pose proof (lookup_lt_Some _ _ _ Hi) as Li.
  pose proof (log_at_not_block lg bs OK i Li) as Np. set (a := log_at lg i) in *.
  assert (Nab : b <> a) by (by apply (home_not_log lg bs OK), (lo_home_at lg bs OK i)).
  assert (Pb : b ∈ pinned) by (apply elem_of_list_to_set; by eapply list_elem_of_lookup_2).
  destruct (bread_ok p ∅ pinned c a s C) as (t & s1 & E1 & C1 & W1 & D1); [done|right; rewrite dom_empty_L, union_empty_l_L; by eapply size_blocks|].
  destruct (bread_ok p _ pinned c b s1 C1) as (f & s2 & E2 & C2 & W2 & D2); [by rewrite lookup_insert_ne|by left|].
  set (held := <[b := f]> (<[a := t]> ∅)) in *.
  assert (Ht : held !! a = Some t) by (unfold held; rewrite lookup_insert_ne by done; apply lookup_insert_eq).
  assert (Hf : held !! b = Some f) by apply lookup_insert_eq.
  pose proof (cached_set_data p held pinned c s2 a t (c b) C2 Ht) as C3. set (s3 := upd_buf t _ s2) in *.
  pose proof (bwrite_ok p held pinned _ a t s3 C3 Ht) as E4. pose proof (cached_put p held pinned _ s3 a C3) as C4.
  rewrite fn_lookup_insert in E4, C4. set (s4 := disk_put a (c b) s3) in *.
  destruct (brelse_ok p held pinned _ b f s4 C4 Hf) as (s5 & E5 & C5 & W5); [by left|].
  destruct (brelse_ok p _ pinned _ a t s5 C5) as (s6 & E6 & C6 & W6); [by rewrite lookup_delete_ne| |].
  { right. destruct W5 as (_ & -> & _). cbn. unfold dblock. by rewrite lookup_insert_eq, fn_lookup_insert. }
  exists s6. split_and!.
  - unfold log_block. kprim. rewrite El, (log_dev_u32 lg bs OK), (log_at_u32 lg bs OK) by done. fold a.
    erewrite bind_ok; [|exact E1]. kprim. rewrite (wrote_log _ _ _ W1), El, (log_dev_u32 lg bs OK), (lh_get_u32 lg bs OK i b) by done.
    erewrite bind_ok; [|exact E2]. kprim. rewrite (cached_data _ _ _ _ _ _ _ C2 Hf). kprim. fold s3.
    erewrite bind_ok; [|exact E4]. erewrite bind_ok; [|exact E5]. exact E6.
  - replace (delete a (delete b held)) with (∅ : gmap Z nat) in C6; [exact C6|].
    unfold held. rewrite delete_insert_eq, delete_insert_ne, delete_empty, delete_insert_eq, delete_empty; done.
  - apply (wrote_trans [] [_] s s1); [done|]. apply (wrote_trans [] [_] s1 s2); [done|].
    apply (wrote_trans [] [_] s2 s3); [apply wrote_upd_buf|]. apply (wrote_trans [_] [] s3 s4); [apply wrote_disk_put|].
    by apply (wrote_trans [] [] s4 s5).
Qed.

(** The writes of write_log. *)
Definition log_ws (c : Z -> list Z) : list (Z * list Z) := imap (fun i b => (log_at lg i, c b)) bs.

Lemma log_ws_fst c : (log_ws c).*1 = log_at lg <$> seq 0 (length bs).
Proof.
  apply list_eq. intros i. unfold log_ws. rewrite !list_lookup_fmap, list_lookup_imap.
  destruct (decide (i < length bs)%nat) as [L|L].
  - rewrite lookup_seq_lt by done. destruct (lookup_lt_is_Some_2 bs i L) as [b ->]. done.
  - rewrite lookup_seq_ge, lookup_ge_None_2 by lia. done.
Qed.

Lemma log_ws_nodup c : NoDup (log_ws c).*1.
Proof. rewrite log_ws_fst. apply NoDup_fmap_2; [|apply NoDup_seq]. intros i j. unfold log_at. lia. Qed.

Lemma log_ws_home c k n : home lg n -> n ∉ (take k (log_ws c)).*1.
Proof.
  intros Hn Hin. rewrite fmap_take, log_ws_fst in Hin.
  apply elem_of_take in Hin as (i & Hi & _). apply list_lookup_fmap_Some in Hi as (j & -> & Hj).
  apply lookup_seq in Hj as [-> Hj]. by apply (home_not_log lg bs OK i) in Hn.
Qed.

Lemma write_log_ok c s :
  k_log s = lg -> cached p ∅ pinned c s ->
  exists s', write_log s = Ok tt s' /\ cached p ∅ pinned (upds c (log_ws c)) s' /\ wrote (log_ws c) s s'.
Proof.
  intros El C. unfold write_log. kprim. rewrite El, (lo_n _ _ OK), Nat2Z.id.
  destruct (foreach_seq log_block
    (fun i s' => cached p ∅ pinned (upds c (take i (log_ws c))) s' /\ wrote (take i (log_ws c)) s s') (length bs) s)
    as (s' & E & Cs & Ws).
  - intros i s1 Li [C1 W1]. destruct (lookup_lt_is_Some_2 bs i Li) as [b Hb].
    destruct (log_block_ok _ i b s1 (eq_trans (wrote_log _ _ _ W1) El) Hb C1) as (s2 & E2 & C2 & W2).
    rewrite upds_out in C2, W2 by (by apply log_ws_home, (lo_home_at lg bs OK i)).
    assert (Ews : log_ws c !! i = Some (log_at lg i, c b)) by (unfold log_ws; by rewrite list_lookup_imap, Hb).
    exists s2. split; [done|]. rewrite (take_S_r _ _ _ Ews). split; [by rewrite upds_app|].
    by apply (wrote_trans _ [_] s s1).
  - rewrite take_0. split; [done|apply wrote_nil].
  - rewrite take_ge in Cs, Ws by (unfold log_ws; by rewrite length_imap). by exists s'.
Qed.

(** *** write_head *)

Definition header (l : list Z) (d : list Z) : list Z := put_words 0 (Z.of_nat (length l) :: l) d.

Lemma put_words_snoc off ws w d : put_words off (ws ++ [w]) d = put32 (off + 4 * length ws) w (put_words off ws d).
Proof.
  revert off d. induction ws as [|v ws IH]; intros off d.
  - cbn [app put_words length]. f_equal. lia.
  - cbn [app put_words length]. rewrite IH. f_equal. lia.
Qed.

Lemma upd_data b h s :
  upd_buf b (fun q => set_b_data (h (b_data q)) q) s = upd_buf b (set_b_data (h (b_data (buf_at b s)))) s.
Proof. unfold upd_buf. f_equal. by apply alter_ext_at. Qed.

Lemma cached_upd_data held pins c s n b h :
  cached p held pins c s -> held !! n = Some b ->
  cached p held pins (<[n := h (c n)]> c) (upd_buf b (fun q => set_b_data (h (b_data q)) q) s).
Proof.
  intros C Hn. rewrite upd_data, (cached_data _ _ _ _ _ _ _ C Hn). by apply cached_set_data.
Qed.

Lemma write_head_ok (l : list Z) pins c s :
  lg_dev (k_log s) = ROOTDEV -> 0 <= lg_start (k_log s) < 2147483648 ->
  lh_n (k_log s) = Z.of_nat (length l) -> (forall i b, l !! i = Some b -> lh_get i (k_log s) = b) ->
  cached p ∅ pins c s -> lg_start (k_log s) ∉ pins -> (size pins < NBUF)%nat ->
  let h := header l (c (lg_start (k_log s))) in
  exists s', write_head s = Ok tt s' /\ cached p ∅ pins (<[lg_start (k_log s) := h]> c) s' /\
    wrote [(lg_start (k_log s), h)] s s'.
Proof.
  intros Ed Es En Eb C Np Sz h. set (a := lg_start (k_log s)) in *.
  destruct (bread_ok p ∅ pins c a s C) as (t & s1 & E1 & C1 & W1 & D1); [done|right; by rewrite dom_empty_L, union_empty_l_L|].
  set (held := <[a := t]> ∅) in *. assert (Ht : held !! a = Some t) by apply lookup_insert_eq.
  pose proof (wrote_log _ _ _ W1) as L1.
  pose proof (cached_upd_data held pins c s1 a t (put32 0 (lh_n (k_log s))) C1 Ht) as C2.
  set (s2 := upd_buf t _ s1) in *. set (c2 := <[a := _]> c) in *.
  destruct (foreach_seq (fun i => let! v := getl (lh_get i) in
      setb t (fun q => set_b_data (put32 (4 + 4 * i) v (b_data q)) q))
    (fun i s' => cached p held pins (<[a := put_words 4 (take i l) (c2 a)]> c) s' /\ wrote [] s2 s') (length l) s2)
    as (s3 & E3 & C3 & W3).
  - intros i s3 Li [C3 W3]. destruct (lookup_lt_is_Some_2 l i Li) as [b Hb]. kprim.
    rewrite (wrote_log _ _ _ W3). change (k_log s2) with (k_log s1). rewrite L1, (Eb i b Hb).
    eexists. split; [reflexivity|]. split; [|apply (wrote_trans [] [] s2 s3); [done|apply wrote_upd_buf]].
    eapply cached_ext; [by apply cached_upd_data|]. intros n. rewrite (take_S_r _ _ _ Hb), put_words_snoc.
    rewrite length_take_le, fn_lookup_insert by lia.
    destruct (decide (a = n)) as [<-|N]; [by rewrite !fn_lookup_insert|by rewrite !fn_lookup_insert_ne].
  - rewrite take_0. split; [|apply wrote_nil]. eapply cached_ext; [exact C2|]. intros n. unfold c2. cbn [put_words].
    destruct (decide (a = n)) as [<-|N]; [by rewrite !fn_lookup_insert|by rewrite !fn_lookup_insert_ne].
  - rewrite take_ge in C3 by lia.
    assert (Eh : put_words 4 l (c2 a) = h).
    { unfold c2, h, header. rewrite fn_lookup_insert, En. reflexivity. }
    rewrite Eh in C3. clear Eh.
    pose proof (bwrite_ok p held pins _ a t s3 C3 Ht) as E4. pose proof (cached_put p held pins _ s3 a C3) as C4.
    rewrite fn_lookup_insert in E4, C4. set (s4 := disk_put a h s3) in *.
    destruct (brelse_ok p held pins _ a t s4 C4 Ht) as (s5 & E5 & C5 & W5).
    { right. unfold dblock, s4, disk_put. ksimpl. by rewrite lookup_insert_eq, fn_lookup_insert. }
    exists s5. split_and!.
    + unfold write_head. kprim. rewrite Ed. change (u32 ROOTDEV) with ROOTDEV. rewrite u32_small by lia. fold a.
      erewrite bind_ok; [|exact E1]. kprim. rewrite L1. kprim. fold s2. rewrite En, Nat2Z.id.
      erewrite bind_ok; [|exact E3]. erewrite bind_ok; [|exact E4]. exact E5.
    + unfold held in C5. by rewrite delete_insert_eq, delete_empty in C5.
    + apply (wrote_trans [] [_] s s1); [done|]. apply (wrote_trans [] [_] s1 s2); [apply wrote_upd_buf|].
      apply (wrote_trans [] [_] s2 s3); [done|]. apply (wrote_trans [_] [] s3 s4); [apply wrote_disk_put|done].
Qed.

(** *** install_trans *)

Lemma install_block_ok (recovering : bool) pins c i b s :
  k_log s = lg -> bs !! i = Some b -> cached p ∅ pins c s -> pins ⊆ pinned ->
  (if recovering then pins = ∅ else b ∈ pins) ->
  exists s', install_block recovering i s = Ok tt s' /\
    cached p ∅ (pins ∖ {[b]}) (<[b := c (log_at lg i)]> c) s' /\ wrote [(b, c (log_at lg i))] s s'.
Proof.
  intros El Hi C Sub Hr. pose proof (lookup_lt_Some _ _ _ Hi) as Li.
  pose proof (log_at_not_block lg bs OK i Li) as Na. set (a := log_at lg i) in *.
  assert (Np : a ∉ pins) by set_solver.
  assert (Nab : b <> a) by (by apply (home_not_log lg bs OK), (lo_home_at lg bs OK i)).
  assert (Sz : (size pins < NBUF)%nat).
  { apply subseteq_size in Sub. pose proof (size_blocks lg bs OK). lia. }
  destruct (bread_ok p ∅ pins c a s C) as (t & s1 & E1 & C1 & W1 & D1); [done|right; by rewrite dom_empty_L, union_empty_l_L|].
  destruct (bread_ok p _ pins c b s1 C1) as (f & s2 & E2 & C2 & W2 & D2).
  { by rewrite lookup_insert_ne. }
  { destruct recovering; [right|by left]. subst pins. rewrite union_empty_r_L, dom_insert_L, dom_empty_L, union_empty_r_L.
    rewrite size_singleton. unfold NBUF, MAXOPBLOCKS. lia. }
  set (held := <[b := f]> (<[a := t]> ∅)) in *.
  assert (Ht : held !! a = Some t) by (unfold held; rewrite lookup_insert_ne by done; apply lookup_insert_eq).
  assert (Hf : held !! b = Some f) by apply lookup_insert_eq.
  pose proof (cached_set_data p held pins c s2 b f (c a) C2 Hf) as C3. set (s3 := upd_buf f _ s2) in *.
  pose proof (bwrite_ok p held pins _ b f s3 C3 Hf) as E4. pose proof (cached_put p held pins _ s3 b C3) as C4.
  rewrite fn_lookup_insert in E4, C4. set (s4 := disk_put b (c a) s3) in *. set (c4 := <[b := c a]> c) in *.
  assert (U : exists s5, when (negb recovering) (bunpin f) s4 = Ok tt s5 /\ cached p held (pins ∖ {[b]}) c4 s5 /\ wrote [] s4 s5).
  { destruct recovering; [|by apply bunpin_ok]. exists s4. subst pins. split; [done|].
    split; [|apply wrote_nil]. by replace (∅ ∖ {[b]} : gset Z) with (∅ : gset Z) by set_solver. }
  destruct U as (s5 & E5 & C5 & W5).
  assert (D5 : dblock (k_disk s5) a = c4 a /\ dblock (k_disk s5) b = c4 b).
  { destruct W5 as (_ & -> & _). cbn [puts foldl]. unfold c4. rewrite fn_lookup_insert, fn_lookup_insert_ne by done.
    unfold s4, disk_put, dblock. ksimpl. rewrite lookup_insert_eq, lookup_insert_ne by congruence. split; [|done].
    change (k_disk s3) with (k_disk s2). destruct W2 as (_ & -> & _). by apply D1. }
  destruct (brelse_ok p held _ _ a t s5 C5 Ht) as (s6 & E6 & C6 & W6); [right; apply D5|].
  destruct (brelse_ok p _ _ _ b f s6 C6) as (s7 & E7 & C7 & W7); [by rewrite lookup_delete_ne| |].
  { right. destruct W6 as (_ & -> & _). apply D5. }
  exists s7. split_and!.
  - unfold install_block. kprim. rewrite El, (log_dev_u32 lg bs OK), (log_at_u32 lg bs OK) by done. fold a.
    erewrite bind_ok; [|exact E1]. kprim. rewrite (wrote_log _ _ _ W1), El, (log_dev_u32 lg bs OK), (lh_get_u32 lg bs OK i b) by done.
    erewrite bind_ok; [|exact E2]. kprim. rewrite (cached_data _ _ _ _ _ _ _ C2 Ht). kprim. fold s3.
    erewrite bind_ok; [|exact E4]. erewrite bind_ok; [|exact E5]. erewrite bind_ok; [|exact E6]. exact E7.
  - replace (delete b (delete a held)) with (∅ : gmap Z nat) in C7; [exact C7|].
    unfold held. rewrite delete_insert_ne, !delete_insert_eq, !delete_empty; done.
  - apply (wrote_trans [] [_] s s1); [done|]. apply (wrote_trans [] [_] s1 s2); [done|].
    apply (wrote_trans [] [_] s2 s3); [apply wrote_upd_buf|]. apply (wrote_trans [_] [] s3 s4); [apply wrote_disk_put|].
    apply (wrote_trans [] [] s4 s5); [done|]. by apply (wrote_trans [] [] s5 s6).
Qed.

(** The writes of install_trans. *)
Definition home_ws (c : Z -> list Z) : list (Z * list Z) := imap (fun i b => (b, c (log_at lg i))) bs.

Lemma home_ws_fst c : (home_ws c).*1 = bs.
Proof.
  apply list_eq. intros i. unfold home_ws. rewrite !list_lookup_fmap, list_lookup_imap. by destruct (bs !! i).
Qed.

Lemma home_ws_log c k i : (i < length bs)%nat -> log_at lg i ∉ (take k (home_ws c)).*1.
Proof.
  intros Li Hin. rewrite fmap_take, home_ws_fst in Hin. apply elem_of_take in Hin as (j & Hj & _).
  by apply (home_not_log lg bs OK i _ Li (lo_home_at lg bs OK j _ Hj)).
Qed.

Lemma install_trans_ok (recovering : bool) c s :
  k_log s = lg -> cached p ∅ (if recovering then ∅ else pinned) c s ->
  exists s', install_trans recovering s = Ok tt s' /\ cached p ∅ ∅ (upds c (home_ws c)) s' /\ wrote (home_ws c) s s'.
Proof.
  intros El C. unfold install_trans. kprim. rewrite El, (lo_n _ _ OK), Nat2Z.id.
  set (pins := fun i : nat => if recovering then ∅ else list_to_set (drop i bs) : gset Z).
  destruct (foreach_seq (install_block recovering)
    (fun i s' => cached p ∅ (pins i) (upds c (take i (home_ws c))) s' /\ wrote (take i (home_ws c)) s s') (length bs) s)
    as (s' & E & Cs & Ws).
  - intros i s1 Li [C1 W1]. destruct (lookup_lt_is_Some_2 bs i Li) as [b Hb].
    pose proof (drop_S _ _ _ Hb) as Ed.
    assert (Nb : b ∉ drop (S i) bs).
    { pose proof (lo_nodup _ _ OK) as ND. rewrite <- (take_drop i bs), Ed in ND.
      apply list.NoDup_app in ND as (_ & _ & ND). by apply list.NoDup_cons in ND as [? _]. }
    destruct (install_block_ok recovering (pins i) _ i b s1 (eq_trans (wrote_log _ _ _ W1) El) Hb C1) as (s2 & E2 & C2 & W2).
    { unfold pins. destruct recovering; [set_solver|]. intros x. rewrite !elem_of_list_to_set. apply (elem_of_drop_sub i bs x). }
    { unfold pins. destruct recovering; [done|]. rewrite Ed. set_solver. }
    rewrite upds_out in C2, W2 by (by apply home_ws_log).
    assert (Ews : home_ws c !! i = Some (b, c (log_at lg i))) by (unfold home_ws; by rewrite list_lookup_imap, Hb).
    exists s2. split; [done|]. rewrite (take_S_r _ _ _ Ews). split; [|by apply (wrote_trans _ [_] s s1)].
    rewrite upds_app. replace (pins (S i)) with (pins i ∖ {[b]}); [exact C2|].
    unfold pins. destruct recovering; [set_solver|]. rewrite Ed. apply set_eq. set_solver.
  - rewrite take_0. split; [|apply wrote_nil]. unfold pins. by rewrite drop_0.
  - rewrite take_ge in Cs, Ws by (unfold home_ws; by rewrite length_imap). exists s'. split_and!; try done.
    unfold pins in Cs. rewrite drop_ge in Cs by lia. by destruct recovering.
Qed.

End Loops.
