(* ===== verification/Commit.v ===== *)
(** * Commit and recovery

    The writes of a whole commit, the effect of recovery on a disk, and what the two give
    together: recovery after a crash during commit finds all of the transaction's blocks
    or none. *)

From S2P Require Import Prelude Memory Riscv State Kmonad Spinlock Proc ProcSpec CoYield Sched Sleeplock Bytes Bio Log Calm Lru BioSpec LogSpec.
From Stdlib Require Import ZArith Lia.
From stdpp Require Import base numbers list gmap strings option functions.

#[local] Open Scope Z_scope.
#[local] Open Scope kernel_scope.

(** Only the cache and the log in memory changed, and the disk by the writes [ws]. *)
Definition logged (ws : list (Z * list Z)) (s s' : kstate) : Prop :=
  wrote ws s (set_k_log (k_log s) s').

Lemma wrote_logged ws s s' : wrote ws s s' -> logged ws s s'.
Proof.
  intros W. unfold logged. rewrite <- (wrote_log _ _ _ W). by replace (set_k_log (k_log s') s') with s' by (by destruct s').
Qed.

Lemma logged_setl f s : logged [] s (upd_log f s).
Proof. unfold logged, upd_log. replace (set_k_log _ _) with s by (by destruct s). apply wrote_nil. Qed.

Lemma bio_only_set_log lg s s' : bio_only s s' -> bio_only (set_k_log lg s) (set_k_log lg s').
Proof.
  intros (bc & sl & ps & d & w & -> & W & I). exists bc, sl, ps, d, w. split_and!; try done; by destruct s.
Qed.

Lemma logged_trans ws1 ws2 s s1 s2 : logged ws1 s s1 -> logged ws2 s1 s2 -> logged (ws1 ++ ws2) s s2.
Proof.
  intros W1 (B2 & D2 & E2). apply (wrote_trans ws1 ws2 s (set_k_log (k_log s) s1)); [exact W1|].
  split; [|done]. apply (bio_only_set_log (k_log s)) in B2.
  replace (set_k_log (k_log s) s2) with (set_k_log (k_log s) (set_k_log (k_log s1) s2)) by (by destruct s2). exact B2.
Qed.

Lemma logged_disk ws s s' : logged ws s s' -> k_disk s' = puts (k_disk s) ws.
Proof. by intros (_ & E & _). Qed.
Lemma logged_writes ws s s' : logged ws s s' -> k_writes s' = rev ws ++ k_writes s.
Proof. by intros (_ & _ & E). Qed.

Lemma cached_setl p held pins c s f : cached p held pins c s -> cached p held pins c (upd_log f s).
Proof.
  intros C. apply (cached_other p held pins c s); try done. apply (calm_ext p s); try done. by eapply cached_calm.
Qed.

(** ** Headers *)

Lemma get_header l d :
  (4 + 4 * length l <= length d)%nat -> get32 0 (header l d) = u32 (Z.of_nat (length l)).
Proof. intros L. unfold header. apply (get32_put_words 0 _ d 0); [cbn [length]; lia|done]. Qed.

Lemma get_header_block l d i b :
  (4 + 4 * length l <= length d)%nat -> l !! i = Some b -> get32 (4 + 4 * i) (header l d) = u32 b.
Proof.
  intros L Hi. unfold header. change (4 + 4 * i)%nat with (0 + 4 + 4 * i)%nat.
  replace (0 + 4 + 4 * i)%nat with (0 + 4 * S i)%nat by lia. apply (get32_put_words 0 _ d (S i)); [cbn [length]; lia|done].
Qed.

Lemma length_header l d : (4 + 4 * length l <= length d)%nat -> length (header l d) = length d.
Proof. intros L. unfold header. apply length_put_words. cbn [length]. lia. Qed.

Lemma i32_u32 x : -2147483648 <= x < 2147483648 -> i32 (u32 x) = x.
Proof. intros H. unfold i32, u32. rewrite Zplus_mod_idemp_l. zlia. Qed.

Section Commit.
Context `{F : Fuel} `{D : DiskDriver} {DL : DiskLaws}.

(** ** Commit *)

(** The transaction's blocks at home. *)
Definition final_ws (bs : list Z) (c : Z -> list Z) : list (Z * list Z) := (fun b => (b, c b)) <$> bs.

Definition commit_ws (lg : logstate) (bs : list Z) (c : Z -> list Z) : list (Z * list Z) :=
  let h := header bs (c (lg_start lg)) in
  log_ws lg bs c ++ (lg_start lg, h) :: final_ws bs c ++ [(lg_start lg, header [] h)].

Lemma head_not_log lg bs c k : log_ok lg bs -> lg_start lg ∉ (take k (log_ws lg bs c)).*1.
Proof.
  intros OK Hin. rewrite fmap_take, log_ws_fst in Hin. apply elem_of_take in Hin as (i & Hi & _).
  apply list_lookup_fmap_Some in Hi as (j & E & _). unfold log_at in E. lia.
Qed.

Lemma upds_log_ws lg bs c i b : bs !! i = Some b -> upds c (log_ws lg bs c) (log_at lg i) = c b.
Proof.
  intros Hi. apply upds_in; [apply log_ws_nodup|]. apply (list_elem_of_lookup_2 _ i).
  unfold log_ws. by rewrite list_lookup_imap, Hi.
Qed.

Lemma commit_ok p lg bs c s :
  log_ok lg bs -> bs <> [] -> k_log s = lg -> cached p ∅ (list_to_set bs) c s ->
  exists s', commit s = Ok tt s' /\ cached p ∅ ∅ (upds c (commit_ws lg bs c)) s' /\
    k_log s' = set_lh_n 0 lg /\ logged (commit_ws lg bs c) s s'.
Proof.
  intros OK Hne El C. pose proof (lo_fit _ _ OK) as Fit. pose proof (lo_start _ _ OK) as St. pose proof (lo_end _ _ OK) as En.
  assert (Nh : lg_start lg ∉ (list_to_set bs : gset Z)).
  { intros Hin. apply elem_of_list_to_set, list_elem_of_lookup in Hin as [i Hi].
    by apply (home_not_head lg bs OK _ (lo_home_at lg bs OK i _ Hi)). }
  destruct (write_log_ok p lg bs OK c s El C) as (s1 & E1 & C1 & W1).
  pose proof (wrote_log _ _ _ W1) as L1. rewrite El in L1. set (c1 := upds c _) in C1.
  assert (Eh : c1 (lg_start lg) = c (lg_start lg)).
  { unfold c1. apply upds_out. rewrite <- (take_ge (log_ws lg bs c) (length bs)); [by apply head_not_log|].
    unfold log_ws. by rewrite length_imap. }
  destruct (write_head_ok p bs (list_to_set bs) c1 s1) as (s2 & E2 & C2 & W2); rewrite ?L1; try done;
    try apply OK.
  { lia. }
  { by eapply size_blocks. }
  rewrite L1 in C2, W2. rewrite Eh in C2, W2. set (h := header bs _) in *. set (c2 := <[lg_start lg := h]> c1) in *.
  pose proof (wrote_log _ _ _ W2) as L2. rewrite L1 in L2.
  destruct (install_trans_ok p lg bs OK false c2 s2 L2 C2) as (s3 & E3 & C3 & W3).
  assert (Ew : home_ws lg bs c2 = final_ws bs c).
  { apply list_eq. intros i. unfold home_ws, final_ws. rewrite list_lookup_imap, list_lookup_fmap.
    destruct (bs !! i) as [b|] eqn:Hi; [|done]. cbn [fmap option_fmap option_map]. f_equal. f_equal.
    unfold c2. rewrite fn_lookup_insert_ne by (unfold log_at; lia). by apply upds_log_ws. }
  rewrite Ew in C3, W3. pose proof (wrote_log _ _ _ W3) as L3. rewrite L2 in L3.
  assert (Eh3 : upds c2 (final_ws bs c) (lg_start lg) = h).
  { rewrite upds_out; [apply fn_lookup_insert|]. rewrite <- Ew, home_ws_fst. set_solver. }
  pose proof (cached_setl _ _ _ _ _ (set_lh_n 0) C3) as C4. set (s4 := upd_log (set_lh_n 0) s3) in *.
  assert (L4 : k_log s4 = set_lh_n 0 lg) by (by rewrite <- L3).
  destruct (write_head_ok p [] ∅ (upds c2 (final_ws bs c)) s4) as (s5 & E5 & C5 & W5); rewrite ?L4; try done; try apply OK.
  { cbn. lia. }
  { rewrite size_empty. unfold NBUF, MAXOPBLOCKS. lia. }
  rewrite L4 in C5, W5. change (lg_start (set_lh_n 0 lg)) with (lg_start lg) in C5, W5. rewrite Eh3 in C5, W5.
  exists s5. split_and!.
  - unfold commit. kprim. rewrite El, (lo_n _ _ OK).
    replace (0 <? Z.of_nat (length bs)) with true by (destruct bs; [done|symmetry; apply Z.ltb_lt; cbn; lia]). cbn [when].
    erewrite bind_ok; [|exact E1]. erewrite bind_ok; [|exact E2]. erewrite bind_ok; [|exact E3].
    erewrite bind_ok; [|reflexivity]. exact E5.
  - unfold commit_ws. fold h. rewrite upds_app. fold c1. cbn [upds foldl fst snd].
    change (cached p ∅ ∅ (upds c2 (final_ws bs c ++ [(lg_start lg, header [] h)])) s5). by rewrite upds_app.
  - by rewrite (wrote_log _ _ _ W5).
  - apply (logged_trans _ (_ :: _) s s1); [by apply wrote_logged|].
    apply (logged_trans [_] (_ ++ _) s1 s2); [by apply wrote_logged|].
    apply (logged_trans _ [_] s2 s3); [by apply wrote_logged|].
    apply (logged_trans [] [_] s3 s4); [apply logged_setl|by apply wrote_logged].
Qed.

(** ** Recovery *)

(** The part of the log that recovery keeps. *)
Definition same_log (lg lg' : logstate) : Prop :=
  lg_dev lg' = lg_dev lg /\ lg_start lg' = lg_start lg /\ lg_size lg' = lg_size lg /\
  lg_outstanding lg' = lg_outstanding lg /\ lg_committing lg' = lg_committing lg /\
  length (lh_block lg') = length (lh_block lg).

(** The header block [d] lists the blocks [l]. *)
Definition lists_blocks (l : list Z) (d : list Z) : Prop :=
  i32 (get32 0 d) = Z.of_nat (length l) /\
  forall i b, l !! i = Some b -> i32 (get32 (4 + 4 * i) d) = b.

Lemma header_lists l d :
  (4 + 4 * length l <= length d)%nat -> (length l <= Z.to_nat LOGSIZE)%nat ->
  Forall (fun b => 0 <= b < 2147483648) l -> lists_blocks l (header l d).
Proof.
  intros Ld Ll R. unfold LOGSIZE, MAXOPBLOCKS in Ll. split.
  - rewrite get_header, i32_u32 by lia. done.
  - intros i b Hi. rewrite (get_header_block l d i b), i32_u32; try done.
    pose proof (proj1 (Forall_lookup _ _) R i b Hi). cbn in *. lia.
Qed.

Lemma read_head_ok p l c s :
  let lg := k_log s in
  lg_dev lg = ROOTDEV -> 0 <= lg_start lg < 2147483648 -> length (lh_block lg) = Z.to_nat LOGSIZE ->
  lists_blocks l (c (lg_start lg)) -> (length l <= Z.to_nat LOGSIZE)%nat -> cached p ∅ ∅ c s ->
  exists s', read_head s = Ok tt s' /\ cached p ∅ ∅ c s' /\ logged [] s s' /\
    same_log lg (k_log s') /\ lh_n (k_log s') = Z.of_nat (length l) /\
    forall i b, l !! i = Some b -> lh_get i (k_log s') = b.
Proof.
  intros lg Ed Es Elen [Hn Hb] Ll C. set (a := lg_start lg) in *.
  destruct (bread_ok p ∅ ∅ c a s C) as (t & s1 & E1 & C1 & W1 & D1);
    [done|right; rewrite dom_empty_L, union_empty_l_L, size_empty; unfold NBUF, MAXOPBLOCKS; lia|].
  set (held := <[a := t]> ∅) in *. assert (Ht : held !! a = Some t) by apply lookup_insert_eq.
  pose proof (wrote_log _ _ _ W1) as L1. fold lg in L1.
  pose proof (cached_setl _ _ _ _ _ (set_lh_n (Z.of_nat (length l))) C1) as C2. set (s2 := upd_log _ s1) in *.
  set (body := fun i => setl (fun lg => set_lh_block (<[i := i32 (get32 (4 + 4 * i) (c a))]> (lh_block lg)) lg)).
  destruct (foreach_seq body
    (fun i s' => cached p held ∅ c s' /\ logged [] s1 s' /\ same_log lg (k_log s') /\
       lh_n (k_log s') = Z.of_nat (length l) /\ forall j b, (j < i)%nat -> l !! j = Some b -> lh_get j (k_log s') = b)
    (length l) s2) as (s3 & E3 & C3 & W3 & P3 & N3 & G3).
  - intros i s3 Li (C3 & W3 & P3 & N3 & G3). eexists. split; [reflexivity|]. split_and!.
    + by apply cached_setl.
    + apply (logged_trans [] [] s1 s3); [done|apply logged_setl].
    + destruct P3 as (? & ? & ? & ? & ? & P3). unfold same_log. split_and!; try done. cbn. by rewrite length_insert.
    + done.
    + intros j b Lj Hj. unfold lh_get. cbn. destruct (decide (i = j)) as [<-|N].
      * rewrite list_lookup_total_insert_eq; [by apply Hb|]. destruct P3 as (_ & _ & _ & _ & _ & ->). rewrite Elen.
        apply lookup_lt_Some in Hj. lia.
      * rewrite list_lookup_total_insert_ne by done. apply G3; [lia|done].
  - split_and!; try done; [apply logged_setl|by unfold same_log, s2; cbn; rewrite L1..|lia].
  - destruct (brelse_ok p held ∅ c a t s3 C3 Ht) as (s4 & E4 & C4 & W4).
    { right. rewrite (logged_disk _ _ _ W3). by apply D1. }
    pose proof (wrote_log _ _ _ W4) as L4. exists s4. rewrite L4. split_and!; try done.
    + unfold read_head. kprim. fold lg. rewrite Ed. change (u32 ROOTDEV) with ROOTDEV. fold a. rewrite u32_small by lia.
      erewrite bind_ok; [|exact E1]. kprim. rewrite (cached_data _ _ _ _ _ _ _ C1 Ht), Hn. kprim. fold s2.
      replace (LOGSIZE <? Z.of_nat (length l)) with false by (symmetry; apply Z.ltb_ge; unfold LOGSIZE, MAXOPBLOCKS in *; lia).
      rewrite Nat2Z.id. erewrite bind_ok; [|exact E3]. exact E4.
    + unfold held in C4. by rewrite delete_insert_eq, delete_empty in C4.
    + apply (logged_trans [] [] s s1); [by apply wrote_logged|]. apply (logged_trans [] [] s1 s3); [done|by apply wrote_logged].
    + intros i b Hi. apply G3; [|done]. by apply lookup_lt_Some in Hi.
Qed.

Definition recover_ws (lg : logstate) (l : list Z) (c : Z -> list Z) : list (Z * list Z) :=
  home_ws lg l c ++ [(lg_start lg, header [] (c (lg_start lg)))].

Lemma recover_ok p l c s :
  let lg := k_log s in
  lg_dev lg = ROOTDEV -> 0 <= lg_start lg -> lg_size lg <= LOGSIZE -> lg_start lg + lg_size lg < 2147483648 ->
  length (lh_block lg) = Z.to_nat LOGSIZE -> Z.of_nat (length l) < lg_size lg -> Forall (home lg) l -> NoDup l ->
  lists_blocks l (c (lg_start lg)) -> cached p ∅ ∅ c s ->
  exists s', recover_from_log s = Ok tt s' /\ cached p ∅ ∅ (upds c (recover_ws lg l c)) s' /\
    logged (recover_ws lg l c) s s' /\ same_log lg (k_log s') /\ lh_n (k_log s') = 0.
Proof.
  intros lg H1 H2 H3 H4 H5 H6 H7 H8 H9 C.
  destruct (read_head_ok p l c s) as (s1 & E1 & C1 & W1 & P1 & N1 & G1); fold lg; try done; [lia|unfold LOGSIZE, MAXOPBLOCKS in *; lia|].
  fold lg in P1. pose proof P1 as (P1a & P1b & P1c & P1d & P1e & P1f).
  assert (OK : log_ok (k_log s1) l).
  { split; rewrite ?P1a, ?P1b, ?P1c; try done. eapply List.Forall_impl; [|exact H7]. unfold home. by rewrite P1b, P1c. }
  destruct (install_trans_ok p (k_log s1) l OK true c s1 eq_refl C1) as (s2 & E2 & C2 & W2).
  assert (Ew : home_ws (k_log s1) l c = home_ws lg l c) by (unfold home_ws, log_at; by rewrite P1b). rewrite Ew in C2, W2.
  pose proof (wrote_log _ _ _ W2) as L2.
  pose proof (cached_setl _ _ _ _ _ (set_lh_n 0) C2) as C3. set (s3 := upd_log (set_lh_n 0) s2) in *.
  assert (P3 : same_log lg (k_log s3)) by (unfold s3; cbn; rewrite L2; exact P1).
  pose proof P3 as (P3a & P3b & P3c & P3d & P3e & P3f).
  destruct (write_head_ok p [] ∅ (upds c (home_ws lg l c)) s3) as (s4 & E4 & C4 & W4); rewrite ?P3a, ?P3b; try done.
  { lia. }
  { rewrite size_empty. unfold NBUF, MAXOPBLOCKS. lia. }
  assert (Eh : upds c (home_ws lg l c) (lg_start lg) = c (lg_start lg)).
  { apply upds_out. rewrite home_ws_fst. intros [i Hi]%list_elem_of_lookup.
    pose proof (proj1 (Forall_lookup _ _) H7 i _ Hi) as Hh. unfold home in Hh. lia. }
  rewrite P3b, Eh in C4, W4.
  exists s4. split_and!.
  - unfold recover_from_log. erewrite bind_ok; [|exact E1]. erewrite bind_ok; [|exact E2]. erewrite bind_ok; [|reflexivity]. exact E4.
  - unfold recover_ws. by rewrite upds_app.
  - apply (logged_trans [] _ s s1); [done|]. apply (logged_trans _ _ s1 s2); [by apply wrote_logged|].
    apply (logged_trans [] [_] s2 s3); [apply logged_setl|by apply wrote_logged].
  - by rewrite (wrote_log _ _ _ W4).
  - by rewrite (wrote_log _ _ _ W4).
Qed.

End Commit.

(** ** A crash during commit *)

Section Crash.
Context (lg : logstate) (bs : list Z) (OK : log_ok lg bs) (c : Z -> list Z) (d : gmap Z (list Z)).
Context (Hc : forall n, n ∉ bs -> dblock d n = c n).
Context (Hlen : length (c (lg_start lg)) = Z.to_nat BSIZE).

#[local] Notation start := (lg_start lg).
#[local] Notation h := (header bs (c start)).

Lemma start_not_block : start ∉ bs.
Proof. intros [i Hi]%list_elem_of_lookup. by apply (home_not_head lg bs OK _ (lo_home_at lg bs OK i _ Hi)). Qed.

Lemma final_ws_fst l : (final_ws l c).*1 = l.
Proof. unfold final_ws. rewrite <- list_fmap_compose. apply list_fmap_id. Qed.

Lemma final_ws_at e n : n ∈ bs -> upds e (final_ws bs c) n = c n.
Proof.
  intros Hn. apply upds_in; [rewrite final_ws_fst; apply OK|]. unfold final_ws. apply list_elem_of_fmap. by exists n.
Qed.

Lemma header_fits : (4 + 4 * length bs <= length (c start))%nat.
Proof. pose proof (lo_fit _ _ OK). pose proof (lo_size _ _ OK). rewrite Hlen. unfold LOGSIZE, MAXOPBLOCKS, BSIZE in *. lia. Qed.

Lemma log_ws_all : take (length bs) (log_ws lg bs c) = log_ws lg bs c.
Proof. apply take_ge. unfold log_ws. by rewrite length_imap. Qed.

(** Before the header is written, recovery finds an empty log. *)
Lemma crash_before k e :
  get32 0 (c start) = 0 -> (forall n, e n = upds (dblock d) (take k (log_ws lg bs c)) n) ->
  lists_blocks [] (e start) /\ forall n, home lg n -> upds e (recover_ws lg [] e) n = dblock d n.
Proof.
  intros H0 He. split.
  - rewrite He, upds_out by (by apply head_not_log). rewrite Hc by apply start_not_block. split; [by rewrite H0|done].
  - intros n Hn. rewrite upds_out, He, upds_out; [done|by apply log_ws_home|].
    intros [->|E%not_elem_of_nil]%elem_of_cons; [|done]. by apply (home_not_head lg bs OK _ Hn).
Qed.

(** After the header is written and before it is erased, recovery redoes the transaction. *)
Lemma crash_between j e :
  (forall n, e n = upds (dblock d) (log_ws lg bs c ++ (start, h) :: take j (final_ws bs c)) n) ->
  lists_blocks bs (e start) /\ forall n, home lg n -> upds e (recover_ws lg bs e) n = c n.
Proof.
  intros He.
  assert (Nj : forall n, n ∉ bs -> n ∉ (take j (final_ws bs c)).*1).
  { intros n Hn. rewrite fmap_take, final_ws_fst. intros (i & Hi & _)%elem_of_take. apply Hn. by eapply list_elem_of_lookup_2. }
  assert (Eh : e start = h).
  { rewrite He, upds_app. cbn [upds foldl fst snd]. change (upds (<[start := h]> (upds (dblock d) (log_ws lg bs c))) (take j (final_ws bs c)) start = h).
    rewrite upds_out by apply Nj, start_not_block. apply fn_lookup_insert. }
  assert (El : forall i b, bs !! i = Some b -> e (log_at lg i) = c b).
  { intros i b Hi. pose proof (lookup_lt_Some _ _ _ Hi) as Li. rewrite He, upds_app.
    change (upds (<[start := h]> (upds (dblock d) (log_ws lg bs c))) (take j (final_ws bs c)) (log_at lg i) = c b).
    rewrite upds_out.
    - rewrite fn_lookup_insert_ne by (unfold log_at; lia). apply upds_in; [apply log_ws_nodup|].
      apply (list_elem_of_lookup_2 _ i). unfold log_ws. by rewrite list_lookup_imap, Hi.
    - apply Nj. intros [k Hk]%list_elem_of_lookup. by apply (home_not_log lg bs OK i _ Li (lo_home_at lg bs OK k _ Hk)). }
  assert (Ew : home_ws lg bs e = final_ws bs c).
  { apply list_eq. intros i. unfold home_ws, final_ws. rewrite list_lookup_imap, list_lookup_fmap.
    destruct (bs !! i) as [b|] eqn:Hi; [|done]. cbn. by rewrite (El i b Hi). }
  split.
  - rewrite Eh. apply header_lists; [apply header_fits| |].
    + pose proof (lo_fit _ _ OK). pose proof (lo_size _ _ OK). lia.
    + eapply List.Forall_impl; [|apply (lo_home _ _ OK)]. intros b [? _]. done.
  - intros n Hn. unfold recover_ws. rewrite Ew, upds_app. cbn [upds foldl fst snd].
    rewrite fn_lookup_insert_ne by (intros E; by apply (home_not_head lg bs OK _ Hn)).
    change (upds e (final_ws bs c) n = c n). destruct (decide (n ∈ bs)) as [Hb|Hb]; [by apply final_ws_at|].
    rewrite upds_out by (by rewrite final_ws_fst). rewrite He, upds_app.
    change (upds (<[start := h]> (upds (dblock d) (log_ws lg bs c))) (take j (final_ws bs c)) n = c n).
    rewrite upds_out, fn_lookup_insert_ne by (by apply Nj || (intros E; by apply (home_not_head lg bs OK _ Hn))).
    rewrite upds_out; [by apply Hc|]. rewrite <- log_ws_all. by apply log_ws_home.
Qed.

(** After the header is erased, the blocks are at home and the log is empty. *)
Lemma crash_after e :
  (forall n, e n = upds (dblock d) (commit_ws lg bs c) n) ->
  (lists_blocks [] (e start) /\ length (e start) = Z.to_nat BSIZE /\ get32 0 (e start) = 0) /\
  forall n, home lg n -> e n = c n /\ upds e (recover_ws lg [] e) n = c n.
Proof.
  intros He. unfold commit_ws in He.
  assert (Eu : forall n, e n = (<[start := header [] h]> (upds (<[start := h]> (upds (dblock d) (log_ws lg bs c))) (final_ws bs c))) n).
  { intros n. rewrite He, upds_app. cbn [upds foldl fst snd].
    change (upds (<[start := h]> (upds (dblock d) (log_ws lg bs c))) (final_ws bs c ++ [(start, header [] h)]) n =
            (<[start := header [] h]> (upds (<[start := h]> (upds (dblock d) (log_ws lg bs c))) (final_ws bs c))) n).
    by rewrite upds_app. }
  assert (En : forall n, home lg n -> e n = c n).
  { intros n Hn. rewrite Eu, fn_lookup_insert_ne by (intros E; by apply (home_not_head lg bs OK _ Hn)).
    destruct (decide (n ∈ bs)) as [Hb|Hb]; [by apply final_ws_at|]. rewrite upds_out by (by rewrite final_ws_fst).
    rewrite fn_lookup_insert_ne by (intros E; by apply (home_not_head lg bs OK _ Hn)).
    rewrite upds_out; [by apply Hc|]. rewrite <- log_ws_all. by apply log_ws_home. }
  split.
  - assert (L : (4 + 4 * length (@nil Z) <= length h)%nat).
    { rewrite length_header by apply header_fits. rewrite Hlen. unfold BSIZE. cbn. lia. }
    rewrite Eu, fn_lookup_insert. split; [apply header_lists; [done|cbn; lia|done]|].
    rewrite get_header, length_header by done. by rewrite length_header by apply header_fits.
  - intros n Hn. split; [by apply En|]. rewrite upds_out; [by apply En|].
    intros [->|E%not_elem_of_nil]%elem_of_cons; [|done]. by apply (home_not_head lg bs OK _ Hn).
Qed.

End Crash.
