(* ===== verification/Txn.v ===== *)
(** * Transactions

    begin_op, log_write and end_op on the log's view, and the theorem they exist for: the
    blocks a transaction changes reach the disk together or not at all, whatever write of
    the commit a crash follows. *)

From S2P Require Import Prelude Memory Riscv State Kmonad Spinlock Proc ProcSpec CoYield Sched Sleeplock Bytes Bio Log Calm Lru BioSpec Cache LogSpec Commit.
From Stdlib Require Import ZArith Lia.
From stdpp Require Import base numbers list gmap strings option functions.

#[local] Open Scope Z_scope.
#[local] Open Scope kernel_scope.

(** ** log_write's search *)

Lemma log_find_spec n i blockno blocks :
  let j := log_find n i blockno blocks in
  (i <= j <= i + n)%nat /\ (forall k, (i <= k < j)%nat -> u32 (blocks !!! k) <> blockno) /\
  ((j < i + n)%nat -> u32 (blocks !!! j) = blockno).
Proof.
  revert i. induction n as [|n IH]; intros i; cbn [log_find].
  - split_and!; [lia|lia|intros k Hk; lia|lia].
  - destruct (Z.eqb_spec (u32 (blocks !!! i)) blockno) as [E|E].
    + split_and!; [lia|lia|intros k Hk; lia|done].
    + specialize (IH (S i)) as (L & N & Q). split_and!; [lia|lia| |intros Hj; apply Q; lia].
      intros k Hk. destruct (decide (k = i)) as [->|]; [done|]. apply N. lia.
Qed.

(** The transaction's blocks after log_write of block [n]: log absorption. *)
Definition absorb (n : Z) (bs : list Z) : list Z := if decide (n ∈ bs) then bs else bs ++ [n].

Lemma absorb_set n bs : (list_to_set (absorb n bs) : gset Z) = {[n]} ∪ list_to_set bs.
Proof.
  unfold absorb. case_decide as Dn.
  - apply set_eq. intros x. rewrite elem_of_union, elem_of_singleton, !elem_of_list_to_set. naive_solver.
  - rewrite list_to_set_app_L. cbn. rewrite union_empty_r_L. apply union_comm_L.
Qed.

Section Search.
Context (lg : logstate) (bs : list Z) (OK : log_ok lg bs).

Lemma log_find_in n i : bs !! i = Some n -> log_find (Z.to_nat (lh_n lg)) 0 n (lh_block lg) = i.
Proof.
  intros Hi. pose proof (lookup_lt_Some _ _ _ Hi) as Li. rewrite (lo_n _ _ OK), Nat2Z.id.
  destruct (log_find_spec (length bs) 0 n (lh_block lg)) as (L & N & Q). set (j := log_find _ _ _ _) in *.
  destruct (decide (j < length bs)%nat) as [Lj|Lj].
  - destruct (lookup_lt_is_Some_2 bs j Lj) as [m Hm]. apply (NoDup_lookup bs j i n); [apply OK| |done].
    rewrite Hm. f_equal. rewrite <- Q by lia. symmetry. by apply (lh_get_u32 lg bs OK).
  - exfalso. apply (N i); [lia|]. by apply (lh_get_u32 lg bs OK).
Qed.

Lemma log_find_out n : n ∉ bs -> log_find (Z.to_nat (lh_n lg)) 0 n (lh_block lg) = length bs.
Proof.
  intros Hn. rewrite (lo_n _ _ OK), Nat2Z.id.
  destruct (log_find_spec (length bs) 0 n (lh_block lg)) as (L & N & Q). set (j := log_find _ _ _ _) in *.
  destruct (decide (j < length bs)%nat) as [Lj|Lj]; [|lia].
  destruct (lookup_lt_is_Some_2 bs j Lj) as [m Hm]. exfalso. apply Hn.
  replace n with m; [by eapply list_elem_of_lookup_2|]. rewrite <- Q by lia. symmetry. by apply (lh_get_u32 lg bs OK).
Qed.

Lemma log_ok_again n i :
  length (lh_block lg) = Z.to_nat LOGSIZE -> bs !! i = Some n ->
  log_ok (set_lh_block (<[i := n]> (lh_block lg)) lg) bs.
Proof.
  intros Elen Hi. pose proof (lookup_lt_Some _ _ _ Hi) as Li. destruct OK as [O1 O2 O3 O4 O5 O6 O7 O8 O9]. split; try done.
  intros k m Hk. unfold lh_get. cbn. destruct (decide (i = k)) as [<-|Nk].
  - rewrite list_lookup_total_insert_eq by (rewrite Elen; unfold LOGSIZE, MAXOPBLOCKS in *; lia). congruence.
  - rewrite list_lookup_total_insert_ne by done. by apply O7.
Qed.

Lemma log_ok_append n :
  length (lh_block lg) = Z.to_nat LOGSIZE -> n ∉ bs -> home lg n -> Z.of_nat (length bs) < lg_size lg - 1 ->
  log_ok (set_lh_n (lh_n lg + 1) (set_lh_block (<[length bs := n]> (lh_block lg)) lg)) (bs ++ [n]).
Proof.
  intros Elen Hn Hh Hfit. destruct OK as [O1 O2 O3 O4 O5 O6 O7 O8 O9]. split; try done.
  - cbn. rewrite O5, length_app. cbn. lia.
  - rewrite length_app. cbn. lia.
  - intros k m Hk. unfold lh_get. cbn. destruct (decide (length bs = k)) as [<-|Nk].
    + rewrite list_lookup_total_insert_eq by (rewrite Elen; unfold LOGSIZE, MAXOPBLOCKS in *; lia).
      rewrite lookup_app_r, Nat.sub_diag in Hk by lia. by injection Hk.
    + rewrite list_lookup_total_insert_ne by done. apply O7. rewrite lookup_app_l in Hk; [done|].
      apply lookup_lt_Some in Hk. rewrite length_app in Hk. cbn in Hk. lia.
  - apply Forall_app_2; [exact O8|]. by constructor.
  - apply list.NoDup_app. split_and!; [done| |apply NoDup_singleton]. intros x Hx ->%list_elem_of_singleton. done.
Qed.

End Search.

Section Txn.
Context `{F : Fuel} `{D : DiskDriver} {DL : DiskLaws}.

(** A critical section of the cache's lock inside another one. *)
Lemma crit_nested b f s :
  cpu_ok s -> lock_free L_bcache s -> settle s = s ->
  (acquire L_bcache ;! setb b f ;! release L_bcache) s = Ok tt (upd_buf b f s).
Proof.
  intros C Lf St. erewrite bind_ok; [|by apply acquire_eq]. kprim.
  rewrite (release_acquired L_bcache s) by done. f_equal. rewrite St. leave_eq.
Qed.

Lemma begin_op_ok p s :
  calm p s -> lg_committing (k_log s) = 0 ->
  lh_n (k_log s) + (lg_outstanding (k_log s) + 1) * MAXOPBLOCKS <= LOGSIZE ->
  begin_op s = Ok tt (upd_log (set_lg_outstanding (lg_outstanding (k_log s) + 1)) s).
Proof.
  intros C Hc Hn. unfold begin_op. erewrite bind_ok; [|by apply (acquire_calm p)]. cbn [begin_op_wait]. kprim.
  change (k_log (acq_st L_log s)) with (k_log s). rewrite Hc. cbn [truth negb Z.eqb].
  replace (LOGSIZE <? _) with false by (symmetry; by apply Z.ltb_ge). kprim.
  rewrite (release_leave p _ s) by done. f_equal; leave_eq.
Qed.

(** log_write: the block joins the transaction, once, and its buffer is pinned. *)
Lemma log_write_ok p lg bs held c n b s :
  log_ok lg bs -> k_log s = lg -> length (lh_block lg) = Z.to_nat LOGSIZE -> 1 <= lg_outstanding lg ->
  cached p held (list_to_set bs) c s -> held !! n = Some b -> home lg n ->
  Z.of_nat (length bs) < lg_size lg - 1 ->
  exists s', log_write b s = Ok tt s' /\ cached p held (list_to_set (absorb n bs)) c s' /\
    logged [] s s' /\ same_log lg (k_log s') /\ log_ok (k_log s') (absorb n bs).
Proof.
  intros OK El Elen Eo [order B] Hn Hh Hfit. pose proof (bu_calm B) as C.
  destruct (bu_held B n b Hn) as (Lb & Bd & Bn & Bm).
  set (i := log_find (Z.to_nat (lh_n lg)) 0 n (lh_block lg)).
  set (g := fun lg => set_lh_block (<[i := i32 n]> (lh_block lg)) lg).
  assert (Ei : i32 n = n) by (destruct Hh; unfold i32; rewrite Z.mod_small; lia).
  assert (E : log_write b s =
    (setl g ;! when (Z.of_nat i =? lh_n lg) (bpin b ;! setl (fun lg => set_lh_n (lh_n lg + 1) lg)) ;! release L_log) (acq_st L_log s)).
  { unfold log_write. erewrite bind_ok; [|by apply (acquire_calm p)]. kprim.
    change (k_log (acq_st L_log s)) with (k_log s). rewrite El.
    pose proof (lo_n _ _ OK) as Ln. pose proof (lo_size _ _ OK) as Ls.
    replace ((LOGSIZE <=? lh_n lg) || (lg_size lg - 1 <=? lh_n lg)) with false.
    2: { symmetry. apply orb_false_iff. split; apply Z.leb_gt; lia. }
    replace (lg_outstanding lg <? 1) with false by (symmetry; apply Z.ltb_ge; lia). kprim.
    change (buf_at b (acq_st L_log s)) with (buf_at b s). rewrite Bn. reflexivity. }
  rewrite E. clear E. kprim. unfold absorb. case_decide as Dn.
  - apply list_elem_of_lookup in Dn as [j Hj].
    assert (Ej : i = j) by (by apply (log_find_in lg bs OK)). pose proof (lookup_lt_Some _ _ _ Hj) as Lj.
    replace (Z.of_nat i =? lh_n lg) with false by (symmetry; apply Z.eqb_neq; rewrite (lo_n _ _ OK); lia). cbn [when].
    kprim. rewrite (release_leave p _ s) by done. exists (upd_log g s).
    split; [f_equal; leave_eq|]. split; [apply cached_setl; by exists order|]. split; [apply logged_setl|].
    cbn [upd_log k_log set_k_log]. rewrite El. split; [unfold same_log, g; cbn; by rewrite length_insert|].
    unfold g. rewrite Ei, Ej. by apply log_ok_again.
  - assert (Ej : i = length bs) by (by apply (log_find_out lg bs OK)).
    replace (Z.of_nat i =? lh_n lg) with true by (symmetry; apply Z.eqb_eq; rewrite (lo_n _ _ OK); lia). cbn [when].
    set (s1 := upd_log g (acq_st L_log s)).
    assert (Eb : bpin b s1 = Ok tt (upd_buf b (fun q => set_b_refcnt (u32 (b_refcnt q + 1)) q) s1)).
    { apply crit_nested.
      - apply (cpu_ok_acq L_log s), C.
      - apply (lock_free_acq L_bcache L_log s); [done|]. by apply (ca_locks _ _ C).
      - change (settle (upd_log g (acq_st L_log s)) = upd_log g (acq_st L_log s)). apply settle_nested.
        change (0 < noff (acq_st L_log s)). rewrite noff_acq by apply C. rewrite (ca_noff _ _ C). lia. }
    erewrite bind_ok; [|erewrite bind_ok; [|exact Eb]; reflexivity].
    rewrite (release_leave p _ s) by done.
    set (f := fun q => set_b_refcnt _ q). set (g' := fun lg => set_lh_n (lh_n lg + 1) lg).
    exists (upd_log (fun lg => g' (g lg)) (upd_buf b f s)). split; [f_equal; leave_eq|]. split.
    { apply cached_setl. exists order. rewrite list_to_set_app_L. cbn [list_to_set]. rewrite union_empty_r_L, union_comm_L.
      apply bufs_pin; [done|done|]. by rewrite elem_of_list_to_set. }
    split; [apply (logged_trans [] [] s (upd_buf b f s)); [apply wrote_logged, wrote_upd_buf|apply logged_setl]|].
    cbn [upd_log k_log set_k_log upd_buf set_k_bcache]. rewrite El.
    split; [unfold same_log, g', g; cbn; by rewrite length_insert|].
    unfold g', g. rewrite Ei, Ej. exact (log_ok_append lg bs OK n Elen Dn Hh Hfit).
Qed.

(** end_op of the last operation: commit, and let waiting operations start. *)

Definition op_ws (lg : logstate) (bs : list Z) (c : Z -> list Z) : list (Z * list Z) :=
  if decide (bs = []) then [] else commit_ws lg bs c.

Lemma commit_op p lg bs c s :
  log_ok lg bs -> k_log s = lg -> cached p ∅ (list_to_set bs) c s ->
  exists s', commit s = Ok tt s' /\ cached p ∅ ∅ (upds c (op_ws lg bs c)) s' /\
    k_log s' = set_lh_n 0 lg /\ logged (op_ws lg bs c) s s'.
Proof.
  intros OK El C. unfold op_ws. case_decide as Hb; [|by apply commit_ok].
  subst bs. exists s. pose proof (lo_n _ _ OK) as Hn. cbn in Hn. split_and!; [|done| |].
  - unfold commit. kprim. by rewrite El, Hn.
  - rewrite El. destruct lg. cbn in *. by subst.
  - apply wrote_logged, wrote_nil.
Qed.

Lemma end_op_ok p lg bs c s :
  log_ok lg bs -> k_log s = lg -> lg_outstanding lg = 1 -> lg_committing lg = 0 ->
  cached p ∅ (list_to_set bs) c s ->
  exists s', end_op s = Ok tt s' /\ cached p ∅ ∅ (upds c (op_ws lg bs c)) s' /\ logged (op_ws lg bs c) s s' /\
    k_log s' = set_lg_committing 0 (set_lh_n 0 (set_lg_committing 1 (set_lg_outstanding 0 lg))).
Proof.
  intros OK El Eo Ec C. pose proof (cached_calm _ _ _ _ _ C) as Ca.
  set (g := fun lg => set_lg_committing 1 (set_lg_outstanding 0 lg)). set (s1 := upd_log g s).
  pose proof (cached_setl _ _ _ _ _ g C) as C1. fold s1 in C1.
  assert (OK1 : log_ok (g lg) bs) by (by destruct OK as [O1 O2 O3 O4 O5 O6 O7 O8 O9]).
  destruct (commit_op p (g lg) bs c s1 OK1) as (s2 & E2 & C2 & L2 & W2); [unfold s1; cbn; by rewrite El|done|].
  change (op_ws (g lg) bs c) with (op_ws lg bs c) in *. pose proof (cached_calm _ _ _ _ _ C2) as Ca2.
  destruct (wakeup_crit p L_log CH_log s2 (upd_log (set_lg_committing 0) (acq_st L_log s2)) Ca2) as (ps & E3 & W3); try done.
  set (s3 := set_k_procs ps (upd_log (set_lg_committing 0) s2)).
  assert (Ca3 : calm p s3) by (apply calm_woken; [by apply (calm_ext p s2)|done]).
  exists s3. split_and!.
  - unfold end_op. erewrite bind_ok; [|by apply (acquire_calm p)]. kprim. kprim.
    change (k_log (acq_st L_log s)) with (k_log s). rewrite El, Ec, Eo. change (1 - 1) with 0. cbn [truth negb Z.eqb].
    kprim. cbn [k_log upd_log set_k_log lg_outstanding set_lg_outstanding Z.eqb]. kprim. erewrite bind_ok.
    2: { rewrite (release_leave p _ s) by done. reflexivity. }
    replace (leave s _) with s1 by (unfold s1, g, upd_log; leave_eq). cbn [when].
    erewrite bind_ok; [|exact E2]. erewrite bind_ok; [|by apply (acquire_calm p)]. kprim. erewrite bind_ok; [|exact E3].
    rewrite (release_leave p _ s2) by done. f_equal; unfold s3, upd_log; leave_eq.
  - destruct C2 as [o B2]. exists o. destruct B2 as [B1 B2 B3 B4 B5 B6 B7 B8 B9]. by split.
  - apply (logged_trans [] (op_ws lg bs c) s s1); [apply logged_setl|]. rewrite <- (app_nil_r (op_ws lg bs c)).
    apply (logged_trans _ [] s1 s2); [done|]. unfold logged. split; [|done].
    replace (set_k_log _ _) with (set_k_procs ps s2) by (unfold s3, upd_log; kst_eq). by apply bio_only_procs.
  - unfold s3. cbn. by rewrite L2.
Qed.

(** ** A whole transaction *)

(** A transaction that changes blocks the way log_write's comment prescribes: bread, modify
    the data, log_write, brelse. *)
Definition txn_update (u : Z * (list Z -> list Z)) : M unit :=
  let! b := bread ROOTDEV u.1 in
  setb b (fun q => set_b_data (u.2 (b_data q)) q) ;!
  log_write b ;!
  brelse b.

Definition txn (us : list (Z * (list Z -> list Z))) : M unit :=
  begin_op ;!
  foreach us txn_update ;!
  end_op.

(** The contents the transaction means to produce. *)
Definition after_txn (us : list (Z * (list Z -> list Z))) (c : Z -> list Z) : Z -> list Z :=
  foldl (fun c u => <[u.1 := u.2 (c u.1)]> c) c us.

(** The blocks it changes, in the order they joined the log. *)
Definition txn_blocks (us : list (Z * (list Z -> list Z))) : list Z :=
  foldl (fun bs u => absorb u.1 bs) [] us.

Lemma length_absorb n bs : (length (absorb n bs) <= S (length bs))%nat.
Proof. unfold absorb. case_decide; rewrite ?length_app; cbn; lia. Qed.

Lemma txn_update_ok p bs c u s :
  log_ok (k_log s) bs -> length (lh_block (k_log s)) = Z.to_nat LOGSIZE -> 1 <= lg_outstanding (k_log s) ->
  cached p ∅ (list_to_set bs) c s -> home (k_log s) u.1 -> Z.of_nat (length bs) < lg_size (k_log s) - 1 ->
  exists s', txn_update u s = Ok tt s' /\
    cached p ∅ (list_to_set (absorb u.1 bs)) (<[u.1 := u.2 (c u.1)]> c) s' /\
    logged [] s s' /\ same_log (k_log s) (k_log s') /\ log_ok (k_log s') (absorb u.1 bs).
Proof.
  intros OK Elen Eo C Hh Hfit. destruct u as [n f]. cbn [fst snd] in *.
  destruct (bread_ok p ∅ (list_to_set bs) c n s C) as (b & s1 & E1 & C1 & W1 & _);
    [done|right; rewrite dom_empty_L, union_empty_l_L; by eapply size_blocks|].
  assert (Hb : (<[n := b]> ∅ : gmap Z nat) !! n = Some b) by apply lookup_insert_eq.
  pose proof (cached_upd_data p _ _ _ _ n b f C1 Hb) as C2. set (s2 := upd_buf b _ s1) in *.
  assert (L2 : k_log s2 = k_log s) by apply (wrote_log _ _ _ W1).
  destruct (log_write_ok p (k_log s) bs _ _ n b s2 OK L2 Elen Eo C2 Hb Hh Hfit) as (s3 & E3 & C3 & W3 & P3 & OK3).
  destruct (brelse_ok p _ _ _ n b s3 C3 Hb) as (s4 & E4 & C4 & W4); [left; rewrite absorb_set; set_solver|].
  rewrite delete_insert_eq, delete_empty in C4.
  exists s4. rewrite (wrote_log _ _ _ W4). split_and!; try done.
  - unfold txn_update. erewrite bind_ok; [|exact E1]. kprim. erewrite bind_ok; [|exact E3]. exact E4.
  - apply (logged_trans [] [] s s1); [by apply wrote_logged|].
    apply (logged_trans [] [] s1 s2); [apply wrote_logged, wrote_upd_buf|].
    apply (logged_trans [] [] s2 s3); [done|by apply wrote_logged].
Qed.

Lemma txn_updates_ok p us bs c s :
  log_ok (k_log s) bs -> length (lh_block (k_log s)) = Z.to_nat LOGSIZE -> 1 <= lg_outstanding (k_log s) ->
  cached p ∅ (list_to_set bs) c s -> Forall (fun u => home (k_log s) u.1) us ->
  Z.of_nat (length bs + length us) < lg_size (k_log s) ->
  let bs' := foldl (fun bs u => absorb u.1 bs) bs us in
  exists s', foreach us txn_update s = Ok tt s' /\ cached p ∅ (list_to_set bs') (after_txn us c) s' /\
    logged [] s s' /\ same_log (k_log s) (k_log s') /\ log_ok (k_log s') bs'.
Proof.
  revert bs c s. induction us as [|u us IH]; intros bs c s OK Elen Eo C Hh Hfit.
  - exists s. split_and!; try done. apply wrote_logged, wrote_nil.
  - cbn [length] in Hfit. inversion_clear Hh as [|? ? Hu Hus].
    destruct (txn_update_ok p bs c u s OK Elen Eo C Hu) as (s1 & E1 & C1 & W1 & P1 & OK1); [lia|].
    pose proof P1 as (P1a & P1b & P1c & P1d & P1e & P1f). pose proof (length_absorb u.1 bs).
    destruct (IH (absorb u.1 bs) (<[u.1 := u.2 (c u.1)]> c) s1 OK1) as (s2 & E2 & C2 & W2 & P2 & OK2); try done; try lia.
    { eapply List.Forall_impl; [|exact Hus]. intros v. unfold home. by rewrite P1b, P1c. }
    exists s2. split_and!; try done.
    + cbn [foreach]. erewrite bind_ok; [|exact E1]. exact E2.
    + by apply (logged_trans [] [] s s1).
    + destruct P2 as (? & ? & ? & ? & ? & ?). unfold same_log. split_and!; congruence.
Qed.

(** No operation is running and the log is empty, in memory and on disk. *)
Record idle_log (s : kstate) : Prop := {
  il_ok : log_ok (k_log s) [];
  il_len : length (lh_block (k_log s)) = Z.to_nat LOGSIZE;
  il_out : lg_outstanding (k_log s) = 0;
  il_com : lg_committing (k_log s) = 0;
  il_head : length (dblock (k_disk s) (lg_start (k_log s))) = Z.to_nat BSIZE;
  il_zero : get32 0 (dblock (k_disk s) (lg_start (k_log s))) = 0 }.

(** A kernel that has rebooted on the disk with the log where [lg] says, its cache empty. *)
Record rebooted (q : nat) (lg : logstate) (r : kstate) : Prop := {
  bt_dev : lg_dev (k_log r) = ROOTDEV;
  bt_start : lg_start (k_log r) = lg_start lg;
  bt_size : lg_size (k_log r) = lg_size lg;
  bt_len : length (lh_block (k_log r)) = Z.to_nat LOGSIZE;
  bt_cache : cached q ∅ ∅ (dblock (k_disk r)) r }.

Lemma recover_prefix q lg bs c d k r :
  log_ok lg bs -> (forall n, n ∉ bs -> dblock d n = c n) ->
  length (c (lg_start lg)) = Z.to_nat BSIZE -> get32 0 (c (lg_start lg)) = 0 ->
  rebooted q lg r -> k_disk r = puts d (take k (op_ws lg bs c)) ->
  exists r', recover_from_log r = Ok tt r' /\
    ((forall n, home lg n -> dblock (k_disk r') n = dblock d n) \/
     (forall n, home lg n -> dblock (k_disk r') n = c n)).
Proof.
  intros OK Hc Hlen H0 [B1 B2 B3 B4 B5] Ed. set (e := dblock (k_disk r)) in *.
  assert (He : forall n, e n = upds (dblock d) (take k (op_ws lg bs c)) n).
  { intros n. unfold e. by rewrite Ed, dblock_puts. }
  assert (R : forall l, lists_blocks l (e (lg_start lg)) -> Forall (home lg) l -> NoDup l -> Z.of_nat (length l) < lg_size lg ->
    exists r', recover_from_log r = Ok tt r' /\ forall n, dblock (k_disk r') n = upds e (recover_ws lg l e) n).
  { intros l Hl Hh Nd Hf. pose proof OK as [O1 O2 O3 O4 _ _ _ _ _].
    destruct (recover_ok q l e r) as (r' & E & _ & W & _); rewrite ?B1, ?B2, ?B3; try done.
    { eapply List.Forall_impl; [|exact Hh]. unfold home. by rewrite B2, B3. }
    exists r'. split; [done|]. intros n. rewrite (logged_disk _ _ _ W), dblock_puts. fold e.
    unfold recover_ws, home_ws, log_at. by rewrite B2. }
  assert (Fit : 0 < lg_size lg) by (pose proof (lo_fit _ _ OK); lia).
  assert (Old : forall j, (forall n, e n = upds (dblock d) (take j (log_ws lg bs c)) n) ->
    exists r', recover_from_log r = Ok tt r' /\ forall n, home lg n -> dblock (k_disk r') n = dblock d n).
  { intros j Hj. destruct (crash_before lg bs OK c d Hc j e H0 Hj) as [Hl Hv].
    destruct (R [] Hl) as (r' & E & V); [done|apply NoDup_nil_2|done|]. exists r'. split; [done|].
    intros n Hn. rewrite V. by apply Hv. }
  unfold op_ws in He. case_decide as Hb.
  { destruct (Old 0%nat) as (r' & E & V); [|exists r'; by split; [|left]]. intros n. rewrite He. by rewrite take_nil. }
  unfold commit_ws in He. pose proof (log_ws_all lg bs c) as La.
  assert (Ll : length (log_ws lg bs c) = length bs) by (unfold log_ws; apply length_imap).
  assert (Lf : length (final_ws bs c) = length bs) by (unfold final_ws; apply length_fmap).
  destruct (decide (k <= length bs)%nat) as [K1|K1].
  { destruct (Old k) as (r' & E & V); [|exists r'; by split; [|left]]. intros n. rewrite He, take_app_le; [done|lia]. }
  destruct (decide (k <= S (length bs + length bs))%nat) as [K2|K2].
  - destruct (crash_between lg bs OK c d Hc Hlen (k - S (length bs)) e) as [Hl Hv].
    { intros n. rewrite He, take_app_ge by lia. rewrite Ll. replace (k - length bs)%nat with (S (k - S (length bs))) by lia.
      rewrite firstn_cons, take_app_le by lia. done. }
    destruct (R bs Hl) as (r' & E & V); [apply OK|apply OK|apply OK|]. exists r'. split; [done|right].
    intros n Hn. rewrite V. by apply Hv.
  - destruct (crash_after lg bs OK c d Hc Hlen e) as [[Hl _] Hv].
    { intros n. rewrite He, take_ge; [done|]. rewrite length_app. cbn [length]. rewrite length_app. cbn [length]. lia. }
    destruct (R [] Hl) as (r' & E & V); [done|apply NoDup_nil_2|done|]. exists r'. split; [done|right].
    intros n Hn. rewrite V. by apply Hv.
Qed.

Lemma after_txn_out us c n : n ∉ foldl (fun bs u => absorb u.1 bs) [] us -> after_txn us c n = c n.
Proof.
  assert (G : forall bs c, (forall m, m ∈ bs -> m ∈ foldl (fun bs u => absorb u.1 bs) bs us) /\
    (n ∉ foldl (fun bs u => absorb u.1 bs) bs us -> after_txn us c n = c n)); [|by apply G].
  induction us as [|u us IH]; intros bs c'; [done|]. cbn [foldl after_txn].
  destruct (IH (absorb u.1 bs) (<[u.1 := u.2 (c' u.1)]> c')) as [Sub Out].
  assert (In : forall m, m = u.1 \/ m ∈ bs -> m ∈ absorb u.1 bs).
  { intros m Hm. unfold absorb. case_decide; set_solver. }
  split; [intros m Hm; apply Sub, In; by right|]. intros Hn. unfold after_txn in Out. rewrite Out by done.
  apply fn_lookup_insert_ne. intros <-. apply Hn, Sub, In. by left.
Qed.

(** What a transaction that runs to its end does, and what a crash during it leaves. *)
Lemma begin_idle p s :
  idle_log s -> calm p s -> begin_op s = Ok tt (upd_log (set_lg_outstanding 1) s) /\ log_ok (k_log (upd_log (set_lg_outstanding 1) s)) [].
Proof.
  intros [I1 I2 I3 I4 I5 I6] C. pose proof (lo_n _ _ I1) as Hn0. cbn in Hn0. split.
  - rewrite (begin_op_ok p); [by rewrite I3|done|done|]. by rewrite Hn0, I3.
  - by destruct I1 as [O1 O2 O3 O4 O5 O6 O7 O8 O9].
Qed.

(** The last end_op commits what the cache holds; a crash during it loses all or nothing. *)
Lemma end_op_commits p bs c s :
  log_ok (k_log s) bs -> length (lh_block (k_log s)) = Z.to_nat LOGSIZE ->
  lg_outstanding (k_log s) = 1 -> lg_committing (k_log s) = 0 -> cached p ∅ (list_to_set bs) c s ->
  length (dblock (k_disk s) (lg_start (k_log s))) = Z.to_nat BSIZE -> get32 0 (dblock (k_disk s) (lg_start (k_log s))) = 0 ->
  exists s' ws, end_op s = Ok tt s' /\ idle_log s' /\ cached p ∅ ∅ (dblock (k_disk s')) s' /\
    same_log (set_lg_outstanding 0 (k_log s)) (k_log s') /\ logged ws s s' /\
    (forall n, home (k_log s) n -> dblock (k_disk s') n = c n) /\
    forall q k r, rebooted q (k_log s) r -> k_disk r = puts (k_disk s) (take k ws) ->
      exists r', recover_from_log r = Ok tt r' /\
        ((forall n, home (k_log s) n -> dblock (k_disk r') n = dblock (k_disk s) n) \/
         (forall n, home (k_log s) n -> dblock (k_disk r') n = c n)).
Proof.
  intros OK Hlen Ho Hc0 C Hl0 H00. destruct (end_op_ok p (k_log s) bs c s OK eq_refl Ho Hc0 C) as (s3 & E3 & C3 & W3 & L3).
  assert (Hc : forall n, n ∉ bs -> dblock (k_disk s) n = c n) by (intros n Hn; apply (cached_disk p ∅ (list_to_set bs)); [done..|set_solver]).
  assert (Hs : c (lg_start (k_log s)) = dblock (k_disk s) (lg_start (k_log s))).
  { rewrite <- Hc by (apply (start_not_block (k_log s) bs OK)). done. }
  assert (Hd : forall n, dblock (k_disk s3) n = upds (dblock (k_disk s)) (op_ws (k_log s) bs c) n)
    by (intros n; by rewrite (logged_disk _ _ _ W3), dblock_puts).
  assert (V : (forall n, home (k_log s) n -> dblock (k_disk s3) n = c n) /\
    length (dblock (k_disk s3) (lg_start (k_log s))) = Z.to_nat BSIZE /\ get32 0 (dblock (k_disk s3) (lg_start (k_log s))) = 0).
  { unfold op_ws in Hd. case_decide as Hb.
    - split_and!; [intros n _; rewrite Hd; apply Hc; rewrite Hb; apply not_elem_of_nil|by rewrite Hd..].
    - destruct (crash_after (k_log s) bs OK c (k_disk s) Hc) with (e := dblock (k_disk s3)) as [(_ & Hl & H0) Hv]; [by rewrite Hs|done|].
      split_and!; [intros n Hn; by apply Hv|done..]. }
  destruct V as (V1 & V2 & V3).
  exists s3, (op_ws (k_log s) bs c). split_and!; try done.
  - split; rewrite L3; try done. destruct OK as [O1 O2 O3 O4 O5 O6 O7 O8 O9]. split; try done; [|apply NoDup_nil_2]. cbn. cbn in O6. lia.
  - eapply cached_ext; [exact C3|]. intros n. by eapply (cached_disk p ∅ ∅).
  - rewrite L3. unfold same_log. cbn. by rewrite Hc0.
  - intros q k r B Er. apply (recover_prefix q (k_log s) bs c (k_disk s) k r OK Hc); rewrite ?Hs; done.
Qed.

Lemma txn_ok p us s :
  idle_log s -> cached p ∅ ∅ (dblock (k_disk s)) s ->
  Forall (fun u => home (k_log s) u.1) us -> Z.of_nat (length us) < lg_size (k_log s) ->
  exists s' ws, txn us s = Ok tt s' /\ idle_log s' /\ cached p ∅ ∅ (dblock (k_disk s')) s' /\
    same_log (k_log s) (k_log s') /\ logged ws s s' /\
    (forall n, home (k_log s) n -> dblock (k_disk s') n = after_txn us (dblock (k_disk s)) n) /\
    forall q k r, rebooted q (k_log s) r -> k_disk r = puts (k_disk s) (take k ws) ->
      exists r', recover_from_log r = Ok tt r' /\
        ((forall n, home (k_log s) n -> dblock (k_disk r') n = dblock (k_disk s) n) \/
         (forall n, home (k_log s) n -> dblock (k_disk r') n = after_txn us (dblock (k_disk s)) n)).
Proof.
  intros I C Hh Hf. destruct (begin_idle p s I (cached_calm _ _ _ _ _ C)) as [E1 OK1]. destruct I as [I1 I2 I3 I4 I5 I6].
  set (s1 := upd_log (set_lg_outstanding 1) s) in *.
  destruct (txn_updates_ok p us [] (dblock (k_disk s)) s1 OK1) as (s2 & E2 & C2 & W2 & P2 & OK2); try done.
  { by apply cached_setl. }
  pose proof P2 as (P2a & P2b & P2c & P2d & P2e & P2f).
  assert (Ed : k_disk s2 = k_disk s) by (by rewrite (logged_disk _ _ _ W2)).
  destruct (end_op_commits p _ (after_txn us (dblock (k_disk s))) s2 OK2) as (s3 & ws & E3 & I3' & C3 & P3 & W3 & V3 & R3);
    [by rewrite P2f|done|by rewrite P2e|done|by rewrite Ed, P2b..|].
  assert (Hhome : forall n, home (k_log s2) n <-> home (k_log s) n) by (intros n; unfold home; by rewrite P2b, P2c).
  exists s3, ws. split_and!; try done.
  - unfold txn. erewrite bind_ok; [|exact E1]. erewrite bind_ok; [|exact E2]. exact E3.
  - destruct P3 as (Q1 & Q2 & Q3 & Q4 & Q5 & Q6). unfold same_log. cbn in Q1, Q2, Q3, Q4, Q5, Q6.
    by rewrite Q1, Q2, Q3, Q4, Q5, Q6, P2a, P2b, P2c, P2e, P2f, I3.
  - apply (logged_trans [] _ s s1); [apply logged_setl|]. by apply (logged_trans [] _ s1 s2).
  - intros n Hn. by apply V3, Hhome.
  - intros q k r [B1 B2 B3 B4 B5] Er. destruct (R3 q k r) as (r' & E & [V|V]); [by split; rewrite ?P2b, ?P2c|by rewrite Ed| |].
    + exists r'. split; [done|left]. intros n Hn. rewrite <- Ed. by apply V, Hhome.
    + exists r'. split; [done|right]. intros n Hn. by apply V, Hhome.
Qed.


Definition after_txns (uss : list (list (Z * (list Z -> list Z)))) (c : Z -> list Z) : Z -> list Z :=
  foldl (fun c us => after_txn us c) c uss.

(** Updates of home blocks depend on home blocks only. *)
Lemma after_txns_home lg uss c c' n :
  Forall (Forall (fun u => home lg u.1)) uss -> (forall n, home lg n -> c n = c' n) -> home lg n ->
  after_txns uss c n = after_txns uss c' n.
Proof.
  assert (One : forall us c c', Forall (fun u => home lg u.1) us -> (forall n, home lg n -> c n = c' n) ->
    forall n, home lg n -> after_txn us c n = after_txn us c' n).
  { clear. induction us as [|u us IH]; intros c c' Hu E n Hn; [by apply E|]. inversion_clear Hu as [|? ? H1 H2].
    cbn. apply IH; [done| |done]. intros m Hm. destruct (decide (u.1 = m)) as [<-|N].
    - rewrite !fn_lookup_insert. by rewrite E.
    - rewrite !fn_lookup_insert_ne by done. by apply E. }
  revert c c'. induction uss as [|us uss IH]; intros c c' Hu E Hn; [by apply E|]. inversion_clear Hu as [|? ? H1 H2].
  cbn. apply IH; [done| |done]. by apply One.
Qed.

Lemma rebooted_same q lg lg' r : same_log lg lg' -> rebooted q lg r -> rebooted q lg' r.
Proof. intros (_ & E1 & E2 & _) [B1 B2 B3 B4 B5]. split; congruence || done. Qed.

Lemma home_same lg lg' n : same_log lg lg' -> home lg' n <-> home lg n.
Proof. intros (_ & E1 & E2 & _). unfold home. by rewrite E1, E2. Qed.


End Txn.

(** ** A concrete log *)

#[local] Existing Instance demo_fuel.
#[local] Existing Instance ram_disk.
#[local] Existing Instance ram_disk_laws.

Lemma demo_fs_cached d : cached 0 ∅ ∅ (dblock d) (demo_fs d).
Proof. exists (rev (seq 0 NBUF)). apply demo_fs_bufs. Qed.

Lemma demo_fs_idle : idle_log (demo_fs ∅).
Proof.
  split; rewrite ?demo_fs_log, ?demo_fs_disk; try done. split; cbn; try done; try lia. apply NoDup_nil_2.
Qed.

Lemma demo_fs_rebooted d : rebooted 0 (k_log (demo_fs ∅)) (demo_fs d).
Proof. split; rewrite ?demo_fs_log; try reflexivity. rewrite demo_fs_disk. apply demo_fs_cached. Qed.

Definition demo_txns : list (list (Z * (list Z -> list Z))) :=
  [[(100, put32 0 7); (101, put32 4 8); (100, put32 8 9)]; [(101, put32 0 1)]].

