(* ===== verification/FsTxn.v ===== *)
(** * File system code inside a transaction

    The state as the file system sees it: the blocks logged so far, the buffers held, and the
    contents of every block.  The cache and log operations on
    that state. *)

From S2P Require Import Prelude Memory Riscv State Kmonad Spinlock Proc ProcSpec CoYield Sched Sleeplock Bytes Bio Log Calm Lru BioSpec LogSpec Commit Txn.
From Stdlib Require Import ZArith Lia.
From stdpp Require Import base numbers list gmap strings option functions.

#[local] Open Scope Z_scope.
#[local] Open Scope kernel_scope.

(** The cache and the log; [bs] are the blocks logged and not yet committed. *)
Record fsview (p : nat) (held : gmap Z nat) (bs : list Z) (c : Z -> list Z) (s : kstate) : Prop := {
  it_log : log_ok (k_log s) bs;
  it_len : length (lh_block (k_log s)) = Z.to_nat LOGSIZE;
  it_cache : cached p held (list_to_set bs) c s }.
#[global] Arguments it_log {p held bs c s}.
#[global] Arguments it_len {p held bs c s}.
#[global] Arguments it_cache {p held bs c s}.

(** Nothing is written to the disk. *)
Definition same_disk (s s' : kstate) : Prop := k_disk s' = k_disk s /\ k_writes s' = k_writes s.

(** What operations inside a transaction keep. *)
Definition quiet (s s' : kstate) : Prop :=
  k_sb s' = k_sb s /\ k_itable s' = k_itable s /\ same_disk s s' /\ same_log (k_log s) (k_log s').

#[global] Instance quiet_preorder : PreOrder quiet.
Proof.
  split; [done|]. intros s s1 s2 (A1 & A2 & A3 & A4) (B1 & B2 & B3 & B4). unfold quiet, same_disk, same_log in *.
  destruct A3, B3, A4 as (? & ? & ? & ? & ? & ?), B4 as (? & ? & ? & ? & ? & ?). split_and!; congruence.
Qed.

Lemma logged_quiet s s' : logged [] s s' -> same_log (k_log s) (k_log s') -> quiet s s'.
Proof.
  intros W P. pose proof (logged_writes _ _ _ W) as Ew. destruct W as (B & Ed & _). unfold quiet. destruct B as (bc & sl & ps & d & w & E & _).
  pose proof (f_equal k_sb E) as E1. pose proof (f_equal k_itable E) as E2. cbn in E1, E2, Ed, Ew. by split_and!; [..|split|].
Qed.

Lemma same_log_refl lg : same_log lg lg.
Proof. done. Qed.

Lemma wrote_quiet s s' : wrote [] s s' -> quiet s s'.
Proof. intros W. apply logged_quiet; [by apply wrote_logged|]. rewrite (wrote_log _ _ _ W). apply same_log_refl. Qed.

Lemma fsview_wrote p held held' bs c c' s s' :
  fsview p held bs c s -> wrote [] s s' -> cached p held' (list_to_set bs) c' s' -> fsview p held' bs c' s'.
Proof. intros [T1 T2 T3] W C. split; rewrite ?(wrote_log _ _ _ W); done. Qed.

Lemma fsview_ext p held bs c c' s : fsview p held bs c s -> (forall n, c' n = c n) -> fsview p held bs c' s.
Proof. intros [T1 T2 T3] E. split; try done. by eapply cached_ext. Qed.

(** A transaction is open. *)
Definition open_txn (s : kstate) : Prop := 1 <= lg_outstanding (k_log s).

Lemma open_quiet s s' : quiet s s' -> open_txn s -> open_txn s'.
Proof. intros (_ & _ & _ & _ & _ & _ & E & _) H. unfold open_txn. by rewrite E. Qed.

(** How many more blocks the transaction may log. *)
Definition room (s : kstate) (bs : list Z) (k : Z) : Prop := Z.of_nat (length bs) + k < lg_size (k_log s).

Lemma room_quiet s s' bs k : quiet s s' -> room s bs k -> room s' bs k.
Proof. intros (_ & _ & _ & _ & _ & E & _) H. unfold room. by rewrite E. Qed.

Lemma room_absorb s bs n k : room s bs (k + 1) -> room s (absorb n bs) k.
Proof. unfold room. pose proof (length_absorb n bs). lia. Qed.

(** What they keep besides the inode table. *)
Definition steady (s s' : kstate) : Prop :=
  k_sb s' = k_sb s /\ same_disk s s' /\ same_log (k_log s) (k_log s').

#[global] Instance steady_preorder : PreOrder steady.
Proof.
  split; [done|]. intros s s1 s2 (A1 & A3 & A4) (B1 & B3 & B4). unfold steady, same_disk, same_log in *.
  destruct A3, B3, A4 as (? & ? & ? & ? & ? & ?), B4 as (? & ? & ? & ? & ? & ?). split_and!; congruence.
Qed.

Lemma quiet_steady s s' : quiet s s' -> steady s s'.
Proof. intros (A1 & A2 & A3 & A4). by split_and!. Qed.

Lemma steady_upd_inode ip f s : steady s (upd_inode ip f s).
Proof. done. Qed.

Lemma room_steady s s' bs k : steady s s' -> room s bs k -> room s' bs k.
Proof. intros (_ & _ & _ & _ & E & _) H. unfold room. by rewrite E. Qed.

Lemma open_steady s s' : steady s s' -> open_txn s -> open_txn s'.
Proof. intros (_ & _ & _ & _ & _ & E & _) H. unfold open_txn. by rewrite E. Qed.

Lemma fsview_upd_inode p held bs c ip f s : fsview p held bs c s -> fsview p held bs c (upd_inode ip f s).
Proof.
  intros [T1 T2 T3]. split; try done. apply (cached_other p held _ c s); try done.
  apply (calm_ext p s); try done. by eapply cached_calm.
Qed.

Section Ops.
Context `{F : Fuel} `{D : DiskDriver} {DL : DiskLaws}.

(** With [k] buffers held, one more can be had while the transaction leaves room for [k]. *)
Lemma bufs_left p held bs c s :
  fsview p held bs c s -> room s bs (Z.of_nat (size held)) -> (size (dom held ∪ list_to_set bs) < NBUF)%nat.
Proof.
  intros T R. pose proof (lo_size _ _ (it_log T)). unfold room in R. rewrite size_union_alt.
  assert (size (list_to_set bs ∖ dom held : gset Z) <= length bs)%nat.
  { etransitivity; [apply subseteq_size; intros x [Hx _]%elem_of_difference; exact Hx|]. by rewrite size_list_to_set by apply (lo_nodup _ _ (it_log T)). }
  rewrite size_dom. unfold LOGSIZE, NBUF, MAXOPBLOCKS in *. lia.
Qed.

Lemma txn_bread p held bs c n s :
  fsview p held bs c s -> held !! n = None -> room s bs (Z.of_nat (size held)) ->
  exists b s', bread ROOTDEV n s = Ok b s' /\ fsview p (<[n := b]> held) bs c s' /\ quiet s s' /\
    b_data (buf_at b s') = c n /\ (n ∈ bs \/ dblock (k_disk s) n = c n).
Proof.
  intros T Hn R. destruct (bread_ok p held (list_to_set bs) c n s (it_cache T) Hn) as (b & s' & E & C & W & Dn);
    [right; by eapply bufs_left|].
  exists b, s'. split_and!; [done|by eapply fsview_wrote|by apply wrote_quiet|eapply cached_data; [exact C|apply lookup_insert_eq]|].
  destruct (decide (n ∈ bs)) as [Hb|Hb]; [by left|right]. destruct W as (_ & Ed & _). cbn in Ed. rewrite <- Ed.
  apply Dn. by rewrite elem_of_list_to_set.
Qed.

Lemma txn_set p held bs c n b f s :
  fsview p held bs c s -> held !! n = Some b ->
  fsview p held bs (<[n := f (c n)]> c) (upd_buf b (fun q => set_b_data (f (b_data q)) q) s) /\
  quiet s (upd_buf b (fun q => set_b_data (f (b_data q)) q) s).
Proof.
  intros T Hb. split; [|apply wrote_quiet, wrote_upd_buf].
  eapply fsview_wrote; [exact T|apply wrote_upd_buf|]. apply cached_upd_data; [apply (it_cache T)|done].
Qed.

Lemma txn_log p held bs c n b s :
  fsview p held bs c s -> open_txn s -> held !! n = Some b -> home (k_log s) n -> room s bs 1 ->
  exists s', log_write b s = Ok tt s' /\ fsview p held (absorb n bs) c s' /\ quiet s s'.
Proof.
  intros [T1 T2 T3] O Hb Hh R. unfold room in R.
  destruct (log_write_ok p (k_log s) bs held c n b s T1 eq_refl T2 O T3 Hb Hh) as (s' & E & C & W & P & OK); [lia|].
  exists s'. split; [done|]. split; [|by apply logged_quiet]. destruct P as (? & ? & ? & ? & ? & El).
  split; rewrite ?El; done.
Qed.

Lemma txn_relse p held bs c n b s :
  fsview p held bs c s -> held !! n = Some b -> n ∈ bs \/ dblock (k_disk s) n = c n ->
  exists s', brelse b s = Ok tt s' /\ fsview p (delete n held) bs c s' /\ quiet s s'.
Proof.
  intros T Hb Hn. destruct (brelse_ok p held _ c n b s (it_cache T) Hb) as (s' & E & C & W).
  { by rewrite elem_of_list_to_set. }
  exists s'. split; [done|]. split; [by eapply fsview_wrote|by apply wrote_quiet].
Qed.

Lemma absorb_in n bs : n ∈ absorb n bs.
Proof. unfold absorb. case_decide; [done|]. apply elem_of_app. right. by left. Qed.

(** Read, change, log and release a block: the four calls and the state they leave. *)
Lemma txn_change p held bs c n f s :
  fsview p held bs c s -> open_txn s -> held !! n = None -> home (k_log s) n -> room s bs (Z.of_nat (size held) + 1) ->
  exists b s1 s2 s3, bread ROOTDEV n s = Ok b s1 /\ b_data (buf_at b s1) = c n /\ quiet s s1 /\
    log_write b (upd_buf b (fun q => set_b_data (f (b_data q)) q) s1) = Ok tt s2 /\ brelse b s2 = Ok tt s3 /\
    fsview p held (absorb n bs) (<[n := f (c n)]> c) s3 /\ quiet s s3.
Proof.
  intros T O Hn Hh R. destruct (txn_bread p held bs c n s T Hn) as (b & s1 & E1 & T1 & Q1 & Eb & _); [unfold room in *; lia|].
  assert (Hb : (<[n := b]> held) !! n = Some b) by apply lookup_insert_eq.
  destruct (txn_set p _ bs c n b f s1 T1 Hb) as [T2 Q2]. set (s2 := upd_buf b _ s1) in *.
  assert (Q : quiet s s2) by (by transitivity s1).
  assert (Hh2 : home (k_log s2) n).
  { destruct Q as (_ & _ & _ & P). by apply (home_same _ _ n P). }
  destruct (txn_log p _ bs _ n b s2 T2 (open_quiet _ _ Q O) Hb Hh2) as (s3 & E3 & T3 & Q3); [eapply room_quiet; [exact Q|]; unfold room in *; lia|].
  destruct (txn_relse p _ _ _ n b s3 T3 Hb) as (s4 & E4 & T4 & Q4); [left; apply absorb_in|].
  rewrite delete_insert_id in T4 by done. exists b, s1, s3, s4. split_and!; try done.
  transitivity s2; [done|]. by transitivity s3.
Qed.

(** Read and release a block. *)
Lemma txn_peek p held bs c n s :
  fsview p held bs c s -> held !! n = None -> room s bs (Z.of_nat (size held)) ->
  exists b s1 s2, bread ROOTDEV n s = Ok b s1 /\ b_data (buf_at b s1) = c n /\ quiet s s1 /\
    brelse b s1 = Ok tt s2 /\ fsview p held bs c s2 /\ quiet s s2.
Proof.
  intros T Hn R. destruct (txn_bread p held bs c n s T Hn R) as (b & s1 & E1 & T1 & Q1 & Eb & Hd).
  assert (Hb : (<[n := b]> held) !! n = Some b) by apply lookup_insert_eq.
  destruct (txn_relse p _ _ _ n b s1 T1 Hb) as (s2 & E2 & T2 & Q2).
  { destruct Q1 as (_ & _ & [-> _] & _). done. }
  rewrite delete_insert_id in T2 by done. exists b, s1, s2. split_and!; try done. by transitivity s1.
Qed.

End Ops.
