(* ===== verification/Balloc.v ===== *)
(** * The block bitmap

    balloc and bfree as operations on the set of free blocks. *)

From S2P Require Import Prelude Memory Riscv State Kmonad Spinlock CString Kalloc Vm Proc ProcSpec CoYield Sched Sleeplock Uart Printf.
From S2P Require Import Bytes Bio Log Fs Calm Lru BioSpec Cache LogSpec Commit Txn FsTxn.
From Stdlib Require Import ZArith Lia.
From stdpp Require Import base numbers list gmap strings option functions.

#[local] Open Scope Z_scope.
#[local] Open Scope kernel_scope.

(** ** Bits *)

Lemma land_mask b k : 0 <= k -> (Z.land b (Z.shiftl 1 k) =? 0) = negb (Z.testbit b k).
Proof.
  intros Hk. rewrite Z.shiftl_1_l. destruct (Z.testbit b k) eqn:E; cbn.
  - apply Z.eqb_neq. intros H. apply (f_equal (fun x => Z.testbit x k)) in H.
    rewrite Z.land_spec, E, Z.pow2_bits_true, Z.bits_0 in H by done. done.
  - apply Z.eqb_eq. apply Z.bits_inj'. intros i Hi. rewrite Z.land_spec, Z.bits_0, Z.pow2_bits_eqb by done.
    destruct (Z.eqb_spec k i) as [<-|]; [by rewrite E|]. apply andb_false_r.
Qed.

Definition bit (bi : Z) (data : list Z) : bool := Z.testbit (map_byte bi data) (bi mod 8).

Lemma bit_clear bi data : (Z.land (map_byte bi data) (bit_mask bi) =? 0) = negb (bit bi data).
Proof. unfold bit, bit_mask. apply land_mask. apply Z.mod_pos_bound. lia. Qed.

Definition set_bit (bi : Z) (data : list Z) : list Z :=
  <[Z.to_nat (bi / 8) := Z.lor (map_byte bi data) (bit_mask bi)]> data.
Definition clear_bit (bi : Z) (data : list Z) : list Z :=
  <[Z.to_nat (bi / 8) := Z.land (map_byte bi data) (Z.lnot (bit_mask bi))]> data.

Lemma map_byte_insert bi bj v data :
  0 <= bi < BPB -> 0 <= bj -> length data = Z.to_nat BSIZE ->
  map_byte bj (<[Z.to_nat (bi / 8) := v]> data) = if decide (bj / 8 = bi / 8) then v else map_byte bj data.
Proof.
  intros Hi Hj L. unfold map_byte, BPB, BSIZE in *. case_decide as E.
  - rewrite E. apply list_lookup_total_insert_eq. rewrite L. zlia.
  - apply list_lookup_total_insert_ne. zlia.
Qed.

Lemma bit_set bi bj data :
  0 <= bi < BPB -> 0 <= bj -> length data = Z.to_nat BSIZE ->
  bit bj (set_bit bi data) = (bj =? bi) || bit bj data.
Proof.
  intros Hi Hj L. unfold bit, set_bit. rewrite map_byte_insert by done. unfold bit_mask. case_decide as E.
  - rewrite Z.lor_spec, Z.shiftl_1_l, Z.pow2_bits_eqb by (apply Z.mod_pos_bound; lia).
    replace (map_byte bi data) with (map_byte bj data) by (unfold map_byte; by rewrite E). rewrite orb_comm. f_equal.
    apply eq_true_iff_eq. rewrite !Z.eqb_eq. split; intros H; zlia.
  - replace (bj =? bi) with false; [done|]. symmetry. apply Z.eqb_neq. congruence.
Qed.

Lemma bit_cleared bi bj data :
  0 <= bi < BPB -> 0 <= bj -> length data = Z.to_nat BSIZE ->
  bit bj (clear_bit bi data) = negb (bj =? bi) && bit bj data.
Proof.
  intros Hi Hj L. unfold bit, clear_bit. rewrite map_byte_insert by done. unfold bit_mask. case_decide as E.
  - assert (B : 0 <= bj mod 8) by (apply Z.mod_pos_bound; lia).
    rewrite Z.land_spec, Z.lnot_spec, Z.shiftl_1_l, Z.pow2_bits_eqb by (done || (apply Z.mod_pos_bound; lia)).
    replace (map_byte bi data) with (map_byte bj data) by (unfold map_byte; by rewrite E). rewrite andb_comm. f_equal. f_equal.
    apply eq_true_iff_eq. rewrite !Z.eqb_eq. split; intros H; zlia.
  - replace (bj =? bi) with false; [done|]. symmetry. apply Z.eqb_neq. congruence.
Qed.

Lemma find_clear_spec n bi data :
  match find_clear n bi data with
  | Some bj => bi <= bj < bi + Z.of_nat n /\ bit bj data = false
  | None => forall bj, bi <= bj < bi + Z.of_nat n -> bit bj data = true
  end.
Proof.
  revert bi. induction n as [|n IH]; intros bi; cbn [find_clear]; [intros bj Hj; lia|]. rewrite bit_clear.
  destruct (bit bi data) eqn:E; cbn [negb].
  - specialize (IH (bi + 1)). destruct (find_clear n (bi + 1) data).
    + destruct IH. split; [lia|done].
    + intros bj Hj. destruct (decide (bj = bi)) as [->|]; [done|]. apply IH. lia.
  - split; [lia|done].
Qed.

(** ** The layout of the disk *)

(** The first block after the bitmap. *)
Definition datastart (sb : superblock) : Z := sb_bmapstart sb + sb_size sb / BPB + 1.

(** log, inodes, bitmap and data follow one another. *)
Record layout (sb : superblock) (lg : logstate) : Prop := {
  ly_inodes : lg_start lg + lg_size lg <= sb_inodestart sb;
  ly_bitmap : sb_inodestart sb + sb_ninodes sb / IPB + 1 <= sb_bmapstart sb;
  ly_ninodes : 0 <= sb_ninodes sb;
  ly_data : datastart sb <= sb_size sb;
  ly_size : sb_size sb < 2147483648;
  ly_log : 0 < lg_start lg /\ 0 <= lg_size lg }.

Lemma layout_same sb lg lg' : same_log lg lg' -> layout sb lg -> layout sb lg'.
Proof. intros (_ & E1 & E2 & _) [H1 H2 H3 H4 H5 H6]. split; rewrite ?E1, ?E2; done. Qed.

(** Block [x] is marked in use. *)
Definition used (sb : superblock) (c : Z -> list Z) (x : Z) : bool := bit (x mod BPB) (c (BBLOCK x sb)).

(** Blocks have BSIZE bytes and everything before the data is in use. *)
Record blocks_ok (sb : superblock) (c : Z -> list Z) : Prop := {
  bk_sized n : length (c n) = Z.to_nat BSIZE;
  bk_meta x : 0 <= x < datastart sb -> used sb c x = true }.

Definition frees (sb : superblock) (c : Z -> list Z) : list Z :=
  filter (fun x => used sb c x = false) (seqZ 0 (sb_size sb)).

Lemma elem_of_frees sb c x : x ∈ frees sb c <-> used sb c x = false /\ 0 <= x < sb_size sb.
Proof. unfold frees. rewrite list_elem_of_filter, elem_of_seqZ. split; intros []; split; lia || done. Qed.

Section Layout.
Context (sb : superblock) (lg : logstate) (LY : layout sb lg).

Lemma BBLOCK_eq x : 0 <= x < sb_size sb -> BBLOCK x sb = x / BPB + sb_bmapstart sb.
Proof.
  intros Hx. destruct LY as [H1 H2 H3 H4 H5 H6]. unfold BBLOCK, datastart in *. apply u32_small.
  assert (0 <= sb_ninodes sb / IPB) by (apply Z.div_pos; [done|by unfold IPB]).
  assert (x / BPB <= sb_size sb / BPB) by (apply Z.div_le_mono; [by unfold BPB|lia]).
  assert (0 <= x / BPB) by (apply Z.div_pos; [lia|by unfold BPB]). lia.
Qed.

Lemma BBLOCK_range x :
  0 <= x < sb_size sb -> sb_bmapstart sb <= BBLOCK x sb < datastart sb.
Proof.
  intros Hx. rewrite BBLOCK_eq by done. unfold datastart.
  assert (x / BPB <= sb_size sb / BPB) by (apply Z.div_le_mono; [by unfold BPB|lia]).
  assert (0 <= x / BPB) by (apply Z.div_pos; [lia|by unfold BPB]). lia.
Qed.

Lemma past_log_home x : sb_inodestart sb <= x < sb_size sb -> home lg x.
Proof. intros Hx. destruct LY as [H1 H2 H3 H4 H5 H6]. unfold home. lia. Qed.

Lemma bitmap_after_inodes : sb_inodestart sb <= sb_bmapstart sb.
Proof.
  destruct LY as [H1 H2 H3 H4 H5 H6]. assert (0 <= sb_ninodes sb / IPB) by (apply Z.div_pos; [done|by unfold IPB]). lia.
Qed.

Lemma size_pos : 0 < sb_size sb.
Proof.
  destruct LY as [H1 H2 H3 H4 H5 [H6 H7]]. pose proof bitmap_after_inodes. unfold datastart in H4.
  destruct (Z_lt_ge_dec 0 (sb_size sb)); [done|]. unfold BPB, BSIZE in *. zlia.
Qed.

Lemma datastart_pos : 0 < datastart sb.
Proof.
  pose proof size_pos. pose proof bitmap_after_inodes. destruct LY as [H1 _ _ _ _ [H6 H7]]. unfold datastart.
  assert (0 <= sb_size sb / BPB) by (apply Z.div_pos; [lia|by unfold BPB]). lia.
Qed.

Lemma BBLOCK_home x : 0 <= x < sb_size sb -> home lg (BBLOCK x sb).
Proof.
  intros Hx. apply past_log_home. pose proof (BBLOCK_range x Hx). pose proof (ly_data _ _ LY). pose proof bitmap_after_inodes. lia.
Qed.

(** Changing a block after the bitmap does not change the bits. *)
Lemma used_data c n d x : 0 <= x < sb_size sb -> datastart sb <= n -> used sb (<[n := d]> c) x = used sb c x.
Proof.
  intros Hx Hn. unfold used. rewrite fn_lookup_insert_ne; [done|]. pose proof (BBLOCK_range x Hx). lia.
Qed.

Definition mark (x : Z) (c : Z -> list Z) : Z -> list Z :=
  <[BBLOCK x sb := set_bit (x mod BPB) (c (BBLOCK x sb))]> c.

Lemma same_bit x y : 0 <= x < sb_size sb -> 0 <= y < sb_size sb ->
  (BBLOCK x sb = BBLOCK y sb /\ x mod BPB = y mod BPB) <-> x = y.
Proof.
  intros Hx Hy. split; [|by intros ->]. intros [E1 E2]. rewrite !BBLOCK_eq in E1 by done.
  rewrite (Z.div_mod x BPB), (Z.div_mod y BPB) by (by unfold BPB). rewrite E2. f_equal. f_equal. lia.
Qed.

Lemma BPB_pos : 0 < BPB.
Proof. done. Qed.

Lemma used_mark c x y :
  blocks_ok sb c -> 0 <= x < sb_size sb -> 0 <= y < sb_size sb ->
  used sb (mark x c) y = (y =? x) || used sb c y.
Proof.
  intros B Hx Hy. unfold used, mark. pose proof (same_bit x y Hx Hy) as SB.
  destruct (decide (BBLOCK x sb = BBLOCK y sb)) as [E|E].
  - rewrite E, fn_lookup_insert, bit_set; [|apply Z.mod_pos_bound, BPB_pos|apply Z.mod_pos_bound, BPB_pos|apply B].
    f_equal. apply eq_true_iff_eq. rewrite !Z.eqb_eq. split; [intros H; symmetry; apply SB; by split|by intros ->].
  - rewrite fn_lookup_insert_ne by done. replace (y =? x) with false; [done|]. symmetry. apply Z.eqb_neq. congruence.
Qed.

Lemma length_set_bit bi data : length (set_bit bi data) = length data.
Proof. apply length_insert. Qed.

Lemma blocks_ok_data c n d :
  blocks_ok sb c -> datastart sb <= n -> length d = Z.to_nat BSIZE -> blocks_ok sb (<[n := d]> c).
Proof.
  intros [B1 B2] Hn Hd. pose proof (ly_data _ _ LY). split.
  - intros m. destruct (decide (n = m)) as [<-|N]; [by rewrite fn_lookup_insert|by rewrite fn_lookup_insert_ne].
  - intros x Hx. rewrite used_data by lia. by apply B2.
Qed.

Lemma blocks_ok_mark c x : blocks_ok sb c -> 0 <= x < sb_size sb -> blocks_ok sb (mark x c).
Proof.
  intros B Hx. pose proof (ly_data _ _ LY). split.
  - intros m. unfold mark. destruct (decide (BBLOCK x sb = m)) as [<-|N].
    + rewrite fn_lookup_insert, length_set_bit. apply B.
    + rewrite fn_lookup_insert_ne by done. apply B.
  - intros y Hy. rewrite used_mark by (done || lia). rewrite (bk_meta _ _ B y Hy). apply orb_true_r.
Qed.

End Layout.

(** ** balloc *)

(** Held buffers are of data blocks in use. *)
Definition holds_data (sb : superblock) (held : gmap Z nat) (c : Z -> list Z) : Prop :=
  forall n b, held !! n = Some b -> datastart sb <= n < sb_size sb /\ used sb c n = true.

(** The contents after block [x] was allocated. *)
Definition allocated (sb : superblock) (x : Z) (c : Z -> list Z) : Z -> list Z :=
  <[x := replicate (Z.to_nat BSIZE) 0]> (mark sb x c).

Section Balloc.
Context `{L : KernelLayout} `{F : Fuel} `{D : DiskDriver} {DL : DiskLaws}.

Lemma bzero_ok p held bs c x s :
  fsview p held bs c s -> open_txn s -> held !! x = None -> home (k_log s) x -> room s bs (Z.of_nat (size held) + 1) ->
  exists s', bzero ROOTDEV x s = Ok tt s' /\
    fsview p held (absorb x bs) (<[x := replicate (Z.to_nat BSIZE) 0]> c) s' /\ quiet s s'.
Proof.
  intros T O Hx Hh R.
  destruct (txn_change p held bs c x (fun _ => replicate (Z.to_nat BSIZE) 0) s T O Hx Hh R)
    as (b & s1 & s2 & s3 & E1 & _ & _ & E2 & E3 & T3 & Q3).
  exists s3. split; [|done]. unfold bzero. rewrite (u32_small x) by (destruct Hh; lia). change (u32 ROOTDEV) with ROOTDEV.
  erewrite bind_ok; [|exact E1]. kprim. erewrite bind_ok; [|exact E2]. exact E3.
Qed.

Lemma balloc_loop_ok p held bs c sb fuel k s :
  fsview p held bs c s -> open_txn s -> k_sb s = sb -> layout sb (k_log s) -> blocks_ok sb c -> holds_data sb held c ->
  room s bs (Z.of_nat (size held) + 2) -> 0 <= k ->
  (forall x, 0 <= x < k * BPB -> x < sb_size sb -> used sb c x = true) -> frees sb c <> [] ->
  sb_size sb / BPB - k + 1 < Z.of_nat fuel ->
  exists x bs' s', balloc_loop fuel ROOTDEV (k * BPB) s = Ok x s' /\ x ∈ frees sb c /\
    fsview p held bs' (allocated sb x c) s' /\ quiet s s' /\ (length bs' <= length bs + 2)%nat.
Proof.
  revert k s. induction fuel as [|fuel IH]; intros k s T O Es LY B Hd R Hk Hu Hf Hfu.
  { exfalso. destruct (frees sb c) as [|x l] eqn:E; [done|]. assert (Hx : x ∈ frees sb c) by (rewrite E; by left).
    apply elem_of_frees in Hx as [Ux Hx]. destruct (Z_lt_ge_dec x (k * BPB)); [by rewrite Hu in Ux by lia|].
    assert (k <= sb_size sb / BPB); [|lia]. apply Z.div_le_lower_bound; [apply BPB_pos|lia]. }
  assert (Hb : 0 <= k * BPB < sb_size sb).
  { split; [apply Z.mul_nonneg_nonneg; [done|by unfold BPB]|]. destruct (frees sb c) as [|x l] eqn:E; [done|].
    assert (Hx : x ∈ frees sb c) by (rewrite E; by left). apply elem_of_frees in Hx as [Ux Hx].
    destruct (Z_lt_ge_dec x (k * BPB)); [by rewrite Hu in Ux by lia|lia]. }
  pose proof (BBLOCK_eq sb _ LY _ Hb) as Eb. rewrite Z.div_mul in Eb by (by unfold BPB).
  assert (Ey : forall y, k * BPB <= y < k * BPB + BPB -> y < sb_size sb ->
    used sb c y = bit (y - k * BPB) (c (BBLOCK (k * BPB) sb))).
  { intros y Hy Hy'. unfold used. rewrite (BBLOCK_eq sb _ LY) by lia. rewrite Eb.
    assert (Eq : y / BPB = k) by (symmetry; apply (Z.div_unique _ _ _ (y - k * BPB)); lia).
    rewrite Eq. f_equal. rewrite Z.mod_eq, Eq by (by unfold BPB). lia. }
  set (n := BBLOCK (k * BPB) sb) in *.
  assert (Hn : held !! n = None).
  { destruct (held !! n) as [b|] eqn:E; [|done]. destruct (Hd n b E) as [? _].
    pose proof (BBLOCK_range sb _ LY _ Hb). unfold n in *. lia. }
  cbn [balloc_loop]. kprim. rewrite Es. replace (k * BPB <? sb_size sb) with true by (symmetry; apply Z.ltb_lt; lia). cbn [negb].
  set (m := Z.min BPB (sb_size sb - k * BPB)).
  pose proof (find_clear_spec (Z.to_nat m) 0 (c n)) as FC. rewrite Z2Nat.id in FC by (unfold m; pose proof BPB_pos; lia).
  destruct (find_clear (Z.to_nat m) 0 (c n)) as [bi|] eqn:Efc.
  - destruct FC as [Hbi Cbi]. set (x := k * BPB + bi).
    assert (Hx : 0 <= x < sb_size sb) by (unfold x, m in *; lia).
    assert (Ux : used sb c x = false) by (rewrite Ey by (unfold x, m in *; lia); unfold x; by replace (k * BPB + bi - k * BPB) with bi by lia).
    assert (Exb : BBLOCK x sb = n /\ x mod BPB = bi).
    { rewrite Eb, (BBLOCK_eq sb _ LY) by done. unfold x. rewrite (Z.add_comm (k * BPB) bi), Z.div_add, Z.mod_add by (by unfold BPB).
      rewrite Z.div_small, Z.mod_small by (unfold m in *; lia). done. }
    destruct (txn_change p held bs c n (fun _ => set_bit bi (c n)) s T O Hn) as (b & s1 & s2 & s3 & E1 & D1 & _ & E2 & E3 & T3 & Q3);
      [by apply (BBLOCK_home sb _ LY)|unfold room in *; lia|].
    assert (Xh : held !! x = None).
    { destruct (held !! x) as [b'|] eqn:E; [|done]. destruct (Hd x b' E) as [_ U]. congruence. }
    assert (Xd : datastart sb <= x) by (destruct (Z_lt_ge_dec x (datastart sb)); [rewrite (bk_meta _ _ B x) in Ux by lia; done|lia]).
    destruct (bzero_ok p held _ _ x s3 T3 (open_quiet _ _ Q3 O) Xh) as (s4 & E4 & T4 & Q4).
    { destruct Q3 as (_ & _ & _ & P). apply (home_same _ _ x P), (past_log_home sb _ LY).
      pose proof (bitmap_after_inodes sb _ LY). pose proof (BBLOCK_range sb _ LY x Hx). lia. }
    { eapply room_quiet; [exact Q3|]. apply room_absorb. unfold room in *. lia. }
    exists x, (absorb x (absorb n bs)), s4. split_and!.
    + erewrite bind_ok; [|exact E1]. kprim. rewrite D1, Efc. kprim. erewrite bind_ok; [|exact E2].
      erewrite bind_ok; [|exact E3]. erewrite bind_ok; [|exact E4]. done.
    + by apply elem_of_frees.
    + unfold allocated, mark. destruct Exb as [-> ->]. exact T4.
    + by transitivity s3.
    + pose proof (length_absorb x (absorb n bs)). pose proof (length_absorb n bs). lia.
  - destruct (txn_peek p held bs c n s T Hn) as (b & s1 & s2 & E1 & D1 & _ & E2 & T2 & Q2); [unfold room in *; lia|].
    destruct (IH (k + 1) s2) as (x & bs' & s' & E & Hx & T' & Q' & Ln); try done; try lia.
    { by eapply open_quiet. }
    { by rewrite (proj1 Q2). }
    { eapply layout_same; [apply Q2|done]. }
    { by eapply room_quiet. }
    { intros y Hy Hy'. destruct (Z_lt_ge_dec y (k * BPB)); [apply Hu; lia|]. rewrite Ey by lia. apply FC. unfold m. lia. }
    exists x, bs', s'. split_and!; try done; [|by transitivity s2].
    erewrite bind_ok; [|exact E1]. kprim. rewrite D1, Efc. erewrite bind_ok; [|exact E2].
    by replace (k * BPB + BPB) with ((k + 1) * BPB) by lia.
Qed.

Lemma balloc_ok p held bs c sb s :
  fsview p held bs c s -> open_txn s -> k_sb s = sb -> layout sb (k_log s) -> blocks_ok sb c -> holds_data sb held c ->
  room s bs (Z.of_nat (size held) + 2) -> frees sb c <> [] ->
  exists x bs' s', balloc ROOTDEV s = Ok x s' /\ x ∈ frees sb c /\
    fsview p held bs' (allocated sb x c) s' /\ quiet s s' /\ (length bs' <= length bs + 2)%nat.
Proof.
  intros T O Es LY B Hd R Hf. pose proof (size_pos sb _ LY).
  assert (0 <= sb_size sb / BPB) by (apply Z.div_pos; [lia|by unfold BPB]).
  unfold balloc. kprim. rewrite Es.
  pose proof (balloc_loop_ok p held bs c sb (S (S (Z.to_nat (sb_size sb / BPB)))) 0 s) as P. rewrite Z.mul_0_l in P.
  apply P; try done; [intros; lia|lia].
Qed.

(** ** bfree *)

(** The contents after block [x] was freed. *)
Definition freed (sb : superblock) (x : Z) (c : Z -> list Z) : Z -> list Z :=
  <[BBLOCK x sb := clear_bit (x mod BPB) (c (BBLOCK x sb))]> c.

Lemma bfree_ok p held bs c sb x s :
  fsview p held bs c s -> open_txn s -> k_sb s = sb -> layout sb (k_log s) -> blocks_ok sb c -> holds_data sb held c ->
  room s bs (Z.of_nat (size held) + 1) -> 0 <= x < sb_size sb -> used sb c x = true ->
  exists bs' s', bfree ROOTDEV x s = Ok tt s' /\ fsview p held bs' (freed sb x c) s' /\ quiet s s' /\
    (length bs' <= length bs + 1)%nat.
Proof.
  intros T O Es LY B Hd R Hx Ux. set (n := BBLOCK x sb) in *.
  assert (Hn : held !! n = None).
  { destruct (held !! n) as [b|] eqn:E; [|done]. destruct (Hd n b E) as [? _].
    pose proof (BBLOCK_range sb _ LY _ Hx). unfold n in *. lia. }
  destruct (txn_change p held bs c n (fun _ => clear_bit (x mod BPB) (c n)) s T O Hn)
    as (b & s1 & s2 & s3 & E1 & D1 & _ & E2 & E3 & T3 & Q3); [by apply (BBLOCK_home sb _ LY)|done|].
  exists (absorb n bs), s3. split_and!; try done; [|pose proof (length_absorb n bs); lia].
  unfold bfree. kprim. rewrite Es. erewrite bind_ok; [|exact E1]. kprim. rewrite D1, bit_clear.
  unfold used in Ux. fold n in Ux. rewrite Ux. cbn [negb]. kprim. erewrite bind_ok; [|exact E2]. exact E3.
Qed.

Lemma used_freed sb lg c x y :
  layout sb lg -> blocks_ok sb c -> 0 <= x < sb_size sb -> 0 <= y < sb_size sb ->
  used sb (freed sb x c) y = negb (y =? x) && used sb c y.
Proof.
  intros LY B Hx Hy. unfold used, freed. pose proof (same_bit sb lg LY x y Hx Hy) as SB.
  destruct (decide (BBLOCK x sb = BBLOCK y sb)) as [E|E].
  - rewrite E, fn_lookup_insert, bit_cleared; [|apply Z.mod_pos_bound, BPB_pos|apply Z.mod_pos_bound, BPB_pos|apply B].
    f_equal. f_equal. apply eq_true_iff_eq. rewrite !Z.eqb_eq. split; [intros H; symmetry; apply SB; by split|by intros ->].
  - rewrite fn_lookup_insert_ne by done. replace (y =? x) with false; [done|]. symmetry. apply Z.eqb_neq. congruence.
Qed.

Lemma frees_data sb c x : blocks_ok sb c -> x ∈ frees sb c -> datastart sb <= x < sb_size sb /\ used sb c x = false.
Proof.
  intros B Hx. apply elem_of_frees in Hx as [U Hx]. split; [|done]. split; [|lia].
  destruct (Z_lt_ge_dec x (datastart sb)); [|lia]. rewrite (bk_meta _ _ B x) in U by lia. done.
Qed.

Lemma used_allocated sb lg c x y :
  layout sb lg -> blocks_ok sb c -> x ∈ frees sb c -> 0 <= y < sb_size sb ->
  used sb (allocated sb x c) y = (y =? x) || used sb c y.
Proof.
  intros LY B Hx Hy. destruct (frees_data sb c x B Hx) as [Dx _]. pose proof (proj2 (proj1 (elem_of_frees _ _ _) Hx)).
  unfold allocated. rewrite (used_data sb lg LY) by (done || lia). by apply (used_mark sb lg LY).
Qed.

Lemma blocks_ok_allocated sb lg c x :
  layout sb lg -> blocks_ok sb c -> x ∈ frees sb c -> blocks_ok sb (allocated sb x c).
Proof.
  intros LY B Hx. destruct (frees_data sb c x B Hx) as [Dx _]. pose proof (proj2 (proj1 (elem_of_frees _ _ _) Hx)).
  apply (blocks_ok_data sb lg LY); [by apply (blocks_ok_mark sb lg LY)|lia|apply length_replicate].
Qed.

(** The number of free blocks. *)
Definition nfree (sb : superblock) (c : Z -> list Z) : nat := length (frees sb c).

Lemma nfree_allocated sb lg c x :
  layout sb lg -> blocks_ok sb c -> x ∈ frees sb c -> S (nfree sb (allocated sb x c)) = nfree sb c.
Proof.
  intros LY B Hx. unfold nfree. assert (P : x :: frees sb (allocated sb x c) ≡ₚ frees sb c); [|by rewrite <- P].
  assert (ND : forall c, NoDup (frees sb c)) by (intros c'; apply list.NoDup_filter, NoDup_seqZ).
  apply NoDup_Permutation; [apply list.NoDup_cons; split; [|apply ND]|apply ND|].
  - rewrite elem_of_frees. intros [U Rx]. rewrite (used_allocated sb lg c x x LY B Hx), Z.eqb_refl in U by done. done.
  - intros y. rewrite elem_of_cons, !elem_of_frees. pose proof (proj1 (elem_of_frees _ _ _) Hx) as [Ux Rx]. split.
    + intros [->|[U Ry]]; [done|]. rewrite (used_allocated sb lg c x y LY B Hx) in U by done. by apply orb_false_iff in U as [_ ?].
    + intros [U Ry]. destruct (decide (y = x)) as [->|N]; [by left|right]. split; [|done].
      rewrite (used_allocated sb lg c x y LY B Hx), U by done. rewrite orb_false_r. by apply Z.eqb_neq.
Qed.

Lemma nfree_data sb lg c n d : layout sb lg -> datastart sb <= n -> nfree sb (<[n := d]> c) = nfree sb c.
Proof.
  intros LY Hn. unfold nfree. apply Permutation_length, NoDup_Permutation; [apply list.NoDup_filter, NoDup_seqZ..|].
  intros x. rewrite !elem_of_frees. split; intros [U R]; (split; [|done]); revert U; by rewrite (used_data sb lg LY).
Qed.

Lemma nfree_pos sb c : (1 <= nfree sb c)%nat -> frees sb c <> [].
Proof. unfold nfree. destruct (frees sb c); cbn; [lia|done]. Qed.


End Balloc.

(** ** A small file system

    200 blocks: the log from 2, 20 inodes from 32, the bitmap in 34, data from 35 on; inode 1
    is an empty file. *)

#[local] Existing Instance demo_fuel.
#[local] Existing Instance ram_disk.
#[local] Existing Instance ram_disk_laws.

Definition demo_sb : superblock := mksuperblock 270544960 200 165 20 30 2 32 34.
Definition demo_image : gmap Z (list Z) :=
  {[ 32 := replicate 64 0 ++ [2; 0; 0; 0; 0; 0; 1; 0] ++ replicate 952 0; 34 := [255; 255; 255; 255; 7] ++ replicate 1019 0 ]}.

(** Mounted, with the inode [i] in the inode table; and in a transaction. *)
Definition mount (i : inode) (s : kstate) : kstate := set_k_itable (replicate NINODE i) (set_k_sb demo_sb s).
Definition demo_rest (i : inode) : kstate := mount i (demo_fs demo_image).
Definition demo_mounted (i : inode) : kstate := upd_log (set_lg_outstanding 1) (demo_rest i).

Lemma mount_same i s : k_log (mount i s) = k_log s /\ k_disk (mount i s) = k_disk s /\ k_sb (mount i s) = demo_sb /\
  k_itable (mount i s) = replicate NINODE i.
Proof. done. Qed.

Lemma mount_cached i c s : cached 0 ∅ ∅ c s -> cached 0 ∅ ∅ c (mount i s).
Proof.
  intros C. apply (cached_other 0 ∅ ∅ _ _ _ C); try reflexivity. eapply calm_ext; [exact (cached_calm _ _ _ _ _ C)|reflexivity..].
Qed.

Lemma demo_rest_log i : k_log (demo_rest i) = mklog 2 30 0 0 ROOTDEV 0 (replicate 30 0).
Proof. unfold demo_rest. rewrite (proj1 (mount_same _ _)). apply demo_fs_log. Qed.

Lemma demo_rest_disk i : k_disk (demo_rest i) = demo_image.
Proof. unfold demo_rest. rewrite (proj1 (proj2 (mount_same _ _))). apply demo_fs_disk. Qed.

Lemma demo_rest_cached i : cached 0 ∅ ∅ (dblock demo_image) (demo_rest i).
Proof. apply mount_cached, demo_fs_cached. Qed.

Lemma upd_log_same f s : k_log (upd_log f s) = f (k_log s) /\ k_sb (upd_log f s) = k_sb s /\ k_itable (upd_log f s) = k_itable s.
Proof. done. Qed.

Lemma demo_log i : k_log (demo_mounted i) = mklog 2 30 1 0 ROOTDEV 0 (replicate 30 0).
Proof. unfold demo_mounted. rewrite (proj1 (upd_log_same _ _)), demo_rest_log. reflexivity. Qed.

Lemma demo_rest_sb i : k_sb (demo_rest i) = demo_sb.
Proof. unfold demo_rest. apply mount_same. Qed.

Lemma demo_mounted_sb i : k_sb (demo_mounted i) = demo_sb.
Proof. unfold demo_mounted. rewrite (proj1 (proj2 (upd_log_same _ _))). apply demo_rest_sb. Qed.

Lemma demo_rest_itable i : k_itable (demo_rest i) = replicate NINODE i.
Proof. unfold demo_rest. apply mount_same. Qed.

Lemma demo_mounted_itable i : k_itable (demo_mounted i) = replicate NINODE i.
Proof. unfold demo_mounted. rewrite (proj2 (proj2 (upd_log_same _ _))). apply demo_rest_itable. Qed.

Lemma demo_view i : fsview 0 ∅ [] (dblock demo_image) (demo_mounted i).
Proof.
  split; rewrite ?demo_log.
  - split; cbn; try done; try lia. apply NoDup_nil_2.
  - done.
  - apply cached_setl, demo_rest_cached.
Qed.

Lemma demo_sb_layout i : layout demo_sb (k_log (demo_mounted i)).
Proof. rewrite demo_log. split; vm_compute; try done; split; done. Qed.

Lemma demo_blocks : blocks_ok demo_sb (dblock demo_image).
Proof.
  split.
  - intros n. unfold dblock, demo_image. destruct (decide (n = 32)) as [->|N]; [reflexivity|].
    rewrite lookup_insert_ne by done. destruct (decide (n = 34)) as [->|N']; [reflexivity|].
    rewrite lookup_singleton_ne by done. cbn [default]. apply length_replicate.
  - intros x Hx. change (datastart demo_sb) with 35 in Hx.
    assert (A : forallb (used demo_sb (dblock demo_image)) (seqZ 0 35) = true) by (vm_compute; reflexivity).
    apply (proj1 (forallb_forall _ _) A), list_elem_of_In, elem_of_seqZ. lia.
Qed.

Lemma demo_room i k : k < 30 -> room (demo_mounted i) [] k.
Proof. intros H. unfold room. rewrite demo_log. cbn. lia. Qed.

Lemma demo_nfree : nfree demo_sb (dblock demo_image) = 165%nat.
Proof. vm_compute. reflexivity. Qed.

Lemma demo_open i : open_txn (demo_mounted i).
Proof. unfold open_txn. rewrite demo_log. cbn. lia. Qed.

