(* ===== verification/FileData.v ===== *)
(** * The blocks of a file

    The addresses an inode holds, directly and in its indirect block, represent the sequence
    of the file's blocks.  bmap extends that sequence without changing what it represents. *)

From S2P Require Import Prelude Memory Riscv State Kmonad Spinlock CString Kalloc Vm Proc ProcSpec CoYield Sched Sleeplock Uart Printf.
From S2P Require Import Bytes Bio Log Fs Calm Lru BioSpec LogSpec Commit Txn FsTxn Balloc.
From Stdlib Require Import ZArith Lia.
From stdpp Require Import base numbers list gmap strings option functions.

#[local] Open Scope Z_scope.
#[local] Open Scope kernel_scope.

(** The address of the indirect block, and of block [bn] of the file; 0 for none. *)
Definition ind_of (addrs : list Z) : Z := addrs !!! Z.to_nat NDIRECT.
Definition faddr (addrs : list Z) (c : Z -> list Z) (bn : Z) : Z :=
  if bn <? NDIRECT then addrs !!! Z.to_nat bn
  else if ind_of addrs =? 0 then 0
  else get32 (4 * Z.to_nat (bn - NDIRECT)) (c (ind_of addrs)).

(** The contents of block [bn]; missing blocks are zeroes. *)
Definition fblk (addrs : list Z) (c : Z -> list Z) (bn : Z) : list Z :=
  if faddr addrs c bn =? 0 then replicate (Z.to_nat BSIZE) 0 else c (faddr addrs c bn).

(** A data block in use. *)
Definition in_use (sb : superblock) (c : Z -> list Z) (a : Z) : Prop :=
  datastart sb <= a < sb_size sb /\ used sb c a = true.

(** The file's blocks are data blocks in use, all different. *)
Record file_ok (sb : superblock) (addrs : list Z) (c : Z -> list Z) : Prop := {
  fo_len : length addrs = 13%nat;
  fo_ind : ind_of addrs <> 0 -> in_use sb c (ind_of addrs);
  fo_addr bn : 0 <= bn < MAXFILE -> faddr addrs c bn <> 0 -> in_use sb c (faddr addrs c bn) /\ faddr addrs c bn <> ind_of addrs;
  fo_inj bn bn' : 0 <= bn < MAXFILE -> 0 <= bn' < MAXFILE -> faddr addrs c bn <> 0 ->
    faddr addrs c bn = faddr addrs c bn' -> bn = bn' }.

(** Blocks of other files: in use and not of this file. *)
Definition foreign (sb : superblock) (addrs : list Z) (c : Z -> list Z) (n : Z) : Prop :=
  in_use sb c n /\ n <> ind_of addrs /\ forall bn, 0 <= bn < MAXFILE -> faddr addrs c bn <> n.

(** The same file with more blocks allocated. *)
Record grown (sb : superblock) (addrs : list Z) (c : Z -> list Z) (addrs' : list Z) (c' : Z -> list Z) : Prop := {
  gr_ok : file_ok sb addrs' c';
  gr_blocks : blocks_ok sb c';
  gr_blk bn : 0 <= bn < MAXFILE -> fblk addrs' c' bn = fblk addrs c bn;
  gr_keep bn : 0 <= bn < MAXFILE -> faddr addrs c bn <> 0 -> faddr addrs' c' bn = faddr addrs c bn;
  gr_foreign n : foreign sb addrs c n -> foreign sb addrs' c' n /\ c' n = c n;
  gr_inodes n : n < sb_bmapstart sb -> c' n = c n }.

Lemma grown_trans sb a1 c1 a2 c2 a3 c3 : grown sb a1 c1 a2 c2 -> grown sb a2 c2 a3 c3 -> grown sb a1 c1 a3 c3.
Proof.
  intros G1 G2. split.
  - apply G2.
  - apply G2.
  - intros bn Hb. rewrite (gr_blk _ _ _ _ _ G2) by done. by apply (gr_blk _ _ _ _ _ G1).
  - intros bn Hb Hn. pose proof (gr_keep _ _ _ _ _ G1 bn Hb Hn) as E. rewrite (gr_keep _ _ _ _ _ G2 bn Hb); [done|congruence].
  - intros n Hn. destruct (gr_foreign _ _ _ _ _ G1 n Hn) as [F1 E1]. destruct (gr_foreign _ _ _ _ _ G2 n F1) as [F2 E2].
    split; [done|congruence].
  - intros n Hn. rewrite (gr_inodes _ _ _ _ _ G2) by done. by apply (gr_inodes _ _ _ _ _ G1).
Qed.

Lemma get32_zeroes k n : get32 k (replicate n 0) = 0.
Proof.
  unfold get32, get_bytes. rewrite drop_replicate, take_replicate. generalize (4 `min` (n - k))%nat.
  induction n0 as [|m IH]; [done|]. cbn [replicate le_val]. rewrite IH. done.
Qed.

Section Alloc.
Context (sb : superblock) (lg : logstate) (LY : layout sb lg).
Context (addrs : list Z) (c : Z -> list Z) (OK : file_ok sb addrs c) (B : blocks_ok sb c).
Context (x : Z) (Hx : x ∈ frees sb c).

#[local] Notation c1 := (allocated sb x c).

Lemma alloc_in_use n : in_use sb c n -> in_use sb c1 n /\ c1 n = c n /\ n <> x.
Proof.
  intros [Hn U]. destruct (frees_data sb c x B Hx) as [Dx Ux]. pose proof (proj2 (proj1 (elem_of_frees _ _ _) Hx)) as Rx.
  assert (Nx : n <> x) by congruence.
  pose proof (BBLOCK_range sb lg LY x Rx) as Rb. pose proof (datastart_pos sb lg LY).
  split; [split; [done|]|split; [|done]].
  - rewrite (used_allocated sb lg c x n LY B Hx) by lia. rewrite U. apply orb_true_r.
  - unfold allocated, mark. rewrite !fn_lookup_insert_ne by lia. done.
Qed.

Lemma alloc_new : in_use sb c1 x /\ x <> 0.
Proof.
  destruct (frees_data sb c x B Hx) as [Dx Ux]. pose proof (proj2 (proj1 (elem_of_frees _ _ _) Hx)) as Rx.
  pose proof (BBLOCK_range sb lg LY x Rx) as Rb. pose proof (bitmap_after_inodes sb lg LY). destruct LY as [H1 _ _ _ _ [H6 H7]].
  split; [|lia]. split; [lia|]. by rewrite (used_allocated sb lg c x x LY B Hx), Z.eqb_refl.
Qed.

(** Addresses stored in the file's own blocks are unchanged. *)
Lemma alloc_ind : ind_of addrs <> 0 -> c1 (ind_of addrs) = c (ind_of addrs).
Proof. intros Hi. by apply alloc_in_use, OK. Qed.

Lemma alloc_faddr bn : faddr addrs c1 bn = faddr addrs c bn.
Proof.
  unfold faddr. case_b; [done|]. case_b; [done|]. by rewrite alloc_ind.
Qed.

Lemma alloc_inodes n : n < sb_bmapstart sb -> c1 n = c n.
Proof.
  intros Hn. pose proof (proj2 (proj1 (elem_of_frees _ _ _) Hx)) as Rx. pose proof (BBLOCK_range sb lg LY x Rx) as Rb.
  destruct (frees_data sb c x B Hx) as [Dx _]. unfold allocated, mark. rewrite !fn_lookup_insert_ne by lia. done.
Qed.

Lemma alloc_foreign_in_use n : foreign sb addrs c n -> in_use sb c1 n /\ c1 n = c n /\ n <> x.
Proof. intros [U _]. by apply alloc_in_use. Qed.

Lemma direct_ind bn : 0 <= bn < NDIRECT -> ind_of (<[Z.to_nat bn := x]> addrs) = ind_of addrs.
Proof. unfold ind_of, NDIRECT. intros Hbn. apply list_lookup_total_insert_ne. lia. Qed.

Lemma direct_faddr bn k :
  0 <= bn < NDIRECT -> 0 <= k < MAXFILE -> faddr (<[Z.to_nat bn := x]> addrs) c1 k = if decide (k = bn) then x else faddr addrs c k.
Proof.
  intros Hbn Hk. pose proof (fo_len _ _ _ OK) as Len. pose proof (direct_ind bn Hbn) as Ei. unfold NDIRECT in *. destruct (decide (k = bn)) as [->|N].
  - unfold faddr, NDIRECT. replace (bn <? 12) with true by (symmetry; apply Z.ltb_lt; lia). apply list_lookup_total_insert_eq. lia.
  - rewrite <- alloc_faddr. unfold faddr. rewrite Ei. unfold NDIRECT. destruct (Z.ltb_spec k 12); [|done].
    rewrite list_lookup_total_insert_ne; [done|lia].
Qed.

(** A new direct block. *)
Lemma grow_direct bn :
  0 <= bn < NDIRECT -> addrs !!! Z.to_nat bn = 0 -> grown sb addrs c (<[Z.to_nat bn := x]> addrs) c1.
Proof.
  intros Hbn Hz. pose proof alloc_new as [Ux Nx]. pose proof (fo_len _ _ _ OK) as Len. unfold NDIRECT in *.
  set (addrs' := <[Z.to_nat bn := x]> addrs).
  assert (Ei : ind_of addrs' = ind_of addrs) by (by apply direct_ind).
  assert (Ef : forall k, 0 <= k < MAXFILE -> faddr addrs' c1 k = if decide (k = bn) then x else faddr addrs c k) by (intros k Hk; by apply direct_faddr).
  assert (Eb : faddr addrs c bn = 0).
  { unfold faddr, NDIRECT. by replace (bn <? 12) with true by (symmetry; apply Z.ltb_lt; lia). }
  assert (Mb : 0 <= bn < MAXFILE) by (change MAXFILE with 268; lia).
  split.
  - split.
    + unfold addrs'. by rewrite length_insert.
    + rewrite Ei. intros Hi. apply alloc_in_use. by apply OK.
    + intros k Hk. rewrite Ef, Ei by done. case_decide.
      * intros _. split; [done|]. intros E. destruct (decide (ind_of addrs = 0)) as [E0|E0]; [congruence|].
        destruct (alloc_in_use _ (fo_ind _ _ _ OK E0)) as (_ & _ & N). congruence.
      * intros Hk0. destruct (fo_addr _ _ _ OK k Hk Hk0) as [U N]. split; [by apply alloc_in_use|done].
    + intros k k' Hk Hk'. rewrite !Ef by done. do 2 case_decide; subst; try done.
      * intros _ E. assert (Hk0 : faddr addrs c k' <> 0) by congruence.
        destruct (fo_addr _ _ _ OK k' Hk' Hk0) as [U _]. destruct (alloc_in_use _ U) as (_ & _ & N). congruence.
      * intros Hk0 E. destruct (fo_addr _ _ _ OK k Hk Hk0) as [U _]. destruct (alloc_in_use _ U) as (_ & _ & N). congruence.
      * by apply (fo_inj _ _ _ OK).
  - by apply (blocks_ok_allocated sb lg).
  - intros k Hk. unfold fblk. rewrite Ef by done. case_decide as Dk.
    + subst k. rewrite Eb. replace (x =? 0) with false by (symmetry; by apply Z.eqb_neq). apply fn_lookup_insert.
    + case_b; [done|]. by apply alloc_in_use, OK.
  - intros k Hk Hk0. rewrite Ef by done. case_decide; [congruence|done].
  - intros n Hn. destruct (alloc_foreign_in_use n Hn) as (U & E & N). split; [|done]. destruct Hn as (_ & N1 & N2).
    split; [done|]. rewrite Ei. split; [done|]. intros k Hk. rewrite Ef by done. case_decide; [congruence|by apply N2].
  - apply alloc_inodes.
Qed.

Lemma ind_ind : ind_of (<[Z.to_nat NDIRECT := x]> addrs) = x.
Proof. unfold ind_of. apply list_lookup_total_insert_eq. rewrite (fo_len _ _ _ OK). unfold NDIRECT. lia. Qed.

Lemma ind_faddr k : ind_of addrs = 0 -> 0 <= k < MAXFILE -> faddr (<[Z.to_nat NDIRECT := x]> addrs) c1 k = faddr addrs c k.
Proof.
  intros Hz Hk. pose proof alloc_new as [Ux Nx]. unfold faddr. rewrite ind_ind, Hz. cbn [Z.eqb]. destruct (Z.ltb_spec k NDIRECT).
  - rewrite list_lookup_total_insert_ne; [done|]. unfold NDIRECT in *. lia.
  - replace (x =? 0) with false by (symmetry; by apply Z.eqb_neq). unfold allocated. rewrite fn_lookup_insert. apply get32_zeroes.
Qed.

(** A new, empty indirect block. *)
Lemma grow_ind : ind_of addrs = 0 -> grown sb addrs c (<[Z.to_nat NDIRECT := x]> addrs) c1.
Proof.
  intros Hz. pose proof alloc_new as [Ux Nx]. pose proof (fo_len _ _ _ OK) as Len. set (addrs' := <[Z.to_nat NDIRECT := x]> addrs).
  assert (Ei : ind_of addrs' = x) by apply ind_ind.
  assert (Ef : forall k, 0 <= k < MAXFILE -> faddr addrs' c1 k = faddr addrs c k) by (intros k Hk; by apply ind_faddr).
  assert (Nf : forall k, 0 <= k < MAXFILE -> faddr addrs c k <> 0 -> faddr addrs c k <> x).
  { intros k Hk Hk0. destruct (fo_addr _ _ _ OK k Hk Hk0) as [U _]. by destruct (alloc_in_use _ U) as (_ & _ & N). }
  split.
  - split.
    + unfold addrs'. by rewrite length_insert.
    + by rewrite Ei.
    + intros k Hk. rewrite Ef, Ei by done. intros Hk0. split; [|by apply Nf].
      by apply alloc_in_use, (fo_addr _ _ _ OK k Hk Hk0).
    + intros k k' Hk Hk'. rewrite !Ef by done. by apply (fo_inj _ _ _ OK).
  - by apply (blocks_ok_allocated sb lg).
  - intros k Hk. unfold fblk. rewrite Ef by done. case_b; [done|]. by apply alloc_in_use, OK.
  - intros k Hk _. by apply Ef.
  - intros n Hn. destruct (alloc_foreign_in_use n Hn) as (U & E & N). split; [|done]. destruct Hn as (_ & N1 & N2).
    split; [done|]. rewrite Ei. split; [congruence|]. intros k Hk. rewrite Ef by done. by apply N2.
  - apply alloc_inodes.
Qed.

Lemma entry_faddr bn k :
  NDIRECT <= bn < MAXFILE -> ind_of addrs <> 0 -> 0 <= k < MAXFILE ->
  let ind := ind_of addrs in
  faddr addrs (<[ind := put32 (4 * Z.to_nat (bn - NDIRECT)) x (c1 ind)]> c1) k = if decide (k = bn) then x else faddr addrs c k.
Proof.
  intros Hbn Hi Hk ind. assert (Ei := alloc_ind Hi). fold ind in Ei.
  assert (Lc : length (c ind) = Z.to_nat BSIZE) by apply B. change MAXFILE with 268 in *. unfold NDIRECT, BSIZE in *.
  assert (Rx : 0 <= x < 2147483648) by (pose proof (ly_size _ _ LY); pose proof (frees_data sb c x B Hx); pose proof (proj2 (proj1 (elem_of_frees _ _ _) Hx)); lia).
  unfold faddr, NDIRECT. destruct (Z.ltb_spec k 12); [rewrite decide_False by lia; done|].
  fold ind. replace (ind =? 0) with false by (symmetry; by apply Z.eqb_neq). rewrite fn_lookup_insert, Ei. case_decide.
  - subst k. rewrite get32_put32_same by lia. apply u32_small. lia.
  - apply get32_put32_out; lia.
Qed.

(** A new block entered in the indirect block. *)
Lemma grow_entry bn :
  NDIRECT <= bn < MAXFILE -> ind_of addrs <> 0 -> faddr addrs c bn = 0 ->
  let ind := ind_of addrs in
  grown sb addrs c addrs (<[ind := put32 (4 * Z.to_nat (bn - NDIRECT)) x (c1 ind)]> c1).
Proof.
  intros Hbn Hi Hz ind. pose proof alloc_new as [Ux Nx]. pose proof (fo_len _ _ _ OK) as Len.
  assert (Ui : in_use sb c ind) by (by apply OK). destruct (alloc_in_use _ Ui) as (Ui1 & Ei & Nix).
  set (c2 := <[ind := _]> c1). pose proof (blocks_ok_allocated sb lg c x LY B Hx) as B1.
  assert (Lc : length (c ind) = Z.to_nat BSIZE) by apply B. change MAXFILE with 268 in *. unfold NDIRECT, BSIZE in *.
  assert (Ef : forall k, 0 <= k < 268 -> faddr addrs c2 k = if decide (k = bn) then x else faddr addrs c k) by (intros k Hk; by apply entry_faddr).
  assert (Hu2 : forall n, 0 <= n < sb_size sb -> used sb c2 n = used sb c1 n).
  { intros n Hn. apply (used_data sb lg LY); [done|]. apply Ui. }
  assert (Us : forall n, in_use sb c1 n -> in_use sb c2 n).
  { intros n [Hn U]. split; [done|]. rewrite Hu2; [done|]. pose proof (datastart_pos sb lg LY). lia. }
  assert (Nf : forall k, 0 <= k < 268 -> faddr addrs c k <> 0 -> faddr addrs c k <> x /\ faddr addrs c k <> ind /\ c1 (faddr addrs c k) = c (faddr addrs c k) /\ in_use sb c1 (faddr addrs c k)).
  { intros k Hk Hk0. destruct (fo_addr _ _ _ OK k Hk Hk0) as [U N]. by destruct (alloc_in_use _ U) as (? & ? & ?). }
  split.
  - split; [done|intros _; by apply Us| |].
    + intros k Hk. change MAXFILE with 268 in Hk. rewrite Ef by done. case_decide; intros Hk0.
      * split; [by apply Us|intros E; by apply Nix].
      * destruct (Nf k Hk Hk0) as (_ & ? & _ & ?). split; [by apply Us|done].
    + intros k k' Hk Hk'. rewrite !Ef by done. do 2 case_decide; subst; try done.
      * intros _ E. assert (Hk0 : faddr addrs c k' <> 0) by congruence. by destruct (Nf k' Hk' Hk0) as (? & _).
      * intros Hk0 E. by destruct (Nf k Hk Hk0) as (? & _).
      * by apply (fo_inj _ _ _ OK).
  - apply (blocks_ok_data sb lg LY); [done|apply Ui|]. rewrite length_put32; [apply B1|]. rewrite Ei. lia.
  - intros k Hk. change MAXFILE with 268 in Hk. unfold fblk. rewrite Ef by done. case_decide as Dk.
    + subst k. rewrite Hz. replace (x =? 0) with false by (symmetry; by apply Z.eqb_neq). unfold c2.
      rewrite fn_lookup_insert_ne by congruence. apply fn_lookup_insert.
    + case_b; [done|]. destruct (Nf k Hk) as (_ & ? & ? & _); [done|]. unfold c2. rewrite fn_lookup_insert_ne by congruence. done.
  - intros k Hk Hk0. change MAXFILE with 268 in Hk. rewrite Ef by done. case_decide; [congruence|done].
  - intros n Hn. destruct (alloc_foreign_in_use n Hn) as (U & E & N). destruct Hn as (_ & N1 & N2). split.
    + split; [by apply Us|]. split; [done|]. intros k Hk. change MAXFILE with 268 in Hk. rewrite Ef by done. case_decide; [congruence|by apply N2].
    + unfold c2. rewrite fn_lookup_insert_ne by (intros Q; by apply N1); done.
  - intros n Hn. unfold c2. rewrite fn_lookup_insert_ne; [by apply alloc_inodes|]. destruct Ui as [? _].
    pose proof (proj2 (proj1 (elem_of_frees _ _ _) Hx)) as Rx'. pose proof (BBLOCK_range sb lg LY x Rx'). lia.
Qed.

End Alloc.

(** ** bmap *)

Lemma grown_refl sb addrs c : file_ok sb addrs c -> blocks_ok sb c -> grown sb addrs c addrs c.
Proof. intros OK B. by split. Qed.

Lemma itable_at ip i s : k_itable s !! ip = Some i -> inode_at ip s = i.
Proof. intros H. unfold inode_at. by apply list_lookup_total_correct. Qed.

Lemma itable_upd ip i f s : k_itable s !! ip = Some i -> k_itable (upd_inode ip f s) = <[ip := f i]> (k_itable s).
Proof.
  intros H. ksimpl. apply list_eq. intros j. destruct (decide (ip = j)) as [<-|N].
  - rewrite list_lookup_alter_eq, H, list_lookup_insert_eq; [done|]. by apply lookup_lt_Some in H.
  - by rewrite list_lookup_alter_ne, list_lookup_insert_ne.
Qed.

Lemma set_i_addrs_same i : set_i_addrs (i_addrs i) i = i.
Proof. by destruct i. Qed.

Section Bmap.
Context `{L : KernelLayout} `{F : Fuel} `{D : DiskDriver} {DL : DiskLaws}.
Context (p : nat) (sb : superblock) (ip : nat).

(** What the operations on a file need and keep: the view, the table entry of the inode, the
    file's blocks. *)
Record fstate (held : gmap Z nat) (bs : list Z) (c : Z -> list Z) (i : inode) (s : kstate) : Prop := {
  fs_view : fsview p held bs c s;
  fs_sb : k_sb s = sb;
  fs_layout : layout sb (k_log s);
  fs_blocks : blocks_ok sb c;
  fs_itab : k_itable s !! ip = Some i;
  fs_dev : i_dev i = ROOTDEV;
  fs_file : file_ok sb (i_addrs i) c }.

Lemma fstate_quiet held held' bs bs' c c' i s s' :
  fstate held bs c i s -> quiet s s' -> fsview p held' bs' c' s' -> blocks_ok sb c' -> file_ok sb (i_addrs i) c' ->
  fstate held' bs' c' i s'.
Proof.
  intros [H1 H2 H3 H4 H5 H6 H7] (Q1 & Q2 & Q3 & Q4) V B' O'. split; try done; [congruence| |congruence].
  by eapply layout_same.
Qed.

Lemma fstate_seti held bs c i f s :
  fstate held bs c i s -> i_dev (f i) = i_dev i -> file_ok sb (i_addrs (f i)) c -> fstate held bs c (f i) (upd_inode ip f s).
Proof.
  intros [H1 H2 H3 H4 H5 H6 H7] Ed O'. split; try done.
  - by apply fsview_upd_inode.
  - rewrite (itable_upd _ i) by done. apply list_lookup_insert_eq. by apply lookup_lt_Some in H5.
  - congruence.
Qed.

(** Allocate a block and record it in the inode. *)
Lemma alloc_addr bs c i k s (g : Z -> inode -> inode) :
  fstate ∅ bs c i s -> open_txn s -> room s bs 2 -> (1 <= nfree sb c)%nat ->
  (forall x i, i_dev (g x i) = i_dev i) ->
  (forall x, i_addrs (g x i) = <[k := x]> (i_addrs i)) ->
  (forall x, x ∈ frees sb c -> grown sb (i_addrs i) c (<[k := x]> (i_addrs i)) (allocated sb x c)) ->
  exists x bs' s1, balloc ROOTDEV s = Ok x s1 /\ x <> 0 /\ x ∈ frees sb c /\
    fstate ∅ bs' (allocated sb x c) (g x i) (upd_inode ip (g x) s1) /\ steady s s1 /\ k_itable s1 = k_itable s /\
    grown sb (i_addrs i) c (<[k := x]> (i_addrs i)) (allocated sb x c) /\
    (length bs' <= length bs + 2)%nat /\ S (nfree sb (allocated sb x c)) = nfree sb c.
Proof.
  intros S O R N Gd Ga Hg. destruct S as [H1 H2 H3 H4 H5 H6 H7].
  destruct (balloc_ok p ∅ bs c sb s H1 O H2 H3 H4) as (x & bs' & s1 & E & Hx & V & Q & Ln);
    [intros n b Hn; by rewrite lookup_empty in Hn|unfold room in *; rewrite map_size_empty; lia|by apply nfree_pos|].
  pose proof (Hg x Hx) as G. exists x, bs', s1. split_and!; try done.
  - by apply (alloc_new sb _ H3 c H4 x Hx).
  - destruct Q as (Q1 & Q2 & Q3 & Q4). split; try done.
    + by apply fsview_upd_inode.
    + ksimpl. congruence.
    + by eapply layout_same.
    + apply G.
    + rewrite (itable_upd _ i) by congruence. rewrite Q2. apply list_lookup_insert_eq. by apply lookup_lt_Some in H5.
    + by rewrite Gd.
    + rewrite Ga. apply G.
  - by apply quiet_steady.
  - apply Q.
  - by apply (nfree_allocated sb (k_log s)).
Qed.

(** The result of bmap in a state [s]. *)
Definition bmap_result (bs : list Z) (c : Z -> list Z) (i : inode) (bn : Z) (s : kstate) (r : res Z) : Prop :=
  exists a bs' c' addrs' s', r = Ok a s' /\ a <> 0 /\ a = faddr addrs' c' bn /\
    fstate ∅ bs' c' (set_i_addrs addrs' i) s' /\ steady s s' /\
    k_itable s' = <[ip := set_i_addrs addrs' i]> (k_itable s) /\
    grown sb (i_addrs i) c addrs' c' /\ (length bs' <= length bs + 5)%nat /\ (nfree sb c <= nfree sb c' + 2)%nat.

Lemma bmap_direct bs c i bn s :
  fstate ∅ bs c i s -> open_txn s -> room s bs 6 -> (2 <= nfree sb c)%nat -> 0 <= bn < NDIRECT ->
  bmap_result bs c i bn s (bmap ip bn s).
Proof.
  intros S O R N Hb. pose proof S as [H1 H2 H3 H4 H5 H6 H7]. unfold bmap.
  replace (bn <? NDIRECT) with true by (symmetry; apply Z.ltb_lt; lia). kprim. rewrite (itable_at _ _ _ H5).
  assert (Ef : forall c, faddr (i_addrs i) c bn = i_addrs i !!! Z.to_nat bn).
  { intros c'. unfold faddr. by replace (bn <? NDIRECT) with true by (symmetry; apply Z.ltb_lt; lia). }
  destruct (Z.eqb_spec (i_addrs i !!! Z.to_nat bn) 0) as [Z0|Z0].
  - destruct (alloc_addr bs c i (Z.to_nat bn) s (fun x i => set_i_addrs (<[Z.to_nat bn := x]> (i_addrs i)) i) S O)
      as (x & bs' & s1 & E & Nx & Hx & S1 & St & It & G & Ln & Nf); try done; [unfold room in *; lia|lia| |].
    { intros x Hx. by apply (grow_direct sb (k_log s)). }
    rewrite H6. erewrite bind_ok; [|exact E]. replace (x =? 0) with false by (symmetry; by apply Z.eqb_neq). kprim.
    exists x, bs', (allocated sb x c), (<[Z.to_nat bn := x]> (i_addrs i)), (upd_inode ip (fun i => set_i_addrs (<[Z.to_nat bn := x]> (i_addrs i)) i) s1).
    split_and!; try done; try lia.
    + unfold faddr. replace (bn <? NDIRECT) with true by (symmetry; apply Z.ltb_lt; lia).
      rewrite list_lookup_total_insert_eq; [done|]. rewrite (fo_len _ _ _ H7). unfold NDIRECT in *. lia.
    + rewrite (itable_upd _ i) by congruence. by rewrite It.
  - exists (i_addrs i !!! Z.to_nat bn), bs, c, (i_addrs i), s. rewrite set_i_addrs_same.
    split_and!; try done; try lia; try (by rewrite list_insert_id); by apply grown_refl.
Qed.

(** The indirect block, allocated if it is missing. *)
Lemma bmap_ind bs c i s :
  fstate ∅ bs c i s -> open_txn s -> room s bs 2 -> (1 <= nfree sb c)%nat ->
  exists bs' c' addrs' s',
    (if ind_of (i_addrs i) =? 0 then
       let! addr := balloc (i_dev i) in
       when (negb (addr =? 0))
         (seti ip (fun i => set_i_addrs (<[Z.to_nat NDIRECT := addr]> (i_addrs i)) i)) ;!
       ret addr
     else ret (ind_of (i_addrs i))) s = Ok (ind_of addrs') s' /\ ind_of addrs' <> 0 /\
    fstate ∅ bs' c' (set_i_addrs addrs' i) s' /\ steady s s' /\
    k_itable s' = <[ip := set_i_addrs addrs' i]> (k_itable s) /\
    grown sb (i_addrs i) c addrs' c' /\ (length bs' <= length bs + 2)%nat /\ (nfree sb c <= nfree sb c' + 1)%nat.
Proof.
  intros S O R N. pose proof S as [H1 H2 H3 H4 H5 H6 H7].
  destruct (Z.eqb_spec (ind_of (i_addrs i)) 0) as [Z0|Z0].
  - destruct (alloc_addr bs c i (Z.to_nat NDIRECT) s (fun x i => set_i_addrs (<[Z.to_nat NDIRECT := x]> (i_addrs i)) i) S O R N)
      as (x & bs' & s1 & E & Nx & Hx & S1 & St & It & G & Ln & Nf); try done.
    { intros x Hx. by apply (grow_ind sb (k_log s)). }
    assert (Ei : ind_of (<[Z.to_nat NDIRECT := x]> (i_addrs i)) = x).
    { unfold ind_of. apply list_lookup_total_insert_eq. rewrite (fo_len _ _ _ H7). unfold NDIRECT. lia. }
    exists bs', (allocated sb x c), (<[Z.to_nat NDIRECT := x]> (i_addrs i)),
      (upd_inode ip (fun i => set_i_addrs (<[Z.to_nat NDIRECT := x]> (i_addrs i)) i) s1). rewrite Ei.
    split_and!; try done; try lia.
    + rewrite H6. erewrite bind_ok; [|exact E]. replace (x =? 0) with false by (symmetry; by apply Z.eqb_neq). cbn [negb when]. by kprim.
    + rewrite (itable_upd _ i) by congruence. by rewrite It.
  - exists bs, c, (i_addrs i), s. rewrite set_i_addrs_same.
    split_and!; try done; try lia; try (by rewrite list_insert_id); by apply grown_refl.
Qed.

(** The entry of the indirect block, allocated if it is missing. *)
Lemma bmap_entry bs c i bn s :
  fstate ∅ bs c i s -> open_txn s -> room s bs 4 -> (1 <= nfree sb c)%nat -> NDIRECT <= bn < MAXFILE -> ind_of (i_addrs i) <> 0 ->
  exists a bs' c' s',
    (let! bp := bread ROOTDEV (ind_of (i_addrs i)) in
     let! data := getb b_data bp in
     let addr := get32 (4 * Z.to_nat (bn - NDIRECT)) data in
     let! addr := (if addr =? 0 then
                     let! addr := balloc ROOTDEV in
                     when (negb (addr =? 0))
                       (setb bp (fun q => set_b_data (put32 (4 * Z.to_nat (bn - NDIRECT)) addr (b_data q)) q) ;!
                        log_write bp) ;!
                     ret addr
                   else ret addr) in
     brelse bp ;!
     ret addr) s = Ok a s' /\ a <> 0 /\ a = faddr (i_addrs i) c' bn /\
    fstate ∅ bs' c' i s' /\ quiet s s' /\
    grown sb (i_addrs i) c (i_addrs i) c' /\ (length bs' <= length bs + 3)%nat /\ (nfree sb c <= nfree sb c' + 1)%nat.
Proof.
  intros S O R N Hb Hi. pose proof S as [H1 H2 H3 H4 H5 H6 H7]. set (ind := ind_of (i_addrs i)) in *. set (k := Z.to_nat (bn - NDIRECT)).
  assert (Hu : in_use sb c ind) by (by apply (fo_ind _ _ _ H7)).
  destruct (txn_bread p ∅ bs c ind s H1) as (b & s1 & E1 & V1 & Q1 & D1 & K1); [done|unfold room in *; rewrite map_size_empty; lia|].
  set (held := <[ind := b]> ∅) in *. assert (Hh : held !! ind = Some b) by apply lookup_insert_eq.
  assert (Hz : size held = 1%nat) by (unfold held; by rewrite map_size_insert_None, map_size_empty).
  assert (Efa : forall c, faddr (i_addrs i) c bn = get32 (4 * k) (c ind)).
  { intros c'. unfold faddr. replace (bn <? NDIRECT) with false by (symmetry; apply Z.ltb_ge; lia).
    fold ind. by replace (ind =? 0) with false by (symmetry; by apply Z.eqb_neq). }
  destruct (Z.eqb_spec (get32 (4 * k) (c ind)) 0) as [Z0|Z0].
  - assert (Hd : holds_data sb held c).
    { intros n b' Hn. unfold held in Hn. apply lookup_insert_Some in Hn as [[<- _]|[_ Hn]]; [exact Hu|by rewrite lookup_empty in Hn]. }
    destruct (balloc_ok p held bs c sb s1 V1 (open_quiet _ _ Q1 O)) as (x & bs2 & s2 & E2 & Hx & V2 & Q2 & L2).
    { by rewrite (proj1 Q1). }
    { eapply layout_same; [apply Q1|done]. }
    { done. }
    { done. }
    { eapply room_quiet; [exact Q1|]. unfold room in *. lia. }
    { by apply nfree_pos. }
    assert (Q12 : quiet s s2) by (by transitivity s1).
    destruct (txn_set p held bs2 _ ind b (put32 (4 * k) x) s2 V2 Hh) as [V3 Q3]. set (s3 := upd_buf b _ s2) in *.
    assert (Q13 : quiet s s3) by (by transitivity s2).
    destruct (txn_log p held bs2 _ ind b s3 V3 (open_quiet _ _ Q13 O) Hh) as (s4 & E4 & V4 & Q4).
    { apply (home_same _ _ ind (proj2 (proj2 (proj2 Q13)))), (past_log_home sb _ H3). destruct Hu as [? _].
      pose proof (bitmap_after_inodes sb _ H3). pose proof (BBLOCK_range sb _ H3 x (proj2 (proj1 (elem_of_frees _ _ _) Hx))). lia. }
    { eapply room_quiet; [exact Q13|]. unfold room in *. lia. }
    destruct (txn_relse p held _ _ ind b s4 V4 Hh) as (s5 & E5 & V5 & Q5); [left; apply absorb_in|].
    assert (Q15 : quiet s s5) by (transitivity s3; [done|]; by transitivity s4).
    unfold held in V5. rewrite delete_insert_eq, delete_empty in V5.
    assert (G := grow_entry sb (k_log s) H3 (i_addrs i) c H7 H4 x Hx bn Hb Hi). rewrite Efa in G. specialize (G Z0). fold ind k in G.
    pose proof (alloc_new sb _ H3 c H4 x Hx) as [_ Nx].
    exists x, (absorb ind bs2), (<[ind := put32 (4 * k) x (allocated sb x c ind)]> (allocated sb x c)), s5. split_and!; try done.
    + erewrite bind_ok; [|exact E1]. kprim. rewrite D1, Z0. cbn [Z.eqb].
      erewrite bind_ok; [erewrite bind_ok; [|exact E5]; reflexivity|]. erewrite bind_ok; [|exact E2].
      replace (x =? 0) with false by (symmetry; by apply Z.eqb_neq). cbn [negb when].
      erewrite bind_ok; [reflexivity|]. kprim. exact E4.
    + rewrite Efa, fn_lookup_insert, get32_put32_same.
      * symmetry. apply u32_small. pose proof (proj2 (proj1 (elem_of_frees _ _ _) Hx)). pose proof (ly_size _ _ H3). lia.
      * rewrite (bk_sized _ _ (blocks_ok_allocated sb _ c x H3 H4 Hx)). unfold k, NDIRECT, BSIZE in *. change MAXFILE with 268 in *. lia.
    + eapply fstate_quiet; [exact S|done|done|apply G|apply G].
    + pose proof (length_absorb ind bs2). lia.
    + rewrite (nfree_data sb _ _ _ _ H3) by apply Hu. rewrite <- (nfree_allocated sb _ c x H3 H4 Hx). lia.
  - destruct (txn_relse p held _ _ ind b s1 V1 Hh) as (s5 & E5 & V5 & Q5).
    { destruct Q1 as (_ & _ & [-> _] & _). done. }
    assert (Q15 : quiet s s5) by (by transitivity s1).
    unfold held in V5. rewrite delete_insert_eq, delete_empty in V5.
    exists (get32 (4 * k) (c ind)), bs, c, s5. split_and!; try done; try lia.
    + erewrite bind_ok; [|exact E1]. kprim. rewrite D1. cbv zeta. replace (get32 (4 * k) (c ind) =? 0) with false by (symmetry; by apply Z.eqb_neq).
      kprim. by erewrite bind_ok; [|exact E5].
    + by eapply fstate_quiet.
Qed.

Lemma set_i_addrs_twice a b i : set_i_addrs a (set_i_addrs b i) = set_i_addrs a i.
Proof. done. Qed.

Lemma bmap_ok bs c i bn s :
  fstate ∅ bs c i s -> open_txn s -> room s bs 6 -> (2 <= nfree sb c)%nat -> 0 <= bn < MAXFILE ->
  bmap_result bs c i bn s (bmap ip bn s).
Proof.
  intros S O R N Hb. destruct (Z_lt_ge_dec bn NDIRECT) as [Hd|Hd]; [apply bmap_direct; done || lia|].
  pose proof S as [H1 H2 H3 H4 H5 H6 H7].
  destruct (bmap_ind bs c i s S O) as (bs1 & c1 & a1 & s1 & E1 & Ni & S1 & St1 & It1 & G1 & L1 & N1); [unfold room in *; lia|lia|].
  destruct (bmap_entry bs1 c1 (set_i_addrs a1 i) bn s1 S1 (open_steady _ _ St1 O)) as (a & bs2 & c2 & s2 & E2 & Na & Ea & S2 & Q2 & G2 & L2 & N2);
    [eapply room_steady; [exact St1|]; unfold room in *; lia|lia|lia|done|].
  exists a, bs2, c2, a1, s2. split_and!; try done; try lia.
  - unfold bmap. replace (bn <? NDIRECT) with false by (symmetry; apply Z.ltb_ge; lia). cbv zeta.
    replace (bn - NDIRECT <? NINDIRECT) with true by (symmetry; apply Z.ltb_lt; unfold MAXFILE in Hb; lia).
    kprim. rewrite (itable_at _ _ _ H5). erewrite bind_ok; [|exact E1].
    replace (ind_of a1 =? 0) with false by (symmetry; by apply Z.eqb_neq). rewrite H6. exact E2.
  - transitivity s1; [done|by apply quiet_steady].
  - by rewrite (proj1 (proj2 Q2)).
  - by eapply grown_trans.
Qed.

(** Finding a block that is there changes nothing. *)
Lemma bmap_found bs c i bn s :
  fstate ∅ bs c i s -> room s bs 0 -> 0 <= bn < MAXFILE -> faddr (i_addrs i) c bn <> 0 ->
  exists s', bmap ip bn s = Ok (faddr (i_addrs i) c bn) s' /\ fstate ∅ bs c i s' /\ quiet s s'.
Proof.
  intros S R Hb Hn. pose proof S as [H1 H2 H3 H4 H5 H6 H7]. unfold bmap, faddr in *.
  destruct (Z.ltb_spec bn NDIRECT) as [Hd|Hd].
  - kprim. rewrite (itable_at _ _ _ H5). replace (_ =? 0) with false by (symmetry; by apply Z.eqb_neq). by exists s.
  - cbv zeta. replace (bn - NDIRECT <? NINDIRECT) with true by (symmetry; apply Z.ltb_lt; unfold MAXFILE in Hb; lia).
    kprim. rewrite (itable_at _ _ _ H5). change (i_addrs i !!! Z.to_nat NDIRECT) with (ind_of (i_addrs i)).
    destruct (ind_of (i_addrs i) =? 0) eqn:Ei; [done|]. kprim. rewrite Ei, H6.
    destruct (txn_peek p ∅ bs c (ind_of (i_addrs i)) s H1) as (b & s1 & s2 & E1 & D1 & Q1 & E2 & V2 & Q2);
      [done|by rewrite map_size_empty|].
    exists s2. split_and!; [|by eapply fstate_quiet|done].
    erewrite bind_ok; [|exact E1]. kprim. rewrite D1. cbv zeta. replace (get32 _ _ =? 0) with false by (symmetry; by apply Z.eqb_neq).
    kprim. by erewrite bind_ok; [|exact E2].
Qed.

End Bmap.
