(* ===== verification/FileIO.v ===== *)
(** * Reading and writing files

    readi and writei on the bytes of a file: writei splices the bytes into the contents,
    readi returns a slice of them. *)

From S2P Require Import Prelude Memory Riscv State Kmonad Spinlock CString Kalloc Vm Proc ProcSpec CoYield Sched Sleeplock Uart Printf.
From S2P Require Import Bytes Bio Log Fs Calm Lru BioSpec LogSpec Commit Txn FsTxn Balloc FileData.
From Stdlib Require Import ZArith Lia.
From stdpp Require Import base numbers list gmap strings option functions.

#[local] Open Scope Z_scope.
#[local] Open Scope kernel_scope.

(** ** Bytes *)

(** Byte [k] of the file. *)
Definition fbyte (addrs : list Z) (c : Z -> list Z) (k : Z) : Z :=
  fblk addrs c (k / BSIZE) !!! Z.to_nat (k mod BSIZE).

(** [n] bytes from [off] on. *)
Definition fbytes (addrs : list Z) (c : Z -> list Z) (off n : Z) : list Z := fbyte addrs c <$> seqZ off n.

Lemma length_fbytes addrs c off n : length (fbytes addrs c off n) = Z.to_nat n.
Proof. unfold fbytes. by rewrite length_fmap, length_seqZ. Qed.

Lemma fbytes_app addrs c off n m : 0 <= n -> 0 <= m -> fbytes addrs c off (n + m) = fbytes addrs c off n ++ fbytes addrs c (off + n) m.
Proof. intros Hn Hm. unfold fbytes. by rewrite seqZ_app, fmap_app. Qed.

Lemma lookup_fbytes addrs c off n i :
  fbytes addrs c off n !! i = if decide (Z.of_nat i < n) then Some (fbyte addrs c (off + Z.of_nat i)) else None.
Proof.
  unfold fbytes. rewrite list_lookup_fmap. case_decide.
  - by rewrite lookup_seqZ_lt.
  - by rewrite lookup_seqZ_ge by lia.
Qed.

(** Bytes within one block. *)
Lemma fbytes_block addrs c off m sb :
  blocks_ok sb c -> 0 <= off -> 0 <= m -> off mod BSIZE + m <= BSIZE -> faddr addrs c (off / BSIZE) <> 0 ->
  fbytes addrs c off m = get_bytes (Z.to_nat (off mod BSIZE)) (Z.to_nat m) (c (faddr addrs c (off / BSIZE))).
Proof.
  intros B Ho Hm Hf Hn. set (a := faddr addrs c (off / BSIZE)) in *. pose proof (bk_sized _ _ B a) as La.
  apply list_eq. intros i. rewrite lookup_fbytes, lookup_get_bytes. unfold BSIZE in *. case_decide as Hi; case_decide as Hi'; try lia; [|done].
  unfold fbyte, BSIZE.
  assert (E1 : (off + Z.of_nat i) / 1024 = off / 1024) by zlia.
  assert (E2 : (off + Z.of_nat i) mod 1024 = off mod 1024 + Z.of_nat i) by zlia.
  rewrite E1, E2. unfold fblk. fold a. replace (a =? 0) with false by (symmetry; by apply Z.eqb_neq).
  replace (Z.to_nat (off mod 1024 + Z.of_nat i)) with (Z.to_nat (off mod 1024) + i)%nat by zlia.
  symmetry. apply list_lookup_lookup_total_lt. rewrite La. zlia.
Qed.

(** ** A block of the file changes *)

Section Change.
Context (sb : superblock) (lg : logstate) (LY : layout sb lg).
Context (addrs : list Z) (c : Z -> list Z) (OK : file_ok sb addrs c) (B : blocks_ok sb c).
Context (bn : Z) (Hbn : 0 <= bn < MAXFILE) (Hn : faddr addrs c bn <> 0).
Context (d : list Z) (Hd : length d = Z.to_nat BSIZE).

#[local] Notation a := (faddr addrs c bn).
#[local] Notation c1 := (<[a := d]> c).

Lemma change_in_use n : in_use sb c n -> in_use sb c1 n.
Proof.
  intros [Rn U]. split; [done|]. destruct (fo_addr _ _ _ OK bn Hbn Hn) as [[Ra _] _]. pose proof (datastart_pos sb lg LY).
  rewrite (used_data sb lg LY); [done|lia|apply Ra].
Qed.

Lemma change_faddr k : faddr addrs c1 k = faddr addrs c k.
Proof.
  unfold faddr at 1 3. case_b; [done|]. case_b; [done|]. rewrite fn_lookup_insert_ne; [done|].
  by apply (fo_addr _ _ _ OK bn Hbn Hn).
Qed.

Lemma change_file_ok : file_ok sb addrs c1.
Proof.
  destruct OK as [O1 O2 O3 O4]. split; [done|intros Hi; by apply change_in_use, O2| |].
  - intros k Hk. rewrite change_faddr. intros Hk0. destruct (O3 k Hk Hk0). split; [by apply change_in_use|done].
  - intros k k' Hk Hk'. rewrite !change_faddr. by apply O4.
Qed.

Lemma change_blocks_ok : blocks_ok sb c1.
Proof. apply (blocks_ok_data sb lg LY); [done|apply (fo_addr _ _ _ OK bn Hbn Hn)|done]. Qed.

Lemma change_fblk k : 0 <= k < MAXFILE -> fblk addrs c1 k = if decide (k = bn) then d else fblk addrs c k.
Proof.
  intros Hk. unfold fblk. rewrite change_faddr. case_decide as Dk.
  - subst k. replace (a =? 0) with false by (symmetry; by apply Z.eqb_neq). apply fn_lookup_insert.
  - destruct (Z.eqb_spec (faddr addrs c k) 0) as [E|E]; [done|]. apply fn_lookup_insert_ne. intros Q.
    apply Dk. by apply (fo_inj _ _ _ OK).
Qed.

Lemma change_foreign n : foreign sb addrs c n -> foreign sb addrs c1 n /\ c1 n = c n.
Proof.
  intros (U & N1 & N2). split; [split; [by apply change_in_use|split; [done|]]|].
  - intros k Hk. rewrite change_faddr. by apply N2.
  - apply fn_lookup_insert_ne. by apply N2.
Qed.

Lemma change_inodes n : n < sb_bmapstart sb -> c1 n = c n.
Proof.
  intros Hlt. apply fn_lookup_insert_ne. destruct (fo_addr _ _ _ OK bn Hbn Hn) as [[Ra _] _].
  unfold datastart in Ra. pose proof (size_pos sb lg LY). assert (0 <= sb_size sb / BPB) by (apply Z.div_pos; [lia|by unfold BPB]). lia.
Qed.

End Change.

(** A block before the bitmap changes. *)
Lemma meta_file_ok sb lg addrs c n d :
  layout sb lg -> file_ok sb addrs c -> blocks_ok sb c -> n < sb_bmapstart sb -> length d = Z.to_nat BSIZE ->
  file_ok sb addrs (<[n := d]> c) /\ blocks_ok sb (<[n := d]> c) /\
  (forall k, 0 <= k < MAXFILE -> fblk addrs (<[n := d]> c) k = fblk addrs c k /\ faddr addrs (<[n := d]> c) k = faddr addrs c k) /\
  (forall m, foreign sb addrs c m -> foreign sb addrs (<[n := d]> c) m /\ (<[n := d]> c) m = c m).
Proof.
  intros LY OK B Hlt Hd. pose proof (size_pos sb lg LY) as Sp. pose proof (datastart_pos sb lg LY) as Dp. pose proof (ly_data _ _ LY) as Dd.
  assert (Dn : forall m, sb_bmapstart sb <= m -> (<[n := d]> c) m = c m) by (intros m Hm; apply fn_lookup_insert_ne; lia).
  assert (0 <= sb_size sb / BPB) by (apply Z.div_pos; [lia|by unfold BPB]).
  assert (Hu : forall x, 0 <= x < sb_size sb -> used sb (<[n := d]> c) x = used sb c x).
  { intros x Hx. unfold used. rewrite Dn; [done|]. pose proof (BBLOCK_range sb lg LY x Hx). lia. }
  assert (Us : forall x, in_use sb c x -> in_use sb (<[n := d]> c) x) by (intros x [R U]; split; [done|]; rewrite Hu; [done|lia]).
  assert (Ui : forall x, in_use sb c x -> (<[n := d]> c) x = c x) by (intros x [R _]; apply Dn; unfold datastart in R; lia).
  assert (Fa : forall k, faddr addrs (<[n := d]> c) k = faddr addrs c k).
  { intros k. unfold faddr. case_b; [done|]. case_b; [done|]. rewrite Ui; [done|by apply OK]. }
  split_and!.
  - destruct OK as [O1 O2 O3 O4]. split; [done|intros Hi; by apply Us, O2| |].
    + intros k Hk. rewrite Fa. intros Hk0. destruct (O3 k Hk Hk0). split; [by apply Us|done].
    + intros k k' Hk Hk'. rewrite !Fa. by apply O4.
  - split.
    + intros m. destruct (decide (n = m)) as [<-|N]; [by rewrite fn_lookup_insert|by rewrite fn_lookup_insert_ne; [apply B|]].
    + intros x Hx. rewrite Hu by lia. by apply B.
  - intros k Hk. split; [|apply Fa]. unfold fblk. rewrite Fa. case_b; [done|]. by apply Ui, OK.
  - intros m (U & N1 & N2). split; [split; [by apply Us|split; [done|intros k Hk; rewrite Fa; by apply N2]]|by apply Ui].
Qed.

Section Readi.
Context `{L : KernelLayout} `{F : Fuel} `{D : DiskDriver} {DL : DiskLaws}.
Context (p : nat) (sb : superblock) (ip : nat).

#[local] Notation fstate := (fstate p sb ip).

Lemma fstate_calm held bs c i s : fstate held bs c i s -> calm p s.
Proof. intros FS. eapply cached_calm, it_cache, FS. Qed.

Lemma myproc_calm s : calm p s -> myproc s = Ok (Some p) s.
Proof. intros C. rewrite myproc_eq by apply C. by rewrite (ca_cur _ _ C), (ca_settled _ _ C). Qed.

(** Every block that holds a byte of the range is there. *)
Definition mapped (addrs : list Z) (c : Z -> list Z) (off n : Z) : Prop :=
  forall k, off <= k < off + n -> faddr addrs c (k / BSIZE) <> 0.

(** A bound on the rounds left to transfer [n] bytes from [off] on. *)
Definition blocks_left (off n : Z) : Z := Z.min n ((off mod BSIZE + n + (BSIZE - 1)) / BSIZE).

Lemma blocks_left_step off n fuel :
  0 <= off -> 0 < n -> blocks_left off n < Z.of_nat (S fuel) ->
  let m := Z.min n (BSIZE - off mod BSIZE) in blocks_left (off + m) (n - m) < Z.of_nat fuel.
Proof.
  intros Ho Hn Hf m. unfold blocks_left, m, BSIZE in *. destruct (Z.min_spec n (1024 - off mod 1024)) as [[? ->]|[? ->]]; zlia.
Qed.

Lemma readi_loop_ok fuel bs c i dst off n tot s :
  fstate ∅ bs c i s -> room s bs 0 -> 0 <= off -> 0 <= tot <= n -> off + (n - tot) <= MAXFILE * BSIZE ->
  mapped (i_addrs i) c off (n - tot) -> blocks_left off (n - tot) < Z.of_nat fuel ->
  exists s', readi_loop fuel ip false dst off n tot s = Ok (n, fbytes (i_addrs i) c off (n - tot)) s' /\
    fstate ∅ bs c i s' /\ quiet s s'.
Proof.
  revert dst off tot s. induction fuel as [|fuel IH]; intros dst off tot s FS R Ho Ht Hm Hmap Hf.
  { exfalso. unfold blocks_left, BSIZE in *. zlia. }
  cbn [readi_loop]. destruct (Z.ltb_spec tot n) as [Hlt|Hge]; cbn [negb].
  2: { exists s. replace (n - tot) with 0 by lia. replace tot with n by lia. by split_and!. }
  set (bn := off / BSIZE). set (m := Z.min (n - tot) (BSIZE - off mod BSIZE)). change MAXFILE with 268 in *.
  assert (Hbn : 0 <= bn < 268) by (unfold bn, BSIZE in *; zlia).
  assert (Hmm : 0 < m /\ m <= n - tot /\ off mod BSIZE + m <= BSIZE) by (unfold m, BSIZE in *; zlia).
  assert (Ha : faddr (i_addrs i) c bn <> 0) by (apply Hmap; lia).
  destruct (bmap_found p sb ip bs c i bn s FS R Hbn Ha) as (s1 & E1 & S1 & Q1).
  pose proof S1 as [H1 H2 H3 H4 H5 H6 H7].
  destruct (txn_peek p ∅ bs c (faddr (i_addrs i) c bn) s1 H1) as (b & s2 & s3 & E2 & D2 & Q2 & E3 & V3 & Q3);
    [done|rewrite map_size_empty; by eapply room_quiet|].
  assert (Q13 : quiet s s3) by (by transitivity s1).
  assert (S3 : fstate ∅ bs c i s3) by (by eapply fstate_quiet).
  destruct (IH (u64 (dst + m)) (off + m) (tot + m) s3 S3) as (s4 & E4 & S4 & Q4); try lia.
  { by eapply room_quiet. }
  { intros k Hk. apply Hmap. lia. }
  { replace (n - (tot + m)) with ((n - tot) - m) by lia. apply blocks_left_step; lia. }
  exists s4. split_and!; [|done|by transitivity s3].
  erewrite bind_ok; [|exact E1]. replace (_ =? 0) with false by (symmetry; by apply Z.eqb_neq). kprim.
  rewrite (itable_at _ _ _ H5), H6. erewrite bind_ok; [|exact E2]. kprim. rewrite D2. fold m.
  assert (C2 : calm p s2).
  { destruct (txn_bread p ∅ bs c (faddr (i_addrs i) c bn) s1 H1) as (b' & s2' & E2' & V2' & _);
      [done|rewrite map_size_empty; by eapply room_quiet|]. rewrite E2 in E2'. injection E2' as <- <-. eapply cached_calm, it_cache, V2'. }
  erewrite bind_ok; [|unfold either_copyout; erewrite bind_ok; [|by apply myproc_calm]; reflexivity].
  cbn [fst snd]. change (0 =? -1) with false. cbn [negb]. erewrite bind_ok; [|exact E3]. erewrite bind_ok; [|exact E4].
  unfold ret. cbn [fst snd]. apply ok_eq; [|done]. f_equal.
  replace (n - tot) with (m + (n - (tot + m))) by lia. rewrite fbytes_app by lia. f_equal.
  rewrite (fbytes_block _ _ _ _ sb) by (done || lia). fold bn. apply take_ge. rewrite length_get_bytes; [done|].
  rewrite (bk_sized _ _ H4). unfold BSIZE in *. zlia.
Qed.

(** readi into the kernel returns the bytes of the file from [off] on, as many as asked for
    and there. *)
Lemma readi_ok bs c i dst off n s :
  fstate ∅ bs c i s -> room s bs 0 -> 0 <= off <= i_size i -> 0 <= n -> off + n < 4294967296 ->
  0 <= i_size i <= MAXFILE * BSIZE -> mapped (i_addrs i) c 0 (i_size i) ->
  exists s', readi ip false dst off n s =
      Ok (Z.min n (i_size i - off), fbytes (i_addrs i) c off (Z.min n (i_size i - off))) s' /\
    fstate ∅ bs c i s' /\ quiet s s'.
Proof.
  intros FS R Ho Hn Hov Hs Hmap. pose proof FS as [H1 H2 H3 H4 H5 H6 H7]. change (MAXFILE * BSIZE) with 274432 in Hs.
  unfold readi. kprim. rewrite (itable_at _ _ _ H5), !u32_small by lia.
  replace (i_size i <? off) with false by (symmetry; apply Z.ltb_ge; lia).
  replace (off + n <? off) with false by (symmetry; apply Z.ltb_ge; lia). cbn [orb]. cbv zeta.
  set (m := if i_size i <? off + n then i_size i - off else n).
  assert (Em : m = Z.min n (i_size i - off)) by (unfold m; case_b; lia). rewrite <- Em.
  destruct (readi_loop_ok (S (S (Z.to_nat (m / BSIZE + 1)))) bs c i dst off m 0 s FS R) as (s' & E & S' & Q').
  { lia. } { lia. } { change (MAXFILE * BSIZE) with 274432. lia. }
  { intros k Hk. apply Hmap. lia. }
  { assert (0 <= m / BSIZE) by (apply Z.div_pos; [lia|by unfold BSIZE]). rewrite !Nat2Z.inj_succ, Z2Nat.id by lia.
    unfold blocks_left, BSIZE in *. zlia. }
  exists s'. split; [|done]. erewrite bind_ok; [|exact E]. cbn [fst snd]. rewrite Z.sub_0_r. unfold ret.
  apply ok_eq; [|done]. f_equal. unfold i32. rewrite Z.mod_small; lia.
Qed.

End Readi.

(** ** writei *)

(** The file after the bytes [data] were stored at [off]. *)
Record stored (sb : superblock) (addrs : list Z) (c : Z -> list Z) (addrs' : list Z) (c' : Z -> list Z)
    (off : Z) (data : list Z) : Prop := {
  st_byte k : 0 <= k < MAXFILE * BSIZE ->
    fbyte addrs' c' k = if decide (off <= k < off + Z.of_nat (length data)) then data !!! Z.to_nat (k - off) else fbyte addrs c k;
  st_keep bn : 0 <= bn < MAXFILE -> faddr addrs c bn <> 0 -> faddr addrs' c' bn <> 0;
  st_mapped : mapped addrs' c' off (Z.of_nat (length data));
  st_foreign n : foreign sb addrs c n -> foreign sb addrs' c' n /\ c' n = c n;
  st_inodes n : n < sb_bmapstart sb -> c' n = c n }.

Lemma stored_nil sb addrs c off : 0 <= off -> stored sb addrs c addrs c off [].
Proof.
  intros Ho. split; try done.
  - intros k Hk. rewrite decide_False; [done|]. cbn. lia.
  - intros k Hk. cbn in Hk. lia.
Qed.

Lemma stored_app sb a1 c1 a2 c2 a3 c3 off d1 d2 :
  0 <= off -> off + Z.of_nat (length d1) + Z.of_nat (length d2) <= MAXFILE * BSIZE ->
  stored sb a1 c1 a2 c2 off d1 -> stored sb a2 c2 a3 c3 (off + Z.of_nat (length d1)) d2 -> stored sb a1 c1 a3 c3 off (d1 ++ d2).
Proof.
  intros Ho Hm W1 W2. set (n1 := Z.of_nat (length d1)) in *. set (n2 := Z.of_nat (length d2)) in *. split.
  - intros k Hk. rewrite (st_byte _ _ _ _ _ _ _ W2 k Hk), length_app, Nat2Z.inj_add. fold n1 n2.
    case_decide as D2.
    + rewrite decide_True by lia. rewrite lookup_total_app_r by lia. f_equal. lia.
    + rewrite (st_byte _ _ _ _ _ _ _ W1 k Hk). fold n1. case_decide as D1.
      * rewrite decide_True by lia. rewrite lookup_total_app_l by lia. done.
      * by rewrite decide_False by lia.
  - intros bn Hb Hn. by apply (st_keep _ _ _ _ _ _ _ W2), (st_keep _ _ _ _ _ _ _ W1).
  - intros k Hk. rewrite length_app, Nat2Z.inj_add in Hk. fold n1 n2 in Hk.
    destruct (Z_lt_ge_dec k (off + n1)) as [Lt|Ge]; [|apply (st_mapped _ _ _ _ _ _ _ W2); lia].
    apply (st_keep _ _ _ _ _ _ _ W2); [change (MAXFILE * BSIZE) with 274432 in Hm; change MAXFILE with 268; unfold BSIZE; zlia|].
    apply (st_mapped _ _ _ _ _ _ _ W1). lia.
  - intros n Hn. destruct (st_foreign _ _ _ _ _ _ _ W1 n Hn) as [F1 E1]. destruct (st_foreign _ _ _ _ _ _ _ W2 n F1) as [F2 E2].
    split; [done|congruence].
  - intros n Hn. rewrite (st_inodes _ _ _ _ _ _ _ W2), (st_inodes _ _ _ _ _ _ _ W1) by done. done.
Qed.

(** Allocation and the change of one block store bytes within the block. *)
Lemma stored_block sb lg addrs c addrs1 c1 off d :
  layout sb lg -> grown sb addrs c addrs1 c1 -> 0 <= off -> d <> [] ->
  off mod BSIZE + Z.of_nat (length d) <= BSIZE -> off + Z.of_nat (length d) <= MAXFILE * BSIZE ->
  let bn := off / BSIZE in faddr addrs1 c1 bn <> 0 ->
  stored sb addrs c addrs1 (<[faddr addrs1 c1 bn := put_bytes (Z.to_nat (off mod BSIZE)) d (c1 (faddr addrs1 c1 bn))]> c1) off d.
Proof.
  intros LY G Ho Hne Hd Hm bn Ha. pose proof (gr_ok _ _ _ _ _ G) as OK. pose proof (gr_blocks _ _ _ _ _ G) as B.
  change MAXFILE with 268 in *. unfold BSIZE in *. assert (Hbn : 0 <= bn < MAXFILE) by (change MAXFILE with 268; unfold bn; destruct d; [done|]; cbn in *; zlia).
  set (a := faddr addrs1 c1 bn) in *. set (o := Z.to_nat (off mod 1024)). set (n := Z.of_nat (length d)) in *.
  pose proof (bk_sized _ _ B a) as La. unfold BSIZE in La.
  assert (Lo : (o + length d <= length (c1 a))%nat) by (rewrite La; unfold o, n in *; zlia).
  set (e := put_bytes o d (c1 a)). assert (Le : length e = Z.to_nat BSIZE) by (unfold e; by rewrite length_put_bytes).
  assert (Fa : forall k, faddr addrs1 (<[a := e]> c1) k = faddr addrs1 c1 k) by (intros k; by apply (change_faddr sb)).
  split.
  - intros k Hk. change (MAXFILE * BSIZE) with 274432 in Hk. unfold fbyte, BSIZE.
    rewrite (change_fblk sb addrs1 c1 OK bn Hbn Ha) by (change MAXFILE with 268; zlia). case_decide as Dk.
    + assert (Ek : fblk addrs c (k / 1024) = c1 a).
      { rewrite <- (gr_blk _ _ _ _ _ G) by (change MAXFILE with 268; zlia). unfold fblk. rewrite Dk. fold a.
        by replace (a =? 0) with false by (symmetry; by apply Z.eqb_neq). }
      rewrite Ek. unfold e. rewrite !list_lookup_total_alt, lookup_put_bytes by done. unfold o, n, bn in *.
      case_decide as D1; case_decide as D2; try done; try zlia.
      f_equal. f_equal. zlia.
    + rewrite (gr_blk _ _ _ _ _ G) by (change MAXFILE with 268; zlia). rewrite decide_False; [done|]. unfold bn, n in *. zlia.
  - intros k Hk Hn. rewrite Fa. by rewrite (gr_keep _ _ _ _ _ G).
  - intros k Hk. rewrite Fa. unfold BSIZE. replace (k / 1024) with bn; [done|]. unfold bn, n in *. zlia.
  - intros m Hf. destruct (gr_foreign _ _ _ _ _ G m Hf) as [F1 E1].
    destruct (change_foreign sb lg LY addrs1 c1 OK bn Hbn Ha e Le m F1) as [F2 E2]. split; [done|]. fold a in E2. congruence.
  - intros m Hlt. pose proof (change_inodes sb lg LY addrs1 c1 OK bn Hbn Ha e Le m Hlt) as E. fold a in E. rewrite E. by apply (gr_inodes _ _ _ _ _ G).
Qed.

Section Writei.
Context `{L : KernelLayout} `{F : Fuel} `{D : DiskDriver} {DL : DiskLaws}.
Context (p : nat) (sb : superblock) (ip : nat).

#[local] Notation fstate := (fstate p sb ip).

(** One round: find or allocate the block, change it, log it. *)
Lemma write_block_ok bs c i off d s :
  fstate ∅ bs c i s -> open_txn s -> room s bs 6 -> (2 <= nfree sb c)%nat ->
  0 <= off -> d <> [] -> off mod BSIZE + Z.of_nat (length d) <= BSIZE -> off + Z.of_nat (length d) <= MAXFILE * BSIZE ->
  exists a b bs' c' addrs' s1 s2 s3 s4,
    bmap ip (off / BSIZE) s = Ok a s1 /\ a <> 0 /\ k_itable s1 !! ip = Some (set_i_addrs addrs' i) /\
    bread ROOTDEV a s1 = Ok b s2 /\ calm p s2 /\
    log_write b (upd_buf b (fun q => set_b_data (put_bytes (Z.to_nat (off mod BSIZE)) d (b_data q)) q) s2) = Ok tt s3 /\
    brelse b s3 = Ok tt s4 /\
    fstate ∅ bs' c' (set_i_addrs addrs' i) s4 /\ steady s s4 /\
    k_itable s4 = <[ip := set_i_addrs addrs' i]> (k_itable s) /\
    stored sb (i_addrs i) c addrs' c' off d /\ (length bs' <= length bs + 6)%nat /\ (nfree sb c <= nfree sb c' + 2)%nat.
Proof.
  intros FS O R N Ho Hne Hd Hm. pose proof FS as [H1 H2 H3 H4 H5 H6 H7].
  assert (Hbn : 0 <= off / BSIZE < MAXFILE) by (change (MAXFILE * BSIZE) with 274432 in Hm; change MAXFILE with 268; unfold BSIZE; destruct d; [done|]; cbn in *; zlia).
  destruct (bmap_ok p sb ip bs c i (off / BSIZE) s FS O R N Hbn) as (a & bs1 & c1 & a1 & s1 & E1 & Na & Ea & S1 & St1 & It1 & G1 & L1 & N1).
  pose proof S1 as [V1 B1 Y1 K1 T1 I1 F1]. cbn [i_addrs set_i_addrs] in F1. assert (Na' := Na). rewrite Ea in Na'.
  destruct (fo_addr _ _ _ F1 _ Hbn Na') as [[Ra Ua] Nia]. rewrite <- Ea in Ra, Ua, Nia.
  destruct (txn_change p ∅ bs1 c1 a (put_bytes (Z.to_nat (off mod BSIZE)) d) s1 V1 (open_steady _ _ St1 O))
    as (b & s2 & s3 & s4 & E2 & D2 & Q2 & E3 & E4 & V4 & Q4); [done| | |].
  { apply (past_log_home sb _ Y1). pose proof (bitmap_after_inodes sb _ Y1). unfold datastart in Ra. pose proof (size_pos sb _ Y1).
    assert (0 <= sb_size sb / BPB) by (apply Z.div_pos; [lia|by unfold BPB]). lia. }
  { eapply room_steady; [exact St1|]. rewrite map_size_empty. unfold room in *. lia. }
  assert (C2 : calm p s2).
  { destruct (txn_bread p ∅ bs1 c1 a s1 V1) as (b' & s2' & E2' & V2' & _);
      [done|eapply room_steady; [exact St1|]; rewrite map_size_empty; unfold room in *; lia|].
    rewrite E2 in E2'. injection E2' as <- <-. eapply cached_calm, it_cache, V2'. }
  pose proof (stored_block sb _ (i_addrs i) c a1 c1 off d Y1 G1 Ho Hne Hd Hm Na') as W. cbv zeta in W. rewrite <- Ea in W.
  assert (Lp : length (put_bytes (Z.to_nat (off mod BSIZE)) d (c1 a)) = Z.to_nat BSIZE).
  { rewrite length_put_bytes; [apply K1|]. rewrite (bk_sized _ _ K1). unfold BSIZE in *. zlia. }
  exists a, b, (absorb a bs1), (<[a := put_bytes (Z.to_nat (off mod BSIZE)) d (c1 a)]> c1), a1, s1, s2, s3, s4.
  split_and!; try done.
  - eapply fstate_quiet; [exact S1|done|done| |].
    + rewrite Ea. rewrite Ea in Lp. by apply (change_blocks_ok sb _ Y1 a1 c1 F1 K1 _ Hbn Na').
    + cbn [i_addrs set_i_addrs]. rewrite Ea. rewrite Ea in Lp. by apply (change_file_ok sb _ Y1 a1 c1 F1 _ Hbn Na').
  - transitivity s1; [done|by apply quiet_steady].
  - by rewrite (proj1 (proj2 Q4)).
  - pose proof (length_absorb a bs1). lia.
  - rewrite (nfree_data sb _ _ _ _ Y1) by lia. lia.
Qed.

Lemma writei_loop_ok fuel bs c i src ksrc off n tot s :
  fstate ∅ bs c i s -> open_txn s -> room s bs (6 * blocks_left off (n - tot)) ->
  2 * blocks_left off (n - tot) <= Z.of_nat (nfree sb c) ->
  0 <= off -> 0 <= tot <= n -> n <= Z.of_nat (length ksrc) -> off + (n - tot) <= MAXFILE * BSIZE ->
  blocks_left off (n - tot) < Z.of_nat fuel ->
  exists bs' c' addrs' s', writei_loop fuel ip false src ksrc off n tot s = Ok (n, off + (n - tot)) s' /\
    fstate ∅ bs' c' (set_i_addrs addrs' i) s' /\ steady s s' /\
    k_itable s' = <[ip := set_i_addrs addrs' i]> (k_itable s) /\
    stored sb (i_addrs i) c addrs' c' off (take (Z.to_nat (n - tot)) (drop (Z.to_nat tot) ksrc)) /\
    Z.of_nat (length bs') <= Z.of_nat (length bs) + 6 * blocks_left off (n - tot).
Proof.
  revert bs c i src off tot s. induction fuel as [|fuel IH]; intros bs c i src off tot s FS O R N Ho Ht Hk Hm Hf.
  { exfalso. unfold blocks_left, BSIZE in *. zlia. }
  cbn [writei_loop]. destruct (Z.ltb_spec tot n) as [Hlt|Hge]; cbn [negb].
  2: { exists bs, c, (i_addrs i), s. replace (n - tot) with 0 by lia. rewrite Z.add_0_r, set_i_addrs_same. replace tot with n by lia.
       split_and!; try done; [rewrite list_insert_id; [done|apply FS]|by apply stored_nil|unfold blocks_left, BSIZE; zlia]. }
  set (m := Z.min (n - tot) (BSIZE - off mod BSIZE)). set (d := take (Z.to_nat m) (drop (Z.to_nat tot) ksrc)).
  assert (Hmm : 0 < m /\ m <= n - tot /\ off mod BSIZE + m <= BSIZE) by (unfold m, BSIZE in *; zlia).
  assert (Ld : Z.of_nat (length d) = m) by (unfold d; rewrite length_take, length_drop; lia).
  assert (Bl : blocks_left (off + m) (n - tot - m) <= blocks_left off (n - tot) - 1 /\ 1 <= blocks_left off (n - tot)).
  { unfold blocks_left, m, BSIZE in *. destruct (Z.min_spec (n - tot) (1024 - off mod 1024)) as [[? ->]|[? ->]]; zlia. }
  destruct (write_block_ok bs c i off d s FS O) as (a & b & bs1 & c1 & a1 & s1 & s2 & s3 & s4 & E1 & Na & T1 & E2 & C2 & E3 & E4 & S4 & St4 & It4 & W4 & L4 & N4);
    try lia.
  { unfold room in *. lia. }
  { intros Q. rewrite Q in Ld. cbn in Ld. lia. }
  destruct (IH bs1 c1 (set_i_addrs a1 i) (u64 (src + m)) (off + m) (tot + m) s4 S4 (open_steady _ _ St4 O))
    as (bs' & c' & a' & s' & E5 & S5 & St5 & It5 & W5 & L5); try lia.
  { eapply room_steady; [exact St4|]. replace (n - (tot + m)) with (n - tot - m) by lia. unfold room in *. lia. }
  { replace (n - (tot + m)) with (n - tot - m) by lia. lia. }
  { replace (n - (tot + m)) with (n - tot - m) by lia. lia. }
  replace (n - (tot + m)) with (n - tot - m) in * by lia.
  exists bs', c', a', s'. split_and!.
  - erewrite bind_ok; [|exact E1]. replace (a =? 0) with false by (symmetry; by apply Z.eqb_neq). kprim.
    rewrite (itable_at _ _ _ T1). change (i_dev (set_i_addrs a1 i)) with (i_dev i). rewrite (fs_dev _ _ _ _ _ _ _ _ FS).
    erewrite bind_ok; [|exact E2]. fold m.
    erewrite bind_ok; [|unfold either_copyin; erewrite bind_ok; [|by apply myproc_calm]; reflexivity].
    cbn [fst snd]. kprim. change (0 =? -1) with false. cbv match. erewrite bind_ok; [|exact E3]. erewrite bind_ok; [|exact E4].
    rewrite E5. f_equal. f_equal. lia.
  - done.
  - by transitivity s4.
  - rewrite It5, It4. by rewrite list_insert_insert_eq.
  - replace (take (Z.to_nat (n - tot)) (drop (Z.to_nat tot) ksrc)) with
      (d ++ take (Z.to_nat (n - tot - m)) (drop (Z.to_nat (tot + m)) ksrc)).
    + eapply stored_app; [done| |exact W4|]; rewrite Ld; [|done]. rewrite length_take, length_drop. lia.
    + unfold d. rewrite <- (take_drop (Z.to_nat m) (take (Z.to_nat (n - tot)) (drop (Z.to_nat tot) ksrc))). f_equal.
      * rewrite take_take. f_equal. lia.
      * rewrite skipn_firstn_comm, drop_drop. f_equal; [lia|f_equal; lia].
  - lia.
Qed.

End Writei.
