(* ===== verification/Dinode.v ===== *)
(** * The inodes on disk

    The dinodes of an inode block (kernel/fs.h, struct dinode) as fields of a byte array: a
    dinode that is stored reads back, and the other dinodes of its block keep their value.
    [iupdate] and the loading half of [ilock] (kernel/fs.c) are the users. *)

From S2P Require Import Prelude Bytes State Fs.
From Stdlib Require Import ZArith Lia.
From stdpp Require Import base numbers list.

#[local] Open Scope Z_scope.

(** The values the C types of the fields hold. *)
Definition is_short (x : Z) : Prop := -32768 <= x < 32768.

Record dinode_typed (d : dinode) : Prop := {
  dt_type : is_short (di_type d);
  dt_major : is_short (di_major d);
  dt_minor : is_short (di_minor d);
  dt_nlink : is_short (di_nlink d);
  dt_size : 0 <= di_size d < 4294967296;
  dt_len : length (di_addrs d) = 13%nat;
  dt_addrs : Forall (fun a => 0 <= a < 4294967296) (di_addrs d) }.

(** ** Fields of a byte array *)

Lemma length_put16 off v l : (off + 2 <= length l)%nat -> length (put16 off v l) = length l.
Proof. intros H. apply length_put_bytes. rewrite length_le_bytes. lia. Qed.

Lemma get16_put16 off v l : (off + 2 <= length l)%nat -> is_short v -> i16 (get16 off (put16 off v l)) = v.
Proof.
  intros H R. unfold get16, put16. change 2%nat with (length (le_bytes 2 v)) at 1.
  rewrite get_put_same by (rewrite length_le_bytes; lia). rewrite le_val_bytes_2. unfold i16, u16, is_short in *. zlia.
Qed.

Lemma get_put16_out off n off' v l :
  (off' + 2 <= length l)%nat -> (off + n <= off' \/ off' + 2 <= off)%nat ->
  get_bytes off n (put16 off' v l) = get_bytes off n l.
Proof. intros H D. apply get_put_out; rewrite length_le_bytes; lia. Qed.

Lemma get_put32_out off n off' v l :
  (off' + 4 <= length l)%nat -> (off + n <= off' \/ off' + 4 <= off)%nat ->
  get_bytes off n (put32 off' v l) = get_bytes off n l.
Proof. intros H D. apply get_put_out; rewrite length_le_bytes; lia. Qed.

Lemma get_put_words_out off n off' ws l :
  (off' + 4 * length ws <= length l)%nat -> (off + n <= off' \/ off' + 4 * length ws <= off)%nat ->
  get_bytes off n (put_words off' ws l) = get_bytes off n l.
Proof.
  revert off' l. induction ws as [|w ws IH]; intros off' l H D; [done|]. cbn [put_words length] in *.
  rewrite IH; [apply get_put32_out; lia|rewrite length_put32; lia|lia].
Qed.

#[local] Ltac field_lia := rewrite ?length_put_words, ?length_put32, ?length_put16; try lia.

Lemma length_put_dinode off d l :
  length (di_addrs d) = 13%nat -> (off + 64 <= length l)%nat -> length (put_dinode off d l) = length l.
Proof. intros Hd H. unfold put_dinode. repeat field_lia. Qed.

Lemma get_put_dinode_out off n off' d l :
  length (di_addrs d) = 13%nat -> (off' + 64 <= length l)%nat -> (off + n <= off' \/ off' + 64 <= off)%nat ->
  get_bytes off n (put_dinode off' d l) = get_bytes off n l.
Proof.
  intros Hd H D. unfold put_dinode. rewrite get_put_words_out by repeat field_lia.
  rewrite get_put32_out by repeat field_lia. by rewrite !get_put16_out by repeat field_lia.
Qed.

(** A dinode depends on its 64 bytes only. *)
Lemma get_dinode_ext off l l' :
  (forall k n, (k + n <= 64)%nat -> get_bytes (off + k) n l = get_bytes (off + k) n l') -> get_dinode off l = get_dinode off l'.
Proof.
  intros E. unfold get_dinode, get16, get32, get_words. rewrite <- (Nat.add_0_r off) at 1 6. f_equal; try (do 2 f_equal; apply E; lia).
  - f_equal. apply E. lia.
  - apply list_fmap_ext. intros i x Hx. apply lookup_seq in Hx as [-> Hx]. unfold get32. f_equal.
    rewrite <- Nat.add_assoc. apply E. lia.
Qed.

Lemma get_put_dinode_other off off' d l :
  length (di_addrs d) = 13%nat -> (off' + 64 <= length l)%nat -> (off + 64 <= off' \/ off' + 64 <= off)%nat ->
  get_dinode off (put_dinode off' d l) = get_dinode off l.
Proof. intros Hd H D. apply get_dinode_ext. intros k n Hk. apply get_put_dinode_out; [done..|lia]. Qed.

Lemma get_put_dinode off d l : dinode_typed d -> (off + 64 <= length l)%nat -> get_dinode off (put_dinode off d l) = d.
Proof.
  intros [T1 T2 T3 T4 T5 T6 T7] H. unfold get_dinode, put_dinode. destruct d as [ty ma mi nl sz ad]. cbn [di_type di_major di_minor di_nlink di_size di_addrs] in *. f_equal.
  1-5: unfold get16 at 1 || unfold get32 at 1; rewrite get_put_words_out by repeat field_lia.
  1-4: rewrite get_put32_out by repeat field_lia; rewrite ?get_put16_out by repeat field_lia; apply get16_put16; repeat field_lia; done.
  - fold (get32 (off + 8) (put32 (off + 8) sz (put16 (off + 6) nl (put16 (off + 4) mi (put16 (off + 2) ma (put16 off ty l)))))).
    rewrite get32_put32_same by repeat field_lia. by apply u32_small.
  - rewrite <- T6. apply get_words_put_words; [rewrite T6; repeat field_lia|done].
Qed.
