(* ===== verification/FileSpec.v ===== *)
(** * Files as byte lists

    The specification readi and writei (kernel/fs.c) refine: a file is the list of its bytes,
    reading takes a slice and writing splices bytes in.  The inode is written back to its
    dinode, the other dinodes and the blocks of the other files stay as they are. *)

From S2P Require Import Prelude Memory Riscv State Kmonad Spinlock CString Kalloc Vm Proc ProcSpec CoYield Sched Sleeplock Uart Printf.
From S2P Require Import Bytes Bio Log Fs Calm Lru BioSpec LogSpec Commit Txn FsTxn Balloc FileData.
From S2P Require Import Cache FileIO Dinode.
From Stdlib Require Import ZArith Lia.
From stdpp Require Import base gmap list numbers functions.

#[local] Open Scope Z_scope.

(** The bytes of the file of an inode. *)
Definition contents (i : inode) (c : Z -> list Z) : list Z := fbytes (i_addrs i) c 0 (i_size i).

(** [d] written over [l] at [off], past its end if need be. *)
Definition splice (off : nat) (d l : list Z) : list Z := take off l ++ d ++ drop (off + length d) l.

Definition inode_dinode (i : inode) : dinode :=
  mkdinode (i_type i) (i_major i) (i_minor i) (i_nlink i) (i_size i) (i_addrs i).

(** The dinode of [inum] in the blocks [c]. *)
Definition disk_inode (sb : superblock) (c : Z -> list Z) (inum : Z) : dinode := get_dinode (dinode_off inum) (c (IBLOCK inum sb)).

(** A file whose size is covered by its blocks. *)
Record inode_ok (sb : superblock) (c : Z -> list Z) (i : inode) : Prop := {
  io_inum : 0 <= i_inum i < sb_ninodes sb;
  io_short : is_short (i_type i) /\ is_short (i_major i) /\ is_short (i_minor i) /\ is_short (i_nlink i);
  io_size : 0 <= i_size i <= MAXFILE * BSIZE;
  io_mapped : mapped (i_addrs i) c 0 (i_size i) }.

Lemma dinode_off_bound inum : (dinode_off inum + 64 <= Z.to_nat BSIZE)%nat.
Proof. unfold dinode_off. change IPB with 16. unfold sizeof_dinode, BSIZE. zlia. Qed.

Lemma dinode_off_apart i j :
  0 <= i -> 0 <= j -> i <> j -> i / IPB = j / IPB -> (dinode_off i + 64 <= dinode_off j \/ dinode_off j + 64 <= dinode_off i)%nat.
Proof. intros Hi Hj N E. unfold dinode_off. change IPB with 16 in *. unfold sizeof_dinode. zlia. Qed.

Section Inodes.
Context (sb : superblock) (lg : logstate) (LY : layout sb lg).

Lemma IBLOCK_eq inum : 0 <= inum < sb_ninodes sb -> IBLOCK inum sb = inum / IPB + sb_inodestart sb.
Proof.
  intros H. pose proof (size_pos sb lg LY). destruct LY as [H1 H2 H3 H4 H5 H6]. unfold IBLOCK, datastart in *.
  assert (0 <= sb_size sb / BPB) by (apply Z.div_pos; [lia|by unfold BPB]).
  apply u32_small. change IPB with 16 in *. zlia.
Qed.

Lemma IBLOCK_range inum : 0 <= inum < sb_ninodes sb -> sb_inodestart sb <= IBLOCK inum sb < sb_bmapstart sb.
Proof. intros H. rewrite IBLOCK_eq by done. pose proof (ly_bitmap _ _ LY). change IPB with 16 in *. zlia. Qed.

Lemma IBLOCK_home inum : 0 <= inum < sb_ninodes sb -> home lg (IBLOCK inum sb).
Proof.
  intros H. apply (past_log_home sb lg LY). pose proof (IBLOCK_range inum H). pose proof (ly_data _ _ LY). pose proof (size_pos sb lg LY).
  assert (0 <= sb_size sb / BPB) by (apply Z.div_pos; [lia|by unfold BPB]). unfold datastart in *. lia.
Qed.

Lemma disk_inode_put c inum d :
  0 <= inum < sb_ninodes sb -> blocks_ok sb c -> dinode_typed d ->
  let c' := <[IBLOCK inum sb := put_dinode (dinode_off inum) d (c (IBLOCK inum sb))]> c in
  disk_inode sb c' inum = d /\ forall j, 0 <= j < sb_ninodes sb -> j <> inum -> disk_inode sb c' j = disk_inode sb c j.
Proof.
  intros H B T c'. pose proof (dinode_off_bound inum) as Ho. unfold disk_inode, c'. split.
  - rewrite fn_lookup_insert. apply get_put_dinode; [done|by rewrite (bk_sized _ _ B)].
  - intros j Hj N. destruct (decide (IBLOCK j sb = IBLOCK inum sb)) as [E|E].
    + rewrite E, fn_lookup_insert. apply get_put_dinode_other; [apply T|by rewrite (bk_sized _ _ B)|].
      rewrite !IBLOCK_eq in E by done. apply dinode_off_apart; lia.
    + by rewrite fn_lookup_insert_ne.
Qed.

(** The block addresses of a file are 32-bit words. *)
Lemma inode_typed c i : file_ok sb (i_addrs i) c -> inode_ok sb c i -> dinode_typed (inode_dinode i).
Proof.
  intros O [_ (S1 & S2 & S3 & S4) Sz _]. change (MAXFILE * BSIZE) with 274432 in Sz. pose proof (datastart_pos sb lg LY). pose proof (ly_size _ _ LY).
  assert (R : forall a, a <> 0 -> in_use sb c a -> 0 <= a < 4294967296) by (intros a _ [Ra _]; lia).
  split; try done; cbn [inode_dinode di_size]; [lia|apply O|]. apply Forall_lookup. intros k a Ek.
  destruct (Z.eq_dec a 0) as [->|Na]; [done|]. pose proof (lookup_lt_Some _ _ _ Ek) as Hk. cbn [inode_dinode di_addrs] in *. rewrite (fo_len _ _ _ O) in Hk.
  apply list_lookup_total_correct in Ek. destruct (decide (k = 12%nat)) as [->|N12].
  - apply R; [done|]. rewrite <- Ek. apply (fo_ind _ _ _ O). unfold ind_of. change (Z.to_nat NDIRECT) with 12%nat. by rewrite Ek.
  - assert (Ef : faddr (i_addrs i) c (Z.of_nat k) = a).
    { unfold faddr. change NDIRECT with 12. replace (Z.of_nat k <? 12) with true by (symmetry; apply Z.ltb_lt; lia). by rewrite Nat2Z.id. }
    apply R; [done|]. rewrite <- Ef. apply (fo_addr _ _ _ O); [|congruence]. change MAXFILE with 268. lia.
Qed.
End Inodes.

(** ** iupdate *)

Section Iupdate.
Context `{L : KernelLayout} `{F : Fuel} `{D : DiskDriver} {DL : DiskLaws}.
Context (p : nat) (sb : superblock) (ip : nat).

#[local] Notation fstate := (fstate p sb ip).

Lemma iupdate_ok bs c i s :
  fstate ∅ bs c i s -> open_txn s -> room s bs 1 -> 0 <= i_inum i < sb_ninodes sb ->
  let n := IBLOCK (i_inum i) sb in
  exists s', iupdate ip s = Ok tt s' /\ quiet s s' /\
    fstate ∅ (absorb n bs) (<[n := put_dinode (dinode_off (i_inum i)) (inode_dinode i) (c n)]> c) i s'.
Proof.
  intros FS O R Hi n. pose proof FS as [H1 H2 H3 H4 H5 H6 H7].
  destruct (txn_change p ∅ bs c n (put_dinode (dinode_off (i_inum i)) (inode_dinode i)) s H1 O)
    as (b & s1 & s2 & s3 & E1 & D1 & Q1 & E2 & E3 & V3 & Q3); [done|by apply (IBLOCK_home sb _ H3)|by rewrite map_size_empty|].
  assert (T1 : k_itable s1 !! ip = Some i) by (by rewrite (proj1 (proj2 Q1))).
  assert (Ln : length (put_dinode (dinode_off (i_inum i)) (inode_dinode i) (c n)) = Z.to_nat BSIZE).
  { rewrite length_put_dinode; [apply H4|apply H7|]. rewrite (bk_sized _ _ H4). apply dinode_off_bound. }
  destruct (meta_file_ok sb _ (i_addrs i) c n _ H3 H7 H4 (proj2 (IBLOCK_range sb _ H3 _ Hi)) Ln) as (M1 & M2 & _ & _).
  exists s3. split_and!.
  - unfold iupdate. do 2 kprim. rewrite (itable_at _ _ _ H5), H6, H2. erewrite bind_ok; [|exact E1].
    kprim. rewrite (itable_at _ _ _ T1). kprim. erewrite bind_ok; [|exact E2]. exact E3.
  - done.
  - by eapply fstate_quiet.
Qed.

(** ** writei *)

Lemma contents_splice (i : inode) c addrs' c' off d sz :
  stored sb (i_addrs i) c addrs' c' off d -> 0 <= off <= i_size i -> off + Z.of_nat (length d) <= MAXFILE * BSIZE ->
  0 <= i_size i <= MAXFILE * BSIZE -> sz = Z.max (i_size i) (off + Z.of_nat (length d)) ->
  fbytes addrs' c' 0 sz = splice (Z.to_nat off) d (contents i c).
Proof.
  intros W Ho Hd Hs ->. apply list_eq. intros k. unfold splice, contents. rewrite lookup_fbytes.
  assert (Lc : length (fbytes (i_addrs i) c 0 (i_size i)) = Z.to_nat (i_size i)) by apply length_fbytes.
  rewrite lookup_app. destruct (decide (Z.of_nat k < off)) as [D1|D1].
  - rewrite lookup_take_lt, lookup_fbytes, !decide_True by lia. rewrite (st_byte _ _ _ _ _ _ _ W) by lia.
    by rewrite decide_False by lia.
  - rewrite lookup_take_ge by lia. rewrite length_take, Lc. replace (Z.to_nat off `min` Z.to_nat (i_size i))%nat with (Z.to_nat off) by lia.
    rewrite lookup_app. destruct (d !! (k - Z.to_nat off)%nat) as [v|] eqn:Ev.
    + pose proof (lookup_lt_Some _ _ _ Ev). rewrite decide_True by lia. rewrite (st_byte _ _ _ _ _ _ _ W) by lia.
      rewrite decide_True by lia. f_equal. apply list_lookup_total_correct. rewrite <- Ev. f_equal. lia.
    + apply lookup_ge_None in Ev. rewrite lookup_drop, lookup_fbytes.
      replace (Z.to_nat off + length d + (k - Z.to_nat off - length d))%nat with k by lia.
      destruct (decide (Z.of_nat k < i_size i)); [|by rewrite decide_False by lia].
      rewrite decide_True by lia. rewrite (st_byte _ _ _ _ _ _ _ W) by lia. by rewrite decide_False by lia.
Qed.

Lemma mapped_splice (i : inode) c addrs' c' off d :
  stored sb (i_addrs i) c addrs' c' off d -> mapped (i_addrs i) c 0 (i_size i) -> 0 <= i_size i <= MAXFILE * BSIZE ->
  0 <= off <= i_size i -> mapped addrs' c' 0 (Z.max (i_size i) (off + Z.of_nat (length d))).
Proof.
  intros W M Hs Ho k Hk. destruct (decide (off <= k < off + Z.of_nat (length d))); [by apply (st_mapped _ _ _ _ _ _ _ W)|].
  apply (st_keep _ _ _ _ _ _ _ W); [|apply M; lia]. change (MAXFILE * BSIZE) with 274432 in Hs. change MAXFILE with 268. unfold BSIZE. zlia.
Qed.

(** The inode after the loop of writei: the addresses bmap left, the size grown. *)
Definition resized (i : inode) (addrs : list Z) (off : Z) (d : list Z) : inode :=
  set_i_size (Z.max (i_size i) (off + Z.of_nat (length d))) (set_i_addrs addrs i).

(** What writing [d] at [off] does to the file of [i] and to the blocks. *)
Record written (c : Z -> list Z) (i : inode) (c' : Z -> list Z) (i' : inode) (off : Z) (d : list Z) : Prop := {
  wr_size : i_size i' = Z.max (i_size i) (off + Z.of_nat (length d));
  wr_contents : contents i' c' = splice (Z.to_nat off) d (contents i c);
  wr_inum : i_inum i' = i_inum i;
  wr_keep : exists addrs, i' = resized i addrs off d;
  wr_inode : inode_ok sb c' i';
  wr_disk : disk_inode sb c' (i_inum i') = inode_dinode i';
  wr_others j : 0 <= j < sb_ninodes sb -> j <> i_inum i -> disk_inode sb c' j = disk_inode sb c j;
  wr_foreign n : foreign sb (i_addrs i) c n -> foreign sb (i_addrs i') c' n /\ c' n = c n }.

Lemma resized_ok i c addrs1 c1 off d :
  inode_ok sb c i -> stored sb (i_addrs i) c addrs1 c1 off d -> 0 <= off <= i_size i ->
  off + Z.of_nat (length d) <= MAXFILE * BSIZE -> inode_ok sb c1 (resized i addrs1 off d).
Proof.
  intros [I1 I2 I3 I4] W Ho Hd. split; [done|done| |]; cbn [resized i_size i_addrs set_i_size set_i_addrs]; [lia|].
  by apply mapped_splice with (c := c).
Qed.

Lemma written_back lg i c addrs1 c1 off d :
  layout sb lg -> file_ok sb addrs1 c1 -> blocks_ok sb c1 -> inode_ok sb c i ->
  stored sb (i_addrs i) c addrs1 c1 off d -> 0 <= off <= i_size i -> off + Z.of_nat (length d) <= MAXFILE * BSIZE ->
  let i' := resized i addrs1 off d in let n := IBLOCK (i_inum i) sb in
  written c i (<[n := put_dinode (dinode_off (i_inum i)) (inode_dinode i') (c1 n)]> c1) i' off d.
Proof.
  intros LY OK B IO W Ho Hd i' n. pose proof (resized_ok i c addrs1 c1 off d IO W Ho Hd) as IO'. fold i' in IO'.
  pose proof (inode_typed sb lg LY c1 i' OK IO') as T. pose proof (io_inum _ _ _ IO) as Hi. pose proof (io_size _ _ _ IO') as Hs.
  destruct (disk_inode_put sb lg LY c1 (i_inum i) (inode_dinode i') Hi B T) as [Ds Do]. fold n in Ds, Do.
  assert (Ln : length (put_dinode (dinode_off (i_inum i)) (inode_dinode i') (c1 n)) = Z.to_nat BSIZE).
  { rewrite length_put_dinode; [apply B|apply T|]. rewrite (bk_sized _ _ B). apply dinode_off_bound. }
  destruct (meta_file_ok sb lg addrs1 c1 n _ LY OK B (proj2 (IBLOCK_range sb lg LY _ Hi)) Ln) as (M1 & M2 & M3 & M4).
  set (c2 := <[n := _]> c1) in *.
  assert (Hb : forall k, 0 <= k < i_size i' -> 0 <= k / BSIZE < MAXFILE)
    by (change (MAXFILE * BSIZE) with 274432 in Hs; change MAXFILE with 268; unfold BSIZE; intros; zlia).
  split; try done.
  - unfold contents at 1. rewrite <- (contents_splice i c addrs1 c1 off d (i_size i') W Ho Hd (io_size _ _ _ IO) eq_refl).
    apply list_fmap_ext. intros k x Hx. apply list_elem_of_lookup_2, elem_of_seqZ in Hx. unfold fbyte. change (i_addrs i') with addrs1.
    by rewrite (proj1 (M3 (x / BSIZE) (Hb x ltac:(lia)))).
  - by exists addrs1.
  - destruct IO' as [J1 J2 J3 J4]. split; try done. intros k Hk. change (i_addrs i') with addrs1 in *.
    rewrite (proj2 (M3 (k / BSIZE) (Hb k ltac:(lia)))). by apply J4.
  - intros j Hj Nj. rewrite Do by done. unfold disk_inode. f_equal. apply (st_inodes _ _ _ _ _ _ _ W). by apply (IBLOCK_range sb lg LY).
  - intros m Hm'. destruct (st_foreign _ _ _ _ _ _ _ W m Hm') as [F1 E1]. destruct (M4 m F1) as [F2 E2]. split; [done|congruence].
Qed.

(** writei succeeds when log and free blocks suffice. *)
Lemma writei_ok bs c i src ksrc off n s :
  fstate ∅ bs c i s -> open_txn s -> inode_ok sb c i ->
  0 <= off <= i_size i -> 0 <= n <= Z.of_nat (length ksrc) -> off + n <= MAXFILE * BSIZE ->
  room s bs (6 * blocks_left off n + 1) -> 2 * blocks_left off n <= Z.of_nat (nfree sb c) ->
  exists bs' c' i' s', writei ip false src ksrc off n s = Ok n s' /\ fstate ∅ bs' c' i' s' /\ steady s s' /\
    k_itable s' = <[ip := i']> (k_itable s) /\
    Z.of_nat (length bs') <= Z.of_nat (length bs) + 6 * blocks_left off n + 1 /\
    written c i c' i' off (take (Z.to_nat n) ksrc).
Proof.
  intros FS O IO Ho Hn Hm R N. pose proof IO as [I1 I2 I3 I4]. pose proof FS as [H1 H2 H3 H4 H5 H6 H7].
  assert (Ld : Z.of_nat (length (take (Z.to_nat n) ksrc)) = n) by (rewrite length_take; lia).
  destruct (writei_loop_ok p sb ip (S (S (Z.to_nat (n / BSIZE + 1)))) bs c i src ksrc off n 0 s FS O)
    as (bs1 & c1 & a1 & s1 & E1 & S1 & St1 & It1 & W1 & L1); rewrite ?Z.sub_0_r in *; try lia.
  { unfold room in *. lia. }
  { change (MAXFILE * BSIZE) with 274432 in *. unfold blocks_left, BSIZE in *. zlia. }
  rewrite Z2Nat.inj_0, drop_0 in W1. set (d := take (Z.to_nat n) ksrc) in *.
  assert (T1 : k_itable s1 !! ip = Some (set_i_addrs a1 i)) by apply S1. set (i' := resized i a1 off d).
  set (s2 := if i_size i <? off + n then upd_inode ip (set_i_size (off + n)) s1 else s1).
  assert (S2 : fstate ∅ bs1 c1 i' s2 /\ steady s1 s2 /\ k_itable s2 = <[ip := i']> (k_itable s)).
  { unfold i', resized, s2. rewrite Ld. destruct (Z.ltb_spec (i_size i) (off + n)).
    - rewrite Z.max_r by lia. split_and!; [by apply fstate_seti; [|done|apply S1]|done|].
      by rewrite (itable_upd _ _ _ _ T1), It1, list_insert_insert_eq.
    - rewrite Z.max_l by lia. change (set_i_size (i_size i) (set_i_addrs a1 i)) with (set_i_addrs a1 (set_i_size (i_size i) i)).
      replace (set_i_size (i_size i) i) with i by (by destruct i). by split_and!. }
  destruct S2 as (S2 & St2 & It2). rewrite <- Ld in Hm.
  assert (O2 : open_txn s2) by (eapply open_steady; [exact St2|]; by eapply open_steady).
  destruct (iupdate_ok bs1 c1 i' s2 S2 O2) as (s3 & E3 & Q3 & S3); [|done|].
  { eapply room_steady; [exact St2|]. eapply room_steady; [exact St1|]. unfold room in *. lia. }
  eexists _, _, i', s3. split_and!; [|exact S3| | | |].
  - unfold writei. kprim. rewrite (itable_at _ _ _ H5), u32_small by (change (MAXFILE * BSIZE) with 274432 in *; lia).
    replace (i_size i <? off) with false by (symmetry; apply Z.ltb_ge; lia).
    replace (off + n <? off) with false by (symmetry; apply Z.ltb_ge; lia).
    replace (MAXFILE * BSIZE <? off + n) with false by (symmetry; apply Z.ltb_ge; lia). cbn [orb].
    erewrite bind_ok; [|exact E1]. cbv match. kprim. rewrite (itable_at _ _ _ T1). change (i_size (set_i_addrs a1 i)) with (i_size i).
    erewrite bind_ok; [|instantiate (1 := s2); instantiate (1 := tt); unfold s2; by destruct (_ <? _)].
    erewrite bind_ok; [|exact E3]. unfold ret. f_equal. apply i32_small. change (MAXFILE * BSIZE) with 274432 in *. lia.
  - transitivity s1; [done|]. transitivity s2; [done|by apply quiet_steady].
  - by rewrite (proj1 (proj2 Q3)).
  - pose proof (length_absorb (IBLOCK (i_inum i') sb) bs1). lia.
  - exact (written_back _ i c a1 c1 off d (fs_layout _ _ _ _ _ _ _ _ S1) (fs_file _ _ _ _ _ _ _ _ S1) (fs_blocks _ _ _ _ _ _ _ _ S1) IO W1 Ho Hm).
Qed.
(** readi returns the slice of the contents. *)
Lemma readi_contents bs c i dst off n s :
  fstate ∅ bs c i s -> room s bs 0 -> inode_ok sb c i -> 0 <= off <= i_size i -> 0 <= n -> off + n < 4294967296 ->
  exists s', readi ip false dst off n s =
      Ok (Z.min n (i_size i - off), take (Z.to_nat n) (drop (Z.to_nat off) (contents i c))) s' /\
    fstate ∅ bs c i s' /\ quiet s s'.
Proof.
  intros FS R [_ _ Hs Hm] Ho Hn Hw. destruct (readi_ok p sb ip bs c i dst off n s FS R Ho Hn Hw Hs Hm) as (s' & E & S' & Q').
  exists s'. split_and!; [|done..]. rewrite E. do 2 f_equal. unfold contents. apply list_eq. intros k.
  rewrite lookup_fbytes. destruct (decide (k < Z.to_nat n)%nat) as [Dk|Dk].
  - rewrite lookup_take_lt, lookup_drop, lookup_fbytes by done. case_decide.
    + rewrite decide_True by lia. do 2 f_equal. lia.
    + by rewrite decide_False by lia.
  - rewrite lookup_take_ge by lia. by rewrite decide_False by lia.
Qed.


End Iupdate.

(** ** On a small file system *)

#[local] Existing Instance demo_layout.
#[local] Existing Instance demo_fuel.
#[local] Existing Instance ram_disk.
#[local] Existing Instance ram_disk_laws.

(** An empty file, inode 1. *)
Definition demo_file : inode := mkinode ROOTDEV 1 1 1 2 0 0 1 0 (replicate 13 0).

Lemma demo_file_addr c bn : 0 <= bn < MAXFILE -> faddr (i_addrs demo_file) c bn = 0.
Proof.
  intros H. unfold faddr. change NDIRECT with 12. destruct (Z.ltb_spec bn 12); [|done]. cbn [i_addrs demo_file].
  apply lookup_total_replicate_2. lia.
Qed.

Lemma demo_file_state : fstate 0 demo_sb 3 ∅ [] (dblock demo_image) demo_file (demo_mounted demo_file).
Proof.
  split; [apply demo_view|apply demo_mounted_sb|apply demo_sb_layout|apply demo_blocks| |done|].
  - rewrite demo_mounted_itable. reflexivity.
  - split; [done|done|intros bn H N|intros bn bn' H _ N]; by rewrite demo_file_addr in N.
Qed.

