(* ===== verification/FileCrash.v ===== *)
(** * File writes and crashes

    The file layer on top of the log: one writei between begin_op and end_op is atomic with
    respect to crashes, as seen through the inodes on disk. *)

From S2P Require Import Prelude Memory Riscv State Kmonad Spinlock CString Kalloc Vm Proc ProcSpec CoYield Sched Sleeplock Uart Printf.
From S2P Require Import Bytes Bio Log Fs Calm Lru BioSpec Cache LogSpec Commit Txn FsTxn Balloc FileData FileIO Dinode FileSpec.
From Stdlib Require Import ZArith Lia.
From stdpp Require Import base gmap list numbers functions.

#[local] Open Scope Z_scope.
#[local] Open Scope kernel_scope.

(** The file of inode [inum] as the blocks [c] describe it. *)
Definition disk_file (sb : superblock) (c : Z -> list Z) (inum : Z) : list Z :=
  let d := disk_inode sb c inum in fbytes (di_addrs d) c 0 (di_size d).

Section Agree.
Context (sb : superblock) (lg : logstate) (LY : layout sb lg).
Context (c c' : Z -> list Z) (E : forall n, home lg n -> c' n = c n).

Lemma in_use_home a : in_use sb c a -> home lg a.
Proof.
  intros [R _]. apply (past_log_home sb lg LY). pose proof (bitmap_after_inodes sb lg LY). pose proof (size_pos sb lg LY).
  assert (0 <= sb_size sb / BPB) by (apply Z.div_pos; [lia|by unfold BPB]). unfold datastart in R. lia.
Qed.

Lemma disk_inode_home inum : 0 <= inum < sb_ninodes sb -> disk_inode sb c' inum = disk_inode sb c inum.
Proof. intros H. unfold disk_inode. rewrite E; [done|by apply (IBLOCK_home sb lg LY)]. Qed.

Lemma fbytes_home addrs n : file_ok sb addrs c -> n <= MAXFILE * BSIZE -> fbytes addrs c' 0 n = fbytes addrs c 0 n.
Proof.
  intros O Hn. change (MAXFILE * BSIZE) with 274432 in Hn. apply list_fmap_ext. intros k x Hx. apply list_elem_of_lookup_2, elem_of_seqZ in Hx.
  assert (Hb : 0 <= x / BSIZE < MAXFILE) by (change MAXFILE with 268; unfold BSIZE; zlia).
  assert (Ef : faddr addrs c' (x / BSIZE) = faddr addrs c (x / BSIZE)).
  { unfold faddr. case_b; [done|]. destruct (Z.eqb_spec (ind_of addrs) 0) as [|Ni]; [done|].
    rewrite E; [done|]. by apply in_use_home, (fo_ind _ _ _ O). }
  unfold fbyte, fblk. rewrite Ef. destruct (Z.eqb_spec (faddr addrs c (x / BSIZE)) 0) as [|Na]; [done|].
  rewrite E; [done|]. by apply in_use_home, (fo_addr _ _ _ O).
Qed.

Lemma disk_file_home i :
  file_ok sb (i_addrs i) c -> inode_ok sb c i -> disk_inode sb c (i_inum i) = inode_dinode i ->
  disk_file sb c' (i_inum i) = contents i c.
Proof.
  intros O IO Ed. unfold disk_file. rewrite disk_inode_home by apply IO. rewrite Ed. apply fbytes_home; [done|apply IO].
Qed.
End Agree.

Section Crash.
Context `{L : KernelLayout} `{F : Fuel} `{D : DiskDriver} {DL : DiskLaws}.
Context (p : nat) (sb : superblock) (ip : nat).

(** One write as its own transaction. *)
Definition write_op (src : Z) (ksrc : list Z) (off n : Z) : M Z :=
  begin_op ;!
  let! r := writei ip false src ksrc off n in
  end_op ;!
  ret r.

(** The mounted file system between transactions: the cache agrees with the disk, inode [i]
    is in the inode table and up to date with its dinode. *)
Record at_rest (i : inode) (s : kstate) : Prop := {
  ar_log : idle_log s;
  ar_cache : cached p ∅ ∅ (dblock (k_disk s)) s;
  ar_sb : k_sb s = sb;
  ar_layout : layout sb (k_log s);
  ar_blocks : blocks_ok sb (dblock (k_disk s));
  ar_itab : k_itable s !! ip = Some i;
  ar_dev : i_dev i = ROOTDEV;
  ar_file : file_ok sb (i_addrs i) (dblock (k_disk s));
  ar_inode : inode_ok sb (dblock (k_disk s)) i;
  ar_dinode : disk_inode sb (dblock (k_disk s)) (i_inum i) = inode_dinode i }.

Lemma at_rest_begin i s :
  at_rest i s -> exists s1, begin_op s = Ok tt s1 /\ fstate p sb ip ∅ [] (dblock (k_disk s)) i s1 /\
    k_log s1 = set_lg_outstanding 1 (k_log s) /\ k_disk s1 = k_disk s /\ k_itable s1 = k_itable s /\ logged [] s s1.
Proof.
  intros [A1 A2 A3 A4 A5 A6 A7 A8 A9 A10]. destruct (begin_idle p s A1 (cached_calm _ _ _ _ _ A2)) as [E1 OK1].
  exists (upd_log (set_lg_outstanding 1) s). split_and!; try done; [|apply logged_setl].
  split; try done; [|by destruct A4].
  split; [done|apply A1|]. apply cached_setl. exact A2.
Qed.


End Crash.

(** ** On a small file system *)

#[local] Existing Instance demo_layout.
#[local] Existing Instance demo_fuel.
#[local] Existing Instance ram_disk.
#[local] Existing Instance ram_disk_laws.

Lemma demo_rest_state : at_rest 0 demo_sb 3 demo_file (demo_rest demo_file).
Proof.
  pose proof demo_file_state as [_ _ _ H4 _ H6 H7].
  split; rewrite ?demo_rest_disk, ?demo_rest_log, ?demo_rest_itable; try done.
  - split; rewrite ?demo_rest_disk, ?demo_rest_log; try done. split; cbn; try done; try lia. apply NoDup_nil_2.
  - apply demo_rest_cached.
  - split; cbn; try lia; [unfold is_short; lia|by vm_compute|intros k Hk; lia].
Qed.

