(* ===== verification/Dir.v ===== *)
(** * Directories as maps

    dirlookup and dirlink (kernel/fs.c) on the entries of a directory: a directory refines a
    map from names, the first DIRSIZ characters of a string, to inode numbers. *)

From S2P Require Import Prelude Memory Riscv State Kmonad Spinlock CString Kalloc Vm Proc ProcSpec CoYield Sched Sleeplock Uart Printf.
From S2P Require Import Bytes Bio Log Fs Calm Lru BioSpec Cache LogSpec Commit Txn FsTxn Balloc FileData FileIO Dinode FileSpec.
From Stdlib Require Import ZArith Lia.
From stdpp Require Import base gmap list numbers functions.

#[local] Open Scope Z_scope.
#[local] Open Scope kernel_scope.

(** The name a string or a dirent's field stands for. *)
Definition name_of (l : list Z) : list Z := cstrn (Z.to_nat DIRSIZ) 0 (bytes_at l).

Definition names (name e : list Z) : bool := negb (de_inum e =? 0) && bool_decide (name_of name = name_of (de_name e)).

(** The first entry for [name]: its position and inode number. *)
Fixpoint dir_find (name : list Z) (es : list (list Z)) : option (nat * Z) :=
  match es with
  | [] => None
  | e :: es' => if names name e then Some (0%nat, de_inum e) else (fun r => (S r.1, r.2)) <$> dir_find name es'
  end.

(** The map a directory stands for. *)
Definition dir_map (es : list (list Z)) (name : list Z) : option Z := snd <$> dir_find name es.

(** The position of the first empty entry, or the end. *)
Fixpoint dir_free (es : list (list Z)) : nat :=
  match es with
  | [] => 0
  | e :: es' => if de_inum e =? 0 then 0 else S (dir_free es')
  end.

Definition dir_add (e : list Z) (es : list (list Z)) : list (list Z) := take (dir_free es) es ++ e :: drop (S (dir_free es)) es.

Lemma namecmp_names name e : (namecmp name e =? 0) = bool_decide (name_of name = name_of e).
Proof.
  unfold namecmp, name_of. pose proof (strncmp_from_zero (Z.to_nat DIRSIZ) 0 (bytes_at name) (bytes_at e)) as H.
  apply eq_bool_prop_intro. rewrite Is_true_true, Z.eqb_eq, bool_decide_spec. exact H.
Qed.

Lemma de_inum_mk inum name : 0 <= inum < 65536 -> de_inum (mkdirent inum name) = inum.
Proof.
  intros H. unfold de_inum, mkdirent, get16, get_bytes. rewrite drop_0.
  change 2%nat with (length (le_bytes 2 inum)) at 1. rewrite take_app_length, le_val_bytes_2. unfold u16. zlia.
Qed.

Lemma de_name_mk inum name : length name = 14%nat -> de_name (mkdirent inum name) = name.
Proof. intros H. unfold de_name, mkdirent, get_bytes. rewrite (drop_app_length' (le_bytes 2 inum)) by done. by apply take_ge; lia. Qed.

Lemma name_of_strncpy name : name_of (strncpy (bytes_at name) DIRSIZ) = name_of name.
Proof. unfold name_of, strncpy. apply strncpy_from_cstrn. Qed.

Lemma dir_find_app name l1 l2 :
  dir_map (l1 ++ l2) name = match dir_map l1 name with Some r => Some r | None => dir_map l2 name end.
Proof.
  unfold dir_map. induction l1 as [|e l1 IH]; [done|]. cbn [app dir_find]. destruct (names name e); [done|].
  destruct (dir_find name (l1 ++ l2)), (dir_find name l1); cbn in *; done.
Qed.

Lemma dir_free_spec es : (dir_free es <= length es)%nat /\
  (forall e, es !! dir_free es = Some e -> de_inum e = 0).
Proof.
  induction es as [|e es [H1 H2]]; [done|]. cbn [dir_free]. destruct (Z.eqb_spec (de_inum e) 0); cbn; split; try lia.
  - intros e' [= <-]. done.
  - exact H2.
Qed.

Lemma dir_map_ext es q q' : name_of q = name_of q' -> dir_map es q = dir_map es q'.
Proof.
  intros E. unfold dir_map. f_equal. induction es as [|x l IH]; [done|]. cbn [dir_find]. unfold names. rewrite E. by rewrite IH.
Qed.

(** Adding an absent name adds it to the map. *)
Lemma dir_map_add e es q :
  dir_map es (de_name e) = None -> de_inum e <> 0 ->
  dir_map (dir_add e es) q = if decide (name_of q = name_of (de_name e)) then Some (de_inum e) else dir_map es q.
Proof.
  intros Ab Ne. unfold dir_add. set (k := dir_free es). destruct (dir_free_spec es) as [Hk He]. fold k in Hk, He.
  assert (Sp : dir_map es q = match dir_map (take k es) q with Some r => Some r | None => dir_map (drop (S k) es) q end).
  { rewrite <- (take_drop k es) at 1. rewrite dir_find_app. destruct (dir_map (take k es) q); [done|].
    destruct (es !! k) as [x|] eqn:Ex.
    - rewrite (drop_S _ _ _ Ex). unfold dir_map. cbn [dir_find]. unfold names at 1. rewrite (He x eq_refl). cbn [Z.eqb negb andb].
      by destruct (dir_find q (drop (S k) es)).
    - apply lookup_ge_None in Ex. by rewrite !drop_ge by lia. }
  rewrite dir_find_app. unfold dir_map at 2. cbn [dir_find]. unfold names at 1.
  replace (de_inum e =? 0) with false by (symmetry; by apply Z.eqb_neq). cbn [negb andb].
  destruct (decide (name_of q = name_of (de_name e))) as [E|E].
  - rewrite bool_decide_eq_true_2 by done. rewrite (dir_map_ext es q _ E), Ab in Sp. by destruct (dir_map (take k es) q).
  - rewrite bool_decide_eq_false_2 by done. rewrite Sp. destruct (dir_map (take k es) q); [done|].
    unfold dir_map. by destruct (dir_find q (drop (S k) es)).
Qed.

(** ** Entries in the bytes of the file *)

Lemma concat_entry (es : list (list Z)) k e :
  Forall (fun e => length e = 16%nat) es -> es !! k = Some e -> take 16 (drop (16 * k) (concat es)) = e.
Proof.
  revert k. induction es as [|x es IH]; intros k Hl Hk; [done|]. inversion_clear Hl as [|? ? Hx Hl']. destruct k as [|k]; cbn [concat].
  - injection Hk as <-. change (16 * 0)%nat with 0%nat. cbn [drop]. by apply take_app_length'.
  - replace (16 * S k)%nat with (length x + 16 * k)%nat by lia. rewrite drop_app_add. by apply IH.
Qed.

Lemma length_entries (es : list (list Z)) : Forall (fun e => length e = 16%nat) es -> length (concat es) = (16 * length es)%nat.
Proof. induction 1 as [|x es Hx Hl IH]; [done|]. cbn [concat length]. rewrite length_app. lia. Qed.

Lemma splice_entry (es : list (list Z)) k e :
  Forall (fun e => length e = 16%nat) es -> length e = 16%nat -> (k <= length es)%nat ->
  splice (16 * k) e (concat es) = concat (take k es ++ e :: drop (S k) es).
Proof.
  intros Hl He Hk. unfold splice. rewrite He, concat_app. cbn [concat].
  assert (Lt : length (concat (take k es)) = (16 * k)%nat).
  { rewrite length_entries by by apply Forall_take. rewrite length_take. lia. }
  rewrite <- (take_drop k es) at 1 2. rewrite !concat_app. f_equal; [by apply take_app_length'|]. f_equal.
  replace (16 * k + 16)%nat with (length (concat (take k es)) + 16)%nat by lia. rewrite drop_app_add.
  destruct (es !! k) as [x|] eqn:Ex.
  - rewrite (drop_S _ _ _ Ex). cbn [concat]. replace 16%nat with (length x) by exact (Forall_lookup_1 _ _ _ _ Hl Ex).
    by rewrite drop_app_length.
  - apply lookup_ge_None in Ex. by rewrite (drop_ge es k), (drop_ge es (S k)) by lia.
Qed.

Section Dir.
Context `{L : KernelLayout} `{F : Fuel} `{D : DiskDriver} {DL : DiskLaws}.
Context (p : nat) (sb : superblock) (dp : nat).

#[local] Notation fstate := (fstate p sb dp).

(** Inode [i] is a directory with the entries [es]. *)
Record is_dir (c : Z -> list Z) (i : inode) (es : list (list Z)) : Prop := {
  id_ok : inode_ok sb c i;
  id_type : i_type i = T_DIR;
  id_len : Forall (fun e => length e = 16%nat) es;
  id_contents : contents i c = concat es }.

Lemma is_dir_size c i es : is_dir c i es -> i_size i = 16 * Z.of_nat (length es).
Proof.
  intros [H1 H2 H3 H4]. apply (f_equal length) in H4. unfold contents in H4. rewrite length_fbytes, length_entries in H4 by done.
  pose proof (io_size _ _ _ H1). lia.
Qed.

Lemma read_entry bs c i es k e s :
  fstate ∅ bs c i s -> room s bs 0 -> is_dir c i es -> es !! k = Some e ->
  exists s', readi dp false 0 (16 * Z.of_nat k) sizeof_dirent s = Ok (16, e) s' /\ fstate ∅ bs c i s' /\ quiet s s'.
Proof.
  intros FS R DI Hk. pose proof (lookup_lt_Some _ _ _ Hk) as Lk. pose proof (is_dir_size c i es DI) as Sz.
  pose proof (io_size _ _ _ (id_ok _ _ _ DI)) as Hs. change (MAXFILE * BSIZE) with 274432 in Hs. unfold sizeof_dirent.
  destruct (readi_contents p sb dp bs c i 0 (16 * Z.of_nat k) 16 s FS R (id_ok _ _ _ DI)) as (s' & E & S' & Q'); try lia.
  exists s'. split; [|done]. rewrite E, (id_contents _ _ _ DI). do 2 f_equal; [lia|].
  replace (Z.to_nat (16 * Z.of_nat k)) with (16 * k)%nat by lia. by apply concat_entry; [apply DI|].
Qed.

Lemma dirlookup_loop_ok fuel bs c i es k name s :
  fstate ∅ bs c i s -> room s bs 0 -> is_dir c i es -> (k <= length es)%nat -> (length es - k < fuel)%nat ->
  exists s1, fstate ∅ bs c i s1 /\ quiet s s1 /\
    dirlookup_loop fuel dp name (16 * Z.of_nat k) s =
      match dir_find name (drop k es) with
      | None => Ok None s1
      | Some (j, inum) => (let! ip := iget ROOTDEV inum in ret (Some (ip, 16 * Z.of_nat (k + j)))) s1
      end.
Proof.
  revert k s. induction fuel as [|fuel IH]; intros k s FS R DI Hk Hf; [lia|]. cbn [dirlookup_loop]. kprim.
  rewrite (itable_at _ _ _ (fs_itab _ _ _ _ _ _ _ _ FS)), (is_dir_size c i es DI).
  destruct (es !! k) as [e|] eqn:Ek.
  2:{ apply lookup_ge_None in Ek. replace (_ <? _) with false by (symmetry; apply Z.ltb_ge; lia).
      rewrite drop_ge by lia. by exists s. }
  pose proof (lookup_lt_Some _ _ _ Ek) as Lk. replace (_ <? _) with true by (symmetry; apply Z.ltb_lt; lia). cbn [negb].
  destruct (read_entry bs c i es k e s FS R DI Ek) as (s1 & E1 & S1 & Q1). erewrite bind_ok; [|exact E1]. cbn [fst snd].
  change (16 =? sizeof_dirent) with true. cbn [negb]. rewrite (drop_S _ _ _ Ek). cbn [dir_find]. unfold names at 1.
  destruct (IH (S k) s1 S1 (room_quiet _ _ _ _ Q1 R) DI ltac:(lia) ltac:(lia)) as (s2 & S2 & Q2 & E2).
  replace (16 * Z.of_nat k + sizeof_dirent) with (16 * Z.of_nat (S k)) by (unfold sizeof_dirent; lia).
  assert (Next : exists s3, fstate ∅ bs c i s3 /\ quiet s s3 /\
    dirlookup_loop fuel dp name (16 * Z.of_nat (S k)) s1 =
      match (fun r : nat * Z => (S r.1, r.2)) <$> dir_find name (drop (S k) es) with
      | None => Ok None s3
      | Some (j, inum) => (let! ip := iget ROOTDEV inum in ret (Some (ip, 16 * Z.of_nat (k + j)))) s3
      end).
  { exists s2. split_and!; [done|by transitivity s1|]. rewrite E2. destruct (dir_find name (drop (S k) es)) as [[j inum]|]; [|done].
    cbn. by replace (k + S j)%nat with (S k + j)%nat by lia. }
  rewrite namecmp_names. destruct (Z.eqb_spec (de_inum e) 0) as [Z0|Z0]; cbn [negb andb]; [exact Next|].
  destruct (bool_decide (name_of name = name_of (de_name e))); [|exact Next].
  exists s1. split_and!; [done..|]. kprim. rewrite (itable_at _ _ _ (fs_itab _ _ _ _ _ _ _ _ S1)), (fs_dev _ _ _ _ _ _ _ _ S1).
  by rewrite Nat.add_0_r.
Qed.

Lemma dirlookup_ok bs c i es name s :
  fstate ∅ bs c i s -> room s bs 0 -> is_dir c i es ->
  exists s1, fstate ∅ bs c i s1 /\ quiet s s1 /\
    dirlookup dp name s =
      match dir_find name es with
      | None => Ok None s1
      | Some (j, inum) => (let! ip := iget ROOTDEV inum in ret (Some (ip, 16 * Z.of_nat j))) s1
      end.
Proof.
  intros FS R DI. unfold dirlookup. kprim. rewrite (itable_at _ _ _ (fs_itab _ _ _ _ _ _ _ _ FS)), (id_type _ _ _ DI).
  change (T_DIR =? T_DIR) with true. cbn [negb]. kprim. rewrite (itable_at _ _ _ (fs_itab _ _ _ _ _ _ _ _ FS)).
  pose proof (is_dir_size c i es DI) as Sz.
  apply (dirlookup_loop_ok (S (S (Z.to_nat (i_size i / sizeof_dirent)))) bs c i es 0 name s FS R DI); [lia|].
  rewrite Sz. unfold sizeof_dirent. zlia.
Qed.

Lemma dirlink_loop_ok fuel bs c i es k s :
  fstate ∅ bs c i s -> room s bs 0 -> is_dir c i es -> (k <= length es)%nat -> (length es - k < fuel)%nat ->
  exists s1, fstate ∅ bs c i s1 /\ quiet s s1 /\
    dirlink_loop fuel dp (16 * Z.of_nat k) s = Ok (16 * Z.of_nat (k + dir_free (drop k es))) s1.
Proof.
  revert k s. induction fuel as [|fuel IH]; intros k s FS R DI Hk Hf; [lia|]. cbn [dirlink_loop]. kprim.
  rewrite (itable_at _ _ _ (fs_itab _ _ _ _ _ _ _ _ FS)), (is_dir_size c i es DI).
  destruct (es !! k) as [e|] eqn:Ek.
  2:{ apply lookup_ge_None in Ek. replace (_ <? _) with false by (symmetry; apply Z.ltb_ge; lia).
      rewrite drop_ge by lia. exists s. split_and!; [done..|]. cbn. unfold ret. do 2 f_equal. lia. }
  pose proof (lookup_lt_Some _ _ _ Ek) as Lk. replace (_ <? _) with true by (symmetry; apply Z.ltb_lt; lia). cbn [negb].
  destruct (read_entry bs c i es k e s FS R DI Ek) as (s1 & E1 & S1 & Q1). erewrite bind_ok; [|exact E1]. cbn [fst snd].
  change (16 =? sizeof_dirent) with true. cbn [negb]. rewrite (drop_S _ _ _ Ek). cbn [dir_free].
  destruct (IH (S k) s1 S1 (room_quiet _ _ _ _ Q1 R) DI ltac:(lia) ltac:(lia)) as (s2 & S2 & Q2 & E2).
  replace (16 * Z.of_nat k + sizeof_dirent) with (16 * Z.of_nat (S k)) by (unfold sizeof_dirent; lia).
  destruct (Z.eqb_spec (de_inum e) 0).
  - exists s1. split_and!; [done..|]. unfold ret. do 2 f_equal. lia.
  - exists s2. split_and!; [done|by transitivity s1|]. rewrite E2. do 2 f_equal. lia.
Qed.

(** The entry dirlink writes. *)
Definition new_entry (name : list Z) (inum : Z) : list Z := mkdirent inum (strncpy (bytes_at name) DIRSIZ).

Lemma new_entry_spec name inum :
  0 <= inum < 65536 -> length (new_entry name inum) = 16%nat /\ de_inum (new_entry name inum) = inum /\
  name_of (de_name (new_entry name inum)) = name_of name.
Proof.
  intros H. assert (Ln : length (strncpy (bytes_at name) DIRSIZ) = 14%nat) by (unfold strncpy; by rewrite length_strncpy_from).
  unfold new_entry. split_and!; [|by apply de_inum_mk|by rewrite de_name_mk, name_of_strncpy].
  unfold mkdirent. rewrite length_app, Ln, length_le_bytes. done.
Qed.

Lemma blocks_left_entry k : 0 <= k -> blocks_left (16 * k) 16 = 1.
Proof. intros H. unfold blocks_left, BSIZE. zlia. Qed.

(** Linking an absent name. *)
Lemma dirlink_ok bs c i es name inum s :
  fstate ∅ bs c i s -> open_txn s -> is_dir c i es -> room s bs 7 -> (2 <= nfree sb c)%nat ->
  16 * Z.of_nat (length es) + 16 <= MAXFILE * BSIZE -> 0 <= inum < 65536 -> dir_map es name = None ->
  exists bs' c' i' s', dirlink dp name inum s = Ok 0 s' /\ fstate ∅ bs' c' i' s' /\ steady s s' /\
    Z.of_nat (length bs') <= Z.of_nat (length bs) + 7 /\
    is_dir c' i' (dir_add (new_entry name inum) es) /\
    written sb c i c' i' (16 * Z.of_nat (dir_free es)) (new_entry name inum).
Proof.
  intros FS O DI R N Hm Hi Ab. assert (R0 : room s bs 0) by (unfold room in *; lia).
  destruct (dirlookup_ok bs c i es name s FS R0 DI) as (s1 & S1 & Q1 & E1).
  unfold dir_map in Ab. destruct (dir_find name es); [done|].
  destruct (dirlink_loop_ok (S (S (Z.to_nat (i_size i / sizeof_dirent)))) bs c i es 0 s1 S1 (room_quiet _ _ _ _ Q1 R0) DI) as (s2 & S2 & Q2 & E2);
    [lia|rewrite (is_dir_size c i es DI); unfold sizeof_dirent; zlia|].
  cbn [drop Nat.add] in E2. rewrite drop_0 in E2. change (16 * Z.of_nat 0) with 0 in E2. set (k := dir_free es) in *.
  destruct (dir_free_spec es) as [Hk _]. fold k in Hk. pose proof (is_dir_size c i es DI) as Sz.
  destruct (new_entry_spec name inum Hi) as (Le & Ie & Ne). set (e := new_entry name inum) in *.
  assert (Q : quiet s s2) by (by transitivity s1).
  destruct (writei_ok p sb dp bs c i 0 e (16 * Z.of_nat k) 16 s2 S2 (open_quiet _ _ Q O) (id_ok _ _ _ DI))
    as (bs' & c' & i' & s3 & E3 & S3 & St3 & It3 & Ln & W); rewrite ?blocks_left_entry in * by lia; try lia.
  { eapply room_quiet; [exact Q|]. unfold room in *. lia. }
  exists bs', c', i', s3. split_and!; try done; [|transitivity s2; [by apply quiet_steady|done]|lia| |].
  - unfold dirlink. erewrite bind_ok; [|exact E1]. cbv match. kprim. rewrite (itable_at _ _ _ (fs_itab _ _ _ _ _ _ _ _ S1)).
    erewrite bind_ok; [|exact E2]. cbv zeta. fold (new_entry name inum). fold e.
    erewrite bind_ok; [|exact E3]. done.
  - change (Z.to_nat 16) with 16%nat in W. rewrite take_ge in W by lia. split.
    + apply W.
    + destruct (wr_keep _ _ _ _ _ _ _ W) as [a ->]. apply DI.
    + unfold dir_add. apply Forall_app. split; [apply Forall_take, DI|]. constructor; [done|apply Forall_drop, DI].
    + rewrite (wr_contents _ _ _ _ _ _ _ W), (id_contents _ _ _ DI). unfold dir_add. fold k.
      replace (Z.to_nat (16 * Z.of_nat k)) with (16 * k)%nat by lia. apply splice_entry; [apply DI|done|done].
  - change (Z.to_nat 16) with 16%nat in W. by rewrite take_ge in W by lia.
Qed.


End Dir.

(** ** On a small file system *)

#[local] Existing Instance demo_layout.
#[local] Existing Instance demo_fuel.
#[local] Existing Instance ram_disk.
#[local] Existing Instance ram_disk_laws.

(** An empty directory as inode 1. *)
Definition demo_dir : inode := set_i_type T_DIR demo_file.

Lemma demo_dir_state : fstate 0 demo_sb 3 ∅ [] (dblock demo_image) demo_dir (demo_mounted demo_dir).
Proof.
  pose proof demo_file_state as [_ _ _ H4 _ H6 H7].
  split; [apply demo_view|apply demo_mounted_sb|apply demo_sb_layout|exact H4|rewrite demo_mounted_itable; reflexivity|exact H6|exact H7].
Qed.

Lemma demo_dir_ok : is_dir demo_sb (dblock demo_image) demo_dir [].
Proof. split; [split; cbn; try lia; [unfold is_short, T_DIR; lia|by vm_compute|intros k Hk; lia]|done|done|done]. Qed.

