(* ===== verification/Mkfs.v ===== *)
(** * The file system image builder (mkfs/mkfs.c)

    mkfs is a host program; its effects are the image it writes, a file of blocks that reads
    as zeroes where nothing was written.  Numbers are stored in the byte order of the target
    (xshort, xint), which is that of [put16] and [put32].  The files to add are given by their
    path and by the pieces the host's read returns, none if they cannot be opened. *)

From S2P Require Import Prelude Memory Riscv State Kmonad Spinlock CString.
From S2P Require Import Bytes Bio Log Fs.
From Stdlib Require Import ZArith Lia.
From stdpp Require Import base numbers list functions.

#[local] Open Scope Z_scope.

(** The image, its length in blocks, and freeinode and freeblock. *)
Record mkst := mkmkst {
  mk_img : Z -> list Z;
  mk_len : Z;
  mk_inode : Z;
  mk_block : Z }.

(** perror and exit, or a failed assertion. *)
Inductive mkerr := Die | Assertion.

Definition MK (A : Type) : Type := mkst -> (A * mkst) + mkerr.

#[global] Instance mk_ret : MRet MK := fun A a st => inl (a, st).
#[global] Instance mk_bind : MBind MK := fun A B k m st => match m st with inl (a, st') => k a st' | inr e => inr e end.
Definition mkfail {A} (e : mkerr) : MK A := fun _ => inr e.
Definition mkassert (b : bool) : MK unit := if b then mret tt else mkfail Assertion.

(** ** Layout *)

Definition NINODES : Z := 200.
Definition nbitmap : Z := FSSIZE / (BSIZE * 8) + 1.
Definition ninodeblocks : Z := NINODES / IPB + 1.
Definition nlog : Z := LOGSIZE.
Definition nmeta : Z := 2 + nlog + ninodeblocks + nbitmap.

Definition mkfs_sb : superblock :=
  mksuperblock FSMAGIC FSSIZE (FSSIZE - nmeta) NINODES nlog 2 (2 + nlog) (2 + nlog + ninodeblocks).

(** The bytes of struct superblock. *)
Definition sb_bytes (sb : superblock) : list Z :=
  le_bytes 4 (sb_magic sb) ++ le_bytes 4 (sb_size sb) ++ le_bytes 4 (sb_nblocks sb) ++ le_bytes 4 (sb_ninodes sb) ++
  le_bytes 4 (sb_nlog sb) ++ le_bytes 4 (sb_logstart sb) ++ le_bytes 4 (sb_inodestart sb) ++ le_bytes 4 (sb_bmapstart sb).

Definition zeroes : list Z := replicate (Z.to_nat BSIZE) 0.

(** ** Blocks and inodes *)

Definition wsect (sec : Z) (buf : list Z) : MK unit :=
  fun st => inl (tt, mkmkst (<[sec := buf]> (mk_img st)) (Z.max (mk_len st) (sec + 1)) (mk_inode st) (mk_block st)).

Definition rsect (sec : Z) : MK (list Z) :=
  fun st => if sec <? mk_len st then inl (mk_img st sec, st) else inr Die.

Definition winode (inum : Z) (d : dinode) : MK unit :=
  let bn := IBLOCK inum mkfs_sb in
  buf ← rsect bn;
  wsect bn (put_dinode (dinode_off inum) d buf).

Definition rinode (inum : Z) : MK dinode :=
  buf ← rsect (IBLOCK inum mkfs_sb);
  mret (get_dinode (dinode_off inum) buf).

(** freeinode++ and freeblock++. *)
Definition next_inode : MK Z :=
  fun st => inl (mk_inode st, mkmkst (mk_img st) (mk_len st) (u32 (mk_inode st + 1)) (mk_block st)).
Definition next_block : MK Z :=
  fun st => inl (mk_block st, mkmkst (mk_img st) (mk_len st) (mk_inode st) (u32 (mk_block st + 1))).

Definition mk_ialloc (type : Z) : MK Z :=
  inum ← next_inode;
  winode inum (mkdinode type 0 0 1 0 (replicate 13 0));;
  mret inum.

(** The bitmap block with the first [used] bits set. *)
Fixpoint used_bits (used : nat) : list Z :=
  match used with
  | O => zeroes
  | S i => let buf := used_bits i in
           <[(i / 8)%nat := u8 (Z.lor (buf !!! (i / 8)%nat) (Z.shiftl 1 (Z.of_nat i mod 8)))]> buf
  end.

Definition mk_balloc (used : Z) : MK unit :=
  mkassert (used <? BSIZE * 8);;
  wsect (sb_bmapstart mkfs_sb) (used_bits (Z.to_nat used)).

Definition set_addr (i : nat) (a : Z) (d : dinode) : dinode :=
  mkdinode (di_type d) (di_major d) (di_minor d) (di_nlink d) (di_size d) (<[i := a]> (di_addrs d)).

Definition set_size (n : Z) (d : dinode) : dinode :=
  mkdinode (di_type d) (di_major d) (di_minor d) (di_nlink d) n (di_addrs d).

(** An address of the inode, allocated if it is zero. *)
Definition addr_or_new (i : nat) (d : dinode) : MK dinode :=
  if di_addrs d !!! i =? 0 then x ← next_block; mret (set_addr i x d) else mret d.

(** The block of the file that holds its block [fbn], and the inode with it. *)
Definition file_block (fbn : Z) (d : dinode) : MK (Z * dinode) :=
  if fbn <? NDIRECT then
    d ← addr_or_new (Z.to_nat fbn) d;
    mret (di_addrs d !!! Z.to_nat fbn, d)
  else
    d ← addr_or_new (Z.to_nat NDIRECT) d;
    let ind := di_addrs d !!! Z.to_nat NDIRECT in
    let off := (4 * Z.to_nat (fbn - NDIRECT))%nat in
    indirect ← rsect ind;
    if get32 off indirect =? 0 then
      x ← next_block;
      let indirect := put32 off x indirect in
      wsect ind indirect;;
      mret (get32 off indirect, d)
    else mret (get32 off indirect, d).

(** The while loop of iappend: the inode and the offset after it. *)
Fixpoint iappend_loop (fuel : nat) (p : list Z) (off : Z) (d : dinode) : MK (Z * dinode) :=
  match p, fuel with
  | [], _ => mret (off, d)
  | _ :: _, O => mkfail Assertion
  | _ :: _, S fuel' =>
      let fbn := off / BSIZE in
      mkassert (fbn <? MAXFILE);;
      xd ← file_block fbn d;
      let '(x, d) := xd : Z * dinode in
      let n1 := Z.min (Z.of_nat (length p)) ((fbn + 1) * BSIZE - off) in
      buf ← rsect x;
      wsect x (put_bytes (Z.to_nat (off - fbn * BSIZE)) (take (Z.to_nat n1) p) buf);;
      iappend_loop fuel' (drop (Z.to_nat n1) p) (off + n1) d
  end.

Definition iappend (inum : Z) (p : list Z) : MK unit :=
  d ← rinode inum;
  od ← iappend_loop (length p) p (di_size d) d;
  winode inum (set_size (fst od) (snd od)).

(** ** main *)

(** for(i = 0; i < FSSIZE; i++) wsect(i, zeroes). *)
Fixpoint wipe (n : nat) (sec : Z) : MK unit :=
  match n with
  | O => mret tt
  | S n' => wsect sec zeroes;; wipe n' (sec + 1)
  end.

(** A directory entry for a name. *)
Definition entry (inum : Z) (name : list Z) : list Z := mkdirent inum (strncpy (bytes_at name) DIRSIZ).

(** The path without user/ and without a leading underscore. *)
Definition strip_dir (path : list Z) : list Z :=
  if bool_decide (take 5 path = [117; 115; 101; 114; 47]) then drop 5 path else path.
Definition strip_mark (name : list Z) : list Z := match name with 95 :: name' => name' | _ => name end.

Fixpoint append_all (inum : Z) (pieces : list (list Z)) : MK unit :=
  match pieces with
  | [] => mret tt
  | p :: pieces' => iappend inum p;; append_all inum pieces'
  end.

Definition add_file (rootino : Z) (f : list Z * option (list (list Z))) : MK unit :=
  let shortname := strip_dir (fst f) in
  mkassert (bool_decide (47 ∉ shortname));;
  match snd f with
  | None => mkfail Die
  | Some pieces =>
      inum ← mk_ialloc T_FILE;
      iappend rootino (entry inum (strip_mark shortname));;
      append_all inum pieces
  end.

Fixpoint add_files (rootino : Z) (files : list (list Z * option (list (list Z)))) : MK unit :=
  match files with
  | [] => mret tt
  | f :: files' => add_file rootino f;; add_files rootino files'
  end.

Definition mkfs (files : list (list Z * option (list (list Z)))) : MK unit :=
  wipe (Z.to_nat FSSIZE) 0;;
  wsect 1 (put_bytes 0 (sb_bytes mkfs_sb) zeroes);;
  rootino ← mk_ialloc T_DIR;
  mkassert (rootino =? ROOTINO);;
  iappend rootino (entry rootino [46]);;
  iappend rootino (entry rootino [46; 46]);;
  add_files rootino files;;
  din ← rinode rootino;
  winode rootino (set_size ((di_size din / BSIZE + 1) * BSIZE) din);;
  used ← (fun st => inl (mk_block st, st));
  mk_balloc used.

(** The state of the program when main starts to write. *)
Definition mkfs_start : mkst := mkmkst (fun _ => zeroes) 0 1 nmeta.
