(* ===== verification/MkfsSpec.v ===== *)
(** * The image mkfs builds is one the kernel's file system accepts

    While mkfs runs, the bitmap block is not yet written.  The blocks are followed by a
    shadow in which it is: the first [freeblock] blocks are in use there, so taking the next
    free block is what the kernel's balloc does, and the facts about the blocks of files that
    are shown for the kernel apply. *)

From S2P Require Import Prelude Memory Riscv State Kmonad Spinlock CString Kalloc Vm Proc ProcSpec CoYield Sched Sleeplock Uart Printf.
From S2P Require Import Bytes Bio Log Fs Calm Lru BioSpec Cache LogSpec Commit Txn FsTxn Balloc FileData FileIO Dinode FileSpec Dir Mkfs.
From Stdlib Require Import ZArith Lia.
From stdpp Require Import base gmap list numbers functions.

#[local] Open Scope Z_scope.

#[local] Notation sb := mkfs_sb.

(** The log as initlog sets it up from the superblock. *)
Definition mkfs_log : logstate := mklog (sb_logstart sb) (sb_nlog sb) 0 0 ROOTDEV 0 (replicate (Z.to_nat LOGSIZE) 0).

Lemma mkfs_layout : layout sb mkfs_log.
Proof. split; try split; vm_compute; congruence. Qed.

Lemma mkfs_superblock : get_superblock (put_bytes 0 (sb_bytes sb) zeroes) = sb.
Proof. vm_compute. reflexivity. Qed.

Lemma mkfs_datastart : datastart sb = 46.
Proof. reflexivity. Qed.

(** ** The bitmap *)

Lemma used_bits_ok n : length (used_bits n) = Z.to_nat BSIZE /\ Forall is_byte (used_bits n).
Proof.
  induction n as [|n [IHl IHb]]; cbn [used_bits].
  - unfold zeroes. split; [apply length_replicate|]. apply Forall_replicate. unfold is_byte. lia.
  - split; [by rewrite length_insert|]. apply Forall_insert; [done|]. apply u8_range.
Qed.

Lemma used_bits_S n : Z.of_nat n < 8192 -> used_bits (S n) = set_bit (Z.of_nat n) (used_bits n).
Proof.
  intros Hn. destruct (used_bits_ok n) as [Hl Hb]. cbn [used_bits]. unfold set_bit, map_byte, bit_mask.
  assert (E : Z.to_nat (Z.of_nat n / 8) = (n / 8)%nat) by (apply Nat2Z.inj; rewrite Z2Nat.id by zlia; by rewrite Nat2Z.inj_div). rewrite E. f_equal.
  assert (Hv : is_byte (used_bits n !!! (n / 8)%nat)).
  { apply (Forall_lookup_total_1 _ _ _ Hb). rewrite Hl, <- E. unfold BSIZE. zlia. }
  assert (Hm := Z.mod_pos_bound (Z.of_nat n) 8 ltac:(lia)). unfold is_byte in Hv.
  assert (Hs : 0 <= Z.shiftl 1 (Z.of_nat n mod 8) < 2 ^ 8).
  { rewrite Z.shiftl_1_l. split; [apply Z.pow_nonneg; lia|]. apply Z.pow_lt_mono_r; lia. }
  apply u8_small. split; [apply Z.lor_nonneg; lia|]. change 256 with (2 ^ 8) in *. destruct (Z.eq_dec (Z.lor (used_bits n !!! (n / 8)%nat) (Z.shiftl 1 (Z.of_nat n mod 8))) 0) as [->|Hne]; [lia|].
  apply Z.log2_lt_pow2; [assert (H := Z.lor_nonneg (used_bits n !!! (n / 8)%nat) (Z.shiftl 1 (Z.of_nat n mod 8))); lia|].
  rewrite Z.log2_lor by lia. apply Z.max_lub_lt.
  - destruct (Z.eq_dec (used_bits n !!! (n / 8)%nat) 0) as [->|]; [cbn; lia|]. apply Z.log2_lt_pow2; lia.
  - destruct (Z.eq_dec (Z.shiftl 1 (Z.of_nat n mod 8)) 0) as [->|]; [cbn; lia|]. apply Z.log2_lt_pow2; lia.
Qed.

Lemma used_bits_bit n x : Z.of_nat n <= 8192 -> 0 <= x < 8192 -> bit x (used_bits n) = (x <? Z.of_nat n).
Proof.
  intros Hn Hx. induction n as [|n IH].
  - unfold bit, map_byte. cbn [used_bits]. unfold zeroes. rewrite lookup_total_replicate_2 by (unfold BSIZE; zlia). rewrite Z.testbit_0_l. symmetry. apply Z.ltb_ge. lia.
  - rewrite used_bits_S by lia. rewrite bit_set; [|change BPB with 8192; lia|lia|apply used_bits_ok]. rewrite IH by lia.
    destruct (Z.eqb_spec x (Z.of_nat n)), (Z.ltb_spec x (Z.of_nat n)), (Z.ltb_spec x (Z.of_nat (S n))); try done; lia.
Qed.

(** ** The shadow *)

Record shadow (st : mkst) (c : Z -> list Z) : Prop := {
  sh_img n : n <> 45 -> mk_img st n = c n;
  sh_bits : c 45 = used_bits (Z.to_nat (mk_block st));
  sh_block : 46 <= mk_block st <= 2000;
  sh_len : mk_len st = 2000;
  sh_sized n : length (c n) = Z.to_nat BSIZE;
  sh_free n : mk_block st <= n -> c n = zeroes }.

Lemma BBLOCK_sb x : 0 <= x < 2000 -> BBLOCK x sb = 45.
Proof. intros Hx. rewrite (BBLOCK_eq sb mkfs_log mkfs_layout) by done. change BPB with 8192. change (sb_bmapstart sb) with 45. zlia. Qed.

Lemma shadow_used st c x : shadow st c -> 0 <= x < 2000 -> used sb c x = (x <? mk_block st).
Proof.
  intros [_ Hb Hr _ _ _] Hx. unfold used. rewrite BBLOCK_sb, Hb by done. change BPB with 8192. rewrite Z.mod_small by lia.
  rewrite used_bits_bit by lia. by rewrite Z2Nat.id by lia.
Qed.

Lemma shadow_blocks_ok st c : shadow st c -> blocks_ok sb c.
Proof.
  intros S. split; [apply S|]. intros x Hx. rewrite mkfs_datastart in Hx. rewrite (shadow_used st) by (done || lia).
  apply Z.ltb_lt. destruct (sh_block _ _ S). lia.
Qed.

Lemma shadow_frees st c : shadow st c -> mk_block st < 2000 -> mk_block st ∈ frees sb c.
Proof.
  intros S Hlt. assert (Hr := sh_block _ _ S). apply elem_of_frees. change (sb_size sb) with 2000. split; [|lia].
  rewrite (shadow_used st) by (done || lia). apply Z.ltb_irrefl.
Qed.

(** Taking a block. *)
Lemma next_block_ok st c :
  shadow st c -> mk_block st < 2000 ->
  exists st', next_block st = inl (mk_block st, st') /\ shadow st' (allocated sb (mk_block st) c) /\
    mk_block st' = mk_block st + 1 /\ mk_inode st' = mk_inode st.
Proof.
  intros S Hlt. assert (Hr := sh_block _ _ S). set (x := mk_block st) in *. eexists. split; [reflexivity|]. cbn [mk_block mk_inode].
  fold x. rewrite u32_small by lia. split; [|done].
  assert (E : forall n, allocated sb x c n = if decide (n = x) then zeroes else if decide (n = 45) then set_bit x (c 45) else c n).
  { intros n. unfold allocated, mark. rewrite BBLOCK_sb by lia. change BPB with 8192. rewrite (Z.mod_small x) by lia. case_decide as D.
    - subst n. by rewrite fn_lookup_insert.
    - rewrite fn_lookup_insert_ne by done. case_decide as D'; [subst n; by rewrite fn_lookup_insert|]. by rewrite fn_lookup_insert_ne. }
  assert (Hs : set_bit x (c 45) = used_bits (Z.to_nat (x + 1))).
  { rewrite (sh_bits _ _ S). fold x. replace (Z.to_nat (x + 1)) with (Datatypes.S (Z.to_nat x)) by lia. rewrite used_bits_S by lia. by rewrite Z2Nat.id by lia. }
  split; cbn [mk_img mk_block mk_len].
  - intros n Hn. rewrite E. rewrite (sh_img _ _ S) by done. case_decide as D; [|by rewrite decide_False].
    subst n. by rewrite (sh_free _ _ S).
  - rewrite E. rewrite decide_False, decide_True by lia. exact Hs.
  - lia.
  - apply S.
  - intros n. rewrite E. case_decide; [apply length_replicate|]. case_decide; [|apply S]. rewrite Hs. apply used_bits_ok.
  - intros n Hn. rewrite E, !decide_False by lia. apply S. fold x. lia.
Qed.

(** Writing a block in use. *)
Lemma wsect_ok st c n buf :
  shadow st c -> 0 <= n < mk_block st -> n <> 45 -> length buf = Z.to_nat BSIZE ->
  exists st', wsect n buf st = inl (tt, st') /\ shadow st' (<[n := buf]> c) /\ mk_block st' = mk_block st /\ mk_inode st' = mk_inode st.
Proof.
  intros S Hn H45 Hb. assert (Hr := sh_block _ _ S). eexists. split; [reflexivity|]. split; [|done]. split; cbn [mk_img mk_block mk_len].
  - intros m Hm. destruct (decide (n = m)) as [->|]; [by rewrite !fn_lookup_insert|]. rewrite !fn_lookup_insert_ne by done. by apply S.
  - rewrite fn_lookup_insert_ne by done. apply S.
  - done.
  - rewrite (sh_len _ _ S). lia.
  - intros m. destruct (decide (n = m)) as [->|]; [by rewrite fn_lookup_insert|]. rewrite fn_lookup_insert_ne by done. apply S.
  - intros m Hm. rewrite fn_lookup_insert_ne by lia. by apply S.
Qed.

Lemma rsect_ok st c n : shadow st c -> n < 2000 -> n <> 45 -> rsect n st = inl (c n, st).
Proof.
  intros S Hn H45. unfold rsect. rewrite (sh_len _ _ S). rewrite (proj2 (Z.ltb_lt n 2000)) by done. by rewrite (sh_img _ _ S).
Qed.

Lemma mkbind_ok {A B} (m : MK A) (k : A -> MK B) a st st' : m st = inl (a, st') -> (m ≫= k) st = k a st'.
Proof. intros E. unfold mbind, mk_bind. by rewrite E. Qed.

(** ** Appending to a file *)

(** The blocks a file of [n] bytes takes, its indirect block included. *)
Definition need (n : Z) : Z := (n + 1023) / 1024 + (if 12288 <? n then 1 else 0).

(** Exactly the blocks of the first [n] bytes are there. *)
Record tight (a : list Z) (c : Z -> list Z) (n : Z) : Prop := {
  ti_addr k : 0 <= k < MAXFILE -> faddr a c k <> 0 <-> k * 1024 < n;
  ti_ind : ind_of a <> 0 <-> 12288 < n }.

Definition with_addrs (a : list Z) (d : dinode) : dinode :=
  mkdinode (di_type d) (di_major d) (di_minor d) (di_nlink d) (di_size d) a.

(** The steps that find or allocate a block keep the inode's other fields. *)
Record found (st : mkst) (c : Z -> list Z) (a : list Z) (cost : Z) (st' : mkst) (c' : Z -> list Z) (a' : list Z) : Prop := {
  fd_shadow : shadow st' c';
  fd_grown : grown sb a c a' c';
  fd_block : mk_block st' = mk_block st + cost;
  fd_inode : mk_inode st' = mk_inode st }.

Lemma found_refl st c a : shadow st c -> file_ok sb a c -> found st c a 0 st c a.
Proof. intros S O. split; [done|apply grown_refl; [done|by apply (shadow_blocks_ok st)]|lia|done]. Qed.

Lemma found_trans st c a k st1 c1 a1 k1 st2 c2 a2 :
  found st c a k st1 c1 a1 -> found st1 c1 a1 k1 st2 c2 a2 -> found st c a (k + k1) st2 c2 a2.
Proof. intros [S1 G1 B1 I1] [S2 G2 B2 I2]. split; [done|by eapply grown_trans|lia|congruence]. Qed.

Lemma addr_or_new_direct st c d fbn :
  shadow st c -> file_ok sb (di_addrs d) c -> 0 <= fbn < NDIRECT -> mk_block st < 2000 \/ di_addrs d !!! Z.to_nat fbn <> 0 ->
  exists st' c' a', addr_or_new (Z.to_nat fbn) d st = inl (with_addrs a' d, st') /\
    found st c (di_addrs d) (if di_addrs d !!! Z.to_nat fbn =? 0 then 1 else 0) st' c' a' /\
    a' !!! Z.to_nat fbn = faddr a' c' fbn /\ faddr a' c' fbn <> 0 /\ ind_of a' = ind_of (di_addrs d) /\
    forall k, 0 <= k < MAXFILE -> k <> fbn -> faddr a' c' k = faddr (di_addrs d) c k.
Proof.
  intros S O Hf Hfree. assert (B := shadow_blocks_ok st c S). unfold addr_or_new.
  assert (Ed : forall a' c', a' !!! Z.to_nat fbn = faddr a' c' fbn) by (intros a' c'; unfold faddr; by rewrite (proj2 (Z.ltb_lt fbn NDIRECT)) by lia).
  assert (Hm : 0 <= fbn < MAXFILE) by (change MAXFILE with 268; unfold NDIRECT in Hf; lia).
  destruct (Z.eqb_spec (di_addrs d !!! Z.to_nat fbn) 0) as [E0|E0].
  - destruct Hfree as [Hlt|]; [|done]. destruct (next_block_ok st c S Hlt) as (st' & E & S' & Hb & Hi). assert (Hx := shadow_frees st c S Hlt).
    rewrite (mkbind_ok _ _ _ _ _ E). eexists st', _, _. split; [reflexivity|].
    assert (Ef := fun k Hk => direct_faddr sb mkfs_log mkfs_layout (di_addrs d) c O B (mk_block st) Hx fbn k Hf Hk).
    split; [split; [done|by apply (grow_direct sb mkfs_log mkfs_layout)|done|done]|]. split; [apply Ed|]. split_and!.
    + rewrite Ef, decide_True by done. destruct (sh_block _ _ S). lia.
    + by apply direct_ind.
    + intros k Hk Nk. by rewrite Ef, decide_False.
  - exists st, c, (di_addrs d). split; [by destruct d|]. split; [by apply found_refl|]. split; [apply Ed|]. split; [by rewrite <- Ed|done].
Qed.

Lemma addr_or_new_ind st c d :
  shadow st c -> file_ok sb (di_addrs d) c -> mk_block st < 2000 \/ ind_of (di_addrs d) <> 0 ->
  exists st' c' a', addr_or_new (Z.to_nat NDIRECT) d st = inl (with_addrs a' d, st') /\
    found st c (di_addrs d) (if ind_of (di_addrs d) =? 0 then 1 else 0) st' c' a' /\ ind_of a' <> 0 /\
    forall k, 0 <= k < MAXFILE -> faddr a' c' k = faddr (di_addrs d) c k.
Proof.
  intros S O Hfree. assert (B := shadow_blocks_ok st c S). unfold addr_or_new. fold (ind_of (di_addrs d)).
  destruct (Z.eqb_spec (ind_of (di_addrs d)) 0) as [E0|E0].
  - destruct Hfree as [Hlt|]; [|done]. destruct (next_block_ok st c S Hlt) as (st' & E & S' & Hb & Hi). assert (Hx := shadow_frees st c S Hlt).
    rewrite (mkbind_ok _ _ _ _ _ E). eexists st', _, _. split; [reflexivity|].
    split; [split; [done|by apply (grow_ind sb mkfs_log mkfs_layout)|done|done]|]. split_and!.
    + rewrite (ind_ind sb _ c O). destruct (sh_block _ _ S). lia.
    + intros k Hk. by apply (ind_faddr sb mkfs_log mkfs_layout).
  - exists st, c, (di_addrs d). split; [by destruct d|]. split; [by apply found_refl|]. done.
Qed.

(** The entry of the indirect block. *)
Lemma entry_or_new st c d fbn :
  shadow st c -> file_ok sb (di_addrs d) c -> NDIRECT <= fbn < MAXFILE -> ind_of (di_addrs d) <> 0 ->
  mk_block st < 2000 \/ faddr (di_addrs d) c fbn <> 0 ->
  let ind := ind_of (di_addrs d) in
  let off := (4 * Z.to_nat (fbn - NDIRECT))%nat in
  exists st' c', 
    (indirect ← rsect ind;
     if get32 off indirect =? 0 then
       x ← next_block; let indirect := put32 off x indirect in wsect ind indirect;; mret (get32 off indirect, d)
     else mret (get32 off indirect, d)) st = inl ((faddr (di_addrs d) c' fbn, d), st') /\
    found st c (di_addrs d) (if faddr (di_addrs d) c fbn =? 0 then 1 else 0) st' c' (di_addrs d) /\
    faddr (di_addrs d) c' fbn <> 0 /\
    forall k, 0 <= k < MAXFILE -> k <> fbn -> faddr (di_addrs d) c' k = faddr (di_addrs d) c k.
Proof.
  intros S O Hf Hi Hfree ind off. assert (B := shadow_blocks_ok st c S). assert (Hr := sh_block _ _ S).
  destruct (fo_ind _ _ _ O Hi) as [Ri Ui]. fold ind in Ri, Ui. rewrite mkfs_datastart in Ri. change (sb_size sb) with 2000 in Ri.
  rewrite (shadow_used st) in Ui by (done || lia). apply Z.ltb_lt in Ui.
  assert (Ef0 : forall c, faddr (di_addrs d) c fbn = get32 off (c ind)).
  { intros c'. unfold faddr. rewrite (proj2 (Z.ltb_ge fbn NDIRECT)) by lia. fold ind. by rewrite (proj2 (Z.eqb_neq ind 0)). }
  erewrite (mkbind_ok (rsect ind)); [|apply (rsect_ok st c); [done|lia|lia]]. rewrite <- Ef0.
  destruct (Z.eqb_spec (faddr (di_addrs d) c fbn) 0) as [E0|E0].
  - destruct Hfree as [Hlt|]; [|done]. destruct (next_block_ok st c S Hlt) as (st1 & E1 & S1 & Hb1 & Hi1). assert (Hx := shadow_frees st c S Hlt).
    set (x := mk_block st) in *. rewrite (mkbind_ok _ _ _ _ _ E1). cbv zeta.
    assert (Ei : allocated sb x c ind = c ind) by (by apply (alloc_ind sb mkfs_log mkfs_layout)).
    destruct (wsect_ok st1 (allocated sb x c) ind (put32 off x (c ind)) S1) as (st2 & E2 & S2 & Hb2 & Hi2); [lia|lia| |].
    { rewrite length_put32; [apply S|]. rewrite (sh_sized _ _ S). unfold off, NDIRECT, BSIZE in *. change MAXFILE with 268 in Hf. lia. }
    rewrite (mkbind_ok _ _ _ _ _ E2). rewrite <- Ei in S2 |- *.
    assert (Ef := fun k Hk => entry_faddr sb mkfs_log mkfs_layout (di_addrs d) c O B x Hx fbn k Hf Hi Hk). cbv zeta in Ef. fold ind off in Ef.
    exists st2, (<[ind := put32 off x (allocated sb x c ind)]> (allocated sb x c)). split; [|split; [|split]].
    + unfold mret, mk_ret. do 3 f_equal. by rewrite Ef0, fn_lookup_insert.
    + split; [done|by apply (grow_entry sb mkfs_log mkfs_layout)|lia|congruence].
    + rewrite Ef, decide_True by (done || (unfold NDIRECT in Hf; lia)). lia.
    + intros k Hk Nk. by rewrite Ef, decide_False.
  - exists st, c. split; [done|]. split; [by apply found_refl|]. done.
Qed.

(** The block for the byte after the last one. *)
Lemma file_block_ok st c d n :
  shadow st c -> file_ok sb (di_addrs d) c -> tight (di_addrs d) c n -> 0 <= n < 274432 -> mk_block st + need (n + 1) - need n <= 2000 ->
  exists st' c' a', file_block (n / BSIZE) d st = inl ((faddr a' c' (n / BSIZE), with_addrs a' d), st') /\
    found st c (di_addrs d) (need (n + 1) - need n) st' c' a' /\ faddr a' c' (n / BSIZE) <> 0 /\ tight a' c' (n + 1).
Proof.
  intros S O [Ta Ti] Hn Hfree. unfold BSIZE. set (fbn := n / 1024). assert (Hf : 0 <= fbn < 268) by (unfold fbn; zlia).
  assert (Hneed : need (n + 1) - need n = (if decide (n mod 1024 = 0) then 1 else 0) + (if decide (n = 12288) then 1 else 0)).
  { unfold need. destruct (Z.ltb_spec 12288 (n + 1)), (Z.ltb_spec 12288 n); do 2 case_decide; zlia. }
  assert (Hz : faddr (di_addrs d) c fbn = 0 <-> n mod 1024 = 0).
  { destruct (Z.eq_dec (faddr (di_addrs d) c fbn) 0) as [E|E]; split; try done; intros Hm.
    - destruct (Z.eq_dec (n mod 1024) 0); [done|]. exfalso. apply (proj2 (Ta fbn Hf)); [unfold fbn; zlia|done].
    - exfalso. apply (Ta fbn Hf) in E. unfold fbn in E. zlia. }
  assert (Hstep : forall a' c', (forall k, 0 <= k < 268 -> k <> fbn -> faddr a' c' k = faddr (di_addrs d) c k) -> faddr a' c' fbn <> 0 ->
    (ind_of a' <> 0 <-> 12288 < n + 1) -> tight a' c' (n + 1)).
  { intros a' c' Hk Hb Hi. split; [|done]. intros k Hk'. change MAXFILE with 268 in Hk'. destruct (decide (k = fbn)) as [->|Nk].
    - split; [intros _; unfold fbn; zlia|done].
    - rewrite Hk, Ta by done. unfold fbn in Nk. split; intros; zlia. }
  unfold file_block. destruct (Z.ltb_spec fbn NDIRECT) as [Hd|Hd].
  - assert (Ed : di_addrs d !!! Z.to_nat fbn = faddr (di_addrs d) c fbn) by (unfold faddr; by rewrite (proj2 (Z.ltb_lt fbn NDIRECT))).
    assert (N12 : n <> 12288) by (unfold NDIRECT, fbn in Hd; zlia). rewrite (decide_False (P := n = 12288)) in Hneed by done.
    destruct (addr_or_new_direct st c d fbn S O) as (st' & c' & a' & E & Fd & Ea & Hnz & Ei & Hk); [unfold NDIRECT in *; lia| |].
    { rewrite Ed. destruct (decide (n mod 1024 = 0)) as [Hm|Hm]; [left; lia|right; by rewrite Hz]. }
    rewrite (mkbind_ok _ _ _ _ _ E). exists st', c', a'. split; [by rewrite <- Ea|]. split; [|split; [done|]].
    + assert (Ec : (if di_addrs d !!! Z.to_nat fbn =? 0 then 1 else 0) = need (n + 1) - need n).
      { rewrite Hneed, Ed. destruct (Z.eqb_spec (faddr (di_addrs d) c fbn) 0) as [E0|E0]; [rewrite decide_True by (by apply Hz)|rewrite decide_False by (by rewrite <- Hz)]; lia. }
      by rewrite <- Ec.
    + apply (Hstep a' c'); [done|done|]. rewrite Ei, Ti. unfold NDIRECT, fbn in *. split; intros; zlia.
  - unfold NDIRECT in Hd. assert (Ge : 12288 <= n) by (unfold fbn in Hd; zlia).
    destruct (addr_or_new_ind st c d S O) as (st1 & c1 & a1 & E1 & Fd1 & Hi1 & Hk1).
    { destruct (Z.eq_dec (ind_of (di_addrs d)) 0) as [E0|]; [left|by right]. assert (En : n = 12288) by (destruct (decide (12288 < n)) as [Hg|]; [by apply Ti in Hg|lia]).
      rewrite (decide_True (P := n = 12288)) in Hneed by done. destruct (decide (n mod 1024 = 0)); lia. }
    rewrite (mkbind_ok _ _ _ _ _ E1). assert (Ec1 : (if ind_of (di_addrs d) =? 0 then 1 else 0) = if decide (n = 12288) then 1 else 0).
    { destruct (Z.eqb_spec (ind_of (di_addrs d)) 0) as [E0|E0], (decide (n = 12288)) as [D|D]; try done; exfalso.
      - assert (Hg : 12288 < n) by lia. by apply Ti in Hg.
      - apply Ti in E0. lia. }
    rewrite Ec1 in Fd1. pose proof Fd1 as [S1 G1 B1 I1].
    destruct (entry_or_new st1 c1 (with_addrs a1 d) fbn S1 (gr_ok _ _ _ _ _ G1)) as (st2 & c2 & E2 & Fd2 & Hnz & Hk2); [change MAXFILE with 268; unfold NDIRECT; lia|done| |].
    { cbn [with_addrs di_addrs]. rewrite Hk1 by (change MAXFILE with 268; lia). destruct (decide (n mod 1024 = 0)) as [Hm|Hm]; [left; lia|right; by rewrite Hz]. }
    cbn [with_addrs di_addrs] in *. fold (ind_of a1). rewrite E2. exists st2, c2, a1. split; [by destruct d|]. split; [|split; [done|]].
    + rewrite Hneed, Z.add_comm. eapply found_trans; [exact Fd1|]. rewrite Hk1 in Fd2 by (change MAXFILE with 268; lia).
      destruct (Z.eqb_spec (faddr (di_addrs d) c fbn) 0) as [E0|E0]; [rewrite decide_True by (by apply Hz)|rewrite decide_False by (by rewrite <- Hz)]; done.
    + apply (Hstep a1 c2); [|done|].
      * intros k Hk Nk. rewrite Hk2, Hk1 by (done || (change MAXFILE with 268; lia)). done.
      * split; [lia|done].
Qed.

(** Within a block, bytes after the first need nothing more. *)
Lemma tight_block a c n m : tight a c (n + 1) -> 0 <= n -> 0 < m -> n mod 1024 + m <= 1024 -> tight a c (n + m).
Proof. intros [Ta Ti] Hn Hm Hb. split; [intros k Hk; rewrite Ta by done; split; intros; zlia|rewrite Ti; split; intros; zlia]. Qed.

Lemma need_block n m : 0 <= n -> 0 < m -> n mod 1024 + m <= 1024 -> need (n + m) = need (n + 1).
Proof. intros Hn Hm Hb. unfold need. destruct (Z.ltb_spec 12288 (n + m)), (Z.ltb_spec 12288 (n + 1)); zlia. Qed.

Lemma need_mono n m : 0 <= n <= m -> need n <= need m.
Proof. intros H. unfold need. destruct (Z.ltb_spec 12288 n), (Z.ltb_spec 12288 m); zlia. Qed.

(** What the loop of iappend does to the file. *)
Record appended (st : mkst) (c : Z -> list Z) (a : list Z) (n : Z) (p : list Z) (st' : mkst) (c' : Z -> list Z) (a' : list Z) : Prop := {
  ap_shadow : shadow st' c';
  ap_ok : file_ok sb a' c';
  ap_stored : stored sb a c a' c' n p;
  ap_tight : tight a' c' (n + Z.of_nat (length p));
  ap_block : mk_block st' = mk_block st + need (n + Z.of_nat (length p)) - need n;
  ap_inode : mk_inode st' = mk_inode st }.

(** One round of the loop, for a part of a block. *)
Lemma append_block st c d n p :
  shadow st c -> file_ok sb (di_addrs d) c -> tight (di_addrs d) c n -> 0 <= n -> p <> [] ->
  n mod 1024 + Z.of_nat (length p) <= 1024 -> n + Z.of_nat (length p) <= 274432 -> mk_block st + need (n + 1) - need n <= 2000 ->
  exists st' c' a' x st1 c1 , file_block (n / BSIZE) d st = inl ((x, with_addrs a' d), st1) /\ rsect x st1 = inl (c1 x, st1) /\
    wsect x (put_bytes (Z.to_nat (n mod 1024)) p (c1 x)) st1 = inl (tt, st') /\ appended st c (di_addrs d) n p st' c' a'.
Proof.
  intros S O T Hn Hp Hb Hm Hfree. assert (Hl : (0 < length p)%nat) by (destruct p; cbn; [done|lia]).
  destruct (file_block_ok st c d n S O T) as (st1 & c1 & a' & E & [S1 G B1 I1] & Hx & T1); [lia|done|].
  set (bn := n / BSIZE) in *. assert (Hbn : 0 <= bn < MAXFILE) by (change MAXFILE with 268; unfold bn, BSIZE; zlia).
  pose proof (gr_ok _ _ _ _ _ G) as O1. pose proof (gr_blocks _ _ _ _ _ G) as K1. set (x := faddr a' c1 bn) in *.
  destruct (fo_addr _ _ _ O1 bn Hbn Hx) as [[Rx Ux] _]. fold x in Rx, Ux. rewrite mkfs_datastart in Rx. change (sb_size sb) with 2000 in Rx.
  rewrite (shadow_used st1) in Ux by (done || lia). apply Z.ltb_lt in Ux.
  assert (Lp : length (put_bytes (Z.to_nat (n mod 1024)) p (c1 x)) = Z.to_nat BSIZE).
  { rewrite length_put_bytes; [apply S1|]. rewrite (sh_sized _ _ S1). unfold BSIZE. zlia. }
  destruct (wsect_ok st1 c1 x _ S1 ltac:(lia) ltac:(lia) Lp) as (st' & E2 & S2 & B2 & I2).
  assert (Fa : forall k, faddr a' (<[x := put_bytes (Z.to_nat (n mod 1024)) p (c1 x)]> c1) k = faddr a' c1 k) by (intros k; by apply (change_faddr sb)).
  eexists st', _, a', x, st1, c1. split; [exact E|]. split; [apply (rsect_ok st1); [done|lia|lia]|]. split; [exact E2|]. split.
  - exact S2.
  - by apply (change_file_ok sb mkfs_log mkfs_layout).
  - apply (stored_block sb mkfs_log); [apply mkfs_layout|done|done|done|unfold BSIZE; lia|change (MAXFILE * BSIZE) with 274432; lia|done].
  - destruct (tight_block _ _ n (Z.of_nat (length p)) T1) as [Ta Ti]; [lia..|]. split; [intros k Hk; by rewrite Fa, Ta|done].
  - rewrite need_block by lia. lia.
  - congruence.
Qed.

Lemma iappend_loop_ok fuel st c d n p :
  shadow st c -> file_ok sb (di_addrs d) c -> tight (di_addrs d) c n -> 0 <= n -> n + Z.of_nat (length p) <= 274432 ->
  mk_block st + need (n + Z.of_nat (length p)) - need n <= 2000 -> (length p <= fuel)%nat ->
  exists st' c' a', iappend_loop fuel p n d st = inl ((n + Z.of_nat (length p), with_addrs a' d), st') /\ appended st c (di_addrs d) n p st' c' a'.
Proof.
  revert st c d n p. induction fuel as [|fuel IH]; intros st c d n p S O T Hn Hm Hfree Hf.
  - destruct p; [|cbn in Hf; lia]. exists st, c, (di_addrs d). cbn [iappend_loop length]. rewrite Z.add_0_r. split; [by destruct d|].
    split; rewrite ?Z.add_0_r; try done; [by apply stored_nil|lia].
  - destruct p as [|y p0].
    { exists st, c, (di_addrs d). cbn [iappend_loop length]. rewrite Z.add_0_r. split; [by destruct d|].
      split; rewrite ?Z.add_0_r; try done; [by apply stored_nil|lia]. }
    set (p := y :: p0) in *. set (N := Z.of_nat (length p)) in *. assert (HN : 0 < N) by (unfold N, p; cbn; lia).
    set (n1 := Z.min N ((n / BSIZE + 1) * BSIZE - n)). assert (Hn1 : 0 < n1 <= N /\ n mod 1024 + n1 <= 1024) by (unfold n1, BSIZE; zlia).
    set (p1 := take (Z.to_nat n1) p). set (p2 := drop (Z.to_nat n1) p). assert (L1 : Z.of_nat (length p1) = n1) by (unfold p1; rewrite length_take; lia).
    assert (L2 : Z.of_nat (length p2) = N - n1) by (unfold p2; rewrite length_drop; lia).
    assert (Hsplit : need (n + N) - need n = need (n + 1) - need n + (need (n + n1 + (N - n1)) - need (n + n1))).
    { rewrite (need_block n n1) by lia. replace (n + n1 + (N - n1)) with (n + N) by lia. lia. }
    assert (Hmono := need_mono (n + n1) (n + N) ltac:(lia)).
    destruct (append_block st c d n p1 S O T Hn) as (st1 & c1 & a1 & x & st0 & c0 & E1 & E2 & E3 & [S1 O1 W1 T1 B1 I1]).
    { intros E. rewrite E in L1. cbn in L1. lia. } { lia. } { lia. } { replace (n + n1 + (N - n1)) with (n + N) in Hsplit by lia. lia. }
    rewrite L1 in T1, B1.
    destruct (IH st1 c1 (with_addrs a1 d) (n + n1) p2 S1 O1 T1) as (st2 & c2 & a2 & E & [S2 O2 W2 T2 B2 I2]).
    { lia. } { lia. } { rewrite L2. replace (n + n1 + (N - n1)) with (n + N) by lia. lia. } { unfold p2. rewrite length_drop. lia. }
    rewrite L2 in *. replace (n + n1 + (N - n1)) with (n + N) in * by lia.
    exists st2, c2, a2. split.
    + unfold p at 1. cbn [iappend_loop]. fold p. unfold mkassert. replace (n / BSIZE <? MAXFILE) with true by (symmetry; apply Z.ltb_lt; change MAXFILE with 268; unfold BSIZE; zlia).
      erewrite mkbind_ok; [|reflexivity]. rewrite (mkbind_ok _ _ _ _ _ E1). fold N n1.
      rewrite (mkbind_ok _ _ _ _ _ E2). replace (n - n / BSIZE * BSIZE) with (n mod 1024) by (unfold BSIZE; zlia).
      fold p1 p2. rewrite (mkbind_ok _ _ _ _ _ E3), E. by destruct d.
    + split; try done; [|fold N; lia|congruence]. assert (Ep : p = p1 ++ p2) by (symmetry; apply take_drop). rewrite Ep.
      apply (stored_app sb _ _ a1 c1); [lia|change (MAXFILE * BSIZE) with 274432; lia|done|]. by rewrite L1.
Qed.

(** ** Files in the image *)

(** The file at the addresses [a] holds [d], with zeroes past its end. *)
Record lies (c : Z -> list Z) (a d : list Z) : Prop := {
  li_ok : file_ok sb a c;
  li_tight : tight a c (Z.of_nat (length d));
  li_byte k : 0 <= k < 274432 -> fbyte a c k = default 0 (d !! Z.to_nat k);
  li_size : Z.of_nat (length d) <= 274432 }.

(** The blocks of the file, its indirect block included. *)
Definition owns (a : list Z) (c : Z -> list Z) (n : Z) : Prop :=
  n <> 0 /\ (n = ind_of a \/ exists k, 0 <= k < MAXFILE /\ faddr a c k = n).

Lemma owns_in_use a c n : file_ok sb a c -> owns a c n -> in_use sb c n.
Proof. intros O [Hn [->|(k & Hk & <-)]]; [by apply O|]. by apply (fo_addr _ _ _ O). Qed.

Lemma owns_foreign a c n : in_use sb c n -> ~ owns a c n <-> foreign sb a c n.
Proof.
  intros U. assert (Hn : n <> 0) by (intros ->; destruct U as [R _]; rewrite mkfs_datastart in R; lia).
  split; [|by intros (_ & F1 & F2) [_ [E|(k & Hk & E)]]; [|apply (F2 k)]].
  intros N. split; [done|]. split; [intros ->; apply N; split; [done|by left]|]. intros k Hk <-. apply N. split; [done|]. right. by exists k.
Qed.

(** A file is not changed by what leaves its blocks alone. *)
Lemma lies_frame c c' a d :
  lies c a d -> (forall n, owns a c n -> c' n = c n /\ in_use sb c' n) -> lies c' a d /\ forall n, owns a c' n <-> owns a c n.
Proof.
  intros [O T B Sz] K.
  assert (Fa : forall k, faddr a c' k = faddr a c k).
  { intros k. unfold faddr. destruct (k <? NDIRECT); [done|]. destruct (Z.eqb_spec (ind_of a) 0) as [|Hi]; [done|].
    by rewrite (proj1 (K (ind_of a) (conj Hi (or_introl eq_refl)))). }
  assert (Ow : forall k, 0 <= k < MAXFILE -> faddr a c k <> 0 -> owns a c (faddr a c k)) by (intros k Hk Hn; split; [done|right; by exists k]).
  split; [|intros n; unfold owns; by setoid_rewrite Fa].
  split; [split; try apply O| |intros k Hk; rewrite <- B by done|done].
  - intros Hi. apply K. split; [done|by left].
  - intros k Hk. rewrite Fa. intros Hn. split; [by apply K, Ow|by apply O].
  - intros k k' Hk Hk'. rewrite !Fa. by apply O.
  - split; [intros k Hk; rewrite Fa; by apply T|apply T].
  - unfold fbyte, fblk. rewrite Fa. destruct (Z.eqb_spec (faddr a c (k / BSIZE)) 0) as [|Hn]; [done|].
    rewrite (proj1 (K _ (Ow (k / BSIZE) ltac:(change MAXFILE with 268; unfold BSIZE; zlia) Hn))). done.
Qed.

Lemma lies_append st c a d p st' c' a' :
  lies c a d -> appended st c a (Z.of_nat (length d)) p st' c' a' -> Z.of_nat (length (d ++ p)) <= 274432 -> lies c' a' (d ++ p).
Proof.
  intros [O T B Sz] [S1 O1 W1 T1 B1 I1] Hs. split; [done|by rewrite length_app, Nat2Z.inj_add| |done].
  intros k Hk. rewrite (st_byte _ _ _ _ _ _ _ W1) by done. case_decide as D.
  - rewrite lookup_app_r by lia. rewrite list_lookup_total_alt. replace (Z.to_nat (k - Z.of_nat (length d))) with (Z.to_nat k - length d)%nat by lia.
    destruct (lookup_lt_is_Some_2 p (Z.to_nat k - length d)) as [v ->]; [lia|done].
  - rewrite B by done. destruct (decide (k < Z.of_nat (length d))); [by rewrite lookup_app_l by lia|].
    rewrite !lookup_ge_None_2; [done|rewrite ?length_app; lia..].
Qed.

(** Zeroes up to the end of the last block are there already. *)
Lemma lies_pad st c a d m :
  shadow st c -> lies c a d -> Z.of_nat (length d) mod 1024 + Z.of_nat m <= 1024 -> 0 < Z.of_nat (length d) mod 1024 ->
  appended st c a (Z.of_nat (length d)) (replicate m 0) st c a.
Proof.
  intros S [O T B Sz] Hm Hd. assert (Hn : need (Z.of_nat (length d) + Z.of_nat m) = need (Z.of_nat (length d))) by (unfold need; destruct (Z.ltb_spec 12288 (Z.of_nat (length d) + Z.of_nat m)), (Z.ltb_spec 12288 (Z.of_nat (length d))); zlia).
  split; rewrite ?length_replicate; try done; [split; rewrite ?length_replicate; try done| |lia].
  - intros k Hk. change (MAXFILE * BSIZE) with 274432 in Hk. case_decide as D; [|done].
    rewrite B by done. rewrite lookup_ge_None_2 by lia. by rewrite lookup_total_replicate_2 by lia.
  - intros k Hk. apply T; [change MAXFILE with 268; unfold BSIZE; zlia|]. unfold BSIZE. zlia.
  - destruct T as [Ta Ti]. split; [intros k Hk; rewrite Ta by done; split; intros; zlia|rewrite Ti; split; intros; zlia].
Qed.

Lemma lies_empty c : lies c (replicate 13 0) [].
Proof.
  assert (Fa : forall k, 0 <= k < MAXFILE -> faddr (replicate 13 0) c k = 0).
  { intros k Hk. unfold faddr. destruct (Z.ltb_spec k NDIRECT) as [Hlt|]; [|done]. change NDIRECT with 12 in Hlt. by rewrite lookup_total_replicate_2 by lia. }
  split; [split; try done| |intros k Hk|done].
  - intros k Hk. by rewrite Fa.
  - intros k k' Hk Hk'. by rewrite Fa.
  - split; [intros k Hk; rewrite Fa by done; cbn; split; intros; [done|lia]|by cbn].
  - unfold fbyte, fblk. rewrite Fa by (change MAXFILE with 268; unfold BSIZE; zlia). cbn [Z.eqb]. rewrite lookup_total_replicate_2 by (unfold BSIZE; zlia). done.
Qed.

Lemma owns_empty c n : ~ owns (replicate 13 0) c n.
Proof.
  intros O. pose proof (owns_in_use _ _ _ (li_ok _ _ _ (lies_empty c)) O) as [R _]. destruct O as [Hn [E|(k & Hk & E)]]; [by rewrite E in Hn|].
  pose proof (ti_addr _ _ _ (li_tight _ _ _ (lies_empty c)) k Hk) as [H _]. change (Z.of_nat (length [])) with 0 in H. rewrite E in H. specialize (H Hn). lia.
Qed.

(** ** The inodes of the image *)

Definition image_dinode (t : Z) (d a : list Z) : dinode := mkdinode t 0 0 1 (Z.of_nat (length d)) a.

Definition blocks_needed (sp : list (Z * list Z)) : Z := foldr (fun f r => need (Z.of_nat (length f.2)) + r) 0 sp.

(** Inode [1 + k] is of the type and holds the bytes of entry [k] of [sp], at the addresses
    [A k]; no block is in two files; freeinode and freeblock are past what is in use. *)
Record built (st : mkst) (c : Z -> list Z) (sp : list (Z * list Z)) (A : nat -> list Z) : Prop := {
  bu_shadow : shadow st c;
  bu_low n : 0 <= n < 32 -> c n = if n =? 1 then put_bytes 0 (sb_bytes sb) zeroes else zeroes;
  bu_rest j : 1 + Z.of_nat (length sp) <= j < 200 -> di_type (disk_inode sb c j) = 0;
  bu_short : Forall (fun f => is_short f.1) sp;
  bu_disk k t d : sp !! k = Some (t, d) -> disk_inode sb c (1 + Z.of_nat k) = image_dinode t d (A k);
  bu_lies k t d : sp !! k = Some (t, d) -> lies c (A k) d;
  bu_apart k k' n : (k < length sp)%nat -> (k' < length sp)%nat -> k <> k' -> owns (A k) c n -> ~ owns (A k') c n;
  bu_inode : mk_inode st = 1 + Z.of_nat (length sp);
  bu_max : 1 + Z.of_nat (length sp) <= 200;
  bu_block : mk_block st = 46 + blocks_needed sp }.

(** The inode the kernel has in memory for a file of the image. *)
Definition image_inode (inum t : Z) (d a : list Z) : inode := mkinode ROOTDEV inum 1 1 t 0 0 1 (Z.of_nat (length d)) a.

Lemma image_inode_ok c inum t d a : 0 <= inum < 200 -> is_short t -> lies c a d -> inode_ok sb c (image_inode inum t d a).
Proof.
  intros Hi Ht [O T B Sz]. split; cbn [image_inode i_inum i_type i_major i_minor i_nlink i_size i_addrs]; [done|by split_and!|change (MAXFILE * BSIZE) with 274432; lia|].
  intros k Hk. apply T; [change MAXFILE with 268; unfold BSIZE; zlia|]. unfold BSIZE. zlia.
Qed.

Lemma image_dinode_typed c t d a : is_short t -> lies c a d -> dinode_typed (image_dinode t d a).
Proof. intros Ht L. apply (inode_typed sb mkfs_log mkfs_layout c (image_inode 1 t d a)); [apply L|by apply image_inode_ok]. Qed.

Lemma lies_contents c inum t d a : lies c a d -> contents (image_inode inum t d a) c = d.
Proof.
  intros [O T B Sz]. apply list_eq. intros k. unfold contents. rewrite lookup_fbytes. cbn [image_inode i_size i_addrs]. destruct (d !! k) as [v|] eqn:E.
  - pose proof (lookup_lt_Some _ _ _ E). rewrite decide_True by lia. rewrite B by lia. replace (Z.to_nat (0 + Z.of_nat k)) with k by lia. by rewrite E.
  - apply lookup_ge_None in E. by rewrite decide_False by lia.
Qed.

Lemma rinode_ok st c inum : shadow st c -> 0 <= inum < 200 -> rinode inum st = inl (disk_inode sb c inum, st).
Proof.
  intros S H. pose proof (IBLOCK_range sb mkfs_log mkfs_layout inum H) as R. change (sb_bmapstart sb) with 45 in R.
  unfold rinode. by rewrite (mkbind_ok _ _ _ _ _ (rsect_ok st c (IBLOCK inum sb) S ltac:(lia) ltac:(lia))).
Qed.

(** Writing an inode changes no block from the bitmap on, and none before the inodes. *)
Lemma winode_ok st c inum d :
  shadow st c -> 0 <= inum < 200 -> dinode_typed d ->
  exists st' c', winode inum d st = inl (tt, st') /\ shadow st' c' /\ disk_inode sb c' inum = d /\
    (forall j, 0 <= j < 200 -> j <> inum -> disk_inode sb c' j = disk_inode sb c j) /\
    (forall n, n < 32 \/ 45 <= n -> c' n = c n) /\ mk_block st' = mk_block st /\ mk_inode st' = mk_inode st.
Proof.
  intros S H T. pose proof (IBLOCK_range sb mkfs_log mkfs_layout inum H) as R. change (sb_bmapstart sb) with 45 in R. change (sb_inodestart sb) with 32 in R.
  pose proof (sh_block _ _ S) as Hb. set (n := IBLOCK inum sb) in *.
  destruct (wsect_ok st c n (put_dinode (dinode_off inum) d (c n)) S ltac:(lia) ltac:(lia)) as (st' & E & S' & B & I).
  { rewrite length_put_dinode; [apply S|apply T|]. rewrite (sh_sized _ _ S). apply dinode_off_bound. }
  destruct (disk_inode_put sb mkfs_log mkfs_layout c inum d H (shadow_blocks_ok st c S) T) as [D1 D2].
  eexists st', _. split; [unfold winode; fold n; rewrite (mkbind_ok _ _ _ _ _ (rsect_ok st c n S ltac:(lia) ltac:(lia))); exact E|].
  split_and!; try done. intros m Hm. apply fn_lookup_insert_ne. lia.
Qed.

Lemma in_use_keep c c' n : (forall m, 45 <= m -> c' m = c m) -> in_use sb c n -> c' n = c n /\ in_use sb c' n.
Proof.
  intros K [R U]. rewrite mkfs_datastart in R. split; [apply K; lia|]. split; [done|]. change (sb_size sb) with 2000 in R.
  unfold used in *. rewrite BBLOCK_sb in * by lia. by rewrite K.
Qed.

(** Blocks of other files stay in use and as they are when a file grows. *)
Lemma appended_keep st c a n p st' c' a' m :
  appended st c a n p st' c' a' -> in_use sb c m -> ~ owns a c m -> c' m = c m /\ in_use sb c' m /\ ~ owns a' c' m.
Proof.
  intros [S1 O1 W1 T1 B1 I1] U N. apply (owns_foreign a c m U) in N. destruct (st_foreign _ _ _ _ _ _ _ W1 m N) as [F E].
  split_and!; [done|apply F|]. by apply (owns_foreign a' c' m (proj1 F)).
Qed.

Lemma blocks_needed_cons f sp : blocks_needed (f :: sp) = need (Z.of_nat (length f.2)) + blocks_needed sp.
Proof. done. Qed.

Lemma blocks_needed_insert sp k t d t' d' :
  sp !! k = Some (t, d) ->
  blocks_needed (<[k := (t', d')]> sp) = blocks_needed sp - need (Z.of_nat (length d)) + need (Z.of_nat (length d')).
Proof.
  revert k. induction sp as [|f sp IH]; intros [|k] E; try done; cbn in E.
  - simplify_eq. cbn [insert list_insert]. rewrite !blocks_needed_cons. cbn [snd]. lia.
  - specialize (IH k E). change (<[S k := (t', d')]> (f :: sp)) with (f :: <[k := (t', d')]> sp). rewrite !blocks_needed_cons. lia.
Qed.

Lemma blocks_needed_app sp sp' : blocks_needed (sp ++ sp') = blocks_needed sp + blocks_needed sp'.
Proof. induction sp as [|f sp IH]; [done|]. rewrite <- app_comm_cons, !blocks_needed_cons. lia. Qed.

(** A file grew, by [p], and its inode is written. *)
Lemma built_grow st c sp A k t d p st1 c1 a1 :
  built st c sp A -> sp !! k = Some (t, d) -> appended st c (A k) (Z.of_nat (length d)) p st1 c1 a1 -> Z.of_nat (length (d ++ p)) <= 274432 ->
  exists st' c', winode (1 + Z.of_nat k) (image_dinode t (d ++ p) a1) st1 = inl (tt, st') /\ built st' c' (<[k := (t, d ++ p)]> sp) (<[k := a1]> A).
Proof.
  intros [S Lo Re Sh Di Li Ap In Mx Bl] Ek AP Hs. pose proof (lookup_lt_Some _ _ _ Ek) as Hk.
  pose proof (lies_append _ _ _ _ _ _ _ _ (Li k t d Ek) AP Hs) as L1. pose proof (Forall_lookup_1 _ _ _ _ Sh Ek) as Ht. cbn in Ht.
  destruct (winode_ok st1 c1 (1 + Z.of_nat k) (image_dinode t (d ++ p) a1)) as (st' & c' & E & S' & D1 & D2 & K & B' & I').
  { apply AP. } { lia. } { by apply (image_dinode_typed c1). }
  destruct (lies_frame c1 c' a1 (d ++ p) L1) as [L1' O1'].
  { intros n Hn. apply in_use_keep; [intros m Hm; apply K; by right|]. by apply (owns_in_use a1); [apply L1|]. }
  assert (Oth : forall j tj dj, sp !! j = Some (tj, dj) -> j <> k ->
    lies c' (A j) dj /\ (forall n, owns (A j) c' n <-> owns (A j) c n) /\ forall n, owns (A j) c n -> ~ owns a1 c' n).
  { intros j tj dj Ej Nj. pose proof (Li j tj dj Ej) as Lj. pose proof (lookup_lt_Some _ _ _ Ej) as Hj.
    assert (Q : forall n, owns (A j) c n -> c1 n = c n /\ in_use sb c1 n /\ ~ owns a1 c1 n).
    { intros n Hn. apply (appended_keep st c (A k) (Z.of_nat (length d)) p st1); [done|by apply (owns_in_use (A j)); [apply Lj|]|by apply (Ap j k)]. }
    destruct (lies_frame c c1 (A j) dj Lj) as [L2 O2]; [intros n Hn; destruct (Q n Hn) as (? & ? & _); done|].
    destruct (lies_frame c1 c' (A j) dj L2) as [L3 O3].
    { intros n Hn. apply in_use_keep; [intros m Hm; apply K; by right|]. by apply Q, O2. }
    split_and!; [done|intros n; by rewrite O3, O2|]. intros n Hn. rewrite O1'. by apply Q. }
  exists st', c'. split; [done|]. pose proof (st_inodes _ _ _ _ _ _ _ (ap_stored _ _ _ _ _ _ _ _ AP)) as SI. change (sb_bmapstart sb) with 45 in SI.
  assert (Dk : forall j, 0 <= j < 200 -> disk_inode sb c1 j = disk_inode sb c j) by (intros j Hj; unfold disk_inode; f_equal; apply SI; by apply (IBLOCK_range sb mkfs_log mkfs_layout)).
  split.
  - done.
  - intros n Hn. rewrite K, SI by lia. by apply Lo.
  - rewrite length_insert. intros j Hj. rewrite D2, Dk by lia. by apply Re.
  - apply Forall_insert; [done|done].
  - intros j tj dj. destruct (decide (j = k)) as [->|Nj].
    + rewrite list_lookup_insert_eq by done. intros [= <- <-]. by rewrite fn_lookup_insert.
    + rewrite list_lookup_insert_ne, fn_lookup_insert_ne by done. intros Ej. pose proof (lookup_lt_Some _ _ _ Ej). rewrite D2, Dk by lia. by apply Di.
  - intros j tj dj. destruct (decide (j = k)) as [->|Nj].
    + rewrite list_lookup_insert_eq by done. intros [= <- <-]. by rewrite fn_lookup_insert.
    + rewrite list_lookup_insert_ne, fn_lookup_insert_ne by done. intros Ej. by apply (Oth j tj dj).
  - rewrite length_insert. intros j j' n Hj Hj' Nj. destruct (lookup_lt_is_Some_2 sp j Hj) as [[tj dj] Ej]. destruct (lookup_lt_is_Some_2 sp j' Hj') as [[tj' dj'] Ej'].
    destruct (decide (j = k)) as [->|N1], (decide (j' = k)) as [->|N2]; rewrite ?fn_lookup_insert, ?fn_lookup_insert_ne by done; [done|..].
    + destruct (Oth j' tj' dj' Ej' N2) as (_ & Q1 & Q2). intros H1 H2. by apply (Q2 n); [apply Q1|].
    + destruct (Oth j tj dj Ej N1) as (_ & Q1 & Q2). intros H1 H2. by apply (Q2 n); [apply Q1|].
    + rewrite (proj1 (proj2 (Oth j tj dj Ej N1))), (proj1 (proj2 (Oth j' tj' dj' Ej' N2))). by apply Ap.
  - rewrite length_insert. rewrite I', (ap_inode _ _ _ _ _ _ _ _ AP). done.
  - by rewrite length_insert.
  - rewrite B', (ap_block _ _ _ _ _ _ _ _ AP), (blocks_needed_insert _ _ t d) by done. rewrite length_app, Nat2Z.inj_add. lia.
Qed.

Lemma iappend_ok st c sp A k t d p :
  built st c sp A -> sp !! k = Some (t, d) -> Z.of_nat (length (d ++ p)) <= 274432 ->
  46 + blocks_needed (<[k := (t, d ++ p)]> sp) <= 2000 ->
  exists st' c' A', iappend (1 + Z.of_nat k) p st = inl (tt, st') /\ built st' c' (<[k := (t, d ++ p)]> sp) A'.
Proof.
  intros BU Ek Hs Hb. pose proof (lookup_lt_Some _ _ _ Ek) as Hk. pose proof (bu_max _ _ _ _ BU) as Mx. pose proof (bu_lies _ _ _ _ BU k t d Ek) as L.
  rewrite (blocks_needed_insert _ _ t d), length_app, Nat2Z.inj_add in Hb by done. rewrite length_app, Nat2Z.inj_add in Hs. pose proof (bu_block _ _ _ _ BU).
  destruct (iappend_loop_ok (length p) st c (image_dinode t d (A k)) (Z.of_nat (length d)) p) as (st1 & c1 & a1 & E & AP).
  { apply BU. } { apply L. } { apply L. } { lia. } { lia. } { lia. } { lia. }
  destruct (built_grow st c sp A k t d p st1 c1 a1 BU Ek AP) as (st' & c' & Ew & BU'); [rewrite length_app; lia|].
  exists st', c', (<[k := a1]> A). split; [|done]. unfold iappend.
  rewrite (mkbind_ok _ _ _ _ _ (rinode_ok st c (1 + Z.of_nat k) (bu_shadow _ _ _ _ BU) ltac:(lia))). rewrite (bu_disk _ _ _ _ BU k t d Ek).
  change (di_size (image_dinode t d (A k))) with (Z.of_nat (length d)). rewrite (mkbind_ok _ _ _ _ _ E). rewrite <- Ew.
  unfold set_size, image_dinode, with_addrs. cbn. by rewrite length_app, Nat2Z.inj_add.
Qed.

Lemma next_inode_ok st c :
  shadow st c -> 0 <= mk_inode st < 200 ->
  exists st', next_inode st = inl (mk_inode st, st') /\ shadow st' c /\ mk_inode st' = mk_inode st + 1 /\ mk_block st' = mk_block st.
Proof.
  intros S H. eexists. split; [reflexivity|]. split; [by destruct S; split|]. cbn. by rewrite u32_small by lia.
Qed.

Lemma ialloc_ok st c sp A t :
  built st c sp A -> is_short t -> Z.of_nat (length sp) < 199 ->
  exists st' c' A', mk_ialloc t st = inl (1 + Z.of_nat (length sp), st') /\ built st' c' (sp ++ [(t, [])]) A'.
Proof.
  intros [S Lo Re Sh Di Li Ap In Mx Bl] Ht Hl. set (K := length sp) in *.
  destruct (next_inode_ok st c S ltac:(lia)) as (st1 & E1 & S1 & I1 & B1). rewrite In in E1, I1.
  destruct (winode_ok st1 c (1 + Z.of_nat K) (image_dinode t [] (replicate 13 0)) S1) as (st' & c' & E & S' & D1 & D2 & Kp & B' & I').
  { lia. } { apply (image_dinode_typed c); [done|apply lies_empty]. }
  assert (Oth : forall j tj dj, sp !! j = Some (tj, dj) -> lies c' (A j) dj /\ forall n, owns (A j) c' n <-> owns (A j) c n).
  { intros j tj dj Ej. apply lies_frame; [by apply (Li j tj)|]. intros n Hn.
    apply in_use_keep; [intros m Hm; apply Kp; by right|]. apply (owns_in_use (A j)); [by apply (Li j tj dj)|done]. }
  exists st', c', (<[K := replicate 13 0]> A). split; [unfold mk_ialloc; rewrite (mkbind_ok _ _ _ _ _ E1), (mkbind_ok _ _ _ _ _ E); done|].
  assert (Lk : forall j tj dj, (sp ++ [(t, [])]) !! j = Some (tj, dj) -> (j < K)%nat /\ sp !! j = Some (tj, dj) \/ j = K /\ tj = t /\ dj = []).
  { intros j tj dj Ej. apply lookup_app_Some in Ej as [Ej|[Hj Ej]]; [left; split; [by eapply lookup_lt_Some|done]|]. right.
    apply list_lookup_singleton_Some in Ej as [Hz [= <- <-]]. fold K in Hj, Hz. split; [lia|done]. }
  split.
  - done.
  - intros n Hn. rewrite Kp by lia. by apply Lo.
  - rewrite length_app. cbn [length]. fold K. intros j Hj. rewrite D2 by lia. apply Re. fold K. lia.
  - apply Forall_app_2; [done|by constructor].
  - intros j tj dj Ej. destruct (Lk j tj dj Ej) as [[Hj Ej']|(-> & -> & ->)]; [|by rewrite fn_lookup_insert].
    rewrite fn_lookup_insert_ne by lia. rewrite D2 by lia. by apply Di.
  - intros j tj dj Ej. destruct (Lk j tj dj Ej) as [[Hj Ej']|(-> & -> & ->)]; [|rewrite fn_lookup_insert; apply lies_empty].
    rewrite fn_lookup_insert_ne by lia. by apply (Oth j tj).
  - rewrite length_app. cbn [length]. fold K. intros j j' n Hj Hj' Nj.
    destruct (decide (j = K)) as [->|N1]; [rewrite fn_lookup_insert; intros Hn; by apply owns_empty in Hn|].
    destruct (decide (j' = K)) as [->|N2]; [rewrite fn_lookup_insert; intros _; apply owns_empty|].
    rewrite !fn_lookup_insert_ne by lia. destruct (lookup_lt_is_Some_2 sp j ltac:(fold K; lia)) as [[tj dj] Ej]. destruct (lookup_lt_is_Some_2 sp j' ltac:(fold K; lia)) as [[tj' dj'] Ej'].
    rewrite (proj2 (Oth j tj dj Ej)), (proj2 (Oth j' tj' dj' Ej')). apply Ap; [fold K; lia..|done].
  - rewrite I', I1, length_app. fold K. cbn [length]. lia.
  - rewrite length_app. fold K. cbn [length]. lia.
  - rewrite B', B1, Bl, blocks_needed_app. change (blocks_needed [(t, [])]) with 0. lia.
Qed.

(** ** main *)

Lemma append_all_ok pieces : forall st c sp A k t d,
  built st c sp A -> sp !! k = Some (t, d) -> Z.of_nat (length (d ++ concat pieces)) <= 274432 ->
  46 + blocks_needed (<[k := (t, d ++ concat pieces)]> sp) <= 2000 ->
  exists st' c' A', append_all (1 + Z.of_nat k) pieces st = inl (tt, st') /\ built st' c' (<[k := (t, d ++ concat pieces)]> sp) A'.
Proof.
  induction pieces as [|p pieces IH]; intros st c sp A k t d BU Ek Hs Hb.
  - exists st, c, A. split; [done|]. cbn [concat]. rewrite app_nil_r. by rewrite list_insert_id.
  - pose proof (lookup_lt_Some _ _ _ Ek) as Hk. cbn [concat] in *. rewrite app_assoc in Hs, Hb |- *. rewrite length_app in Hs.
    destruct (iappend_ok st c sp A k t d p BU Ek) as (st1 & c1 & A1 & E1 & BU1); [lia| |].
    { rewrite (blocks_needed_insert sp k t d) in Hb |- * by done. pose proof (need_mono (Z.of_nat (length (d ++ p))) (Z.of_nat (length ((d ++ p) ++ concat pieces)))) as M.
      rewrite (length_app (d ++ p)) in *. lia. }
    destruct (IH st1 c1 _ A1 k t (d ++ p) BU1) as (st2 & c2 & A2 & E2 & BU2).
    { by apply list_lookup_insert_eq. } { rewrite length_app. lia. } { by rewrite list_insert_insert_eq. }
    rewrite list_insert_insert_eq in BU2. exists st2, c2, A2. split; [|done]. cbn [append_all]. by rewrite (mkbind_ok _ _ _ _ _ E1).
Qed.

Definition short_name (path : list Z) : list Z := strip_mark (strip_dir path).

(** The files that could be opened: paths and the pieces that are read. *)
Notation openable := (list (list Z * list (list Z))).

Definition opened (files : openable) : list (list Z * option (list (list Z))) := prod_map id Some <$> files.

(** The names and inode numbers main adds to the root directory, the first number [inum]. *)
Fixpoint numbered (inum : Z) (files : openable) : list (list Z * Z) :=
  match files with
  | [] => []
  | f :: files' => (short_name f.1, inum) :: numbered (inum + 1) files'
  end.

Definition entries (l : list (list Z * Z)) : list (list Z) := (fun x => entry x.2 x.1) <$> l.
Definition root_entries (inum : Z) (files : openable) : list (list Z) := entries (numbered inum files).

Definition file_specs (files : openable) : list (Z * list Z) := (fun f => (T_FILE, concat f.2)) <$> files.

Lemma length_entry inum name : length (entry inum name) = 16%nat.
Proof. unfold entry, mkdirent. rewrite length_app, length_le_bytes. unfold strncpy. by rewrite length_strncpy_from. Qed.

Lemma root_entries_cons inum f files : root_entries inum (f :: files) = entry inum (short_name f.1) :: root_entries (inum + 1) files.
Proof. done. Qed.

Lemma length_root_entries inum files : length (concat (root_entries inum files)) = (16 * length files)%nat.
Proof. revert inum. induction files as [|f files IH]; intros inum; [done|]. rewrite root_entries_cons. cbn [concat length]. rewrite length_app, length_entry, IH. lia. Qed.

Lemma blocks_needed_nonneg sp : 0 <= blocks_needed sp.
Proof. induction sp as [|f sp IH]; [done|]. rewrite blocks_needed_cons. pose proof (need_mono 0 (Z.of_nat (length f.2)) ltac:(lia)). change (need 0) with 0 in *. lia. Qed.

Lemma add_file_ok st c d0 sp A f :
  built st c ((T_DIR, d0) :: sp) A -> 47 ∉ strip_dir f.1 -> Z.of_nat (length sp) < 198 ->
  Z.of_nat (length d0) + 16 <= 274432 -> Z.of_nat (length (concat f.2)) <= 274432 ->
  let sp' := (T_DIR, d0 ++ entry (2 + Z.of_nat (length sp)) (short_name f.1)) :: sp ++ [(T_FILE, concat f.2)] in
  46 + blocks_needed sp' <= 2000 ->
  exists st' c' A', add_file ROOTINO (prod_map id Some f) st = inl (tt, st') /\ built st' c' sp' A'.
Proof.
  intros BU Hn Hl Hd Hf sp' Hb. set (e := entry (2 + Z.of_nat (length sp)) (short_name f.1)) in *. assert (Le : length e = 16%nat) by apply length_entry.
  destruct (ialloc_ok st c _ A T_FILE BU) as (st1 & c1 & A1 & E1 & BU1); [done|cbn [length]; lia|]. cbn [length] in E1.
  assert (Hb1 : blocks_needed sp' = need (Z.of_nat (length (d0 ++ e))) + (blocks_needed sp + need (Z.of_nat (length (concat f.2))))).
  { unfold sp'. rewrite blocks_needed_cons, blocks_needed_app, blocks_needed_cons. change (blocks_needed []) with 0. cbn [snd]. lia. }
  assert (Hb2 : 0 <= need (Z.of_nat (length (concat f.2)))) by (apply (need_mono 0); lia).
  destruct (iappend_ok st1 c1 _ A1 0 T_DIR d0 e BU1 eq_refl) as (st2 & c2 & A2 & E2 & BU2).
  { rewrite length_app. lia. } { change (46 + blocks_needed ((T_DIR, d0 ++ e) :: sp ++ [(T_FILE, [])]) <= 2000). rewrite blocks_needed_cons, blocks_needed_app. change (blocks_needed [(T_FILE, [])]) with 0. cbn [snd]. lia. }
  change (built st2 c2 (((T_DIR, d0 ++ e) :: sp) ++ [(T_FILE, [])]) A2) in BU2.
  assert (Es : <[length ((T_DIR, d0 ++ e) :: sp) := (T_FILE, [] ++ concat f.2)]> (((T_DIR, d0 ++ e) :: sp) ++ [(T_FILE, [])]) = sp').
  { replace (length ((T_DIR, d0 ++ e) :: sp)) with (length ((T_DIR, d0 ++ e) :: sp) + 0)%nat by lia. by rewrite insert_app_r. }
  destruct (append_all_ok f.2 st2 c2 _ A2 (length ((T_DIR, d0 ++ e) :: sp)) T_FILE [] BU2) as (st3 & c3 & A3 & E3 & BU3).
  { by rewrite list_lookup_middle. } { done. } { rewrite Es. done. }
  rewrite Es in BU3. exists st3, c3, A3. split; [|done]. unfold add_file. 
  change (snd (prod_map id Some f)) with (Some f.2). change (fst (prod_map id Some f)) with f.1. rewrite bool_decide_true by done.
  erewrite mkbind_ok; [|reflexivity]. rewrite (mkbind_ok _ _ _ _ _ E1). replace (1 + Z.of_nat (S (length sp))) with (2 + Z.of_nat (length sp)) by lia.
  fold (short_name f.1). fold e. rewrite (mkbind_ok _ _ _ _ _ E2). rewrite <- E3. cbn [length]. f_equal. lia.
Qed.

Lemma add_files_ok files : forall st c d0 sp A,
  built st c ((T_DIR, d0) :: sp) A -> Forall (fun f => 47 ∉ strip_dir f.1) files -> Z.of_nat (length sp) + Z.of_nat (length files) <= 198 ->
  Z.of_nat (length d0) + 16 * Z.of_nat (length files) <= 274432 -> Forall (fun f => Z.of_nat (length (concat f.2)) <= 274432) files ->
  let sp' := (T_DIR, d0 ++ concat (root_entries (2 + Z.of_nat (length sp)) files)) :: sp ++ file_specs files in
  46 + blocks_needed sp' <= 2000 ->
  exists st' c' A', add_files ROOTINO (opened files) st = inl (tt, st') /\ built st' c' sp' A'.
Proof.
  induction files as [|f files IH]; intros st c d0 sp A BU Hn Hl Hd Hf sp' Hb.
  - exists st, c, A. split; [done|]. unfold sp'. cbn. by rewrite !app_nil_r.
  - apply Forall_cons_1 in Hn as [Hn Hns]. apply Forall_cons_1 in Hf as [Hf Hfs]. cbn [length] in *. set (e := entry (2 + Z.of_nat (length sp)) (short_name f.1)).
    set (sp1 := sp ++ [(T_FILE, concat f.2)]). assert (L1 : Z.of_nat (length sp1) = Z.of_nat (length sp) + 1) by (unfold sp1; rewrite length_app; cbn; lia).
    assert (Esp : sp' = (T_DIR, (d0 ++ e) ++ concat (root_entries (2 + Z.of_nat (length sp1)) files)) :: sp1 ++ file_specs files).
    { replace (2 + Z.of_nat (length sp1)) with (2 + Z.of_nat (length sp) + 1) by lia. unfold sp', sp1. rewrite root_entries_cons. cbn [concat]. fold e. by rewrite <- !app_assoc. }
    assert (Le : length e = 16%nat) by apply length_entry. pose proof (blocks_needed_nonneg (file_specs files)) as Nn.
    destruct (add_file_ok st c d0 sp A f BU Hn) as (st1 & c1 & A1 & E1 & BU1); [lia..| |].
    { fold e. fold sp1. rewrite Esp, blocks_needed_cons, blocks_needed_app in Hb. rewrite blocks_needed_cons. cbn [snd] in *. rewrite (length_app (d0 ++ e)) in Hb.
      pose proof (need_mono (Z.of_nat (length (d0 ++ e))) (Z.of_nat (length (d0 ++ e) + length (concat (root_entries (2 + Z.of_nat (length sp1)) files)))) ltac:(lia)). lia. }
    fold e in BU1. fold sp1 in BU1. destruct (IH st1 c1 (d0 ++ e) sp1 A1 BU1 Hns) as (st2 & c2 & A2 & E2 & BU2).
    { lia. } { rewrite length_app. lia. } { done. } { by rewrite <- Esp. }
    exists st2, c2, A2. rewrite Esp. split; [|done]. change (opened (f :: files)) with (prod_map id Some f :: opened files). cbn [add_files].
    by rewrite (mkbind_ok _ _ _ _ _ E1).
Qed.

Lemma wipe_ok n : forall sec st, (forall m, mk_img st m = zeroes) -> mk_len st = sec ->
  exists st', wipe n sec st = inl (tt, st') /\ (forall m, mk_img st' m = zeroes) /\ mk_len st' = sec + Z.of_nat n /\
    mk_inode st' = mk_inode st /\ mk_block st' = mk_block st.
Proof.
  induction n as [|n IH]; intros sec st Hz Hl.
  - exists st. split_and!; try done. lia.
  - destruct (IH (sec + 1) (mkmkst (<[sec := zeroes]> (mk_img st)) (Z.max (mk_len st) (sec + 1)) (mk_inode st) (mk_block st))) as (st' & E & Z1 & L1 & I1 & B1).
    { intros m. cbn. destruct (decide (sec = m)) as [->|]; [by rewrite fn_lookup_insert|by rewrite fn_lookup_insert_ne]. } { cbn. lia. }
    exists st'. split_and!; try done. lia.
Qed.

(** The image after the superblock is written. *)
Lemma start_ok :
  exists st0 st c A, wipe (Z.to_nat FSSIZE) 0 mkfs_start = inl (tt, st0) /\ wsect 1 (put_bytes 0 (sb_bytes sb) zeroes) st0 = inl (tt, st) /\ built st c [] A.
Proof.
  destruct (wipe_ok (Z.to_nat FSSIZE) 0 mkfs_start) as (st & E & Z1 & L1 & I1 & B1); [done|done|].
  set (blk := put_bytes 0 (sb_bytes sb) zeroes). assert (Lb : length blk = Z.to_nat BSIZE) by reflexivity.
  assert (Lz : length zeroes = Z.to_nat BSIZE) by reflexivity.
  eexists st, _, (<[45 := used_bits 46]> (<[1 := blk]> (fun _ => zeroes))), (fun _ => replicate 13 0). split; [exact E|]. split; [reflexivity|].
  assert (Lo : forall n, n <> 45 -> (<[45 := used_bits 46]> (<[1 := blk]> (fun _ => zeroes))) n = if n =? 1 then blk else zeroes).
  { intros n Hn. rewrite fn_lookup_insert_ne by done. destruct (Z.eqb_spec n 1) as [->|]; [apply fn_lookup_insert|]. by rewrite fn_lookup_insert_ne. }
  split; try done; cbn [mk_inode mk_block length].
  - split; cbn [mk_img mk_block mk_len].
    + intros n Hn. rewrite Lo by done. destruct (Z.eqb_spec n 1) as [->|]; [by rewrite fn_lookup_insert|]. by rewrite fn_lookup_insert_ne, Z1.
    + rewrite fn_lookup_insert, B1. done.
    + rewrite B1. split; by compute.
    + rewrite L1. by compute.
    + intros n. destruct (decide (n = 45)) as [->|]; [rewrite fn_lookup_insert; apply used_bits_ok|]. rewrite Lo by done. by destruct (n =? 1).
    + intros n. rewrite B1. change (mk_block mkfs_start) with 46. intros Hn. rewrite Lo by lia. by replace (n =? 1) with false by (symmetry; apply Z.eqb_neq; lia).
  - intros n Hn. apply Lo. lia.
  - intros j Hj. unfold disk_inode. pose proof (IBLOCK_range sb mkfs_log mkfs_layout j ltac:(change (sb_ninodes sb) with 200; lia)) as R.
    change (sb_bmapstart sb) with 45 in R. change (sb_inodestart sb) with 32 in R. rewrite Lo by lia. replace (IBLOCK j sb =? 1) with false by (symmetry; apply Z.eqb_neq; lia).
    unfold get_dinode. cbn [di_type]. unfold get16, get_bytes, zeroes. rewrite drop_replicate, take_replicate.
    generalize (2 `min` (Z.to_nat BSIZE - dinode_off j))%nat as m. intros m. replace (le_val (replicate m 0)) with 0; [done|]. induction m as [|m IH]; [done|]. cbn [replicate le_val]. by rewrite <- IH.
  - intros k k' n Hk. lia.
Qed.

(** ** The names of a directory that is built by entries *)

Lemma dir_map_cons e es q : dir_map (e :: es) q = if names q e then Some (de_inum e) else dir_map es q.
Proof. unfold dir_map. cbn [dir_find]. destruct (names q e); [done|]. by destruct (dir_find q es) as [[? ?]|]. Qed.

Lemma names_entry q x : 0 < x.2 < 65536 -> names q (entry x.2 x.1) = bool_decide (name_of q = name_of x.1) /\ de_inum (entry x.2 x.1) = x.2.
Proof.
  intros H. destruct (new_entry_spec x.1 x.2 ltac:(lia)) as (_ & E1 & E2). unfold names. change (entry x.2 x.1) with (new_entry x.1 x.2).
  rewrite E1, E2. replace (x.2 =? 0) with false by (symmetry; apply Z.eqb_neq; lia). done.
Qed.

Lemma dir_map_absent l m q :
  Forall (fun x => 0 < x.2 < 65536) l -> name_of q ∉ name_of ∘ fst <$> l -> dir_map (entries l ++ replicate m (replicate 16 0)) q = None.
Proof.
  intros Hl Hq. induction Hl as [|x l Hx Hl IH].
  - cbn [entries fmap list_fmap app]. induction m as [|m IH]; [done|]. cbn [replicate]. rewrite dir_map_cons. replace (names q _) with false by done. exact IH.
  - cbn [fmap list_fmap] in Hq. apply not_elem_of_cons in Hq as [N1 N2]. change (entries (x :: l)) with (entry x.2 x.1 :: entries l). cbn [app].
    rewrite dir_map_cons, (proj1 (names_entry q x Hx)), bool_decide_false by done. by apply IH.
Qed.

Lemma dir_map_present l es q x :
  Forall (fun x => 0 < x.2 < 65536) l -> NoDup (name_of ∘ fst <$> l) -> (q, x) ∈ l -> dir_map (entries l ++ es) q = Some x.
Proof.
  intros Hl Hn Hq. induction Hl as [|y l Hy Hl IH]; [by apply elem_of_nil in Hq|]. cbn [fmap list_fmap] in Hn. inversion_clear Hn as [|? ? N1 N2].
  change (entries (y :: l)) with (entry y.2 y.1 :: entries l). cbn [app]. destruct (names_entry q y Hy) as [E1 E2]. rewrite dir_map_cons, E1, E2.
  apply elem_of_cons in Hq as [<-|Hq]; [by rewrite bool_decide_true|]. rewrite bool_decide_false; [by apply IH|].
  intros E. apply N1. change ((name_of ∘ fst) y) with (name_of y.1). rewrite <- E. apply list_elem_of_fmap. by exists (q, x).
Qed.

(** ** The finished image *)

Definition root_names (files : openable) : list (list Z * Z) := ([46], ROOTINO) :: ([46; 46], ROOTINO) :: numbered 2 files.
Definition root_size (files : openable) : Z := 16 * (2 + Z.of_nat (length files)).

(** The entries of the root directory, and the empty ones up to the end of its last block. *)
Definition root_dir (files : openable) : list (list Z) :=
  entries (root_names files) ++ replicate (Z.to_nat ((1024 - root_size files mod 1024) / 16)) (replicate 16 0).

Definition image_specs (files : openable) : list (Z * list Z) := (T_DIR, concat (root_dir files)) :: file_specs files.

(** What mkfs can store. *)
Record fits (files : openable) : Prop := {
  ft_slash : Forall (fun f => 47 ∉ strip_dir f.1) files;
  ft_count : Z.of_nat (length files) <= 198;
  ft_size : Forall (fun f => Z.of_nat (length (concat f.2)) <= MAXFILE * BSIZE) files;
  ft_root : root_size files mod BSIZE <> 0;
  ft_blocks : nmeta + blocks_needed (image_specs files) <= FSSIZE }.

Lemma concat_zeroes m : concat (replicate m (replicate 16 0)) = replicate (16 * m) 0.
Proof.
  induction m as [|m IH]; [done|]. change (concat (replicate (S m) (replicate 16 0))) with (replicate 16 0 ++ concat (replicate m (replicate 16 0))).
  rewrite IH, <- replicate_add. f_equal. lia.
Qed.

Lemma length_entries_names l : length (concat (entries l)) = (16 * length l)%nat.
Proof. rewrite length_entries; [unfold entries; by rewrite length_fmap|]. apply Forall_fmap, Forall_true. intros x. apply length_entry. Qed.

Lemma length_numbered inum files : length (numbered inum files) = length files.
Proof. revert inum. induction files as [|f files IH]; intros inum; [done|]. cbn. by rewrite IH. Qed.

Lemma numbered_lookup files : forall inum k f, files !! k = Some f -> numbered inum files !! k = Some (short_name f.1, inum + Z.of_nat k).
Proof.
  induction files as [|g files IH]; intros inum [|k] f E; try done.
  - cbn in *. injection E as ->. do 2 f_equal. lia.
  - change (files !! k = Some f) in E. change (numbered (inum + 1) files !! k = Some (short_name f.1, inum + Z.of_nat (S k))).
    rewrite (IH (inum + 1) k f E). do 2 f_equal. lia.
Qed.

Lemma numbered_range inum files : 0 < inum -> inum + Z.of_nat (length files) <= 65536 -> Forall (fun x => 0 < x.2 < 65536) (numbered inum files).
Proof.
  revert inum. induction files as [|f files IH]; intros inum H1 H2; [constructor|]. cbn [numbered length] in *. constructor; [cbn; lia|]. apply IH; lia.
Qed.

(** The root directory before and after its size is rounded up. *)
Lemma root_dir_data files :
  let d := concat (entries (root_names files)) in let m := Z.to_nat (1024 - root_size files mod 1024) in
  Z.of_nat (length d) = root_size files /\ concat (root_dir files) = d ++ replicate m 0 /\
  Z.of_nat (length (concat (root_dir files))) = (root_size files / 1024 + 1) * 1024.
Proof.
  intros d m. assert (Ld : Z.of_nat (length d) = root_size files).
  { unfold d. rewrite length_entries_names. unfold root_names, root_size. cbn [length]. rewrite length_numbered. lia. }
  assert (Ec : concat (root_dir files) = d ++ replicate m 0).
  { unfold root_dir. rewrite concat_app, concat_zeroes. do 2 f_equal. unfold m, root_size. zlia. }
  split_and!; [done|done|]. rewrite Ec, length_app, length_replicate. unfold m. zlia.
Qed.

(** The root directory with its two first entries. *)
Lemma root_ok :
  exists st0 st1 st2 st3 st c A, wipe (Z.to_nat FSSIZE) 0 mkfs_start = inl (tt, st0) /\
    wsect 1 (put_bytes 0 (sb_bytes sb) zeroes) st0 = inl (tt, st1) /\ mk_ialloc T_DIR st1 = inl (ROOTINO, st2) /\
    iappend ROOTINO (entry ROOTINO [46]) st2 = inl (tt, st3) /\ iappend ROOTINO (entry ROOTINO [46; 46]) st3 = inl (tt, st) /\
    built st c [(T_DIR, concat (entries [([46], ROOTINO); ([46; 46], ROOTINO)]))] A.
Proof.
  destruct start_ok as (st0 & st1 & c1 & A1 & E0 & E1 & BU1).
  destruct (ialloc_ok st1 c1 [] A1 T_DIR BU1) as (st2 & c2 & A2 & E2 & BU2); [done|done|].
  destruct (iappend_ok st2 c2 _ A2 0 T_DIR [] (entry ROOTINO [46]) BU2 eq_refl) as (st3 & c3 & A3 & E3 & BU3); [by vm_compute|by vm_compute|].
  destruct (iappend_ok st3 c3 _ A3 0 T_DIR _ (entry ROOTINO [46; 46]) BU3 eq_refl) as (st & c & A & E4 & BU4); [by vm_compute|by vm_compute|].
  exists st0, st1, st2, st3, st, c, A. split_and!; try done.
Qed.

Lemma mkfs_built files :
  fits files -> exists st st' c A, mkfs (opened files) mkfs_start = inl (tt, st) /\ (forall n, mk_img st n = c n) /\ mk_len st = FSSIZE /\
    built st' c (image_specs files) A.
Proof.
  intros [Fs Fc Fz Fr Fb]. destruct root_ok as (st0 & st1 & st2 & st3 & st4 & c4 & A4 & E0 & E1 & E2 & E3 & E4 & BU4).
  destruct (root_dir_data files) as (Ld & Ec & Lc). set (d := concat (entries (root_names files))) in *. set (m := Z.to_nat (1024 - root_size files mod 1024)) in *.
  unfold image_specs in Fb |- *. rewrite Ec in Fb, Lc |- *. change nmeta with 46 in Fb. change FSSIZE with 2000 in Fb. rewrite blocks_needed_cons in Fb. cbn [snd] in Fb.
  assert (Rs : 0 < root_size files < 4000) by (unfold root_size; lia). unfold BSIZE in Fr.
  assert (Nr : need (root_size files) <= need (Z.of_nat (length (d ++ replicate m 0)))) by (apply need_mono; rewrite Lc; zlia).
  assert (Ed : concat (entries [([46], ROOTINO); ([46; 46], ROOTINO)]) ++ concat (root_entries (2 + Z.of_nat (length (@nil (Z * list Z)))) files) = d).
  { rewrite <- concat_app. done. }
  destruct (add_files_ok files st4 c4 _ [] A4 BU4 Fs) as (st5 & c5 & A5 & E5 & BU5); [cbn [length]; lia| |done| |].
  { rewrite length_entries_names. cbn [length]. lia. }
  { rewrite Ed. cbn [app]. rewrite blocks_needed_cons. cbn [snd]. rewrite Ld. lia. }
  rewrite Ed in BU5. cbn [app] in BU5. pose proof (bu_lies _ _ _ _ BU5 0 T_DIR d eq_refl) as L5.
  destruct (built_grow st5 c5 _ A5 0 T_DIR d (replicate m 0) st5 c5 (A5 0%nat) BU5 eq_refl) as (st6 & c6 & E6 & BU6).
  { apply lies_pad; [apply BU5|done|rewrite Ld; unfold m; zlia|rewrite Ld; zlia]. } { rewrite Lc. zlia. }
  change (built st6 c6 ((T_DIR, d ++ replicate m 0) :: file_specs files) (<[0%nat := A5 0%nat]> A5)) in BU6.
  pose proof (bu_shadow _ _ _ _ BU6) as [Si Sb Sk Sl Sz Sf].
  eexists _, st6, c6, _. split; [|split; [|split; [|exact BU6]]].
  - unfold mkfs. rewrite (mkbind_ok _ _ _ _ _ E0), (mkbind_ok _ _ _ _ _ E1), (mkbind_ok _ _ _ _ _ E2). erewrite mkbind_ok; [|reflexivity].
    rewrite (mkbind_ok _ _ _ _ _ E3), (mkbind_ok _ _ _ _ _ E4), (mkbind_ok _ _ _ _ _ E5).
    rewrite (mkbind_ok _ _ _ _ _ (rinode_ok st5 c5 ROOTINO (bu_shadow _ _ _ _ BU5) ltac:(by split))).
    change (disk_inode sb c5 ROOTINO) with (disk_inode sb c5 (1 + Z.of_nat 0)). rewrite (bu_disk _ _ _ _ BU5 0 T_DIR d eq_refl).
    replace (Mkfs.set_size _ _) with (image_dinode T_DIR (d ++ replicate m 0) (A5 0%nat)) by (unfold image_dinode, Mkfs.set_size; cbn [di_type di_major di_minor di_nlink di_size di_addrs]; rewrite Lc, Ld; done).
    rewrite (mkbind_ok _ _ _ _ _ E6). erewrite mkbind_ok; [|reflexivity]. unfold mk_balloc, mkassert.
    rewrite (proj2 (Z.ltb_lt _ _)) by (change (BSIZE * 8) with 8192; lia). erewrite mkbind_ok; reflexivity.
  - intros n. cbn [mk_img]. change (sb_bmapstart sb) with 45. destruct (decide (n = 45)) as [->|]; [by rewrite fn_lookup_insert|]. rewrite fn_lookup_insert_ne by done. by apply Si.
  - cbn [mk_len]. rewrite Sl. done.
Qed.

(** An inode is stored in the image, its file is well formed and holds [d]. *)
Record stored_file (img : Z -> list Z) (i : inode) (d : list Z) : Prop := {
  sf_inode : inode_ok sb img i;
  sf_file : file_ok sb (i_addrs i) img;
  sf_disk : disk_inode sb img (i_inum i) = inode_dinode i;
  sf_contents : contents i img = d }.

(** The image the kernel mounts for [files]. *)
Record image_of (files : openable) (img : Z -> list Z) : Prop := {
  im_super : get_superblock (img 1) = sb;
  im_log : img (sb_logstart sb) = zeroes;
  im_blocks : blocks_ok sb img;
  im_used n : 0 <= n < FSSIZE -> used sb img n = (n <? nmeta + blocks_needed (image_specs files));
  im_root : exists root, i_inum root = ROOTINO /\ i_nlink root = 1 /\ stored_file img root (concat (root_dir files)) /\ is_dir sb img root (root_dir files);
  im_file k f : files !! k = Some f ->
    exists i, i_inum i = 2 + Z.of_nat k /\ i_type i = T_FILE /\ i_nlink i = 1 /\ stored_file img i (concat f.2);
  im_apart j j' n : 1 <= j < 2 + Z.of_nat (length files) -> 1 <= j' < 2 + Z.of_nat (length files) -> j <> j' ->
    owns (di_addrs (disk_inode sb img j)) img n -> ~ owns (di_addrs (disk_inode sb img j')) img n;
  im_rest j : 2 + Z.of_nat (length files) <= j < NINODES -> di_type (disk_inode sb img j) = 0 }.

Lemma built_stored st c sp A k t d :
  built st c sp A -> sp !! k = Some (t, d) -> stored_file c (image_inode (1 + Z.of_nat k) t d (A k)) d.
Proof.
  intros BU Ek. pose proof (lookup_lt_Some _ _ _ Ek). pose proof (bu_max _ _ _ _ BU). pose proof (bu_lies _ _ _ _ BU k t d Ek) as L. split.
  - apply image_inode_ok; [lia| |done]. apply (Forall_lookup_1 _ _ _ _ (bu_short _ _ _ _ BU) Ek).
  - apply L.
  - by apply (bu_disk _ _ _ _ BU).
  - by apply lies_contents.
Qed.

Lemma built_image st c files A : built st c (image_specs files) A -> image_of files c.
Proof.
  intros BU. pose proof (bu_max _ _ _ _ BU) as Mx. assert (Ln : length (image_specs files) = S (length files)) by (unfold image_specs, file_specs; cbn [length]; by rewrite length_fmap).
  rewrite Ln in Mx. assert (Hat : forall k, (k < S (length files))%nat -> exists t d, image_specs files !! k = Some (t, d)).
  { intros k Hk. destruct (lookup_lt_is_Some_2 (image_specs files) k) as [[t d] E]; [lia|]. by exists t, d. }
  split.
  - rewrite (bu_low _ _ _ _ BU) by lia. apply mkfs_superblock.
  - by rewrite (bu_low _ _ _ _ BU) by (by split).
  - apply (shadow_blocks_ok st). apply BU.
  - intros n Hn. rewrite (shadow_used st) by (done || apply BU). by rewrite (bu_block _ _ _ _ BU).
  - exists (image_inode ROOTINO T_DIR (concat (root_dir files)) (A 0%nat)). pose proof (built_stored st c _ A 0 T_DIR _ BU eq_refl) as SF.
    change (1 + Z.of_nat 0) with ROOTINO in SF. split_and!; [done|done|exact SF|]. split; [apply SF|done| |apply SF].
    apply Forall_app. split; [apply Forall_fmap, Forall_true; intros x; apply length_entry|]. by apply Forall_replicate.
  - intros k f Ek. exists (image_inode (2 + Z.of_nat k) T_FILE (concat f.2) (A (S k))). split_and!; try done.
    replace (2 + Z.of_nat k) with (1 + Z.of_nat (S k)) by lia. apply (built_stored st c (image_specs files)); [done|].
    change (image_specs files !! S k) with (file_specs files !! k). unfold file_specs. by rewrite list_lookup_fmap, Ek.
  - intros j j' n Hj Hj' Nj. destruct (Hat (Z.to_nat (j - 1)) ltac:(lia)) as (t & d & Ek). destruct (Hat (Z.to_nat (j' - 1)) ltac:(lia)) as (t' & d' & Ek').
    pose proof (bu_disk _ _ _ _ BU _ _ _ Ek) as D1. pose proof (bu_disk _ _ _ _ BU _ _ _ Ek') as D2.
    replace (1 + Z.of_nat (Z.to_nat (j - 1))) with j in D1 by lia. replace (1 + Z.of_nat (Z.to_nat (j' - 1))) with j' in D2 by lia.
    rewrite D1, D2. apply (bu_apart _ _ _ _ BU); rewrite ?Ln; lia.
  - intros j Hj. change NINODES with 200 in Hj. apply (bu_rest _ _ _ _ BU). rewrite Ln. lia.
Qed.

(** The names of the root directory, when they differ. *)
Lemma root_dir_names files :
  fits files -> NoDup (name_of ∘ fst <$> root_names files) ->
  dir_map (root_dir files) [46] = Some ROOTINO /\ dir_map (root_dir files) [46; 46] = Some ROOTINO /\
  (forall k f, files !! k = Some f -> dir_map (root_dir files) (short_name f.1) = Some (2 + Z.of_nat k)) /\
  (forall q, name_of q ∉ name_of ∘ fst <$> root_names files -> dir_map (root_dir files) q = None).
Proof.
  intros [_ Fc _ _ _] ND. assert (Rg : Forall (fun x => 0 < x.2 < 65536) (root_names files)) by (do 2 (constructor; [by split|]); apply numbered_range; lia).
  unfold root_dir. split_and!.
  - apply dir_map_present; [done|done|]. apply list_elem_of_here.
  - apply dir_map_present; [done|done|]. apply list_elem_of_further, list_elem_of_here.
  - intros k f Ek. apply dir_map_present; [done|done|]. do 2 apply list_elem_of_further. eapply list_elem_of_lookup_2. by apply numbered_lookup.
  - intros q Hq. by apply dir_map_absent.
Qed.

(** C9: the image mkfs builds.  For files that can be opened, whose short names have no slash and
    differ in their first DIRSIZ characters, that fit the inodes and the blocks, and when the
    root directory does not end at the end of a block, mkfs succeeds and writes FSSIZE blocks.
    The image has the superblock, an empty log, and exactly the blocks of the metadata and of
    the files marked in the bitmap; inode 1 is the root directory, which maps ., .. and the
    short name of each file to its inode and nothing else; the inode of each file is well
    formed for the kernel and its contents are the bytes that were read; no block is in two
    files, and the other inodes are free. *)
Theorem mkfs_image files :
  fits files -> NoDup (name_of ∘ fst <$> root_names files) ->
  exists st img, mkfs (opened files) mkfs_start = inl (tt, st) /\ mk_len st = FSSIZE /\ (forall n, mk_img st n = img n) /\ image_of files img /\
    dir_map (root_dir files) [46] = Some ROOTINO /\ dir_map (root_dir files) [46; 46] = Some ROOTINO /\
    (forall k f, files !! k = Some f -> dir_map (root_dir files) (short_name f.1) = Some (2 + Z.of_nat k)) /\
    (forall q, name_of q ∉ name_of ∘ fst <$> root_names files -> dir_map (root_dir files) q = None).
Proof.
  intros Fi ND. destruct (mkfs_built files Fi) as (st & st' & c & A & E & Hi & Hl & BU). exists st, c.
  split_and!; [done|done|done|by apply (built_image st' c files A)|by apply root_dir_names..].
Qed.

(** Two files, one of them longer than a block and read in two pieces. *)
Definition demo_files : openable :=
  [([82; 69; 65; 68; 77; 69], [[104; 105]]); ([117; 115; 101; 114; 47; 95; 108; 115], [replicate 1000 7; replicate 500 8])].

Lemma mkfs_image_witness :
  exists st img, mkfs (opened demo_files) mkfs_start = inl (tt, st) /\ (forall n, mk_img st n = img n) /\ image_of demo_files img /\
    dir_map (root_dir demo_files) [108; 115] = Some 3.
Proof.
  destruct (mkfs_image demo_files) as (st & img & E & _ & Hi & Im & _ & _ & Hf & _).
  - split; [by apply (bool_decide_unpack _)|by vm_compute|by apply (bool_decide_unpack _)|by vm_compute|by vm_compute].
  - by apply (bool_decide_unpack _).
  - exists st, img. split_and!; [exact E|exact Hi|exact Im|]. exact (Hf 1%nat _ eq_refl).
Defined.
