(* ===== verification/Path.v ===== *)
(** * Path names

    skipelem (kernel/fs.c) against a reference definition: the elements of a path are the
    non-empty pieces between slashes. *)

From S2P Require Import Prelude CString Bytes State Fs Dir.
From Stdlib Require Import ZArith Lia.
From stdpp Require Import base list numbers.

#[local] Open Scope Z_scope.

(** The characters before the NUL. *)
Fixpoint cstr (l : list Z) : list Z :=
  match l with
  | [] => []
  | c :: l' => if c =? 0 then [] else c :: cstr l'
  end.

(** The pieces between slashes. *)
Fixpoint pieces (l : list Z) : list (list Z) :=
  match l with
  | [] => [[]]
  | c :: l' =>
      if c =? 47 then [] :: pieces l'
      else match pieces l' with
           | s :: r => (c :: s) :: r
           | [] => [[c]]
           end
  end.

Definition elements (path : list Z) : list (list Z) := filter (fun s => s <> []) (pieces (cstr path)).

(** The names skipelem produces when it is called until it returns 0, as namex does. *)
Fixpoint path_names (fuel : nat) (path name : list Z) : option (list (list Z)) :=
  match fuel with
  | O => None
  | S fuel' =>
      match skipelem path name with
      | None => Some []
      | Some (rest, name') => cons (name_of name') <$> path_names fuel' rest name'
      end
  end.

(** ** Pieces *)

Lemma pieces_app s t :
  Forall (fun c => c <> 47) s -> pieces (s ++ t) = match pieces t with x :: r => (s ++ x) :: r | [] => [s] end.
Proof.
  induction 1 as [|c s Hc Hs IH]; cbn [app pieces]; [by destruct (pieces t) eqn:E; [destruct t; cbn in E; repeat case_match|]|].
  apply Z.eqb_neq in Hc. rewrite Hc, IH. by destruct (pieces t).
Qed.

Lemma cstr_app s t : Forall (fun c => c <> 0) s -> cstr (s ++ t) = s ++ cstr t.
Proof. induction 1 as [|c s Hc Hs IH]; [done|]. cbn. apply Z.eqb_neq in Hc. by rewrite Hc, IH. Qed.

Lemma elements_slash l : elements (47 :: l) = elements l.
Proof. done. Qed.

Lemma elements_skip l : elements (skip_slashes l) = elements l.
Proof.
  induction l as [|c l IH]; [done|]. cbn [skip_slashes]. destruct (Z.eqb_spec c 47) as [->|]; [|done]. by rewrite IH.
Qed.

Lemma elements_end l : at_end l = true -> elements l = [].
Proof. destruct l as [|c l]; [done|]. cbn. intros E. unfold elements. cbn. by rewrite E. Qed.

Lemma elements_cons s r :
  s <> [] -> Forall (fun c => c <> 47 /\ c <> 0) s -> at_end r = true \/ hd 0 r = 47 -> elements (s ++ r) = s :: elements r.
Proof.
  intros Ne Hs Hr. assert (H1 : Forall (fun c => c <> 47) s) by (eapply List.Forall_impl; [|exact Hs]; cbn; tauto).
  assert (H0 : Forall (fun c => c <> 0) s) by (eapply List.Forall_impl; [|exact Hs]; cbn; tauto).
  unfold elements. rewrite cstr_app, pieces_app by done. destruct Hr as [Hr|Hr].
  - replace (cstr r) with (@nil Z) by (destruct r as [|c r]; [done|]; cbn in *; by rewrite Hr). cbn [pieces].
    rewrite app_nil_r, filter_cons_True by done. done.
  - destruct r as [|c r]; [done|]. cbn in Hr. subst c. cbn [cstr Z.eqb]. cbn [pieces Z.eqb Pos.eqb].
    by rewrite app_nil_r, filter_cons_True by done.
Qed.

(** ** One step *)

Lemma skip_slashes_spec l : (length (skip_slashes l) <= length l)%nat /\ hd 0 (skip_slashes l) <> 47.
Proof.
  induction l as [|c l [IH1 IH2]]; [done|]. cbn [skip_slashes]. destruct (Z.eqb_spec c 47); cbn; [split; [lia|done]|split; [lia|done]].
Qed.

Lemma path_elem_spec l s r :
  path_elem l = (s, r) -> l = s ++ r /\ Forall (fun c => c <> 47 /\ c <> 0) s /\ (at_end r = true \/ hd 0 r = 47).
Proof.
  revert s r. induction l as [|c l IH]; intros s r; cbn [path_elem]; [intros [= <- <-]; split_and!; auto|].
  destruct (Z.eqb_spec c 47) as [->|N1]; [intros [= <- <-]; split_and!; auto|]. destruct (Z.eqb_spec c 0) as [->|N2]; [intros [= <- <-]; split_and!; auto|].
  cbn [orb]. destruct (path_elem l) as [s' r'] eqn:E. intros [= <- <-]. destruct (IH _ _ eq_refl) as (-> & H1 & H2). split_and!; [done|by constructor|done].
Qed.

Lemma cstrn_nonzero n s t :
  Forall (fun c => c <> 0) s -> (length s = n \/ (length s < n)%nat /\ hd 0 t = 0) -> cstrn n 0 (bytes_at (s ++ t)) = s.
Proof.
  revert n. induction s as [|c s IH]; intros n Hs Hn.
  - destruct n as [|n]; [done|]. destruct Hn as [?|[_ Ht]]; [done|]. destruct t as [|x t]; [done|]. cbn in Ht. subst x. done.
  - destruct n as [|n]; [cbn in Hn; lia|]. inversion_clear Hs as [|? ? Hc Hs']. cbn [app]. rewrite cstrn_bytes_cons.
    apply Z.eqb_neq in Hc. rewrite Hc. f_equal. apply IH; [done|]. cbn in Hn. destruct Hn as [?|[? ?]]; [left; lia|right; split; [lia|done]].
Qed.

Lemma skipelem_spec path name :
  length name = Z.to_nat DIRSIZ ->
  match skipelem path name with
  | None => elements path = []
  | Some (rest, name') =>
      exists s, elements path = s :: elements rest /\ name_of name' = take (Z.to_nat DIRSIZ) s /\ length name' = Z.to_nat DIRSIZ /\
        (length rest < length path)%nat /\ hd 0 rest <> 47
  end.
Proof.
  intros Ln. unfold skipelem. destruct (skip_slashes_spec path) as [Hl Hh]. rewrite <- (elements_skip path).
  set (l := skip_slashes path) in *. destruct (at_end l) eqn:Ee; [by apply elements_end|].
  destruct (path_elem l) as [s r] eqn:Ep. destruct (path_elem_spec _ _ _ Ep) as (El & Hs & Hr).
  assert (Ne : s <> []).
  { intros ->. cbn in El. subst r. destruct Hr as [Hr|Hr]; [congruence|done]. }
  assert (H0 : Forall (fun c => c <> 0) s) by (eapply List.Forall_impl; [|exact Hs]; cbn; tauto).
  exists s. rewrite El, elements_cons, elements_skip by done. split; [done|]. split; [|split; [|split]].
  - unfold name_of. change DIRSIZ with 14 in *. destruct (Z.leb_spec 14 (Z.of_nat (length s))).
    + rewrite <- (app_nil_r (take (Z.to_nat 14) s)) at 1. apply cstrn_nonzero; [by apply Forall_take|left]. rewrite length_take. lia.
    + rewrite put_bytes_eq by (rewrite length_app; cbn; lia). cbn [take app]. rewrite take_0. cbn [app]. rewrite <- app_assoc.
      rewrite (take_ge s) by lia. apply cstrn_nonzero; [done|right; split; [lia|done]].
  - change DIRSIZ with 14 in *. destruct (Z.leb_spec 14 (Z.of_nat (length s))); [rewrite length_take; lia|].
    rewrite length_put_bytes; [done|]. rewrite length_app. cbn. lia.
  - pose proof (skip_slashes_spec r) as [? _]. apply (f_equal length) in El. rewrite length_app in El. destruct s; [done|]. cbn in El. lia.
  - apply skip_slashes_spec.
Qed.

(** C37: path parsing agrees with its reference.  Called until it returns 0, skipelem stops
    after at most one call per character of the path and yields the non-empty pieces between
    slashes, in order, each cut to DIRSIZ characters; every rest it returns starts with no
    slash. *)
Theorem skipelem_elements path name :
  length name = Z.to_nat DIRSIZ ->
  path_names (S (length path)) path name = Some (take (Z.to_nat DIRSIZ) <$> elements path) /\
  forall rest name', skipelem path name = Some (rest, name') -> hd 0 rest <> 47.
Proof.
  intros Ln. split.
  - assert (G : forall fuel path name, length name = Z.to_nat DIRSIZ -> (length path < fuel)%nat ->
      path_names fuel path name = Some (take (Z.to_nat DIRSIZ) <$> elements path)); [|by apply G; [|lia]].
    clear. induction fuel as [|fuel IH]; intros path name Ln Hf; [lia|]. cbn [path_names].
    pose proof (skipelem_spec path name Ln) as Sp. destruct (skipelem path name) as [[rest name']|]; [|by rewrite Sp].
    destruct Sp as (s & -> & Es & Ln' & Hl & _). rewrite IH by (done || lia). cbn. by rewrite Es.
  - intros rest name' E. pose proof (skipelem_spec path name Ln) as Sp. rewrite E in Sp. by destruct Sp as (s & _ & _ & _ & _ & H).
Qed.

(** usr/rm.c after three slashes. *)
Lemma skipelem_elements_witness :
  path_names 13 [47; 47; 47; 117; 115; 114; 47; 114; 109; 46; 99; 47] name0 = Some [[117; 115; 114]; [114; 109; 46; 99]].
Proof.
  destruct (skipelem_elements [47; 47; 47; 117; 115; 114; 47; 114; 109; 46; 99; 47] name0 eq_refl) as [E _]. exact E.
Defined.
