(* ===== verification/Sbrk.v ===== *)
(** * The size of a process

    sys_sbrk and sys_memsize (kernel/sysproc.c) over growproc: the memory of a process is the
    pages below its size, and memsize reports that size. *)

From S2P Require Import Prelude Memory Riscv State Kmonad Spinlock CString Kalloc Vm PageTable UserMem Uvm AddressSpace.
From S2P Require Import Proc ProcSpec CoYield Sched Sleeplock Bio ProcFs Syscall Sysproc Calm BioSpec.
From Stdlib Require Import ZArith Lia.
From stdpp Require Import base numbers list gmap strings option.

#[local] Open Scope Z_scope.
#[local] Open Scope kernel_scope.

Section Sbrk.
Context `{L : KernelLayout} `{LOK : !LayoutOk}.
Context (p : nat).

Definition psize (s : kstate) : Z := p_sz (proc_at p s).
Definition proot (s : kstate) : Z := p_pagetable (proc_at p s).
(** The first argument of the system call, as an int. *)
Definition arg0 (s : kstate) : Z := i32 (mld64 (k_mem s) (p_trapframe (proc_at p s) + TF_a0)).

(** The memory of [p] is the pages below its size. *)
Record uspace (free : list Z) (s : kstate) : Prop := {
  sp_kmem : kmem_ok s free;
  sp_uvm : uvm_ok (k_mem s) (proot s) free;
  sp_size : 0 <= psize s <= TRAPFRAME;
  sp_valid x : uva x -> valid (k_mem s) (proot s) x = bool_decide (x < PGROUNDUP (psize s)) }.

(** The user's memory after the size changed from [old] to [new]. *)
Definition resized_view (v : Z -> option (Z * Z)) (old new x : Z) : option (Z * Z) :=
  if decide (x < PGROUNDUP new)
  then if decide (x < PGROUNDUP old) then v x else Some (Z.lor (uperm PTE_W) PTE_V, 0)
  else None.

Lemma calm_callable s : calm p s -> kmem_callable s.
Proof. intros C. split; [by apply (ca_locks _ _ C)|apply C]. Qed.

Lemma calm_mem_only s s' : calm p s -> mem_only s s' -> calm p s' /\ k_procs s' = k_procs s.
Proof.
  intros C (m & f & [-> | ->]); rewrite ?(ca_settled _ _ C); (split; [|done]); by apply (calm_ext p s).
Qed.

Lemma uview_None m root x : valid m root x = false -> uview m root x = None.
Proof. unfold uview. by intros ->. Qed.

Lemma uview_valid m m' root x : uview m' root x = uview m root x -> valid m' root x = valid m root x.
Proof. unfold uview. by destruct (valid m' root x), (valid m root x). Qed.

Lemma resized_same free s x : uspace free s -> uva x -> resized_view (uview (k_mem s) (proot s)) (psize s) (psize s) x = uview (k_mem s) (proot s) x.
Proof.
  intros [_ _ _ V] Hx. unfold resized_view. destruct (decide (x < PGROUNDUP (psize s))) as [|N]; [done|].
  symmetry. apply uview_None. rewrite V by done. by apply bool_decide_eq_false_2.
Qed.

Lemma PGROUNDUP_mono a b : 0 <= a <= b -> b <= TRAPFRAME -> PGROUNDUP a <= PGROUNDUP b.
Proof. rewrite TRAPFRAME_eq. intros H1 H2. rewrite !PGROUNDUP_eq by lia. zlia. Qed.

Lemma PGROUNDUP_bound a : 0 <= a <= TRAPFRAME -> PGROUNDUP a <= TRAPFRAME.
Proof. rewrite TRAPFRAME_eq. intros H1. rewrite !PGROUNDUP_eq by lia. zlia. Qed.

Lemma pages_uva a b x : 0 <= a <= TRAPFRAME -> 0 <= b <= TRAPFRAME -> PGROUNDUP a <= x < PGROUNDUP b -> uva x.
Proof.
  intros Ha Hb Hx. pose proof (PGROUNDUP_bound b Hb). unfold uva. rewrite TRAPFRAME_eq in *.
  rewrite (PGROUNDUP_eq a) in Hx by lia. zlia.
Qed.

Lemma calm_resize sz s : calm p s -> calm p (upd_proc p (set_p_sz sz) s).
Proof.
  intros [H1 H2 H3 H4 H5 H6 H7 H8]. split; try done.
  - rewrite upd_proc_settle. by rewrite H4.
  - cbn. by rewrite length_alter.
  - unfold proc_at. cbn [upd_proc k_procs set_k_procs]. rewrite proc_at_alter_eq by lia. done.
Qed.

Lemma resize_id s : upd_proc p (set_p_sz (psize s)) s = s.
Proof.
  unfold upd_proc. rewrite alter_id_at; [by destruct s|]. unfold psize, proc_at. by destruct (k_procs s !!! p).
Qed.

(** The state once growproc has stored the new size. *)
Lemma uspace_resize free free' s s' sz :
  uspace free s -> calm p s -> uvm_step (proot s) free s free' s' -> 0 <= sz <= TRAPFRAME ->
  (forall x, uva x -> uview (k_mem s') (proot s) x = resized_view (uview (k_mem s) (proot s)) (psize s) sz x) ->
  let s2 := upd_proc p (set_p_sz sz) s' in
  calm p s2 /\ uspace free' s2 /\ psize s2 = sz /\ proot s2 = proot s /\
  forall x, uva x -> uview (k_mem s2) (proot s2) x = resized_view (uview (k_mem s) (proot s)) (psize s) sz x.
Proof.
  intros [K U Z0 V] C X Hz W s2. destruct (calm_mem_only s s' C (us_only _ _ _ _ _ X)) as [C' Ep].
  assert (Hp : proc_at p s2 = set_p_sz sz (proc_at p s)).
  { unfold s2, proc_at. cbn [upd_proc k_procs set_k_procs]. rewrite proc_at_alter_eq by (rewrite (ca_tab _ _ C'); apply C'). by rewrite Ep. }
  assert (Er : proot s2 = proot s) by (unfold proot; by rewrite Hp). assert (Es : psize s2 = sz) by (unfold psize; by rewrite Hp).
  split_and!; try done.
  - by apply calm_resize.
  - split; rewrite ?Er, ?Es; try done; [apply X|apply X|]. intros x Hx. change (k_mem s2) with (k_mem s').
    pose proof (W x Hx) as Wx. unfold resized_view in Wx. unfold uview at 1 in Wx.
    destruct (decide (x < PGROUNDUP sz)) as [H1|H1]; destruct (valid (k_mem s') (proot s) x) eqn:Ev; rewrite ?bool_decide_eq_true_2, ?bool_decide_eq_false_2 by done; try done.
    destruct (decide (x < PGROUNDUP (psize s))) as [H2|]; [|done]. unfold uview in Wx. rewrite V, bool_decide_eq_true_2 in Wx by done. done.
  - by rewrite Er.
Qed.

(** Growing and shrinking. *)
Lemma grow_ok free s n :
  uspace free s -> calm p s -> 0 < n -> psize s + n <= TRAPFRAME ->
  exists r s' free', uvmalloc (proot s) (psize s) (psize s + n) PTE_W s = Ok r s' /\ uvm_step (proot s) free s free' s' /\
    (r = psize s + n /\ (forall x, uva x -> uview (k_mem s') (proot s) x = resized_view (uview (k_mem s) (proot s)) (psize s) (psize s + n) x) \/
     r = 0 /\ forall x, uva x -> uview (k_mem s') (proot s) x = uview (k_mem s) (proot s) x).
Proof.
  intros [K U Z0 V] C Hn Hb. pose proof (PGROUNDUP_mono (psize s) (psize s + n) ltac:(lia) Hb) as M.
  destruct (uvmalloc_ok s (proot s) free (psize s) (psize s + n) PTE_W K (calm_callable s C) U) as (r & s' & f' & E & X & _ & R); try lia; [done| |].
  { intros x Hx. rewrite V; [apply bool_decide_eq_false_2; lia|]. apply (pages_uva (psize s) (psize s + n)); lia. }
  exists r, s', f'. split; [done|]. split; [done|]. destruct R as [(-> & W)|R]; [left|by right]. split; [done|].
  intros x Hx. rewrite W by done. unfold resized_view.
  destruct (decide (x < PGROUNDUP (psize s))) as [H1|H1]; destruct (decide (x < PGROUNDUP (psize s + n))) as [H2|H2]; try lia.
  - by rewrite decide_False by lia.
  - by rewrite decide_True by lia.
  - rewrite decide_False by lia. apply uview_None. rewrite V by done. by apply bool_decide_eq_false_2.
Qed.

Lemma shrink_ok free s n :
  uspace free s -> calm p s -> n <= 0 -> 0 <= psize s + n ->
  exists s' free', uvmdealloc (proot s) (psize s) (psize s + n) s = Ok (psize s + n) s' /\ uvm_step (proot s) free s free' s' /\
    forall x, uva x -> uview (k_mem s') (proot s) x = resized_view (uview (k_mem s) (proot s)) (psize s) (psize s + n) x.
Proof.
  intros [K U Z0 V] C Hn Hb. pose proof (PGROUNDUP_mono (psize s + n) (psize s) ltac:(lia) ltac:(lia)) as M.
  destruct (uvmdealloc_ok s (proot s) free (psize s) (psize s + n) K (calm_callable s C) U) as (s' & f' & E & X & _ & _ & W); try lia.
  { intros x Hx. rewrite V; [apply bool_decide_eq_true_2; lia|]. apply (pages_uva (psize s + n) (psize s)); lia. }
  exists s', f'. split; [done|]. split; [done|]. intros x Hx. rewrite W by done. unfold resized_view.
  destruct (decide (x < PGROUNDUP (psize s))) as [H1|H1]; destruct (decide (x < PGROUNDUP (psize s + n))) as [H2|H2]; try lia.
  - by rewrite decide_False by lia.
  - by rewrite decide_True by lia.
  - rewrite decide_False by lia. apply uview_None. rewrite V by done. by apply bool_decide_eq_false_2.
Qed.

(** What growproc leaves: [new] is the size asked for. *)
Definition grown_to (s : kstate) (new : Z) (s' : kstate) : Prop :=
  psize s' = new /\
  forall x, uva x -> uview (k_mem s') (proot s') x = resized_view (uview (k_mem s) (proot s)) (psize s) new x.

Lemma growproc_ok free s n :
  calm p s -> uspace free s -> psize s + n <= TRAPFRAME -> -2147483648 <= n ->
  exists r s' free', growproc n s = Ok r s' /\ calm p s' /\ uspace free' s' /\
    (r = 0 /\ grown_to s (if psize s + n <? 0 then psize s else psize s + n) s' \/ r = -1 /\ 0 < n /\ grown_to s (psize s) s').
Proof.
  intros C U Hb Hn. pose proof (sp_size _ _ U) as Sz. pose proof Hb as Hb'. rewrite TRAPFRAME_eq in Sz, Hb'. unfold growproc.
  erewrite bind_ok; [|by apply curproc_calm]. do 2 kprim. fold (psize s) (proot s).
  assert (Keep : forall s1 f1, uvm_step (proot s) free s f1 s1 ->
    (forall x, uva x -> uview (k_mem s1) (proot s) x = uview (k_mem s) (proot s) x) ->
    calm p s1 /\ uspace f1 s1 /\ grown_to s (psize s) s1).
  { intros s1 f1 X W. destruct (calm_mem_only s s1 C (us_only _ _ _ _ _ X)) as [C1 Ep].
    assert (Es : psize s1 = psize s) by (unfold psize, proc_at; by rewrite Ep). pose proof (resize_id s1) as Ei. rewrite Es in Ei.
    destruct (uspace_resize free f1 s s1 (psize s) U C X (sp_size _ _ U)) as (C2 & U2 & E2 & _ & W2).
    - intros x Hx. rewrite (resized_same free s x U Hx). by apply W.
    - rewrite Ei in *. done. }
  destruct (Z.ltb_spec 0 n) as [Hp|Hp]; [|destruct (Z.ltb_spec n 0) as [Hm|Hm]].
  - rewrite u64_small by lia. destruct (grow_ok free s n U C Hp Hb) as (r & s1 & f1 & E & X & [(-> & W)|(-> & W)]); (erewrite bind_ok; [|exact E]).
    + replace (psize s + n =? 0) with false by (symmetry; apply Z.eqb_neq; lia). kprim.
      replace (psize s + n <? 0) with false by (symmetry; apply Z.ltb_ge; lia).
      destruct (uspace_resize free f1 s s1 (psize s + n) U C X) as (C2 & U2 & E2 & _ & W2); [rewrite TRAPFRAME_eq; lia|done|].
      eexists 0, _, f1. split_and!; [reflexivity|done|done|]. by left.
    + eexists (-1), s1, f1. destruct (Keep s1 f1 X W) as (C1 & U1 & G1). split_and!; [reflexivity|done|done|]. by right.
  - destruct (Z.ltb_spec (psize s + n) 0) as [Hz|Hz].
    + destruct (Keep s free) as (C1 & U1 & G1); [by apply uvm_step_refl; apply U|done|].
      unfold uvmdealloc. replace (psize s <=? u64 (psize s + n)) with true
        by (symmetry; apply Z.leb_le; unfold u64; zlia).
      do 2 kprim. rewrite resize_id. eexists 0, s, free. split_and!; [reflexivity|done|done|]. by left.
    + rewrite u64_small by lia. destruct (shrink_ok free s n U C ltac:(lia) Hz) as (s1 & f1 & E & X & W). erewrite bind_ok; [|exact E]. kprim.
      destruct (uspace_resize free f1 s s1 (psize s + n) U C X) as (C2 & U2 & E2 & _ & W2); [rewrite TRAPFRAME_eq; lia|done|].
      eexists 0, _, f1. split_and!; [reflexivity|done|done|]. by left.
  - replace n with 0 by lia. rewrite Z.add_0_r. replace (psize s <? 0) with false by (symmetry; apply Z.ltb_ge; lia).
    kprim. rewrite resize_id. destruct (Keep s free) as (C1 & U1 & G1); [by apply uvm_step_refl; apply U|done|].
    eexists 0, s, free. split_and!; [reflexivity|done|done|]. by left.
Qed.

(** C16: sbrk and memsize.  memsize returns the size of the calling process.  sbrk of [n] bytes
    returns the old size and changes the size by [n]: pages below both sizes keep their
    contents, new ones are zeroed and writable, pages past the new size are gone; when there
    is not enough memory it returns -1 with the size and the memory unchanged.  A request to
    shrink below zero leaves the size as it is.  The process's memory stays the pages below
    the size memsize reports. *)
Theorem sbrk_memsize free s :
  calm p s -> uspace free s -> psize s + arg0 s <= TRAPFRAME ->
  sys_memsize s = Ok (psize s) s /\
  exists r s' free', sys_sbrk s = Ok r s' /\ calm p s' /\ uspace free' s' /\ sys_memsize s' = Ok (psize s') s' /\
    (r = psize s /\ grown_to s (if psize s + arg0 s <? 0 then psize s else psize s + arg0 s) s' \/
     r = u64 (-1) /\ 0 < arg0 s /\ grown_to s (psize s) s').
Proof.
  intros C U Hb.
  assert (Hm : forall s, calm p s -> sys_memsize s = Ok (psize s) s).
  { intros s0 C0. unfold sys_memsize. by erewrite bind_ok; [|by apply curproc_calm]. }
  split; [by apply Hm|].
  destruct (growproc_ok free s (arg0 s) C U Hb) as (r & s' & f' & E & C' & U' & R); [unfold arg0, i32; zlia|].
  exists (if r <? 0 then u64 (-1) else psize s), s', f'. split_and!; [|done|done|by apply Hm|].
  - unfold sys_sbrk, argint, argraw, ld_tf. erewrite bind_ok.
    2:{ erewrite bind_ok; [reflexivity|]. by erewrite bind_ok; [|by apply curproc_calm]. }
    erewrite bind_ok; [|by apply curproc_calm]. kprim. erewrite bind_ok; [|exact E].
    by destruct R as [(-> & _)|(-> & _)].
  - destruct R as [(-> & R)|(-> & R)]; [left|right]; by split.
Qed.

End Sbrk.

(** ** On the small machine *)

#[local] Existing Instance demo_layout.
#[local] Existing Instance demo_layout_ok.

(** Process 0 of the small kernel with two pages of memory; its trap frame page holds the
    bytes kfree left there. *)
Definition give_memory (m : memory) (fl : Z) (s : kstate) : kstate :=
  set_k_mem m (set_k_freelist fl (upd_proc 0 (fun q => set_p_trapframe fl (set_p_pagetable demo_root (set_p_sz 8192 q))) s)).

Definition demo_user : kstate := give_memory (k_mem demo_space) (k_freelist demo_space) demo_kernel.

Lemma give_memory_calm m fl s : calm 0 s -> calm 0 (give_memory m fl s).
Proof.
  intros [H1 H2 H3 H4 H5 H6 H7 H8]. split; try done.
  - apply kstate_ext; try reflexivity. change (k_cpus (settle s) = k_cpus s). by rewrite H4.
  - cbn. by rewrite length_alter.
  - unfold proc_at, give_memory. ksimpl. rewrite proc_at_alter_eq by lia. done.
Qed.

Lemma demo_user_calm : calm 0 demo_user.
Proof. apply give_memory_calm, demo_kernel_calm. Qed.

Lemma give_memory_proc m fl s :
  (0 < length (k_procs s))%nat ->
  k_mem (give_memory m fl s) = m /\ k_freelist (give_memory m fl s) = fl /\
  psize 0 (give_memory m fl s) = 8192 /\ proot 0 (give_memory m fl s) = demo_root.
Proof. intros H. unfold psize, proot, proc_at, give_memory. ksimpl. rewrite proc_at_alter_eq by done. done. Qed.

Lemma give_memory_space m fl free s :
  (0 < length (k_procs s))%nat -> flist m fl free /\ NoDup free /\ Forall page free -> uvm_ok m demo_root free ->
  (forall x, uva x -> uview m demo_root x = if decide (0 <= x < 8192) then Some (Z.lor (uperm PTE_W) PTE_V, 0) else None) ->
  uspace 0 free (give_memory m fl s).
Proof.
  intros Hs K U W. destruct (give_memory_proc m fl s Hs) as (Em & Ef & Es & Er).
  split; unfold kmem_ok; rewrite ?Em, ?Ef, ?Es, ?Er; [exact K|exact U|rewrite TRAPFRAME_eq; lia|].
  intros x Hx. change (PGROUNDUP 8192) with 8192. pose proof (W x Hx) as Wx. unfold uva in Hx. unfold uview in Wx.
  destruct (decide (0 <= x < 8192)) as [D|D]; destruct (valid _ _ x); try discriminate Wx; symmetry;
    [apply bool_decide_eq_true_2|apply bool_decide_eq_false_2]; lia.
Qed.

Lemma demo_procs : (0 < length (k_procs demo_kernel))%nat.
Proof. rewrite (ca_tab _ _ demo_kernel_calm). unfold NPROC. lia. Qed.

Lemma demo_user_space : exists free, uspace 0 free demo_user.
Proof.
  destruct demo_space_ok as (f & K & _ & U & _ & W). exists f.
  exact (give_memory_space (k_mem demo_space) (k_freelist demo_space) f demo_kernel demo_procs K U W).
Qed.

Lemma demo_user_size : psize 0 demo_user = 8192.
Proof. exact (proj1 (proj2 (proj2 (give_memory_proc (k_mem demo_space) (k_freelist demo_space) demo_kernel demo_procs)))). Qed.

Lemma sbrk_memsize_witness :
  sys_memsize demo_user = Ok 8192 demo_user /\
  exists r s', sys_sbrk demo_user = Ok r s' /\ (r = 8192 \/ r = u64 (-1)).
Proof.
  destruct demo_user_space as [f U]. pose proof demo_user_size as Es.
  destruct (sbrk_memsize 0 f demo_user demo_user_calm U) as (Em & r & s' & _ & E & _ & _ & _ & R).
  - rewrite Es, TRAPFRAME_eq. unfold arg0, i32. zlia.
  - rewrite Es in *. split; [exact Em|]. exists r, s'. split; [exact E|]. destruct R as [(-> & _)|(-> & _)]; auto.
Defined.
