(* ===== verification/ProcAlloc.v ===== *)
(** * Allocating and freeing processes: allocproc and freeproc (kernel/proc.c)

    allocproc takes the first unused slot and gives it a pid, a trapframe and a page table, or
    gives every page back; freeproc returns all the pages of a process. *)

From S2P Require Import Prelude Memory Riscv State Kmonad Spinlock CString Kalloc Vm PageTable.
From S2P Require Import UserMem Uvm AddressSpace Freewalk Proc ProcPages ProcSpec CoYield Sched Sleeplock Calm.
From S2P Require Import Bytes Bio Log Trap Sbrk.
From Stdlib Require Import ZArith Lia.
From stdpp Require Import base numbers gmap strings option list.

#[local] Open Scope Z_scope.
#[local] Open Scope kernel_scope.

(** ** The parts of the state that fork changes *)

Definition with_mem (ps : list proc) (m : memory) (f n : Z) (s : kstate) : kstate :=
  set_k_nextpid n (set_k_freelist f (set_k_mem m (set_k_procs ps s))).

Lemma with_mem_same s : with_mem (k_procs s) (k_mem s) (k_freelist s) (k_nextpid s) s = s.
Proof. by destruct s. Qed.

Lemma with_mem_acq l ps m f n s : acq_st l (with_mem ps m f n s) = with_mem ps m f n (acq_st l s).
Proof. reflexivity. Qed.

Lemma calm_with_mem p ps m f n s :
  calm p s -> length ps = NPROC -> p_state (ps !!! p) = RUNNING -> calm p (with_mem ps m f n s).
Proof.
  intros [H1 H2 H3 H4 H5 H6 H7 H8] Hl Hr. split; try done.
  apply (f_equal k_cpus) in H4. unfold settle in *. ksimpl_in H4. by apply kstate_ext; ksimpl; try reflexivity.
Qed.

Lemma settled_cpus s s' : k_cpus s' = k_cpus s -> k_hart s' = k_hart s -> k_sie s' = k_sie s -> settle s = s -> settle s' = s'.
Proof.
  intros E1 E2 E3 H. apply (f_equal k_cpus) in H. unfold settle in *. ksimpl_in H. apply kstate_ext; ksimpl; try reflexivity. by rewrite E1, E2, E3.
Qed.

Lemma kalloc_settled `{L : KernelLayout} `{LOK : !LayoutOk} s q free :
  kmem_ok s (q :: free) -> kmem_callable s -> settle s = s ->
  exists m fl, kalloc s = Ok q (set_k_mem m (set_k_freelist fl s)) /\ kmem_ok (set_k_mem m (set_k_freelist fl s)) free /\
    forall a, ~ in_page q a -> mget m a = mget (k_mem s) a.
Proof.
  intros K [Cl Cc] St. destruct (kalloc_some s q free K Cl Cc) as [E K']. rewrite St in E, K'. eexists _, _. split; [exact E|]. split; [exact K'|].
  intros a Na. by apply mget_fillpage_out.
Qed.

Section Crit.
Variables (p : nat) (t : kstate) (l : lockid).
Hypothesis C : calm p t.

Lemma acq_settled : settle (acq_st l t) = acq_st l t.
Proof. apply settle_acq, C. Qed.

Lemma acq_callable : l <> L_kmem -> kmem_callable (acq_st l t).
Proof. intros N. split; [apply lock_free_acq; [congruence|by apply (ca_locks _ _ C)]|apply cpu_ok_acq, C]. Qed.

(** Allocation inside a critical section. *)
Lemma mem_only_acq s' : mem_only (acq_st l t) s' -> s' = acq_st l (set_k_mem (k_mem s') (set_k_freelist (k_freelist s') t)).
Proof. intros (m & f & [-> | ->]); rewrite ?acq_settled; reflexivity. Qed.

Lemma release_crit : klock l -> release l (acq_st l t) = Ok tt t.
Proof. intros Hl. rewrite acq_release; [by rewrite (ca_settled _ _ C)|by apply (ca_locks _ _ C)|apply C]. Qed.

(** A second lock. *)
Lemma acquire_nested l' : klock l' -> l' <> l -> acquire l' (acq_st l t) = Ok tt (acq_st l' (acq_st l t)).
Proof. intros Hl N. apply acquire_eq, lock_free_acq; [done|]. by apply (ca_locks _ _ C). Qed.

Lemma release_nested l' : klock l' -> l' <> l -> release l' (acq_st l' (acq_st l t)) = Ok tt (acq_st l t).
Proof.
  intros Hl N. rewrite acq_release; [by rewrite acq_settled|apply lock_free_acq; [done|by apply (ca_locks _ _ C)]|apply cpu_ok_acq, C].
Qed.
End Crit.

(** ** Finding an unused slot *)

Definition first_unused (s : kstate) : option nat := List.find (fun i => bool_decide (p_state (proc_at i s) = UNUSED)) (seq 0 NPROC).

Lemma find_unused_eq l s :
  cpu_ok s -> settle s = s -> (forall i, i ∈ l -> lock_free (L_proc i) s) ->
  find_unused l s = match List.find (fun i => bool_decide (p_state (proc_at i s) = UNUSED)) l with
                    | Some i => Ok (Some i) (acq_st (L_proc i) s)
                    | None => Ok None s
                    end.
Proof.
  intros Hc Hs. induction l as [|i l IH]; intros Hl; [done|]. cbn [find_unused List.find].
  erewrite bind_ok; [|apply acquire_eq, Hl; apply list_elem_of_here]. unfold getp. kprim. change (proc_at i (acq_st (L_proc i) s)) with (proc_at i s).
  destruct (decide (p_state (proc_at i s) = UNUSED)) as [E|E]; [by rewrite bool_decide_true|rewrite bool_decide_false by done].
  erewrite bind_ok; [|apply acq_release; [apply Hl, list_elem_of_here|done]]. rewrite Hs. apply IH. intros j Hj. by apply Hl, list_elem_of_further.
Qed.

(** ** The process structures *)

Definition new_proc (pid tf pt : Z) (q : proc) : proc :=
  set_p_context (mkcontext ra_forkret (p_kstack q + PGSIZE)) (set_p_pagetable pt (set_p_trapframe tf (set_p_state USED (set_p_pid pid q)))).

Definition clear_proc (q : proc) : proc :=
  set_p_state UNUSED (set_p_xstate 0 (set_p_killed 0 (set_p_chan CH_null (set_p_name (<[0%nat := 0]> (p_name q))
    (set_p_parent None (set_p_pid 0 (set_p_sz 0 (set_p_pagetable 0 (set_p_trapframe 0 q))))))))).

(** What freeproc leaves in a slot, and allocproc relies on. *)
Definition blank (q : proc) : Prop :=
  p_state q = UNUSED -> p_pagetable q = 0 /\ p_trapframe q = 0 /\ p_sz q = 0 /\ p_ofile q = replicate NOFILE None.

Section Alloc.
Context `{L : KernelLayout} `{LOK : !LayoutOk}.

Lemma upd_proc_twice i f g s : upd_proc i f (upd_proc i g s) = upd_proc i (f ∘ g) s.
Proof. unfold upd_proc. kst_eq. by rewrite list_alter_alter_eq. Qed.

Lemma proc_at_upd i f s : (i < length (k_procs s))%nat -> proc_at i (upd_proc i f s) = f (proc_at i s).
Proof. intros H. unfold proc_at, upd_proc. ksimpl. by apply list_lookup_total_alter_eq. Qed.

(** The fields freeproc resets after it has freed the memory. *)
Lemma clear_fields i s :
  (setp i (set_p_pagetable 0) ;!
   setp i (set_p_sz 0) ;!
   setp i (set_p_pid 0) ;!
   setp i (set_p_parent None) ;!
   setp i (fun p => set_p_name (<[0%nat := 0]> (p_name p)) p) ;!
   setp i (set_p_chan CH_null) ;!
   setp i (set_p_killed 0) ;!
   setp i (set_p_xstate 0) ;!
   setp i (set_p_state UNUSED)) (upd_proc i (set_p_trapframe 0) s) = Ok tt (upd_proc i clear_proc s).
Proof.
  unfold setp. do 8 kprim. unfold modify. rewrite !upd_proc_twice. f_equal. 
Qed.

(** The pages freeproc gives back: the trapframe and the address space. *)
Definition proc_pages (m : memory) (tf pt q : Z) : Prop := tf <> 0 /\ q = tf \/ pt <> 0 /\ owned m pt q.

Lemma freeproc_tf i s free :
  let tf := p_trapframe (proc_at i s) in let pt := p_pagetable (proc_at i s) in
  kmem_ok s free -> kmem_callable s -> settle s = s ->
  (tf = 0 /\ pt = 0 \/ page tf /\ tf ∉ free) -> (pt = 0 \/ tf <> 0 /\ uvm_ok (k_mem s) pt free /\ ~ owned (k_mem s) pt tf) ->
  exists m1 f1 free1, let s1 := set_k_mem m1 (set_k_freelist f1 s) in
    when (truth tf) (kfree tf) s = Ok tt s1 /\ kmem_ok s1 free1 /\
    (forall q, q ∈ free1 <-> tf <> 0 /\ q = tf \/ q ∈ free) /\ (forall a, ~ (tf <> 0 /\ in_page tf a) -> mget m1 a = mget (k_mem s) a) /\
    (pt <> 0 -> uvm_ok m1 pt free1 /\ (forall x, va_ok x -> pte_of m1 pt x = pte_of (k_mem s) pt x) /\ forall q, owned m1 pt q <-> owned (k_mem s) pt q).
Proof.
  intros tf pt K C St Htf Hpt. unfold truth. destruct (Z.eqb_spec tf 0) as [Z0|N0]; cbn [negb when].
  - exists (k_mem s), (k_freelist s), free. cbn zeta. assert (Es : set_k_mem (k_mem s) (set_k_freelist (k_freelist s) s) = s) by by destruct s. rewrite Es.
    split; [reflexivity|]. split; [exact K|]. split; [clear - Z0; tauto|]. split; [intros a _; reflexivity|]. intros Np. exfalso.
    destruct Hpt as [Z1|[Nt _]]; [exact (Np Z1)|exact (Nt Z0)].
  - destruct Htf as [[Z0 _]|[Ptf Nf]]; [destruct (N0 Z0)|]. destruct (kfree_frees tf free s Ptf Nf K C) as [E F].
    exists (k_mem (freed tf s)), tf, (tf :: free). cbn zeta. assert (Es : freed tf s = set_k_mem (k_mem (freed tf s)) (set_k_freelist tf s)).
    { unfold freed. rewrite St. reflexivity. } rewrite <- Es. split; [exact E|]. split; [apply F|]. split; [intros q; rewrite elem_of_cons; clear - N0; tauto|]. split.
    + intros a Na. refine (fr_frame _ _ _ _ _ F a _). intros (q & Hq & I). apply list_elem_of_singleton in Hq. subst q. exact (Na (conj N0 I)).
    + intros Np. destruct Hpt as [Z1|(_ & U & No)]; [destruct (Np Z1)|].
      destruct (freed_ok s pt free tf K C U Ptf Nf No) as (_ & _ & _ & U' & Q & O & _). split; [exact U'|]. split; [exact Q|exact O].
Qed.

(** The memory of an address space is the pages below [sz], under a trampoline and a trapframe. *)
Record fills (m : memory) (root tf sz : Z) : Prop := {
  fl_size : 0 <= sz <= TRAPFRAME;
  fl_valid x : uva x -> valid m root x = bool_decide (x < PGROUNDUP sz);
  fl_tops : tops m root tf }.

Lemma fills_ext m m' root tf sz : (forall x, va_ok x -> pte_of m' root x = pte_of m root x) -> fills m root tf sz -> fills m' root tf sz.
Proof.
  intros Q [H1 H2 [H3 H4]]. destruct (top_facts TRAMPOLINE (or_introl eq_refl)) as (Va & _). destruct (top_facts TRAPFRAME (or_intror eq_refl)) as (Vb & _).
  split; [exact H1| |split; [exact (eq_trans (Q _ Va) H3)|exact (eq_trans (Q _ Vb) H4)]].
  intros x Hx. rewrite <- H2 by exact Hx. unfold valid. by rewrite Q by exact (uva_va_ok x Hx).
Qed.

Lemma fills_valid m root tf sz x : fills m root tf sz -> 0 <= x < PGROUNDUP sz -> valid m root x = true.
Proof.
  intros [H1 H2 _] Hx. rewrite H2; [apply bool_decide_eq_true_2, Hx|]. split; [apply Hx|]. eapply Z.lt_le_trans; [apply Hx|exact (PGROUNDUP_bound sz H1)].
Qed.

Lemma fills_invalid m root tf sz x : fills m root tf sz -> uva x -> PGROUNDUP sz <= x -> valid m root x = false.
Proof. intros [H1 H2 _] Hx Hz. rewrite H2 by exact Hx. apply bool_decide_eq_false_2. by apply Z.le_ngt. Qed.

Lemma uvm_root m root free : uvm_ok m root free -> root <> 0.
Proof. intros U. destruct (pt_root _ _ _ (uo_pt _ _ _ U)) as [P _]. apply page_pa_ok in P as [_ P]. by intros ->. Qed.

Lemma freeproc_pt i s free tf :
  let pt := p_pagetable (proc_at i s) in let sz := p_sz (proc_at i s) in
  kmem_ok s free -> kmem_callable s -> settle s = s ->
  (pt = 0 \/ page tf /\ uvm_ok (k_mem s) pt free /\ fills (k_mem s) pt tf sz) ->
  exists m f free', let s' := set_k_mem m (set_k_freelist f s) in
    when (truth pt) (let! sz := getp p_sz i in proc_freepagetable pt sz) s = Ok tt s' /\ kmem_ok s' free' /\
    (forall q, q ∈ free' <-> (pt <> 0 /\ owned (k_mem s) pt q) \/ q ∈ free) /\
    forall a, ~ within (fun q => (pt <> 0 /\ owned (k_mem s) pt q) \/ q ∈ free) a -> mget m a = mget (k_mem s) a.
Proof.
  intros pt sz K C St Hpt. unfold truth. destruct (Z.eqb_spec pt 0) as [Z0|N0]; cbn [negb when].
  - exists (k_mem s), (k_freelist s), free. cbn zeta. assert (Es : set_k_mem (k_mem s) (set_k_freelist (k_freelist s) s) = s) by by destruct s. rewrite Es.
    split; [reflexivity|]. split; [exact K|]. split; [clear - Z0; tauto|intros a _; reflexivity].
  - destruct Hpt as [Z0|(Ptf & U & Fl)]; [destruct (N0 Z0)|]. unfold getp. kprim. fold sz.
    destruct (proc_freepagetable_ok s pt free tf sz K C U (fl_size _ _ _ _ Fl) (proj1 (page_pa_ok _ Ptf)) (fl_tops _ _ _ _ Fl)
      (fun x => fills_valid _ _ _ _ x Fl) (fun x => fills_invalid _ _ _ _ x Fl)) as (s' & free' & E & (m & f & Es) & K' & W & F).
    exists m, f, free'. cbn zeta. rewrite St in Es. assert (Es' : s' = set_k_mem m (set_k_freelist f s)) by (destruct Es as [Es|Es]; exact Es). rewrite <- Es'.
    split; [exact E|]. split; [exact K'|]. split; [intros q; rewrite (W q); clear - N0; tauto|]. intros a Na.
    assert (Em : m = k_mem s') by (rewrite Es'; reflexivity). rewrite Em. apply F. intros (q & Hq & I). apply Na. exists q. split; [|exact I]. clear - N0 Hq. tauto.
Qed.

Lemma freeproc_ok i s free :
  let tf := p_trapframe (proc_at i s) in let pt := p_pagetable (proc_at i s) in
  kmem_ok s free -> kmem_callable s -> settle s = s -> (i < length (k_procs s))%nat ->
  (tf = 0 /\ pt = 0 \/ page tf /\ tf ∉ free) ->
  (pt = 0 \/ tf <> 0 /\ uvm_ok (k_mem s) pt free /\ ~ owned (k_mem s) pt tf /\ fills (k_mem s) pt tf (p_sz (proc_at i s))) ->
  exists m f free', let s' := with_mem (alter clear_proc i (k_procs s)) m f (k_nextpid s) s in
    freeproc i s = Ok tt s' /\ kmem_ok s' free' /\ (forall q, q ∈ free' <-> proc_pages (k_mem s) tf pt q \/ q ∈ free) /\
    forall a, ~ within (fun q => proc_pages (k_mem s) tf pt q \/ q ∈ free) a -> mget m a = mget (k_mem s) a.
Proof.
  intros tf pt K C St Hi Htf Hpt.
  destruct (freeproc_tf i s free K C St Htf) as (m1 & f1 & free1 & E1 & K1 & W1 & F1 & Y1).
  { destruct Hpt as [Z0|(N0 & U & No & _)]; [left; exact Z0|right; split; [exact N0|split; [exact U|exact No]]]. }
  unfold freeproc, getp at 1. kprim. fold tf. erewrite bind_ok; [|exact E1]. set (s1 := set_k_mem m1 (set_k_freelist f1 s)) in *. unfold setp at 1. kprim. unfold getp at 1. kprim.
  set (s2 := upd_proc i (set_p_trapframe 0) s1). assert (Ep : p_pagetable (proc_at i s2) = pt) by (unfold s2; rewrite proc_at_upd by exact Hi; reflexivity).
  assert (Ez : p_sz (proc_at i s2) = p_sz (proc_at i s)) by (unfold s2; rewrite proc_at_upd by exact Hi; reflexivity).
  assert (S2 : settle s2 = s2) by (apply (settled_cpus s); [reflexivity..|exact St]).
  destruct (freeproc_pt i s2 free1 tf) as (m & f & free' & E2 & K2 & W2 & F2); [exact K1|exact C|exact S2|..].
  { rewrite Ep, Ez. destruct Hpt as [Z0|(N0 & U & No & Fl)]; [left; exact Z0|right]. destruct Htf as [[Z0 _]|[Ptf _]]; [destruct (N0 Z0)|].
    destruct (Y1 (uvm_root _ _ _ U)) as (U1 & Q1 & _). split; [exact Ptf|]. split; [exact U1|]. exact (fills_ext _ _ _ _ _ Q1 Fl). }
  rewrite Ep in *. erewrite bind_ok; [|exact E2]. exists m, f, free'. cbn zeta.
  assert (W : forall q, (pt <> 0 /\ owned (k_mem s2) pt q) \/ q ∈ free1 <-> proc_pages (k_mem s) tf pt q \/ q ∈ free).
  { intros q. rewrite (W1 q). unfold proc_pages. destruct (decide (pt = 0)) as [Z0|N0]; [clear - Z0; tauto|].
    destruct (Y1 N0) as (_ & _ & O1). change (k_mem s2) with m1. specialize (O1 q). fold pt in O1. clear - O1. tauto. }
  split; [exact (clear_fields i (set_k_mem m (set_k_freelist f s)))|]. split; [exact K2|]. split; [intros q; rewrite (W2 q); apply W|].
  intros a Na. refine (eq_trans (F2 a _) (F1 a _)).
  - intros (q & Hq & I). apply Na. exists q. split; [by apply W|exact I].
  - intros (N0 & I). apply Na. exists tf. split; [left; left; by split|exact I].
Qed.

(** allocproc from the first kalloc on. *)
Definition alloc_pages (i : nat) : M (option nat) :=
  let! tf := kalloc in setp i (set_p_trapframe tf) ;!
  if tf =? 0 then freeproc i ;! release (L_proc i) ;! ret None else
  let! pt := proc_pagetable i in setp i (set_p_pagetable pt) ;!
  if pt =? 0 then freeproc i ;! release (L_proc i) ;! ret None else
  let! kstack := getp p_kstack i in
  setp i (set_p_context (mkcontext ra_forkret (kstack + PGSIZE))) ;! ret (Some i).

Lemma allocproc_split : allocproc =
  let! o := find_unused (seq 0 NPROC) in
  match o with
  | None => ret None
  | Some i => let! pid := allocpid in setp i (set_p_pid pid) ;! setp i (set_p_state USED) ;! alloc_pages i
  end.
Proof. reflexivity. Qed.

(** ** Inside the critical section of a new process *)

Section Slot.
Variables (p i : nat).
Hypothesis Hi : (i < NPROC)%nat.
Hypothesis Ni : i <> p.

(** [t] after work on slot [i] and in memory. *)
Definition slot (f : proc -> proc) (m : memory) (fl : Z) (t : kstate) : kstate := with_mem (alter f i (k_procs t)) m fl (k_nextpid t) t.

Lemma calm_slot f m fl t : calm p t -> calm p (slot f m fl t).
Proof.
  intros C. apply calm_with_mem; [done|rewrite length_alter; apply C|]. rewrite list_lookup_total_alter_ne by done. apply C.
Qed.

Lemma upd_slot f t : upd_proc i f t = slot f (k_mem t) (k_freelist t) t.
Proof. by destruct t. Qed.

Lemma slot_slot f g m m' fl fl' t : slot g m' fl' (slot f m fl t) = slot (g ∘ f) m' fl' t.
Proof. unfold slot. by rewrite <- list_alter_alter_eq. Qed.

Lemma setp_slot g f m fl t : setp i g (acq_st (L_proc i) (slot f m fl t)) = Ok tt (acq_st (L_proc i) (slot (g ∘ f) m fl t)).
Proof. unfold slot. by rewrite <- list_alter_alter_eq. Qed.

Lemma proc_slot f m fl t : calm p t -> proc_at i (slot f m fl t) = f (proc_at i t).
Proof. intros C. apply list_lookup_total_alter_eq. by rewrite (ca_tab _ _ C). Qed.

Lemma slot_ext f g m fl t : f (proc_at i t) = g (proc_at i t) -> slot f m fl t = slot g m fl t.
Proof.
  intros E. unfold slot. f_equal. apply list_alter_ext; [|done]. intros q Hq. apply list_lookup_total_correct in Hq. by subst q.
Qed.

Lemma allocpid_crit t :
  calm p t -> allocpid (acq_st (L_proc i) t) = Ok (k_nextpid t) (acq_st (L_proc i) (set_k_nextpid (i32 (k_nextpid t + 1)) t)).
Proof.
  intros C. unfold allocpid. erewrite bind_ok; [|by apply (acquire_nested p)]. kprim. kprim.
  set (t1 := set_k_nextpid (i32 (k_nextpid t + 1)) t). assert (C1 : calm p t1) by by apply (calm_ext p t).
  erewrite bind_ok; [|by apply (release_nested p t1)]. reflexivity.
Qed.

(** What allocproc and fork do when they give up. *)
Lemma undo_alloc {A} (x : A) t free :
  let tf := p_trapframe (proc_at i t) in let pt := p_pagetable (proc_at i t) in
  calm p t -> kmem_ok t free ->
  (tf = 0 /\ pt = 0 \/ page tf /\ tf ∉ free) ->
  (pt = 0 \/ tf <> 0 /\ uvm_ok (k_mem t) pt free /\ ~ owned (k_mem t) pt tf /\ fills (k_mem t) pt tf (p_sz (proc_at i t))) ->
  exists m f free', let t' := slot clear_proc m f t in
    (freeproc i ;! release (L_proc i) ;! ret x) (acq_st (L_proc i) t) = Ok x t' /\ kmem_ok t' free' /\
    (forall q, q ∈ free' <-> proc_pages (k_mem t) tf pt q \/ q ∈ free) /\
    forall a, ~ within (fun q => proc_pages (k_mem t) tf pt q \/ q ∈ free) a -> mget m a = mget (k_mem t) a.
Proof.
  intros tf pt C K Htf Hpt.
  destruct (freeproc_ok i (acq_st (L_proc i) t) free K (acq_callable p t (L_proc i) C ltac:(done)) (acq_settled p t _ C)) as (m & f & free' & E & K' & W & Fr); [|exact Htf|exact Hpt|].
  { change (i < length (k_procs t))%nat. by rewrite (ca_tab _ _ C). }
  exists m, f, free'. cbn zeta. split; [|split; [exact K'|split; [exact W|exact Fr]]]. erewrite bind_ok; [|exact E].
  change (k_procs (acq_st (L_proc i) t)) with (k_procs t). change (k_nextpid (acq_st (L_proc i) t)) with (k_nextpid t). rewrite <- with_mem_acq.
  erewrite bind_ok; [|apply (release_crit p); [by apply calm_slot|exact Hi]]. reflexivity.
Qed.

(** The state of a slot while its pages are allocated. *)
Definition used (pid tf : Z) (q : proc) : proc := set_p_trapframe tf (set_p_state USED (set_p_pid pid q)).

Lemma clear_used pid tf q : clear_proc (used pid tf q) = clear_proc q.
Proof. by destruct q. Qed.

(** A process was made, or nothing. *)
Definition proc_made (t : kstate) (free : list Z) (pid : Z) (r : res (option nat)) (m : memory) (f : Z) (free' : list Z) : Prop :=
  exists tf pt, let t' := slot (new_proc pid tf pt) m f t in
    r = Ok (Some i) (acq_st (L_proc i) t') /\ kmem_ok t' free' /\ page tf /\ tf ∉ free' /\ ~ owned m pt tf /\ uvm_ok m pt free' /\ fills m pt tf 0 /\
    (forall q, proc_pages m tf pt q \/ q ∈ free' <-> q ∈ free) /\ (length free <= length free' + 6)%nat.

Definition none_made (t : kstate) (free : list Z) (r : res (option nat)) (m : memory) (f : Z) (free' : list Z) : Prop :=
  let t' := slot clear_proc m f t in
  r = Ok None t' /\ kmem_ok t' free' /\ (forall q, q ∈ free' <-> q ∈ free) /\ (length free < 6)%nat.

Lemma alloc_no_page t pid :
  calm p t -> kmem_ok t [] -> blank (proc_at i t) -> p_state (proc_at i t) = UNUSED ->
  exists m f free', (forall a, mget m a = mget (k_mem t) a) /\
    none_made t [] (alloc_pages i (acq_st (L_proc i) (slot (set_p_state USED ∘ set_p_pid pid) (k_mem t) (k_freelist t) t))) m f free'.
Proof.
  intros C K B Hu. destruct (B Hu) as (B1 & B2 & B3 & _). unfold alloc_pages.
  erewrite bind_ok; [|rewrite kalloc_none; [|exact K|..]; cycle 1]; [|apply (acq_callable p); [by apply calm_slot|done]..|rewrite (acq_settled p) by (by apply calm_slot); reflexivity].
  cbn [Z.eqb]. erewrite bind_ok; [|apply setp_slot]. set (f1 := set_p_trapframe 0 ∘ (set_p_state USED ∘ set_p_pid pid)).
  destruct (undo_alloc (@None nat) (slot f1 (k_mem t) (k_freelist t) t) []) as (m & f & free' & E & K' & W & Fr).
  - by apply calm_slot.
  - exact K.
  - left. rewrite proc_slot by done. by split.
  - left. by rewrite proc_slot.
  - rewrite proc_slot in W, Fr by done. exists m, f, free'. rewrite slot_slot in E, K'. rewrite (slot_ext (clear_proc ∘ f1) clear_proc) in E, K' by apply clear_used.
    change (p_pagetable (f1 (proc_at i t))) with (p_pagetable (proc_at i t)) in W, Fr. rewrite B1 in W, Fr. change (p_trapframe (f1 (proc_at i t))) with 0 in W, Fr.
    assert (N : forall q, ~ (proc_pages (k_mem t) 0 0 q \/ q ∈ [])) by (intros q [[[? _]|[? _]]|Hq]; [done|done|by apply not_elem_of_nil in Hq]).
    split; [intros a; apply Fr; intros (q & Hq & _); exact (N q Hq)|]. split; [exact E|]. split; [exact K'|]. split; [|cbn; lia].
    intros q. rewrite (W q). split; [intros Hq; destruct (N q Hq)|intros Hq; by apply not_elem_of_nil in Hq].
Qed.

Lemma kalloc_slot f t q free :
  calm p t -> kmem_ok t (q :: free) ->
  exists m fl, kalloc (acq_st (L_proc i) (slot f (k_mem t) (k_freelist t) t)) = Ok q (acq_st (L_proc i) (slot f m fl t)) /\
    kmem_ok (slot f m fl t) free /\ (forall a, ~ in_page q a -> mget m a = mget (k_mem t) a).
Proof.
  intros C K. set (t1 := slot f (k_mem t) (k_freelist t) t). assert (C1 : calm p t1) by by apply calm_slot.
  exact (kalloc_settled (acq_st (L_proc i) t1) q free K (acq_callable p t1 (L_proc i) C1 ltac:(done)) (acq_settled p t1 _ C1)).
Qed.

(** The result of allocation inside the critical section. *)
Lemma mem_only_slot f m fl t s' :
  calm p t -> mem_only (acq_st (L_proc i) (slot f m fl t)) s' -> s' = acq_st (L_proc i) (slot f (k_mem s') (k_freelist s') t).
Proof. intros C H. exact (mem_only_acq p (slot f m fl t) _ (calm_slot _ _ _ _ C) s' H). Qed.

Lemma page_end q : page q -> q + 4096 <= 2 ^ 56.
Proof. intros [_ [_ H]]. change PHYSTOP with 2281701376 in H. lia. Qed.

Lemma fills_new m pt tf : (forall x, va_ok x -> pte_of m pt x = top_pte tf x) -> fills m pt tf 0.
Proof.
  intros Q. destruct (top_facts TRAMPOLINE (or_introl eq_refl)) as (Va & _ & Ua & _). destruct (top_facts TRAPFRAME (or_intror eq_refl)) as (Vb & _ & Ub & _).
  split; [split; [done|by vm_compute]| |split; rewrite Q by done; unfold top_pte].
  - intros x Hx. unfold valid. rewrite Q by exact (uva_va_ok x Hx). unfold top_pte. rewrite !decide_False by (by apply Ua || by apply Ub).
    change (PGROUNDUP 0) with 0. destruct Hx as [Hx _]. symmetry. apply bool_decide_eq_false_2. by apply Z.le_ngt.
  - by rewrite decide_True.
  - rewrite decide_False by (vm_compute; discriminate). by rewrite decide_True.
Qed.

Lemma alloc_page_ok t tf free pid :
  calm p t -> kmem_ok t (tf :: free) -> blank (proc_at i t) -> p_state (proc_at i t) = UNUSED ->
  exists m f free', (forall a, ~ within (.∈ tf :: free) a -> mget m a = mget (k_mem t) a) /\
    let r := alloc_pages i (acq_st (L_proc i) (slot (set_p_state USED ∘ set_p_pid pid) (k_mem t) (k_freelist t) t)) in
    proc_made t (tf :: free) pid r m f free' \/ none_made t (tf :: free) r m f free'.
Proof.
  intros C K B Hu. destruct (B Hu) as (B1 & _). unfold alloc_pages. pose proof K as (_ & ND & Pg). inversion_clear ND as [|? ? Np _]. inversion_clear Pg as [|? ? Pp _].
  destruct (kalloc_slot (set_p_state USED ∘ set_p_pid pid) t tf free C K) as (m1 & fl1 & E1 & K1 & M1).
  erewrite bind_ok; [|exact E1]. erewrite bind_ok; [|apply setp_slot]. set (f2 := set_p_trapframe tf ∘ (set_p_state USED ∘ set_p_pid pid)).
  set (t2 := slot f2 m1 fl1 t). assert (C2 : calm p t2) by by apply calm_slot. assert (P2 : proc_at i t2 = f2 (proc_at i t)) by by apply proc_slot.
  destruct (page_pa_ok _ Pp) as [Pa Pz]. rewrite (proj2 (Z.eqb_neq tf 0)) by lia.
  destruct (proc_pagetable_ok i (acq_st (L_proc i) t2) free K1 (acq_callable p t2 (L_proc i) C2 ltac:(done))) as (pt & s3 & free' & E3 & H3).
  { change (proc_at i (acq_st (L_proc i) t2)) with (proc_at i t2). rewrite P2. exact Pa. }
  { change (proc_at i (acq_st (L_proc i) t2)) with (proc_at i t2). rewrite P2. exact (page_end tf Pp). }
  change (proc_at i (acq_st (L_proc i) t2)) with (proc_at i t2) in H3. rewrite P2 in H3. change (p_trapframe (f2 (proc_at i t))) with tf in H3.
  assert (Es : mem_only (acq_st (L_proc i) t2) s3) by (destruct H3 as [(_ & H3 & _)|(_ & H3 & _)]; apply H3).
  apply mem_only_slot in Es; [|exact C]. set (m3 := k_mem s3) in *. set (fl3 := k_freelist s3) in *. rewrite Es in E3. erewrite bind_ok; [|exact E3]. erewrite bind_ok; [|apply setp_slot].
  assert (M : forall a, ~ within (.∈ tf :: free) a -> mget m3 a = mget (k_mem t) a).
  { intros a Na. rewrite <- M1; [|intros I; apply Na; exists tf; split; [apply list_elem_of_here|exact I]].
    assert (Nf : ~ within (.∈ free) a) by (intros (q & Hq & I); apply Na; exists q; split; [by apply list_elem_of_further|exact I]).
    destruct H3 as [(_ & PS & _)|(_ & PS & _)]; exact (ps_frame _ _ _ _ _ PS a Nf). }
  destruct H3 as [(Npt & PS & U & Q & Len)|(Zpt & PS & Len)].
  - exists m3, fl3, free'. split; [exact M|]. left. exists tf, pt. rewrite (proj2 (Z.eqb_neq pt 0) Npt). unfold getp. kprim.
    change (proc_at i (acq_st (L_proc i) (slot (set_p_pagetable pt ∘ f2) m3 fl3 t))) with (proc_at i (slot (set_p_pagetable pt ∘ f2) m3 fl3 t)).
    rewrite proc_slot by exact C. erewrite bind_ok; [|apply setp_slot]. pose proof (ps_own _ _ _ _ _ PS) as W. fold m3 in W. cbn zeta.
    split; [unfold ret; do 2 f_equal; apply slot_ext; reflexivity|]. assert (K' := ps_kmem _ _ _ _ _ PS). rewrite Es in K'. split; [exact K'|].
    split; [exact Pp|]. split; [intros Hq; apply Np, W; by right|]. split; [intros Hq; apply Np, W; by left|]. split; [exact U|]. split; [by apply fills_new|].
    split; [|cbn [length]; lia]. intros q. rewrite elem_of_cons, <- (W q). unfold proc_pages. clear - Npt Pz. assert (tf <> 0) by lia. tauto.
  - rewrite Zpt. cbn [Z.eqb]. pose proof (ps_own _ _ _ _ _ PS) as W. set (f4 := set_p_pagetable 0 ∘ f2). assert (K' := ps_kmem _ _ _ _ _ PS). rewrite Es in K'.
    destruct (undo_alloc (@None nat) (slot f4 m3 fl3 t) free') as (m & f & free'' & E & K4 & W4 & Fr).
    + by apply calm_slot.
    + exact K'.
    + right. rewrite proc_slot by done. split; [exact Pp|]. intros Hq. apply Np, W. by right.
    + left. by rewrite proc_slot.
    + rewrite proc_slot in W4, Fr by done. change (p_pagetable (f4 (proc_at i t))) with 0 in W4, Fr. change (p_trapframe (f4 (proc_at i t))) with tf in W4, Fr.
      rewrite slot_slot in E, K4. rewrite (slot_ext (clear_proc ∘ f4) clear_proc) in E, K4 by (by destruct (proc_at i t)).
      assert (W' : forall q, proc_pages (k_mem (slot f4 m3 fl3 t)) tf 0 q \/ q ∈ free' <-> q ∈ tf :: free).
      { intros q. rewrite elem_of_cons, <- (W q). unfold proc_pages. clear - Pz. assert (tf <> 0) by lia. tauto. }
      exists m, f, free''. split; [|right; split; [exact E|split; [exact K4|split; [|cbn [length]; lia]]]].
      * intros a Na. refine (eq_trans (Fr a _) (M a Na)). intros (q & Hq & I). apply Na. exists q. split; [by apply W'|exact I].
      * intros q. rewrite (W4 q). apply W'.
Qed.
End Slot.

Lemma first_unused_spec t i : first_unused t = Some i -> (i < NPROC)%nat /\ p_state (proc_at i t) = UNUSED.
Proof.
  intros E. apply List.find_some in E as [Hi Hu]. apply List.in_seq in Hi. apply bool_decide_eq_true_1 in Hu. split; [apply Hi|exact Hu].
Qed.

Lemma allocproc_ok p t free :
  calm p t -> kmem_ok t free -> (forall j, (j < NPROC)%nat -> blank (proc_at j t)) ->
  match first_unused t with
  | None => allocproc t = Ok None t
  | Some i => exists m f free', let t1 := set_k_nextpid (i32 (k_nextpid t + 1)) t in
      (forall a, ~ within (.∈ free) a -> mget m a = mget (k_mem t) a) /\
      (proc_made i t1 free (k_nextpid t) (allocproc t) m f free' \/ none_made i t1 free (allocproc t) m f free')
  end.
Proof.
  intros C K B.
  assert (E : find_unused (seq 0 NPROC) t = match first_unused t with Some i => Ok (Some i) (acq_st (L_proc i) t) | None => Ok None t end).
  { apply find_unused_eq; [apply C|apply C|]. intros j Hj. apply (ca_locks _ _ C). apply elem_of_seq in Hj. apply Hj. }
  destruct (first_unused t) as [i|] eqn:Eu; [|rewrite allocproc_split; by erewrite bind_ok; [|exact E]].
  destruct (first_unused_spec t i Eu) as [Hi Hu]. assert (Ni : i <> p) by (intros ->; rewrite (ca_state _ _ C) in Hu; discriminate Hu).
  set (t1 := set_k_nextpid (i32 (k_nextpid t + 1)) t). assert (C1 : calm p t1) by by apply (calm_ext p t).
  assert (E2 : upd_proc i (set_p_state USED) (upd_proc i (set_p_pid (k_nextpid t)) (acq_st (L_proc i) t1)) =
               acq_st (L_proc i) (slot i (set_p_state USED ∘ set_p_pid (k_nextpid t)) (k_mem t1) (k_freelist t1) t1)).
  { rewrite <- upd_slot, <- upd_proc_twice. reflexivity. }
  assert (E3 : allocproc t = alloc_pages i (acq_st (L_proc i) (slot i (set_p_state USED ∘ set_p_pid (k_nextpid t)) (k_mem t1) (k_freelist t1) t1))).
  { rewrite allocproc_split. erewrite bind_ok; [|exact E]. cbv iota beta. erewrite bind_ok; [|by apply (allocpid_crit p)]. fold t1. unfold setp at 1. kprim. unfold setp at 1. kprim. exact (f_equal (alloc_pages i) E2). }
  rewrite E3. destruct free as [|q free].
  - destruct (alloc_no_page p i Hi Ni t1 (k_nextpid t)) as (m & f & free' & M & R); [done|exact K|by apply B|exact Hu|].
    exists m, f, free'. split; [intros a _; apply M|right; exact R].
  - exact (alloc_page_ok p i Hi Ni t1 q free (k_nextpid t) C1 K (B i Hi) Hu).
Qed.
End Alloc.
