(* ===== verification/Fork.v ===== *)
(** * fork (kernel/proc.c)

    fork either makes a child that runs like its parent, in memory of its own, or returns -1
    with every page back on the free list. *)

From S2P Require Import Prelude Memory Riscv State Kmonad Spinlock CString Kalloc Vm PageTable.
From S2P Require Import UserMem Uvm AddressSpace Freewalk Proc ProcPages ProcSpec CoYield Sched Sleeplock Calm.
From S2P Require Import Bytes Bio Log Fs File Trap ProcFs BioSpec Sbrk ProcAlloc.
From Stdlib Require Import ZArith Lia.
From stdpp Require Import base numbers gmap strings option list.

#[local] Open Scope Z_scope.
#[local] Open Scope kernel_scope.

(** ** Open files and the current directory *)

(** The reference counts after filedup of the open files among [fds] of [ofs]. *)
Definition dup_ref (ofs : list (option nat)) (ft : list file) (fd : nat) : list file :=
  match ofs !!! fd with Some f => alter (fun q => set_f_ref (f_ref q + 1) q) f ft | None => ft end.
Definition dup_open (ofs : list (option nat)) (l : list (option nat)) (fd : nat) : list (option nat) :=
  match ofs !!! fd with Some f => <[fd := Some f]> l | None => l end.

Definition dup_refs (ofs : list (option nat)) (fds : list nat) (ft : list file) : list file := foldl (dup_ref ofs) ft fds.
Definition dup_opens (ofs : list (option nat)) (fds : list nat) (q : proc) : proc := set_p_ofile (foldl (dup_open ofs) (p_ofile q) fds) q.

(** The descriptors that refer to file [f]. *)
Definition fds_of (ofs : list (option nat)) (f : nat) (fds : list nat) : list nat := filter (fun fd => ofs !!! fd = Some f) fds.

Lemma dup_refs_count ofs fds ft f :
  (f < length ft)%nat -> f_ref (dup_refs ofs fds ft !!! f) = f_ref (ft !!! f) + Z.of_nat (length (fds_of ofs f fds)).
Proof.
  unfold dup_refs, fds_of. revert ft. induction fds as [|fd fds IH]; intros ft Hf; [cbn; lia|]. cbn [foldl]. rewrite filter_cons.
  rewrite IH; unfold dup_ref; [|by destruct (ofs !!! fd); rewrite ?length_alter].
  destruct (ofs !!! fd) as [g|]; [|by rewrite decide_False]. destruct (decide (g = f)) as [->|N].
  - rewrite decide_True by done. rewrite list_lookup_total_alter_eq by done. cbn [length f_ref set_f_ref]. lia.
  - rewrite decide_False by congruence. by rewrite list_lookup_total_alter_ne.
Qed.

Lemma dup_refs_length ofs fds ft : length (dup_refs ofs fds ft) = length ft.
Proof.
  unfold dup_refs. revert ft. induction fds as [|fd fds IH]; intros ft; [done|]. cbn [foldl]. rewrite IH. unfold dup_ref. destruct (ofs !!! fd); [apply length_alter|done].
Qed.

Lemma dup_open_take ofs n k :
  length ofs = n -> (k <= n)%nat -> foldl (dup_open ofs) (replicate n None) (seq 0 k) = take k ofs ++ replicate (n - k) None.
Proof.
  intros Hn. induction k as [|k IH]; intros Hk; [cbn; by rewrite Nat.sub_0_r|]. rewrite seq_S, foldl_app, IH by lia. cbn [foldl Nat.add].
  destruct (lookup_lt_is_Some_2 ofs k ltac:(lia)) as [o Ho]. rewrite (take_S_r _ _ _ Ho). unfold dup_open. rewrite (list_lookup_total_correct _ _ _ Ho).
  assert (Er : replicate (n - k) (@None nat) = None :: replicate (n - S k) None) by (replace (n - k)%nat with (S (n - S k)) by lia; done).
  rewrite Er. destruct o as [f|]; rewrite <- app_assoc; [|done]. rewrite insert_app_r_alt by (rewrite length_take; lia).
  rewrite length_take. replace (k - k `min` length ofs)%nat with 0%nat by lia. done.
Qed.

Lemma dup_open_all ofs : length ofs = NOFILE -> foldl (dup_open ofs) (replicate NOFILE None) (seq 0 NOFILE) = ofs.
Proof. intros H. rewrite dup_open_take by done. rewrite take_ge by lia. by rewrite Nat.sub_diag, app_nil_r. Qed.

Lemma dup_open_cons ofs fd fds l :
  foldl (dup_open ofs) l (fd :: fds) = foldl (dup_open ofs) (match ofs !!! fd with Some f => <[fd := Some f]> l | None => l end) fds.
Proof. reflexivity. Qed.

Lemma dup_refs_cons ofs fd fds ft :
  dup_refs ofs (fd :: fds) ft = dup_refs ofs fds (match ofs !!! fd with Some f => alter (fun q => set_f_ref (f_ref q + 1) q) f ft | None => ft end).
Proof. reflexivity. Qed.

Section Files.
Context `{L : KernelLayout} `{F : Fuel} `{D : DiskDriver}.
Variables (p i : nat).
Hypothesis Hi : (i < NPROC)%nat.
Hypothesis Ni : i <> p.

Lemma calm_upd_file f g t : calm p t -> calm p (upd_file f g t).
Proof. intros C. by apply (calm_ext p t). Qed.

Lemma filedup_crit f t :
  calm p t -> 1 <= f_ref (file_at f t) ->
  filedup f (acq_st (L_proc i) t) = Ok f (acq_st (L_proc i) (upd_file f (fun q => set_f_ref (f_ref q + 1) q) t)).
Proof.
  intros C Hr. unfold filedup. erewrite bind_ok; [|by apply (acquire_nested p)]. kprim.
  change (file_at f (acq_st L_ftable (acq_st (L_proc i) t))) with (file_at f t). destruct (Z.ltb_spec (f_ref (file_at f t)) 1); [lia|]. unfold setf. kprim.
  set (t1 := upd_file f (set_f_ref (f_ref (file_at f t) + 1)) t). assert (E1 : t1 = upd_file f (fun q => set_f_ref (f_ref q + 1) q) t).
  { unfold t1, upd_file. f_equal. apply list_alter_ext; [|done]. intros q Hq. apply list_lookup_total_correct in Hq. unfold file_at. by rewrite Hq. }
  rewrite <- E1. assert (C1 : calm p t1) by by apply calm_upd_file. erewrite bind_ok; [|by apply (release_nested p t1)]. reflexivity.
Qed.

Lemma idup_crit ip t :
  calm p t -> idup ip (acq_st (L_proc i) t) = Ok ip (acq_st (L_proc i) (upd_inode ip (fun q => set_i_ref (i_ref q + 1) q) t)).
Proof.
  intros C. unfold idup. erewrite bind_ok; [|by apply (acquire_nested p)]. unfold seti. kprim.
  set (t1 := upd_inode ip (fun q => set_i_ref (i_ref q + 1) q) t). assert (C1 : calm p t1) by by apply (calm_ext p t).
  erewrite bind_ok; [|by apply (release_nested p t1)]. reflexivity.
Qed.

Lemma calm_upd g t : calm p t -> calm p (upd_proc i g t).
Proof. intros C. rewrite upd_slot. by apply (calm_slot p i Ni). Qed.

Lemma upd_proc_ext f g t : (forall q, f q = g q) -> upd_proc i f t = upd_proc i g t.
Proof. intros E. unfold upd_proc. f_equal. apply list_alter_ext; [|done]. intros q _. apply E. Qed.

Lemma dup_files_crit fds t :
  let ofs := p_ofile (proc_at p t) in
  calm p t -> (forall fd f, ofs !!! fd = Some f -> 1 <= f_ref (file_at f t)) ->
  foreach fds (fun fd =>
    let! o := getp (fun q => p_ofile q !!! fd) p in
    match o with
    | Some f => let! f := filedup f in setp i (fun q => set_p_ofile (<[fd := Some f]> (p_ofile q)) q)
    | None => ret tt
    end) (acq_st (L_proc i) t) =
  Ok tt (acq_st (L_proc i) (set_k_ftable (dup_refs ofs fds (k_ftable t)) (upd_proc i (dup_opens ofs fds) t))).
Proof.
  revert t. induction fds as [|fd fds IH]; intros t ofs C Hr.
  { cbn [foreach]. unfold ret. do 2 f_equal. apply kstate_ext; try reflexivity. ksimpl. symmetry. apply list_alter_id. by intros []. }
  cbn [foreach]. unfold getp at 1. destruct (ofs !!! fd) as [f|] eqn:Ef.
  - set (t1 := upd_file f (fun q => set_f_ref (f_ref q + 1) q) t). set (h := fun q => set_p_ofile (<[fd := Some f]> (p_ofile q)) q).
    assert (C1 : calm p t1) by by apply calm_upd_file. assert (P1 : proc_at p (upd_proc i h t1) = proc_at p t) by by apply list_lookup_total_alter_ne.
    erewrite bind_ok; [|erewrite bind_ok; [|reflexivity]; change (p_ofile (proc_at p (acq_st (L_proc i) t)) !!! fd) with (ofs !!! fd); rewrite Ef;
      erewrite bind_ok; [|apply filedup_crit; [exact C|by apply (Hr fd)]]; reflexivity].
    fold ofs. etransitivity; [apply (IH (upd_proc i h t1)); [by apply calm_upd|]|].
    + rewrite P1. intros fd' f' E'. specialize (Hr fd' f' E'). unfold file_at in *. cbn. destruct (decide (f = f')) as [->|N]; [|by rewrite list_lookup_total_alter_ne].
      destruct (decide (f' < length (k_ftable t))%nat) as [Hl|Hl]; [rewrite list_lookup_total_alter_eq by done; cbn; lia|].
      rewrite list_lookup_total_alt in Hr. rewrite lookup_ge_None_2 in Hr by lia. cbn in Hr. lia.
    + rewrite P1. fold ofs. rewrite upd_proc_twice. rewrite (upd_proc_ext (dup_opens ofs fds ∘ h) (dup_opens ofs (fd :: fds))) by (intros q; unfold dup_opens, compose; by rewrite dup_open_cons, Ef).
      rewrite dup_refs_cons, Ef. reflexivity.
  - erewrite bind_ok; [|erewrite bind_ok; [|reflexivity]; change (p_ofile (proc_at p (acq_st (L_proc i) t)) !!! fd) with (ofs !!! fd); rewrite Ef; reflexivity].
    etransitivity; [by apply IH|]. fold ofs. rewrite (upd_proc_ext (dup_opens ofs fds) (dup_opens ofs (fd :: fds))) by (intros q; unfold dup_opens; by rewrite dup_open_cons, Ef).
    by rewrite dup_refs_cons, Ef.
Qed.

(** ** The rest of fork, once the memory is copied *)

Definition fork_link (np : nat) : M Z :=
  let! cwd := getp p_cwd p in
  let! ip := the_inode cwd in
  let! ip := idup ip in
  setp np (set_p_cwd (Some ip)) ;!
  let! name := getp p_name p in
  setp np (set_name name) ;!
  let! pid := getp p_pid np in
  release (L_proc np) ;!
  acquire L_wait ;!
  setp np (set_p_parent (Some p)) ;!
  release L_wait ;!
  acquire (L_proc np) ;!
  setp np (set_p_state RUNNABLE) ;!
  release (L_proc np) ;!
  ret pid.

Definition fork_rest (np : nat) (sz : Z) : M Z :=
  setp np (set_p_sz sz) ;!
  let! tf := getp p_trapframe p in
  let! ntf := getp p_trapframe np in
  let! regs := gets (fun s => mread (k_mem s) tf (Z.to_nat TF_size)) in
  modify (fun s => set_k_mem (mwrite (k_mem s) ntf regs) s) ;!
  st_tf np TF_a0 0 ;!
  dup_files p np ;!
  fork_link np.

Definition linked_proc (pp q : proc) : proc := set_p_state RUNNABLE (set_p_parent (Some p) (set_name (p_name pp) (set_p_cwd (p_cwd pp) q))).

(** Updates of slot [i] in a critical section. *)
Lemma setp_upd l g f b : setp i g (acq_st l (upd_proc i f b)) = Ok tt (acq_st l (upd_proc i (g ∘ f) b)).
Proof. rewrite <- upd_proc_twice. reflexivity. Qed.

Lemma parent_upd f b : proc_at p (upd_proc i f b) = proc_at p b.
Proof. by apply list_lookup_total_alter_ne. Qed.

Lemma fork_link_ok ip f b :
  calm p b -> p_cwd (proc_at p b) = Some ip ->
  fork_link i (acq_st (L_proc i) (upd_proc i f b)) =
  Ok (p_pid (f (proc_at i b))) (upd_proc i (linked_proc (proc_at p b) ∘ f) (upd_inode ip (fun q => set_i_ref (i_ref q + 1) q) b)).
Proof.
  intros C Hc. assert (Il : (i < length (k_procs b))%nat) by by rewrite (ca_tab _ _ C). set (pp := proc_at p b) in *. unfold fork_link.
  unfold getp at 1. kprim. change (proc_at p (acq_st (L_proc i) (upd_proc i f b))) with (proc_at p (upd_proc i f b)). rewrite parent_upd. fold pp. rewrite Hc. cbn [the_inode]. kprim.
  erewrite bind_ok; [|apply idup_crit, calm_upd, C]. set (b1 := upd_inode ip (fun q => set_i_ref (i_ref q + 1) q) b). assert (C1 : calm p b1) by by apply (calm_ext p b).
  change (upd_inode ip (fun q => set_i_ref (i_ref q + 1) q) (upd_proc i f b)) with (upd_proc i f b1). erewrite bind_ok; [|apply setp_upd].
  unfold getp at 1. kprim. set (f1 := set_p_cwd (Some ip) ∘ f). change (proc_at p (acq_st (L_proc i) (upd_proc i f1 b1))) with (proc_at p (upd_proc i f1 b1)). rewrite parent_upd.
  change (proc_at p b1) with pp. erewrite bind_ok; [|apply setp_upd]. set (f2 := set_name (p_name pp) ∘ f1).
  unfold getp at 1. kprim. change (proc_at i (acq_st (L_proc i) (upd_proc i f2 b1))) with (proc_at i (upd_proc i f2 b1)). rewrite proc_at_upd by exact Il. change (p_pid (f2 (proc_at i b1))) with (p_pid (f (proc_at i b))).
  erewrite bind_ok; [|apply (release_crit p); [by apply calm_upd|exact Hi]].
  erewrite bind_ok; [|apply (acquire_calm p); [by apply calm_upd|exact I]]. erewrite bind_ok; [|apply setp_upd].
  erewrite bind_ok; [|apply (release_crit p); [by apply calm_upd|exact I]].
  erewrite bind_ok; [|apply (acquire_calm p); [by apply calm_upd|exact Hi]]. erewrite bind_ok; [|apply setp_upd].
  erewrite bind_ok; [|apply (release_crit p); [by apply calm_upd|exact Hi]]. unfold linked_proc. rewrite Hc. reflexivity.
Qed.

Definition copied_tf (m : memory) (tf ntf : Z) : memory := mst64 (mwrite m ntf (mread m tf (Z.to_nat TF_size))) (ntf + TF_a0) 0.

Definition child_proc (pp q : proc) : proc :=
  linked_proc pp (dup_opens (p_ofile pp) (seq 0 NOFILE) (set_p_sz (p_sz pp) q)).

Definition fork_end (ip : nat) (w : kstate) : kstate :=
  let pp := proc_at p w in
  upd_proc i (child_proc pp) (upd_inode ip (fun q => set_i_ref (i_ref q + 1) q)
    (set_k_ftable (dup_refs (p_ofile pp) (seq 0 NOFILE) (k_ftable w)) (set_k_mem (copied_tf (k_mem w) (p_trapframe pp) (p_trapframe (proc_at i w))) w))).

Lemma fork_rest_ok ip w :
  calm p w -> (forall fd f, p_ofile (proc_at p w) !!! fd = Some f -> 1 <= f_ref (file_at f w)) -> p_cwd (proc_at p w) = Some ip ->
  fork_rest i (p_sz (proc_at p w)) (acq_st (L_proc i) w) = Ok (p_pid (proc_at i w)) (fork_end ip w).
Proof.
  intros C Hr Hc. assert (Il : (i < length (k_procs w))%nat) by by rewrite (ca_tab _ _ C). set (pp := proc_at p w) in *.
  set (m := copied_tf (k_mem w) (p_trapframe pp) (p_trapframe (proc_at i w))). set (f1 := set_p_sz (p_sz pp)). unfold fork_rest.
  set (w1 := upd_proc i f1 w). assert (E1 : setp i f1 (acq_st (L_proc i) w) = Ok tt (acq_st (L_proc i) w1)) by reflexivity. erewrite bind_ok; [|exact E1].
  assert (P1 : proc_at p w1 = pp) by by apply list_lookup_total_alter_ne. assert (N1 : proc_at i w1 = f1 (proc_at i w)) by by apply proc_at_upd.
  unfold getp at 1. kprim. change (proc_at p (acq_st (L_proc i) w1)) with (proc_at p w1). rewrite P1.
  unfold getp at 1. kprim. change (proc_at i (acq_st (L_proc i) w1)) with (proc_at i w1). rewrite N1. kprim. kprim.
  set (w2 := set_k_mem m w1). assert (C2 : calm p w2) by (apply (calm_ext p w1); [by apply calm_upd|done..]).
  assert (E2 : st_tf i TF_a0 0 (set_k_mem (mwrite (k_mem w) (p_trapframe (proc_at i w)) (mread (k_mem w) (p_trapframe pp) (Z.to_nat TF_size))) (acq_st (L_proc i) w1)) = Ok tt (acq_st (L_proc i) w2)).
  { unfold st_tf, getp. kprim. change (proc_at i (set_k_mem _ _)) with (proc_at i w1). rewrite N1. reflexivity. }
  erewrite bind_ok; [|exact E2]. erewrite bind_ok; [|apply dup_files_crit; [exact C2|change (proc_at p w2) with (proc_at p w1); rewrite P1; exact Hr]].
  change (proc_at p w2) with (proc_at p w1). rewrite P1. set (ofs := p_ofile pp) in *. set (w3 := set_k_ftable _ _).
  set (b3 := set_k_ftable (dup_refs ofs (seq 0 NOFILE) (k_ftable w)) (set_k_mem m w)). set (f3 := dup_opens ofs (seq 0 NOFILE) ∘ f1).
  assert (E3 : w3 = upd_proc i f3 b3) by (unfold f3; rewrite <- upd_proc_twice; reflexivity). rewrite E3.
  assert (C3 : calm p b3) by by apply (calm_ext p w). exact (fork_link_ok ip f3 b3 C3 Hc).
Qed.
End Files.

(** ** Memory that changes only in the pages [P] *)

Section Kept.
Context `{L : KernelLayout} `{LOK : !LayoutOk}.
Variables (m m' : memory) (P : Z -> Prop).
Hypothesis Pg : forall q, P q -> page q.
Hypothesis Hm : forall a, ~ within P a -> mget m' a = mget m a.

Lemma kept_byte q a : page q -> ~ P q -> in_page q a -> mget m' a = mget m a.
Proof. intros Pq Nq I. apply Hm. intros W. apply Nq. exact (page_within P q a Pg Pq I W). Qed.

Lemma kept_space root free free' :
  uvm_ok m root free -> (forall q, q ∈ free' -> q ∈ free) -> (forall q, P q -> ~ owned m root q) ->
  uvm_ok m' root free' /\ (forall x, va_ok x -> pte_of m' root x = pte_of m root x) /\
  (forall q, owned m' root q <-> owned m root q) /\ (forall x, uva x -> uview m' root x = uview m root x).
Proof.
  intros U Hf No. assert (B : forall q a, owned m root q -> in_page q a -> mget m' a = mget m a).
  { intros q a O I. destruct (owned_not_free _ _ _ _ U O) as [Pq _]. apply (kept_byte q a Pq); [|exact I]. intros Hq. exact (No q Hq O). }
  destruct (uvm_ok_ext m m' root free free' U Hf) as (U' & Q & T); [intros y (q & Hq & I); apply (B q); [by left|exact I]|].
  split; [exact U'|]. split; [exact Q|]. split; [exact (own_ext m m' root Q T)|]. intros x Hx. apply view_ext; [exact (Q x (uva_va_ok x Hx))|].
  intros Hv y I. apply (B (upa m root x)); [|exact I]. right. by exists x.
Qed.

Lemma kept_kmem s f free :
  kmem_ok s free -> k_mem s = m -> (forall q, P q -> q ∉ free) -> k_freelist s = f -> forall s', k_mem s' = m' -> k_freelist s' = f -> kmem_ok s' free.
Proof.
  intros K Em Nq Ef s' Em' Ef'. pose proof K as (Fl & ND & Pf). split; [|done]. rewrite Em', Ef'. rewrite Em, Ef in Fl. eapply flist_ext; [|exact Fl].
  intros q Hq. apply mld64_ext. intros x Hx. pose proof (kmem_page _ _ q K Hq) as Pq. apply (kept_byte q x Pq); [intros Hp; exact (Nq q Hp Hq)|unfold in_page; lia].
Qed.
End Kept.

(** The trapframe of the child. *)
Lemma copied_tf_out m tf ntf a : ~ in_page ntf a -> mget (copied_tf m tf ntf) a = mget m a.
Proof.
  unfold in_page, copied_tf, TF_a0, TF_size. intros H. rewrite mget_mst64_out, mget_mwrite_out; rewrite ?length_mread; lia.
Qed.

Lemma copied_tf_regs m tf ntf o :
  0 <= o -> o mod 8 = 0 -> o + 8 <= TF_size -> mld64 (copied_tf m tf ntf) (ntf + o) = if decide (o = TF_a0) then 0 else mld64 m (tf + o).
Proof.
  unfold copied_tf, TF_size. intros H0 H8 H1. case_decide as E; [rewrite E; apply mld64_mst64_same|]. unfold TF_a0 in *.
  rewrite mld64_mst64_out by zlia. apply mld64_shift. intros k Hk. rewrite mget_mwrite, length_mread.
  replace (_ && _) with true by (symmetry; apply andb_true_intro; split; [apply Z.leb_le|apply Z.ltb_lt]; lia).
  apply nth_lookup_Some. rewrite lookup_mread by lia. do 2 f_equal. lia.
Qed.

(** ** fork *)

Section ForkSpec.
Context `{L : KernelLayout} `{LOK : !LayoutOk} `{F : Fuel} `{D : DiskDriver}.
Variable p : nat.

(** The caller of fork: a process whose memory is the pages below its size, with a trapframe,
    a current directory and open files. *)
Record fork_ready (free : list Z) (t : kstate) : Prop := {
  rd_calm : calm p t;
  rd_space : uspace p free t;
  rd_tf : page (p_trapframe (proc_at p t)) /\ p_trapframe (proc_at p t) ∉ free;
  rd_blank j : (j < NPROC)%nat -> blank (proc_at j t);
  rd_files : length (p_ofile (proc_at p t)) = NOFILE;
  rd_refs fd f : p_ofile (proc_at p t) !!! fd = Some f -> 1 <= f_ref (file_at f t);
  rd_cwd : exists ip, p_cwd (proc_at p t) = Some ip /\ (ip < length (k_itable t))%nat }.

(** What fork leaves when it succeeds: process [c] is a copy of [p] in pages of its own, ready
    to return 0 from the system call. *)
Record forked (c : nat) (free : list Z) (t : kstate) (free' : list Z) (t' : kstate) : Prop := {
  fk_unused : (c < NPROC)%nat /\ p_state (proc_at c t) = UNUSED;
  fk_child : proc_at c t' =
    set_p_state RUNNABLE (set_p_parent (Some p) (set_name (p_name (proc_at p t)) (set_p_cwd (p_cwd (proc_at p t))
      (set_p_ofile (p_ofile (proc_at p t)) (set_p_sz (psize p t) (new_proc (k_nextpid t) (p_trapframe (proc_at c t')) (proot c t') (proc_at c t)))))));
  fk_others j : j <> c -> proc_at j t' = proc_at j t;
  fk_spaces : uspace c free' t' /\ uspace p free' t' /\ disjoint_spaces (k_mem t') (proot p t) (proot c t');
  fk_memory x : uva x -> uview (k_mem t') (proot c t') x = uview (k_mem t) (proot p t) x /\
                         uview (k_mem t') (proot p t) x = uview (k_mem t) (proot p t) x;
  fk_tops : tops (k_mem t') (proot c t') (p_trapframe (proc_at c t'));
  fk_regs o : 0 <= o -> o mod 8 = 0 -> o + 8 <= TF_size -> mld64 (k_mem t') (p_trapframe (proc_at c t') + o) =
    if decide (o = TF_a0) then 0 else mld64 (k_mem t) (p_trapframe (proc_at p t) + o);
  fk_pages q : q ∈ free <-> q ∈ free' \/ q = p_trapframe (proc_at c t') \/ owned (k_mem t') (proot c t') q;
  fk_refs f : (f < length (k_ftable t))%nat ->
    f_ref (file_at f t') = f_ref (file_at f t) + Z.of_nat (length (fds_of (p_ofile (proc_at p t)) f (seq 0 NOFILE)));
  fk_cwd ip : p_cwd (proc_at p t) = Some ip -> i_ref (inode_at ip t') = i_ref (inode_at ip t) + 1;
  fk_kept a : ~ within (.∈ free) a -> mget (k_mem t') a = mget (k_mem t) a }.

(** What it leaves when it fails: the same free pages, and nothing but unused slots changed. *)
Record not_forked (free : list Z) (t : kstate) (free' : list Z) (t' : kstate) : Prop := {
  nf_procs j : proc_at j t' = proc_at j t \/ p_state (proc_at j t) = UNUSED /\ p_state (proc_at j t') = UNUSED;
  nf_blank j : (j < NPROC)%nat -> blank (proc_at j t');
  nf_space : uspace p free' t';
  nf_memory x : uva x -> uview (k_mem t') (proot p t) x = uview (k_mem t) (proot p t) x;
  nf_pages q : q ∈ free' <-> q ∈ free;
  nf_files : k_ftable t' = k_ftable t /\ k_itable t' = k_itable t;
  nf_kept a : ~ within (.∈ free) a -> mget (k_mem t') a = mget (k_mem t) a }.

(** fork with its new process. *)
Definition fork_body (p np : nat) : M Z :=
  let! ppt := getp p_pagetable p in
  let! npt := getp p_pagetable np in
  let! sz := getp p_sz p in
  let! r := uvmcopy ppt npt sz in
  if r <? 0 then freeproc np ;! release (L_proc np) ;! ret (-1) else fork_rest p np sz.

Lemma fork_split : fork =
  let! p := curproc in
  let! o := allocproc in
  match o with None => ret (-1) | Some np => fork_body p np end.
Proof. reflexivity. Qed.

Section Copy.
Variables (i : nat) (t : kstate) (free : list Z) (m : memory) (f : Z) (free' : list Z) (tf pt : Z).
Hypothesis R : fork_ready free t.
Hypothesis Hi : (i < NPROC)%nat.
Hypothesis Hu : p_state (proc_at i t) = UNUSED.
Let t1 := set_k_nextpid (i32 (k_nextpid t + 1)) t.
Let new := new_proc (k_nextpid t) tf pt.
Let sz := psize p t.
Let root := proot p t.
Hypothesis Fm : forall a, ~ within (.∈ free) a -> mget m a = mget (k_mem t) a.
Hypothesis K' : kmem_ok (slot i new m f t1) free'.
Hypothesis Ptf : page tf.
Hypothesis Ntf : tf ∉ free'.
Hypothesis Otf : ~ owned m pt tf.
Hypothesis U' : uvm_ok m pt free'.
Hypothesis Fl : fills m pt tf 0.
Hypothesis W : forall q, proc_pages m tf pt q \/ q ∈ free' <-> q ∈ free.

Lemma slot_not_p : i <> p.
Proof. intros E. pose proof (ca_state _ _ (rd_calm _ _ R)) as H. rewrite <- E, Hu in H. discriminate H. Qed.

Lemma calm_t1 : calm p t1.
Proof. apply (calm_ext p t); [exact (rd_calm _ _ R)|done..]. Qed.

Lemma proc_owns m' q : proc_pages m' tf pt q <-> q = tf \/ owned m' pt q.
Proof.
  unfold proc_pages. pose proof (uvm_root _ _ _ U'). assert (tf <> 0) by (apply page_pa_ok in Ptf as [_ ?]; lia). tauto.
Qed.

Lemma uspace_free : kmem_ok t free /\ uvm_ok (k_mem t) root free /\ 0 <= sz <= TRAPFRAME.
Proof. destruct (rd_space _ _ R) as [H1 H2 H3 _]. split; [exact H1|]. split; [exact H2|exact H3]. Qed.

(** The parent's space in a memory that differs only in free pages. *)
Lemma parent_kept m' free'' :
  (forall a, ~ within (.∈ free) a -> mget m' a = mget (k_mem t) a) -> (forall q, q ∈ free'' -> q ∈ free) ->
  uvm_ok m' root free'' /\ (forall x, va_ok x -> pte_of m' root x = pte_of (k_mem t) root x) /\
  (forall q, owned m' root q <-> owned (k_mem t) root q) /\ (forall x, uva x -> uview m' root x = uview (k_mem t) root x).
Proof.
  intros Fm' Hf. destruct uspace_free as (K & U & _). apply (kept_space (k_mem t) m' (.∈ free)) with free; [|exact Fm'|exact U|exact Hf|].
  - intros q Hq. exact (kmem_page _ _ _ K Hq).
  - intros q Hq O. by destruct (owned_not_free _ _ _ _ U O).
Qed.

Lemma uview_valid_eq m1 r1 m2 r2 x : uview m1 r1 x = uview m2 r2 x -> valid m1 r1 x = valid m2 r2 x.
Proof. unfold uview. by destruct (valid m1 r1 x), (valid m2 r2 x). Qed.

Lemma parent_valid x : uva x -> valid (k_mem t) root x = bool_decide (x < PGROUNDUP sz).
Proof. exact (sp_valid _ _ _ (rd_space _ _ R) x). Qed.

(** The top entries after uvmcopy. *)
Lemma copied_tops m2 : (forall x, va_ok x -> ~ 0 <= x < PGROUNDUP sz -> pte_of m2 pt x = pte_of m pt x) -> tops m2 pt tf.
Proof.
  intros Q. destruct uspace_free as (_ & _ & Hz). pose proof (PGROUNDUP_bound sz Hz) as B. destruct (fl_tops _ _ _ _ Fl) as [T1 T2].
  destruct (top_facts TRAMPOLINE (or_introl eq_refl)) as (Va & _). destruct (top_facts TRAPFRAME (or_intror eq_refl)) as (Vb & _).
  assert (TT : TRAPFRAME <= TRAMPOLINE) by by vm_compute. split.
  - refine (eq_trans (Q TRAMPOLINE Va _) T1). intros [_ H]. apply (Z.lt_irrefl TRAMPOLINE). eapply Z.lt_le_trans; [exact H|]. etransitivity; [exact B|exact TT].
  - refine (eq_trans (Q TRAPFRAME Vb _) T2). intros [_ H]. apply (Z.lt_irrefl TRAPFRAME). eapply Z.lt_le_trans; [exact H|exact B].
Qed.

(** uvmcopy to the new page table. *)
Lemma fork_uvmcopy :
  exists r m2 f2 free'', uvmcopy root pt sz (acq_st (L_proc i) (slot i new m f t1)) = Ok r (acq_st (L_proc i) (slot i new m2 f2 t1)) /\
    kmem_ok (slot i new m2 f2 t1) free'' /\ uvm_ok m2 pt free'' /\ tf ∉ free'' /\ ~ owned m2 pt tf /\
    (forall q, proc_pages m2 tf pt q \/ q ∈ free'' <-> q ∈ free) /\ (forall a, ~ within (.∈ free) a -> mget m2 a = mget (k_mem t) a) /\
    (r = 0 /\ fills m2 pt tf sz /\ (forall x, uva x -> uview m2 pt x = uview (k_mem t) root x) \/
     r = -1 /\ fills m2 pt tf 0 /\ Z.of_nat (length free') < 3 * (PGROUNDUP sz / 4096)).
Proof.
  destruct uspace_free as (K & U & Hz). assert (Hf : forall q, q ∈ free' -> q ∈ free) by (intros q Hq; apply W; by right).
  destruct (parent_kept m free' Fm Hf) as (Up & Qp & Op & Vp). assert (Ni := slot_not_p).
  assert (C1 : calm p (slot i new m f t1)) by (apply calm_slot; [exact Ni|exact calm_t1]).
  assert (Vo : forall x, 0 <= x < PGROUNDUP sz -> uva x) by (intros x Hx; apply (pages_uva 0 sz); [split; [done|by vm_compute]|exact Hz|exact Hx]).
  destruct (uvmcopy_ok (acq_st (L_proc i) (slot i new m f t1)) root pt free' sz) as (r & s' & free'' & E & X & Q & Rv).
  - exact K'.
  - apply (acq_callable p); [exact C1|done].
  - exact Up.
  - exact U'.
  - intros q O1 O2. apply Op in O1. destruct (owned_not_free _ _ _ _ U O1) as [_ N]. apply N, W. left. apply proc_owns. by right.
  - exact Hz.
  - intros x Hx. change (valid m root x = true). rewrite (uview_valid (k_mem t) m) by (apply Vp, Vo, Hx). rewrite (sp_valid _ _ _ (rd_space _ _ R)) by (apply Vo, Hx).
    apply bool_decide_eq_true_2, Hx.
  - intros x Hx. apply (fills_invalid _ _ _ _ x Fl); [apply Vo, Hx|apply Hx].
  - pose proof (mem_only_slot p i Ni _ _ _ _ _ calm_t1 (us_only _ _ _ _ _ X)) as Es. rewrite Es in E. pose proof (us_own _ _ _ _ _ X) as O. pose proof (us_frame _ _ _ _ _ X) as Fr.
    pose proof (us_kmem _ _ _ _ _ X) as K2. rewrite Es in K2.
    exists r, (k_mem s'), (k_freelist s'), free''. split; [exact E|]. split; [exact K2|]. split; [apply X|].
    change (k_mem (acq_st (L_proc i) (slot i new m f t1))) with m in O, Fr, Q, Rv.
    split; [|split; [|split; [|split]]].
    + intros Hq. destruct (proj1 (O tf) (or_intror Hq)) as [?|?]; [by apply Otf|by apply Ntf].
    + intros Hq. destruct (proj1 (O tf) (or_introl Hq)) as [?|?]; [by apply Otf|by apply Ntf].
    + intros q. rewrite <- (W q). rewrite !proc_owns. specialize (O q). clear - O. tauto.
    + intros a Na. rewrite Fr; [by apply Fm|]. intros (q & Hq & I). apply Na. exists q. split; [|exact I]. apply W. rewrite (proc_owns m q). clear - Hq. tauto.
    + pose proof (copied_tops (k_mem s') Q) as Tp. destruct Rv as [(Er & V)|(Er & V & Len)]; [left|right]; (split; [exact Er|]).
      * assert (Ve : forall x, uva x -> uview (k_mem s') pt x = uview (k_mem t) root x).
        { intros x Hx. rewrite (V x Hx). case_decide as Hd; [by apply Vp|]. rewrite !uview_None; [done| |].
          - rewrite parent_valid by exact Hx. apply bool_decide_eq_false_2. intros Hb. apply Hd. split; [apply Hx|exact Hb].
          - apply (fills_invalid _ _ _ _ x Fl Hx). apply Hx. }
        split; [|exact Ve]. split; [exact Hz| |exact Tp]. intros x Hx. rewrite <- parent_valid by exact Hx. by apply uview_valid_eq, Ve.
      * split; [|exact Len]. split; [apply Fl| |exact Tp]. intros x Hx. rewrite <- (fl_valid _ _ _ _ Fl) by exact Hx. by apply uview_valid_eq, V.
Qed.

(** The copied state. *)
Section Made.
Variables (m2 : memory) (f2 : Z) (free'' : list Z) (ip : nat).
Let w := slot i new m2 f2 t1.
Let t' := fork_end p i ip w.
Hypothesis K2 : kmem_ok w free''.
Hypothesis U2 : uvm_ok m2 pt free''.
Hypothesis Ntf2 : tf ∉ free''.
Hypothesis Otf2 : ~ owned m2 pt tf.
Hypothesis W2 : forall q, proc_pages m2 tf pt q \/ q ∈ free'' <-> q ∈ free.
Hypothesis Fm2 : forall a, ~ within (.∈ free) a -> mget m2 a = mget (k_mem t) a.
Hypothesis Fl2 : fills m2 pt tf sz.
Hypothesis V2 : forall x, uva x -> uview m2 pt x = uview (k_mem t) root x.

Lemma made_parent : proc_at p w = proc_at p t.
Proof. apply list_lookup_total_alter_ne, slot_not_p. Qed.

Lemma made_slot : proc_at i w = new (proc_at i t).
Proof. apply list_lookup_total_alter_eq. change (i < length (k_procs t))%nat. by rewrite (ca_tab _ _ (rd_calm _ _ R)). Qed.

Lemma made_other j : j <> i -> proc_at j t' = proc_at j t.
Proof. intros N. unfold t', fork_end, proc_at. cbn. rewrite !list_lookup_total_alter_ne by done. done. Qed.

Lemma made_mem : k_mem t' = copied_tf m2 (p_trapframe (proc_at p t)) tf.
Proof. unfold t', fork_end. rewrite made_parent, made_slot. reflexivity. Qed.

Lemma made_child : proc_at i t' =
  set_p_state RUNNABLE (set_p_parent (Some p) (set_name (p_name (proc_at p t)) (set_p_cwd (p_cwd (proc_at p t))
    (set_p_ofile (p_ofile (proc_at p t)) (set_p_sz sz (new (proc_at i t))))))).
Proof.
  unfold t', fork_end. rewrite proc_at_upd by (change (i < length (k_procs w))%nat; unfold w; cbn; rewrite length_alter; by rewrite (ca_tab _ _ (rd_calm _ _ R))).
  change (proc_at i (upd_inode ip _ _)) with (proc_at i w). rewrite made_parent, made_slot. unfold child_proc, linked_proc, dup_opens.
  change (p_ofile (set_p_sz (p_sz (proc_at p t)) (new (proc_at i t)))) with (p_ofile (proc_at i t)).
  destruct (rd_blank _ _ R i Hi Hu) as (_ & _ & _ & Bo). rewrite Bo, dup_open_all by apply R. reflexivity.
Qed.

Lemma made_kept a : ~ within (.∈ free) a -> mget (k_mem t') a = mget (k_mem t) a.
Proof.
  intros Na. rewrite made_mem, copied_tf_out; [by apply Fm2|]. intros I. apply Na. exists tf. split; [apply W2; left; apply proc_owns; by left|exact I].
Qed.

Lemma made_in_tf a : ~ within (fun q => q = tf) a -> mget (k_mem t') a = mget m2 a.
Proof. intros Na. rewrite made_mem. apply copied_tf_out. intros I. apply Na. by exists tf. Qed.

Lemma made_pt : proot i t' = pt /\ psize i t' = sz /\ p_trapframe (proc_at i t') = tf.
Proof. unfold proot, psize. rewrite made_child. by split. Qed.

Lemma made_kmem : kmem_ok t' free''.
Proof.
  eapply (kept_kmem m2 (k_mem t') (fun q => q = tf)); [by intros q ->|exact made_in_tf|exact K2|reflexivity|by intros q ->|reflexivity|reflexivity|reflexivity].
Qed.

Lemma made_pspace : uspace p free'' t' /\ (forall q, owned (k_mem t') root q <-> owned (k_mem t) root q) /\
  (forall x, uva x -> uview (k_mem t') root x = uview (k_mem t) root x).
Proof.
  destruct (parent_kept (k_mem t') free'' made_kept) as (Up & _ & Op & Vp); [intros q Hq; apply W2; by right|].
  split; [|split; [exact Op|exact Vp]]. assert (Ep : proc_at p t' = proc_at p t) by (apply made_other; intros E; by apply slot_not_p).
  destruct uspace_free as (_ & _ & Hz). split; unfold proot, psize; rewrite ?Ep; [exact made_kmem|exact Up|exact Hz|].
  intros x Hx. rewrite (uview_valid (k_mem t)) by (by apply Vp). by apply parent_valid.
Qed.

Lemma made_cspace : uspace i free'' t' /\ (forall q, owned (k_mem t') pt q <-> owned m2 pt q) /\
  (forall x, uva x -> uview (k_mem t') pt x = uview (k_mem t) root x) /\ tops (k_mem t') pt tf.
Proof.
  destruct (kept_space m2 (k_mem t') (fun q => q = tf) ltac:(by intros q ->) made_in_tf pt free'' free'' U2 ltac:(done) ltac:(by intros q ->)) as (U3 & Q3 & O3 & V3).
  destruct (fills_ext _ _ _ _ _ Q3 Fl2) as [H1 H2 H3]. destruct made_pt as (E1 & E2 & _).
  split; [|split; [exact O3|split; [intros x Hx; by rewrite V3, V2|exact H3]]].
  split; rewrite ?E1, ?E2; [exact made_kmem|exact U3|exact H1|exact H2].
Qed.

Lemma made_regs o : 0 <= o -> o mod 8 = 0 -> o + 8 <= TF_size ->
  mld64 (k_mem t') (tf + o) = if decide (o = TF_a0) then 0 else mld64 (k_mem t) (p_trapframe (proc_at p t) + o).
Proof.
  intros H0 H8 H1. rewrite made_mem, copied_tf_regs by done. case_decide; [done|]. apply mld64_ext. intros x Hx. apply Fm2. intros Wx.
  destruct (rd_tf _ _ R) as [Pp Np]. destruct uspace_free as (K & _). apply Np. unfold TF_size in H1.
  refine (page_within (.∈ free) _ x _ Pp _ Wx); [intros q Hq; exact (kmem_page _ _ _ K Hq)|unfold in_page; lia].
Qed.

Lemma made_forked : p_cwd (proc_at p t) = Some ip -> (ip < length (k_itable t))%nat -> forked i free t free'' t'.
Proof.
  intros Hc Hl. destruct made_pt as (E1 & E2 & E3). destruct made_pspace as (Sp & Op & Vp). destruct made_cspace as (Sc & Oc & Vc & Tc). destruct uspace_free as (K & U & _).
  assert (Wq : forall q, q ∈ free <-> q ∈ free'' \/ q = tf \/ owned (k_mem t') pt q).
  { intros q. rewrite <- (W2 q), proc_owns. specialize (Oc q). clear - Oc. tauto. }
  split; rewrite ?E1, ?E3.
  - by split.
  - exact made_child.
  - exact made_other.
  - split; [exact Sc|]. split; [exact Sp|]. intros q Oq Oq'. apply Op in Oq. destruct (owned_not_free _ _ _ _ U Oq) as [_ N]. apply N, Wq. by right; right.
  - intros x Hx. split; [by apply Vc|by apply Vp].
  - exact Tc.
  - exact made_regs.
  - exact Wq.
  - intros g Hg. unfold file_at, t', fork_end. rewrite made_parent. by apply dup_refs_count.
  - intros ip' Hc'. rewrite Hc in Hc'. injection Hc' as <-. unfold inode_at, t', fork_end. cbn. rewrite list_lookup_total_alter_eq by exact Hl. reflexivity.
  - exact made_kept.
Qed.
End Made.

(** Giving up. *)
Lemma undone g m3 f3 free3 :
  kmem_ok (slot i g m3 f3 t1) free3 -> (forall q, q ∈ free3 <-> q ∈ free) -> (forall a, ~ within (.∈ free) a -> mget m3 a = mget (k_mem t) a) ->
  p_state (g (proc_at i t)) = UNUSED -> blank (g (proc_at i t)) -> not_forked free t free3 (slot i g m3 f3 t1).
Proof.
  intros K3 W3 Fm3 Gu Gb. destruct (parent_kept m3 free3 Fm3 ltac:(intros q; apply W3)) as (Up & _ & _ & Vp). destruct uspace_free as (_ & _ & Hz).
  assert (Es : proc_at i (slot i g m3 f3 t1) = g (proc_at i t)) by exact (proc_slot p i Hi g m3 f3 t1 calm_t1).
  assert (Eo : forall j, j <> i -> proc_at j (slot i g m3 f3 t1) = proc_at j t) by (intros j N; by apply list_lookup_total_alter_ne).
  assert (Ep := Eo p (fun E => slot_not_p (eq_sym E))). split.
  - intros j. destruct (decide (j = i)) as [->|N]; [right; by rewrite Es|left; by apply Eo].
  - intros j Hj. destruct (decide (j = i)) as [->|N]; [by rewrite Es|rewrite Eo by done; by apply (rd_blank _ _ R)].
  - split; unfold proot, psize; rewrite ?Ep; [exact K3|exact Up|exact Hz|]. intros x Hx. rewrite (uview_valid (k_mem t)) by (by apply Vp). by apply parent_valid.
  - exact Vp.
  - exact W3.
  - by split.
  - exact Fm3.
Qed.

Lemma blank_clear g : p_ofile (g (proc_at i t)) = p_ofile (proc_at i t) -> blank (clear_proc (g (proc_at i t))).
Proof. intros E _. cbn. destruct (rd_blank _ _ R i Hi Hu) as (_ & _ & _ & Bo). split; [done|]. split; [done|]. split; [done|]. by rewrite E. Qed.

Lemma fork_body_ok :
  exists r t' free'', fork_body p i (acq_st (L_proc i) (slot i new m f t1)) = Ok r t' /\ calm p t' /\
    (r = k_nextpid t /\ forked i free t free'' t' \/ r = -1 /\ not_forked free t free'' t' /\ Z.of_nat (length free') < 3 * (PGROUNDUP sz / 4096)).
Proof.
  assert (Ni := slot_not_p). assert (C1 := calm_t1). assert (Il : (i < length (k_procs t1))%nat) by (change (i < length (k_procs t))%nat; by rewrite (ca_tab _ _ (rd_calm _ _ R))).
  set (w := slot i new m f t1). assert (Ep : proc_at p w = proc_at p t) by by apply list_lookup_total_alter_ne. assert (Ei : proc_at i w = new (proc_at i t)) by by apply list_lookup_total_alter_eq.
  unfold fork_body. unfold getp at 1. kprim. change (proc_at p (acq_st (L_proc i) w)) with (proc_at p w). rewrite Ep. unfold getp at 1. kprim. change (proc_at i (acq_st (L_proc i) w)) with (proc_at i w). rewrite Ei.
  unfold getp at 1. kprim. change (proc_at p (acq_st (L_proc i) w)) with (proc_at p w). rewrite Ep.
  destruct fork_uvmcopy as (r & m2 & f2 & free'' & E & K2 & U2 & Ntf2 & Otf2 & W2 & Fm2 & Rv). erewrite bind_ok; [|exact E].
  set (w2 := slot i new m2 f2 t1) in *. assert (C2 : calm p w2) by by apply calm_slot. assert (Ep2 : proc_at p w2 = proc_at p t) by by apply list_lookup_total_alter_ne.
  assert (Ei2 : proc_at i w2 = new (proc_at i t)) by by apply list_lookup_total_alter_eq. destruct Rv as [(-> & Fl2 & V2)|(-> & Fl2 & Len)]; cbv iota beta delta [Z.ltb Z.compare].
  - destruct (rd_cwd _ _ R) as (ip & Hc & Hl). exists (k_nextpid t), (fork_end p i ip w2), free''.
    assert (Er := fork_rest_ok p i Hi Ni ip w2 C2). rewrite Ep2, Ei2 in Er. split; [apply Er; [exact (rd_refs _ _ R)|exact Hc]|].
    split; [apply (calm_upd p i Ni); by apply (calm_ext p w2)|]. left. split; [done|]. by apply made_forked.
  - destruct (undo_alloc p i Hi Ni (-1) w2 free'') as (m3 & f3 & free3 & E3 & K3 & W3 & F3); rewrite ?Ei2.
    + exact C2.
    + exact K2.
    + right. by split.
    + right. split; [apply page_pa_ok in Ptf as [_ ?]; cbn; lia|]. split; [exact U2|]. split; [exact Otf2|].
      change (p_sz (new (proc_at i t))) with (p_sz (proc_at i t)). destruct (rd_blank _ _ R i Hi Hu) as (_ & _ & Bz & _). rewrite Bz. exact Fl2.
    + rewrite Ei2 in W3, F3. change (p_trapframe (new (proc_at i t))) with tf in W3, F3. change (p_pagetable (new (proc_at i t))) with pt in W3, F3. change (k_mem w2) with m2 in W3, F3.
      unfold w2 in E3, K3. rewrite slot_slot in E3, K3. eexists _, _, free3. split; [exact E3|]. split; [by apply calm_slot|]. right. split; [done|]. split; [|exact Len].
      apply undone; [exact K3|intros q; by rewrite W3, W2| |done|by apply (blank_clear new)].
      intros a Na. rewrite F3; [by apply Fm2|]. intros (q & Hq & I). apply Na. exists q. split; [by apply W2|exact I].
Qed.
End Copy.

Lemma not_forked_same free t : fork_ready free t -> not_forked free t free t.
Proof. intros R. split; try done; [by left|apply R|apply R]. Qed.

(** C8: a process that calls fork either gets a child, with the next pid, that is its copy in pages of its own: the same memory and registers but for the 0 that the call returns in it, the same open files and directory with their reference counts raised; or -1, and then every page is back on the free list, its memory and files are as before and only unused slots of the process table changed. fork fails only without an unused slot, or with fewer free pages than six and three for each page of the process. *)
Theorem fork_copies_or_nothing free t :
  fork_ready free t ->
  exists r t' free', fork t = Ok r t' /\ calm p t' /\
    (r = k_nextpid t /\ (exists c, forked c free t free' t') \/
     r = -1 /\ not_forked free t free' t' /\ (first_unused t = None \/ Z.of_nat (length free) < 6 + 3 * (PGROUNDUP (psize p t) / 4096))).
Proof.
  intros R. pose proof (rd_calm _ _ R) as C. rewrite fork_split. erewrite bind_ok; [|apply curproc_calm, C].
  pose proof (allocproc_ok p t free C (sp_kmem _ _ _ (rd_space _ _ R)) (rd_blank _ _ R)) as A. destruct (first_unused t) as [i|] eqn:Eu.
  2:{ erewrite bind_ok; [|exact A]. eexists _, _, free. split; [reflexivity|]. split; [exact C|]. right. split; [done|]. split; [by apply not_forked_same|by left]. }
  destruct (first_unused_spec t i Eu) as [Hi Hu]. assert (Ni := slot_not_p i t free R Hu). assert (C1 := calm_t1 t free R).
  destruct A as (m & f & free' & Fm & [(tf & pt & E & K' & Ptf & Ntf & Otf & U' & Fl & W & Len)|(E & K' & W & Len)]); (erewrite bind_ok; [|exact E]).
  2:{ eexists _, _, free'. split; [reflexivity|]. split; [by apply calm_slot|]. right. split; [done|]. split; [|right].
      - apply (undone i t free R Hi Hu); [exact K'|exact W|exact Fm|done|]. by apply (blank_clear i t free R Hi Hu id).
      - destruct (rd_space _ _ R) as [_ _ Hz _]. pose proof (PGROUNDUP_mono 0 _ ltac:(split; [done|apply Hz]) (proj2 Hz)) as M. change (PGROUNDUP 0) with 0 in M.
        pose proof (Z.div_pos _ 4096 M ltac:(done)). lia. }
  destruct (fork_body_ok i t free m f free' tf pt R Hi Hu Fm K' Ptf Ntf Otf U' Fl W) as (r & t' & free'' & E' & C' & [(Er & Fk)|(Er & Nf & Ln)]).
  - exists r, t', free''. split; [exact E'|]. split; [exact C'|]. left. split; [exact Er|]. by exists i.
  - exists r, t', free''. split; [exact E'|]. split; [exact C'|]. right. split; [exact Er|]. split; [exact Nf|]. right. lia.
Qed.
End ForkSpec.

(** ** On the small machine *)

#[local] Existing Instance demo_layout.
#[local] Existing Instance demo_layout_ok.
#[local] Instance no_fuel : Fuel := 0%nat.
#[local] Existing Instance ram_disk.

(** Process 0 of the small kernel with two pages of memory, the trapframe [tf], file 0 open as
    descriptor 0 and inode 0 as its directory. *)
Definition forking (m : memory) (fl tf : Z) (s : kstate) : kstate :=
  set_k_mem m (set_k_freelist fl (upd_file 0 (set_f_ref 1) (upd_proc 0 (fun q => set_p_cwd (Some 0%nat) (set_p_ofile (<[0%nat := Some 0%nat]> (p_ofile q))
    (set_p_trapframe tf (set_p_pagetable demo_root (set_p_sz 8192 q))))) s))).

Lemma forking_calm m fl tf s : calm 0 s -> calm 0 (forking m fl tf s).
Proof.
  intros [H1 H2 H3 H4 H5 H6 H7 H8]. split; try done.
  - apply kstate_ext; try reflexivity. change (k_cpus (settle s) = k_cpus s). by rewrite H4.
  - cbn. by rewrite length_alter.
  - unfold proc_at, forking. ksimpl. rewrite proc_at_alter_eq by lia. done.
Qed.

Lemma forking_proc m fl tf : proc_at 0 (forking m fl tf demo_kernel) =
  mkproc RUNNING CH_null 0 0 1 None 0 8192 demo_root tf (mkcontext ra_none 0) (<[0%nat := Some 0%nat]> (replicate NOFILE None)) (Some 0%nat) (replicate 16 0).
Proof. reflexivity. Qed.

Lemma forking_other m fl tf j : j <> 0%nat -> (j < NPROC)%nat -> proc_at j (forking m fl tf demo_kernel) = inhabitant.
Proof.
  intros N H. unfold proc_at, forking, demo_kernel. ksimpl. rewrite !list_lookup_total_alter_ne by congruence. apply lookup_total_replicate_2, H.
Qed.

Lemma forking_ready m fl tf free :
  flist m fl free /\ NoDup free /\ Forall page free -> uvm_ok m demo_root free -> page tf -> tf ∉ free ->
  (forall x, uva x -> uview m demo_root x = if decide (0 <= x < 8192) then Some (Z.lor (uperm PTE_W) PTE_V, 0) else None) ->
  fork_ready 0 free (forking m fl tf demo_kernel).
Proof.
  intros K U Pt Nt W. split; unfold psize, proot; rewrite ?forking_proc.
  - apply forking_calm, demo_kernel_calm.
  - split; unfold psize, proot; rewrite ?forking_proc; [exact K|exact U|rewrite TRAPFRAME_eq; cbn; lia|]. intros x Hx. cbn [p_sz p_pagetable].
    change (PGROUNDUP 8192) with 8192. change (k_mem (forking m fl tf demo_kernel)) with m. pose proof (W x Hx) as Wx. unfold uva in Hx. unfold uview in Wx.
    destruct (decide (0 <= x < 8192)) as [D|D]; destruct (valid m demo_root x); try discriminate Wx; symmetry; [apply bool_decide_eq_true_2|apply bool_decide_eq_false_2]; lia.
  - by split.
  - intros j Hj. destruct (decide (j = 0%nat)) as [->|N]; [rewrite forking_proc; by intros ?|]. rewrite forking_other by done. by intros _.
  - reflexivity.
  - intros fd f Ef. assert (f = 0%nat) as ->; [|by vm_compute]. cbn [p_ofile] in Ef. destruct fd as [|fd]; [by injection Ef|].
    rewrite list_lookup_total_insert_ne in Ef by done. destruct (decide (S fd < NOFILE)%nat) as [H|H].
    + rewrite lookup_total_replicate_2 in Ef by done. done.
    + rewrite list_lookup_total_alt, lookup_ge_None_2 in Ef by (rewrite length_replicate; lia). done.
  - exists 0%nat. split; [done|]. vm_compute. lia.
Qed.

Lemma forking_of s free :
  k_freelist s <> 0 -> kmem_ok s free -> kmem_callable s -> uvm_ok (k_mem s) demo_root free ->
  (forall x, uva x -> uview (k_mem s) demo_root x = if decide (0 <= x < 8192) then Some (Z.lor (uperm PTE_W) PTE_V, 0) else None) ->
  exists f, let s' := allocated (k_freelist s) s in fork_ready 0 f (forking (k_mem s') (k_freelist s') (k_freelist s) demo_kernel).
Proof.
  intros M K C U W. destruct free as [|q f]; [destruct K as [Fl _]; destruct (M Fl)|]. exists f. assert (Eq : k_freelist s = q) by (destruct K as [[E _] _]; exact E).
  rewrite Eq. destruct (alloc_page s demo_root q f K U) as (Pq & Nq & _).
  destruct (allocated_ok s demo_root q f (k_mem (allocated q s)) K C U) as (_ & _ & K2 & U2 & _ & _ & V2).
  { intros y Ny. exact (mget_fillpage_out (k_mem s) q 5 y Ny). }
  apply forking_ready; [exact K2|exact U2|exact Pq|exact Nq|]. intros x Hx. exact (eq_trans (V2 x Hx) (W x Hx)).
Qed.

Definition demo_forking : kstate :=
  let s := allocated (k_freelist demo_space) demo_space in forking (k_mem s) (k_freelist s) (k_freelist demo_space) demo_kernel.

Lemma demo_forking_ready : exists free, fork_ready 0 free demo_forking.
Proof.
  destruct demo_space_ok as (f & K & C & U & _ & W). exact (forking_of demo_space f (proj1 (Z.eqb_neq _ _) demo_more) K C U W).
Qed.

Lemma fork_copies_or_nothing_witness : exists r t', fork demo_forking = Ok r t' /\ (r = 1 \/ r = -1).
Proof.
  destruct demo_forking_ready as [free R].
  destruct (fork_copies_or_nothing 0 free demo_forking R) as (r & t' & free' & E & _ & [(Er & _)|(Er & _)]); exists r, t'; (split; [exact E|]).
  - left. exact Er.
  - right. exact Er.
Defined.
