(* ===== verification/PipeSpec.v ===== *)
(** * Pipes as bounded queues

    pipewrite and piperead (kernel/pipe.c): the ring buffer in the pipe's page is a queue of
    at most PIPESIZE bytes. *)

From S2P Require Import Prelude Memory Riscv State Kmonad Spinlock CString Kalloc Vm PageTable UserMem Uvm AddressSpace.
From S2P Require Import Proc ProcSpec CoYield Sched Sleeplock Pipe Calm BioSpec Sbrk.
From Stdlib Require Import ZArith Lia.
From stdpp Require Import base numbers list gmap strings option.

#[local] Open Scope Z_scope.
#[local] Open Scope kernel_scope.

(** The queue [q] in the ring buffer of the pipe at [pi], and its open flags. *)
Record pipe_q (m : memory) (pi : Z) (q : list Z) (ro wo : Z) : Prop := {
  pq_len : Z.of_nat (length q) <= PIPESIZE;
  pq_nread : 0 <= mld32 m (pi + PI_nread) < 4294967296;
  pq_nwrite : mld32 m (pi + PI_nwrite) = u32 (mld32 m (pi + PI_nread) + Z.of_nat (length q));
  pq_data k x : q !! k = Some x -> mget m (pi + PI_data + (mld32 m (pi + PI_nread) + Z.of_nat k) mod PIPESIZE) = x;
  pq_ro : mld32 m (pi + PI_readopen) = ro;
  pq_wo : mld32 m (pi + PI_writeopen) = wo }.

Definition in_pipe (pi a : Z) : Prop := pi <= a < pi + 552.

Lemma pipe_q_ext m m' pi q ro wo :
  (forall a, in_pipe pi a -> mget m' a = mget m a) -> pipe_q m pi q ro wo -> pipe_q m' pi q ro wo.
Proof.
  intros E [H1 H2 H3 H4 H5 H6]. unfold in_pipe in E.
  assert (E32 : forall o, 0 <= o <= 548 -> mld32 m' (pi + o) = mld32 m (pi + o)).
  { intros o Ho. apply mld32_ext. intros x Hx. apply E. lia. }
  split; rewrite ?E32 by (unfold PI_nread, PI_nwrite, PI_readopen, PI_writeopen; lia); try done.
  intros k x Hk. rewrite E; [by apply H4|]. unfold PI_data, PIPESIZE. zlia.
Qed.

(** A byte joins the queue: the counter moves, then the slot is written. *)
Lemma pipe_q_push m pi q ro wo x :
  pipe_q m pi q ro wo -> Z.of_nat (length q) < PIPESIZE ->
  let w := mld32 m (pi + PI_nwrite) in
  pipe_q (<[pi + PI_data + w mod PIPESIZE := x]> (mst32 m (pi + PI_nwrite) (u32 (w + 1)))) pi (q ++ [x]) ro wo.
Proof.
  intros [H1 H2 H3 H4 H5 H6] Hl w. set (m1 := mst32 m _ _). set (a := pi + PI_data + w mod PIPESIZE).
  assert (Ha : pi + 24 <= a < pi + 536) by (unfold a, PI_data, PIPESIZE; zlia).
  assert (E1 : forall o, 536 <= o <= 548 -> mld32 (<[a := x]> m1) (pi + o) = mld32 m1 (pi + o)).
  { intros o Ho. apply mld32_ext. intros y Hy. rewrite mget_insert. case_b; [lia|done]. }
  assert (E2 : forall o, 536 <= o <= 548 -> o + 4 <= 540 \/ 544 <= o -> mld32 m1 (pi + o) = mld32 m (pi + o)).
  { intros o Ho Ho'. apply mld32_ext. intros y Hy. apply mget_mst32_out. unfold PI_nwrite. lia. }
  unfold PI_nread, PI_nwrite, PI_readopen, PI_writeopen in *.
  assert (Ew : w = u32 (mld32 m (pi + 536) + Z.of_nat (length q))) by exact H3.
  split; unfold PI_nread, PI_nwrite, PI_readopen, PI_writeopen; rewrite ?E1 by lia; rewrite ?(E2 536), ?(E2 544), ?(E2 548) by lia; try done.
  - rewrite length_app. cbn. unfold PIPESIZE in *. lia.
  - unfold m1, PI_nwrite. rewrite mld32_mst32_same, length_app, Ew. cbn [length]. unfold u32. zlia.
  - intros k y Hk. rewrite mget_insert. unfold a. rewrite Ew. unfold PI_data, u32, PIPESIZE in *.
    apply lookup_app_Some in Hk as [Hk|[Hk1 Hk2]].
    + pose proof (lookup_lt_Some _ _ _ Hk). case_b; [zlia|]. unfold m1. rewrite mget_mst32_out by zlia. by apply H4.
    + apply list_lookup_singleton_Some in Hk2 as [Hk2 <-]. case_b; [done|zlia].
Qed.

(** A byte leaves it. *)
Lemma pipe_q_pop m pi x q ro wo :
  pipe_q m pi (x :: q) ro wo ->
  let r := mld32 m (pi + PI_nread) in
  mget m (pi + PI_data + r mod PIPESIZE) = x /\ mld32 m (pi + PI_nwrite) <> r /\
  pipe_q (mst32 m (pi + PI_nread) (u32 (r + 1))) pi q ro wo.
Proof.
  intros [H1 H2 H3 H4 H5 H6] r. unfold PI_nread, PI_nwrite, PI_readopen, PI_writeopen in *. fold r in H2, H3, H4. cbn [length] in *.
  assert (E : forall o, 540 <= o <= 548 -> mld32 (mst32 m (pi + 536) (u32 (r + 1))) (pi + o) = mld32 m (pi + o)).
  { intros o Ho. apply mld32_ext. intros y Hy. apply mget_mst32_out. lia. }
  split; [pose proof (H4 0%nat x eq_refl) as X; by rewrite Z.add_0_r in X|]. unfold PIPESIZE, u32 in *. split; [rewrite H3; zlia|].
  split; unfold PI_nread, PI_nwrite, PI_readopen, PI_writeopen, PIPESIZE; rewrite ?mld32_mst32_same, ?E by lia; try done; unfold u32; try zlia.
  intros k y Hk. rewrite mget_mst32_out by (unfold PI_data; zlia). rewrite <- (H4 (S k) y Hk). f_equal. f_equal. unfold r in *. zlia.
Qed.

Lemma pipe_q_empty m pi q ro wo :
  pipe_q m pi q ro wo -> (mld32 m (pi + PI_nread) =? mld32 m (pi + PI_nwrite)) = bool_decide (q = []).
Proof.
  intros [H1 H2 H3 H4 H5 H6]. rewrite H3. destruct q as [|x q]; cbn [length]; unfold u32, PIPESIZE in *.
  - rewrite bool_decide_eq_true_2 by done. apply Z.eqb_eq. zlia.
  - rewrite bool_decide_eq_false_2 by done. apply Z.eqb_neq. cbn [length] in *. zlia.
Qed.

Lemma pipe_q_full m pi q ro wo :
  pipe_q m pi q ro wo ->
  (mld32 m (pi + PI_nwrite) =? u32 (mld32 m (pi + PI_nread) + PIPESIZE)) = (Z.of_nat (length q) =? PIPESIZE).
Proof.
  intros [H1 H2 H3 H4 H5 H6]. rewrite H3. unfold u32, PIPESIZE in *. destruct (Z.eqb_spec (Z.of_nat (length q)) 512) as [->|N]; [by apply Z.eqb_refl|].
  apply Z.eqb_neq. zlia.
Qed.

Section PipeSpec.
Context `{L : KernelLayout} `{LOK : !LayoutOk} `{F : Fuel}.

Lemma killed_eq i s : lock_free (L_proc i) s -> cpu_ok s -> settle s = s -> killed i s = Ok (p_killed (proc_at i s)) s.
Proof.
  intros Hl Hc Hs. unfold killed. erewrite bind_ok; [|by apply acquire_eq]. kprim.
  erewrite bind_ok; [|by apply acq_release]. unfold ret. by rewrite Hs.
Qed.

(** ** The caller's memory

    [root] is its page table; the pipe's page is neither the caller's nor free. *)
Record user_env (m : memory) (fl root : Z) (free : list Z) (pi : Z) : Prop := {
  ue_free : flist m fl free /\ NoDup free /\ Forall page free;
  ue_uvm : uvm_ok m root free;
  ue_top : top_private m root;
  ue_page : page pi;
  ue_apart : ~ (owned m root pi \/ pi ∈ free) }.

Lemma env_pages m fl root free pi q :
  user_env m fl root free pi -> owned m root q \/ q ∈ free -> page q /\ q <> pi.
Proof.
  intros [E1 E2 E3 E4 E5] H. split; [|by intros ->]. destruct H as [H|H]; [by destruct (owned_not_free _ _ _ _ E2 H)|].
  destruct E1 as (_ & _ & Fp). by apply (proj1 (list.Forall_forall _ _) Fp).
Qed.

(** Changes inside the pipe's page. *)
Lemma env_pipe m m' fl root free pi :
  user_env m fl root free pi -> (forall a, ~ in_pipe pi a -> mget m' a = mget m a) ->
  user_env m' fl root free pi /\ (forall x, va_ok x -> pte_of m' root x = pte_of m root x) /\
  (forall x, uva x -> uview m' root x = uview m root x).
Proof.
  intros E Hm. pose proof E as [E1 E2 E3 E4 E5].
  assert (Hp : forall q a, owned m root q \/ q ∈ free -> in_page q a -> mget m' a = mget m a).
  { intros q a Hq Ha. destruct (env_pages _ _ _ _ _ q E Hq) as [Pq Nq]. apply Hm. intros Hin.
    apply (pages_apart q pi a Pq E4 Nq Ha). unfold in_pipe, in_page in *. lia. }
  destruct (uvm_ok_ext m m' root free free E2) as (U & Q & T); [done| |].
  { intros y (q & Hq & Hy). apply (Hp q); [left; by left|done]. }
  split_and!; [split|done|].
  - destruct E1 as (F1 & F2 & F3). split; [|done]. apply (flist_ext m); [|done]. intros q Hq.
    apply mld64_ext. intros x Hx. apply (Hp q); [by right|]. unfold in_page. lia.
  - done.
  - intros x Hx. rewrite Q; [by apply E3|]. unfold va_ok. rewrite TRAPFRAME_eq in Hx. lia.
  - done.
  - rewrite (own_ext m m' root Q T). done.
  - intros x Hx. apply view_ext; [by apply Q, uva_va_ok|]. intros V y Hy. apply (Hp (upa m root x)); [|done]. left. right. by exists x.
Qed.

Lemma user_ok_pte m m' root x : pte_of m' root x = pte_of m root x -> user_ok m' root x = user_ok m root x.
Proof. intros E. unfold user_ok, valid. by rewrite E. Qed.

Lemma copyin_byte m fl root free pi a s :
  user_env m fl root free pi -> 0 <= a -> user_ok m root a = true -> k_mem s = m ->
  copyin root a 1 s = Ok (0, [ubyte m root a]) s.
Proof.
  intros [E1 E2 E3 E4 E5] Ha Hu Em. unfold copyin.
  destruct (copyin_loop_ok (S (Z.to_nat 1)) s root free a 1) as (r & k & Ei & Hk & _ & R); [by rewrite Em|by rewrite Em|done|lia|].
  rewrite Em in *. destruct R as [(-> & ->)|(_ & Hk1 & Hb)]; [|replace (a + k) with a in Hb by lia; congruence].
  rewrite Ei. do 2 f_equal.
Qed.

Lemma copyout_byte m fl root free pi a x s :
  user_env m fl root free pi -> 0 <= a -> user_ok m root a = true -> k_mem s = m -> k_freelist s = fl -> settle s = s ->
  exists m', copyout root a [x] 1 s = Ok 0 (set_k_mem m' s) /\ user_env m' fl root free pi /\
    (forall y, va_ok y -> pte_of m' root y = pte_of m root y) /\
    (forall y, uva y -> uview m' root y = if decide (y = a) then Some (PTE_FLAGS (pte_of m root y), x) else uview m root y) /\
    (forall b, in_pipe pi b -> mget m' b = mget m b).
Proof.
  intros E Ha Hu Em Ef Hs. pose proof E as [E1 E2 E3 E4 E5]. unfold copyout.
  destruct (copyout_loop_ok (S (Z.to_nat 1)) s root free a [x] 1) as (r & k & s' & Er & X & Q & W & _ & R);
    [unfold kmem_ok; by rewrite Em, Ef|by rewrite Em|by rewrite Em|done|cbn; lia|lia|].
  rewrite Em in *. destruct R as [(-> & ->)|(_ & Hk1 & Hb)]; [|replace (a + k) with a in Hb by lia; congruence].
  destruct X as [X1 X2 X3 X4 X5]. destruct X1 as (m' & f' & Es'). rewrite Hs in Es'. assert (Es : s' = set_k_mem m' (set_k_freelist f' s)) by tauto. clear Es'.
  assert (Ef' : f' = k_freelist s).
  { destruct E1 as (F1 & _ & _), X2 as (F2 & _ & _). subst s'. ksimpl_in F2. rewrite Ef.
    destruct free; [by cbn in F1, F2; destruct F1, F2|]. cbn in F1, F2. destruct F1 as [-> _], F2 as [-> _]. done. }
  assert (Es2 : s' = set_k_mem m' s) by (rewrite Es, Ef'; by destruct s). subst s'. rewrite Es2 in *. ksimpl_in X2. ksimpl_in X3. ksimpl_in X4. ksimpl_in X5. ksimpl_in Q. ksimpl_in W.
  exists m'. split_and!; [done| |done| |].
  - split; try done.
    + destruct X2 as (F2 & F3). split; [|done]. ksimpl_in F2. by rewrite Ef in F2.
    + intros y Hy. rewrite Q; [by apply E3|]. unfold va_ok. rewrite TRAPFRAME_eq in Hy. lia.
    + rewrite X4, Em. done.
  - intros y Hy. rewrite W by done. destruct (decide (a <= y < a + 1)), (decide (y = a)); try lia; [|done].
    do 2 f_equal. subst y. by rewrite Z.sub_diag.
  - intros b Hb. rewrite X5, Em; [done|]. intros (q & Hq & Hb'). rewrite Em in Hq. destruct (env_pages _ _ _ _ _ q E Hq) as [Pq Nq].
    apply (pages_apart q pi b Pq E4 Nq Hb'). unfold in_pipe, in_page in *. lia.
Qed.

Lemma uread_view m m' root va n :
  (forall x, va <= x < va + Z.of_nat n -> uva x /\ valid m root x = true /\ uview m' root x = uview m root x) ->
  uread m' root va n = uread m root va n.
Proof.
  revert va. induction n as [|n IH]; intros va H; [done|]. cbn [uread]. rewrite IH by (intros x Hx; apply H; lia). f_equal.
  destruct (H va ltac:(lia)) as (Ux & Vx & E). unfold uview in E. rewrite Vx in E. destruct (valid m' root va); [congruence|done].
Qed.

(** ** Inside the critical section *)

Section Locked.
Context (p : nat) (pi : Z) (s : kstate).
Context (C : calm p s) (Hl : lock_free (L_pipe pi) s).

#[local] Notation root := (p_pagetable (proc_at p s)).
#[local] Notation fl := (k_freelist s).

(** The lock is held and memory is [m]. *)
Definition held (m : memory) : kstate := set_k_mem m (acq_st (L_pipe pi) s).

Lemma held_settled m : settle (held m) = held m.
Proof.
  pose proof (settle_acq (L_pipe pi) s (ca_cpu _ _ C)) as E. apply (f_equal k_cpus) in E.
  unfold settle in *. apply kstate_ext; try reflexivity. exact E.
Qed.

Lemma killed_held m : killed p (held m) = Ok (p_killed (proc_at p s)) (held m).
Proof.
  rewrite killed_eq; [done| | |apply held_settled].
  - change (lock_free (L_proc p) (acq_st (L_pipe pi) s)). apply lock_free_acq; [done|]. apply (ca_locks _ _ C). apply C.
  - exact (cpu_ok_acq (L_pipe pi) s (ca_cpu _ _ C)).
Qed.

Lemma pipewrite_loop_ok fuel m free q ro wo addr n i :
  user_env m fl root free pi -> pipe_q m pi q ro wo -> ro <> 0 -> p_killed (proc_at p s) = 0 ->
  0 <= addr -> 0 <= i <= n -> Z.of_nat (length q) + (n - i) <= PIPESIZE ->
  (forall x, addr + i <= x < addr + n -> user_ok m root x = true) -> (Z.to_nat (n - i) < fuel)%nat ->
  exists m', pipewrite_loop fuel pi addr n i p (held m) = Ok (inr n) (held m') /\ user_env m' fl root free pi /\
    pipe_q m' pi (q ++ (u8 <$> uread m root (addr + i) (Z.to_nat (n - i)))) ro wo /\
    (forall x, uva x -> uview m' root x = uview m root x).
Proof.
  revert m q i. induction fuel as [|fuel IH]; intros m q i E Q Hro Hk Ha Hi Hq Hu Hf; [lia|]. cbn [pipewrite_loop].
  destruct (Z.ltb_spec i n) as [Hlt|Hge]; cbn [negb].
  2:{ replace i with n by lia. rewrite Z.sub_diag. cbn. rewrite app_nil_r. by exists m. }
  kprim. change (k_mem (held m)) with m. rewrite (pq_ro _ _ _ _ _ Q). replace (ro =? 0) with false by (symmetry; by apply Z.eqb_neq). cbv match.
  erewrite bind_ok; [|erewrite bind_ok; [|apply killed_held]; reflexivity]. rewrite Hk. cbn [truth Z.eqb negb]. do 2 kprim. change (k_mem (held m)) with m.
  rewrite (pipe_q_full _ _ _ _ _ Q). replace (Z.of_nat (length q) =? PIPESIZE) with false by (symmetry; apply Z.eqb_neq; lia).
  kprim. change (proc_at p (held m)) with (proc_at p s). set (x := u8 (ubyte m root (addr + i))).
  assert (Ux : user_ok m root (addr + i) = true) by (apply Hu; lia).
  assert (Hx : 0 <= addr + i < MAXVA) by (unfold user_ok in Ux; destruct (Z.ltb_spec (addr + i) MAXVA); [lia|done]).
  rewrite u64_small by (change MAXVA with 274877906944 in Hx; lia).
  erewrite bind_ok; [|apply (copyin_byte m fl root free pi); [done|lia|done|done]]. cbn [fst snd hd]. change (0 =? -1) with false. cbv match. do 2 kprim. fold x.
  set (w := mld32 m (pi + PI_nwrite)).
  set (m1 := <[pi + PI_data + w mod PIPESIZE := x]> (mst32 m (pi + PI_nwrite) (u32 (w + 1)))).
  assert (Hw : 0 <= w mod PIPESIZE < PIPESIZE) by (unfold PIPESIZE; zlia).
  destruct (env_pipe m m1 fl root free pi E) as (E1 & P1 & V1).
  { intros a Ho. unfold m1, in_pipe, PI_data, PI_nwrite, PIPESIZE in *. rewrite mget_insert. case_b; [lia|]. apply mget_mst32_out. lia. }
  change (set_k_mem m1 (set_k_mem _ (held m))) with (held m1).
  pose proof (pipe_q_push m pi q ro wo x Q ltac:(lia)) as Q1. cbv zeta in Q1. fold w in Q1. fold m1 in Q1.
  destruct (IH m1 (q ++ [x]) (i + 1) E1 Q1) as (m' & E2 & U2 & Q2 & V2); try done; try lia.
  { rewrite length_app. cbn. lia. }
  { intros y Hy. rewrite (user_ok_pte m m1); [apply Hu; lia|]. apply P1. pose proof (Hu y ltac:(lia)) as Uy. unfold user_ok in Uy.
    destruct (Z.ltb_spec y MAXVA); [unfold va_ok; lia|done]. }
  exists m'. split_and!; [exact E2|done| |intros y Hy; by rewrite V2, V1].
  replace (Z.to_nat (n - i)) with (S (Z.to_nat (n - (i + 1)))) by lia. cbn [uread fmap list_fmap]. fold x.
  rewrite <- app_assoc in Q2. cbn [app] in Q2. replace (addr + i + 1) with (addr + (i + 1)) by lia.
  rewrite <- (uread_view m m1); [done|]. intros y Hy. destruct (user_ok_uva m root y (ue_top _ _ _ _ _ E)) as [Uy Vy]; [lia|apply Hu; lia|].
  split_and!; [done|done|by apply V1].
Qed.

Lemma piperead_copy_ok fuel m free q ro wo addr n i :
  user_env m fl root free pi -> pipe_q m pi q ro wo -> 0 <= addr -> 0 <= i <= n ->
  (forall x, addr + i <= x < addr + n -> user_ok m root x = true) -> (Z.to_nat (n - i) < fuel)%nat ->
  let k := Z.min (n - i) (Z.of_nat (length q)) in
  exists m', piperead_copy fuel pi addr n i p (held m) = Ok (i + k) (held m') /\ user_env m' fl root free pi /\
    pipe_q m' pi (drop (Z.to_nat k) q) ro wo /\
    (forall x, uva x -> uview m' root x =
       if decide (addr + i <= x < addr + i + k) then Some (PTE_FLAGS (pte_of m root x), q !!! Z.to_nat (x - (addr + i))) else uview m root x).
Proof.
  revert m q i. induction fuel as [|fuel IH]; intros m q i E Q Ha Hi Hu Hf k; [lia|]. cbn [piperead_copy].
  assert (Stop : k = 0 -> exists m', Ok i (held m) = Ok (i + k) (held m') /\ user_env m' fl root free pi /\
    pipe_q m' pi (drop (Z.to_nat k) q) ro wo /\
    (forall x, uva x -> uview m' root x =
       if decide (addr + i <= x < addr + i + k) then Some (PTE_FLAGS (pte_of m root x), q !!! Z.to_nat (x - (addr + i))) else uview m root x)).
  { intros ->. rewrite Z.add_0_r. exists m. split_and!; try done. intros x Hx. by rewrite decide_False by lia. }
  destruct (Z.ltb_spec i n) as [Hlt|Hge]; cbn [negb]; [|apply Stop; lia].
  do 2 kprim. change (k_mem (held m)) with m. rewrite (pipe_q_empty _ _ _ _ _ Q).
  destruct q as [|b q]; [rewrite bool_decide_eq_true_2 by done; apply Stop; cbn [length] in *; lia|].
  rewrite bool_decide_eq_false_2 by done. destruct (pipe_q_pop m pi b q ro wo Q) as (Eb & _ & Q1).
  kprim. change (k_mem (held m)) with m. rewrite Eb. kprim. change (k_mem (held m)) with m. kprim.
  set (r := mld32 m (pi + PI_nread)) in *. set (m1 := mst32 m (pi + PI_nread) (u32 (r + 1))) in *.
  change (set_k_mem m1 (held m)) with (held m1). change (proc_at p (held m1)) with (proc_at p s).
  destruct (env_pipe m m1 fl root free pi E) as (E1 & P1 & V1).
  { intros a Hout. apply mget_mst32_out. unfold in_pipe, PI_nread in *. lia. }
  assert (Ux : user_ok m root (addr + i) = true) by (apply Hu; lia).
  assert (Hx : 0 <= addr + i < MAXVA) by (unfold user_ok in Ux; destruct (Z.ltb_spec (addr + i) MAXVA); [lia|done]).
  rewrite u64_small by (change MAXVA with 274877906944 in Hx; lia).
  destruct (copyout_byte m1 fl root free pi (addr + i) b (held m1) E1) as (m2 & E2 & U2 & P2 & V2 & B2); try done; [lia| |apply held_settled|].
  { by rewrite (user_ok_pte m m1); [|apply P1; unfold va_ok; lia]. }
  erewrite bind_ok; [|exact E2]. change (0 =? -1) with false. cbv match. change (set_k_mem m2 (held m1)) with (held m2).
  assert (Pm : forall y, va_ok y -> pte_of m2 root y = pte_of m root y) by (intros y Hy; by rewrite P2, P1).
  destruct (IH m2 q (i + 1) U2) as (m' & E3 & U3 & Q3 & V3); try done; try lia.
  { by apply (pipe_q_ext m1). }
  { intros y Hy. pose proof (Hu y ltac:(lia)) as Uy. rewrite (user_ok_pte m m2); [done|]. apply Pm. unfold user_ok in Uy.
    destruct (Z.ltb_spec y MAXVA); [unfold va_ok; lia|done]. }
  set (k' := Z.min (n - (i + 1)) (Z.of_nat (length q))) in *. assert (Ek : k = k' + 1) by (unfold k, k'; cbn [length]; lia).
  assert (Hk' : 0 <= k') by (unfold k'; lia). exists m'. split_and!; [rewrite E3; f_equal; lia|done| |].
  - rewrite Ek. replace (Z.to_nat (k' + 1)) with (S (Z.to_nat k')) by lia. done.
  - intros x Hux. rewrite V3 by done. rewrite Pm by by apply uva_va_ok.
    destruct (decide (addr + (i + 1) <= x < addr + (i + 1) + k')).
    + rewrite decide_True by lia. do 2 f_equal. replace (Z.to_nat (x - (addr + i))) with (S (Z.to_nat (x - (addr + (i + 1))))) by lia. done.
    + rewrite V2 by done. destruct (decide (x = addr + i)) as [->|].
      * rewrite decide_True, Z.sub_diag, P1 by (lia || by apply uva_va_ok). done.
      * rewrite decide_False by lia. by apply V1.
Qed.

End Locked.

(** ** The system calls' view *)

(** Process [p] runs with no lock held; the pipe holds [q]. *)
Record pipe_state (p : nat) (pi : Z) (free q : list Z) (ro wo : Z) (s : kstate) : Prop := {
  ps_calm : calm p s;
  ps_lock : lock_free (L_pipe pi) s;
  ps_env : user_env (k_mem s) (k_freelist s) (p_pagetable (proc_at p s)) free pi;
  ps_queue : pipe_q (k_mem s) pi q ro wo }.

(** wakeup and release at the end of both. *)
Lemma pipe_finish {A} p pi c free q ro wo m s (r : A) :
  calm p s -> lock_free (L_pipe pi) s ->
  user_env m (k_freelist s) (p_pagetable (proc_at p s)) free pi -> pipe_q m pi q ro wo ->
  exists s', (wakeup c ;! release (L_pipe pi) ;! ret r) (held pi s m) = Ok r s' /\ pipe_state p pi free q ro wo s' /\
    k_mem s' = m /\ woken_procs (k_procs s) (k_procs s') /\ proc_at p s' = proc_at p s.
Proof.
  intros C Hl E Q. destruct (wakeup_in p (L_pipe pi) c s (held pi s m) C) as (ps & Ew & W); try done.
  set (s' := set_k_procs ps (set_k_mem m s)).
  assert (Ep : proc_at p s' = proc_at p s) by (apply woken_proc_running; [apply (proj2 W)|apply C]).
  assert (C' : calm p s').
  { apply (calm_woken p (set_k_mem m s)); [|done]. by apply (calm_ext p s). }
  exists s'. split_and!; try done.
  - erewrite bind_ok; [|exact Ew]. erewrite bind_ok; [|by apply (release_left p _ s)]. unfold ret. f_equal; unfold held, s'; leave_eq.
  - split; try done. by rewrite Ep.
Qed.

(** C13: pipes refine bounded queues of bytes.  A write that fits returns its length and appends
    the caller's bytes to the queue, leaving the caller's memory as it was; a write after the
    reading end was closed returns -1 and changes nothing.  A read, once the queue holds bytes
    or the writing end is closed, takes the first bytes off the queue, as many as asked for
    and there are, stores them in order at the given address, and returns their number: 0 at
    the end of the stream.  The counters may wrap around. *)
Theorem pipe_refines_queue p pi free q ro wo addr n s :
  pipe_state p pi free q ro wo s -> p_killed (proc_at p s) = 0 -> 0 <= addr -> 0 < n ->
  (forall x, addr <= x < addr + n -> user_ok (k_mem s) (p_pagetable (proc_at p s)) x = true) ->
  let root := p_pagetable (proc_at p s) in
  (ro <> 0 -> Z.of_nat (length q) + n <= PIPESIZE ->
   exists s', pipewrite pi addr n s = Ok n s' /\ woken_procs (k_procs s) (k_procs s') /\
     pipe_state p pi free (q ++ (u8 <$> uread (k_mem s) root addr (Z.to_nat n))) ro wo s' /\
     (forall x, uva x -> uview (k_mem s') root x = uview (k_mem s) root x)) /\
  (ro = 0 -> pipewrite pi addr n s = Ok (-1) s) /\
  (q <> [] \/ wo = 0 ->
   let k := Z.min n (Z.of_nat (length q)) in
   exists s', piperead pi addr n s = Ok k s' /\ woken_procs (k_procs s) (k_procs s') /\
     pipe_state p pi free (drop (Z.to_nat k) q) ro wo s' /\
     (forall x, uva x -> uview (k_mem s') root x =
        if decide (addr <= x < addr + k) then Some (PTE_FLAGS (pte_of (k_mem s) root x), q !!! Z.to_nat (x - addr))
        else uview (k_mem s) root x)).
Proof.
  intros [C Hl E Q] Hk Ha Hn Hu root.
  assert (Acq : acquire (L_pipe pi) s = Ok tt (held pi s (k_mem s))) by (rewrite acquire_eq by done; f_equal; by destruct s).
  split_and!.
  - intros Hro Hq. unfold pipewrite. erewrite bind_ok; [|by apply curproc_calm]. erewrite bind_ok; [|exact Acq].
    destruct (pipewrite_loop_ok p pi s C (S (Z.to_nat n + wakeups)) (k_mem s) free q ro wo addr n 0) as (m' & El & U' & Q' & V'); try done;
      rewrite ?Z.add_0_r, ?Z.sub_0_r in *; try done; try lia.
    erewrite bind_ok; [|exact El]. cbv match.
    destruct (pipe_finish p pi (CH_pipe_nread pi) free _ ro wo m' s n C Hl U' Q') as (s' & Ef & S' & Em & W & _).
    exists s'. split_and!; try done. intros x Hx. rewrite Em. by apply V'.
  - intros Hro. unfold pipewrite. erewrite bind_ok; [|by apply curproc_calm]. erewrite bind_ok; [|exact Acq].
    cbn [pipewrite_loop]. replace (0 <? n) with true by (symmetry; by apply Z.ltb_lt). cbn [negb].
    erewrite bind_ok.
    2:{ kprim. change (k_mem (held pi s (k_mem s))) with (k_mem s). rewrite (pq_ro _ _ _ _ _ Q), Hro. cbn [Z.eqb]. kprim. cbv match.
        erewrite bind_ok; [|by apply (release_left p _ s)]. reflexivity. }
    cbv match. unfold ret. f_equal. unfold held. leave_eq.
  - intros Hw k. unfold piperead. erewrite bind_ok; [|by apply curproc_calm]. erewrite bind_ok; [|exact Acq].
    cbn [piperead_wait].
    erewrite bind_ok; [|do 3 kprim; change (k_mem (held pi s (k_mem s))) with (k_mem s); rewrite (pipe_q_empty _ _ _ _ _ Q), (pq_wo _ _ _ _ _ Q);
      replace (bool_decide (q = []) && truth wo) with false by (symmetry; destruct Hw as [Hw| ->]; [by rewrite bool_decide_eq_false_2|apply andb_false_r]); reflexivity].
    cbv match.
    destruct (piperead_copy_ok p pi s C (S (Z.to_nat n)) (k_mem s) free q ro wo addr n 0) as (m' & El & U' & Q' & V'); try done;
      rewrite ?Z.add_0_r, ?Z.sub_0_r, ?Z.add_0_l in *; try done; try lia.
    erewrite bind_ok; [|exact El].
    destruct (pipe_finish p pi (CH_pipe_nwrite pi) free _ ro wo m' s k C Hl U' Q') as (s' & Ef & S' & Em & W & _).
    exists s'. split_and!; try done. intros x Hx. rewrite Em. by apply V'.
Qed.

End PipeSpec.

(** ** On the small machine: a new pipe in the first free page *)

#[local] Existing Instance demo_layout.
#[local] Existing Instance demo_layout_ok.
#[local] Instance no_wakeups : Fuel := 0%nat.

Definition new_pipe (m : memory) (pi : Z) : memory :=
  mst32 (mst32 (mst32 (mst32 m (pi + PI_readopen) 1) (pi + PI_writeopen) 1) (pi + PI_nwrite) 0) (pi + PI_nread) 0.

Definition with_pipe (m : memory) (pi : Z) (s : kstate) : kstate :=
  set_k_locks (<[L_pipe pi := lk_free]> (k_locks s)) (give_memory (new_pipe m pi) (mld64 m pi) s).

Definition demo_pipe : Z := k_freelist demo_space.

Lemma mld32_mst32_out m a v b : b + 4 <= a \/ a + 4 <= b -> mld32 (mst32 m a v) b = mld32 m b.
Proof. intros H. apply mld32_ext. intros x Hx. apply mget_mst32_out. lia. Qed.

Lemma new_pipe_q m pi : pipe_q (new_pipe m pi) pi [] 1 1.
Proof.
  unfold new_pipe, PI_nread, PI_nwrite, PI_readopen, PI_writeopen.
  split; unfold PI_nread, PI_nwrite, PI_readopen, PI_writeopen; try done; repeat (rewrite mld32_mst32_same || rewrite mld32_mst32_out by lia); done.
Qed.

Lemma new_pipe_env m pi root free :
  flist m pi (pi :: free) /\ NoDup (pi :: free) /\ Forall page (pi :: free) -> uvm_ok m root (pi :: free) -> top_private m root ->
  user_env (new_pipe m pi) (mld64 m pi) root free pi /\ (forall x, uva x -> uview (new_pipe m pi) root x = uview m root x).
Proof.
  intros (F1 & F2 & F3) U T. inversion_clear F2 as [|? ? N1 N2]. inversion_clear F3 as [|? ? P1 P2].
  assert (O : ~ owned m root pi) by (intros O; destruct (owned_not_free _ _ _ _ U O) as [_ X]; set_solver).
  destruct (env_pipe m (new_pipe m pi) (mld64 m pi) root free pi) as (E & _ & V); [| |by split].
  - split; try done.
    + split_and!; try done. by destruct F1 as (_ & _ & F1).
    + apply (uvm_ok_free m root (pi :: free)); [done|]. intros q Oq. destruct (owned_not_free _ _ _ _ U Oq). set_solver.
    + intros [?|H]; [done|]. by apply N1, list_elem_of_In.
  - intros a Ha. unfold new_pipe, in_pipe, PI_nread, PI_nwrite, PI_readopen, PI_writeopen in *. by rewrite !mget_mst32_out by lia.
Qed.

Lemma with_pipe_calm m pi s : calm 0 s -> calm 0 (with_pipe m pi s).
Proof.
  intros C. apply (give_memory_calm (new_pipe m pi) (mld64 m pi)) in C. unfold with_pipe. set (s1 := give_memory _ _ _) in *.
  destruct C as [H1 H2 H3 H4 H5 H6 H7 H8]. split; try done.
  - apply (f_equal k_cpus) in H4. unfold settle in *. by apply kstate_ext.
  - intros l Kl. unfold lock_free. ksimpl. rewrite lookup_insert_ne; [by apply H8|]. by intros <-.
Qed.

Lemma user_ok_view m root x f b : 0 <= x < MAXVA -> uview m root x = Some (f, b) -> Z.testbit f 4 = true -> user_ok m root x = true.
Proof.
  intros Hx E Hf. unfold uview in E. unfold user_ok. destruct (valid m root x) eqn:V; [|done]. injection E as <- _.
  replace (x <? MAXVA) with true by (symmetry; apply Z.ltb_lt; lia). cbn [andb]. change PTE_U with (Z.shiftl 1 4).
  rewrite has_bits_shiftl by lia. by rewrite testbit_flags by lia.
Qed.

Lemma with_pipe_state m pi root free s :
  root = demo_root -> calm 0 s -> flist m pi (pi :: free) /\ NoDup (pi :: free) /\ Forall page (pi :: free) ->
  uvm_ok m root (pi :: free) -> top_private m root ->
  pipe_state 0 pi free [] 1 1 (with_pipe m pi s) /\ p_killed (proc_at 0 (with_pipe m pi s)) = p_killed (proc_at 0 s) /\
  p_pagetable (proc_at 0 (with_pipe m pi s)) = root /\ k_mem (with_pipe m pi s) = new_pipe m pi.
Proof.
  intros -> C F U T. destruct (new_pipe_env m pi demo_root free F U T) as [E V].
  assert (Ln : (0 < length (k_procs s))%nat) by (rewrite (ca_tab _ _ C); unfold NPROC; lia).
  destruct (give_memory_proc (new_pipe m pi) (mld64 m pi) s Ln) as (Em & Ef & Es & Er).
  assert (Ek : p_killed (proc_at 0 (with_pipe m pi s)) = p_killed (proc_at 0 s)).
  { unfold with_pipe, give_memory, proc_at. ksimpl. by rewrite proc_at_alter_eq. }
  split_and!; try done. split; [by apply with_pipe_calm|unfold lock_free, with_pipe; ksimpl; apply lookup_insert_eq| |].
  - unfold proot in Er. change (proc_at 0 (with_pipe m pi s)) with (proc_at 0 (give_memory (new_pipe m pi) (mld64 m pi) s)). by rewrite Er.
  - apply new_pipe_q.
Qed.

Lemma with_pipe_ready m pi f s :
  calm 0 s -> p_killed (proc_at 0 s) = 0 -> pi <> 0 -> flist m pi f /\ NoDup f /\ Forall page f -> uvm_ok m demo_root f -> top_private m demo_root ->
  (forall x, uva x -> uview m demo_root x = if decide (0 <= x < 8192) then Some (Z.lor (uperm PTE_W) PTE_V, 0) else None) ->
  exists free, pipe_state 0 pi free [] 1 1 (with_pipe m pi s) /\ p_killed (proc_at 0 (with_pipe m pi s)) = 0 /\
    forall x, 100 <= x < 100 + 3 -> user_ok (k_mem (with_pipe m pi s)) (p_pagetable (proc_at 0 (with_pipe m pi s))) x = true.
Proof.
  intros C Hk Nz K U T W. destruct f as [|x free]; [by destruct K|]. assert (x = pi) as -> by (by destruct K as [[-> _] _]). exists free.
  destruct (with_pipe_state m pi demo_root free s eq_refl C K U T) as (S1 & Ek & Er & Em).
  split; [exact S1|]. rewrite Ek, Er, Em. split; [exact Hk|].
  destruct (new_pipe_env m pi demo_root free K U T) as [_ V]. intros x Hx.
  assert (Ux : uva x) by (unfold uva; rewrite TRAPFRAME_eq; lia).
  apply (user_ok_view _ _ x (Z.lor (uperm PTE_W) PTE_V) 0); [change MAXVA with 274877906944; lia| |reflexivity].
  rewrite V, W, decide_True by (done || lia). reflexivity.
Qed.

Definition demo_piped : kstate := with_pipe (k_mem demo_space) demo_pipe demo_kernel.

Lemma demo_piped_state : exists free, pipe_state 0 demo_pipe free [] 1 1 demo_piped /\ p_killed (proc_at 0 demo_piped) = 0 /\
  forall x, 100 <= x < 100 + 3 -> user_ok (k_mem demo_piped) (p_pagetable (proc_at 0 demo_piped)) x = true.
Proof.
  destruct demo_space_ok as (f & K & _ & U & T & W).
  exact (with_pipe_ready (k_mem demo_space) demo_pipe f demo_kernel demo_kernel_calm eq_refl (proj1 (Z.eqb_neq _ _) demo_more) K U T W).
Qed.

Lemma pipe_refines_queue_witness :
  exists s', pipewrite demo_pipe 100 3 demo_piped = Ok 3 s'.
Proof.
  destruct demo_piped_state as (free & S & K & U).
  destruct (pipe_refines_queue 0 demo_pipe free [] 1 1 100 3 demo_piped S K ltac:(lia) ltac:(lia) U) as (W & _ & _).
  destruct (W ltac:(lia) ltac:(vm_compute; discriminate)) as (s' & E & _). exists s'. exact E.
Defined.
