(* ===== verification/PrintSpec.v ===== *)
(** * Numbers as printed

    printint and printptr (kernel/printf.c): the characters denote the number. *)

From S2P Require Import Prelude State Kmonad Uart Printf.
From Stdlib Require Import ZArith Lia.
From stdpp Require Import base numbers list strings.

#[local] Open Scope Z_scope.

(** The value of a digit, upper or lower case. *)
Definition digit_val (c : Z) : option Z :=
  if (48 <=? c) && (c <=? 57) then Some (c - 48)
  else if (97 <=? c) && (c <=? 102) then Some (c - 87)
  else if (65 <=? c) && (c <=? 70) then Some (c - 55)
  else None.

(** Digits, the most significant first. *)
Fixpoint read_digits (base acc : Z) (l : list Z) : option Z :=
  match l with
  | [] => Some acc
  | c :: l' => d ← digit_val c; if d <? base then read_digits base (acc * base + d) l' else None
  end.

Definition read_num (base : Z) (l : list Z) : option Z :=
  match l with
  | [] => None
  | c :: l' => if c =? 45 then match l' with [] => None | _ => Z.opp <$> read_digits base 0 l' end else read_digits base 0 l
  end.

Lemma digits_val d : 0 <= d < 16 -> digit_val (digits !!! Z.to_nat d) = Some d /\ digits !!! Z.to_nat d <> 45.
Proof.
  intros H. assert (A : forallb (fun d => bool_decide (digit_val (digits !!! Z.to_nat d) = Some d /\ digits !!! Z.to_nat d <> 45)) (seqZ 0 16) = true) by (vm_compute; reflexivity).
  apply (bool_decide_eq_true_1 (digit_val (digits !!! Z.to_nat d) = Some d /\ digits !!! Z.to_nat d <> 45)).
  refine (proj1 (forallb_forall _ _) A d _). apply list_elem_of_In, elem_of_seqZ. lia.
Qed.

Lemma read_digits_app base acc l1 l2 :
  read_digits base acc (l1 ++ l2) = a ← read_digits base acc l1; read_digits base a l2.
Proof.
  revert acc. induction l1 as [|c l1 IH]; intros acc; [done|]. cbn. destruct (digit_val c) as [d|]; [|done]. cbn.
  destruct (d <? base); [apply IH|done].
Qed.

(** The buffer holds the digits of [x], the least significant first. *)
Lemma printint_buf_spec fuel x base :
  2 <= base <= 16 -> 0 <= x < base ^ Z.of_nat fuel -> (0 < fuel)%nat ->
  read_digits base 0 (rev (printint_buf fuel x base)) = Some x /\
  printint_buf fuel x base <> [] /\
  (0 < x -> last (printint_buf fuel x base) <> Some 48).
Proof.
  intros Hb. revert x. induction fuel as [|fuel IH]; intros x Hx Hf; [lia|]. cbn [printint_buf].
  assert (Hd : 0 <= x mod base < base) by (apply Z.mod_pos_bound; lia). destruct (digits_val (x mod base) ltac:(lia)) as [Dv Dn].
  set (d := digits !!! Z.to_nat (x mod base)) in *. pose proof (Z_div_mod_eq_full x base) as Ex.
  destruct (Z.eqb_spec (x / base) 0) as [Z0|Z0].
  - cbn [rev app read_digits]. rewrite Dv. cbn [mbind option_bind]. replace (x mod base <? base) with true by (symmetry; apply Z.ltb_lt; lia).
    split_and!; [f_equal; lia|done|]. intros Hp Hl. cbn in Hl. injection Hl as Hl.
    unfold d in *. rewrite Hl in Dv. injection Dv as Dv. lia.
  - assert (Hq : 0 <= x / base) by (apply Z.div_pos; lia).
    assert (Hx' : 0 <= x / base < base ^ Z.of_nat fuel).
    { split; [done|]. apply Z.div_lt_upper_bound; [lia|]. rewrite Nat2Z.inj_succ, Z.pow_succ_r in Hx by lia. lia. }
    destruct fuel as [|fuel]; [change (base ^ Z.of_nat 0) with 1 in Hx'; lia|].
    destruct (IH (x / base) Hx' ltac:(lia)) as (R & Ne & La). split_and!.
    + cbn [rev]. rewrite read_digits_app, R. cbn. rewrite Dv. cbn. replace (x mod base <? base) with true by (symmetry; apply Z.ltb_lt; lia).
      f_equal. lia.
    + done.
    + intros _. rewrite last_cons. destruct (last (printint_buf (S fuel) (x / base) base)) as [c|] eqn:El.
      * apply La. lia.
      * by apply last_None in El.
Qed.

Lemma length_printint_buf fuel k x base :
  2 <= base -> 0 <= x < base ^ Z.of_nat k -> (0 < k)%nat -> (length (printint_buf fuel x base) <= k)%nat.
Proof.
  intros Hb. revert k x. induction fuel as [|fuel IH]; intros k x Hx Hk; cbn [printint_buf length]; [lia|].
  destruct (Z.eqb_spec (x / base) 0) as [Z0|Z0]; cbn [length]; [lia|]. destruct k as [|k]; [lia|].
  assert (Hq : 0 <= x / base) by (apply Z.div_pos; lia).
  assert (Hx' : 0 <= x / base < base ^ Z.of_nat k).
  { split; [done|]. apply Z.div_lt_upper_bound; [lia|]. rewrite Nat2Z.inj_succ, Z.pow_succ_r in Hx by lia. lia. }
  destruct k as [|k]; [change (base ^ Z.of_nat 0) with 1 in Hx'; lia|]. specialize (IH (S k) (x / base) Hx' ltac:(lia)). lia.
Qed.

Lemma read_digits_plain base acc l v : read_digits base acc l = Some v -> head l <> Some 45.
Proof. destruct l as [|c l]; [done|]. cbn. intros E [= ->]. done. Qed.

Lemma read_num_digits base l v : l <> [] -> read_digits base 0 l = Some v -> read_num base l = Some v.
Proof.
  intros Ne R. pose proof (read_digits_plain _ _ _ _ R) as Hc. destruct l as [|c l]; [done|]. cbn [read_num].
  replace (c =? 45) with false by (symmetry; apply Z.eqb_neq; intros ->; by apply Hc). done.
Qed.

Lemma read_num_minus base l : l <> [] -> read_num base (45 :: l) = Z.opp <$> read_digits base 0 l.
Proof. by destruct l. Qed.

Lemma printptr_chars_spec n x acc :
  0 <= x < 18446744073709551616 -> (n <= 16)%nat ->
  length (printptr_chars n x) = n /\
  read_digits 16 acc (printptr_chars n x) = Some (acc * 16 ^ Z.of_nat n + x / 16 ^ (16 - Z.of_nat n)).
Proof.
  revert x acc. induction n as [|n IH]; intros x acc Hx Hn.
  - cbn. split; [done|]. f_equal. change (16 ^ (16 - 0)) with 18446744073709551616. rewrite Z.div_small by done. lia.
  - cbn [printptr_chars]. set (P := 16 ^ (16 - Z.of_nat (S n))). assert (0 < P) by (apply Z.pow_pos_nonneg; lia).
    assert (EP : 16 ^ (16 - Z.of_nat n) = 16 * P) by (unfold P; rewrite <- Z.pow_succ_r by lia; f_equal; lia).
    assert (E60 : 16 ^ Z.of_nat n * P = 1152921504606846976).
    { unfold P. rewrite <- Z.pow_add_r by lia. change 1152921504606846976 with (16 ^ 15). f_equal. lia. }
    rewrite Z.shiftr_div_pow2, Z.shiftl_mul_pow2 by lia. change (2 ^ 60) with 1152921504606846976. change (2 ^ 4) with 16.
    set (t := x / 1152921504606846976). set (y := x mod 1152921504606846976).
    assert (Ex : x = t * 1152921504606846976 + y) by (unfold t, y; zlia). assert (Hy : 0 <= y < 1152921504606846976) by (unfold y; zlia).
    assert (Ht : 0 <= t < 16) by (unfold t; zlia). assert (Eu : u64 (x * 16) = y * 16) by (unfold u64, y; zlia). rewrite Eu.
    destruct (digits_val t Ht) as [Dv _]. destruct (IH (y * 16) (acc * 16 + t)) as [Ln R]; [lia|lia|]. split; [cbn [length]; by rewrite Ln|].
    cbn [read_digits]. rewrite Dv. cbn [mbind option_bind]. replace (t <? 16) with true by (symmetry; apply Z.ltb_lt; lia). rewrite R. f_equal.
    rewrite EP, Nat2Z.inj_succ, Z.pow_succ_r by lia. rewrite (Z.mul_comm y 16), Z.div_mul_cancel_l by lia.
    rewrite Ex, <- E60. replace (t * (16 ^ Z.of_nat n * P) + y) with (t * 16 ^ Z.of_nat n * P + y) by ring. rewrite Z.div_add_l by lia. ring.
Qed.

(** C38: printed numbers denote the value and fit the buffer.  For a signed int in base 10 or
    16, INT_MIN included, the characters printint outputs read back as the number, at most
    12 are stored in its 16-byte buffer, and there is no leading zero; unsigned they read
    back as the value modulo 2^32.  printptr prints the 16 hexadecimal digits of an
    address. *)
Theorem printint_reads_back xx base x :
  -2147483648 <= xx < 2147483648 -> 10 <= base <= 16 -> 0 <= x < 18446744073709551616 ->
  read_num base (printint_chars xx base true) = Some xx /\
  read_num base (printint_chars xx base false) = Some (u32 xx) /\
  (forall sign, (length (printint_chars xx base sign) <= 12)%nat) /\
  (0 < xx -> head (printint_chars xx base true) <> Some 48) /\
  length (printptr_chars 16 x) = 16%nat /\ read_num 16 (printptr_chars 16 x) = Some x.
Proof.
  intros Hx Hb Hp.
  assert (B : forall y, 0 <= y < 4294967296 -> 0 <= y < base ^ 10 /\ 0 <= y < base ^ Z.of_nat 32).
  { intros y Hy. pose proof (Z.pow_le_mono_l 10 base 10 ltac:(lia)). pose proof (Z.pow_le_mono_l 10 base 32 ltac:(lia)).
    change (Z.of_nat 32) with 32. change (10 ^ 10) with 10000000000 in *. change (10 ^ 32) with 100000000000000000000000000000000 in *. lia. }
  assert (Hu : forall z, 0 <= u32 z < 4294967296) by (intros z; unfold u32; zlia).
  assert (D : forall z, let l := rev (printint_buf 32 (u32 z) base) in
    read_num base l = Some (u32 z) /\ (length l <= 10)%nat /\ l <> [] /\ read_digits base 0 l = Some (u32 z) /\ (0 < u32 z -> head l <> Some 48)).
  { intros z l. destruct (B _ (Hu z)) as [B1 B2]. destruct (printint_buf_spec 32 (u32 z) base ltac:(lia) B2 ltac:(lia)) as (R & Ne & La).
    assert (Nl : l <> []) by (intros E; apply (f_equal length) in E; unfold l in E; rewrite length_rev in E; by apply nil_length_inv in E).
    split_and!; try done.
    - by apply read_num_digits.
    - unfold l. rewrite length_rev. apply length_printint_buf; [lia|exact B1|lia].
    - intros Hz. unfold l. rewrite rev_alt. fold (reverse (printint_buf 32 (u32 z) base)). rewrite head_reverse. by apply La. }
  split_and!.
  - unfold printint_chars. cbn [andb]. destruct (Z.ltb_spec xx 0) as [Hn|Hn].
    + rewrite rev_app_distr. cbn [rev app]. destruct (D (- xx)) as (_ & _ & Ne & R & _). rewrite read_num_minus, R by done. cbn. f_equal. unfold u32. zlia.
    + destruct (D xx) as (R & _). rewrite R. f_equal. unfold u32. zlia.
  - unfold printint_chars. cbn [andb]. apply (D xx).
  - intros sign. unfold printint_chars. destruct (sign && (xx <? 0)).
    + rewrite rev_app_distr, length_app. destruct (D (- xx)) as (_ & Ln & _). cbn [rev app length] in *. lia.
    + destruct (D xx) as (_ & Ln & _). lia.
  - intros Hpos. unfold printint_chars. cbn [andb]. replace (xx <? 0) with false by (symmetry; apply Z.ltb_ge; lia).
    apply (D xx). unfold u32. zlia.
  - by apply (printptr_chars_spec 16 x 0).
  - destruct (printptr_chars_spec 16 x 0 Hp ltac:(lia)) as [Ln R]. change (16 - Z.of_nat 16) with 0 in R. rewrite Z.pow_0_r, Z.div_1_r in R.
    apply read_num_digits; [intros E; by rewrite E in Ln|exact R].
Qed.

Lemma printint_reads_back_witness :
  printint_chars (-2147483648) 10 true = bytes_of "-2147483648"%string /\
  read_num 10 (printint_chars (-2147483648) 10 true) = Some (-2147483648).
Proof.
  split; [vm_compute; reflexivity|].
  destruct (printint_reads_back (-2147483648) 10 0 ltac:(lia) ltac:(lia) ltac:(lia)) as [E _]. exact E.
Defined.
