(* ===== verification/UserSys.v ===== *)
(** * System calls seen from a user program (user/user.h)

    User programs are written against an interface: a system call gets its arguments and
    answers with a result and the bytes it stored in the caller's memory, or the caller is
    gone, after exit or a successful exec.  The answers seen by one process are the world's. *)

From S2P Require Import Prelude.
From Stdlib Require Import ZArith Lia.
From stdpp Require Import base numbers list strings.

#[local] Open Scope Z_scope.

(** A string literal's bytes. *)
Definition str (s : String.string) : list Z := map (fun a => Z.of_nat (Ascii.nat_of_ascii a)) (String.list_ascii_of_string s).
#[global] Arguments str s%_string.

(** The calls declared in user.h; strings are given without their NUL. *)
Inductive syscall :=
| Sfork
| Sexit (status : Z)
| Swait
| Spipe
| Swrite (fd : Z) (data : list Z)
| Sread (fd n : Z)
| Sclose (fd : Z)
| Skill (pid : Z)
| Sexec (path : list Z) (argv : list (list Z))
| Sopen (path : list Z) (omode : Z)
| Smknod (path : list Z) (major minor : Z)
| Sunlink (path : list Z)
| Sfstat (fd : Z)
| Slink (old new : list Z)
| Smkdir (path : list Z)
| Schdir (path : list Z)
| Sdup (fd : Z)
| Sgetpid
| Ssbrk (n : Z)
| Ssleep (n : Z)
| Suptime
| Smemsize
| Sco_yield (pid value : Z).

(** The kernel as one process sees it. *)
Class Sys := {
  world : Type;
  call : syscall -> world -> option (Z * list Z) * world }.

Section UserMonad.
Context `{S : Sys}.

(** A result, the process gone, an access outside an object, or not enough fuel. *)
Inductive ures (A : Type) :=
| Done (a : A) (w : world)
| Gone (w : world)
| Fault
| Unfinished.

Definition U (A : Type) : Type := world -> ures A.

End UserMonad.

#[global] Arguments Done {S A} a w.
#[global] Arguments Gone {S A} w.
#[global] Arguments Fault {S A}.
#[global] Arguments Unfinished {S A}.

Declare Scope user_scope.
Delimit Scope user_scope with U.

Section Ops.
Context `{S : Sys}.

Definition uret {A} (a : A) : U A := fun w => Done a w.
Definition ubind {A B} (m : U A) (k : A -> U B) : U B :=
  fun w => match m w with
           | Done a w' => k a w'
           | Gone w' => Gone w'
           | Fault => Fault
           | Unfinished => Unfinished
           end.
Definition unofuel {A} : U A := fun _ => Unfinished.

Definition syscall_ (c : syscall) : U (Z * list Z) :=
  fun w => match call c w with
           | (Some r, w') => Done r w'
           | (None, w') => Gone w'
           end.

(** exit does not return; a world that answers it anyway ends the program too. *)
Definition exit {A} (status : Z) : U A := fun w => Gone (snd (call (Sexit status) w)).
Definition ures_val (c : syscall) : U Z := ubind (syscall_ c) (fun r => uret (fst r)).

Definition read (fd n : Z) : U (Z * list Z) := syscall_ (Sread fd n).
Definition write (fd : Z) (data : list Z) : U Z := ures_val (Swrite fd data).

End Ops.

Notation "'do' x <- m ; k" := (ubind m (fun x => k)) (at level 200, x pattern, m at level 100, k at level 200) : user_scope.
Notation "m ;; k" := (ubind m (fun _ => k)) (at level 100, right associativity) : user_scope.

Lemma ubind_done `{S : Sys} {A B} (m : U A) (k : A -> U B) a w w' : m w = Done a w' -> ubind m k w = k a w'.
Proof. unfold ubind. by intros ->. Qed.

(** [m] does not run out of fuel or fault, and what it returns, if it returns, satisfies [Q]. *)
Definition runs `{S : Sys} {A} (m : U A) (Q : A -> Prop) : Prop :=
  forall w, match m w with Done a _ => Q a | Gone _ => True | Fault | Unfinished => False end.

Section Runs.
Context `{S : Sys}.

Lemma runs_ret {A} (a : A) (Q : A -> Prop) : Q a -> runs (uret a) Q.
Proof. by intros H w. Qed.

Lemma runs_bind {A B} (m : U A) (k : A -> U B) (P : A -> Prop) (Q : B -> Prop) :
  runs m P -> (forall a, P a -> runs (k a) Q) -> runs (ubind m k) Q.
Proof. intros Hm Hk w. specialize (Hm w). unfold ubind. destruct (m w); try done. by apply Hk. Qed.

Lemma runs_call c (Q : Z -> Prop) : (forall z, Q z) -> runs (ures_val c) Q.
Proof. intros H w. unfold ures_val, syscall_, ubind, uret. by destruct (call c w) as [[[z d]|] w']. Qed.

Lemma runs_syscall c (Q : Z * list Z -> Prop) : (forall r, Q r) -> runs (syscall_ c) Q.
Proof. intros H w. unfold syscall_. by destruct (call c w) as [[r|] w']. Qed.

Lemma runs_exit {A} n (Q : A -> Prop) : runs (exit n) Q.
Proof. done. Qed.

Lemma runs_seq {A B} (m : U A) (k : U B) (Q : B -> Prop) : runs m (fun _ => True) -> runs k Q -> runs (ubind m (fun _ => k)) Q.
Proof. intros Hm Hk. by eapply runs_bind. Qed.
End Runs.

Create HintDb runs.
#[export] Hint Resolve runs_ret runs_call runs_syscall runs_exit runs_seq : runs.

(** ** Standard input and output

    What programs that filter a stream rely on: reads return the next bytes of the input, at
    least one while there are any; writes to the standard output are appended to it. *)
Class Stdio `{S : Sys} (fd : Z) := {
  input : world -> list Z;
  output : world -> list Z;
  read_input n w : 0 <= n ->
    exists k w', call (Sread fd n) w = (Some (Z.of_nat k, take k (input w)), w') /\
      (k <= length (input w))%nat /\ Z.of_nat k <= n /\ (k = 0%nat -> n = 0 \/ input w = []) /\
      input w' = drop k (input w) /\ output w' = output w;
  write_output d w : exists w', call (Swrite 1 d) w = (Some (Z.of_nat (length d), []), w') /\
    input w' = input w /\ output w' = output w ++ d }.

Lemma write_run `{W : Sys} {fd : Z} {St : Stdio fd} d (w : world) : exists w', write 1 d w = Done (Z.of_nat (length d)) w' /\ input w' = input w /\ output w' = output w ++ d.
Proof.
  destruct (write_output d w) as (w' & E & Hi & Ho). exists w'. split; [|done].
  unfold write, ures_val, syscall_, ubind. by rewrite E.
Qed.

Lemma read_run `{W : Sys} {fd : Z} {St : Stdio fd} n (w : world) :
  0 <= n -> exists k w', read fd n w = Done (Z.of_nat k, take k (input w)) w' /\
    (k <= length (input w))%nat /\ Z.of_nat k <= n /\ (k = 0%nat -> n = 0 \/ input w = []) /\
    input w' = drop k (input w) /\ output w' = output w.
Proof.
  intros Hn. destruct (read_input n w Hn) as (k & w' & E & H). exists k, w'. split; [|exact H]. unfold read, syscall_. by rewrite E.
Qed.

(** A world of two byte lists that delivers at most seven bytes a read. *)
Definition stdio_world : Sys := {|
  world := list Z * list Z;
  call c w :=
    match c with
    | Sread _ n => let k := Nat.min (Z.to_nat (Z.min n 7)) (length (fst w)) in
                   (Some (Z.of_nat k, take k (fst w)), (drop k (fst w), snd w))
    | Swrite 1 d => (Some (Z.of_nat (length d), []), (fst w, snd w ++ d))
    | Sexit _ => (None, w)
    | _ => (Some (-1, []), w)
    end |}.

#[global] Instance stdio_stream : @Stdio stdio_world 0.
Proof.
  refine {| input := fst : @world stdio_world -> list Z; output := snd : @world stdio_world -> list Z |}.
  - intros n [i o] Hn. exists (Nat.min (Z.to_nat (Z.min n 7)) (length i)). eexists. split; [reflexivity|]. cbn. split_and!; try lia; try done.
    intros H. destruct i; [by right|]. cbn in H. left. lia.
  - intros d [i o]. eexists. split; [reflexivity|done].
Defined.
