(* ===== verification/Ulib.v ===== *)
(** * The user library (user/ulib.c, user/printf.c)

    A char pointer is the list of the bytes from there on; reading past the list's end reads
    the NUL that ends the string.  Functions that return a pointer into their argument return
    its offset. *)

From S2P Require Import Prelude Bytes UserSys.
From Stdlib Require Import ZArith Lia.
From stdpp Require Import base numbers list.

#[local] Open Scope Z_scope.
#[local] Open Scope user_scope.

(** *p and p + 1. *)
Definition deref (p : list Z) : Z := hd 0 p.

(** The bytes strcpy stores, the NUL included. *)
Fixpoint strcpy (t : list Z) : list Z :=
  match t with
  | [] => [0]
  | c :: t' => if c =? 0 then [0] else c :: strcpy t'
  end.

Fixpoint strcmp (p q : list Z) : Z :=
  match p with
  | [] => u8 0 - u8 (deref q)
  | c :: p' => if truth c && (c =? deref q) then strcmp p' (tail q) else u8 c - u8 (deref q)
  end.

Fixpoint strlen (s : list Z) : nat :=
  match s with
  | [] => 0
  | c :: s' => if truth c then S (strlen s') else 0
  end.

(** cdst[0..n) after memset. *)
Definition memset (c : Z) (n : nat) : list Z := replicate n (u8 c).

Fixpoint strchr (s : list Z) (c : Z) : option nat :=
  match s with
  | [] => None
  | x :: s' => if truth x then if x =? c then Some 0%nat else S <$> strchr s' c else None
  end.

Fixpoint atoi_loop (n : Z) (s : list Z) : Z :=
  match s with
  | [] => n
  | c :: s' => if (48 <=? c) && (c <=? 57) then atoi_loop (i32 (n * 10 + c - 48)) s' else n
  end.

Definition atoi (s : list Z) : Z := atoi_loop 0 s.

Fixpoint memcmp (p1 p2 : list Z) (n : nat) : Z :=
  match n with
  | O => 0
  | S n' => if negb (deref p1 =? deref p2) then deref p1 - deref p2 else memcmp (tail p1) (tail p2) n'
  end.

(** memmove within the array [l], from offset [src] to offset [dst]. *)
Fixpoint move_up (n dst src : nat) (l : list Z) : list Z :=
  match n with
  | O => l
  | S n' => move_up n' (S dst) (S src) (<[dst := l !!! src]> l)
  end.

Fixpoint move_down (n dst src : nat) (l : list Z) : list Z :=
  match n with
  | O => l
  | S n' => move_down n' dst src (<[(dst + n')%nat := l !!! (src + n')%nat]> l)
  end.

Definition memmove (l : list Z) (dst src n : nat) : list Z :=
  if (dst <? src)%nat then move_up n dst src l else move_down n dst src l.

Section Calls.
Context `{W : Sys}.

Definition _main (main : U unit) : U unit := main ;; exit 0.

(** The bytes gets leaves in buf, the NUL included. *)
Fixpoint gets_loop (fuel : nat) (i max : Z) : U (list Z) :=
  match fuel with
  | O => unofuel
  | S fuel' =>
      if negb (i + 1 <? max) then uret [] else
      do r <- read 0 1;
      if fst r <? 1 then uret [] else
      let c := deref (snd r) in
      if (c =? 10) || (c =? 13) then uret [c] else
      do rest <- gets_loop fuel' (i + 1) max;
      uret (c :: rest)
  end.

Definition gets (max : Z) : U (list Z) := do l <- gets_loop (S (Z.to_nat max)) 0 max; uret (l ++ [0]).

(** The result and the bytes of the struct. *)
Definition stat (n : list Z) : U (Z * list Z) :=
  do fd <- ures_val (Sopen n 0);
  if fd <? 0 then uret (-1, []) else
  do r <- syscall_ (Sfstat fd);
  ures_val (Sclose fd) ;;
  uret r.

(** ** Formatted output *)

Definition putc (fd c : Z) : U unit := write fd [u8 c] ;; uret tt.

Fixpoint puts (fd : Z) (l : list Z) : U unit :=
  match l with
  | [] => uret tt
  | c :: l' => putc fd c ;; puts fd l'
  end.

(** The digits 0123456789ABCDEF. *)
Definition digits : list Z := [48; 49; 50; 51; 52; 53; 54; 55; 56; 57; 65; 66; 67; 68; 69; 70].

(** buf after the do-while loop of printint. *)
Fixpoint printint_digits (fuel : nat) (x base : Z) : list Z :=
  match fuel with
  | O => []
  | S fuel' =>
      let d := digits !!! Z.to_nat (x mod base) in
      if x / base =? 0 then [d] else d :: printint_digits fuel' (x / base) base
  end.

Definition printint_text (xx base : Z) (sgn : bool) : list Z :=
  let neg := sgn && (xx <? 0) in
  let x := if neg then u32 (- xx) else u32 xx in
  let buf := printint_digits 32 x base in
  rev (if neg then buf ++ [45] else buf).

Definition printint (fd xx base : Z) (sgn : bool) : U unit := puts fd (printint_text xx base sgn).

Fixpoint printptr_text (n : nat) (x : Z) : list Z :=
  match n with
  | O => []
  | S n' => (digits !!! Z.to_nat (Z.shiftr x 60)) :: printptr_text n' (u64 (Z.shiftl x 4))
  end.

Definition printptr (fd x : Z) : U unit := puts fd (48 :: 120 :: printptr_text 16 x).

(** The arguments va_arg fetches. *)
Inductive varg := VInt (x : Z) | VStr (s : option (list Z)).

(** The characters before the NUL. *)
Fixpoint ctext (s : list Z) : list Z :=
  match s with
  | [] => []
  | c :: s' => if c =? 0 then [] else c :: ctext s'
  end.

(** [state] is 0 or the character of a pending percent sign. *)
Fixpoint vprintf (fd : Z) (fmt : list Z) (ap : list varg) (state : Z) : U unit :=
  match fmt with
  | [] => uret tt
  | c :: fmt' =>
      if c =? 0 then uret tt else
      let c := Z.land c 255 in
      if state =? 0 then
        if c =? 37 then vprintf fd fmt' ap 37 else putc fd c ;; vprintf fd fmt' ap 0
      else if state =? 37 then
        if c =? 100 then
          match ap with VInt x :: ap' => printint fd (i32 x) 10 true ;; vprintf fd fmt' ap' 0 | _ => fun _ => Fault end
        else if c =? 108 then
          match ap with VInt x :: ap' => printint fd (i32 x) 10 false ;; vprintf fd fmt' ap' 0 | _ => fun _ => Fault end
        else if c =? 120 then
          match ap with VInt x :: ap' => printint fd (i32 x) 16 false ;; vprintf fd fmt' ap' 0 | _ => fun _ => Fault end
        else if c =? 112 then
          match ap with VInt x :: ap' => printptr fd (u64 x) ;; vprintf fd fmt' ap' 0 | _ => fun _ => Fault end
        else if c =? 115 then
          match ap with
          | VStr s :: ap' => puts fd (ctext (default [40; 110; 117; 108; 108; 41] s)) ;; vprintf fd fmt' ap' 0
          | _ => fun _ => Fault
          end
        else if c =? 99 then
          match ap with VInt x :: ap' => putc fd x ;; vprintf fd fmt' ap' 0 | _ => fun _ => Fault end
        else if c =? 37 then putc fd c ;; vprintf fd fmt' ap 0
        else putc fd 37 ;; putc fd c ;; vprintf fd fmt' ap 0
      else vprintf fd fmt' ap state
  end.

Definition fprintf (fd : Z) (fmt : list Z) (ap : list varg) : U unit := vprintf fd fmt ap 0.
Definition printf (fmt : list Z) (ap : list varg) : U unit := vprintf 1 fmt ap 0.

End Calls.

(** ** Laws *)

Lemma lookup_move_up n dst src l i :
  (dst <= src)%nat -> (src + n <= length l)%nat ->
  move_up n dst src l !! i = if decide (dst <= i < dst + n)%nat then l !! (i - dst + src)%nat else l !! i.
Proof.
  revert dst src l. induction n as [|n IH]; intros dst src l H1 H2; cbn [move_up].
  - by rewrite decide_False by lia.
  - rewrite IH by (rewrite ?length_insert; lia).
    destruct (decide (S dst <= i < S dst + n)%nat), (decide (dst <= i < dst + S n)%nat); try lia.
    + rewrite list_lookup_insert_ne by lia. f_equal. lia.
    + replace i with dst by lia. rewrite list_lookup_insert_eq by lia. rewrite Nat.sub_diag. cbn.
      symmetry. apply list_lookup_lookup_total_lt. lia.
    + by rewrite list_lookup_insert_ne by lia.
Qed.

Lemma lookup_move_down n dst src l i :
  (src <= dst)%nat -> (dst + n <= length l)%nat ->
  move_down n dst src l !! i = if decide (dst <= i < dst + n)%nat then l !! (i - dst + src)%nat else l !! i.
Proof.
  revert l. induction n as [|n IH]; intros l H1 H2; cbn [move_down].
  - by rewrite decide_False by lia.
  - rewrite IH by (rewrite ?length_insert; lia).
    destruct (decide (dst <= i < dst + n)%nat), (decide (dst <= i < dst + S n)%nat); try lia.
    + by rewrite list_lookup_insert_ne by lia.
    + replace i with (dst + n)%nat by lia. rewrite list_lookup_insert_eq by lia. replace (dst + n - dst + src)%nat with (src + n)%nat by lia.
      symmetry. apply list_lookup_lookup_total_lt. lia.
    + by rewrite list_lookup_insert_ne by lia.
Qed.

(** memmove stores the bytes the source held before it started, overlap or not. *)
Lemma memmove_bytes l dst src n :
  (dst + n <= length l)%nat -> (src + n <= length l)%nat -> memmove l dst src n = put_bytes dst (get_bytes src n l) l.
Proof.
  intros H1 H2. apply list_eq. intros i. assert (Lg := length_get_bytes src n l H2). rewrite lookup_put_bytes by (by rewrite Lg). rewrite Lg.
  unfold memmove. destruct (Nat.ltb_spec dst src); rewrite ?lookup_move_up, ?lookup_move_down by lia;
    (destruct (decide (dst <= i < dst + n)%nat); [|done]); rewrite lookup_get_bytes, decide_True by lia; f_equal; lia.
Qed.

Lemma vprintf_char `{W : Sys} d c fmt ap : 0 < c < 256 -> c <> 37 -> vprintf d (c :: fmt) ap 0 = (putc d c ;; vprintf d fmt ap 0).
Proof.
  intros Hc Hp. cbn [vprintf]. rewrite (proj2 (Z.eqb_neq c 0)) by lia. change 255 with (Z.ones 8). rewrite Z.land_ones, Z.mod_small by lia.
  cbv zeta. by rewrite (proj2 (Z.eqb_neq c 37)).
Qed.

Lemma vprintf_int `{W : Sys} d x fmt ap :
  vprintf d (37 :: 100 :: fmt) (VInt x :: ap) 0 = (printint d (i32 x) 10 true ;; vprintf d fmt ap 0).
Proof. reflexivity. Qed.

Lemma vprintf_str `{W : Sys} d s fmt ap :
  vprintf d (37 :: 115 :: fmt) (VStr (Some s) :: ap) 0 = (puts d (ctext s) ;; vprintf d fmt ap 0).
Proof. reflexivity. Qed.

(** The arguments have the types the format asks for. *)
Fixpoint args_ok (fmt : list Z) (ap : list varg) (pct : bool) : bool :=
  match fmt with
  | [] => true
  | c :: fmt' =>
      if negb pct then args_ok fmt' ap (Z.land c 255 =? 37)
      else if bool_decide (Z.land c 255 ∈ [100; 108; 120; 112; 99]) then
        match ap with VInt _ :: ap' => args_ok fmt' ap' false | _ => false end
      else if Z.land c 255 =? 115 then
        match ap with VStr _ :: ap' => args_ok fmt' ap' false | _ => false end
      else args_ok fmt' ap false
  end.

Lemma runs_puts `{W : Sys} fd l : runs (puts fd l) (fun _ => True).
Proof. induction l as [|c l IH]; cbn [puts]; unfold putc; eauto with runs. Qed.
#[export] Hint Resolve runs_puts : runs.

Lemma runs_putc `{W : Sys} fd c : runs (putc fd c) (fun _ => True).
Proof. unfold putc. eauto with runs. Qed.
#[export] Hint Resolve runs_putc : runs.

(** printf returns when its arguments match the format. *)
Lemma runs_vprintf `{W : Sys} fd fmt ap pct : args_ok fmt ap pct = true -> runs (vprintf fd fmt ap (if pct then 37 else 0)) (fun _ => True).
Proof.
  revert ap pct. induction fmt as [|c fmt IH]; intros ap pct H; cbn [vprintf]; [by apply runs_ret|]. cbn [args_ok] in H.
  destruct (c =? 0); [by apply runs_ret|]. cbv zeta. set (d := Z.land c 255) in *. destruct pct; cbn [negb] in H.
  - change (37 =? 0) with false. change (37 =? 37) with true. cbv iota. unfold printint, printptr.
    assert (Hint : bool_decide (d ∈ [100; 108; 120; 112; 99]) = true -> exists x ap', ap = VInt x :: ap' /\ args_ok fmt ap' false = true).
    { intros Hb. rewrite Hb in H. destruct ap as [|[x|x] ap]; try done. by exists x, ap. }
    repeat match goal with |- context [if d =? ?k then _ else _] => destruct (Z.eqb_spec d k) end;
      try (destruct Hint as (x & ap' & -> & Hap); [by apply bool_decide_eq_true; subst d; rewrite !elem_of_cons; tauto|]; apply runs_seq; [auto with runs|by apply (IH ap' false)]).
    + destruct (decide (d ∈ [100; 108; 120; 112; 99])) as [Hd|Hd]; [rewrite !elem_of_cons, elem_of_nil in Hd; lia|].
      rewrite bool_decide_false in H by done. destruct ap as [|[x|x] ap]; try done.
      apply runs_seq; [auto with runs|by apply (IH ap false)].
    + rewrite bool_decide_false in H by (rewrite !elem_of_cons, elem_of_nil; lia). apply runs_seq; [auto with runs|by apply (IH ap false)].
    + rewrite bool_decide_false in H by (rewrite !elem_of_cons, elem_of_nil; lia).
      apply runs_seq; [auto with runs|]. apply runs_seq; [auto with runs|by apply (IH ap false)].
  - change (0 =? 0) with true. cbv iota. destruct (Z.eqb_spec d 37) as [E|E].
    + by apply (IH ap true).
    + apply runs_seq; [auto with runs|by apply (IH ap false)].
Qed.

(** Text written character by character. *)
Lemma puts_run `{W : Sys} {fd : Z} {St : Stdio fd} l (w : world) :
  Forall is_byte l -> exists w', puts 1 l w = Done tt w' /\ input w' = input w /\ output w' = output w ++ l.
Proof.
  intros Hl. revert w. induction Hl as [|c l Hc Hl IH]; intros w; cbn [puts].
  - exists w. by rewrite app_nil_r.
  - destruct (write_run [u8 c] w) as (w1 & E1 & Hi1 & Ho1). destruct (IH w1) as (w' & E & Hi & Ho). exists w'.
    assert (E2 : putc 1 c w = Done tt w1) by (unfold putc; by rewrite (ubind_done _ _ _ _ _ E1)).
    rewrite (ubind_done _ _ _ _ _ E2), E, Hi, Ho, Hi1, Ho1, <- app_assoc. split_and!; [done..|]. cbn [app]. do 2 f_equal. by apply u8_small.
Qed.

Lemma digits_value k : (k < 16)%nat -> is_byte (digits !!! k) /\ ((k < 10)%nat -> digits !!! k = 48 + Z.of_nat k).
Proof. intros H. unfold is_byte. do 16 (destruct k as [|k]; [cbn; lia|]). lia. Qed.

Lemma printint_digits_bytes fuel x base : 1 < base <= 16 -> Forall is_byte (printint_digits fuel x base).
Proof.
  intros Hb. revert x. induction fuel as [|fuel IH]; intros x; cbn [printint_digits]; [constructor|].
  assert (Hd : is_byte (digits !!! Z.to_nat (x mod base))) by (apply digits_value; assert (H := Z.mod_pos_bound x base); lia).
  destruct (x / base =? 0); constructor; auto.
Qed.

Lemma printint_text_bytes x base sgn : 1 < base <= 16 -> Forall is_byte (printint_text x base sgn).
Proof.
  intros Hb. unfold printint_text. apply Forall_rev. destruct (sgn && (x <? 0)); [apply Forall_app_2|]; try by apply printint_digits_bytes.
  constructor; [unfold is_byte; lia|constructor].
Qed.

(** Reading the digits back: what follows them is read with the number so far. *)
Lemma atoi_digits fuel x rest :
  0 <= x < 2147483648 -> x < 10 ^ Z.of_nat fuel -> atoi_loop 0 (rev (printint_digits fuel x 10) ++ rest) = atoi_loop x rest.
Proof.
  revert x rest. induction fuel as [|fuel IH]; intros x rest Hx Hf; [cbn in Hf; replace x with 0 by lia; done|].
  cbn [printint_digits]. assert (Hm := Z.mod_pos_bound x 10). assert (Hdm := Z.div_mod x 10).
  assert (Hv : digits !!! Z.to_nat (x mod 10) = 48 + x mod 10) by (rewrite (proj2 (digits_value (Z.to_nat (x mod 10)) ltac:(lia))) by lia; lia).
  assert (Hstep : forall n, n * 10 + x mod 10 = x -> atoi_loop n ((digits !!! Z.to_nat (x mod 10)) :: rest) = atoi_loop x rest).
  { intros n Hn. cbn [atoi_loop]. rewrite Hv. rewrite (proj2 (Z.leb_le 48 _)), (proj2 (Z.leb_le _ 57)) by lia. cbn [andb].
    rewrite i32_small by lia. f_equal. lia. }
  destruct (Z.eqb_spec (x / 10) 0) as [E|E].
  - cbn [rev app]. apply Hstep. lia.
  - cbn [rev]. rewrite <- app_assoc, IH; [apply Hstep; lia|lia|]. rewrite Nat2Z.inj_succ, Z.pow_succ_r in Hf by lia. lia.
Qed.

(** A non-negative int printed by printf's %d is read back by atoi, up to the first
    character that is no digit. *)
Theorem atoi_printint x rest :
  0 <= x < 2147483648 -> ~ 48 <= deref rest <= 57 -> atoi (printint_text x 10 true ++ rest) = x.
Proof.
  intros Hx Hr. unfold atoi, printint_text. rewrite (proj2 (Z.ltb_ge x 0)) by lia. cbn [andb]. rewrite u32_small by lia.
  rewrite atoi_digits by (cbn; lia). destruct rest as [|c rest]; [done|]. cbn [atoi_loop]. cbn in Hr.
  by destruct (Z.leb_spec 48 c), (Z.leb_spec c 57); try lia.
Qed.

Lemma atoi_printint_witness : atoi (printint_text 2025 10 true ++ [32; 49]) = 2025.
Proof. apply (atoi_printint 2025 [32; 49]); [lia|cbn; lia]. Defined.
