(* ===== verification/Umalloc.v ===== *)
(** * The memory allocator of user programs (user/umalloc.c)

    The program's memory is bytes; a header is 16 bytes, its next pointer at offset 0 and its
    size, in headers, at offset 8.  The static header [base] is at a fixed address below the
    heap.  sbrk is a system call of the world. *)

From S2P Require Import Prelude Memory UserSys.
From Stdlib Require Import ZArith Lia.
From stdpp Require Import base numbers list gmap.

#[local] Open Scope Z_scope.
#[local] Open Scope user_scope.

(** ** union header *)

Definition sizeof_Header : Z := 16.
Definition h_ptr (m : memory) (p : Z) : Z := mld64 m p.
Definition h_size (m : memory) (p : Z) : Z := mld32 m (p + 8).
Definition set_h_ptr (p v : Z) (m : memory) : memory := mst64 m p v.
Definition set_h_size (p v : Z) (m : memory) : memory := mst32 m (p + 8) v.

(** [p + n] for a pointer to headers. *)
Definition hplus (p n : Z) : Z := p + sizeof_Header * n.

(** The program's memory and freep. *)
Record heap := mkheap {
  hp_mem : memory;
  hp_freep : Z }.

Section Umalloc.
Context `{S : Sys} (base : Z).

Definition sbrk (n : Z) : U Z := ures_val (Ssbrk n).

(** ** free *)

(** The free block after which the block at [bp] goes. *)
Fixpoint free_scan (fuel : nat) (bp p : Z) (m : memory) : U Z :=
  match fuel with
  | O => unofuel
  | Datatypes.S fuel' =>
      if (p <? bp) && (bp <? h_ptr m p) then uret p
      else if (h_ptr m p <=? p) && ((p <? bp) || (bp <? h_ptr m p)) then uret p
      else free_scan fuel' bp (h_ptr m p) m
  end.

(** The block at [bp] gets the successor of [p], joined with it if they are adjacent. *)
Definition link_next (bp p : Z) (m : memory) : memory :=
  if hplus bp (h_size m bp) =? h_ptr m p then
    let m := set_h_size bp (u32 (h_size m bp + h_size m (h_ptr m p))) m in
    set_h_ptr bp (h_ptr m (h_ptr m p)) m
  else set_h_ptr bp (h_ptr m p) m.

(** The block at [p] gets [bp] as its successor, joined with it if they are adjacent. *)
Definition link_prev (bp p : Z) (m : memory) : memory :=
  if hplus p (h_size m p) =? bp then
    let m := set_h_size p (u32 (h_size m p + h_size m bp)) m in
    set_h_ptr p (h_ptr m bp) m
  else set_h_ptr p bp m.

Definition free (fuel : nat) (ap : Z) (h : heap) : U heap :=
  let bp := hplus ap (-1) in
  do p <- free_scan fuel bp (hp_freep h) (hp_mem h);
  uret (mkheap (link_prev bp p (link_next bp p (hp_mem h))) p).

(** ** malloc *)

(** The new freep, or 0. *)
Definition morecore (fuel : nat) (nu : Z) (h : heap) : U (Z * heap) :=
  let nu := if nu <? 4096 then 4096 else nu in
  do p <- sbrk (i32 (nu * sizeof_Header));
  if p =? -1 then uret (0, h) else
  let h := mkheap (set_h_size p nu (hp_mem h)) (hp_freep h) in
  do h <- free fuel (hplus p 1) h;
  uret (hp_freep h, h).

(** Takes [nunits] headers from the block at [p]: the memory and the block taken. *)
Definition carve (nunits prevp p : Z) (m : memory) : memory * Z :=
  if h_size m p =? nunits then (set_h_ptr prevp (h_ptr m p) m, p)
  else
    let m := set_h_size p (u32 (h_size m p - nunits)) m in
    let p := hplus p (h_size m p) in
    (set_h_size p nunits m, p).

Fixpoint malloc_scan (fuel n : nat) (nunits prevp p : Z) (h : heap) : U (Z * heap) :=
  match n with
  | O => unofuel
  | Datatypes.S n' =>
      if nunits <=? h_size (hp_mem h) p then
        let r := carve nunits prevp p (hp_mem h) in
        uret (hplus (snd r) 1, mkheap (fst r) prevp)
      else if p =? hp_freep h then
        do (q, h) <- morecore fuel nunits h;
        if q =? 0 then uret (0, h) else malloc_scan fuel n' nunits q (h_ptr (hp_mem h) q) h
      else malloc_scan fuel n' nunits p (h_ptr (hp_mem h) p) h
  end.

Definition malloc (fuel : nat) (nbytes : Z) (h : heap) : U (Z * heap) :=
  let nunits := u32 ((nbytes + sizeof_Header - 1) / sizeof_Header + 1) in
  let h := if hp_freep h =? 0 then mkheap (set_h_size base 0 (set_h_ptr base base (hp_mem h))) base else h in
  malloc_scan fuel fuel nunits (hp_freep h) (h_ptr (hp_mem h) (hp_freep h)) h.
End Umalloc.
