(* ===== verification/UmallocSpec.v ===== *)
(** * The allocator hands out disjoint blocks and loses none (user/umalloc.c)

    Blocks are pairs of the address of their header and their size in headers.  The free list
    is a list of blocks in address order that [base] heads and closes; free and live blocks
    tile the memory sbrk gave. *)

From S2P Require Import Prelude Memory UserSys Umalloc.
From Stdlib Require Import ZArith Lia.
From stdpp Require Import base numbers list gmap.

#[local] Open Scope Z_scope.

Abbreviation block := (Z * Z)%type.

(** ** Headers *)

(** The memories differ at most in the headers at [ps]. *)
Definition off_headers (ps : list Z) (m m' : memory) : Prop := mem_same (fun x => Forall (fun p => x < p \/ p + 16 <= x) ps) m m'.

Lemma off_headers_refl ps m : off_headers ps m m.
Proof. by intros x _. Qed.

Lemma off_headers_trans ps m1 m2 m3 : off_headers ps m1 m2 -> off_headers ps m2 m3 -> off_headers ps m1 m3.
Proof. intros H1 H2 x Hx. by rewrite H2, H1. Qed.

Lemma off_headers_sub ps qs m m' : ps ⊆ qs -> off_headers ps m m' -> off_headers qs m m'.
Proof. intros Hs H x Hx. apply H. rewrite Forall_forall in *. auto. Qed.

Lemma off_set_ptr p v m : off_headers [p] m (set_h_ptr p v m).
Proof. intros x Hx. apply Forall_cons in Hx as [Hx _]. apply mget_mst64_out. lia. Qed.

Lemma off_set_size p v m : off_headers [p] m (set_h_size p v m).
Proof. intros x Hx. apply Forall_cons in Hx as [Hx _]. apply mget_mst32_out. lia. Qed.

Lemma ptr_off ps m m' q : off_headers ps m m' -> Forall (fun p => q + 16 <= p \/ p + 16 <= q) ps -> h_ptr m' q = h_ptr m q /\ h_size m' q = h_size m q.
Proof.
  intros H Hq. split; [apply mld64_ext|apply mld32_ext]; intros x Hx; apply H; eapply Forall_impl; try exact Hq; cbn; lia.
Qed.

Lemma ptr_set_ptr p v m : 0 <= v < 2 ^ 64 -> h_ptr (set_h_ptr p v m) p = v.
Proof. intros H. unfold h_ptr, set_h_ptr. rewrite mld64_mst64_same. by apply u64_small. Qed.

Lemma size_set_size p v m : 0 <= v < 2 ^ 32 -> h_size (set_h_size p v m) p = v.
Proof. intros H. unfold h_size, set_h_size. rewrite mld32_mst32_same. by apply u32_small. Qed.

Lemma size_set_ptr p v m : h_size (set_h_ptr p v m) p = h_size m p.
Proof. apply mld32_ext. intros x Hx. apply mget_mst64_out. lia. Qed.

Lemma ptr_set_size p v m : h_ptr (set_h_size p v m) p = h_ptr m p.
Proof. apply mld64_ext. intros x Hx. apply mget_mst32_out. lia. Qed.

(** ** The free list *)

Definition hd_addr (bs : list block) (z : Z) : Z := match bs with [] => z | b :: _ => b.1 end.

(** The headers of [bs] have their sizes and point to one another, the last to [z]. *)
Fixpoint chained (m : memory) (bs : list block) (z : Z) : Prop :=
  match bs with
  | [] => True
  | b :: bs' => h_ptr m b.1 = hd_addr bs' z /\ h_size m b.1 = b.2 /\ chained m bs' z
  end.

Lemma hd_addr_app l1 l2 z : hd_addr (l1 ++ l2) z = hd_addr l1 (hd_addr l2 z).
Proof. by destruct l1. Qed.

Lemma chained_app m l1 l2 z : chained m (l1 ++ l2) z <-> chained m l1 (hd_addr l2 z) /\ chained m l2 z.
Proof. induction l1 as [|b l1 IH]; cbn [chained app]; [tauto|]. rewrite IH, hd_addr_app. tauto. Qed.

Lemma chained_ext m m' bs z : Forall (fun b => forall x, b.1 <= x < b.1 + 16 -> mget m' x = mget m x) bs -> chained m bs z -> chained m' bs z.
Proof.
  induction 1 as [|b bs Hb _ IH]; [done|]. intros (H1 & H2 & H3). cbn [chained]. rewrite <- H1, <- H2. split_and!; [apply mld64_ext|apply mld32_ext|by apply IH]; intros x Hx; apply Hb; lia.
Qed.

Lemma chained_off ps m m' bs z :
  off_headers ps m m' -> Forall (fun b => Forall (fun p => b.1 + 16 <= p \/ p + 16 <= b.1) ps) bs -> chained m bs z -> chained m' bs z.
Proof.
  intros H Hb. apply chained_ext. eapply Forall_impl; [exact Hb|]. cbn beta. intros b Hp x Hx. apply H. eapply Forall_impl; [exact Hp|cbn; lia].
Qed.

Lemma chained_at m bs z i b : chained m bs z -> bs !! i = Some b -> h_ptr m b.1 = hd_addr (drop (S i) bs) z /\ h_size m b.1 = b.2.
Proof.
  revert i. induction bs as [|b' bs IH]; intros [|i] HL E; try done; cbn in *.
  - injection E as ->. destruct HL as (H1 & H2 & _). split; [by rewrite H1; destruct bs|done].
  - apply IH; [apply HL|done].
Qed.

(** ** Disjoint blocks *)

Definition apart (b b' : block) : Prop := b.1 + 16 * b.2 <= b'.1 \/ b'.1 + 16 * b'.2 <= b.1.

Fixpoint pairwise (bs : list block) : Prop :=
  match bs with
  | [] => True
  | b :: bs' => Forall (apart b) bs' /\ pairwise bs'
  end.

Definition units (bs : list block) : Z := foldr (fun b r => b.2 + r) 0 bs.

(** The blocks lie in [lo, hi), are disjoint and have [n] headers together. *)
Record tiles (lo hi n : Z) (bs : list block) : Prop := {
  tl_range : Forall (fun b => lo <= b.1 /\ 0 < b.2 /\ b.1 + 16 * b.2 <= hi) bs;
  tl_apart : pairwise bs;
  tl_units : units bs = n }.

Lemma apart_sym b b' : apart b b' -> apart b' b.
Proof. unfold apart. tauto. Qed.

#[global] Instance pairwise_perm : Proper (Permutation ==> iff) pairwise.
Proof.
  assert (H : forall l l', l ≡ₚ l' -> pairwise l -> pairwise l').
  { induction 1 as [|x l l' P IH|x y l|]; cbn [pairwise]; [done| | |auto].
    - intros [F W]. split; [by rewrite <- P|auto].
    - intros (F1 & F2 & W). apply Forall_cons in F1 as [A F1]. split; [constructor; [by apply apart_sym|done]|done]. }
  intros l l' P. split; apply H; [done|by symmetry].
Qed.

#[global] Instance units_perm : Proper (Permutation ==> eq) units.
Proof. intros l l' P. unfold units. induction P; cbn; lia. Qed.

#[global] Instance tiles_perm lo hi n : Proper (Permutation ==> iff) (tiles lo hi n).
Proof.
  assert (H : forall l l', l ≡ₚ l' -> tiles lo hi n l -> tiles lo hi n l') by (intros l l' P [R A N]; split; [by rewrite <- P|by rewrite <- P|by rewrite <- P]).
  intros l l' P. split; apply H; [done|by symmetry].
Qed.

(** A block is cut in two, two adjacent blocks are joined. *)
Lemma tiles_cut lo hi n a s t bs : tiles lo hi n ((a, s + t) :: bs) -> 0 < s -> 0 < t -> tiles lo hi n ((a, s) :: (a + 16 * s, t) :: bs).
Proof.
  intros [R [A W] N] Hs Ht. apply Forall_cons in R as [Hr R]. cbn [fst snd] in *. split.
  - constructor; [cbn; lia|]. constructor; [cbn; lia|done].
  - cbn [pairwise]. split_and!; [|eapply Forall_impl; [exact A|]; unfold apart; cbn; lia|done].
    constructor; [unfold apart; cbn; lia|]. eapply Forall_impl; [exact A|]. unfold apart. cbn. lia.
  - unfold units in *. cbn [foldr snd] in *. lia.
Qed.

Lemma tiles_join lo hi n a s t bs : tiles lo hi n ((a, s) :: (a + 16 * s, t) :: bs) -> tiles lo hi n ((a, s + t) :: bs).
Proof.
  intros [R (A1 & A2 & W) N]. apply Forall_cons in R as [H1 R]. apply Forall_cons in R as [H2 R]. apply Forall_cons in A1 as [_ A1]. cbn [fst snd] in *. split.
  - constructor; [cbn; lia|done].
  - split; [|done]. rewrite Forall_forall in *. intros b Hb. specialize (A1 b Hb). specialize (A2 b Hb). specialize (R b Hb). unfold apart in *. cbn [fst snd] in *. lia.
  - unfold units in *. cbn [foldr snd] in *. lia.
Qed.

(** ** Walking around the free list *)

(** The blocks are in address order with something between any two. *)
Fixpoint gaps (lo : Z) (bs : list block) : Prop :=
  match bs with
  | [] => True
  | b :: bs' => lo < b.1 /\ gaps (b.1 + 16 * b.2) bs'
  end.

Lemma gaps_above lo bs : gaps lo bs -> Forall (fun b => 0 <= b.2) bs -> Forall (fun b => lo < b.1) bs.
Proof.
  intros G P. revert lo G. induction P as [|b bs Hb P IH]; intros lo G; [done|]. destruct G as [G1 G2]. constructor; [done|].
  eapply Forall_impl; [by apply IH|]. cbn. lia.
Qed.

Lemma gaps_weaken lo lo' bs : gaps lo bs -> lo' <= lo -> gaps lo' bs.
Proof. destruct bs as [|b bs]; [done|]. intros [H1 H2] H. split; [lia|done]. Qed.

Lemma gaps_order bs : forall lo i j b b', gaps lo bs -> Forall (fun b => 0 <= b.2) bs -> bs !! i = Some b -> bs !! j = Some b' -> (i < j)%nat -> b.1 < b'.1.
Proof.
  induction bs as [|b0 bs IH]; intros lo i j b b' G P Ei Ej Hij; [done|]. apply Forall_cons in P as [P0 P]. destruct G as [_ G].
  destruct j as [|j]; [lia|]. destruct i as [|i]; [|by apply (IH (b0.1 + 16 * b0.2) i j); [..|lia]].
  cbn in Ei, Ej. injection Ei as ->. pose proof (gaps_above _ _ G P) as B. rewrite Forall_lookup in B. specialize (B j b' Ej). cbn in B. lia.
Qed.

Lemma gaps_app lo l1 b l2 : gaps lo (l1 ++ b :: l2) <-> gaps lo (l1 ++ [b]) /\ gaps (b.1 + 16 * b.2) l2.
Proof. revert lo. induction l1 as [|b' l1 IH]; intros lo; cbn [gaps app]; [tauto|]. rewrite IH. tauto. Qed.

Lemma gaps_last lo l p s s' : gaps lo (l ++ [(p, s)]) -> gaps lo (l ++ [(p, s')]).
Proof. revert lo. induction l as [|b l IH]; intros lo; [done|]. intros [G1 G2]. split; [done|by apply IH]. Qed.

Section Walk.
Context (base : Z) (m : memory) (fl : list block).
Context (HL : chained m ((base, 0) :: fl) base) (G : gaps (base + 15) fl) (P : Forall (fun b => 0 < b.2) fl).

Definition ring : list block := (base, 0) :: fl.
#[local] Notation n := (length ring).
Definition adr (i : nat) : Z := (ring !!! i).1.
Definition nxt (i : nat) : nat := if decide (S i = n) then 0%nat else S i.

(** The steps from one position to another. *)
Definition dist (i j : nat) : nat := if decide (i <= j)%nat then (j - i)%nat else (n - i + j)%nat.

Lemma ring_at i : (i < n)%nat -> ring !! i = Some (ring !!! i).
Proof. intros H. destruct (lookup_lt_is_Some_2 ring i H) as [b E]. by rewrite (list_lookup_total_correct _ _ _ E). Qed.

Lemma adr_next i : (i < n)%nat -> h_ptr m (adr i) = adr (nxt i) /\ h_size m (adr i) = (ring !!! i).2.
Proof.
  intros H. destruct (chained_at m ring base i _ HL (ring_at i H)) as [E1 E2]. split; [|done]. unfold adr at 1. rewrite E1. unfold nxt. case_decide as D.
  - by rewrite drop_ge by lia.
  - assert (Hi : (S i < n)%nat) by lia. by rewrite (drop_S _ _ _ (ring_at _ Hi)).
Qed.

Lemma adr_mono i j : (i < j < n)%nat -> adr i < adr j.
Proof.
  intros H. apply (gaps_order ring (base - 1) i j); [|constructor; [done|eapply Forall_impl; [exact P|cbn; lia]]|apply ring_at; lia..|lia].
  split; [cbn; lia|]. apply (gaps_weaken (base + 15)); [done|cbn; lia].
Qed.

(** free finds the last block before the one it gets. *)
Lemma free_scan_ok `{W : Sys} bp j w : (j < n)%nat -> adr j < bp -> (forall k, (j < k < n)%nat -> bp < adr k) ->
  forall fuel i, (i < n)%nat -> (dist i j < fuel)%nat -> free_scan fuel bp (adr i) m w = Done (adr j) w.
Proof.
  intros Hj Hlo Hhi. induction fuel as [|fuel IH]; intros i Hi Hd; [lia|]. cbn [free_scan]. rewrite (proj1 (adr_next i Hi)).
  assert (Hnx : (nxt i < n)%nat) by (unfold nxt; case_decide; lia).
  destruct (decide (i = j)) as [->|Nij].
  - unfold nxt. case_decide as D.
    + assert (adr 0 <= adr j) by (destruct (decide (j = 0%nat)) as [->|]; [lia|apply Z.lt_le_incl, adr_mono; lia]).
      destruct (Z.ltb_spec (adr j) bp), (Z.ltb_spec bp (adr 0)), (Z.leb_spec (adr 0) (adr j)); try lia; done.
    + specialize (Hhi (S j) ltac:(lia)). destruct (Z.ltb_spec (adr j) bp), (Z.ltb_spec bp (adr (S j))); try lia; done.
  - replace (dist i j) with (S (dist (nxt i) j)) in Hd by (unfold dist, nxt; repeat case_decide; lia).
    rewrite <- (IH (nxt i)) by lia.
    assert (Hij : (i < j)%nat \/ bp < adr i) by (destruct (decide (i < j)%nat); [by left|right; apply Hhi; lia]).
    assert (Hstop : (adr i <? bp) && (bp <? adr (nxt i)) = false /\ (adr (nxt i) <=? adr i) && ((adr i <? bp) || (bp <? adr (nxt i))) = false); [|destruct Hstop as [-> ->]; done].
    unfold nxt. case_decide as D.
    + assert (bp < adr i) by (destruct Hij; [lia|done]). assert (adr 0 < bp) by (destruct (decide (j = 0%nat)) as [->|]; [lia|pose proof (adr_mono 0 j); lia]).
      destruct (Z.ltb_spec (adr i) bp), (Z.ltb_spec bp (adr 0)), (Z.leb_spec (adr 0) (adr i)); try lia; done.
    + pose proof (adr_mono i (S i) ltac:(lia)). assert (Hs : adr (S i) < bp \/ bp < adr i).
      { destruct Hij; [left|by right]. destruct (decide (S i = j)) as [->|]; [done|]. pose proof (adr_mono (S i) j). lia. }
      destruct (Z.ltb_spec (adr i) bp), (Z.ltb_spec bp (adr (S i))), (Z.leb_spec (adr (S i)) (adr i)); try lia; done.
Qed.
End Walk.

(** ** free *)

(** The size and the successors of a block that absorbs an adjacent successor. *)
Definition absorb (bp sb : Z) (k2 : list block) : Z * list block :=
  match k2 with
  | b :: k2' => if bp + 16 * sb =? b.1 then (sb + b.2, k2') else (sb, k2)
  | [] => (sb, [])
  end.

(** A block and its successors, joined with the first if adjacent. *)
Definition attach (b c : block) (r : list block) : list block := if b.1 + 16 * b.2 =? c.1 then (b.1, b.2 + c.2) :: r else b :: c :: r.

Definition clear_of (p : Z) (bs : list block) : Prop := Forall (fun b => b.1 + 16 <= p \/ p + 16 <= b.1) bs.

Lemma clear_chained p m m' bs z : off_headers [p] m m' -> clear_of p bs -> chained m bs z -> chained m' bs z.
Proof. intros H C. apply (chained_off [p]); [done|]. eapply Forall_impl; [exact C|]. intros b Hb. by constructor. Qed.

Lemma clear_at p m m' q : off_headers [p] m m' -> q + 16 <= p \/ p + 16 <= q -> h_ptr m' q = h_ptr m q /\ h_size m' q = h_size m q.
Proof. intros H C. apply (ptr_off [p]); [done|by constructor]. Qed.

Lemma off_set_both p v w m : off_headers [p] m (set_h_ptr p v (set_h_size p w m)).
Proof. eapply off_headers_trans; [apply off_set_size|apply off_set_ptr]. Qed.

Lemma link_next_ok base bp sb p k2 m :
  h_ptr m p = hd_addr k2 base -> chained m k2 base -> h_size m bp = sb -> clear_of bp k2 -> p + 16 <= bp -> 0 < base < bp -> 0 < sb ->
  Forall (fun b => 0 < b.1 < 2 ^ 64 /\ 0 < b.2 /\ sb + b.2 < 2 ^ 32) k2 -> base < 2 ^ 64 ->
  let '(sb', r) := absorb bp sb k2 in chained (link_next bp p m) ((bp, sb') :: r) base /\ off_headers [bp] m (link_next bp p m).
Proof.
  intros Hp HL Hs Hc Hlt Hb Hpos HR Hbb. unfold link_next, hplus, sizeof_Header. rewrite Hs, Hp. destruct k2 as [|b k2]; cbn [absorb hd_addr].
  - rewrite (proj2 (Z.eqb_neq _ _)) by lia. split; [|apply off_set_ptr]. cbn [chained hd_addr fst snd]. split_and!; [apply ptr_set_ptr; lia|by rewrite size_set_ptr|done].
  - apply Forall_cons in Hc as [Hc1 Hc]. apply Forall_cons in HR as [HR1 HR]. destruct HL as (L1 & L2 & L3).
    assert (Hn : 0 <= hd_addr k2 base < 2 ^ 64) by (destruct HR; cbn; lia).
    destruct (Z.eqb_spec (bp + 16 * sb) b.1) as [E|E].
    + rewrite L2, u32_small by lia. destruct (clear_at bp _ _ p (off_set_size bp (sb + b.2) m) ltac:(lia)) as [-> _]. rewrite Hp. cbn [hd_addr].
      destruct (clear_at bp _ _ b.1 (off_set_size bp (sb + b.2) m) Hc1) as [-> _]. rewrite L1. split; [|apply off_set_both].
      cbn [chained fst snd]. split_and!; [by apply ptr_set_ptr|rewrite size_set_ptr; apply size_set_size; lia|]. by eapply clear_chained; [apply off_set_both|..].
    + split; [|apply off_set_ptr]. cbn [chained hd_addr fst snd]. split; [apply ptr_set_ptr; lia|]. split; [by rewrite size_set_ptr|].
      change (chained (set_h_ptr bp b.1 m) (b :: k2) base). eapply clear_chained; [apply off_set_ptr|by constructor|done].
Qed.

Lemma link_prev_ok base bp sb p s r m :
  chained m ((bp, sb) :: r) base -> h_size m p = s -> clear_of p ((bp, sb) :: r) -> 0 < bp < 2 ^ 64 -> 0 <= s -> 0 < sb -> s + sb < 2 ^ 32 ->
  0 <= hd_addr r base < 2 ^ 64 ->
  chained (link_prev bp p m) (attach (p, s) (bp, sb) r) base /\ off_headers [p] m (link_prev bp p m).
Proof.
  intros HL Hs Hc Hb H0 Hpos Hsum Hr. pose proof HL as (L1 & L2 & L3). cbn [fst snd] in *. pose proof Hc as [Hc1 Hc2]%Forall_cons. cbn [fst] in Hc1.
  unfold link_prev, attach, hplus, sizeof_Header. cbn [fst snd]. rewrite Hs. destruct (Z.eqb_spec (p + 16 * s) bp) as [E|E].
  - rewrite L2, u32_small by lia. destruct (clear_at p _ _ bp (off_set_size p (s + sb) m) Hc1) as [-> _]. rewrite L1. split; [|apply off_set_both].
    cbn [chained fst snd]. split_and!; [by apply ptr_set_ptr|rewrite size_set_ptr; apply size_set_size; lia|]. by eapply clear_chained; [apply off_set_both|..].
  - split; [|apply off_set_ptr]. split; [apply ptr_set_ptr; cbn; lia|]. split; [cbn [fst snd]; by rewrite size_set_ptr|].
    by eapply clear_chained; [apply off_set_ptr|..].
Qed.

(** The free list split at an address. *)
Lemma gaps_split bp lo fl :
  gaps lo fl -> Forall (fun b => 0 <= b.2) fl -> Forall (fun b => b.1 <> bp) fl ->
  exists k1 k2, fl = k1 ++ k2 /\ Forall (fun b => b.1 < bp) k1 /\ Forall (fun b => bp < b.1) k2.
Proof.
  revert lo. induction fl as [|b fl IH]; intros lo G P N; [by exists [], []|]. apply Forall_cons in P as [P1 P]. apply Forall_cons in N as [N1 N]. destruct G as [G1 G].
  destruct (Z_lt_ge_dec b.1 bp) as [Hlt|Hge].
  - destruct (IH _ G P N) as (k1 & k2 & -> & H1 & H2). exists (b :: k1), k2. split; [done|]. by split; [constructor|].
  - exists [], (b :: fl). split_and!; [done|done|]. constructor; [lia|]. eapply Forall_impl; [by apply (gaps_above (b.1 + 16 * b.2))|]. cbn. lia.
Qed.

Lemma absorb_tiles lo hi n bp sb k2 bs :
  tiles lo hi n ((bp, sb) :: k2 ++ bs) -> let '(sb', r) := absorb bp sb k2 in tiles lo hi n ((bp, sb') :: r ++ bs).
Proof.
  intros T. destruct k2 as [|[q t] k2]; [done|]. cbn [absorb fst snd]. destruct (Z.eqb_spec (bp + 16 * sb) q) as [<-|]; [|done]. by apply tiles_join.
Qed.

Lemma absorb_gaps lo bp sb k2 :
  gaps lo k2 -> Forall (fun b => bp + 16 * sb <= b.1) k2 -> let '(sb', r) := absorb bp sb k2 in gaps (bp + 16 * sb') r.
Proof.
  intros G A. destruct k2 as [|[q t] k2]; [done|]. cbn [absorb fst snd]. apply Forall_cons in A as [A1 A]. destruct G as [G1 G2]. cbn [fst snd] in *.
  destruct (Z.eqb_spec (bp + 16 * sb) q) as [<-|].
  - by replace (bp + 16 * (sb + t)) with (bp + 16 * sb + 16 * t) by lia.
  - split; [cbn; lia|done].
Qed.

Lemma absorb_sub bp sb k2 : Forall (fun b => 0 < b.2) k2 -> let '(sb', r) := absorb bp sb k2 in sb <= sb' /\ (length r <= length k2)%nat /\ r ⊆ k2.
Proof.
  intros P. destruct k2 as [|b k2]; [done|]. apply Forall_cons in P as [Pb _]. cbn [absorb]. destruct (_ =? _); cbn [length]; split_and!; try lia; try done.
  by apply list_subseteq_cons.
Qed.

Lemma absorb_bound bp sb N k2 : Forall (fun b => sb + b.2 < N) k2 -> sb < N -> let '(sb', r) := absorb bp sb k2 in sb' < N.
Proof. intros P H. destruct k2 as [|b k2]; [done|]. apply Forall_cons in P as [Pb _]. cbn [absorb]. by destruct (_ =? _). Qed.

(** Freeing a block on the lists: where it goes, and what the lists are then. *)
Lemma freed_list base lo hi n fl bp sb al :
  tiles lo hi n (fl ++ (bp, sb) :: al) -> gaps (base + 15) fl -> base + 16 <= lo ->
  exists l1 p s k2 fl', ring base fl = l1 ++ (p, s) :: k2 /\ p < bp /\ Forall (fun b => bp < b.1) k2 /\
    (let '(sb', r) := absorb bp sb k2 in ring base fl' = l1 ++ attach (p, s) (bp, sb') r) /\ tiles lo hi n (fl' ++ al) /\ gaps (base + 15) fl' /\
    Exists (fun b => sb <= b.2) fl' /\ (length fl' <= S (length fl))%nat.
Proof.
  intros T G Hlo. assert (T1 : tiles lo hi n ((bp, sb) :: fl ++ al)) by (by rewrite Permutation_middle).
  pose proof (tl_range _ _ _ _ T1) as R. apply Forall_cons in R as [R1 R]. pose proof (tl_apart _ _ _ _ T1) as [A _]. apply Forall_app in R as [R _]. apply Forall_app in A as [A _].
  cbn [fst snd] in R1. destruct (gaps_split bp (base + 15) fl G) as (k1 & k2 & -> & H1 & H2).
  { eapply Forall_impl; [exact R|]. cbn. lia. }
  { rewrite Forall_forall in *. intros b Hb E. specialize (R b Hb). specialize (A b Hb). unfold apart in A. cbn in *. lia. }
  assert (Q2 : Forall (fun b => bp + 16 * sb <= b.1) k2).
  { apply Forall_app in R as [_ R]. apply Forall_app in A as [_ A]. rewrite Forall_forall in *. intros b Hb. specialize (R b Hb). specialize (A b Hb). specialize (H2 b Hb). unfold apart in A. cbn in *. lia. }
  assert (T2 : tiles lo hi n ((bp, sb) :: k2 ++ k1 ++ al)) by (rewrite app_assoc, (Permutation_app_comm k2 k1); exact T1).
  apply absorb_tiles in T2. pose proof (absorb_sub bp sb k2) as Sb. apply Forall_app in R as [Rk R2].
  specialize (Sb ltac:(eapply Forall_impl; [exact R2|cbn; lia])). destruct k1 as [|[p s] k1 _] using rev_ind.
  - pose proof (absorb_gaps _ bp sb k2 G Q2) as G2. destruct (absorb bp sb k2) as [sb' r] eqn:E. exists [], base, 0, k2, ((bp, sb') :: r).
    destruct Sb as (S1 & S2 & _).
    split_and!; [done|lia|done| |done|split; [cbn; lia|done]|by left|cbn; lia]. rewrite E. unfold attach. cbn [fst snd]. rewrite (proj2 (Z.eqb_neq _ _)) by lia. done.
  - rewrite <- app_assoc in G. cbn [app] in G. apply gaps_app in G as [G1 G]. pose proof (absorb_gaps _ bp sb k2 G Q2) as G2. cbn [fst snd] in G.
    apply Forall_app in H1 as [_ H1]. apply Forall_cons in H1 as [Hp _]. cbn [fst] in Hp.
    assert (Ps : 0 < s) by (apply Forall_app in Rk as [_ [Rk _]%Forall_cons]; cbn in Rk; lia).
    assert (Hps : p + 16 * s <= bp).
    { apply Forall_app in A as [[_ [A _]%Forall_cons]%Forall_app _]. unfold apart in A. cbn in *. lia. }
    destruct (absorb bp sb k2) as [sb' r] eqn:E. destruct Sb as (S1 & S2 & _).
    assert (T3 : tiles lo hi n ((p, s) :: (bp, sb') :: k1 ++ r ++ al)).
    { eapply tiles_perm; [|exact T2]. rewrite <- !app_assoc. cbn [app]. rewrite <- !Permutation_middle, perm_swap. f_equiv. f_equiv. by rewrite !app_assoc, (Permutation_app_comm k1 r). }
    destruct (Z.eqb_spec (p + 16 * s) bp) as [Ea|Ea].
    + exists ((base, 0) :: k1), p, s, k2, (k1 ++ (p, s + sb') :: r). rewrite E. unfold attach. cbn [fst snd]. rewrite Ea, Z.eqb_refl. rewrite <- Ea in T3. apply tiles_join in T3.
      split_and!; [by unfold ring; rewrite <- app_assoc|done|done|done| | | |rewrite !length_app; cbn [length]; lia].
      * by rewrite <- app_assoc, <- app_comm_cons, <- Permutation_middle.
      * apply gaps_app. split; [by apply (gaps_last _ _ p s)|]. cbn [fst snd]. by replace (p + 16 * (s + sb')) with (bp + 16 * sb') by lia.
      * apply Exists_app. right. left. cbn. lia.
    + exists ((base, 0) :: k1), p, s, k2, (k1 ++ (p, s) :: (bp, sb') :: r). rewrite E. unfold attach. cbn [fst snd]. rewrite (proj2 (Z.eqb_neq _ _) Ea).
      split_and!; [by unfold ring; rewrite <- app_assoc|done|done|done| | | |rewrite !length_app; cbn [length]; lia].
      * rewrite <- app_assoc, <- !app_comm_cons, <- !Permutation_middle. exact T3.
      * apply gaps_app. split; [done|]. split; [cbn; lia|done].
      * apply Exists_app. right. right. by left.
Qed.

(** ** The heap *)

Lemma pairwise_apart bs x y : pairwise bs -> x ∈ bs -> y ∈ bs -> x <> y -> apart x y.
Proof.
  induction bs as [|b bs IH]; [by intros _ ?%elem_of_nil|]. intros [F P] Hx Hy N. rewrite Forall_forall in F.
  apply elem_of_cons in Hx as [->|Hx]; apply elem_of_cons in Hy as [->|Hy].
  - done.
  - by apply F.
  - by apply apart_sym, F.
  - by apply IH.
Qed.

Section Heap.
Context (base start : Z).

(** The header of a block or [base], and another block. *)
Lemma header_body lo hi n bs x y :
  tiles lo hi n bs -> base + 16 <= lo -> x ∈ (base, 0) :: bs -> y ∈ bs -> x.1 <> y.1 -> x.1 + 16 <= y.1 \/ y.1 + 16 * y.2 <= x.1.
Proof.
  intros [R P _] Hb Hx Hy N. rewrite Forall_forall in R. pose proof (R y Hy) as Ry. apply elem_of_cons in Hx as [->|Hx]; [cbn in *; lia|].
  pose proof (R x Hx) as Rx. assert (A : apart x y) by (apply (pairwise_apart bs); [done..|congruence]). unfold apart in A. cbn in *. lia.
Qed.

Lemma header_header lo hi n bs x y :
  tiles lo hi n bs -> base + 16 <= lo -> x ∈ (base, 0) :: bs -> y ∈ (base, 0) :: bs -> x.1 <> y.1 -> x.1 + 16 <= y.1 \/ y.1 + 16 <= x.1.
Proof.
  intros T Hb Hx Hy N. assert (Hy' := Hy). apply elem_of_cons in Hy' as [->|Hy'].
  - apply elem_of_cons in Hx as [->|Hx]; [done|]. destruct T as [R _ _]. rewrite Forall_forall in R. pose proof (R x Hx). cbn in *. lia.
  - pose proof (header_body lo hi n bs x y T Hb Hx Hy' N). destruct T as [R _ _]. rewrite Forall_forall in R. pose proof (R y Hy'). cbn in *. lia.
Qed.

(** The free blocks [fl] and the live blocks [al] of a heap up to [hi]. *)
Record heap_ok (hi : Z) (h : heap) (fl al : list block) : Prop := {
  ho_base : 0 < base /\ base + 16 <= start <= hi /\ hi <= 134217728;
  ho_whole : (hi - start) mod 16 = 0;
  ho_tiles : tiles start hi ((hi - start) / 16) (fl ++ al);
  ho_gaps : gaps (base + 15) fl;
  ho_link : chained (hp_mem h) (ring base fl) base;
  ho_freep : hp_freep h ∈ (ring base fl).*1;
  ho_live : Forall (fun b => h_size (hp_mem h) b.1 = b.2) al }.

(** The bytes of the live blocks, their headers included, are as they were. *)
Definition kept (al : list block) (m m' : memory) : Prop := Forall (fun b => forall x, b.1 <= x < b.1 + 16 * b.2 -> mget m' x = mget m x) al.

Lemma ring_split lo fl l1 p s k2 :
  gaps (base + 15) fl -> Forall (fun b => 0 < b.2) fl -> lo < base -> ring base fl = l1 ++ (p, s) :: k2 ->
  Forall (fun b => b.1 < p) l1 /\ Forall (fun b => p < b.1) k2.
Proof.
  intros G P Hlo E. assert (G' : gaps lo (ring base fl)) by (split; [done|]; apply (gaps_weaken (base + 15)); [done|cbn; lia]).
  assert (P' : Forall (fun b => 0 <= b.2) (ring base fl)) by (constructor; [done|eapply Forall_impl; [exact P|cbn; lia]]). rewrite E in G', P'.
  assert (Ep : (l1 ++ (p, s) :: k2) !! length l1 = Some (p, s)) by (by rewrite list_lookup_middle). split; apply Forall_lookup; intros i b Eb.
  - pose proof (lookup_lt_Some _ _ _ Eb). apply (gaps_order _ lo i (length l1) b (p, s) G' P'); [by rewrite lookup_app_l|done|done].
  - apply (gaps_order _ lo (length l1) (length l1 + S i) (p, s) b G' P'); [done| |lia]. rewrite lookup_app_r by lia. by replace (length l1 + S i - length l1)%nat with (S i) by lia.
Qed.

Lemma kept_off ps al m m' :
  off_headers ps m m' -> Forall (fun b => Forall (fun p => p + 16 <= b.1 \/ b.1 + 16 * b.2 <= p) ps) al -> kept al m m'.
Proof.
  intros H C. eapply Forall_impl; [exact C|]. intros b Hb x Hx. apply H. eapply Forall_impl; [exact Hb|]. cbn. lia.
Qed.

Lemma kept_live al m m' : kept al m m' -> Forall (fun b => 0 < b.2) al -> Forall (fun b => h_size m b.1 = b.2) al -> Forall (fun b => h_size m' b.1 = b.2) al.
Proof.
  intros K P H. unfold kept in K. rewrite !Forall_forall in *. intros b Hb. rewrite <- (H b Hb). apply mld32_ext. intros x Hx. apply (K b Hb). specialize (P b Hb). cbn in P. lia.
Qed.
Lemma ring_rest fl l1 p s k2 (P : block -> Prop) : Forall P fl -> ring base fl = l1 ++ (p, s) :: k2 -> Forall P k2 /\ (s = 0 \/ P (p, s)).
Proof.
  intros F E. destruct l1 as [|b l1]; injection E as; subst; [by split; [|left]|]. apply Forall_app in F as [_ F]. apply Forall_cons in F as [F1 F2]. by split; [|right].
Qed.

Lemma clear_list lo hi n bs x l :
  tiles lo hi n bs -> base + 16 <= lo -> x ∈ (base, 0) :: bs -> l ⊆ (base, 0) :: bs -> Forall (fun b => b.1 <> x.1) l -> clear_of x.1 l.
Proof. intros T Hb Hx Hl N. unfold clear_of. rewrite !Forall_forall in *. intros b Hbb. apply (header_header lo hi n bs); auto. Qed.

(** The headers of the free list are clear of one another and of a live block's. *)
Lemma split_clear hi fl bp sb al l1 p s k2 :
  tiles start hi ((hi - start) / 16) (fl ++ (bp, sb) :: al) -> gaps (base + 15) fl -> base + 16 <= start -> ring base fl = l1 ++ (p, s) :: k2 ->
  p < bp -> Forall (fun b => bp < b.1) k2 ->
  clear_of p l1 /\ clear_of p k2 /\ clear_of bp l1 /\ clear_of bp k2 /\ p + 16 <= bp.
Proof.
  intros T G Hb E Hp H2. set (bs := fl ++ (bp, sb) :: al) in *. pose proof (tl_range _ _ _ _ T) as R.
  assert (Pf : Forall (fun b => 0 < b.2) fl) by (apply Forall_app in R as [R _]; eapply Forall_impl; [exact R|cbn; lia]).
  destruct (ring_split (base - 1) fl l1 p s k2 G Pf ltac:(lia) E) as [S1 S2].
  assert (Sub : l1 ++ (p, s) :: k2 ⊆ (base, 0) :: bs).
  { rewrite <- E. unfold ring, bs. apply list_subseteq_skip. by apply list_subseteq_app_l. }
  assert (Sub1 : l1 ⊆ (base, 0) :: bs) by (etrans; [by apply list_subseteq_app_l|exact Sub]).
  assert (Sub2 : k2 ⊆ (base, 0) :: bs) by (etrans; [|exact Sub]; apply list_subseteq_app_r; by apply list_subseteq_cons).
  assert (Inp : (p, s) ∈ (base, 0) :: bs) by (apply Sub, elem_of_app; right; apply list_elem_of_here).
  assert (Inb : (bp, sb) ∈ (base, 0) :: bs) by (apply list_elem_of_further, elem_of_app; right; apply list_elem_of_here).
  assert (C : forall x l, x ∈ (base, 0) :: bs -> l ⊆ (base, 0) :: bs -> Forall (fun b => b.1 <> x.1) l -> clear_of x.1 l) by (intros x l; by apply (clear_list start hi ((hi - start) / 16))).
  split_and!; [apply (C (p, s) l1)|apply (C (p, s) k2)|apply (C (bp, sb) l1)|apply (C (bp, sb) k2)|]; try done; cbn [fst].
  - eapply Forall_impl; [exact S1|cbn; lia].
  - eapply Forall_impl; [exact S2|cbn; lia].
  - eapply Forall_impl; [exact S1|cbn; lia].
  - eapply Forall_impl; [exact H2|cbn; lia].
  - pose proof (header_header start hi _ bs (p, s) (bp, sb) T Hb Inp Inb) as H. cbn in H. lia.
Qed.

(** What free does to the memory, on the list split at the block. *)
Lemma links_ok hi h fl bp sb al l1 p s k2 :
  heap_ok hi h fl ((bp, sb) :: al) -> ring base fl = l1 ++ (p, s) :: k2 -> p < bp -> Forall (fun b => bp < b.1) k2 ->
  let m' := link_prev bp p (link_next bp p (hp_mem h)) in
  (let '(sb', r) := absorb bp sb k2 in chained m' (l1 ++ attach (p, s) (bp, sb') r) base) /\ off_headers [p; bp] (hp_mem h) m'.
Proof.
  intros [Hb _ T G HL _ Lv] E Hp H2 m'. set (m := hp_mem h) in *. destruct (split_clear hi fl bp sb al l1 p s k2 T G ltac:(lia) E Hp H2) as (Cp1 & Cp2 & Cb1 & Cb2 & Hpb).
  rewrite E in HL. apply chained_app in HL as (L1 & Lp & Ls & L2). cbn [hd_addr fst snd] in *. apply Forall_cons in Lv as [Lb _]. cbn [fst snd] in Lb.
  assert (Rng : Forall (fun b => start <= b.1 /\ 0 < b.2 /\ b.1 + 16 * b.2 <= hi) ((bp, sb) :: fl)).
  { pose proof (tl_range _ _ _ _ T) as R. apply Forall_app in R as [R1 R2]. apply Forall_cons in R2 as [R2 _]. by constructor. }
  apply Forall_cons in Rng as [Rb Rf]. cbn [fst snd] in Rb.
  assert (Rk : Forall (fun b => 0 < b.1 < 2 ^ 64 /\ 0 < b.2 /\ sb + b.2 < 2 ^ 31) fl) by (eapply Forall_impl; [exact Rf|cbn; lia]).
  destruct (ring_rest fl l1 p s k2 _ Rk E) as [Rk2 Rs].
  assert (Hs : 0 <= s < 2 ^ 31) by (destruct Rs as [->|Rs]; [lia|cbn in Rs; lia]).
  pose proof (link_next_ok base bp sb p k2 m Lp L2 Lb Cb2 Hpb ltac:(lia) ltac:(lia) ltac:(eapply Forall_impl; [exact Rk2|cbn; lia]) ltac:(lia)) as LN.
  pose proof (absorb_sub bp sb k2 ltac:(eapply Forall_impl; [exact Rk2|cbn; lia])) as AS.
  pose proof (absorb_bound bp sb (2 ^ 31) k2 ltac:(eapply Forall_impl; [exact Rk2|cbn; lia]) ltac:(lia)) as AB.
  destruct (absorb bp sb k2) as [sb' r]. destruct LN as [LN O1]. destruct AS as (S1 & _ & S2). unfold m'. set (m1 := link_next bp p m) in *.
  destruct (clear_at bp m m1 p O1 ltac:(lia)) as [_ Es]. assert (Rr : Forall (fun b => 0 < b.1 < 2 ^ 64) r) by (apply Forall_forall; intros b Hbb; rewrite Forall_forall in Rk2; specialize (Rk2 b (S2 b Hbb)); cbn in *; lia).
  destruct (link_prev_ok base bp sb' p s r m1 LN) as [LP O2]; [congruence| |lia..| |].
  { constructor; [cbn; lia|]. unfold clear_of in *. rewrite Forall_forall in *. intros b Hbb. by apply Cp2, S2. }
  { destruct Rr; cbn; lia. }
  split.
  - apply chained_app. split; [|done]. replace (hd_addr (attach (p, s) (bp, sb') r) base) with p by (unfold attach; by destruct (_ =? _)).
    eapply clear_chained; [exact O2|done|]. by eapply clear_chained; [exact O1|..].
  - eapply off_headers_trans; [eapply off_headers_sub; [|exact O1]|eapply off_headers_sub; [|exact O2]]; intros x Hx; apply list_elem_of_singleton in Hx as ->; [apply list_elem_of_further|]; apply list_elem_of_here.
Qed.
(** A header of the first blocks and the body of one of the others. *)
Lemma body_clear lo hi n l1 l2 x y :
  tiles lo hi n (l1 ++ l2) -> base + 16 <= lo -> x ∈ (base, 0) :: l1 -> y ∈ l2 -> x.1 + 16 <= y.1 \/ y.1 + 16 * y.2 <= x.1.
Proof.
  intros [R A _] Hb Hx Hy. apply Forall_app in R as [R1 R2]. rewrite Forall_forall in R1, R2. pose proof (R2 y Hy) as Ry.
  apply elem_of_cons in Hx as [->|Hx]; [cbn in *; lia|]. pose proof (R1 x Hx) as Rx.
  assert (Axy : apart x y); [|unfold apart in Axy; cbn in *; lia]. clear R1 R2 Rx Ry. induction l1 as [|b l1 IH]; [by apply elem_of_nil in Hx|].
  destruct A as [F A]. apply elem_of_cons in Hx as [->|Hx]; [|by apply IH]. rewrite Forall_forall in F. apply F, elem_of_app. by right.
Qed.

Lemma kept_tiles lo hi n l1 al ps m m' :
  tiles lo hi n (l1 ++ al) -> base + 16 <= lo -> off_headers ps m m' -> Forall (fun p => p ∈ ((base, 0) :: l1).*1) ps -> kept al m m'.
Proof.
  intros T Hb O Hp. apply (kept_off ps); [done|]. apply Forall_forall. intros y Hy. eapply Forall_impl; [exact Hp|]. cbn beta. intros p (x & -> & Hx)%list_elem_of_fmap.
  by apply (body_clear lo hi n l1 al).
Qed.

Lemma free_sizes hi h fl al : heap_ok hi h fl al -> Forall (fun b => 0 < b.2) fl /\ Forall (fun b => 0 < b.2) al.
Proof.
  intros HO. pose proof (tl_range _ _ _ _ (ho_tiles _ _ _ _ HO)) as R. apply Forall_app in R as [R1 R2]. split; eapply Forall_impl; [exact R1|cbn; lia|exact R2|cbn; lia].
Qed.

Lemma scan_split `{W : Sys} fuel hi h fl al bp l1 p s k2 w :
  heap_ok hi h fl al -> ring base fl = l1 ++ (p, s) :: k2 -> p < bp -> Forall (fun b => bp < b.1) k2 -> (length fl < fuel)%nat ->
  free_scan fuel bp (hp_freep h) (hp_mem h) w = Done p w.
Proof.
  intros HO E Hp H2 Hf. destruct (free_sizes _ _ _ _ HO) as [Pf _]. destruct HO as [Hb Hw T G HL Hfp Lv].
  apply list_elem_of_fmap in Hfp as (b & Ef & Hfb). apply list_elem_of_lookup in Hfb as [i Hi]. pose proof (lookup_lt_Some _ _ _ Hi) as Hil.
  rewrite Ef. replace b.1 with (adr base fl i) by (unfold adr; by rewrite (list_lookup_total_correct _ _ _ Hi)).
  assert (Ej : forall k c, k2 !! k = Some c -> adr base fl (length l1 + S k) = c.1).
  { intros k c Ek. unfold adr. rewrite E. erewrite list_lookup_total_correct; [done|]. rewrite lookup_app_r by lia. by replace (length l1 + S k - length l1)%nat with (S k) by lia. }
  assert (Ep : adr base fl (length l1) = p) by (unfold adr; rewrite E; by erewrite list_lookup_total_correct; [|by rewrite list_lookup_middle]).
  assert (Ln : length (ring base fl) = S (length fl)) by done. assert (Ll : (length (ring base fl) = length l1 + S (length k2))%nat) by (rewrite E, length_app; done).
  rewrite <- Ep. apply (free_scan_ok base (hp_mem h) fl HL G Pf); [lia|lia| |lia|unfold dist; case_decide; lia].
  intros k Hk. destruct (lookup_lt_is_Some_2 k2 (k - length l1 - 1)) as [c Ec]; [lia|]. rewrite Forall_lookup in H2.
  replace k with (length l1 + S (k - length l1 - 1))%nat by lia. rewrite (Ej _ _ Ec). by apply (H2 _ _ Ec).
Qed.

Lemma free_ok `{W : Sys} fuel hi h fl bp sb al w :
  heap_ok hi h fl ((bp, sb) :: al) -> (length fl < fuel)%nat ->
  exists h' fl', free fuel (hplus bp 1) h w = Done h' w /\ heap_ok hi h' fl' al /\ kept al (hp_mem h) (hp_mem h') /\
    Exists (fun b => sb <= b.2) fl' /\ (length fl' <= S (length fl))%nat.
Proof.
  intros HO Hf. pose proof HO as [Hb Hw T G HL Hfp Lv].
  destruct (freed_list base start hi _ fl bp sb al T G ltac:(lia)) as (l1 & p & s & k2 & fl' & E & Hp & H2 & Efl & T' & G' & Ex & Hlen).
  destruct (links_ok hi h fl bp sb al l1 p s k2 HO E Hp H2) as [LK OF]. set (m' := link_prev bp p (link_next bp p (hp_mem h))) in *.
  assert (Inp : p ∈ (ring base fl).*1) by (rewrite E, fmap_app; apply elem_of_app; right; apply list_elem_of_here).
  pose proof (scan_split fuel hi h fl ((bp, sb) :: al) bp l1 p s k2 w HO E Hp H2 Hf) as Es.
  assert (K : kept al (hp_mem h) m').
  { apply (kept_tiles start hi ((hi - start) / 16) (fl ++ [(bp, sb)]) al [p; bp]); [by rewrite <- app_assoc|lia|done|].
    constructor; [|constructor; [|done]]; rewrite fmap_cons, fmap_app; [change (p ∈ (ring base fl).*1 ++ [bp])|change (bp ∈ (ring base fl).*1 ++ [bp])];
      apply elem_of_app; [by left|right; apply list_elem_of_here]. }
  exists (mkheap m' p), fl'. split_and!; [|split|done|done|done]; cbn [hp_mem hp_freep]; try done.
  - unfold free, ubind. replace (hplus (hplus bp 1) (-1)) with bp by (unfold hplus; lia). by rewrite Es.
  - destruct (absorb bp sb k2) as [sb' r]. by rewrite Efl.
  - destruct (absorb bp sb k2) as [sb' r]. rewrite Efl, fmap_app. apply elem_of_app. right. unfold attach. destruct (_ =? _); apply list_elem_of_here.
  - apply Forall_cons in Lv as [_ Lv]. destruct (free_sizes _ _ _ _ HO) as [_ [_ Pa]%Forall_cons]. by apply (kept_live al (hp_mem h)).
Qed.
(** ** malloc *)

Lemma gaps_remove lo k b l : gaps lo (k ++ b :: l) -> 0 <= b.2 -> gaps lo (k ++ l).
Proof.
  revert lo. induction k as [|c k IH]; intros lo G Hb; cbn [app gaps] in *; [|split; [apply G|apply IH; [apply G|done]]]. apply (gaps_weaken (b.1 + 16 * b.2)); [apply G|lia].
Qed.

Lemma perm_mid {A} (k l al : list A) x : (k ++ x :: l) ++ al ≡ₚ x :: k ++ l ++ al.
Proof. by rewrite <- app_assoc, <- app_comm_cons, <- Permutation_middle. Qed.

Lemma tiles_clear lo hi n x bs : tiles lo hi n (x :: bs) -> base + 16 <= lo -> clear_of x.1 (ring base bs).
Proof.
  intros [R [A _] _] Hb. apply Forall_cons in R as [Rx R]. constructor; [cbn in *; lia|]. rewrite Forall_forall in *. intros b Hbb. specialize (R b Hbb). specialize (A b Hbb).
  unfold apart in A. cbn in *. lia.
Qed.

(** The tail of a block is cut off. *)
Lemma carve_cut hi h k pp ps l0 p s l2 al n :
  heap_ok hi h (k ++ (p, s) :: l2) al -> ring base k = l0 ++ [(pp, ps)] -> 0 < n < s ->
  let m' := set_h_size (p + 16 * (s - n)) n (set_h_size p (s - n) (hp_mem h)) in
  heap_ok hi (mkheap m' pp) (k ++ (p, s - n) :: l2) ((p + 16 * (s - n), n) :: al) /\ kept al (hp_mem h) m'.
Proof.
  intros HO E Hn m'. destruct (free_sizes _ _ _ _ HO) as [Pf Pa]. destruct HO as [Hb Hw T G HL Hfp Lv]. set (q := p + 16 * (s - n)) in *. set (m := hp_mem h) in *.
  assert (T' : tiles start hi ((hi - start) / 16) ((k ++ (p, s - n) :: l2) ++ (q, n) :: al)).
  { rewrite perm_mid. rewrite perm_mid in T. replace s with (s - n + n) in T by lia. apply tiles_cut in T; [|lia..]. fold q in T.
    eapply tiles_perm; [|exact T]. f_equiv. rewrite !app_assoc. by rewrite <- Permutation_middle. }
  assert (Rp : 0 <= s < 2 ^ 32).
  { pose proof (tl_range _ _ _ _ T) as R. apply Forall_app in R as [R _]. apply Forall_app in R as [_ R]. apply Forall_cons in R as [R _]. cbn in R. lia. }
  assert (O : off_headers [p; q] m m').
  { eapply off_headers_trans; [eapply off_headers_sub; [|apply off_set_size]|eapply off_headers_sub; [|apply off_set_size]];
      intros x Hx; apply list_elem_of_singleton in Hx as ->; [|apply list_elem_of_further]; apply list_elem_of_here. }
  assert (Cp : clear_of p (ring base (k ++ l2 ++ (q, n) :: al))) by (apply (tiles_clear start hi ((hi - start) / 16) (p, s - n)); [by rewrite <- perm_mid|lia]).
  assert (Cq : clear_of q (ring base (k ++ l2 ++ (p, s - n) :: al))).
  { apply (tiles_clear start hi ((hi - start) / 16) (q, n)); [|lia]. eapply tiles_perm; [|exact T']. rewrite perm_mid, !app_assoc, <- !Permutation_middle. apply perm_swap. }
  assert (C : Forall (fun b => Forall (fun x => b.1 + 16 <= x \/ x + 16 <= b.1) [p; q]) (ring base k ++ l2)).
  { change (ring base (k ++ l2 ++ (q, n) :: al)) with (ring base k ++ (l2 ++ (q, n) :: al)) in Cp. change (ring base (k ++ l2 ++ (p, s - n) :: al)) with (ring base k ++ (l2 ++ (p, s - n) :: al)) in Cq.
    rewrite app_assoc in Cp, Cq. apply Forall_app in Cp as [Cp _]. apply Forall_app in Cq as [Cq _]. unfold clear_of in *. rewrite Forall_forall in *. intros b Hbb. constructor; [by apply Cp|]. constructor; [by apply Cq|done]. }
  apply Forall_app in C as [C1 C2]. change (ring base (k ++ (p, s) :: l2)) with (ring base k ++ (p, s) :: l2) in HL. apply chained_app in HL as (L1 & Lp & Ls & L2). cbn [hd_addr fst snd] in *.
  assert (K : kept al m m').
  { apply (kept_tiles start hi ((hi - start) / 16) ((k ++ (p, s - n) :: l2) ++ [(q, n)]) al [p; q]); [by rewrite <- app_assoc|lia|done|].
    constructor; [|constructor; [|done]]; rewrite fmap_cons, !fmap_app; apply list_elem_of_further; apply elem_of_app; [left; apply elem_of_app|]; right; apply list_elem_of_here. }
  destruct (clear_at q _ _ p (off_set_size q n (set_h_size p (s - n) m)) ltac:(unfold q; lia)) as [Eq1 Eq2]. fold m' in Eq1, Eq2.
  split; [split|done]; cbn [hp_mem hp_freep]; try done.
  - apply gaps_app in G as [G1 G2]. apply gaps_app. split; [by apply (gaps_last _ _ p s)|]. apply (gaps_weaken (p + 16 * s)); [done|cbn; lia].
  - change (ring base (k ++ (p, s - n) :: l2)) with (ring base k ++ (p, s - n) :: l2). apply chained_app. split; [by apply (chained_off [p; q] m)|].
    cbn [chained fst snd]. rewrite Eq1, Eq2, ptr_set_size, size_set_size by lia. split_and!; [done|done|]. by apply (chained_off [p; q] m).
  - change (ring base (k ++ (p, s - n) :: l2)) with (ring base k ++ (p, s - n) :: l2). rewrite E, !fmap_app, !elem_of_app. left. right. apply list_elem_of_here.
  - constructor; [cbn [fst snd]; apply size_set_size; lia|]. by apply (kept_live al m).
Qed.
(** A whole block is taken off the list. *)
Lemma carve_whole hi h k pp ps l0 p s l2 al :
  heap_ok hi h (k ++ (p, s) :: l2) al -> ring base k = l0 ++ [(pp, ps)] ->
  let m' := set_h_ptr pp (h_ptr (hp_mem h) p) (hp_mem h) in
  heap_ok hi (mkheap m' pp) (k ++ l2) ((p, s) :: al) /\ kept al (hp_mem h) m'.
Proof.
  intros HO E m'. destruct (free_sizes _ _ _ _ HO) as [Pf Pa]. destruct HO as [Hb Hw T G HL Hfp Lv]. set (m := hp_mem h) in *.
  assert (Er : ring base (k ++ (p, s) :: l2) = l0 ++ (pp, ps) :: (p, s) :: l2) by (change (ring base (k ++ (p, s) :: l2)) with (ring base k ++ (p, s) :: l2); by rewrite E, <- app_assoc).
  destruct (ring_split (base - 1) _ _ _ _ _ G Pf ltac:(lia) Er) as [S1 S2].
  assert (Sub : l0 ++ (pp, ps) :: (p, s) :: l2 ⊆ (base, 0) :: (k ++ (p, s) :: l2) ++ al) by (rewrite <- Er; apply list_subseteq_skip; by apply list_subseteq_app_l).
  assert (C : forall l, l ⊆ l0 ++ (pp, ps) :: (p, s) :: l2 -> Forall (fun b => b.1 <> pp) l -> clear_of pp l).
  { intros l Hl N. apply (clear_list start hi ((hi - start) / 16) _ (pp, ps) l T); [lia| |by etrans|done]. apply Sub, elem_of_app. right. apply list_elem_of_here. }
  assert (C0 : clear_of pp l0) by (apply C; [by apply list_subseteq_app_l|eapply Forall_impl; [exact S1|cbn; lia]]).
  assert (C2 : clear_of pp ((p, s) :: l2)) by (apply C; [apply list_subseteq_app_r; by apply list_subseteq_cons|eapply Forall_impl; [exact S2|cbn; lia]]).
  rewrite Er in HL. apply chained_app in HL as (L0 & Lpp & Lps & Lp & Ls & L2). cbn [hd_addr fst snd] in *.
  assert (Rn : 0 <= hd_addr l2 base < 2 ^ 64).
  { pose proof (tl_range _ _ _ _ T) as R. apply Forall_app in R as [R _]. apply Forall_app in R as [_ R]. apply Forall_cons in R as [_ R]. destruct R; cbn in *; lia. }
  assert (Lx : h_ptr m' pp = hd_addr l2 base) by (unfold m'; rewrite Lp; by apply ptr_set_ptr). assert (O : off_headers [pp] m m') by apply off_set_ptr.
  assert (Inp : pp ∈ (ring base k).*1) by (rewrite E, fmap_app; apply elem_of_app; right; apply list_elem_of_here).
  assert (K : kept ((p, s) :: al) m m').
  { apply (kept_tiles start hi ((hi - start) / 16) (k ++ l2) _ [pp]); [|lia|done|].
    - eapply tiles_perm; [|exact T]. rewrite perm_mid. by rewrite <- Permutation_middle, app_assoc.
    - constructor; [|done]. change ((base, 0) :: k ++ l2) with (ring base k ++ l2). rewrite fmap_app. apply elem_of_app. by left. }
  split; [split|by apply Forall_cons in K as [_ K]]; cbn [hp_mem hp_freep]; try done.
  - eapply tiles_perm; [|exact T]. rewrite perm_mid. by rewrite <- Permutation_middle, app_assoc.
  - apply (gaps_remove _ _ (p, s)); [done|]. apply Forall_app in Pf as [_ Pf]. apply Forall_cons in Pf as [Pf _]. lia.
  - change (ring base (k ++ l2)) with (ring base k ++ l2). rewrite E, <- app_assoc. apply chained_app. split; [by apply (clear_chained pp m)|]. apply Forall_cons in C2 as [_ C2].
    cbn [app chained fst snd]. split_and!; [done|by unfold m'; rewrite size_set_ptr|by apply (clear_chained pp m)].
  - change (ring base (k ++ l2)) with (ring base k ++ l2). rewrite fmap_app. apply elem_of_app. by left.
  - apply Forall_app in Pf as [_ Pf]. apply Forall_cons in Pf as [Pf _]. apply (kept_live ((p, s) :: al) m); [done|by constructor|]. by constructor.
Qed.

(** malloc takes what it needs from a block of the list. *)
Lemma carve_ok hi h fl al k n :
  heap_ok hi h fl al -> (0 < k < length (ring base fl))%nat -> 0 < n <= (ring base fl !!! k).2 ->
  let r := carve n (adr base fl (k - 1)) (adr base fl k) (hp_mem h) in
  exists fl', heap_ok hi (mkheap r.1 (adr base fl (k - 1))) fl' ((r.2, n) :: al) /\ kept al (hp_mem h) r.1.
Proof.
  intros HO Hk Hn. destruct k as [|k]; [lia|]. replace (S k - 1)%nat with k by lia. pose proof (ring_at base fl (S k) ltac:(lia)) as Ek. unfold adr in *.
  destruct (ring base fl !!! S k) as [p s] eqn:Ep. cbn [fst snd] in *. cbn in Ek.
  assert (Efl : fl = take k fl ++ (p, s) :: drop (S k) fl) by (symmetry; by apply take_drop_middle).
  assert (Hl : (k < length fl)%nat) by (cbn in Hk; lia).
  assert (Er : exists l0 pp ps, ring base (take k fl) = l0 ++ [(pp, ps)] /\ (ring base fl !!! k).1 = pp).
  { destruct k as [|k]; [by exists [], base, 0|]. destruct (lookup_lt_is_Some_2 fl k ltac:(lia)) as [[pp ps] E]. exists (ring base (take k fl)), pp, ps. split.
    - rewrite (take_S_r _ _ _ E). done.
    - by rewrite (list_lookup_total_correct (ring base fl) (S k) (pp, ps) E). }
  destruct Er as (l0 & pp & ps & Er & ->). rewrite Efl in HO.
  assert (Es : h_size (hp_mem h) p = s).
  { pose proof (ho_link _ _ _ _ HO) as HL. change (ring base (take k fl ++ (p, s) :: drop (S k) fl)) with (ring base (take k fl) ++ (p, s) :: drop (S k) fl) in HL. apply chained_app in HL as [_ HL]. apply HL. }
  unfold carve. rewrite Es. destruct (Z.eqb_spec s n) as [<-|N].
  - eexists. apply (carve_whole hi h _ pp ps l0 p s _ al HO Er).
  - assert (Rs : s < 2 ^ 32).
    { pose proof (tl_range _ _ _ _ (ho_tiles _ _ _ _ HO)) as R. pose proof (ho_base _ _ _ _ HO). apply Forall_app in R as [R _]. apply Forall_app in R as [_ R]. apply Forall_cons in R as [R _]. cbn in R. lia. }
    rewrite u32_small by lia. rewrite size_set_size by lia. unfold hplus, sizeof_Header. cbn [fst snd]. eexists. apply (carve_cut hi h _ pp ps l0 p s _ al n HO Er). lia.
Qed.
(** ** The loop of malloc *)

Section Scan.
Context `{W : Sys} (fuel : nat) (n : Z) (h : heap) (fl : list block) (f : nat) (w : world).
Context (HL : chained (hp_mem h) (ring base fl) base) (G : gaps (base + 15) fl) (P : Forall (fun b => 0 < b.2) fl).
Context (Hn : 0 < n) (Hf : (f < length (ring base fl))%nat) (Ef : hp_freep h = adr base fl f).

#[local] Notation len := (length (ring base fl)).
#[local] Notation at_ := (adr base fl).
#[local] Notation after := (nxt base fl).
#[local] Notation steps := (dist base fl).

Definition prv (i : nat) : nat := if decide (i = 0)%nat then (len - 1)%nat else (i - 1)%nat.

(** What is left of the loop when no block is large enough. *)
Definition more (N : nat) : U (Z * heap) :=
  ubind (morecore fuel n h) (fun '(q, h) => if q =? 0 then uret (0, h) else malloc_scan fuel N n q (h_ptr (hp_mem h) q) h).

Lemma malloc_walk N : forall i, (i < len)%nat -> (steps i f < N)%nat ->
  (exists k, (0 < k < len)%nat /\ n <= (ring base fl !!! k).2 /\
     malloc_scan fuel N n (at_ (prv i)) (at_ i) h w =
       let r := carve n (at_ (k - 1)) (at_ k) (hp_mem h) in Done (hplus r.2 1, mkheap r.1 (at_ (k - 1))) w) \/
  ((forall k, (k < len)%nat -> (steps i k <= steps i f)%nat -> (ring base fl !!! k).2 < n) /\
   exists N', (N <= N' + S (steps i f))%nat /\ malloc_scan fuel N n (at_ (prv i)) (at_ i) h w = more N' w).
Proof.
  induction N as [|N IH]; intros i Hi Hd; [lia|]. cbn [malloc_scan]. destruct (adr_next base (hp_mem h) fl HL i Hi) as [En Es]. rewrite Es.
  destruct (Z.leb_spec n (ring base fl !!! i).2) as [Hbig|Hsmall].
  - left. assert (Hi0 : (0 < i)%nat) by (destruct i; [cbn in Hbig; lia|lia]). exists i. split_and!; [lia..|done|].
    unfold prv. rewrite decide_False by lia. done.
  - destruct (decide (i = f)) as [->|Nif].
    + rewrite Ef, Z.eqb_refl. right. split; [|by exists N; split; [unfold dist; case_decide; lia|]].
      intros k Hk Hdk. replace k with f; [done|]. unfold dist in Hdk. repeat case_decide; lia.
    + assert (Na : at_ i <> at_ f).
      { destruct (decide (i < f)%nat); [pose proof (adr_mono base fl G P i f)|pose proof (adr_mono base fl G P f i)]; lia. }
      rewrite Ef, (proj2 (Z.eqb_neq _ _) Na), En.
      assert (Hnx : (after i < len)%nat) by (unfold nxt; case_decide; lia).
      assert (Hpn : prv (after i) = i) by (unfold prv, nxt; repeat case_decide; lia).
      assert (Hdn : steps i f = S (steps (after i) f)) by (unfold dist, nxt; repeat case_decide; lia).
      specialize (IH (after i) Hnx ltac:(lia)). rewrite Hpn in IH. destruct IH as [H|[H (N' & HN & E)]]; [by left|]. right. split; [|exists N'; split; [lia|exact E]].
      intros k Hk Hdk. destruct (decide (k = i)) as [->|Nk]; [done|]. apply H; [done|].
      unfold dist, nxt in *. repeat case_decide; lia.
Qed.

(** The loop from freep on: a block that is large enough is found if there is one. *)
Lemma malloc_round N : (len <= N)%nat ->
  (exists k, (0 < k < len)%nat /\ n <= (ring base fl !!! k).2 /\
     malloc_scan fuel N n (hp_freep h) (h_ptr (hp_mem h) (hp_freep h)) h w =
       let r := carve n (at_ (k - 1)) (at_ k) (hp_mem h) in Done (hplus r.2 1, mkheap r.1 (at_ (k - 1))) w) \/
  (Forall (fun b => b.2 < n) fl /\
   exists N', (N <= N' + len)%nat /\ malloc_scan fuel N n (hp_freep h) (h_ptr (hp_mem h) (hp_freep h)) h w = more N' w).
Proof.
  intros HN. rewrite Ef, (proj1 (adr_next base (hp_mem h) fl HL f Hf)).
  assert (Hnx : (after f < len)%nat) by (unfold nxt; case_decide; lia).
  assert (Hdf : steps (after f) f = (len - 1)%nat) by (unfold dist, nxt; repeat case_decide; lia).
  destruct (malloc_walk N (after f) Hnx ltac:(lia)) as [H|[H (N' & HN' & E)]];
    (replace (prv (after f)) with f in * by (unfold prv, nxt; repeat case_decide; lia)); [by left|]. right. split.
  - apply Forall_lookup. intros k b Eb. pose proof (lookup_lt_Some _ _ _ Eb).
    assert (Hk : (S k < len)%nat) by (cbn; lia). specialize (H (S k) Hk). rewrite (list_lookup_total_correct (ring base fl) (S k) b Eb) in H. apply H.
    rewrite Hdf. unfold dist. case_decide; lia.
  - exists N'. split; [lia|exact E].
Qed.
End Scan.
End Heap.

(** ** The allocator over sbrk *)

(** What sbrk promises: the end of the process's memory moves by [n], up to the size of the
    machine's memory, or nothing changes and the answer is -1. *)
Class Break `{W : Sys} := {
  brk : world -> Z;
  brk_limit w : brk w <= 134217728;
  sbrk_call n w : 0 <= n < 2 ^ 31 ->
    exists r w', call (Ssbrk n) w = (Some (r, []), w') /\ (r = -1 /\ brk w' = brk w \/ r = brk w /\ brk w' = brk w + n) }.

Section Allocator.
Context `{W : Sys} {BK : Break} (base start : Z).
#[local] Notation heap_ok := (heap_ok base start).

(** New memory as a live block. *)
Lemma heap_grow hi h fl al nu :
  heap_ok hi h fl al -> 0 < nu -> hi + 16 * nu <= 134217728 ->
  heap_ok (hi + 16 * nu) (mkheap (set_h_size hi nu (hp_mem h)) (hp_freep h)) fl ((hi, nu) :: al) /\ kept al (hp_mem h) (set_h_size hi nu (hp_mem h)).
Proof.
  intros HO Hnu Hmax. destruct (free_sizes _ _ _ _ _ _ HO) as [Pf Pa]. destruct HO as [Hb Hw T G HL Hfp Lv]. set (m := hp_mem h) in *.
  pose proof (tl_range _ _ _ _ T) as R. assert (O : off_headers [hi] m (set_h_size hi nu m)) by apply off_set_size.
  assert (T' : tiles start (hi + 16 * nu) ((hi + 16 * nu - start) / 16) (fl ++ (hi, nu) :: al)).
  { rewrite <- Permutation_middle. split.
    - constructor; [cbn; lia|]. eapply Forall_impl; [exact R|cbn; lia].
    - split; [|apply T]. eapply Forall_impl; [exact R|]. unfold apart. cbn. lia.
    - unfold units. cbn [foldr snd]. fold (units (fl ++ al)). rewrite (tl_units _ _ _ _ T). replace (hi + 16 * nu - start) with (nu * 16 + (hi - start)) by lia.
      by rewrite Z.div_add_l by lia. }
  assert (K : kept al m (set_h_size hi nu m)).
  { apply (kept_off [hi]); [done|]. apply Forall_app in R as [_ R]. eapply Forall_impl; [exact R|]. cbn beta. intros b Hbb. constructor; [lia|done]. }
  split; [split|done]; cbn [hp_mem hp_freep]; try done.
  - lia.
  - replace (hi + 16 * nu - start) with (hi - start + nu * 16) by lia. by rewrite Z.mod_add by lia.
  - apply (chained_off [hi] m); [done| |done]. constructor; [constructor; [cbn; lia|done]|]. apply Forall_app in R as [R _]. eapply Forall_impl; [exact R|].
    cbn beta. intros b Hbb. constructor; [lia|done].
  - constructor; [cbn [fst snd]; apply size_set_size; lia|]. by apply (kept_live al m).
Qed.

Lemma kept_trans al m1 m2 m3 : kept al m1 m2 -> kept al m2 m3 -> kept al m1 m3.
Proof. unfold kept. rewrite !Forall_forall. intros H1 H2 b Hb x Hx. by rewrite (H2 b Hb), (H1 b Hb). Qed.

Lemma kept_perm al al' m m' : al ≡ₚ al' -> kept al m m' -> kept al' m m'.
Proof. intros P. unfold kept. by rewrite P. Qed.

Lemma freep_at hi h fl al : heap_ok hi h fl al -> exists f, (f < length (ring base fl))%nat /\ hp_freep h = adr base fl f /\ hp_freep h <> 0.
Proof.
  intros HO. pose proof (ho_freep _ _ _ _ _ _ HO) as Hf. apply list_elem_of_fmap in Hf as (b & E & Hb). assert (Hb' := Hb). apply list_elem_of_lookup in Hb' as [f Ef].
  exists f. split; [by eapply lookup_lt_Some|]. split; [unfold adr; by rewrite (list_lookup_total_correct _ _ _ Ef)|].
  pose proof (ho_base _ _ _ _ _ _ HO). pose proof (tl_range _ _ _ _ (ho_tiles _ _ _ _ _ _ HO)) as R. apply Forall_app in R as [R _]. rewrite Forall_forall in R.
  apply elem_of_cons in Hb as [->|Hb]; [cbn in *; lia|]. specialize (R b Hb). cbn in R. lia.
Qed.

(** morecore fails with sbrk, or the heap gets a block that is large enough. *)
Lemma morecore_ok fuel n h fl al w :
  heap_ok (brk w) h fl al -> 0 < n -> 16 * n < 2 ^ 31 -> (length fl < fuel)%nat ->
  exists w', (morecore fuel n h w = Done (0, h) w' /\ brk w' = brk w /\ exists k, call (Ssbrk k) w = (Some (-1, []), w')) \/
    exists h' fl', morecore fuel n h w = Done (hp_freep h', h') w' /\ heap_ok (brk w') h' fl' al /\ kept al (hp_mem h) (hp_mem h') /\
      Exists (fun b => n <= b.2) fl' /\ (length fl' <= S (length fl))%nat.
Proof.
  intros HO Hn Hmax Hf. set (nu := if n <? 4096 then 4096 else n). assert (Hnu : n <= nu /\ 0 < nu /\ 16 * nu < 2 ^ 31) by (unfold nu; destruct (Z.ltb_spec n 4096); lia).
  assert (Ei : i32 (nu * sizeof_Header) = 16 * nu) by (unfold sizeof_Header; rewrite i32_small; lia).
  destruct (sbrk_call (16 * nu) w ltac:(lia)) as (r & w' & E & R). exists w'. unfold morecore, sbrk, ures_val, syscall_, ubind. fold nu. rewrite Ei, E. cbn [fst uret].
  destruct R as [[-> Eb]|[-> Eb]].
  - left. split_and!; [done|done|]. by exists (16 * nu).
  - right. pose proof (ho_base _ _ _ _ _ _ HO) as Hb. rewrite (proj2 (Z.eqb_neq _ _)) by lia. pose proof (brk_limit w') as Lim.
    destruct (heap_grow (brk w) h fl al nu HO ltac:(lia) ltac:(lia)) as [HO1 K1].
    destruct (free_ok base start fuel _ _ fl (brk w) nu al w' HO1 Hf) as (h2 & fl2 & E2 & HO2 & K2 & Ex & Hlen). cbn [hp_mem hp_freep] in *.
    exists h2, fl2. rewrite E2. split_and!; [done|by rewrite Eb|by eapply kept_trans| |done]. eapply Exists_impl; [exact Ex|cbn; lia].
Qed.
(** What malloc of [n] headers gives: a block, or 0 when sbrk failed. *)
Definition malloc_result (n : Z) (h : heap) (al : list block) (w : world) (r : ures (Z * heap)) : Prop :=
  exists a h' w' fl', r = Done (a, h') w' /\ kept al (hp_mem h) (hp_mem h') /\
    (a = 0 /\ heap_ok (brk w') h' fl' al /\ brk w' = brk w /\ (exists k, call (Ssbrk k) w = (Some (-1, []), w')) \/
     a <> 0 /\ heap_ok (brk w') h' fl' ((a - 16, n) :: al)).

Lemma carve_result n h fl al w k m0 :
  heap_ok (brk w) h fl al -> (0 < k < length (ring base fl))%nat -> 0 < n <= (ring base fl !!! k).2 -> kept al m0 (hp_mem h) ->
  let r := carve n (adr base fl (k - 1)) (adr base fl k) (hp_mem h) in
  exists a h' fl', Done (hplus r.2 1, mkheap r.1 (adr base fl (k - 1))) w = Done (a, h') w /\ kept al m0 (hp_mem h') /\
    a <> 0 /\ heap_ok (brk w) h' fl' ((a - 16, n) :: al).
Proof.
  intros HO Hk Hn K r. destruct (carve_ok base start (brk w) h fl al k n HO Hk Hn) as (fl' & HO' & K'). fold r in HO', K'.
  eexists _, _, fl'. split; [done|]. split; [by eapply kept_trans|]. replace (hplus r.2 1 - 16) with r.2 by (unfold hplus, sizeof_Header; lia). split; [|done].
  pose proof (ho_base _ _ _ _ _ _ HO'). pose proof (tl_range _ _ _ _ (ho_tiles _ _ _ _ _ _ HO')) as R. apply Forall_app in R as [_ R]. apply Forall_cons in R as [R _]. cbn [fst snd] in R.
  unfold hplus, sizeof_Header. lia.
Qed.

Lemma malloc_ready fuel n h fl al w :
  heap_ok (brk w) h fl al -> 0 < n -> 16 * n < 2 ^ 31 -> (2 * length fl + 4 <= fuel)%nat ->
  malloc_result n h al w (malloc_scan fuel fuel n (hp_freep h) (h_ptr (hp_mem h) (hp_freep h)) h w).
Proof.
  intros HO Hn Hmax Hf. destruct (free_sizes _ _ _ _ _ _ HO) as [Pf _]. destruct (freep_at _ _ _ _ HO) as (f & Hfl & Ef & _).
  assert (Ln : forall l : list block, length (ring base l) = S (length l)) by done. assert (K0 : kept al (hp_mem h) (hp_mem h)) by (by apply Forall_true).
  destruct (malloc_round base fuel n h fl f w (ho_link _ _ _ _ _ _ HO) (ho_gaps _ _ _ _ _ _ HO) Pf Hn Hfl Ef fuel ltac:(rewrite Ln; lia)) as [(k & Hk & Hb & E)|[Hall (N' & HN & E)]]; rewrite E.
  - destruct (carve_result n h fl al w k (hp_mem h) HO Hk ltac:(lia) K0) as (a & h' & fl' & E' & K & Ha & HO'). exists a, h', w, fl'. split; [exact E'|]. split; [done|]. by right.
  - unfold more, ubind. destruct (morecore_ok fuel n h fl al w HO Hn Hmax ltac:(lia)) as (w1 & [(E1 & Eb & Hs)|(h1 & fl1 & E1 & HO1 & K1 & Ex & Hlen)]); rewrite E1.
    + exists 0, h, w1, fl. rewrite Eb. split; [done|]. split; [done|]. by left.
    + destruct (freep_at _ _ _ _ HO1) as (f1 & Hfl1 & Ef1 & Nz). rewrite (proj2 (Z.eqb_neq _ _) Nz). destruct (free_sizes _ _ _ _ _ _ HO1) as [Pf1 _]. rewrite Ln in HN.
      destruct (malloc_round base fuel n h1 fl1 f1 w1 (ho_link _ _ _ _ _ _ HO1) (ho_gaps _ _ _ _ _ _ HO1) Pf1 Hn Hfl1 Ef1 N' ltac:(rewrite Ln; lia)) as [(k & Hk & Hb & E2)|[Hall1 _]].
      * rewrite E2. destruct (carve_result n h1 fl1 al w1 k (hp_mem h) HO1 Hk ltac:(lia) K1) as (a & h' & fl' & E' & K & Ha & HO'). exists a, h', w1, fl'. split; [exact E'|]. split; [done|]. by right.
      * apply Exists_exists in Ex as (b & Hb & Hbn). rewrite Forall_forall in Hall1. specialize (Hall1 b Hb). lia.
Qed.

(** A heap before the first malloc, or one in use. *)
Definition usable (w : world) (h : heap) (fl al : list block) : Prop :=
  heap_ok (brk w) h fl al \/ hp_freep h = 0 /\ fl = [] /\ al = [] /\ brk w = start /\ 0 < base /\ base + 16 <= start.

Lemma first_heap m w : brk w = start -> 0 < base -> base + 16 <= start -> heap_ok (brk w) (mkheap (set_h_size base 0 (set_h_ptr base base m)) base) [] [].
Proof.
  intros E Hb Hs. pose proof (brk_limit w) as Lim. split; cbn [hp_mem hp_freep app]; try done.
  - lia.
  - by rewrite E, Z.sub_diag.
  - rewrite E, Z.sub_diag. by split.
  - cbn [ring chained hd_addr fst snd]. rewrite ptr_set_size, ptr_set_ptr, size_set_size by lia. done.
  - apply list_elem_of_here.
Qed.

(** The program writes into one of its blocks. *)
Lemma poke_ok hi h fl al a n x v :
  heap_ok hi h fl al -> (a, n) ∈ al -> a + 16 <= x < a + 16 * n -> heap_ok hi (mkheap (<[x := v]> (hp_mem h)) (hp_freep h)) fl al.
Proof.
  intros [Hb Hw T G HL Hfp Lv] Ha Hx. split; cbn [hp_mem hp_freep]; try done.
  - apply (chained_ext (hp_mem h)); [|done]. apply Forall_forall. intros b Hbr y Hy. rewrite mget_insert. rewrite (proj2 (Z.eqb_neq _ _)); [done|]. intros ->.
    pose proof (body_clear base start hi _ fl al b (a, n) T ltac:(lia) Hbr Ha) as C. cbn in C. lia.
  - rewrite Forall_forall in *. intros b Hbl. rewrite <- (Lv b Hbl). apply mld32_ext. intros y Hy. rewrite mget_insert. rewrite (proj2 (Z.eqb_neq _ _)); [done|]. intros ->.
    destruct T as [R A _]. apply Forall_app in R as [_ R]. rewrite Forall_forall in R. pose proof (R b Hbl). destruct (decide (b = (a, n))) as [->|N]; [cbn in *; lia|].
    assert (C : apart b (a, n)) by (apply (pairwise_apart (fl ++ al)); [done|apply elem_of_app; by right..|done]). unfold apart in C. cbn in *. lia.
Qed.

Lemma units_small nbytes : 0 <= nbytes <= 2 ^ 31 - 32 ->
  let n := u32 ((nbytes + sizeof_Header - 1) / sizeof_Header + 1) in 0 < n /\ 16 * n < 2 ^ 31 /\ nbytes <= 16 * (n - 1) < nbytes + 16.
Proof. intros H n. unfold n, sizeof_Header. rewrite u32_small; zlia. Qed.

Lemma malloc_usable fuel nbytes w h fl al :
  usable w h fl al -> 0 <= nbytes <= 2 ^ 31 - 32 -> (2 * length fl + 4 <= fuel)%nat ->
  exists n, nbytes <= 16 * (n - 1) < nbytes + 16 /\ malloc_result n h al w (malloc base fuel nbytes h w).
Proof.
  intros HU Hn Hf. destruct (units_small nbytes Hn) as (H1 & H2 & H3). set (n := u32 ((nbytes + sizeof_Header - 1) / sizeof_Header + 1)) in *. exists n. split; [done|]. unfold malloc. fold n.
  destruct HU as [HO|(E0 & -> & -> & Eb & Hb & Hs)].
  - destruct (freep_at _ _ _ _ HO) as (f & _ & _ & Nz). rewrite (proj2 (Z.eqb_neq _ _) Nz). by apply (malloc_ready fuel n h fl).
  - rewrite E0. change (0 =? 0) with true. cbn match. destruct (malloc_ready fuel n _ [] [] w (first_heap (hp_mem h) w Eb Hb Hs) H1 H2 Hf) as (a & h' & w' & fl' & E & K & R).
    exists a, h', w', fl'. split; [exact E|]. split; [by apply Forall_nil|done].
Qed.

(** C15: malloc and free.  Let free and live blocks tile the memory above [start], the free list
    joined and in order.  malloc of [nbytes] terminates; it returns 0, with the heap as it was,
    only when sbrk failed, and otherwise the address of a new live block with room for the
    bytes and less than a header more, disjoint from every other.  free of a live block
    terminates and makes it free.  Neither changes a byte of a block that stays live, no memory is lost, and
    what the program writes into its blocks does not harm the heap. *)
Theorem malloc_free_safe w h fl al :
  usable w h fl al ->
  (forall fuel nbytes, 0 <= nbytes <= 2 ^ 31 - 32 -> (2 * length fl + 4 <= fuel)%nat ->
     exists a h' w' fl', malloc base fuel nbytes h w = Done (a, h') w' /\ kept al (hp_mem h) (hp_mem h') /\
       (a = 0 /\ usable w' h' fl' al /\ brk w' = brk w /\ (exists k, call (Ssbrk k) w = (Some (-1, []), w')) \/
        a <> 0 /\ exists n, nbytes <= 16 * (n - 1) < nbytes + 16 /\ usable w' h' fl' ((a - 16, n) :: al))) /\
  (forall fuel p n al', al ≡ₚ (p - 16, n) :: al' -> (length fl < fuel)%nat ->
     exists h' fl', free fuel p h w = Done h' w /\ kept al' (hp_mem h) (hp_mem h') /\ usable w h' fl' al') /\
  (forall p n x v, (p - 16, n) ∈ al -> p <= x < p + 16 * (n - 1) -> usable w (mkheap (<[x := v]> (hp_mem h)) (hp_freep h)) fl al).
Proof.
  intros HU. split_and!.
  - intros fuel nbytes Hn Hf. destruct (malloc_usable fuel nbytes w h fl al HU Hn Hf) as (n & Hs & a & h' & w' & fl' & E & K & R). exists a, h', w', fl'.
    split; [done|]. split; [done|]. destruct R as [(Ha & HO & Eb & Hk)|[Ha HO]]; [left|right]; split_and!; try done; [by left|]. exists n. split; [done|by left].
  - intros fuel p n al' Pm Hf. destruct HU as [HO|(_ & _ & -> & _)]; [|by apply Permutation_nil_cons in Pm].
    assert (HO' : heap_ok (brk w) h fl ((p - 16, n) :: al')) by (destruct HO; split; rewrite <- ?Pm; done).
    destruct (free_ok base start fuel (brk w) h fl (p - 16) n al' w HO' Hf) as (h' & fl' & E & HO2 & K & _). exists h', fl'.
    replace (hplus (p - 16) 1) with p in E by (unfold hplus, sizeof_Header; lia). split_and!; [done|done|by left].
  - intros p n x v Hp Hx. destruct HU as [HO|(_ & _ & -> & _)]; [|by apply elem_of_nil in Hp]. left. apply (poke_ok _ _ _ _ (p - 16) n); [done|done|lia].
Qed.
End Allocator.

(** A process of a megabyte. *)
Definition brk_world : Sys := {|
  world := Z;
  call c w :=
    match c with
    | Ssbrk n => if w + n <=? 1048576 then (Some (w, []), w + n) else (Some (-1, []), w)
    | Sexit _ => (None, w)
    | _ => (Some (-1, []), w)
    end |}.


#[global] Instance brk_world_break : @Break brk_world.
Proof.
  refine {| brk := (fun w => Z.min w 1048576) : @world brk_world -> Z |}.
  - intros w. lia.
  - intros n w Hn. cbn. destruct (Z.leb_spec (w + n) 1048576) as [H|H]; eexists _, _; (split; [reflexivity|]); [right|left]; split; lia.
Defined.

(** The first malloc of a program with [base] at 4096 and its memory up to 8192. *)
Lemma malloc_free_safe_witness :
  exists a h' w' fl' n, @malloc brk_world 4096 4 100 (mkheap ∅ 0) 8192 = Done (a, h') w' /\ a <> 0 /\ n = 8 /\
    usable (W := brk_world) 4096 8192 w' h' fl' [(a - 16, n)].
Proof.
  destruct (malloc_free_safe (W := brk_world) 4096 8192 8192 (mkheap ∅ 0) [] []) as (Hm & _).
  - right. by split_and!.
  - assert (Hz : match @malloc brk_world 4096 4 100 (mkheap ∅ 0) 8192 with Done (a, _) _ => a =? 0 | _ => true end = false) by (vm_compute; reflexivity).
    destruct (Hm 4%nat 100) as (a & h' & w' & fl' & E & _ & R); [by split|done|]. rewrite E in Hz. apply Z.eqb_neq in Hz.
    destruct R as [(Ha & _)|(Ha & n & Hn & HU)]; [exact (False_ind _ (Hz Ha))|].
    exists a, h', w', fl', n. split; [exact E|]. split; [exact Hz|]. split; [clear -Hn; lia|exact HU].
Defined.

(** A request of almost 2^32 bytes asks sbrk for 16, because its int argument is cut off, and
    is answered with a block. *)
Lemma malloc_truncates :
  match @malloc brk_world 4096 4 4294967295 (mkheap ∅ 0) 8192 with Done (a, _) w => (a, w : Z) = (8208, 8208) | _ => False end.
Proof. vm_compute. reflexivity. Qed.
