(* ===== verification/Grep.v ===== *)
(** * grep (user/grep.c)

    The matcher of Kernighan and Pike against a declarative semantics of its patterns, and the
    loop that reads a stream into a fixed buffer and writes the lines that match. *)

From S2P Require Import Prelude Bytes UserSys Ulib.
From Stdlib Require Import ZArith Lia.
From stdpp Require Import base numbers list strings.

#[local] Open Scope Z_scope.
#[local] Open Scope user_scope.

(** ** The matcher *)

(** matchstar, with [here] for matchhere of what follows the star. *)
Fixpoint matchstar (here : list Z -> bool) (c : Z) (text : list Z) : bool :=
  here text ||
  match text with
  | [] => false
  | x :: text' => negb (x =? 0) && ((x =? c) || (c =? 46)) && matchstar here c text'
  end.

Fixpoint matchhere (re text : list Z) {struct re} : bool :=
  match re with
  | [] => true
  | c :: re' =>
      if c =? 0 then true else
      if deref re' =? 42 then
        match re' with [] => false | _ :: re'' => matchstar (matchhere re'') c text end
      else if (c =? 36) && (deref re' =? 0) then deref text =? 0
      else match text with
           | [] => false
           | x :: text' => if negb (x =? 0) && ((c =? 46) || (c =? x)) then matchhere re' text' else false
           end
  end.

(** The do-while loop of match. *)
Fixpoint match_from (re text : list Z) : bool :=
  matchhere re text ||
  match text with
  | [] => false
  | x :: text' => negb (x =? 0) && match_from re text'
  end.

Definition match_ (re text : list Z) : bool :=
  if deref re =? 94 then matchhere (tail re) text else match_from re text.

(** ** The loop *)

Section Grep.
Context `{W : Sys}.

(** The inner while: the buffer and p afterwards. *)
Fixpoint grep_lines (fuel : nat) (pattern buf : list Z) (p : nat) : U (list Z * nat) :=
  match fuel with
  | O => unofuel
  | S fuel' =>
      match strchr (drop p buf) 10 with
      | None => uret (buf, p)
      | Some k =>
          let q := (p + k)%nat in
          let buf1 := <[q := 0]> buf in
          if match_ pattern (drop p buf1) then
            let buf2 := <[q := 10]> buf1 in
            write 1 (get_bytes p (q + 1 - p) buf2) ;;
            grep_lines fuel' pattern buf2 (q + 1)
          else grep_lines fuel' pattern buf1 (q + 1)
      end
  end.

Fixpoint grep_loop (fuel : nat) (pattern : list Z) (fd : Z) (buf : list Z) (m : nat) : U (list Z) :=
  match fuel with
  | O => unofuel
  | S fuel' =>
      do r <- read fd (1024 - Z.of_nat m - 1);
      let n := fst r in
      let buf := put_bytes m (snd r) buf in
      if negb (0 <? n) then uret buf else
      let m := (m + Z.to_nat n)%nat in
      let buf := <[m := 0]> buf in
      do bp <- grep_lines 1025 pattern buf 0;
      let '(buf, p) := bp in
      if (0 <? m)%nat
      then grep_loop fuel' pattern fd (memmove buf 0 p (m - p)) (m - p)
      else grep_loop fuel' pattern fd buf m
  end.

Definition grep (fuel : nat) (pattern : list Z) (fd : Z) (buf : list Z) : U (list Z) := grep_loop fuel pattern fd buf 0.

(** The files named on the command line. *)
Fixpoint grep_files (fuel : nat) (pattern : list Z) (files : list (list Z)) (buf : list Z) : U unit :=
  match files with
  | [] => exit 0
  | f :: files' =>
      do fd <- ures_val (Sopen f 0);
      if fd <? 0 then
        printf (str "grep: cannot open %s" ++ [10]) [VStr (Some f)] ;; exit 1
      else
        do buf' <- grep fuel pattern fd buf;
        ures_val (Sclose fd) ;;
        grep_files fuel pattern files' buf'
  end.

Definition grep_main (fuel : nat) (argv : list (list Z)) : U unit :=
  let buf := replicate 1024 0 in
  match argv with
  | _ :: pattern :: [] => grep fuel pattern 0 buf ;; exit 0
  | _ :: pattern :: files => grep_files fuel pattern files buf
  | _ => fprintf 2 (str "usage: grep pattern [file ...]" ++ [10]) [] ;; exit 1
  end.

End Grep.

(** ** What a pattern means *)

Inductive item := One (c : Z) | Many (c : Z).

(** The items of a pattern without its caret, and whether a dollar ends it. *)
Fixpoint items (re : list Z) : list item * bool :=
  match re with
  | [] => ([], false)
  | c :: re' =>
      match re' with
      | [] => if c =? 36 then ([], true) else ([One c], false)
      | x :: re'' =>
          if x =? 42 then let '(l, e) := items re'' in (Many c :: l, e)
          else let '(l, e) := items re' in (One c :: l, e)
      end
  end.

(** A dot stands for any character. *)
Definition sym (c x : Z) : Prop := c = 46 \/ c = x.

Inductive denotes : list item -> list Z -> Prop :=
| den_nil : denotes [] []
| den_one c x l t : sym c x -> denotes l t -> denotes (One c :: l) (x :: t)
| den_many c run l t : Forall (sym c) run -> denotes l t -> denotes (Many c :: l) (run ++ t).

(** Some part of the text is in the pattern's language, at its start after a caret and up to
    its end before a dollar. *)
Definition selects (re text : list Z) : Prop :=
  let caret := deref re =? 94 in
  let '(l, dollar) := items (if caret then tail re else re) in
  exists a b c, text = a ++ b ++ c /\ denotes l b /\ (caret = true -> a = []) /\ (dollar = true -> c = []).

(** A string without a NUL inside. *)
Definition nul_free (s : list Z) : Prop := Forall (fun c => c <> 0) s.

(** The text starts with a word of the items' language. *)
Definition starts (lz : list item * bool) (text : list Z) : Prop :=
  exists b c, text = b ++ c /\ denotes (fst lz) b /\ (snd lz = true -> c = []).

Lemma starts_many c l e text :
  starts (Many c :: l, e) text <->
  starts (l, e) text \/ exists x text', text = x :: text' /\ sym c x /\ starts (Many c :: l, e) text'.
Proof.
  split.
  - intros (b & r & -> & Hd & He). inversion Hd as [| |c' run l' t Hrun Ht]; subst.
    destruct Hrun as [|x run Hx Hrun]; [left; by exists t, r|].
    right. exists x, (run ++ t ++ r). split; [by rewrite <- app_assoc|]. split; [done|].
    exists (run ++ t), r. split; [by rewrite app_assoc|]. split; [by constructor|done].
  - intros [(b & r & -> & Hd & He)|(x & t' & -> & Hx & b & r & -> & Hd & He)].
    + exists b, r. split_and!; [done| |done]. by apply (den_many c [] l b).
    + exists (x :: b), r. split_and!; [done| |done]. cbn in Hd. inversion Hd as [| |c' run l' t Hrun Ht]; subst.
      apply (den_many c (x :: run) l t); [by constructor|done].
Qed.

Lemma starts_one c l e text : starts (One c :: l, e) text <-> exists x text', text = x :: text' /\ sym c x /\ starts (l, e) text'.
Proof.
  split.
  - intros (b & r & -> & Hd & He). inversion Hd as [|c' x l' t Hx Ht|]; subst. exists x, (t ++ r). split; [done|]. split; [done|]. by exists t, r.
  - intros (x & t & -> & Hx & b & r & -> & Hd & He). exists (x :: b), r. split_and!; [done| |done]. by constructor.
Qed.

Lemma symb c x : (c =? 46) || (c =? x) = true <-> sym c x.
Proof. unfold sym. rewrite orb_true_iff, !Z.eqb_eq. done. Qed.

Lemma matchstar_starts here c l e :
  (forall text, nul_free text -> here text = true <-> starts (l, e) text) ->
  forall text, nul_free text -> matchstar here c text = true <-> starts (Many c :: l, e) text.
Proof.
  intros Hh text Hn. induction Hn as [|x text Hx Hn IH]; rewrite starts_many; cbn [matchstar]; rewrite orb_true_iff, Hh by (by constructor || constructor).
  - split; [by intros [?|?]; [left|]|]. intros [?|(x & t & ? & _)]; [by left|done].
  - apply Z.eqb_neq in Hx. rewrite Hx. cbn [negb andb]. rewrite andb_true_iff, IH, orb_comm, (Z.eqb_sym x c), symb. split.
    + intros [?|[? ?]]; [by left|right; by exists x, text].
    + intros [?|(y & t & [= <- <-] & ? & ?)]; [by left|by right].
Qed.

Lemma starts_nil e text : starts ([], e) text <-> (e = true -> text = []).
Proof.
  split.
  - intros (b & c & -> & Hd & He). inversion Hd; subst. exact He.
  - intros He. exists [], text. split_and!; [done|constructor|done].
Qed.

Lemma deref_nul_free s : nul_free s -> deref s = 0 <-> s = [].
Proof. intros [|x t Hx Ht]; [done|]. cbn. split; [intros ->; by destruct Hx|done]. Qed.

Lemma matchhere_starts re text : nul_free re -> nul_free text -> matchhere re text = true <-> starts (items re) text.
Proof.
  remember (length re) as n eqn:En. assert (Hle : (length re <= n)%nat) by lia. clear En. revert re text Hle.
  induction n as [|n IH]; intros [|c re] text Hl Hre Ht; cbn in Hl; try lia; try by (cbn; rewrite starts_nil).
  apply Forall_cons in Hre as [Hc Hre]. cbn [matchhere items]. rewrite (proj2 (Z.eqb_neq c 0)) by done.
  assert (Hone : forall l e, (forall text, nul_free text -> matchhere re text = true <-> starts (l, e) text) ->
    (match text with [] => false | x :: t => if negb (x =? 0) && ((c =? 46) || (c =? x)) then matchhere re t else false end) = true
    <-> starts (One c :: l, e) text).
  { intros l e Hi. rewrite starts_one. destruct Ht as [|x t Hx Ht]; [split; [done|by intros (? & ? & ? & _)]|].
    rewrite (proj2 (Z.eqb_neq x 0)) by done. cbn [negb andb]. destruct ((c =? 46) || (c =? x)) eqn:E.
    - rewrite Hi by done. split; [intros; exists x, t; by rewrite <- symb|by intros (? & ? & [= <- <-] & _ & ?)].
    - split; [done|]. intros (y & t' & [= <- <-] & Hs & _). by rewrite <- symb, E in Hs. }
  destruct re as [|x re]; cbn [deref hd].
  - cbn [Z.eqb andb]. rewrite andb_true_r. destruct (c =? 36).
    + rewrite Z.eqb_eq, starts_nil, deref_nul_free by done. naive_solver.
    + apply Hone. intros t' Ht'. by rewrite starts_nil.
  - pose proof Hre as [Hx Hre']%Forall_cons. destruct (x =? 42) eqn:E42.
    + destruct (items re) as [l e] eqn:El. apply matchstar_starts; [|done]. intros t' Ht'. rewrite <- El. apply IH; [cbn in Hl; lia|done|done].
    + rewrite (proj2 (Z.eqb_neq x 0)), andb_false_r by done. destruct (items (x :: re)) as [l e] eqn:El.
      apply Hone. intros t' Ht'. rewrite <- El. apply IH; [cbn in *; lia|done|done].
Qed.

Lemma match_from_starts re text :
  nul_free re -> nul_free text -> match_from re text = true <-> exists a t, text = a ++ t /\ starts (items re) t.
Proof.
  intros Hre Ht. induction Ht as [|x text Hx Ht IH]; cbn [match_from]; rewrite orb_true_iff, matchhere_starts by (done || by constructor).
  - split; [intros [?|?]; [by exists [], []|done]|]. intros (a & t & [-> ->]%eq_sym%app_nil & ?). by left.
  - rewrite (proj2 (Z.eqb_neq x 0)) by done. cbn [negb andb]. rewrite IH. split.
    + intros [?|(a & t & -> & ?)]; [by exists [], (x :: text)|by exists (x :: a), t].
    + intros (a & t & E & ?). destruct a as [|y a]; cbn in E; [left; by subst t|]. injection E as -> ->. right. by exists a, t.
Qed.

Lemma match_selects re text : nul_free re -> nul_free text -> match_ re text = true <-> selects re text.
Proof.
  intros Hre Ht. unfold match_, selects. destruct (deref re =? 94).
  - rewrite matchhere_starts by (done || (destruct Hre; [constructor|done])). destruct (items (tail re)) as [l e]. split.
    + intros (b & c & -> & ? & ?). by exists [], b, c.
    + intros (a & b & c & -> & ? & Ha & ?). rewrite Ha by done. by exists b, c.
  - rewrite match_from_starts by done. destruct (items re) as [l e]. split.
    + intros (a & t & -> & b & c & -> & ? & ?). by exists a, b, c.
    + intros (a & b & c & -> & ? & _ & ?). exists a, (b ++ c). split; [done|]. by exists b, c.
Qed.

(** What follows the NUL of the text does not matter. *)
Lemma matchstar_nul here c t junk :
  (forall t, nul_free t -> here (t ++ 0 :: junk) = here t) -> nul_free t -> matchstar here c (t ++ 0 :: junk) = matchstar here c t.
Proof.
  intros Hh Ht. induction Ht as [|x t Hx Ht IH]; cbn [matchstar app].
  - assert (E := Hh [] (Forall_nil_2 _)). cbn in E. by rewrite E.
  - assert (E := Hh (x :: t) (Forall_cons_2 (fun c => c <> 0) _ _ Hx Ht)). cbn [app] in E. by rewrite IH, E.
Qed.

Lemma matchhere_nul re t junk : nul_free t -> matchhere re (t ++ 0 :: junk) = matchhere re t.
Proof.
  remember (length re) as n eqn:En. assert (Hle : (length re <= n)%nat) by lia. clear En. revert re t Hle.
  induction n as [|n IH]; intros [|c re] t Hl Ht; cbn in Hl; try lia; [done|done|]. cbn [matchhere].
  destruct (c =? 0); [done|]. destruct (deref re =? 42).
  { destruct re as [|x re]; [done|]. apply matchstar_nul; [|done]. intros t' Ht'. apply IH; [cbn in Hl; lia|done]. }
  destruct ((c =? 36) && (deref re =? 0)); [by destruct Ht|].
  destruct Ht as [|x t Hx Ht]; [done|]. cbn [app]. rewrite IH by (done || lia). done.
Qed.

Lemma match_nul re t junk : nul_free t -> match_ re (t ++ 0 :: junk) = match_ re t.
Proof.
  intros Ht. unfold match_. destruct (deref re =? 94); [by apply matchhere_nul|].
  induction Ht as [|x t Hx Ht IH]; cbn [match_from app].
  - assert (E := matchhere_nul re [] junk (Forall_nil_2 _)). cbn [app] in E. by rewrite E.
  - assert (E := matchhere_nul re (x :: t) junk (Forall_cons_2 (fun c => c <> 0) _ _ Hx Ht)). cbn [app] in E. by rewrite IH, E.
Qed.

(** ** The lines printed *)

(** The lines of [ls] the pattern selects, in order. *)
Inductive printed (re : list Z) : list (list Z) -> list (list Z) -> Prop :=
| printed_nil : printed re [] []
| printed_take l ls out : selects re l -> printed re ls out -> printed re (l :: ls) (l :: out)
| printed_skip l ls out : ~ selects re l -> printed re ls out -> printed re (l :: ls) out.

(** A line without its newline. *)
Definition is_line (l : list Z) : Prop := Forall (fun c => c <> 0 /\ c <> 10) l.

(** The bytes of complete lines. *)
Definition text_of (ls : list (list Z)) : list Z := mjoin ((fun l => l ++ [10]) <$> ls).

Lemma is_line_nul_free l : is_line l -> nul_free l.
Proof. apply List.Forall_impl. naive_solver. Qed.

Lemma strchr_line l rest : is_line l -> strchr (l ++ 10 :: rest) 10 = Some (length l).
Proof.
  intros Hl. induction Hl as [|x l [Hx Hn] Hl IH]; [done|]. cbn [strchr app length]. unfold truth.
  rewrite (proj2 (Z.eqb_neq x 0)), (proj2 (Z.eqb_neq x 10)), IH by done. done.
Qed.

Lemma strchr_tail t junk : is_line t -> strchr (t ++ 0 :: junk) 10 = None.
Proof.
  intros Hl. induction Hl as [|x l [Hx Hn] Hl IH]; [done|]. cbn [strchr app]. unfold truth.
  rewrite (proj2 (Z.eqb_neq x 0)), (proj2 (Z.eqb_neq x 10)), IH by done. done.
Qed.

(** Reading stops inside a line: what was read is some of the lines and a part of the next. *)
Lemma split_stream ls tl got rest :
  Forall is_line ls -> is_line tl -> got ++ rest = text_of ls ++ tl ->
  exists ls1 ls2 t, ls = ls1 ++ ls2 /\ got = text_of ls1 ++ t /\ is_line t /\ t ++ rest = text_of ls2 ++ tl.
Proof.
  intros Hls Htl. revert got. induction Hls as [|l ls Hl Hls IH]; intros got E.
  - exists [], [], got. split_and!; try done. change (got ++ rest = tl) in E. subst tl. by apply Forall_app in Htl as [? _].
  - change (text_of (l :: ls)) with ((l ++ [10]) ++ text_of ls) in *. rewrite <- (app_assoc (l ++ [10])) in E.
    destruct (decide (length got <= length l)%nat) as [D|D].
    + exists [], (l :: ls), got. split_and!; try done.
      * assert (E' : take (length got) (got ++ rest) = take (length got) l).
        { rewrite E, <- app_assoc, take_app_le by done. done. }
        rewrite take_app_length in E'. rewrite E'. by apply Forall_take.
      * by rewrite E, app_assoc.
    + assert (E' : got = (l ++ [10]) ++ drop (length l + 1) got).
      { rewrite <- (take_drop (length l + 1) got) at 1. f_equal.
        assert (E2 : take (length l + 1) (got ++ rest) = l ++ [10]) by (rewrite E; apply take_app_length'; rewrite length_app; cbn; lia).
        by rewrite take_app_le in E2 by lia. }
      rewrite E', <- (app_assoc (l ++ [10])) in E. apply app_inv_head in E.
      destruct (IH _ E) as (ls1 & ls2 & t & -> & Eg & Ht & Er). exists (l :: ls1), ls2, t. split_and!; try done.
      rewrite E', Eg. change (text_of (l :: ls1)) with ((l ++ [10]) ++ text_of ls1). by rewrite (app_assoc (l ++ [10])).
Qed.

Lemma printed_app re ls1 ls2 out1 out2 : printed re ls1 out1 -> printed re ls2 out2 -> printed re (ls1 ++ ls2) (out1 ++ out2).
Proof. induction 1; intros; [done|apply printed_take|apply printed_skip]; auto. Qed.

Lemma text_of_app ls1 ls2 : text_of (ls1 ++ ls2) = text_of ls1 ++ text_of ls2.
Proof. unfold text_of. by rewrite fmap_app, join_app. Qed.

Section Run.
Context `{W : Sys} {fd : Z} {St : Stdio fd}.

Lemma grep_lines_run re t junk ls fuel buf p (w : world) :
  nul_free re -> Forall is_line ls -> is_line t -> (length ls < fuel)%nat -> (p <= length buf)%nat ->
  drop p buf = text_of ls ++ t ++ 0 :: junk ->
  exists buf' out w', let p' := (p + length (text_of ls))%nat in
    grep_lines fuel re buf p w = Done (buf', p') w' /\ length buf' = length buf /\ drop p' buf' = t ++ 0 :: junk /\
    input w' = input w /\ output w' = output w ++ text_of out /\ printed re ls out.
Proof.
  intros Hre Hls Ht. revert fuel buf p w. induction Hls as [|l ls Hl Hls IH]; intros fuel buf p w Hf Hp Eb; (destruct fuel as [|fuel]; [cbn in Hf; lia|]).
  - cbn [grep_lines]. change (text_of []) with (@nil Z) in *. cbn [app] in Eb. rewrite Eb, strchr_tail by done.
    exists buf, [], w. cbn. rewrite Nat.add_0_r, app_nil_r. split_and!; try done. constructor.
  - change (text_of (l :: ls)) with ((l ++ [10]) ++ text_of ls) in *. rewrite <- !app_assoc in Eb. cbn [app] in Eb.
    cbn [grep_lines]. rewrite Eb, strchr_line by done.
    assert (Hlen : (p + length l < length buf)%nat).
    { apply (f_equal length) in Eb. rewrite length_drop, length_app in Eb. cbn in Eb. lia. }
    assert (E1 : forall v, drop p (<[(p + length l)%nat := v]> buf) = l ++ v :: text_of ls ++ t ++ 0 :: junk).
    { intros v. rewrite drop_insert_ge by lia. replace (p + length l - p)%nat with (length l + 0)%nat by lia. by rewrite Eb, insert_app_r. }
    assert (E2 : forall v, drop (p + length l + 1) (<[(p + length l)%nat := v]> buf) = text_of ls ++ t ++ 0 :: junk).
    { intros v. rewrite <- Nat.add_assoc, <- drop_drop, E1. by rewrite <- drop_drop, drop_app_length. }
    rewrite E1, match_nul by (by apply is_line_nul_free). rewrite list_insert_insert_eq.
    assert (Hp' : (p + length ((l ++ [10%Z]) ++ text_of ls) = p + length l + 1 + length (text_of ls))%nat) by (rewrite !length_app; cbn; lia).
    destruct (match_ re l) eqn:Em.
    + assert (Eg : get_bytes p (p + length l + 1 - p) (<[(p + length l)%nat := 10]> buf) = l ++ [10]).
      { unfold get_bytes. rewrite E1. replace (p + length l + 1 - p)%nat with (length l + 1)%nat by lia.
        rewrite take_app_add. done. }
      rewrite Eg. destruct (write_run (l ++ [10]) w) as (w1 & Ew & Hi1 & Ho1). rewrite (ubind_done _ _ _ _ _ Ew).
      destruct (IH fuel (<[(p + length l)%nat := 10]> buf) (p + length l + 1)%nat w1) as (buf' & out & w' & E & Hb & Hd & Hi & Ho & Hpr);
        [cbn in Hf; lia|rewrite length_insert; lia|apply E2|].
      exists buf', (l :: out), w'. cbv zeta. rewrite Hp', E. rewrite length_insert in Hb. split_and!; try done; try congruence.
      * rewrite Ho, Ho1, <- app_assoc. done.
      * apply printed_take; [|done]. apply match_selects; auto using is_line_nul_free.
    + destruct (IH fuel (<[(p + length l)%nat := 0]> buf) (p + length l + 1)%nat w) as (buf' & out & w' & E & Hb & Hd & Hi & Ho & Hpr);
        [cbn in Hf; lia|rewrite length_insert; lia|apply E2|].
      exists buf', out, w'. cbv zeta. rewrite Hp', E. rewrite length_insert in Hb. split_and!; try done.
      apply printed_skip; [|done]. intros Hs. apply match_selects in Hs; auto using is_line_nul_free. congruence.
Qed.

Lemma length_text_of ls : (length ls <= length (text_of ls))%nat.
Proof.
  induction ls as [|l ls IH]; [done|]. change (text_of (l :: ls)) with ((l ++ [10]) ++ text_of ls). rewrite !length_app. cbn [length]. lia.
Qed.

(** A newline-free prefix of 1023 bytes or of everything holds no complete line. *)
Lemma no_more_lines ls tl pending rest :
  Forall (fun l => is_line l /\ length l <= 1022)%nat ls -> is_line pending -> pending ++ rest = text_of ls ++ tl ->
  (length pending = 1023)%nat \/ rest = [] -> ls = [].
Proof.
  intros Hls Hp E H. destruct Hls as [|l ls [Hl Hlen] _]; [done|]. exfalso.
  assert (Hx : pending !! length l = Some 10).
  { assert (Hat : (pending ++ rest) !! length l = Some 10).
    { rewrite E. change (text_of (l :: ls)) with ((l ++ [10]) ++ text_of ls). rewrite <- !app_assoc. cbn [app]. by rewrite list_lookup_middle. }
    destruct H as [H| ->]; [by rewrite lookup_app_l in Hat by lia|by rewrite app_nil_r in Hat]. }
  eapply Forall_lookup_1 in Hx; [|exact Hp]. naive_solver.
Qed.

(** The buffer after a read at offset [m] and its NUL. *)
Lemma store_chunk m d (buf : list Z) :
  (m + length d < length buf)%nat ->
  <[(m + length d)%nat := 0]> (put_bytes m d buf) = take m buf ++ d ++ 0 :: drop (m + length d + 1) buf.
Proof.
  intros H. rewrite put_bytes_eq, app_assoc by lia.
  replace (m + length d)%nat with (length (take m buf ++ d) + 0)%nat at 1 by (rewrite length_app, length_take; lia).
  rewrite insert_app_r, <- app_assoc. do 2 f_equal. rewrite <- (drop_drop buf 1 (m + length d)).
  destruct (drop (m + length d) buf) eqn:Ed; [|done]. apply (f_equal length) in Ed. rewrite length_drop in Ed. cbn in Ed. lia.
Qed.

Lemma grep_loop_run re tl fuel ls buf m (w : world) :
  nul_free re -> is_line tl -> Forall (fun l => is_line l /\ length l <= 1022)%nat ls ->
  length buf = 1024%nat -> (m <= 1023)%nat -> is_line (take m buf) -> take m buf ++ input w = text_of ls ++ tl ->
  (length (input w) < fuel)%nat ->
  exists buf' out w', grep_loop fuel re fd buf m w = Done buf' w' /\ output w' = output w ++ text_of out /\ printed re ls out.
Proof.
  intros Hre Htl. revert ls buf m w. induction fuel as [|fuel IH]; intros ls buf m w Hls Hbuf Hm Hpend E Hf; [lia|].
  assert (Hls' : Forall is_line ls) by (eapply List.Forall_impl; [|exact Hls]; naive_solver).
  cbn [grep_loop]. destruct (read_run (1024 - Z.of_nat m - 1) w) as (k & w1 & Er & Hk & Hk' & Hk0 & Hi1 & Ho1); [lia|].
  rewrite (ubind_done _ _ _ _ _ Er). cbn [fst snd].
  assert (Ltk : length (take k (input w)) = k) by (rewrite length_take; lia).
  assert (Ltm : length (take m buf) = m) by (rewrite length_take; lia).
  destruct (Z.ltb_spec 0 (Z.of_nat k)) as [Kpos|Kz]; cbn [negb].
  2:{ eexists _, [], w1. split; [reflexivity|]. rewrite Ho1, app_nil_r. split; [done|].
      rewrite (no_more_lines ls tl (take m buf) (input w)); [constructor|done..|].
      destruct Hk0 as [?|?]; [lia| |by right]. left. lia. }
  rewrite Nat2Z.id. set (buf1 := <[(m + k)%nat := 0]> (put_bytes m (take k (input w)) buf)).
  assert (Hb1 : drop 0 buf1 = take m buf ++ take k (input w) ++ 0 :: drop (m + k + 1) buf).
  { unfold buf1. rewrite drop_0. replace (m + k)%nat with (m + length (take k (input w)))%nat by lia. apply store_chunk. lia. }
  assert (Hlb1 : length buf1 = 1024%nat) by (unfold buf1; rewrite length_insert, length_put_bytes; lia).
  destruct (split_stream ls tl (take m buf ++ take k (input w)) (drop k (input w))) as (ls1 & ls2 & t & -> & Eg & Ht & Er2); [done|done|by rewrite <- app_assoc, take_drop|].
  rewrite app_assoc, Eg, <- app_assoc in Hb1.
  assert (Lg := f_equal length Eg). rewrite !length_app, Ltm, Ltk in Lg.
  apply Forall_app in Hls as [_ Hls2]. apply Forall_app in Hls' as [Hls1 _].
  destruct (grep_lines_run re t (drop (m + k + 1) buf) ls1 1025 buf1 0 w1 Hre Hls1 Ht) as (buf2 & out1 & w2 & Eq & Hl2 & Hd2 & Hi2 & Ho2 & Hp2); [|lia|exact Hb1|].
  { assert (Hx := length_text_of ls1). lia. }
  cbv zeta in Eq, Hd2. cbn [Nat.add] in Eq, Hd2. rewrite (ubind_done _ _ _ _ _ Eq). rewrite (proj2 (Nat.ltb_lt 0 (m + k))) by lia.
  replace (m + k - length (text_of ls1))%nat with (length t) by lia.
  assert (Eg2 : get_bytes (length (text_of ls1)) (length t) buf2 = t) by (unfold get_bytes; by rewrite Hd2, take_app_length).
  rewrite memmove_bytes, Eg2 by lia. rewrite put_bytes_eq by lia. cbn [take Nat.add app].
  destruct (IH ls2 (t ++ drop (length t) buf2) (length t) w2) as (buf' & out2 & w' & E' & Ho' & Hp'); [done|..].
  - rewrite length_app, length_drop. lia.
  - lia.
  - by rewrite take_app_length.
  - rewrite take_app_length, Hi2, Hi1. done.
  - rewrite Hi2, Hi1, length_drop. lia.
  - exists buf', (out1 ++ out2), w'. split; [exact E'|]. split; [|by apply printed_app]. rewrite Ho', Ho2, Ho1, text_of_app, app_assoc. done.
Qed.
End Run.

(** C35: match decides the pattern language, whatever follows the text's NUL: the result is
    true exactly when some part of the text matches the items of the pattern, an item being
    a character or a dot, with or without a star, anchored by a caret and a dollar. *)
Theorem match_language re text junk :
  nul_free re -> nul_free text -> match_ re (text ++ 0 :: junk) = true <-> selects re text.
Proof. intros Hre Ht. rewrite match_nul by done. by apply match_selects. Qed.

(** The pattern a.*b$ selects xacab; ^ac does not. *)
Lemma match_language_witness :
  selects (str "a.*b$") (str "xacab") /\ ~ selects (str "^ac") (str "xacab").
Proof.
  split.
  - apply (match_language (str "a.*b$") (str "xacab") [7]); [by apply (bool_decide_unpack _)..|]. vm_compute. reflexivity.
  - intros H. apply (match_language (str "^ac") (str "xacab") [7]) in H; [|by apply (bool_decide_unpack _)..]. vm_compute in H. discriminate.
Defined.

(** C36: grep terminates and writes exactly the lines that match, each with its newline and in
    the order of the input, however the reads cut the stream, when no complete line is longer
    than the buffer allows. *)
Theorem grep_prints_matches `{W : Sys} {fd : Z} {St : Stdio fd} re ls tl buf fuel (w : world) :
  nul_free re -> Forall (fun l => is_line l /\ length l <= 1022)%nat ls -> is_line tl ->
  input w = text_of ls ++ tl -> length buf = 1024%nat -> (length (input w) < fuel)%nat ->
  exists buf' out w', grep fuel re fd buf w = Done buf' w' /\ output w' = output w ++ text_of out /\ printed re ls out.
Proof. intros Hre Hls Htl Hi Hb Hf. apply (grep_loop_run re tl); auto; try lia. constructor. Qed.

(** Three lines read seven bytes at a time. *)
Lemma grep_prints_matches_witness :
  exists buf' out w', @grep stdio_world 40 (str "b$") 0 (replicate 1024 0) (text_of [str "ab"; str "a long line"; str "xyzb"] ++ str "ab", []) = Done buf' w' /\
    snd w' = text_of out /\ printed (str "b$") [str "ab"; str "a long line"; str "xyzb"] out.
Proof.
  refine (@grep_prints_matches stdio_world 0 stdio_stream (str "b$") [str "ab"; str "a long line"; str "xyzb"] (str "ab") (replicate 1024 0) 40
    (text_of [str "ab"; str "a long line"; str "xyzb"] ++ str "ab", []) _ _ _ eq_refl eq_refl _);
    [by apply (bool_decide_unpack _)..|cbn; lia].
Defined.
