(* ===== verification/Filters.v ===== *)
(** * cat, wc and echo (user/cat.c, user/wc.c, user/echo.c)

    Programs that read a stream to its end or write their arguments. *)

From S2P Require Import Prelude Bytes UserSys Ulib.
From Stdlib Require Import ZArith Lia.
From stdpp Require Import base numbers list strings.

#[local] Open Scope Z_scope.
#[local] Open Scope user_scope.

Section Programs.
Context `{W : Sys}.

Fixpoint cat (fuel : nat) (fd : Z) : U unit :=
  match fuel with
  | O => unofuel
  | S fuel' =>
      do r <- read fd 512;
      let n := fst r in
      if 0 <? n then
        do k <- write 1 (take (Z.to_nat n) (snd r));
        if negb (k =? n) then fprintf 2 (str "cat: write error" ++ [10]) [] ;; exit 1
        else cat fuel' fd
      else if n <? 0 then fprintf 2 (str "cat: read error" ++ [10]) [] ;; exit 1
      else uret tt
  end.

Fixpoint cat_files (fuel : nat) (files : list (list Z)) : U unit :=
  match files with
  | [] => exit 0
  | f :: files' =>
      do fd <- ures_val (Sopen f 0);
      if fd <? 0 then fprintf 2 (str "cat: cannot open %s" ++ [10]) [VStr (Some f)] ;; exit 1
      else cat fuel fd ;; ures_val (Sclose fd) ;; cat_files fuel files'
  end.

Definition cat_main (fuel : nat) (argv : list (list Z)) : U unit :=
  match argv with
  | _ :: f :: files => cat_files fuel (f :: files)
  | _ => cat fuel 0 ;; exit 0
  end.

(** l, w, c and inword. *)
Record counts := Counts { cn_l : Z; cn_w : Z; cn_c : Z; cn_inword : bool }.

(** The separators " \r\t\n\v". *)
Definition blanks : list Z := [32; 13; 9; 10; 11].

(** The body of the inner loop of wc. *)
Definition wc_char (k : counts) (x : Z) : counts :=
  let c := i32 (cn_c k + 1) in
  let l := if x =? 10 then i32 (cn_l k + 1) else cn_l k in
  match strchr blanks x with
  | Some _ => Counts l (cn_w k) c false
  | None => if cn_inword k then Counts l (cn_w k) c true else Counts l (i32 (cn_w k + 1)) c true
  end.

(** The loops of wc, to the first read that gives nothing: its result and the counts. *)
Fixpoint wc_loop (fuel : nat) (fd : Z) (k : counts) : U (Z * counts) :=
  match fuel with
  | O => unofuel
  | S fuel' =>
      do r <- read fd 512;
      let n := fst r in
      if 0 <? n then wc_loop fuel' fd (foldl wc_char k (take (Z.to_nat n) (snd r)))
      else uret (n, k)
  end.

Definition wc (fuel : nat) (fd : Z) (name : list Z) : U unit :=
  do nk <- wc_loop fuel fd (Counts 0 0 0 false);
  let '(n, k) := nk in
  if n <? 0 then printf (str "wc: read error" ++ [10]) [] ;; exit 1
  else printf (str "%d %d %d %s" ++ [10]) [VInt (cn_l k); VInt (cn_w k); VInt (cn_c k); VStr (Some name)].

Fixpoint wc_files (fuel : nat) (files : list (list Z)) : U unit :=
  match files with
  | [] => exit 0
  | f :: files' =>
      do fd <- ures_val (Sopen f 0);
      if fd <? 0 then printf (str "wc: cannot open %s" ++ [10]) [VStr (Some f)] ;; exit 1
      else wc fuel fd f ;; ures_val (Sclose fd) ;; wc_files fuel files'
  end.

Definition wc_main (fuel : nat) (argv : list (list Z)) : U unit :=
  match argv with
  | _ :: f :: files => wc_files fuel (f :: files)
  | _ => wc fuel 0 [] ;; exit 0
  end.

(** echo's loop over argv[1..]. *)
Fixpoint echo_args (args : list (list Z)) : U unit :=
  match args with
  | [] => exit 0
  | a :: args' =>
      write 1 (take (strlen a) a) ;;
      write 1 (match args' with _ :: _ => [32] | [] => [10] end) ;;
      echo_args args'
  end.

Definition echo_main (argv : list (list Z)) : U unit := echo_args (tail argv).

End Programs.

(** ** What they write *)

(** The number of lines, of words (characters after a blank that are none) and of bytes. *)
Definition is_blank (x : Z) : bool := bool_decide (x ∈ blanks).
Definition lines_in (s : list Z) : Z := Z.of_nat (length (filter (fun x => x = 10) s)).
Definition words_in (s : list Z) : Z :=
  Z.of_nat (length (filter (fun ab => is_blank (fst ab) = true /\ is_blank (snd ab) = false) (zip (32 :: s) s))).

(** Words from a position where the previous character is [prev]. *)
Fixpoint words_after (prev : Z) (s : list Z) : Z :=
  match s with
  | [] => 0
  | x :: s' => (if is_blank prev && negb (is_blank x) then 1 else 0) + words_after x s'
  end.

Lemma words_after_filter prev s :
  words_after prev s = Z.of_nat (length (filter (fun ab => is_blank (fst ab) = true /\ is_blank (snd ab) = false) (zip (prev :: s) s))).
Proof.
  revert prev. induction s as [|x s IH]; intros prev; [done|]. cbn [words_after]. change (zip (prev :: x :: s) (x :: s)) with ((prev, x) :: zip (x :: s) s). rewrite filter_cons, IH.
  case_decide as D; cbn [fst snd length] in *; destruct (is_blank prev), (is_blank x); cbn [andb negb]; try lia; naive_solver.
Qed.

Lemma strchr_blank x : strchr blanks x = None <-> is_blank x = false.
Proof.
  unfold is_blank. rewrite bool_decide_eq_false. unfold blanks. rewrite !not_elem_of_cons. cbn [strchr].
  change (truth 32) with true. change (truth 13) with true. change (truth 9) with true. change (truth 10) with true. change (truth 11) with true. cbv iota.
  repeat match goal with |- context [?a =? x] => destruct (Z.eqb_spec a x); [subst x; split; [done|tauto]|] end.
  split; [intros _|done]. split_and!; try congruence. apply not_elem_of_nil.
Qed.

(** One character changes the counts as it changes the reference counts. *)
Lemma wc_chars s k prev :
  cn_inword k = negb (is_blank prev) ->
  0 <= cn_l k -> 0 <= cn_w k -> 0 <= cn_c k ->
  cn_l k <= cn_c k -> cn_w k <= cn_c k -> cn_c k + Z.of_nat (length s) < 2 ^ 31 ->
  exists iw, foldl wc_char k s =
    Counts (cn_l k + lines_in s) (cn_w k + words_after prev s) (cn_c k + Z.of_nat (length s)) iw.
Proof.
  revert k prev. induction s as [|x s IH]; intros [l w c iw] prev Hw H1 H2 H3 H4 H5 H6; cbn [cn_l cn_w cn_c cn_inword] in *.
  - exists iw. unfold lines_in. cbn. by rewrite !Z.add_0_r.
  - cbn [foldl length words_after] in *. subst iw.
    assert (El : lines_in (x :: s) = (if x =? 10 then 1 else 0) + lines_in s).
    { unfold lines_in. rewrite filter_cons. destruct (Z.eqb_spec x 10); [rewrite decide_True by done|rewrite decide_False by done]; cbn [length]; lia. }
    assert (Ei : forall v, 0 <= v <= c -> i32 (v + 1) = v + 1) by (intros; apply i32_small; lia).
    assert (Ex : wc_char (Counts l w c (negb (is_blank prev))) x =
      Counts (l + (if x =? 10 then 1 else 0)) (w + (if is_blank prev && negb (is_blank x) then 1 else 0)) (c + 1) (negb (is_blank x))).
    { unfold wc_char. cbn [cn_l cn_w cn_c cn_inword]. rewrite !Ei by lia.
      destruct (strchr blanks x) eqn:Es; [destruct (is_blank x) eqn:Eb; [|apply strchr_blank in Eb; congruence]|apply strchr_blank in Es; rewrite Es];
      destruct (x =? 10), (is_blank prev); cbn [negb andb]; f_equal; lia. }
    rewrite Ex. destruct (IH (Counts (l + (if x =? 10 then 1 else 0)) (w + (if is_blank prev && negb (is_blank x) then 1 else 0)) (c + 1) (negb (is_blank x))) x) as (iw & E);
      cbn [cn_l cn_w cn_c cn_inword]; try done; try (destruct (x =? 10), (is_blank prev && negb (is_blank x)); lia).
    exists iw. rewrite E. cbn [cn_l cn_w cn_c]. rewrite El. f_equal; lia.
Qed.

Lemma words_after_app prev s r : words_after prev (s ++ r) = words_after prev s + words_after (default prev (last s)) r.
Proof.
  revert prev. induction s as [|x s IH]; intros prev; [done|]. cbn [words_after app]. rewrite IH.
  destruct s as [|y s]; [cbn; lia|]. change (last (x :: y :: s)) with (last (y :: s)).
  destruct (last (y :: s)) eqn:E; [cbn [default]; lia|]. by apply last_None in E.
Qed.

Lemma lines_in_app s r : lines_in (s ++ r) = lines_in s + lines_in r.
Proof. unfold lines_in. rewrite filter_app, length_app. lia. Qed.

Lemma lines_in_bound s : 0 <= lines_in s <= Z.of_nat (length s).
Proof. unfold lines_in. assert (H := length_filter (fun x => x = 10) s). lia. Qed.

Lemma words_after_bound prev s : 0 <= words_after prev s <= Z.of_nat (length s).
Proof.
  revert prev. induction s as [|x s IH]; intros prev; cbn [words_after length]; [lia|]. specialize (IH x).
  destruct (is_blank prev && negb (is_blank x)); lia.
Qed.

Lemma wc_inword s k prev : cn_inword k = negb (is_blank prev) -> cn_inword (foldl wc_char k s) = negb (is_blank (default prev (last s))).
Proof.
  intros Hk. destruct s as [|x s _] using rev_ind; [done|]. rewrite foldl_snoc, last_snoc. change (default prev (Some x)) with x. generalize (foldl wc_char k s). intros k'. unfold wc_char.
  destruct (strchr blanks x) eqn:E.
  - destruct (is_blank x) eqn:Eb; [done|]. apply strchr_blank in Eb. congruence.
  - apply strchr_blank in E. rewrite E. by destruct (cn_inword k').
Qed.

(** An int in decimal, as printf writes it. *)
Definition decimal (x : Z) : list Z := printint_text x 10 true.

Lemma printint_run `{W : Sys} {fd : Z} {St : Stdio fd} x (w : world) :
  exists w', printint 1 x 10 true w = Done tt w' /\ input w' = input w /\ output w' = output w ++ decimal x.
Proof. apply puts_run. apply printint_text_bytes. lia. Qed.

Lemma putc_run `{W : Sys} {fd : Z} {St : Stdio fd} c (w : world) :
  is_byte c -> exists w', putc 1 c w = Done tt w' /\ input w' = input w /\ output w' = output w ++ [c].
Proof.
  intros Hc. destruct (write_run [u8 c] w) as (w' & E & Hi & Ho). exists w'. unfold putc. rewrite (ubind_done _ _ _ _ _ E).
  rewrite u8_small in Ho by done. done.
Qed.

(** The line wc prints. *)
Lemma wc_line_run `{W : Sys} {fd : Z} {St : Stdio fd} l k c name (w : world) :
  i32 l = l -> i32 k = k -> i32 c = c -> Forall is_byte name -> ctext name = name ->
  exists w', printf (str "%d %d %d %s" ++ [10]) [VInt l; VInt k; VInt c; VStr (Some name)] w = Done tt w' /\
    output w' = output w ++ decimal l ++ [32] ++ decimal k ++ [32] ++ decimal c ++ [32] ++ name ++ [10].
Proof.
  intros E1 E2 E3 Hn Hc. unfold printf. change (str "%d %d %d %s" ++ [10]) with [37; 100; 32; 37; 100; 32; 37; 100; 32; 37; 115; 10].
  rewrite vprintf_int, vprintf_char, vprintf_int, vprintf_char, vprintf_int, vprintf_char, vprintf_str, vprintf_char by lia. rewrite E1, E2, E3, Hc.
  destruct (printint_run l w) as (w1 & R1 & _ & O1). rewrite (ubind_done _ _ _ _ _ R1).
  destruct (putc_run 32 w1 ltac:(unfold is_byte; lia)) as (w2 & R2 & _ & O2). rewrite (ubind_done _ _ _ _ _ R2).
  destruct (printint_run k w2) as (w3 & R3 & _ & O3). rewrite (ubind_done _ _ _ _ _ R3).
  destruct (putc_run 32 w3 ltac:(unfold is_byte; lia)) as (w4 & R4 & _ & O4). rewrite (ubind_done _ _ _ _ _ R4).
  destruct (printint_run c w4) as (w5 & R5 & _ & O5). rewrite (ubind_done _ _ _ _ _ R5).
  destruct (putc_run 32 w5 ltac:(unfold is_byte; lia)) as (w6 & R6 & _ & O6). rewrite (ubind_done _ _ _ _ _ R6).
  destruct (puts_run name w6 Hn) as (w7 & R7 & _ & O7). rewrite (ubind_done _ _ _ _ _ R7).
  destruct (putc_run 10 w7 ltac:(unfold is_byte; lia)) as (w8 & R8 & _ & O8). rewrite (ubind_done _ _ _ _ _ R8).
  exists w8. split; [done|]. rewrite O8, O7, O6, O5, O4, O3, O2, O1, <- !app_assoc. done.
Qed.

Section Run.
Context `{W : Sys} {fd : Z} {St : Stdio fd}.

Lemma cat_run fuel (w : world) :
  (length (input w) < fuel)%nat -> exists w', cat fuel fd w = Done tt w' /\ input w' = [] /\ output w' = output w ++ input w.
Proof.
  revert w. induction fuel as [|fuel IH]; intros w Hf; [lia|]. cbn [cat].
  destruct (read_run 512 w) as (k & w1 & E & Hk & _ & Hk0 & Hi & Ho); [lia|]. rewrite (ubind_done _ _ _ _ _ E). cbn [fst snd].
  destruct (Z.ltb_spec 0 (Z.of_nat k)).
  - rewrite Nat2Z.id, take_idemp. destruct (write_run (take k (input w)) w1) as (w2 & E2 & Hi2 & Ho2). rewrite (ubind_done _ _ _ _ _ E2).
    rewrite length_take, Nat.min_l, Z.eqb_refl by lia. cbn [negb].
    destruct (IH w2) as (w' & E' & Hi' & Ho'); [rewrite Hi2, Hi, length_drop; lia|]. exists w'. split; [exact E'|]. split; [done|].
    rewrite Ho', Ho2, Ho, Hi2, Hi, <- app_assoc. by rewrite take_drop.
  - rewrite (proj2 (Z.ltb_ge _ 0)) by lia. exists w1. split; [done|].
    assert (Ei : input w = []) by (destruct Hk0; [lia|done|done]). rewrite Hi, Ho, Ei, app_nil_r. by destruct k.
Qed.

Lemma wc_loop_run fuel k prev (w : world) :
  (length (input w) < fuel)%nat -> cn_inword k = negb (is_blank prev) ->
  0 <= cn_l k <= cn_c k -> 0 <= cn_w k <= cn_c k -> cn_c k + Z.of_nat (length (input w)) < 2 ^ 31 ->
  exists iw w', wc_loop fuel fd k w =
    Done (0, Counts (cn_l k + lines_in (input w)) (cn_w k + words_after prev (input w)) (cn_c k + Z.of_nat (length (input w))) iw) w' /\
    output w' = output w.
Proof.
  revert k prev w. induction fuel as [|fuel IH]; intros k prev w Hf Hw Hl Hkw Hc; [lia|]. cbn [wc_loop].
  destruct (read_run 512 w) as (n & w1 & E & Hn & _ & Hn0 & Hi & Ho); [lia|]. rewrite (ubind_done _ _ _ _ _ E). cbn [fst snd].
  destruct (Z.ltb_spec 0 (Z.of_nat n)).
  - rewrite Nat2Z.id, take_idemp. set (s := take n (input w)) in *. set (r := drop n (input w)) in *.
    assert (Es : input w = s ++ r) by (symmetry; apply take_drop). assert (Ls : length s = n) by (unfold s; rewrite length_take; lia).
    rewrite Es, length_app in Hc.
    destruct (wc_chars s k prev) as (iw & Ef); [done|lia..|].
    assert (Hsplit := words_after_app prev s r). assert (Hl2 := lines_in_app s r).
    assert (Hb := words_after_bound prev s). assert (Hb' := lines_in_bound s).
    assert (Hin : cn_inword (foldl wc_char k s) = negb (is_blank (default prev (last s)))) by (by apply wc_inword).
    destruct (IH (foldl wc_char k s) (default prev (last s)) w1) as (iw' & w' & E' & Ho'); try done; rewrite ?Ef, ?Hi; cbn [cn_l cn_w cn_c]; try lia.
    { unfold r. rewrite length_drop. lia. }
    exists iw', w'. rewrite Ef in E'. cbn [cn_l cn_w cn_c] in E'. rewrite E', Hi, Ho', Ho. split; [|done]. do 2 f_equal.
    rewrite Es, length_app, Hl2, Hsplit. f_equal; lia.
  - assert (Ei : input w = []) by (destruct Hn0; [lia|done|done]). exists (cn_inword k), w1. rewrite Ei. cbn.
    replace n with 0%nat by lia. rewrite !Z.add_0_r. destruct k. done.
Qed.
End Run.

(** [cat] terminates and copies its whole input to the output, however the reads cut it. *)
Theorem cat_copies `{W : Sys} {fd : Z} {St : Stdio fd} fuel (w : world) :
  (length (input w) < fuel)%nat -> exists w', cat fuel fd w = Done tt w' /\ input w' = [] /\ output w' = output w ++ input w.
Proof. apply cat_run. Qed.

Lemma cat_copies_witness :
  exists w', @cat stdio_world 20 0 (str "two words and more", []) = Done tt w' /\ fst w' = [] /\ snd w' = [] ++ str "two words and more".
Proof. refine (@cat_copies stdio_world 0 stdio_stream 20 (str "two words and more", []) _). cbn. lia. Defined.

(** Wc terminates and prints, in decimal, the number of newlines, of words and of bytes
    of its input, a word starting at each character that follows a blank and is none, however
    the reads cut the stream. *)
Theorem wc_counts `{W : Sys} {fd : Z} {St : Stdio fd} fuel name (w : world) :
  (length (input w) < fuel)%nat -> Z.of_nat (length (input w)) < 2 ^ 31 -> Forall is_byte name -> ctext name = name ->
  exists w', wc fuel fd name w = Done tt w' /\
    output w' = output w ++ decimal (lines_in (input w)) ++ [32] ++ decimal (words_in (input w)) ++ [32] ++
      decimal (Z.of_nat (length (input w))) ++ [32] ++ name ++ [10].
Proof.
  intros Hf Hl Hn Hc. destruct (wc_loop_run fuel (Counts 0 0 0 false) 32 w Hf eq_refl) as (iw & w1 & E & Ho); cbn [cn_l cn_w cn_c]; [lia..|].
  cbn [cn_l cn_w cn_c] in E. unfold wc. rewrite (ubind_done _ _ _ _ _ E). cbn [Z.ltb Z.compare]. cbn [cn_l cn_w cn_c].
  assert (Hb := words_after_bound 32 (input w)). assert (Hb' := lines_in_bound (input w)).
  rewrite !Z.add_0_l in *. destruct (wc_line_run (lines_in (input w)) (words_after 32 (input w)) (Z.of_nat (length (input w))) name w1)
    as (w' & E' & Ho'); [apply i32_small; lia..|done|done|].
  exists w'. split; [exact E'|]. rewrite Ho', Ho. unfold words_in. by rewrite <- words_after_filter.
Qed.

(** Two lines, three words, thirteen bytes; the reads end inside a word. *)
Lemma wc_counts_witness :
  exists w', @wc stdio_world 20 0 (str "f") (str "one two" ++ [10] ++ str "last" ++ [10], []) = Done tt w' /\
    snd w' = str "2 3 13 f" ++ [10].
Proof.
  destruct (@wc_counts stdio_world 0 stdio_stream 20 (str "f") (str "one two" ++ [10] ++ str "last" ++ [10], [])) as (w' & E & Ho);
    [cbn; lia|cbn; lia|constructor; [split; vm_compute; congruence|constructor]|reflexivity|].
  exists w'. split; [exact E|]. exact Ho.
Defined.
