(* ===== verification/Sh.v ===== *)
(** * The shell (user/sh.c)

    The parser works on positions of the command line's buffer: a char pointer is an offset,
    [es] is the offset of the NUL.  A command is the tree its constructors build; allocating
    its nodes is taken to succeed.  parseexec adds arguments to an execcmd that redircmds
    already point to, so it keeps the arguments and the redirections apart and builds the tree
    when both are complete. *)

From S2P Require Import Prelude Bytes UserSys Ulib.
From Stdlib Require Import ZArith Lia.
From stdpp Require Import base numbers list strings.

#[local] Open Scope Z_scope.
#[local] Open Scope user_scope.

Definition MAXARGS : nat := 10.

(** A word of the line: the offsets of its first character and of its end. *)
Record span := Span { sp_q : nat; sp_eq : nat }.
#[global] Instance span_eq_dec : EqDecision span.
Proof. solve_decision. Defined.

(** What a redircmd holds besides the command. *)
Record redir := Redir { rd_file : span; rd_mode : Z; rd_fd : Z }.

Inductive cmd :=
| EXEC (argv : list span)
| REDIR (c : cmd) (r : redir)
| PIPE (left right : cmd)
| LIST (left right : cmd)
| BACK (c : cmd).

(** " \t\r\n\v" and "<|>&;()". *)
Definition whitespace : list Z := [32; 9; 13; 10; 11].
Definition symbols : list Z := [60; 124; 62; 38; 59; 40; 41].

Definition in_set (set : list Z) (c : Z) : bool := match strchr set c with Some _ => true | None => false end.

(** The character at offset [p]. *)
Definition at_ (s : list Z) (p : nat) : Z := deref (drop p s).

(** while(s < es && strchr(whitespace, *s)) s++; [n] is es - s. *)
Fixpoint skip_blanks (s : list Z) (n p : nat) : nat :=
  match n with
  | O => p
  | S n' => if in_set whitespace (at_ s p) then skip_blanks s n' (S p) else p
  end.

(** The loop over the characters of a word. *)
Fixpoint skip_word (s : list Z) (n p : nat) : nat :=
  match n with
  | O => p
  | S n' => if negb (in_set whitespace (at_ s p)) && negb (in_set symbols (at_ s p)) then skip_word s n' (S p) else p
  end.

(** The result, the token's span and the position after it. *)
Definition gettoken (s : list Z) (es p : nat) : Z * span * nat :=
  let q := skip_blanks s (es - p) p in
  let c := at_ s q in
  let '(ret, eq) :=
    if c =? 0 then (c, q)
    else if in_set [124; 40; 41; 59; 38; 60] c then (c, S q)
    else if c =? 62 then if at_ s (S q) =? 62 then (43, S (S q)) else (c, S q)
    else (97, skip_word s (es - q) q) in
  (ret, Span q eq, skip_blanks s (es - eq) eq).

Definition peek (s : list Z) (es p : nat) (toks : list Z) : bool * nat :=
  let p' := skip_blanks s (es - p) p in
  (negb (at_ s p' =? 0) && in_set toks (at_ s p'), p').

(** redircmd around a command, for each redirection in turn. *)
Definition redircmds (c : cmd) (rs : list redir) : cmd := foldl REDIR c rs.

Section Shell.
Context `{W : Sys}.

Definition panic {A} (msg : list Z) : U A := fprintf 2 (str "%s" ++ [10]) [VStr (Some msg)] ;; exit 1.

Definition fork1 : U Z :=
  do pid <- ures_val Sfork;
  if pid =? -1 then panic (str "fork") else uret pid.

(** O_RDONLY, O_WRONLY|O_CREATE|O_TRUNC and O_WRONLY|O_CREATE. *)
Definition redir_of (tok : Z) (w : span) : list redir :=
  if tok =? 60 then [Redir w 0 0]
  else if tok =? 62 then [Redir w 1537 1]
  else if tok =? 43 then [Redir w 513 1]
  else [].

(** The redirections parseredirs adds, in order, and the position after them. *)
Fixpoint parseredirs (fuel : nat) (s : list Z) (es p : nat) : U (list redir * nat) :=
  match fuel with
  | O => unofuel
  | S fuel' =>
      let '(b, p) := peek s es p [60; 62] in
      if negb b then uret ([], p) else
      let '(tok, _, p) := gettoken s es p in
      let '(tok2, w, p) := gettoken s es p in
      if negb (tok2 =? 97) then panic (str "missing file for redirection") else
      do rsp <- parseredirs fuel' s es p;
      let '(rs, p) := rsp in
      uret (redir_of tok w ++ rs, p)
  end.

(** The loop of parseexec: the arguments and redirections added. *)
Fixpoint parseexec_loop (fuel : nat) (s : list Z) (es p argc : nat) : U (list span * list redir * nat) :=
  match fuel with
  | O => unofuel
  | S fuel' =>
      let '(b, p) := peek s es p [124; 41; 38; 59] in
      if b then uret ([], [], p) else
      let '(tok, w, p) := gettoken s es p in
      if tok =? 0 then uret ([], [], p) else
      if negb (tok =? 97) then panic (str "syntax") else
      if (MAXARGS <=? S argc)%nat then panic (str "too many args") else
      do rsp <- parseredirs (S (length s)) s es p;
      let '(rs, p) := rsp in
      do rest <- parseexec_loop fuel' s es p (S argc);
      let '(ws, rs', p) := rest in
      uret (w :: ws, rs ++ rs', p)
  end.

(** while(peek(ps, es, "&")): the backcmds around the command. *)
Fixpoint parse_backs (fuel : nat) (s : list Z) (es p : nat) (c : cmd) : U (cmd * nat) :=
  match fuel with
  | O => unofuel
  | S fuel' =>
      let '(b, p) := peek s es p [38] in
      if negb b then uret (c, p) else
      let '(_, _, p) := gettoken s es p in
      parse_backs fuel' s es p (BACK c)
  end.

Fixpoint parseline (fuel : nat) (s : list Z) (es p : nat) : U (cmd * nat) :=
  match fuel with
  | O => unofuel
  | S fuel' =>
      do cp <- parsepipe fuel' s es p;
      do cp <- parse_backs (S (length s)) s es (snd cp) (fst cp);
      let '(c, p) := cp in
      let '(b, p) := peek s es p [59] in
      if negb b then uret (c, p) else
      let '(_, _, p) := gettoken s es p in
      do rp <- parseline fuel' s es p;
      uret (LIST c (fst rp), snd rp)
  end
with parsepipe (fuel : nat) (s : list Z) (es p : nat) : U (cmd * nat) :=
  match fuel with
  | O => unofuel
  | S fuel' =>
      do cp <- parseexec fuel' s es p;
      let '(c, p) := cp in
      let '(b, p) := peek s es p [124] in
      if negb b then uret (c, p) else
      let '(_, _, p) := gettoken s es p in
      do rp <- parsepipe fuel' s es p;
      uret (PIPE c (fst rp), snd rp)
  end
with parseexec (fuel : nat) (s : list Z) (es p : nat) : U (cmd * nat) :=
  match fuel with
  | O => unofuel
  | S fuel' =>
      let '(b, p) := peek s es p [40] in
      if b then parseblock fuel' s es p else
      do rsp <- parseredirs (S (length s)) s es p;
      let '(rs, p) := rsp in
      do l <- parseexec_loop (S (length s)) s es p 0;
      let '(argv, rs', p) := l in
      uret (redircmds (EXEC argv) (rs ++ rs'), p)
  end
with parseblock (fuel : nat) (s : list Z) (es p : nat) : U (cmd * nat) :=
  match fuel with
  | O => unofuel
  | S fuel' =>
      let '(b, p) := peek s es p [40] in
      if negb b then panic (str "parseblock") else
      let '(_, _, p) := gettoken s es p in
      do cp <- parseline fuel' s es p;
      let '(c, p) := cp in
      let '(b, p) := peek s es p [41] in
      if negb b then panic (str "syntax - missing )") else
      let '(_, _, p) := gettoken s es p in
      do rsp <- parseredirs (S (length s)) s es p;
      let '(rs, p) := rsp in
      uret (redircmds c rs, p)
  end.

(** A NUL at the end of every word. *)
Fixpoint nulterminate (c : cmd) (s : list Z) : list Z :=
  match c with
  | EXEC argv => foldl (fun s w => <[sp_eq w := 0]> s) s argv
  | REDIR c r => <[sp_eq (rd_file r) := 0]> (nulterminate c s)
  | PIPE l r => nulterminate r (nulterminate l s)
  | LIST l r => nulterminate r (nulterminate l s)
  | BACK c => nulterminate c s
  end.

(** The depth of the recursion grows by four for every parenthesis or semicolon. *)
Definition parse_fuel (s : list Z) : nat := (4 * S (length s))%nat.

(** The command and the buffer its words are in. *)
Definition parsecmd (s : list Z) : U (cmd * list Z) :=
  let es := strlen s in
  do cp <- parseline (parse_fuel s) s es 0;
  let '(c, p) := cp in
  let '(_, p) := peek s es p [] in
  if negb (p =? es)%nat then
    fprintf 2 (str "leftovers: %s" ++ [10]) [VStr (Some (drop p s))] ;; panic (str "syntax")
  else uret (c, nulterminate c s).

(** The string at a word's start. *)
Definition word (s : list Z) (w : span) : list Z := ctext (drop (sp_q w) s).

(** The descriptors pipe stores. *)
Definition pipe_ends (d : list Z) : Z * Z := (i32 (le_val (take 4 d)), i32 (le_val (take 4 (drop 4 d)))).

Fixpoint runcmd {A} (s : list Z) (c : cmd) : U A :=
  match c with
  | EXEC argv =>
      match argv with
      | [] => exit 1
      | w :: _ =>
          ures_val (Sexec (word s w) (word s <$> argv)) ;;
          fprintf 2 (str "exec %s failed" ++ [10]) [VStr (Some (word s w))] ;;
          exit 0
      end
  | REDIR c r =>
      ures_val (Sclose (rd_fd r)) ;;
      do fd <- ures_val (Sopen (word s (rd_file r)) (rd_mode r));
      if fd <? 0 then fprintf 2 (str "open %s failed" ++ [10]) [VStr (Some (word s (rd_file r)))] ;; exit 1
      else runcmd s c
  | LIST l r =>
      do pid <- fork1;
      if pid =? 0 then runcmd s l else
      ures_val Swait ;;
      runcmd s r
  | PIPE l r =>
      do rp <- syscall_ Spipe;
      if fst rp <? 0 then panic (str "pipe") else
      let '(p0, p1) := pipe_ends (snd rp) in
      do pid1 <- fork1;
      if pid1 =? 0 then
        ures_val (Sclose 1) ;; ures_val (Sdup p1) ;; ures_val (Sclose p0) ;; ures_val (Sclose p1) ;; runcmd s l
      else
      do pid2 <- fork1;
      if pid2 =? 0 then
        ures_val (Sclose 0) ;; ures_val (Sdup p0) ;; ures_val (Sclose p0) ;; ures_val (Sclose p1) ;; runcmd s r
      else
      ures_val (Sclose p0) ;; ures_val (Sclose p1) ;; ures_val Swait ;; ures_val Swait ;; exit 0
  | BACK c =>
      do pid <- fork1;
      if pid =? 0 then runcmd s c else exit 0
  end.

(** The result and the buffer. *)
Definition getcmd (nbuf : nat) : U (Z * list Z) :=
  write 2 (str "$ ") ;;
  do l <- gets (Z.of_nat nbuf);
  let buf := put_bytes 0 l (memset 0 nbuf) in
  uret ((if deref buf =? 0 then -1 else 0), buf).

(** Opening the console until three descriptors are taken. *)
Fixpoint open_console (fuel : nat) : U unit :=
  match fuel with
  | O => unofuel
  | S fuel' =>
      do fd <- ures_val (Sopen (str "console") 2);
      if 0 <=? fd then
        if 3 <=? fd then ures_val (Sclose fd) ;; uret tt else open_console fuel'
      else uret tt
  end.

Fixpoint sh_loop (fuel : nat) : U unit :=
  match fuel with
  | O => unofuel
  | S fuel' =>
      do r <- getcmd 100;
      let buf := snd r in
      if fst r <? 0 then exit 0 else
      if (at_ buf 0 =? 99) && (at_ buf 1 =? 100) && (at_ buf 2 =? 32) then
        let buf := <[(strlen buf - 1)%nat := 0]> buf in
        do k <- ures_val (Schdir (ctext (drop 3 buf)));
        (if k <? 0 then fprintf 2 (str "cannot cd %s" ++ [10]) [VStr (Some (drop 3 buf))] else uret tt) ;;
        sh_loop fuel'
      else
      do pid <- fork1;
      (if pid =? 0 then do cs <- parsecmd buf; runcmd (snd cs) (fst cs) else uret tt) ;;
      ures_val Swait ;;
      sh_loop fuel'
  end.

Definition sh_main (fuel : nat) : U unit := open_console fuel ;; sh_loop fuel.

End Shell.

(** ** The parser returns, and its pointers stay inside the line *)

Lemma in_set_spec set c : Forall (fun x => x <> 0) set -> in_set set c = bool_decide (c ∈ set).
Proof.
  intros Hs. unfold in_set. induction Hs as [|x set Hx Hs IH]; cbn [strchr].
  - by rewrite bool_decide_false by apply not_elem_of_nil.
  - unfold truth. rewrite (proj2 (Z.eqb_neq x 0)) by done. cbn [negb]. destruct (Z.eqb_spec x c) as [->|Hn].
    + by rewrite bool_decide_true by left.
    + assert (E : bool_decide (c ∈ x :: set) = bool_decide (c ∈ set)) by (apply bool_decide_ext; rewrite elem_of_cons; naive_solver).
      rewrite E, <- IH. by destruct (strchr set c).
Qed.

Lemma not_symbol c : in_set [124; 40; 41; 59; 38; 60] c = false -> c <> 62 -> in_set symbols c = false.
Proof.
  rewrite !in_set_spec by (by apply (bool_decide_unpack _)). rewrite !bool_decide_eq_false. unfold symbols. rewrite !not_elem_of_cons. tauto.
Qed.

Section Bounds.
Context (s : list Z) (es : nat).
Hypothesis Hes : at_ s es = 0.

Lemma skip_blanks_range n p : (p <= skip_blanks s n p <= p + n)%nat.
Proof.
  revert p. induction n as [|n IH]; intros p; cbn [skip_blanks]; [lia|].
  destruct (in_set whitespace (at_ s p)); [specialize (IH (S p))|]; lia.
Qed.

Lemma skip_word_range n p : (p <= skip_word s n p <= p + n)%nat.
Proof.
  revert p. induction n as [|n IH]; intros p; cbn [skip_word]; [lia|].
  destruct (negb (in_set whitespace (at_ s p)) && negb (in_set symbols (at_ s p))); [specialize (IH (S p))|]; lia.
Qed.

(** The blanks end at a character that is none, or at the line's end. *)
Lemma skip_blanks_stop p :
  (p <= es)%nat -> in_set whitespace (at_ s (skip_blanks s (es - p) p)) = false.
Proof.
  intros Hp. assert (H : forall n p, (p + n = es)%nat -> in_set whitespace (at_ s (skip_blanks s n p)) = false).
  { clear p Hp. induction n as [|n IH]; intros p Hn; cbn [skip_blanks].
    - rewrite Nat.add_0_r in Hn. subst p. by rewrite Hes.
    - destruct (in_set whitespace (at_ s p)) eqn:E; [apply IH; lia|done]. }
  apply H. lia.
Qed.

Lemma skip_blanks_idemp n p : in_set whitespace (at_ s p) = false -> skip_blanks s n p = p.
Proof. destruct n; cbn [skip_blanks]; [done|]. by intros ->. Qed.

Lemma not_end p : (p <= es)%nat -> at_ s p <> 0 -> (p < es)%nat.
Proof. intros Hp Hn. destruct (decide (p = es)) as [->|]; [done|lia]. Qed.

(** A token starts and ends inside the line; all but the end of the line take a character. *)
Lemma gettoken_range p ret w p' :
  (p <= es)%nat -> gettoken s es p = (ret, w, p') ->
  (p <= sp_q w <= sp_eq w)%nat /\ (sp_eq w <= p' <= es)%nat /\ (ret <> 0 -> (p < p')%nat).
Proof.
  intros Hp. unfold gettoken. assert (Hq := skip_blanks_range (es - p) p). assert (Hst := skip_blanks_stop p Hp).
  set (q := skip_blanks s (es - p) p) in *. assert (Hqe : (q <= es)%nat) by lia.
  assert (Htail : forall e, (e <= es)%nat -> (e <= skip_blanks s (es - e) e <= es)%nat) by (intros e He; assert (H := skip_blanks_range (es - e) e); lia).
  destruct (Z.eqb_spec (at_ s q) 0) as [E0|E0]; [intros [= <- <- <-]; cbn [sp_q sp_eq]; specialize (Htail q); lia|].
  assert (Hlt := not_end q Hqe E0). assert (H1 := Htail (S q) ltac:(lia)).
  destruct (in_set [124; 40; 41; 59; 38; 60] (at_ s q)) eqn:Es; [intros [= <- <- <-]; cbn [sp_q sp_eq]; lia|].
  destruct (Z.eqb_spec (at_ s q) 62) as [E62|E62].
  - destruct (Z.eqb_spec (at_ s (S q)) 62) as [E2|E2]; intros [= <- <- <-]; cbn [sp_q sp_eq]; [|lia].
    assert (Hlt2 := not_end (S q) ltac:(lia) ltac:(lia)). assert (H2 := Htail (S (S q)) ltac:(lia)). lia.
  - intros [= <- <- <-]; cbn [sp_q sp_eq]. assert (Hw := skip_word_range (es - q) q).
    assert (Hw1 : (q < skip_word s (es - q) q)%nat).
    { destruct (es - q)%nat as [|k] eqn:Ek; [lia|]. cbn [skip_word]. rewrite Hst, (not_symbol _ Es E62). cbn [negb andb].
      assert (Hr := skip_word_range k (S q)). lia. }
    assert (H2 := Htail (skip_word s (es - q) q) ltac:(lia)). lia.
Qed.

Lemma peek_range p toks b p' : (p <= es)%nat -> peek s es p toks = (b, p') -> (p <= p' <= es)%nat.
Proof. intros Hp [= <- <-]. assert (H := skip_blanks_range (es - p) p). lia. Qed.

(** After peek found a character there is a token to take. *)
Lemma peek_gettoken p toks p' ret w p'' :
  (p <= es)%nat -> peek s es p toks = (true, p') -> gettoken s es p' = (ret, w, p'') -> (p < p'' <= es)%nat.
Proof.
  intros Hp Hk Hg. assert (Hr := peek_range p toks true p' Hp Hk). unfold peek in Hk. injection Hk as Hb Hp'.
  apply andb_prop in Hb as [Hb _]. assert (Hst := skip_blanks_stop p Hp). rewrite Hp' in *.
  assert (Hret : ret <> 0); [|apply gettoken_range in Hg as (? & ? & ?); lia].
  unfold gettoken in Hg. rewrite skip_blanks_idemp in Hg by done. destruct (Z.eqb_spec (at_ s p') 0) as [|E0]; [done|].
  destruct (in_set [124; 40; 41; 59; 38; 60] (at_ s p')); [congruence|]. destruct (Z.eqb_spec (at_ s p') 62); [|congruence].
  destruct (at_ s (S p') =? 62); congruence.
Qed.
End Bounds.

(** The words of a command lie inside the line. *)
Definition span_in (es : nat) (w : span) : Prop := (sp_q w <= sp_eq w <= es)%nat.

Fixpoint cmd_in (es : nat) (c : cmd) : Prop :=
  match c with
  | EXEC argv => Forall (span_in es) argv
  | REDIR c r => cmd_in es c /\ span_in es (rd_file r)
  | PIPE l r | LIST l r => cmd_in es l /\ cmd_in es r
  | BACK c => cmd_in es c
  end.

Lemma redircmds_in es c rs : cmd_in es c -> Forall (fun r => span_in es (rd_file r)) rs -> cmd_in es (redircmds c rs).
Proof. intros Hc Hr. revert c Hc. induction Hr as [|r rs Hr Hrs IH]; intros c Hc; [done|]. by apply IH. Qed.

Section Returns.
Context `{W : Sys} (s : list Z) (es : nat).
Hypothesis Hes : at_ s es = 0.
Hypothesis Hlen : (es <= length s)%nat.

Lemma runs_panic {A} msg (Q : A -> Prop) : runs (panic msg) Q.
Proof. apply runs_seq; [by apply (runs_vprintf 2 _ _ false)|apply runs_exit]. Qed.

Lemma runs_parseredirs fuel p :
  (p <= es)%nat -> (es - p < fuel)%nat ->
  runs (parseredirs fuel s es p) (fun rp => Forall (fun r => span_in es (rd_file r)) (fst rp) /\ (p <= snd rp <= es)%nat).
Proof.
  revert p. induction fuel as [|fuel IH]; intros p Hp Hf; [lia|]. cbn [parseredirs].
  destruct (peek s es p [60; 62]) as [b p1] eqn:Ek. assert (Hr := peek_range s es p _ _ _ Hp Ek). destruct b; cbn [negb]; [|by apply runs_ret].
  destruct (gettoken s es p1) as [[tok w1] p2] eqn:E1. assert (H1 := peek_gettoken s es Hes p _ _ _ _ _ Hp Ek E1).
  destruct (gettoken s es p2) as [[tok2 w] p3] eqn:E2. assert (H2 := gettoken_range s es Hes p2 _ _ _ ltac:(lia) E2).
  destruct (tok2 =? 97); cbn [negb]; [|apply runs_panic].
  eapply runs_bind; [apply (IH p3); lia|]. intros [rs p4] [Hrs Hp4]. apply runs_ret. cbn [fst snd] in *. split; [|lia].
  apply Forall_app_2; [|done]. unfold redir_of. repeat case_match; repeat constructor; cbn [rd_file]; lia.
Qed.

Lemma runs_parseexec_loop fuel p argc :
  (p <= es)%nat -> (es - p < fuel)%nat ->
  runs (parseexec_loop fuel s es p argc)
    (fun '(ws, rs, p') => Forall (span_in es) ws /\ Forall (fun r => span_in es (rd_file r)) rs /\ (p <= p' <= es)%nat).
Proof.
  revert p argc. induction fuel as [|fuel IH]; intros p argc Hp Hf; [lia|]. cbn [parseexec_loop].
  destruct (peek s es p [124; 41; 38; 59]) as [b p1] eqn:Ek. assert (Hr := peek_range s es p _ _ _ Hp Ek). destruct b; [apply runs_ret; split_and!; auto; lia|].
  destruct (gettoken s es p1) as [[tok w] p2] eqn:E1. assert (H1 := gettoken_range s es Hes p1 _ _ _ ltac:(lia) E1).
  destruct (Z.eqb_spec tok 0) as [|E0]; [apply runs_ret; split_and!; auto; lia|]. destruct (tok =? 97); cbn [negb]; [|apply runs_panic].
  destruct (MAXARGS <=? S argc)%nat; [apply runs_panic|].
  eapply runs_bind; [apply (runs_parseredirs _ p2); lia|]. intros [rs p3] [Hrs Hp3]. cbn [fst snd] in *.
  eapply runs_bind; [apply (IH p3); lia|]. intros [[ws rs'] p4] (Hws & Hrs' & Hp4). apply runs_ret. split_and!; [|by apply Forall_app_2|lia..].
  constructor; [unfold span_in; lia|done].
Qed.

Lemma runs_parse_backs fuel p c :
  (p <= es)%nat -> (es - p < fuel)%nat -> cmd_in es c ->
  runs (parse_backs fuel s es p c) (fun cp => cmd_in es (fst cp) /\ (p <= snd cp <= es)%nat).
Proof.
  revert p c. induction fuel as [|fuel IH]; intros p c Hp Hf Hc; [lia|]. cbn [parse_backs].
  destruct (peek s es p [38]) as [b p1] eqn:Ek. assert (Hr := peek_range s es p _ _ _ Hp Ek). destruct b; cbn [negb]; [|by apply runs_ret].
  destruct (gettoken s es p1) as [[tok w] p2] eqn:E1. assert (H1 := peek_gettoken s es Hes p _ _ _ _ _ Hp Ek E1).
  assert (Hi := IH p2 (BACK c) ltac:(lia) ltac:(lia) Hc). intros st. specialize (Hi st). destruct (parse_backs _ _ _ _ _ _); try done.
  destruct Hi. split; [done|lia].
Qed.

(** What each of the mutually recursive functions returns, with the fuel it needs. *)
Definition parses (m : U (cmd * nat)) (p : nat) : Prop := runs m (fun cp => cmd_in es (fst cp) /\ (p <= snd cp <= es)%nat).

Lemma runs_parsers fuel :
  (forall p, (p <= es)%nat -> (4 * (es - p) + 3 <= fuel)%nat -> parses (parseline fuel s es p) p) /\
  (forall p, (p <= es)%nat -> (4 * (es - p) + 2 <= fuel)%nat -> parses (parsepipe fuel s es p) p) /\
  (forall p, (p <= es)%nat -> (4 * (es - p) + 1 <= fuel)%nat -> parses (parseexec fuel s es p) p) /\
  (forall p p1, (p <= es)%nat -> peek s es p [40] = (true, p1) -> (4 * (es - p) <= fuel)%nat -> parses (parseblock fuel s es p1) p).
Proof.
  induction fuel as [|fuel (IHl & IHp & IHe & IHb)].
  { split_and!; try lia. intros p p1 Hp Ek Hf. destruct (gettoken s es p1) as [[? ?] ?] eqn:E.
    assert (H1 := peek_gettoken s es Hes p _ _ _ _ _ Hp Ek E). lia. }
  split_and!; intros p.
  - intros Hp Hf. cbn [parseline]. eapply runs_bind; [apply IHp; lia|]. intros [c p1] [Hc Hp1]. cbn [fst snd] in *.
    eapply runs_bind; [apply (runs_parse_backs _ p1); [lia..|done]|]. intros [c' p2] [Hc' Hp2]. cbn [fst snd] in *.
    destruct (peek s es p2 [59]) as [b p3] eqn:Ek. assert (Hr := peek_range s es p2 _ _ _ ltac:(lia) Ek). destruct b; cbn [negb]; [|apply runs_ret; cbn; split; [done|lia]].
    destruct (gettoken s es p3) as [[tok w] p4] eqn:E1. assert (H1 := peek_gettoken s es Hes p2 _ _ _ _ _ ltac:(lia) Ek E1).
    eapply runs_bind; [apply (IHl p4); lia|]. intros [c2 p5] [Hc2 Hp5]. apply runs_ret. cbn [fst snd cmd_in] in *. split; [done|lia].
  - intros Hp Hf. cbn [parsepipe]. eapply runs_bind; [apply IHe; lia|]. intros [c p1] [Hc Hp1]. cbn [fst snd] in *.
    destruct (peek s es p1 [124]) as [b p3] eqn:Ek. assert (Hr := peek_range s es p1 _ _ _ ltac:(lia) Ek). destruct b; cbn [negb]; [|apply runs_ret; cbn; split; [done|lia]].
    destruct (gettoken s es p3) as [[tok w] p4] eqn:E1. assert (H1 := peek_gettoken s es Hes p1 _ _ _ _ _ ltac:(lia) Ek E1).
    eapply runs_bind; [apply (IHp p4); lia|]. intros [c2 p5] [Hc2 Hp5]. apply runs_ret. cbn [fst snd cmd_in] in *. split; [done|lia].
  - intros Hp Hf. cbn [parseexec]. destruct (peek s es p [40]) as [b p1] eqn:Ek. assert (Hr := peek_range s es p _ _ _ Hp Ek).
    destruct b; [apply IHb; [done..|lia]|].
    eapply runs_bind; [apply (runs_parseredirs _ p1); lia|]. intros [rs p2] [Hrs Hp2]. cbn [fst snd] in *.
    eapply runs_bind; [apply (runs_parseexec_loop _ p2); lia|]. intros [[ws rs'] p3] (Hws & Hrs' & Hp3). apply runs_ret. cbn [fst snd].
    split; [|lia]. apply redircmds_in; [done|by apply Forall_app_2].
  - intros p1 Hp Ek Hf. assert (Hr := peek_range s es p _ _ _ Hp Ek). cbn [parseblock].
    destruct (peek s es p1 [40]) as [b p2] eqn:Ek2. destruct b; cbn [negb]; [|apply runs_panic].
    destruct (gettoken s es p2) as [[tok w] p3] eqn:E1. assert (H1 := peek_gettoken s es Hes p1 _ _ _ _ _ ltac:(lia) Ek2 E1).
    eapply runs_bind; [apply (IHl p3); lia|]. intros [c p4] [Hc Hp4]. cbn [fst snd] in *.
    destruct (peek s es p4 [41]) as [b p5] eqn:Ek3. destruct b; cbn [negb]; [|apply runs_panic].
    destruct (gettoken s es p5) as [[tok' w'] p6] eqn:E2. assert (H2 := peek_gettoken s es Hes p4 _ _ _ _ _ ltac:(lia) Ek3 E2).
    eapply runs_bind; [apply (runs_parseredirs _ p6); lia|]. intros [rs p7] [Hrs Hp7]. apply runs_ret. cbn [fst snd] in *.
    split; [by apply redircmds_in|lia].
Qed.
End Returns.

Lemma strlen_le s : (strlen s <= length s)%nat.
Proof. induction s as [|c s IH]; cbn; [lia|]. destruct (truth c); lia. Qed.

Lemma at_strlen s : at_ s (strlen s) = 0.
Proof.
  unfold at_. induction s as [|c s IH]; [done|]. cbn [strlen]. unfold truth. destruct (Z.eqb_spec c 0) as [->|]; cbn [negb]; [done|exact IH].
Qed.

Lemma length_nulterminate c s : length (nulterminate c s) = length s.
Proof.
  revert s. induction c; intros s; cbn [nulterminate]; rewrite ?length_insert; try congruence; auto.
  revert s. induction argv as [|w argv IH]; intros s; cbn [foldl]; [done|]. by rewrite IH, length_insert.
Qed.

