(* ===== verification/ShParse.v ===== *)
(** * The shell's parser reads back what a command prints (user/sh.c)

    A command as a tree of strings, the tokens that write it, the lines that spell those tokens
    with any blanks between them, and the parser's result on such a line. *)

From S2P Require Import Prelude Bytes UserSys Ulib Sh.
From Stdlib Require Import ZArith Lia.
From stdpp Require Import base numbers list strings.

#[local] Open Scope Z_scope.
#[local] Open Scope user_scope.

(** ** Commands, tokens and lines *)

(** How a redirection is written: with <, > or >> (its token is a plus sign). *)
Inductive tree :=
| TExec (args : list (list Z))
| TRedir (c : tree) (op : Z) (file : list Z)
| TPipe (left right : tree)
| TList (left right : tree)
| TBack (c : tree).

Inductive tok := Word (w : list Z) | Op (c : Z).

(** The tokens of a command in a place that allows lists (0), background commands (1),
    pipelines (2) or only simple and parenthesised commands (3). *)
Definition paren (b : bool) (l : list tok) : list tok := if b then l else Op 40 :: l ++ [Op 41].

Fixpoint toks (lvl : nat) (v : tree) : list tok :=
  match v with
  | TExec args => Word <$> args
  | TRedir c op file => toks 3 c ++ [Op op; Word file]
  | TPipe l r => paren (lvl <=? 2)%nat (toks 3 l ++ Op 124 :: toks 2 r)
  | TBack c => paren (lvl <=? 1)%nat (toks 1 c ++ [Op 38])
  | TList l r => paren (lvl <=? 0)%nat (toks 1 l ++ Op 59 :: toks 0 r)
  end.

Definition wordchar (c : Z) : Prop := c <> 0 /\ c ∉ whitespace /\ c ∉ symbols.
Definition is_word (w : list Z) : Prop := w <> [] /\ Forall wordchar w.

#[global] Instance wordchar_decision c : Decision (wordchar c).
Proof. unfold wordchar. apply _. Defined.
#[global] Instance is_word_decision w : Decision (is_word w).
Proof. unfold is_word. apply _. Defined.

(** Words need a blank or a symbol after them; > must not run into another one. *)
Inductive spells : list tok -> list Z -> Prop :=
| sp_end : spells [] []
| sp_blank c l t : c ∈ whitespace -> spells l t -> spells l (c :: t)
| sp_word w l t : is_word w -> ~ wordchar (deref t) -> spells l t -> spells (Word w :: l) (w ++ t)
| sp_op c l t : c ∈ [124; 40; 41; 59; 38; 60] -> spells l t -> spells (Op c :: l) (c :: t)
| sp_gt l t : deref t <> 62 -> spells l t -> spells (Op 62 :: l) (62 :: t)
| sp_gtgt l t : spells l t -> spells (Op 43 :: l) (62 :: 62 :: t).

(** Words are words, and an execcmd has room for the arguments. *)
Definition is_redir (r : Z * list Z) : Prop := fst r ∈ [60; 62; 43] /\ is_word (snd r).

Fixpoint wf (v : tree) : Prop :=
  match v with
  | TExec args => Forall is_word args /\ (length args < MAXARGS)%nat
  | TRedir c op file => wf c /\ is_redir (op, file)
  | TPipe l r | TList l r => wf l /\ wf r
  | TBack c => wf c
  end.

(** The command a parsed tree stands for, its strings read from the buffer. *)
Definition op_of (mode : Z) : Z := if mode =? 0 then 60 else if mode =? 1537 then 62 else 43.

Fixpoint value (s : list Z) (c : cmd) : tree :=
  match c with
  | EXEC argv => TExec (word s <$> argv)
  | REDIR c r => TRedir (value s c) (op_of (rd_mode r)) (word s (rd_file r))
  | PIPE l r => TPipe (value s l) (value s r)
  | LIST l r => TList (value s l) (value s r)
  | BACK c => TBack (value s c)
  end.

(** ** Tokens of a line *)

(** The first character of the tokens. *)
Definition first (l : list tok) : Z :=
  match l with
  | [] => 0
  | Word w :: _ => deref w
  | Op c :: _ => if c =? 43 then 62 else c
  end.

Lemma spells_length l t : spells l t -> (length l <= length t)%nat.
Proof.
  induction 1 as [| |w l t [Hw _]| | |]; cbn [length]; try lia. rewrite length_app. destruct w; [done|]. cbn. lia.
Qed.

Lemma spells_nonzero l t : spells l t -> t = [] \/ deref t <> 0.
Proof.
  destruct 1 as [|c l t Hc|w l t [Hw0 Hw]|c l t Hc| |]; cbn; try (by left); right; try done.
  - intros ->. unfold whitespace in Hc. rewrite !elem_of_cons, elem_of_nil in Hc. lia.
  - destruct Hw as [|c w (? & _)]; [done|]. done.
  - intros ->. rewrite !elem_of_cons, elem_of_nil in Hc. lia.
Qed.

Lemma in_ws c : in_set whitespace c = bool_decide (c ∈ whitespace).
Proof. apply in_set_spec. by apply (bool_decide_unpack _). Qed.

Lemma in_sym c : in_set symbols c = bool_decide (c ∈ symbols).
Proof. apply in_set_spec. by apply (bool_decide_unpack _). Qed.

Lemma in_ops c : in_set [124; 40; 41; 59; 38; 60] c = bool_decide (c ∈ [124; 40; 41; 59; 38; 60]).
Proof. apply in_set_spec. by apply (bool_decide_unpack _). Qed.

(** No operator is a blank or a NUL, and all are symbols. *)
Lemma op_char c : c ∈ [124; 40; 41; 59; 38; 60] -> c <> 0 /\ c <> 62 /\ c <> 43 /\ c ∉ whitespace.
Proof. intros H. repeat (apply elem_of_cons in H as [->|H]; [split_and!; try lia; by apply (bool_decide_unpack _)|]). by apply elem_of_nil in H. Qed.

Lemma op_symbol c : c ∈ [124; 40; 41; 59; 38; 60] -> c ∈ symbols.
Proof. intros H. repeat (apply elem_of_cons in H as [->|H]; [by apply (bool_decide_unpack _)|]). by apply elem_of_nil in H. Qed.

Lemma wordchar_dec c : negb (in_set whitespace c) && negb (in_set symbols c) = true -> c <> 0 -> wordchar c.
Proof. rewrite in_ws, in_sym, andb_true_iff, !negb_true_iff, !bool_decide_eq_false. unfold wordchar. tauto. Qed.

Lemma wordchar_in c : wordchar c -> negb (in_set whitespace c) && negb (in_set symbols c) = true.
Proof. rewrite in_ws, in_sym, andb_true_iff, !negb_true_iff, !bool_decide_eq_false. unfold wordchar. tauto. Qed.

(** Name the equation an inversion gives for the rest of the line. *)
Ltac line_eq E := match goal with H : _ = drop _ _ |- _ => symmetry in H; rename H into E end.

Section Line.
Context (line junk : list Z).
Let s : list Z := line ++ 0 :: junk.
Let es : nat := length line.

(** The rest of the line from [p] on spells [l]. *)
Definition here (p : nat) (l : list tok) : Prop := (p <= es)%nat /\ spells l (drop p line).

Lemma at_line p : (p <= es)%nat -> at_ s p = deref (drop p line).
Proof.
  intros Hp. unfold at_, s. rewrite drop_app_le by done. by destruct (drop p line).
Qed.

Lemma at_cons p c t : (p <= es)%nat -> drop p line = c :: t -> at_ s p = c /\ drop (S p) line = t /\ (S p <= es)%nat.
Proof.
  intros Hp E. rewrite at_line, E by done. split; [done|]. split.
  - replace (S p) with (p + 1)%nat by lia. by rewrite <- drop_drop, E.
  - assert (H := f_equal length E). rewrite length_drop in H. cbn in H. unfold es. lia.
Qed.

Lemma skip_here p l :
  here p l -> let p' := skip_blanks s (es - p) p in here p' l /\ at_ s p' = first l /\ in_set whitespace (at_ s p') = false.
Proof.
  intros [Hp Hs]. cbv zeta. remember (drop p line) as t eqn:E. revert p Hp E.
  induction Hs as [|c l t Hc Hs IH|w l t Hw Ht Hs IH|c l t Hc Hs IH|l t Ht Hs IH|l t Hs IH]; intros p Hp E; symmetry in E.
  - assert (p = es) as -> by (assert (H := f_equal length E); rewrite length_drop in H; cbn in H; unfold es in *; lia).
    rewrite Nat.sub_diag. cbn [skip_blanks]. rewrite at_line, E by done. split; [|done]. split; [done|]. rewrite E. constructor.
  - destruct (at_cons p c t Hp E) as (Ea & Ed & Hp'). replace (es - p)%nat with (S (es - S p)) by lia. cbn [skip_blanks].
    rewrite Ea, in_ws, bool_decide_true by done. apply IH; [done|by rewrite Ed].
  - destruct Hw as [Hw0 Hw]. destruct w as [|c w]; [done|]. cbn [app] in E. destruct (at_cons p _ _ Hp E) as (Ea & Ed & Hp').
    assert (Hc : in_set whitespace (at_ s p) = false) by (rewrite Ea, in_ws; apply bool_decide_eq_false; by apply Forall_cons in Hw as [(? & ? & ?) _]).
    rewrite skip_blanks_idemp by done. split; [|done]. split; [done|]. rewrite E. by apply (sp_word (c :: w)).
  - destruct (at_cons p _ _ Hp E) as (Ea & Ed & Hp'). destruct (op_char c Hc) as (H0 & _ & H43 & Hws).
    assert (Hb : in_set whitespace (at_ s p) = false) by (rewrite Ea, in_ws; by apply bool_decide_eq_false).
    rewrite skip_blanks_idemp by done. split; [split; [done|rewrite E; by constructor]|]. split; [|done]. cbn [first].
    by rewrite (proj2 (Z.eqb_neq c 43)).
  - destruct (at_cons p _ _ Hp E) as (Ea & Ed & Hp'). rewrite skip_blanks_idemp by (by rewrite Ea).
    rewrite Ea. split; [|done]. split; [done|]. rewrite E. by constructor.
  - destruct (at_cons p _ _ Hp E) as (Ea & Ed & Hp'). rewrite skip_blanks_idemp by (by rewrite Ea).
    rewrite Ea. split; [|done]. split; [done|]. rewrite E. by constructor.
Qed.

Lemma peek_here p l set :
  here p l -> exists p', peek s es p set = (negb (first l =? 0) && in_set set (first l), p') /\ here p' l.
Proof. intros H. destruct (skip_here p l H) as (H' & E & _). eexists. unfold peek. rewrite E. done. Qed.

(** The rest after a token, its leading blanks skipped. *)
Lemma here_skip p l : here p l -> here (skip_blanks s (es - p) p) l.
Proof. intros H. by apply skip_here. Qed.

(** The character found is that of the spelling's first constructor, not a blank's. *)
Lemma spells_here q c t : in_set whitespace (at_ s q) = false -> (q <= es)%nat -> drop q line = c :: t -> c ∉ whitespace.
Proof. intros Hb Hq E. destruct (at_cons q c t Hq E) as (<- & _). by rewrite in_ws, bool_decide_eq_false in Hb. Qed.

Lemma gettoken_end p : here p [] -> exists w p', gettoken s es p = (0, w, p') /\ here p' [].
Proof.
  intros H. destruct (skip_here p [] H) as (H' & E & _). unfold gettoken. rewrite E. cbn [first Z.eqb]. eexists _, _. split; [reflexivity|].
  by apply here_skip.
Qed.

Lemma gettoken_op p c l : here p (Op c :: l) -> exists w p', gettoken s es p = (c, w, p') /\ here p' l.
Proof.
  intros H. destruct (skip_here p _ H) as ([Hq Hs] & E & Hb). unfold gettoken. set (q := skip_blanks s (es - p) p) in *. rewrite E.
  inversion Hs as [|c' l' t' Hc Hs'| |c' l' t' Hc Hs'|l' t' Ht Hs'|l' t' Hs']; subst.
  - line_eq E1. by apply (spells_here _ _ _ Hb Hq) in E1.
  - line_eq E1. destruct (at_cons q _ _ Hq E1) as (Ea & Ed & Hq'). destruct (op_char c Hc) as (H0 & H62 & H43 & _). cbn [first].
    rewrite (proj2 (Z.eqb_neq c 43)), (proj2 (Z.eqb_neq c 0)), in_ops, bool_decide_true by done.
    eexists _, _. split; [reflexivity|]. apply here_skip. split; [done|]. by rewrite Ed.
  - line_eq E1. destruct (at_cons q _ _ Hq E1) as (Ea & Ed & Hq'). cbn [first Z.eqb Pos.eqb]. change (in_set [124; 40; 41; 59; 38; 60] 62) with false.
    rewrite at_line, Ed by done. rewrite (proj2 (Z.eqb_neq (deref t') 62)) by done.
    eexists _, _. split; [reflexivity|]. apply here_skip. split; [done|]. by rewrite Ed.
  - line_eq E1. destruct (at_cons q _ _ Hq E1) as (Ea & Ed & Hq'). destruct (at_cons (S q) _ _ Hq' Ed) as (Ea' & Ed' & Hq'').
    cbn [first Z.eqb Pos.eqb]. change (in_set [124; 40; 41; 59; 38; 60] 62) with false. rewrite Ea'. cbn [Z.eqb Pos.eqb].
    eexists _, _. split; [reflexivity|]. apply here_skip. split; [done|]. by rewrite Ed'.
Qed.

(** The span holds the word, and what follows it is no part of a word. *)
Definition holds (w : span) (x : list Z) : Prop :=
  is_word x /\ sp_eq w = (sp_q w + length x)%nat /\ (sp_eq w <= es)%nat /\ take (length x) (drop (sp_q w) line) = x /\
  ~ wordchar (at_ s (sp_eq w)).

Lemma skip_word_here w l t n q :
  Forall wordchar w -> ~ wordchar (deref t) -> spells l t -> (q + n = es)%nat -> drop q line = w ++ t -> skip_word s n q = (q + length w)%nat.
Proof.
  intros Hw Ht Hs. revert n q. induction Hw as [|c w Hc Hw IH]; intros n q Hn E; cbn [app length] in *.
  - rewrite Nat.add_0_r. destruct n as [|n]; cbn [skip_word]; [done|].
    destruct (negb (in_set whitespace (at_ s q)) && negb (in_set symbols (at_ s q))) eqn:Eb; [|done]. exfalso. apply Ht.
    rewrite at_line, E in Eb by lia. apply wordchar_dec; [done|]. apply spells_nonzero in Hs. destruct Hs as [-> |Hs]; [|exact Hs].
    apply (f_equal length) in E. rewrite length_drop in E. cbn in E. unfold es in Hn. lia.
  - destruct (at_cons q _ _ ltac:(lia) E) as (Ea & Ed & Hq). destruct n as [|n]; [lia|]. cbn [skip_word].
    rewrite Ea, wordchar_in by done. rewrite (IH n (S q)) by (done || lia). lia.
Qed.

Lemma gettoken_word p x l : here p (Word x :: l) -> exists w p', gettoken s es p = (97, w, p') /\ here p' l /\ holds w x.
Proof.
  intros H. destruct (skip_here p _ H) as ([Hq Hs] & E & Hb). unfold gettoken. set (q := skip_blanks s (es - p) p) in *. rewrite E.
  inversion Hs as [|c' l' t' Hc Hs'|w l' t' Hx Ht Hs'| | |]; subst.
  - line_eq E1. by apply (spells_here _ _ _ Hb Hq) in E1.
  - line_eq Et. destruct Hx as [Hx0 Hx]. cbn [first].
    assert (Hc : wordchar (deref x)) by (destruct Hx; [done|by cbn]).
    pose proof (wordchar_in _ Hc) as Hci. destruct Hc as (Hc0 & Hcw & Hcs).
    rewrite (proj2 (Z.eqb_neq (deref x) 0)) by done.
    assert (Hno : in_set [124; 40; 41; 59; 38; 60] (deref x) = false).
    { rewrite in_ops. apply bool_decide_eq_false. intros Hin. apply Hcs. by apply op_symbol. }
    rewrite Hno. destruct (Z.eqb_spec (deref x) 62) as [E62|E62]; [exfalso; apply Hcs; rewrite E62; by apply (bool_decide_unpack _)|].
    rewrite (skip_word_here x l t') by (done || lia). assert (Hle := f_equal length Et). rewrite length_drop, length_app in Hle.
    assert (Hd : drop (q + length x) line = t') by (rewrite <- drop_drop, Et; apply drop_app_length).
    assert (Hqx : (q + length x <= es)%nat) by (unfold es; lia).
    eexists _, _. split; [reflexivity|]. split.
    + apply here_skip. split; [done|]. by rewrite Hd.
    + split; [by split|]. cbn [sp_q sp_eq]. split; [done|]. split; [done|]. split; [by rewrite Et, take_app_length|]. by rewrite at_line, Hd.
Qed.

Lemma here_first p l : here p l -> first l = 0 -> l = [].
Proof.
  intros H E. destruct l as [|[x|c] l]; [done| |].
  - destruct (gettoken_word p x l H) as (w & p' & _ & _ & (Hx & _)). destruct Hx as [Hx0 Hx].
    destruct x as [|c x']; [done|]. apply Forall_cons in Hx as [(Hc & _) _]. done.
  - destruct H as [_ H]. remember (drop p line) as t. clear Heqt. cbn [first] in E. remember (Op c :: l) as l0 eqn:El. revert El.
    induction H as [|? ? ? ? ? IH| |c' ? ? Hc| |]; intros El; try congruence; [by apply IH| |by simplify_eq|by simplify_eq].
    injection El as -> ->. apply op_char in Hc as (H0 & _ & H43 & _). by rewrite (proj2 (Z.eqb_neq c 43)) in E.
Qed.

Lemma peek_at p l set :
  Forall (fun c => c <> 0) set -> here p l -> exists p', peek s es p set = (bool_decide (first l ∈ set), p') /\ here p' l.
Proof.
  intros Hset H. destruct (peek_here p l set H) as (p' & -> & H'). exists p'. split; [|done]. f_equal. rewrite in_set_spec by done.
  destruct (Z.eqb_spec (first l) 0) as [->|]; [|done]. cbn [negb andb]. symmetry. apply bool_decide_eq_false. intros Hin.
  by apply (proj1 (Forall_forall _ _) Hset) in Hin.
Qed.

(** The tokens of redirections, and what a redircmd holds of one. *)
Definition rtoks (rs : list (Z * list Z)) : list tok := mjoin ((fun r => [Op (fst r); Word (snd r)]) <$> rs).
Definition redir_holds (r : redir) (x : Z * list Z) : Prop := holds (rd_file r) (snd x) /\ op_of (rd_mode r) = fst x.

Inductive reads : cmd -> tree -> Prop :=
| rd_exec ws xs : Forall2 holds ws xs -> reads (EXEC ws) (TExec xs)
| rd_redir c v r op x : reads c v -> redir_holds r (op, x) -> reads (REDIR c r) (TRedir v op x)
| rd_pipe c1 c2 v1 v2 : reads c1 v1 -> reads c2 v2 -> reads (PIPE c1 c2) (TPipe v1 v2)
| rd_list c1 c2 v1 v2 : reads c1 v1 -> reads c2 v2 -> reads (LIST c1 c2) (TList v1 v2)
| rd_back c v : reads c v -> reads (BACK c) (TBack v).

Definition tredirs (v : tree) (rs : list (Z * list Z)) : tree := foldl (fun v r => TRedir v (fst r) (snd r)) v rs.

Lemma reads_redirs c v ls rs : reads c v -> Forall2 redir_holds ls rs -> reads (redircmds c ls) (tredirs v rs).
Proof. intros Hc Hr. revert c v Hc. induction Hr as [|l [op x] ls rs Hl Hr IH]; intros c v Hc; [done|]. apply IH. by constructor. Qed.

Section Parsers.
Context `{W : Sys} (w0 : world).

Lemma parseredirs_here rs rest fuel p :
  here p (rtoks rs ++ rest) -> first rest ∉ [60; 62] -> Forall is_redir rs -> (length rs < fuel)%nat ->
  exists ls p', parseredirs fuel s es p w0 = Done (ls, p') w0 /\ here p' rest /\ Forall2 redir_holds ls rs.
Proof.
  intros H Hr Hrs. revert fuel p H. induction Hrs as [|[op x] rs [Hop Hx] Hrs IH]; intros fuel p H Hf; (destruct fuel as [|fuel]; [cbn in Hf; lia|]); cbn [parseredirs].
  - destruct (peek_at p _ [60; 62] ltac:(by apply (bool_decide_unpack _)) H) as (p' & -> & H'). cbn [rtoks fmap list_fmap mjoin list_join app].
    rewrite bool_decide_false by done. cbn [negb]. by exists [], p'.
  - change (rtoks ((op, x) :: rs) ++ rest) with (Op op :: Word x :: (rtoks rs ++ rest)) in H. cbn [fst snd] in Hop, Hx.
    destruct (peek_at p _ [60; 62] ltac:(by apply (bool_decide_unpack _)) H) as (p1 & -> & H1).
    assert (Hin : first (Op op :: Word x :: (rtoks rs ++ rest)) ∈ [60; 62]).
    { cbn [first]. repeat (apply elem_of_cons in Hop as [->|Hop]; [by apply (bool_decide_unpack _)|]). by apply elem_of_nil in Hop. }
    rewrite bool_decide_true by done. cbn [negb].
    destruct (gettoken_op p1 _ _ H1) as (w1 & p2 & -> & H2). destruct (gettoken_word p2 _ _ H2) as (w2 & p3 & -> & H3 & Hw). cbn [Z.eqb Pos.eqb negb].
    destruct (IH fuel p3 H3 ltac:(cbn in Hf; lia)) as (ls & p' & E & H' & Hls). rewrite (ubind_done _ _ _ _ _ E).
    assert (Hro : exists r, redir_of op w2 = [r] /\ rd_file r = w2 /\ op_of (rd_mode r) = op).
    { unfold redir_of. repeat (apply elem_of_cons in Hop as [->|Hop]; [eexists; repeat split|]). by apply elem_of_nil in Hop. }
    destruct Hro as (r & -> & Hf1 & Hm). exists (r :: ls), p'. split; [done|]. split; [done|]. constructor; [|done]. split; [by rewrite Hf1|done].
Qed.

Lemma first_word x l p : here p (Word x :: l) -> first (Word x :: l) ∉ symbols.
Proof.
  intros H. destruct (gettoken_word p x l H) as (w & p' & _ & _ & ((Hx0 & Hx) & _)). cbn [first]. destruct Hx as [|c x (_ & _ & Hc) _]; done.
Qed.

Lemma parseexec_loop_stop rest fuel p argc :
  here p rest -> first rest ∈ [0; 124; 41; 38; 59] -> (0 < fuel)%nat ->
  exists p', parseexec_loop fuel s es p argc w0 = Done ([], [], p') w0 /\ here p' rest.
Proof.
  intros H Hr Hf. destruct fuel as [|fuel]; [lia|]. cbn [parseexec_loop].
  destruct (peek_at p _ [124; 41; 38; 59] ltac:(by apply (bool_decide_unpack _)) H) as (p1 & -> & H1).
  destruct (decide (first rest ∈ [124; 41; 38; 59])) as [Hd|Hd].
  - rewrite bool_decide_true by done. by exists p1.
  - rewrite bool_decide_false by done. apply elem_of_cons in Hr as [Hr|]; [|done]. assert (rest = []) as -> by (by apply (here_first p1)).
    destruct (gettoken_end p1 H1) as (w & p2 & -> & H2). cbn [Z.eqb]. by exists p2.
Qed.

Lemma parseexec_loop_here ws rs rest fuel p argc :
  here p ((Word <$> ws) ++ rtoks rs ++ rest) -> (ws = [] -> rs = []) -> first rest ∈ [0; 124; 41; 38; 59] -> Forall is_redir rs ->
  (argc + length ws < MAXARGS)%nat -> (length ws < fuel)%nat -> (length rs <= length s)%nat ->
  exists sp ls p', parseexec_loop fuel s es p argc w0 = Done (sp, ls, p') w0 /\ here p' rest /\ Forall2 holds sp ws /\ Forall2 redir_holds ls rs.
Proof.
  intros H H0 Hr Hrs Ha Hf Hlr. revert fuel p argc H Ha Hf H0. induction ws as [|x ws IH]; intros fuel p argc H Ha Hf H0.
  { assert (rs = []) as -> by (by apply H0). destruct (parseexec_loop_stop rest fuel p argc H Hr ltac:(cbn in Hf; lia)) as (p' & E & H'). by exists [], [], p'. }
  destruct fuel as [|fuel]; [cbn in Hf; lia|]. cbn [parseexec_loop]. cbn [fmap list_fmap app] in H. assert (Hfw := first_word _ _ _ H).
  destruct (peek_at p _ [124; 41; 38; 59] ltac:(by apply (bool_decide_unpack _)) H) as (p1 & -> & H1).
  rewrite bool_decide_false by (intros Hin; apply Hfw; unfold symbols; rewrite !elem_of_cons, elem_of_nil in *; lia).
  destruct (gettoken_word p1 _ _ H1) as (w & p2 & -> & H2 & Hw). cbn [Z.eqb Pos.eqb negb]. cbn [length] in Ha, Hf.
  rewrite (proj2 (Nat.leb_gt MAXARGS (S argc))) by lia. destruct ws as [|y ws].
  - destruct (parseredirs_here rs rest (S (length s)) p2) as (ls & p3 & E & H3 & Hls); [done|rewrite !elem_of_cons, elem_of_nil in *; lia|done|lia|].
    rewrite (ubind_done _ _ _ _ _ E). destruct (parseexec_loop_stop rest fuel p3 (S argc) H3 Hr ltac:(lia)) as (p' & E' & H').
    rewrite (ubind_done _ _ _ _ _ E'). exists [w], (ls ++ []), p'. rewrite app_nil_r. split_and!; try done. constructor; [done|constructor].
  - destruct (parseredirs_here [] ((Word <$> y :: ws) ++ rtoks rs ++ rest) (S (length s)) p2) as (ls & p3 & E & H3 & Hls); [done| |constructor|cbn; lia|].
    { assert (Hy := first_word _ _ _ H2). intros Hin. apply Hy. unfold symbols. cbn [fmap list_fmap app first] in *. rewrite !elem_of_cons, elem_of_nil in *. lia. }
    apply Forall2_nil_inv_r in Hls as ->. rewrite (ubind_done _ _ _ _ _ E).
    destruct (IH fuel p3 (S argc)) as (sp & ls & p' & E' & H' & Hsp & Hls); [done|lia|lia|done|]. rewrite (ubind_done _ _ _ _ _ E').
    exists (w :: sp), ls, p'. split_and!; try done. by constructor.
Qed.

(** ** The four levels of the grammar *)

Definition parsesE (v : tree) : Prop := forall rs rest fuel p,
  Forall is_redir rs -> here p (toks 3 v ++ rtoks rs ++ rest) -> first rest ∈ [0; 124; 41; 38; 59] -> (4 * length (toks 3 v) + 1 <= fuel)%nat ->
  exists c p', parseexec fuel s es p w0 = Done (c, p') w0 /\ here p' rest /\ reads c (tredirs v rs).

Definition parsesP (v : tree) : Prop := forall rest fuel p,
  here p (toks 2 v ++ rest) -> first rest ∈ [0; 41; 38; 59] -> (4 * length (toks 2 v) + 2 <= fuel)%nat ->
  exists c p', parsepipe fuel s es p w0 = Done (c, p') w0 /\ here p' rest /\ reads c v.

Definition parsesB (v : tree) : Prop := forall k rest fuel p,
  here p (toks 1 v ++ replicate k (Op 38) ++ rest) -> first rest ∈ [0; 41; 59] -> (4 * length (toks 1 v) + 2 <= fuel)%nat ->
  exists c p', (do cp <- parsepipe fuel s es p; parse_backs (S (length s)) s es (snd cp) (fst cp)) w0 = Done (c, p') w0 /\
    here p' rest /\ reads c (Nat.iter k TBack v).

Definition parsesL (v : tree) : Prop := forall rest fuel p,
  here p (toks 0 v ++ rest) -> first rest ∈ [0; 41] -> (4 * length (toks 0 v) + 3 <= fuel)%nat ->
  exists c p', parseline fuel s es p w0 = Done (c, p') w0 /\ here p' rest /\ reads c v.

Lemma here_length p l : here p l -> (length l <= length s)%nat.
Proof.
  intros [Hp H]. apply spells_length in H. rewrite length_drop in H. unfold s. rewrite length_app. lia.
Qed.

Lemma length_rtoks rs : length (rtoks rs) = (2 * length rs)%nat.
Proof. induction rs as [|r rs IH]; [done|]. change (rtoks (r :: rs)) with ([Op (fst r); Word (snd r)] ++ rtoks rs). rewrite length_app, IH. cbn. lia. Qed.

Lemma parsesP_of_E v : parsesE v -> toks 2 v = toks 3 v -> parsesP v.
Proof.
  intros HE Et rest fuel p H Hr Hf. rewrite Et in *. destruct fuel as [|fuel]; [lia|].
  destruct (HE [] rest fuel p) as (c & p1 & E & H1 & Hc); [constructor|done|rewrite !elem_of_cons in *; tauto|lia|].
  cbn [parsepipe]. rewrite (ubind_done _ _ _ _ _ E).
  destruct (peek_at p1 _ [124] ltac:(by apply (bool_decide_unpack _)) H1) as (p2 & -> & H2).
  rewrite bool_decide_false by (rewrite !elem_of_cons, elem_of_nil in *; lia). by exists c, p2.
Qed.

Lemma parse_backs_here k rest fuel p c v :
  here p (replicate k (Op 38) ++ rest) -> first rest ∈ [0; 41; 59] -> (k < fuel)%nat -> reads c v ->
  exists c' p', parse_backs fuel s es p c w0 = Done (c', p') w0 /\ here p' rest /\ reads c' (Nat.iter k TBack v).
Proof.
  intros H Hr. revert fuel p c v H. induction k as [|k IH]; intros fuel p c v H Hf Hc; (destruct fuel as [|fuel]; [lia|]); cbn [parse_backs].
  - destruct (peek_at p _ [38] ltac:(by apply (bool_decide_unpack _)) H) as (p2 & -> & H2).
    rewrite bool_decide_false by (rewrite !elem_of_cons, elem_of_nil in *; cbn; lia). by exists c, p2.
  - cbn [replicate app] in H. destruct (peek_at p _ [38] ltac:(by apply (bool_decide_unpack _)) H) as (p2 & -> & H2).
    rewrite bool_decide_true by (by left). cbn [negb]. destruct (gettoken_op p2 _ _ H2) as (w & p3 & -> & H3).
    destruct (IH fuel p3 (BACK c) (TBack v) H3) as (c' & p' & E & H' & Hc'); [lia|by constructor|]. exists c', p'.
    rewrite Nat.iter_succ_r. done.
Qed.

Lemma parsesB_of_P v : parsesP v -> toks 1 v = toks 2 v -> parsesB v.
Proof.
  intros HP Et k rest fuel p H Hr Hf. rewrite Et in *.
  destruct (HP (replicate k (Op 38) ++ rest) fuel p H) as (c & p1 & E & H1 & Hc); [destruct k; cbn; rewrite !elem_of_cons in *; tauto|lia|].
  rewrite (ubind_done _ _ _ _ _ E). cbn [fst snd]. apply (parse_backs_here k rest _ p1 c v H1); [done| |done].
  apply here_length in H1. rewrite length_app, length_replicate in H1. lia.
Qed.

Lemma ubind_assoc {A B C} (m : U A) (f : A -> U B) (g : B -> U C) w : ubind m (fun a => ubind (f a) g) w = ubind (ubind m f) g w.
Proof. unfold ubind. by destruct (m w). Qed.

Lemma parsesL_of_B v : parsesB v -> toks 0 v = toks 1 v -> parsesL v.
Proof.
  intros HB Et rest fuel p H Hr Hf. rewrite Et in *. destruct fuel as [|fuel]; [lia|].
  destruct (HB 0%nat rest fuel p) as (c & p1 & E & H1 & Hc); [done|rewrite !elem_of_cons in *; tauto|lia|].
  cbn [parseline]. rewrite ubind_assoc, (ubind_done _ _ _ _ _ E).
  destruct (peek_at p1 _ [59] ltac:(by apply (bool_decide_unpack _)) H1) as (p2 & -> & H2).
  rewrite bool_decide_false by (rewrite !elem_of_cons, elem_of_nil in *; lia). by exists c, p2.
Qed.

Lemma parsesE_of_L v : parsesL v -> toks 3 v = Op 40 :: toks 0 v ++ [Op 41] -> parsesE v.
Proof.
  intros HL Et rs rest fuel p Hrs H Hr Hf. rewrite Et in *. cbn [app length] in H, Hf. rewrite <- app_assoc in H. rewrite length_app in Hf.
  destruct fuel as [|[|fuel]]; [lia|lia|]. cbn [parseexec].
  destruct (peek_at p _ [40] ltac:(by apply (bool_decide_unpack _)) H) as (p1 & -> & H1). rewrite bool_decide_true by (by left). cbn [parseblock].
  destruct (peek_at p1 _ [40] ltac:(by apply (bool_decide_unpack _)) H1) as (p2 & -> & H2). rewrite bool_decide_true by (by left). cbn [negb].
  destruct (gettoken_op p2 _ _ H2) as (w1 & p3 & -> & H3).
  destruct (HL ([Op 41] ++ rtoks rs ++ rest) fuel p3 H3) as (c & p4 & E & H4 & Hc); [by apply (bool_decide_unpack _)|cbn in Hf; lia|].
  rewrite (ubind_done _ _ _ _ _ E). cbn [app] in H4.
  destruct (peek_at p4 _ [41] ltac:(by apply (bool_decide_unpack _)) H4) as (p5 & -> & H5). rewrite bool_decide_true by (by left). cbn [negb].
  destruct (gettoken_op p5 _ _ H5) as (w2 & p6 & -> & H6).
  destruct (parseredirs_here rs rest (S (length s)) p6 H6) as (ls & p7 & E7 & H7 & Hls); [rewrite !elem_of_cons, elem_of_nil in *; lia|done| |].
  { apply here_length in H6. rewrite length_app, length_rtoks in H6. lia. }
  rewrite (ubind_done _ _ _ _ _ E7). exists (redircmds c ls), p7. split_and!; [done..|]. by apply reads_redirs.
Qed.

Lemma parsesE_exec args : wf (TExec args) -> parsesE (TExec args).
Proof.
  intros [Hw Hn] rs rest fuel p Hrs H Hr Hf. cbn [toks] in *. destruct fuel as [|fuel]; [lia|]. cbn [parseexec].
  assert (Hlen := here_length _ _ H). rewrite !length_app, length_fmap, length_rtoks in Hlen.
  assert (H40 : first ((Word <$> args) ++ rtoks rs ++ rest) ∉ [40]).
  { destruct args as [|x args].
    - destruct Hrs as [|[op f] rs [Hop _] _]; [rewrite !elem_of_cons, elem_of_nil in *; cbn; lia|].
      cbn -[elem_of]. cbn [fst] in Hop. rewrite !elem_of_cons, elem_of_nil in *. case_match; lia.
    - assert (Hx := first_word _ _ _ H). intros Hin. apply Hx. unfold symbols. cbn [fmap list_fmap app first] in *. rewrite !elem_of_cons, elem_of_nil in *. lia. }
  destruct (peek_at p _ [40] ltac:(by apply (bool_decide_unpack _)) H) as (p1 & -> & H1). rewrite bool_decide_false by done.
  destruct args as [|x args].
  - destruct (parseredirs_here rs rest (S (length s)) p1 H1) as (ls & p2 & E & H2 & Hls); [rewrite !elem_of_cons, elem_of_nil in *; lia|done|lia|].
    rewrite (ubind_done _ _ _ _ _ E). destruct (parseexec_loop_stop rest (S (length s)) p2 0 H2 Hr ltac:(lia)) as (p3 & E3 & H3).
    rewrite (ubind_done _ _ _ _ _ E3). rewrite app_nil_r. eexists _, p3. split; [reflexivity|]. split; [done|]. apply reads_redirs; [|done].
    constructor. constructor.
  - destruct (parseredirs_here [] ((Word <$> x :: args) ++ rtoks rs ++ rest) (S (length s)) p1 H1) as (ls & p2 & E & H2 & Hls); [|constructor|cbn; lia|].
    { assert (Hx := first_word _ _ _ H1). intros Hin. apply Hx. unfold symbols. cbn [fmap list_fmap app first] in *. rewrite !elem_of_cons, elem_of_nil in *. lia. }
    apply Forall2_nil_inv_r in Hls as ->. rewrite (ubind_done _ _ _ _ _ E).
    destruct (parseexec_loop_here (x :: args) rs rest (S (length s)) p2 0 H2) as (sp & ls & p3 & E3 & H3 & Hsp & Hls); [done..|lia|lia|].
    rewrite (ubind_done _ _ _ _ _ E3). eexists _, p3. split; [reflexivity|]. split; [done|]. apply reads_redirs; [|done]. by constructor.
Qed.

Lemma parsesP_pipe l r : parsesE l -> parsesP r -> parsesP (TPipe l r).
Proof.
  intros HE HP rest fuel p H Hr Hf. cbn [toks paren Nat.leb] in *. rewrite <- app_assoc in H. rewrite length_app in Hf. cbn [app length] in H, Hf.
  destruct fuel as [|fuel]; [lia|]. cbn [parsepipe].
  destruct (HE [] (Op 124 :: toks 2 r ++ rest) fuel p) as (c & p1 & E & H1 & Hc); [constructor|done|by apply (bool_decide_unpack _)|lia|].
  rewrite (ubind_done _ _ _ _ _ E).
  destruct (peek_at p1 _ [124] ltac:(by apply (bool_decide_unpack _)) H1) as (p2 & -> & H2). rewrite bool_decide_true by (by left). cbn [negb].
  destruct (gettoken_op p2 _ _ H2) as (w1 & p3 & -> & H3). destruct (HP rest fuel p3 H3 Hr) as (c2 & p4 & E4 & H4 & Hc2); [lia|].
  rewrite (ubind_done _ _ _ _ _ E4). exists (PIPE c c2), p4. split_and!; [done..|]. by constructor.
Qed.

Lemma parsesL_list l r : parsesB l -> parsesL r -> parsesL (TList l r).
Proof.
  intros HB HL rest fuel p H Hr Hf. cbn [toks paren Nat.leb] in *. rewrite <- app_assoc in H. rewrite length_app in Hf. cbn [app length] in H, Hf.
  destruct fuel as [|fuel]; [lia|]. cbn [parseline].
  destruct (HB 0%nat (Op 59 :: toks 0 r ++ rest) fuel p) as (c & p1 & E & H1 & Hc); [done|by apply (bool_decide_unpack _)|lia|].
  rewrite ubind_assoc, (ubind_done _ _ _ _ _ E).
  destruct (peek_at p1 _ [59] ltac:(by apply (bool_decide_unpack _)) H1) as (p2 & -> & H2). rewrite bool_decide_true by (by left). cbn [negb].
  destruct (gettoken_op p2 _ _ H2) as (w1 & p3 & -> & H3). destruct (HL rest fuel p3 H3 Hr) as (c2 & p4 & E4 & H4 & Hc2); [lia|].
  rewrite (ubind_done _ _ _ _ _ E4). exists (LIST c c2), p4. split_and!; [done..|]. by constructor.
Qed.

Lemma parsesB_back c : parsesB c -> parsesB (TBack c).
Proof.
  intros HB k rest fuel p H Hr Hf. cbn [toks paren Nat.leb] in *. rewrite <- app_assoc in H. rewrite length_app in Hf. rewrite <- Nat.iter_succ_r.
  apply (HB (S k) rest fuel p); [done|done|lia].
Qed.

Lemma parsesE_redir c op f : is_redir (op, f) -> parsesE c -> parsesE (TRedir c op f).
Proof.
  intros Hr HE rs rest fuel p Hrs H Hrest Hf. cbn [toks] in *. rewrite <- app_assoc in H. rewrite length_app in Hf.
  apply (HE ((op, f) :: rs) rest fuel p); [by constructor|done|done|lia].
Qed.

(** Each level of the grammar parses each command. *)
Lemma parses_all v : wf v -> parsesE v /\ parsesP v /\ parsesB v /\ parsesL v.
Proof.
  induction v as [args|c IH op f|l IHl r IHr|l IHl r IHr|c IH]; intros Hv.
  - assert (HE := parsesE_exec args Hv). assert (HP := parsesP_of_E _ HE eq_refl). assert (HB := parsesB_of_P _ HP eq_refl).
    assert (HL := parsesL_of_B _ HB eq_refl). done.
  - destruct Hv as [Hc Hr]. destruct (IH Hc) as (HE0 & _). assert (HE := parsesE_redir c op f Hr HE0).
    assert (HP := parsesP_of_E _ HE eq_refl). assert (HB := parsesB_of_P _ HP eq_refl). assert (HL := parsesL_of_B _ HB eq_refl). done.
  - destruct Hv as [Hl Hr]. destruct (IHl Hl) as (HE0 & _), (IHr Hr) as (_ & HP0 & _). assert (HP := parsesP_pipe l r HE0 HP0).
    assert (HB := parsesB_of_P _ HP eq_refl). assert (HL := parsesL_of_B _ HB eq_refl).
    assert (HE := parsesE_of_L _ HL eq_refl). done.
  - destruct Hv as [Hl Hr]. destruct (IHl Hl) as (_ & _ & HB0 & _), (IHr Hr) as (_ & _ & _ & HL0). assert (HL := parsesL_list l r HB0 HL0).
    assert (HE := parsesE_of_L _ HL eq_refl). assert (HP := parsesP_of_E _ HE eq_refl). assert (HB := parsesB_of_P _ HP eq_refl). done.
  - destruct (IH Hv) as (_ & _ & HB0 & _). assert (HB := parsesB_back c HB0). assert (HL := parsesL_of_B _ HB eq_refl).
    assert (HE := parsesE_of_L _ HL eq_refl). assert (HP := parsesP_of_E _ HE eq_refl). done.
Qed.
End Parsers.

(** ** The words once they end in a NUL *)

(** [t] is the buffer with some characters that belong to no word set to NUL. *)
Definition nulled (t : list Z) : Prop := length t = length s /\ forall i, t !! i = s !! i \/ (t !! i = Some 0 /\ ~ wordchar (at_ s i)).

Lemma nulled_insert t w x : nulled t -> holds w x -> nulled (<[sp_eq w := 0]> t) /\ (<[sp_eq w := 0]> t) !! sp_eq w = Some 0.
Proof.
  intros [Hl Ht] (Hx & He & Hes & _ & Hn). assert (Hlt : (sp_eq w < length t)%nat) by (rewrite Hl; unfold s; rewrite length_app; cbn; unfold es in *; lia).
  split; [|by apply list_lookup_insert_eq]. split; [by rewrite length_insert|]. intros i. destruct (decide (i = sp_eq w)) as [->|Hi].
  - right. by rewrite list_lookup_insert_eq.
  - rewrite list_lookup_insert_ne by done. apply Ht.
Qed.

Fixpoint ended (t : list Z) (c : cmd) : Prop :=
  match c with
  | EXEC argv => Forall (fun w => t !! sp_eq w = Some 0) argv
  | REDIR c r => ended t c /\ t !! sp_eq (rd_file r) = Some 0
  | PIPE l r | LIST l r => ended t l /\ ended t r
  | BACK c => ended t c
  end.

Definition more_nuls (t t' : list Z) : Prop := forall i, t !! i = Some 0 -> t' !! i = Some 0.

Lemma more_nuls_insert t i : more_nuls t (<[i := 0]> t).
Proof.
  intros j Hj. destruct (decide (i = j)) as [->|]; [|by rewrite list_lookup_insert_ne]. apply list_lookup_insert_eq. by apply lookup_lt_Some in Hj.
Qed.

Lemma more_nuls_trans t t' t'' : more_nuls t t' -> more_nuls t' t'' -> more_nuls t t''.
Proof. intros H1 H2 i Hi. auto. Qed.

Lemma ended_more t t' c : ended t c -> more_nuls t t' -> ended t' c.
Proof. intros H Hm. induction c; cbn [ended] in *; try naive_solver. by eapply List.Forall_impl; [|exact H]; intros w Hw; apply Hm. Qed.

Lemma nul_args ws xs t :
  Forall2 holds ws xs -> nulled t -> let t' := foldl (fun t w => <[sp_eq w := 0]> t) t ws in nulled t' /\ more_nuls t t' /\ ended t' (EXEC ws).
Proof.
  intros H. revert t. induction H as [|w x ws xs Hw Hws IH]; intros t Ht; cbn [foldl ended]; [split_and!; [done|by intros i|constructor]|].
  destruct (nulled_insert t w x Ht Hw) as [Ht1 Hz]. destruct (IH _ Ht1) as (Ht' & Hm & He). cbn zeta in *. split_and!; [done| |].
  - eapply more_nuls_trans; [apply more_nuls_insert|exact Hm].
  - constructor; [by apply Hm|done].
Qed.

Lemma nulterminate_ok c v t : reads c v -> nulled t -> nulled (nulterminate c t) /\ more_nuls t (nulterminate c t) /\ ended (nulterminate c t) c.
Proof.
  intros H. revert t. induction H as [ws xs Hws|c v r op x Hc IH [Hr _]|c1 c2 v1 v2 H1 IH1 H2 IH2|c1 c2 v1 v2 H1 IH1 H2 IH2|c v H IH];
    intros t Ht; cbn [nulterminate ended].
  - by apply (nul_args ws xs).
  - destruct (IH t Ht) as (Ht1 & Hm1 & He1). destruct (nulled_insert _ _ _ Ht1 Hr) as [Ht2 Hz]. assert (Hi := more_nuls_insert (nulterminate c t) (sp_eq (rd_file r))).
    split_and!; [done|by eapply more_nuls_trans|by eapply ended_more|done].
  - destruct (IH1 t Ht) as (Ht1 & Hm1 & He1), (IH2 _ Ht1) as (Ht2 & Hm2 & He2). split_and!; [done|by eapply more_nuls_trans|by eapply ended_more|done].
  - destruct (IH1 t Ht) as (Ht1 & Hm1 & He1), (IH2 _ Ht1) as (Ht2 & Hm2 & He2). split_and!; [done|by eapply more_nuls_trans|by eapply ended_more|done].
  - by apply IH.
Qed.

Lemma ctext_word x r : Forall wordchar x -> ctext (x ++ 0 :: r) = x.
Proof. induction 1 as [|c x (Hc & _) Hx IH]; [done|]. cbn [app ctext]. by rewrite (proj2 (Z.eqb_neq c 0)), IH. Qed.

Lemma word_ok t w x : holds w x -> nulled t -> t !! sp_eq w = Some 0 -> word t w = x.
Proof.
  intros ([_ Hx] & He & Hes & Htk & _) [Hl Ht] Hz. unfold word.
  assert (Hi : forall i c, x !! i = Some c -> t !! (sp_q w + i)%nat = Some c).
  { intros i c Hc. assert (Hci : wordchar c) by (by eapply Forall_lookup_1). assert (Hlt := lookup_lt_Some _ _ _ Hc).
    rewrite <- Htk, lookup_take_lt, lookup_drop in Hc by done. assert (Hs : s !! (sp_q w + i)%nat = Some c) by (unfold s; by apply lookup_app_l_Some).
    destruct (Ht (sp_q w + i)%nat) as [->|[_ Hn]]; [done|]. destruct Hn. rewrite at_line by lia. by rewrite (drop_S line c) by done. }
  assert (Ed : drop (sp_q w) t = x ++ drop (length x) (drop (sp_q w) t)).
  { rewrite <- (take_drop (length x) (drop (sp_q w) t)) at 1. f_equal. apply list_eq. intros i.
    destruct (decide (i < length x)%nat) as [Hlt|Hge].
    - destruct (lookup_lt_is_Some_2 x i Hlt) as [c Hc]. rewrite lookup_take_lt, lookup_drop, Hc by done. by apply Hi.
    - rewrite lookup_take_ge by lia. symmetry. apply lookup_ge_None_2. lia. }
  rewrite Ed, drop_drop, <- He, (drop_S t 0) by done. by apply ctext_word.
Qed.

Lemma value_ok c v t : reads c v -> nulled t -> ended t c -> value t c = v.
Proof.
  intros H Ht. induction H as [ws xs Hws|c v r op x Hc IH [Hr Hop]|c1 c2 v1 v2 H1 IH1 H2 IH2|c1 c2 v1 v2 H1 IH1 H2 IH2|c v H IH]; cbn [value ended]; intros He.
  - f_equal. induction Hws as [|w x ws xs Hw Hws IH]; [done|]. apply Forall_cons in He as [Hz He]. cbn. by rewrite (word_ok t w x), IH.
  - destruct He as [He Hz]. cbn [fst snd] in *. by rewrite IH, Hop, (word_ok t _ x).
  - destruct He. by rewrite IH1, IH2.
  - destruct He. by rewrite IH1, IH2.
  - by rewrite IH.
Qed.

Lemma parsecmd_value `{W : Sys} v w0 :
  wf v -> spells (toks 0 v) line -> strlen s = es -> exists c buf, parsecmd s w0 = Done (c, buf) w0 /\ value buf c = v.
Proof.
  intros Hv Hs Hl. assert (H0 : here 0 (toks 0 v ++ [])) by (split; [lia|by rewrite app_nil_r]).
  destruct (parses_all w0 v Hv) as (_ & _ & _ & HL). destruct (HL [] (parse_fuel s) 0%nat H0) as (c & p & E & H1 & Hc); [by left| |].
  { apply here_length in H0. rewrite length_app in H0. unfold parse_fuel. lia. }
  unfold parsecmd. rewrite Hl, (ubind_done _ _ _ _ _ E). unfold peek.
  destruct (skip_here p [] H1) as (H2 & Ez & _). set (p' := skip_blanks s (es - p) p) in *.
  assert (Ep : p' = es).
  { destruct H2 as [Hp' H2]. rewrite at_line in Ez by done. apply spells_nonzero in H2 as [E0|]; [|done].
    apply (f_equal length) in E0. rewrite length_drop in E0. cbn in E0. unfold es in *. lia. }
  rewrite (proj2 (Nat.eqb_eq p' es) Ep). cbn [negb]. eexists _, _. split; [reflexivity|].
  destruct (nulterminate_ok c v s Hc) as (Hn & _ & He); [split; [done|by left]|]. by apply value_ok.
Qed.
End Line.

Lemma spells_strlen l t junk : spells l t -> strlen (t ++ 0 :: junk) = length t.
Proof.
  assert (Hword : forall w t, Forall wordchar w -> strlen (t ++ 0 :: junk) = length t -> strlen ((w ++ t) ++ 0 :: junk) = length (w ++ t)).
  { intros w t' Hw Ht. induction Hw as [|c w (Hc & _) _ IH]; [done|]. cbn [app strlen length]. unfold truth. rewrite (proj2 (Z.eqb_neq c 0)), IH by done. done. }
  assert (Hone : forall c t, c <> 0 -> strlen (t ++ 0 :: junk) = length t -> strlen ((c :: t) ++ 0 :: junk) = length (c :: t)).
  { intros c t' Hc Ht. cbn [app strlen length]. unfold truth. rewrite (proj2 (Z.eqb_neq c 0)), Ht by done. done. }
  induction 1 as [|c l t Hc Hs IH|w l t [_ Hw] _ Hs IH|c l t Hc Hs IH|l t _ Hs IH|l t Hs IH]; [done| |by apply Hword| | |].
  - apply Hone; [|done]. intros ->. unfold whitespace in Hc. rewrite !elem_of_cons, elem_of_nil in Hc. lia.
  - apply Hone; [|done]. by apply op_char in Hc as (? & _).
  - by apply Hone.
  - apply Hone; [done|]. by apply Hone.
Qed.

(** Check a spelling character by character. *)
Ltac spell :=
  repeat first
    [ apply sp_end
    | apply sp_op; [by apply (bool_decide_unpack _)|]
    | apply sp_gtgt
    | apply sp_gt; [done|]
    | apply sp_blank; [by apply (bool_decide_unpack _)|]
    | match goal with |- spells (Word ?w :: _) _ => apply (sp_word w); [by apply (bool_decide_unpack _)|by apply (bool_decide_unpack _)|] end ].

(** C14: the parser reads back every command: from any line that spells a command's tokens, with
    any blanks between them, parsecmd returns that command, its words NUL-terminated in the
    buffer, and writes no error. *)
Theorem parse_print `{W : Sys} v line junk (w : world) :
  wf v -> spells (toks 0 v) line ->
  exists c buf, parsecmd (line ++ 0 :: junk) w = Done (c, buf) w /\ value buf c = v.
Proof. intros Hv Hs. apply parsecmd_value; [done|done|]. by eapply spells_strlen. Qed.

(** A background list of a pipeline and a command, then a redirected command. *)
Definition demo_tree : tree :=
  TList (TBack (TList (TPipe (TExec [str "ls"; str "-l"]) (TRedir (TExec [str "grep"; str "x"]) 62 (str "out"))) (TExec [str "echo"; str "a"])))
        (TRedir (TExec [str "cat"]) 60 (str "in")).

Definition no_input : @world stdio_world := ([], []).

Lemma parse_print_witness :
  exists c buf, @parsecmd stdio_world (str "(ls  -l|grep x> out;echo a )& ; cat <in" ++ [10] ++ 0 :: str "rest") no_input = Done (c, buf) no_input /\ value buf c = demo_tree.
Proof.
  refine (@parse_print stdio_world demo_tree (str "(ls  -l|grep x> out;echo a )& ; cat <in" ++ [10]) (str "rest") no_input _ _).
  - cbn [wf demo_tree]. unfold is_redir, MAXARGS. split_and!; cbn [fst snd length]; try lia; by apply (bool_decide_unpack _).
  - vm_compute. spell.
Defined.
