(* ===== verification/Programs.v ===== *)
(** * The small user programs

    ls, ln, rm, mkdir, kill, init, zombie and helloworld (user/), the programs that exercise
    fork, the file system, co_yield and memsize (forktest.c, stressfs.c, co_test.c,
    memsize_test.c), and the random system-call generator of grind.c. *)

From S2P Require Import Prelude Bytes UserSys Ulib Umalloc.
From Stdlib Require Import ZArith Lia.
From stdpp Require Import base numbers list strings.

#[local] Open Scope Z_scope.
#[local] Open Scope user_scope.

(** struct stat (kernel/stat.h). *)
Record stat_t := Stat { st_dev : Z; st_ino : Z; st_type : Z; st_nlink : Z; st_size : Z }.

Definition decode_stat (d : list Z) : stat_t :=
  Stat (i32 (get32 0 d)) (get32 4 d) (i16 (get16 8 d)) (i16 (get16 10 d)) (get64 16 d).

Definition UDIRSIZ : nat := 14.

(** The offset after the last slash at or before [p]. *)
Fixpoint after_slash (path : list Z) (p : nat) : nat :=
  if deref (drop p path) =? 47 then S p
  else match p with O => O | S p' => after_slash path p' end.

(** The name printed and the static buffer. *)
Definition fmtname (buf path : list Z) : list Z * list Z :=
  let p := after_slash path (strlen path) in
  let n := strlen (drop p path) in
  if (UDIRSIZ <=? n)%nat then (ctext (drop p path), buf)
  else
    let buf := put_bytes 0 (take n (drop p path)) buf in
    let buf := put_bytes n (memset 32 (UDIRSIZ - n)) buf in
    (ctext buf, buf).

Section Programs.
Context `{W : Sys}.

Definition helloworld_main : U unit := printf (str "Hello World xv6" ++ [10]) [] ;; exit 0.

Definition zombie_main : U unit :=
  do pid <- ures_val Sfork;
  (if 0 <? pid then ures_val (Ssleep 5) else uret 0) ;;
  exit 0.

Fixpoint kill_args (args : list (list Z)) : U unit :=
  match args with
  | [] => exit 0
  | a :: args' => ures_val (Skill (atoi a)) ;; kill_args args'
  end.

Definition kill_main (argv : list (list Z)) : U unit :=
  if (length argv <? 2)%nat then fprintf 2 (str "usage: kill pid..." ++ [10]) [] ;; exit 1
  else kill_args (tail argv).

Definition ln_main (argv : list (list Z)) : U unit :=
  match argv with
  | [_; old; new] =>
      do k <- ures_val (Slink old new);
      (if k <? 0 then fprintf 2 (str "link %s %s: failed" ++ [10]) [VStr (Some old); VStr (Some new)] else uret tt) ;;
      exit 0
  | _ => fprintf 2 (str "Usage: ln old new" ++ [10]) [] ;; exit 1
  end.

Fixpoint mkdir_args (args : list (list Z)) : U unit :=
  match args with
  | [] => exit 0
  | a :: args' =>
      do k <- ures_val (Smkdir a);
      if k <? 0 then fprintf 2 (str "mkdir: %s failed to create" ++ [10]) [VStr (Some a)] ;; exit 0
      else mkdir_args args'
  end.

Definition mkdir_main (argv : list (list Z)) : U unit :=
  if (length argv <? 2)%nat then fprintf 2 (str "Usage: mkdir files..." ++ [10]) [] ;; exit 1
  else mkdir_args (tail argv).

Fixpoint rm_args (args : list (list Z)) : U unit :=
  match args with
  | [] => exit 0
  | a :: args' =>
      do k <- ures_val (Sunlink a);
      if k <? 0 then fprintf 2 (str "rm: %s failed to delete" ++ [10]) [VStr (Some a)] ;; exit 0
      else rm_args args'
  end.

Definition rm_main (argv : list (list Z)) : U unit :=
  if (length argv <? 2)%nat then fprintf 2 (str "Usage: rm files..." ++ [10]) [] ;; exit 1
  else rm_args (tail argv).

(** ** ls *)

(** The entries of an open directory; the static buffer afterwards. *)
Fixpoint ls_dir (fuel : nat) (fd : Z) (path nbuf : list Z) : U (list Z) :=
  match fuel with
  | O => unofuel
  | S fuel' =>
      do r <- read fd 16;
      if negb (fst r =? 16) then uret nbuf else
      if get16 0 (snd r) =? 0 then ls_dir fuel' fd path nbuf else
      let buf := path ++ [47] ++ get_bytes 2 14 (snd r) ++ [0] in
      do s <- stat buf;
      if fst s <? 0 then
        printf (str "ls: cannot stat %s" ++ [10]) [VStr (Some buf)] ;; ls_dir fuel' fd path nbuf
      else
        let st := decode_stat (snd s) in
        let '(name, nbuf) := fmtname nbuf buf in
        printf (str "%s %d %d %d" ++ [10]) [VStr (Some name); VInt (st_type st); VInt (st_ino st); VInt (st_size st)] ;;
        ls_dir fuel' fd path nbuf
  end.

Definition ls (fuel : nat) (path nbuf : list Z) : U (list Z) :=
  do fd <- ures_val (Sopen path 0);
  if fd <? 0 then fprintf 2 (str "ls: cannot open %s" ++ [10]) [VStr (Some path)] ;; uret nbuf else
  do s <- syscall_ (Sfstat fd);
  if fst s <? 0 then
    fprintf 2 (str "ls: cannot stat %s" ++ [10]) [VStr (Some path)] ;; ures_val (Sclose fd) ;; uret nbuf
  else
    let st := decode_stat (snd s) in
    do nbuf <-
      (if (st_type st =? 3) || (st_type st =? 2) then
         let '(name, nbuf) := fmtname nbuf path in
         printf (str "%s %d %d %l" ++ [10]) [VStr (Some name); VInt (st_type st); VInt (st_ino st); VInt (st_size st)] ;;
         uret nbuf
       else if st_type st =? 1 then
         if 512 <? Z.of_nat (strlen path) + 1 + 14 + 1 then printf (str "ls: path too long" ++ [10]) [] ;; uret nbuf
         else ls_dir fuel fd (ctext path) nbuf
       else uret nbuf);
    ures_val (Sclose fd) ;; uret nbuf.

Fixpoint ls_args (fuel : nat) (args : list (list Z)) (nbuf : list Z) : U unit :=
  match args with
  | [] => exit 0
  | a :: args' => do nbuf' <- ls fuel a nbuf; ls_args fuel args' nbuf'
  end.

Definition ls_main (fuel : nat) (argv : list (list Z)) : U unit :=
  let nbuf := replicate (S UDIRSIZ) 0 in
  if (length argv <? 2)%nat then ls fuel (str ".") nbuf ;; exit 0
  else ls_args fuel (tail argv) nbuf.

(** ** init *)

(** Wait for the shell, or for an orphan that exited. *)
Fixpoint init_wait (fuel : nat) (pid : Z) : U unit :=
  match fuel with
  | O => unofuel
  | S fuel' =>
      do wpid <- ures_val Swait;
      if wpid =? pid then uret tt
      else if wpid <? 0 then printf (str "init: wait returned an error" ++ [10]) [] ;; exit 1
      else init_wait fuel' pid
  end.

Fixpoint init_loop (fuel : nat) : U unit :=
  match fuel with
  | O => unofuel
  | S fuel' =>
      printf (str "init: starting sh" ++ [10]) [] ;;
      do pid <- ures_val Sfork;
      if pid <? 0 then printf (str "init: fork failed" ++ [10]) [] ;; exit 1 else
      if pid =? 0 then
        ures_val (Sexec (str "sh") [str "sh"]) ;; printf (str "init: exec sh failed" ++ [10]) [] ;; exit 1
      else init_wait fuel' pid ;; init_loop fuel'
  end.

(** CONSOLE is device 1. *)
Definition init_main (fuel : nat) : U unit :=
  do fd <- ures_val (Sopen (str "console") 2);
  (if fd <? 0 then ures_val (Smknod (str "console") 1 0) ;; ures_val (Sopen (str "console") 2) else uret 0) ;;
  ures_val (Sdup 0) ;;
  ures_val (Sdup 0) ;;
  init_loop fuel.

(** ** forktest *)

Definition print (s : list Z) : U unit := write 1 (take (strlen s) s) ;; uret tt.

(** The forks from [n] on, [k] of them left: the number that succeeded. *)
Fixpoint fork_all (k : nat) (n : Z) : U Z :=
  match k with
  | O => uret n
  | S k' =>
      do pid <- ures_val Sfork;
      if pid <? 0 then uret n else
      if pid =? 0 then exit 0 else fork_all k' (n + 1)
  end.

Fixpoint wait_all (n : nat) : U unit :=
  match n with
  | O => uret tt
  | S n' =>
      do k <- ures_val Swait;
      if k <? 0 then print (str "wait stopped early" ++ [10]) ;; exit 1 else wait_all n'
  end.

Definition forktest : U unit :=
  print (str "fork test" ++ [10]) ;;
  do n <- fork_all 1000 0;
  (if n =? 1000 then print (str "fork claimed to work N times!" ++ [10]) ;; exit 1 else uret tt) ;;
  wait_all (Z.to_nat n) ;;
  do k <- ures_val Swait;
  (if negb (k =? -1) then print (str "wait got too many" ++ [10]) ;; exit 1 else uret tt) ;;
  print (str "fork test OK" ++ [10]).

Definition forktest_main : U unit := forktest ;; exit 0.

(** ** stressfs *)

(** The loop that forks until it is in a parent: the index it stops at. *)
Fixpoint stress_forks (k : nat) (i : Z) : U Z :=
  match k with
  | O => uret i
  | S k' => do pid <- ures_val Sfork; if 0 <? pid then uret i else stress_forks k' (i + 1)
  end.

Fixpoint repeat_call (n : nat) (c : syscall) : U unit :=
  match n with
  | O => uret tt
  | S n' => ures_val c ;; repeat_call n' c
  end.

(** O_CREATE|O_RDWR is 514. *)
Definition stressfs_main : U unit :=
  printf (str "stressfs starting" ++ [10]) [] ;;
  let data := memset 97 512 in
  do i <- stress_forks 4 0;
  printf (str "write %d" ++ [10]) [VInt i] ;;
  let path := <[8%nat := u8 (48 + i)]> (str "stressfs0") in
  do fd <- ures_val (Sopen path 514);
  repeat_call 20 (Swrite fd data) ;;
  ures_val (Sclose fd) ;;
  printf (str "read" ++ [10]) [] ;;
  do fd <- ures_val (Sopen path 0);
  repeat_call 20 (Sread fd 512) ;;
  ures_val (Sclose fd) ;;
  ures_val Swait ;;
  exit 0.

(** ** co_test *)

Fixpoint sleep_forever (fuel : nat) : U unit :=
  match fuel with
  | O => unofuel
  | S fuel' => ures_val (Ssleep 100) ;; sleep_forever fuel'
  end.

Definition run_error_tests (fuel : nat) : U unit :=
  do v <- ures_val (Sco_yield 9999 1);
  printf (str "invalid pid: %d" ++ [10]) [VInt v] ;;
  do me <- ures_val Sgetpid;
  do v <- ures_val (Sco_yield me 1);
  printf (str "self yield: %d" ++ [10]) [VInt v] ;;
  do pid <- ures_val Sfork;
  (if pid <? 0 then printf (str "fork failed" ++ [10]) [] ;; exit 1 else uret tt) ;;
  (if pid =? 0 then sleep_forever fuel else uret tt) ;;
  ures_val (Ssleep 1) ;;
  ures_val (Skill pid) ;;
  do v <- ures_val (Sco_yield pid 1);
  printf (str "killed target: %d" ++ [10]) [VInt v] ;;
  ures_val Swait ;; uret tt.

Fixpoint co_loop (fuel : nat) (msg : list Z) (pid value : Z) : U unit :=
  match fuel with
  | O => unofuel
  | S fuel' =>
      do v <- ures_val (Sco_yield pid value);
      printf msg [VInt v] ;;
      co_loop fuel' msg pid value
  end.

Definition co_test_main (fuel : nat) : U unit :=
  run_error_tests fuel ;;
  do pid1 <- ures_val Sgetpid;
  do pid2 <- ures_val Sfork;
  if pid2 <? 0 then printf (str "fork failed" ++ [10]) [] ;; exit 1 else
  if pid2 =? 0 then co_loop fuel (str "Child received: %d" ++ [10]) pid1 1
  else co_loop fuel (str "parent received: %d" ++ [10]) pid2 2.

(** ** memsize_test *)

(** [base] is the allocator's static header and [h] the program's memory. *)
Definition memsize_test_main (base : Z) (fuel : nat) (h : heap) : U unit :=
  do v <- ures_val Smemsize;
  printf (str "memory before allocation: %d bytes" ++ [10]) [VInt v] ;;
  do (buf, h) <- malloc base fuel 20000 h;
  (if buf =? 0 then printf (str "malloc failed" ++ [10]) [] ;; exit 1 else uret tt) ;;
  do v <- ures_val Smemsize;
  printf (str "memory after allocation: %d bytes" ++ [10]) [VInt v] ;;
  do h <- free fuel buf h;
  do v <- ures_val Smemsize;
  printf (str "memory after free: %d bytes" ++ [10]) [VInt v] ;;
  exit 0.

End Programs.

(** ** The generator of grind.c *)

(** A long. *)
Definition i64 (x : Z) : Z := (x + 9223372036854775808) mod 18446744073709551616 - 9223372036854775808.

(** The result and the new context; long arithmetic is 64-bit. *)
Definition do_rand (ctx : Z) : Z * Z :=
  let x := i64 (u64 (ctx mod 2147483646 + 1)) in
  let hi := Z.quot x 127773 in
  let lo := Z.rem x 127773 in
  let x := i64 (16807 * lo - 2836 * hi) in
  let x := if x <? 0 then i64 (x + 2147483647) else x in
  let x := i64 (x - 1) in
  (i32 x, u64 x).

Definition rand (rand_next : Z) : Z * Z := do_rand rand_next.

Lemma i64_small x : -9223372036854775808 <= x < 9223372036854775808 -> i64 x = x.
Proof. intros. unfold i64. rewrite Z.mod_small; lia. Qed.

(** 16807 x is no multiple of the prime 2^31 - 1. *)
Lemma park_miller_nonzero x : 1 <= x < 2147483647 -> (16807 * x) mod 2147483647 <> 0.
Proof.
  intros Hx Hm. apply Z.mod_divide in Hm; [|lia].
  apply Z.gauss in Hm; [|reflexivity]. apply Z.divide_pos_le in Hm; lia.
Qed.

(** [do_rand] computes the Park-Miller step 16807 x mod 2^31 - 1 without leaving the range of
    a 64-bit long: from any context the result is in [0, 2^31 - 3], it is the new context, and
    with the shift by one undone it is the product modulo 2^31 - 1. *)
Theorem do_rand_park_miller ctx :
  let '(r, ctx') := do_rand ctx in
  0 <= r <= 2147483645 /\ ctx' = r /\ r + 1 = (16807 * (ctx mod 2147483646 + 1)) mod 2147483647.
Proof.
  unfold do_rand. assert (Hb := Z.mod_pos_bound ctx 2147483646 ltac:(lia)). set (x := ctx mod 2147483646 + 1) in *.
  assert (Hx : 1 <= x < 2147483647) by lia. rewrite (u64_small x), (i64_small x), Z.quot_div_nonneg, Z.rem_mod_nonneg by lia.
  assert (Hdm := Z.div_mod x 127773 ltac:(lia)). assert (Hlo := Z.mod_pos_bound x 127773 ltac:(lia)).
  assert (Hhi : 0 <= x / 127773 <= 16807) by zlia. set (hi := x / 127773) in *. set (lo := x mod 127773) in *.
  assert (Ey : 16807 * lo - 2836 * hi = 16807 * x - 2147483647 * hi) by lia.
  rewrite (i64_small (16807 * lo - 2836 * hi)) by lia. rewrite Ey.
  assert (Hn := park_miller_nonzero x Hx).
  destruct (Z.ltb_spec (16807 * x - 2147483647 * hi) 0) as [Hneg|Hpos].
  - rewrite (i64_small (16807 * x - 2147483647 * hi + 2147483647)) by lia. rewrite i64_small, i32_small, u64_small by lia.
    assert (Em : 16807 * x - 2147483647 * hi + 2147483647 = (16807 * x) mod 2147483647) by (apply (Z.mod_unique _ _ (hi - 1)); lia). lia.
  - assert (Em : 16807 * x - 2147483647 * hi = (16807 * x) mod 2147483647) by (apply (Z.mod_unique _ _ hi); lia).
    rewrite !i64_small by lia. rewrite i32_small, u64_small by lia. lia.
Qed.
